(* ===== verification/_CoqProject ===== *)
-Q . S2P
Prelude.v
Spinlock.v
Sleeplock.v
Pipe.v
Blocks.v
Bio.v
BioSpec.v
BioOps.v
BioTheorems.v
Ide.v
IdeTheorems.v
Bytes.v
Strings.v
Log.v
LogSpec.v
LogOps.v
LogCrash.v
Txn.v
Demo.v
LogTheorems.v
Fs.v
FsSpec.v
FsInode.v
FsFile.v
FsWrite.v
FsDir.v
FsPath.v
FsTheorems.v
Mkfs.v
MkfsSpec.v
MkfsOps.v
MkfsTheorems.v
File.v
FileSpec.v
FileTheorems.v
Console.v
Kbd.v
ConsoleSpec.v
ConsoleTheorems.v
Printf.v
Syscall.v
Trap.v
TrapTheorems.v
Fcntl.v
Sysfile.v
SysTheorems.v
ProcDefs.v
Runqueue.v
Memory.v
Kalloc.v
Vm.v
VmSpec.v
VmOps.v
VmTheorems.v
Exec.v
ExecSpec.v
ExecOps.v
ExecStack.v
ExecTheorems.v
Schedlog.v
Proc.v
ProcSpec.v
ProcLife.v
ProcSched.v
ProcTheorems.v
Mp.v
Apic.v
Segment.v
Startup.v
Boot.v
Report.v
Sysproc.v
Rate.v
Grep.v
Tools.v
Umalloc.v
Sh.v
ShSpec.v
ShTheorems.v
ShMain.v
