(* ===== verification/Prelude.v ===== *)
(** * A verified model of an xv6 kernel with scheduler monitoring

    The repository is xv6 for the x86 with three additions: one run queue for each CPU with work
    stealing, a log of scheduling events in the kernel that a system call prints, and a workload
    ([bufwrite]) whose processes are held back until all of them exist.  This library translates
    the C code of [src/src] to functions of Rocq and proves what the parts of the system do.  It
    follows the code function by function and keeps its names.

    ** How code is modelled

    A function of the kernel is of type [M S A]: from a state to an outcome [res S A].  An
    outcome is a result with the new state, a panic, a spin on a lock that is not free, undefined
    behaviour of C, a loop out of fuel, or [Swtch s k]: the code has given the CPU up in state [s],
    and goes on as [k] in whatever state it is resumed.  [wp] is the weakest precondition of an
    outcome, with a postcondition for results and one for switches.  The context of the kernel
    ([kctx]) keeps the sequence of sleeps, with channel and lock, and of wake-ups, so that a theorem
    says on what a process sleeps and who is woken; what a sleeper does on each resumption is a
    predicate on its continuation ([awaits], [waits_ticks], [boots]).  Integers are [Z] values,
    wrapped ([u8], [u16], [u32], [s32]) where C wraps.  Pointers into arrays are indices, pointers
    into physical memory addresses.  Components are joined by classes ([HasCtx], [HasSleep],
    [KEnv], [ConsEnv]) and by [inside], which runs code of one state in a larger one.

    ** Parts

    - Locks.  [Spinlock.v]: [spinlock.c], [mycpu], [pushcli], [popcli]; its module [Smp] runs
      [acquire] and [release] one memory access at a time on any number of CPUs and proves mutual
      exclusion by induction over its steps.  [Sleeplock.v]: [sleeplock.c].
    - Disk.  [Ide.v], [IdeTheorems.v]: [ide.c] over the registers of a controller, which
      transfers a sector only for the command it was given and then asks for an interrupt; requests
      are served in order and their sleepers woken.  [Bio.v] is [bio.c] over [memide.c]; [Blocks.v] is the interface of a buffer
      cache, and [BioSpec.v], [BioOps.v], [BioTheorems.v] prove that the linked list of buffers
      implements it.
    - Log.  [Log.v] is [log.c] over any buffer cache.  [LogSpec.v], [LogOps.v], [LogCrash.v] and
      [LogTheorems.v] show that a commit is atomic for a crash after any of its disk writes
      and of those of the recovery, and leaves the log empty on the disk.
      [Txn.v] is the interface that the log offers to the file system.
    - File system.  [Fs.v] is [fs.c] over any instance of [Txn].  [FsSpec.v] to [FsTheorems.v] go
      from blocks and inodes to file contents, directories and paths.  [Mkfs.v] to
      [MkfsTheorems.v]: [mkfs.c] builds an image that meets the invariants of [Fs.v] and holds its
      input files.  [Bytes.v] has the fields of structures on disk.
    - Files and system calls.  [File.v], [FileSpec.v], [FileTheorems.v]: [file.c] and [pipealloc].
      [Pipe.v]: the ring buffer of [pipe.c].  [Syscall.v]: argument fetching of [syscall.c].
      [Sysfile.v], [SysTheorems.v]: [sysfile.c].  [Sysproc.v]: [sysproc.c] and [sys_waitfork].
      [Fcntl.v]: [fcntl.h].
    - Processes.  [ProcDefs.v] has the data of [proc.h].  [Runqueue.v] proves the run queues and
      work stealing against lists.  [Schedlog.v] is the event log.  [Proc.v] is the rest of
      [proc.c], with both schedulers; [ProcSpec.v], [ProcLife.v], [ProcSched.v] and
      [ProcTheorems.v] have its theorems.  [Report.v] is what [sys_bufread], [procdump] and [panic]
      print, and proves that the tables of the event log can be read back.
    - Memory.  [Memory.v], [Kalloc.v]: [kalloc.c].  [Vm.v] is [vm.c] on page tables in memory;
      [VmSpec.v], [VmOps.v], [VmTheorems.v] relate them to a map of pages and to the ownership of
      every page.  [Exec.v] to [ExecTheorems.v]: [exec.c], on file system, memory and process
      together.  [Strings.v]: [string.c] and the string functions of [ulib.c].
    - Console and traps.  [Console.v], [ConsoleSpec.v], [ConsoleTheorems.v]: [console.c].  [Kbd.v]:
      [kbd.c], [uart.c].  [Trap.v], [TrapTheorems.v]: [trap.c] and the dispatch of system calls.
    - Start of the machine.  [Boot.v]: [bootmain.c].  [Mp.v]: [mp.c].  [Apic.v]: [ioapic.c],
      [picirq.c], [lapic.c].  [Segment.v]: descriptors, [seginit], [kvmalloc], [tvinit].
      [Startup.v]: [startothers] of [main.c], with the loop that reads each processor's flag.
    - User programs.  [Sh.v], [ShSpec.v], [ShTheorems.v], [ShMain.v]: [sh.c], with [runcmd] as the
      tree of its forks, waits and execs and the descriptors open at each.  [Grep.v]: [grep.c].
      [Umalloc.v]: [umalloc.c].  [Printf.v]: [printf.c].  [Tools.v]: [cat.c], [wc.c], [ls.c],
      [echo.c], [init.c].  [Rate.v]: [scripts/rate.py], which evaluates the printed log;
      its [Evaluate] joins it to [Report.v].

    ** What the theorems show

    - Safety: mutual exclusion of spin locks on any number of CPUs; atomic commits; the argument
      checks keep the kernel inside user memory; only the system call's gate is open to users.
    - Refinement: buffer cache, run queues, page allocator, pipes and console input implement
      abstract values (maps and lists) on every branch.
    - Functional behaviour: [namex], [writei], [dirlink], [filewrite], [exec], [fork], [exit],
      [wait], [sleep], [wakeup], both scheduling loops, [copyuvm], [mkfs], [bootmain], [mpinit].
    - Errors: [exec], [fork], [pipe], [setupkvm] and [copyuvm] give back what they took when they
      fail.
    - Round trips and equivalence: file contents, printed numbers and event tables read back; the
      shell's parser and the matcher of [grep] decide their languages.
    - Liveness and termination: requests of the disk are served, [sys_sleep] ends, [malloc] returns,
      [startothers] starts every processor, [sys_waitfork] lets processes pass.
    - A number of theorems state where the code does not do what it means to; their names say so
      ([writelog_overflow], [kill_strands_sleeper], [mpinit_unknown_entry_hangs] and others).

    ** Bounds and fuel

    The sizes of [param.h] are constants, and theorems hold at these values or for tables of any
    size.  A loop that is bounded by data takes its number of turns from the data.  Where the bound
    is not structural, fuel is a number that is shown to be enough: the turns around the ring in
    [malloc], one for each eight bytes of a table and two more in [mpinit], the polls of a device that are still
    to come in [idewait] and [waitdisk].  Loops that wait for others ([sleep], [wait], [scheduler],
    [sys_waitfork]) end in [Swtch] or take any fuel.

    ** Assumptions

    Nothing is assumed as an axiom.  Hypotheses of theorems stand for the hardware (what device
    reads return) and for the rest of the kernel (classes with laws).  Where [fork] and [exit] call
    the file system, the hypothesis is that the calls of this one run return ([dup_returns],
    [close_returns]), and the theorem says which calls these are.  Witnesses apply the theorems
    to concrete machines, among them the small disk of [Demo.v].

    ** Not modelled

    - Assembly ([bootasm.S], [entry.S], [entryother.S], [initcode.S], [swtch.S], [trapasm.S],
      [usys.S], [vectors.S]): code on registers; a context switch is the outcome [Swtch].
    - [main] and [mpenter]: calls of the initialisation functions one after the other, which are
      modelled with their components on states of their own.
    - Interleavings inside a system call: a kernel thread runs alone between switches, with the
      locks it takes as part of the state; only [Spinlock.Smp] interleaves CPUs.
    - [usertests.c], [forktest.c], [stressfs.c], [bufwrite.c] and the programs of one system call
      ([ln.c], [rm.c], [kill.c], [mkdir.c], [bufread.c], [waitfork.c], [zombie.c], [hello.c]): tests,
      workloads and wrappers without logic of their own.
    - The plot scripts: calls of a plotting library. *)

From Stdlib Require Import ZArith Lia.
From stdpp Require Export base tactics numbers strings gmap list.

#[export] Set Default Goal Selector "!".
Global Open Scope Z_scope.

(** ** Machine integers

    C integers are [Z] values kept at their width by explicit wrapping. *)

Definition u8 (z : Z) : Z := z mod 2 ^ 8.
Definition u16 (z : Z) : Z := z mod 2 ^ 16.
Definition u32 (z : Z) : Z := z mod 2 ^ 32.
Definition s32 (z : Z) : Z :=
  let m := z mod 2 ^ 32 in if m <? 2 ^ 31 then m else m - 2 ^ 32.
Definition s8 (z : Z) : Z :=
  let m := z mod 2 ^ 8 in if m <? 2 ^ 7 then m else m - 2 ^ 8.
Definition s16 (z : Z) : Z :=
  let m := z mod 2 ^ 16 in if m <? 2 ^ 15 then m else m - 2 ^ 16.

Definition is_u32 (z : Z) : Prop := 0 <= z < 2 ^ 32.
Definition is_byte (z : Z) : Prop := 0 <= z < 2 ^ 8.

Lemma u32_small z : is_u32 z -> u32 z = z.
Proof. unfold is_u32, u32. intros. by apply Z.mod_small. Qed.

Lemma u32_range z : is_u32 (u32 z).
Proof. unfold is_u32, u32. apply Z.mod_pos_bound. lia. Qed.

Lemma u8_range z : is_byte (u8 z).
Proof. unfold is_byte, u8. apply Z.mod_pos_bound. lia. Qed.

Lemma u8_small z : is_byte z -> u8 z = z.
Proof. unfold is_byte, u8. intros. by apply Z.mod_small. Qed.

Lemma s32_small z : - 2 ^ 31 <= z < 2 ^ 31 -> s32 z = z.
Proof.
  unfold s32. intros H. destruct (Z.ltb_spec (z mod 2 ^ 32) (2 ^ 31));
    Z.div_mod_to_equations; lia.
Qed.

Lemma s32_range z : - 2 ^ 31 <= s32 z < 2 ^ 31.
Proof.
  unfold s32. pose proof (Z.mod_pos_bound z (2 ^ 32) ltac:(lia)).
  destruct (Z.ltb_spec (z mod 2 ^ 32) (2 ^ 31)); lia.
Qed.

Lemma u32_s32 z : u32 (s32 z) = u32 z.
Proof.
  unfold u32, s32. destruct (Z.ltb_spec (z mod 2 ^ 32) (2 ^ 31));
    Z.div_mod_to_equations; lia.
Qed.

Lemma u32_add_l a b : u32 (u32 a + b) = u32 (a + b).
Proof. unfold u32. by rewrite Zplus_mod_idemp_l. Qed.

Lemma u32_add_r a b : u32 (a + u32 b) = u32 (a + b).
Proof. unfold u32. by rewrite Zplus_mod_idemp_r. Qed.

Lemma u32_close a b : - 2 ^ 32 < a - b < 2 ^ 32 -> u32 a = u32 b -> a = b.
Proof. unfold u32. change (2 ^ 32) with 4294967296. intros. Z.div_mod_to_equations. lia. Qed.

Lemma u32_sub_l a b : u32 (u32 a - b) = u32 (a - b).
Proof. unfold u32. by rewrite Zminus_mod_idemp_l. Qed.

Lemma u32_sub_r a b : u32 (a - u32 b) = u32 (a - b).
Proof. unfold u32. by rewrite Zminus_mod_idemp_r. Qed.

(** Facts on widths, for [auto]. *)
Create HintDb widths.
#[export] Hint Resolve u32_range u8_range s32_range : widths.

(** ** Outcomes of kernel code

    A piece of kernel code runs on a state [S].  It returns, panics, spins for
    ever on a lock that another CPU holds, hits undefined behaviour of C, runs
    out of the fuel that bounds an unbounded loop, or gives the CPU up with
    [swtch] and is resumed later on whatever state the other threads have left
    behind. *)

Inductive res (S A : Type) : Type :=
| Ret (a : A) (s : S)
| Panic (msg : string)
| Spin (l : string * Z)
| UB (what : string)
| Fuel
| Swtch (s : S) (k : S -> res S A).
Arguments Ret {S A} a s.
Arguments Panic {S A} msg.
Arguments Spin {S A} l.
Arguments UB {S A} what.
Arguments Fuel {S A}.
Arguments Swtch {S A} s k.

Fixpoint rbind {S A B} (r : res S A) (f : A -> S -> res S B) : res S B :=
  match r with
  | Ret a s => f a s
  | Panic m => Panic m
  | Spin l => Spin l
  | UB w => UB w
  | Fuel => Fuel
  | Swtch s k => Swtch s (fun s' => rbind (k s') f)
  end.

Definition M (S A : Type) : Type := S -> res S A.

Definition ret {S A} (a : A) : M S A := fun s => Ret a s.
Definition bind {S A B} (m : M S A) (f : A -> M S B) : M S B :=
  fun s => rbind (m s) f.
Definition panic {S A} (msg : string) : M S A := fun _ => Panic msg.
Definition ub {S A} (what : string) : M S A := fun _ => UB what.
Definition nofuel {S A} : M S A := fun _ => Fuel.
Definition gets {S A} (f : S -> A) : M S A := fun s => Ret (f s) s.
Definition modify {S} (f : S -> S) : M S unit := fun s => Ret tt (f s).
Definition when {S} (b : bool) (m : M S unit) : M S unit :=
  if b then m else ret tt.

Declare Scope kernel_scope.
Delimit Scope kernel_scope with K.
Global Open Scope kernel_scope.

Notation "x <- m ;; f" := (bind m (fun x => f))
  (at level 100, m at next level, right associativity) : kernel_scope.
Notation "m ;; f" := (bind m (fun _ => f))
  (at level 100, right associativity) : kernel_scope.

(** [for] over a list of indices, the body run on each in turn. *)
Fixpoint forM {S I} (l : list I) (body : I -> M S unit) : M S unit :=
  match l with
  | [] => ret tt
  | i :: l => body i ;; forM l body
  end.

(** [run] expands the monad so that a straight-line prefix computes. *)
Ltac run := cbv [bind ret gets modify when panic ub nofuel]; cbn beta iota; cbn [rbind].
Tactic Notation "run" "in" hyp(H) :=
  cbv [bind ret gets modify when panic ub nofuel] in H; cbn beta iota in H; cbn [rbind] in H.

Lemma bind_Ret {S A B} (m : M S A) (f : A -> M S B) s a s' :
  m s = Ret a s' -> bind m f s = f a s'.
Proof. intros H. unfold bind. by rewrite H. Qed.

Lemma bind_gets {S A B} (g : S -> A) (f : A -> M S B) s : bind (gets g) f s = f (g s) s.
Proof. done. Qed.

Lemma bind_modify {S B} (g : S -> S) (f : unit -> M S B) s : bind (modify g) f s = f tt (g s).
Proof. done. Qed.

(** [steps] goes through reads and writes of the state. *)
#[export] Hint Rewrite @bind_gets @bind_modify : steps.
Ltac steps := autorewrite with steps.

Lemma bind_Panic {S A B} (m : M S A) (f : A -> M S B) s msg :
  m s = Panic msg -> bind m f s = Panic msg.
Proof. intros H. unfold bind. by rewrite H. Qed.

Lemma bind_Swtch {S A B} (m : M S A) (f : A -> M S B) s s' k :
  m s = Swtch s' k -> bind m f s = Swtch s' (fun t => rbind (k t) f).
Proof. intros H. unfold bind. by rewrite H. Qed.

Lemma bind_inv {S A B} (m : M S A) (f : A -> M S B) s b s' :
  bind m f s = Ret b s' -> exists a s1, m s = Ret a s1 /\ f a s1 = Ret b s'.
Proof.
  unfold bind. destruct (m s) as [a s1| | | | |] eqn:E; cbn; intros H; try discriminate.
  by exists a, s1.
Qed.

(** *** Outcomes as predicates

    [wp r Q W]: [r] returns with [Q], or gives the CPU up with [W]. *)
Definition wp {S A} (r : res S A) (Q : A -> S -> Prop) (W : S -> (S -> res S A) -> Prop) : Prop :=
  match r with
  | Ret a s => Q a s
  | Swtch s k => W s k
  | _ => False
  end.

(** Code that may not give the CPU up. *)
Definition stays {S A} : S -> (S -> res S A) -> Prop := fun _ _ => False.

Lemma wp_bind {S A B} (m : M S A) (f : A -> M S B) s Q W :
  wp (m s) (fun a s' => wp (f a s') Q W) (fun s' k => W s' (fun t => rbind (k t) f)) ->
  wp (bind m f s) Q W.
Proof. unfold bind. by destruct (m s). Qed.

Lemma wp_step {S A B} (m : M S A) (f : A -> M S B) s Q W :
  wp (m s) (fun a s' => wp (f a s') Q W) stays -> wp (bind m f s) Q W.
Proof. intros H. apply wp_bind. by destruct (m s). Qed.

Lemma wp_Ret {S A} (r : res S A) Q : wp r Q stays -> exists a s, r = Ret a s /\ Q a s.
Proof. destruct r; cbn; try done. eauto. Qed.

Lemma wp_Swtch {S A} (r : res S A) W : wp r (fun _ _ => False) W -> exists s k, r = Swtch s k /\ W s k.
Proof. destruct r; cbn; try done. eauto. Qed.

Lemma wp_mono {S A} (r : res S A) (Q Q' : A -> S -> Prop) W W' :
  wp r Q W -> (forall a s, Q a s -> Q' a s) -> (forall s k, W s k -> W' s k) -> wp r Q' W'.
Proof. destruct r; cbn; eauto. Qed.

Lemma wp_eq {S A} (r : res S A) a s Q W : r = Ret a s -> Q a s -> wp r Q W.
Proof. by intros ->. Qed.

Lemma bind_wp {S A B} (m : M S A) (f : A -> M S B) s a s' r :
  wp (m s) (fun a' t => a' = a /\ t = s') stays -> f a s' = r -> bind m f s = r.
Proof. unfold bind. destruct (m s); cbn; try done. by intros [-> ->]. Qed.

(** An invariant of a loop over a list. *)
Lemma wp_forM {S I} (l : list I) (body : I -> M S unit) (J : nat -> S -> Prop) s :
  J 0%nat s ->
  (forall n i t, l !! n = Some i -> J n t -> wp (body i t) (fun _ t' => J (Datatypes.S n) t') stays) ->
  wp (forM l body s) (fun _ t => J (length l) t) stays.
Proof.
  revert J s. induction l as [|i l IH]; intros J s H0 Hb; cbn [forM length]; [done|].
  apply wp_step. eapply wp_mono; [by apply (Hb 0%nat)| |done]. cbn. intros _ t Ht.
  apply (IH (fun n => J (Datatypes.S n))); [done|]. intros n j t' Hj. by apply Hb.
Qed.

Lemma rbind_assoc {S A B C} (r : res S A) (f : A -> S -> res S B) (g : B -> S -> res S C) :
  (forall s k, r <> Swtch s k) -> rbind (rbind r f) g = rbind r (fun a s => rbind (f a s) g).
Proof. destruct r; try done. intros H. by destruct (H s k). Qed.

Lemma forM_app_Ret {S I} (l1 l2 : list I) (body : I -> M S unit) s s' :
  forM l1 body s = Ret tt s' -> forM (l1 ++ l2) body s = forM l2 body s'.
Proof.
  revert s. induction l1 as [|i l1 IH]; intros s; cbn; [by intros [= ->]|].
  intros ([] & s1 & H1 & H2)%bind_inv. rewrite (bind_Ret _ _ _ _ _ H1). by apply IH.
Qed.

(** *** Code of a component run inside a larger state *)
Section Lens.
Context {T S : Type} (get : T -> S) (put : S -> T -> T).

Fixpoint lift_in {A} (r : res S A) (t : T) : res T A :=
  match r with
  | Ret a s => Ret a (put s t)
  | Panic m => Panic m
  | Spin l => Spin l
  | UB w => UB w
  | Fuel => Fuel
  | Swtch s k => Swtch (put s t) (fun t' => lift_in (k (get t')) t')
  end.
Definition inside {A} (m : M S A) : M T A := fun t => lift_in (m (get t)) t.

Lemma wp_inside {A} (m : M S A) t Q W :
  wp (m (get t)) (fun a s => Q a (put s t)) stays -> wp (inside m t) Q W.
Proof. unfold inside. by destruct (m (get t)). Qed.

Lemma inside_Ret {A} (m : M S A) t a s : m (get t) = Ret a s -> inside m t = Ret a (put s t).
Proof. intros H. unfold inside. by rewrite H. Qed.
End Lens.

(** ** Lists *)

Lemma alter_insert_at {A} (f : A -> A) (l : list A) i x :
  l !! i = Some x -> alter f i l = <[i := f x]> l.
Proof.
  intros H. apply list_eq. intros j. destruct (decide (i = j)) as [->|Hne].
  - rewrite list_lookup_alter_eq, H, list_lookup_insert_eq; [done|]. by eapply lookup_lt_Some.
  - by rewrite list_lookup_alter_ne, list_lookup_insert_ne.
Qed.

Lemma alter_at_ext {A} (f g : A -> A) (l : list A) i x :
  l !! i = Some x -> f x = g x -> alter f i l = alter g i l.
Proof. intros H E. rewrite !(alter_insert_at _ l i x H). by rewrite E. Qed.

Lemma alter_at_id {A} (f : A -> A) (l : list A) i x :
  l !! i = Some x -> f x = x -> alter f i l = l.
Proof. intros H E. rewrite (alter_insert_at _ l i x H), E. by apply list_insert_id. Qed.

Lemma elem_of_concat {A} (x : A) (ls : list (list A)) :
  x ∈ concat ls <-> exists l, l ∈ ls /\ x ∈ l.
Proof.
  induction ls as [|l ls IH]; cbn; [set_solver|]. rewrite elem_of_app, IH.
  setoid_rewrite elem_of_cons. naive_solver.
Qed.

Lemma concat_perm {A} (l1 l2 : list (list A)) : l1 ≡ₚ l2 -> concat l1 ≡ₚ concat l2.
Proof.
  induction 1; cbn; [done|by f_equiv| |by etrans].
  by rewrite !(assoc_L (++)), (Permutation_app_comm x y).
Qed.

(** Replacing one of the lists of a concatenation. *)
Lemma concat_split {A} (ls : list (list A)) c l :
  ls !! c = Some l -> concat ls ≡ₚ l ++ concat (delete c ls).
Proof. intros H. exact (concat_perm _ _ (delete_Permutation _ _ _ H)). Qed.

Lemma concat_insert {A} (ls : list (list A)) c l l' :
  ls !! c = Some l -> concat (<[c := l']> ls) ≡ₚ l' ++ concat (delete c ls).
Proof.
  intros H. assert (Hlt := lookup_lt_Some _ _ _ H).
  rewrite (concat_split (<[c := l']> ls) c l') by (by apply list_lookup_insert_eq).
  apply Permutation_app_head, concat_perm. by rewrite !delete_take_drop, take_insert_ge, drop_insert_lt by lia.
Qed.

Lemma Forall_at {A} (P : A -> Prop) (l : list A) x : Forall P l -> x ∈ l -> P x.
Proof. intros H. revert x. induction H; set_solver. Qed.

Lemma length_below (l : list nat) n :
  NoDup l -> Forall (fun i => (i < n)%nat) l -> (length l <= n)%nat.
Proof.
  intros Hn Hf. rewrite <- (length_seq n 0). apply submseteq_length, NoDup_submseteq; [done|].
  intros x Hx. apply elem_of_seq. apply (Forall_at _ _ _ Hf) in Hx. lia.
Qed.

Lemma elem_of_delete_ne {A} (l : list A) c d x : l !! d = Some x -> c <> d -> x ∈ delete c l.
Proof.
  intros Hx Hne. apply list_elem_of_lookup. destruct (decide (d < c)%nat).
  - exists d. by rewrite list_lookup_delete_lt.
  - exists (pred d). rewrite list_lookup_delete_ge by lia. by replace (S (pred d)) with d by lia.
Qed.

(** A list in which [f] has been applied to the first [j] elements. *)
Definition mapto {A} (f : A -> A) (j : nat) (l : list A) : list A := (f <$> take j l) ++ drop j l.

Lemma mapto_0 {A} (f : A -> A) l : mapto f 0 l = l.
Proof. done. Qed.

Lemma mapto_all {A} (f : A -> A) l : mapto f (length l) l = f <$> l.
Proof. unfold mapto. by rewrite take_ge, drop_ge, app_nil_r. Qed.

Lemma mapto_at {A} (f : A -> A) j l : mapto f j l !! j = l !! j.
Proof.
  unfold mapto. destruct (decide (j < length l)%nat).
  - rewrite lookup_app_r by (rewrite length_fmap, length_take; lia).
    rewrite length_fmap, length_take, lookup_drop. f_equal. lia.
  - rewrite !lookup_ge_None_2; [done|lia|]. rewrite length_app, length_fmap, length_take, length_drop. lia.
Qed.

Lemma mapto_lookup {A} (f : A -> A) j l i :
  mapto f j l !! i = if decide (i < j)%nat then f <$> l !! i else l !! i.
Proof.
  unfold mapto. case_decide.
  - destruct (decide (i < length l)%nat).
    + rewrite lookup_app_l by (rewrite length_fmap, length_take; lia).
      by rewrite list_lookup_fmap, lookup_take_lt.
    + rewrite !lookup_ge_None_2; [done|lia|]. rewrite length_app, length_fmap, length_take, length_drop. lia.
  - destruct (decide (j < length l)%nat).
    + rewrite lookup_app_r by (rewrite length_fmap, length_take; lia).
      rewrite length_fmap, length_take, lookup_drop. f_equal. lia.
    + rewrite !lookup_ge_None_2; [done|lia|]. rewrite length_app, length_fmap, length_take, length_drop. lia.
Qed.

Lemma mapto_step {A} (f : A -> A) j l x :
  l !! j = Some x -> <[j := f x]> (mapto f j l) = mapto f (S j) l.
Proof.
  intros H. apply list_eq. intros i. assert (Hj := lookup_lt_Some _ _ _ H).
  assert (Hl : length (mapto f j l) = length l).
  { unfold mapto. rewrite length_app, length_fmap, length_take, length_drop. lia. }
  destruct (decide (j = i)) as [->|Hne].
  - rewrite list_lookup_insert_eq by lia. rewrite mapto_lookup, decide_True by lia. by rewrite H.
  - rewrite list_lookup_insert_ne by done. rewrite !mapto_lookup. do 2 case_decide; (done || lia).
Qed.

Lemma mapto_skip {A} (f : A -> A) j l x :
  l !! j = Some x -> f x = x -> mapto f (S j) l = mapto f j l.
Proof.
  intros H Hx. rewrite <- (mapto_step _ _ _ _ H), Hx. apply list_insert_id. by rewrite mapto_at.
Qed.

Lemma length_mapto {A} (f : A -> A) j l : length (mapto f j l) = length l.
Proof. unfold mapto. rewrite length_app, length_fmap, length_take, length_drop. lia. Qed.
