(* ===== verification/Spinlock.v ===== *)
(** * CPUs, interrupt nesting and spin locks

    Models [spinlock.c] and the part of [proc.c] that finds the running CPU:
    [mycpu], [cpuid], [mycpuid], [pushcli], [popcli], [holding], [acquire],
    [release], [initlock] and [getcallerpcs].  A [kctx] holds what these
    functions read and write: the id of the local APIC of the executing CPU and
    its interrupt flag, the [cpus] table, the spin locks, and the sleeps and
    wake-ups so far, latest first.  [Smp] runs
    [acquire] and [release] instruction by instruction on any number of CPUs. *)

From Stdlib Require Import ZArith Lia.
From S2P Require Import Prelude.

(** A lock or a sleep channel is named by the C object it is: the object's name
    and, where the object is an array element or on the heap, its index. *)
Notation lockid := (string * Z)%type.
Notation chan := (string * Z)%type.

(** [struct cpu]; the descriptor tables and the saved scheduler context are
    hardware state. *)
Record cpu := mkcpu {
  apicid : Z;
  started : Z;
  ncli : Z;
  intena : bool;
  cproc : option nat
}.

(** [struct spinlock], less the debugging fields [name] and [pcs]. *)
Record spinlock := mklock { locked : Z; lkcpu : option nat }.

(** What the components do with sleep channels: a thread sleeps on [ch] with the lock [l] given up,
    or the threads that sleep on [ch] are woken. *)
Inductive chan_op := Slept (ch : chan) (l : lockid) | Woke (ch : chan).

(** [chan_ops] has the latest operation first. *)
Record kctx := mkctx {
  lapic_id : Z;
  eflags_IF : bool;
  cpus : list cpu;
  locks : gmap lockid spinlock;
  chan_ops : list chan_op
}.

Definition set_IF (b : bool) (k : kctx) : kctx :=
  mkctx (lapic_id k) b (cpus k) (locks k) (chan_ops k).
Definition set_cpus (cs : list cpu) (k : kctx) : kctx :=
  mkctx (lapic_id k) (eflags_IF k) cs (locks k) (chan_ops k).
Definition set_locks (ls : gmap lockid spinlock) (k : kctx) : kctx :=
  mkctx (lapic_id k) (eflags_IF k) (cpus k) ls (chan_ops k).
Definition set_chan_ops (w : list chan_op) (k : kctx) : kctx :=
  mkctx (lapic_id k) (eflags_IF k) (cpus k) (locks k) w.

(** A lock that is not in the map is zeroed memory, an unlocked lock. *)
Definition zero_lock : spinlock := mklock 0 None.
Definition lk_get (l : lockid) (k : kctx) : spinlock := default zero_lock (locks k !! l).
Definition lk_set (l : lockid) (v : spinlock) (k : kctx) : kctx :=
  set_locks (if (locked v =? 0) && bool_decide (lkcpu v = None)
             then delete l (locks k) else <[l := v]> (locks k)) k.

(** ** [mycpu], [cpuid] *)

Fixpoint find_apic (id : Z) (cs : list cpu) (i : nat) : option nat :=
  match cs with
  | [] => None
  | c :: cs => if apicid c =? id then Some i else find_apic id cs (S i)
  end.

Definition mycpu : M kctx nat :=
  b <- gets eflags_IF ;;
  if (b : bool) then panic "mycpu called with interrupts enabled" else
  id <- gets lapic_id ;;
  cs <- gets cpus ;;
  match find_apic id cs 0 with
  | Some i => ret i
  | None => panic "unknown apicid"
  end.

(** [mycpu() - cpus] *)
Definition cpuid : M kctx nat := mycpu.

Definition get_cpu {A} (f : cpu -> A) (i : nat) : M kctx A := fun k =>
  match cpus k !! i with
  | Some c => Ret (f c) k
  | None => UB "cpus out of range"
  end.
Definition upd_cpu (f : cpu -> cpu) (i : nat) : M kctx unit :=
  modify (fun k => set_cpus (alter f i (cpus k)) k).

Definition set_ncli (f : Z -> Z) (c : cpu) : cpu :=
  mkcpu (apicid c) (started c) (f (ncli c)) (intena c) (cproc c).
Definition set_intena (b : bool) (c : cpu) : cpu :=
  mkcpu (apicid c) (started c) (ncli c) b (cproc c).
Definition set_cproc (p : option nat) (c : cpu) : cpu :=
  mkcpu (apicid c) (started c) (ncli c) (intena c) p.

(** ** [pushcli], [popcli] *)

Definition cli : M kctx unit := modify (set_IF false).
Definition sti : M kctx unit := modify (set_IF true).

Definition pushcli : M kctx unit :=
  eflags <- gets eflags_IF ;;
  cli ;;
  i <- mycpu ;;
  n <- get_cpu ncli i ;;
  when (n =? 0) (j <- mycpu ;; upd_cpu (set_intena eflags) j) ;;
  j <- mycpu ;;
  upd_cpu (set_ncli (fun n => n + 1)) j.

Definition popcli : M kctx unit :=
  b <- gets eflags_IF ;;
  if (b : bool) then panic "popcli - interruptible" else
  i <- mycpu ;;
  upd_cpu (set_ncli (fun n => n - 1)) i ;;
  n <- get_cpu ncli i ;;
  if n <? 0 then panic "popcli" else
  j <- mycpu ;;
  n <- get_cpu ncli j ;;
  j <- mycpu ;;
  e <- get_cpu intena j ;;
  when ((n =? 0) && e) sti.

Definition mycpuid : M kctx nat :=
  pushcli ;;
  c <- cpuid ;;
  popcli ;;
  ret c.

(** [myproc], the process slot the CPU runs *)
Definition myproc : M kctx (option nat) :=
  pushcli ;;
  c <- mycpu ;;
  p <- get_cpu cproc c ;;
  popcli ;;
  ret p.

(** ** Locks *)

Definition initlock (l : lockid) : M kctx unit := modify (lk_set l zero_lock).

Definition holding (l : lockid) : M kctx bool :=
  pushcli ;;
  lk <- gets (lk_get l) ;;
  r <- (if locked lk =? 0 then ret false
        else me <- mycpu ;; ret (bool_decide (lkcpu lk = Some me))) ;;
  popcli ;;
  ret r.

(** [xchg(&lk->locked, 1)]: the old value, exchanged in one step. *)
Definition xchg_locked (l : lockid) (v : Z) : M kctx Z :=
  old <- gets (fun k => locked (lk_get l k)) ;;
  modify (fun k => lk_set l (mklock v (lkcpu (lk_get l k))) k) ;;
  ret old.

(** The loop [while (xchg(&lk->locked, 1) != 0);] either leaves at once, or
    spins until another CPU stores 0. *)
Definition acquire (l : lockid) : M kctx unit :=
  pushcli ;;
  h <- holding l ;;
  if (h : bool) then panic "acquire" else
  old <- xchg_locked l 1 ;;
  if negb (old =? 0) then (fun _ => Spin l) else
  me <- mycpu ;;
  modify (fun k => lk_set l (mklock (locked (lk_get l k)) (Some me)) k).

Definition release (l : lockid) : M kctx unit :=
  h <- holding l ;;
  if negb h then panic "release" else
  modify (fun k => lk_set l (mklock (locked (lk_get l k)) None) k) ;;
  modify (fun k => lk_set l (mklock 0 (lkcpu (lk_get l k))) k) ;;
  popcli.

Arguments mycpu : simpl never.
Arguments pushcli : simpl never.
Arguments popcli : simpl never.
Arguments myproc : simpl never.
Arguments mycpuid : simpl never.
Arguments holding : simpl never.
Arguments acquire : simpl never.
Arguments release : simpl never.

(** ** [getcallerpcs]

    The saved program counters found by following the [%ebp] chain from
    [(uint * )v - 2]; [load a] is the 32-bit word at address [a].  The result is
    the ten entries of [pcs]. *)
Definition KERNBASE : Z := 0x80000000.

Fixpoint pcs_walk (load : Z -> Z) (n : nat) (ebp : Z) : list Z :=
  match n with
  | O => []
  | S n =>
      if (ebp =? 0) || (ebp <? KERNBASE) || (ebp =? 0xffffffff)
      then replicate (S n) 0
      else load (u32 (ebp + 4)) :: pcs_walk load n (load ebp)
  end.

Definition getcallerpcs (load : Z -> Z) (v : Z) : list Z := pcs_walk load 10 (u32 (v - 8)).

(** ** Closed forms

    [ctx_ok k i c]: CPU [i] runs, its record is [c], its nesting count and its
    interrupt flag agree, and, outside every [pushcli], [intena] is the flag
    (which any [pushcli]/[popcli] pair establishes). *)

Definition cpu_at (k : kctx) (i : nat) (c : cpu) : Prop :=
  find_apic (lapic_id k) (cpus k) 0 = Some i /\ cpus k !! i = Some c.

Definition ctx_ok (k : kctx) (i : nat) (c : cpu) : Prop :=
  cpu_at k i c /\ 0 <= ncli c /\
  (0 < ncli c -> eflags_IF k = false) /\ (ncli c = 0 -> intena c = eflags_IF k).

Definition push_cpu (b : bool) (c : cpu) : cpu :=
  mkcpu (apicid c) (started c) (ncli c + 1) (if ncli c =? 0 then b else intena c) (cproc c).
Definition pop_cpu (c : cpu) : cpu := set_ncli (fun n => n - 1) c.

(** What [acquire] and [release] of lock [l] by CPU [i] do to the context. *)
Definition k_push (i : nat) (k : kctx) : kctx :=
  mkctx (lapic_id k) false (alter (push_cpu (eflags_IF k)) i (cpus k)) (locks k) (chan_ops k).
Definition k_pop (i : nat) (k : kctx) : kctx :=
  mkctx (lapic_id k)
    (match cpus k !! i with Some c => (ncli c =? 1) && intena c | None => false end)
    (alter pop_cpu i (cpus k)) (locks k) (chan_ops k).
Definition k_acq (l : lockid) (i : nat) (k : kctx) : kctx :=
  set_locks (<[l := mklock 1 (Some i)]> (locks k)) (k_push i k).
Definition k_rel (l : lockid) (i : nat) (k : kctx) : kctx :=
  k_pop i (set_locks (delete l (locks k)) k).

Ltac ks := cbv [set_IF set_cpus set_locks set_chan_ops set_ncli set_intena set_cproc];
  cbn [rbind negb andb orb lapic_id eflags_IF cpus locks chan_ops apicid started ncli intena cproc].

Lemma find_apic_bound id cs i0 i : find_apic id cs i0 = Some i -> (i0 <= i < i0 + length cs)%nat.
Proof.
  revert i0. induction cs as [|c cs IH]; intros i0; cbn; [done|].
  destruct (apicid c =? id); intros H; [simplify_eq; lia|]. apply IH in H. lia.
Qed.

Lemma find_apic_map id cs i0 (f : cpu -> cpu) j :
  (forall c, apicid (f c) = apicid c) ->
  find_apic id (alter f j cs) i0 = find_apic id cs i0.
Proof.
  intros Hf. revert i0 j. induction cs as [|c cs IH]; intros i0 j; [done|].
  destruct j as [|j]; cbn [alter list_alter find_apic]; [by rewrite Hf|].
  destruct (apicid c =? id); [done|]. apply IH.
Qed.

Lemma cpu_at_alter k i c f b ls w :
  cpu_at k i c -> (forall c, apicid (f c) = apicid c) ->
  cpu_at (mkctx (lapic_id k) b (alter f i (cpus k)) ls w) i (f c).
Proof.
  intros [H1 H2] Hf. split; cbn; [by rewrite find_apic_map|].
  by rewrite list_lookup_alter_eq, H2.
Qed.

Lemma mycpu_ok k i c : cpu_at k i c -> eflags_IF k = false -> mycpu k = Ret i k.
Proof. intros [H1 H2] H. unfold mycpu. run. rewrite H. cbn. by rewrite H1. Qed.

Lemma get_cpu_ok {A} (f : cpu -> A) k i c : cpus k !! i = Some c -> get_cpu f i k = Ret (f c) k.
Proof. intros H. unfold get_cpu. by rewrite H. Qed.

Lemma pushcli_ok k i c : cpu_at k i c -> pushcli k = Ret tt (k_push i k).
Proof.
  intros H. destruct k as [id b cs ls w]. unfold pushcli, cli, upd_cpu. run. ks.
  assert (H' : cpu_at (mkctx id false cs ls w) i c) by done.
  rewrite (mycpu_ok _ _ _ H') by done. cbn [rbind]. rewrite (get_cpu_ok ncli _ i c) by apply H.
  cbn [rbind]. destruct H as [_ H]; cbn in H.
  destruct (Z.eqb_spec (ncli c) 0) as [E|E]; ks.
  - rewrite (mycpu_ok _ _ _ H') by done. ks.
    erewrite mycpu_ok; [|apply (cpu_at_alter _ _ c _ _ _ _ H'); done|done]. ks.
    unfold k_push; ks. f_equal. f_equal. rewrite list_alter_alter_eq.
    apply (alter_at_ext _ _ _ _ c H). unfold push_cpu; cbn. by rewrite E.
  - rewrite (mycpu_ok _ _ _ H') by done. ks. unfold k_push; ks. f_equal. f_equal.
    apply (alter_at_ext _ _ _ _ c H). unfold push_cpu; cbn. apply Z.eqb_neq in E. by rewrite E.
Qed.

Lemma popcli_ok k i c :
  cpu_at k i c -> eflags_IF k = false -> 0 < ncli c -> popcli k = Ret tt (k_pop i k).
Proof.
  intros H HIF Hn. destruct k as [id b cs ls w]; cbn in HIF; subst b.
  unfold popcli, upd_cpu. run. ks.
  rewrite (mycpu_ok _ _ _ H) by done. ks.
  assert (H' := cpu_at_alter _ _ _ (set_ncli (fun n => n - 1)) false ls w H (fun _ => eq_refl)).
  unfold set_ncli in H'; cbn in H'. rewrite (get_cpu_ok ncli _ i _ (proj2 H')). ks.
  destruct (Z.ltb_spec (ncli c - 1) 0); [lia|].
  rewrite (mycpu_ok _ _ _ H') by done. ks.
  rewrite (get_cpu_ok ncli _ i _ (proj2 H')). ks.
  rewrite (mycpu_ok _ _ _ H') by done. ks.
  rewrite (get_cpu_ok intena _ i _ (proj2 H')). ks.
  unfold k_pop, pop_cpu; ks. destruct H as [_ H]; cbn in H. rewrite H.
  replace (ncli c - 1 =? 0) with (ncli c =? 1) by (destruct (Z.eqb_spec (ncli c) 1); lia).
  by destruct ((ncli c =? 1) && intena c).
Qed.

Lemma ctx_ok_push' k i c :
  cpu_at k i c -> 0 <= ncli c -> ctx_ok (k_push i k) i (push_cpu (eflags_IF k) c).
Proof. intros H Hn. split; [by apply cpu_at_alter|]. cbn. lia. Qed.

Lemma ctx_ok_push k i c :
  ctx_ok k i c -> ctx_ok (k_push i k) i (push_cpu (eflags_IF k) c).
Proof. intros (H & Hn & _). by apply ctx_ok_push'. Qed.

Lemma ctx_ok_pop k i c :
  ctx_ok k i c -> 0 < ncli c -> ctx_ok (k_pop i k) i (pop_cpu c).
Proof.
  intros (H & Hn & HIF & _) Hp. split; [by apply cpu_at_alter|]. cbn.
  rewrite (proj2 H). destruct (Z.eqb_spec (ncli c) 1); cbn; split; try lia; split; intros; lia || done.
Qed.

Lemma k_pop_push k i c : ctx_ok k i c -> k_pop i (k_push i k) = k.
Proof.
  intros (H & Hn & HIF & Hs). destruct k as [id b cs ls w]. unfold k_pop, k_push; cbn in *.
  destruct H as [_ H]; cbn in H. rewrite list_lookup_alter_eq, H, list_alter_alter_eq. cbn.
  rewrite (alter_at_id _ _ _ c); [|done|].
  - f_equal. destruct (Z.eqb_spec (ncli c) 0) as [E|E].
    + by rewrite E.
    + rewrite HIF by lia. destruct (Z.eqb_spec (ncli c + 1) 1); [lia|done].
  - unfold pop_cpu, push_cpu, set_ncli; cbn. destruct c as [a st n e p]; cbn in *. f_equal; [lia|].
    destruct (Z.eqb_spec n 0); [by rewrite Hs|done].
Qed.

(** Code between a [pushcli] and its [popcli] that leaves the context alone. *)
Lemma mycpuid_ok k i c : ctx_ok k i c -> mycpuid k = Ret i k.
Proof.
  intros H. assert (Hp := ctx_ok_push _ _ _ H). unfold mycpuid, cpuid. run.
  rewrite (pushcli_ok _ _ _ (proj1 H)). cbn [rbind].
  rewrite (mycpu_ok _ _ _ (proj1 Hp)) by done. cbn [rbind].
  rewrite (popcli_ok _ _ _ (proj1 Hp)); [|done|destruct H as (_ & ? & _); cbn; lia].
  cbn [rbind]. by rewrite (k_pop_push _ _ _ H).
Qed.

Lemma myproc_ok k i c : ctx_ok k i c -> myproc k = Ret (cproc c) k.
Proof.
  intros H. assert (Hp := ctx_ok_push _ _ _ H). unfold myproc. run.
  rewrite (pushcli_ok _ _ _ (proj1 H)). cbn [rbind].
  rewrite (mycpu_ok _ _ _ (proj1 Hp)) by done. cbn [rbind].
  rewrite (get_cpu_ok cproc _ i _ (proj2 (proj1 Hp))). cbn [rbind].
  rewrite (popcli_ok _ _ _ (proj1 Hp)); [|done|destruct H as (_ & ? & _); cbn; lia].
  cbn [rbind]. by rewrite (k_pop_push _ _ _ H).
Qed.

Definition held_by (i : nat) (v : spinlock) : bool :=
  negb (locked v =? 0) && bool_decide (lkcpu v = Some i).

Lemma held_by_zero i : held_by i zero_lock = false.
Proof. done. Qed.
Lemma held_by_taken i j : held_by i (mklock 1 (Some j)) = bool_decide (i = j).
Proof. unfold held_by; cbn. apply bool_decide_ext. split; congruence. Qed.

Lemma lk_get_at l k v : locks k !! l = v -> lk_get l k = default zero_lock v.
Proof. by intros <-. Qed.

Lemma holding_ok k i c l v :
  ctx_ok k i c -> lk_get l k = v -> holding l k = Ret (held_by i v) k.
Proof.
  intros H Hv. assert (Hp := ctx_ok_push _ _ _ H). unfold holding. run.
  rewrite (pushcli_ok _ _ _ (proj1 H)). cbn [rbind].
  change (lk_get l (k_push i k)) with (lk_get l k). rewrite Hv. unfold held_by.
  assert (Hpop : popcli (k_push i k) = Ret tt k).
  { rewrite (popcli_ok _ _ _ (proj1 Hp)); [|done|destruct H as (_ & ? & _); cbn; lia].
    by rewrite (k_pop_push _ _ _ H). }
  destruct (locked v =? 0); ks.
  - by rewrite Hpop.
  - rewrite (mycpu_ok _ _ _ (proj1 Hp)) by done. ks. by rewrite Hpop.
Qed.

Lemma acquire_unsettled k i c l :
  cpu_at k i c -> 0 <= ncli c -> locks k !! l = None -> acquire l k = Ret tt (k_acq l i k).
Proof.
  intros H Hn Hl. assert (Hp := ctx_ok_push' _ _ _ H Hn). unfold acquire, xchg_locked. run.
  rewrite (pushcli_ok _ _ _ H). cbn [rbind].
  assert (Hg : lk_get l (k_push i k) = zero_lock) by (by rewrite (lk_get_at _ _ None)).
  rewrite (holding_ok _ _ _ _ _ Hp Hg). rewrite held_by_zero. ks.
  rewrite Hg. unfold lk_set. cbn [zero_lock lkcpu locked]. change (1 =? 0) with false.
  change (0 =? 0) with true. cbn [andb negb]. ks.
  erewrite mycpu_ok; [|apply Hp|done]. ks. unfold lk_get; ks.
  rewrite lookup_insert_eq; cbn [default from_option id lkcpu locked]. rewrite insert_insert_eq. done.
Qed.

Lemma acquire_ok k i c l :
  ctx_ok k i c -> locks k !! l = None -> acquire l k = Ret tt (k_acq l i k).
Proof. intros H Hl. by apply (acquire_unsettled _ _ c); [apply H|apply H|]. Qed.

(** A second [acquire] by the holder panics; one by another CPU spins. *)
Lemma acquire_held k i c l j :
  ctx_ok k i c -> locks k !! l = Some (mklock 1 (Some j)) ->
  acquire l k = if decide (i = j) then Panic "acquire" else Spin l.
Proof.
  intros H Hl. assert (Hp := ctx_ok_push _ _ _ H). unfold acquire, xchg_locked. run.
  rewrite (pushcli_ok _ _ _ (proj1 H)). cbn [rbind].
  assert (Hg : lk_get l (k_push i k) = mklock 1 (Some j)) by (by rewrite (lk_get_at _ _ (Some (mklock 1 (Some j))))).
  rewrite (holding_ok _ _ _ _ _ Hp Hg). rewrite held_by_taken. ks.
  destruct (decide (i = j)) as [->|Hne].
  - by rewrite bool_decide_eq_true_2.
  - rewrite bool_decide_eq_false_2 by congruence. ks. by rewrite Hg.
Qed.

Lemma release_ok k i c l :
  ctx_ok k i c -> 0 < ncli c -> locks k !! l = Some (mklock 1 (Some i)) ->
  release l k = Ret tt (k_rel l i k).
Proof.
  intros H Hn Hl. unfold release. run.
  assert (Hg : lk_get l k = mklock 1 (Some i)) by (by rewrite (lk_get_at _ _ _ Hl)).
  rewrite (holding_ok _ _ _ _ _ H Hg). rewrite held_by_taken.
  rewrite bool_decide_eq_true_2 by done. cbn [negb]. ks. rewrite Hg.
  unfold lk_set, lk_get; cbn [locked lkcpu]. change (1 =? 0) with false.
  change (0 =? 0) with true. cbn [andb]. ks.
  rewrite lookup_insert_eq; cbn [default from_option id lkcpu locked].
  rewrite bool_decide_eq_true_2 by done. rewrite delete_insert_eq.
  erewrite popcli_ok; [done| |by apply H|done]. by destruct H as [H _].
Qed.

Lemma release_unheld k i c l v :
  ctx_ok k i c -> lk_get l k = v -> held_by i v = false -> release l k = Panic "release".
Proof.
  intros H Hg Hv. unfold release. run. rewrite (holding_ok _ _ _ _ _ H Hg). by rewrite Hv.
Qed.

Lemma ctx_ok_acq k i c l :
  ctx_ok k i c -> ctx_ok (k_acq l i k) i (push_cpu (eflags_IF k) c).
Proof. intros H. apply (ctx_ok_push _ _ _ H). Qed.

Lemma ctx_ok_rel k i c l :
  ctx_ok k i c -> 0 < ncli c -> ctx_ok (k_rel l i k) i (pop_cpu c).
Proof. intros H Hn. by apply (ctx_ok_pop (set_locks (delete l (locks k)) k) i c). Qed.

Lemma k_rel_acq k i c l :
  ctx_ok k i c -> locks k !! l = None -> k_rel l i (k_acq l i k) = k.
Proof.
  intros H Hl. transitivity (k_pop i (k_push i k)); [|by eapply k_pop_push].
  unfold k_rel, k_acq. ks. f_equal. unfold k_push; ks. f_equal. by rewrite delete_insert_id.
Qed.

Lemma locks_acq k i l l' :
  locks (k_acq l i k) !! l' =
  if decide (l = l') then Some (mklock 1 (Some i)) else locks k !! l'.
Proof. unfold k_acq; ks. apply lookup_insert. Qed.

Lemma lk_get_acq k i l : lk_get l (k_acq l i k) = mklock 1 (Some i).
Proof. rewrite (lk_get_at _ _ (Some (mklock 1 (Some i)))); [done|]. by rewrite locks_acq, decide_True. Qed.

Lemma ncli_push b c : 0 <= ncli c -> 0 < ncli (push_cpu b c).
Proof. cbn. lia. Qed.

(** Locks released in the order they were taken. *)
Lemma k_rel_swap k i c l l' :
  ctx_ok k i c -> locks k !! l = None -> l <> l' ->
  k_rel l i (k_acq l' i (k_acq l i k)) = k_acq l' i k.
Proof.
  intros ([_ H] & Hn & HIF & Hs) Hl Hne. unfold k_rel, k_acq, k_pop, k_push. ks.
  rewrite !list_lookup_alter_eq, H. cbn [fmap option_fmap option_map]. ks.
  rewrite !list_alter_alter_eq. f_equal.
  - unfold push_cpu; cbn. destruct (Z.eqb_spec (ncli c + 1 + 1) 1); [lia|done].
  - apply (alter_at_ext _ _ _ _ c H). unfold pop_cpu, push_cpu, set_ncli; cbn. f_equal; [lia|].
    by destruct (Z.eqb_spec (ncli c + 1) 0); [lia|].
  - rewrite delete_insert_ne by congruence. by rewrite delete_insert_id.
Qed.

Lemma rel_swap_ok k i c l l' :
  ctx_ok k i c -> locks k !! l = None -> l <> l' ->
  release l (k_acq l' i (k_acq l i k)) = Ret tt (k_acq l' i k).
Proof.
  intros Hc Hl Hne. assert (H1 := ctx_ok_acq _ _ _ l Hc). assert (H2 := ctx_ok_acq _ _ _ l' H1).
  rewrite (release_ok _ _ _ _ H2); [by rewrite (k_rel_swap _ _ c)|apply ncli_push, H1|].
  by rewrite !locks_acq, decide_False, decide_True by congruence.
Qed.

(** The interrupt flag of a thread that goes on with flag [b]. *)
Definition k_settle (i : nat) (b : bool) (k : kctx) : kctx :=
  mkctx (lapic_id k) b (alter (set_intena b) i (cpus k)) (locks k) (chan_ops k).

Lemma ctx_ok_settle k i c b :
  ctx_ok k i c -> ncli c = 0 -> ctx_ok (k_settle i b k) i (set_intena b c).
Proof. intros (H & _) Hn. split; [by apply cpu_at_alter|]. cbn. rewrite Hn. split_and!; intros; lia || done. Qed.

Lemma k_acq_settle k i c b l :
  ctx_ok k i c -> ncli c = 0 ->
  set_cpus (alter (set_intena b) i (cpus (k_acq l i k))) (k_acq l i k) = k_acq l i (k_settle i b k).
Proof.
  intros ([_ H] & _) Hn. unfold k_acq, k_push, k_settle. ks. rewrite !list_alter_alter_eq. f_equal.
  apply (alter_at_ext _ _ _ _ c H). unfold push_cpu, set_intena; cbn. by rewrite Hn.
Qed.

(** [sti] followed by [acquire], outside every [pushcli]. *)
Lemma k_acq_sti k i c l :
  ctx_ok k i c -> ncli c = 0 -> k_acq l i (set_IF true k) = k_acq l i (k_settle i true k).
Proof.
  intros ([_ H] & _) Hn. unfold k_acq, k_push, k_settle. ks. rewrite !list_alter_alter_eq. f_equal.
  apply (alter_at_ext _ _ _ _ c H). unfold push_cpu; cbn. by rewrite Hn.
Qed.

(** [c->proc = p] *)
Definition k_setproc (i : nat) (p : option nat) (k : kctx) : kctx :=
  set_cpus (alter (set_cproc p) i (cpus k)) k.

Lemma k_acq_setproc l i p k : k_setproc i p (k_acq l i k) = k_acq l i (k_setproc i p k).
Proof. unfold k_setproc, k_acq, k_push. ks. by rewrite !list_alter_alter_eq. Qed.

Lemma ctx_ok_setproc k i c p : ctx_ok k i c -> ctx_ok (k_setproc i p k) i (set_cproc p c).
Proof. intros (H & H'). split; [by apply (cpu_at_alter k)|done]. Qed.

(** ** States that carry a context

    Every component's state record embeds a [kctx]; [onctx] runs a context
    operation in it. *)

Class HasCtx (S : Type) := {
  ctx : S -> kctx;
  set_ctx : kctx -> S -> S;
  ctx_set_ctx : forall k s, ctx (set_ctx k s) = k;
  set_ctx_set : forall k k' s, set_ctx k (set_ctx k' s) = set_ctx k s;
  set_ctx_ctx : forall s, set_ctx (ctx s) s = s
}.

Fixpoint liftr {S A} `{HasCtx S} (r : res kctx A) (s : S) : res S A :=
  match r with
  | Ret a k => Ret a (set_ctx k s)
  | Panic m => Panic m
  | Spin l => Spin l
  | UB w => UB w
  | Fuel => Fuel
  | Swtch k f => Swtch (set_ctx k s) (fun s' => liftr (f (ctx s')) s')
  end.

Definition onctx {S A} `{HasCtx S} (m : M kctx A) : M S A := fun s => liftr (m (ctx s)) s.

Arguments onctx : simpl never.

(** The context after a [wakeup]. *)
Definition k_wake (ch : chan) (k : kctx) : kctx := set_chan_ops (Woke ch :: chan_ops k) k.

(** The context of a thread that sleeps. *)
Definition k_slept (ch : chan) (l : lockid) (k : kctx) : kctx := set_chan_ops (Slept ch l :: chan_ops k) k.

(** The last thing that happened is that a thread went to sleep on [ch]. *)
Definition asleep_on (ch : chan) (l : lockid) (k : kctx) : Prop := List.head (chan_ops k) = Some (Slept ch l).

Lemma ctx_ok_slept ch l k i c : ctx_ok k i c -> ctx_ok (k_slept ch l k) i c.
Proof. done. Qed.

Lemma k_wake_acq ch l i k : k_wake ch (k_acq l i k) = k_acq l i (k_wake ch k).
Proof. done. Qed.

Lemma ctx_ok_wake ch k i c : ctx_ok k i c -> ctx_ok (k_wake ch k) i c.
Proof. done. Qed.

Section Lifted.
Context {S : Type} `{HasCtx S}.

Lemma onctx_Ret {A} (m : M kctx A) s a k :
  m (ctx s) = Ret a k -> onctx m s = Ret a (set_ctx k s).
Proof. intros E. unfold onctx. by rewrite E. Qed.

Lemma onctx_same {A} (m : M kctx A) s a :
  m (ctx s) = Ret a (ctx s) -> onctx m s = Ret a s.
Proof. intros E. rewrite (onctx_Ret _ _ _ _ E). by rewrite set_ctx_ctx. Qed.

Lemma onctx_Panic {A} (m : M kctx A) s msg :
  m (ctx s) = Panic msg -> onctx m s = Panic msg.
Proof. intros E. unfold onctx. by rewrite E. Qed.

Lemma acq_step s i c l :
  ctx_ok (ctx s) i c -> locks (ctx s) !! l = None ->
  onctx (acquire l) s = Ret tt (set_ctx (k_acq l i (ctx s)) s).
Proof. intros Hc Hl. by eapply onctx_Ret, acquire_ok. Qed.

(** Releasing the lock that was taken in the context [k]. *)
Lemma rel_step s' k i c l :
  ctx_ok k i c -> locks k !! l = None -> ctx s' = k_acq l i k ->
  onctx (release l) s' = Ret tt (set_ctx k s').
Proof.
  intros Hc Hl Hk. apply onctx_Ret. rewrite Hk. rewrite (release_ok _ i (push_cpu (eflags_IF k) c)).
  - by rewrite (k_rel_acq _ _ _ _ Hc Hl).
  - by apply ctx_ok_acq.
  - apply ncli_push, Hc.
  - rewrite locks_acq. by rewrite decide_True.
Qed.

Lemma wp_acq l s i c Q W :
  ctx_ok (ctx s) i c -> locks (ctx s) !! l = None ->
  Q tt (set_ctx (k_acq l i (ctx s)) s) -> wp (onctx (acquire l) s) Q W.
Proof. intros Hc Hl. apply wp_eq. by eapply acq_step. Qed.

Lemma wp_rel l s k i c Q W :
  ctx s = k_acq l i k -> ctx_ok k i c -> locks k !! l = None ->
  Q tt (set_ctx k s) -> wp (onctx (release l) s) Q W.
Proof. intros Hk Hc Hl. apply wp_eq. by eapply rel_step. Qed.

Lemma wp_myproc_ s i c Q W : ctx_ok (ctx s) i c -> Q (cproc c) s -> wp (onctx myproc s) Q W.
Proof. intros Hc. apply wp_eq. by eapply onctx_same, myproc_ok. Qed.

(** *** Sleeping and waking, as the components see it

    [sleep(chan, lk)] releases [lk], gives the CPU up, and returns with [lk] held
    again, in a state the other threads have left behind; both are recorded in [chan_ops].
    That [proc.c] does this is what [ProcTheorems.v] shows. *)
Definition sleep_on (ch : chan) (l : lockid) : M S unit :=
  onctx (release l) ;;
  modify (fun s => set_ctx (k_slept ch l (ctx s)) s) ;;
  (fun s => Swtch s (fun s' => Ret tt s')) ;;
  onctx (acquire l).

Definition wakeup_on (ch : chan) : M S unit :=
  modify (fun s => set_ctx (k_wake ch (ctx s)) s).

Lemma wp_sleep_on ch l s k i c Q W :
  ctx s = k_acq l i k -> ctx_ok k i c -> locks k !! l = None ->
  W (set_ctx (k_slept ch l k) s) (fun t => onctx (acquire l) t) ->
  wp (sleep_on ch l s) Q W.
Proof.
  intros Hk Hc Hl HW. unfold sleep_on. apply wp_step. eapply wp_rel; [done..|]. rewrite bind_modify, ctx_set_ctx, set_ctx_set. exact HW.
Qed.

(** A lock taken and released around a body that leaves the context alone. *)
Lemma locked_section {A} (body : M S A) s i c l a s' :
  ctx_ok (ctx s) i c -> locks (ctx s) !! l = None ->
  body (set_ctx (k_acq l i (ctx s)) s) = Ret a s' ->
  ctx s' = k_acq l i (ctx s) ->
  (onctx (acquire l) ;; x <- body ;; onctx (release l) ;; ret x) s =
  Ret a (set_ctx (ctx s) s').
Proof.
  intros Hc Hl Hb Hk.
  rewrite (bind_Ret _ _ _ _ _ (acq_step _ _ _ _ Hc Hl)), (bind_Ret _ _ _ _ _ Hb).
  by rewrite (bind_Ret _ _ _ _ _ (rel_step _ _ _ _ _ Hc Hl Hk)).
Qed.
End Lifted.

(** ** Mutual exclusion

    Any number of CPUs run [acquire; critical section; release] on one lock, one
    memory access per step: [holding] reads [locked] and then [cpu], [xchg]
    exchanges [locked] atomically, and [lk->cpu] is written on its own.  Each CPU
    has interrupts off from [pushcli] to [popcli], so its own steps are
    sequential. *)

Module Smp.

Inductive pc : Type :=
| Idle        (* before acquire *)
| AcqH1       (* acquire: holding reads lk->locked *)
| AcqH2       (* acquire: holding reads lk->cpu *)
| AcqXchg     (* acquire: while (xchg(&lk->locked, 1) != 0) *)
| AcqSet      (* acquire: lk->cpu = mycpu() *)
| Crit        (* the critical section *)
| RelH1       (* release: holding reads lk->locked *)
| RelH2       (* release: holding reads lk->cpu *)
| RelClr      (* release: lk->cpu = 0 *)
| RelStore    (* release: lk->locked = 0 *)
| Dead.       (* panicked *)

(** One memory access of CPU [i]. *)
Definition instr (i : nat) (p : pc) (lk : spinlock) : pc * spinlock :=
  match p with
  | Idle => (AcqH1, lk)
  | AcqH1 => (if locked lk =? 0 then AcqXchg else AcqH2, lk)
  | AcqH2 => (if bool_decide (lkcpu lk = Some i) then Dead else AcqXchg, lk)
  | AcqXchg => (if locked lk =? 0 then AcqSet else AcqXchg, mklock 1 (lkcpu lk))
  | AcqSet => (Crit, mklock (locked lk) (Some i))
  | Crit => (RelH1, lk)
  | RelH1 => (if locked lk =? 0 then Dead else RelH2, lk)
  | RelH2 => (if bool_decide (lkcpu lk = Some i) then RelClr else Dead, lk)
  | RelClr => (RelStore, mklock (locked lk) None)
  | RelStore => (Idle, mklock 0 (lkcpu lk))
  | Dead => (Dead, lk)
  end.

Record smp := mksmp { lk : spinlock; pcs : list pc }.

Inductive step : smp -> smp -> Prop :=
| step_cpu s i p :
    pcs s !! i = Some p ->
    step s (mksmp (snd (instr i p (lk s))) (<[i := fst (instr i p (lk s))]> (pcs s))).

Inductive reachable (n : nat) : smp -> Prop :=
| reach_init : reachable n (mksmp zero_lock (replicate n Idle))
| reach_step s s' : reachable n s -> step s s' -> reachable n s'.

(** The CPU has exchanged [locked] and not stored 0 back yet. *)
Definition owns (p : pc) : bool :=
  match p with AcqSet | Crit | RelH1 | RelH2 | RelClr | RelStore => true | _ => false end.
(** The CPU is recorded in [lk->cpu]. *)
Definition named (p : pc) : bool :=
  match p with Crit | RelH1 | RelH2 | RelClr => true | _ => false end.

Record inv (s : smp) : Prop := {
  inv_one : forall i j p q, pcs s !! i = Some p -> pcs s !! j = Some q ->
    owns p = true -> owns q = true -> i = j;
  inv_locked : forall i p, pcs s !! i = Some p -> owns p = true -> locked (lk s) = 1;
  inv_cpu : forall i p, pcs s !! i = Some p -> (lkcpu (lk s) = Some i <-> named p = true);
  inv_alive : Dead ∉ pcs s
}.

Lemma inv_init n : inv (mksmp zero_lock (replicate n Idle)).
Proof.
  split; cbn.
  - intros i j p q [-> _]%lookup_replicate; done.
  - intros i p [-> _]%lookup_replicate; done.
  - intros i p [-> _]%lookup_replicate; done.
  - intros [? _]%elem_of_replicate; done.
Qed.

(** What one access does to the owner, seen from the lock word. *)
Lemma instr_owns i p v o :
  (owns p = true -> v = 1) -> (o = Some i <-> named p = true) ->
  owns (fst (instr i p (mklock v o))) = true -> owns p = true \/ v = 0.
Proof. destruct p; cbn; intros Ho Hn; repeat case_match; naive_solver lia. Qed.

Lemma instr_locked i p v o :
  (owns p = true -> v = 1) -> (o = Some i <-> named p = true) ->
  owns (fst (instr i p (mklock v o))) = true -> locked (snd (instr i p (mklock v o))) = 1.
Proof. destruct p; cbn; intros Ho Hn; repeat case_match; naive_solver lia. Qed.

Lemma instr_locked_other i p v o :
  owns p = false -> v = 1 -> locked (snd (instr i p (mklock v o))) = 1.
Proof. destruct p; cbn; naive_solver. Qed.

Lemma instr_named i p v o :
  (owns p = true -> v = 1) -> (o = Some i <-> named p = true) ->
  lkcpu (snd (instr i p (mklock v o))) = Some i <-> named (fst (instr i p (mklock v o))) = true.
Proof.
  destruct p; cbn; intros Ho Hn; repeat case_match; try case_bool_decide; naive_solver lia.
Qed.

Lemma instr_named_other i j p v o :
  i <> j -> (o = Some j -> owns p = false) ->
  lkcpu (snd (instr i p (mklock v o))) = Some j <-> o = Some j.
Proof. destruct p; cbn; naive_solver. Qed.

Lemma instr_alive i p v o :
  (owns p = true -> v = 1) -> (o = Some i <-> named p = true) -> p <> Dead ->
  fst (instr i p (mklock v o)) <> Dead.
Proof.
  destruct p; cbn; intros Ho Hn; repeat case_match; try case_bool_decide; naive_solver lia.
Qed.

Lemma inv_step s s' : inv s -> step s s' -> inv s'.
Proof.
  intros Hi Hs. destruct Hs as [[[v o] l] i p Hp], Hi as [H1 H2 H3 H4]; cbn in *.
  assert (Ho := H2 i p Hp). assert (Hn := H3 i p Hp).
  split; cbn.
  - intros j1 j2 q1 q2 [(-> & <- & _)|[? Hq1]]%list_lookup_insert_Some
      [(-> & <- & _)|[? Hq2]]%list_lookup_insert_Some O1 O2; try done.
    + destruct (instr_owns _ _ _ _ Ho Hn O1) as [?| ->]; [naive_solver|].
      discriminate (H2 _ _ Hq2 O2).
    + destruct (instr_owns _ _ _ _ Ho Hn O2) as [?| ->]; [naive_solver|].
      discriminate (H2 _ _ Hq1 O1).
    + naive_solver.
  - intros j q [(-> & <- & _)|[? Hq]]%list_lookup_insert_Some O; [by apply instr_locked|].
    apply instr_locked_other; [|naive_solver].
    destruct (owns p) eqn:E; [|done]. naive_solver.
  - intros j q [(-> & <- & _)|[? Hq]]%list_lookup_insert_Some; [by apply instr_named|].
    rewrite instr_named_other; [by apply H3|done|].
    intros ->. destruct (owns p) eqn:E; [|done].
    assert (named q = true) by (by apply (H3 j)).
    assert (owns q = true) by (by destruct q). naive_solver.
  - intros [j [(-> & E & _)|[? Hq]]%list_lookup_insert_Some]%list_elem_of_lookup.
    + revert E. apply instr_alive; [done|done|]. intros ->. by apply H4, list_elem_of_lookup; eauto.
    + by apply H4, list_elem_of_lookup; eauto.
Qed.

Lemma reachable_inv n s : reachable n s -> inv s.
Proof. induction 1; [apply inv_init|eauto using inv_step]. Qed.

(** C1 (safety).  In every reachable state at most one CPU is between its successful
    [xchg] and its store of 0, [lk->cpu] names exactly the CPU that is between its two
    stores to it, and no CPU has panicked. *)
Theorem mutual_exclusion n s :
  reachable n s ->
  (forall (i j : nat) p q, pcs s !! i = Some p -> pcs s !! j = Some q ->
     owns p = true -> owns q = true -> i = j) /\
  (forall (i : nat) p, pcs s !! i = Some p -> (lkcpu (lk s) = Some i <-> named p = true)) /\
  Dead ∉ pcs s.
Proof. intros [H1 H2 H3 H4]%reachable_inv. done. Qed.

(** CPU 1 of 2 has taken the lock and is in its critical section. *)
Lemma mutual_exclusion_witness :
  exists s, reachable 2 s /\ pcs s = [AcqH2; Crit] /\ Dead ∉ pcs s /\ lkcpu (lk s) = Some 1%nat.
Proof.
  assert (H : reachable 2 (mksmp (mklock 1 (Some 1%nat)) [AcqH2; Crit])).
  { apply (reach_step 2 (mksmp (mklock 1 (Some 1%nat)) [AcqH1; Crit])); [|exact (step_cpu (mksmp (mklock 1 (Some 1%nat)) [AcqH1; Crit]) 0 AcqH1 eq_refl)].
    apply (reach_step 2 (mksmp (mklock 1 (Some 1%nat)) [Idle; Crit])); [|exact (step_cpu (mksmp (mklock 1 (Some 1%nat)) [Idle; Crit]) 0 Idle eq_refl)].
    apply (reach_step 2 (mksmp (mklock 1 None) [Idle; AcqSet])); [|exact (step_cpu (mksmp (mklock 1 None) [Idle; AcqSet]) 1 AcqSet eq_refl)].
    apply (reach_step 2 (mksmp (mklock 0 None) [Idle; AcqXchg])); [|exact (step_cpu (mksmp (mklock 0 None) [Idle; AcqXchg]) 1 AcqXchg eq_refl)].
    apply (reach_step 2 (mksmp (mklock 0 None) [Idle; AcqH1])); [|exact (step_cpu (mksmp (mklock 0 None) [Idle; AcqH1]) 1 AcqH1 eq_refl)].
    apply (reach_step 2 (mksmp (mklock 0 None) [Idle; Idle])); [|exact (step_cpu (mksmp (mklock 0 None) [Idle; Idle]) 1 Idle eq_refl)].
    apply reach_init. }
  destruct (mutual_exclusion 2 _ H) as (_ & H2 & H3).
  eexists. split_and!; [exact H|done|exact H3|done].
Defined.

End Smp.
