(* ===== verification/Sleeplock.v ===== *)
(** * Sleep locks

    Models [sleeplock.c].  A component whose state holds sleep locks gives access
    to them through the class [HasSleep]. *)

From Stdlib Require Import ZArith Lia.
From S2P Require Import Prelude Spinlock.

(** [struct sleeplock], less its spin lock and its name. *)
Record sleeplock := mksleep { sl_locked : Z; sl_pid : Z }.
Definition zero_sleep : sleeplock := mksleep 0 0.

(** The spin lock inside a sleep lock; the channel is the address of the lock. *)
Definition inner (l : lockid) : lockid := ((fst l +:+ ".lk")%string, snd l).

(** [sleeps]: the sleep locks, absent ones zeroed; [my_pid]: [myproc()->pid]. *)
Class HasSleep (S : Type) `{!HasCtx S} := {
  sleeps : S -> gmap lockid sleeplock;
  set_sleeps : gmap lockid sleeplock -> S -> S;
  my_pid : S -> Z;
  sleeps_set : forall m s, sleeps (set_sleeps m s) = m;
  set_sleeps_set : forall m m' s, set_sleeps m (set_sleeps m' s) = set_sleeps m s;
  sleeps_id : forall s, set_sleeps (sleeps s) s = s;
  sleeps_ctx : forall k s, sleeps (set_ctx k s) = sleeps s;
  ctx_sleeps : forall m s, ctx (set_sleeps m s) = ctx s;
  pid_ctx : forall k s, my_pid (set_ctx k s) = my_pid s;
  pid_sleeps : forall m s, my_pid (set_sleeps m s) = my_pid s;
  ctx_sleeps_comm : forall k m s, set_ctx k (set_sleeps m s) = set_sleeps m (set_ctx k s)
}.

Section Sleeplock.
Context {S : Type} `{!HasCtx S, !HasSleep S}.
Implicit Types (s t : S) (l : lockid).

Definition sl_get l s : sleeplock := default zero_sleep (sleeps s !! l).
Definition sl_put l (v : sleeplock) s : S := set_sleeps (<[l := v]> (sleeps s)) s.

Definition initsleeplock l : M S unit :=
  onctx (initlock (inner l)) ;;
  modify (fun s => sl_put l (mksleep 0 (sl_pid (sl_get l s))) s) ;;
  modify (fun s => sl_put l (mksleep (sl_locked (sl_get l s)) 0) s).

(** [while (lk->locked) sleep(lk, &lk->lk)], one unit of fuel per wake-up. *)
Fixpoint wait_unlocked (fuel : nat) l : M S unit :=
  match fuel with
  | O => nofuel
  | Datatypes.S fuel =>
      lk <- gets (sl_get l) ;;
      if sl_locked lk =? 0 then ret tt else
      sleep_on l (inner l) ;;
      wait_unlocked fuel l
  end.

(** [myproc()->pid] *)
Definition mypid : M S Z := onctx myproc ;; gets my_pid.

Definition acquiresleep (fuel : nat) l : M S unit :=
  onctx (acquire (inner l)) ;;
  wait_unlocked fuel l ;;
  modify (fun s => sl_put l (mksleep 1 (sl_pid (sl_get l s))) s) ;;
  pid <- mypid ;;
  modify (fun s => sl_put l (mksleep (sl_locked (sl_get l s)) pid) s) ;;
  onctx (release (inner l)).

Definition releasesleep l : M S unit :=
  onctx (acquire (inner l)) ;;
  modify (fun s => sl_put l (mksleep 0 (sl_pid (sl_get l s))) s) ;;
  modify (fun s => sl_put l (mksleep (sl_locked (sl_get l s)) 0) s) ;;
  wakeup_on l ;;
  onctx (release (inner l)).

Definition holdingsleep l : M S bool :=
  onctx (acquire (inner l)) ;;
  lk <- gets (sl_get l) ;;
  r <- (if sl_locked lk =? 0 then ret false else pid <- mypid ;; ret (sl_pid lk =? pid)) ;;
  onctx (release (inner l)) ;;
  ret r.

(** ** Closed forms *)

Definition sl_idle s i c l : Prop := ctx_ok (ctx s) i c /\ locks (ctx s) !! inner l = None.

Lemma sl_get_put l v s : sl_get l (sl_put l v s) = v.
Proof. unfold sl_get, sl_put. by rewrite sleeps_set, lookup_insert_eq. Qed.

Lemma sl_put_put l v w s : sl_put l v (sl_put l w s) = sl_put l v s.
Proof. unfold sl_put. by rewrite sleeps_set, set_sleeps_set, insert_insert_eq. Qed.

Lemma ctx_sl_put l v s : ctx (sl_put l v s) = ctx s.
Proof. apply ctx_sleeps. Qed.

Lemma sl_put_ctx k l v s : set_ctx k (sl_put l v s) = sl_put l v (set_ctx k s).
Proof. unfold sl_put. by rewrite ctx_sleeps_comm, sleeps_ctx. Qed.

Lemma sl_get_ctx k l s : sl_get l (set_ctx k s) = sl_get l s.
Proof. unfold sl_get. by rewrite sleeps_ctx. Qed.

Lemma acquiresleep_free s i c l fuel :
  sl_idle s i c l -> sl_locked (sl_get l s) = 0 ->
  acquiresleep (Datatypes.S fuel) l s = Ret tt (sl_put l (mksleep 1 (my_pid s)) s).
Proof.
  intros [Hc Hl] Hfree.
  assert (wp (acquiresleep (Datatypes.S fuel) l s) (fun _ t => t = sl_put l (mksleep 1 (my_pid s)) s) stays) as H.
  { unfold acquiresleep. apply wp_step. eapply wp_acq; [done..|]. apply wp_step. cbn [wait_unlocked].
    apply wp_step. cbn [gets wp]. rewrite sl_get_ctx, Hfree. cbn [Z.eqb ret wp].
    apply wp_step. cbn [modify wp]. apply wp_step. unfold mypid. apply wp_step.
    eapply wp_myproc_; [rewrite ctx_sl_put, ctx_set_ctx; by apply ctx_ok_acq|]. cbn [gets wp].
    apply wp_step. cbn [modify wp]. eapply wp_rel; [by rewrite !ctx_sl_put, ctx_set_ctx|done|done|].
    rewrite sl_put_put, sl_get_put, sl_put_ctx, set_ctx_set, set_ctx_ctx. cbn [sl_locked].
    unfold sl_put at 2. by rewrite pid_sleeps, pid_ctx. }
  by apply wp_Ret in H as ([] & t & Hrun & ->).
Qed.

(** On a lock that is taken the caller goes to sleep with the inner lock free; resumed
    in a state where the lock is free it takes it. *)
Lemma wp_acquiresleep_busy s i c l fuel :
  sl_idle s i c l -> sl_locked (sl_get l s) <> 0 ->
  wp (acquiresleep (Datatypes.S (Datatypes.S fuel)) l s) (fun _ _ => False) (fun s1 kk =>
    s1 = set_ctx (k_slept l (inner l) (ctx s)) s /\ forall t j cj, sl_idle t j cj l -> sl_locked (sl_get l t) = 0 ->
      kk t = Ret tt (sl_put l (mksleep 1 (my_pid t)) t)).
Proof.
  intros [Hc Hl] Hbusy. unfold acquiresleep at 1. apply wp_bind. eapply wp_acq; [done..|].
  apply wp_bind. cbn [wait_unlocked]. apply wp_bind. cbn [gets wp]. rewrite sl_get_ctx.
  apply Z.eqb_neq in Hbusy. rewrite Hbusy. apply wp_bind.
  eapply wp_sleep_on; [by rewrite ctx_set_ctx|done|done|]. split; [by rewrite set_ctx_set|].
  intros t j cj Hidle Hfree. rewrite <- (acquiresleep_free t j cj l fuel Hidle Hfree).
  destruct Hidle as [Hcj Hlj]. unfold acquiresleep. by rewrite (bind_Ret _ _ _ _ _ (acq_step _ _ _ _ Hcj Hlj)), (acq_step _ _ _ _ Hcj Hlj).
Qed.

Lemma releasesleep_run s i c l :
  sl_idle s i c l ->
  releasesleep l s = Ret tt (set_ctx (k_wake l (ctx s)) (sl_put l zero_sleep s)).
Proof.
  intros [Hc Hl].
  assert (wp (releasesleep l s) (fun _ t => t = set_ctx (k_wake l (ctx s)) (sl_put l zero_sleep s)) stays) as H.
  { unfold releasesleep. apply wp_step. eapply wp_acq; [done..|]. do 3 (apply wp_step; cbn [modify wp wakeup_on]).
    eapply wp_rel; [rewrite ctx_set_ctx; rewrite !ctx_sl_put, ctx_set_ctx; exact (k_wake_acq l (inner l) i (ctx s))
      |by apply ctx_ok_wake|done|].
    rewrite sl_put_put, sl_get_put, set_ctx_set, <- sl_put_ctx, set_ctx_set. done. }
  by apply wp_Ret in H as ([] & t & Hrun & ->).
Qed.

Lemma holdingsleep_run s i c l :
  sl_idle s i c l ->
  holdingsleep l s = Ret (negb (sl_locked (sl_get l s) =? 0) && (sl_pid (sl_get l s) =? my_pid s)) s.
Proof.
  intros [Hc Hl].
  assert (wp (holdingsleep l s) (fun r t =>
    r = negb (sl_locked (sl_get l s) =? 0) && (sl_pid (sl_get l s) =? my_pid s) /\ t = s) stays) as H.
  { unfold holdingsleep. apply wp_step. eapply wp_acq; [done..|]. apply wp_step. cbn [gets wp]. rewrite sl_get_ctx.
    apply wp_step. destruct (Z.eqb_spec (sl_locked (sl_get l s)) 0) as [E|E]; cbn [ret wp negb andb].
    - apply wp_step. eapply wp_rel; [by rewrite ctx_set_ctx|done|done|]. cbn. by rewrite set_ctx_set, set_ctx_ctx.
    - unfold mypid. apply wp_step. apply wp_step. eapply wp_myproc_; [rewrite ctx_set_ctx; by apply ctx_ok_acq|].
      cbn [gets wp ret]. apply wp_step. eapply wp_rel; [by rewrite ctx_set_ctx|done|done|].
      cbn. by rewrite set_ctx_set, set_ctx_ctx, pid_ctx. }
  by apply wp_Ret in H as (r & t & Hrun & -> & ->).
Qed.

(** An outcome that waits for the lock [l] and goes on waiting however often it is
    resumed, as long as the lock is taken. *)
Inductive waits_for {A} (l : lockid) : res S A -> Prop :=
| waits_fuel : waits_for l Fuel
| waits_swtch s k :
    sl_locked (sl_get l s) <> 0 -> asleep_on l (inner l) (ctx s) ->
    (forall t j cj, sl_idle t j cj l -> sl_locked (sl_get l t) <> 0 -> waits_for l (k t)) ->
    waits_for l (Swtch s k).

Lemma waits_rbind {A B} l (r : res S A) (f : A -> S -> res S B) : waits_for l r -> waits_for l (rbind r f).
Proof. induction 1 as [|s k Hs Ha _ IH]; constructor; [done|done|]. intros t j cj Ht Hl. by eapply IH. Qed.

Lemma wait_unlocked_waits fuel s i c l :
  sl_idle s i c l -> sl_locked (sl_get l s) <> 0 -> waits_for l (wait_unlocked fuel l (set_ctx (k_acq (inner l) i (ctx s)) s)).
Proof.
  revert s i c. induction fuel as [|fuel IH]; intros s i c [Hc Hl] Hs; [constructor|]. cbn [wait_unlocked].
  rewrite (bind_Ret _ _ _ (sl_get l s) (set_ctx (k_acq (inner l) i (ctx s)) s)) by (unfold gets; by rewrite sl_get_ctx).
  rewrite (proj2 (Z.eqb_neq _ 0)) by done. unfold sleep_on, bind at 2.
  assert (Hk : ctx (set_ctx (k_acq (inner l) i (ctx s)) s) = k_acq (inner l) i (ctx s)) by apply ctx_set_ctx.
  unfold bind. rewrite (rel_step _ _ _ _ _ Hc Hl Hk). cbn [rbind modify].
  rewrite set_ctx_set, ctx_set_ctx. constructor; [by rewrite !sl_get_ctx|unfold asleep_on; by rewrite ctx_set_ctx|].
  intros t j cj [Hcj Hlj] Ht. cbn [rbind]. rewrite (acq_step _ _ _ _ Hcj Hlj). cbn [rbind]. by eapply IH.
Qed.

Lemma acquiresleep_waits fuel s i c l : sl_idle s i c l -> sl_locked (sl_get l s) <> 0 -> waits_for l (acquiresleep fuel l s).
Proof.
  intros Hi Hs. unfold acquiresleep. rewrite (bind_Ret _ _ _ _ _ (acq_step _ _ _ _ (proj1 Hi) (proj2 Hi))).
  apply waits_rbind. by eapply wait_unlocked_waits.
Qed.
End Sleeplock.

(** ** One sleep lock on its own *)

Record slst := mkslst { slst_ctx : kctx; slst_sleeps : gmap lockid sleeplock; slst_pid : Z }.

#[export] Instance slst_hasctx : HasCtx slst.
Proof.
  refine {| ctx := slst_ctx; set_ctx := fun k s => mkslst k (slst_sleeps s) (slst_pid s) |}; try done. by intros [].
Defined.
#[export] Instance slst_hassleep : HasSleep slst.
Proof.
  refine {| sleeps := slst_sleeps; set_sleeps := fun m s => mkslst (slst_ctx s) m (slst_pid s); my_pid := slst_pid |};
    try done. by intros [].
Defined.

(** [acquiresleep] returns only with the lock held by the caller.  On a
    free lock it takes it at once; on a taken one it sleeps on it, the inner spin lock free,
    and takes the lock when it is resumed and the lock is free.  [releasesleep] frees
    the lock and wakes the sleepers, and [holdingsleep] tells whether the caller has
    it. *)
Theorem sleeplock_excludes {S} `{!HasCtx S, !HasSleep S} (s : S) i c l fuel :
  sl_idle s i c l ->
  (sl_locked (sl_get l s) = 0 ->
     acquiresleep (Datatypes.S fuel) l s = Ret tt (sl_put l (mksleep 1 (my_pid s)) s)) /\
  (sl_locked (sl_get l s) <> 0 ->
     exists s1 kk, acquiresleep (Datatypes.S (Datatypes.S fuel)) l s = Swtch s1 kk /\ s1 = set_ctx (k_slept l (inner l) (ctx s)) s /\
       forall t j cj, sl_idle t j cj l -> sl_locked (sl_get l t) = 0 ->
         kk t = Ret tt (sl_put l (mksleep 1 (my_pid t)) t)) /\
  releasesleep l s = Ret tt (set_ctx (k_wake l (ctx s)) (sl_put l zero_sleep s)) /\
  holdingsleep l s = Ret (negb (sl_locked (sl_get l s) =? 0) && (sl_pid (sl_get l s) =? my_pid s)) s.
Proof.
  intros Hi. split_and!.
  - intros Hf. by eapply acquiresleep_free.
  - intros Hb. apply wp_Swtch. by eapply wp_acquiresleep_busy.
  - by eapply releasesleep_run.
  - by eapply holdingsleep_run.
Qed.

Lemma sleeplock_excludes_witness :
  let s := mkslst (mkctx 0 true [mkcpu 0 1 0 true (Some 0%nat)] ∅ []) ∅ 7 in
  acquiresleep 1 ("buf"%string, 3) s = Ret tt (sl_put ("buf"%string, 3) (mksleep 1 7) s).
Proof.
  intros s.
  destruct (sleeplock_excludes s 0 (mkcpu 0 1 0 true (Some 0%nat)) ("buf"%string, 3) 0) as [H _]; [|exact (H eq_refl)].
  split; [|done]. repeat split; cbn; intros; lia || done.
Defined.
