(* ===== verification/Pipe.v ===== *)
(** * Pipes

    Models [pipewrite], [piperead] and [pipeclose] of [pipe.c] on one pipe, whose
    abstract value is the list of bytes written and not yet read.  [nread] and
    [nwrite] are free-running 32-bit counters that wrap around. *)

From Stdlib Require Import ZArith Lia.
From S2P Require Import Prelude Spinlock.

Definition PIPESIZE : Z := 512.

(** [struct pipe], less its lock. *)
Record pipe := mkpipe { data : list Z; nread : Z; nwrite : Z; readopen : Z; writeopen : Z }.

(** [freed] is set once the page of the pipe has been given to [kfree]; [me_killed] is
    [myproc()->killed]. *)
Record pipest := mkpipest { pipe_ctx : kctx; the_pipe : pipe; me_killed : Z; freed : bool }.

Definition set_pipe_ctx (k : kctx) (s : pipest) : pipest := mkpipest k (the_pipe s) (me_killed s) (freed s).
Definition set_pipe (p : pipe) (s : pipest) : pipest := mkpipest (pipe_ctx s) p (me_killed s) (freed s).
Definition set_freed (s : pipest) : pipest := mkpipest (pipe_ctx s) (the_pipe s) (me_killed s) true.

#[export] Instance pipest_ctx : HasCtx pipest.
Proof. refine {| ctx := pipe_ctx; set_ctx := set_pipe_ctx |}; try done. by intros []. Defined.

Section Pipe.
(** The address of the pipe. *)
Context (pa : Z).
Definition pipe_lk : lockid := ("pipe"%string, pa).
Definition nread_chan : chan := ("pipe.nread"%string, pa).
Definition nwrite_chan : chan := ("pipe.nwrite"%string, pa).

(** [p->data[p->nwrite++ % PIPESIZE] = c] *)
Definition put (c : Z) (p : pipe) : pipe :=
  mkpipe (<[Z.to_nat (nwrite p mod PIPESIZE) := c]> (data p)) (nread p) (u32 (nwrite p + 1)) (readopen p) (writeopen p).
(** [p->nread++] *)
Definition advance (p : pipe) : pipe :=
  mkpipe (data p) (u32 (nread p + 1)) (nwrite p) (readopen p) (writeopen p).

(** [myproc()->killed] *)
Definition get_killed : M pipest Z := onctx myproc ;; gets me_killed.

(** [while(p->nwrite == p->nread + PIPESIZE)], one unit of fuel per wake-up; the result
    tells whether there is room (false: the caller returns -1, the lock released). *)
Fixpoint wait_room (fuel : nat) : M pipest bool :=
  match fuel with
  | O => nofuel
  | S fuel =>
      p <- gets the_pipe ;;
      if negb (nwrite p =? u32 (nread p + PIPESIZE)) then ret true else
      k <- (if readopen p =? 0 then ret 1 else get_killed) ;;
      if negb (k =? 0) then onctx (release pipe_lk) ;; ret false else
      wakeup_on nread_chan ;;
      sleep_on nwrite_chan pipe_lk ;;
      wait_room fuel
  end.

(** The [for] loop; false if the call has to return -1. *)
Fixpoint write_bytes (fuel : nat) (addr : list Z) : M pipest bool :=
  match addr with
  | [] => ret true
  | c :: addr =>
      ok <- wait_room fuel ;;
      if negb ok then ret false else
      modify (fun s => set_pipe (put c (the_pipe s)) s) ;;
      write_bytes fuel addr
  end.

Definition pipewrite (fuel : nat) (addr : list Z) : M pipest Z :=
  onctx (acquire pipe_lk) ;;
  ok <- write_bytes fuel addr ;;
  if negb ok then ret (-1) else
  wakeup_on nread_chan ;;
  onctx (release pipe_lk) ;;
  ret (Z.of_nat (length addr)).

(** [while(p->nread == p->nwrite && p->writeopen)] *)
Fixpoint wait_data (fuel : nat) : M pipest bool :=
  match fuel with
  | O => nofuel
  | S fuel =>
      p <- gets the_pipe ;;
      if negb ((nread p =? nwrite p) && negb (writeopen p =? 0)) then ret true else
      k <- get_killed ;;
      if negb (k =? 0) then onctx (release pipe_lk) ;; ret false else
      sleep_on nread_chan pipe_lk ;;
      wait_data fuel
  end.

(** The copy loop: the bytes stored to [addr]. *)
Fixpoint read_bytes (n : nat) : M pipest (list Z) :=
  match n with
  | O => ret []
  | S n =>
      p <- gets the_pipe ;;
      if nread p =? nwrite p then ret [] else
      match data p !! Z.to_nat (nread p mod PIPESIZE) with
      | None => ub "pipe data out of range"
      | Some c =>
          modify (fun s => set_pipe (advance (the_pipe s)) s) ;;
          l <- read_bytes n ;;
          ret (c :: l)
      end
  end.

(** The bytes read, or [None] for the result -1. *)
Definition piperead (fuel : nat) (n : nat) : M pipest (option (list Z)) :=
  onctx (acquire pipe_lk) ;;
  ok <- wait_data fuel ;;
  if negb ok then ret None else
  l <- read_bytes n ;;
  wakeup_on nwrite_chan ;;
  onctx (release pipe_lk) ;;
  ret (Some l).

Definition pipeclose (writable : bool) : M pipest unit :=
  onctx (acquire pipe_lk) ;;
  (if writable then
     modify (fun s => let p := the_pipe s in
       set_pipe (mkpipe (data p) (nread p) (nwrite p) (readopen p) 0) s) ;;
     wakeup_on nread_chan
   else
     modify (fun s => let p := the_pipe s in
       set_pipe (mkpipe (data p) (nread p) (nwrite p) 0 (writeopen p)) s) ;;
     wakeup_on nwrite_chan) ;;
  p <- gets the_pipe ;;
  if (readopen p =? 0) && (writeopen p =? 0)
  then onctx (release pipe_lk) ;; modify set_freed
  else onctx (release pipe_lk).

(** ** The pipe as a queue of bytes *)

Record pipe_rep (p : pipe) (q : list Z) : Prop := {
  pr_data : length (data p) = 512%nat;
  pr_nread : is_u32 (nread p);
  pr_len : (length q <= 512)%nat;
  pr_nwrite : nwrite p = u32 (nread p + Z.of_nat (length q));
  pr_bytes : forall j c, q !! j = Some c -> data p !! Z.to_nat ((nread p + Z.of_nat j) mod 512) = Some c
}.

(** The counters may wrap around: 512 divides 2 ^ 32. *)
Lemma u32_mod_512 z : u32 z mod 512 = z mod 512.
Proof. unfold u32. apply Z.mod_mod_divide. by exists 8388608. Qed.

Lemma rep_full p q : pipe_rep p q -> (nwrite p =? u32 (nread p + PIPESIZE)) = bool_decide (length q = 512%nat).
Proof.
  intros [_ Hn Hl Hw _]. rewrite Hw. unfold PIPESIZE. case_bool_decide as H.
  - rewrite H. apply Z.eqb_refl.
  - apply Z.eqb_neq. intros Heq%u32_close; lia.
Qed.

Lemma rep_empty p q : pipe_rep p q -> (nread p =? nwrite p) = bool_decide (q = []).
Proof.
  intros [_ Hn Hl Hw _]. rewrite Hw. case_bool_decide as H.
  - subst q. rewrite Z.add_0_r, u32_small by done. apply Z.eqb_refl.
  - apply Z.eqb_neq. rewrite <- (u32_small (nread p)) at 1 by done. destruct q as [|c q]; [done|].
    cbn [length] in *. intros Heq%u32_close; lia.
Qed.

Lemma put_rep p q c : pipe_rep p q -> (length q < 512)%nat -> pipe_rep (put c p) (q ++ [c]).
Proof.
  intros [Hd Hn Hl Hw Hb] Hlt. unfold is_u32 in Hn.
  assert (Hi : nwrite p mod PIPESIZE = (nread p + Z.of_nat (length q)) mod 512) by (rewrite Hw; apply u32_mod_512).
  split; cbn.
  - by rewrite length_insert.
  - done.
  - rewrite length_app; cbn. lia.
  - rewrite length_app, Hw, u32_add_l; cbn. f_equal. lia.
  - rewrite Hi. intros j x Hj. destruct (decide (j < length q)%nat).
    + rewrite lookup_app_l in Hj by done. rewrite list_lookup_insert_ne; [by apply Hb|].
      intros Heq%Z2Nat.inj; [|Z.div_mod_to_equations; lia..]. Z.div_mod_to_equations. lia.
    + rewrite lookup_app_r in Hj by lia. apply list_lookup_singleton_Some in Hj as [Hj <-].
      replace j with (length q) by lia. apply list_lookup_insert_eq. Z.div_mod_to_equations. lia.
Qed.

Lemma advance_rep p c q : pipe_rep p (c :: q) -> pipe_rep (advance p) q.
Proof.
  intros [Hd Hn Hl Hw Hb]. split; cbn [advance data nread nwrite length] in *.
  - done.
  - apply u32_range.
  - lia.
  - rewrite Hw, u32_add_l. f_equal. lia.
  - intros j x Hj. specialize (Hb (S j) x Hj). rewrite <- Hb. do 2 f_equal.
    rewrite <- (Zplus_mod_idemp_l (u32 _)), u32_mod_512, Zplus_mod_idemp_l. f_equal. lia.
Qed.

Lemma rep_front p c q : pipe_rep p (c :: q) -> data p !! Z.to_nat (nread p mod PIPESIZE) = Some c.
Proof. intros Hr. rewrite <- (pr_bytes _ _ Hr 0%nat c eq_refl). by rewrite Z.add_0_r. Qed.

(** ** Runs *)

Definition with_q (s : pipest) (q : list Z) : Prop := pipe_rep (the_pipe s) q.

Lemma wait_room_ok fuel s q : with_q s q -> (length q < 512)%nat -> wait_room (S fuel) s = Ret true s.
Proof.
  intros Hr Hl. cbn [wait_room]. run. rewrite (rep_full _ _ Hr), bool_decide_eq_false_2 by lia. done.
Qed.

(** Same pipe ends and everything outside the pipe. *)
Definition same_ends (p p' : pipe) : Prop := readopen p' = readopen p /\ writeopen p' = writeopen p.

Lemma write_bytes_ok fuel s q bs :
  with_q s q -> (length q + length bs <= 512)%nat ->
  exists p', write_bytes (S fuel) bs s = Ret true (set_pipe p' s) /\ pipe_rep p' (q ++ bs) /\
    same_ends (the_pipe s) p'.
Proof.
  revert s q. induction bs as [|c bs IH]; intros s q Hr Hl; cbn [write_bytes length] in *.
  - exists (the_pipe s). rewrite app_nil_r. split; [by destruct s|done].
  - rewrite (bind_Ret _ _ _ _ _ (wait_room_ok fuel s q Hr ltac:(lia))). cbn [negb].
    destruct (IH (set_pipe (put c (the_pipe s)) s) (q ++ [c])) as (p' & H1 & H2 & H3).
    + apply put_rep; [done|lia].
    + rewrite length_app. cbn. lia.
    + exists p'. rewrite <- (assoc_L (++)) in H2. split_and!; [exact H1|done|done].
Qed.

Lemma read_bytes_ok n s q :
  with_q s q -> exists p', read_bytes n s = Ret (take n q) (set_pipe p' s) /\ pipe_rep p' (drop n q) /\
    same_ends (the_pipe s) p'.
Proof.
  revert s q. induction n as [|n IH]; intros s q Hr; cbn [read_bytes].
  - exists (the_pipe s). split; [by destruct s|]. done.
  - run. rewrite (rep_empty _ _ Hr). destruct q as [|c q].
    + exists (the_pipe s). cbn. split; [by destruct s|done].
    + rewrite bool_decide_eq_false_2 by done. rewrite (rep_front _ _ _ Hr). cbn [rbind].
      destruct (IH (set_pipe (advance (the_pipe s)) s) q) as (p' & H1 & H2 & H3); [by eapply advance_rep|].
      exists p'. rewrite H1. done.
Qed.

Definition pipe_idle (s : pipest) (i : nat) (c : cpu) : Prop :=
  ctx_ok (pipe_ctx s) i c /\ locks (pipe_ctx s) !! pipe_lk = None.

Lemma write_run s i c q bs fuel :
  pipe_idle s i c -> with_q s q -> (length q + length bs <= 512)%nat ->
  exists s', pipewrite (S fuel) bs s = Ret (Z.of_nat (length bs)) s' /\ with_q s' (q ++ bs) /\
    same_ends (the_pipe s) (the_pipe s') /\ pipe_ctx s' = k_wake nread_chan (pipe_ctx s).
Proof.
  intros [Hc Hl] Hr Hlen. destruct (write_bytes_ok fuel (set_pipe_ctx (k_acq pipe_lk i (pipe_ctx s)) s) q bs Hr Hlen)
    as (p' & H1 & H2 & H3). exists (set_pipe_ctx (k_wake nread_chan (pipe_ctx s)) (set_pipe p' s)).
  assert (wp (pipewrite (S fuel) bs s) (fun r t => r = Z.of_nat (length bs) /\
    t = set_pipe_ctx (k_wake nread_chan (pipe_ctx s)) (set_pipe p' s)) stays) as H.
  { unfold pipewrite. apply wp_step. eapply (wp_acq (S := pipest)); [done..|]. apply wp_step.
    eapply wp_eq; [exact H1|]. cbn [negb]. apply wp_step. cbn [wakeup_on modify wp].
    apply wp_step. eapply (wp_rel (S := pipest)); [by apply k_wake_acq|exact Hc|done|]. done. }
  apply wp_Ret in H as (r & t & -> & -> & ->). done.
Qed.

Lemma read_run s i c q n fuel :
  pipe_idle s i c -> with_q s q -> q <> [] \/ writeopen (the_pipe s) = 0 ->
  exists s', piperead (S fuel) n s = Ret (Some (take n q)) s' /\ with_q s' (drop n q) /\
    same_ends (the_pipe s) (the_pipe s') /\ pipe_ctx s' = k_wake nwrite_chan (pipe_ctx s).
Proof.
  intros [Hc Hl] Hr Hq. destruct (read_bytes_ok n (set_pipe_ctx (k_acq pipe_lk i (pipe_ctx s)) s) q Hr)
    as (p' & H1 & H2 & H3). exists (set_pipe_ctx (k_wake nwrite_chan (pipe_ctx s)) (set_pipe p' s)).
  assert (Hw : wait_data (S fuel) (set_pipe_ctx (k_acq pipe_lk i (pipe_ctx s)) s) =
    Ret true (set_pipe_ctx (k_acq pipe_lk i (pipe_ctx s)) s)).
  { cbn [wait_data]. run. cbn [the_pipe set_pipe_ctx]. rewrite (rep_empty _ _ Hr).
    destruct Hq as [Hq| ->]; [by rewrite bool_decide_eq_false_2|]. by rewrite andb_false_r. }
  assert (wp (piperead (S fuel) n s) (fun r t => r = Some (take n q) /\
    t = set_pipe_ctx (k_wake nwrite_chan (pipe_ctx s)) (set_pipe p' s)) stays) as H.
  { unfold piperead. apply wp_step. eapply (wp_acq (S := pipest)); [done..|].
    apply wp_step. eapply wp_eq; [exact Hw|]. cbn [negb]. apply wp_step. eapply wp_eq; [exact H1|].
    apply wp_step. cbn [wakeup_on modify wp]. apply wp_step.
    eapply (wp_rel (S := pipest)); [by apply k_wake_acq|exact Hc|done|]. done. }
  apply wp_Ret in H as (r & t & -> & -> & ->). done.
Qed.

(** An empty pipe with a writer: the reader looks at [killed] next. *)
Lemma wait_data_empty s i c fuel Q W :
  ctx_ok (pipe_ctx s) i c -> with_q s [] -> writeopen (the_pipe s) <> 0 ->
  wp ((if negb (me_killed s =? 0) then onctx (release pipe_lk) ;; ret false else sleep_on nread_chan pipe_lk ;; wait_data fuel) s) Q W ->
  wp (wait_data (S fuel) s) Q W.
Proof.
  intros Hc Hr Hw H. cbn [wait_data]. apply wp_bind. cbn [gets wp]. rewrite (rep_empty _ _ Hr), bool_decide_eq_true_2 by done.
  apply Z.eqb_neq in Hw. rewrite Hw. cbn [negb andb]. apply wp_bind. unfold get_killed. apply wp_bind.
  eapply (wp_myproc_ (S := pipest)); [exact Hc|]. exact H.
Qed.

Lemma read_sleeps s i c n fuel :
  pipe_idle s i c -> with_q s [] -> writeopen (the_pipe s) <> 0 -> me_killed s = 0 ->
  exists kk, piperead (S fuel) n s = Swtch (set_pipe_ctx (k_slept nread_chan pipe_lk (pipe_ctx s)) s) kk /\
    forall t j cj, pipe_idle t j cj -> kk t = piperead fuel n t.
Proof.
  intros [Hc Hl] Hr Hw Hk.
  assert (wp (piperead (S fuel) n s) (fun _ _ => False) (fun s1 kk => s1 = set_pipe_ctx (k_slept nread_chan pipe_lk (pipe_ctx s)) s /\
    forall t j cj, pipe_idle t j cj -> kk t = piperead fuel n t)) as H.
  { unfold piperead at 1. apply wp_bind. eapply (wp_acq (S := pipest)); [done..|]. apply wp_bind.
    eapply wait_data_empty; [by apply ctx_ok_acq|exact Hr|exact Hw|]. cbn [me_killed set_ctx pipest_ctx set_pipe_ctx]. rewrite Hk. cbn [negb Z.eqb].
    apply wp_bind. eapply (wp_sleep_on (S := pipest)); [done|exact Hc|done|]. split; [done|]. intros t j cj [Hcj Hlj].
    unfold piperead. by rewrite (@acq_step _ pipest_ctx t j cj pipe_lk Hcj Hlj), (bind_Ret _ _ _ _ _ (@acq_step _ pipest_ctx t j cj pipe_lk Hcj Hlj)). }
  apply wp_Swtch in H as (s1 & kk & H1 & -> & H2). by exists kk.
Qed.

Lemma read_killed s i c n fuel :
  pipe_idle s i c -> with_q s [] -> writeopen (the_pipe s) <> 0 -> me_killed s <> 0 -> piperead (S fuel) n s = Ret None s.
Proof.
  intros [Hc Hl] Hr Hw Hk. apply Z.eqb_neq in Hk.
  assert (wp (piperead (S fuel) n s) (fun r t => r = None /\ t = s) stays) as H.
  { unfold piperead. apply wp_step. eapply (wp_acq (S := pipest)); [done..|]. apply wp_step.
    eapply wait_data_empty; [by apply ctx_ok_acq|exact Hr|exact Hw|]. cbn [me_killed set_ctx pipest_ctx set_pipe_ctx]. rewrite Hk. cbn [negb].
    apply wp_step. eapply (wp_rel (S := pipest)); [done|exact Hc|done|]. cbn. split; [done|]. by destruct s. }
  by apply wp_Ret in H as (r & t & Hrun & -> & ->).
Qed.

Lemma write_bytes_app fuel s s' bs1 bs2 :
  write_bytes fuel bs1 s = Ret true s' -> write_bytes fuel (bs1 ++ bs2) s = write_bytes fuel bs2 s'.
Proof.
  revert s. induction bs1 as [|c bs1 IH]; intros s; cbn [write_bytes app]; [by intros [= ->]|].
  intros (ok & s1 & H1 & H2)%bind_inv. rewrite (bind_Ret _ _ _ _ _ H1).
  destruct ok; cbn [negb] in *; [|done]. exact (IH _ H2).
Qed.

(** The writer asleep on a full pipe with [rest] still to write, resumed in [t]. *)
Definition writer_resumes (rest : list Z) (k : pipest -> res pipest bool) : Prop :=
  forall t j cj q', pipe_idle t j cj -> with_q t q' -> (length q' + length rest <= 512)%nat ->
    exists p', k t = Ret true (set_pipe p' (set_pipe_ctx (k_acq pipe_lk j (pipe_ctx t)) t)) /\
      pipe_rep p' (q' ++ rest) /\ same_ends (the_pipe t) p'.

Lemma wp_write_full fuel s k i c q b bs :
  pipe_ctx s = k_acq pipe_lk i k -> ctx_ok k i c -> locks k !! pipe_lk = None -> with_q s q ->
  length q = 512%nat -> readopen (the_pipe s) <> 0 -> me_killed s = 0 ->
  wp (write_bytes (S (S fuel)) (b :: bs) s) (fun _ _ => False) (fun s1 kk =>
    s1 = set_pipe_ctx (k_slept nwrite_chan pipe_lk (k_wake nread_chan k)) s /\ writer_resumes (b :: bs) kk).
Proof.
  intros Hk Hc Hl Hr Hlen Hro Hkill. cbn [write_bytes]. apply wp_bind. cbn [wait_room].
  apply wp_bind. cbn [gets wp]. rewrite (rep_full _ _ Hr), bool_decide_eq_true_2 by done. cbn [negb].
  apply Z.eqb_neq in Hro. rewrite Hro. apply wp_bind. unfold get_killed. apply wp_bind.
  eapply (wp_myproc_ (S := pipest)); [cbn; rewrite Hk; by apply ctx_ok_acq|]. cbn [gets wp]. rewrite Hkill.
  cbn [negb Z.eqb]. apply wp_bind. cbn [wakeup_on modify wp]. apply wp_bind.
  eapply (wp_sleep_on (S := pipest)); [cbn; rewrite Hk; apply k_wake_acq|by apply ctx_ok_wake|done|].
  split; [done|]. intros t j cj q' [Hcj Hlj] Hrt Hroom.
  cbn [length] in Hroom. rewrite (@acq_step _ pipest_ctx t j cj pipe_lk Hcj Hlj). cbn [rbind ctx pipest_ctx set_ctx].
  set (t1 := set_pipe_ctx _ t). assert (Hrt1 : with_q t1 q') by done.
  destruct (write_bytes_ok (S fuel) t1 q' (b :: bs) Hrt1 Hroom) as (p' & H1 & H2 & H3).
  exists p'. split_and!; [|done|done]. rewrite <- H1.
  change (rbind (wait_room (S fuel) t1) (fun ok => if negb ok then ret false else
    modify (fun s => set_pipe (put b (the_pipe s)) s) ;; write_bytes (S (S fuel)) bs) =
    write_bytes (S (S fuel)) (b :: bs) t1).
  cbn [write_bytes]. by rewrite (wait_room_ok fuel t1 q'), (bind_Ret _ _ _ _ _ (wait_room_ok (S fuel) t1 q' Hrt1 ltac:(lia))) by (done || lia).
Qed.

Lemma wp_write_blocks s i c q bs fuel :
  pipe_idle s i c -> with_q s q -> (length q <= 512 < length q + length bs)%nat ->
  readopen (the_pipe s) <> 0 -> me_killed s = 0 ->
  wp (pipewrite (S (S fuel)) bs s) (fun _ _ => False) (fun s1 kk =>
    with_q s1 (q ++ take (512 - length q) bs) /\ pipe_ctx s1 = k_slept nwrite_chan pipe_lk (k_wake nread_chan (pipe_ctx s)) /\
    forall t j cj q', pipe_idle t j cj -> with_q t q' ->
      (length q' + length (drop (512 - length q) bs) <= 512)%nat ->
      exists t', kk t = Ret (Z.of_nat (length bs)) t' /\ with_q t' (q' ++ drop (512 - length q) bs) /\
        pipe_ctx t' = k_wake nread_chan (pipe_ctx t)).
Proof.
  intros [Hc Hl] Hr Hlen Hro Hkill. unfold pipewrite. apply wp_bind.
  eapply (wp_acq (S := pipest)); [done..|]. set (s1 := set_ctx _ s). assert (Hr1 : with_q s1 q) by done.
  destruct (write_bytes_ok (S fuel) s1 q (take (512 - length q) bs) Hr1) as (p' & H1 & H2 & H3);
    [rewrite length_take; lia|].
  apply wp_bind. rewrite <- (take_drop (512 - length q) bs) at 1.
  rewrite (write_bytes_app _ _ _ _ (drop (512 - length q) bs) H1).
  destruct (drop (512 - length q) bs) as [|b rest] eqn:Hd.
  { apply (f_equal length) in Hd. rewrite length_drop in Hd. cbn in Hd. lia. }
  eapply wp_mono; [eapply (wp_write_full fuel _ (pipe_ctx s) i c); try done|by intros ? ? []|].
  - rewrite length_app, length_take. lia.
  - cbn. by rewrite (proj1 H3).
  - intros s2 kk (-> & Hkk). split_and!; [done|done|].
    intros t j cj q' Hidle Hrt Hroom. destruct (Hkk t j cj q' Hidle Hrt Hroom) as (pt & E1 & E2 & E3).
    rewrite E1. cbn [rbind negb]. destruct Hidle as [Hcj Hlj].
    exists (set_pipe_ctx (k_wake nread_chan (pipe_ctx t)) (set_pipe pt t)). split_and!; [|done|done].
    eapply bind_wp; [done|]. eapply bind_wp; [|reflexivity].
    eapply (wp_rel (S := pipest)); [by apply k_wake_acq|exact (ctx_ok_wake nread_chan _ _ _ Hcj)|done|]. done.
Qed.

(** Full, and nobody will ever read, or the writer was killed. *)
Lemma wp_write_broken s i c q b bs fuel :
  pipe_idle s i c -> with_q s q -> length q = 512%nat ->
  readopen (the_pipe s) = 0 \/ me_killed s <> 0 -> pipewrite (S fuel) (b :: bs) s = Ret (-1) s.
Proof.
  intros [Hc Hl] Hr Hlen Hbad.
  assert (wp (pipewrite (S fuel) (b :: bs) s) (fun r t => r = -1 /\ t = s) stays) as H.
  { unfold pipewrite. apply wp_step. eapply (wp_acq (S := pipest)); [done..|]. apply wp_step. cbn [write_bytes].
    apply wp_step. cbn [wait_room]. apply wp_step. cbn [gets wp]. cbn [the_pipe set_ctx pipest_ctx set_pipe_ctx].
    rewrite (rep_full _ _ Hr), bool_decide_eq_true_2 by done. cbn [negb]. apply wp_step.
    destruct (Z.eqb_spec (readopen (the_pipe s)) 0) as [Hro|Hro].
    - cbn [ret wp negb Z.eqb]. apply wp_step. eapply (wp_rel (S := pipest)); [done|exact Hc|done|].
      cbn. split; [done|]. by destruct s.
    - unfold get_killed. apply wp_step. eapply (wp_myproc_ (S := pipest)); [by apply ctx_ok_acq|]. cbn [gets wp].
      destruct Hbad as [?|Hk]; [done|]. apply Z.eqb_neq in Hk. cbn [me_killed set_ctx pipest_ctx set_pipe_ctx].
      rewrite Hk. cbn [negb]. apply wp_step. eapply (wp_rel (S := pipest)); [done|exact Hc|done|].
      cbn. split; [done|]. by destruct s. }
  by apply wp_Ret in H as (r & t & Hrun & -> & ->).
Qed.

(** ** What a pipe promises *)

(** C26 (refinement).  [pipewrite] appends its bytes to the queue the pipe represents,
    whatever the values of the wrapping counters.  When they fit it returns their
    number; when they do not, it fills the pipe, wakes readers, and sleeps on the
    writers' channel with the lock free, and once there is room it appends exactly the rest.  On a full pipe
    without a reader (or when killed) it returns -1. *)
Theorem pipewrite_appends (s : pipest) i c q bs fuel :
  pipe_idle s i c -> with_q s q ->
  ((length q + length bs <= 512)%nat ->
     exists s', pipewrite (S fuel) bs s = Ret (Z.of_nat (length bs)) s' /\ with_q s' (q ++ bs) /\
       same_ends (the_pipe s) (the_pipe s') /\ pipe_ctx s' = k_wake nread_chan (pipe_ctx s)) /\
  ((512 < length q + length bs)%nat -> readopen (the_pipe s) <> 0 -> me_killed s = 0 ->
     exists s1 kk, pipewrite (S (S fuel)) bs s = Swtch s1 kk /\
       with_q s1 (q ++ take (512 - length q) bs) /\ pipe_ctx s1 = k_slept nwrite_chan pipe_lk (k_wake nread_chan (pipe_ctx s)) /\
       forall t j cj q', pipe_idle t j cj -> with_q t q' ->
         (length q' + length (drop (512 - length q) bs) <= 512)%nat ->
         exists t', kk t = Ret (Z.of_nat (length bs)) t' /\ with_q t' (q' ++ drop (512 - length q) bs) /\
           pipe_ctx t' = k_wake nread_chan (pipe_ctx t)) /\
  (length q = 512%nat -> bs <> [] -> readopen (the_pipe s) = 0 \/ me_killed s <> 0 ->
     pipewrite (S fuel) bs s = Ret (-1) s).
Proof.
  intros Hi Hr. split_and!.
  - intros Hl. by eapply write_run.
  - intros Hl Hro Hk. apply wp_Swtch. eapply wp_write_blocks; try done. split; [apply Hr|done].
  - intros Hl Hne Hbad. destruct bs as [|b bs]; [done|]. by eapply wp_write_broken.
Qed.

(** C27 (refinement).  [piperead] of [n] bytes, in every state of the pipe.  From a pipe that
    holds data, or that no writer has open, it returns the first [n] bytes of the queue (fewer
    if there are fewer) and leaves the rest; writers are woken and the lock is free.  On an
    empty pipe that a writer has open it sleeps on the readers' channel, with the lock free and
    the pipe as it was, and whenever it is resumed it starts over with the pipe it finds then;
    if its process has been killed it returns -1 instead, and changes nothing. *)
Theorem piperead_takes (s : pipest) i c q n fuel :
  pipe_idle s i c -> with_q s q ->
  (q <> [] \/ writeopen (the_pipe s) = 0 ->
     exists s', piperead (S fuel) n s = Ret (Some (take n q)) s' /\ with_q s' (drop n q) /\
       same_ends (the_pipe s) (the_pipe s') /\ pipe_ctx s' = k_wake nwrite_chan (pipe_ctx s)) /\
  (q = [] -> writeopen (the_pipe s) <> 0 -> me_killed s = 0 ->
     exists kk, piperead (S fuel) n s = Swtch (set_pipe_ctx (k_slept nread_chan pipe_lk (pipe_ctx s)) s) kk /\
       forall t j cj, pipe_idle t j cj -> kk t = piperead fuel n t) /\
  (q = [] -> writeopen (the_pipe s) <> 0 -> me_killed s <> 0 -> piperead (S fuel) n s = Ret None s).
Proof.
  intros Hi Hr. split_and!.
  - by eapply read_run.
  - intros -> Hw Hk. by eapply read_sleeps.
  - intros -> Hw Hk. by eapply read_killed.
Qed.

End Pipe.

(** A pipe whose counters are about to wrap around. *)
Definition demo_pipe (killed : Z) : pipest :=
  mkpipest (mkctx 0 true [mkcpu 0 1 0 true (Some 0%nat)] ∅ [])
    (mkpipe (replicate 512 0) (2 ^ 32 - 1) (2 ^ 32 - 1) 1 1) killed false.

Lemma demo_pipe_idle k : pipe_idle 0 (demo_pipe k) 0 (mkcpu 0 1 0 true (Some 0%nat)).
Proof. split; [|done]. repeat split; cbn; intros; lia || done. Qed.

Lemma demo_pipe_rep k : with_q (demo_pipe k) [].
Proof. split; try done. cbn. lia. Qed.

Lemma pipewrite_appends_witness :
  exists s', pipewrite 0 1 [104; 105] (demo_pipe 0) = Ret 2 s' /\ with_q s' [104; 105] /\ nwrite (the_pipe s') = 1.
Proof.
  destruct (pipewrite_appends 0 (demo_pipe 0) 0 _ [] [104; 105] 0 (demo_pipe_idle 0) (demo_pipe_rep 0)) as (H & _).
  destruct (H ltac:(cbn; lia)) as (s' & H1 & H2 & _). exists s'. split_and!; [done|done|].
  vm_compute in H1. injection H1 as <-. reflexivity.
Defined.

Lemma piperead_takes_witness :
  (exists s', piperead 0 1 1 (set_pipe (put 105 (put 104 (the_pipe (demo_pipe 0)))) (demo_pipe 0)) = Ret (Some [104]) s' /\
     with_q s' [105]) /\
  exists s1 kk, piperead 0 2 1 (demo_pipe 0) = Swtch s1 kk /\ kk (demo_pipe 1) = Ret None (demo_pipe 1).
Proof.
  split.
  - destruct (piperead_takes 0 (set_pipe (put 105 (put 104 (the_pipe (demo_pipe 0)))) (demo_pipe 0)) 0
      (mkcpu 0 1 0 true (Some 0%nat)) [104; 105] 1 0) as [H _].
    + exact (demo_pipe_idle 0).
    + apply (put_rep _ [104]); [|cbn; lia]. apply (put_rep _ []); [exact (demo_pipe_rep 0)|cbn; lia].
    + destruct H as (s' & H1 & H2 & _); [by left|]. by exists s'.
  - destruct (piperead_takes 0 (demo_pipe 0) 0 _ [] 1 1 (demo_pipe_idle 0) (demo_pipe_rep 0)) as (_ & H & _).
    destruct (H eq_refl) as (kk & H1 & H2); [discriminate|reflexivity|]. eexists _, kk. split; [exact H1|].
    rewrite (H2 (demo_pipe 1) 0%nat _ (demo_pipe_idle 1)). vm_compute. reflexivity.
Defined.
