(* ===== verification/Blocks.v ===== *)
(** * What a buffer cache promises

    The interface between [bio.c] and its clients [log.c] and [fs.c].  The abstract
    value of the cache is [acache]; [BufCache] lists the operations with their laws.
    [BioSpec.v] shows that the cache of [bio.c] is an instance. *)

From Stdlib Require Import ZArith Lia.
From S2P Require Import Prelude Spinlock.

Notation block := (list Z).
Definition BSIZE : Z := 512.
Definition NBUF : nat := 30.

(** [over] has the blocks in the cache that are held or pinned, with their cached
    contents; every other block reads as it is on [disk].  [held] maps a block to its
    buffer.  [awrites] are the writes to the disk so far. *)
Record acache := mkac {
  disk : list block;
  over : gmap Z block;
  held : gmap Z nat;
  pinned : gset Z;
  awrites : list (Z * block)
}.

Definition disk_at (d : list block) (n : Z) : block := if n <? 0 then [] else nth (Z.to_nat n) d [].
(** The contents a reader of the block sees. *)
Definition view (a : acache) (n : Z) : block := default (disk_at (disk a) n) (over a !! n).
Definition busy (a : acache) : gset Z := dom (held a) ∪ pinned a.

Definition ac_read (n : Z) (r : nat) (a : acache) : acache :=
  mkac (disk a) (<[n := view a n]> (over a)) (<[n := r]> (held a)) (pinned a) (awrites a).
Definition ac_set (n : Z) (d : block) (a : acache) : acache :=
  mkac (disk a) (<[n := d]> (over a)) (held a) (pinned a) (awrites a).
Definition ac_pin (n : Z) (a : acache) : acache :=
  mkac (disk a) (over a) (held a) ({[n]} ∪ pinned a) (awrites a).
Definition ac_write (n : Z) (a : acache) : acache :=
  mkac (<[Z.to_nat n := view a n]> (disk a)) (over a) (held a) (pinned a ∖ {[n]}) (awrites a ++ [(n, view a n)]).
Definition ac_release (n : Z) (a : acache) : acache :=
  mkac (disk a) (if decide (n ∈ pinned a) then over a else delete n (over a)) (delete n (held a)) (pinned a) (awrites a).

Record ac_ok (a : acache) : Prop := {
  ac_dom : dom (over a) = busy a;
  ac_len : Forall (fun d => length d = 512%nat) (disk a);
  ac_over : forall n d, over a !! n = Some d -> 0 <= n < Z.of_nat (length (disk a)) /\ length d = 512%nat
}.

(** ** Preservation of [ac_ok] *)

Lemma view_len a n : ac_ok a -> 0 <= n < Z.of_nat (length (disk a)) -> length (view a n) = 512%nat.
Proof.
  intros [_ Hl Ho] Hn. unfold view. destruct (over a !! n) as [d|] eqn:E; cbn; [by eapply Ho|].
  unfold disk_at. rewrite (proj2 (Z.ltb_ge n 0)) by lia. destruct (lookup_lt_is_Some_2 (disk a) (Z.to_nat n)) as [d Hd]; [lia|].
  rewrite (nth_lookup_Some _ _ _ _ Hd). eapply Forall_lookup_1 in Hl; [|exact Hd]. done.
Qed.

Lemma held_over a n r : ac_ok a -> held a !! n = Some r -> exists d, over a !! n = Some d.
Proof.
  intros [Hd _ _] H. assert (Hn : n ∈ dom (over a)).
  { rewrite Hd. unfold busy. apply elem_of_union_l, elem_of_dom. by eexists. }
  by apply elem_of_dom in Hn.
Qed.

Lemma held_range a n r : ac_ok a -> held a !! n = Some r -> 0 <= n < Z.of_nat (length (disk a)).
Proof. intros Ha Hh. destruct (held_over _ _ _ Ha Hh) as [d Hd]. by eapply (ac_over a Ha). Qed.

Lemma over_None a n : ac_ok a -> n ∉ busy a -> over a !! n = None.
Proof. intros [Hd _ _] Hn. apply not_elem_of_dom. by rewrite Hd. Qed.

Lemma ac_read_ok a n r : ac_ok a -> 0 <= n < Z.of_nat (length (disk a)) -> ac_ok (ac_read n r a).
Proof.
  intros Ha Hn. split; cbn.
  - unfold busy in *. cbn. rewrite !dom_insert_L, (ac_dom a Ha). unfold busy. set_solver.
  - apply Ha.
  - intros m d [[<- <-]|[_ Hd]]%lookup_insert_Some; [split; [done|by apply view_len]|by eapply (ac_over a Ha)].
Qed.

Lemma ac_set_ok a n r d : ac_ok a -> held a !! n = Some r -> length d = 512%nat -> ac_ok (ac_set n d a).
Proof.
  intros Ha Hh Hd. assert (Hn := held_range _ _ _ Ha Hh). split; cbn.
  - rewrite dom_insert_L, (ac_dom a Ha). unfold busy. cbn. apply elem_of_dom_2 in Hh. set_solver.
  - apply Ha.
  - intros m e [[<- <-]|[_ He]]%lookup_insert_Some; [done|by eapply (ac_over a Ha)].
Qed.

Lemma ac_pin_ok a n r : ac_ok a -> held a !! n = Some r -> ac_ok (ac_pin n a).
Proof.
  intros Ha Hh. split; cbn; [|apply Ha|apply Ha]. rewrite (ac_dom a Ha). unfold busy. cbn. apply elem_of_dom_2 in Hh. set_solver.
Qed.

Lemma ac_write_ok a n r : ac_ok a -> held a !! n = Some r -> ac_ok (ac_write n a).
Proof.
  intros Ha Hh. assert (Hn := held_range _ _ _ Ha Hh). split; cbn.
  - rewrite (ac_dom a Ha). unfold busy. cbn. apply elem_of_dom_2 in Hh. apply set_eq. intros m.
    destruct (decide (m = n)) as [->|]; set_solver.
  - apply Forall_insert; [apply Ha|by apply view_len].
  - intros m d Hd. rewrite length_insert. by eapply (ac_over a Ha).
Qed.

Lemma ac_release_ok a n : ac_ok a -> ac_ok (ac_release n a).
Proof.
  intros Ha. split; cbn; [|apply Ha|].
  - unfold busy. cbn. rewrite dom_delete_L. case_decide as H.
    + rewrite (ac_dom a Ha). unfold busy. apply set_eq. intros m. destruct (decide (m = n)) as [->|]; set_solver.
    + rewrite dom_delete_L, (ac_dom a Ha). unfold busy. set_solver.
  - intros m d Hd. apply (ac_over a Ha m d). case_decide; [done|]. by apply lookup_delete_Some in Hd as [_ ?].
Qed.

(** What the operations do to the other blocks. *)
Lemma read_other a n r m : m <> n ->
  held (ac_read n r a) !! m = held a !! m /\ (m ∈ pinned (ac_read n r a) <-> m ∈ pinned a) /\ view (ac_read n r a) m = view a m.
Proof. intros H. unfold view. cbn. by rewrite !lookup_insert_ne. Qed.

Lemma view_read a n r : view (ac_read n r a) n = view a n.
Proof. unfold view. cbn. by rewrite lookup_insert_eq. Qed.

Lemma view_set a n d : view (ac_set n d a) n = d.
Proof. unfold view. cbn. by rewrite lookup_insert_eq. Qed.

Lemma set_other a n d m : m <> n ->
  held (ac_set n d a) !! m = held a !! m /\ (m ∈ pinned (ac_set n d a) <-> m ∈ pinned a) /\ view (ac_set n d a) m = view a m.
Proof. intros H. unfold view. cbn. by rewrite !lookup_insert_ne. Qed.

Lemma disk_at_insert_ne d n m x : 0 <= n -> m <> n -> disk_at (<[Z.to_nat n := x]> d) m = disk_at d m.
Proof.
  intros. unfold disk_at. destruct (Z.ltb_spec m 0); [done|]. rewrite !nth_lookup, list_lookup_insert_ne by lia. done.
Qed.

Lemma disk_at_insert_eq d n x : 0 <= n < Z.of_nat (length d) -> disk_at (<[Z.to_nat n := x]> d) n = x.
Proof.
  intros. unfold disk_at. rewrite (proj2 (Z.ltb_ge n 0)) by lia. rewrite nth_lookup, list_lookup_insert_eq by lia. done.
Qed.

Lemma view_write a n : view (ac_write n a) n = default (disk_at (<[Z.to_nat n := view a n]> (disk a)) n) (over a !! n).
Proof. done. Qed.

Lemma write_other a n m : 0 <= n -> m <> n ->
  held (ac_write n a) !! m = held a !! m /\ (m ∈ pinned (ac_write n a) <-> m ∈ pinned a) /\ view (ac_write n a) m = view a m.
Proof. intros Hn H. unfold view at 1. cbn. rewrite disk_at_insert_ne by done. split_and!; [done| |done]. set_solver. Qed.

Lemma release_other a n m : m <> n ->
  held (ac_release n a) !! m = held a !! m /\ (m ∈ pinned (ac_release n a) <-> m ∈ pinned a) /\ view (ac_release n a) m = view a m.
Proof. intros H. unfold view. cbn. case_decide; rewrite !lookup_delete_ne by done; done. Qed.

Lemma view_release a n : n ∈ pinned a \/ view a n = disk_at (disk a) n -> view (ac_release n a) n = view a n.
Proof. intros [H|H]; unfold view in *; cbn; case_decide; try done. by rewrite lookup_delete_eq. Qed.

(** A buffer cache for device [ROOTDEV] with state [B], run on CPU [i] with no spin
    lock held. *)
Class BufCache (B : Type) `{!HasCtx B} := {
  c_bread : Z -> Z -> M B nat;
  c_bwrite : nat -> M B unit;
  c_brelse : nat -> M B unit;
  c_data : nat -> B -> block;
  c_set_data : nat -> block -> B -> B;
  c_blockno : nat -> B -> Z;
  (** [b->flags |= B_DIRTY] *)
  c_pin : nat -> B -> B;

  cache_rep : nat -> cpu -> B -> acache -> Prop;
  rep_ok : forall i c s a, cache_rep i c s a -> ac_ok a;
  rep_idle : forall i c s a, cache_rep i c s a -> ctx_ok (ctx s) i c /\ locks (ctx s) = ∅;
  rep_move : forall i c s a k, cache_rep i c s a -> ctx_ok k i c -> locks k = ∅ -> cache_rep i c (set_ctx k s) a;

  bread_law : forall i c s a n, cache_rep i c s a -> 0 <= n < Z.of_nat (length (disk a)) -> held a !! n = None ->
    n ∈ pinned a \/ (size (busy a) < NBUF)%nat ->
    wp (c_bread 1 n s) (fun r s' => cache_rep i c s' (ac_read n r a)) stays;
  bwrite_law : forall i c s a n r, cache_rep i c s a -> held a !! n = Some r ->
    wp (c_bwrite r s) (fun _ s' => cache_rep i c s' (ac_write n a)) stays;
  brelse_law : forall i c s a n r, cache_rep i c s a -> held a !! n = Some r ->
    n ∈ pinned a \/ view a n = disk_at (disk a) n ->
    wp (c_brelse r s) (fun _ s' => cache_rep i c s' (ac_release n a)) stays;

  data_law : forall i c s a n r, cache_rep i c s a -> held a !! n = Some r -> c_data r s = view a n /\ c_blockno r s = n;
  set_data_law : forall i c s a n r d, cache_rep i c s a -> held a !! n = Some r -> length d = 512%nat ->
    cache_rep i c (c_set_data r d s) (ac_set n d a);
  pin_law : forall i c s a n r, cache_rep i c s a -> held a !! n = Some r -> cache_rep i c (c_pin r s) (ac_pin n a);

  data_ctx : forall r k s, c_data r (set_ctx k s) = c_data r s;
  blockno_ctx : forall r k s, c_blockno r (set_ctx k s) = c_blockno r s;
  pin_ctx : forall r k s, c_pin r (set_ctx k s) = set_ctx k (c_pin r s) /\ ctx (c_pin r s) = ctx s
}.
