(* ===== verification/Bio.v ===== *)
(** * The buffer cache

    Models [bio.c] over the memory disk of [memide.c].  The [NBUF] buffers and the head
    of the LRU list are numbered; [prev] and [next] are these numbers.  Besides the
    cache the state has the disk, and [writes] records the blocks written to it in
    order: what is on the disk after a crash is the effect of a prefix of them. *)

From Stdlib Require Import ZArith Lia.
From S2P Require Import Prelude Spinlock Sleeplock Blocks.

Definition B_VALID : Z := 2.
Definition B_DIRTY : Z := 4.

(** [struct buf], its lock apart; [qnext] belongs to the IDE driver. *)
Record buf := mkbuf { flags : Z; dev : Z; blockno : Z; refcnt : Z; prev : nat; next : nat; bdata : block }.

Definition set_flags (v : Z) (b : buf) : buf := mkbuf v (dev b) (blockno b) (refcnt b) (prev b) (next b) (bdata b).
Definition set_id (d n : Z) (b : buf) : buf := mkbuf (flags b) d n (refcnt b) (prev b) (next b) (bdata b).
Definition set_refcnt (v : Z) (b : buf) : buf := mkbuf (flags b) (dev b) (blockno b) v (prev b) (next b) (bdata b).
Definition set_prev (p : nat) (b : buf) : buf := mkbuf (flags b) (dev b) (blockno b) (refcnt b) p (next b) (bdata b).
Definition set_next (p : nat) (b : buf) : buf := mkbuf (flags b) (dev b) (blockno b) (refcnt b) (prev b) p (bdata b).
Definition set_data (d : block) (b : buf) : buf := mkbuf (flags b) (dev b) (blockno b) (refcnt b) (prev b) (next b) d.

(** [&bcache.head], after the buffers. *)
Definition head : nat := NBUF.

Record bst := mkbst {
  b_ctx : kctx;
  b_sleeps : gmap lockid sleeplock;
  b_pid : Z;
  bufs : list buf;
  memdisk : list block;
  writes : list (Z * block)
}.

Definition set_b_ctx (k : kctx) (s : bst) : bst := mkbst k (b_sleeps s) (b_pid s) (bufs s) (memdisk s) (writes s).
Definition set_b_sleeps (m : gmap lockid sleeplock) (s : bst) : bst := mkbst (b_ctx s) m (b_pid s) (bufs s) (memdisk s) (writes s).
Definition set_bufs (l : list buf) (s : bst) : bst := mkbst (b_ctx s) (b_sleeps s) (b_pid s) l (memdisk s) (writes s).
(** The block [n] is overwritten on the disk. *)
Definition disk_write (n : Z) (d : block) (s : bst) : bst :=
  mkbst (b_ctx s) (b_sleeps s) (b_pid s) (bufs s) (<[Z.to_nat n := d]> (memdisk s)) (writes s ++ [(n, d)]).

#[export] Instance bst_hasctx : HasCtx bst.
Proof. refine {| ctx := b_ctx; set_ctx := set_b_ctx |}; try done. by intros []. Defined.
#[export] Instance bst_hassleep : HasSleep bst.
Proof.
  refine {| sleeps := b_sleeps; set_sleeps := set_b_sleeps; my_pid := b_pid |}; try done. by intros [].
Defined.

Definition bcache_lk : lockid := ("bcache"%string, 0).
(** [&b->lock] *)
Definition buf_lk (b : nat) : lockid := ("buffer"%string, Z.of_nat b).

Definition bget_field {A} (f : buf -> A) (b : nat) : M bst A := fun s =>
  match bufs s !! b with Some x => Ret (f x) s | None => UB "no such buffer" end.
Definition bupd (f : buf -> buf) (b : nat) : M bst unit := fun s =>
  match bufs s !! b with Some x => Ret tt (set_bufs (<[b := f x]> (bufs s)) s) | None => UB "no such buffer" end.

(** The body of the loop of [binit]. *)
Definition binit_one (b : nat) : M bst unit :=
  n <- bget_field next head ;; bupd (set_next n) b ;;
  bupd (set_prev head) b ;;
  initsleeplock (buf_lk b) ;;
  n <- bget_field next head ;; bupd (set_prev b) n ;;
  bupd (set_next b) head.

Definition binit : M bst unit :=
  onctx (initlock bcache_lk) ;;
  bupd (set_prev head) head ;;
  bupd (set_next head) head ;;
  forM (seq 0 NBUF) binit_one.

(** The first loop of [bget], from [b] on; one unit of fuel per buffer. *)
Fixpoint find_cached (fuel : nat) (d n : Z) (b : nat) : M bst (option nat) :=
  match fuel with
  | O => nofuel
  | S fuel =>
      if (b =? head)%nat then ret None else
      dv <- bget_field dev b ;;
      bn <- bget_field blockno b ;;
      if (dv =? d) && (bn =? n) then ret (Some b) else
      b' <- bget_field next b ;;
      find_cached fuel d n b'
  end.

(** The second loop, backwards. *)
Fixpoint find_unused (fuel : nat) (b : nat) : M bst (option nat) :=
  match fuel with
  | O => nofuel
  | S fuel =>
      if (b =? head)%nat then ret None else
      r <- bget_field refcnt b ;;
      fl <- bget_field flags b ;;
      if (r =? 0) && (Z.land fl B_DIRTY =? 0) then ret (Some b) else
      b' <- bget_field prev b ;;
      find_unused fuel b'
  end.

Section Ops.
(** How often [acquiresleep] may find a buffer still taken. *)
Context (waits : nat).

Definition bget (d n : Z) : M bst nat :=
  onctx (acquire bcache_lk) ;;
  b <- bget_field next head ;;
  o <- find_cached (S NBUF) d n b ;;
  match o with
  | Some b =>
      r <- bget_field refcnt b ;; bupd (set_refcnt (u32 (r + 1))) b ;;
      onctx (release bcache_lk) ;;
      acquiresleep waits (buf_lk b) ;;
      ret b
  | None =>
      b <- bget_field prev head ;;
      o <- find_unused (S NBUF) b ;;
      match o with
      | None => panic "bget: no buffers"
      | Some b =>
          bupd (set_id d n) b ;;
          bupd (set_flags 0) b ;;
          bupd (set_refcnt 1) b ;;
          onctx (release bcache_lk) ;;
          acquiresleep waits (buf_lk b) ;;
          ret b
      end
  end.

(** [memide.c] *)
Definition iderw (b : nat) : M bst unit :=
  h <- holdingsleep (buf_lk b) ;;
  if negb h then panic "iderw: buf not locked" else
  fl <- bget_field flags b ;;
  if Z.land fl (Z.lor B_VALID B_DIRTY) =? B_VALID then panic "iderw: nothing to do" else
  d <- bget_field dev b ;;
  if negb (d =? 1) then panic "iderw: request not for disk 1" else
  n <- bget_field blockno b ;;
  disksize <- gets (fun s => Z.of_nat (length (memdisk s))) ;;
  if disksize <=? n then panic "iderw: block out of range" else
  (if negb (Z.land fl B_DIRTY =? 0) then
     bupd (set_flags (Z.land fl (Z.lnot B_DIRTY))) b ;;
     x <- bget_field bdata b ;;
     modify (disk_write n x)
   else
     x <- gets (fun s => disk_at (memdisk s) n) ;;
     bupd (set_data x) b) ;;
  fl <- bget_field flags b ;;
  bupd (set_flags (Z.lor fl B_VALID)) b.

Definition bread (d n : Z) : M bst nat :=
  b <- bget d n ;;
  fl <- bget_field flags b ;;
  when (Z.land fl B_VALID =? 0) (iderw b) ;;
  ret b.

Definition bwrite (b : nat) : M bst unit :=
  h <- holdingsleep (buf_lk b) ;;
  if negb h then panic "bwrite" else
  fl <- bget_field flags b ;;
  bupd (set_flags (Z.lor fl B_DIRTY)) b ;;
  iderw b.

Definition brelse (b : nat) : M bst unit :=
  h <- holdingsleep (buf_lk b) ;;
  if negb h then panic "brelse" else
  releasesleep (buf_lk b) ;;
  onctx (acquire bcache_lk) ;;
  r <- bget_field refcnt b ;; bupd (set_refcnt (u32 (r - 1))) b ;;
  r <- bget_field refcnt b ;;
  when (r =? 0) (
    n <- bget_field next b ;; p <- bget_field prev b ;; bupd (set_prev p) n ;;
    p <- bget_field prev b ;; n <- bget_field next b ;; bupd (set_next n) p ;;
    n <- bget_field next head ;; bupd (set_next n) b ;;
    bupd (set_prev head) b ;;
    n <- bget_field next head ;; bupd (set_prev b) n ;;
    bupd (set_next b) head) ;;
  onctx (release bcache_lk).
End Ops.
