(* ===== verification/BioSpec.v ===== *)
(** * The buffer cache: its list and its abstract value

    The LRU list is a ring through the head.  The abstract value of the cache is the
    disk, the blocks whose cached contents may differ from it, which blocks are held by
    the running thread and which are pinned by the log. *)

From Stdlib Require Import ZArith Lia.
From S2P Require Import Prelude Spinlock Sleeplock Blocks Bio.

(** ** Rings *)

Definition fset (f : nat -> nat) (i v : nat) : nat -> nat := fun j => if decide (j = i) then v else f j.

Lemma fset_eq f i v : fset f i v i = v.
Proof. unfold fset. by rewrite decide_True. Qed.
Lemma fset_ne f i v j : j <> i -> fset f i v j = f j.
Proof. intros. unfold fset. by rewrite decide_False. Qed.

(** From [a] through [l] to [b], forwards by [nx] and backwards by [pv]. *)
Fixpoint seg (nx pv : nat -> nat) (a : nat) (l : list nat) (b : nat) : Prop :=
  match l with
  | [] => nx a = b /\ pv b = a
  | x :: l => nx a = x /\ pv x = a /\ seg nx pv x l b
  end.

Lemma seg_ext nx pv nx' pv' a l b :
  (forall y, y ∈ a :: l -> nx' y = nx y) -> (forall y, y ∈ l ++ [b] -> pv' y = pv y) ->
  seg nx pv a l b -> seg nx' pv' a l b.
Proof.
  revert a. induction l as [|x l IH]; cbn; intros a H1 H2.
  - intros [Hn Hp]. rewrite H1, H2 by set_solver. done.
  - intros (Hn & Hp & Hs). split_and!.
    + rewrite H1 by set_solver. done.
    + rewrite H2 by set_solver. done.
    + apply IH; [..|done]; set_solver.
Qed.

Lemma seg_app nx pv a l1 x l2 b : seg nx pv a (l1 ++ x :: l2) b <-> seg nx pv a l1 x /\ seg nx pv x l2 b.
Proof. revert a. induction l1 as [|y l1 IH]; intros a; cbn; [naive_solver|]. rewrite IH. naive_solver. Qed.

Lemma seg_pred nx pv a l b : seg nx pv a l b -> pv b ∈ a :: l.
Proof.
  revert a. induction l as [|x l IH]; cbn; intros a; [intros [_ ->]; set_solver|]. intros (_ & _ & H%IH). set_solver.
Qed.

Lemma seg_succ nx pv a l b : seg nx pv a l b -> nx a ∈ l ++ [b].
Proof. destruct l; cbn; [intros [-> _]|intros (-> & _)]; set_solver. Qed.

(** Taking [x] out. *)
Lemma seg_unlink nx pv a l1 x l2 b :
  seg nx pv a (l1 ++ x :: l2) b -> NoDup (l1 ++ x :: l2) -> a ∉ l1 ++ x :: l2 -> b ∉ l1 ++ x :: l2 ->
  seg (fset nx (pv x) (nx x)) (fset pv (nx x) (pv x)) a (l1 ++ l2) b.
Proof.
  revert a. induction l1 as [|z l1 IH]; intros a Hs Hn Ha Hb; cbn in *.
  - destruct Hs as (Hnx & Hpv & Hs). rewrite Hpv. apply NoDup_cons in Hn as [Hx Hn]. destruct l2 as [|y l2]; cbn in *.
    + destruct Hs as [-> _]. by rewrite !fset_eq.
    + destruct Hs as (-> & _ & Hs). rewrite !fset_eq. split_and!; [done..|].
      apply NoDup_cons in Hn as [Hy Hn]. eapply seg_ext; [| |exact Hs]; intros w Hw; apply fset_ne; clear -Hw Hy Ha Hb; set_solver.
  - destruct Hs as (Hnx & Hpv & Hs). apply NoDup_cons in Hn as [Hz Hn]. apply not_elem_of_cons in Hb as Hb'. specialize (IH z Hs Hn Hz (proj2 Hb')).
    apply seg_app in Hs as [Hs1 Hs2]. apply seg_pred in Hs1. apply seg_succ in Hs2. split_and!; [..|done].
    + rewrite fset_ne; [done|]. intros E. apply Ha. rewrite E. clear -Hs1. set_solver.
    + rewrite fset_ne; [done|]. intros E. rewrite <- E in Hs2. clear -Hs2 Hz Hb. set_solver.
Qed.

(** Putting [x] in front. *)
Lemma seg_push nx pv a l b x :
  seg nx pv a l b -> x ∉ a :: l ++ [b] -> NoDup l -> a ∉ l -> b ∉ l ->
  seg (fset (fset nx x (nx a)) a x) (fset (fset pv x a) (nx a) x) a (x :: l) b.
Proof.
  intros Hs Hx Hn Ha Hb. cbn. assert (Hsucc := seg_succ _ _ _ _ _ Hs). split_and!.
  - apply fset_eq.
  - rewrite fset_ne by set_solver. apply fset_eq.
  - destruct l as [|y l]; cbn in *.
    + destruct Hs as [-> _]. rewrite (fset_ne _ a), !fset_eq by set_solver. done.
    + destruct Hs as (-> & _ & Hs). apply NoDup_cons in Hn as [Hy Hn]. rewrite (fset_ne _ a), !fset_eq by set_solver. split_and!; [done..|].
      eapply seg_ext; [| |exact Hs]; intros w Hw; rewrite !fset_ne; set_solver.
Qed.

(** ** The links of the buffers *)

Definition nxf (bs : list buf) (i : nat) : nat := match bs !! i with Some x => next x | None => O end.
Definition pvf (bs : list buf) (i : nat) : nat := match bs !! i with Some x => prev x | None => O end.

Lemma nxf_insert bs i x y j : bs !! i = Some x -> nxf (<[i := y]> bs) j = fset (nxf bs) i (next y) j.
Proof.
  intros H. apply lookup_lt_Some in H. unfold nxf, fset. case_decide as E.
  - subst. by rewrite list_lookup_insert_eq.
  - by rewrite list_lookup_insert_ne.
Qed.
Lemma pvf_insert bs i x y j : bs !! i = Some x -> pvf (<[i := y]> bs) j = fset (pvf bs) i (prev y) j.
Proof.
  intros H. apply lookup_lt_Some in H. unfold pvf, fset. case_decide as E.
  - subst. by rewrite list_lookup_insert_eq.
  - by rewrite list_lookup_insert_ne.
Qed.

Lemma bget_field_run {A} (f : buf -> A) b s x : bufs s !! b = Some x -> bget_field f b s = Ret (f x) s.
Proof. intros H. unfold bget_field. by rewrite H. Qed.
Lemma bupd_run f b s x : bufs s !! b = Some x -> bupd f b s = Ret tt (set_bufs (<[b := f x]> (bufs s)) s).
Proof. intros H. unfold bupd. by rewrite H. Qed.

(** ** The scans *)

Definition is_block (s : bst) (d n : Z) (j : nat) : bool :=
  match bufs s !! j with Some x => (dev x =? d) && (blockno x =? n) | None => false end.
Definition is_unused (s : bst) (j : nat) : bool :=
  match bufs s !! j with Some x => (refcnt x =? 0) && (Z.land (flags x) B_DIRTY =? 0) | None => false end.

Lemma find_cached_run s d n : forall l a fuel,
  seg (nxf (bufs s)) (pvf (bufs s)) a l head -> Forall (fun j => j < NBUF)%nat l -> (length l < fuel)%nat ->
  length (bufs s) = S NBUF ->
  find_cached fuel d n (nxf (bufs s) a) s = Ret (List.find (is_block s d n) l) s.
Proof.
  induction l as [|x l IH]; intros a fuel Hs Hb Hf Hlen; (destruct fuel as [|fuel]; [cbn in Hf; lia|]); cbn [seg List.find find_cached] in *.
  - destruct Hs as [-> _]. by rewrite Nat.eqb_refl.
  - destruct Hs as (-> & _ & Hs). apply Forall_cons in Hb as [Hx Hb]. unfold head in *. rewrite (proj2 (Nat.eqb_neq x NBUF)) by lia.
    destruct (lookup_lt_is_Some_2 (bufs s) x) as [y Hy]; [lia|]. unfold is_block at 1.
    run. rewrite (bget_field_run _ _ _ _ Hy), Hy. cbn. rewrite (bget_field_run _ _ _ _ Hy). cbn. destruct (_ && _); [done|].
    rewrite (bget_field_run _ _ _ _ Hy). cbn. replace (next y) with (nxf (bufs s) x) by (unfold nxf; by rewrite Hy).
    apply IH; [done..|cbn in Hf; lia|done].
Qed.

Lemma find_unused_run s a : a = head -> forall l b fuel,
  seg (nxf (bufs s)) (pvf (bufs s)) a l b -> Forall (fun j => j < NBUF)%nat l -> (length l < fuel)%nat ->
  length (bufs s) = S NBUF ->
  find_unused fuel (pvf (bufs s) b) s = Ret (List.find (is_unused s) (reverse l)) s.
Proof.
  intros Ha. induction l as [|x l IH] using rev_ind; intros b fuel Hs Hb Hf Hlen.
  - destruct Hs as [_ ->]. destruct fuel; [cbn in Hf; lia|]. cbn. by rewrite Ha, Nat.eqb_refl.
  - rewrite length_app in Hf. cbn in Hf. destruct fuel as [|fuel]; [lia|]. apply seg_app in Hs as [Hs1 [_ Hp]]. rewrite Hp.
    apply Forall_app in Hb as [Hb [Hx _]%Forall_cons]. cbn [find_unused]. unfold head in *. rewrite (proj2 (Nat.eqb_neq x NBUF)) by lia.
    destruct (lookup_lt_is_Some_2 (bufs s) x) as [y Hy]; [lia|]. rewrite reverse_snoc. cbn [List.find]. unfold is_unused at 1.
    run. rewrite (bget_field_run _ _ _ _ Hy), Hy. cbn. rewrite (bget_field_run _ _ _ _ Hy). cbn. destruct (_ && _); [done|].
    rewrite (bget_field_run _ _ _ _ Hy). cbn. replace (prev y) with (pvf (bufs s) x) by (unfold pvf; by rewrite Hy).
    apply IH; [done..|lia|done].
Qed.

(** ** The abstract value *)

(** The running thread holds the buffer. *)
Definition owned (a : acache) (j : nat) (x : buf) : bool := (dev x =? 1) && bool_decide (held a !! blockno x = Some j).

(** A buffer is unused since boot, or it holds a block: its contents are what readers
    see, it is dirty exactly if pinned, referenced and locked exactly if held. *)
Record buf_ok (s : bst) (a : acache) (j : nat) (x : buf) : Prop := {
  bo_use : (dev x = 0 /\ flags x = 0) \/
    (dev x = 1 /\ 0 <= blockno x < Z.of_nat (length (disk a)) /\ bdata x = view a (blockno x) /\
     flags x = if decide (blockno x ∈ pinned a) then 6 else 2);
  bo_ref : refcnt x = if owned a j x then 1 else 0;
  bo_lock : sl_get (buf_lk j) s = if owned a j x then mksleep 1 (b_pid s) else zero_sleep
}.

Record bio_rep (i : nat) (c : cpu) (s : bst) (a : acache) (lru : list nat) : Prop := {
  br_ctx : ctx_ok (b_ctx s) i c;
  br_locks : locks (b_ctx s) = ∅;
  br_len : length (bufs s) = S NBUF;
  br_lru : lru ≡ₚ seq 0 NBUF;
  br_ring : seg (nxf (bufs s)) (pvf (bufs s)) head lru head;
  br_disk : memdisk s = disk a;
  br_writes : writes s = awrites a;
  br_ok : ac_ok a;
  br_buf : forall j x, (j < NBUF)%nat -> bufs s !! j = Some x -> buf_ok s a j x;
  br_uniq : forall j k x y, (j < NBUF)%nat -> (k < NBUF)%nat -> bufs s !! j = Some x -> bufs s !! k = Some y ->
    dev x = 1 -> dev y = 1 -> blockno x = blockno y -> j = k;
  br_busy : forall n, n ∈ busy a -> exists j x, (j < NBUF)%nat /\ bufs s !! j = Some x /\ dev x = 1 /\ blockno x = n /\
    (forall k, held a !! n = Some k -> k = j)
}.

(** One buffer and its lock, and perhaps the disk, have changed. *)
Definition upd_buf (j : nat) (y : buf) (v : sleeplock) (md : list block) (ws : list (Z * block)) (s : bst) : bst :=
  mkbst (b_ctx s) (<[buf_lk j := v]> (b_sleeps s)) (b_pid s) (<[j := y]> (bufs s)) md ws.

Lemma buf_lk_inj j k : buf_lk j = buf_lk k -> j = k.
Proof. unfold buf_lk. intros [= H]. lia. Qed.

Lemma lru_bound lru : lru ≡ₚ seq 0 NBUF -> Forall (fun j => j < NBUF)%nat lru.
Proof. intros ->. apply Forall_forall. intros j Hj%elem_of_seq. lia. Qed.

Lemma lru_in lru j : lru ≡ₚ seq 0 NBUF -> (j < NBUF)%nat -> j ∈ lru.
Proof. intros -> Hj. apply elem_of_seq. lia. Qed.

(** The buffer [j] now holds the block [n]; for every other block the abstract value is
    unchanged. *)
Lemma rep_upd i c s a lru j x y v a' n :
  bio_rep i c s a lru -> (j < NBUF)%nat -> bufs s !! j = Some x -> prev y = prev x -> next y = next x ->
  dev y = 1 -> blockno y = n ->
  (forall k z, k <> j -> (k < NBUF)%nat -> bufs s !! k = Some z -> dev z = 1 -> blockno z <> n) ->
  (dev x = 1 -> blockno x <> n -> blockno x ∉ busy a) ->
  length (disk a') = length (disk a) -> ac_ok a' ->
  (forall m, m <> n -> held a' !! m = held a !! m /\ (m ∈ pinned a' <-> m ∈ pinned a) /\ view a' m = view a m) ->
  (forall k, held a' !! n = Some k -> k = j) ->
  buf_ok (upd_buf j y v (disk a') (awrites a') s) a' j y ->
  bio_rep i c (upd_buf j y v (disk a') (awrites a') s) a' lru.
Proof.
  intros Hr Hj Hx Hpv Hnx Hdy Hby Huniq Hold Hdl Hok Hm Hn Hy. assert (Hlt := lookup_lt_Some _ _ _ Hx).
  assert (Hat : forall k z, (<[j := y]> (bufs s)) !! k = Some z -> k <> j -> bufs s !! k = Some z).
  { intros k z Hk Hne. by rewrite list_lookup_insert_ne in Hk. }
  split; cbn [upd_buf b_ctx bufs memdisk writes]; try (by apply Hr); try done.
  - rewrite length_insert. apply Hr.
  - eapply seg_ext; [| |apply Hr]; intros k _.
    + rewrite (nxf_insert _ _ _ _ _ Hx). unfold fset. case_decide; [subst|done]. unfold nxf. by rewrite Hx.
    + rewrite (pvf_insert _ _ _ _ _ Hx). unfold fset. case_decide; [subst|done]. unfold pvf. by rewrite Hx.
  - intros k z Hk Hz. destruct (decide (k = j)) as [->|Hne].
    { rewrite list_lookup_insert_eq in Hz by done. by injection Hz as <-. }
    apply Hat in Hz; [|done]. destruct (br_buf _ _ _ _ _ Hr k z Hk Hz) as [H1 H2 H3].
    assert (Ho : owned a' k z = owned a k z).
    { unfold owned. destruct (Z.eqb_spec (dev z) 1); [|done]. cbn. by destruct (Hm (blockno z)) as [-> _]; [by eapply Huniq|]. }
    split.
    + destruct H1 as [H1|(E1 & E2 & E3 & E4)]; [by left|right].
      destruct (Hm (blockno z)) as (_ & Hp & Hv); [by eapply Huniq|]. rewrite Hv, Hdl. split_and!; [done|lia|lia|done|].
      rewrite E4. repeat case_decide; naive_solver.
    + by rewrite Ho.
    + rewrite Ho. cbn [upd_buf b_pid]. rewrite <- H3. unfold sl_get. cbn. rewrite lookup_insert_ne; [done|]. by intros ?%buf_lk_inj.
  - intros k1 k2 z1 z2 Hk1 Hk2 Hz1 Hz2 Hd1 Hd2 Hb. destruct (decide (k1 = j)) as [->|H1], (decide (k2 = j)) as [->|H2]; [done|..].
    + rewrite list_lookup_insert_eq in Hz1 by done. injection Hz1 as <-. exfalso. eapply (Huniq k2 z2); eauto. congruence.
    + rewrite list_lookup_insert_eq in Hz2 by done. injection Hz2 as <-. exfalso. eapply (Huniq k1 z1); eauto. congruence.
    + eapply (br_uniq _ _ _ _ _ Hr k1 k2); eauto.
  - intros m Hbm. destruct (decide (m = n)) as [->|Hne].
    + exists j, y. rewrite list_lookup_insert_eq by done. by split_and!.
    + destruct (Hm m Hne) as (Hh & Hp & _). assert (Hbm' : m ∈ busy a).
      { unfold busy in *. rewrite elem_of_union, elem_of_dom in *. rewrite <- Hh. naive_solver. }
      destruct (br_busy _ _ _ _ _ Hr m Hbm') as (k & z & Hk & Hz & Hdz & Hbz & Hu). exists k, z.
      rewrite Hh, list_lookup_insert_ne; [by split_and!|]. intros <-. simplify_eq. by apply Hold.
Qed.
