(* ===== verification/BioOps.v ===== *)
(** * The buffer cache: the operations

    [bread], [bwrite] and [brelse] of [bio.c] against the abstract value of
    [BioSpec.v], and the instance of [BufCache]. *)

From Stdlib Require Import ZArith Lia.
From S2P Require Import Prelude Spinlock Sleeplock Blocks Bio BioSpec.

Lemma wp_bf {A} (f : buf -> A) b s x Q W : bufs s !! b = Some x -> Q (f x) s -> wp (bget_field f b s) Q W.
Proof. intros H HQ. eapply wp_eq; [by apply bget_field_run|done]. Qed.
Lemma wp_bu f b s x Q W : bufs s !! b = Some x -> Q tt (set_bufs (<[b := f x]> (bufs s)) s) -> wp (bupd f b s) Q W.
Proof. intros H HQ. eapply wp_eq; [by apply bupd_run|done]. Qed.

Lemma find_In (P : nat -> bool) l j : List.find P l = Some j -> j ∈ l /\ P j = true.
Proof. intros H%List.find_some. rewrite list_elem_of_In. done. Qed.
Lemma find_not_In (P : nat -> bool) l j : List.find P l = None -> j ∈ l -> P j = false.
Proof. intros H Hj. eapply List.find_none; [done|by apply list_elem_of_In]. Qed.

Section Ops.
Context (waits : nat) (i : nat) (c : cpu).
Implicit Types (s : bst) (a : acache) (lru : list nat).

Lemma buf_at s a lru j : bio_rep i c s a lru -> (j < S NBUF)%nat -> exists x, bufs s !! j = Some x.
Proof. intros Hr Hj. apply lookup_lt_is_Some_2. rewrite (br_len _ _ _ _ _ Hr). done. Qed.

Lemma rep_sl_idle s a lru l : bio_rep i c s a lru -> sl_idle s i c l.
Proof. intros Hr. split; [apply Hr|]. cbn. by rewrite (br_locks _ _ _ _ _ Hr). Qed.

(** Buffers that are neither referenced nor dirty are free to recycle, and as long as
    fewer than [NBUF] blocks are held or pinned there is one. *)
Lemma busy_buf s a lru j x : bio_rep i c s a lru -> (j < NBUF)%nat -> bufs s !! j = Some x ->
  is_unused s j = negb ((dev x =? 1) && (bool_decide (blockno x ∈ pinned a) || owned a j x)).
Proof.
  intros Hr Hj Hx. destruct (br_buf _ _ _ _ _ Hr j x Hj Hx) as [Hu Href _]. unfold is_unused. rewrite Hx, Href.
  destruct Hu as [[Hd Hf]|(Hd & _ & _ & Hf)].
  - rewrite Hf, Hd. unfold owned. rewrite Hd. done.
  - rewrite Hf, Hd. destruct (owned a j x); cbn; [by rewrite orb_true_r|]. rewrite orb_false_r.
    case_decide as H; [by rewrite bool_decide_eq_true_2|by rewrite bool_decide_eq_false_2].
Qed.

Lemma busy_of s a lru j x : bio_rep i c s a lru -> (j < NBUF)%nat -> bufs s !! j = Some x ->
  is_unused s j = false -> dev x = 1 /\ blockno x ∈ busy a.
Proof.
  intros Hr Hj Hx Hu. rewrite (busy_buf _ _ _ _ _ Hr Hj Hx) in Hu. apply negb_false_iff, andb_true_iff in Hu as [Hd Hu].
  apply Z.eqb_eq in Hd. split; [done|]. unfold busy. apply elem_of_union. apply orb_true_iff in Hu as [Hp|Ho].
  - right. by apply bool_decide_eq_true in Hp.
  - left. unfold owned in Ho. apply andb_true_iff in Ho as [_ Ho]. apply bool_decide_eq_true in Ho. by apply elem_of_dom_2 in Ho.
Qed.

Lemma some_unused s a lru : bio_rep i c s a lru -> (size (busy a) < NBUF)%nat -> is_Some (List.find (is_unused s) (reverse lru)).
Proof.
  intros Hr Hsz. destruct (List.find (is_unused s) (reverse lru)) as [j|] eqn:E; [by exists j|]. exfalso.
  set (f := fun j => match bufs s !! j with Some x => blockno x | None => -1 end).
  assert (Hin : forall j, (j < NBUF)%nat -> exists x, bufs s !! j = Some x /\ dev x = 1 /\ blockno x ∈ busy a).
  { intros j Hj. destruct (buf_at _ _ _ j Hr) as [x Hx]; [lia|]. exists x. split; [done|].
    eapply busy_of; [done..|]. eapply find_not_In; [exact E|]. apply elem_of_reverse. by eapply lru_in; [apply Hr|]. }
  assert (Hnd : NoDup (f <$> seq 0 NBUF)).
  { apply NoDup_fmap_2_strong; [|apply NoDup_seq]. intros j k [_ Hj]%elem_of_seq [_ Hk]%elem_of_seq Hf.
    destruct (Hin j) as (x & Hx & Hdx & _); [lia|]. destruct (Hin k) as (y & Hy & Hdy & _); [lia|].
    eapply (br_uniq _ _ _ _ _ Hr); eauto; try lia. unfold f in Hf. by rewrite Hx, Hy in Hf. }
  assert (Hsub : list_to_set (f <$> seq 0 NBUF) ⊆ busy a).
  { intros n. rewrite elem_of_list_to_set, list_elem_of_fmap. intros (j & -> & [_ Hj]%elem_of_seq).
    destruct (Hin j) as (x & Hx & _ & Hb); [lia|]. unfold f. by rewrite Hx. }
  apply subseteq_size in Hsub. rewrite size_list_to_set in Hsub by done. rewrite length_fmap, length_seq in Hsub. lia.
Qed.

(** *** [bget] *)

Definition locked_buf (j : nat) (y : buf) s : bst := upd_buf j y (mksleep 1 (b_pid s)) (memdisk s) (writes s) s.

Lemma wp_acquire_buf s j Q W :
  sl_idle s i c (buf_lk j) -> sl_get (buf_lk j) s = zero_sleep ->
  Q tt (sl_put (buf_lk j) (mksleep 1 (b_pid s)) s) -> wp (acquiresleep (S waits) (buf_lk j) s) Q W.
Proof. intros Hi Hz HQ. eapply wp_eq; [|exact HQ]. exact (acquiresleep_free s i c _ waits Hi (f_equal sl_locked Hz)). Qed.

Lemma first_buf s a lru : bio_rep i c s a lru -> exists h, bufs s !! head = Some h /\ next h = nxf (bufs s) head /\ prev h = pvf (bufs s) head.
Proof.
  intros Hr. destruct (buf_at _ _ _ head Hr) as [h Hh]; [unfold head; lia|]. exists h. unfold nxf, pvf. by rewrite Hh.
Qed.

Lemma scan_cached s a lru k n : bio_rep i c s a lru ->
  find_cached (S NBUF) 1 n (nxf (bufs s) head) (set_ctx k s) = Ret (List.find (is_block s 1 n) lru) (set_ctx k s).
Proof.
  intros Hr. refine (find_cached_run (set_ctx k s) 1 n lru head (S NBUF) _ _ _ _); [apply Hr|by eapply lru_bound, Hr| |apply Hr].
  rewrite (br_lru _ _ _ _ _ Hr), length_seq. lia.
Qed.

Lemma scan_unused s a lru k : bio_rep i c s a lru ->
  find_unused (S NBUF) (pvf (bufs s) head) (set_ctx k s) = Ret (List.find (is_unused s) (reverse lru)) (set_ctx k s).
Proof.
  intros Hr. refine (find_unused_run (set_ctx k s) head eq_refl lru head (S NBUF) _ _ _ _); [apply Hr|by eapply lru_bound, Hr| |apply Hr].
  rewrite (br_lru _ _ _ _ _ Hr), length_seq. lia.
Qed.

Lemma wp_bget_hit s a lru n j x Q W :
  bio_rep i c s a lru -> List.find (is_block s 1 n) lru = Some j -> bufs s !! j = Some x -> held a !! n = None ->
  Q j (locked_buf j (set_refcnt 1 x) s) -> wp (bget (S waits) 1 n s) Q W.
Proof.
  intros Hr Hf Hx Hh HQ. destruct (first_buf _ _ _ Hr) as (h & Hhd & Hnx & _). unfold bget.
  assert (Hl0 : forall l, locks (b_ctx s) !! l = None) by (intros l; by rewrite (br_locks _ _ _ _ _ Hr)).
  destruct (find_In _ _ _ Hf) as [Hin Hb]. assert (Hj : (j < NBUF)%nat) by (exact (Forall_at _ _ _ (lru_bound _ (br_lru _ _ _ _ _ Hr)) Hin)).
  unfold is_block in Hb. rewrite Hx in Hb. apply andb_true_iff in Hb as [Hd%Z.eqb_eq Hbn%Z.eqb_eq].
  destruct (br_buf _ _ _ _ _ Hr j x Hj Hx) as [_ Href Hlk].
  assert (Ho : owned a j x = false) by (unfold owned; rewrite Hbn, Hh, Hd; done). rewrite Ho in Href, Hlk.
  apply wp_step. eapply (wp_acq _ _ i c); [apply Hr|apply Hl0|]. apply wp_step. eapply wp_bf; [exact Hhd|]. rewrite Hnx.
  apply wp_step. eapply wp_eq; [eapply scan_cached, Hr|]. rewrite Hf.
  apply wp_step. eapply wp_bf; [exact Hx|]. apply wp_step. eapply wp_bu; [exact Hx|]. rewrite Href. change (u32 (0 + 1)) with 1.
  apply wp_step. eapply wp_rel; [reflexivity|apply Hr|apply Hl0|]. apply wp_step.
  eapply wp_acquire_buf; [split; [apply Hr|apply Hl0]|exact Hlk|]. cbn [ret wp]. by destruct s.
Qed.

Lemma wp_bget_miss s a lru n j x Q W :
  bio_rep i c s a lru -> List.find (is_block s 1 n) lru = None -> List.find (is_unused s) (reverse lru) = Some j -> bufs s !! j = Some x ->
  Q j (locked_buf j (set_refcnt 1 (set_flags 0 (set_id 1 n x))) s) -> wp (bget (S waits) 1 n s) Q W.
Proof.
  intros Hr Hf Hu Hx HQ. destruct (first_buf _ _ _ Hr) as (h & Hhd & Hnx & Hpv). unfold bget.
  assert (Hl0 : forall l, locks (b_ctx s) !! l = None) by (intros l; by rewrite (br_locks _ _ _ _ _ Hr)).
  destruct (find_In _ _ _ Hu) as [Hin Hun]. rewrite elem_of_reverse in Hin.
  assert (Hj : (j < NBUF)%nat) by (exact (Forall_at _ _ _ (lru_bound _ (br_lru _ _ _ _ _ Hr)) Hin)).
  destruct (br_buf _ _ _ _ _ Hr j x Hj Hx) as [_ Href Hlk].
  assert (Ho : owned a j x = false).
  { rewrite (busy_buf _ _ _ _ _ Hr Hj Hx) in Hun. destruct (owned a j x) eqn:E; [|done]. unfold owned in E.
    apply andb_true_iff in E as [E _]. rewrite E, orb_true_r in Hun. done. }
  rewrite Ho in Hlk. assert (Hjl := lookup_lt_Some _ _ _ Hx).
  apply wp_step. eapply (wp_acq _ _ i c); [apply Hr|apply Hl0|]. apply wp_step. eapply wp_bf; [exact Hhd|]. rewrite Hnx.
  apply wp_step. eapply wp_eq; [eapply scan_cached, Hr|]. rewrite Hf.
  apply wp_step. eapply wp_bf; [exact Hhd|]. rewrite Hpv. apply wp_step. eapply wp_eq; [eapply scan_unused, Hr|]. rewrite Hu.
  apply wp_step. eapply wp_bu; [exact Hx|]. apply wp_step. eapply wp_bu; [cbn; by rewrite list_lookup_insert_eq|].
  apply wp_step. eapply wp_bu; [cbn; rewrite list_lookup_insert_eq by (by rewrite length_insert); reflexivity|].
  apply wp_step. eapply wp_rel; [reflexivity|apply Hr|apply Hl0|]. apply wp_step.
  eapply wp_acquire_buf; [split; [apply Hr|apply Hl0]|exact Hlk|]. cbn [ret wp]. destruct s. cbn. by rewrite !list_insert_insert_eq.
Qed.

(** *** [iderw] *)

Lemma wp_holding_buf s j Q W :
  sl_idle s i c (buf_lk j) -> sl_get (buf_lk j) s = mksleep 1 (b_pid s) -> Q true s -> wp (holdingsleep (buf_lk j) s) Q W.
Proof.
  intros Hi Hl HQ. eapply wp_eq; [exact (holdingsleep_run s i c _ Hi)|]. rewrite Hl. cbn. by rewrite Z.eqb_refl.
Qed.

Lemma wp_iderw_read s j x Q W :
  sl_idle s i c (buf_lk j) -> sl_get (buf_lk j) s = mksleep 1 (b_pid s) -> bufs s !! j = Some x ->
  flags x = 0 -> dev x = 1 -> blockno x < Z.of_nat (length (memdisk s)) ->
  Q tt (set_bufs (<[j := set_flags 2 (set_data (disk_at (memdisk s) (blockno x)) x)]> (bufs s)) s) -> wp (iderw j s) Q W.
Proof.
  intros Hi Hl Hx Hf Hd Hn HQ. assert (Hjl := lookup_lt_Some _ _ _ Hx). unfold iderw. apply wp_step. eapply wp_holding_buf; [done..|].
  cbn [negb]. apply wp_step. eapply wp_bf; [exact Hx|]. rewrite Hf. cbn [Z.land Z.eqb]. apply wp_step. eapply wp_bf; [exact Hx|].
  rewrite Hd. cbn [Z.eqb Pos.eqb negb]. apply wp_step. eapply wp_bf; [exact Hx|]. apply wp_step. cbn [gets wp].
  rewrite (proj2 (Z.leb_gt _ _)) by lia. apply wp_step. apply wp_step. cbn [gets wp]. eapply wp_bu; [exact Hx|].
  apply wp_step. eapply wp_bf; [cbn; by rewrite list_lookup_insert_eq|]. eapply wp_bu; [cbn; by rewrite list_lookup_insert_eq|].
  cbn [set_data flags]. rewrite Hf. destruct s. cbn in *. by rewrite list_insert_insert_eq.
Qed.

Lemma wp_iderw_write s j x Q W :
  sl_idle s i c (buf_lk j) -> sl_get (buf_lk j) s = mksleep 1 (b_pid s) -> bufs s !! j = Some x ->
  flags x = 6 -> dev x = 1 -> blockno x < Z.of_nat (length (memdisk s)) ->
  Q tt (disk_write (blockno x) (bdata x) (set_bufs (<[j := set_flags 2 x]> (bufs s)) s)) -> wp (iderw j s) Q W.
Proof.
  intros Hi Hl Hx Hf Hd Hn HQ. assert (Hjl := lookup_lt_Some _ _ _ Hx). unfold iderw. apply wp_step. eapply wp_holding_buf; [done..|].
  cbn [negb]. apply wp_step. eapply wp_bf; [exact Hx|]. rewrite Hf. change (Z.land 6 (Z.lor B_VALID B_DIRTY) =? B_VALID) with false. cbn iota.
  apply wp_step. eapply wp_bf; [exact Hx|].
  rewrite Hd. cbn [Z.eqb Pos.eqb negb]. apply wp_step. eapply wp_bf; [exact Hx|]. apply wp_step. cbn [gets wp].
  rewrite (proj2 (Z.leb_gt _ _)) by lia. change (negb (Z.land 6 B_DIRTY =? 0)) with true. cbn iota.
  apply wp_step. apply wp_step. eapply wp_bu; [exact Hx|]. apply wp_step. eapply wp_bf; [cbn; by rewrite list_lookup_insert_eq|].
  cbn [modify wp]. apply wp_step. eapply wp_bf; [cbn; by rewrite list_lookup_insert_eq|].
  eapply wp_bu; [cbn; by rewrite list_lookup_insert_eq|]. destruct s. cbn in *. by rewrite list_insert_insert_eq.
Qed.

(** *** [bread] *)

Lemma sl_get_upd j y v md ws s : sl_get (buf_lk j) (upd_buf j y v md ws s) = v.
Proof. unfold sl_get. cbn. by rewrite lookup_insert_eq. Qed.

Lemma rep_read s a lru j x y n :
  bio_rep i c s a lru -> (j < NBUF)%nat -> bufs s !! j = Some x -> 0 <= n < Z.of_nat (length (disk a)) -> held a !! n = None ->
  (forall k z, k <> j -> (k < NBUF)%nat -> bufs s !! k = Some z -> dev z = 1 -> blockno z <> n) ->
  (dev x = 1 -> blockno x <> n -> blockno x ∉ busy a) ->
  prev y = prev x -> next y = next x -> dev y = 1 -> blockno y = n -> refcnt y = 1 -> bdata y = view a n ->
  flags y = (if decide (n ∈ pinned a) then 6 else 2) ->
  bio_rep i c (locked_buf j y s) (ac_read n j a) lru.
Proof.
  intros Hr Hj Hx Hn Hh Hu Ho Hp Hnx Hd Hb Href Hdata Hfl. unfold locked_buf.
  rewrite (br_disk _ _ _ _ _ Hr), (br_writes _ _ _ _ _ Hr).
  change (disk a) with (disk (ac_read n j a)). change (awrites a) with (awrites (ac_read n j a)).
  eapply rep_upd; [exact Hr|done|exact Hx|done..|apply ac_read_ok; [apply Hr|done]|intros m; apply read_other| |].
  - cbn. intros k. rewrite lookup_insert_eq. by intros [= ->].
  - assert (How : owned (ac_read n j a) j y = true).
    { unfold owned. rewrite Hd, Hb. cbn. rewrite lookup_insert_eq. by rewrite bool_decide_eq_true_2. }
    split; rewrite ?How; [|done|apply sl_get_upd]. right. rewrite Hb, view_read. exact (conj Hd (conj Hn (conj Hdata Hfl))).
Qed.

Lemma wp_bread s a lru n Q W :
  bio_rep i c s a lru -> 0 <= n < Z.of_nat (length (disk a)) -> held a !! n = None ->
  n ∈ pinned a \/ is_Some (List.find (is_unused s) (reverse lru)) ->
  (forall j s', (j < NBUF)%nat -> bio_rep i c s' (ac_read n j a) lru ->
     (List.find (is_block s 1 n) lru = Some j \/
      (List.find (is_block s 1 n) lru = None /\ List.find (is_unused s) (reverse lru) = Some j)) -> Q j s') ->
  wp (bread (S waits) 1 n s) Q W.
Proof.
  intros Hr Hn Hh Hbusy HQ. unfold bread. apply wp_step.
  assert (Hb : forall k z, (k < NBUF)%nat -> bufs s !! k = Some z -> dev z = 1 -> blockno z = n -> is_block s 1 n k = true).
  { intros k z Hk Hz Hd Hbn. unfold is_block. by rewrite Hz, Hd, Hbn, !Z.eqb_refl. }
  destruct (List.find (is_block s 1 n) lru) as [j|] eqn:Hf.
  - destruct (find_In _ _ _ Hf) as [Hin Hbl]. assert (Hj : (j < NBUF)%nat) by (exact (Forall_at _ _ _ (lru_bound _ (br_lru _ _ _ _ _ Hr)) Hin)).
    destruct (buf_at _ _ _ j Hr) as [x Hx]; [lia|]. eapply wp_bget_hit; [exact Hr|exact Hf|exact Hx|done|].
    unfold is_block in Hbl. rewrite Hx in Hbl. apply andb_true_iff in Hbl as [Hd%Z.eqb_eq Hbn%Z.eqb_eq].
    destruct (br_buf _ _ _ _ _ Hr j x Hj Hx) as [[[Hd0 _]|(_ & _ & Hdata & Hfl)] _ _]; [congruence|]. rewrite Hbn in Hdata, Hfl.
    apply wp_step. eapply wp_bf; [cbn; by rewrite list_lookup_insert_eq by (by eapply lookup_lt_Some)|]. cbn [set_refcnt flags].
    replace (Z.land (flags x) B_VALID =? 0) with false by (rewrite Hfl; by case_decide).
    apply wp_step. cbn [when ret wp]. apply HQ; [done| |by left]. eapply rep_read; eauto; try done.
    intros k z Hne Hk Hz Hdz Hbz. destruct Hne. eapply (br_uniq _ _ _ _ _ Hr k j); eauto. congruence.
  - assert (Hnc : forall k z, (k < NBUF)%nat -> bufs s !! k = Some z -> dev z = 1 -> blockno z <> n).
    { intros k z Hk Hz Hd Hbn. assert (H := find_not_In _ _ k Hf (lru_in _ _ (br_lru _ _ _ _ _ Hr) Hk)). by rewrite (Hb k z) in H. }
    assert (Hnb : n ∉ busy a).
    { intros Hin. destruct (br_busy _ _ _ _ _ Hr n Hin) as (k & z & Hk & Hz & Hd & Hbz & _). by eapply Hnc. }
    destruct Hbusy as [Hp|[j Hu]]; [destruct Hnb; unfold busy; set_solver|].
    destruct (find_In _ _ _ Hu) as [Hin Hun]. rewrite elem_of_reverse in Hin.
    assert (Hj : (j < NBUF)%nat) by (exact (Forall_at _ _ _ (lru_bound _ (br_lru _ _ _ _ _ Hr)) Hin)).
    destruct (buf_at _ _ _ j Hr) as [x Hx]; [lia|]. eapply wp_bget_miss; [exact Hr|exact Hf|exact Hu|exact Hx|].
    set (x1 := set_refcnt 1 (set_flags 0 (set_id 1 n x))). assert (Hjl := lookup_lt_Some _ _ _ Hx).
    assert (Hx1 : bufs (locked_buf j x1 s) !! j = Some x1) by (cbn; by rewrite list_lookup_insert_eq).
    apply wp_step. eapply wp_bf; [exact Hx1|]. cbn [x1 set_refcnt set_flags flags Z.land Z.eqb when]. apply wp_step.
    eapply wp_iderw_read; [split; [apply Hr|]|apply sl_get_upd|exact Hx1|done|done| |].
    { cbn. by rewrite (br_locks _ _ _ _ _ Hr). }
    { cbn. rewrite (br_disk _ _ _ _ _ Hr). lia. }
    cbn [ret wp].
    replace (set_bufs _ (locked_buf j x1 s)) with (locked_buf j (set_flags 2 (set_data (disk_at (memdisk s) n) x1)) s)
      by (unfold locked_buf, upd_buf, set_bufs; cbn; by rewrite list_insert_insert_eq).
    apply HQ; [done| |by right]. eapply rep_read; eauto; try done.
    + intros Hdx _. rewrite (busy_buf _ _ _ _ _ Hr Hj Hx), Hdx in Hun. cbn in Hun. apply negb_true_iff, orb_false_iff in Hun as [Hp Ho].
      unfold busy. rewrite not_elem_of_union. split; [|by apply bool_decide_eq_false in Hp].
      intros Hdm%elem_of_dom. destruct Hdm as [k Hk]. destruct (br_busy _ _ _ _ _ Hr (blockno x)) as (k' & z & Hk' & Hz & Hdz & Hbz & Hun).
      { unfold busy. apply elem_of_union_l, elem_of_dom. by eexists. }
      assert (k' = j) as -> by (eapply (br_uniq _ _ _ _ _ Hr k' j); eauto). rewrite (Hun k Hk) in Hk. unfold owned in Ho. by rewrite Hdx, Hk, bool_decide_eq_true_2 in Ho.
    + cbn. unfold view. rewrite (over_None a n); [|apply Hr|done]. by rewrite (br_disk _ _ _ _ _ Hr).
    + cbn. rewrite decide_False; [done|]. intros Hp. apply Hnb. unfold busy. set_solver.
Qed.

Lemma bread_no_buffers s a lru n :
  bio_rep i c s a lru -> List.find (is_block s 1 n) lru = None -> List.find (is_unused s) (reverse lru) = None ->
  bread (S waits) 1 n s = Panic "bget: no buffers".
Proof.
  intros Hr Hf Hu. destruct (first_buf _ _ _ Hr) as (h & Hhd & Hnx & Hpv).
  assert (Hl0 : forall l, locks (b_ctx s) !! l = None) by (intros l; by rewrite (br_locks _ _ _ _ _ Hr)).
  assert (Ha : onctx (acquire bcache_lk) s = Ret tt (set_ctx (k_acq bcache_lk i (ctx s)) s)) by (apply (acq_step s i c); [apply Hr|apply Hl0]).
  unfold bread, bget. unfold bind at 1. rewrite (bind_Ret _ _ _ _ _ Ha).
  assert (Hrun : forall (m : M bst nat) t msg, m t = Panic msg -> rbind (m t) (fun b => fl <- bget_field flags b ;; when (Z.land fl B_VALID =? 0) (iderw b) ;; ret b) = Panic msg)
    by (intros m t msg ->; done). apply Hrun.
  set (t := set_ctx _ s). assert (Hhd' : bufs t !! head = Some h) by done.
  rewrite (bind_Ret _ _ _ _ _ (bget_field_run next head t h Hhd')), Hnx.
  assert (E1 := scan_cached s a lru (k_acq bcache_lk i (ctx s)) n Hr). assert (E2 := scan_unused s a lru (k_acq bcache_lk i (ctx s)) Hr).
  fold t in E1, E2. rewrite (bind_Ret _ _ _ _ _ E1), Hf.
  rewrite (bind_Ret _ _ _ _ _ (bget_field_run prev head t h Hhd')), Hpv.
  by rewrite (bind_Ret _ _ _ _ _ E2), Hu.
Qed.

(** *** Held buffers *)

Lemma held_buf s a lru n r : bio_rep i c s a lru -> held a !! n = Some r ->
  exists x, (r < NBUF)%nat /\ bufs s !! r = Some x /\ dev x = 1 /\ blockno x = n /\ owned a r x = true /\ refcnt x = 1 /\
    sl_get (buf_lk r) s = mksleep 1 (b_pid s) /\ bdata x = view a n /\ flags x = (if decide (n ∈ pinned a) then 6 else 2) /\
    (forall k z, k <> r -> (k < NBUF)%nat -> bufs s !! k = Some z -> dev z = 1 -> blockno z <> n).
Proof.
  intros Hr Hh. destruct (br_busy _ _ _ _ _ Hr n) as (j & x & Hj & Hx & Hd & Hb & Hu).
  { unfold busy. apply elem_of_union_l, elem_of_dom. by eexists. }
  specialize (Hu r Hh) as ->. destruct (br_buf _ _ _ _ _ Hr j x Hj Hx) as [Huse Href Hlk].
  assert (Ho : owned a j x = true) by (unfold owned; rewrite Hd, Hb, Hh; by rewrite bool_decide_eq_true_2).
  rewrite Ho in Href, Hlk. destruct Huse as [[? _]|(_ & _ & Hdata & Hfl)]; [congruence|]. rewrite Hb in Hdata, Hfl.
  exists x. split_and!; try done. intros k z Hne Hk Hz Hdz Hbz. destruct Hne. eapply (br_uniq _ _ _ _ _ Hr k j); eauto. congruence.
Qed.

Lemma upd_same_lock s r y v : sl_get (buf_lk r) s = v -> sl_locked v <> 0 ->
  set_bufs (<[r := y]> (bufs s)) s = upd_buf r y v (memdisk s) (writes s) s.
Proof.
  intros Hl Hv. unfold upd_buf, set_bufs. f_equal. symmetry. apply insert_id. unfold sl_get in Hl. cbn in Hl.
  destruct (b_sleeps s !! buf_lk r) as [w|] eqn:E; cbn in Hl; [by subst|]. subst v. done.
Qed.

(** A held buffer with new contents or flags. *)
Lemma rep_held s a lru n r x y a' :
  bio_rep i c s a lru -> held a !! n = Some r -> bufs s !! r = Some x ->
  prev y = prev x -> next y = next x -> dev y = 1 -> blockno y = n -> refcnt y = 1 ->
  length (disk a') = length (disk a) -> ac_ok a' ->
  (forall m, m <> n -> held a' !! m = held a !! m /\ (m ∈ pinned a' <-> m ∈ pinned a) /\ view a' m = view a m) ->
  held a' !! n = Some r -> bdata y = view a' n -> flags y = (if decide (n ∈ pinned a') then 6 else 2) ->
  bio_rep i c (upd_buf r y (mksleep 1 (b_pid s)) (disk a') (awrites a') s) a' lru.
Proof.
  intros Hr Hh Hx Hp Hn Hd Hb Href Hlen Hok Hother Hh' Hdata Hfl.
  destruct (held_buf _ _ _ _ _ Hr Hh) as (x' & Hj & Hx' & Hdx & Hbx & _ & _ & _ & _ & _ & Huniq). assert (x' = x) as -> by congruence.
  eapply (rep_upd _ _ _ _ _ r x y _ a' n); [exact Hr|done|exact Hx|done|done|done|done|done| |done|done|done| |].
  - intros _ Hne. by destruct Hne.
  - intros k Hk. congruence.
  - assert (How : owned a' r y = true) by (unfold owned; rewrite Hd, Hb, Hh'; by rewrite bool_decide_eq_true_2).
    split; rewrite ?How; [|done|apply sl_get_upd]. right. rewrite Hb, Hlen. split_and!; try done; by eapply held_range; [apply Hr|].
Qed.

Definition c_set (r : nat) (d : block) s : bst :=
  match bufs s !! r with Some x => set_bufs (<[r := set_data d x]> (bufs s)) s | None => s end.
Definition c_dirty (r : nat) s : bst :=
  match bufs s !! r with Some x => set_bufs (<[r := set_flags (Z.lor (flags x) B_DIRTY) x]> (bufs s)) s | None => s end.

Lemma rep_set_data s a lru n r d :
  bio_rep i c s a lru -> held a !! n = Some r -> length d = 512%nat -> bio_rep i c (c_set r d s) (ac_set n d a) lru.
Proof.
  intros Hr Hh Hd. destruct (held_buf _ _ _ _ _ Hr Hh) as (x & Hj & Hx & Hdx & Hbx & _ & Href & Hlk & _ & Hfl & _).
  unfold c_set. rewrite Hx, (upd_same_lock _ _ _ _ Hlk), (br_disk _ _ _ _ _ Hr), (br_writes _ _ _ _ _ Hr) by done.
  change (disk a) with (disk (ac_set n d a)). change (awrites a) with (awrites (ac_set n d a)).
  eapply rep_held; [exact Hr|exact Hh|exact Hx|done..|by eapply ac_set_ok; [apply Hr|..]|intros m; apply set_other|done|by rewrite view_set|done].
Qed.

Lemma rep_pin s a lru n r :
  bio_rep i c s a lru -> held a !! n = Some r -> bio_rep i c (c_dirty r s) (ac_pin n a) lru.
Proof.
  intros Hr Hh. destruct (held_buf _ _ _ _ _ Hr Hh) as (x & Hj & Hx & Hdx & Hbx & _ & Href & Hlk & Hdata & Hfl & _).
  unfold c_dirty. rewrite Hx, (upd_same_lock _ _ _ _ Hlk), (br_disk _ _ _ _ _ Hr), (br_writes _ _ _ _ _ Hr) by done.
  change (disk a) with (disk (ac_pin n a)). change (awrites a) with (awrites (ac_pin n a)).
  eapply rep_held; [exact Hr|exact Hh|exact Hx|done..|by eapply ac_pin_ok; [apply Hr|..]| |done|done|].
  - intros m Hm. split_and!; [done| |done]. cbn. set_solver.
  - cbn [set_flags flags ac_pin pinned]. rewrite Hfl, (decide_True (P := n ∈ {[n]} ∪ pinned a)) by set_solver. by case_decide.
Qed.

Lemma wp_bwrite s a lru n r Q W :
  bio_rep i c s a lru -> held a !! n = Some r ->
  (forall s', bio_rep i c s' (ac_write n a) lru -> Q tt s') -> wp (bwrite r s) Q W.
Proof.
  intros Hr Hh HQ. destruct (held_buf _ _ _ _ _ Hr Hh) as (x & Hj & Hx & Hdx & Hbx & _ & Href & Hlk & Hdata & Hfl & _).
  assert (Hn := held_range _ _ _ (br_ok _ _ _ _ _ Hr) Hh). assert (Hjl := lookup_lt_Some _ _ _ Hx).
  unfold bwrite. apply wp_step. eapply wp_holding_buf; [by eapply rep_sl_idle|done|]. cbn [negb]. apply wp_step. eapply wp_bf; [exact Hx|].
  apply wp_step. eapply wp_bu; [exact Hx|].
  eapply wp_iderw_write; [exact (rep_sl_idle _ _ _ _ Hr)|exact Hlk|cbn; by rewrite list_lookup_insert_eq| |done| |].
  { cbn. rewrite Hfl. by case_decide. }
  { cbn. rewrite (br_disk _ _ _ _ _ Hr), Hbx. lia. }
  assert (E : disk_write n (bdata x) (set_bufs (<[r := set_flags 2 x]> (bufs s)) s) =
    upd_buf r (set_flags 2 x) (mksleep 1 (b_pid s)) (disk (ac_write n a)) (awrites (ac_write n a)) s).
  { rewrite (upd_same_lock _ _ _ _ Hlk) by done. unfold disk_write, upd_buf. cbn.
    by rewrite (br_disk _ _ _ _ _ Hr), (br_writes _ _ _ _ _ Hr), Hdata. }
  replace (disk_write _ _ _) with (disk_write n (bdata x) (set_bufs (<[r := set_flags 2 x]> (bufs s)) s))
    by (unfold disk_write, set_bufs; cbn; by rewrite list_insert_insert_eq, Hbx).
  rewrite E. apply HQ. eapply rep_held; [exact Hr|exact Hh|exact Hx|done..| |by eapply ac_write_ok; [apply Hr|]| |done| |].
  - apply length_insert.
  - intros m Hm. apply write_other; [lia|done].
  - cbn [set_flags bdata]. rewrite Hdata. destruct (held_over _ _ _ (br_ok _ _ _ _ _ Hr) Hh) as [d Hd]. unfold view. cbn. by rewrite Hd.
  - cbn [set_flags flags ac_write pinned]. rewrite decide_False; [done|]. set_solver.
Qed.

(** *** [brelse] *)

Definition meta (x : buf) : Z * Z * Z * Z * block := (flags x, dev x, blockno x, refcnt x, bdata x).

(** Only links of buffers have changed between [s0] and [s]. *)
Record relinked (s0 : bst) (nx pv : nat -> nat) (s : bst) : Prop := {
  rl_nx : forall k, nxf (bufs s) k = nx k;
  rl_pv : forall k, pvf (bufs s) k = pv k;
  rl_meta : meta <$> bufs s = meta <$> bufs s0;
  rl_rest : s = set_bufs (bufs s) s0
}.

Lemma relinked_len s0 nx pv s : relinked s0 nx pv s -> length (bufs s) = length (bufs s0).
Proof. intros H. by rewrite <- (length_fmap meta), (rl_meta _ _ _ _ H), length_fmap. Qed.

Lemma wp_get_next s0 nx pv s b Q W :
  relinked s0 nx pv s -> (b < length (bufs s0))%nat -> Q (nx b) s -> wp (bget_field next b s) Q W.
Proof.
  intros Hl Hb HQ. rewrite <- (relinked_len _ _ _ _ Hl) in Hb. destruct (lookup_lt_is_Some_2 _ _ Hb) as [x Hx].
  eapply wp_bf; [exact Hx|]. rewrite <- (rl_nx _ _ _ _ Hl) in HQ. unfold nxf in HQ. by rewrite Hx in HQ.
Qed.
Lemma wp_get_prev s0 nx pv s b Q W :
  relinked s0 nx pv s -> (b < length (bufs s0))%nat -> Q (pv b) s -> wp (bget_field prev b s) Q W.
Proof.
  intros Hl Hb HQ. rewrite <- (relinked_len _ _ _ _ Hl) in Hb. destruct (lookup_lt_is_Some_2 _ _ Hb) as [x Hx].
  eapply wp_bf; [exact Hx|]. rewrite <- (rl_pv _ _ _ _ Hl) in HQ. unfold pvf in HQ. by rewrite Hx in HQ.
Qed.

Lemma relinked_set s0 nx pv s b x y :
  relinked s0 nx pv s -> bufs s !! b = Some x -> meta y = meta x ->
  relinked s0 (fset nx b (next y)) (fset pv b (prev y)) (set_bufs (<[b := y]> (bufs s)) s).
Proof.
  intros [H1 H2 H3 H4] Hx Hm. split.
  - intros k. cbn. rewrite (nxf_insert _ _ _ _ _ Hx). unfold fset. case_decide; [done|apply H1].
  - intros k. cbn. rewrite (pvf_insert _ _ _ _ _ Hx). unfold fset. case_decide; [done|apply H2].
  - cbn. rewrite list_fmap_insert, <- H3. apply list_insert_id. by rewrite list_lookup_fmap, Hx, Hm.
  - rewrite H4. done.
Qed.

Lemma relinked_ext s0 nx pv nx' pv' s :
  relinked s0 nx pv s -> (forall k, nx' k = nx k) -> (forall k, pv' k = pv k) -> relinked s0 nx' pv' s.
Proof. intros [H1 H2 H3 H4] Hn Hp. split; [intros k; by rewrite Hn|intros k; by rewrite Hp|done|done]. Qed.

Lemma wp_set_next s0 nx pv s b v Q W :
  relinked s0 nx pv s -> (b < length (bufs s0))%nat -> (forall s', relinked s0 (fset nx b v) pv s' -> Q tt s') ->
  wp (bupd (set_next v) b s) Q W.
Proof.
  intros Hl Hb HQ. rewrite <- (relinked_len _ _ _ _ Hl) in Hb. destruct (lookup_lt_is_Some_2 _ _ Hb) as [x Hx].
  eapply wp_bu; [exact Hx|]. apply HQ. eapply relinked_ext; [exact (relinked_set _ _ _ _ _ _ (set_next v x) Hl Hx eq_refl)|done|].
  intros k. unfold fset. case_decide; [|done]. subst. cbn. rewrite <- (rl_pv _ _ _ _ Hl). unfold pvf. by rewrite Hx.
Qed.
Lemma wp_set_prev s0 nx pv s b v Q W :
  relinked s0 nx pv s -> (b < length (bufs s0))%nat -> (forall s', relinked s0 nx (fset pv b v) s' -> Q tt s') ->
  wp (bupd (set_prev v) b s) Q W.
Proof.
  intros Hl Hb HQ. rewrite <- (relinked_len _ _ _ _ Hl) in Hb. destruct (lookup_lt_is_Some_2 _ _ Hb) as [x Hx].
  eapply wp_bu; [exact Hx|]. apply HQ. eapply relinked_ext; [exact (relinked_set _ _ _ _ _ _ (set_prev v x) Hl Hx eq_refl)| |done].
  intros k. unfold fset. case_decide; [|done]. subst. cbn. rewrite <- (rl_nx _ _ _ _ Hl). unfold nxf. by rewrite Hx.
Qed.

Lemma rep_relinked s a lru nx pv s' lru' :
  bio_rep i c s a lru -> relinked s nx pv s' -> lru' ≡ₚ lru -> seg nx pv head lru' head -> bio_rep i c s' a lru'.
Proof.
  intros Hr Hl Hp Hs. assert (Hm : forall k x, bufs s' !! k = Some x -> exists y, bufs s !! k = Some y /\ meta x = meta y).
  { intros k x Hx. assert (E := f_equal (lookup k) (rl_meta _ _ _ _ Hl)). rewrite !list_lookup_fmap, Hx in E.
    destruct (bufs s !! k) as [y|] eqn:Hy; cbn in E; [|done]. exists y. split; [done|]. by apply (inj Some) in E. }
  assert (Hlen := relinked_len _ _ _ _ Hl).
  assert (Hrest : b_ctx s' = b_ctx s /\ b_sleeps s' = b_sleeps s /\ b_pid s' = b_pid s /\ memdisk s' = memdisk s /\ writes s' = writes s)
    by (rewrite (rl_rest _ _ _ _ Hl); done). destruct Hrest as (E1 & E2 & E3 & E4 & E5).
  split; rewrite ?E1, ?E4, ?E5, ?Hlen, ?Hp; try (by apply Hr).
  - eapply seg_ext; [| |exact Hs]; intros k _; apply Hl.
  - intros j x Hj Hx. destruct (Hm j x Hx) as (y & Hy & [= F1 F2 F3 F4 F5]). destruct (br_buf _ _ _ _ _ Hr j y Hj Hy) as [H1 H2 H3].
    assert (Ho : owned a j x = owned a j y) by (unfold owned; by rewrite F2, F3).
    split; rewrite ?Ho, ?F1, ?F2, ?F3, ?F4, ?F5; [done|done|]. unfold sl_get in *. cbn in *. by rewrite E2, E3.
  - intros j k x y Hj Hk Hx Hy. destruct (Hm j x Hx) as (x' & Hx' & [= F1 F2 F3 F4 F5]).
    destruct (Hm k y Hy) as (y' & Hy' & [= G1 G2 G3 G4 G5]). rewrite F2, F3, G2, G3. by apply (br_uniq _ _ _ _ _ Hr j k).
  - intros n Hn. destruct (br_busy _ _ _ _ _ Hr n Hn) as (j & y & Hj & Hy & Hd & Hb & Hu).
    destruct (lookup_lt_is_Some_2 (bufs s') j) as [x Hx]; [rewrite Hlen; by eapply lookup_lt_Some|].
    destruct (Hm j x Hx) as (y' & Hy' & [= F1 F2 F3 F4 F5]). exists j, x.
    assert (y' = y) as -> by congruence. by split_and!; [..|congruence|congruence|].
Qed.

Lemma rep_ctx s a lru k : bio_rep i c s a lru -> ctx_ok k i c -> locks k = ∅ -> bio_rep i c (set_ctx k s) a lru.
Proof.
  intros Hr Hk Hl. split; try (by apply Hr); try done. intros j x Hj Hx. by destruct (br_buf _ _ _ _ _ Hr j x Hj Hx).
Qed.

Lemma relinked_ctx s0 nx pv s k : relinked s0 nx pv s -> relinked (set_ctx k s0) nx pv (set_ctx k s).
Proof. intros [H1 H2 H3 H4]. split; try done. rewrite H4. done. Qed.

Lemma relinked_refl s : relinked s (nxf (bufs s)) (pvf (bufs s)) s.
Proof. split; try done. by destruct s. Qed.

Lemma rep_release s a lru n r x :
  bio_rep i c s a lru -> held a !! n = Some r -> bufs s !! r = Some x -> n ∈ pinned a \/ view a n = disk_at (disk a) n ->
  bio_rep i c (upd_buf r (set_refcnt 0 x) zero_sleep (memdisk s) (writes s) s) (ac_release n a) lru.
Proof.
  intros Hr Hh Hx Hv. destruct (held_buf _ _ _ _ _ Hr Hh) as (x' & Hj & Hx' & Hdx & Hbx & _ & _ & _ & Hdata & Hfl & Huniq).
  assert (x' = x) as -> by congruence. rewrite (br_disk _ _ _ _ _ Hr), (br_writes _ _ _ _ _ Hr).
  change (disk a) with (disk (ac_release n a)). change (awrites a) with (awrites (ac_release n a)).
  eapply (rep_upd _ _ _ _ _ r x (set_refcnt 0 x) _ (ac_release n a) n); [exact Hr|done|exact Hx|done|done|done|done|done| |done| |intros m; apply release_other| |].
  - intros _ Hne. by destruct Hne.
  - apply ac_release_ok, Hr.
  - cbn. intros k. by rewrite lookup_delete_eq.
  - assert (Ho : owned (ac_release n a) r (set_refcnt 0 x) = false).
    { unfold owned. cbn. rewrite Hbx, lookup_delete_eq, bool_decide_eq_false_2 by done. apply andb_false_r. }
    split; rewrite ?Ho; [|done|apply sl_get_upd]. right. cbn [set_refcnt dev blockno bdata flags]. rewrite Hbx, view_release by done.
    exact (conj Hdx (conj (held_range _ _ _ (br_ok _ _ _ _ _ Hr) Hh) (conj Hdata Hfl))).
Qed.

(** The links of a buffer moved to the front. *)
Lemma wp_move_front s0 s b l1 l2 Q W :
  relinked s0 (nxf (bufs s0)) (pvf (bufs s0)) s -> length (bufs s0) = S NBUF ->
  seg (nxf (bufs s0)) (pvf (bufs s0)) head (l1 ++ b :: l2) head -> NoDup (head :: l1 ++ b :: l2) -> Forall (fun j => j < NBUF)%nat (l1 ++ b :: l2) ->
  (forall nx pv s', relinked s0 nx pv s' -> seg nx pv head (b :: l1 ++ l2) head -> Q tt s') ->
  wp ((n <- bget_field next b ;; p <- bget_field prev b ;; bupd (set_prev p) n ;;
       p <- bget_field prev b ;; n <- bget_field next b ;; bupd (set_next n) p ;;
       n <- bget_field next head ;; bupd (set_next n) b ;;
       bupd (set_prev head) b ;;
       n <- bget_field next head ;; bupd (set_prev b) n ;;
       bupd (set_next b) head) s) Q W.
Proof.
  intros Hl Hlen Hs Hnd Hbd HQ. set (nx := nxf (bufs s0)) in *. set (pv := pvf (bufs s0)) in *.
  apply NoDup_cons in Hnd as [Hhd Hnd]. assert (Hs' := Hs). apply seg_app in Hs' as [Hs1 Hs2].
  assert (Hp := seg_pred _ _ _ _ _ Hs1). assert (Hn := seg_succ _ _ _ _ _ Hs2).
  assert (Hin : forall k, k ∈ head :: l1 ++ b :: l2 -> (k < length (bufs s0))%nat).
  { intros k. rewrite Hlen, elem_of_cons. intros [->|Hk]; [unfold head; lia|]. pose proof (Forall_at _ _ _ Hbd Hk). cbn in *. lia. }
  assert (Hbh : b <> head) by (intros ->; apply Hhd; set_solver).
  assert (Hnb : nx b <> b).
  { intros E. rewrite E in Hn. apply NoDup_app in Hnd as (_ & _ & [Hb _]%NoDup_cons). set_solver. }
  assert (Hpb : pv b <> b).
  { intros E. rewrite E in Hp. apply NoDup_app in Hnd as (_ & Hd & _). apply elem_of_cons in Hp as [?|Hp]; [done|]. apply (Hd b); set_solver. }
  assert (Lb : (b < length (bufs s0))%nat) by (apply Hin; set_solver).
  assert (Lh : (head < length (bufs s0))%nat) by (apply Hin; set_solver).
  assert (Lp : (pv b < length (bufs s0))%nat) by (apply Hin; set_solver).
  assert (Ln : (nx b < length (bufs s0))%nat) by (apply Hin; set_solver).
  apply wp_step. eapply wp_get_next; [exact Hl|done|]. apply wp_step. eapply wp_get_prev; [exact Hl|done|]. apply wp_step.
  eapply wp_set_prev; [exact Hl|done|]. intros t1 H1. apply wp_step. eapply wp_get_prev; [exact H1|done|].
  apply wp_step. eapply wp_get_next; [exact H1|done|]. rewrite fset_ne by done. apply wp_step. eapply wp_set_next; [exact H1|done|]. intros t2 H2.
  assert (Hs2' := seg_unlink _ _ _ _ _ _ _ Hs Hnd Hhd Hhd). set (nx2 := fset nx (pv b) (nx b)) in *. set (pv2 := fset pv (nx b) (pv b)) in *.
  assert (Ln2 : (nx2 head < length (bufs s0))%nat).
  { apply Hin. apply seg_succ in Hs2'. set_solver. }
  apply wp_step. eapply wp_get_next; [exact H2|done|]. apply wp_step. eapply wp_set_next; [exact H2|done|]. intros t3 H3.
  apply wp_step. eapply wp_set_prev; [exact H3|done|]. intros t4 H4. apply wp_step. eapply wp_get_next; [exact H4|done|].
  rewrite (fset_ne nx2 b) by done. apply wp_step. eapply wp_set_prev; [exact H4|done|]. intros t5 H5.
  eapply wp_set_next; [exact H5|done|]. intros t6 H6. eapply HQ; [exact H6|]. apply seg_push; [done| |..].
  - apply NoDup_app in Hnd as (_ & Hd & [Hb _]%NoDup_cons). specialize (Hd b). set_solver.
  - apply NoDup_app in Hnd as (Hn1 & Hd & [_ Hn2]%NoDup_cons). apply NoDup_app. split_and!; [done| |done]. set_solver.
  - set_solver.
  - set_solver.
Qed.

(** The list with [r] moved to the front. *)
Definition to_front (r : nat) (lru : list nat) : list nat := r :: filter (fun k => k <> r) lru.

Lemma filter_same (P : nat -> Prop) `{!forall k, Decision (P k)} (l : list nat) : (forall k, k ∈ l -> P k) -> filter P l = l.
Proof.
  induction l as [|x l IH]; intros Hl; [done|]. rewrite filter_cons_True by (apply Hl; set_solver). f_equal. apply IH. set_solver.
Qed.

Lemma to_front_split r l1 l2 : NoDup (l1 ++ r :: l2) -> to_front r (l1 ++ r :: l2) = r :: l1 ++ l2.
Proof.
  intros Hn. unfold to_front. f_equal. rewrite filter_app, filter_cons_False by (intros H; by apply H).
  apply NoDup_app in Hn as (_ & Hd & [Hr _]%NoDup_cons).
  rewrite !filter_same; [done|..]; intros k Hk ->; [done|]. apply (Hd r); set_solver.
Qed.

Lemma wp_brelse s a lru n r Q W :
  bio_rep i c s a lru -> held a !! n = Some r -> n ∈ pinned a \/ view a n = disk_at (disk a) n ->
  (forall s', bio_rep i c s' (ac_release n a) (to_front r lru) -> Q tt s') -> wp (brelse r s) Q W.
Proof.
  intros Hr Hh Hv HQ. destruct (held_buf _ _ _ _ _ Hr Hh) as (x & Hj & Hx & Hdx & Hbx & _ & Href & Hlk & Hdata & Hfl & _).
  assert (Hl0 : forall l, locks (b_ctx s) !! l = None) by (intros l; by rewrite (br_locks _ _ _ _ _ Hr)).
  assert (Hjl := lookup_lt_Some _ _ _ Hx). set (k' := k_wake (buf_lk r) (b_ctx s)).
  assert (Hk' : ctx_ok k' i c) by (apply ctx_ok_wake, Hr). assert (Hl' : locks k' = ∅) by apply Hr.
  unfold brelse. apply wp_step. eapply wp_holding_buf; [by eapply rep_sl_idle|done|]. cbn [negb]. apply wp_step.
  eapply wp_eq; [exact (releasesleep_run s i c _ (rep_sl_idle _ _ _ _ Hr))|]. fold k'.
  apply wp_step. eapply (wp_acq _ _ i c); [done|exact (Hl0 _)|].
  apply wp_step. eapply wp_bf; [exact Hx|]. apply wp_step. eapply wp_bu; [exact Hx|].
  apply wp_step. eapply wp_bf; [cbn; by rewrite list_lookup_insert_eq|]. rewrite Href. cbn [set_refcnt refcnt]. change (u32 (1 - 1)) with 0. cbn [Z.eqb when].
  set (s1 := upd_buf r (set_refcnt 0 x) zero_sleep (memdisk s) (writes s) s).
  assert (Hr1 : bio_rep i c s1 (ac_release n a) lru) by (by apply rep_release). set (K := k_acq bcache_lk i k').
  match goal with |- wp (bind _ _ ?t) _ _ => replace t with (set_ctx K s1) end.
  2: { unfold s1, upd_buf. cbn. unfold set_b_ctx, set_bufs. cbn. done. }
  assert (Hin := lru_in _ _ (br_lru _ _ _ _ _ Hr) Hj). apply list_elem_of_split in Hin as (l1 & l2 & ->).
  assert (Hnd : NoDup (head :: l1 ++ r :: l2)).
  { apply NoDup_cons. split; [|rewrite (br_lru _ _ _ _ _ Hr); apply NoDup_seq]. intros Hin.
    pose proof (Forall_at _ _ _ (lru_bound _ (br_lru _ _ _ _ _ Hr)) Hin). cbn in *. unfold head in *. lia. }
  apply wp_step. eapply (wp_move_front (set_ctx K s1)); [apply relinked_refl|apply Hr1|apply Hr1|done|by eapply lru_bound, Hr|].
  intros nx pv s2 Hl2 Hs2.
  assert (Hctx : ctx s2 = K) by (rewrite (rl_rest _ _ _ _ Hl2); done).
  eapply wp_rel; [exact Hctx|exact Hk'|exact (Hl0 _)|]. apply HQ.
  assert (Hnd' : NoDup (l1 ++ r :: l2)) by (by apply NoDup_cons in Hnd as [_ ?]). rewrite to_front_split by done.
  eapply (rep_relinked (set_ctx k' s1)); [by apply rep_ctx|exact (relinked_ctx _ _ _ _ k' Hl2)| |exact Hs2].
  by rewrite Permutation_middle.
Qed.
End Ops.

(** ** [bio.c] is a buffer cache *)

#[export, refine] Instance bio_cache (waits : nat) : BufCache bst := {|
  c_bread := bread (S waits);
  c_bwrite := bwrite;
  c_brelse := brelse;
  c_data := fun r s => match bufs s !! r with Some x => bdata x | None => [] end;
  c_set_data := c_set;
  c_blockno := fun r s => match bufs s !! r with Some x => blockno x | None => 0 end;
  c_pin := c_dirty;
  cache_rep := fun i c s a => exists lru, bio_rep i c s a lru
|}.
Proof.
  - intros i c s a [lru Hr]. apply Hr.
  - intros i c s a [lru Hr]. split; apply Hr.
  - intros i c s a k [lru Hr] Hk Hl. exists lru. by apply rep_ctx.
  - intros i c s a n [lru Hr] Hn Hh Hb. eapply wp_bread; [exact Hr|done|done| |].
    { destruct Hb as [Hb|Hb]; [by left|right]. by eapply some_unused. }
    intros j s' _ Hr' _. by exists lru.
  - intros i c s a n r [lru Hr] Hh. eapply wp_bwrite; [exact Hr|done|]. intros s' Hr'. by exists lru.
  - intros i c s a n r [lru Hr] Hh Hv. eapply wp_brelse; [exact Hr|done|done|]. intros s' Hr'. by eexists.
  - intros i c s a n r [lru Hr] Hh. destruct (held_buf _ _ _ _ _ _ _ Hr Hh) as (x & _ & Hx & _ & Hb & _ & _ & _ & Hd & _). by rewrite Hx.
  - intros i c s a n r d [lru Hr] Hh Hd. exists lru. by apply rep_set_data.
  - intros i c s a n r [lru Hr] Hh. exists lru. by apply rep_pin.
  - done.
  - done.
  - intros r k s. unfold c_dirty. cbn. by destruct (bufs s !! r).
Defined.
