(* ===== verification/BioTheorems.v ===== *)
(** * The buffer cache: the theorems

    [binit] sets the cache up, and the properties of [bread], [bwrite] and [brelse]. *)

From Stdlib Require Import ZArith Lia.
From S2P Require Import Prelude Spinlock Sleeplock Blocks Bio BioSpec BioOps.

(** ** [binit] *)

Definition zero_buf : buf := mkbuf 0 0 0 0 0 0 (replicate 512 0).
(** The state at boot: zeroed memory, and a disk. *)
Definition boot_bst (k : kctx) (pid : Z) (md : list block) : bst :=
  mkbst k ∅ pid (replicate (S NBUF) zero_buf) md [].
Definition boot_ac (md : list block) : acache := mkac md ∅ ∅ ∅ [].

Definition after_init (b : nat) (s : bst) : bst :=
  sl_put (buf_lk b) zero_sleep (set_ctx (lk_set (inner (buf_lk b)) zero_lock (ctx s)) s).

Lemma initsleeplock_run b s : initsleeplock (buf_lk b) s = Ret tt (after_init b s).
Proof.
  unfold initsleeplock. run. unfold after_init, sl_put, sl_get, onctx. cbn. unfold set_b_sleeps, set_b_ctx. cbn.
  rewrite !lookup_insert_eq. cbn. by rewrite !insert_insert_eq.
Qed.

Lemma relinked_init s0 nx pv s b : relinked s0 nx pv s -> relinked (after_init b s0) nx pv (after_init b s).
Proof. intros [H1 H2 H3 H4]. split; try done. rewrite H4. done. Qed.

Record booting (i : nat) (c : cpu) (pid : Z) (md : list block) (n : nat) (s : bst) : Prop := {
  bt_ctx : ctx_ok (b_ctx s) i c;
  bt_locks : locks (b_ctx s) = ∅;
  bt_sleeps : forall l, sl_get l s = zero_sleep;
  bt_meta : meta <$> bufs s = replicate (S NBUF) (meta zero_buf);
  bt_ring : seg (nxf (bufs s)) (pvf (bufs s)) head (reverse (seq 0 n)) head;
  bt_rest : b_pid s = pid /\ memdisk s = md /\ writes s = []
}.

Lemma booting_len i c pid md n s : booting i c pid md n s -> length (bufs s) = S NBUF.
Proof. intros H. by rewrite <- (length_fmap meta), (bt_meta _ _ _ _ _ _ H), length_replicate. Qed.

Lemma wp_binit_one i c pid md n s : (n < NBUF)%nat -> booting i c pid md n s ->
  wp (binit_one n s) (fun _ s' => booting i c pid md (S n) s') stays.
Proof.
  intros Hn Hb. assert (Hlen := booting_len _ _ _ _ _ _ Hb). assert (Hl0 := relinked_refl s).
  set (nx := nxf (bufs s)) in *. set (pv := pvf (bufs s)) in *.
  assert (Lh : (head < length (bufs s))%nat) by (rewrite Hlen; unfold head; lia).
  assert (Lb : (n < length (bufs s))%nat) by lia. assert (Hnh : n <> head) by (unfold head; lia).
  assert (Hnot : forall k, k ∈ reverse (seq 0 n) -> (k < n)%nat) by (intros k; rewrite elem_of_reverse, elem_of_seq; lia).
  assert (Ln : (nx head < length (bufs s))%nat).
  { pose proof (seg_succ _ _ _ _ _ (bt_ring _ _ _ _ _ _ Hb)) as Hs. fold nx in Hs. apply elem_of_app in Hs as [Hs|Hs].
    - apply Hnot in Hs. lia.
    - by apply list_elem_of_singleton in Hs as ->. }
  unfold binit_one. apply wp_step. eapply wp_get_next; [exact Hl0|done|]. apply wp_step. eapply wp_set_next; [exact Hl0|done|]. intros t1 H1.
  apply wp_step. eapply wp_set_prev; [exact H1|done|]. intros t2 H2. apply wp_step. eapply wp_eq; [apply initsleeplock_run|].
  apply (relinked_init _ _ _ _ n) in H2. apply wp_step. eapply wp_get_next; [exact H2|done|]. rewrite fset_ne by done.
  apply wp_step. eapply wp_set_prev; [exact H2|done|]. intros t3 H3. eapply wp_set_next; [exact H3|done|]. intros t4 H4.
  assert (Hrest : b_ctx t4 = b_ctx (after_init n s) /\ b_sleeps t4 = b_sleeps (after_init n s) /\ b_pid t4 = b_pid s /\ memdisk t4 = memdisk s /\ writes t4 = writes s)
    by (rewrite (rl_rest _ _ _ _ H4); done). destruct Hrest as (E1 & E2 & E3 & E4 & E5).
  split.
  - rewrite E1. by apply Hb.
  - rewrite E1. cbn. by rewrite (bt_locks _ _ _ _ _ _ Hb), delete_empty.
  - intros l. unfold sl_get. cbn. rewrite E2. cbn. destruct (decide (buf_lk n = l)) as [<-|Hne].
    + by rewrite lookup_insert_eq.
    + rewrite lookup_insert_ne by done. apply (bt_sleeps _ _ _ _ _ _ Hb).
  - rewrite (rl_meta _ _ _ _ H4). apply Hb.
  - rewrite seq_S, reverse_snoc. eapply seg_ext; [intros k _; apply (rl_nx _ _ _ _ H4)|intros k _; apply (rl_pv _ _ _ _ H4)|].
    apply seg_push; [apply Hb| |rewrite reverse_Permutation; apply NoDup_seq|..].
    + rewrite elem_of_cons, elem_of_app, list_elem_of_singleton. intros [?|[H|?]]; [done| |done]. apply Hnot in H. cbn in H. lia.
    + intros H%Hnot. unfold head in H. lia.
    + intros H%Hnot. unfold head in H. lia.
  - rewrite E3, E4, E5. apply Hb.
Qed.

Lemma booting_rep i c pid md s : Forall (fun d => length d = 512%nat) md -> booting i c pid md NBUF s ->
  bio_rep i c s (boot_ac md) (reverse (seq 0 NBUF)).
Proof.
  intros Hmd Hb. assert (Hz : forall j x, bufs s !! j = Some x -> meta x = meta zero_buf).
  { intros j x Hx. assert (E := f_equal (lookup j) (bt_meta _ _ _ _ _ _ Hb)). rewrite list_lookup_fmap, Hx in E.
    symmetry in E. apply lookup_replicate in E as [-> _]. done. }
  destruct (bt_rest _ _ _ _ _ _ Hb) as (E1 & E2 & E3). split; try (by apply Hb); try done.
  - by eapply booting_len.
  - apply reverse_Permutation.
  - intros j x _ Hx. injection (Hz j x Hx) as F1 F2 F3 F4 F5. assert (Ho : owned (boot_ac md) j x = false) by (unfold owned; by rewrite F2).
    split; rewrite ?Ho; [by left|done|apply Hb].
  - intros j k x y _ _ Hx _ Hd. injection (Hz j x Hx) as F1 F2 F3 F4 F5. congruence.
Qed.

Lemma binit_run i c k pid md :
  ctx_ok k i c -> locks k = ∅ -> Forall (fun d => length d = 512%nat) md ->
  exists s, binit (boot_bst k pid md) = Ret tt s /\ bio_rep i c s (boot_ac md) (reverse (seq 0 NBUF)).
Proof.
  intros Hc Hl Hmd. assert (wp (binit (boot_bst k pid md)) (fun _ s => booting i c pid md NBUF s) stays) as H.
  { unfold binit. apply wp_step. eapply wp_eq; [by apply onctx_Ret|].
    set (s0 := set_ctx (lk_set bcache_lk zero_lock (ctx (boot_bst k pid md))) (boot_bst k pid md)).
    assert (Hl0 := relinked_refl s0). assert (Lh : (head < length (bufs s0))%nat) by (vm_compute; lia).
    apply wp_step. eapply wp_set_prev; [exact Hl0|done|]. intros t1 H1. apply wp_step. eapply wp_set_next; [exact H1|done|]. intros t2 H2.
    eapply wp_mono; [apply (wp_forM _ _ (fun n t => booting i c pid md n t))| |done].
    - assert (Hrest : b_ctx t2 = b_ctx s0 /\ b_sleeps t2 = b_sleeps s0 /\ b_pid t2 = b_pid s0 /\ memdisk t2 = memdisk s0 /\ writes t2 = writes s0)
        by (rewrite (rl_rest _ _ _ _ H2); done). destruct Hrest as (E1 & E2 & E3 & E4 & E5). split.
      + by rewrite E1.
      + rewrite E1. cbn. by rewrite Hl, delete_empty.
      + intros l. unfold sl_get. cbn. by rewrite E2.
      + rewrite (rl_meta _ _ _ _ H2). cbn. done.
      + cbn. rewrite (rl_nx _ _ _ _ H2), (rl_pv _ _ _ _ H2), !fset_eq. done.
      + by rewrite E3, E4, E5.
    - intros n j t Hj Ht. apply lookup_seq in Hj as [-> Hj]. by apply wp_binit_one.
    - intros [] t Ht. by rewrite length_seq in Ht. }
  apply wp_Ret in H as ([] & s & Hrun & Hb). exists s. split; [done|]. by eapply booting_rep.
Qed.

(** ** The properties *)

(** C3 (refinement).  The cache refines its abstract value.  [bread] returns a locked
    buffer with the current contents of the block; [bwrite] puts the contents of a held
    buffer on the disk; [brelse] unlocks it and makes it the most recently used.  A block
    never has two buffers. *)
Theorem bcache_refines waits i c s a lru n :
  bio_rep i c s a lru ->
  (0 <= n < Z.of_nat (length (disk a)) -> held a !! n = None -> n ∈ pinned a \/ (size (busy a) < NBUF)%nat ->
     exists j s' x, bread (S waits) 1 n s = Ret j s' /\ bio_rep i c s' (ac_read n j a) lru /\
       bufs s' !! j = Some x /\ bdata x = view a n) /\
  (forall r, held a !! n = Some r ->
     (exists s', bwrite r s = Ret tt s' /\ bio_rep i c s' (ac_write n a) lru) /\
     (n ∈ pinned a \/ view a n = disk_at (disk a) n ->
        exists s', brelse r s = Ret tt s' /\ bio_rep i c s' (ac_release n a) (to_front r lru))).
Proof.
  intros Hr. split.
  - intros Hn Hh Hb. assert (wp (bread (S waits) 1 n s) (fun j s' => bio_rep i c s' (ac_read n j a) lru) stays) as H.
    { eapply wp_bread; [exact Hr|done|done| |by intros j s' _ Hr' _]. destruct Hb as [Hb|Hb]; [by left|right]. by eapply some_unused. }
    apply wp_Ret in H as (j & s' & Hrun & Hr'). exists j, s'.
    destruct (held_buf i c s' (ac_read n j a) lru n j Hr') as (x & _ & Hx & _ & _ & _ & _ & _ & Hd & _); [cbn; by rewrite lookup_insert_eq|].
    exists x. rewrite view_read in Hd. by split_and!.
  - intros r Hh. split.
    + assert (wp (bwrite r s) (fun _ s' => bio_rep i c s' (ac_write n a) lru) stays) as H by (eapply wp_bwrite; [exact Hr|done|done]).
      apply wp_Ret in H as ([] & s' & H). by exists s'.
    + intros Hv. assert (wp (brelse r s) (fun _ s' => bio_rep i c s' (ac_release n a) (to_front r lru)) stays) as H
        by (eapply wp_brelse; [exact Hr|done|done|done]).
      apply wp_Ret in H as ([] & s' & H). by exists s'.
Qed.

(** A block that is not cached takes the place of the least recently
    used buffer that is neither referenced nor dirty; if there is none, [bread] panics. *)
Theorem bread_recycles_lru waits i c s a lru n :
  bio_rep i c s a lru -> 0 <= n < Z.of_nat (length (disk a)) -> n ∉ busy a -> List.find (is_block s 1 n) lru = None ->
  (forall j, List.find (is_unused s) (reverse lru) = Some j -> exists s', bread (S waits) 1 n s = Ret j s') /\
  (List.find (is_unused s) (reverse lru) = None -> bread (S waits) 1 n s = Panic "bget: no buffers").
Proof.
  intros Hr Hn Hb Hf. assert (Hh : held a !! n = None).
  { apply not_elem_of_dom. intros H. apply Hb. unfold busy. set_solver. }
  split.
  - intros j Hu.
    assert (wp (bread (S waits) 1 n s) (fun j' s' => j' = j) stays) as H.
    { eapply wp_bread; [exact Hr|done|done|right; by exists j|]. intros j' s' _ _ [H|[_ H]]; congruence. }
    apply wp_Ret in H as (j' & s' & Hrun & ->). by exists s'.
  - intros Hu. by eapply bread_no_buffers.
Qed.

(** ** A machine with a two-block disk *)

Definition demo_c : cpu := mkcpu 0 1 0 true (Some 0%nat).
Definition demo_k : kctx := mkctx 0 true [demo_c] ∅ [].
Definition demo_md : list block := [replicate 512 0; replicate 512 7].
Definition booted : bst :=
  match binit (boot_bst demo_k 5 demo_md) with Ret _ s => s | _ => boot_bst demo_k 5 demo_md end.

Lemma booted_rep : bio_rep 0 demo_c booted (boot_ac demo_md) (reverse (seq 0 NBUF)).
Proof.
  destruct (binit_run 0 demo_c demo_k 5 demo_md) as (s & Hrun & Hr).
  - repeat split; cbn; intros; lia || done.
  - done.
  - repeat (apply Forall_cons; split; [done|]). by apply Forall_nil.
  - unfold booted. by rewrite Hrun.
Qed.

Lemma bcache_refines_witness :
  exists j s' x, bread 1 1 1 booted = Ret j s' /\ bufs s' !! j = Some x /\ bdata x = replicate 512 7.
Proof.
  destruct (bcache_refines 0 0 demo_c booted (boot_ac demo_md) _ 1 booted_rep) as [H _].
  destruct H as (j & s' & x & H1 & _ & H2 & H3); [by vm_compute|done|right; vm_compute; lia|].
  exact (ex_intro _ j (ex_intro _ s' (ex_intro _ x (conj H1 (conj H2 H3))))).
Defined.

Lemma bread_recycles_lru_witness : exists s', bread 1 1 1 booted = Ret 0%nat s'.
Proof.
  destruct (bread_recycles_lru 0 0 demo_c booted (boot_ac demo_md) _ 1 booted_rep) as [H _].
  - by vm_compute.
  - by vm_compute.
  - by vm_compute.
  - apply (H 0%nat). by vm_compute.
Defined.
