(* ===== verification/Ide.v ===== *)
(** * The IDE driver

    Models [ide.c]: the queue of buffers that wait for the disk, the request at its head,
    and the controller behind the ports it uses, with the command it is working on and its
    request for an interrupt.  A block is one sector of the disk. *)

From Stdlib Require Import ZArith Lia.
From S2P Require Import Prelude Spinlock Sleeplock Blocks Bio.

Definition SECTOR_SIZE : Z := 512.
Definition IDE_BSY : Z := 0x80.
Definition IDE_DRDY : Z := 0x40.
Definition IDE_DF : Z := 0x20.
Definition IDE_ERR : Z := 0x01.
Definition IDE_CMD_READ : Z := 0x20.
Definition IDE_CMD_WRITE : Z := 0x30.
Definition IDE_CMD_RDMUL : Z := 0xc4.
Definition IDE_CMD_WRMUL : Z := 0xc5.
Definition FSSIZE : Z := 1000.

(** ** The controller

    Its registers at ports 0x1f2 to 0x1f6 and 0x3f6, the command whose data has not been
    transferred yet (0 for none), whether it asks for an interrupt, the blocks of its drives, and
    what the next reads of the status register give before it is ready.  Of the commands it has
    [IDE_CMD_READ] and [IDE_CMD_WRITE] of one sector. *)

Record ata := mkata {
  a_count : Z; a_lba0 : Z; a_lba1 : Z; a_lba2 : Z; a_dev : Z; a_cmd : Z; a_ctl : Z; a_irq : bool;
  a_disks : list (list block); a_polls : list Z
}.

(** Bit 1 of port 0x3f6 turns the interrupts off. *)
Definition irq_on (ctl : Z) : bool := negb (Z.testbit ctl 1).

(** The data of a read is there when the command has been written, and the interrupt comes. *)
Definition outb (port v : Z) (a : ata) : ata :=
  let 'mkata n l0 l1 l2 d c t i ds ps := a in
  if port =? 0x1f2 then mkata v l0 l1 l2 d c t i ds ps else
  if port =? 0x1f3 then mkata n v l1 l2 d c t i ds ps else
  if port =? 0x1f4 then mkata n l0 v l2 d c t i ds ps else
  if port =? 0x1f5 then mkata n l0 l1 v d c t i ds ps else
  if port =? 0x1f6 then mkata n l0 l1 l2 v c t i ds ps else
  if port =? 0x1f7 then mkata n l0 l1 l2 d v t ((v =? IDE_CMD_READ) && irq_on t) ds ps else
  if port =? 0x3f6 then mkata n l0 l1 l2 d c v i ds ps else a.

(** The sector and the drive that the registers name. *)
Definition lba (a : ata) : Z :=
  Z.lor (a_lba0 a) (Z.lor (Z.shiftl (a_lba1 a) 8) (Z.lor (Z.shiftl (a_lba2 a) 16) (Z.shiftl (Z.land (a_dev a) 0x0f) 24))).
Definition drive (a : ata) : Z := Z.land (Z.shiftr (a_dev a) 4) 1.

Definition sector_at (ds : list (list block)) (d n : Z) : block := nth (Z.to_nat n) (nth (Z.to_nat d) ds []) [].
Definition put_sector (ds : list (list block)) (d n : Z) (x : block) : list (list block) := alter (<[Z.to_nat n := x]>) (Z.to_nat d) ds.
Definition set_a_polls (ps : list Z) (a : ata) : ata :=
  mkata (a_count a) (a_lba0 a) (a_lba1 a) (a_lba2 a) (a_dev a) (a_cmd a) (a_ctl a) (a_irq a) (a_disks a) ps.
Definition set_a_irq (i : bool) (a : ata) : ata :=
  mkata (a_count a) (a_lba0 a) (a_lba1 a) (a_lba2 a) (a_dev a) (a_cmd a) (a_ctl a) i (a_disks a) (a_polls a).

(** The 128 words of port 0x1f0, for the command that waits for them and no other. *)
Definition data_in (a : ata) : option (block * ata) :=
  if (a_cmd a =? IDE_CMD_READ) && (a_count a =? 1)
  then Some (sector_at (a_disks a) (drive a) (lba a),
    mkata (a_count a) (a_lba0 a) (a_lba1 a) (a_lba2 a) (a_dev a) 0 (a_ctl a) (a_irq a) (a_disks a) (a_polls a))
  else None.
Definition data_out (x : block) (a : ata) : option ata :=
  if (a_cmd a =? IDE_CMD_WRITE) && (a_count a =? 1)
  then Some (mkata (a_count a) (a_lba0 a) (a_lba1 a) (a_lba2 a) (a_dev a) 0 (a_ctl a) (irq_on (a_ctl a))
    (put_sector (a_disks a) (drive a) (lba a) x) (a_polls a))
  else None.

(** A drive that does not exist reads as 0. *)
Definition status (a : ata) : Z * ata :=
  if Z.of_nat (length (a_disks a)) <=? drive a then (0, a) else
  match a_polls a with
  | [] => (IDE_DRDY, a)
  | r :: ps => (r, set_a_polls ps a)
  end.

(** ** The driver *)

Record ist := mkist {
  d_ctx : kctx; d_sleeps : gmap lockid sleeplock; d_pid : Z;
  d_bufs : list buf; qnext : gmap nat nat; idequeue : option nat; havedisk1 : bool; ide : ata
}.
Definition set_d_ctx (k : kctx) (s : ist) : ist := mkist k (d_sleeps s) (d_pid s) (d_bufs s) (qnext s) (idequeue s) (havedisk1 s) (ide s).
Definition set_d_sleeps (m : gmap lockid sleeplock) (s : ist) : ist := mkist (d_ctx s) m (d_pid s) (d_bufs s) (qnext s) (idequeue s) (havedisk1 s) (ide s).
Definition set_d_bufs (l : list buf) (s : ist) : ist := mkist (d_ctx s) (d_sleeps s) (d_pid s) l (qnext s) (idequeue s) (havedisk1 s) (ide s).
Definition set_qnext (m : gmap nat nat) (s : ist) : ist := mkist (d_ctx s) (d_sleeps s) (d_pid s) (d_bufs s) m (idequeue s) (havedisk1 s) (ide s).
Definition set_idequeue (p : option nat) (s : ist) : ist := mkist (d_ctx s) (d_sleeps s) (d_pid s) (d_bufs s) (qnext s) p (havedisk1 s) (ide s).
Definition set_havedisk1 (h : bool) (s : ist) : ist := mkist (d_ctx s) (d_sleeps s) (d_pid s) (d_bufs s) (qnext s) (idequeue s) h (ide s).
Definition set_ide (a : ata) (s : ist) : ist := mkist (d_ctx s) (d_sleeps s) (d_pid s) (d_bufs s) (qnext s) (idequeue s) (havedisk1 s) a.

#[export] Instance ist_hasctx : HasCtx ist.
Proof. refine {| ctx := d_ctx; set_ctx := set_d_ctx |}; try done. by intros []. Defined.
#[export] Instance ist_hassleep : HasSleep ist.
Proof. refine {| sleeps := d_sleeps; set_sleeps := set_d_sleeps; my_pid := d_pid |}; try done. by intros []. Defined.

Definition idelock : lockid := ("ide"%string, 0).
(** The channel of a buffer is its address. *)
Definition buf_chan (b : nat) : chan := ("buf"%string, Z.of_nat b).

Definition out (port v : Z) : M ist unit := modify (fun s => set_ide (outb port v (ide s)) s).
Definition in_status : M ist Z := fun s => let r := status (ide s) in Ret (fst r) (set_ide (snd r) s).
(** [outsl(0x1f0, x, BSIZE / 4)] and [insl(0x1f0, data, BSIZE / 4)] *)
Definition outsl (x : block) : M ist unit := fun s =>
  match data_out x (ide s) with Some a => Ret tt (set_ide a s) | None => UB "no write in progress" end.
Definition insl : M ist block := fun s =>
  match data_in (ide s) with Some (x, a) => Ret x (set_ide a s) | None => UB "no read in progress" end.

Definition dbuf (b : nat) : M ist buf := fun s => match d_bufs s !! b with Some x => Ret x s | None => UB "no such buffer" end.
Definition upd_buf (f : buf -> buf) (b : nat) : M ist unit := modify (fun s => set_d_bufs (alter f b (d_bufs s)) s).

(** The loop of [idewait], with its last status; a turn per read that is not ready. *)
Fixpoint wait_ready (fuel : nat) : M ist Z :=
  match fuel with
  | O => nofuel
  | Datatypes.S fuel =>
      r <- in_status ;;
      if Z.land r (Z.lor IDE_BSY IDE_DRDY) =? IDE_DRDY then ret r else wait_ready fuel
  end.
Definition idewait (checkerr : bool) : M ist Z :=
  n <- gets (fun s => length (a_polls (ide s))) ;;
  r <- wait_ready (Datatypes.S n) ;;
  ret (if checkerr && negb (Z.land r (Z.lor IDE_DF IDE_ERR) =? 0) then -1 else 0).

(** The loop of [ideinit] that looks for disk 1. *)
Fixpoint probe (turns : nat) : M ist unit :=
  match turns with
  | O => ret tt
  | Datatypes.S turns =>
      r <- in_status ;;
      if negb (r =? 0) then modify (set_havedisk1 true) else probe turns
  end.
(** [ideinit], less the routing of the interrupt. *)
Definition ideinit : M ist unit :=
  onctx (initlock idelock) ;;
  idewait false ;;
  out 0x1f6 (Z.lor 0xe0 (Z.shiftl 1 4)) ;;
  probe 1000 ;;
  out 0x1f6 (Z.lor 0xe0 (Z.shiftl 0 4)).

Definition idestart (p : option nat) : M ist unit :=
  match p with
  | None => panic "idestart"
  | Some b =>
      x <- dbuf b ;;
      if FSSIZE <=? blockno x then panic "incorrect blockno" else
      let sector_per_block := BSIZE / SECTOR_SIZE in
      let sector := blockno x * sector_per_block in
      let read_cmd := if sector_per_block =? 1 then IDE_CMD_READ else IDE_CMD_RDMUL in
      let write_cmd := if sector_per_block =? 1 then IDE_CMD_WRITE else IDE_CMD_WRMUL in
      if 7 <? sector_per_block then panic "idestart" else
      idewait false ;;
      out 0x3f6 0 ;;
      out 0x1f2 sector_per_block ;;
      out 0x1f3 (Z.land sector 0xff) ;;
      out 0x1f4 (Z.land (Z.shiftr sector 8) 0xff) ;;
      out 0x1f5 (Z.land (Z.shiftr sector 16) 0xff) ;;
      out 0x1f6 (Z.lor (Z.lor 0xe0 (Z.shiftl (Z.land (dev x) 1) 4)) (Z.land (Z.shiftr sector 24) 0x0f)) ;;
      if negb (Z.land (flags x) B_DIRTY =? 0) then
        out 0x1f7 write_cmd ;;
        outsl (bdata x)
      else out 0x1f7 read_cmd
  end.

Definition ideintr : M ist unit :=
  onctx (acquire idelock) ;;
  p <- gets idequeue ;;
  match p with
  | None => onctx (release idelock)
  | Some b =>
      modify (fun s => set_idequeue (qnext s !! b) s) ;;
      x <- dbuf b ;;
      (if Z.land (flags x) B_DIRTY =? 0 then
         r <- idewait true ;;
         if 0 <=? r then y <- insl ;; upd_buf (set_data y) b else ret tt
       else ret tt) ;;
      upd_buf (fun x => set_flags (Z.lor (flags x) B_VALID) x) b ;;
      upd_buf (fun x => set_flags (Z.land (flags x) (Z.lnot B_DIRTY)) x) b ;;
      wakeup_on (buf_chan b) ;;
      p <- gets idequeue ;;
      (match p with None => ret tt | Some _ => idestart p end) ;;
      onctx (release idelock)
  end.

(** The line of the controller: [ideintr] runs when it asks for it. *)
Definition interrupt : M ist unit :=
  i <- gets (fun s => a_irq (ide s)) ;;
  when i (
    modify (fun s => set_ide (set_a_irq false (ide s)) s) ;;
    ideintr).

(** The loop that finds the end of the queue, from the pointer in [b]. *)
Fixpoint queue_end (fuel b : nat) : M ist nat :=
  match fuel with
  | O => nofuel
  | Datatypes.S fuel =>
      n <- gets (fun s => qnext s !! b) ;;
      match n with None => ret b | Some b' => queue_end fuel b' end
  end.

(** [while((b->flags & (B_VALID|B_DIRTY)) != B_VALID) sleep(b, &idelock)] *)
Fixpoint wait_done (fuel b : nat) : M ist unit :=
  match fuel with
  | O => nofuel
  | Datatypes.S fuel =>
      x <- dbuf b ;;
      if Z.land (flags x) (Z.lor B_VALID B_DIRTY) =? B_VALID then ret tt else
      sleep_on (buf_chan b) idelock ;;
      wait_done fuel b
  end.

Definition iderw (fuel b : nat) : M ist unit :=
  h <- holdingsleep (buf_lk b) ;;
  if negb h then panic "iderw: buf not locked" else
  x <- dbuf b ;;
  if Z.land (flags x) (Z.lor B_VALID B_DIRTY) =? B_VALID then panic "iderw: nothing to do" else
  h1 <- gets havedisk1 ;;
  if negb (dev x =? 0) && negb h1 then panic "iderw: ide disk 1 not present" else
  onctx (acquire idelock) ;;
  modify (fun s => set_qnext (delete b (qnext s)) s) ;;
  p <- gets idequeue ;;
  (match p with
   | None => modify (set_idequeue (Some b))
   | Some h =>
       n <- gets (fun s => length (d_bufs s)) ;;
       e <- queue_end (Datatypes.S n) h ;;
       modify (fun s => set_qnext (<[e := b]> (qnext s)) s)
   end) ;;
  p <- gets idequeue ;;
  (if bool_decide (p = Some b) then idestart (Some b) else ret tt) ;;
  wait_done fuel b ;;
  onctx (release idelock).
