(* ===== verification/IdeTheorems.v ===== *)
(** * The IDE driver serves its queue

    The queue as a list, the request that the controller works on, and what the interrupts
    do: they serve the requests one by one, in the order in which [iderw] put them there, and
    wake the processes that sleep on them. *)

From Stdlib Require Import ZArith Lia.
From S2P Require Import Prelude Spinlock Sleeplock Blocks Bio Ide.

(** ** Requests *)

Definition dirty (x : buf) : bool := negb (Z.land (flags x) B_DIRTY =? 0).
(** [(b->flags & (B_VALID|B_DIRTY)) == B_VALID] *)
Definition done_with (x : buf) : bool := Z.land (flags x) (Z.lor B_VALID B_DIRTY) =? B_VALID.
Definition drive_of (x : buf) : Z := Z.land (dev x) 1.

(** What a request does to the disks and to its buffer. *)
Definition put_out (x : buf) (ds : list (list block)) : list (list block) := if dirty x then put_sector ds (drive_of x) (blockno x) (bdata x) else ds.
Definition brought_in (x : buf) (ds : list (list block)) : buf :=
  set_flags (Z.land (Z.lor (flags x) B_VALID) (Z.lnot B_DIRTY)) (if dirty x then x else set_data (sector_at ds (drive_of x) (blockno x)) x).
Definition serve (p : list buf * list (list block)) (b : nat) : list buf * list (list block) :=
  match fst p !! b with
  | Some x => (<[b := brought_in x (snd p)]> (fst p), put_out x (snd p))
  | None => p
  end.

Lemma brought_in_done x ds : done_with (brought_in x ds) = true.
Proof.
  assert (E : forall f, Z.land (Z.land (Z.lor f B_VALID) (Z.lnot B_DIRTY)) (Z.lor B_VALID B_DIRTY) = B_VALID).
  { intros f. rewrite <- Z.land_assoc. change (Z.land (Z.lnot B_DIRTY) (Z.lor B_VALID B_DIRTY)) with B_VALID. apply Z.bits_inj'. intros n _. rewrite Z.land_spec, Z.lor_spec.
    by destruct (Z.testbit B_VALID n), (Z.testbit f n). }
  unfold done_with, brought_in. destruct (dirty x); cbn [set_flags flags]; by rewrite E.
Qed.

Lemma put_out_twice x ds : put_out x (put_out x ds) = put_out x ds.
Proof.
  unfold put_out, put_sector. destruct (dirty x); [|done]. rewrite list_alter_alter_eq. apply list_alter_ext; [|done]. intros l _. apply list_insert_insert_eq.
Qed.

(** The registers for a block, what they say, and what they leave to be done. *)
Definition regs (x : buf) (a : ata) : ata :=
  mkata 1 (Z.land (blockno x) 0xff) (Z.land (Z.shiftr (blockno x) 8) 0xff) (Z.land (Z.shiftr (blockno x) 16) 0xff)
    (Z.lor (Z.lor 0xe0 (Z.shiftl (drive_of x) 4)) (Z.land (Z.shiftr (blockno x) 24) 0x0f))
    (if dirty x then 0 else IDE_CMD_READ) 0 true (put_out x (a_disks a)) (a_polls a).

Definition regs_say (n d : Z) : bool :=
  let a := regs (mkbuf 0 d n 0 0 0 []) (mkata 0 0 0 0 0 0 0 false [] []) in (lba a =? n) && (drive a =? d).
Lemma regs_checked : forallb (fun n => regs_say (Z.of_nat n) 0 && regs_say (Z.of_nat n) 1) (seq 0 (Z.to_nat FSSIZE)) = true.
Proof. vm_compute. reflexivity. Qed.

Lemma regs_block x a : 0 <= blockno x < FSSIZE -> lba (regs x a) = blockno x /\ drive (regs x a) = drive_of x.
Proof.
  intros Hn. pose proof regs_checked as H. rewrite forallb_forall in H. specialize (H (Z.to_nat (blockno x))).
  assert (Hin : In (Z.to_nat (blockno x)) (seq 0 (Z.to_nat FSSIZE))) by (apply in_seq; lia). apply H in Hin. rewrite Z2Nat.id in Hin by lia. apply andb_true_iff in Hin as [H0 H1].
  assert (Hd : drive_of x = 0 \/ drive_of x = 1).
  { unfold drive_of. rewrite (Z.land_ones _ 1) by lia. pose proof (Z.mod_pos_bound (dev x) (2 ^ 1)). lia. }
  assert (E : regs_say (blockno x) (drive_of x) = true) by (by destruct Hd as [-> | ->]). unfold regs_say in E. apply andb_true_iff in E as [E1 E2]. apply Z.eqb_eq in E1, E2.
  unfold lba, drive, regs, drive_of in *. cbn [a_lba0 a_lba1 a_lba2 a_dev blockno dev] in *. by rewrite <- (Z.land_assoc (dev x) 1 1) in E1, E2.
Qed.

(** ** Waiting for the controller *)

Definition ready (r : Z) : bool := Z.land r (Z.lor IDE_BSY IDE_DRDY) =? IDE_DRDY.
(** The first status that is ready, and the reads after it. *)
Fixpoint settle (ps : list Z) : Z * list Z :=
  match ps with
  | [] => (IDE_DRDY, [])
  | r :: ps => if ready r then (r, ps) else settle ps
  end.
Definition has_drive (a : ata) : Prop := 0 <= drive a < Z.of_nat (length (a_disks a)).
Definition settled_ide (a : ata) : ata := set_a_polls (snd (settle (a_polls a))) a.

Lemma wait_ready_run fuel s : has_drive (ide s) -> (length (a_polls (ide s)) < fuel)%nat ->
  wait_ready fuel s = Ret (fst (settle (a_polls (ide s)))) (set_ide (settled_ide (ide s)) s).
Proof.
  revert s. induction fuel as [|fuel IH]; intros s Hd Hf; [lia|]. cbn [wait_ready]. unfold bind at 1, in_status, status. rewrite (proj2 (Z.leb_gt _ _)) by apply Hd. unfold settled_ide.
  destruct (a_polls (ide s)) as [|r ps] eqn:E; cbn [fst snd rbind settle length] in *.
  - change (Z.land IDE_DRDY _ =? IDE_DRDY) with true. unfold ret. f_equal. destruct s as [? ? ? ? ? ? ? [? ? ? ? ? ? ? ? ? ?]]; cbn in *. by rewrite E.
  - unfold ready. destruct (_ =? IDE_DRDY); [done|]. rewrite IH; [done|done|cbn; lia].
Qed.

Lemma idewait_run b s : has_drive (ide s) -> idewait b s =
  Ret (if b && negb (Z.land (fst (settle (a_polls (ide s)))) (Z.lor IDE_DF IDE_ERR) =? 0) then -1 else 0) (set_ide (settled_ide (ide s)) s).
Proof. intros H. unfold idewait. rewrite bind_gets. erewrite bind_Ret; [|apply wait_ready_run; [done|lia]]. done. Qed.

Lemma ide_set a s : ide (set_ide a s) = a.
Proof. done. Qed.
Lemma set_ide_set a a' s : set_ide a (set_ide a' s) = set_ide a s.
Proof. done. Qed.
Lemma bind_out {B} port v (f : unit -> M ist B) a s : bind (out port v) f (set_ide a s) = f tt (set_ide (outb port v a) s).
Proof. done. Qed.

Lemma idestart_run s b x : d_bufs s !! b = Some x -> blockno x < FSSIZE -> has_drive (ide s) -> 0 <= blockno x ->
  idestart (Some b) s = Ret tt (set_ide (regs x (settled_ide (ide s))) s).
Proof.
  intros Hx Hn Hd H0. destruct (regs_block x (settled_ide (ide s)) (conj H0 Hn)) as [Hlba Hdrv].
  unfold idestart. rewrite (bind_Ret _ _ _ x s) by (unfold dbuf; by rewrite Hx). rewrite (proj2 (Z.leb_gt FSSIZE (blockno x))) by lia. cbv zeta.
  change (BSIZE / SECTOR_SIZE) with 1. rewrite Z.mul_1_r. change (7 <? 1) with false. change (1 =? 1) with true. cbn match. rewrite (bind_Ret _ _ _ _ _ (idewait_run false s Hd)), !bind_out.
  unfold regs, put_out, dirty, drive_of in *. destruct (settled_ide (ide s)) as [n l0 l1 l2 d c t i ds ps]. cbn [a_disks a_polls] in *. destruct (Z.land (flags x) B_DIRTY =? 0); cbn [negb] in *; [done|].
  rewrite bind_out. unfold outsl, data_out. rewrite ide_set. cbn [outb Z.eqb Pos.eqb a_count a_lba0 a_lba1 a_lba2 a_dev a_cmd a_ctl a_irq a_disks a_polls andb].
  rewrite Z.eqb_refl. cbn [andb]. rewrite set_ide_set. unfold lba, drive in *. cbn [a_lba0 a_lba1 a_lba2 a_dev] in *. by rewrite Hlba, Hdrv.
Qed.

(** ** The queue *)

Fixpoint chain (p : option nat) (m : gmap nat nat) (q : list nat) : Prop :=
  match q with
  | [] => p = None
  | b :: q => p = Some b /\ chain (m !! b) m q
  end.

(** A request for a block the disks have. *)
Definition wanted (ds : list (list block)) (x : buf) : Prop :=
  done_with x = false /\ 0 <= blockno x < FSSIZE /\ drive_of x < Z.of_nat (length ds).
(** The controller works on [x]; the data of a write is on the disk already, that of a read is
    still to be taken. *)
Definition working (a : ata) (x : buf) : Prop :=
  lba a = blockno x /\ drive a = drive_of x /\ put_out x (a_disks a) = a_disks a /\
  (dirty x = false -> a_cmd a = IDE_CMD_READ /\ a_count a = 1).
(** No error is reported. *)
Definition calm (ps : list Z) : Prop := Forall (fun r => ready r = true -> Z.land r (Z.lor IDE_DF IDE_ERR) = 0) ps.

Record ide_rep (i : nat) (c : cpu) (s : ist) (q : list nat) : Prop := {
  ir_ctx : ctx_ok (ctx s) i c;
  ir_lock : locks (ctx s) !! idelock = None;
  ir_chain : chain (idequeue s) (qnext s) q;
  ir_nodup : NoDup q;
  ir_reqs : forall b, b ∈ q -> exists x, d_bufs s !! b = Some x /\ wanted (a_disks (ide s)) x;
  ir_drive : has_drive (ide s);
  ir_calm : calm (a_polls (ide s));
  ir_work : forall b x, List.head q = Some b -> d_bufs s !! b = Some x -> working (ide s) x
}.

(** The controller asks for an interrupt as long as there are requests. *)
Definition asks (s : ist) (q : list nat) : Prop := q <> [] -> a_irq (ide s) = true.

Lemma settle_calm ps : calm ps -> Z.land (fst (settle ps)) (Z.lor IDE_DF IDE_ERR) = 0 /\ calm (snd (settle ps)).
Proof.
  induction 1 as [|r ps Hr Hps IH]; [split; [done|constructor]|]. cbn [settle]. destruct (ready r) eqn:E; [|done]. split; [by apply Hr|done].
Qed.

Lemma length_put_out x ds : length (put_out x ds) = length ds.
Proof. unfold put_out, put_sector. destruct (dirty x); [|done]. apply length_alter. Qed.

(** Starting the next request. *)
Lemma start_next s b x : d_bufs s !! b = Some x -> wanted (a_disks (ide s)) x -> has_drive (ide s) -> calm (a_polls (ide s)) ->
  exists a, idestart (Some b) s = Ret tt (set_ide a s) /\ a_disks a = put_out x (a_disks (ide s)) /\ working a x /\ has_drive a /\ calm (a_polls a) /\ a_irq a = true.
Proof.
  intros Hx (Hw & Hn & Hdr) Hd Hc. exists (regs x (settled_ide (ide s))). destruct (regs_block x (settled_ide (ide s)) Hn) as [H1 H2].
  assert (H3 : a_disks (regs x (settled_ide (ide s))) = put_out x (a_disks (ide s))) by done.
  split_and!; [apply idestart_run; try done; lia|done| | | |done].
  - split_and!; [done|done| |]; [rewrite H3; apply put_out_twice|]. intros E. unfold regs. cbn [a_cmd a_count]. by rewrite E.
  - unfold has_drive. rewrite H2, H3, length_put_out. split; [|lia]. unfold drive_of. rewrite (Z.land_ones _ 1) by lia. apply Z.mod_pos_bound. lia.
  - by apply settle_calm.
Qed.

Lemma chain_hd p m q : chain p m q -> p = List.head q.
Proof. destruct q; cbn; tauto. Qed.

(** The buffer when the interrupt comes. *)
Lemma finish_run s b x : d_bufs s !! b = Some x -> wanted (a_disks (ide s)) x -> working (ide s) x -> has_drive (ide s) -> calm (a_polls (ide s)) ->
  exists a, (if Z.land (flags x) B_DIRTY =? 0 then r <- idewait true ;; if 0 <=? r then y <- insl ;; upd_buf (set_data y) b else ret tt else ret tt) s =
      Ret tt (set_ide a (set_d_bufs (<[b := if dirty x then x else set_data (sector_at (a_disks (ide s)) (drive_of x) (blockno x)) x]> (d_bufs s)) s)) /\
    a_disks a = a_disks (ide s) /\ has_drive a /\ calm (a_polls a).
Proof.
  intros Hx Hw (W1 & W2 & W3 & W4) Hd Hc. unfold dirty in *. destruct (Z.land (flags x) B_DIRTY =? 0); cbn [negb] in *.
  - destruct (W4 eq_refl) as [W5 W6]. destruct (settle_calm _ Hc) as [C1 C2]. eexists. split.
    { rewrite (bind_Ret _ _ _ _ _ (idewait_run true s Hd)), C1. cbn [andb negb Z.eqb Z.leb Z.compare].
      erewrite bind_Ret; [|unfold insl, data_in; rewrite ide_set; cbn [settled_ide set_a_polls a_cmd a_count]; rewrite W5, W6; reflexivity].
      unfold upd_buf, modify. change (d_bufs (set_ide _ (set_ide _ s))) with (d_bufs s). rewrite (alter_insert_at _ _ _ _ Hx).
      change (lba (settled_ide (ide s))) with (lba (ide s)). change (drive (settled_ide (ide s))) with (drive (ide s)). rewrite W1, W2. reflexivity. }
    done.
  - exists (ide s). split_and!; [|done|done|done]. rewrite list_insert_id by done. by destruct s.
Qed.

(** The state after the request at the head of the queue is done and [p] has been started. *)
Definition next_state (s : ist) (b : nat) (x : buf) (p : option nat) (a : ata) : ist :=
  mkist (k_wake (buf_chan b) (ctx s)) (d_sleeps s) (d_pid s) (<[b := brought_in x (a_disks (ide s))]> (d_bufs s)) (qnext s) p (havedisk1 s) a.

Lemma ideintr_run i c s b q x : ide_rep i c s (b :: q) -> d_bufs s !! b = Some x ->
  exists a, ideintr s = Ret tt (next_state s b x (List.head q) a) /\ ide_rep i c (next_state s b x (List.head q) a) q /\
    (q <> [] -> a_irq a = true) /\ a_disks a = match List.head q with Some b2 => default (a_disks (ide s)) ((fun x2 => put_out x2 (a_disks (ide s))) <$> d_bufs s !! b2) | None => a_disks (ide s) end.
Proof.
  intros [Hctx Hlk [Hq Hch] Hnd Hreq Hdr Hcalm Hwork] Hx. apply NoDup_cons in Hnd as [Hnb Hnd]. pose proof (chain_hd _ _ _ Hch) as Hhd.
  destruct (Hreq b) as (x' & Hx' & Hwant); [left|]. rewrite Hx in Hx'. injection Hx' as <-. specialize (Hwork b x eq_refl Hx).
  set (k := k_acq idelock i (ctx s)). set (s2 := set_idequeue (List.head q) (set_ctx k s)).
  destruct (finish_run s2 b x Hx Hwant Hwork Hdr Hcalm) as (a & Hfin & Ha1 & Ha2 & Ha3). set (y := brought_in x (a_disks (ide s))).
  set (s5 := mkist (k_wake (buf_chan b) k) (d_sleeps s) (d_pid s) (<[b := y]> (d_bufs s)) (qnext s) (List.head q) (havedisk1 s) a).
  assert (Hcont : ideintr s = (match List.head q with None => ret tt | Some b2 => idestart (Some b2) end ;; onctx (release idelock)) s5).
  { unfold ideintr. rewrite (bind_Ret _ _ _ _ _ (acq_step _ _ _ _ Hctx Hlk)), bind_gets. change (idequeue (set_ctx _ s)) with (idequeue s). rewrite Hq, bind_modify.
    change (qnext (set_ctx _ s)) with (qnext s). rewrite Hhd. fold k. fold s2. rewrite (bind_Ret _ _ _ x s2) by (unfold dbuf; change (d_bufs s2) with (d_bufs s); by rewrite Hx).
    rewrite (bind_Ret _ _ _ _ _ Hfin). unfold upd_buf, wakeup_on. rewrite !bind_modify, bind_gets.
    match goal with |- bind _ _ ?t = _ => assert (Ht : t = s5) end.
    { unfold s5, s2. cbn. f_equal. rewrite list_alter_alter_eq. rewrite (alter_insert_at _ _ b (if dirty x then x else set_data (sector_at (a_disks (ide s)) (drive_of x) (blockno x)) x)).
      - rewrite list_insert_insert_eq. f_equal. unfold y, brought_in. by destruct (dirty x).
      - apply list_lookup_insert_eq. by eapply lookup_lt_Some. }
    rewrite Ht. unfold s5 at 1. cbn [idequeue]. by destruct (List.head q). }
  assert (Hrel : forall a', onctx (release idelock) (set_ide a' s5) = Ret tt (next_state s b x (List.head q) a')).
  { intros a'. rewrite (rel_step (set_ide a' s5) (k_wake (buf_chan b) (ctx s)) i c idelock); [done|done|done|done]. }
  assert (Hrep : forall a', calm (a_polls a') -> has_drive a' -> length (a_disks a') = length (a_disks (ide s)) ->
    (forall b2 x2, List.head q = Some b2 -> d_bufs s !! b2 = Some x2 -> working a' x2) -> ide_rep i c (next_state s b x (List.head q) a') q).
  { intros a' C1 C2 C3 C4. assert (Hother : forall b2, b2 ∈ q -> d_bufs (next_state s b x (List.head q) a') !! b2 = d_bufs s !! b2).
    { intros b2 Hb2. cbn. apply list_lookup_insert_ne. by intros <-. }
    constructor; try done; cbn [idequeue qnext ide next_state ctx ist_hasctx d_ctx].
    - by rewrite <- Hhd.
    - intros b2 Hb2. destruct (Hreq b2) as (x2 & Hx2 & Hw2); [by right|]. exists x2. rewrite Hother by done. split; [done|]. unfold wanted in *. by rewrite C3.
    - intros b2 x2 Hh Hx2. rewrite Hother in Hx2 by (destruct q; [done|]; injection Hh as ->; left). by apply (C4 b2). }
  destruct (List.head q) as [b2|] eqn:Eh.
  - assert (Hb2 : b2 ∈ q) by (destruct q; [done|]; injection Eh as ->; left). destruct (Hreq b2) as (x2 & Hx2 & Hw2); [by right|].
    assert (Hx5 : d_bufs s5 !! b2 = Some x2) by (cbn; rewrite list_lookup_insert_ne; [done|by intros <-]).
    destruct (start_next s5 b2 x2 Hx5) as (a' & Hst & S1 & S2 & S3 & S4 & S5); [cbn; by rewrite Ha1|done|done|]. exists a'. change (a_disks (ide s5)) with (a_disks a) in S1. rewrite Ha1 in S1.
    change (a_disks (ide s2)) with (a_disks (ide s)) in *. split_and!; [rewrite Hcont, (bind_Ret _ _ _ _ _ Hst); apply Hrel| |done|by rewrite Hx2]. apply Hrep; [done|done|by rewrite S1, length_put_out|].
    intros b3 x3 [= <-] Hx3. rewrite Hx2 in Hx3. by injection Hx3 as <-.
  - exists a. split_and!; [rewrite Hcont; exact (Hrel a)| |by destruct q|done]. apply Hrep; try done. by rewrite Ha1.
Qed.

(** ** All interrupts *)

Lemma serve_start bufs b x ds q : bufs !! b = Some x -> foldl serve (bufs, put_out x ds) (b :: q) = foldl serve (bufs, ds) (b :: q).
Proof.
  intros Hx. cbn [foldl]. f_equal. unfold serve. cbn [fst snd]. rewrite Hx, put_out_twice. do 2 f_equal. unfold brought_in, put_out. by destruct (dirty x).
Qed.

(** The handler runs for the request at the head. *)
Lemma interrupt_run i c s b q x : ide_rep i c s (b :: q) -> asks s (b :: q) -> d_bufs s !! b = Some x ->
  exists a, interrupt s = Ret tt (next_state s b x (List.head q) a) /\ ide_rep i c (next_state s b x (List.head q) a) q /\
    (q <> [] -> a_irq a = true) /\ a_disks a = match List.head q with Some b2 => default (a_disks (ide s)) ((fun x2 => put_out x2 (a_disks (ide s))) <$> d_bufs s !! b2) | None => a_disks (ide s) end.
Proof.
  intros [] Ha Hx. unfold interrupt. rewrite bind_gets, (Ha ltac:(done)). cbn [when]. rewrite bind_modify.
  apply (ideintr_run i c (set_ide (set_a_irq false (ide s)) s) b q x); [by constructor|done].
Qed.

Lemma serve_all i c q : forall s, ide_rep i c s q -> asks s q -> exists s', forM q (fun _ => interrupt) s = Ret tt s' /\ ide_rep i c s' [] /\
  (d_bufs s', a_disks (ide s')) = foldl serve (d_bufs s, a_disks (ide s)) q /\ ctx s' = foldl (fun k b => k_wake (buf_chan b) k) (ctx s) q /\
  d_sleeps s' = d_sleeps s /\ d_pid s' = d_pid s.
Proof.
  induction q as [|b q IH]; intros s H Ha; [by exists s|]. destruct (ir_reqs _ _ _ _ H b) as (x & Hx & _); [left|]. destruct (ir_work _ _ _ _ H b x eq_refl Hx) as (_ & _ & Hput & _).
  destruct (interrupt_run _ _ _ _ _ _ H Ha Hx) as (a & Hrun & Hrep & Ha2 & Hds). destruct (IH _ Hrep Ha2) as (s' & Hs' & Hrep' & Heff & Hk & Hsl & Hpid). exists s'. cbn [forM].
  rewrite (bind_Ret _ _ _ _ _ Hrun). split_and!; try done. rewrite Heff. cbn [d_bufs ide next_state]. rewrite Hds. cbn [foldl]. unfold serve at 3. cbn [fst snd]. rewrite Hx, Hput.
  destruct q as [|b2 q]; [done|]. cbn [List.head]. destruct (ir_reqs _ _ _ _ H b2) as (x2 & Hx2 & _); [right; left|]. rewrite Hx2. cbn [fmap option_fmap option_map default from_option id].
  apply serve_start. rewrite list_lookup_insert_ne; [done|]. pose proof (ir_nodup _ _ _ _ H) as Hn. apply NoDup_cons in Hn as [Hn _]. intros <-. apply Hn. left.
Qed.

Lemma serve_other b q : forall p, b ∉ q -> fst (foldl serve p q) !! b = fst p !! b.
Proof.
  induction q as [|b2 q IH]; intros p; cbn [foldl]; [done|]. intros [Hne Hq]%not_elem_of_cons. rewrite IH by done. unfold serve. destruct (fst p !! b2); [|done]. cbn [fst]. by apply list_lookup_insert_ne.
Qed.

(** ** Joining the queue *)

Lemma chain_ext p m m' q : (forall b, b ∈ q -> m' !! b = m !! b) -> chain p m q -> chain p m' q.
Proof.
  revert p. induction q as [|b q IH]; intros p He; cbn [chain]; [done|]. intros [-> H]. split; [done|]. rewrite (He b) by left. apply IH; [|done]. intros b2 Hb2. apply He. by right.
Qed.

Lemma chain_join p m q e b : chain p m (q ++ [e]) -> NoDup (q ++ [e]) -> b ∉ q ++ [e] -> chain p (<[e := b]> (delete b m)) (q ++ [e; b]).
Proof.
  revert p. induction q as [|x q IH]; intros p; cbn [app chain]; intros [-> H] Hn Hb; apply NoDup_cons in Hn as [Hx Hn]; apply not_elem_of_cons in Hb as [Hbx Hb]; (split; [done|]).
  - rewrite lookup_insert_eq. split; [done|]. by rewrite lookup_insert_ne, lookup_delete_eq by done.
  - rewrite lookup_insert_ne by (intros <-; apply Hx, elem_of_app; right; left). rewrite lookup_delete_ne by done. by apply IH.
Qed.

Lemma queue_end_run s q e : forall p fuel, chain (Some p) (qnext s) (q ++ [e]) -> (length q < fuel)%nat -> queue_end fuel p s = Ret e s.
Proof.
  induction q as [|x q IH]; intros p fuel H Hf; (destruct fuel as [|fuel]; [lia|]); cbn [queue_end app chain] in *; destruct H as [[= ->] H]; rewrite bind_gets.
  - cbn in H. by rewrite H.
  - assert (Hn : exists y, qnext s !! x = Some y) by (destruct q; cbn in H; destruct H as [-> _]; by eexists). destruct Hn as [y Hy]. rewrite Hy. apply IH; [by rewrite <- Hy|cbn in Hf; lia].
Qed.

(** A sleeper that waits for buffer [b]: whenever it is resumed it returns if the buffer is done
    with, and otherwise sleeps again on the buffer; [fuel] is how often it looks. *)
Fixpoint awaits (fuel b : nat) (kk : ist -> res ist unit) : Prop :=
  match fuel with
  | O => True
  | Datatypes.S fuel =>
      forall t j cj y, ctx_ok (ctx t) j cj -> locks (ctx t) !! idelock = None -> d_bufs t !! b = Some y ->
        if done_with y then kk t = Ret tt t
        else exists kk', kk t = Swtch (set_ctx (k_slept (buf_chan b) idelock (ctx t)) t) kk' /\ awaits fuel b kk'
  end.

Lemma wait_done_look b fuel t j cj y : ctx_ok (ctx t) j cj -> locks (ctx t) !! idelock = None -> d_bufs t !! b = Some y -> done_with y = true ->
  (wait_done (Datatypes.S fuel) b ;; onctx (release idelock)) (set_ctx (k_acq idelock j (ctx t)) t) = Ret tt t.
Proof.
  intros Hc Hl Hy Hd. unfold bind at 1. cbn [wait_done].
  rewrite (bind_Ret _ _ _ y (set_ctx (k_acq idelock j (ctx t)) t)) by (unfold dbuf; change (d_bufs (set_ctx _ t)) with (d_bufs t); by rewrite Hy).
  unfold done_with in Hd. rewrite Hd. unfold ret. cbn [rbind]. rewrite (rel_step _ _ _ _ _ Hc Hl (ctx_set_ctx _ _)). by rewrite set_ctx_set, set_ctx_ctx.
Qed.

Lemma wait_done_sleeps b fuel : forall i c s x, ctx_ok (ctx s) i c -> locks (ctx s) !! idelock = None -> d_bufs s !! b = Some x -> done_with x = false ->
  exists kk, (wait_done (Datatypes.S fuel) b ;; onctx (release idelock)) (set_ctx (k_acq idelock i (ctx s)) s) =
    Swtch (set_ctx (k_slept (buf_chan b) idelock (ctx s)) s) kk /\ awaits fuel b kk.
Proof.
  induction fuel as [|fuel IH]; intros i c s x Hc Hl Hx Hd; (assert (Hk : ctx (set_ctx (k_acq idelock i (ctx s)) s) = k_acq idelock i (ctx s)) by apply ctx_set_ctx).
  all: match goal with |- exists kk, ?r = Swtch ?s1 kk /\ ?P kk => assert (wp r (fun _ _ => False) (fun t kk => t = s1 /\ P kk)) as H end.
  all: try (apply wp_Swtch in H as (s1 & kk & H & -> & Hkk); by exists kk).
  all: apply wp_bind; cbn [wait_done]; apply wp_bind; unfold dbuf at 1; change (d_bufs (set_ctx _ s)) with (d_bufs s); rewrite Hx; cbn [wp]; unfold done_with in Hd; rewrite Hd; apply wp_bind.
  all: (eapply (wp_sleep_on (S := ist)); [exact Hk|exact Hc|done|]); (split; [by rewrite set_ctx_set|]); [done || idtac].
  intros t j cj y Hcj Hlj Hy. rewrite (acq_step t j cj idelock Hcj Hlj). cbn [rbind]. destruct (done_with y) eqn:E.
  - exact (wait_done_look b fuel t j cj y Hcj Hlj Hy E).
  - exact (IH j cj t y Hcj Hlj Hy E).
Qed.

(** [iderw] of a buffer that its caller has locked. *)
Lemma iderw_run i c s q b x fuel : ide_rep i c s q -> asks s q -> sl_idle s i c (buf_lk b) -> sl_locked (sl_get (buf_lk b) s) <> 0 -> sl_pid (sl_get (buf_lk b) s) = my_pid s ->
  d_bufs s !! b = Some x -> wanted (a_disks (ide s)) x -> b ∉ q -> (dev x = 0 \/ havedisk1 s = true) ->
  exists s1 kk, iderw (Datatypes.S fuel) b s = Swtch s1 kk /\ ide_rep i c s1 (q ++ [b]) /\ asks s1 (q ++ [b]) /\ d_bufs s1 = d_bufs s /\
    ctx s1 = k_slept (buf_chan b) idelock (ctx s) /\ awaits fuel b kk /\
    a_disks (ide s1) = match q with [] => put_out x (a_disks (ide s)) | _ => a_disks (ide s) end.
Proof.
  intros [Hctx Hlk Hch Hnd Hreq Hdr Hcalm Hwork] Hask Hsl Hl1 Hl2 Hx Hw Hb Hdev. unfold iderw. rewrite (bind_Ret _ _ _ _ _ (holdingsleep_run s i c _ Hsl)).
  rewrite (proj2 (Z.eqb_neq _ 0) Hl1), (proj2 (Z.eqb_eq _ _) Hl2). cbn [negb andb]. rewrite (bind_Ret _ _ _ x s) by (unfold dbuf; by rewrite Hx).
  pose proof (proj1 Hw) as Hnd1. unfold done_with in Hnd1. rewrite Hnd1, bind_gets.
  assert (negb (dev x =? 0) && negb (havedisk1 s) = false) as -> by (destruct Hdev as [-> | ->]; [done|by rewrite andb_false_r]).
  rewrite (bind_Ret _ _ _ _ _ (acq_step _ _ _ _ Hctx Hlk)), bind_modify, bind_gets. set (k := k_acq idelock i (ctx s)). cbn [idequeue set_qnext set_ctx ist_hasctx set_d_ctx qnext].
  destruct q as [|q0 q _] using rev_ind.
  - cbn in Hch. rewrite Hch, bind_modify, bind_gets. cbn [idequeue set_idequeue]. rewrite bool_decide_eq_true_2 by done.
    set (s1 := set_idequeue (Some b) (set_qnext (delete b (qnext s)) s)).
    destruct (start_next (set_ctx k s1) b x) as (a & Hst & A1 & A2 & A3 & A4 & A5); [cbn; done..|]. cbn [ide set_ctx ist_hasctx set_d_ctx] in A1. change (ide s1) with (ide s) in A1.
    erewrite bind_Ret; [|exact Hst]. change (set_ide a (set_ctx k s1)) with (set_ctx (k_acq idelock i (ctx (set_ide a s1))) (set_ide a s1)).
    destruct (wait_done_sleeps b fuel i c (set_ide a s1) x) as (kk & Hsw & Hkk); [cbn; done..|apply Hw|]. eexists _, kk. split; [exact Hsw|]. split_and!; try done; [|by intros _]. constructor; try done.
    + cbn. by rewrite lookup_delete_eq.
    + apply NoDup_singleton.
    + intros b' Hb'%list_elem_of_singleton. subst b'. exists x. split; [done|]. unfold wanted in *. change (a_disks (ide (set_ctx _ (set_ide a s1)))) with (a_disks a). by rewrite A1, length_put_out.
    + intros b' x' [= <-] Hx'. cbn in Hx'. rewrite Hx in Hx'. by injection Hx' as <-.
  - assert (Hh : exists h, idequeue s = Some h /\ h <> b).
    { destruct q as [|h q]; cbn in Hch; destruct Hch as [-> _]; [exists q0|exists h]; (split; [done|]); intros ->; apply Hb; left. }
    destruct Hh as (h & Hh & Hhb). rewrite Hh. set (s0 := set_qnext (delete b (qnext s)) (set_ctx k s)). set (s1 := set_qnext (<[q0 := b]> (delete b (qnext s))) s).
    assert (Hch0 : chain (Some h) (qnext s0) (q ++ [q0])) by (rewrite <- Hh; apply (chain_ext _ (qnext s)); [|done]; intros b2 Hb2; cbn; rewrite lookup_delete_ne; [done|]; by intros <-).
    assert (Hlen : (length q <= length (d_bufs s))%nat).
    { transitivity (length (q ++ [q0])); [rewrite length_app; lia|]. apply length_below; [done|]. apply Forall_forall. intros b2 Hb2. destruct (Hreq b2 Hb2) as (x2 & Hx2 & _). by eapply lookup_lt_Some. }
    assert (Hjoin : (n <- gets (fun s => length (d_bufs s)) ;; e <- queue_end (Datatypes.S n) h ;; modify (fun s => set_qnext (<[e := b]> (qnext s)) s)) s0 = Ret tt (set_ctx k s1)).
    { rewrite bind_gets. change (length (d_bufs s0)) with (length (d_bufs s)). by rewrite (bind_Ret _ _ _ _ _ (queue_end_run s0 q q0 h (Datatypes.S (length (d_bufs s))) Hch0 ltac:(lia))). }
    erewrite bind_Ret; [|exact Hjoin]. rewrite bind_gets. change (idequeue (set_ctx k s1)) with (idequeue s). rewrite Hh, bool_decide_eq_false_2 by (by intros [= ->]). unfold ret at 1. erewrite bind_Ret; [|reflexivity].
    destruct (wait_done_sleeps b fuel i c s1 x) as (kk & Hsw & Hkk); [cbn; done..|apply Hw|]. eexists _, kk. split; [exact Hsw|].
    split_and!; try done; [|intros _; apply Hask; by destruct q|by destruct q]. constructor; try done.
    + cbn. rewrite <- (assoc_L (++)). cbn [app]. by apply chain_join.
    + apply NoDup_app. split_and!; [done| |apply NoDup_singleton]. intros y Hy Hy2%list_elem_of_singleton. by subst y.
    + intros b' [Hb'|Hb'%list_elem_of_singleton]%elem_of_app; [by apply Hreq|]. subst b'. by exists x.
    + intros b' x' Hhd. apply Hwork. by destruct q.
Qed.

(** C25 (liveness).  A request gets through.  [iderw] of a buffer that its caller has locked
    joins the end of the queue and sleeps on the buffer with all spin locks free; each time it is
    resumed it sleeps again on the buffer unless the buffer is done with.  The controller asks for
    an interrupt, and its next interrupts, one for each request ahead and one for its own, serve
    the requests in the order of the queue: each read brings the block of the disk, with all
    writes ahead of it, into its buffer, each write puts its buffer on the disk, and those who
    sleep on the buffer are woken.  Then the sleeper, resumed, returns with its buffer valid and
    clean. *)
Theorem ide_serves_in_order i c s q b x fuel :
  ide_rep i c s q -> asks s q -> sl_idle s i c (buf_lk b) -> sl_locked (sl_get (buf_lk b) s) <> 0 -> sl_pid (sl_get (buf_lk b) s) = my_pid s ->
  d_bufs s !! b = Some x -> wanted (a_disks (ide s)) x -> b ∉ q -> dev x = 0 \/ havedisk1 s = true ->
  exists s1 kk, iderw (Datatypes.S (Datatypes.S fuel)) b s = Swtch s1 kk /\ ide_rep i c s1 (q ++ [b]) /\ asks s1 (q ++ [b]) /\
    ctx s1 = k_slept (buf_chan b) idelock (ctx s) /\ awaits (Datatypes.S fuel) b kk /\
    exists s2 y, forM (q ++ [b]) (fun _ => interrupt) s1 = Ret tt s2 /\ ide_rep i c s2 [] /\
      (d_bufs s2, a_disks (ide s2)) = foldl serve (d_bufs s, a_disks (ide s)) (q ++ [b]) /\
      ctx s2 = foldl (fun k b => k_wake (buf_chan b) k) (ctx s1) (q ++ [b]) /\
      kk s2 = Ret tt s2 /\ d_bufs s2 !! b = Some y /\ done_with y = true.
Proof.
  intros Hrep Hask Hsl Hl1 Hl2 Hx Hw Hb Hdev.
  destruct (iderw_run i c s q b x (Datatypes.S fuel) Hrep Hask Hsl Hl1 Hl2 Hx Hw Hb Hdev) as (s1 & kk & Hrun & Hrep1 & Hask1 & Hb1 & Hc1 & Hkk & Hd1).
  exists s1, kk. do 5 (split; [done|]). destruct (serve_all i c (q ++ [b]) s1 Hrep1 Hask1) as (s2 & Hint & Hrep2 & Heff & Hk & _).
  assert (Heff2 : (d_bufs s2, a_disks (ide s2)) = foldl serve (d_bufs s, a_disks (ide s)) (q ++ [b])).
  { rewrite Heff, Hb1, Hd1. destruct q; [|done]. cbn [app]. by apply serve_start. }
  assert (Hy : exists y, d_bufs s2 !! b = Some y /\ done_with y = true).
  { change (d_bufs s2) with (fst (d_bufs s2, a_disks (ide s2))). rewrite Heff2, foldl_app. cbn [foldl]. set (p := foldl serve _ q). assert (Hp : fst p !! b = Some x) by (unfold p; by rewrite serve_other).
    unfold serve. rewrite Hp. cbn [fst]. eexists. split; [apply list_lookup_insert_eq; by eapply lookup_lt_Some|apply brought_in_done]. }
  destruct Hy as (y & Hy & Hd). exists s2, y. split_and!; try done. specialize (Hkk s2 i c y (ir_ctx _ _ _ _ Hrep2) (ir_lock _ _ _ _ Hrep2) Hy). by rewrite Hd in Hkk.
Qed.

(** One CPU, and a dirty buffer that process 7 has locked. *)
Definition ide_cpu : cpu := mkcpu 0 1 0 true (Some 0%nat).
Definition demo_ide (polls : list Z) (x : buf) : ist :=
  mkist (mkctx 0 true [ide_cpu] ∅ []) {[buf_lk 0%nat := mksleep 1 7]} 7 [x] ∅ None false (mkata 0 0 0 0 0 0 0 false [replicate 6 (replicate 512 9)] polls).
Definition dirty_buf : buf := mkbuf B_DIRTY 0 5 1 0 0 (replicate 512 1).

Lemma ide_serves_in_order_witness : exists s1 kk, iderw 2 0 (demo_ide [IDE_BSY] dirty_buf) = Swtch s1 kk /\
  exists s2, forM [0%nat] (fun _ => interrupt) s1 = Ret tt s2 /\ kk s2 = Ret tt s2.
Proof.
  destruct (ide_serves_in_order 0 ide_cpu (demo_ide [IDE_BSY] dirty_buf) [] 0 dirty_buf 0) as (s1 & kk & H1 & _ & _ & _ & _ & s2 & y & H2 & _ & _ & _ & H3 & _).
  - constructor; try done; [apply NoDup_nil_2|intros b Hb; by apply not_elem_of_nil in Hb|by repeat constructor].
  - by intros [].
  - done.
  - done.
  - done.
  - done.
  - done.
  - apply not_elem_of_nil.
  - by left.
  - exists s1, kk. split; [exact H1|]. exists s2. split; [exact H2|exact H3].
Defined.

(** A disk error on a read is not reported: the interrupt marks the buffer valid with
    whatever it had in it. *)
Theorem ide_error_hidden :
  match iderw 2 0 (demo_ide [IDE_DRDY; Z.lor IDE_DRDY IDE_ERR] (mkbuf 0 0 5 1 0 0 (replicate 512 0))) with
  | Swtch s1 kk =>
      match ideintr s1 with
      | Ret _ s2 =>
          match kk s2 with
          | Ret _ s3 => (flags <$> d_bufs s3, bdata <$> d_bufs s3) = ([B_VALID], [replicate 512 0]) /\ sector_at (a_disks (ide s3)) 0 5 = replicate 512 9
          | _ => False
          end
      | _ => False
      end
  | _ => False
  end.
Proof. vm_compute. split; reflexivity. Qed.
