(* ===== verification/Bytes.v ===== *)
(** * Fields of byte blocks

    C structures stored in disk blocks: little-endian integers at byte offsets. *)

From Stdlib Require Import ZArith Lia.
From S2P Require Import Prelude.

Fixpoint le_bytes (n : nat) (z : Z) : list Z :=
  match n with
  | O => []
  | S n => z mod 256 :: le_bytes n (z / 256)
  end.
Fixpoint le_val (l : list Z) : Z :=
  match l with
  | [] => 0
  | b :: l => b + 256 * le_val l
  end.

(** [n] bytes from [off] on, and [l] written at [off]. *)
Definition sub (off n : nat) (d : list Z) : list Z := take n (drop off d).
Definition patch (off : nat) (l d : list Z) : list Z := take off d ++ l ++ drop (off + length l) d.

(** An unsigned integer of [n] bytes at [off]. *)
Definition getn (n off : nat) (d : list Z) : Z := le_val (sub off n d).
Definition putn (n off : nat) (z : Z) (d : list Z) : list Z := patch off (le_bytes n z) d.
(** The [k]-th 32-bit word. *)
Definition get32 (k : nat) (d : list Z) : Z := getn 4 (4 * k) d.
Definition put32 (k : nat) (z : Z) (d : list Z) : list Z := putn 4 (4 * k) z d.

#[global] Arguments getn : simpl never.
#[global] Arguments putn : simpl never.
#[global] Arguments get32 : simpl never.
#[global] Arguments put32 : simpl never.

Lemma length_le_bytes n z : length (le_bytes n z) = n.
Proof. revert z. induction n; cbn; auto. Qed.

Lemma le_val_bytes n z : 0 <= z < 256 ^ Z.of_nat n -> le_val (le_bytes n z) = z.
Proof.
  revert z. induction n as [|n IH]; intros z Hz; cbn [le_bytes le_val]; [cbn in Hz; lia|].
  rewrite IH; [Z.div_mod_to_equations; lia|]. rewrite Nat2Z.inj_succ, Z.pow_succ_r in Hz by lia.
  split; [apply Z.div_pos; lia|]. apply Z.div_lt_upper_bound; lia.
Qed.

Lemma length_patch off l d : (off + length l <= length d)%nat -> length (patch off l d) = length d.
Proof. intros H. unfold patch. rewrite !length_app, length_take, length_drop. lia. Qed.

Lemma length_putn n off z d : (off + n <= length d)%nat -> length (putn n off z d) = length d.
Proof. intros H. unfold putn. apply length_patch. by rewrite length_le_bytes. Qed.

Lemma length_put32 k z d : (4 * k + 4 <= length d)%nat -> length (put32 k z d) = length d.
Proof. apply length_putn. Qed.

Lemma patch_lookup off l d i : (off + length l <= length d)%nat ->
  patch off l d !! i = if decide (off <= i < off + length l)%nat then l !! (i - off)%nat else d !! i.
Proof.
  intros H. unfold patch. case_decide as Hi.
  - rewrite lookup_app_r by (rewrite length_take; lia). rewrite length_take, Nat.min_l by lia.
    by rewrite lookup_app_l by lia.
  - destruct (decide (i < off)%nat).
    + rewrite lookup_app_l by (rewrite length_take; lia). by rewrite lookup_take_lt by lia.
    + rewrite lookup_app_r by (rewrite length_take; lia). rewrite length_take, Nat.min_l by lia.
      rewrite lookup_app_r by lia. rewrite lookup_drop. f_equal. lia.
Qed.

Lemma sub_lookup off n d i : sub off n d !! i = if decide (i < n)%nat then d !! (off + i)%nat else None.
Proof.
  unfold sub. case_decide; [by rewrite lookup_take_lt, lookup_drop by lia|].
  apply lookup_ge_None. rewrite length_take. lia.
Qed.

Lemma sub_patch off l d : (off + length l <= length d)%nat -> sub off (length l) (patch off l d) = l.
Proof.
  intros H. apply list_eq. intros i. rewrite sub_lookup, patch_lookup by done. repeat case_decide; try lia.
  - f_equal. lia.
  - symmetry. apply lookup_ge_None. lia.
Qed.

Lemma sub_patch_ne off l d off' n :
  (off + length l <= length d)%nat -> (off' + n <= off \/ off + length l <= off')%nat -> sub off' n (patch off l d) = sub off' n d.
Proof.
  intros H Hd. apply list_eq. intros i. rewrite !sub_lookup, patch_lookup by done. repeat case_decide; try lia; done.
Qed.

Lemma getn_putn n off z d : (off + n <= length d)%nat -> 0 <= z < 256 ^ Z.of_nat n -> getn n off (putn n off z d) = z.
Proof.
  intros Hl Hz. unfold getn, putn. rewrite <- (length_le_bytes n z) at 1. rewrite sub_patch by (rewrite length_le_bytes; lia).
  by apply le_val_bytes.
Qed.

Lemma getn_putn_ne n off z d n' off' :
  (off + n <= length d)%nat -> (off' + n' <= off \/ off + n <= off')%nat -> getn n' off' (putn n off z d) = getn n' off' d.
Proof. intros Hl Hd. unfold getn, putn. by rewrite sub_patch_ne by (rewrite length_le_bytes; lia). Qed.

Lemma get32_put32 k z d : (4 * k + 4 <= length d)%nat -> is_u32 z -> get32 k (put32 k z d) = z.
Proof. intros Hl Hz. by apply getn_putn. Qed.

Lemma get32_put32_ne k z d k' : (4 * k + 4 <= length d)%nat -> k' <> k -> get32 k' (put32 k z d) = get32 k' d.
Proof. intros Hl Hne. apply getn_putn_ne; lia. Qed.

Lemma getn_patch_ne n off l d off' :
  (off + length l <= length d)%nat -> (off' + n <= off \/ off + length l <= off')%nat -> getn n off' (patch off l d) = getn n off' d.
Proof. intros Hl Hd. unfold getn. by rewrite sub_patch_ne. Qed.
