(* ===== verification/Strings.v ===== *)
(** * Strings and memory blocks

    Models [string.c] (the kernel's library) and the string functions of
    [ulib.c] (the user library).  Memory is an array of bytes; a pointer is an
    index into it, and an access outside the array has no result ([None]). *)

From Stdlib Require Import ZArith Lia.
From S2P Require Import Prelude.

Notation mem := (list Z).

Definition load (m : mem) (a : nat) : option Z := m !! a.
Definition store (m : mem) (a : nat) (v : Z) : option mem :=
  if decide (a < length m)%nat then Some (<[a := v]> m) else None.

(** ** [x86.h]: the string instructions *)

(** [rep stosb] *)
Fixpoint stosb (m : mem) (a : nat) (data : Z) (cnt : nat) : option mem :=
  match cnt with
  | O => Some m
  | S cnt => m ← store m a (u8 data); stosb m (S a) data cnt
  end.

(** The little-endian bytes of a 32-bit word. *)
Definition word_byte (w : Z) (k : Z) : Z := Z.land (Z.shiftr w (8 * k)) 255.

Definition store_word (m : mem) (a : nat) (w : Z) : option mem :=
  m ← store m a (word_byte w 0);
  m ← store m (a + 1) (word_byte w 1);
  m ← store m (a + 2) (word_byte w 2);
  store m (a + 3) (word_byte w 3).

(** [rep stosl] *)
Fixpoint stosl (m : mem) (a : nat) (data : Z) (cnt : nat) : option mem :=
  match cnt with
  | O => Some m
  | S cnt => m ← store_word m a data; stosl m (a + 4) data cnt
  end.

(** ** [string.c] *)

Definition memset (m : mem) (dst : nat) (c : Z) (n : nat) : option mem :=
  if (dst mod 4 =? 0)%nat && (n mod 4 =? 0)%nat then
    let c := Z.land c 255 in
    stosl m dst (Z.lor (Z.lor (Z.lor (Z.shiftl c 24) (Z.shiftl c 16)) (Z.shiftl c 8)) c) (n / 4)
  else stosb m dst c n.

Fixpoint memcmp (m : mem) (s1 s2 : nat) (n : nat) : option Z :=
  match n with
  | O => Some 0
  | S n =>
      a ← load m s1; b ← load m s2;
      if negb (a =? b) then Some (a - b) else memcmp m (S s1) (S s2) n
  end.

Fixpoint copy_up (m : mem) (d s : nat) (n : nat) : option mem :=
  match n with
  | O => Some m
  | S n => c ← load m s; m ← store m d c; copy_up m (S d) (S s) n
  end.

(** [d] and [s] are the start of the blocks; the [n]-th byte from it goes first. *)
Fixpoint copy_down (m : mem) (d s : nat) (n : nat) : option mem :=
  match n with
  | O => Some m
  | S n => c ← load m (s + n); m ← store m (d + n) c; copy_down m d s n
  end.

Definition memmove (m : mem) (dst src : nat) (n : nat) : option mem :=
  if (src <? dst)%nat && (dst <? src + n)%nat then copy_down m dst src n else copy_up m dst src n.

Definition memcpy (m : mem) (dst src : nat) (n : nat) : option mem := memmove m dst src n.

Fixpoint strncmp (m : mem) (p q : nat) (n : nat) : option Z :=
  match n with
  | O => Some 0
  | S n' =>
      a ← load m p;
      b ← load m q;
      if negb (a =? 0) && (a =? b) then strncmp m (S p) (S q) n' else Some (a - b)
  end.

(** The second loop of [strncpy]. *)
Fixpoint zero_fill (m : mem) (s : nat) (n : nat) : option mem :=
  match n with
  | O => Some m
  | S n => m ← store m s 0; zero_fill m (S s) n
  end.

(** The first loop has tested [n-- > 0] with [n] = 0 when it stops for that reason,
    which leaves [n] = -1 and nothing to fill. *)
Fixpoint strncpy (m : mem) (s t : nat) (n : nat) : option mem :=
  match n with
  | O => Some m
  | S n =>
      c ← load m t;
      m ← store m s c;
      if c =? 0 then zero_fill m (S s) n else strncpy m (S s) (S t) n
  end.

(** [n] counts down as in [--n > 0]; the result is the memory before [*s = 0] and
    the final [s]. *)
Fixpoint safestrcpy_loop (m : mem) (s t : nat) (n : nat) : option (mem * nat) :=
  match n with
  | S (S _ as n') =>
      c ← load m t;
      m ← store m s c;
      if c =? 0 then Some (m, S s) else safestrcpy_loop m (S s) (S t) n'
  | _ => Some (m, s)
  end.

Definition safestrcpy (m : mem) (s t : nat) (n : nat) : option mem :=
  match n with
  | O => Some m
  | _ => '(m, s) ← safestrcpy_loop m s t n; store m s 0
  end.

(** A string runs to its NUL; the loop cannot go past the end of memory, so the
    number of bytes that are left bounds it. *)
Fixpoint strlen_loop (fuel : nat) (m : mem) (s : nat) (n : nat) : option nat :=
  match fuel with
  | O => None
  | S fuel => c ← load m (s + n); if c =? 0 then Some n else strlen_loop fuel m s (S n)
  end.
Definition strlen (m : mem) (s : nat) : option nat := strlen_loop (S (length m)) m s 0.

(** A field of a structure is set from another array: the two arrays are laid out
    one after the other. *)
Definition safestrcpy_field (dst src : list Z) (n : nat) : option (list Z) :=
  m ← safestrcpy (dst ++ src) 0 (length dst) n; Some (take (length dst) m).

(** ** [ulib.c] *)

Module Ulib.

Fixpoint strcpy (fuel : nat) (m : mem) (s t : nat) : option mem :=
  match fuel with
  | O => None
  | S fuel =>
      c ← load m t;
      m ← store m s c;
      if c =? 0 then Some m else strcpy fuel m (S s) (S t)
  end.

Fixpoint strcmp (fuel : nat) (m : mem) (p q : nat) : option Z :=
  match fuel with
  | O => None
  | S fuel =>
      a ← load m p;
      b ← load m q;
      if negb (a =? 0) && (a =? b) then strcmp fuel m (S p) (S q) else Some (a - b)
  end.

Definition strlen (m : mem) (s : nat) : option nat := strlen m s.

Definition memset (m : mem) (dst : nat) (c : Z) (n : nat) : option mem := stosb m dst c n.

(** The address of the first [c] before the NUL, if any. *)
Fixpoint strchr (fuel : nat) (m : mem) (s : nat) (c : Z) : option (option nat) :=
  match fuel with
  | O => None
  | S fuel =>
      a ← load m s;
      if a =? 0 then Some None else if a =? c then Some (Some s) else strchr fuel m (S s) c
  end.

(** Characters are read from the list [inp], one [read(0, &c, 1)] each; the end of
    the list is end of file.  [fuel] is [max - 1 - i]. *)
Fixpoint gets_loop (fuel : nat) (m : mem) (buf : nat) (i : nat) (inp : list Z) : option (mem * nat * list Z) :=
  match fuel, inp with
  | O, _ | _, [] => Some (m, i, inp)
  | S fuel, c :: inp =>
      m ← store m (buf + i) c;
      if (c =? 10) || (c =? 13) then Some (m, S i, inp) else gets_loop fuel m buf (S i) inp
  end.

Definition gets (m : mem) (buf : nat) (max : nat) (inp : list Z) : option (mem * list Z) :=
  '(m, i, inp) ← gets_loop (max - 1) m buf 0 inp;
  m ← store m (buf + i) 0; Some (m, inp).

(** [int] arithmetic: signed overflow is undefined. *)
Fixpoint atoi_loop (fuel : nat) (m : mem) (s : nat) (n : Z) : option Z :=
  match fuel with
  | O => None
  | S fuel =>
      c ← load m s;
      if (48 <=? c) && (c <=? 57) then
        if n * 10 + c <? 2 ^ 31 then atoi_loop fuel m (S s) (n * 10 + c - 48) else None
      else Some n
  end.
Definition atoi (m : mem) (s : nat) : option Z := atoi_loop (S (length m)) m s 0.

Definition memmove (m : mem) (dst src : nat) (n : nat) : option mem := copy_up m dst src n.
End Ulib.

(** ** Blocks *)

(** [n] bytes from [a] on. *)
Definition block (m : mem) (a n : nat) : list Z := take n (drop a m).

Lemma store_in m a v : (a < length m)%nat -> store m a v = Some (<[a := v]> m).
Proof. intros H. unfold store. by rewrite decide_True. Qed.

Lemma block_cons m a n x : m !! a = Some x -> block m a (S n) = x :: block m (S a) n.
Proof. intros H. unfold block. by rewrite (drop_S _ _ _ H). Qed.

Lemma block_snoc m a n x : m !! (a + n)%nat = Some x -> block m a (S n) = block m a n ++ [x].
Proof. intros H. unfold block. apply take_S_r. by rewrite lookup_drop. Qed.

Lemma block_insert_out m a n d x :
  (d < a \/ a + n <= d)%nat -> block (<[d := x]> m) a n = block m a n.
Proof.
  intros [H|H]; unfold block; [by rewrite drop_insert_lt|].
  rewrite drop_insert_ge by lia. apply take_insert_ge. lia.
Qed.

Lemma length_block m a n : (a + n <= length m)%nat -> length (block m a n) = n.
Proof. intros H. unfold block. rewrite length_take, length_drop. lia. Qed.

Lemma inserts_cons_in (m : mem) a x (k : list Z) :
  list_inserts (S a) k (<[a := x]> m) = list_inserts a (x :: k) m.
Proof. cbn. by rewrite list_insert_inserts_lt by lia. Qed.

Lemma inserts_insert_out (m : mem) i (k : list Z) j x :
  (i + length k <= j)%nat -> list_inserts i k (<[j := x]> m) = <[j := x]> (list_inserts i k m).
Proof.
  revert i. induction k as [|y k IH]; intros i H; cbn in *; [done|].
  rewrite IH by lia. by rewrite list_insert_insert_ne by lia.
Qed.

Lemma stosb_spec m a c n :
  (a + n <= length m)%nat -> stosb m a c n = Some (list_inserts a (replicate n (u8 c)) m).
Proof.
  revert m a. induction n as [|n IH]; intros m a H; [done|]. cbn [stosb replicate].
  rewrite store_in by lia. cbn. rewrite IH by (rewrite length_insert; lia).
  by rewrite inserts_cons_in.
Qed.

Lemma stosb_add m a c n1 n2 :
  stosb m a c (n1 + n2) = (m ← stosb m a c n1; stosb m (a + n1) c n2).
Proof.
  revert m a. induction n1 as [|n1 IH]; intros m a; cbn; [by rewrite Nat.add_0_r|].
  destruct (store m a (u8 c)) as [m'|]; cbn; [|done]. rewrite IH.
  destruct (stosb m' (S a) c n1); cbn; [|done]. f_equal. lia.
Qed.

Definition fill_word (c : Z) : Z :=
  Z.lor (Z.lor (Z.lor (Z.shiftl c 24) (Z.shiftl c 16)) (Z.shiftl c 8)) c.

Lemma fill_word_bytes c k : is_byte c -> 0 <= k < 4 -> word_byte (fill_word c) k = c.
Proof.
  intros Hc Hk. unfold is_byte in Hc.
  assert (Hall : forallb (fun c => forallb (fun k => word_byte (fill_word (Z.of_nat c)) (Z.of_nat k) =? Z.of_nat c)
    (seq 0 4)) (seq 0 256) = true) by (vm_compute; reflexivity).
  rewrite forallb_forall in Hall. specialize (Hall (Z.to_nat c)). rewrite forallb_forall in Hall.
  specialize (Hall ltac:(apply in_seq; lia) (Z.to_nat k) ltac:(apply in_seq; lia)).
  rewrite !Z2Nat.id in Hall by lia. lia.
Qed.

Lemma stosl_stosb m a c n :
  is_byte c -> stosl m a (fill_word c) n = stosb m a c (4 * n).
Proof.
  intros Hc. revert m a. induction n as [|n IH]; intros m a; [done|].
  replace (4 * S n)%nat with (4 + 4 * n)%nat by lia. rewrite stosb_add. cbn [stosl].
  assert (E : store_word m a (fill_word c) = stosb m a c 4).
  { unfold store_word. rewrite !fill_word_bytes by (done || lia). cbn. rewrite u8_small by done.
    replace (a + 1)%nat with (S a) by lia. replace (a + 2)%nat with (S (S a)) by lia.
    replace (a + 3)%nat with (S (S (S a))) by lia.
    destruct (store m a c) as [m1|]; cbn; [|done]. destruct (store m1 (S a) c) as [m2|]; cbn; [|done].
    destruct (store m2 (S (S a)) c) as [m3|]; cbn; [|done]. by destruct (store m3 _ c). }
  rewrite E. destruct (stosb m a c 4) as [m'|]; cbn [mbind option_bind]; [|done]. apply IH.
Qed.

Lemma u8_land c : Z.land c 255 = u8 c.
Proof. unfold u8. change 255 with (Z.ones 8). by rewrite Z.land_ones by lia. Qed.

Lemma memset_stosb m a c n : memset m a c n = stosb m a c n.
Proof.
  unfold memset. destruct (Nat.eqb_spec (n mod 4) 0) as [E|]; [|by rewrite andb_false_r].
  rewrite andb_true_r. destruct (_ =? _)%nat; [|done]. rewrite u8_land.
  change (stosl m a (fill_word (u8 c)) (n / 4) = stosb m a c n).
  rewrite stosl_stosb by apply u8_range.
  replace (4 * (n / 4))%nat with n by (rewrite (Nat.div_mod_eq n 4) at 1; lia).
  clear E. revert m a. induction n as [|n IH]; intros m a; [done|]. cbn.
  rewrite (u8_small (u8 c)) by apply u8_range. destruct (store m a (u8 c)); cbn; [|done]. apply IH.
Qed.

Lemma copy_up_spec m d s n :
  (s + n <= length m)%nat -> (d + n <= length m)%nat -> ~ (s < d < s + n)%nat ->
  copy_up m d s n = Some (list_inserts d (block m s n) m).
Proof.
  revert m d s. induction n as [|n IH]; intros m d s Hs Hd Hno; [done|].
  destruct (lookup_lt_is_Some_2 m s ltac:(lia)) as [x Hx]. cbn [copy_up]. unfold load. rewrite Hx. cbn.
  rewrite store_in by lia. cbn. rewrite IH by (rewrite ?length_insert; lia).
  by rewrite block_insert_out, inserts_cons_in, (block_cons _ _ _ _ Hx) by lia.
Qed.

Lemma copy_down_spec m d s n :
  (s + n <= length m)%nat -> (d + n <= length m)%nat -> (s < d)%nat ->
  copy_down m d s n = Some (list_inserts d (block m s n) m).
Proof.
  revert m. induction n as [|n IH]; intros m Hs Hd Hlt; [done|].
  destruct (lookup_lt_is_Some_2 m (s + n)%nat ltac:(lia)) as [x Hx]. cbn [copy_down]. unfold load. rewrite Hx.
  cbn [mbind option_bind]. rewrite store_in by lia. cbn [mbind option_bind].
  rewrite IH by (rewrite ?length_insert; lia). rewrite block_insert_out by lia.
  rewrite (block_snoc _ _ _ _ Hx), list_inserts_app_l, length_block by lia.
  f_equal. rewrite inserts_insert_out by (rewrite length_block; lia). cbn. by rewrite Nat.add_comm.
Qed.

(** ** NUL-terminated strings *)

(** At [a] starts the string [str], followed by its NUL. *)
Definition string_at (m : mem) (a : nat) (str : list Z) : Prop :=
  0 ∉ str /\ forall i c, (str ++ [0]) !! i = Some c -> m !! (a + i)%nat = Some c.

Lemma string_at_nil m a : string_at m a [] -> m !! a = Some 0.
Proof. intros [_ H]. specialize (H 0%nat 0 eq_refl). by rewrite Nat.add_0_r in H. Qed.

Lemma string_at_cons m a c str :
  string_at m a (c :: str) -> m !! a = Some c /\ c <> 0 /\ string_at m (S a) str.
Proof.
  intros [Hn H]. split_and!.
  - specialize (H 0%nat c eq_refl). by rewrite Nat.add_0_r in H.
  - set_solver.
  - split; [set_solver|]. intros i x Hx. specialize (H (S i) x Hx). by rewrite Nat.add_succ_r in H.
Qed.

Lemma string_at_insert m a str d x :
  string_at m a str -> (d < a \/ a + length str < d)%nat -> string_at (<[d := x]> m) a str.
Proof.
  intros [Hn H] Hd. split; [done|]. intros i c Hi. rewrite list_lookup_insert_ne; [by apply H|].
  apply lookup_lt_Some in Hi. rewrite length_app in Hi. cbn in Hi. lia.
Qed.

Lemma strlen_loop_spec m s str n fuel :
  string_at m (s + n) str -> (length str < fuel)%nat ->
  strlen_loop fuel m s n = Some (n + length str)%nat.
Proof.
  revert n fuel. induction str as [|c str IH]; intros n [|fuel] H Hf; cbn in Hf; try lia; cbn.
  - unfold load. rewrite (string_at_nil _ _ H). cbn. by rewrite Nat.add_0_r.
  - apply string_at_cons in H as (H1 & H2 & H3). unfold load. rewrite H1. cbn.
    apply Z.eqb_neq in H2. rewrite H2. rewrite (IH (S n)); [f_equal; lia| |lia].
    by rewrite Nat.add_succ_r.
Qed.

Lemma string_at_length m a str : string_at m a str -> (a + length str < length m)%nat.
Proof.
  intros [_ H]. eapply lookup_lt_Some, (H (length str) 0). rewrite lookup_app_r by lia. by rewrite Nat.sub_diag.
Qed.

Lemma zero_fill_spec m s n :
  (s + n <= length m)%nat -> zero_fill m s n = Some (list_inserts s (replicate n 0) m).
Proof.
  revert m s. induction n as [|n IH]; intros m s H; [done|]. cbn [zero_fill replicate].
  rewrite store_in by lia. cbn. rewrite IH by (rewrite length_insert; lia). by rewrite inserts_cons_in.
Qed.

Definition apart (a n b k : nat) : Prop := (a + n <= b \/ b + k <= a)%nat.

Lemma strncpy_run m s t n str :
  string_at m t str -> (s + n <= length m)%nat -> apart s n t (S (length str)) ->
  strncpy m s t n = Some (list_inserts s (take n (str ++ replicate n 0)) m).
Proof.
  revert m s t str. induction n as [|n IH]; intros m s t str Ht Hs Ha; [done|]. cbn [strncpy].
  unfold apart in *. destruct str as [|c str]; cbn in Ha.
  - unfold load. rewrite (string_at_nil _ _ Ht). cbn. rewrite store_in by lia. cbn.
    rewrite zero_fill_spec by (rewrite length_insert; lia). rewrite inserts_cons_in.
    by rewrite take_replicate, Nat.min_id.
  - apply string_at_cons in Ht as (H1 & H2 & H3). unfold load. rewrite H1. cbn.
    rewrite store_in by lia. cbn. apply Z.eqb_neq in H2. rewrite H2.
    rewrite (IH _ _ _ str); [|by apply string_at_insert; [|lia]|rewrite length_insert; lia|lia].
    rewrite inserts_cons_in. do 2 f_equal. cbn [app take]. f_equal.
    change (0 :: replicate n 0) with (replicate (S n) 0). rewrite replicate_S_end, (assoc_L (++)).
    rewrite (take_app_le (str ++ replicate n 0)); [done|]. rewrite length_app, length_replicate. lia.
Qed.

(** What [safestrcpy] writes: at most [n - 1] characters and a NUL, and one more NUL
    when the whole string and its own NUL were copied. *)
Definition safestr (str : list Z) (n : nat) : list Z :=
  if decide (length str < n - 1)%nat then str ++ [0; 0] else take (n - 1) str ++ [0].

Lemma safestrcpy_loop_S m s t n :
  safestrcpy_loop m s t (S (S n)) =
  (c ← load m t; m ← store m s c;
   if c =? 0 then Some (m, S s) else safestrcpy_loop m (S s) (S t) (S n)).
Proof. done. Qed.

Lemma safestrcpy_run m s t n str :
  string_at m t str -> (0 < n)%nat -> (s + n <= length m)%nat -> apart s n t (S (length str)) ->
  safestrcpy m s t n = Some (list_inserts s (safestr str n) m).
Proof.
  intros Ht Hn. unfold safestrcpy. destruct n as [|n]; [lia|]. clear Hn.
  revert m s t str Ht. induction n as [|n IH]; intros m s t str Ht Hs Ha.
  - cbn. rewrite store_in by lia. unfold safestr. by rewrite decide_False by lia.
  - rewrite safestrcpy_loop_S. unfold apart in *. destruct str as [|c str]; cbn in Ha.
    + unfold load. rewrite (string_at_nil _ _ Ht). cbn. rewrite store_in by lia. cbn.
      rewrite store_in by (rewrite length_insert; lia). f_equal. cbn.
      by rewrite list_insert_insert_ne by lia.
    + apply string_at_cons in Ht as (H1 & H2 & H3). unfold load. rewrite H1. cbn [mbind option_bind].
      rewrite store_in by lia. cbn [mbind option_bind]. apply Z.eqb_neq in H2. rewrite H2.
      rewrite (IH _ _ _ str); [|by apply string_at_insert; [|lia]|rewrite length_insert; lia|lia].
      rewrite inserts_cons_in. do 2 f_equal. unfold safestr. cbn [length].
      replace (S (S n) - 1)%nat with (S n) by lia. replace (S n - 1)%nat with n by lia.
      case_decide; case_decide; (done || lia).
Qed.

Lemma strncmp_run m p q n a b :
  string_at m p a -> string_at m q b ->
  exists r, strncmp m p q n = Some r /\ (r = 0 <-> take n a = take n b).
Proof.
  revert p q a b. induction n as [|n IH]; intros p q a b Ha Hb; [by exists 0|]. cbn [strncmp].
  destruct a as [|x a]; [|apply string_at_cons in Ha as (Ha1 & Ha2 & Ha)];
    [apply string_at_nil in Ha as Ha1|]; unfold load; rewrite Ha1; cbn;
    (destruct b as [|y b]; [|apply string_at_cons in Hb as (Hb1 & Hb2 & Hb)];
    [apply string_at_nil in Hb as Hb1|]; rewrite Hb1; cbn).
  - by exists 0.
  - exists (-y). split; [done|]. split; [lia|done].
  - destruct (Z.eqb_spec x 0); [done|]. cbn. exists x. rewrite Z.sub_0_r. split; [done|]. split; [done|done].
  - destruct (Z.eqb_spec x 0); [done|]. cbn. destruct (Z.eqb_spec x y) as [->|Hne].
    + destruct (IH _ _ _ _ Ha Hb) as (r & Hr & Hiff). exists r. split; [done|]. rewrite Hiff. split; congruence.
    + exists (x - y). split; [done|]. split; [lia|congruence].
Qed.

Lemma inserts_take_drop (m : mem) a (k : list Z) :
  (a + length k <= length m)%nat ->
  list_inserts a k m = take a m ++ k ++ drop (a + length k) m.
Proof.
  revert a. induction k as [|x k IH]; intros a H; cbn [length list_inserts app] in *.
  - by rewrite Nat.add_0_r, take_drop.
  - rewrite IH by lia. rewrite insert_app_l by (rewrite length_take; lia).
    replace (a + S (length k))%nat with (S a + length k)%nat by lia.
    destruct (lookup_lt_is_Some_2 m a ltac:(lia)) as [y Hy]. rewrite (take_S_r _ _ _ Hy).
    rewrite insert_app_r_alt by (rewrite length_take; lia).
    replace (a - length (take a m))%nat with 0%nat by (rewrite length_take; lia).
    cbn. by rewrite <- (assoc_L (++)).
Qed.

Lemma length_safestr str n : (0 < n)%nat -> (length (safestr str n) <= n)%nat.
Proof.
  intros H. unfold safestr. case_decide; rewrite length_app; cbn; [lia|]. rewrite length_take. lia.
Qed.

Lemma safestr_prefix str n :
  (0 < n)%nat -> exists z, safestr str n = take (n - 1) str ++ 0 :: z.
Proof.
  intros H. unfold safestr. case_decide.
  - exists [0]. by rewrite take_ge by lia.
  - by exists [].
Qed.

Lemma string_at_mid (pre str post : list Z) :
  0 ∉ str -> string_at (pre ++ str ++ 0 :: post) (length pre) str.
Proof.
  intros H. split; [done|]. intros i c Hi. rewrite lookup_app_r by lia.
  replace (length pre + i - length pre)%nat with i by lia.
  replace (str ++ 0 :: post) with ((str ++ [0]) ++ post) by (by rewrite <- (assoc_L (++))).
  by apply lookup_app_l_Some.
Qed.

(** The name field of a process: 16 bytes with a NUL among them. *)
Definition name_str (nm str : list Z) : Prop := exists rest, nm = str ++ 0 :: rest /\ 0 ∉ str.

Lemma safestrcpy_field_run dst src str n :
  name_str src str -> length dst = n -> (0 < n)%nat ->
  exists nm, safestrcpy_field dst src n = Some nm /\ length nm = n /\ name_str nm (take (n - 1) str).
Proof.
  intros (rest & -> & Hn) Hd Hp. unfold safestrcpy_field.
  assert (Hl := length_safestr str n Hp).
  rewrite (safestrcpy_run _ 0 (length dst) n str); [|by apply string_at_mid|done|rewrite length_app; lia|left; lia].
  cbn [mbind option_bind]. rewrite inserts_take_drop by (rewrite length_app; lia). cbn [take app plus].
  rewrite drop_app_le by lia. eexists. split; [done|].
  rewrite take_0, app_nil_l, (assoc_L (++) (safestr str n)).
  rewrite (take_app_le (safestr str n ++ _)) by (rewrite length_app, length_drop; lia).
  rewrite take_ge by (rewrite length_app, length_drop; lia). split.
  - rewrite length_app, length_drop. lia.
  - destruct (safestr_prefix str n Hp) as [z ->]. eexists. rewrite <- (assoc_L (++)). split; [done|].
    intros H. apply Hn. by eapply elem_of_take in H as (? & H & _); apply list_elem_of_lookup_2 in H.
Qed.

(** ** What the library promises *)

(** [memset], which stores whole words when the block is aligned,
    writes the low byte of [c] to each of the [n] bytes and nothing else. *)
Theorem memset_fills m dst c n :
  (dst + n <= length m)%nat ->
  memset m dst c n = Some (take dst m ++ replicate n (u8 c) ++ drop (dst + n) m).
Proof.
  intros H. rewrite memset_stosb, stosb_spec by done.
  rewrite inserts_take_drop by (by rewrite length_replicate). by rewrite length_replicate.
Qed.

Lemma memset_fills_witness : memset [1; 2; 3; 4; 5; 6; 7; 8] 4 0x1ff 4 = Some [1; 2; 3; 4; 255; 255; 255; 255].
Proof. apply (memset_fills [1; 2; 3; 4; 5; 6; 7; 8] 4 0x1ff 4). cbn. lia. Defined.

(** [memmove] copies the block that was at [src] before the call,
    also when the two blocks overlap, and changes nothing outside [dst]. *)
Theorem memmove_copies m dst src n :
  (dst + n <= length m)%nat -> (src + n <= length m)%nat ->
  memmove m dst src n = Some (take dst m ++ block m src n ++ drop (dst + n) m).
Proof.
  intros Hd Hs. transitivity (Some (list_inserts dst (block m src n) m)).
  - unfold memmove. destruct (Nat.ltb_spec src dst), (Nat.ltb_spec dst (src + n)); cbn;
      (apply copy_down_spec || apply copy_up_spec); lia.
  - rewrite inserts_take_drop; by rewrite length_block.
Qed.

Lemma memmove_copies_witness : memmove [1; 2; 3; 4; 5] 1 0 4 = Some [1; 1; 2; 3; 4].
Proof. apply (memmove_copies [1; 2; 3; 4; 5] 1 0 4); cbn; lia. Defined.

(** [safestrcpy] into a buffer of [n] bytes leaves a terminated string
    there, the first [n - 1] characters of the source, and writes nothing outside the
    buffer. *)
Theorem safestrcpy_terminates m s t n str :
  string_at m t str -> (0 < n)%nat -> (s + n <= length m)%nat -> apart s n t (S (length str)) ->
  exists m', safestrcpy m s t n = Some m' /\ string_at m' s (take (n - 1) str) /\
    length m' = length m /\ forall i, (i < s \/ s + n <= i)%nat -> m' !! i = m !! i.
Proof.
  intros Ht Hn Hs Ha. assert (Hl := length_safestr str n Hn). eexists. split_and!.
  - by apply safestrcpy_run.
  - rewrite inserts_take_drop by lia. destruct (safestr_prefix str n Hn) as [z ->].
    rewrite <- (assoc_L (++)). cbn [app].
    assert (E : length (take s m) = s) by (rewrite length_take; lia).
    pose proof (string_at_mid (take s m) (take (n - 1) str)) as Hm. rewrite E in Hm. apply Hm. intros H. apply (proj1 Ht).
    by eapply elem_of_take in H as (? & H & _); apply list_elem_of_lookup_2 in H.
  - by rewrite length_inserts.
  - intros i [Hi|Hi]; [by apply list_lookup_inserts_lt|apply list_lookup_inserts_ge; lia].
Qed.

Lemma safestrcpy_terminates_witness :
  exists m', safestrcpy [9; 9; 9; 9; 97; 98; 99; 100; 0] 0 4 3 = Some m' /\ string_at m' 0 [97; 98] /\
    length m' = 9%nat /\ forall i, (i < 0 \/ 0 + 3 <= i)%nat -> m' !! i = [9; 9; 9; 9; 97; 98; 99; 100; 0] !! i.
Proof.
  apply (safestrcpy_terminates [9; 9; 9; 9; 97; 98; 99; 100; 0] 0 4 3 [97; 98; 99; 100]).
  - apply (string_at_mid [9; 9; 9; 9] [97; 98; 99; 100] []). set_solver.
  - lia.
  - cbn. lia.
  - left. lia.
Defined.
