(* ===== verification/Log.v ===== *)
(** * The log

    Models [log.c] (and [readsb] of [fs.c], which it calls) over any buffer cache. *)

From Stdlib Require Import ZArith Lia.
From S2P Require Import Prelude Spinlock Blocks Bytes.

Definition MAXOPBLOCKS : Z := 10.
Definition LOGSIZE : Z := MAXOPBLOCKS * 3.

(** [struct superblock] *)
Record superblock := mksb {
  sb_size : Z; nblocks : Z; ninodes : Z; nlog : Z; logstart : Z; inodestart : Z; bmapstart : Z
}.
Definition sb_of (d : block) : superblock :=
  mksb (get32 0 d) (get32 1 d) (get32 2 d) (get32 3 d) (get32 4 d) (get32 5 d) (get32 6 d).

(** [struct log], less its lock; [lh_n] and [lh_block] are the header [lh]. *)
Record log := mklog {
  l_start : Z; l_size : Z; outstanding : Z; committing : Z; l_dev : Z; lh_n : Z; lh_block : list Z
}.
Definition set_outstanding (v : Z) (l : log) : log := mklog (l_start l) (l_size l) v (committing l) (l_dev l) (lh_n l) (lh_block l).
Definition set_committing (v : Z) (l : log) : log := mklog (l_start l) (l_size l) (outstanding l) v (l_dev l) (lh_n l) (lh_block l).
Definition set_n (v : Z) (l : log) : log := mklog (l_start l) (l_size l) (outstanding l) (committing l) (l_dev l) v (lh_block l).
Definition set_blocks (v : list Z) (l : log) : log := mklog (l_start l) (l_size l) (outstanding l) (committing l) (l_dev l) (lh_n l) v.
Definition set_geom (st sz d : Z) (l : log) : log := mklog st sz (outstanding l) (committing l) d (lh_n l) (lh_block l).

(** The log over a buffer cache with state [B]. *)
Record logst (B : Type) := mklogst { lg : log; base : B }.
Arguments mklogst {B}.
Arguments lg {B}.
Arguments base {B}.

Definition log_lk : lockid := ("log"%string, 0).
Definition log_chan : chan := ("log"%string, 0).

Section Log.
Context {B : Type} `{!HasCtx B, !BufCache B}.

Definition set_lg (l : log) (s : logst B) : logst B := mklogst l (base s).
Definition set_base (b : B) (s : logst B) : logst B := mklogst (lg s) b.

#[export] Instance logst_hasctx : HasCtx (logst B).
Proof.
  refine {| ctx := fun s => ctx (base s); set_ctx := fun k s => set_base (set_ctx k (base s)) s |}.
  - intros k s. apply ctx_set_ctx.
  - intros k k' s. unfold set_base. cbn. by rewrite set_ctx_set.
  - intros [l b]. unfold set_base. cbn. by rewrite set_ctx_ctx.
Defined.

Fixpoint lift_base {A} (r : res B A) (l : log) : res (logst B) A :=
  match r with
  | Ret a b => Ret a (mklogst l b)
  | Panic m => Panic m
  | Spin k => Spin k
  | UB w => UB w
  | Fuel => Fuel
  | Swtch b k => Swtch (mklogst l b) (fun s => lift_base (k (base s)) (lg s))
  end.
Definition onbase {A} (m : M B A) : M (logst B) A := fun s => lift_base (m (base s)) (lg s).

Definition bread (d n : Z) : M (logst B) nat := onbase (c_bread d n).
Definition bwrite (b : nat) : M (logst B) unit := onbase (c_bwrite b).
Definition brelse (b : nat) : M (logst B) unit := onbase (c_brelse b).
Definition data_of (b : nat) : M (logst B) block := gets (fun s => c_data b (base s)).
Definition set_data_of (b : nat) (d : block) : M (logst B) unit := modify (fun s => set_base (c_set_data b d (base s)) s).

(** [log.lh.block[i]] *)
Definition get_block (i : nat) : M (logst B) Z := fun s =>
  match lh_block (lg s) !! i with Some b => Ret b s | None => UB "lh.block out of range" end.
Definition put_block (i : nat) (v : Z) : M (logst B) unit := fun s =>
  if decide (i < length (lh_block (lg s)))%nat then Ret tt (set_lg (set_blocks (<[i := v]> (lh_block (lg s))) (lg s)) s)
  else UB "lh.block out of range".

Definition readsb (d : Z) : M (logst B) superblock :=
  bp <- bread d 1 ;;
  x <- data_of bp ;;
  brelse bp ;;
  ret (sb_of x).

(** [0 .. log.lh.n - 1] *)
Definition tails (n : Z) : list nat := seq 0 (Z.to_nat n).

Definition install_one (tail : nat) : M (logst B) unit :=
  l <- gets lg ;;
  lbuf <- bread (l_dev l) (l_start l + Z.of_nat tail + 1) ;;
  b <- get_block tail ;;
  dbuf <- bread (l_dev l) b ;;
  x <- data_of lbuf ;;
  set_data_of dbuf x ;;
  bwrite dbuf ;;
  brelse lbuf ;;
  brelse dbuf.

Definition install_trans : M (logst B) unit :=
  n <- gets (fun s => lh_n (lg s)) ;;
  forM (tails n) install_one.

Definition read_head : M (logst B) unit :=
  l <- gets lg ;;
  buf <- bread (l_dev l) (l_start l) ;;
  x <- data_of buf ;;
  modify (fun s => set_lg (set_n (s32 (get32 0 x)) (lg s)) s) ;;
  n <- gets (fun s => lh_n (lg s)) ;;
  forM (tails n) (fun i => put_block i (s32 (get32 (S i) x))) ;;
  brelse buf.

Definition write_head_word (buf i : nat) : M (logst B) unit :=
  b <- get_block i ;;
  x <- data_of buf ;;
  set_data_of buf (put32 (S i) (u32 b) x).

Definition write_head : M (logst B) unit :=
  l <- gets lg ;;
  buf <- bread (l_dev l) (l_start l) ;;
  x <- data_of buf ;;
  set_data_of buf (put32 0 (u32 (lh_n l)) x) ;;
  n <- gets (fun s => lh_n (lg s)) ;;
  forM (tails n) (write_head_word buf) ;;
  bwrite buf ;;
  brelse buf.

Definition recover_from_log : M (logst B) unit :=
  read_head ;;
  install_trans ;;
  modify (fun s => set_lg (set_n 0 (lg s)) s) ;;
  write_head.

Definition initlog (d : Z) : M (logst B) unit :=
  onctx (initlock log_lk) ;;
  sb <- readsb d ;;
  modify (fun s => set_lg (set_geom (s32 (logstart sb)) (s32 (nlog sb)) d (lg s)) s) ;;
  recover_from_log.

(** The [while (1)] of [begin_op], one unit of fuel per turn. *)
Fixpoint begin_loop (fuel : nat) : M (logst B) unit :=
  match fuel with
  | O => nofuel
  | S fuel =>
      l <- gets lg ;;
      if negb (committing l =? 0) then sleep_on log_chan log_lk ;; begin_loop fuel else
      if LOGSIZE <? lh_n l + (outstanding l + 1) * MAXOPBLOCKS then sleep_on log_chan log_lk ;; begin_loop fuel else
      modify (fun s => set_lg (set_outstanding (outstanding (lg s) + 1) (lg s)) s) ;;
      onctx (release log_lk)
  end.

Definition begin_op (fuel : nat) : M (logst B) unit :=
  onctx (acquire log_lk) ;;
  begin_loop fuel.

Definition write_log_one (tail : nat) : M (logst B) unit :=
  l <- gets lg ;;
  to <- bread (l_dev l) (l_start l + Z.of_nat tail + 1) ;;
  b <- get_block tail ;;
  from <- bread (l_dev l) b ;;
  x <- data_of from ;;
  set_data_of to x ;;
  bwrite to ;;
  brelse from ;;
  brelse to.

Definition write_log : M (logst B) unit :=
  n <- gets (fun s => lh_n (lg s)) ;;
  forM (tails n) write_log_one.

Definition commit : M (logst B) unit :=
  n <- gets (fun s => lh_n (lg s)) ;;
  when (0 <? n) (
    write_log ;;
    write_head ;;
    install_trans ;;
    modify (fun s => set_lg (set_n 0 (lg s)) s) ;;
    write_head).

Definition end_op : M (logst B) unit :=
  onctx (acquire log_lk) ;;
  modify (fun s => set_lg (set_outstanding (outstanding (lg s) - 1) (lg s)) s) ;;
  l <- gets lg ;;
  if negb (committing l =? 0) then panic "log.committing" else
  do_commit <- (if outstanding l =? 0
                then modify (fun s => set_lg (set_committing 1 (lg s)) s) ;; ret true
                else wakeup_on log_chan ;; ret false) ;;
  onctx (release log_lk) ;;
  when do_commit (
    commit ;;
    onctx (acquire log_lk) ;;
    modify (fun s => set_lg (set_committing 0 (lg s)) s) ;;
    wakeup_on log_chan ;;
    onctx (release log_lk)).

(** The index of [bn] among the first [n] blocks, or [n]. *)
Fixpoint absorb (bn : Z) (l : list Z) (n i : nat) : nat :=
  match n, l with
  | S n, b :: l => if b =? bn then i else absorb bn l n (S i)
  | _, _ => i
  end.

Definition log_write (b : nat) : M (logst B) unit :=
  l <- gets lg ;;
  if (LOGSIZE <=? lh_n l) || (l_size l - 1 <=? lh_n l) then panic "too big a transaction" else
  if outstanding l <? 1 then panic "log_write outside of trans" else
  onctx (acquire log_lk) ;;
  l <- gets lg ;;
  bn <- gets (fun s => c_blockno b (base s)) ;;
  let i := absorb bn (lh_block l) (Z.to_nat (lh_n l)) 0 in
  put_block i bn ;;
  when (Z.of_nat i =? lh_n l) (modify (fun s => set_lg (set_n (lh_n (lg s) + 1) (lg s)) s)) ;;
  modify (fun s => set_base (c_pin b (base s)) s) ;;
  onctx (release log_lk).
End Log.
