(* ===== verification/LogSpec.v ===== *)
(** * The log: what its steps do to the cache

    Each step of a commit or a recovery, [write_log], [write_head] and [install_trans],
    as a change of the abstract cache and a list of disk writes. *)

From Stdlib Require Import ZArith Lia.
From S2P Require Import Prelude Spinlock Blocks Bytes Log.

(** ** Disk writes *)

Definition apply_writes (d : list block) (ws : list (Z * block)) : list block :=
  foldl (fun d w => <[Z.to_nat w.1 := w.2]> d) d ws.

Lemma apply_app d w1 w2 : apply_writes d (w1 ++ w2) = apply_writes (apply_writes d w1) w2.
Proof. apply foldl_app. Qed.

Lemma apply_snoc d ws w : apply_writes d (ws ++ [w]) = <[Z.to_nat w.1 := w.2]> (apply_writes d ws).
Proof. by rewrite apply_app. Qed.

Lemma length_apply d ws : length (apply_writes d ws) = length d.
Proof. revert d. induction ws as [|w ws IH]; intros d; cbn; [done|]. by rewrite IH, length_insert. Qed.

Lemma apply_other d ws n : (forall w, w ∈ ws -> 0 <= w.1 /\ w.1 <> n) -> disk_at (apply_writes d ws) n = disk_at d n.
Proof.
  revert d. induction ws as [|w ws IH]; intros d H; cbn; [done|]. rewrite IH by set_solver.
  destruct (H w) as [H0 H1]; [set_solver|]. by apply disk_at_insert_ne.
Qed.

Lemma apply_last d ws n x : 0 <= n < Z.of_nat (length d) -> (n, x) ∈ ws -> (forall w, w ∈ ws -> 0 <= w.1) ->
  (forall y, (n, y) ∈ ws -> y = x) -> disk_at (apply_writes d ws) n = x.
Proof.
  induction ws as [|w ws IH] using rev_ind; [set_solver|]. intros Hn Hin Hpos Hu. rewrite apply_snoc.
  destruct w as [m y]. cbn. destruct (decide (m = n)) as [->|Hne].
  - rewrite disk_at_insert_eq by (by rewrite length_apply). apply Hu. set_solver.
  - rewrite disk_at_insert_ne; [|apply (Hpos (m, y)); set_solver|done]. apply IH; [done| |set_solver..].
    apply elem_of_app in Hin as [?|Hin]; [done|]. set_solver.
Qed.

(** ** Steps on an idle cache *)

Definition idle_ac (d : list block) (ov : gmap Z block) (p : gset Z) (w : list (Z * block)) : acache := mkac d ov ∅ p w.

Section Steps.
Context {B : Type} `{!HasCtx B, !BufCache B}.
Context (i : nat) (c : cpu).
Implicit Types (s : logst B) (a : acache).

Definition lrep s a : Prop := cache_rep i c (base s) a.

Lemma wp_onbase {A} (m : M B A) s Q W :
  wp (m (base s)) (fun x b => Q x (set_base b s)) stays -> wp (onbase m s) Q W.
Proof. unfold onbase. by destruct (m (base s)). Qed.

Lemma wp_lbread s a n Q W :
  lrep s a -> 0 <= n < Z.of_nat (length (disk a)) -> held a !! n = None -> n ∈ pinned a \/ (size (busy a) < NBUF)%nat ->
  (forall r b, cache_rep i c b (ac_read n r a) -> Q r (set_base b s)) -> wp (bread 1 n s) Q W.
Proof.
  intros Hr Hn Hh Hb HQ. apply wp_onbase. eapply wp_mono; [by eapply bread_law| |done]. intros r b Hb'. by apply HQ.
Qed.

Lemma wp_lbwrite s a n r Q W :
  lrep s a -> held a !! n = Some r -> (forall b, cache_rep i c b (ac_write n a) -> Q tt (set_base b s)) -> wp (bwrite r s) Q W.
Proof. intros Hr Hh HQ. apply wp_onbase. eapply wp_mono; [by eapply bwrite_law| |done]. intros [] b Hb'. by apply HQ. Qed.

Lemma wp_lbrelse s a n r Q W :
  lrep s a -> held a !! n = Some r -> n ∈ pinned a \/ view a n = disk_at (disk a) n ->
  (forall b, cache_rep i c b (ac_release n a) -> Q tt (set_base b s)) -> wp (brelse r s) Q W.
Proof. intros Hr Hh Hv HQ. apply wp_onbase. eapply wp_mono; [by eapply brelse_law| |done]. intros [] b Hb'. by apply HQ. Qed.

Lemma wp_data s a n r Q W : lrep s a -> held a !! n = Some r -> Q (view a n) s -> wp (data_of r s) Q W.
Proof. intros Hr Hh HQ. cbn. destruct (data_law _ _ _ _ _ _ Hr Hh) as [-> _]. done. Qed.

Lemma wp_set_data s a n r d Q W :
  lrep s a -> held a !! n = Some r -> length d = 512%nat ->
  (forall b, cache_rep i c b (ac_set n d a) -> Q tt (set_base b s)) -> wp (set_data_of r d s) Q W.
Proof. intros Hr Hh Hd HQ. cbn. apply HQ. by apply set_data_law. Qed.

Lemma wp_get_block s j b Q W : lh_block (lg s) !! j = Some b -> Q b s -> wp (get_block j s) Q W.
Proof. intros H HQ. unfold get_block. by rewrite H. Qed.

(** *** The abstract effect of the patterns *)

Lemma ac_eq d1 o1 h1 p1 w1 d2 o2 h2 p2 w2 :
  d1 = d2 -> (forall n, o1 !! n = o2 !! n) -> (forall n, h1 !! n = h2 !! n) -> (forall n, n ∈ p1 <-> n ∈ p2) -> w1 = w2 ->
  mkac d1 o1 h1 p1 w1 = mkac d2 o2 h2 p2 w2.
Proof. intros -> Ho Hh Hp ->. f_equal; [by apply map_eq|by apply map_eq|by apply set_eq]. Qed.

Lemma ac_set_set n x y a : ac_set n x (ac_set n y a) = ac_set n x a.
Proof. unfold ac_set. cbn. by rewrite insert_insert_eq. Qed.

(** [bread h; b->data = x; bwrite; brelse] *)
Lemma ac_header d ov p w h r x :
  ov !! h = None -> h ∉ p ->
  ac_release h (ac_write h (ac_set h x (ac_read h r (idle_ac d ov p w)))) = idle_ac (<[Z.to_nat h := x]> d) ov p (w ++ [(h, x)]).
Proof.
  intros Ho Hp. unfold ac_release, ac_write, ac_set, ac_read, idle_ac. cbn. rewrite (decide_False (P := h ∈ p ∖ {[h]})) by (clear; set_solver).
  unfold view. cbn. rewrite insert_insert_eq, !lookup_insert_eq. cbn. apply ac_eq; try done.
  - intros n. destruct (decide (n = h)) as [->|]; [by rewrite lookup_delete_eq|by rewrite lookup_delete_ne, lookup_insert_ne].
  - intros n. destruct (decide (n = h)) as [->|]; [by rewrite lookup_delete_eq|by rewrite lookup_delete_ne, lookup_insert_ne].
  - set_solver.
Qed.

(** One turn of [write_log]: the pinned block [b] copied to the log block [t]. *)
Lemma ac_to_log d ov p w t b r1 r2 x v :
  t <> b -> ov !! t = None -> t ∉ p -> b ∈ p -> ov !! b = Some v ->
  ac_release t (ac_release b (ac_write t (ac_set t x (ac_read b r2 (ac_read t r1 (idle_ac d ov p w)))))) =
    idle_ac (<[Z.to_nat t := x]> d) ov p (w ++ [(t, x)]).
Proof.
  intros Hne Ho Hp Hb Hv. unfold ac_release, ac_write, ac_set, ac_read, idle_ac. cbn.
  rewrite (decide_True (P := b ∈ p ∖ {[t]})) by (clear -Hb Hne; set_solver).
  rewrite (decide_False (P := t ∈ p ∖ {[t]})) by (clear; set_solver). unfold view. cbn.
  rewrite !lookup_insert_eq, (lookup_insert_ne _ t b), Hv by done. cbn. apply ac_eq; try done.
  - intros n. destruct (decide (n = t)) as [->|]; [by rewrite lookup_delete_eq|]. rewrite lookup_delete_ne, lookup_insert_ne by done.
    destruct (decide (n = b)) as [->|]; [by rewrite lookup_insert_eq|]. by rewrite !lookup_insert_ne.
  - intros n. destruct (decide (n = t)) as [->|]; [by rewrite lookup_delete_eq|]. rewrite lookup_delete_ne by done.
    destruct (decide (n = b)) as [->|]; [by rewrite lookup_delete_eq|]. by rewrite lookup_delete_ne, !lookup_insert_ne.
  - set_solver.
Qed.

(** One turn of [install_trans]: the log block [l] copied to its home [b]. *)
Lemma ac_install d ov p w l b r1 r2 x :
  l <> b -> ov !! l = None -> l ∉ p ->
  ac_release b (ac_release l (ac_write b (ac_set b x (ac_read b r2 (ac_read l r1 (idle_ac d ov p w)))))) =
    idle_ac (<[Z.to_nat b := x]> d) (delete b ov) (p ∖ {[b]}) (w ++ [(b, x)]).
Proof.
  intros Hne Ho Hp. unfold ac_release, ac_write, ac_set, ac_read, idle_ac. cbn.
  rewrite (decide_False (P := l ∈ p ∖ {[b]})) by (clear -Hp; set_solver).
  rewrite (decide_False (P := b ∈ p ∖ {[b]})) by (clear; set_solver). unfold view. cbn.
  rewrite !lookup_insert_eq. cbn. apply ac_eq; try done.
  - intros n. destruct (decide (n = b)) as [->|]; [by rewrite !lookup_delete_eq|]. rewrite !(lookup_delete_ne _ b) by done.
    destruct (decide (n = l)) as [->|]; [by rewrite lookup_delete_eq|]. by rewrite lookup_delete_ne, !lookup_insert_ne.
  - intros n. destruct (decide (n = b)) as [->|]; [by rewrite lookup_delete_eq|]. rewrite !(lookup_delete_ne _ b) by done.
    destruct (decide (n = l)) as [->|]; [by rewrite lookup_delete_eq|]. by rewrite lookup_delete_ne, !lookup_insert_ne.
Qed.

(** *** Geometry *)

Definition in_log (l : log) (n : Z) : Prop := l_start l <= n < l_start l + l_size l.

Record geom (l : log) (len : nat) : Prop := {
  g_dev : l_dev l = 1;
  g_start : 2 <= l_start l;
  g_size : 1 <= l_size l <= LOGSIZE;
  g_end : l_start l + l_size l <= Z.of_nat len;
  g_int : Z.of_nat len < 2 ^ 31;
  g_block : length (lh_block l) = Z.to_nat LOGSIZE
}.

(** The blocks of the current transaction, in the order of the header. *)
Record txn (l : log) (len : nat) (blks : list Z) : Prop := {
  tx_n : lh_n l = Z.of_nat (length blks);
  tx_at : forall k b, blks !! k = Some b -> lh_block l !! k = Some b;
  tx_max : Z.of_nat (length blks) <= l_size l - 1;
  tx_home : forall b, b ∈ blks -> 0 <= b < Z.of_nat len /\ ~ in_log l b
}.

Lemma size_busy d ov p w : size (busy (idle_ac d ov p w)) = size p.
Proof. unfold busy, idle_ac. cbn. rewrite dom_empty_L. f_equal. set_solver. Qed.

Lemma take_S_at {A} (l : list A) k x : l !! k = Some x -> take (S k) l = take k l ++ [x].
Proof. apply take_S_r. Qed.

(** *** [write_log] *)

Definition log_writes (l : log) (v : Z -> block) (blks : list Z) : list (Z * block) :=
  imap (fun k b => (l_start l + Z.of_nat k + 1, v b)) blks.

Lemma wp_write_log_one s d ov p w k b x Q W :
  lrep s (idle_ac d ov p w) -> geom (lg s) (length d) -> lh_block (lg s) !! k = Some b ->
  Z.of_nat k + 1 < l_size (lg s) -> 0 <= b < Z.of_nat (length d) -> ~ in_log (lg s) b -> b ∈ p -> ov !! b = Some x ->
  (forall n, in_log (lg s) n -> n ∉ p /\ ov !! n = None) -> (size p < NBUF)%nat ->
  (forall c', cache_rep i c c' (idle_ac (<[Z.to_nat (l_start (lg s) + Z.of_nat k + 1) := x]> d) ov p (w ++ [(l_start (lg s) + Z.of_nat k + 1, x)])) ->
     Q tt (set_base c' s)) ->
  wp (write_log_one k s) Q W.
Proof.
  intros Hr Hg Hk Hkn Hb Hbl Hbp Hbx Hlog Hsz HQ. set (t := l_start (lg s) + Z.of_nat k + 1) in *.
  assert (Ht : in_log (lg s) t) by (unfold in_log, t; lia). destruct (Hlog t Ht) as [Htp Hto].
  assert (Htr : 0 <= t < Z.of_nat (length d)) by (destruct Hg; unfold in_log in Ht; lia).
  assert (Hne : t <> b) by (intros ->; done).
  assert (Hxl : length x = 512%nat) by (by eapply (ac_over _ (rep_ok _ _ _ _ Hr)); exact Hbx).
  unfold write_log_one. apply wp_step. cbn [gets wp]. rewrite (g_dev _ _ Hg). apply wp_step. fold t.
  eapply wp_lbread; [exact Hr|done|done|right; by rewrite size_busy|]. intros r1 c1 H1.
  apply wp_step. eapply wp_get_block; [exact Hk|]. apply wp_step.
  eapply wp_lbread; [exact H1|done|cbn; by rewrite lookup_insert_ne|by left|]. intros r2 c2 H2.
  apply wp_step. eapply wp_data; [exact H2|cbn; by rewrite lookup_insert_eq|]. rewrite view_read.
  replace (view (ac_read t r1 (idle_ac d ov p w)) b) with x by (unfold view; cbn; by rewrite lookup_insert_ne, Hbx).
  apply wp_step. eapply wp_set_data; [exact H2|cbn; by rewrite lookup_insert_ne, lookup_insert_eq|done|]. intros c3 H3.
  apply wp_step. eapply wp_lbwrite; [exact H3|cbn; by rewrite lookup_insert_ne, lookup_insert_eq|]. intros c4 H4.
  apply wp_step. eapply wp_lbrelse; [exact H4|cbn; by rewrite lookup_insert_eq|left; cbn; set_solver|]. intros c5 H5.
  eapply wp_lbrelse; [exact H5|cbn; by rewrite lookup_delete_ne, lookup_insert_ne, lookup_insert_eq| |].
  - right. unfold view. cbn. rewrite (decide_True (P := b ∈ p ∖ {[t]})) by (clear -Hbp Hne; set_solver).
    rewrite !lookup_insert_eq. cbn. unfold view. cbn. rewrite lookup_insert_eq. cbn. by rewrite disk_at_insert_eq.
  - intros c6 H6. erewrite ac_to_log in H6 by done. by apply HQ.
Qed.

Lemma wp_write_log s d ov p w blks v Q W :
  lrep s (idle_ac d ov p w) -> geom (lg s) (length d) -> txn (lg s) (length d) blks ->
  (forall b, b ∈ blks -> b ∈ p /\ ov !! b = Some (v b)) -> (forall n, in_log (lg s) n -> n ∉ p /\ ov !! n = None) ->
  (size p < NBUF)%nat ->
  (forall c', cache_rep i c c' (idle_ac (apply_writes d (log_writes (lg s) v blks)) ov p (w ++ log_writes (lg s) v blks)) -> Q tt (set_base c' s)) ->
  wp (write_log s) Q W.
Proof.
  intros Hr Hg Ht Hv Hlog Hsz HQ. unfold write_log. apply wp_step. cbn [gets wp]. rewrite (tx_n _ _ _ Ht).
  set (ws := log_writes (lg s) v blks) in *. assert (Hlen : length ws = length blks) by (unfold ws, log_writes; apply length_imap).
  eapply wp_mono.
  - apply (wp_forM _ _ (fun k t => exists c', t = set_base c' s /\ cache_rep i c c' (idle_ac (apply_writes d (take k ws)) ov p (w ++ take k ws)))).
    + exists (base s). split; [by destruct s|]. cbn. by rewrite app_nil_r.
    + intros k k' t Hk (c' & -> & Hc). unfold tails in Hk. apply lookup_seq in Hk as [-> Hk].
      destruct (lookup_lt_is_Some_2 blks k) as [b Hb]; [lia|]. assert (Hin : b ∈ blks) by (by eapply list_elem_of_lookup_2).
      assert (Hws : ws !! k = Some (l_start (lg s) + Z.of_nat k + 1, v b)) by (unfold ws, log_writes; by rewrite list_lookup_imap, Hb).
      rewrite (take_S_at _ _ _ Hws), apply_snoc, (assoc_L (++)). destruct (tx_home _ _ _ Ht b Hin) as [Hr1 Hr2]. destruct (Hv b Hin) as [Hp Ho].
      eapply wp_write_log_one; [exact Hc|by rewrite length_apply|by eapply tx_at|pose proof (tx_max _ _ _ Ht); cbn; lia|by rewrite length_apply|done|done|exact Ho|done|done|].
      intros c2 H2. by exists c2.
  - cbn. intros [] t (c' & -> & Hc). unfold tails in Hc. rewrite length_seq, Nat2Z.id, take_ge in Hc by lia. by apply HQ.
  - done.
Qed.

(** *** [install_trans] *)

Definition home_writes (l : log) (d : list block) (blks : list Z) : list (Z * block) :=
  imap (fun k b => (b, disk_at d (l_start l + Z.of_nat k + 1))) blks.

Definition drop_over (blks : list Z) (ov : gmap Z block) : gmap Z block := foldl (fun o b => delete b o) ov blks.

Lemma drop_over_lookup blks ov n : drop_over blks ov !! n = if decide (n ∈ blks) then None else ov !! n.
Proof.
  revert ov. induction blks as [|b blks IH]; intros ov; cbn [drop_over foldl].
  - rewrite decide_False; [done|]. set_solver.
  - unfold drop_over in IH. rewrite IH. destruct (decide (n ∈ blks)) as [H|H], (decide (n ∈ b :: blks)) as [H'|H']; try done; [set_solver| |].
    + apply elem_of_cons in H' as [->|]; [|done]. by rewrite lookup_delete_eq.
    + rewrite lookup_delete_ne; [done|]. set_solver.
Qed.

Lemma size_read h r d ov p w : (size (busy (ac_read h r (idle_ac d ov p w))) <= S (size p))%nat.
Proof.
  unfold busy, ac_read, idle_ac. cbn. rewrite dom_insert_L, dom_empty_L, (right_id_L ∅ (∪)).
  pose proof (size_union_alt ({[h]} : gset Z) p). rewrite H, size_singleton. assert (size (p ∖ {[h]}) <= size p)%nat by (apply subseteq_size; set_solver). lia.
Qed.

Lemma wp_install_one s d ov p w k b Q W :
  lrep s (idle_ac d ov p w) -> geom (lg s) (length d) -> lh_block (lg s) !! k = Some b ->
  Z.of_nat k + 1 < l_size (lg s) -> 0 <= b < Z.of_nat (length d) -> ~ in_log (lg s) b ->
  (forall n, in_log (lg s) n -> n ∉ p /\ ov !! n = None) -> (size p < NBUF)%nat -> b ∈ p \/ (size p + 1 < NBUF)%nat ->
  (forall c' x, x = disk_at d (l_start (lg s) + Z.of_nat k + 1) ->
     cache_rep i c c' (idle_ac (<[Z.to_nat b := x]> d) (delete b ov) (p ∖ {[b]}) (w ++ [(b, x)])) -> Q tt (set_base c' s)) ->
  wp (install_one k s) Q W.
Proof.
  intros Hr Hg Hk Hkn Hb Hbl Hlog Hsz Hroom HQ. set (t := l_start (lg s) + Z.of_nat k + 1) in *.
  assert (Ht : in_log (lg s) t) by (unfold in_log, t; lia). destruct (Hlog t Ht) as [Htp Hto].
  assert (Htr : 0 <= t < Z.of_nat (length d)) by (destruct Hg; unfold in_log in Ht; lia).
  assert (Hne : t <> b) by (intros ->; done). set (x := disk_at d t) in *.
  assert (Hv : view (idle_ac d ov p w) t = x) by (unfold view; cbn; by rewrite Hto).
  assert (Hxl : length x = 512%nat) by (rewrite <- Hv; apply view_len; [exact (rep_ok _ _ _ _ Hr)|done]).
  unfold install_one. apply wp_step. cbn [gets wp]. rewrite (g_dev _ _ Hg). apply wp_step. fold t.
  eapply wp_lbread; [exact Hr|done|done|right; by rewrite size_busy|]. intros r1 c1 H1.
  apply wp_step. eapply wp_get_block; [exact Hk|]. apply wp_step.
  eapply wp_lbread; [exact H1|done|cbn; by rewrite lookup_insert_ne| |].
  { destruct Hroom; [by left|right]. pose proof (size_read t r1 d ov p w). lia. }
  intros r2 c2 H2. apply wp_step. eapply wp_data; [exact H2|cbn; by rewrite lookup_insert_ne, lookup_insert_eq|].
  replace (view _ t) with x.
  2: { destruct (read_other (ac_read t r1 (idle_ac d ov p w)) b r2 t Hne) as (_ & _ & ->). by rewrite view_read. }
  apply wp_step. eapply wp_set_data; [exact H2|cbn; by rewrite lookup_insert_eq|done|]. intros c3 H3.
  apply wp_step. eapply wp_lbwrite; [exact H3|cbn; by rewrite lookup_insert_eq|]. intros c4 H4.
  apply wp_step. eapply wp_lbrelse; [exact H4|cbn; by rewrite lookup_insert_ne, lookup_insert_eq| |].
  { right. destruct (write_other (ac_set b x (ac_read b r2 (ac_read t r1 (idle_ac d ov p w)))) b t ltac:(lia) Hne) as (_ & _ & ->).
    destruct (set_other (ac_read b r2 (ac_read t r1 (idle_ac d ov p w))) b x t Hne) as (_ & _ & ->).
    destruct (read_other (ac_read t r1 (idle_ac d ov p w)) b r2 t Hne) as (_ & _ & ->). rewrite view_read. cbn.
    by rewrite disk_at_insert_ne by (done || lia). }
  intros c5 H5. eapply wp_lbrelse; [exact H5|cbn; by rewrite lookup_delete_ne, lookup_insert_eq| |].
  - right. destruct (release_other (ac_write b (ac_set b x (ac_read b r2 (ac_read t r1 (idle_ac d ov p w))))) t b (not_eq_sym Hne)) as (_ & _ & ->).
    rewrite view_write. cbn. rewrite lookup_insert_eq. cbn. rewrite view_set. by rewrite disk_at_insert_eq.
  - intros c6 H6. rewrite ac_install in H6 by done. exact (HQ c6 x eq_refl H6).
Qed.

Lemma log_kept l d blks k n : (forall b, b ∈ blks -> 0 <= b /\ ~ in_log l b) -> in_log l n ->
  disk_at (apply_writes d (take k (home_writes l d blks))) n = disk_at d n.
Proof.
  intros Hh Hn. apply apply_other. intros [m x] Hw. apply elem_of_take in Hw as (j & Hj & _).
  unfold home_writes in Hj. rewrite list_lookup_imap in Hj. destruct (blks !! j) as [b|] eqn:Hb; cbn in Hj; [|done]. simplify_eq.
  destruct (Hh m) as [H0 H1]; [by eapply list_elem_of_lookup_2|]. cbn. split; [done|]. by intros ->.
Qed.

Lemma wp_install_trans s d ov p w blks Q W :
  lrep s (idle_ac d ov p w) -> geom (lg s) (length d) -> txn (lg s) (length d) blks ->
  (forall n, in_log (lg s) n -> n ∉ p /\ ov !! n = None) -> (size p < NBUF)%nat ->
  (forall k b, blks !! k = Some b -> b ∈ p ∖ list_to_set (take k blks) \/ (size p + 1 < NBUF)%nat) ->
  (forall c', cache_rep i c c' (idle_ac (apply_writes d (home_writes (lg s) d blks)) (drop_over blks ov) (p ∖ list_to_set blks) (w ++ home_writes (lg s) d blks)) ->
     Q tt (set_base c' s)) ->
  wp (install_trans s) Q W.
Proof.
  intros Hr Hg Ht Hlog Hsz Hroom HQ. unfold install_trans. apply wp_step. cbn [gets wp]. rewrite (tx_n _ _ _ Ht).
  set (ws := home_writes (lg s) d blks) in *. assert (Hlen : length ws = length blks) by (unfold ws, home_writes; apply length_imap).
  eapply wp_mono.
  - apply (wp_forM _ _ (fun k t => exists c', t = set_base c' s /\
      cache_rep i c c' (idle_ac (apply_writes d (take k ws)) (drop_over (take k blks) ov) (p ∖ list_to_set (take k blks)) (w ++ take k ws)))).
    + exists (base s). split; [by destruct s|].
      replace (p ∖ list_to_set (take 0 blks)) with p by (cbn; set_solver). cbn. by rewrite app_nil_r.
    + intros k k' t Hk (c' & -> & Hc). unfold tails in Hk. apply lookup_seq in Hk as [-> Hk].
      destruct (lookup_lt_is_Some_2 blks k) as [b Hb]; [lia|]. assert (Hin : b ∈ blks) by (by eapply list_elem_of_lookup_2).
      destruct (tx_home _ _ _ Ht b Hin) as [Hr1 Hr2].
      assert (Hsub : (size (p ∖ list_to_set (take k blks)) <= size p)%nat) by (apply subseteq_size; set_solver).
      eapply (wp_install_one _ _ _ _ _ k b); [exact Hc|by rewrite length_apply|by eapply tx_at|pose proof (tx_max _ _ _ Ht); cbn; lia|by rewrite length_apply|done| |lia| |].
      * intros n Hn. destruct (Hlog n Hn) as [H1 H2]. rewrite drop_over_lookup. split; [set_solver|]. by case_decide.
      * destruct (Hroom k b Hb); [by left|right; lia].
      * intros c2 x -> H2. exists c2. split; [done|]. cbn [set_base lg] in H2.
        assert (Hkept : disk_at (apply_writes d (take k ws)) (l_start (lg s) + Z.of_nat k + 1) = disk_at d (l_start (lg s) + Z.of_nat k + 1)).
        { apply log_kept; [|unfold in_log; pose proof (tx_max _ _ _ Ht); lia].
          intros b' Hb'. destruct (tx_home _ _ _ Ht b' Hb') as [? ?]. split; [lia|done]. }
        rewrite Hkept in H2.
        assert (Hws : ws !! k = Some (b, disk_at d (l_start (lg s) + Z.of_nat k + 1))) by (unfold ws, home_writes; by rewrite list_lookup_imap, Hb).
        rewrite (take_S_at _ _ _ Hws), apply_snoc, (assoc_L (++)), (take_S_at _ _ _ Hb).
        unfold drop_over. rewrite foldl_app. cbn.
        replace (p ∖ list_to_set (take k blks ++ [b])) with (p ∖ list_to_set (take k blks) ∖ {[b]}); [done|].
        rewrite list_to_set_app_L. cbn. set_solver.
  - cbn. intros [] t (c' & -> & Hc). unfold tails in Hc. rewrite length_seq, Nat2Z.id, !take_ge in Hc by lia. by apply HQ.
  - done.
Qed.

(** *** [write_head], [read_head] *)

(** The words of the header block. *)
Fixpoint put_blocks (k : nat) (blks : list Z) (x : block) : block :=
  match blks with
  | [] => x
  | b :: blks => put_blocks (S k) blks (put32 (S k) (u32 b) x)
  end.
Definition header (blks : list Z) (x : block) : block := put_blocks 0 blks (put32 0 (u32 (Z.of_nat (length blks))) x).

Lemma put_blocks_snoc k blks b x : put_blocks k (blks ++ [b]) x = put32 (S (k + length blks)) (u32 b) (put_blocks k blks x).
Proof.
  revert k x. induction blks as [|b' blks IH]; intros k x; cbn [put_blocks app length]; [by rewrite Nat.add_0_r|].
  rewrite IH. by rewrite Nat.add_succ_r.
Qed.

Lemma length_put_blocks k blks x : length x = 512%nat -> (k + length blks < 128)%nat -> length (put_blocks k blks x) = 512%nat.
Proof.
  revert k x. induction blks as [|b blks IH]; intros k x Hx Hk; cbn [put_blocks length] in *; [done|].
  apply IH; [|lia]. rewrite length_put32; lia.
Qed.

Lemma get_put_blocks k blks x j :
  length x = 512%nat -> (k + length blks < 128)%nat -> Forall is_u32 blks ->
  get32 j (put_blocks k blks x) = match (if decide (k < j)%nat then blks !! (j - S k)%nat else None) with Some b => b | None => get32 j x end.
Proof.
  revert k x. induction blks as [|b blks IH]; intros k x Hx Hk Hu; cbn [put_blocks length] in *; [by case_decide|].
  apply Forall_cons in Hu as [Hb Hu]. rewrite IH; [|rewrite length_put32; lia|lia|done].
  destruct (decide (j = S k)) as [->|Hne].
  - rewrite decide_False, decide_True by lia. rewrite Nat.sub_diag. cbn [lookup list_lookup]. rewrite u32_small, get32_put32 by (done || lia). done.
  - destruct (decide (S k < j)%nat).
    + rewrite decide_True by lia. replace (j - S k)%nat with (S (j - S (S k))) by lia. cbn [lookup list_lookup].
      destruct (blks !! (j - S (S k))%nat); [done|]. apply get32_put32_ne; lia.
    + rewrite decide_False by lia. apply get32_put32_ne; lia.
Qed.

Lemma length_header blks x : length x = 512%nat -> (length blks < 128)%nat -> length (header blks x) = 512%nat.
Proof. intros Hx Hk. apply length_put_blocks; [rewrite length_put32; lia|lia]. Qed.

Lemma header_n blks x : length x = 512%nat -> (length blks < 128)%nat -> Forall is_u32 blks -> get32 0 (header blks x) = Z.of_nat (length blks).
Proof.
  intros Hx Hk Hu. unfold header. rewrite get_put_blocks; [|rewrite length_put32; lia|lia|done]. rewrite decide_False by lia.
  assert (H : is_u32 (Z.of_nat (length blks))) by (unfold is_u32; lia). rewrite u32_small by done. by rewrite get32_put32 by (done || lia).
Qed.

Lemma header_block blks x k b : length x = 512%nat -> (length blks < 128)%nat -> Forall is_u32 blks -> blks !! k = Some b -> get32 (S k) (header blks x) = b.
Proof.
  intros Hx Hk Hu Hb. unfold header. rewrite get_put_blocks; [|rewrite length_put32; lia|lia|done]. rewrite decide_True by lia.
  by replace (S k - 1)%nat with k by lia; rewrite Hb.
Qed.

Lemma wp_write_head s d ov p w blks Q W :
  lrep s (idle_ac d ov p w) -> geom (lg s) (length d) -> txn (lg s) (length d) blks ->
  l_start (lg s) ∉ p -> ov !! l_start (lg s) = None -> (size p < NBUF)%nat ->
  (forall c' x, x = header blks (disk_at d (l_start (lg s))) ->
     cache_rep i c c' (idle_ac (<[Z.to_nat (l_start (lg s)) := x]> d) ov p (w ++ [(l_start (lg s), x)])) -> Q tt (set_base c' s)) ->
  wp (write_head s) Q W.
Proof.
  intros Hr Hg Ht Hhp Hho Hsz HQ. set (h := l_start (lg s)) in *.
  assert (Hh : 0 <= h < Z.of_nat (length d)) by (destruct Hg; lia). set (a := idle_ac d ov p w) in *.
  assert (Hv : view a h = disk_at d h) by (unfold view; cbn; by rewrite Hho).
  assert (Hx0 : length (disk_at d h) = 512%nat) by (rewrite <- Hv; apply view_len; [exact (rep_ok _ _ _ _ Hr)|done]).
  assert (Hbl : (length blks < 128)%nat) by (pose proof (tx_max _ _ _ Ht); destruct Hg; unfold LOGSIZE, MAXOPBLOCKS in *; lia).
  unfold write_head. apply wp_step. cbn [gets wp]. rewrite (g_dev _ _ Hg). fold h. apply wp_step.
  eapply wp_lbread; [exact Hr|done|done|right; unfold a; by rewrite size_busy|]. intros r c1 H1.
  apply wp_step. eapply wp_data; [exact H1|cbn; by rewrite lookup_insert_eq|]. rewrite view_read, Hv, (tx_n _ _ _ Ht).
  apply wp_step. eapply wp_set_data; [exact H1|cbn; by rewrite lookup_insert_eq|rewrite length_put32; lia|]. intros c2 H2.
  apply wp_step. cbn [gets wp set_base lg]. rewrite (tx_n _ _ _ Ht). set (x0 := put32 0 (u32 (Z.of_nat (length blks))) (disk_at d h)) in *.
  assert (Hlx0 : length x0 = 512%nat) by (unfold x0; rewrite length_put32; lia).
  apply wp_step. eapply wp_mono; [| |by intros].
  - apply (wp_forM _ _ (fun k t => exists c', t = set_base c' s /\ cache_rep i c c' (ac_set h (put_blocks 0 (take k blks) x0) (ac_read h r a)))).
    + by exists c2.
    + intros k k' t Hk (c' & -> & Hc). unfold tails in Hk. apply lookup_seq in Hk as [-> Hk].
      destruct (lookup_lt_is_Some_2 blks k) as [b Hb]; [lia|]. unfold write_head_word. apply wp_step.
      eapply wp_get_block; [by eapply tx_at|]. apply wp_step. eapply wp_data; [exact Hc|cbn; by rewrite lookup_insert_eq|]. rewrite view_set.
      assert (Hlt : length (take k blks) = k) by (rewrite length_take; lia).
      assert (Hlb : length (put_blocks 0 (take k blks) x0) = 512%nat) by (apply length_put_blocks; [done|lia]).
      eapply wp_set_data; [exact Hc|cbn; by rewrite lookup_insert_eq|rewrite length_put32; lia|]. intros c3 H3.
      rewrite ac_set_set in H3. exists c3. split; [done|]. by rewrite (take_S_at _ _ _ Hb), put_blocks_snoc, Hlt.
  - intros [] t (c' & -> & Hc). unfold tails in Hc. rewrite length_seq, Nat2Z.id, take_ge in Hc by lia. fold (header blks (disk_at d h)) in Hc.
    apply wp_step. eapply wp_lbwrite; [exact Hc|cbn; by rewrite lookup_insert_eq|]. intros c3 H3.
    eapply wp_lbrelse; [exact H3|cbn; by rewrite lookup_insert_eq| |].
    + right. rewrite view_write. cbn. rewrite lookup_insert_eq. cbn. rewrite view_set. by rewrite disk_at_insert_eq.
    + intros c4 H4. unfold a in H4. rewrite ac_header in H4 by done. exact (HQ c4 _ eq_refl H4).
Qed.
End Steps.
