(* ===== verification/LogOps.v ===== *)
(** * The log: recovery, commit and the operations of its clients

    [recover_from_log], [initlog] and [commit] as functions on disks, and what
    [begin_op], [log_write] and [end_op] do to the log and the cache. *)

From Stdlib Require Import ZArith Lia.
From S2P Require Import Prelude Spinlock Blocks Bytes Log LogSpec.

(** ** The header of a disk *)

Definition hd_n (x : block) : Z := s32 (get32 0 x).
Definition hd_blks (x : block) : list Z := (fun k => s32 (get32 (S k) x)) <$> tails (hd_n x).

Record hd_ok (l : log) (len : nat) (x : block) : Prop := {
  ho_n : 0 <= hd_n x <= l_size l - 1;
  ho_home : forall b, b ∈ hd_blks x -> 0 <= b < Z.of_nat len /\ ~ in_log l b
}.

Lemma length_hd_blks x : length (hd_blks x) = Z.to_nat (hd_n x).
Proof. unfold hd_blks, tails. by rewrite length_fmap, length_seq. Qed.

(** The header that [write_head] writes reads back as it was. *)
Lemma hd_header blks x :
  length x = 512%nat -> (length blks < 128)%nat -> Forall (fun b => 0 <= b < 2 ^ 31) blks ->
  hd_n (header blks x) = Z.of_nat (length blks) /\ hd_blks (header blks x) = blks.
Proof.
  intros Hx Hl Hb. assert (Hu : Forall is_u32 blks) by (eapply Forall_impl; [exact Hb|]; unfold is_u32; lia).
  assert (Hn : hd_n (header blks x) = Z.of_nat (length blks)) by (unfold hd_n; rewrite header_n by done; apply s32_small; lia).
  split; [done|]. apply list_eq_same_length with (length blks); [done|by rewrite length_hd_blks, Hn, Nat2Z.id|].
  intros k b1 b2 Hk H1 H2. unfold hd_blks, tails in H1. rewrite list_lookup_fmap, Hn, Nat2Z.id, lookup_seq_lt in H1 by done.
  cbn in H1. injection H1 as <-. rewrite (header_block _ _ k b2) by done. apply s32_small.
  apply (Forall_lookup_1 _ _ _ _ Hb) in H2. lia.
Qed.

Section Ops.
Context {B : Type} `{!HasCtx B, !BufCache B}.
Context (i : nat) (c : cpu).
Implicit Types (s : logst B) (a : acache).
Notation lrep := (lrep i c).

(** ** Recovery *)

Lemma ac_back d ov p w h r : ov !! h = None -> h ∉ p -> ac_release h (ac_read h r (idle_ac d ov p w)) = idle_ac d ov p w.
Proof.
  intros Ho Hp. unfold ac_release, ac_read, idle_ac. cbn. rewrite (decide_False (P := h ∈ p)) by done. apply ac_eq; try done.
  - intros n. destruct (decide (n = h)) as [->|]; [by rewrite lookup_delete_eq|by rewrite lookup_delete_ne, lookup_insert_ne].
  - intros n. destruct (decide (n = h)) as [->|]; [by rewrite lookup_delete_eq|by rewrite lookup_delete_ne, lookup_insert_ne].
Qed.

(** The first [k] words of the list replaced by [f 0 .. f (k-1)]. *)
Definition fill_words (f : nat -> Z) (k : nat) (l : list Z) : list Z := (f <$> seq 0 k) ++ drop k l.
Arguments fill_words : simpl never.

Lemma fill_words_S f k l : (k < length l)%nat -> <[k := f k]> (fill_words f k l) = fill_words f (S k) l.
Proof.
  intros Hk. unfold fill_words. rewrite insert_app_r_alt by (rewrite length_fmap, length_seq; lia).
  rewrite length_fmap, length_seq, Nat.sub_diag. destruct (drop k l) as [|x t] eqn:E.
  - apply (f_equal length) in E. rewrite length_drop in E. cbn in E. lia.
  - rewrite seq_S, fmap_app, <- (assoc_L (++)). cbn [insert list_insert fmap list_fmap app]. do 2 f_equal.
    by rewrite <- Nat.add_1_r, <- drop_drop, E.
Qed.

Lemma length_fill f k l : (k <= length l)%nat -> length (fill_words f k l) = length l.
Proof. intros H. unfold fill_words. rewrite length_app, length_fmap, length_seq, length_drop. lia. Qed.

(** What [read_head] leaves in [log.lh]. *)
Definition with_head (x : block) (l : log) : log :=
  set_blocks (fill_words (fun k => s32 (get32 (S k) x)) (Z.to_nat (hd_n x)) (lh_block l)) (set_n (hd_n x) l).

Lemma wp_read_head s d ov p w Q W :
  lrep s (idle_ac d ov p w) -> geom (lg s) (length d) -> hd_n (disk_at d (l_start (lg s))) <= LOGSIZE ->
  l_start (lg s) ∉ p -> ov !! l_start (lg s) = None -> (size p < NBUF)%nat ->
  (forall c', cache_rep i c c' (idle_ac d ov p w) -> Q tt (mklogst (with_head (disk_at d (l_start (lg s))) (lg s)) c')) ->
  wp (read_head s) Q W.
Proof.
  intros Hr Hg Hmax Hhp Hho Hsz HQ. set (h := l_start (lg s)) in *. set (x := disk_at d h) in *.
  assert (Hh : 0 <= h < Z.of_nat (length d)) by (destruct Hg; lia). set (a := idle_ac d ov p w) in *.
  assert (Hv : view a h = x) by (unfold view; cbn; by rewrite Hho).
  unfold read_head. apply wp_step. cbn [gets wp]. rewrite (g_dev _ _ Hg). fold h. apply wp_step.
  eapply wp_lbread; [exact Hr|done|done|right; unfold a; by rewrite size_busy|]. intros r c1 H1.
  apply wp_step. eapply wp_data; [exact H1|cbn; by rewrite lookup_insert_eq|]. rewrite view_read, Hv.
  apply wp_step. cbn [modify wp]. apply wp_step. cbn [gets wp set_lg set_base lg set_n lh_n base]. fold (hd_n x).
  assert (Hlen : (Z.to_nat (hd_n x) <= length (lh_block (lg s)))%nat) by (rewrite (g_block _ _ Hg); lia).
  apply wp_step. eapply wp_mono; [| |by intros].
  - apply (wp_forM _ _ (fun k t => t = mklogst (set_blocks (fill_words (fun k => s32 (get32 (S k) x)) k (lh_block (lg s))) (set_n (hd_n x) (lg s))) c1)).
    + by destruct s as [[] ?].
    + intros k k' t Hk ->. apply lookup_seq in Hk as [-> Hk]. unfold put_block. cbn [lg lh_block set_blocks].
      rewrite length_fill by lia. rewrite decide_True by lia. cbn. unfold set_lg, set_blocks. cbn. by rewrite <- (fill_words_S _ k) by lia.
  - intros [] t ->. unfold tails. rewrite length_seq. eapply wp_lbrelse; [exact H1|cbn; by rewrite lookup_insert_eq|right; by rewrite view_read, Hv|].
    intros c2 H2. unfold a in H2. rewrite ac_back in H2 by done. exact (HQ c2 H2).
Qed.

Lemma with_head_geom l len x : geom l len -> hd_n x <= LOGSIZE -> geom (with_head x l) len.
Proof. intros [] Hn. split; try done. cbn. rewrite length_fill; [done|]. lia. Qed.

Lemma with_head_txn l len x : geom l len -> hd_ok l len x -> txn (with_head x l) len (hd_blks x).
Proof.
  intros [] [[H0 Hn] Hh]. split; cbn.
  - rewrite length_hd_blks. lia.
  - intros k b Hb. unfold fill_words. rewrite lookup_app_l; [exact Hb|]. rewrite length_fmap, length_seq.
    apply lookup_lt_Some in Hb. by rewrite length_hd_blks in Hb.
  - rewrite length_hd_blks. lia.
  - exact Hh.
Qed.

(** The disk after recovery, and the writes that make it. *)
Definition replay_writes (l : log) (d : list block) : list (Z * block) :=
  let ws := home_writes l d (hd_blks (disk_at d (l_start l))) in
  ws ++ [(l_start l, header [] (disk_at d (l_start l)))].

Lemma set_n_geom l len n : geom l len -> geom (set_n n l) len.
Proof. intros []. by split. Qed.

Lemma set_n_txn l len : geom l len -> txn (set_n 0 l) len [].
Proof. intros []. split; cbn; [done|done|lia|set_solver]. Qed.

Lemma home_kept l d blks n : (forall b, b ∈ blks -> 0 <= b /\ ~ in_log l b) -> in_log l n ->
  disk_at (apply_writes d (home_writes l d blks)) n = disk_at d n.
Proof.
  intros Hh Hn. pose proof (log_kept l d blks (length blks) n Hh Hn) as H. rewrite take_ge in H; [done|].
  unfold home_writes. by rewrite length_imap.
Qed.

Lemma drop_over_empty blks : drop_over blks ∅ = ∅.
Proof. apply map_eq. intros n. rewrite drop_over_lookup. by case_decide. Qed.

Lemma start_in_log l len : geom l len -> in_log l (l_start l).
Proof. intros []. unfold in_log. lia. Qed.

Lemma room_empty : (size (∅ : gset Z) < NBUF /\ size (∅ : gset Z) + 1 < NBUF)%nat.
Proof. rewrite size_empty. unfold NBUF. lia. Qed.

Lemma wp_recover s d w Q W :
  lrep s (idle_ac d ∅ ∅ w) -> geom (lg s) (length d) -> hd_ok (lg s) (length d) (disk_at d (l_start (lg s))) ->
  (forall c', cache_rep i c c' (idle_ac (apply_writes d (replay_writes (lg s) d)) ∅ ∅ (w ++ replay_writes (lg s) d)) ->
     Q tt (mklogst (set_n 0 (with_head (disk_at d (l_start (lg s))) (lg s))) c')) ->
  wp (recover_from_log s) Q W.
Proof.
  intros Hr Hg Hok HQ. destruct room_empty as [Hsz Hsz']. set (x := disk_at d (l_start (lg s))) in *. set (l := with_head x (lg s)).
  assert (Hn : hd_n x <= LOGSIZE) by (destruct Hok, Hg; lia).
  assert (Hgl : geom l (length d)) by (by apply with_head_geom). assert (Htl : txn l (length d) (hd_blks x)) by (by apply with_head_txn).
  unfold recover_from_log. apply wp_step. eapply wp_read_head; [exact Hr|done..|]. intros c1 H1. fold x l.
  apply wp_step. eapply wp_install_trans; [exact H1|done|exact Htl|by intros|done|by right|]. intros c2 H2. cbn [lg] in H2.
  apply wp_step. cbn [modify wp]. cbn [lg set_base set_lg base]. rewrite drop_over_empty in H2.
  replace (∅ ∖ list_to_set (hd_blks x)) with (∅ : gset Z) in H2 by (clear; set_solver).
  eapply (wp_write_head _ _ (mklogst (set_n 0 l) c2) _ _ _ _ []); [exact H2|rewrite length_apply; by apply set_n_geom|rewrite length_apply; by apply set_n_txn|done..|].
  intros c3 y -> H3. cbn [lg] in H3. change (l_start (set_n 0 l)) with (l_start (lg s)) in H3. cbn [set_base lg].
  rewrite home_kept in H3; [|intros b Hb; destruct (tx_home _ _ _ Htl b Hb); split; [lia|done]|by eapply (start_in_log l)].
  fold x in H3. apply HQ. unfold replay_writes. fold x. by rewrite apply_app, (assoc_L (++)).
Qed.

(** *** [initlog] *)

Lemma wp_readsb s d w Q W :
  lrep s (idle_ac d ∅ ∅ w) -> (1 < length d)%nat ->
  (forall c', cache_rep i c c' (idle_ac d ∅ ∅ w) -> Q (sb_of (disk_at d 1)) (set_base c' s)) -> wp (readsb 1 s) Q W.
Proof.
  intros Hr Hd HQ. unfold readsb. apply wp_step.
  eapply wp_lbread; [exact Hr|cbn; lia|done|right; rewrite size_busy; apply room_empty|]. intros r c1 H1.
  apply wp_step. eapply wp_data; [exact H1|cbn; by rewrite lookup_insert_eq|]. rewrite view_read.
  apply wp_step. eapply wp_lbrelse; [exact H1|cbn; by rewrite lookup_insert_eq|right; by rewrite view_read|].
  intros c2 H2. rewrite ac_back in H2 by done. exact (HQ c2 H2).
Qed.

Lemma wp_initlock s a l Q W :
  lrep s a -> (forall s', lrep s' a -> lg s' = lg s -> Q tt s') -> wp (onctx (initlock l) s) Q W.
Proof.
  intros Hr HQ. destruct (rep_idle _ _ _ _ Hr) as [Hc Hl].
  eapply wp_eq; [by apply (onctx_Ret (S := logst B))|]. apply HQ; [|done].
  unfold lrep. cbn. apply rep_move; [done|done|]. unfold lk_set. cbn. rewrite Hl. apply delete_empty.
Qed.

(** The log as the superblock of the disk describes it. *)
Definition sb_log (d : list block) (l : log) : log :=
  let sb := sb_of (disk_at d 1) in set_geom (s32 (logstart sb)) (s32 (nlog sb)) 1 l.

Lemma wp_initlog s d w Q W :
  lrep s (idle_ac d ∅ ∅ w) -> let l := sb_log d (lg s) in
  geom l (length d) -> hd_ok l (length d) (disk_at d (l_start l)) ->
  (forall c', cache_rep i c c' (idle_ac (apply_writes d (replay_writes l d)) ∅ ∅ (w ++ replay_writes l d)) ->
     Q tt (mklogst (set_n 0 (with_head (disk_at d (l_start l)) l)) c')) ->
  wp (initlog 1 s) Q W.
Proof.
  intros Hr l Hg Hok HQ. unfold initlog. apply wp_step. eapply wp_initlock; [exact Hr|]. intros s1 Hr1 Hlg.
  apply wp_step. eapply wp_readsb; [exact Hr1|destruct Hg; lia|]. intros c1 H1.
  apply wp_step. cbn [modify wp]. cbn [lg set_base set_lg base]. rewrite Hlg. fold (sb_log d (lg s)). fold l.
  eapply (wp_recover (mklogst l c1)); [exact H1|done|done|]. exact HQ.
Qed.

(** ** Commit *)

(** The blocks [blks] of a transaction, pinned in the cache with contents [v]. *)
Record pending (l : log) (d : list block) (ov : gmap Z block) (p : gset Z) (blks : list Z) : Prop := {
  pe_geom : geom l (length d);
  pe_txn : txn l (length d) blks;
  pe_nodup : NoDup blks;
  pe_pin : p = list_to_set blks;
  pe_dom : dom ov = p
}.
Definition ov_at (ov : gmap Z block) (b : Z) : block := default [] (ov !! b).

(** The writes of a commit, in order: the log, the header, the homes, the empty header. *)
Definition commit_writes (l : log) (d : list block) (ov : gmap Z block) (blks : list Z) : list (Z * block) :=
  let h := header blks (disk_at d (l_start l)) in
  log_writes l (ov_at ov) blks ++ [(l_start l, h)] ++ imap (fun _ b => (b, ov_at ov b)) blks ++ [(l_start l, header [] h)].

Lemma pending_room l d ov p blks : pending l d ov p blks -> (size p < NBUF)%nat.
Proof.
  intros [Hg Ht Hn -> _]. rewrite (size_list_to_set _ Hn). pose proof (tx_max _ _ _ Ht). destruct Hg.
  unfold LOGSIZE, MAXOPBLOCKS, NBUF in *. lia.
Qed.

Lemma pending_log l d ov p blks n : pending l d ov p blks -> in_log l n -> n ∉ p /\ ov !! n = None.
Proof.
  intros [Hg Ht Hn -> Hd] Hin. assert (Hp : n ∉ blks) by (intros Hb; by apply (tx_home _ _ _ Ht) in Hb as [_ ?]).
  split; [by rewrite elem_of_list_to_set|]. apply not_elem_of_dom. by rewrite Hd, elem_of_list_to_set.
Qed.

Lemma pending_ov l d ov p blks b : pending l d ov p blks -> b ∈ blks -> b ∈ p /\ ov !! b = Some (ov_at ov b).
Proof.
  intros [_ _ _ -> Hd] Hb. assert (Hp : b ∈ (list_to_set blks : gset Z)) by (by rewrite elem_of_list_to_set). split; [done|].
  rewrite <- Hd in Hp. apply elem_of_dom in Hp as [x Hx]. unfold ov_at. by rewrite Hx.
Qed.

Lemma log_writes_at l v blks k b : blks !! k = Some b -> (l_start l + Z.of_nat k + 1, v b) ∈ log_writes l v blks.
Proof. intros H. apply list_elem_of_lookup. exists k. unfold log_writes. by rewrite list_lookup_imap, H. Qed.

Lemma log_writes_in l v blks w : w ∈ log_writes l v blks -> exists k b, blks !! k = Some b /\ w = (l_start l + Z.of_nat k + 1, v b).
Proof.
  intros [k Hk]%list_elem_of_lookup. unfold log_writes in Hk. rewrite list_lookup_imap in Hk.
  destruct (blks !! k) as [b|] eqn:E; cbn in Hk; [|done]. injection Hk as <-. by exists k, b.
Qed.

(** The log blocks hold the transaction once [write_log] is done. *)
Lemma logged_at l d v blks k b :
  geom l (length d) -> txn l (length d) blks -> blks !! k = Some b ->
  disk_at (apply_writes d (log_writes l v blks)) (l_start l + Z.of_nat k + 1) = v b.
Proof.
  intros Hg Ht Hk. pose proof (lookup_lt_Some _ _ _ Hk). pose proof (tx_max _ _ _ Ht). destruct Hg.
  apply apply_last; [lia|by apply log_writes_at| |].
  - intros w (j & b' & _ & ->)%log_writes_in. cbn. lia.
  - intros y (j & b' & Hj & [= H1 ->])%log_writes_in. assert (j = k) as -> by lia. congruence.
Qed.

Lemma home_writes_logged l d' v blks :
  (forall k b, blks !! k = Some b -> disk_at d' (l_start l + Z.of_nat k + 1) = v b) ->
  home_writes l d' blks = imap (fun _ b => (b, v b)) blks.
Proof.
  intros H. unfold home_writes. apply list_eq. intros k. rewrite !list_lookup_imap.
  destruct (blks !! k) as [b|] eqn:E; [|done]. cbn. by rewrite (H k b E).
Qed.

(** The disk when [write_head] has committed. *)
Definition logged (l : log) (d : list block) (ov : gmap Z block) (blks : list Z) : list block :=
  apply_writes d (log_writes l (ov_at ov) blks ++ [(l_start l, header blks (disk_at d (l_start l)))]).

Lemma log_writes_start l d v blks : geom l (length d) -> disk_at (apply_writes d (log_writes l v blks)) (l_start l) = disk_at d (l_start l).
Proof. intros []. apply apply_other. intros w (j & b' & _ & ->)%log_writes_in. cbn. lia. Qed.

Lemma logged_home l d ov p blks : pending l d ov p blks ->
  home_writes l (logged l d ov blks) blks = imap (fun _ b => (b, ov_at ov b)) blks.
Proof.
  intros Hp. apply home_writes_logged. intros k b Hk. unfold logged. rewrite apply_snoc. cbn.
  destruct (pe_geom _ _ _ _ _ Hp) as [] eqn:E. rewrite disk_at_insert_ne by lia. eapply logged_at; [exact (pe_geom _ _ _ _ _ Hp)|apply Hp|done].
Qed.

Lemma logged_start l d ov p blks : pending l d ov p blks ->
  disk_at (logged l d ov blks) (l_start l) = header blks (disk_at d (l_start l)).
Proof.
  intros Hp. unfold logged. rewrite apply_snoc. cbn. apply disk_at_insert_eq. rewrite length_apply. destruct (pe_geom _ _ _ _ _ Hp). lia.
Qed.

Lemma wp_commit s d ov p w blks Q W :
  lrep s (idle_ac d ov p w) -> pending (lg s) d ov p blks -> (0 < length blks)%nat ->
  let ws := commit_writes (lg s) d ov blks in
  (forall c', cache_rep i c c' (idle_ac (apply_writes d ws) ∅ ∅ (w ++ ws)) -> Q tt (mklogst (set_n 0 (lg s)) c')) ->
  wp (commit s) Q W.
Proof.
  intros Hr Hp Hlen ws HQ. assert (Hg := pe_geom _ _ _ _ _ Hp). assert (Ht := pe_txn _ _ _ _ _ Hp).
  assert (Hsz := pending_room _ _ _ _ _ Hp). set (l := lg s) in *. assert (Hst : in_log l (l_start l)) by (by eapply start_in_log).
  unfold commit. apply wp_step. cbn [gets wp]. fold l. rewrite (tx_n _ _ _ Ht), (proj2 (Z.ltb_lt 0 _)) by lia. cbn [when].
  apply wp_step. eapply wp_write_log; [exact Hr|done|exact Ht|by intros b; apply (pending_ov l d)|by intros n; apply (pending_log l d ov p blks)|done|].
  intros c1 H1. fold l in H1. set (d1 := apply_writes d (log_writes l (ov_at ov) blks)) in *.
  assert (Hl1 : length d1 = length d) by apply length_apply.
  apply wp_step. eapply wp_write_head; [exact H1|by rewrite Hl1|rewrite Hl1; exact Ht|by eapply pending_log|by eapply pending_log|done|].
  intros c2 x -> H2. cbn [set_base lg] in H2 |- *. fold l in H2 |- *.
  assert (Hx : disk_at d1 (l_start l) = disk_at d (l_start l)) by (by apply log_writes_start). rewrite Hx in H2.
  set (h := header blks (disk_at d (l_start l))) in *. set (d2 := <[Z.to_nat (l_start l) := h]> d1) in *.
  assert (Hd2 : d2 = logged l d ov blks) by (unfold logged; by rewrite apply_snoc).
  assert (Hl2 : length d2 = length d) by (unfold d2; by rewrite length_insert).
  apply wp_step. eapply wp_install_trans; [exact H2|by rewrite Hl2|rewrite Hl2; exact Ht|by intros n; apply (pending_log l d ov p blks)|done| |].
  { intros k b Hk. left. rewrite (pe_pin _ _ _ _ _ Hp). apply elem_of_difference. rewrite !elem_of_list_to_set. split; [by eapply list_elem_of_lookup_2|].
    intros (j & Hj & Hjk)%elem_of_take. pose proof (NoDup_lookup _ _ _ _ (pe_nodup _ _ _ _ _ Hp) Hj Hk). lia. }
  intros c3 H3. cbn [set_base lg] in H3 |- *. fold l in H3. apply wp_step. cbn [modify wp]. cbn [lg set_lg base]. fold l.
  replace (drop_over blks ov) with (∅ : gmap Z block) in H3.
  2: { apply map_eq. intros n. rewrite drop_over_lookup. case_decide as Hn; [done|]. symmetry. apply not_elem_of_dom.
       by rewrite (pe_dom _ _ _ _ _ Hp), (pe_pin _ _ _ _ _ Hp), elem_of_list_to_set. }
  replace (p ∖ list_to_set blks) with (∅ : gset Z) in H3 by (rewrite (pe_pin _ _ _ _ _ Hp); clear; set_solver).
  eapply (wp_write_head _ _ (mklogst (set_n 0 l) c3) _ _ _ _ []);
    [exact H3|rewrite length_apply, Hl2; by apply set_n_geom|rewrite length_apply, Hl2; by apply set_n_txn|done|done|apply room_empty|].
  intros c4 y -> H4. cbn [lg] in H4. change (l_start (set_n 0 l)) with (l_start l) in H4.
  rewrite home_kept in H4; [|intros b Hb; destruct (tx_home _ _ _ Ht b Hb); split; [lia|done]|done].
  rewrite Hd2, (logged_home _ _ _ p), (logged_start _ _ _ p) in H4 by done. fold h in H4. apply HQ.
  unfold ws, commit_writes. fold h. rewrite !apply_app. cbn [apply_writes foldl].
  change (foldl _ d2 ?x) with (apply_writes d2 x). rewrite <- Hd2 in H4. rewrite <- !(assoc_L (++)) in H4. exact H4.
Qed.

(** ** Clients *)

(** A context with no lock held. *)
Lemma lrep_ctx s a : lrep s a -> ctx_ok (ctx s) i c /\ locks (ctx s) !! log_lk = None.
Proof. intros Hr. destruct (rep_idle _ _ _ _ Hr) as [Hc Hl]. split; [done|]. cbn. by rewrite Hl. Qed.

(** [log.lock] taken and released around changes of [log] and wake-ups. *)
Lemma wp_log_acq s a Q W :
  lrep s a -> (Q tt (set_ctx (k_acq log_lk i (ctx s)) s)) -> wp (onctx (acquire log_lk) s) Q W.
Proof. intros Hr HQ. destruct (lrep_ctx _ _ Hr) as [Hc Hl]. by eapply wp_acq. Qed.

Lemma wp_log_rel s1 b k a Q W :
  base s1 = set_ctx (k_acq log_lk i k) b -> ctx_ok k i c -> locks k = ∅ -> cache_rep i c b a ->
  (forall s', lrep s' a -> lg s' = lg s1 -> ctx s' = k -> Q tt s') ->
  wp (onctx (release log_lk) s1) Q W.
Proof.
  intros Hb Hc Hk Hr HQ. eapply wp_rel; [cbn; by rewrite Hb, ctx_set_ctx|done|by rewrite Hk|]. apply HQ.
  - unfold lrep. cbn. rewrite Hb, set_ctx_set. by apply rep_move.
  - done.
  - cbn. by rewrite Hb, set_ctx_set, ctx_set_ctx.
Qed.

Lemma wp_begin_op s a fuel Q W :
  lrep s a -> committing (lg s) = 0 -> lh_n (lg s) + (outstanding (lg s) + 1) * MAXOPBLOCKS <= LOGSIZE ->
  (forall s', lrep s' a -> lg s' = set_outstanding (outstanding (lg s) + 1) (lg s) -> ctx s' = ctx s -> Q tt s') ->
  wp (begin_op (S fuel) s) Q W.
Proof.
  intros Hr Hc Hn HQ. unfold begin_op. apply wp_step. eapply wp_log_acq; [exact Hr|]. cbn [begin_loop].
  apply wp_step. cbn [gets wp]. cbn [lg set_ctx logst_hasctx set_base]. rewrite Hc. cbn [negb Z.eqb].
  rewrite (proj2 (Z.ltb_ge LOGSIZE _)) by lia. apply wp_step. cbn [modify wp]. destruct (rep_idle _ _ _ _ Hr) as [Hcx Hlx].
  eapply wp_log_rel; [reflexivity|exact Hcx|exact Hlx|exact Hr|]. exact HQ.
Qed.

(** With no room, or a commit going on, [begin_op] sleeps on the log with the lock free, and
    looks again when it is resumed. *)
Lemma begin_op_waits s a fuel :
  lrep s a -> committing (lg s) <> 0 \/ LOGSIZE < lh_n (lg s) + (outstanding (lg s) + 1) * MAXOPBLOCKS ->
  exists kk, begin_op (S fuel) s = Swtch (set_ctx (k_slept log_chan log_lk (ctx s)) s) kk /\
    (forall t a', lrep t a' -> kk t = begin_op fuel t).
Proof.
  intros Hr Hfull.
  assert (Hwp : wp (begin_op (S fuel) s) (fun _ _ => False) (fun s1 kk => s1 = set_ctx (k_slept log_chan log_lk (ctx s)) s /\ forall t a', lrep t a' -> kk t = begin_op fuel t)).
  { unfold begin_op at 1. apply wp_bind. eapply wp_log_acq; [exact Hr|]. cbn [begin_loop]. apply wp_bind. cbn [gets wp].
    cbn [lg set_ctx logst_hasctx set_base]. destruct (lrep_ctx _ _ Hr) as [Hc Hl].
    assert (Hsl : wp ((sleep_on log_chan log_lk ;; begin_loop fuel) (set_ctx (k_acq log_lk i (ctx s)) s)) (fun _ _ => False)
      (fun s1 kk => s1 = set_ctx (k_slept log_chan log_lk (ctx s)) s /\ forall t a', lrep t a' -> kk t = begin_op fuel t)).
    { apply wp_bind. eapply wp_sleep_on; [by rewrite ctx_set_ctx|exact Hc|exact Hl|].
      split; [by rewrite set_ctx_set|]. intros t a' _. done. }
    destruct (Z.eqb_spec (committing (lg s)) 0) as [E|E]; cbn [negb]; [|exact Hsl].
    destruct Hfull as [?|Hfull]; [done|]. rewrite (proj2 (Z.ltb_lt LOGSIZE _)) by lia. exact Hsl. }
  apply wp_Swtch in Hwp as (s1 & kk & H1 & -> & H2). by exists kk.
Qed.

(** The blocks of the transaction after a [log_write] of block [n]. *)
Definition note (n : Z) (blks : list Z) : list Z := if decide (n ∈ blks) then blks else blks ++ [n].

Lemma absorb_spec n blks m k : (length blks <= length m)%nat -> (forall j b, blks !! j = Some b -> m !! j = Some b) ->
  let r := absorb n m (length blks) k in
  (n ∈ blks -> exists j, r = (k + j)%nat /\ blks !! j = Some n) /\ (n ∉ blks -> r = (k + length blks)%nat).
Proof.
  revert m k. induction blks as [|b blks IH]; intros m k Hl Hm; cbn [length absorb].
  - split; [set_solver|]. intros _. destruct m; cbn; lia.
  - destruct m as [|b' m]; [cbn in Hl; lia|]. pose proof (Hm 0%nat b eq_refl) as [= ->]. cbn [absorb].
    destruct (Z.eqb_spec b n) as [->|Hne].
    + split; [intros _; exists 0%nat; split; [lia|done]|]. intros H. destruct H. set_solver.
    + destruct (IH m (S k)) as [H1 H2]; [cbn in Hl; lia|by intros j; apply (Hm (S j))|]. split; intros Hn.
      * apply elem_of_cons in Hn as [?|Hn]; [congruence|]. destruct (H1 Hn) as (j & -> & Hj). exists (S j). split; [lia|done].
      * rewrite H2 by set_solver. lia.
Qed.

Lemma note_txn l len blks n m :
  geom l len -> txn l len blks -> 0 <= n < Z.of_nat len -> ~ in_log l n -> Z.of_nat (length blks) < l_size l - 1 ->
  m = absorb n (lh_block l) (length blks) 0 ->
  (m < length (lh_block l))%nat /\
  txn (set_n (Z.of_nat (length (note n blks))) (set_blocks (<[m := n]> (lh_block l)) l)) len (note n blks) /\
  Z.of_nat (length (note n blks)) = (if Z.of_nat m =? lh_n l then lh_n l + 1 else lh_n l).
Proof.
  intros Hg Ht Hn Hnl Hroom ->. destruct (absorb_spec n blks (lh_block l) 0) as [H1 H2].
  { rewrite (g_block _ _ Hg). destruct Hg. lia. }
  { apply Ht. }
  set (m := absorb n (lh_block l) (length blks) 0) in *. cbn in H1, H2. rewrite (tx_n _ _ _ Ht). unfold note. destruct (decide (n ∈ blks)) as [Hin|Hin].
  - destruct (H1 Hin) as (j & Hm & Hj). rewrite Hm in *. clear H1 H2. assert (Hjl := lookup_lt_Some _ _ _ Hj).
    assert (Hlen : (j < length (lh_block l))%nat) by (rewrite (g_block _ _ Hg); destruct Hg; lia).
    split_and!; [done| |destruct (Z.eqb_spec (Z.of_nat j) (Z.of_nat (length blks))); lia].
    rewrite list_insert_id by (by apply Ht). destruct Ht. by split.
  - rewrite (H2 Hin) in *. clear H1 H2 m.
    assert (Hlen : (length blks < length (lh_block l))%nat) by (rewrite (g_block _ _ Hg); destruct Hg; lia).
    rewrite Z.eqb_refl, length_app. cbn [length]. split_and!; [done| |lia]. split; cbn.
    + rewrite length_app. done.
    + intros k b Hk. apply lookup_app_Some in Hk as [Hk|[Hk1 Hk2]].
      * rewrite list_lookup_insert_ne; [by apply Ht|]. apply lookup_lt_Some in Hk. lia.
      * apply list_lookup_singleton_Some in Hk2 as [Hk2 ->]. replace k with (length blks) by lia. by rewrite list_lookup_insert_eq.
    + rewrite length_app. cbn. lia.
    + intros b Hb. apply elem_of_app in Hb as [Hb|Hb]; [by apply Ht|]. apply list_elem_of_singleton in Hb as ->. done.
Qed.

Lemma wp_log_write s a n r blks Q W :
  lrep s a -> held a !! n = Some r -> geom (lg s) (length (disk a)) -> txn (lg s) (length (disk a)) blks ->
  1 <= outstanding (lg s) -> Z.of_nat (length blks) < l_size (lg s) - 1 -> ~ in_log (lg s) n ->
  (forall s' l', lrep s' (ac_pin n a) -> lg s' = l' -> txn l' (length (disk a)) (note n blks) ->
     (exists m, l' = set_n (Z.of_nat (length (note n blks))) (set_blocks m (lg s)) /\ length m = length (lh_block (lg s))) ->
     ctx s' = ctx s -> Q tt s') ->
  wp (log_write r s) Q W.
Proof.
  intros Hr Hh Hg Ht Ho Hroom Hnl HQ. destruct (rep_idle _ _ _ _ Hr) as [Hc Hl].
  assert (Hrange := held_range _ _ _ (rep_ok _ _ _ _ Hr) Hh). destruct (data_law _ _ _ _ _ _ Hr Hh) as [_ Hbn].
  destruct (note_txn _ _ _ n _ Hg Ht Hrange Hnl Hroom eq_refl) as (Hm & Ht' & Hlen).
  unfold log_write. apply wp_step. cbn [gets wp]. rewrite (tx_n _ _ _ Ht).
  rewrite (proj2 (Z.leb_gt LOGSIZE _)), (proj2 (Z.leb_gt (l_size (lg s) - 1) _)) by (destruct Hg; lia). cbn [orb].
  rewrite (proj2 (Z.ltb_ge _ 1)) by lia. apply wp_step. eapply wp_log_acq; [exact Hr|].
  apply wp_step. cbn [gets wp]. apply wp_step. cbn [gets wp]. cbn [base lg set_ctx logst_hasctx set_base]. rewrite blockno_ctx, Hbn, (tx_n _ _ _ Ht), Nat2Z.id.
  set (m := absorb n (lh_block (lg s)) (length blks) 0) in *. apply wp_step. unfold put_block at 1. cbn [lg]. rewrite decide_True by done. cbn [wp].
  apply wp_step. rewrite (tx_n _ _ _ Ht) in Hlen.
  eapply (wp_eq _ tt (mklogst (set_n (Z.of_nat (length (note n blks))) (set_blocks (<[m := n]> (lh_block (lg s))) (lg s))) (set_ctx (k_acq log_lk i (ctx s)) (base s)))).
  { destruct (Z.of_nat m =? Z.of_nat (length blks)); cbn; unfold set_lg; cbn.
    - unfold set_n, set_blocks. cbn. rewrite Hlen, (tx_n _ _ _ Ht). done.
    - unfold set_n, set_blocks. cbn. rewrite Hlen, (tx_n _ _ _ Ht). done. }
  apply wp_step. cbn [modify wp]. cbn [base]. unfold set_base. cbn [lg base]. destruct (pin_ctx r (k_acq log_lk i (ctx s)) (base s)) as [-> Hpc].
  eapply wp_log_rel; [reflexivity|exact Hc|exact Hl|by apply pin_law|]. intros s' Hr' Hlg Hcx. eapply HQ; [done|exact Hlg|done| |done].
  exists (<[m := n]> (lh_block (lg s))). split; [done|]. by rewrite length_insert.
Qed.

(** ** [end_op] *)

(** A context reached from [k] by wake-ups. *)
Definition woke (k k' : kctx) : Prop := exists w, k' = set_chan_ops w k.

Lemma wp_end_op_more s a Q W :
  lrep s a -> committing (lg s) = 0 -> outstanding (lg s) <> 1 ->
  (forall s', lrep s' a -> lg s' = set_outstanding (outstanding (lg s) - 1) (lg s) -> ctx s' = k_wake log_chan (ctx s) -> Q tt s') ->
  wp (end_op s) Q W.
Proof.
  intros Hr Hcm Ho HQ. destruct (rep_idle _ _ _ _ Hr) as [Hc Hl]. unfold end_op. apply wp_step. eapply wp_log_acq; [exact Hr|].
  apply wp_step. cbn [modify wp]. apply wp_step. cbn [gets wp]. cbn [lg set_lg set_ctx logst_hasctx set_base set_outstanding committing outstanding].
  rewrite Hcm. cbn [negb Z.eqb]. rewrite (proj2 (Z.eqb_neq _ 0)) by lia.
  apply wp_step. apply wp_step. cbn [wakeup_on modify wp ret]. cbn [lg base ctx set_ctx logst_hasctx set_base set_lg].
  rewrite ctx_set_ctx, set_ctx_set. apply wp_step. eapply (wp_log_rel _ (base s) (k_wake log_chan (ctx s))); [reflexivity|by apply ctx_ok_wake|exact Hl|exact Hr|]. intros s' H1 H2 H3. cbn [when ret wp]. by apply HQ.
Qed.

Lemma end_op_committing s a : lrep s a -> committing (lg s) <> 0 -> end_op s = Panic "log.committing".
Proof.
  intros Hr Hcm. destruct (lrep_ctx _ _ Hr) as [Hc Hl]. unfold end_op. rewrite (bind_Ret _ _ _ _ _ (acq_step _ _ _ _ Hc Hl)).
  run. cbn [lg set_lg set_ctx logst_hasctx set_base set_outstanding committing]. by rewrite (proj2 (Z.eqb_neq _ 0) Hcm).
Qed.

(** The writes of the last [end_op] of a transaction. *)
Definition end_writes (l : log) (d : list block) (ov : gmap Z block) (blks : list Z) : list (Z * block) :=
  if decide (blks = []) then [] else commit_writes l d ov blks.

Lemma wp_commit_any s d ov p w blks Q W :
  lrep s (idle_ac d ov p w) -> pending (lg s) d ov p blks ->
  let ws := end_writes (lg s) d ov blks in
  (forall c', cache_rep i c c' (idle_ac (apply_writes d ws) ∅ ∅ (w ++ ws)) -> Q tt (mklogst (set_n 0 (lg s)) c')) ->
  wp (commit s) Q W.
Proof.
  intros Hr Hp ws HQ. unfold ws, end_writes in HQ. case_decide as E.
  - destruct Hp as [Hg Ht _ Hpin Hdom]. rewrite E in *. unfold commit. apply wp_step. cbn [gets wp]. rewrite (tx_n _ _ _ Ht). cbn [length Z.of_nat Z.ltb Z.compare when ret wp].
    assert (Hn : set_n 0 (lg s) = lg s) by (unfold set_n; pose proof (tx_n _ _ _ Ht) as H0; change (lh_n (lg s) = 0) in H0; rewrite <- H0; by destruct (lg s)).
    rewrite Hn in HQ. cbn [list_to_set] in Hpin. subst p. apply dom_empty_inv_L in Hdom as ->.
    cbn [apply_writes foldl] in HQ. rewrite app_nil_r in HQ. specialize (HQ (base s) Hr). by destruct s.
  - eapply wp_commit; [exact Hr|exact Hp| |exact HQ]. destruct blks; [done|cbn; lia].
Qed.

Lemma wp_end_op_last s d ov p w blks Q W :
  lrep s (idle_ac d ov p w) -> pending (lg s) d ov p blks -> committing (lg s) = 0 -> outstanding (lg s) = 1 ->
  let ws := end_writes (lg s) d ov blks in
  (forall s', lrep s' (idle_ac (apply_writes d ws) ∅ ∅ (w ++ ws)) -> lg s' = set_outstanding 0 (set_n 0 (lg s)) -> Q tt s') ->
  wp (end_op s) Q W.
Proof.
  intros Hr Hp Hcm Ho ws HQ. destruct (rep_idle _ _ _ _ Hr) as [Hc Hl]. unfold end_op. apply wp_step. eapply wp_log_acq; [exact Hr|].
  apply wp_step. cbn [modify wp]. apply wp_step. cbn [gets wp]. cbn [lg set_lg set_ctx logst_hasctx set_base set_outstanding committing outstanding].
  rewrite Hcm, Ho. cbn [negb Z.eqb Z.sub Z.opp Z.add Z.pos_sub]. apply wp_step. apply wp_step. cbn [modify wp ret]. cbn [lg base set_base set_lg].
  apply wp_step. set (l1 := set_committing _ _). eapply wp_log_rel; [reflexivity|exact Hc|exact Hl|exact Hr|]. intros s1 Hr1 Hl1 _. change (lg s1 = l1) in Hl1. cbn [when].
  assert (Hw : end_writes l1 d ov blks = ws).
  { unfold ws, end_writes. case_decide; [done|]. by unfold commit_writes, log_writes, l1. }
  assert (Hp1 : pending (lg s1) d ov p blks).
  { rewrite Hl1. destruct Hp as [[] [] ? ? ?]. split; [by split|by split|done..]. }
  apply wp_step. eapply wp_commit_any; [exact Hr1|exact Hp1|]. rewrite Hl1, Hw. intros c2 H2.
  apply wp_step. eapply wp_log_acq; [exact H2|]. apply wp_step. cbn [modify wp]. apply wp_step. cbn [wakeup_on modify wp].
  cbn [lg base ctx set_ctx logst_hasctx set_base set_lg]. rewrite ctx_set_ctx, set_ctx_set.
  destruct (rep_idle _ _ _ _ H2) as [Hc2 Hl2]. eapply (wp_log_rel _ c2 (k_wake log_chan (ctx c2))); [reflexivity|by apply ctx_ok_wake|exact Hl2|exact H2|]. intros s3 H3 H4 _. apply HQ; [exact H3|]. rewrite H4.
  unfold l1, set_committing, set_n, set_outstanding. cbn. by rewrite Hcm.
Qed.
End Ops.
