(* ===== verification/LogCrash.v ===== *)
(** * The log: the disk at a crash

    The disk after each prefix of the writes of a commit, and what recovery makes of it,
    also when it starts over. *)

From Stdlib Require Import ZArith Lia.
From S2P Require Import Prelude Spinlock Blocks Bytes Log LogSpec LogOps.

(** ** Recovery that is itself interrupted *)

Lemma disk_at_512 d n : Forall (fun x => length x = 512%nat) d -> 0 <= n < Z.of_nat (length d) -> length (disk_at d n) = 512%nat.
Proof.
  intros Hlen Hn. unfold disk_at. rewrite (proj2 (Z.ltb_ge n 0)) by lia. destruct (lookup_lt_is_Some_2 d (Z.to_nat n)) as [x Hx]; [lia|].
  rewrite (nth_lookup_Some _ _ _ _ Hx). by apply (Forall_lookup_1 _ _ _ _ Hlen) in Hx.
Qed.

Lemma hd_empty x : length x = 512%nat -> hd_n (header [] x) = 0 /\ hd_blks (header [] x) = [].
Proof. intros Hx. destruct (hd_header [] x Hx) as [H1 H2]; [cbn; lia|done|]. by rewrite H1, H2. Qed.

(** Of a block that the writes replace, the disk before them does not count. *)
Lemma apply_agree ws n : (forall w, w ∈ ws -> 0 <= w.1) -> forall d1 d2, length d1 = length d2 ->
  (n ∉ ws.*1 -> disk_at d1 n = disk_at d2 n) -> disk_at (apply_writes d1 ws) n = disk_at (apply_writes d2 ws) n.
Proof.
  induction ws as [|w ws IH]; intros Hpos d1 d2 Hl Hd; cbn [apply_writes foldl]; [apply Hd, not_elem_of_nil|].
  apply IH; [intros v Hv; apply Hpos; by right|by rewrite !length_insert|]. intros Hn. assert (H0 : 0 <= w.1) by (apply Hpos; left).
  destruct (decide (w.1 = n)) as [<-|Hne].
  - destruct (decide (w.1 < Z.of_nat (length d1))) as [Hr|Hr].
    + by rewrite !disk_at_insert_eq by lia.
    + unfold disk_at. rewrite (proj2 (Z.ltb_ge _ 0)) by lia. by rewrite !nth_overflow by (rewrite length_insert; lia).
  - rewrite !disk_at_insert_ne by done. apply Hd. intros [E|H]%elem_of_cons; [by subst n|done].
Qed.

Section Replay.
Context (l : log) (d : list block).
Hypothesis (Hg : geom l (length d)).
Hypothesis (Hlen : Forall (fun x => length x = 512%nat) d).
Hypothesis (Hok : hd_ok l (length d) (disk_at d (l_start l))).

Let x := disk_at d (l_start l).
Let R := replay_writes l d.

Lemma replay_pos w : w ∈ R -> 0 <= w.1.
Proof.
  intros [Hw|Hw]%elem_of_app.
  - apply list_elem_of_lookup in Hw as [k Hk]. unfold home_writes in Hk. rewrite list_lookup_imap in Hk. destruct (hd_blks _ !! k) as [b|] eqn:E; cbn in Hk; [|done].
    injection Hk as <-. apply (ho_home _ _ _ Hok b). by eapply list_elem_of_lookup_2.
  - apply list_elem_of_singleton in Hw as ->. destruct Hg. cbn. lia.
Qed.

Lemma replay_header : disk_at (apply_writes d R) (l_start l) = header [] x.
Proof.
  unfold R, replay_writes. rewrite apply_snoc, disk_at_insert_eq; [done|]. rewrite length_apply. destruct Hg. cbn. lia.
Qed.

Lemma replay_clean : hd_n (disk_at (apply_writes d R) (l_start l)) = 0 /\ hd_blks (disk_at (apply_writes d R) (l_start l)) = [].
Proof. rewrite replay_header. apply hd_empty, disk_at_512; [done|]. destruct Hg. lia. Qed.

(** The homes are written from the log, which they leave alone. *)
Lemma replay_homes j n : in_log l n -> disk_at (apply_writes d (take j (home_writes l d (hd_blks x)))) n = disk_at d n.
Proof. apply log_kept. intros b Hb. destruct (ho_home _ _ _ Hok b Hb). split; [lia|done]. Qed.

(** After any number of the writes of a recovery, another recovery ends in the same disk. *)
Lemma replay_again j : let d2 := apply_writes d (take j R) in
  hd_ok l (length d) (disk_at d2 (l_start l)) /\ hd_blks (disk_at d2 (l_start l)) ⊆ hd_blks x /\
  forall n, 0 <= n -> ~ in_log l n -> disk_at (apply_writes d2 (replay_writes l d2)) n = disk_at (apply_writes d R) n.
Proof.
  intros d2. assert (Hst := start_in_log _ _ Hg). destruct (decide (j <= length (hd_blks x))%nat) as [Hj|Hj].
  - assert (Ht : take j R = take j (home_writes l d (hd_blks x))) by (apply take_app_le; unfold home_writes; rewrite length_imap; done).
    assert (Hx : disk_at d2 (l_start l) = x) by (unfold d2; rewrite Ht; by apply replay_homes).
    assert (HR : replay_writes l d2 = R).
    { unfold R, replay_writes. rewrite Hx. fold x. f_equal. unfold home_writes. apply imap_ext. intros k b Hk. f_equal.
      unfold d2. rewrite Ht. apply replay_homes. apply lookup_lt_Some in Hk. rewrite length_hd_blks in Hk. pose proof (ho_n _ _ _ Hok) as Hn. fold x in Hn. unfold in_log. lia. }
    rewrite Hx. split_and!; [done|done|]. intros n Hn0 Hn. rewrite HR. apply apply_agree; [apply replay_pos|apply length_apply|].
    intros Hw. apply apply_other. intros w Hin. apply elem_of_take in Hin as (k & Hk & _). apply list_elem_of_lookup_2 in Hk. split; [by apply replay_pos|].
    intros <-. apply Hw, list_elem_of_fmap. by exists w.
  - assert (Ht : take j R = R) by (apply take_ge; unfold R, replay_writes, home_writes; rewrite length_app, length_imap; cbn; fold x; lia).
    unfold d2. rewrite Ht. destruct replay_clean as [H0 H1]. rewrite H1. split_and!; [|set_solver|].
    + split; [rewrite H0; destruct Hg; lia|rewrite H1; set_solver].
    + intros n Hn0 Hn. unfold replay_writes at 1. rewrite H1. cbn. apply disk_at_insert_ne; [destruct Hg; lia|by intros ->].
Qed.
End Replay.

(** ** Disks at a crash *)

Section Crash.
Context (l : log) (d : list block) (ov : gmap Z block) (p : gset Z) (blks : list Z).
Hypothesis (Hp : pending l d ov p blks).
Hypothesis (Hlen : Forall (fun x => length x = 512%nat) d).
Hypothesis (Hclean : hd_n (disk_at d (l_start l)) = 0).

Let W := commit_writes l d ov blks.
Let h := header blks (disk_at d (l_start l)).
Let len := length blks.

Lemma start_len : length (disk_at d (l_start l)) = 512%nat.
Proof. apply disk_at_512; [done|]. destruct (pe_geom _ _ _ _ _ Hp). lia. Qed.

Lemma len_small : (len < 128)%nat.
Proof. pose proof (tx_max _ _ _ (pe_txn _ _ _ _ _ Hp)). destruct (pe_geom _ _ _ _ _ Hp). unfold LOGSIZE, MAXOPBLOCKS, len in *. lia. Qed.

Lemma hd_h : hd_n h = Z.of_nat len /\ hd_blks h = blks.
Proof.
  apply hd_header; [apply start_len|apply len_small|]. apply Forall_forall. intros b Hb.
  destruct (tx_home _ _ _ (pe_txn _ _ _ _ _ Hp) b) as [H _]; [done|]. pose proof (g_int _ _ (pe_geom _ _ _ _ _ Hp)). lia.
Qed.

Lemma length_h : length h = 512%nat.
Proof. apply length_header; [apply start_len|apply len_small]. Qed.

Definition homes : list (Z * block) := imap (fun _ b => (b, ov_at ov b)) blks.

Lemma homes_in w : w ∈ homes -> w.1 ∈ blks /\ w.2 = ov_at ov w.1.
Proof.
  intros [k Hk]%list_elem_of_lookup. unfold homes in Hk. rewrite list_lookup_imap in Hk.
  destruct (blks !! k) as [b|] eqn:E; cbn in Hk; [|done]. injection Hk as <-. split; [by eapply list_elem_of_lookup_2|done].
Qed.

Lemma homes_at b : b ∈ blks -> (b, ov_at ov b) ∈ homes.
Proof. intros [k Hk]%list_elem_of_lookup. apply list_elem_of_lookup. exists k. unfold homes. by rewrite list_lookup_imap, Hk. Qed.

Lemma home_ok b : b ∈ blks -> 0 <= b < Z.of_nat (length d) /\ ~ in_log l b.
Proof. apply (tx_home _ _ _ (pe_txn _ _ _ _ _ Hp)). Qed.

(** Writes to the log leave the other blocks alone, and the installs the log. *)
Lemma log_side d' ws n : (forall w, w ∈ ws -> in_log l w.1) -> ~ in_log l n -> disk_at (apply_writes d' ws) n = disk_at d' n.
Proof. intros Hw Hn. apply apply_other. intros w Hin. pose proof (Hw w Hin) as H. destruct (pe_geom _ _ _ _ _ Hp). split; [unfold in_log in H; lia|by intros <-]. Qed.

Lemma homes_log d' ws n : ws ⊆ homes -> in_log l n -> disk_at (apply_writes d' ws) n = disk_at d' n.
Proof.
  intros Hw Hn. apply apply_other. intros w [Hb _]%Hw%homes_in. destruct (home_ok _ Hb). split; [lia|by intros <-].
Qed.

Lemma homes_all d' n : length d' = length d -> ~ in_log l n -> 0 <= n -> (n ∉ blks -> disk_at d' n = disk_at d n) ->
  disk_at (apply_writes d' homes) n = default (disk_at d n) (ov !! n).
Proof.
  intros Hl Hn Hpos Hd. destruct (decide (n ∈ blks)) as [Hin|Hout].
  - destruct (pending_ov _ _ _ _ _ n Hp Hin) as [_ ->]. cbn. apply apply_last; [rewrite Hl; by apply home_ok|by apply homes_at| |].
    + intros w [Hb _]%homes_in. apply home_ok in Hb. lia.
    + intros y [_ Hy]%homes_in. done.
  - replace (ov !! n) with (@None block).
    2: { symmetry. apply not_elem_of_dom. by rewrite (pe_dom _ _ _ _ _ Hp), (pe_pin _ _ _ _ _ Hp), elem_of_list_to_set. }
    cbn. rewrite <- Hd by done. apply apply_other. intros w [Hb _]%homes_in. split; [apply home_ok in Hb; lia|]. by intros <-.
Qed.

Lemma lw_log w : w ∈ log_writes l (ov_at ov) blks -> in_log l w.1.
Proof.
  intros (k & b & Hk & ->)%log_writes_in. apply lookup_lt_Some in Hk. pose proof (tx_max _ _ _ (pe_txn _ _ _ _ _ Hp)). unfold in_log. cbn. lia.
Qed.

(** The disk after [k] writes of the commit: nothing of it counts before the header. *)
Lemma crash_before k n : (k <= len)%nat ->
  take k W = take k (log_writes l (ov_at ov) blks) /\
  hd_n (disk_at (apply_writes d (take k W)) (l_start l)) = 0 /\ (~ in_log l n -> disk_at (apply_writes d (take k W)) n = disk_at d n).
Proof.
  intros Hk. assert (Ht : take k W = take k (log_writes l (ov_at ov) blks)).
  { unfold W, commit_writes. apply take_app_le. unfold log_writes. rewrite length_imap. done. }
  split; [done|]. rewrite Ht. split.
  - rewrite apply_other; [done|]. intros w (j & Hj & _)%elem_of_take. assert (Hin : w ∈ log_writes l (ov_at ov) blks) by (by eapply list_elem_of_lookup_2).
    apply log_writes_in in Hin as (k' & b & _ & ->). destruct (pe_geom _ _ _ _ _ Hp). cbn. lia.
  - intros Hn. apply log_side; [|done]. intros w (j & Hj & _)%elem_of_take. apply lw_log. by eapply list_elem_of_lookup_2.
Qed.

(** From the header on, until the header is emptied, the log has it all. *)
Lemma crash_mid k : (len < k <= len + 1 + len)%nat ->
  exists hs, hs ⊆ homes /\ apply_writes d (take k W) = apply_writes (logged l d ov blks) hs.
Proof.
  intros Hk. exists (take (k - (len + 1)) homes). split; [intros w Hw; by apply elem_of_take in Hw as (j & Hj & _); eapply list_elem_of_lookup_2|].
  unfold W, commit_writes, logged. fold h homes. rewrite (assoc_L (++)), <- apply_app. f_equal.
  assert (Hl : length (log_writes l (ov_at ov) blks ++ [(l_start l, h)]) = (len + 1)%nat) by (rewrite length_app; unfold log_writes; by rewrite length_imap).
  rewrite take_app, take_ge by lia. rewrite Hl. f_equal. apply take_app_le. unfold homes. rewrite length_imap. unfold len in *. lia.
Qed.

Lemma crash_after k : (len + 1 + len < k)%nat ->
  apply_writes d (take k W) = <[Z.to_nat (l_start l) := header [] h]> (apply_writes (logged l d ov blks) homes).
Proof.
  intros Hk. rewrite take_ge.
  2: { unfold W, commit_writes. rewrite !length_app. unfold log_writes. rewrite !length_imap. cbn. unfold len in *. lia. }
  unfold W, commit_writes, logged. fold h homes. rewrite !(assoc_L (++)), apply_snoc, apply_app. done.
Qed.

Lemma logged_out n : ~ in_log l n -> disk_at (logged l d ov blks) n = disk_at d n.
Proof.
  intros Hn. apply log_side; [|done]. intros w [Hw|Hw]%elem_of_app; [by apply lw_log|]. apply list_elem_of_singleton in Hw as ->.
  eapply start_in_log, Hp.
Qed.

Lemma length_logged : length (logged l d ov blks) = length d.
Proof. apply length_apply. Qed.

(** Recovery after a crash: the old contents up to the header write, the new ones after. *)
Lemma crash_replay k : let dk := apply_writes d (take k W) in
  hd_ok l (length d) (disk_at dk (l_start l)) /\
  (forall n, 0 <= n -> ~ in_log l n ->
    disk_at (apply_writes dk (replay_writes l dk)) n = if decide (k <= len)%nat then disk_at d n else default (disk_at d n) (ov !! n)) /\
  (forall n, 0 <= n -> ~ in_log l n -> n ∉ blks -> disk_at dk n = disk_at d n).
Proof.
  intros dk. assert (Hst := start_in_log _ _ (pe_geom _ _ _ _ _ Hp)). assert (Hmax := tx_max _ _ _ (pe_txn _ _ _ _ _ Hp)).
  assert (Hclr : forall d' x n, ~ in_log l n -> disk_at (<[Z.to_nat (l_start l) := x]> d') n = disk_at d' n).
  { intros d' x n Hn. destruct (pe_geom _ _ _ _ _ Hp). apply disk_at_insert_ne; [lia|by intros ->]. }
  assert (Hnil : forall x, hd_n x = 0 -> hd_blks x = []) by (intros x Hx; unfold hd_blks; by rewrite Hx).
  assert (Hskip : hd_n (disk_at dk (l_start l)) = 0 -> (forall n, 0 <= n -> ~ in_log l n -> n ∉ blks -> disk_at dk n = disk_at d n) ->
    (forall n, 0 <= n -> ~ in_log l n -> disk_at dk n = if decide (k <= len)%nat then disk_at d n else default (disk_at d n) (ov !! n)) ->
    hd_ok l (length d) (disk_at dk (l_start l)) /\
    (forall n, 0 <= n -> ~ in_log l n -> disk_at (apply_writes dk (replay_writes l dk)) n = if decide (k <= len)%nat then disk_at d n else default (disk_at d n) (ov !! n)) /\
    (forall n, 0 <= n -> ~ in_log l n -> n ∉ blks -> disk_at dk n = disk_at d n)).
  { intros H0 H1 H2. split_and!; [| |done].
    - split; [rewrite H0; destruct (pe_geom _ _ _ _ _ Hp); lia|]. rewrite (Hnil _ H0). set_solver.
    - intros n Hn0 Hn. unfold replay_writes. rewrite (Hnil _ H0). cbn. rewrite Hclr by done. by apply H2. }
  destruct (decide (k <= len)%nat) as [Hk|Hk]; [|destruct (decide (k <= len + 1 + len)%nat) as [Hk2|Hk2]].
  - apply Hskip; [by apply (crash_before k 0)|intros n _ Hn _; by apply crash_before|intros n _ Hn; by apply crash_before].
  - destruct (crash_mid k) as (hs & Hhs & Hdk); [lia|]. fold dk in Hdk. rewrite Hdk.
    assert (Hh : disk_at (apply_writes (logged l d ov blks) hs) (l_start l) = h) by (rewrite homes_log by done; by eapply logged_start).
    destruct hd_h as [Hhn Hhb]. split_and!.
    + rewrite Hh. split; [rewrite Hhn; fold len in Hmax; lia|]. rewrite Hhb. apply home_ok.
    + intros n Hn0 Hn. unfold replay_writes. rewrite Hh, Hhb, apply_snoc. cbn. rewrite Hclr by done.
      rewrite (home_writes_logged l _ (ov_at ov)).
      2: { intros j b Hj. apply lookup_lt_Some in Hj as Hj'. rewrite homes_log by (done || (unfold in_log; lia)).
           pose proof (f_equal (lookup j) (logged_home _ _ _ _ _ Hp)) as E. unfold home_writes in E. rewrite !list_lookup_imap, Hj in E. by injection E. }
      fold homes. apply homes_all; [rewrite length_apply; apply length_logged|done|done|].
      intros Hout. rewrite apply_other; [by apply logged_out|]. intros w [Hb _]%Hhs%homes_in. split; [apply home_ok in Hb; lia|by intros <-].
    + intros n Hn0 Hn Hout. rewrite apply_other; [by apply logged_out|]. intros w [Hb _]%Hhs%homes_in. split; [apply home_ok in Hb; lia|by intros <-].
  - assert (Hdk := crash_after k ltac:(lia)). fold dk in Hdk.
    assert (Hfin : forall n, 0 <= n -> ~ in_log l n -> disk_at dk n = default (disk_at d n) (ov !! n)).
    { intros n Hn0 Hn. rewrite Hdk, Hclr by done. apply homes_all; [apply length_logged|done|done|]. intros _. by apply logged_out. }
    apply Hskip; [|intros n Hn0 Hn Hout|exact Hfin].
    + rewrite Hdk, disk_at_insert_eq; [apply hd_empty, length_h|]. rewrite length_apply, length_logged. destruct (pe_geom _ _ _ _ _ Hp). lia.
    + rewrite Hfin by done. replace (ov !! n) with (@None block); [done|]. symmetry. apply not_elem_of_dom.
      by rewrite (pe_dom _ _ _ _ _ Hp), (pe_pin _ _ _ _ _ Hp), elem_of_list_to_set.
Qed.

(** The header names blocks of the transaction, or none. *)
Lemma crash_header k : hd_blks (disk_at (apply_writes d (take k W)) (l_start l)) ⊆ blks.
Proof.
  assert (Hnil : forall x, hd_n x = 0 -> hd_blks x ⊆ blks) by (intros x Hx; unfold hd_blks; rewrite Hx; set_solver).
  destruct (decide (k <= len)%nat) as [Hk|Hk]; [|destruct (decide (k <= len + 1 + len)%nat) as [Hk2|Hk2]].
  - apply Hnil. by apply (crash_before k 0).
  - destruct (crash_mid k) as (hs & Hhs & ->); [lia|]. rewrite homes_log by (done || apply (start_in_log _ _ (pe_geom _ _ _ _ _ Hp))).
    assert (disk_at (logged l d ov blks) (l_start l) = h) as -> by (by eapply logged_start). by rewrite (proj2 hd_h).
  - apply Hnil. rewrite (crash_after k) by lia. rewrite disk_at_insert_eq; [apply hd_empty, length_h|].
    rewrite length_apply, length_logged. destruct (pe_geom _ _ _ _ _ Hp). lia.
Qed.

(** The disk after the whole commit. *)
Lemma committed_disk n : 0 <= n -> ~ in_log l n -> disk_at (apply_writes d W) n = default (disk_at d n) (ov !! n).
Proof.
  intros Hn0 Hn. assert (Hk : (len + 1 + len < length W)%nat).
  { unfold W, commit_writes. rewrite !length_app. unfold log_writes. rewrite !length_imap. cbn. unfold len. lia. }
  rewrite <- (take_ge W (length W)) by lia. rewrite (crash_after _ Hk). destruct (pe_geom _ _ _ _ _ Hp).
  rewrite disk_at_insert_ne; [|lia|intros ->; apply Hn; unfold in_log; lia].
  apply homes_all; [apply length_logged|done|done|]. intros _. by apply logged_out.
Qed.

Lemma committed_clean : hd_n (disk_at (apply_writes d W) (l_start l)) = 0.
Proof.
  assert (Hk : (len + 1 + len < length W)%nat).
  { unfold W, commit_writes. rewrite !length_app. unfold log_writes. rewrite !length_imap. cbn. unfold len. lia. }
  rewrite <- (take_ge W (length W)) by lia. rewrite (crash_after _ Hk), disk_at_insert_eq; [apply hd_empty, length_h|].
  rewrite length_apply, length_logged. destruct (pe_geom _ _ _ _ _ Hp). lia.
Qed.
End Crash.

