(* ===== verification/Txn.v ===== *)
(** * What the log promises to the file system

    The interface between [log.c] and its clients [fs.c], [file.c], [sysfile.c] and
    [exec.c].  A client sees the blocks outside the log as a function [Z -> block] that an
    operation changes between [begin_op] and [end_op].  [Txn] lists the operations with
    their laws; the log over any buffer cache is an instance. *)

From Stdlib Require Import ZArith Lia.
From S2P Require Import Prelude Spinlock Blocks Bytes Log LogSpec LogOps LogCrash.

(** The disk: its number of blocks, the blocks an operation may write, the log. *)
Record tgeo := mktgeo { g_len : Z; g_cap : nat; g_log : Z -> bool }.

(** An operation in progress: the contents of the blocks, the buffers it holds, the
    blocks it has logged, and those it has changed and not logged yet. *)
Record tstate := mkts { tv : Z -> block; th : gmap Z nat; tlog : gset Z; tdirty : gset Z }.

Definition vset (V : Z -> block) (n : Z) (x : block) : Z -> block := fun m => if m =? n then x else V m.

Definition ts_read (n : Z) (r : nat) (t : tstate) : tstate := mkts (tv t) (<[n := r]> (th t)) (tlog t) (tdirty t).
Definition ts_set (n : Z) (x : block) (t : tstate) : tstate := mkts (vset (tv t) n x) (th t) (tlog t) ({[n]} ∪ tdirty t).
Definition ts_log (n : Z) (t : tstate) : tstate := mkts (tv t) (th t) ({[n]} ∪ tlog t) (tdirty t ∖ {[n]}).
Definition ts_release (n : Z) (t : tstate) : tstate := mkts (tv t) (delete n (th t)) (tlog t) (tdirty t).

Definition usable (g : tgeo) (n : Z) : Prop := 0 <= n < g_len g /\ g_log g n = false.
(** A free buffer is left. *)
Definition roomy (t : tstate) : Prop := (size (dom (th t)) + size (tlog t) < NBUF)%nat.

Lemma vset_eq V n x : vset V n x n = x.
Proof. unfold vset. by rewrite Z.eqb_refl. Qed.

Lemma vset_ne V n x m : m <> n -> vset V n x m = V m.
Proof. intros H. unfold vset. by rewrite (proj2 (Z.eqb_neq m n) H). Qed.

Class Txn (S : Type) `{!HasCtx S} := {
  t_bread : Z -> Z -> M S nat;
  t_brelse : nat -> M S unit;
  t_log_write : nat -> M S unit;
  t_begin_op : nat -> M S unit;
  t_end_op : M S unit;
  t_data : nat -> S -> block;
  t_set_data : nat -> block -> S -> S;

  (** One operation is in progress; none is. *)
  tx : nat -> cpu -> tgeo -> S -> tstate -> Prop;
  quiet : nat -> cpu -> tgeo -> S -> (Z -> block) -> Prop;

  tx_ctx : forall i c g s t, tx i c g s t -> ctx_ok (ctx s) i c /\ locks (ctx s) = ∅;
  quiet_ctx : forall i c g s V, quiet i c g s V -> ctx_ok (ctx s) i c /\ locks (ctx s) = ∅;
  tx_move : forall i c g s t k, tx i c g s t -> ctx_ok k i c -> locks k = ∅ -> tx i c g (set_ctx k s) t;
  quiet_move : forall i c g s V k, quiet i c g s V -> ctx_ok k i c -> locks k = ∅ -> quiet i c g (set_ctx k s) V;
  tx_ext : forall i c g s t V, tx i c g s t -> (forall n, V n = tv t n) -> tx i c g s (mkts V (th t) (tlog t) (tdirty t));
  tx_len : forall i c g s t n, tx i c g s t -> usable g n -> length (tv t n) = 512%nat;

  begin_tx : forall i c g s V fuel, quiet i c g s V -> wp (t_begin_op (Datatypes.S fuel) s) (fun _ s' => tx i c g s' (mkts V ∅ ∅ ∅)) stays;
  end_tx : forall i c g s V T, tx i c g s (mkts V ∅ T ∅) -> wp (t_end_op s) (fun _ s' => quiet i c g s' V) stays;
  bread_tx : forall i c g s t n, tx i c g s t -> usable g n -> th t !! n = None -> roomy t ->
    wp (t_bread 1 n s) (fun r s' => tx i c g s' (ts_read n r t)) stays;
  brelse_tx : forall i c g s t n r, tx i c g s t -> th t !! n = Some r -> n ∉ tdirty t ->
    wp (t_brelse r s) (fun _ s' => tx i c g s' (ts_release n t)) stays;
  log_write_tx : forall i c g s t n r, tx i c g s t -> th t !! n = Some r -> (size (tlog t) < g_cap g)%nat ->
    wp (t_log_write r s) (fun _ s' => tx i c g s' (ts_log n t)) stays;
  data_tx : forall i c g s t n r, tx i c g s t -> th t !! n = Some r -> t_data r s = tv t n;
  set_data_tx : forall i c g s t n r x, tx i c g s t -> th t !! n = Some r -> length x = 512%nat ->
    tx i c g (t_set_data r x s) (ts_set n x t)
}.

(** ** The log is an instance *)

Section Instance.
Context {B : Type} `{!HasCtx B, !BufCache B}.

Definition is_log (l : log) (n : Z) : bool := (l_start l <=? n) && (n <? l_start l + l_size l).

Lemma is_log_spec l n : is_log l n = false <-> ~ in_log l n.
Proof. unfold is_log, in_log. rewrite andb_false_iff, Z.leb_gt, Z.ltb_ge. lia. Qed.

Definition geo_of (l : log) (len : nat) (g : tgeo) : Prop :=
  g_len g = Z.of_nat len /\ Z.of_nat (g_cap g) = l_size l - 1 /\ forall n, g_log g n = is_log l n.

Record log_tx (i : nat) (c : cpu) (g : tgeo) (s : logst B) (t : tstate) (a : acache) (blks : list Z) : Prop := {
  lt_rep : lrep i c s a;
  lt_geom : geom (lg s) (length (disk a));
  lt_geo : geo_of (lg s) (length (disk a)) g;
  lt_txn : txn (lg s) (length (disk a)) blks;
  lt_nodup : NoDup blks;
  lt_out : outstanding (lg s) = 1 /\ committing (lg s) = 0;
  lt_pin : pinned a = list_to_set blks;
  lt_tlog : tlog t = pinned a;
  lt_held : th t = held a;
  lt_view : forall n, usable g n -> view a n = tv t n;
  lt_use : forall n, n ∈ dom (held a) -> usable g n;
  lt_dirty : tdirty t ⊆ dom (held a);
  lt_clean : forall n, n ∉ tlog t -> n ∉ tdirty t -> view a n = disk_at (disk a) n
}.

Record log_quiet (i : nat) (c : cpu) (g : tgeo) (s : logst B) (V : Z -> block) (d : list block) (w : list (Z * block)) : Prop := {
  lq_rep : lrep i c s (idle_ac d ∅ ∅ w);
  lq_geom : geom (lg s) (length d);
  lq_geo : geo_of (lg s) (length d) g;
  lq_n : lh_n (lg s) = 0 /\ outstanding (lg s) = 0 /\ committing (lg s) = 0;
  lq_view : forall n, usable g n -> disk_at d n = V n
}.

Lemma log_bread i c g s t a blks n : log_tx i c g s t a blks -> usable g n -> th t !! n = None -> roomy t ->
  wp (bread 1 n s) (fun r s' => log_tx i c g s' (ts_read n r t) (ac_read n r a) blks) stays.
Proof.
  intros H Hu Hn Hroom. destruct (lt_geo _ _ _ _ _ _ _ H) as (Hlen & Hcap & Hlog). destruct (proj1 Hu) as [Hu1 Hu2].
  eapply wp_lbread; [apply H|lia|by rewrite <- (lt_held _ _ _ _ _ _ _ H)| |].
  - right. unfold busy. rewrite <- (lt_held _ _ _ _ _ _ _ H), <- (lt_tlog _ _ _ _ _ _ _ H). unfold roomy in Hroom.
    pose proof (size_union_alt (dom (th t)) (tlog t)) as E. rewrite E.
    assert (size (tlog t ∖ dom (th t)) <= size (tlog t))%nat by (apply subseteq_size; set_solver). lia.
  - intros r b Hb. destruct H. split; try done.
    + cbn. by rewrite lt_held0.
    + intros m Hm. cbn [tv ts_read]. rewrite <- lt_view0 by done. destruct (decide (m = n)) as [->|]; [apply view_read|by apply read_other].
    + intros m Hm. cbn in Hm. rewrite dom_insert_L in Hm. apply elem_of_union in Hm as [Hm|Hm]; [|by apply lt_use0]. by apply elem_of_singleton in Hm as ->.
    + cbn. rewrite dom_insert_L. clear -lt_dirty0. set_solver.
    + intros m H1 H2. cbn [disk ac_read]. rewrite <- lt_clean0 by done. destruct (decide (m = n)) as [->|]; [apply view_read|by apply read_other].
Qed.

Lemma log_brelse i c g s t a blks n r : log_tx i c g s t a blks -> th t !! n = Some r -> n ∉ tdirty t ->
  wp (brelse r s) (fun _ s' => log_tx i c g s' (ts_release n t) (ac_release n a) blks) stays.
Proof.
  intros H Hn Hd.
  assert (Hv : n ∈ pinned a \/ view a n = disk_at (disk a) n).
  { destruct (decide (n ∈ pinned a)); [by left|right]. apply (lt_clean _ _ _ _ _ _ _ H); [|done]. by rewrite (lt_tlog _ _ _ _ _ _ _ H). }
  assert (Hview : forall m, view (ac_release n a) m = view a m).
  { intros m. destruct (decide (m = n)) as [->|]; [by apply view_release|by apply release_other]. }
  eapply wp_lbrelse; [apply H|by rewrite <- (lt_held _ _ _ _ _ _ _ H)|done|]. intros b Hb. destruct H. split; try done.
  - cbn. by rewrite lt_held0.
  - intros m Hm. by rewrite Hview, lt_view0.
  - intros m Hm. cbn in Hm. rewrite dom_delete_L in Hm. apply lt_use0. clear -Hm. set_solver.
  - cbn. rewrite dom_delete_L. clear -lt_dirty0 Hd. set_solver.
  - intros m H1 H2. cbn [disk ac_release]. by rewrite Hview, lt_clean0.
Qed.

Lemma log_set_data i c g s t a blks n r x : log_tx i c g s t a blks -> th t !! n = Some r -> length x = 512%nat ->
  log_tx i c g (set_base (c_set_data r x (base s)) s) (ts_set n x t) (ac_set n x a) blks.
Proof.
  intros H Hn Hx. assert (Hh : held a !! n = Some r) by (by rewrite <- (lt_held _ _ _ _ _ _ _ H)).
  destruct H. split; try done.
  - by apply set_data_law.
  - intros m Hm. cbn [tv ts_set]. destruct (decide (m = n)) as [->|]; [by rewrite view_set, vset_eq|].
    rewrite vset_ne by done. rewrite <- lt_view0 by done. by apply set_other.
  - cbn. apply elem_of_dom_2 in Hh. clear -lt_dirty0 Hh. set_solver.
  - intros m H1 H2. cbn in H1, H2 |- *. rewrite <- lt_clean0; [|done|clear -H2; set_solver]. apply set_other. clear -H2. set_solver.
Qed.

Lemma note_spec n blks : NoDup blks -> NoDup (note n blks) /\ forall m, m ∈ note n blks <-> m = n \/ m ∈ blks.
Proof.
  intros Hn. unfold note. case_decide as Hin.
  - split; [done|]. intros m. split; [by right|]. intros [->|]; done.
  - split; [apply NoDup_app; split_and!; [done|set_solver|apply NoDup_singleton]|]. intros m. rewrite elem_of_app, list_elem_of_singleton. tauto.
Qed.

Lemma log_log_write i c g s t a blks n r : log_tx i c g s t a blks -> th t !! n = Some r -> (size (tlog t) < g_cap g)%nat ->
  wp (log_write r s) (fun _ s' => log_tx i c g s' (ts_log n t) (ac_pin n a) (note n blks)) stays.
Proof.
  intros H Hn Hsz. assert (Hh : held a !! n = Some r) by (by rewrite <- (lt_held _ _ _ _ _ _ _ H)).
  destruct (lt_geo _ _ _ _ _ _ _ H) as (Hlen & Hcap & Hlog). destruct (note_spec n blks (lt_nodup _ _ _ _ _ _ _ H)) as [Hnd Hin].
  assert (Hl : Z.of_nat (length blks) < l_size (lg s) - 1).
  { rewrite (lt_tlog _ _ _ _ _ _ _ H), (lt_pin _ _ _ _ _ _ _ H), (size_list_to_set _ (lt_nodup _ _ _ _ _ _ _ H)) in Hsz. lia. }
  assert (Hnl : ~ in_log (lg s) n).
  { apply is_log_spec. rewrite <- Hlog. apply (lt_use _ _ _ _ _ _ _ H). by apply elem_of_dom_2 in Hh. }
  eapply wp_log_write; [apply H|exact Hh|apply H|apply H|destruct (lt_out _ _ _ _ _ _ _ H); lia|done|done|].
  intros s' l' H1 H2 H3 (m & E & Hm) _. destruct H. destruct lt_geom0. split; try done.
  - rewrite H2, E. split; try done. cbn. by rewrite Hm.
  - rewrite H2, E. done.
  - rewrite H2. done.
  - rewrite H2, E. done.
  - cbn. rewrite lt_pin0. apply set_eq. intros k. rewrite elem_of_union, !elem_of_list_to_set, elem_of_singleton, Hin. tauto.
  - cbn. by rewrite lt_tlog0.
  - cbn. clear -lt_dirty0. set_solver.
  - intros k K1 K2. cbn in K1, K2 |- *. change (view (ac_pin n a) k) with (view a k). apply lt_clean0; clear -K1 K2; set_solver.
Qed.

Lemma log_begin i c g s V d w fuel : log_quiet i c g s V d w ->
  wp (begin_op (S fuel) s) (fun _ s' => log_tx i c g s' (mkts V ∅ ∅ ∅) (idle_ac d ∅ ∅ w) []) stays.
Proof.
  intros []. destruct lq_n0 as (Hn & Ho & Hc). eapply wp_begin_op; [exact lq_rep0|done|rewrite Hn, Ho; done|].
  intros s' H1 H2 _. destruct lq_geom0. split; try done; rewrite ?H2; try (by split).
  - exact lq_geo0.
  - split; cbn; [exact Hn|done|lia|set_solver].
  - apply NoDup_nil. done.
  - cbn. rewrite Ho. done.
Qed.

(** An operation that holds no buffer is one to commit. *)
Lemma log_pending i c g s V T a blks : log_tx i c g s (mkts V ∅ T ∅) a blks ->
  exists d ov p w, a = idle_ac d ov p w /\ pending (lg s) d ov p blks.
Proof.
  intros H. assert (Hok := rep_ok _ _ _ _ (lt_rep _ _ _ _ _ _ _ H)). destruct a as [d ov h p w].
  assert (Hh := lt_held _ _ _ _ _ _ _ H). cbn in Hh. subst h. exists d, ov, p, w. split; [done|].
  split; [apply H..|]. pose proof (ac_dom _ Hok) as E. cbn in E. rewrite E. unfold busy. cbn. rewrite dom_empty_L. set_solver.
Qed.

Lemma log_end i c g s V T a blks : log_tx i c g s (mkts V ∅ T ∅) a blks ->
  wp (end_op s) (fun _ s' => exists d w, log_quiet i c g s' V d w) stays.
Proof.
  intros H. destruct (log_pending _ _ _ _ _ _ _ _ H) as (d & ov & p & w & -> & Hp).
  destruct (lt_out _ _ _ _ _ _ _ H) as [Ho Hc].
  eapply wp_end_op_last; [apply H|exact Hp|done|done|]. intros s' Hr Hl. set (ws := end_writes (lg s) d ov blks) in *.
  exists (apply_writes d ws), (w ++ ws). destruct (lt_geo _ _ _ _ _ _ _ H) as (Hlen & Hcap & Hlog). cbn [disk] in *.
  assert (Hg := lt_geom _ _ _ _ _ _ _ H). cbn [disk] in Hg. split; [done|rewrite Hl, length_apply; by destruct Hg|by rewrite Hl, length_apply|by rewrite Hl|].
  intros n Hu. change (V n) with (tv (mkts V ∅ T ∅) n). rewrite <- (lt_view _ _ _ _ _ _ _ H n Hu). unfold view. cbn. destruct Hu as [Hu1 Hu2]. rewrite Hlog in Hu2. apply is_log_spec in Hu2.
  unfold ws, end_writes. case_decide as Hb.
  - subst blks. assert (Hov : ov = ∅). { apply dom_empty_inv_L. by rewrite (pe_dom _ _ _ _ _ Hp), (pe_pin _ _ _ _ _ Hp). } by rewrite Hov.
  - apply (committed_disk _ _ _ p); [done|lia|done].
Qed.

#[export, refine] Instance log_txn : Txn (logst B) := {|
  t_bread := bread; t_brelse := brelse; t_log_write := log_write; t_begin_op := begin_op; t_end_op := end_op;
  t_data := fun r s => c_data r (base s);
  t_set_data := fun r x s => set_base (c_set_data r x (base s)) s;
  tx := fun i c g s t => exists a blks, log_tx i c g s t a blks;
  quiet := fun i c g s V => exists d w, log_quiet i c g s V d w
|}.
Proof.
  - intros i c g s t (a & blks & H). exact (rep_idle _ _ _ _ (lt_rep _ _ _ _ _ _ _ H)).
  - intros i c g s V (d & w & H). exact (rep_idle _ _ _ _ (lq_rep _ _ _ _ _ _ _ H)).
  - intros i c g s t k (a & blks & []) Hk Hl. exists a, blks. split; try done. by apply rep_move.
  - intros i c g s V k (d & w & []) Hk Hl. exists d, w. split; try done. by apply rep_move.
  - intros i c g s t V (a & blks & []) HV. exists a, blks. split; try done. intros n Hn. cbn. by rewrite HV, lt_view0.
  - intros i c g s t n (a & blks & H) Hn. rewrite <- (lt_view _ _ _ _ _ _ _ H n Hn). apply view_len; [exact (rep_ok _ _ _ _ (lt_rep _ _ _ _ _ _ _ H))|].
    destruct (lt_geo _ _ _ _ _ _ _ H) as (Hlen & _). destruct Hn as [Hn _]. lia.
  - intros i c g s V fuel (d & w & H). eapply wp_mono; [by eapply log_begin|intros y s' H'; first [exact H'|eexists _, _; exact H']|done].
  - intros i c g s V T (a & blks & H). eapply wp_mono; [by eapply log_end|intros y s' H'; first [exact H'|eexists _, _; exact H']|done].
  - intros i c g s t n (a & blks & H) Hu Hn Hr. eapply wp_mono; [by eapply log_bread|intros y s' H'; first [exact H'|eexists _, _; exact H']|done].
  - intros i c g s t n r (a & blks & H) Hn Hd. eapply wp_mono; [by eapply log_brelse|intros y s' H'; first [exact H'|eexists _, _; exact H']|done].
  - intros i c g s t n r (a & blks & H) Hn Hd. eapply wp_mono; [by eapply log_log_write|intros y s' H'; first [exact H'|eexists _, _; exact H']|done].
  - intros i c g s t n r (a & blks & H) Hn. rewrite (lt_held _ _ _ _ _ _ _ H) in Hn.
    destruct (data_law _ _ _ _ _ _ (lt_rep _ _ _ _ _ _ _ H) Hn) as [-> _]. apply H. eapply (lt_use _ _ _ _ _ _ _ H). by apply elem_of_dom_2 in Hn.
  - intros i c g s t n r x (a & blks & H) Hn Hx. eexists _, blks. by apply log_set_data.
Defined.
End Instance.
