(* ===== verification/Demo.v ===== *)
(** * A small machine

    A disk of 64 blocks with a file system on it, and the machine that boots from it: the
    inputs at which the theorems on the log and the file system are applied.  The disk has
    the root directory with the entries ".", "..", "a" and "x"; "a" is a file of five
    bytes, "x" an executable with one segment. *)

From Stdlib Require Import ZArith Lia.
From S2P Require Import Prelude Spinlock Sleeplock Blocks Bytes Bio BioSpec BioOps BioTheorems Log LogSpec LogOps LogCrash Txn.

Definition fill_block (l : list Z) : block := take 512 (l ++ replicate 512 0).

Definition disk_sb : superblock := mksb 64 30 8 30 2 32 33.
Definition disk_sb_block : block := fill_block (concat (le_bytes 4 <$> [64; 30; 8; 30; 2; 32; 33])).
(** Inodes 0 to 3: none, the root directory, the file, the executable. *)
Definition disk_inodes : block :=
  fill_block (replicate 64 0 ++ concat [le_bytes 2 1; replicate 4 0; le_bytes 2 1; le_bytes 4 64; le_bytes 4 34; replicate 48 0] ++
              concat [le_bytes 2 2; replicate 4 0; le_bytes 2 1; le_bytes 4 5; le_bytes 4 35; replicate 48 0] ++
              concat [le_bytes 2 2; replicate 4 0; le_bytes 2 1; le_bytes 4 88; le_bytes 4 36; replicate 48 0]).
Definition disk_bitmap : block := fill_block [255; 255; 255; 255; 31].
Definition disk_root : block := fill_block ([1; 0; 46] ++ replicate 13 0 ++ [1; 0; 46; 46] ++ replicate 12 0 ++ [2; 0; 97] ++ replicate 13 0 ++ [3; 0; 120]).
Definition disk_file : block := fill_block [104; 101; 108; 108; 111].

(** An ELF header, the header of a segment of 16 bytes at address 0, and its first four. *)
Definition disk_prog : block :=
  fill_block (le_bytes 4 0x464C457F ++ replicate 20 0 ++ le_bytes 4 2 ++ le_bytes 4 52 ++ replicate 12 0 ++ le_bytes 2 1 ++ replicate 6 0 ++
              concat (le_bytes 4 <$> [1; 84; 0; 0; 4; 16; 7; 0x1000]) ++ [144; 144; 235; 254]).

Definition fs_disk : list block :=
  [fill_block []; disk_sb_block] ++ replicate 30 (fill_block []) ++ [disk_inodes; disk_bitmap; disk_root; disk_file; disk_prog] ++ replicate 27 (fill_block []).
Definition fs_geo : tgeo := mktgeo 64 29 (fun n => (2 <=? n) && (n <? 32)).
Definition fs_view : Z -> block := disk_at fs_disk.

#[export] Instance small_cache : BufCache bst := bio_cache 0.

Definition zero_log : log := mklog 0 0 0 0 0 0 (replicate 30 0).
(** [binit] and [initlog] on zeroed memory. *)
Definition small_bio : bst := match binit (boot_bst demo_k 5 fs_disk) with Ret _ s => s | _ => boot_bst demo_k 5 fs_disk end.
Definition small_start : logst bst := mklogst zero_log small_bio.
Definition small : logst bst := match initlog 1 small_start with Ret _ s => s | _ => small_start end.

Lemma fs_disk_len : Forall (fun d => length d = 512%nat) fs_disk.
Proof. refine (bool_decide_unpack _ _). by vm_compute. Qed.

Lemma demo_ctx : ctx_ok demo_k 0 demo_c.
Proof. repeat split; cbn; intros; lia || done. Qed.

Lemma small_bio_rep : lrep 0 demo_c small_start (idle_ac fs_disk ∅ ∅ []).
Proof.
  destruct (binit_run 0 demo_c demo_k 5 fs_disk demo_ctx eq_refl fs_disk_len) as (s & Hrun & Hr).
  unfold lrep, small_start, small_bio. rewrite Hrun. by exists (reverse (seq 0 NBUF)).
Qed.

Lemma fs_disk_geom l : length (lh_block l) = 30%nat -> geom (set_geom 2 30 1 l) (length fs_disk).
Proof. intros Hl. split; cbn; (done || lia). Qed.

Lemma small_run : exists w, initlog 1 small_start = Ret tt small /\ lrep 0 demo_c small (idle_ac fs_disk ∅ ∅ w) /\ lg small = set_geom 2 30 1 zero_log.
Proof.
  assert (Hsb : sb_log fs_disk zero_log = set_geom 2 30 1 zero_log) by (by vm_compute).
  assert (Hdisk : apply_writes fs_disk (replay_writes (set_geom 2 30 1 zero_log) fs_disk) = fs_disk) by (by vm_compute).
  assert (wp (initlog 1 small_start) (fun _ s => (exists w, lrep 0 demo_c s (idle_ac fs_disk ∅ ∅ w)) /\ lg s = set_geom 2 30 1 zero_log) stays) as H.
  { eapply (wp_initlog 0 demo_c small_start fs_disk []); [exact small_bio_rep|..]; cbn [lg small_start]; rewrite Hsb.
    - by apply fs_disk_geom.
    - split; [by vm_compute|]. intros b Hb. exfalso. change (hd_blks _) with (@nil Z) in Hb. by apply elem_of_nil in Hb.
    - intros c' Hc'. split; [|by vm_compute]. exists (replay_writes (set_geom 2 30 1 zero_log) fs_disk). rewrite <- Hdisk at 1. exact Hc'. }
  apply wp_Ret in H as ([] & s & Hrun & [w Hr] & Hl). unfold small. rewrite Hrun. exists w. split_and!; [reflexivity|exact Hr|exact Hl].
Qed.

#[global] Opaque fs_disk small_bio small_start small.

(** The machine is quiet: no operation, and the blocks of the disk. *)
Lemma small_log_quiet : exists w, log_quiet 0 demo_c fs_geo small fs_view fs_disk w.
Proof.
  destruct small_run as (w & _ & Hr & Hl). exists w. split.
  - exact Hr.
  - rewrite Hl. by apply fs_disk_geom.
  - rewrite Hl. split_and!; [by vm_compute|done|]. intros n. done.
  - rewrite Hl. split_and!; reflexivity.
  - intros n _. reflexivity.
Qed.

Lemma small_quiet : quiet 0 demo_c fs_geo small fs_view.
Proof. destruct small_log_quiet as [w H]. by exists fs_disk, w. Qed.

Lemma small_usable n : 0 <= n < 64 -> g_log fs_geo n = false -> usable fs_geo n.
Proof. intros H1 H2. split; [exact H1|exact H2]. Qed.
