(* ===== verification/LogTheorems.v ===== *)
(** * The log: the theorems

    A commit is atomic across a crash at any of its disk writes and across crashes during the
    recovery, [log_write] and
    [begin_op]/[end_op] keep the transaction, and the reservation of [begin_op] is one
    block more than the log has. *)

From Stdlib Require Import ZArith Lia.
From S2P Require Import Prelude Spinlock Sleeplock Blocks Bytes Bio BioSpec BioOps BioTheorems Log LogSpec LogOps LogCrash Txn Demo.

(** ** The properties *)

Section Claims.
Context {B : Type} `{!HasCtx B, !BufCache B}.

(** The machine after a reboot: an empty cache over the disk [d], a zeroed [log]; [w] are the disk
    writes so far. *)
Definition rebooted (i : nat) (c : cpu) (d : list block) (w : list (Z * block)) (t : logst B) : Prop :=
  lrep i c t (idle_ac d ∅ ∅ w) /\ length (lh_block (lg t)) = Z.to_nat LOGSIZE.

(** A log that the superblock on the disk describes, with no transaction in it. *)
Record settled (l : log) (d : list block) : Prop := {
  se_start : s32 (logstart (sb_of (disk_at d 1))) = l_start l;
  se_size : s32 (nlog (sb_of (disk_at d 1))) = l_size l;
  se_clean : hd_n (disk_at d (l_start l)) = 0
}.

Lemma sb_geom l d d' l' : geom l (length d) -> settled l d -> disk_at d' 1 = disk_at d 1 -> length d' = length d ->
  length (lh_block l') = Z.to_nat LOGSIZE -> sb_log d' l' = set_geom (l_start l) (l_size l) 1 l' /\ geom (sb_log d' l') (length d').
Proof.
  intros [] [H1 H2 _] E Hl Hb. unfold sb_log. rewrite E, H1, H2, Hl. split; [done|]. by split.
Qed.

Definition same_place (l l' : log) : Prop := l_start l' = l_start l /\ l_size l' = l_size l.

(** From the disk [d], [initlog] ends with the contents [v] outside the log [l] and with an empty
    log, in memory and on the disk; and so it does from the disk that is left when the machine
    stops again after any number of the writes of [initlog], up to [m] times. *)
Fixpoint recovers (m : nat) (i : nat) (c : cpu) (l : log) (v : Z -> block) (d : list block) : Prop :=
  forall w t, rebooted i c d w t ->
    exists t' rs, initlog 1 t = Ret tt t' /\ lrep i c t' (idle_ac (apply_writes d rs) ∅ ∅ (w ++ rs)) /\
      lh_n (lg t') = 0 /\ same_place l (lg t') /\ settled (lg t') (apply_writes d rs) /\
      (forall n, 0 <= n -> ~ in_log l n -> disk_at (apply_writes d rs) n = v n) /\
      match m with
      | O => True
      | S m => forall j, recovers m i c l v (apply_writes d (take j rs))
      end.

(** A disk from which recovery gives [v]. *)
Record recoverable (l : log) (v : Z -> block) (d0 d : list block) : Prop := {
  re_len : length d = length d0;
  re_sb : disk_at d 1 = disk_at d0 1;
  re_hd : hd_ok l (length d0) (disk_at d (l_start l));
  re_home : 1 ∉ hd_blks (disk_at d (l_start l));
  re_view : forall n, 0 <= n -> ~ in_log l n -> disk_at (apply_writes d (replay_writes l d)) n = v n
}.

(** The superblock is not in the log, and recovery leaves it alone. *)
Lemma replay_sb l d j : geom l (length d) -> hd_ok l (length d) (disk_at d (l_start l)) -> 1 ∉ hd_blks (disk_at d (l_start l)) ->
  disk_at (apply_writes d (take j (replay_writes l d))) 1 = disk_at d 1.
Proof.
  intros Hg Hok H1. apply apply_other. intros w Hw. apply elem_of_take in Hw as (k & Hk & _). apply list_elem_of_lookup_2 in Hk.
  split; [by eapply replay_pos|]. intros E. apply elem_of_app in Hk as [Hk|Hk].
  - apply list_elem_of_lookup in Hk as [q Hq]. unfold home_writes in Hq. rewrite list_lookup_imap in Hq. destruct (hd_blks _ !! q) as [b|] eqn:Eb; cbn in Hq; [|done].
    injection Hq as <-. cbn in E. subst b. apply H1. by eapply list_elem_of_lookup_2.
  - apply list_elem_of_singleton in Hk as ->. destruct Hg. cbn in E. lia.
Qed.

Lemma recoverable_again l v d0 d j : geom l (length d0) -> Forall (fun x => length x = 512%nat) d -> recoverable l v d0 d ->
  recoverable l v d0 (apply_writes d (take j (replay_writes l d))).
Proof.
  intros Hg Hlen [Hl Hsb Hhd H1 Hv]. rewrite <- Hl in Hg, Hhd. destruct (replay_again l d Hg Hlen Hhd j) as (H2 & H3 & H4). split.
  - by rewrite length_apply.
  - by rewrite replay_sb.
  - by rewrite <- Hl.
  - intros H. by apply H1, H3.
  - intros n Hn0 Hn. rewrite H4 by done. by apply Hv.
Qed.

Lemma recoverable_recovers i c l v d0 : geom l (length d0) -> settled l d0 ->
  forall m d, recoverable l v d0 d -> recovers m i c l v d.
Proof.
  intros Hg Hset m. induction m as [|m IH]; intros d Hre w t [Ht Hlb].
  all: pose proof Hre as [Hl Hsb Hhd H1 Hv].
  all: destruct (sb_geom l d0 d (lg t) Hg Hset Hsb Hl Hlb) as [Esb Hgt].
  all: assert (Hlen := ac_len _ (rep_ok _ _ _ _ Ht)); cbn [disk idle_ac] in Hlen.
  all: assert (wp (initlog 1 t) (fun _ t' => lrep i c t' (idle_ac (apply_writes d (replay_writes l d)) ∅ ∅ (w ++ replay_writes l d)) /\
    lh_n (lg t') = 0 /\ same_place l (lg t')) stays) as Hi by
    (eapply wp_initlog; [exact Ht|exact Hgt|rewrite Esb, Hl; destruct Hhd as [Ha Hb]; by split|]; rewrite Esb; intros c' Hc'; split; [exact Hc'|by split]).
  all: apply wp_Ret in Hi as ([] & t' & Hit & Hrt & Hnt & Hsp); exists t', (replay_writes l d); split_and!; try done.
  all: try (destruct Hsp as [S1 S2]; rewrite <- Hl in Hg, Hhd; pose proof (replay_sb l d (length (replay_writes l d)) Hg Hhd H1) as Es;
    rewrite take_ge in Es by lia; destruct Hset as [T1 T2 _]; split; [by rewrite Es, Hsb, S1|by rewrite Es, Hsb, S2|rewrite S1; by apply replay_clean]).
  intros j. by apply IH, recoverable_again.
Qed.

(** C2 (safety).  A commit is atomic across crashes.  [commit] returns with the blocks of the
    transaction at their homes and an empty log, in memory and on the disk, which is what it
    asks for of the log before.  If the machine stops after any number [k] of the disk writes of
    the commit, then [initlog] at the next boot leaves, outside the log, exactly the old contents
    when the header had not been written yet and exactly the new ones when it had, and again a log
    that is empty in memory and on the disk; and this is so too when the machine stops again
    during recovery, after any of its writes and any number [m] of times. *)
Theorem commit_atomic i c (s : logst B) d ov p w blks :
  lrep i c s (idle_ac d ov p w) -> pending (lg s) d ov p blks -> blks <> [] -> settled (lg s) d -> 1 ∉ blks ->
  exists ws s', commit s = Ret tt s' /\ lrep i c s' (idle_ac (apply_writes d ws) ∅ ∅ (w ++ ws)) /\ lh_n (lg s') = 0 /\
    same_place (lg s) (lg s') /\ settled (lg s') (apply_writes d ws) /\
    (forall n, 0 <= n -> ~ in_log (lg s) n -> disk_at (apply_writes d ws) n = view (idle_ac d ov p w) n) /\
    forall k m, recovers m i c (lg s) (fun n => if decide (k <= length blks)%nat then disk_at d n else view (idle_ac d ov p w) n)
      (apply_writes d (take k ws)).
Proof.
  intros Hr Hp Hne Hset H1. assert (Hlen := ac_len _ (rep_ok _ _ _ _ Hr)). assert (Hg := pe_geom _ _ _ _ _ Hp). set (ws := commit_writes (lg s) d ov blks).
  assert (wp (commit s) (fun _ s' => lrep i c s' (idle_ac (apply_writes d ws) ∅ ∅ (w ++ ws)) /\ lg s' = set_n 0 (lg s)) stays) as Hrun.
  { eapply wp_commit; [exact Hr|exact Hp|destruct blks; [done|cbn; lia]|]. by intros c' Hc'. }
  assert (Hcr := crash_replay (lg s) d ov p blks Hp Hlen (se_clean _ _ Hset)). fold ws in Hcr.
  assert (Hsb : forall k, disk_at (apply_writes d (take k ws)) 1 = disk_at d 1).
  { intros k. destruct (Hcr k) as (_ & _ & Hout). apply Hout; [lia| |done]. destruct Hg. unfold in_log. lia. }
  apply wp_Ret in Hrun as ([] & s' & Hrun & Hr' & Hl'). exists ws, s'. rewrite Hl'. split_and!; try done.
  - specialize (Hsb (length ws)). rewrite take_ge in Hsb by lia. destruct Hset as [T1 T2 T3]. split; [by rewrite Hsb|by rewrite Hsb|].
    by apply (committed_clean (lg s) d ov p blks).
  - intros n Hn0 Hn. by apply (committed_disk (lg s) d ov p blks).
  - intros k m. apply (recoverable_recovers i c (lg s) _ d Hg Hset). destruct (Hcr k) as (Hhd & Hrep & _). split; try done; [apply length_apply|].
    intros Hb. apply H1. by eapply (crash_header (lg s) d ov p blks Hp Hlen (se_clean _ _ Hset) k).
Qed.

(** [log_write] of a held buffer puts its block number into the header
    of the transaction, once however often the block is written, and pins the buffer in
    the cache; the disk is untouched.  A transaction that fills the log, and a call
    outside a transaction, panic. *)
Theorem log_write_absorbs i c (s : logst B) a n r blks :
  lrep i c s a -> held a !! n = Some r -> geom (lg s) (length (disk a)) -> txn (lg s) (length (disk a)) blks -> ~ in_log (lg s) n ->
  (l_size (lg s) - 1 <= Z.of_nat (length blks) -> log_write r s = Panic "too big a transaction") /\
  (Z.of_nat (length blks) < l_size (lg s) - 1 -> outstanding (lg s) < 1 -> log_write r s = Panic "log_write outside of trans") /\
  (Z.of_nat (length blks) < l_size (lg s) - 1 -> 1 <= outstanding (lg s) ->
     exists s', log_write r s = Ret tt s' /\ lrep i c s' (ac_pin n a) /\ txn (lg s') (length (disk a)) (note n blks) /\
       outstanding (lg s') = outstanding (lg s) /\ l_start (lg s') = l_start (lg s) /\ l_size (lg s') = l_size (lg s)).
Proof.
  intros Hr Hh Hg Ht Hn. split_and!.
  - intros Hf. unfold log_write. run. rewrite (tx_n _ _ _ Ht), (proj2 (Z.leb_le (l_size (lg s) - 1) _)) by lia. by rewrite orb_true_r.
  - intros Hroom Ho. unfold log_write. run. rewrite (tx_n _ _ _ Ht).
    rewrite (proj2 (Z.leb_gt LOGSIZE _)), (proj2 (Z.leb_gt (l_size (lg s) - 1) _)) by (destruct Hg; lia). cbn [orb].
    by rewrite (proj2 (Z.ltb_lt _ 1)) by lia.
  - intros Hroom Ho.
    assert (wp (log_write r s) (fun _ s' => lrep i c s' (ac_pin n a) /\ txn (lg s') (length (disk a)) (note n blks) /\
       outstanding (lg s') = outstanding (lg s) /\ l_start (lg s') = l_start (lg s) /\ l_size (lg s') = l_size (lg s)) stays) as Hw.
    { eapply wp_log_write; [exact Hr|exact Hh|done|exact Ht|done|done|done|]. intros s' l' H1 H2 H3 (m & -> & _) _. rewrite H2. by split_and!. }
    apply wp_Ret in Hw as ([] & s' & Hrun & H). by exists s'.
Qed.

(** [begin_op] starts an operation as soon as no commit is going on and
    the blocks of the running operations and of the new one fit the log, and otherwise
    sleeps on the log with its lock free, to look again.  [end_op] of the last operation
    commits and then wakes the sleepers, any other [end_op] wakes them at once; when the
    last operation has ended a sleeper that looks again starts. *)
Theorem begin_end_progress i c (s : logst B) a fuel :
  lrep i c s a ->
  (committing (lg s) = 0 -> lh_n (lg s) + (outstanding (lg s) + 1) * MAXOPBLOCKS <= LOGSIZE ->
     exists s', begin_op (S fuel) s = Ret tt s' /\ lrep i c s' a /\ lg s' = set_outstanding (outstanding (lg s) + 1) (lg s)) /\
  (committing (lg s) <> 0 \/ LOGSIZE < lh_n (lg s) + (outstanding (lg s) + 1) * MAXOPBLOCKS ->
     exists kk, begin_op (S fuel) s = Swtch (set_ctx (k_slept log_chan log_lk (ctx s)) s) kk /\ forall t a', lrep i c t a' -> kk t = begin_op fuel t) /\
  (committing (lg s) = 0 -> outstanding (lg s) <> 1 ->
     exists s', end_op s = Ret tt s' /\ lrep i c s' a /\ lg s' = set_outstanding (outstanding (lg s) - 1) (lg s) /\
       ctx s' = k_wake log_chan (ctx s)) /\
  (forall d ov p w blks, a = idle_ac d ov p w -> pending (lg s) d ov p blks -> committing (lg s) = 0 -> outstanding (lg s) = 1 ->
     exists s' a', end_op s = Ret tt s' /\ lrep i c s' a' /\ pinned a' = ∅ /\
       exists s2, begin_op (S fuel) s' = Ret tt s2 /\ lrep i c s2 a').
Proof.
  intros Hr. split_and!.
  - intros Hc Hn. assert (wp (begin_op (S fuel) s) (fun _ s' => lrep i c s' a /\ lg s' = set_outstanding (outstanding (lg s) + 1) (lg s)) stays) as H
      by (by eapply wp_begin_op).
    apply wp_Ret in H as ([] & s' & H). by exists s'.
  - intros Hf. by eapply begin_op_waits.
  - intros Hc Ho. assert (wp (end_op s) (fun _ s' => lrep i c s' a /\ lg s' = set_outstanding (outstanding (lg s) - 1) (lg s) /\ ctx s' = k_wake log_chan (ctx s)) stays) as H
      by (by eapply wp_end_op_more). apply wp_Ret in H as ([] & s' & H). by exists s'.
  - intros d ov p w blks -> Hp Hc Ho. set (ws := end_writes (lg s) d ov blks).
    assert (wp (end_op s) (fun _ s' => lrep i c s' (idle_ac (apply_writes d ws) ∅ ∅ (w ++ ws)) /\ lg s' = set_outstanding 0 (set_n 0 (lg s))) stays) as H
      by (by eapply wp_end_op_last). apply wp_Ret in H as ([] & s' & Hrun & Hr' & Hl'). exists s', (idle_ac (apply_writes d ws) ∅ ∅ (w ++ ws)).
    split_and!; [done..|]. assert (wp (begin_op (S fuel) s') (fun _ s2 => lrep i c s2 (idle_ac (apply_writes d ws) ∅ ∅ (w ++ ws))) stays) as H.
    { eapply wp_begin_op; [exact Hr'|by rewrite Hl'|rewrite Hl'; cbn; done|by intros]. }
    apply wp_Ret in H as ([] & s2 & H). by exists s2.
Qed.

(** The reservation of [begin_op] is one block more than the log has: with a log of
    [LOGSIZE] blocks three operations are let in, which may write [3 * MAXOPBLOCKS] blocks,
    and the last of these writes panics. *)
Theorem reservation_short i c (s : logst B) a fuel :
  lrep i c s a -> lh_n (lg s) = 0 -> outstanding (lg s) = 0 -> committing (lg s) = 0 -> l_size (lg s) = LOGSIZE ->
  exists s', (begin_op (S fuel) ;; begin_op (S fuel) ;; begin_op (S fuel)) s = Ret tt s' /\ outstanding (lg s') = 3 /\
    forall t r, lg t = set_n (3 * MAXOPBLOCKS - 1) (lg s') -> log_write r t = Panic "too big a transaction".
Proof.
  intros Hr Hn Ho Hc Hs. set (l n := set_outstanding n (lg s)).
  assert (forall t n, lrep i c t a -> lg t = l n -> n <= 2 ->
    wp (begin_op (S fuel) t) (fun _ t' => lrep i c t' a /\ lg t' = l (n + 1)) stays) as Hop.
  { intros t n Ht Hl Hn2. eapply wp_begin_op; [exact Ht|by rewrite Hl|rewrite Hl; cbn [l set_outstanding lh_n outstanding]; rewrite Hn; change LOGSIZE with 30; change MAXOPBLOCKS with 10; lia|].
    intros t' Hr' Hl' _. rewrite Hl', Hl. done. }
  assert (wp ((begin_op (S fuel) ;; begin_op (S fuel) ;; begin_op (S fuel)) s) (fun _ t => lg t = l 3) stays) as H.
  { apply wp_step. eapply wp_mono; [apply (Hop s 0 Hr); [unfold l; rewrite <- Ho; by destruct (lg s)|lia]| |done]. intros [] s1 [R1 L1].
    apply wp_step. eapply wp_mono; [apply (Hop s1 1 R1 L1); lia| |done]. intros [] s2 [R2 L2].
    eapply wp_mono; [apply (Hop s2 2 R2 L2); lia|by intros [] s3 [_ L3]|done]. }
  apply wp_Ret in H as ([] & s' & Hrun & Hl). exists s'. split_and!; [done|by rewrite Hl|]. intros t r Ht. unfold log_write. run.
  rewrite Ht, Hl. cbn [l set_n set_outstanding lh_n l_size]. by rewrite Hs.
Qed.
End Claims.

(** ** The machine of [Demo] in an operation *)

(** [begin_op(); b = bread(1, 40); memset(b->data, 9, 512); log_write(b); brelse(b)] *)
Definition one_block : M (logst bst) unit :=
  begin_op 1 ;;
  b <- bread 1 40 ;;
  modify (fun s => set_base (c_set_data b (replicate 512 9) (base s)) s) ;;
  log_write b ;;
  brelse b.

Lemma one_block_run : exists s a, one_block small = Ret tt s /\
  log_tx 0 demo_c fs_geo s (mkts (vset fs_view 40 (replicate 512 9)) ∅ {[40]} ∅) a [40] /\ disk a = fs_disk.
Proof.
  destruct small_log_quiet as (w & Hq).
  assert (wp (one_block small) (fun _ s => exists a t, log_tx 0 demo_c fs_geo s t a [40] /\
    t = mkts (vset fs_view 40 (replicate 512 9)) ∅ {[40]} ∅ /\ disk a = fs_disk) stays) as H.
  { unfold one_block. apply wp_step. eapply wp_mono; [by eapply log_begin| |done]. intros [] s1 H1.
    apply wp_step. eapply wp_mono; [eapply log_bread; [exact H1|by apply small_usable|reflexivity|]| |done].
    { unfold roomy. cbn. rewrite dom_empty_L, !size_empty. unfold NBUF. lia. }
    intros r s2 H2. assert (Hr : th (ts_read 40 r (mkts fs_view ∅ ∅ ∅)) !! 40 = Some r) by apply lookup_insert_eq.
    apply wp_step. cbn [modify wp]. apply (log_set_data _ _ _ _ _ _ _ 40 r (replicate 512 9)) in H2; [|exact Hr|by rewrite length_replicate].
    apply wp_step. eapply wp_mono; [eapply (log_log_write _ _ _ _ _ _ _ 40 r); [exact H2|exact Hr|]| |done].
    { cbn. rewrite size_empty. lia. }
    intros [] s3 H3. eapply wp_mono; [eapply (log_brelse _ _ _ _ _ _ _ 40 r); [exact H3|exact Hr|cbn [tdirty ts_log ts_set ts_read]; clear; set_solver]| |done].
    intros [] s4 H4. eexists _, _. split; [exact H4|]. split; [|reflexivity]. unfold ts_release, ts_log, ts_set, ts_read. cbn [tv th tlog tdirty].
    by rewrite delete_insert_eq. }
  apply wp_Ret in H as ([] & s & Hrun & a & t & Ht & -> & Hd). exists s, a. split_and!; [exact Hrun|exact Ht|exact Hd].
Qed.

Lemma small_settled s t a blks : log_tx 0 demo_c fs_geo s t a blks -> disk a = fs_disk -> settled (lg s) fs_disk.
Proof.
  intros [_ Hg (_ & Hcap & Hlog) _ _ _ _ _ _ _ _ _ _] Hd. assert (Hs : l_size (lg s) = 30) by (cbn in Hcap; lia).
  assert (H2 := Hlog 2). cbn in H2. symmetry in H2. apply andb_true_iff in H2 as [H2 _]. apply Z.leb_le in H2.
  assert (Hst : l_start (lg s) = 2) by (pose proof (g_start _ _ Hg); lia). split; rewrite ?Hst, ?Hs; by vm_compute.
Qed.

Lemma commit_atomic_witness : exists s s' d, one_block small = Ret tt s /\ commit s = Ret tt s' /\ lh_n (lg s') = 0 /\ settled (lg s') d.
Proof.
  destruct one_block_run as (s & a & Hrun & Ht & Hd). destruct (log_pending _ _ _ _ _ _ _ _ Ht) as (d & ov & p & w & -> & Hp).
  cbn in Hd. subst d. destruct (commit_atomic 0 demo_c s fs_disk ov p w [40]) as (ws & s' & H1 & _ & H2 & _ & H3 & _).
  - exact (lt_rep _ _ _ _ _ _ _ Ht).
  - exact Hp.
  - discriminate.
  - by eapply small_settled.
  - by intros Hx%list_elem_of_singleton.
  - exact (ex_intro _ s (ex_intro _ s' (ex_intro _ _ (conj Hrun (conj H1 (conj H2 H3)))))).
Defined.

Lemma held_run : exists r s a, (begin_op 1 ;; bread 1 40) small = Ret r s /\
  log_tx 0 demo_c fs_geo s (ts_read 40 r (mkts fs_view ∅ ∅ ∅)) a [].
Proof.
  destruct small_log_quiet as (w & Hq).
  assert (wp ((begin_op 1 ;; bread 1 40) small) (fun r s => exists a, log_tx 0 demo_c fs_geo s (ts_read 40 r (mkts fs_view ∅ ∅ ∅)) a []) stays) as H.
  { apply wp_step. eapply wp_mono; [by eapply log_begin| |done]. intros [] s1 H1.
    eapply wp_mono; [eapply log_bread; [exact H1|by apply small_usable|reflexivity|]|intros r s2 H2; eexists; exact H2|done].
    unfold roomy. cbn. rewrite dom_empty_L, !size_empty. unfold NBUF. lia. }
  apply wp_Ret in H as (r & s & Hrun & a & Ht). exists r, s, a. split; [exact Hrun|exact Ht].
Qed.

Lemma log_write_absorbs_witness : exists r s s', (begin_op 1 ;; bread 1 40) small = Ret r s /\ log_write r s = Ret tt s' /\ outstanding (lg s') = 1.
Proof.
  destruct held_run as (r & s & a & Hrun & Ht). pose proof (lt_held _ _ _ _ _ _ _ Ht) as Hh.
  destruct (log_write_absorbs 0 demo_c s a 40 r []) as (_ & _ & H).
  - exact (lt_rep _ _ _ _ _ _ _ Ht).
  - rewrite <- Hh. apply lookup_insert_eq.
  - exact (lt_geom _ _ _ _ _ _ _ Ht).
  - exact (lt_txn _ _ _ _ _ _ _ Ht).
  - apply is_log_spec. destruct (lt_geo _ _ _ _ _ _ _ Ht) as (_ & _ & <-). reflexivity.
  - destruct (lt_geo _ _ _ _ _ _ _ Ht) as (_ & Hcap & _). destruct (lt_out _ _ _ _ _ _ _ Ht) as [Ho _]. cbn in Hcap.
    destruct H as (s' & H1 & _ & _ & H2 & _); [cbn; lia|lia|]. rewrite Ho in H2.
    exact (ex_intro _ r (ex_intro _ s (ex_intro _ s' (conj Hrun (conj H1 H2))))).
Defined.

Lemma begin_end_progress_witness : exists s', begin_op 1 small = Ret tt s' /\ outstanding (lg s') = 1.
Proof.
  destruct small_log_quiet as (w & Hq). destruct (begin_end_progress 0 demo_c small (idle_ac fs_disk ∅ ∅ w) 0 (lq_rep _ _ _ _ _ _ _ Hq)) as [H _].
  destruct (lq_n _ _ _ _ _ _ _ Hq) as (Hn & Ho & Hc). destruct H as (s' & H1 & _ & H2); [exact Hc|rewrite Hn, Ho; by vm_compute|].
  rewrite Ho in H2. exists s'. split; [exact H1|]. by rewrite H2.
Defined.
