(* ===== verification/Fs.v ===== *)
(** * The file system: inodes, directories and path names

    Models [fs.c] over any transactional block store ([Txn.v]).  Strings are the list of
    their characters before the NUL; a [char name[DIRSIZ]] is a list of 14 bytes.  [readi]
    returns the bytes it copies to [dst], [writei] takes the bytes at [src]. *)

From Stdlib Require Import ZArith Lia.
From S2P Require Import Prelude Spinlock Sleeplock Strings Blocks Bytes Log Txn.

Definition NINODE : nat := 50.
Definition NDEV : Z := 10.
Definition ROOTINO : Z := 1.
Definition NDIRECT : nat := 12.
Definition NINDIRECT : nat := 128.
Definition MAXFILE : Z := 140.
Definition IPB : Z := 8.
Definition BPB : Z := BSIZE * 8.
Definition DIRSIZ : nat := 14.
Definition T_DIR : Z := 1.
Definition T_FILE : Z := 2.
Definition T_DEV : Z := 3.

Definition IBLOCK (i : Z) (sb : superblock) : Z := i / IPB + inodestart sb.
Definition BBLOCK (b : Z) (sb : superblock) : Z := b / BPB + bmapstart sb.

(** [struct inode], less its lock. *)
Record inode := mkinode {
  i_dev : Z; i_inum : Z; i_ref : Z; i_valid : Z;
  i_type : Z; i_major : Z; i_minor : Z; i_nlink : Z; i_size : Z; i_addrs : list Z
}.
Definition set_ref (v : Z) (p : inode) : inode :=
  mkinode (i_dev p) (i_inum p) v (i_valid p) (i_type p) (i_major p) (i_minor p) (i_nlink p) (i_size p) (i_addrs p).
Definition set_valid (v : Z) (p : inode) : inode :=
  mkinode (i_dev p) (i_inum p) (i_ref p) v (i_type p) (i_major p) (i_minor p) (i_nlink p) (i_size p) (i_addrs p).
Definition set_type (v : Z) (p : inode) : inode :=
  mkinode (i_dev p) (i_inum p) (i_ref p) (i_valid p) v (i_major p) (i_minor p) (i_nlink p) (i_size p) (i_addrs p).
Definition set_nlink (v : Z) (p : inode) : inode :=
  mkinode (i_dev p) (i_inum p) (i_ref p) (i_valid p) (i_type p) (i_major p) (i_minor p) v (i_size p) (i_addrs p).
Definition set_majmin (a b : Z) (p : inode) : inode :=
  mkinode (i_dev p) (i_inum p) (i_ref p) (i_valid p) (i_type p) a b (i_nlink p) (i_size p) (i_addrs p).
Definition set_size (v : Z) (p : inode) : inode :=
  mkinode (i_dev p) (i_inum p) (i_ref p) (i_valid p) (i_type p) (i_major p) (i_minor p) (i_nlink p) v (i_addrs p).
Definition set_addr (k : nat) (v : Z) (p : inode) : inode :=
  mkinode (i_dev p) (i_inum p) (i_ref p) (i_valid p) (i_type p) (i_major p) (i_minor p) (i_nlink p) (i_size p) (<[k := v]> (i_addrs p)).

(** ** The disk inode, 64 bytes at [64 * (inum % IPB)] of its block *)

Record dinode := mkdinode { di_type : Z; di_major : Z; di_minor : Z; di_nlink : Z; di_size : Z; di_addrs : list Z }.
Definition dioff (inum : Z) : nat := 64 * Z.to_nat (inum mod IPB).

Definition get_dinode (inum : Z) (x : block) : dinode :=
  let o := dioff inum in
  mkdinode (s16 (getn 2 o x)) (s16 (getn 2 (o + 2) x)) (s16 (getn 2 (o + 4) x)) (s16 (getn 2 (o + 6) x)) (getn 4 (o + 8) x)
    ((fun k => getn 4 (o + 12 + 4 * k) x) <$> seq 0 13).

Fixpoint put_addrs (o : nat) (l : list Z) (x : block) : block :=
  match l with
  | [] => x
  | a :: l => put_addrs (o + 4) l (putn 4 o a x)
  end.
Definition put_dinode (inum : Z) (p : inode) (x : block) : block :=
  let o := dioff inum in
  let x := putn 2 o (u16 (i_type p)) x in
  let x := putn 2 (o + 2) (u16 (i_major p)) x in
  let x := putn 2 (o + 4) (u16 (i_minor p)) x in
  let x := putn 2 (o + 6) (u16 (i_nlink p)) x in
  let x := putn 4 (o + 8) (i_size p) x in
  put_addrs (o + 12) (i_addrs p) x.

Definition load_dinode (q : dinode) (p : inode) : inode :=
  mkinode (i_dev p) (i_inum p) (i_ref p) (i_valid p) (di_type q) (di_major q) (di_minor q) (di_nlink q) (di_size q) (di_addrs q).

(** ** State *)

Record fsst (S : Type) := mkfs {
  f_sb : superblock;
  icache : list inode;
  f_sleeps : gmap lockid sleeplock;
  f_pid : Z;
  (** [myproc()->cwd] *)
  f_cwd : nat;
  f_store : S
}.
Arguments mkfs {S}.
Arguments f_sb {S}.
Arguments icache {S}.
Arguments f_sleeps {S}.
Arguments f_pid {S}.
Arguments f_cwd {S}.
Arguments f_store {S}.

Definition icache_lk : lockid := ("icache"%string, 0).
Definition ino_lk (ip : nat) : lockid := ("inode"%string, Z.of_nat ip).

Section State.
Context {S : Type} `{!HasCtx S}.
Implicit Types s : fsst S.

Definition set_store (x : S) s : fsst S := mkfs (f_sb s) (icache s) (f_sleeps s) (f_pid s) (f_cwd s) x.
Definition set_icache (l : list inode) s : fsst S := mkfs (f_sb s) l (f_sleeps s) (f_pid s) (f_cwd s) (f_store s).
Definition set_f_sleeps (m : gmap lockid sleeplock) s : fsst S := mkfs (f_sb s) (icache s) m (f_pid s) (f_cwd s) (f_store s).
Definition set_sb (x : superblock) s : fsst S := mkfs x (icache s) (f_sleeps s) (f_pid s) (f_cwd s) (f_store s).
Definition set_cwd (n : nat) s : fsst S := mkfs (f_sb s) (icache s) (f_sleeps s) (f_pid s) n (f_store s).

#[export] Instance fsst_ctx : HasCtx (fsst S).
Proof.
  refine {| ctx := fun s => ctx (f_store s); set_ctx := fun k s => set_store (set_ctx k (f_store s)) s |}.
  - intros k s. apply ctx_set_ctx.
  - intros k k' s. unfold set_store. cbn. by rewrite set_ctx_set.
  - intros []. unfold set_store. cbn. by rewrite set_ctx_ctx.
Defined.

#[export] Instance fsst_sleep : HasSleep (fsst S).
Proof.
  refine {| sleeps := f_sleeps; set_sleeps := set_f_sleeps; my_pid := f_pid |}; try done. by intros [].
Defined.
End State.

(** ** Blocks *)

Section Fs.
Context {S : Type} `{!HasCtx S, !Txn S}.
(** [waits] bounds the wake-ups of a sleeping thread; [dev_read] and [dev_write] are the
    function pointers of [devsw], applied to the inode, and to the number of bytes or the
    bytes. *)
Context (waits : nat).
Context (dev_read : Z -> option (nat -> Z -> M (fsst S) (Z * list Z))).
Context (dev_write : Z -> option (nat -> list Z -> M (fsst S) Z)).

Definition onstore {A} (m : M S A) : M (fsst S) A := inside f_store set_store m.
Definition bread (d n : Z) : M (fsst S) nat := onstore (t_bread d n).
Definition brelse (b : nat) : M (fsst S) unit := onstore (t_brelse b).
Definition log_write (b : nat) : M (fsst S) unit := onstore (t_log_write b).
Definition data_of (b : nat) : M (fsst S) block := gets (fun s => t_data b (f_store s)).
Definition set_data_of (b : nat) (x : block) : M (fsst S) unit := modify (fun s => set_store (t_set_data b x (f_store s)) s).

Definition readsb (d : Z) : M (fsst S) superblock :=
  bp <- bread d 1 ;;
  x <- data_of bp ;;
  brelse bp ;;
  ret (sb_of x).

Definition bzero (d bno : Z) : M (fsst S) unit :=
  bp <- bread d bno ;;
  set_data_of bp (replicate 512 0) ;;
  log_write bp ;;
  brelse bp.

Definition byte_at (x : block) (k : Z) : Z := default 0 (x !! Z.to_nat k).
Definition set_byte (x : block) (k v : Z) : block := <[Z.to_nat k := v]> x.
(** [1 << (bi % 8)], and whether the bit is clear. *)
Definition bit_mask (bi : Z) : Z := Z.shiftl 1 (bi mod 8).
Definition bit_clear (x : block) (bi : Z) : bool := Z.land (byte_at x (bi / 8)) (bit_mask bi) =? 0.

(** The inner loop of [balloc], [n] bits from [bi] on. *)
Fixpoint find_clear (x : block) (b size : Z) (n : nat) (bi : Z) : option Z :=
  match n with
  | O => None
  | Datatypes.S n =>
      if b + bi <? size then if bit_clear x bi then Some bi else find_clear x b size n (bi + 1) else None
  end.

Fixpoint balloc_loop (d : Z) (bs : list Z) : M (fsst S) Z :=
  match bs with
  | [] => panic "balloc: out of blocks"
  | b :: bs =>
      sb <- gets f_sb ;;
      bp <- bread d (BBLOCK b sb) ;;
      x <- data_of bp ;;
      match find_clear x b (sb_size sb) (Z.to_nat BPB) 0 with
      | Some bi =>
          set_data_of bp (set_byte x (bi / 8) (Z.lor (byte_at x (bi / 8)) (bit_mask bi))) ;;
          log_write bp ;;
          brelse bp ;;
          bzero d (b + bi) ;;
          ret (b + bi)
      | None => brelse bp ;; balloc_loop d bs
      end
  end.

(** [0, BPB, 2 * BPB, ..], the values of [b] below [sb.size]. *)
Definition bmap_starts (size : Z) : list Z :=
  (fun k => Z.of_nat k * BPB) <$> seq 0 (Z.to_nat ((size + BPB - 1) / BPB)).

Definition balloc (d : Z) : M (fsst S) Z :=
  sb <- gets f_sb ;;
  balloc_loop d (bmap_starts (sb_size sb)).

Definition bfree (d b : Z) : M (fsst S) unit :=
  sb <- gets f_sb ;;
  bp <- bread d (BBLOCK b sb) ;;
  let bi := b mod BPB in
  x <- data_of bp ;;
  if bit_clear x bi then panic "freeing free block" else
  set_data_of bp (set_byte x (bi / 8) (Z.land (byte_at x (bi / 8)) (Z.lnot (bit_mask bi)))) ;;
  log_write bp ;;
  brelse bp.

(** ** Inodes *)

(** [*ip], and an assignment to its fields. *)
Definition ino (ip : nat) : M (fsst S) inode := fun s =>
  match icache s !! ip with Some p => Ret p s | None => UB "inode" end.
Definition upd_ino (f : inode -> inode) (ip : nat) : M (fsst S) unit :=
  modify (fun s => set_icache (alter f ip (icache s)) s).

(** Without the [cprintf] of the superblock. *)
Definition iinit (d : Z) : M (fsst S) unit :=
  onctx (initlock icache_lk) ;;
  forM (seq 0 NINODE) (fun ip => initsleeplock (ino_lk ip)) ;;
  sb <- readsb d ;;
  modify (set_sb sb).

(** The loop of [iget]: the entry that holds the inode, and the first free one. *)
Fixpoint iget_scan (d inum : Z) (l : list inode) (ip : nat) (empty : option nat) : option nat * option nat :=
  match l with
  | [] => (None, empty)
  | p :: l =>
      if (0 <? i_ref p) && (i_dev p =? d) && (i_inum p =? inum) then (Some ip, empty) else
      iget_scan d inum l (Datatypes.S ip) (match empty with None => if i_ref p =? 0 then Some ip else None | _ => empty end)
  end.

Definition iget (d inum : Z) : M (fsst S) nat :=
  onctx (acquire icache_lk) ;;
  l <- gets icache ;;
  match iget_scan d inum l 0 None with
  | (Some ip, _) =>
      upd_ino (fun p => set_ref (i_ref p + 1) p) ip ;;
      onctx (release icache_lk) ;;
      ret ip
  | (None, None) => panic "iget: no inodes"
  | (None, Some ip) =>
      upd_ino (fun p => mkinode d inum 1 0 (i_type p) (i_major p) (i_minor p) (i_nlink p) (i_size p) (i_addrs p)) ip ;;
      onctx (release icache_lk) ;;
      ret ip
  end.

Definition idup (ip : nat) : M (fsst S) nat :=
  onctx (acquire icache_lk) ;;
  upd_ino (fun p => set_ref (i_ref p + 1) p) ip ;;
  onctx (release icache_lk) ;;
  ret ip.

Fixpoint ialloc_loop (d type : Z) (inums : list Z) : M (fsst S) nat :=
  match inums with
  | [] => panic "ialloc: no inodes"
  | inum :: inums =>
      sb <- gets f_sb ;;
      bp <- bread d (IBLOCK inum sb) ;;
      x <- data_of bp ;;
      if di_type (get_dinode inum x) =? 0 then
        set_data_of bp (putn 2 (dioff inum) (u16 type) (patch (dioff inum) (replicate 64 0) x)) ;;
        log_write bp ;;
        brelse bp ;;
        iget d inum
      else brelse bp ;; ialloc_loop d type inums
  end.

Definition ialloc (d type : Z) : M (fsst S) nat :=
  sb <- gets f_sb ;;
  ialloc_loop d type (seqZ 1 (ninodes sb - 1)).

Definition iupdate (ip : nat) : M (fsst S) unit :=
  p <- ino ip ;;
  sb <- gets f_sb ;;
  bp <- bread (i_dev p) (IBLOCK (i_inum p) sb) ;;
  x <- data_of bp ;;
  set_data_of bp (put_dinode (i_inum p) p x) ;;
  log_write bp ;;
  brelse bp.

Definition ilock (ip : option nat) : M (fsst S) unit :=
  match ip with
  | None => panic "ilock"
  | Some ip =>
      p <- ino ip ;;
      if i_ref p <? 1 then panic "ilock" else
      acquiresleep (Datatypes.S waits) (ino_lk ip) ;;
      p <- ino ip ;;
      when (i_valid p =? 0) (
        sb <- gets f_sb ;;
        bp <- bread (i_dev p) (IBLOCK (i_inum p) sb) ;;
        x <- data_of bp ;;
        upd_ino (load_dinode (get_dinode (i_inum p) x)) ip ;;
        brelse bp ;;
        upd_ino (set_valid 1) ip ;;
        p <- ino ip ;;
        when (i_type p =? 0) (panic "ilock: no type"))
  end.

Definition iunlock (ip : option nat) : M (fsst S) unit :=
  match ip with
  | None => panic "iunlock"
  | Some ip =>
      h <- holdingsleep (ino_lk ip) ;;
      p <- ino ip ;;
      if negb h || (i_ref p <? 1) then panic "iunlock" else
      releasesleep (ino_lk ip)
  end.

(** ** Contents *)

(** [a[k]] of an indirect block. *)
Definition bmap (ip : nat) (bn : Z) : M (fsst S) Z :=
  p <- ino ip ;;
  if bn <? Z.of_nat NDIRECT then
    match i_addrs p !! Z.to_nat bn with
    | None => ub "addrs"
    | Some addr =>
        if addr =? 0 then
          addr <- balloc (i_dev p) ;;
          upd_ino (set_addr (Z.to_nat bn) addr) ip ;;
          ret addr
        else ret addr
    end
  else
    let bn := bn - Z.of_nat NDIRECT in
    if bn <? Z.of_nat NINDIRECT then
      match i_addrs p !! NDIRECT with
      | None => ub "addrs"
      | Some addr =>
          addr <- (if addr =? 0 then
                     addr <- balloc (i_dev p) ;;
                     upd_ino (set_addr NDIRECT addr) ip ;;
                     ret addr
                   else ret addr) ;;
          bp <- bread (i_dev p) addr ;;
          x <- data_of bp ;;
          let addr := get32 (Z.to_nat bn) x in
          addr <- (if addr =? 0 then
                     addr <- balloc (i_dev p) ;;
                     x <- data_of bp ;;
                     set_data_of bp (put32 (Z.to_nat bn) addr x) ;;
                     log_write bp ;;
                     ret addr
                   else ret addr) ;;
          brelse bp ;;
          ret addr
      end
    else panic "bmap: out of range".

Definition trunc_direct (ip : nat) (k : nat) : M (fsst S) unit :=
  p <- ino ip ;;
  match i_addrs p !! k with
  | None => ub "addrs"
  | Some a => when (negb (a =? 0)) (bfree (i_dev p) a ;; upd_ino (set_addr k 0) ip)
  end.

Definition trunc_indirect (ip bp : nat) (j : nat) : M (fsst S) unit :=
  p <- ino ip ;;
  x <- data_of bp ;;
  when (negb (get32 j x =? 0)) (bfree (i_dev p) (get32 j x)).

Definition itrunc (ip : nat) : M (fsst S) unit :=
  forM (seq 0 NDIRECT) (trunc_direct ip) ;;
  p <- ino ip ;;
  match i_addrs p !! NDIRECT with
  | None => ub "addrs"
  | Some a =>
      when (negb (a =? 0)) (
        bp <- bread (i_dev p) a ;;
        forM (seq 0 NINDIRECT) (trunc_indirect ip bp) ;;
        brelse bp ;;
        bfree (i_dev p) a ;;
        upd_ino (set_addr NDIRECT 0) ip) ;;
      upd_ino (set_size 0) ip ;;
      iupdate ip
  end.

Definition iput (ip : nat) : M (fsst S) unit :=
  acquiresleep (Datatypes.S waits) (ino_lk ip) ;;
  p <- ino ip ;;
  when (negb (i_valid p =? 0) && (i_nlink p =? 0)) (
    onctx (acquire icache_lk) ;;
    p <- ino ip ;;
    let r := i_ref p in
    onctx (release icache_lk) ;;
    when (r =? 1) (
      itrunc ip ;;
      upd_ino (set_type 0) ip ;;
      iupdate ip ;;
      upd_ino (set_valid 0) ip)) ;;
  releasesleep (ino_lk ip) ;;
  onctx (acquire icache_lk) ;;
  upd_ino (fun p => set_ref (i_ref p - 1) p) ip ;;
  onctx (release icache_lk).

Definition iunlockput (ip : nat) : M (fsst S) unit :=
  iunlock (Some ip) ;;
  iput ip.

Record stat := mkstat { st_type : Z; st_dev : Z; st_ino : Z; st_nlink : Z; st_size : Z }.
Definition stati (ip : nat) : M (fsst S) stat :=
  p <- ino ip ;;
  ret (mkstat (i_type p) (i_dev p) (i_inum p) (i_nlink p) (i_size p)).

(** The loop of [readi] from [tot] on; [acc] are the bytes at [dst] so far. *)
Fixpoint readi_loop (fuel : nat) (ip : nat) (off tot n : Z) (acc : list Z) : M (fsst S) (list Z) :=
  match fuel with
  | O => nofuel
  | Datatypes.S fuel =>
      if tot <? n then
        p <- ino ip ;;
        addr <- bmap ip (off / BSIZE) ;;
        bp <- bread (i_dev p) addr ;;
        let m := Z.min (n - tot) (BSIZE - off mod BSIZE) in
        x <- data_of bp ;;
        brelse bp ;;
        readi_loop fuel ip (off + m) (tot + m) n (acc ++ sub (Z.to_nat (off mod BSIZE)) (Z.to_nat m) x)
      else ret acc
  end.
(** Turns of the loop over [n] bytes. *)
Definition turns (n : Z) : nat := Z.to_nat (n / BSIZE + 3).

Definition readi (ip : nat) (off n : Z) : M (fsst S) (Z * list Z) :=
  p <- ino ip ;;
  if i_type p =? T_DEV then
    if (i_major p <? 0) || (NDEV <=? i_major p) then ret (-1, []) else
    match dev_read (i_major p) with
    | None => ret (-1, [])
    | Some f => f ip n
    end
  else if (i_size p <? off) || (u32 (off + n) <? off) then ret (-1, []) else
  let n := if i_size p <? off + n then i_size p - off else n in
  l <- readi_loop (turns n) ip off 0 n [] ;;
  ret (n, l).

Fixpoint writei_loop (fuel : nat) (ip : nat) (src : list Z) (off tot n : Z) : M (fsst S) Z :=
  match fuel with
  | O => nofuel
  | Datatypes.S fuel =>
      if tot <? n then
        p <- ino ip ;;
        addr <- bmap ip (off / BSIZE) ;;
        bp <- bread (i_dev p) addr ;;
        let m := Z.min (n - tot) (BSIZE - off mod BSIZE) in
        x <- data_of bp ;;
        set_data_of bp (patch (Z.to_nat (off mod BSIZE)) (take (Z.to_nat m) src) x) ;;
        log_write bp ;;
        brelse bp ;;
        writei_loop fuel ip (drop (Z.to_nat m) src) (off + m) (tot + m) n
      else ret off
  end.

(** [n] is the length of [src]. *)
Definition writei (ip : nat) (src : list Z) (off : Z) : M (fsst S) Z :=
  let n := Z.of_nat (length src) in
  p <- ino ip ;;
  if i_type p =? T_DEV then
    if (i_major p <? 0) || (NDEV <=? i_major p) then ret (-1) else
    match dev_write (i_major p) with
    | None => ret (-1)
    | Some f => f ip src
    end
  else if (i_size p <? off) || (u32 (off + n) <? off) then ret (-1) else
  if MAXFILE * BSIZE <? u32 (off + n) then ret (-1) else
  off <- writei_loop (turns n) ip src off 0 n ;;
  p <- ino ip ;;
  when ((0 <? n) && (i_size p <? off)) (upd_ino (set_size off) ip ;; iupdate ip) ;;
  ret n.

(** ** Directories *)

(** [strncmp(s, t, DIRSIZ)] of two arrays. *)
Definition namecmp (s t : list Z) : option Z := strncmp (s ++ t) 0 (length s) DIRSIZ.

(** [struct dirent], 16 bytes. *)
Definition de_inum (de : list Z) : Z := getn 2 0 de.
Definition de_name (de : list Z) : list Z := drop 2 de.

(** A C string in memory. *)
Definition cstr (s : list Z) : list Z := s ++ [0].

(** [name] is a string, or the [DIRSIZ] bytes of one that fills its array. *)
Fixpoint dirlookup_loop (fuel : nat) (dp : nat) (name : list Z) (off : Z) : M (fsst S) (option (nat * Z)) :=
  match fuel with
  | O => nofuel
  | Datatypes.S fuel =>
      p <- ino dp ;;
      if off <? i_size p then
        r <- readi dp off 16 ;;
        if negb (fst r =? 16) then panic "dirlookup read" else
        let de := snd r in
        if de_inum de =? 0 then dirlookup_loop fuel dp name (u32 (off + 16)) else
        match namecmp name (de_name de) with
        | None => ub "namecmp"
        | Some 0 => ip <- iget (i_dev p) (de_inum de) ;; ret (Some (ip, off))
        | Some _ => dirlookup_loop fuel dp name (u32 (off + 16))
        end
      else ret None
  end.

(** The entry's inode and its offset ([*poff]). *)
Definition dirlookup (dp : nat) (name : list Z) : M (fsst S) (option (nat * Z)) :=
  p <- ino dp ;;
  if negb (i_type p =? T_DIR) then panic "dirlookup not DIR" else
  dirlookup_loop (Z.to_nat (i_size p / 16 + 2)) dp name 0.

(** The offset of the first empty entry, or the end of the directory. *)
Fixpoint dirlink_loop (fuel : nat) (dp : nat) (off : Z) : M (fsst S) Z :=
  match fuel with
  | O => nofuel
  | Datatypes.S fuel =>
      p <- ino dp ;;
      if off <? i_size p then
        r <- readi dp off 16 ;;
        if negb (fst r =? 16) then panic "dirlink read" else
        if de_inum (snd r) =? 0 then ret off else dirlink_loop fuel dp (off + 16)
      else ret off
  end.

Definition mk_dirent (name : list Z) (inum : Z) : option (list Z) :=
  m ← strncpy (replicate DIRSIZ 0 ++ name) 0 DIRSIZ DIRSIZ;
  Some (le_bytes 2 (u16 inum) ++ take DIRSIZ m).

Definition dirlink (dp : nat) (name : list Z) (inum : Z) : M (fsst S) Z :=
  r <- dirlookup dp name ;;
  match r with
  | Some (ip, _) => iput ip ;; ret (-1)
  | None =>
      p <- ino dp ;;
      off <- dirlink_loop (Z.to_nat (i_size p / 16 + 2)) dp 0 ;;
      match mk_dirent name inum with
      | None => ub "strncpy"
      | Some de =>
          n <- writei dp de off ;;
          if negb (n =? 16) then panic "dirlink" else ret 0
      end
  end.

(** ** Paths *)

Fixpoint skip_slashes (path : list Z) : list Z :=
  match path with
  | 47 :: path => skip_slashes path
  | _ => path
  end.
(** The characters up to the next slash, and the rest. *)
Fixpoint split_elem (path : list Z) : list Z * list Z :=
  match path with
  | [] => ([], [])
  | ch :: path' => if ch =? 47 then ([], path) else let '(e, r) := split_elem path' in (ch :: e, r)
  end.

(** The rest of the path and the new contents of [name]. *)
Definition skipelem (path name : list Z) : option (list Z * list Z) :=
  match skip_slashes path with
  | [] => None
  | path =>
      let '(e, path) := split_elem path in
      let name := if (DIRSIZ <=? length e)%nat then take DIRSIZ e else e ++ 0 :: drop (Datatypes.S (length e)) name in
      Some (skip_slashes path, name)
  end.

Fixpoint namex_loop (fuel : nat) (ip : nat) (path name : list Z) (parent : bool) : M (fsst S) (option nat * list Z) :=
  match fuel with
  | O => nofuel
  | Datatypes.S fuel =>
      match skipelem path name with
      | None => if parent then iput ip ;; ret (None, name) else ret (Some ip, name)
      | Some (path, name) =>
          ilock (Some ip) ;;
          p <- ino ip ;;
          if negb (i_type p =? T_DIR) then iunlockput ip ;; ret (None, name) else
          if parent && bool_decide (path = []) then iunlock (Some ip) ;; ret (Some ip, name) else
          r <- dirlookup ip name ;;
          match r with
          | None => iunlockput ip ;; ret (None, name)
          | Some (next, _) => iunlockput ip ;; namex_loop fuel next path name parent
          end
      end
  end.

(** The inode found and the last contents of [name]. *)
Definition namex (path : list Z) (parent : bool) (name : list Z) : M (fsst S) (option nat * list Z) :=
  ip <- (match path with
         | 47 :: _ => iget 1 ROOTINO
         | _ => onctx myproc ;; cwd <- gets f_cwd ;; idup cwd
         end) ;;
  namex_loop (Datatypes.S (length path)) ip path name parent.

Definition namei (path : list Z) : M (fsst S) (option nat) :=
  r <- namex path false (replicate DIRSIZ 0) ;;
  ret (fst r).
Definition nameiparent (path name : list Z) : M (fsst S) (option nat * list Z) := namex path true name.
End Fs.
