(* ===== verification/FsSpec.v ===== *)
(** * The file system: rules and the block allocator

    The operations of [fs.c] as changes of a transaction ([tstate]), and what [balloc] and
    [bfree] do to the free bit map. *)

From Stdlib Require Import ZArith Lia.
From S2P Require Import Prelude Spinlock Sleeplock Strings Blocks Bytes Log Txn Fs.

(** ** Bits of the free map *)

Definition bit_set (x : block) (bi : Z) : bool := Z.testbit (byte_at x (bi / 8)) (bi mod 8).

Lemma land_mask v k : 0 <= k -> (Z.land v (Z.shiftl 1 k) =? 0) = negb (Z.testbit v k).
Proof.
  intros Hk. rewrite Z.shiftl_1_l. destruct (Z.testbit v k) eqn:E; cbn [negb].
  - apply Z.eqb_neq. intros H. apply (f_equal (fun z => Z.testbit z k)) in H.
    rewrite Z.land_spec, E, Z.pow2_bits_true, Z.bits_0 in H by done. done.
  - apply Z.eqb_eq. apply Z.bits_inj'. intros n Hn. rewrite Z.land_spec, Z.bits_0, Z.pow2_bits_eqb by done.
    destruct (Z.eqb_spec k n) as [<-|]; [by rewrite E|apply andb_false_r].
Qed.

Lemma bit_clear_set x bi : bit_clear x bi = negb (bit_set x bi).
Proof. unfold bit_clear, bit_mask. apply land_mask. apply Z.mod_pos_bound. lia. Qed.

Lemma byte_at_set x k v j : 0 <= k < Z.of_nat (length x) -> 0 <= j -> byte_at (set_byte x k v) j = if j =? k then v else byte_at x j.
Proof.
  intros Hk Hj. unfold byte_at, set_byte. destruct (Z.eqb_spec j k) as [->|Hne].
  - rewrite list_lookup_insert_eq; [done|lia].
  - rewrite list_lookup_insert_ne; [done|]. lia.
Qed.

(** Setting and clearing one bit. *)
Definition mark (x : block) (bi : Z) : block := set_byte x (bi / 8) (Z.lor (byte_at x (bi / 8)) (bit_mask bi)).
Definition unmark (x : block) (bi : Z) : block := set_byte x (bi / 8) (Z.land (byte_at x (bi / 8)) (Z.lnot (bit_mask bi))).

Lemma bit_div bi bj : 0 <= bi -> 0 <= bj -> bi / 8 = bj / 8 -> bi mod 8 = bj mod 8 -> bi = bj.
Proof. intros. Z.div_mod_to_equations. lia. Qed.

Lemma bit_mark x bi bj : length x = 512%nat -> 0 <= bi < BPB -> 0 <= bj -> bit_set (mark x bi) bj = (bj =? bi) || bit_set x bj.
Proof.
  unfold BPB, BSIZE. intros Hx Hi Hj. unfold bit_set, mark. rewrite byte_at_set; [|rewrite Hx; Z.div_mod_to_equations; lia|Z.div_mod_to_equations; lia].
  assert (Hm := Z.mod_pos_bound bj 8 ltac:(lia)). assert (Hm' := Z.mod_pos_bound bi 8 ltac:(lia)).
  destruct (Z.eqb_spec (bj / 8) (bi / 8)) as [E|E].
  - unfold bit_mask. rewrite Z.lor_spec, Z.shiftl_1_l, Z.pow2_bits_eqb by lia. rewrite <- E, orb_comm. f_equal.
    destruct (Z.eqb_spec bj bi) as [->|Hne]; [apply Z.eqb_refl|]. apply Z.eqb_neq. intros F. apply Hne. apply bit_div; lia.
  - destruct (Z.eqb_spec bj bi) as [->|]; [done|done].
Qed.

Lemma bit_unmark x bi bj : length x = 512%nat -> 0 <= bi < BPB -> 0 <= bj -> bit_set (unmark x bi) bj = negb (bj =? bi) && bit_set x bj.
Proof.
  unfold BPB, BSIZE. intros Hx Hi Hj. unfold bit_set, unmark. rewrite byte_at_set; [|rewrite Hx; Z.div_mod_to_equations; lia|Z.div_mod_to_equations; lia].
  assert (Hm := Z.mod_pos_bound bj 8 ltac:(lia)). assert (Hm' := Z.mod_pos_bound bi 8 ltac:(lia)).
  destruct (Z.eqb_spec (bj / 8) (bi / 8)) as [E|E].
  - unfold bit_mask. rewrite Z.land_spec, Z.lnot_spec, Z.shiftl_1_l, Z.pow2_bits_eqb by lia. rewrite <- E, andb_comm. f_equal. f_equal.
    destruct (Z.eqb_spec bj bi) as [->|Hne]; [apply Z.eqb_refl|]. apply Z.eqb_neq. intros F. apply Hne. apply bit_div; lia.
  - destruct (Z.eqb_spec bj bi) as [->|]; [done|done].
Qed.

Lemma length_mark x bi : length (mark x bi) = length x.
Proof. apply length_insert. Qed.

Lemma length_unmark x bi : length (unmark x bi) = length x.
Proof. apply length_insert. Qed.

(** The inner loop of [balloc] finds the first clear bit. *)
Lemma find_clear_spec x b size n bi :
  match find_clear x b size n bi with
  | Some r => bi <= r < bi + Z.of_nat n /\ b + r < size /\ bit_set x r = false /\ forall j, bi <= j < r -> bit_set x j = true
  | None => forall j, bi <= j < bi + Z.of_nat n -> b + j < size -> bit_set x j = true
  end.
Proof.
  revert bi. induction n as [|n IH]; intros bi; cbn [find_clear]; [intros; lia|].
  destruct (Z.ltb_spec (b + bi) size) as [Hs|Hs]; [|intros; lia]. rewrite bit_clear_set.
  destruct (bit_set x bi) eqn:E; cbn [negb].
  - specialize (IH (bi + 1)). destruct (find_clear x b size n (bi + 1)) as [r|].
    + destruct IH as (H1 & H2 & H3 & H4). split_and!; [lia|lia|done|done|]. intros j Hj. destruct (decide (j = bi)) as [->|]; [done|]. apply H4. lia.
    + intros j Hj Hlt. destruct (decide (j = bi)) as [->|]; [done|]. apply IH; lia.
  - split_and!; [lia|lia|done|done|]. intros; lia.
Qed.

(** ** Rules for the operations on blocks *)

Section Rules.
Context {S : Type} `{!HasCtx S, !Txn S}.
Context (i : nat) (c : cpu) (g : tgeo).
Implicit Types (s : fsst S) (t : tstate) (V : Z -> block) (H : gmap Z nat) (T : gset Z).

Definition ftx s t : Prop := tx i c g (f_store s) t.

Lemma wp_onstore {A} (m : M S A) s Q W :
  wp (m (f_store s)) (fun a x => Q a (set_store x s)) stays -> wp (onstore m s) Q W.
Proof. apply wp_inside. Qed.

Lemma wp_fbread s t n Q W :
  ftx s t -> usable g n -> th t !! n = None -> roomy t ->
  (forall r x, tx i c g x (ts_read n r t) -> Q r (set_store x s)) -> wp (bread 1 n s) Q W.
Proof. intros Ht Hu Hn Hr HQ. apply wp_onstore. eapply wp_mono; [by eapply bread_tx|by intros; apply HQ|done]. Qed.

Lemma wp_fbrelse s t n r Q W :
  ftx s t -> th t !! n = Some r -> n ∉ tdirty t ->
  (forall x, tx i c g x (ts_release n t) -> Q tt (set_store x s)) -> wp (brelse r s) Q W.
Proof. intros Ht Hn Hd HQ. apply wp_onstore. eapply wp_mono; [by eapply brelse_tx|by intros []; intros; apply HQ|done]. Qed.

Lemma wp_flog_write s t n r Q W :
  ftx s t -> th t !! n = Some r -> (size (tlog t) < g_cap g)%nat ->
  (forall x, tx i c g x (ts_log n t) -> Q tt (set_store x s)) -> wp (log_write r s) Q W.
Proof. intros Ht Hn Hd HQ. apply wp_onstore. eapply wp_mono; [by eapply log_write_tx|by intros []; intros; apply HQ|done]. Qed.

Lemma wp_fdata s t n r Q W : ftx s t -> th t !! n = Some r -> Q (tv t n) s -> wp (data_of r s) Q W.
Proof. intros Ht Hn HQ. cbn. by rewrite (data_tx _ _ _ _ _ _ _ Ht Hn). Qed.

Lemma wp_fset_data s t n r y Q W : ftx s t -> th t !! n = Some r -> length y = 512%nat ->
  (forall x, tx i c g x (ts_set n y t) -> Q tt (set_store x s)) -> wp (set_data_of r y s) Q W.
Proof. intros Ht Hn Hy HQ. cbn. apply HQ. by apply set_data_tx. Qed.

(** A point between the calls of an operation: contents [V], buffers [H] held, blocks [T]
    logged, nothing changed that is not logged. *)
Definition fs_at s V H T : Prop := ftx s (mkts V H T ∅).

Lemma fs_at_ext s V V' H T : fs_at s V H T -> (forall n, V' n = V n) -> fs_at s V' H T.
Proof. intros Ht HV. exact (tx_ext _ _ _ _ _ V' Ht HV). Qed.

Lemma fs_at_len s V H T n : fs_at s V H T -> usable g n -> length (V n) = 512%nat.
Proof. intros Ht Hn. exact (tx_len _ _ _ _ _ n Ht Hn). Qed.

Lemma fs_at_set_store s V H T x : tx i c g x (mkts V H T ∅) -> fs_at (set_store x s) V H T.
Proof. done. Qed.

(** [bp = bread(n); .. brelse(bp)] without a change. *)
Lemma ts_back t n r : th t !! n = None -> ts_release n (ts_read n r t) = t.
Proof. intros Hn. destruct t. unfold ts_release, ts_read. cbn. by rewrite delete_insert_id. Qed.

(** [bp = bread(n); .. change; log_write(bp); brelse(bp)] *)
Lemma ts_update t n r y : th t !! n = None -> tdirty t = ∅ ->
  ts_release n (ts_log n (ts_set n y (ts_read n r t))) = mkts (vset (tv t) n y) (th t) ({[n]} ∪ tlog t) ∅.
Proof.
  intros Hn Hd. unfold ts_release, ts_log, ts_set, ts_read. cbn. rewrite delete_insert_id by done. rewrite Hd. f_equal. set_solver.
Qed.

Lemma roomy_of V H T D : (size (dom H) + size T < NBUF)%nat -> roomy (mkts V H T D).
Proof. done. Qed.

(** The buffers in use after logging one more block. *)
Lemma size_add (n : Z) (T : gset Z) : (size ({[n]} ∪ T) <= Datatypes.S (size T))%nat.
Proof. rewrite size_union_alt, size_singleton. assert (size (T ∖ {[n]}) <= size T)%nat by (apply subseteq_size; set_solver). lia. Qed.

Lemma wp_bzero s V H T n Q W :
  fs_at s V H T -> usable g n -> H !! n = None -> (size (dom H) + size T < NBUF)%nat -> (size T < g_cap g)%nat ->
  (forall x, fs_at (set_store x s) (vset V n (replicate 512 0)) H ({[n]} ∪ T) -> Q tt (set_store x s)) ->
  wp (bzero 1 n s) Q W.
Proof.
  intros Ht Hu Hn Hr Hc HQ. unfold bzero. apply wp_step. eapply wp_fbread; [exact Ht|done|done|by apply roomy_of|]. intros r x1 H1.
  assert (Hr1 : forall t, th (ts_read n r t) !! n = Some r) by (intros t; cbn; by rewrite lookup_insert_eq).
  apply wp_step. eapply wp_fset_data; [exact H1|apply Hr1|by rewrite length_replicate|]. intros x2 H2.
  apply wp_step. eapply wp_flog_write; [exact H2|apply Hr1|exact Hc|]. intros x3 H3.
  eapply wp_fbrelse; [exact H3|apply Hr1|cbn; set_solver|]. intros x4 H4. rewrite ts_update in H4 by done. exact (HQ x4 H4).
Qed.

(** ** The layout of the disk *)

(** Blocks below [ds] are the boot block, the superblock, the log, the inodes and the free
    map. *)
Record layout (sb : superblock) (ds : Z) : Prop := {
  ly_size : sb_size sb = g_len g /\ 0 <= ds <= sb_size sb /\ sb_size sb < 2 ^ 31;
  ly_bmap : forall b, 0 <= b < sb_size sb -> usable g (BBLOCK b sb) /\ BBLOCK b sb < ds;
  ly_ino : forall n, 0 <= n < ninodes sb -> usable g (IBLOCK n sb) /\ IBLOCK n sb < ds;
  ly_apart : forall b n, 0 <= b < sb_size sb -> 0 <= n < ninodes sb -> BBLOCK b sb <> IBLOCK n sb;
  ly_data : forall b, ds <= b < sb_size sb -> usable g b;
  ly_ninodes : ninodes sb < 2 ^ 16
}.

(** The bit of a block in the free map. *)
Definition used V (sb : superblock) (b : Z) : bool := bit_set (V (BBLOCK b sb)) (b mod BPB).

Definition meta_used V (sb : superblock) (ds : Z) : Prop := forall b, 0 <= b < ds -> used V sb b = true.

(** The buffers held hold data blocks. *)
Definition holds_data V H (sb : superblock) (ds : Z) : Prop := forall n r, H !! n = Some r -> ds <= n /\ used V sb n = true.

Record first_free V (sb : superblock) (b : Z) : Prop := {
  ff_range : 0 <= b < sb_size sb;
  ff_free : used V sb b = false;
  ff_first : forall j, 0 <= j < b -> used V sb j = true
}.

(** The contents after [balloc] returns [b], and after [bfree] of [b]. *)
Definition v_alloc V (sb : superblock) (b : Z) : Z -> block :=
  vset (vset V (BBLOCK b sb) (mark (V (BBLOCK b sb)) (b mod BPB))) b (replicate 512 0).
Definition v_free V (sb : superblock) (b : Z) : Z -> block :=
  vset V (BBLOCK b sb) (unmark (V (BBLOCK b sb)) (b mod BPB)).

Lemma bblock_split k r sb : 0 <= r < BPB -> BBLOCK (k * BPB + r) sb = BBLOCK (k * BPB) sb /\ (k * BPB + r) mod BPB = r.
Proof.
  unfold BBLOCK, BPB, BSIZE. change (512 * 8) with 4096. intros Hr. split; Z.div_mod_to_equations; lia.
Qed.

Section Alloc.
Context (sb : superblock) (ds : Z).
Hypothesis (Hly : layout sb ds).

Lemma alloc_data V b : meta_used V sb ds -> first_free V sb b -> ds <= b < sb_size sb /\ usable g b /\ BBLOCK b sb <> b.
Proof.
  intros Hm [Hr Hf _]. assert (Hb : ds <= b) by (destruct (decide (b < ds)); [rewrite Hm in Hf; [done|lia]|lia]).
  split_and!; [lia|lia|apply (ly_data _ _ Hly); lia|]. pose proof (proj2 (ly_bmap _ _ Hly b Hr)). lia.
Qed.

Lemma bmap_unheld V H b : holds_data V H sb ds -> 0 <= b < sb_size sb -> H !! BBLOCK b sb = None.
Proof.
  intros Hh Hb. destruct (H !! BBLOCK b sb) as [r|] eqn:E; [|done]. apply Hh in E as [E _]. pose proof (proj2 (ly_bmap _ _ Hly b Hb)). lia.
Qed.

Lemma free_unheld V H b : holds_data V H sb ds -> used V sb b = false -> H !! b = None.
Proof. intros Hh Hb. destruct (H !! b) as [r|] eqn:E; [|done]. apply Hh in E as [_ E]. congruence. Qed.

Lemma wp_balloc_loop s V H T b n k Q W :
  f_sb s = sb -> fs_at s V H T -> meta_used V sb ds -> holds_data V H sb ds -> first_free V sb b ->
  (size (dom H) + size T + 2 <= NBUF)%nat -> (size T + 2 <= g_cap g)%nat ->
  Z.of_nat k * BPB <= b -> sb_size sb <= (Z.of_nat k + Z.of_nat n) * BPB ->
  (Z.of_nat k + Z.of_nat n - 1) * BPB < sb_size sb ->
  (forall x, fs_at (set_store x s) (v_alloc V sb b) H ({[b]} ∪ ({[BBLOCK b sb]} ∪ T)) -> Q b (set_store x s)) ->
  wp (balloc_loop 1 ((fun k => Z.of_nat k * BPB) <$> seq k n) s) Q W.
Proof.
  intros Hs Ht Hm Hh Hf Hroom Hcap. destruct (alloc_data V b Hm Hf) as (Hb & Hbu & Hbb). assert (HBP : 0 < BPB) by done.
  revert k s Hs Ht. induction n as [|n IH]; intros k s Hs Ht Hk Hend Hin HQ; [lia|]. cbn [seq fmap list_fmap balloc_loop].
  set (kb := Z.of_nat k * BPB) in *. assert (Hkb : 0 <= kb < sb_size sb) by lia. destruct (ly_bmap _ _ Hly kb Hkb) as [Hu _].
  assert (Hun := bmap_unheld V H kb Hh Hkb). apply wp_step. cbn [gets wp]. rewrite Hs.
  apply wp_step. eapply wp_fbread; [exact Ht|done|done|apply roomy_of; lia|]. intros r x1 H1.
  assert (Hr1 : forall t, th (ts_read (BBLOCK kb sb) r t) !! BBLOCK kb sb = Some r) by (intros t; cbn; by rewrite lookup_insert_eq).
  apply wp_step. eapply wp_fdata; [exact H1|apply Hr1|]. cbn [tv ts_read].
  assert (Hlen : length (V (BBLOCK kb sb)) = 512%nat) by (by eapply fs_at_len).
  pose proof (find_clear_spec (V (BBLOCK kb sb)) kb (sb_size sb) (Z.to_nat BPB) 0) as Hfc.
  assert (Hsplit : forall j, 0 <= j < BPB -> used V sb (kb + j) = bit_set (V (BBLOCK kb sb)) j).
  { intros j Hj. unfold used. destruct (bblock_split (Z.of_nat k) j sb Hj) as [E1 E2]. fold kb in E1, E2. by rewrite E1, E2. }
  destruct (find_clear (V (BBLOCK kb sb)) kb (sb_size sb) (Z.to_nat BPB) 0) as [bi|].
  - destruct Hfc as (Hbi & Hlt & Hclr & Hbefore). rewrite Z2Nat.id in Hbi by lia.
    assert (E : kb + bi = b).
    { destruct (Z.lt_trichotomy (kb + bi) b) as [Hc|[Hc|Hc]]; [|done|].
      - rewrite <- Hsplit in Hclr by lia. by rewrite (ff_first _ _ _ Hf) in Hclr by lia.
      - assert (used V sb (kb + (b - kb)) = true) by (rewrite Hsplit by lia; apply Hbefore; lia).
        replace (kb + (b - kb)) with b in * by lia. by rewrite (ff_free _ _ _ Hf) in *. }
    destruct (bblock_split (Z.of_nat k) bi sb ltac:(lia)) as [E1 E2]. fold kb in E1, E2. rewrite E in E1, E2.
    apply wp_step. eapply wp_fset_data; [exact H1|apply Hr1|unfold set_byte; by rewrite length_insert|]. intros x2 H2.
    apply wp_step. eapply wp_flog_write; [exact H2|apply Hr1|cbn; lia|]. intros x3 H3.
    apply wp_step. eapply wp_fbrelse; [exact H3|apply Hr1|cbn; clear; set_solver|]. intros x4 H4. rewrite ts_update in H4 by done. cbn [tv th tlog] in H4.
    apply wp_step. rewrite E. eapply (wp_bzero (set_store x4 s)); [exact H4|done|by eapply free_unheld, Hf| | |].
    + pose proof (size_add (BBLOCK kb sb) T). lia.
    + pose proof (size_add (BBLOCK kb sb) T). lia.
    + intros x5 H5. cbn. apply (HQ x5). unfold v_alloc. rewrite E1, E2. exact H5.
  - apply wp_step. eapply wp_fbrelse; [exact H1|apply Hr1|cbn; clear; set_solver|]. intros x2 H2. rewrite ts_back in H2 by done.
    apply IH; [done|exact H2| |lia|lia|exact HQ].
    destruct (Z.le_gt_cases (Z.of_nat (Datatypes.S k) * BPB) b) as [|Hc]; [done|]. exfalso.
    assert (used V sb (kb + (b - kb)) = true) by (rewrite Hsplit by lia; apply Hfc; lia).
    replace (kb + (b - kb)) with b in * by lia. by rewrite (ff_free _ _ _ Hf) in *.
Qed.

Lemma wp_balloc s V H T b Q W :
  f_sb s = sb -> fs_at s V H T -> meta_used V sb ds -> holds_data V H sb ds -> first_free V sb b ->
  (size (dom H) + size T + 2 <= NBUF)%nat -> (size T + 2 <= g_cap g)%nat ->
  (forall x, fs_at (set_store x s) (v_alloc V sb b) H ({[b]} ∪ ({[BBLOCK b sb]} ∪ T)) -> Q b (set_store x s)) ->
  wp (balloc 1 s) Q W.
Proof.
  intros Hs Ht Hm Hh Hf Hroom Hcap HQ. unfold balloc. apply wp_step. cbn [gets wp]. rewrite Hs.
  assert (Hr := ff_range _ _ _ Hf). assert (HB : BPB = 4096) by done.
  eapply wp_balloc_loop; [exact Hs|exact Ht|done..|rewrite HB; lia| | |exact HQ].
  - rewrite Z2Nat.id by (apply Z.div_pos; lia). rewrite HB. Z.div_mod_to_equations. lia.
  - rewrite Z2Nat.id by (apply Z.div_pos; lia). rewrite HB. Z.div_mod_to_equations. lia.
Qed.

Lemma wp_bfree s V H T b Q W :
  f_sb s = sb -> fs_at s V H T -> holds_data V H sb ds -> 0 <= b < sb_size sb -> used V sb b = true ->
  (size (dom H) + size T < NBUF)%nat -> (size T < g_cap g)%nat ->
  (forall x, fs_at (set_store x s) (v_free V sb b) H ({[BBLOCK b sb]} ∪ T) -> Q tt (set_store x s)) ->
  wp (bfree 1 b s) Q W.
Proof.
  intros Hs Ht Hh Hb Hu Hroom Hcap HQ. destruct (ly_bmap _ _ Hly b Hb) as [Hbu _]. assert (Hun := bmap_unheld V H b Hh Hb).
  unfold bfree. apply wp_step. cbn [gets wp]. rewrite Hs. apply wp_step. eapply wp_fbread; [exact Ht|done|done|by apply roomy_of|]. intros r x1 H1.
  assert (Hr1 : forall t, th (ts_read (BBLOCK b sb) r t) !! BBLOCK b sb = Some r) by (intros t; cbn; by rewrite lookup_insert_eq).
  apply wp_step. eapply wp_fdata; [exact H1|apply Hr1|]. cbn [tv ts_read]. fold (used V sb b) in Hu.
  rewrite bit_clear_set. unfold used in Hu. rewrite Hu. cbn [negb].
  apply wp_step. eapply wp_fset_data; [exact H1|apply Hr1|unfold set_byte; rewrite length_insert; by eapply fs_at_len|]. intros x2 H2.
  apply wp_step. eapply wp_flog_write; [exact H2|apply Hr1|exact Hcap|]. intros x3 H3.
  eapply wp_fbrelse; [exact H3|apply Hr1|cbn; clear; set_solver|]. intros x4 H4. rewrite ts_update in H4 by done. exact (HQ x4 H4).
Qed.

(** What the two do to the map: only the bit of [b] changes. *)
Lemma used_alloc V b j : meta_used V sb ds -> first_free V sb b -> length (V (BBLOCK b sb)) = 512%nat -> 0 <= j < sb_size sb ->
  used (v_alloc V sb b) sb j = (j =? b) || used V sb j.
Proof.
  intros Hm Hf Hl Hj. destruct (alloc_data V b Hm Hf) as (Hb & _ & _). unfold used, v_alloc.
  rewrite vset_ne by (pose proof (proj2 (ly_bmap _ _ Hly j Hj)); lia). unfold vset at 1. destruct (Z.eqb_spec (BBLOCK j sb) (BBLOCK b sb)) as [E|E].
  - rewrite bit_mark; [|done|by apply Z.mod_pos_bound|by apply Z.mod_pos_bound]. rewrite E. f_equal.
    destruct (Z.eqb_spec j b) as [->|Hne]; [apply Z.eqb_refl|]. apply Z.eqb_neq. unfold BBLOCK, BPB, BSIZE in *. change (512 * 8) with 4096 in *. Z.div_mod_to_equations. lia.
  - destruct (Z.eqb_spec j b) as [->|]; done.
Qed.

Lemma used_free V b j : length (V (BBLOCK b sb)) = 512%nat -> 0 <= j < sb_size sb -> 0 <= b ->
  used (v_free V sb b) sb j = negb (j =? b) && used V sb j.
Proof.
  intros Hl Hj Hb. unfold used, v_free. unfold vset. destruct (Z.eqb_spec (BBLOCK j sb) (BBLOCK b sb)) as [E|E].
  - rewrite bit_unmark; [|done|by apply Z.mod_pos_bound|by apply Z.mod_pos_bound]. rewrite E. f_equal. f_equal.
    destruct (Z.eqb_spec j b) as [->|Hne]; [apply Z.eqb_refl|]. apply Z.eqb_neq. unfold BBLOCK, BPB, BSIZE in *. change (512 * 8) with 4096 in *. Z.div_mod_to_equations. lia.
  - destruct (Z.eqb_spec j b) as [->|]; done.
Qed.
End Alloc.
End Rules.
