(* ===== verification/FsInode.v ===== *)
(** * The file system: inodes on disk and in the cache

    The disk inode reads back as it was written; what [iget], [idup], [ilock], [iupdate]
    and [iunlock] do to the inode cache and the disk. *)

From Stdlib Require Import ZArith Lia.
From S2P Require Import Prelude Spinlock Sleeplock Strings Blocks Bytes Log Txn Fs FsSpec.

(** ** The disk inode *)

Lemma length_put_addrs o l x : (o + 4 * length l <= length x)%nat -> length (put_addrs o l x) = length x.
Proof.
  revert o x. induction l as [|a l IH]; intros o x Hl; cbn [put_addrs length] in *; [done|].
  rewrite IH; rewrite length_putn; lia.
Qed.

Lemma get_addrs_ne n off o l x : (o + 4 * length l <= length x)%nat -> (off + n <= o \/ o + 4 * length l <= off)%nat ->
  getn n off (put_addrs o l x) = getn n off x.
Proof.
  revert o x. induction l as [|a l IH]; intros o x Hl Hd; cbn [put_addrs length] in *; [done|].
  rewrite IH; [|rewrite length_putn; lia|lia]. apply getn_putn_ne; lia.
Qed.

Lemma get_addrs o l x k a : (o + 4 * length l <= length x)%nat -> Forall is_u32 l -> l !! k = Some a ->
  getn 4 (o + 4 * k) (put_addrs o l x) = a.
Proof.
  revert o x k. induction l as [|b l IH]; intros o x k Hl Hu Hk; cbn [put_addrs length] in *; [done|].
  apply Forall_cons in Hu as [Hb Hu]. destruct k as [|k]; cbn in Hk.
  - injection Hk as ->. rewrite get_addrs_ne by (rewrite ?length_putn; lia). replace (o + 4 * 0)%nat with o by lia. apply getn_putn; [lia|exact Hb].
  - replace (o + 4 * S k)%nat with (o + 4 + 4 * k)%nat by lia. apply IH; [rewrite length_putn; lia|done|done].
Qed.

(** The fields of an inode have the widths of their C types. *)
Record ino_wf (p : inode) : Prop := {
  iw_short : forall f, f ∈ [i_type p; i_major p; i_minor p; i_nlink p] -> - 2 ^ 15 <= f < 2 ^ 15;
  iw_size : is_u32 (i_size p);
  iw_addrs : length (i_addrs p) = 13%nat /\ Forall is_u32 (i_addrs p)
}.

Definition dinode_of (p : inode) : dinode := mkdinode (i_type p) (i_major p) (i_minor p) (i_nlink p) (i_size p) (i_addrs p).

Lemma s16_u16 z : - 2 ^ 15 <= z < 2 ^ 15 -> s16 (u16 z) = z.
Proof.
  unfold s16, u16. change (2 ^ 16) with 65536. change (2 ^ 15) with 32768. intros H. rewrite Z.mod_mod by lia.
  destruct (Z.ltb_spec (z mod 65536) 32768); Z.div_mod_to_equations; lia.
Qed.

Lemma u16_range z : 0 <= u16 z < 256 ^ Z.of_nat 2.
Proof. unfold u16. apply Z.mod_pos_bound. done. Qed.

Lemma dioff_range inum : (dioff inum + 64 <= 512)%nat.
Proof. unfold dioff, IPB. pose proof (Z.mod_pos_bound inum 8 ltac:(lia)). lia. Qed.

(** The length of a block is kept by every write inside it. *)
Lemma block_putn n off z x : length x = 512%nat -> (off + n <= 512)%nat -> length (putn n off z x) = 512%nat.
Proof. intros Hx H. rewrite length_putn; lia. Qed.

Lemma block_put_addrs o l x : length x = 512%nat -> (o + 4 * length l <= 512)%nat -> length (put_addrs o l x) = 512%nat.
Proof. intros Hx H. rewrite length_put_addrs; lia. Qed.

Lemma block_patch o l x : length x = 512%nat -> (o + length l <= 512)%nat -> length (patch o l x) = 512%nat.
Proof. intros Hx H. rewrite length_patch; lia. Qed.

Ltac blk := repeat first [assumption | apply block_putn; [|lia] | apply block_put_addrs; [|lia] | apply block_patch; [|rewrite ?length_replicate; lia]].
(** A bound by the length of a block. *)
Ltac fits := match goal with |- context [length (putn ?n ?o ?z ?x)] => replace (length (putn n o z x)) with 512%nat by (symmetry; blk) | _ => idtac end; lia.

Lemma length_put_dinode inum p x : length x = 512%nat -> ino_wf p -> length (put_dinode inum p x) = 512%nat.
Proof. intros Hx [_ _ [Ha _]]. pose proof (dioff_range inum). unfold put_dinode. blk. Qed.

(** A field of two or four bytes written and read back through the later writes. *)
Ltac field := repeat first
  [ rewrite get_addrs_ne by fits
  | rewrite getn_putn by first [fits | apply u16_range | assumption]
  | rewrite getn_putn_ne by fits ].

Lemma get_put_dinode inum p x : length x = 512%nat -> ino_wf p -> get_dinode inum (put_dinode inum p x) = dinode_of p.
Proof.
  intros Hx [Hs Hz [Ha Hu]]. pose proof (dioff_range inum) as Ho. unfold get_dinode, put_dinode, dinode_of. set (o := dioff inum) in *.
  clearbody o. assert (Hz' : 0 <= i_size p < 256 ^ Z.of_nat 4) by exact Hz.
  f_equal.
  - field. apply s16_u16, Hs. set_solver.
  - field. apply s16_u16, Hs. set_solver.
  - field. apply s16_u16, Hs. set_solver.
  - field. apply s16_u16, Hs. set_solver.
  - field. done.
  - apply list_eq_same_length with 13%nat; [done|by rewrite length_fmap, length_seq|].
    intros k b1 b2 Hk H1 H2. rewrite list_lookup_fmap, lookup_seq_lt in H1 by done. cbn in H1. injection H1 as <-.
    apply get_addrs; [fits|done|done].
Qed.

Lemma get_dinode_ext inum x y : (forall n off, (dioff inum <= off)%nat -> (off + n <= dioff inum + 64)%nat -> getn n off x = getn n off y) ->
  get_dinode inum x = get_dinode inum y.
Proof.
  intros H. unfold get_dinode. set (o := dioff inum) in *. f_equal; try (f_equal; apply H; lia); [apply H; lia|].
  apply list_fmap_ext. intros k j Hj. apply lookup_seq in Hj as [-> Hj]. apply H; lia.
Qed.

(** The other inodes of the block. *)
Lemma get_put_dinode_ne inum inum' p x : length x = 512%nat -> ino_wf p -> inum mod IPB <> inum' mod IPB ->
  get_dinode inum' (put_dinode inum p x) = get_dinode inum' x.
Proof.
  intros Hx [_ _ [Ha _]] Hne. pose proof (dioff_range inum) as Ho. apply get_dinode_ext. intros n off H1 H2. unfold put_dinode.
  assert (Hd : (off + n <= dioff inum \/ dioff inum + 64 <= off)%nat).
  { unfold dioff, IPB in *. pose proof (Z.mod_pos_bound inum 8 ltac:(lia)). pose proof (Z.mod_pos_bound inum' 8 ltac:(lia)). lia. }
  field. done.
Qed.

(** ** The inode cache *)

Section Cache.
Context {S : Type} `{!HasCtx S, !Txn S}.
Context (i : nat) (c : cpu) (g : tgeo).
Implicit Types (s : fsst S) (V : Z -> block) (H : gmap Z nat) (T : gset Z).
Notation fs_at := (fs_at i c g).

(** A state between the calls of the file system, with no spin lock held. *)
Definition calm s : Prop := ctx_ok (ctx s) i c /\ locks (ctx s) = ∅.

Lemma fs_at_calm s V H T : fs_at s V H T -> calm s.
Proof. intros Ht. exact (tx_ctx _ _ _ _ _ Ht). Qed.

Lemma calm_store s x : calm s -> ctx x = ctx (f_store s) -> calm (set_store x s).
Proof. unfold calm. cbn. by intros ? ->. Qed.

Lemma fs_at_icache s V H T l : fs_at s V H T -> fs_at (set_icache l s) V H T.
Proof. done. Qed.

Lemma wp_ino s ip p Q W : icache s !! ip = Some p -> Q p s -> wp (ino ip s) Q W.
Proof. intros Hp HQ. unfold ino. by rewrite Hp. Qed.

(** A change of the cache under [icache.lock]. *)
Lemma locked_upd_end s f ip : calm s ->
  (onctx (acquire icache_lk) ;; upd_ino f ip ;; onctx (release icache_lk)) s = Ret tt (set_icache (alter f ip (icache s)) s).
Proof.
  intros [Hc Hl]. assert (Hl' : locks (ctx s) !! icache_lk = None) by (by rewrite Hl).
  rewrite (bind_Ret _ _ _ _ _ (acq_step _ _ _ _ Hc Hl')). rewrite (bind_Ret _ _ _ tt (set_icache (alter f ip (icache s)) (set_ctx (k_acq icache_lk i (ctx s)) s))) by done.
  assert (Hk : ctx (set_icache (alter f ip (icache s)) (set_ctx (k_acq icache_lk i (ctx s)) s)) = k_acq icache_lk i (ctx s))
    by (cbn; apply ctx_set_ctx).
  rewrite (rel_step _ _ _ _ _ Hc Hl' Hk). cbn. unfold set_icache, set_store. cbn. rewrite set_ctx_set, set_ctx_ctx. by destruct s.
Qed.

Lemma locked_upd {A} s f ip (k : M (fsst S) A) : calm s ->
  (onctx (acquire icache_lk) ;; upd_ino f ip ;; onctx (release icache_lk) ;; k) s =
  k (set_icache (alter f ip (icache s)) s).
Proof.
  intros Hs. rewrite <- (bind_Ret _ (fun _ => k) _ _ _ (locked_upd_end s f ip Hs)). unfold bind.
  destruct (onctx (acquire icache_lk) s) as [[] s1| | | | |s1 k1] eqn:E; try done. exfalso. destruct Hs as [Hc Hl].
  rewrite (acq_step _ _ _ _ Hc) in E; [done|by rewrite Hl].
Qed.

(** Every inode has at most one entry in use. *)
Definition ic_unique (l : list inode) : Prop := forall j k p q, l !! j = Some p -> l !! k = Some q ->
  0 < i_ref p -> 0 < i_ref q -> i_dev p = i_dev q -> i_inum p = i_inum q -> j = k.

Lemma iget_scan_spec d inum l k e :
  match iget_scan d inum l k e with
  | (Some r, _) => exists j p, r = (k + j)%nat /\ l !! j = Some p /\ 0 < i_ref p /\ i_dev p = d /\ i_inum p = inum
  | (None, r) => (forall j p, l !! j = Some p -> 0 < i_ref p -> i_dev p = d -> i_inum p = inum -> False) /\
      match e with
      | Some _ => r = e
      | None => match r with
                | Some m => exists j p, m = (k + j)%nat /\ l !! j = Some p /\ i_ref p = 0 /\ forall j' p', (j' < j)%nat -> l !! j' = Some p' -> i_ref p' <> 0
                | None => forall j p, l !! j = Some p -> i_ref p <> 0
                end
      end
  end.
Proof.
  revert k e. induction l as [|p l IH]; intros k e; cbn [iget_scan].
  - split; [done|]. by destruct e.
  - destruct ((0 <? i_ref p) && (i_dev p =? d) && (i_inum p =? inum)) eqn:E.
    + rewrite !andb_true_iff, Z.ltb_lt, !Z.eqb_eq in E. destruct E as [[E1 E2] E3]. exists 0%nat, p. split_and!; first [done|lia].
    + assert (Hp : 0 < i_ref p -> i_dev p = d -> i_inum p = inum -> False).
      { intros H1 H2 H3. rewrite (proj2 (Z.ltb_lt 0 (i_ref p)) H1), H2, H3, !Z.eqb_refl in E. done. }
      set (e' := match e with None => if i_ref p =? 0 then Some k else None | _ => e end).
      specialize (IH (Datatypes.S k) e'). destruct (iget_scan d inum l (Datatypes.S k) e') as [[r|] r'].
      * destruct IH as (j & q & -> & Hj & H'). exists (Datatypes.S j), q. split_and!; [lia|done|apply H'..].
      * destruct IH as [H1 H2]. split.
        { intros [|j] q Hq; cbn in Hq; [injection Hq as <-; exact Hp|by eapply H1]. }
        unfold e' in H2. destruct e; [done|]. destruct (Z.eqb_spec (i_ref p) 0) as [Ez|Ez].
        { subst r'. exists 0%nat, p. split_and!; [lia|done|done|]. intros j' p' Hj'. lia. }
        destruct r' as [m|].
        { destruct H2 as (j & q & -> & Hj & Hz & Hb). exists (Datatypes.S j), q. split_and!; [lia|done|done|].
          intros [|j'] p' Hj' Hp'; cbn in Hp'; [by injection Hp' as <-|]. eapply (Hb j'); [lia|done]. }
        { intros [|j] q Hq; cbn in Hq; [by injection Hq as <-|by eapply H2]. }
Qed.

(** [iget] on a hit, on a miss with a free entry, and on a full cache. *)
Lemma iget_run s d inum : calm s ->
  match iget_scan d inum (icache s) 0 None with
  | (Some ip, _) => iget d inum s = Ret ip (set_icache (alter (fun p => set_ref (i_ref p + 1) p) ip (icache s)) s)
  | (None, Some ip) => iget d inum s = Ret ip (set_icache (alter (fun p =>
      mkinode d inum 1 0 (i_type p) (i_major p) (i_minor p) (i_nlink p) (i_size p) (i_addrs p)) ip (icache s)) s)
  | (None, None) => iget d inum s = Panic "iget: no inodes"
  end.
Proof.
  intros Hcalm. assert (Hc := proj1 Hcalm). assert (Hl' : locks (ctx s) !! icache_lk = None) by (by rewrite (proj2 Hcalm)).
  unfold iget. destruct (iget_scan d inum (icache s) 0 None) as [[ip|] [ip'|]] eqn:E.
  - transitivity ((onctx (acquire icache_lk) ;; upd_ino (fun p => set_ref (i_ref p + 1) p) ip ;; onctx (release icache_lk) ;; ret ip) s); [|by rewrite locked_upd].
    rewrite !(bind_Ret _ _ _ _ _ (acq_step _ _ _ _ Hc Hl')). run. cbn. by rewrite E.
  - transitivity ((onctx (acquire icache_lk) ;; upd_ino (fun p => set_ref (i_ref p + 1) p) ip ;; onctx (release icache_lk) ;; ret ip) s); [|by rewrite locked_upd].
    rewrite !(bind_Ret _ _ _ _ _ (acq_step _ _ _ _ Hc Hl')). run. cbn. by rewrite E.
  - erewrite <- (locked_upd s _ ip' (ret ip') Hcalm).
    rewrite !(bind_Ret _ _ _ _ _ (acq_step _ _ _ _ Hc Hl')). run. cbn. by rewrite E.
  - rewrite (bind_Ret _ _ _ _ _ (acq_step _ _ _ _ Hc Hl')). run. cbn. by rewrite E.
Qed.
End Cache.

(** The entry [iget] returns, and the cache after it. *)
Definition igot (d inum : Z) (l : list inode) : option (nat * list inode) :=
  match iget_scan d inum l 0 None with
  | (Some ip, _) => Some (ip, alter (fun p => set_ref (i_ref p + 1) p) ip l)
  | (None, Some ip) => Some (ip, alter (fun p => mkinode d inum 1 0 (i_type p) (i_major p) (i_minor p) (i_nlink p) (i_size p) (i_addrs p)) ip l)
  | (None, None) => None
  end.

(** ** States of the file system in an operation *)

Section Rep.
Context {S : Type} `{!HasCtx S, !Txn S}.
Context (waits : nat).
Context (i : nat) (c : cpu) (g : tgeo) (sb : superblock) (ds : Z) (pid : Z) (cwd : nat).
Hypothesis (Hly : layout g sb ds).
Implicit Types (s : fsst S) (V : Z -> block) (H : gmap Z nat) (T : gset Z) (l : list inode) (K : gset nat).

(** Block contents [V], buffers [H] held, blocks [T] logged, the inode cache [l], and the
    inodes [K] locked by the caller. *)
Record fsrep s V H T l K : Prop := {
  fr_tx : fs_at i c g s V H T;
  fr_ic : icache s = l;
  fr_lk : forall ip, if decide (ip ∈ K) then sl_get (ino_lk ip) s = mksleep 1 pid else sl_locked (sl_get (ino_lk ip) s) = 0;
  fr_sb : f_sb s = sb;
  fr_pid : f_pid s = pid;
  fr_cwd : f_cwd s = cwd
}.

Lemma fsrep_calm s V H T l K : fsrep s V H T l K -> calm i c s.
Proof. intros Hr. eapply fs_at_calm, Hr. Qed.

Lemma fsrep_store s x V H T l K V' H' T' : fsrep s V H T l K -> fs_at i c g (set_store x s) V' H' T' -> fsrep (set_store x s) V' H' T' l K.
Proof. intros [] Ht. by split. Qed.

Lemma fsrep_icache s V H T l K l' : fsrep s V H T l K -> fsrep (set_icache l' s) V H T l' K.
Proof. intros []. by split. Qed.

Lemma fsrep_ctx s V H T l K k : fsrep s V H T l K -> ctx_ok k i c -> locks k = ∅ -> fsrep (set_ctx k s) V H T l K.
Proof. intros [] Hk Hl. split; try done. by apply tx_move. Qed.

Lemma fsrep_ext s V V' H T l K : fsrep s V H T l K -> (forall n, V' n = V n) -> fsrep s V' H T l K.
Proof. intros [] HV. split; try done. by eapply fs_at_ext. Qed.

Lemma fsrep_idle s V H T l K ip : fsrep s V H T l K -> sl_idle s i c (ino_lk ip).
Proof. intros Hr. destruct (fsrep_calm _ _ _ _ _ _ Hr) as [Hc Hl]. split; [exact Hc|]. by rewrite Hl. Qed.

Lemma ino_lk_inj ip ip' : ino_lk ip = ino_lk ip' -> ip = ip'.
Proof. unfold ino_lk. intros E. injection E. lia. Qed.

Lemma sl_get_put_ne (l l' : lockid) v s : l <> l' -> sl_get l' (sl_put l v s) = sl_get l' s.
Proof. intros Hne. unfold sl_get, sl_put. by rewrite sleeps_set, lookup_insert_ne. Qed.

Lemma fsrep_lock s V H T l K ip : fsrep s V H T l K -> fsrep (sl_put (ino_lk ip) (mksleep 1 pid) s) V H T l ({[ip]} ∪ K).
Proof using Type.
  clear Hly.
  intros []. split; try done. intros j. destruct (decide (j = ip)) as [->|Hne].
  - rewrite decide_True by set_solver. apply sl_get_put.
  - rewrite sl_get_put_ne by (intros E; by apply ino_lk_inj in E). specialize (fr_lk0 j).
    destruct (decide (j ∈ K)); [rewrite decide_True by set_solver|rewrite decide_False by set_solver]; done.
Qed.

Lemma fsrep_unlock s V H T l K ip : fsrep s V H T l K -> fsrep (sl_put (ino_lk ip) zero_sleep s) V H T l (K ∖ {[ip]}).
Proof using Type.
  clear Hly.
  intros []. split; try done. intros j. destruct (decide (j = ip)) as [->|Hne].
  - rewrite decide_False by set_solver. by rewrite sl_get_put.
  - rewrite sl_get_put_ne by (intros E; by apply ino_lk_inj in E). specialize (fr_lk0 j).
    destruct (decide (j ∈ K)); [rewrite decide_True by set_solver|rewrite decide_False by set_solver]; done.
Qed.

Lemma wp_acquiresleep s V H T l K ip Q W :
  fsrep s V H T l K -> ip ∉ K -> (forall s', fsrep s' V H T l ({[ip]} ∪ K) -> Q tt s') ->
  wp (acquiresleep (Datatypes.S waits) (ino_lk ip) s) Q W.
Proof using Type.
  clear Hly.
  intros Hr Hip HQ. pose proof (fr_lk _ _ _ _ _ _ Hr ip) as Hlk. rewrite decide_False in Hlk by done.
  eapply wp_eq; [eapply acquiresleep_free; [by eapply fsrep_idle|done]|]. apply HQ.
  replace (my_pid s) with pid by (symmetry; apply Hr). by apply fsrep_lock.
Qed.

Lemma wp_releasesleep s V H T l K ip Q W :
  fsrep s V H T l K -> (forall s', fsrep s' V H T l (K ∖ {[ip]}) -> Q tt s') -> wp (releasesleep (ino_lk ip) s) Q W.
Proof using Type.
  clear Hly.
  intros Hr HQ. eapply wp_eq; [by eapply releasesleep_run, fsrep_idle|]. apply HQ. destruct (fsrep_calm _ _ _ _ _ _ Hr) as [Hc Hl].
  apply fsrep_ctx; [by apply fsrep_unlock|by apply ctx_ok_wake|done].
Qed.

(** An inode is cached: an entry in use, on the root device. *)
Record cached l (ip : nat) (p : inode) : Prop := {
  ca_at : l !! ip = Some p;
  ca_ref : 1 <= i_ref p;
  ca_dev : i_dev p = 1;
  ca_inum : 0 <= i_inum p < ninodes sb
}.

(** What [ilock] leaves in the entry. *)
Definition loaded V (p : inode) : inode :=
  if i_valid p =? 0 then set_valid 1 (load_dinode (get_dinode (i_inum p) (V (IBLOCK (i_inum p) sb))) p) else p.

Lemma ino_unheld V H n : holds_data V H sb ds -> 0 <= n < ninodes sb -> H !! IBLOCK n sb = None.
Proof.
  intros Hh Hn. destruct (H !! IBLOCK n sb) as [r|] eqn:E; [|done]. apply Hh in E as [E _]. pose proof (proj2 (ly_ino _ _ _ Hly n Hn)). lia.
Qed.

Lemma holds_none V : holds_data V ∅ sb ds.
Proof. intros n r E. done. Qed.

Lemma upd_ino_wp s f ip p Q W : icache s !! ip = Some p -> Q tt (set_icache (<[ip := f p]> (icache s)) s) -> wp (upd_ino f ip s) Q W.
Proof. intros Hp HQ. cbn. by rewrite (alter_insert_at _ _ _ _ Hp). Qed.

Lemma wp_ilock s V H T l K ip p Q W :
  fsrep s V H T l K -> cached l ip p -> ip ∉ K -> holds_data V H sb ds -> (size (dom H) + size T < NBUF)%nat ->
  i_type (loaded V p) <> 0 \/ i_valid p <> 0 ->
  (forall s', fsrep s' V H T (<[ip := loaded V p]> l) ({[ip]} ∪ K) -> Q tt s') -> wp (ilock waits (Some ip) s) Q W.
Proof.
  intros Hr [Hp Href Hdev Hinum] Hip Hh Hroom Hty HQ. unfold ilock. apply wp_step. eapply wp_ino; [by rewrite (fr_ic _ _ _ _ _ _ Hr)|].
  rewrite (proj2 (Z.ltb_ge _ 1)) by lia. apply wp_step. eapply wp_acquiresleep; [exact Hr|done|]. intros s1 Hr1.
  apply wp_step. eapply wp_ino; [by rewrite (fr_ic _ _ _ _ _ _ Hr1)|]. unfold loaded in *. destruct (Z.eqb_spec (i_valid p) 0) as [E|E]; cbn [when].
  2: { cbn. apply HQ. by rewrite list_insert_id. }
  destruct Hty as [Hty|Hty]; [|done]. destruct (ly_ino _ _ _ Hly _ Hinum) as [Hu _]. assert (Hun := ino_unheld _ _ _ Hh Hinum).
  apply wp_step. cbn [gets wp]. rewrite (fr_sb _ _ _ _ _ _ Hr1), Hdev. apply wp_step.
  eapply wp_fbread; [exact (fr_tx _ _ _ _ _ _ Hr1)|done|done|by apply roomy_of|]. intros r x1 H1.
  assert (Hrd : forall t, th (ts_read (IBLOCK (i_inum p) sb) r t) !! IBLOCK (i_inum p) sb = Some r) by (intros t; cbn; by rewrite lookup_insert_eq).
  apply wp_step. eapply wp_fdata; [exact H1|apply Hrd|]. cbn [tv ts_read]. set (q := get_dinode _ _) in *.
  apply wp_step. eapply upd_ino_wp; [cbn; by rewrite (fr_ic _ _ _ _ _ _ Hr1)|]. apply wp_step.
  eapply wp_fbrelse; [exact H1|apply Hrd|cbn; clear; set_solver|]. intros x2 H2. rewrite ts_back in H2 by done.
  apply (fsrep_store s1 x2 _ _ _ _ _ _ _ _ Hr1) in H2. assert (Hlt := lookup_lt_Some _ _ _ Hp).
  apply wp_step. eapply upd_ino_wp; [cbn; rewrite (fr_ic _ _ _ _ _ _ Hr1); by apply list_lookup_insert_eq|]. apply wp_step.
  eapply wp_ino; [cbn; apply list_lookup_insert_eq; rewrite length_insert, (fr_ic _ _ _ _ _ _ Hr1); done|].
  rewrite (proj2 (Z.eqb_neq _ 0)) by exact Hty. cbn. apply HQ. rewrite (fr_ic _ _ _ _ _ _ Hr1), list_insert_insert_eq.
  exact (fsrep_icache _ _ _ _ _ _ _ H2).
Qed.

Lemma wp_iunlock s V H T l K ip p Q W :
  fsrep s V H T l K -> cached l ip p -> ip ∈ K -> (forall s', fsrep s' V H T l (K ∖ {[ip]}) -> Q tt s') -> wp (iunlock (Some ip) s) Q W.
Proof using Type.
  clear Hly.
  intros Hr [Hp Href _ _] Hip HQ. unfold iunlock. apply wp_step. eapply wp_eq; [by eapply holdingsleep_run, fsrep_idle|].
  pose proof (fr_lk _ _ _ _ _ _ Hr ip) as Hlk. rewrite decide_True in Hlk by done. rewrite Hlk. cbn [sl_locked sl_pid negb Z.eqb andb].
  replace (my_pid s) with pid by (symmetry; apply Hr). rewrite Z.eqb_refl. apply wp_step. eapply wp_ino; [by rewrite (fr_ic _ _ _ _ _ _ Hr)|].
  rewrite (proj2 (Z.ltb_ge _ 1)) by lia. cbn [negb orb]. by eapply wp_releasesleep.
Qed.

Lemma wp_iupdate s V H T l K ip p Q W :
  fsrep s V H T l K -> cached l ip p -> ino_wf p -> holds_data V H sb ds -> (size (dom H) + size T < NBUF)%nat -> (size T < g_cap g)%nat ->
  (forall s', fsrep s' (vset V (IBLOCK (i_inum p) sb) (put_dinode (i_inum p) p (V (IBLOCK (i_inum p) sb)))) H ({[IBLOCK (i_inum p) sb]} ∪ T) l K -> Q tt s') ->
  wp (iupdate ip s) Q W.
Proof.
  intros Hr [Hp Href Hdev Hinum] Hwf Hh Hroom Hcap HQ. destruct (ly_ino _ _ _ Hly _ Hinum) as [Hu _]. assert (Hun := ino_unheld _ _ _ Hh Hinum).
  unfold iupdate. apply wp_step. eapply wp_ino; [by rewrite (fr_ic _ _ _ _ _ _ Hr)|]. apply wp_step. cbn [gets wp]. rewrite (fr_sb _ _ _ _ _ _ Hr), Hdev.
  apply wp_step. eapply wp_fbread; [exact (fr_tx _ _ _ _ _ _ Hr)|done|done|by apply roomy_of|]. intros r x1 H1.
  assert (Hrd : forall t, th (ts_read (IBLOCK (i_inum p) sb) r t) !! IBLOCK (i_inum p) sb = Some r) by (intros t; cbn; by rewrite lookup_insert_eq).
  apply wp_step. eapply wp_fdata; [exact H1|apply Hrd|]. cbn [tv ts_read].
  apply wp_step. eapply wp_fset_data; [exact H1|apply Hrd|apply length_put_dinode; [exact (fs_at_len _ _ _ _ _ _ _ _ (fr_tx _ _ _ _ _ _ Hr) Hu)|done]|]. intros x2 H2.
  apply wp_step. eapply wp_flog_write; [exact H2|apply Hrd|exact Hcap|]. intros x3 H3.
  eapply wp_fbrelse; [exact H3|apply Hrd|cbn; clear; set_solver|]. intros x4 H4. rewrite ts_update in H4 by done. cbn [tv th tlog] in H4.
  apply HQ. exact (fsrep_store s x4 _ _ _ _ _ _ _ _ Hr H4).
Qed.

Lemma wp_iget s V H T l K d inum ip l' Q W :
  fsrep s V H T l K -> igot d inum l = Some (ip, l') -> (forall s', fsrep s' V H T l' K -> Q ip s') -> wp (iget d inum s) Q W.
Proof using Type.
  intros Hr Hg HQ. pose proof (iget_run i c s d inum (fsrep_calm _ _ _ _ _ _ Hr)) as Hrun. rewrite (fr_ic _ _ _ _ _ _ Hr) in Hrun. unfold igot in Hg.
  destruct (iget_scan d inum l 0 None) as [[k|] [k'|]]; simplify_eq; (eapply wp_eq; [exact Hrun|]; apply HQ; by eapply fsrep_icache).
Qed.

Lemma wp_idup s V H T l K ip Q W :
  fsrep s V H T l K -> (forall s', fsrep s' V H T (alter (fun p => set_ref (i_ref p + 1) p) ip l) K -> Q ip s') -> wp (idup ip s) Q W.
Proof using Type.
  intros Hr HQ. eapply wp_eq; [unfold idup; rewrite (locked_upd i c s _ ip (ret ip) (fsrep_calm _ _ _ _ _ _ Hr)); reflexivity|].
  rewrite (fr_ic _ _ _ _ _ _ Hr). apply HQ. by eapply fsrep_icache.
Qed.

(** [iput] of an inode that is still linked: one reference less. *)
Lemma wp_iput s V H T l K ip p Q W :
  fsrep s V H T l K -> l !! ip = Some p -> ip ∉ K -> i_valid p = 0 \/ i_nlink p <> 0 ->
  (forall s', fsrep s' V H T (<[ip := set_ref (i_ref p - 1) p]> l) K -> Q tt s') -> wp (iput waits ip s) Q W.
Proof using Type.
  clear Hly.
  intros Hr Hp Hip Hlive HQ. unfold iput. apply wp_step. eapply wp_acquiresleep; [exact Hr|done|]. intros s1 R1.
  apply wp_step. eapply wp_ino; [by rewrite (fr_ic _ _ _ _ _ _ R1)|]. apply wp_step.
  replace (negb (i_valid p =? 0) && (i_nlink p =? 0)) with false.
  2: { symmetry. apply andb_false_iff. destruct Hlive as [->|Hl]; [by left|right; by apply Z.eqb_neq]. }
  cbn [when ret wp]. apply wp_step. eapply wp_releasesleep; [exact R1|]. intros s2 R2.
  replace (({[ip]} ∪ K) ∖ {[ip]}) with K in R2 by set_solver.
  eapply wp_eq; [exact (locked_upd_end i c s2 _ ip (fsrep_calm _ _ _ _ _ _ R2))|]. rewrite (fr_ic _ _ _ _ _ _ R2), (alter_insert_at _ _ _ _ Hp). apply HQ. by eapply fsrep_icache.
Qed.

Lemma wp_iunlockput s V H T l K ip p Q W :
  fsrep s V H T l K -> cached l ip p -> ip ∈ K -> i_valid p = 0 \/ i_nlink p <> 0 ->
  (forall s', fsrep s' V H T (<[ip := set_ref (i_ref p - 1) p]> l) (K ∖ {[ip]}) -> Q tt s') -> wp (iunlockput waits ip s) Q W.
Proof using Type.
  clear Hly.
  intros Hr Hc Hip Hlive HQ. unfold iunlockput. apply wp_step. eapply wp_iunlock; [exact Hr|exact Hc|done|]. intros s1 R1.
  eapply wp_iput; [exact R1|apply Hc|set_solver|done|exact HQ].
Qed.
End Rep.
