(* ===== verification/FsFile.v ===== *)
(** * The file system: the contents of a file

    The blocks of a file, what [bmap] returns and allocates, and [readi] and [writei] as
    reading and overwriting a range of the bytes of the file. *)

From Stdlib Require Import ZArith Lia.
From S2P Require Import Prelude Spinlock Sleeplock Strings Blocks Bytes Log Txn Fs FsSpec FsInode.

(** ** The list of free blocks *)

Lemma filter_ext_in {A} (P Q : A -> Prop) `{!forall x, Decision (P x), !forall x, Decision (Q x)} (l : list A) :
  (forall x, x ∈ l -> P x <-> Q x) -> filter P l = filter Q l.
Proof.
  induction l as [|x l IH]; intros E; [done|]. rewrite !filter_cons, IH by set_solver. assert (Hx := E x ltac:(set_solver)).
  do 2 case_decide; (done || tauto).
Qed.

Section FreeList.
Context (g : tgeo) (sb : superblock) (ds : Z).
Hypothesis (Hly : layout g sb ds).
Implicit Types V : Z -> block.

Definition free_list V : list Z := filter (fun b => used V sb b = false) (seqZ 0 (sb_size sb)).

Lemma free_list_in V b : b ∈ free_list V <-> used V sb b = false /\ 0 <= b < sb_size sb.
Proof. unfold free_list. rewrite list_elem_of_filter, elem_of_seqZ. split; intros [? ?]; (split; [done|lia]). Qed.

Lemma filter_first (P : Z -> Prop) `{!forall z, Decision (P z)} n a b l :
  filter P (seqZ a (Z.of_nat n)) = b :: l -> P b /\ a <= b < a + Z.of_nat n /\ forall j, a <= j < b -> ~ P j.
Proof.
  revert a. induction n as [|n IH]; intros a E; [done|]. rewrite Nat2Z.inj_succ in E. rewrite seqZ_cons in E by lia.
  replace (Z.pred (Z.succ (Z.of_nat n))) with (Z.of_nat n) in E by lia. rewrite filter_cons in E. case_decide as Hp.
  - injection E as -> _. split_and!; [done|lia|lia|]. intros; lia.
  - destruct (IH (Z.succ a) E) as (H1 & H2 & H3). split_and!; [done|lia|lia|]. intros j Hj. destruct (decide (j = a)) as [->|]; [done|]. apply H3. lia.
Qed.

Lemma free_list_first V b l : free_list V = b :: l -> first_free V sb b.
Proof.
  intros E. unfold free_list in E. destruct (ly_size _ _ _ Hly) as [_ Hs]. rewrite <- (Z2Nat.id (sb_size sb)) in E by lia.
  apply filter_first in E as (H1 & H2 & H3). split; [lia|done|]. intros j Hj. specialize (H3 j ltac:(lia)). by destruct (used V sb j).
Qed.

Lemma free_list_alloc V b l : free_list V = b :: l -> meta_used V sb ds -> length (V (BBLOCK b sb)) = 512%nat -> free_list (v_alloc V sb b) = l.
Proof.
  intros E Hm Hlen. assert (Hf := free_list_first _ _ _ E).
  assert (E2 : free_list (v_alloc V sb b) = filter (fun j => j <> b) (free_list V)).
  { unfold free_list. rewrite list_filter_filter. apply filter_ext_in. intros j Hj%elem_of_seqZ.
    rewrite (used_alloc g sb ds Hly V b j) by (done || lia). destruct (Z.eqb_spec j b) as [->|Hne]; cbn; [naive_solver|tauto]. }
  rewrite E2, E. rewrite filter_cons, decide_False by naive_solver.
  assert (Hn : NoDup (free_list V)) by (apply NoDup_filter, NoDup_seqZ). rewrite E in Hn. apply NoDup_cons in Hn as [Hn _].
  rewrite (filter_ext_in _ (fun _ => True)) by (intros j Hj; split; [done|]; by intros _ ->). clear. induction l; [done|]. rewrite filter_cons, decide_True by done. by f_equal.
Qed.
End FreeList.

(** ** The blocks of a file *)

Section Blocks.
Context (g : tgeo) (sb : superblock) (ds : Z).
Hypothesis (Hly : layout g sb ds).
Implicit Types (V : Z -> block) (p : inode).

Definition addr_at p (k : nat) : Z := default 0 (i_addrs p !! k).
(** The disk address of block [k] of the file, 0 if it has none. *)
Definition baddr V p (k : nat) : Z :=
  if decide (k < NDIRECT)%nat then addr_at p k else get32 (k - NDIRECT) (V (addr_at p NDIRECT)).

Definition is_data V (a : Z) : Prop := ds <= a < sb_size sb /\ used V sb a = true.

(** The file has [nb] blocks, each its own. *)
Record mapped V p (nb : nat) : Prop := {
  mp_max : Z.of_nat nb <= MAXFILE;
  mp_len : length (i_addrs p) = 13%nat;
  mp_data : forall k, (k < nb)%nat -> is_data V (baddr V p k);
  mp_inj : forall j k, (j < nb)%nat -> (k < nb)%nat -> baddr V p j = baddr V p k -> j = k;
  mp_zero : forall k, (nb <= k < NDIRECT)%nat -> addr_at p k = 0;
  mp_some : (NDIRECT < nb)%nat -> addr_at p NDIRECT <> 0;
  mp_ind : addr_at p NDIRECT <> 0 -> is_data V (addr_at p NDIRECT) /\ (forall k, (k < nb)%nat -> baddr V p k <> addr_at p NDIRECT) /\
    forall k, (nb <= k)%nat -> (NDIRECT <= k)%nat -> (k < Z.to_nat MAXFILE)%nat -> get32 (k - NDIRECT) (V (addr_at p NDIRECT)) = 0
}.

(** An operation on the file with indirect block [own]: it allocates blocks, and changes
    none that another file has, nor an inode. *)
Record grows V V' (own : Z) : Prop := {
  gr_data : forall n, is_data V n -> n <> own -> V' n = V n;
  gr_ino : forall n, 0 <= n < ninodes sb -> V' (IBLOCK n sb) = V (IBLOCK n sb);
  gr_used : forall n, 0 <= n < sb_size sb -> used V sb n = true -> used V' sb n = true;
  gr_meta : meta_used V' sb ds
}.

Lemma grows_data V V' own a : grows V V' own -> is_data V a -> is_data V' a.
Proof. intros G [Hr Hu]. destruct (ly_size _ _ _ Hly) as (_ & Hs & _). split; [done|]. apply (gr_used _ _ _ G); [lia|done]. Qed.

Lemma grows_trans V1 V2 V3 own own' : grows V1 V2 own -> grows V2 V3 own' -> (own' = own \/ used V1 sb own' = false) -> grows V1 V3 own.
Proof.
  intros G1 G2 Ho. split.
  - intros n Hn Hne. rewrite (gr_data _ _ _ G2); [by apply (gr_data _ _ _ G1)|by eapply grows_data|]. intros ->. destruct Ho as [->|Hu]; [done|]. destruct Hn. congruence.
  - intros n Hn. rewrite (gr_ino _ _ _ G2) by done. by apply (gr_ino _ _ _ G1).
  - intros n Hn Hu. apply (gr_used _ _ _ G2); [done|]. by apply (gr_used _ _ _ G1).
  - apply G2.
Qed.

Lemma grows_refl V own : meta_used V sb ds -> grows V V own.
Proof. by split. Qed.

Lemma v_alloc_other V b n : n <> b -> n <> BBLOCK b sb -> v_alloc V sb b n = V n.
Proof. intros H1 H2. unfold v_alloc. by rewrite !vset_ne. Qed.

Lemma v_alloc_new V b : v_alloc V sb b b = replicate 512 0.
Proof. unfold v_alloc. apply vset_eq. Qed.

Section Alloc.
Context (V : Z -> block) (b : Z).
Hypothesis (Hm : meta_used V sb ds).
Hypothesis (Hf : first_free V sb b).
Hypothesis (Hlen : length (V (BBLOCK b sb)) = 512%nat).

Lemma alloc_fresh a : is_data V a -> a <> b /\ a <> BBLOCK b sb /\ v_alloc V sb b a = V a.
Proof using Hf Hly.
  clear Hm Hlen. intros [Hr Hu]. assert (Hne : a <> b) by (intros ->; rewrite (ff_free _ _ _ Hf) in Hu; done).
  assert (Hbb : a <> BBLOCK b sb) by (pose proof (proj2 (ly_bmap _ _ _ Hly b (ff_range _ _ _ Hf))); lia).
  split_and!; [done..|]. by apply v_alloc_other.
Qed.

Lemma alloc_is_data : is_data (v_alloc V sb b) b.
Proof.
  destruct (alloc_data g sb ds Hly V b Hm Hf) as (Hr & _). destruct (ly_size _ _ _ Hly) as (_ & Hs & _).
  split; [done|]. rewrite (used_alloc g sb ds Hly) by (done || lia). by rewrite Z.eqb_refl.
Qed.

Lemma alloc_grows own : grows V (v_alloc V sb b) own.
Proof.
  destruct (alloc_data g sb ds Hly V b Hm Hf) as (Hr & _). destruct (ly_size _ _ _ Hly) as (_ & Hs & _). split.
  - intros n Hn _. by apply alloc_fresh.
  - intros n Hn. apply v_alloc_other; [pose proof (proj2 (ly_ino _ _ _ Hly n Hn)); lia|].
    pose proof (ly_apart _ _ _ Hly b n (ff_range _ _ _ Hf) Hn). congruence.
  - intros n Hn Hu. rewrite (used_alloc g sb ds Hly) by done. by rewrite Hu, orb_true_r.
  - intros n Hn. rewrite (used_alloc g sb ds Hly) by (done || lia). by rewrite Hm, orb_true_r.
Qed.
End Alloc.

(** Writing a data block leaves the free map alone. *)
Lemma vset_used V a x n : ds <= a -> 0 <= n < sb_size sb -> used (vset V a x) sb n = used V sb n.
Proof. intros Ha Hn. unfold used. rewrite vset_ne; [done|]. pose proof (proj2 (ly_bmap _ _ _ Hly n Hn)). lia. Qed.

Lemma free_list_vset V a x : ds <= a -> free_list sb (vset V a x) = free_list sb V.
Proof. intros Ha. apply filter_ext_in. intros n Hn%elem_of_seqZ. rewrite vset_used; [done|done|lia]. Qed.

Lemma vset_grows V a x : meta_used V sb ds -> ds <= a -> grows V (vset V a x) a.
Proof.
  intros Hm Ha. destruct (ly_size _ _ _ Hly) as (_ & Hs & _). split.
  - intros n _ Hne. by apply vset_ne.
  - intros n Hn. apply vset_ne. pose proof (proj2 (ly_ino _ _ _ Hly n Hn)). lia.
  - intros n Hn Hu. by rewrite vset_used.
  - intros n Hn. rewrite vset_used by lia. by apply Hm.
Qed.

(** ** Adding a block *)

Lemma addr_set p k v j : length (i_addrs p) = 13%nat -> (k < 13)%nat -> addr_at (set_addr k v p) j = if decide (j = k) then v else addr_at p j.
Proof.
  intros Hl Hk. unfold addr_at, set_addr. cbn. case_decide as E; [subst; rewrite list_lookup_insert_eq by lia; done|].
  by rewrite list_lookup_insert_ne.
Qed.

(** A direct block. *)
Lemma mapped_direct V p nb b :
  meta_used V sb ds -> first_free V sb b -> length (V (BBLOCK b sb)) = 512%nat -> mapped V p nb -> (nb < NDIRECT)%nat ->
  let V' := v_alloc V sb b in let p' := set_addr nb b p in
  mapped V' p' (S nb) /\ baddr V' p' nb = b /\ (forall k, (k < nb)%nat -> baddr V' p' k = baddr V p k).
Proof.
  intros Hm Hf Hl [Hmax Hal Hd Hi Hz Hs Hind] Hnb V' p'. unfold NDIRECT in *.
  assert (HG : grows V V' 0) by (by apply alloc_grows).
  assert (Hnew : baddr V' p' nb = b) by (unfold baddr, p'; rewrite decide_True by (unfold NDIRECT; lia); rewrite addr_set, decide_True by (done || lia); done).
  assert (Hold : forall k, (k < nb)%nat -> baddr V' p' k = baddr V p k).
  { intros k Hk. unfold baddr, p'. rewrite !decide_True by (unfold NDIRECT; lia). rewrite addr_set, decide_False by (done || lia). done. }
  assert (H12 : addr_at p' NDIRECT = addr_at p 12) by (unfold p', NDIRECT; rewrite addr_set, decide_False by (done || lia); done).
  split; [|done]. split; [unfold MAXFILE; lia|unfold p'; cbn; by rewrite length_insert|..].
  - intros k Hk. destruct (decide (k = nb)) as [->|]; [rewrite Hnew; by apply alloc_is_data|]. rewrite Hold by lia. eapply grows_data; [exact HG|apply Hd; lia].
  - assert (Hfr : forall j, (j < nb)%nat -> baddr V p j <> b) by (intros j Hj; by eapply alloc_fresh; [..|by apply Hd]).
    intros j k Hj Hk E. destruct (decide (j = nb)) as [->|], (decide (k = nb)) as [->|]; [done| | |].
    + rewrite Hnew, Hold in E by lia. by destruct (Hfr k ltac:(lia)).
    + rewrite Hnew, Hold in E by lia. by destruct (Hfr j ltac:(lia)).
    + rewrite !Hold in E by lia. apply Hi; [lia|lia|done].
  - intros k Hk. unfold p'. rewrite addr_set, decide_False by (done || unfold NDIRECT in *; lia). apply Hz. unfold NDIRECT in *; lia.
  - unfold NDIRECT. lia.
  - rewrite H12. intros Hne. destruct (Hind Hne) as (I1 & I2 & I3). destruct (alloc_fresh V b Hf _ I1) as (F1 & F2 & F3).
    split_and!; [by eapply grows_data|..].
    + intros k Hk. destruct (decide (k = nb)) as [->|]; [rewrite Hnew; congruence|]. rewrite Hold by lia. apply I2. lia.
    + intros k K1 K2 K3. unfold V'. rewrite F3. apply I3; unfold NDIRECT in *; lia.
Qed.

(** The indirect block. *)
Lemma mapped_indirect V p nb b :
  meta_used V sb ds -> first_free V sb b -> length (V (BBLOCK b sb)) = 512%nat -> mapped V p nb -> nb = NDIRECT -> addr_at p NDIRECT = 0 ->
  let V' := v_alloc V sb b in let p' := set_addr NDIRECT b p in
  mapped V' p' nb /\ addr_at p' NDIRECT = b /\ (forall k, (k < nb)%nat -> baddr V' p' k = baddr V p k).
Proof.
  intros Hm Hf Hl [Hmax Hal Hd Hi Hz Hs Hind] -> H0 V' p'.
  assert (HG : grows V V' 0) by (by apply alloc_grows). destruct (alloc_data g sb ds Hly V b Hm Hf) as (Hb & _).
  assert (Hnew : addr_at p' NDIRECT = b) by (unfold p', NDIRECT; rewrite addr_set, decide_True by (done || lia); done).
  assert (Hold : forall k, (k < NDIRECT)%nat -> baddr V' p' k = baddr V p k).
  { intros k Hk. unfold baddr, p'. rewrite !decide_True by lia. unfold NDIRECT in *. rewrite addr_set, decide_False by (done || lia). done. }
  split; [|done]. split; [done|unfold p'; cbn; by rewrite length_insert|..].
  - intros k Hk. rewrite Hold by lia. eapply grows_data; [exact HG|by apply Hd].
  - intros j k Hj Hk. rewrite !Hold by lia. by apply Hi.
  - intros k Hk. lia.
  - lia.
  - rewrite Hnew. intros _. split_and!; [by apply alloc_is_data|..].
    + intros k Hk. rewrite Hold by lia. eapply alloc_fresh; [done|by apply Hd].
    + intros k K1 K2 K3. unfold V'. rewrite v_alloc_new. unfold get32, getn, sub, MAXFILE, NDIRECT in *. rewrite drop_replicate, take_replicate.
      replace (4 `min` (512 - 4 * (k - 12)))%nat with 4%nat by lia. done.
Qed.

(** A block listed in the indirect block. *)
Lemma mapped_listed V p nb b :
  meta_used V sb ds -> first_free V sb b -> length (V (BBLOCK b sb)) = 512%nat -> mapped V p nb ->
  (NDIRECT <= nb)%nat -> Z.of_nat nb < MAXFILE -> addr_at p NDIRECT <> 0 -> length (V (addr_at p NDIRECT)) = 512%nat ->
  let a := addr_at p NDIRECT in let V' := vset (v_alloc V sb b) a (put32 (nb - NDIRECT) b (v_alloc V sb b a)) in
  mapped V' p (S nb) /\ baddr V' p nb = b /\ (forall k, (k < nb)%nat -> baddr V' p k = baddr V p k) /\ grows V V' a.
Proof.
  intros Hm Hf Hl [Hmax Hal Hd Hi Hz Hs Hind] Hnb Hroom Hne Hla a V'. destruct (Hind Hne) as (I1 & I2 & I3). fold a in I1, I2, I3, Hla.
  destruct (alloc_data g sb ds Hly V b Hm Hf) as (Hb & _). destruct (ly_size _ _ _ Hly) as (_ & Hsz & Hs31).
  destruct (alloc_fresh V b Hf _ I1) as (F1 & F2 & F3). assert (Ha : ds <= a) by apply I1.
  assert (HG : grows V V' a).
  { eapply (grows_trans V (v_alloc V sb b)); [by apply alloc_grows|apply vset_grows; [by eapply (gr_meta _ _ 0), alloc_grows|done]|by left]. }
  assert (HVa : V' a = put32 (nb - NDIRECT) b (V a)) by (unfold V'; rewrite vset_eq, F3; done).
  assert (Hb32 : is_u32 b) by (unfold is_u32; lia). assert (Hfit : (4 * (nb - NDIRECT) + 4 <= length (V a))%nat) by (unfold MAXFILE, NDIRECT in *; lia).
  assert (Hnew : baddr V' p nb = b) by (unfold baddr; rewrite decide_False by lia; fold a; rewrite HVa; by apply get32_put32).
  assert (Hold : forall k, (k < nb)%nat -> baddr V' p k = baddr V p k).
  { intros k Hk. unfold baddr. case_decide; [done|]. fold a. rewrite HVa. apply get32_put32_ne; lia. }
  assert (HbD : is_data V' b).
  { split; [done|]. unfold V'. rewrite vset_used by lia. eapply alloc_is_data; done. }
  split_and!; [|done..]. split; [lia|done|..].
  - intros k Hk. destruct (decide (k = nb)) as [->|]; [by rewrite Hnew|]. rewrite Hold by lia. eapply grows_data; [exact HG|apply Hd; lia].
  - assert (Hfr : forall j, (j < nb)%nat -> baddr V p j <> b) by (intros j Hj; by eapply alloc_fresh; [..|by apply Hd]).
    intros j k Hj Hk E. destruct (decide (j = nb)) as [->|], (decide (k = nb)) as [->|]; [done| | |].
    + rewrite Hnew, Hold in E by lia. by destruct (Hfr k ltac:(lia)).
    + rewrite Hnew, Hold in E by lia. by destruct (Hfr j ltac:(lia)).
    + rewrite !Hold in E by lia. apply Hi; [lia|lia|done].
  - intros k Hk. lia.
  - done.
  - fold a. intros _. split_and!; [by eapply grows_data|..].
    + intros k Hk. destruct (decide (k = nb)) as [->|]; [rewrite Hnew; congruence|]. rewrite Hold by lia. apply I2. lia.
    + intros k K1 K2 K3. rewrite HVa, get32_put32_ne by lia. apply I3; lia.
Qed.
End Blocks.

(** ** [bmap] *)

Section File.
Context {S : Type} `{!HasCtx S, !Txn S}.
Context (i : nat) (c : cpu) (g : tgeo) (sb : superblock) (ds : Z) (pid : Z) (cwd : nat).
Hypothesis (Hly : layout g sb ds).
Implicit Types (s : fsst S) (V : Z -> block) (T : gset Z) (l : list inode) (K : gset nat) (p : inode).
Notation fsrep := (fsrep i c g sb pid cwd).
Notation mapped := (mapped sb ds).
Notation grows := (grows sb ds).
Notation is_data := (is_data sb ds).
Notation free_list := (free_list sb).

Lemma addr_lookup p k : length (i_addrs p) = 13%nat -> (k < 13)%nat -> i_addrs p !! k = Some (addr_at p k).
Proof. intros Hl Hk. unfold addr_at. destruct (lookup_lt_is_Some_2 (i_addrs p) k) as [a ->]; [lia|done]. Qed.

Lemma data_usable V a : is_data V a -> usable g a.
Proof. intros [Hr _]. by apply (ly_data _ _ _ Hly). Qed.

(** Data blocks are not block 0. *)
Definition meta_some : Prop := 0 < ds.

Lemma wp_bmap_old s V T l K ip p nb k Q W :
  fsrep s V ∅ T l K -> l !! ip = Some p -> i_dev p = 1 -> mapped V p nb -> (k < nb)%nat -> meta_some -> (size T < NBUF)%nat ->
  (forall s', fsrep s' V ∅ T l K -> Q (baddr V p k) s') -> wp (bmap ip (Z.of_nat k) s) Q W.
Proof.
  intros Hr Hp Hdev Hmp Hk H0 Hroom HQ. assert (Hd := mp_data _ _ _ _ _ Hmp k Hk). assert (Hal := mp_len _ _ _ _ _ Hmp).
  assert (Hnz : baddr V p k <> 0) by (destruct Hd; unfold meta_some in H0; lia). assert (Hkm := mp_max _ _ _ _ _ Hmp).
  unfold bmap. apply wp_step. eapply wp_ino; [by rewrite (fr_ic _ _ _ _ _ _ _ _ _ _ _ _ Hr)|]. unfold baddr in *. destruct (decide (k < NDIRECT)%nat) as [Hlt|Hge].
  - rewrite (proj2 (Z.ltb_lt _ _)), Nat2Z.id by lia. rewrite (addr_lookup p k) by (done || unfold NDIRECT in *; lia).
    rewrite (proj2 (Z.eqb_neq _ 0)) by done. cbn. by apply HQ.
  - rewrite (proj2 (Z.ltb_ge _ _)) by lia. rewrite (proj2 (Z.ltb_lt _ _)) by (unfold NINDIRECT, NDIRECT, MAXFILE in *; lia).
    rewrite (addr_lookup p NDIRECT) by (done || unfold NDIRECT; lia).
    assert (Hsome : addr_at p NDIRECT <> 0) by (apply (mp_some _ _ _ _ _ Hmp); lia). destruct (mp_ind _ _ _ _ _ Hmp Hsome) as (I1 & _ & _).
    rewrite (proj2 (Z.eqb_neq _ 0)) by done. apply wp_step. cbn [ret wp]. rewrite Hdev. apply wp_step.
    eapply wp_fbread; [exact (fr_tx _ _ _ _ _ _ _ _ _ _ _ _ Hr)|by eapply data_usable|done|by apply roomy_of; rewrite dom_empty_L, size_empty|]. intros r x1 H1.
    assert (Hrd : forall t, th (ts_read (addr_at p NDIRECT) r t) !! addr_at p NDIRECT = Some r) by (intros t; cbn; by rewrite lookup_insert_eq).
    apply wp_step. eapply wp_fdata; [exact H1|apply Hrd|]. cbn [tv ts_read].
    replace (Z.to_nat (Z.of_nat k - Z.of_nat NDIRECT)) with (k - NDIRECT)%nat by lia. rewrite (proj2 (Z.eqb_neq _ 0)) by done.
    apply wp_step. cbn [ret wp]. apply wp_step. eapply wp_fbrelse; [exact H1|apply Hrd|cbn; clear; set_solver|]. intros x2 H2. rewrite ts_back in H2 by done.
    cbn. apply HQ. eapply (fsrep_store i c g sb pid cwd s x2); [exact Hr|exact H2].
Qed.

(** The blocks of the free map. *)
Definition bm_set : gset Z := list_to_set ((fun k => Z.of_nat k + bmapstart sb) <$> seq 0 (Z.to_nat ((sb_size sb + BPB - 1) / BPB))).

Lemma bblock_bm b : 0 <= b < sb_size sb -> BBLOCK b sb ∈ bm_set.
Proof.
  intros Hb. unfold bm_set. rewrite elem_of_list_to_set. apply list_elem_of_fmap. exists (Z.to_nat (b / BPB)). unfold BBLOCK, BPB, BSIZE in *.
  change (512 * 8) with 4096 in *. split; [rewrite Z2Nat.id by (Z.div_mod_to_equations; lia); done|]. apply elem_of_seq. Z.div_mod_to_equations. lia.
Qed.

Definition ind_set p : gset Z := if decide (addr_at p NDIRECT = 0) then ∅ else {[addr_at p NDIRECT]}.

(** What [bmap] does to the contents, the inode and the log when it adds block [nb], whose
    address is [a]. *)
Record added V p T nb V' p' T' (a : Z) : Prop := {
  ad_mapped : mapped V' p' (Datatypes.S nb);
  ad_new : baddr V' p' nb = a /\ used V sb a = false /\ V' a = replicate 512 0;
  ad_old : forall k, (k < nb)%nat -> baddr V' p' k = baddr V p k;
  ad_grows : grows V V' (addr_at p NDIRECT);
  ad_own : addr_at p' NDIRECT = addr_at p NDIRECT \/ (addr_at p NDIRECT = 0 /\ used V sb (addr_at p' NDIRECT) = false);
  ad_fields : exists m, p' = mkinode (i_dev p) (i_inum p) (i_ref p) (i_valid p) (i_type p) (i_major p) (i_minor p) (i_nlink p) (i_size p) m;
  ad_log : T' ⊆ {[a]} ∪ (ind_set p' ∪ (bm_set ∪ T));
  ad_size : (size T' <= size T + 4)%nat;
  ad_free : exists n, free_list V' = drop n (free_list V) /\ (n <= 2)%nat
}.

(** [ip->addrs[k] = balloc(ip->dev)] *)
Lemma wp_balloc_rep s V T l K b fl Q W (H : gmap Z nat) :
  fsrep s V H T l K -> meta_used V sb ds -> holds_data V H sb ds -> free_list V = b :: fl ->
  (size (dom H) + size T + 2 <= NBUF)%nat -> (size T + 2 <= g_cap g)%nat ->
  (forall s', fsrep s' (v_alloc V sb b) H ({[b]} ∪ ({[BBLOCK b sb]} ∪ T)) l K -> Q b s') -> wp (balloc 1 s) Q W.
Proof.
  intros Hr Hm Hh Hf Hroom Hcap HQ. eapply (wp_balloc i c g sb ds Hly); [apply Hr|apply Hr|done|done|by eapply free_list_first|done|done|].
  intros x Hx. apply HQ. eapply fsrep_store; [exact Hr|exact Hx].
Qed.

Lemma size_add2 (a b : Z) (T : gset Z) : (size ({[a]} ∪ ({[b]} ∪ T)) <= size T + 2)%nat.
Proof. pose proof (size_add a ({[b]} ∪ T)). pose proof (size_add b T). lia. Qed.

Lemma bmap_len s V H T l K b : fsrep s V H T l K -> first_free V sb b -> length (V (BBLOCK b sb)) = 512%nat.
Proof. intros Hr Hf. eapply (fs_at_len i c g); [apply Hr|]. apply (ly_bmap _ _ _ Hly), Hf. Qed.

Lemma wp_bmap_direct s V T l K ip p nb b fl Q W :
  fsrep s V ∅ T l K -> l !! ip = Some p -> i_dev p = 1 -> mapped V p nb -> (nb < NDIRECT)%nat -> meta_used V sb ds ->
  free_list V = b :: fl -> (size T + 6 <= NBUF)%nat -> (size T + 6 <= g_cap g)%nat ->
  (forall s' V' p' T' a, fsrep s' V' ∅ T' (<[ip := p']> l) K -> added V p T nb V' p' T' a -> Q a s') ->
  wp (bmap ip (Z.of_nat nb) s) Q W.
Proof.
  intros Hr Hp Hdev Hmp Hnb Hm Hfl Hroom Hcap HQ. assert (Hf := free_list_first _ _ _ Hly _ _ _ Hfl). assert (Hlen := bmap_len _ _ _ _ _ _ _ Hr Hf).
  assert (Hal := mp_len _ _ _ _ _ Hmp). destruct (mapped_direct _ _ _ Hly V p nb b Hm Hf Hlen Hmp Hnb) as (M1 & M2 & M3).
  unfold bmap. apply wp_step. eapply wp_ino; [by rewrite (fr_ic _ _ _ _ _ _ _ _ _ _ _ _ Hr)|].
  rewrite (proj2 (Z.ltb_lt _ _)), Nat2Z.id by lia. rewrite (addr_lookup p nb) by (done || unfold NDIRECT in *; lia).
  rewrite (mp_zero _ _ _ _ _ Hmp) by lia. cbn [Z.eqb]. rewrite Hdev. apply wp_step.
  eapply wp_balloc_rep; [exact Hr|done|apply holds_none|exact Hfl|rewrite dom_empty_L, size_empty; lia|lia|]. intros s1 H1.
  apply wp_step. eapply upd_ino_wp; [by rewrite (fr_ic _ _ _ _ _ _ _ _ _ _ _ _ H1)|]. cbn. eapply HQ.
  - rewrite (fr_ic _ _ _ _ _ _ _ _ _ _ _ _ H1). by eapply fsrep_icache.
  - split; [exact M1|split_and!; [exact M2|apply Hf|apply v_alloc_new]|exact M3|by eapply alloc_grows|..].
    + left. unfold NDIRECT in *. rewrite addr_set, decide_False by (done || lia). done.
    + by eexists.
    + assert (Hbm := bblock_bm b (ff_range _ _ _ Hf)). clear -Hbm. set_solver.
    + pose proof (size_add2 b (BBLOCK b sb) T). lia.
    + exists 1%nat. split; [|lia]. rewrite Hfl. by eapply free_list_alloc.
Qed.

(** The part of [bmap] behind the address of the indirect block. *)
Definition bmap_listed (d a : Z) (j : nat) : M (fsst S) Z :=
  bp <- bread d a ;;
  x <- data_of bp ;;
  let addr := get32 j x in
  addr <- (if addr =? 0 then
             addr <- balloc d ;;
             x <- data_of bp ;;
             set_data_of bp (put32 j addr x) ;;
             log_write bp ;;
             ret addr
           else ret addr) ;;
  brelse bp ;;
  ret addr.

Lemma wp_bmap_listed s V T l K p nb b fl Q W :
  fsrep s V ∅ T l K -> mapped V p nb -> (NDIRECT <= nb)%nat -> Z.of_nat nb < MAXFILE -> addr_at p NDIRECT <> 0 -> meta_used V sb ds ->
  free_list V = b :: fl -> (size T + 4 <= NBUF)%nat -> (size T + 4 <= g_cap g)%nat ->
  (forall s' V' T', fsrep s' V' ∅ T' l K -> mapped V' p (Datatypes.S nb) -> baddr V' p nb = b -> V' b = replicate 512 0 ->
     (forall k, (k < nb)%nat -> baddr V' p k = baddr V p k) -> grows V V' (addr_at p NDIRECT) -> free_list V' = fl ->
     T' = {[addr_at p NDIRECT]} ∪ ({[b]} ∪ ({[BBLOCK b sb]} ∪ T)) -> Q b s') ->
  wp (bmap_listed 1 (addr_at p NDIRECT) (nb - NDIRECT) s) Q W.
Proof.
  intros Hr Hmp Hnb Hmax Hsome Hm Hfl Hroom Hcap HQ. set (a := addr_at p NDIRECT) in *. destruct (mp_ind _ _ _ _ _ Hmp Hsome) as (I1 & _ & I3). fold a in I1, I3.
  assert (Hf := free_list_first _ _ _ Hly _ _ _ Hfl). assert (Hlen := bmap_len _ _ _ _ _ _ _ Hr Hf).
  assert (Hua := data_usable V a I1). assert (Hla : length (V a) = 512%nat) by (eapply (fs_at_len i c g); [apply Hr|done]).
  destruct (mapped_listed _ _ _ Hly V p nb b Hm Hf Hlen Hmp Hnb Hmax Hsome Hla) as (M1 & M2 & M3 & M4). fold a in M1, M2, M3, M4.
  destruct (alloc_fresh _ _ _ Hly V b Hf a I1) as (F1 & F2 & F3).
  unfold bmap_listed. apply wp_step.
  eapply wp_fbread; [exact (fr_tx _ _ _ _ _ _ _ _ _ _ _ _ Hr)|done|done|apply roomy_of; rewrite dom_empty_L, size_empty; lia|]. intros r x1 H1.
  change (ts_read a r (mkts V ∅ T ∅)) with (mkts V (<[a := r]> ∅) T ∅) in H1.
  apply wp_step. eapply wp_fdata; [exact H1|cbn; by rewrite lookup_insert_eq|]. cbn [tv].
  rewrite I3 by (unfold MAXFILE in *; lia). cbn [Z.eqb]. apply wp_step. apply wp_step.
  eapply (wp_balloc_rep (set_store x1 s) V T l K b fl _ _ (<[a := r]> ∅)).
  { eapply fsrep_store; [exact Hr|exact H1]. }
  { done. }
  { intros n r' E. apply lookup_insert_Some in E as [[<- _]|[_ E]]; [|done]. split; apply I1. }
  { done. }
  { rewrite dom_insert_L, dom_empty_L. rewrite (right_id_L ∅ (∪)), size_singleton. lia. }
  { lia. }
  intros s2 H2. set (T2 := {[b]} ∪ ({[BBLOCK b sb]} ∪ T)) in *. assert (HT2 : (size T2 <= size T + 2)%nat) by apply size_add2.
  set (V1 := v_alloc V sb b) in *. assert (Ht2 := fr_tx _ _ _ _ _ _ _ _ _ _ _ _ H2).
  apply wp_step. eapply wp_fdata; [exact Ht2|cbn; by rewrite lookup_insert_eq|]. cbn [tv].
  apply wp_step. eapply wp_fset_data; [exact Ht2|cbn; by rewrite lookup_insert_eq|rewrite F3, length_put32; unfold MAXFILE, NDIRECT in *; lia|]. intros x3 H3.
  apply wp_step. eapply wp_flog_write; [exact H3|cbn; by rewrite lookup_insert_eq|cbn; lia|]. intros x4 H4. cbn [ret wp].
  apply wp_step. eapply wp_fbrelse; [exact H4|cbn; by rewrite lookup_insert_eq|cbn; clear; set_solver|]. intros x5 H5. cbn.
  unfold ts_release, ts_log, ts_set in H5. cbn [tv th tlog tdirty] in H5. rewrite delete_insert_id in H5 by done.
  replace (({[a]} ∪ ∅) ∖ {[a]}) with (∅ : gset Z) in H5 by (clear; set_solver).
  eapply (HQ _ _ ({[a]} ∪ T2)); [eapply (fsrep_store i c g sb pid cwd s2 x5); [exact H2|exact H5]|exact M1|exact M2| |exact M3|exact M4| |done].
  - rewrite vset_ne by congruence. apply v_alloc_new.
  - assert (E : free_list V1 = fl) by (by eapply free_list_alloc). rewrite <- E. apply (free_list_vset g sb ds Hly), I1.
Qed.

Lemma wp_bmap_new s V T l K ip p nb Q W :
  fsrep s V ∅ T l K -> l !! ip = Some p -> i_dev p = 1 -> mapped V p nb -> Z.of_nat nb < MAXFILE -> meta_used V sb ds -> meta_some ->
  (2 <= length (free_list V))%nat -> (size T + 6 <= NBUF)%nat -> (size T + 6 <= g_cap g)%nat ->
  (forall s' V' p' T' a, fsrep s' V' ∅ T' (<[ip := p']> l) K -> added V p T nb V' p' T' a -> Q a s') ->
  wp (bmap ip (Z.of_nat nb) s) Q W.
Proof.
  intros Hr Hp Hdev Hmp Hmax Hm H0 Hfree Hroom Hcap HQ. destruct (free_list V) as [|b fl] eqn:Hfl; [cbn in Hfree; lia|].
  destruct (decide (nb < NDIRECT)%nat) as [Hlt|Hge]; [by eapply wp_bmap_direct|].
  assert (Hf := free_list_first _ _ _ Hly _ _ _ Hfl). assert (Hlen := bmap_len _ _ _ _ _ _ _ Hr Hf). assert (Hal := mp_len _ _ _ _ _ Hmp).
  assert (Hb0 : b <> 0) by (destruct (alloc_data _ _ _ Hly V b Hm Hf) as [? _]; unfold meta_some in H0; lia).
  unfold bmap. apply wp_step. eapply wp_ino; [by rewrite (fr_ic _ _ _ _ _ _ _ _ _ _ _ _ Hr)|].
  rewrite (proj2 (Z.ltb_ge _ _)) by lia. rewrite (proj2 (Z.ltb_lt _ _)) by (unfold NINDIRECT, NDIRECT, MAXFILE in *; lia).
  rewrite (addr_lookup p NDIRECT) by (done || unfold NDIRECT; lia). replace (Z.to_nat (Z.of_nat nb - Z.of_nat NDIRECT)) with (nb - NDIRECT)%nat by lia.
  rewrite Hdev. destruct (Z.eqb_spec (addr_at p NDIRECT) 0) as [Ez|Enz].
  - assert (Enb : nb = NDIRECT). { destruct (decide (NDIRECT < nb)%nat) as [Hn|]; [|lia]. by destruct (mp_some _ _ _ _ _ Hmp Hn). }
    destruct (mapped_indirect _ _ _ Hly V p nb b Hm Hf Hlen Hmp Enb Ez) as (M1 & M2 & M3). set (p1 := set_addr NDIRECT b p) in *. set (V1 := v_alloc V sb b) in *.
    destruct fl as [|b2 fl]; [cbn in Hfree; lia|]. apply wp_step. apply wp_step.
    eapply wp_balloc_rep; [exact Hr|done|apply holds_none|exact Hfl|rewrite dom_empty_L, size_empty; lia|lia|]. intros s1 H1.
    apply wp_step. eapply upd_ino_wp; [by rewrite (fr_ic _ _ _ _ _ _ _ _ _ _ _ _ H1)|]. cbn [ret wp]. rewrite (fr_ic _ _ _ _ _ _ _ _ _ _ _ _ H1).
    apply (fsrep_icache i c g sb pid cwd _ _ _ _ _ _ (<[ip := p1]> l)) in H1. assert (Hfl1 : free_list V1 = b2 :: fl) by (by eapply free_list_alloc).
    assert (HT := size_add2 b (BBLOCK b sb) T). assert (Hm1 : meta_used V1 sb ds) by (by eapply (gr_meta _ _ _ _ 0), alloc_grows).
    fold p1. enough (Hgo : wp (bmap_listed 1 (addr_at p1 NDIRECT) (nb - NDIRECT) (set_icache (<[ip := p1]> l) s1)) Q stays) by (rewrite M2 in Hgo; eapply wp_mono; [exact Hgo|done|done]).
    eapply wp_bmap_listed; [exact H1|exact M1|lia|done|by rewrite M2|done|exact Hfl1|lia|lia|].
    intros s' V' T' R1 R2 R3 R4 R5 R6 R7 ->. rewrite M2 in R6. eapply (HQ _ V' p1); [exact R1|]. split; [exact R2|split_and!; [exact R3| |exact R4]| | | | | | |].
    + assert (Hf2 := free_list_first _ _ _ Hly _ _ _ Hfl1). destruct (used V sb b2) eqn:E; [|done].
      pose proof (gr_used _ _ _ _ _ (alloc_grows _ _ _ Hly V b Hm Hf Hlen 0) b2 (ff_range _ _ _ Hf2) E) as E2. pose proof (ff_free _ _ _ Hf2). unfold V1 in *. congruence.
    + intros k Hk. rewrite R5 by done. by apply M3.
    + rewrite Ez. eapply (grows_trans g sb ds Hly); [by apply (alloc_grows g sb ds Hly V b)|exact R6|right; apply Hf].
    + right. split; [done|]. rewrite M2. apply Hf.
    + by eexists.
    + unfold ind_set. rewrite M2, decide_False by done. assert (Hbm := bblock_bm b (ff_range _ _ _ Hf)). assert (Hbm2 := bblock_bm b2 (ff_range _ _ _ (free_list_first _ _ _ Hly _ _ _ Hfl1))). clear -Hbm Hbm2. set_solver.
    + rewrite M2. pose proof (size_add2 b2 (BBLOCK b2 sb) ({[b]} ∪ ({[BBLOCK b sb]} ∪ T))).
      assert (E : {[b]} ∪ ({[b2]} ∪ ({[BBLOCK b2 sb]} ∪ ({[b]} ∪ ({[BBLOCK b sb]} ∪ T)))) = {[b2]} ∪ ({[BBLOCK b2 sb]} ∪ ({[b]} ∪ ({[BBLOCK b sb]} ∪ T)))) by (clear; set_solver).
      rewrite E. lia.
    + exists 2%nat. split; [|lia]. by rewrite Hfl, R7.
  - apply wp_step. cbn [ret wp]. eapply wp_bmap_listed; [exact Hr|exact Hmp|lia|done|done|done|exact Hfl|lia|lia|].
    intros s' V' T' R1 R2 R3 R4 R5 R6 R7 ->. eapply (HQ _ V' p); [by rewrite list_insert_id|]. split; [exact R2|split_and!; [exact R3|apply Hf|exact R4]|exact R5|exact R6|by left|by exists (i_addrs p); destruct p| | |].
    + unfold ind_set. rewrite decide_False by done. assert (Hbm := bblock_bm b (ff_range _ _ _ Hf)). clear -Hbm. set_solver.
    + pose proof (size_add (addr_at p NDIRECT) ({[b]} ∪ ({[BBLOCK b sb]} ∪ T))). pose proof (size_add2 b (BBLOCK b sb) T). lia.
    + exists 1%nat. split; [|lia]. by rewrite Hfl, R7.
Qed.

(** ** [readi] *)

(** The bytes of a file. *)
Definition fbyte V p (o : Z) : Z := default 0 (V (baddr V p (Z.to_nat (o / BSIZE))) !! Z.to_nat (o mod BSIZE)).
Definition fbytes V p (off : Z) (n : nat) : list Z := (fun k => fbyte V p (off + Z.of_nat k)) <$> seq 0 n.

Lemma length_fbytes V p off n : length (fbytes V p off n) = n.
Proof. unfold fbytes. by rewrite length_fmap, length_seq. Qed.

Lemma fbytes_lookup V p off n k : (k < n)%nat -> fbytes V p off n !! k = Some (fbyte V p (off + Z.of_nat k)).
Proof. intros Hk. unfold fbytes. rewrite list_lookup_fmap, lookup_seq_lt by done. done. Qed.

Lemma fbytes_app V p off n m : fbytes V p off (n + m) = fbytes V p off n ++ fbytes V p (off + Z.of_nat n) m.
Proof.
  unfold fbytes. rewrite seq_app, fmap_app. f_equal. cbn [Nat.add]. replace n with (n + 0)%nat at 1 by lia. rewrite <- fmap_add_seq, <- list_fmap_compose.
  apply list_fmap_ext. intros k j _. cbn. f_equal. lia.
Qed.

Lemma fbytes_ext V p V' p' off n : (forall o, off <= o < off + Z.of_nat n -> fbyte V' p' o = fbyte V p o) -> fbytes V' p' off n = fbytes V p off n.
Proof. intros E. unfold fbytes. apply list_fmap_ext. intros k j Hj. apply lookup_seq in Hj as [-> Hj]. apply E. lia. Qed.

(** The bytes of a file inside one block. *)
Lemma fbytes_block V p off m : 0 <= off -> Z.of_nat m <= BSIZE - off mod BSIZE -> length (V (baddr V p (Z.to_nat (off / BSIZE)))) = 512%nat ->
  sub (Z.to_nat (off mod BSIZE)) m (V (baddr V p (Z.to_nat (off / BSIZE)))) = fbytes V p off m.
Proof.
  unfold BSIZE. intros Ho Hm Hl. assert (Hmod := Z.mod_pos_bound off 512 ltac:(lia)).
  apply list_eq_same_length with m; [apply length_fbytes|unfold sub; rewrite length_take, length_drop; lia|].
  intros k x y Hk Hx Hy. rewrite fbytes_lookup in Hy by done. injection Hy as <-. rewrite sub_lookup, decide_True in Hx by done.
  unfold fbyte, BSIZE. replace ((off + Z.of_nat k) / 512) with (off / 512) by (Z.div_mod_to_equations; lia).
  replace (Z.to_nat ((off + Z.of_nat k) mod 512)) with (Z.to_nat (off mod 512) + k)%nat by (Z.div_mod_to_equations; lia). by rewrite Hx.
Qed.

Lemma wp_readi_loop fuel s V T l K ip p nb off tot n acc Q W :
  fsrep s V ∅ T l K -> l !! ip = Some p -> i_dev p = 1 -> mapped V p nb -> meta_some -> (size T < NBUF)%nat ->
  0 <= off -> 0 <= tot <= n -> off + (n - tot) <= Z.of_nat nb * BSIZE -> (0 < fuel)%nat ->
  (tot < n -> (n - tot + off mod BSIZE + 511) / BSIZE + 1 <= Z.of_nat fuel) ->
  (forall s', fsrep s' V ∅ T l K -> Q (acc ++ fbytes V p off (Z.to_nat (n - tot))) s') ->
  wp (readi_loop fuel ip off tot n acc s) Q W.
Proof.
  unfold BSIZE. intros Hr Hp Hdev Hmp H0 Hroom. revert s off tot acc Hr. induction fuel as [|fuel IH]; intros s off tot acc Hr Ho Ht Hend Hpos Hfuel HQ; [lia|].
  cbn [readi_loop]. unfold BSIZE. assert (Hmod := Z.mod_pos_bound off 512 ltac:(lia)). destruct (Z.ltb_spec tot n) as [Hlt|Hge].
  2: { cbn. replace (n - tot) with 0 in HQ by lia. specialize (HQ s Hr). cbn in HQ. by rewrite app_nil_r in HQ. }
  set (k := Z.to_nat (off / 512)). assert (Hk : (k < nb)%nat) by (unfold k; Z.div_mod_to_equations; lia). set (m := Z.min (n - tot) (512 - off mod 512)).
  assert (Hm : 0 < m) by (unfold m; lia). assert (Hdat := mp_data _ _ _ _ _ Hmp k Hk).
  apply wp_step. eapply wp_ino; [by rewrite (fr_ic _ _ _ _ _ _ _ _ _ _ _ _ Hr)|]. apply wp_step.
  replace (off / 512) with (Z.of_nat k) by (unfold k; rewrite Z2Nat.id; [done|apply Z.div_pos; lia]).
  eapply wp_bmap_old; [exact Hr|done|done|exact Hmp|done|done|done|]. intros s1 H1. rewrite Hdev. apply wp_step.
  eapply wp_fbread; [exact (fr_tx _ _ _ _ _ _ _ _ _ _ _ _ H1)|by eapply data_usable|done|by apply roomy_of; rewrite dom_empty_L, size_empty|]. intros r x1 R1.
  assert (Hrd : forall t, th (ts_read (baddr V p k) r t) !! baddr V p k = Some r) by (intros t; cbn; by rewrite lookup_insert_eq).
  apply wp_step. eapply wp_fdata; [exact R1|apply Hrd|]. cbn [tv ts_read].
  apply wp_step. eapply wp_fbrelse; [exact R1|apply Hrd|cbn; clear; set_solver|]. intros x2 R2. rewrite ts_back in R2 by done. fold m.
  assert (E : off mod 512 + m <= 512) by (unfold m; lia).
  specialize (Hfuel Hlt). apply IH; [eapply (fsrep_store i c g sb pid cwd s1 x2); [exact H1|exact R2]|lia|lia|lia|Z.div_mod_to_equations; lia| |].
  - intros Hmore. assert (Em2 : m = 512 - off mod 512) by (unfold m in *; lia). replace ((off + m) mod 512) with 0 by (Z.div_mod_to_equations; lia).
    Z.div_mod_to_equations. lia.
  - intros s' Hs'. specialize (HQ s' Hs').
    replace (Z.to_nat (n - tot)) with (Z.to_nat m + Z.to_nat (n - (tot + m)))%nat in HQ by (unfold m; lia).
    rewrite fbytes_app, (assoc_L (++)), Z2Nat.id in HQ by lia. unfold k in *. rewrite <- fbytes_block in HQ; [exact HQ|lia|unfold BSIZE; lia|].
    eapply (fs_at_len i c g); [apply Hr|by eapply data_usable].
Qed.

(** The blocks of a file of [size] bytes. *)
Definition blocks_of (size : Z) : nat := Z.to_nat ((size + 511) / 512).


Lemma turns_enough n off : 0 <= n -> (n + off mod BSIZE + 511) / BSIZE + 1 <= Z.of_nat (turns n).
Proof.
  unfold turns, BSIZE. intros Hn. assert (Hmod := Z.mod_pos_bound off 512 ltac:(lia)).
  rewrite Z2Nat.id by (Z.div_mod_to_equations; lia). Z.div_mod_to_equations. lia.
Qed.

(** A file of the cache that is not a device, with its blocks. *)
Record file_at V l (ip : nat) p : Prop := {
  fa_at : l !! ip = Some p;
  fa_dev : i_dev p = 1;
  fa_type : i_type p <> T_DEV;
  fa_size : 0 <= i_size p <= MAXFILE * BSIZE;
  fa_map : mapped V p (blocks_of (i_size p))
}.

Lemma blocks_cover size : 0 <= size -> size <= Z.of_nat (blocks_of size) * BSIZE /\ Z.of_nat (blocks_of size) * BSIZE < size + BSIZE.
Proof. unfold blocks_of, BSIZE. intros H. rewrite Z2Nat.id by (Z.div_mod_to_equations; lia). Z.div_mod_to_equations. lia. Qed.

Section Readi.
Context (dev_read : Z -> option (nat -> Z -> M (fsst S) (Z * list Z))).

Lemma wp_readi s V T l K ip p off n Q W :
  fsrep s V ∅ T l K -> file_at V l ip p -> meta_some -> (size T < NBUF)%nat -> 0 <= off <= i_size p -> 0 <= n -> off + n < 2 ^ 32 ->
  (forall s' m, m = Z.min n (i_size p - off) -> fsrep s' V ∅ T l K -> Q (m, fbytes V p off (Z.to_nat m)) s') ->
  wp (readi dev_read ip off n s) Q W.
Proof.
  intros Hr [Hp Hdev Hty Hsz Hmp] H0 Hroom Ho Hn Hov HQ. unfold readi. apply wp_step. eapply wp_ino; [by rewrite (fr_ic _ _ _ _ _ _ _ _ _ _ _ _ Hr)|].
  rewrite (proj2 (Z.eqb_neq _ _)) by done. rewrite (proj2 (Z.ltb_ge _ _)) by lia. rewrite u32_small by (unfold is_u32; lia).
  rewrite (proj2 (Z.ltb_ge _ _)) by lia. cbn [orb]. set (m := if i_size p <? off + n then i_size p - off else n).
  assert (Hm : m = Z.min n (i_size p - off)) by (unfold m; destruct (Z.ltb_spec (i_size p) (off + n)); lia).
  assert (Hb := blocks_cover (i_size p) ltac:(lia)). unfold BSIZE in Hb. apply wp_step.
  eapply wp_readi_loop; [exact Hr|done|done|exact Hmp|done|done|lia|lia|unfold BSIZE; lia| | |].
  - unfold turns, BSIZE. Z.div_mod_to_equations. lia.
  - intros _. rewrite Z.sub_0_r. apply turns_enough. lia.
  - intros s' Hs'. rewrite Z.sub_0_r. cbn [ret wp app]. by apply HQ.
Qed.

(** An offset past the end, or a wrap-around, is an error. *)
Lemma readi_bad s ip p off n : icache s !! ip = Some p -> i_type p <> T_DEV -> i_size p < off \/ u32 (off + n) < off ->
  readi dev_read ip off n s = Ret (-1, []) s.
Proof.
  intros Hp Hty Hbad. unfold readi. rewrite (bind_Ret _ _ _ p s) by (unfold ino; by rewrite Hp). rewrite (proj2 (Z.eqb_neq _ _)) by done.
  replace ((i_size p <? off) || (u32 (off + n) <? off)) with true; [done|]. symmetry. apply orb_true_iff. rewrite !Z.ltb_lt. done.
Qed.
End Readi.
End File.
