(* ===== verification/FsWrite.v ===== *)
(** * The file system: writing a file

    [writei] overwrites a range of the bytes of a file and appends to it, and touches no
    block of another file. *)

From Stdlib Require Import ZArith Lia.
From S2P Require Import Prelude Spinlock Sleeplock Strings Blocks Bytes Log Txn Fs FsSpec FsInode FsFile.

Section Pure.
Context (g : tgeo) (sb : superblock) (ds : Z).
Hypothesis (Hly : layout g sb ds).
Implicit Types (V : Z -> block) (p : inode).
Notation mapped := (mapped sb ds).
Notation is_data := (is_data sb ds).
Notation free_list := (free_list sb).

(** The same inode but for its list of addresses. *)
Definition same_but_addrs p p' : Prop :=
  exists m, p' = mkinode (i_dev p) (i_inum p) (i_ref p) (i_valid p) (i_type p) (i_major p) (i_minor p) (i_nlink p) (i_size p) m.

(** The bytes [src] written at [off] of the file [p] of [nb] blocks, which has [nb'] then. *)
Record wrote V p nb V' p' nb' (off : Z) (src : list Z) : Prop := {
  wr_map : mapped V' p' nb';
  wr_nb : (nb <= nb')%nat /\ off + Z.of_nat (length src) <= Z.of_nat nb' * BSIZE /\
          ((nb < nb')%nat -> Z.of_nat nb' * BSIZE < off + Z.of_nat (length src) + BSIZE);
  wr_same : same_but_addrs p p';
  wr_new : forall j x, src !! j = Some x -> fbyte V' p' (off + Z.of_nat j) = x;
  wr_old : forall o, 0 <= o < Z.of_nat nb * BSIZE -> o < off \/ off + Z.of_nat (length src) <= o -> fbyte V' p' o = fbyte V p o;
  wr_frame : forall n, is_data V n -> n <> addr_at p NDIRECT -> (forall k, (k < nb)%nat -> n <> baddr V p k) -> V' n = V n;
  wr_ino : forall n, 0 <= n < ninodes sb -> V' (IBLOCK n sb) = V (IBLOCK n sb);
  wr_used : forall n, 0 <= n < sb_size sb -> used V sb n = true -> used V' sb n = true;
  wr_meta : meta_used V' sb ds;
  wr_own : addr_at p' NDIRECT = addr_at p NDIRECT \/ (addr_at p NDIRECT = 0 /\ is_data V' (addr_at p' NDIRECT) /\ used V sb (addr_at p' NDIRECT) = false);
  wr_fresh : forall k, (nb <= k < nb')%nat -> used V sb (baddr V' p' k) = false;
  wr_kept : forall k, (k < nb)%nat -> baddr V' p' k = baddr V p k;
  wr_stay : nb' = nb -> p' = p
}.

Lemma wrote_data V p nb V' p' nb' off src n : wrote V p nb V' p' nb' off src -> is_data V n -> is_data V' n.
Proof. intros H [Hr Hu]. split; [done|]. apply (wr_used _ _ _ _ _ _ _ _ H); [|done]. destruct (ly_size _ _ _ Hly). lia. Qed.

Lemma unused_before V p nb V' p' nb' off src n : wrote V p nb V' p' nb' off src -> 0 <= n < sb_size sb -> used V' sb n = false -> used V sb n = false.
Proof. intros H Hn Hu. destruct (used V sb n) eqn:E; [|done]. by rewrite (wr_used _ _ _ _ _ _ _ _ H n Hn E) in Hu. Qed.

Lemma data_range V n : is_data V n -> 0 <= n < sb_size sb.
Proof. intros [Hr _]. destruct (ly_size _ _ _ Hly). lia. Qed.

(** Two consecutive writes. *)
Lemma wrote_trans V p nb V1 p1 nb1 V2 p2 nb2 off src1 src2 :
  wrote V p nb V1 p1 nb1 off src1 -> wrote V1 p1 nb1 V2 p2 nb2 (off + Z.of_nat (length src1)) src2 -> 0 <= off ->
  wrote V p nb V2 p2 nb2 off (src1 ++ src2).
Proof.
  intros A B Ho. destruct (wr_nb _ _ _ _ _ _ _ _ A) as (A1 & A2 & A3). destruct (wr_nb _ _ _ _ _ _ _ _ B) as (B1 & B2 & B3). unfold BSIZE in *.
  assert (Hown : addr_at p1 NDIRECT <> 0 -> addr_at p NDIRECT <> 0 -> addr_at p1 NDIRECT = addr_at p NDIRECT) by (destruct (wr_own _ _ _ _ _ _ _ _ A) as [->|(-> & _)]; done).
  split.
  - apply B.
  - rewrite length_app. unfold BSIZE. split_and!; [lia|lia|]. intros Hlt. destruct (decide (nb1 < nb2)%nat) as [H|H]; [specialize (B3 H); lia|]. assert (nb < nb1)%nat as H1 by lia. specialize (A3 H1). lia.
  - destruct (wr_same _ _ _ _ _ _ _ _ A) as [m ->], (wr_same _ _ _ _ _ _ _ _ B) as [m' ->]. by exists m'.
  - intros j x Hj. apply lookup_app_Some in Hj as [Hj|[Hj1 Hj2]].
    + assert (Hjl := lookup_lt_Some _ _ _ Hj). rewrite (wr_old _ _ _ _ _ _ _ _ B); [by apply (wr_new _ _ _ _ _ _ _ _ A)|unfold BSIZE; lia|lia].
    + replace (off + Z.of_nat j) with (off + Z.of_nat (length src1) + Z.of_nat (j - length src1)) by lia. by apply (wr_new _ _ _ _ _ _ _ _ B).
  - intros o Hr Hout. rewrite length_app in Hout. rewrite (wr_old _ _ _ _ _ _ _ _ B) by (unfold BSIZE in *; lia). apply (wr_old _ _ _ _ _ _ _ _ A); [done|lia].
  - intros n Hn Hno Hnk. rewrite (wr_frame _ _ _ _ _ _ _ _ B); [by apply (wr_frame _ _ _ _ _ _ _ _ A)|by eapply wrote_data| |].
    + destruct (wr_own _ _ _ _ _ _ _ _ A) as [->|(_ & _ & Hu)]; [done|]. intros ->. destruct Hn. congruence.
    + intros k Hk. destruct (decide (k < nb)%nat) as [Hk'|Hk']; [rewrite (wr_kept _ _ _ _ _ _ _ _ A) by done; by apply Hnk|].
      intros ->. pose proof (wr_fresh _ _ _ _ _ _ _ _ A k ltac:(lia)). destruct Hn. congruence.
  - intros n Hn. rewrite (wr_ino _ _ _ _ _ _ _ _ B) by done. by apply (wr_ino _ _ _ _ _ _ _ _ A).
  - intros n Hn Hu. apply (wr_used _ _ _ _ _ _ _ _ B); [done|]. by apply (wr_used _ _ _ _ _ _ _ _ A).
  - apply B.
  - destruct (wr_own _ _ _ _ _ _ _ _ A) as [E1|(E1 & D1 & U1)], (wr_own _ _ _ _ _ _ _ _ B) as [E2|(E2 & D2 & U2)].
    + left. congruence.
    + right. split_and!; [congruence|done|]. eapply unused_before; [exact A|by eapply data_range|done].
    + right. rewrite E2. split_and!; [done|by eapply wrote_data|done].
    + right. split_and!; [done..|]. eapply unused_before; [exact A|by eapply data_range|done].
  - intros k Hk. destruct (decide (k < nb1)%nat) as [Hk1|Hk1].
    + rewrite (wr_kept _ _ _ _ _ _ _ _ B) by done. apply (wr_fresh _ _ _ _ _ _ _ _ A). lia.
    + eapply unused_before; [exact A| |apply (wr_fresh _ _ _ _ _ _ _ _ B); lia]. eapply data_range, (mp_data _ _ _ _ _ (wr_map _ _ _ _ _ _ _ _ B)). lia.
  - intros k Hk. rewrite (wr_kept _ _ _ _ _ _ _ _ B) by lia. by apply (wr_kept _ _ _ _ _ _ _ _ A).
  - intros E. rewrite (wr_stay _ _ _ _ _ _ _ _ B) by lia. apply (wr_stay _ _ _ _ _ _ _ _ A). lia.
Qed.

Lemma same_refl p : same_but_addrs p p.
Proof. exists (i_addrs p). by destruct p. Qed.

Lemma baddr_ext V V' p k : (addr_at p NDIRECT <> 0 -> V' (addr_at p NDIRECT) = V (addr_at p NDIRECT)) ->
  (k < NDIRECT)%nat \/ addr_at p NDIRECT <> 0 -> baddr V' p k = baddr V p k.
Proof. intros H Hk. unfold baddr. case_decide; [done|]. destruct Hk as [?|Hk]; [done|]. by rewrite H. Qed.

Lemma mapped_ext V V' p nb : mapped V p nb -> (addr_at p NDIRECT <> 0 -> V' (addr_at p NDIRECT) = V (addr_at p NDIRECT)) ->
  (forall n, is_data V n -> is_data V' n) -> mapped V' p nb.
Proof.
  intros [Hmax Hal Hd Hi Hz Hs Hind] HV HD.
  assert (Hb : forall k, (k < nb)%nat -> baddr V' p k = baddr V p k).
  { intros k Hk. apply baddr_ext; [done|]. destruct (decide (k < NDIRECT)%nat); [by left|right]. apply Hs. lia. }
  split; try done.
  - intros k Hk. rewrite Hb by done. by apply HD, Hd.
  - intros j k Hj Hk. rewrite !Hb by done. by apply Hi.
  - intros Hne. destruct (Hind Hne) as (I1 & I2 & I3). split_and!; [by apply HD| |].
    + intros k Hk. rewrite Hb by done. by apply I2.
    + intros k K1 K2 K3. rewrite HV by done. by apply I3.
Qed.

(** Bytes inside one block of the file. *)
Lemma wrote_block V p nb off src :
  mapped V p nb -> meta_used V sb ds -> 0 <= off -> (Z.to_nat (off / BSIZE) < nb)%nat -> Z.of_nat (length src) <= BSIZE - off mod BSIZE ->
  (forall k, (k < nb)%nat -> length (V (baddr V p k)) = 512%nat) ->
  let a := baddr V p (Z.to_nat (off / BSIZE)) in
  wrote V p nb (vset V a (patch (Z.to_nat (off mod BSIZE)) src (V a))) p nb off src.
Proof.
  intros Hmp Hm Ho Hk Hlen Hl a. unfold BSIZE in *. set (k := Z.to_nat (off / 512)) in *. set (V' := vset V a _).
  assert (Hda : is_data V a) by (by apply (mp_data _ _ _ _ _ Hmp)). assert (Hmod := Z.mod_pos_bound off 512 ltac:(lia)).
  assert (Hind : addr_at p NDIRECT <> 0 -> a <> addr_at p NDIRECT) by (intros Hne; destruct (mp_ind _ _ _ _ _ Hmp Hne) as (_ & I2 & _); by apply I2).
  assert (Hkeep : addr_at p NDIRECT <> 0 -> V' (addr_at p NDIRECT) = V (addr_at p NDIRECT)) by (intros Hne; unfold V'; apply vset_ne; by apply not_eq_sym, Hind).
  assert (HD : forall n, is_data V n -> is_data V' n).
  { intros n [Hr Hu]. split; [done|]. unfold V'. rewrite (vset_used g sb ds Hly); [done|apply Hda|destruct (ly_size _ _ _ Hly); lia]. }
  assert (Hb : forall j, (j < nb)%nat -> baddr V' p j = baddr V p j).
  { intros j Hj. apply baddr_ext; [done|]. destruct (decide (j < NDIRECT)%nat); [by left|right]. apply (mp_some _ _ _ _ _ Hmp). lia. }
  assert (Hby : forall o, 0 <= o < Z.of_nat nb * 512 -> fbyte V' p o =
    if decide (off <= o < off + Z.of_nat (length src)) then default 0 (src !! Z.to_nat (o - off)) else fbyte V p o).
  { intros o Hor. unfold fbyte, BSIZE. set (j := Z.to_nat (o / 512)). assert (Hj : (j < nb)%nat) by (unfold j; Z.div_mod_to_equations; lia).
    assert (Hom := Z.mod_pos_bound o 512 ltac:(lia)). rewrite Hb by done. destruct (decide (j = k)) as [Ejk|Hjk].
    - rewrite Ejk. fold a. unfold V'. rewrite vset_eq, patch_lookup by (unfold a; rewrite Hl by done; lia).
      assert (Eo : o / 512 = off / 512) by (unfold j, k in Ejk; apply Z2Nat.inj in Ejk; [done|apply Z.div_pos; lia..]).
      do 2 case_decide; try done; try (exfalso; Z.div_mod_to_equations; lia).
      f_equal. f_equal. Z.div_mod_to_equations; lia.
    - unfold V'. rewrite vset_ne by (intros E; apply Hjk; by apply (mp_inj _ _ _ _ _ Hmp)).
      rewrite decide_False; [done|]. intros Hin. apply Hjk. unfold j, k. f_equal. Z.div_mod_to_equations. lia. }
  split.
  - by apply (mapped_ext V).
  - unfold BSIZE. split_and!; [lia| |lia]. unfold k in Hk. Z.div_mod_to_equations. lia.
  - apply same_refl.
  - intros j x Hj. assert (Hjl := lookup_lt_Some _ _ _ Hj). rewrite Hby by (unfold k in Hk; Z.div_mod_to_equations; lia). rewrite decide_True by lia.
    replace (Z.to_nat (off + Z.of_nat j - off)) with j by lia. by rewrite Hj.
  - intros o Hor Hout. rewrite Hby by done. by rewrite decide_False by lia.
  - intros n Hn Hno Hnk. unfold V'. apply vset_ne. by apply Hnk.
  - intros n Hn. unfold V'. apply vset_ne. pose proof (proj2 (ly_ino _ _ _ Hly n Hn)). destruct Hda. lia.
  - intros n Hn Hu. unfold V'. by rewrite (vset_used g sb ds Hly) by (done || apply Hda).
  - intros n Hn. unfold V'. rewrite (vset_used g sb ds Hly); [by apply Hm|apply Hda|destruct (ly_size _ _ _ Hly); lia].
  - by left.
  - intros j Hj. lia.
  - done.
  - done.
Qed.

(** The first bytes of a block that [bmap] has added. *)
Lemma wrote_added V p nb V1 p1 T T1 a V2 p2 off src :
  mapped V p nb -> added sb ds V p T nb V1 p1 T1 a -> wrote V1 p1 (S nb) V2 p2 (S nb) off src -> off = Z.of_nat nb * BSIZE -> src <> [] ->
  meta_used V sb ds -> 0 < ds ->
  wrote V p nb V2 p2 (S nb) off src.
Proof.
  intros Hmp A W Hoff Hne Hm H0. destruct (ad_new _ _ _ _ _ _ _ _ _ _ A) as (A1 & A2 & A3). assert (G := ad_grows _ _ _ _ _ _ _ _ _ _ A).
  assert (HD : forall n, is_data V n -> is_data V1 n) by (intros n; by eapply grows_data). unfold BSIZE in *.
  assert (Hl2 : (0 < length src)%nat) by (destruct src; [done|cbn; lia]). destruct (wr_nb _ _ _ _ _ _ _ _ W) as (N1 & N2 & _). unfold BSIZE in N2.
  split.
  - apply W.
  - unfold BSIZE. split_and!; lia.
  - destruct (ad_fields _ _ _ _ _ _ _ _ _ _ A) as [m ->], (wr_same _ _ _ _ _ _ _ _ W) as [m' ->]. by exists m'.
  - apply W.
  - intros o Hor Hout. unfold BSIZE in Hor. rewrite (wr_old _ _ _ _ _ _ _ _ W) by (unfold BSIZE; lia). unfold fbyte, BSIZE.
    set (k := Z.to_nat (o / 512)). assert (Hk : (k < nb)%nat) by (unfold k; Z.div_mod_to_equations; lia).
    rewrite (ad_old _ _ _ _ _ _ _ _ _ _ A) by done. rewrite (gr_data _ _ _ _ _ G); [done|by apply (mp_data _ _ _ _ _ Hmp)|].
    intros E. destruct (decide (addr_at p NDIRECT = 0)) as [Ez|Ez].
    + destruct (mp_data _ _ _ _ _ Hmp k Hk). lia.
    + destruct (mp_ind _ _ _ _ _ Hmp Ez) as (_ & I2 & _). by apply (I2 k).
  - intros n Hn Hno Hnk. rewrite (wr_frame _ _ _ _ _ _ _ _ W); [by apply (gr_data _ _ _ _ _ G)|by apply HD| |].
    + destruct (ad_own _ _ _ _ _ _ _ _ _ _ A) as [->|[_ Hu]]; [done|]. intros ->. destruct Hn. congruence.
    + intros k Hk. destruct (decide (k = nb)) as [->|]; [rewrite A1; intros ->; destruct Hn; congruence|].
      rewrite (ad_old _ _ _ _ _ _ _ _ _ _ A) by lia. apply Hnk. lia.
  - intros n Hn. rewrite (wr_ino _ _ _ _ _ _ _ _ W) by done. by apply (gr_ino _ _ _ _ _ G).
  - intros n Hn Hu. apply (wr_used _ _ _ _ _ _ _ _ W); [done|]. by apply (gr_used _ _ _ _ _ G).
  - apply W.
  - assert (E : addr_at p2 NDIRECT = addr_at p1 NDIRECT \/ addr_at p1 NDIRECT = 0).
    { destruct (wr_own _ _ _ _ _ _ _ _ W) as [->|[? _]]; [by left|by right]. }
    destruct (ad_own _ _ _ _ _ _ _ _ _ _ A) as [E1|[E1 U1]], (wr_own _ _ _ _ _ _ _ _ W) as [E2|(E2 & D2 & U2)].
    + left. congruence.
    + right. split_and!; [congruence|done|]. destruct (used V sb (addr_at p2 NDIRECT)) eqn:Hu; [|done].
      rewrite (gr_used _ _ _ _ _ G) in U2; [done|by eapply data_range|done].
    + right. rewrite E2. split_and!; [done| |done]. eapply wrote_data; [exact W|]. apply (mp_ind _ _ _ _ _ (ad_mapped _ _ _ _ _ _ _ _ _ _ A)).
      intros Ez. rewrite Ez in U1. rewrite Hm in U1 by lia. done.
    + rewrite E2 in U1. rewrite Hm in U1 by lia. done.
  - intros k Hk. replace k with nb by lia. rewrite (wr_kept _ _ _ _ _ _ _ _ W) by lia. by rewrite A1.
  - intros k Hk. rewrite (wr_kept _ _ _ _ _ _ _ _ W) by lia. by apply (ad_old _ _ _ _ _ _ _ _ _ _ A).
  - lia.
Qed.

Lemma wrote_nil V p nb off : mapped V p nb -> meta_used V sb ds -> off <= Z.of_nat nb * BSIZE -> wrote V p nb V p nb off [].
Proof.
  intros Hmp Hm Ho. split; try done.
  - unfold BSIZE in *. split_and!; [lia|change (length []) with 0%nat; lia|lia].
  - apply same_refl.
  - by left.
  - intros k Hk. lia.
Qed.

Lemma mapped_u32 V p nb : mapped V p nb -> Forall is_u32 (i_addrs p).
Proof.
  intros Hmp. apply Forall_lookup_2. intros k x Hx. assert (Hlt := lookup_lt_Some _ _ _ Hx). rewrite (mp_len _ _ _ _ _ Hmp) in Hlt.
  assert (E : addr_at p k = x) by (unfold addr_at; by rewrite Hx). rewrite <- E. destruct (ly_size _ _ _ Hly) as (_ & Hds & Hsz).
  assert (HD : forall a, is_data V a -> is_u32 a) by (intros a [Ha _]; unfold is_u32; lia).
  destruct (decide (k = NDIRECT)) as [->|Hne].
  - destruct (decide (addr_at p NDIRECT = 0)) as [->|Hnz]; [by unfold is_u32|]. apply HD, (mp_ind _ _ _ _ _ Hmp Hnz).
  - unfold NDIRECT in Hne. destruct (decide (k < nb)%nat) as [Hk|Hk].
    + pose proof (mp_data _ _ _ _ _ Hmp k Hk) as Hd. unfold baddr in Hd. rewrite decide_True in Hd by (unfold NDIRECT; lia). by apply HD.
    + rewrite (mp_zero _ _ _ _ _ Hmp) by (unfold NDIRECT; lia). by unfold is_u32.
Qed.

(** The blocks that [n] bytes at [off] lie in. *)
Definition touched (off n : Z) : Z := if n =? 0 then 0 else (off mod BSIZE + n + 511) / BSIZE.

Lemma touched_step off n m : 0 <= off -> 0 < n -> m = Z.min n (BSIZE - off mod BSIZE) -> touched (off + m) (n - m) + 1 = touched off n.
Proof.
  unfold touched, BSIZE. intros Ho Hn ->. assert (Hmod := Z.mod_pos_bound off 512 ltac:(lia)). rewrite (proj2 (Z.eqb_neq n 0)) by lia.
  destruct (Z.eqb_spec (n - Z.min n (512 - off mod 512)) 0) as [E|E]; [Z.div_mod_to_equations; lia|].
  replace (Z.min n (512 - off mod 512)) with (512 - off mod 512) by lia.
  replace ((off + (512 - off mod 512)) mod 512) with 0 by (Z.div_mod_to_equations; lia). Z.div_mod_to_equations. lia.
Qed.

Lemma touched_nonneg off n : 0 <= n -> 0 <= touched off n.
Proof.
  unfold touched, BSIZE. intros Hn. destruct (n =? 0); [done|]. assert (Hmod := Z.mod_pos_bound off 512 ltac:(lia)). Z.div_mod_to_equations. lia.
Qed.
End Pure.

(** ** [writei] *)

Section Writei.
Context {S : Type} `{!HasCtx S, !Txn S}.
Context (i : nat) (c : cpu) (g : tgeo) (sb : superblock) (ds : Z) (pid : Z) (cwd : nat).
Hypothesis (Hly : layout g sb ds).
Implicit Types (s : fsst S) (V : Z -> block) (T D : gset Z) (l : list inode) (K : gset nat) (p : inode).
Notation fsrep := (fsrep i c g sb pid cwd).
Notation mapped := (mapped sb ds).
Notation free_list := (free_list sb).
Notation wrote := (wrote sb ds).

(** The blocks logged so far: data blocks [D], the indirect block, the free map, and what
    was logged before. *)
Definition logged_in T D p T0 : Prop := T ⊆ D ∪ (ind_set p ∪ (bm_set sb ∪ T0)).

Lemma ind_size p : (size (ind_set p) <= 1)%nat.
Proof. unfold ind_set. case_decide; [rewrite size_empty; lia|rewrite size_singleton; lia]. Qed.

Lemma logged_size T D p T0 : logged_in T D p T0 -> (size T <= size D + 1 + size (bm_set sb ∪ T0))%nat.
Proof.
  intros H. apply subseteq_size in H. pose proof (ind_size p). rewrite !size_union_alt in H.
  assert (size ((ind_set p ∪ (bm_set sb ∪ T0)) ∖ D) <= size (ind_set p) + size (bm_set sb ∪ T0))%nat.
  { etransitivity; [apply subseteq_size, subseteq_difference_l; reflexivity|]. rewrite size_union_alt.
    assert (size ((bm_set sb ∪ T0) ∖ ind_set p) <= size (bm_set sb ∪ T0))%nat by (apply subseteq_size; set_solver). lia. }
  lia.
Qed.

Lemma ind_mono V p nb V' p' nb' off src : wrote V p nb V' p' nb' off src -> ind_set p ⊆ ind_set p'.
Proof. intros W. unfold ind_set. destruct (wr_own _ _ _ _ _ _ _ _ _ _ W) as [->|[-> _]]; [done|]. rewrite decide_True by done. set_solver. Qed.

(** [bread(a); memmove; log_write; brelse] *)
Lemma wp_put_block {A} s V T l K (d a : Z) (o : nat) (src : list Z) (k : M (fsst S) A) Q W :
  fsrep s V ∅ T l K -> d = 1 -> usable g a -> (o + length src <= 512)%nat -> (size T + 1 <= NBUF)%nat -> (size T + 1 <= g_cap g)%nat ->
  (forall s', fsrep s' (vset V a (patch o src (V a))) ∅ ({[a]} ∪ T) l K -> wp (k s') Q W) ->
  wp ((bp <- bread d a ;; x <- data_of bp ;; set_data_of bp (patch o src x) ;; log_write bp ;; brelse bp ;; k) s) Q W.
Proof.
  intros Hr -> Hu Hfit Hroom Hcap HQ. apply wp_step.
  eapply wp_fbread; [exact (fr_tx _ _ _ _ _ _ _ _ _ _ _ _ Hr)|done|done|apply roomy_of; rewrite dom_empty_L, size_empty; lia|]. intros r x1 H1.
  assert (Hrd : forall t, th (ts_read a r t) !! a = Some r) by (intros t; cbn; by rewrite lookup_insert_eq).
  apply wp_step. eapply wp_fdata; [exact H1|apply Hrd|]. cbn [tv ts_read].
  assert (Hl : length (V a) = 512%nat) by (eapply (fs_at_len i c g); [apply Hr|done]).
  apply wp_step. eapply wp_fset_data; [exact H1|apply Hrd|by apply block_patch|]. intros x2 H2.
  apply wp_step. eapply wp_flog_write; [exact H2|apply Hrd|cbn; lia|]. intros x3 H3.
  apply wp_step. eapply wp_fbrelse; [exact H3|apply Hrd|cbn; clear; set_solver|]. intros x4 H4. rewrite ts_update in H4 by done. cbn [tv th tlog] in H4.
  apply HQ. eapply (fsrep_store i c g sb pid cwd s x4); [exact Hr|exact H4].
Qed.

Lemma wp_write_turn {A} s V T l K ip p nb off src (k : M (fsst S) A) Q W :
  fsrep s V ∅ T l K -> l !! ip = Some p -> i_dev p = 1 -> mapped V p nb -> meta_used V sb ds -> 0 < ds ->
  0 <= off <= Z.of_nat nb * BSIZE -> src <> [] -> Z.of_nat (length src) <= BSIZE - off mod BSIZE -> off < MAXFILE * BSIZE ->
  (2 <= length (free_list V))%nat -> (size T + 6 <= NBUF)%nat -> (size T + 6 <= g_cap g)%nat ->
  (forall s' V' p' nb' T' a, fsrep s' V' ∅ T' (<[ip := p']> l) K -> wrote V p nb V' p' nb' off src ->
     T' ⊆ {[a]} ∪ (ind_set p' ∪ (bm_set sb ∪ T)) -> (exists n, free_list V' = drop n (free_list V) /\ (n <= 2)%nat) -> wp (k s') Q W) ->
  wp ((p <- ino ip ;; addr <- bmap ip (off / BSIZE) ;; bp <- bread (i_dev p) addr ;; x <- data_of bp ;;
       set_data_of bp (patch (Z.to_nat (off mod BSIZE)) src x) ;; log_write bp ;; brelse bp ;; k) s) Q W.
Proof.
  intros Hr Hp Hdev Hmp Hm H0 Ho Hne Hlen Hmax Hfree Hroom Hcap HQ. unfold BSIZE in *. assert (Hmod := Z.mod_pos_bound off 512 ltac:(lia)).
  apply wp_step. eapply wp_ino; [by rewrite (fr_ic _ _ _ _ _ _ _ _ _ _ _ _ Hr)|]. apply wp_step. set (j := Z.to_nat (off / 512)).
  assert (Hj : off / 512 = Z.of_nat j) by (unfold j; rewrite Z2Nat.id; [done|apply Z.div_pos; lia]). rewrite Hj.
  assert (Hlens : forall V1 T1 l1 s1 p1 nb1, fsrep s1 V1 ∅ T1 l1 K -> mapped V1 p1 nb1 -> forall k0, (k0 < nb1)%nat -> length (V1 (baddr V1 p1 k0)) = 512%nat).
  { intros V1 T1 l1 s1 p1 nb1 R1 M1 k0 Hk0. eapply (fs_at_len i c g); [apply R1|]. eapply data_usable; [exact Hly|]. by apply (mp_data _ _ _ _ _ M1). }
  destruct (decide (j < nb)%nat) as [Hlt|Hge].
  - eapply (wp_bmap_old i c g sb ds pid cwd Hly); [exact Hr|done|done|exact Hmp|done|done|lia|]. intros s1 R1. rewrite Hdev.
    eapply wp_put_block; [exact R1|done|eapply data_usable; [exact Hly|by apply (mp_data _ _ _ _ _ Hmp)]|lia|lia|lia|]. intros s2 R2.
    eapply (HQ _ _ p nb _ (baddr V p j)).
    + rewrite list_insert_id by done. exact R2.
    + pose proof (wrote_block g sb ds Hly V p nb off src Hmp Hm ltac:(lia) ltac:(exact Hlt) Hlen) as Wr. unfold BSIZE in Wr. fold j in Wr. apply Wr.
      by eapply Hlens.
    + clear. set_solver.
    + exists 0%nat. split; [|lia]. rewrite drop_0. apply (free_list_vset g sb ds Hly), (mp_data _ _ _ _ _ Hmp). done.
  - assert (Ej : j = nb) by (Z.div_mod_to_equations; lia). rewrite Ej. assert (Eoff : off = Z.of_nat nb * 512) by (rewrite <- Ej, <- Hj; Z.div_mod_to_equations; lia).
    eapply (wp_bmap_new i c g sb ds pid cwd Hly); [exact Hr|done|done|exact Hmp|unfold MAXFILE in *; lia|done|done|done|done|done|].
    intros s1 V1 p1 T1 a R1 Ad. rewrite Hdev. assert (Hmp1 := ad_mapped _ _ _ _ _ _ _ _ _ _ Ad). destruct (ad_new _ _ _ _ _ _ _ _ _ _ Ad) as (A1 & A2 & A3).
    assert (HT1 := ad_size _ _ _ _ _ _ _ _ _ _ Ad). assert (Hua : usable g a).
    { eapply data_usable; [exact Hly|]. rewrite <- A1. apply (mp_data _ _ _ _ _ Hmp1). lia. }
    eapply wp_put_block; [exact R1|done|exact Hua|lia|lia|lia|]. intros s2 R2.
    eapply (HQ _ _ p1 (Datatypes.S nb) _ a); [exact R2| | |].
    + eapply (wrote_added g sb ds Hly); [exact Hmp|exact Ad| |done|done|done|done].
      pose proof (wrote_block g sb ds Hly V1 p1 (Datatypes.S nb) off src Hmp1 (gr_meta _ _ _ _ _ (ad_grows _ _ _ _ _ _ _ _ _ _ Ad)) ltac:(lia)) as Wr.
      unfold BSIZE in Wr. fold j in Wr. rewrite Ej, A1 in Wr. apply Wr; [lia|done|by eapply Hlens].
    + pose proof (ad_log _ _ _ _ _ _ _ _ _ _ Ad) as HL. clear -HL. set_solver.
    + rewrite (free_list_vset g sb ds Hly); [apply Ad|]. rewrite <- A1. apply (mp_data _ _ _ _ _ Hmp1). lia.
Qed.

(** At most two blocks of the free list per block written were taken, from its front. *)
Definition taken V V' (r : Z) : Prop := exists k, free_list V' = drop k (free_list V) /\ Z.of_nat k <= 2 * r.

Lemma taken_refl V r : 0 <= r -> taken V V r.
Proof. intros Hr. exists 0%nat. split; [done|lia]. Qed.

Lemma taken_trans V1 V2 V3 r : taken V1 V2 1 -> taken V2 V3 r -> taken V1 V3 (r + 1).
Proof. intros (k1 & E1 & H1) (k2 & E2 & H2). exists (k1 + k2)%nat. rewrite E2, E1, drop_drop. split; [done|lia]. Qed.

Lemma wp_writei_loop fuel s V T D T0 l K ip p nb src off tot n Q W :
  fsrep s V ∅ T l K -> l !! ip = Some p -> i_dev p = 1 -> mapped V p nb -> meta_used V sb ds -> 0 < ds ->
  logged_in T D p T0 -> 0 <= off <= Z.of_nat nb * BSIZE -> n = tot + Z.of_nat (length src) -> off + Z.of_nat (length src) <= MAXFILE * BSIZE ->
  let r := touched off (Z.of_nat (length src)) in
  r + 1 <= Z.of_nat fuel -> 2 * r <= Z.of_nat (length (free_list V)) ->
  Z.of_nat (size D) + r + Z.of_nat (size (bm_set sb ∪ T0)) + 7 <= Z.of_nat NBUF ->
  Z.of_nat (size D) + r + Z.of_nat (size (bm_set sb ∪ T0)) + 7 <= Z.of_nat (g_cap g) ->
  (forall s' V' p' nb' T' D', fsrep s' V' ∅ T' (<[ip := p']> l) K -> wrote V p nb V' p' nb' off src -> logged_in T' D' p' T0 ->
     Z.of_nat (size D') <= Z.of_nat (size D) + r -> taken V V' r -> Q (off + Z.of_nat (length src)) s') ->
  wp (writei_loop fuel ip src off tot n s) Q W.
Proof.
  revert s V T D l p nb src off tot. induction fuel as [|fuel IH]; intros s V T D l p nb src off tot Hr Hp Hdev Hmp Hm H0 Hlog Ho Hn Hmax r Hfuel Hfree Hb1 Hb2 HQ.
  { pose proof (touched_nonneg off (Z.of_nat (length src)) ltac:(lia)). fold r in H. lia. }
  cbn [writei_loop]. destruct (Z.ltb_spec tot n) as [Hlt|Hge].
  2: { cbn. assert (length src = 0%nat) as El by lia. apply nil_length_inv in El as ->. assert (E0 : off + Z.of_nat (length (@nil Z)) = off) by (cbn; lia). rewrite E0 in HQ.
       eapply (HQ s V p nb T D); [by rewrite list_insert_id|apply wrote_nil; [done|done|lia]|done| |apply taken_refl, touched_nonneg; lia]. assert (r = 0) as -> by reflexivity. lia. }
  assert (Hne : src <> []) by (intros ->; cbn in Hn; lia). set (m := Z.min (n - tot) (BSIZE - off mod BSIZE)).
  assert (Hlen0 : 0 < Z.of_nat (length src)) by lia. assert (Hmod : 0 <= off mod BSIZE < BSIZE) by (by apply Z.mod_pos_bound).
  assert (Em : m = Z.min (Z.of_nat (length src)) (BSIZE - off mod BSIZE)) by (unfold m; f_equal; lia).
  assert (Hst := touched_step off _ m ltac:(lia) Hlen0 Em). fold r in Hst. assert (Hm0 : 0 < m) by lia.
  assert (Hr1 := touched_nonneg (off + m) (Z.of_nat (length src) - m) ltac:(lia)).
  assert (Hlt1 : length (take (Z.to_nat m) src) = Z.to_nat m) by (rewrite length_take; lia).
  assert (Hsz := logged_size _ _ _ _ Hlog).
  eapply wp_write_turn; [exact Hr|done|done|exact Hmp|done|done|lia| | |lia|lia|lia|lia|].
  { intros E. apply (f_equal length) in E. rewrite Hlt1 in E. cbn in E. lia. }
  { rewrite Hlt1. lia. }
  intros s' V' p' nb' T' a R' Wr HT (nf & Hfl & Hnf).
  assert (Hlens : length (drop (Z.to_nat m) src) = (length src - Z.to_nat m)%nat) by apply length_drop.
  destruct (wr_nb _ _ _ _ _ _ _ _ _ _ Wr) as (N1 & N2 & N3). rewrite Hlt1, Z2Nat.id in N2 by lia.
  destruct (wr_same _ _ _ _ _ _ _ _ _ _ Wr) as [ma Ep].
  assert (Hlog' : logged_in T' ({[a]} ∪ D) p' T0).
  { pose proof (ind_mono _ _ _ _ _ _ _ _ Wr) as Hi. unfold logged_in in *. clear -HT Hlog Hi. set_solver. }
  assert (HsD := size_add a D).
  replace (Z.of_nat (length src) - m) with (Z.of_nat (length (drop (Z.to_nat m) src))) in Hst, Hr1 by (rewrite Hlens; lia).
  eapply (IH s' V' T' ({[a]} ∪ D) (<[ip := p']> l) p' nb'); [exact R'|apply list_lookup_insert_eq; by eapply lookup_lt_Some|by rewrite Ep|apply Wr|apply Wr|done|exact Hlog'|lia|rewrite Hlens; lia|rewrite Hlens; lia|lia| |lia|lia|].
  - rewrite Hfl. pose proof (length_drop (free_list V) nf). lia.
  - intros s2 V2 p2 nb2 T2 D2 R2 W2 HL2 HD2 HF2. rewrite list_insert_insert_eq in R2.
    replace (off + m + Z.of_nat (length (drop (Z.to_nat m) src))) with (off + Z.of_nat (length src)) by (rewrite Hlens; lia).
    eapply (HQ s2 V2 p2 nb2 T2 D2); [exact R2| |exact HL2|lia|rewrite <- Hst; eapply taken_trans; [exists nf; split; [exact Hfl|lia]|exact HF2]].
    rewrite <- (take_drop (Z.to_nat m) src). eapply (wrote_trans g sb ds Hly); [exact Wr| |lia]. rewrite Hlt1, Z2Nat.id by lia. exact W2.
Qed.

(** The disk has the inode as it is in the cache. *)
Definition synced V p : Prop := get_dinode (i_inum p) (V (IBLOCK (i_inum p) sb)) = dinode_of p.

(** A file open for writing: cached, well-formed, its disk inode up to date. *)
Record open_file V l (ip : nat) p : Prop := {
  of_file : file_at sb ds V l ip p;
  of_cached : cached sb l ip p;
  of_wf : ino_wf p;
  of_sync : synced V p
}.

(** [src] written at [off] of the file [p]. *)
Record written V p V' p' (off : Z) (src : list Z) : Prop := {
  wn_size : i_size p' = Z.max (i_size p) (off + Z.of_nat (length src));
  wn_new : forall j x, src !! j = Some x -> fbyte V' p' (off + Z.of_nat j) = x;
  wn_old : forall o, 0 <= o < i_size p -> o < off \/ off + Z.of_nat (length src) <= o -> fbyte V' p' o = fbyte V p o;
  wn_frame : forall n, is_data sb ds V n -> n <> addr_at p NDIRECT -> (forall k, (k < blocks_of (i_size p))%nat -> n <> baddr V p k) -> V' n = V n;
  wn_dinodes : forall m, 0 <= m < ninodes sb -> m <> i_inum p -> get_dinode m (V' (IBLOCK m sb)) = get_dinode m (V (IBLOCK m sb));
  wn_used : forall n, 0 <= n < sb_size sb -> used V sb n = true -> used V' sb n = true;
  wn_meta : meta_used V' sb ds;
  wn_own : addr_at p' NDIRECT = addr_at p NDIRECT \/ (is_data sb ds V' (addr_at p' NDIRECT) /\ used V sb (addr_at p' NDIRECT) = false);
  wn_blocks : forall k, (k < blocks_of (i_size p'))%nat ->
    (k < blocks_of (i_size p))%nat /\ baddr V' p' k = baddr V p k \/ (is_data sb ds V' (baddr V' p' k) /\ used V sb (baddr V' p' k) = false);
  wn_same : exists z m, p' = mkinode (i_dev p) (i_inum p) (i_ref p) (i_valid p) (i_type p) (i_major p) (i_minor p) (i_nlink p) z m
}.

Lemma iblock_same m n : 0 <= m -> 0 <= n -> IBLOCK m sb = IBLOCK n sb -> m <> n -> m mod IPB <> n mod IPB.
Proof. unfold IBLOCK, IPB. intros. Z.div_mod_to_equations. lia. Qed.

Lemma ino_wf_same p z m : ino_wf p -> is_u32 z -> length m = 13%nat -> Forall is_u32 m ->
  ino_wf (mkinode (i_dev p) (i_inum p) (i_ref p) (i_valid p) (i_type p) (i_major p) (i_minor p) (i_nlink p) z m).
Proof. intros [] Hz Hl Hm. by split. Qed.

Section Call.
Context (dev_write : Z -> option (nat -> list Z -> M (fsst S) Z)).

(** The update of the inode behind the loop, when the file has grown to [z] bytes. *)
Lemma wp_grow s V T l K ip p nb z Q W :
  fsrep s V ∅ T l K -> cached sb l ip p -> ino_wf p -> mapped V p nb -> meta_used V sb ds -> is_u32 z -> (size T + 1 <= NBUF)%nat -> (size T + 1 <= g_cap g)%nat ->
  (forall s' V', fsrep s' V' ∅ ({[IBLOCK (i_inum p) sb]} ∪ T) (<[ip := set_size z p]> l) K -> mapped V' (set_size z p) nb -> meta_used V' sb ds ->
     synced V' (set_size z p) -> (forall m, 0 <= m < ninodes sb -> m <> i_inum p -> get_dinode m (V' (IBLOCK m sb)) = get_dinode m (V (IBLOCK m sb))) ->
     (forall n, ds <= n -> V' n = V n) -> (forall n, 0 <= n < sb_size sb -> used V' sb n = used V sb n) -> Q tt s') ->
  wp ((upd_ino (set_size z) ip ;; iupdate ip) s) Q W.
Proof.
  intros Hr Hc Hwf Hmp Hm Hz Hroom Hcap HQ. assert (Hp := ca_at _ _ _ _ Hc). assert (Hin := ca_inum _ _ _ _ Hc). destruct (ly_ino _ _ _ Hly _ Hin) as [Hu Hds].
  apply wp_step. eapply upd_ino_wp; [by rewrite (fr_ic _ _ _ _ _ _ _ _ _ _ _ _ Hr)|]. rewrite (fr_ic _ _ _ _ _ _ _ _ _ _ _ _ Hr).
  apply (fsrep_icache i c g sb pid cwd _ _ _ _ _ _ (<[ip := set_size z p]> l)) in Hr. set (p' := set_size z p) in *.
  assert (Hwf' : ino_wf p') by (destruct Hwf as [? ? [? ?]]; by apply ino_wf_same).
  assert (Hc' : cached sb (<[ip := p']> l) ip p') by (destruct Hc; split; try done; apply list_lookup_insert_eq; by eapply lookup_lt_Some).
  assert (Hlb : length (V (IBLOCK (i_inum p) sb)) = 512%nat) by (eapply (fs_at_len i c g); [apply Hr|done]).
  assert (Hold : forall n, ds <= n -> vset V (IBLOCK (i_inum p) sb) (put_dinode (i_inum p) p' (V (IBLOCK (i_inum p) sb))) n = V n) by (intros n Hn; apply vset_ne; lia).
  eapply (wp_iupdate i c g sb ds pid cwd Hly); [exact Hr|exact Hc'|exact Hwf'|apply holds_none|rewrite dom_empty_L, size_empty; lia|lia|].
  change (i_inum p') with (i_inum p). set (V' := vset V _ _) in *. intros s' Hs'.
  assert (Hus : forall n, 0 <= n < sb_size sb -> used V' sb n = used V sb n).
  { intros n Hn. unfold used, V'. rewrite vset_ne; [done|]. by apply (ly_apart _ _ _ Hly). }
  apply (HQ s' V'); [exact Hs'| | | | |exact Hold|exact Hus].
  - apply (mapped_ext sb ds V).
    + destruct Hmp. by split.
    + intros Hnz. apply Hold. by apply (mp_ind _ _ _ _ _ Hmp Hnz).
    + intros n [Hn1 Hn2]. split; [done|]. rewrite Hus; [done|]. destruct (ly_size _ _ _ Hly). lia.
  - intros n Hn. rewrite Hus; [by apply Hm|]. destruct (ly_size _ _ _ Hly). lia.
  - unfold synced, V'. change (i_inum p') with (i_inum p). rewrite vset_eq. by apply get_put_dinode.
  - intros m Hm1 Hm2. unfold V'. destruct (decide (IBLOCK m sb = IBLOCK (i_inum p) sb)) as [E|E]; [|by rewrite vset_ne].
    rewrite E, vset_eq. apply get_put_dinode_ne; [done|done|]. apply not_eq_sym, iblock_same; [lia|lia|done|done].
Qed.

Lemma baddr_kept V V' p p' nb k : mapped V p nb -> i_addrs p' = i_addrs p -> (forall n, ds <= n -> V' n = V n) -> (k < nb)%nat -> baddr V' p' k = baddr V p k.
Proof.
  intros Hmp Ha HV Hk. assert (Hat : forall j, addr_at p' j = addr_at p j) by (intros j; unfold addr_at; by rewrite Ha).
  unfold baddr. rewrite !Hat. case_decide; [done|]. rewrite HV; [done|]. apply (mp_ind _ _ _ _ _ Hmp), (mp_some _ _ _ _ _ Hmp). lia.
Qed.

Lemma fbyte_ext V V' p p' nb o : mapped V p nb -> i_addrs p' = i_addrs p -> (forall n, ds <= n -> V' n = V n) -> 0 <= o < Z.of_nat nb * BSIZE -> fbyte V' p' o = fbyte V p o.
Proof.
  intros Hmp Ha HV Ho. unfold BSIZE in Ho. unfold fbyte, BSIZE. set (k := Z.to_nat (o / 512)). assert (Hk : (k < nb)%nat) by (unfold k; Z.div_mod_to_equations; lia).
  rewrite (baddr_kept V V' p p' nb k), HV by done || apply (mp_data _ _ _ _ _ Hmp k Hk). done.
Qed.

(** The file after the loop, when it has not grown. *)
Lemma written_in V p V' p' nb' off src : let nb := blocks_of (i_size p) in
  0 <= i_size p -> 0 <= off -> wrote V p nb V' p' nb' off src -> off + Z.of_nat (length src) <= i_size p -> p' = p /\ nb' = nb.
Proof.
  intros nb Hs Ho Wr Hle. destruct (wr_nb _ _ _ _ _ _ _ _ _ _ Wr) as (N1 & N2 & N3). unfold BSIZE in *. destruct (blocks_cover (i_size p) Hs) as [Hb1 Hb2]. fold nb in Hb1, Hb2. unfold BSIZE in *.
  assert (E : nb' = nb). { destruct (decide (nb < nb')%nat) as [H|H]; [specialize (N3 H)|]; lia. }
  split; [by apply (wr_stay _ _ _ _ _ _ _ _ _ _ Wr)|done].
Qed.

(** How many more blocks are logged. *)
Definition log_need (T : gset Z) (off n : Z) : Z := touched off n + 9 + Z.of_nat (size (bm_set sb ∪ T)).

Lemma wrote_written V p V1 p1 nb1 off src V2 z :
  let nb := blocks_of (i_size p) in let p2 := set_size z p1 in
  0 <= i_size p -> wrote V p nb V1 p1 nb1 off src -> z = Z.max (i_size p) (off + Z.of_nat (length src)) -> 0 <= off ->
  (forall m, 0 <= m < ninodes sb -> m <> i_inum p -> get_dinode m (V2 (IBLOCK m sb)) = get_dinode m (V1 (IBLOCK m sb))) ->
  (forall n, ds <= n -> V2 n = V1 n) -> (forall n, 0 <= n < sb_size sb -> used V2 sb n = used V1 sb n) -> written V p V2 p2 off src.
Proof.
  intros nb p2 Hs Wr Hz Ho Hdi HV Hus. destruct (wr_nb _ _ _ _ _ _ _ _ _ _ Wr) as (N1 & N2 & N3). destruct (blocks_cover (i_size p) Hs) as [Hb1 Hb2]. fold nb in Hb1, Hb2. unfold BSIZE in *.
  assert (Hmp1 := wr_map _ _ _ _ _ _ _ _ _ _ Wr).
  assert (Hdat : forall a, is_data sb ds V1 a -> is_data sb ds V2 a).
  { intros a [Ha1 Ha2]. split; [done|]. rewrite Hus; [done|]. destruct (ly_size _ _ _ Hly). lia. }
  split.
  - exact Hz.
  - intros j x Hj. assert (Hjl := lookup_lt_Some _ _ _ Hj). rewrite (fbyte_ext V1 V2 p1 p2 nb1); [by apply (wr_new _ _ _ _ _ _ _ _ _ _ Wr)|done|done|done|unfold BSIZE; lia].
  - intros o Hor Hout. rewrite (fbyte_ext V1 V2 p1 p2 nb1); [|done|done|done|unfold BSIZE; lia]. apply (wr_old _ _ _ _ _ _ _ _ _ _ Wr); [unfold BSIZE; lia|done].
  - intros n Hn Hno Hnk. rewrite HV by apply Hn. by apply (wr_frame _ _ _ _ _ _ _ _ _ _ Wr).
  - intros m Hm1 Hm2. rewrite Hdi by done. by rewrite (wr_ino _ _ _ _ _ _ _ _ _ _ Wr).
  - intros n Hn Hu. rewrite Hus by done. by apply (wr_used _ _ _ _ _ _ _ _ _ _ Wr).
  - intros n Hn. rewrite Hus by (destruct (ly_size _ _ _ Hly); lia). by apply (wr_meta _ _ _ _ _ _ _ _ _ _ Wr).
  - destruct (wr_own _ _ _ _ _ _ _ _ _ _ Wr) as [E|(_ & E1 & E)]; [by left|right; split; [by apply Hdat|done]].
  - intros k Hk. assert (Hkz : (k < nb1)%nat). { subst z. cbn [i_size set_size p2] in Hk. destruct (blocks_cover (Z.max (i_size p) (off + Z.of_nat (length src))) ltac:(lia)). unfold BSIZE in *. lia. }
    rewrite (baddr_kept V1 V2 p1 p2 nb1 k) by done. destruct (decide (k < nb)%nat) as [Hkn|Hkn]; [left|right].
    + split; [done|]. by apply (wr_kept _ _ _ _ _ _ _ _ _ _ Wr).
    + split; [by apply Hdat, (mp_data _ _ _ _ _ Hmp1)|]. apply (wr_fresh _ _ _ _ _ _ _ _ _ _ Wr). lia.
  - destruct (wr_same _ _ _ _ _ _ _ _ _ _ Wr) as [m ->]. by exists z, m.
Qed.

Lemma blocks_grown p off len nb' : 0 <= i_size p -> 0 <= off -> i_size p < off + len -> (blocks_of (i_size p) <= nb')%nat -> off + len <= Z.of_nat nb' * BSIZE ->
  ((blocks_of (i_size p) < nb')%nat -> Z.of_nat nb' * BSIZE < off + len + BSIZE) -> nb' = blocks_of (off + len).
Proof.
  intros Hs Ho Hlt H1 H2 H3. destruct (blocks_cover (i_size p) Hs) as [Hb1 Hb2]. destruct (blocks_cover (off + len) ltac:(lia)) as [Hc1 Hc2]. unfold BSIZE in *.
  destruct (decide (blocks_of (i_size p) < nb')%nat) as [H|H]; [specialize (H3 H)|]; lia.
Qed.

Lemma wp_writei s V T l K ip p src off Q W :
  fsrep s V ∅ T l K -> open_file V l ip p -> meta_used V sb ds -> 0 < ds ->
  0 <= off <= i_size p -> let n := Z.of_nat (length src) in off + n <= MAXFILE * BSIZE ->
  2 * touched off n <= Z.of_nat (length (free_list V)) -> log_need T off n <= Z.of_nat NBUF -> log_need T off n <= Z.of_nat (g_cap g) ->
  (forall s' V' p' T', fsrep s' V' ∅ T' (<[ip := p']> l) K -> open_file V' (<[ip := p']> l) ip p' -> written V p V' p' off src ->
     Z.of_nat (size T') <= touched off n + 2 + Z.of_nat (size (bm_set sb ∪ T)) -> taken V V' (touched off n) -> Q n s') ->
  wp (writei dev_write ip src off s) Q W.
Proof.
  intros Hr [[Hp Hdev Hty Hsz Hmp] Hc Hwf Hsy] Hm H0 Ho n Hmax Hfree Hn1 Hn2 HQ. unfold log_need in *. unfold MAXFILE, BSIZE in Hmax, Hsz.
  unfold writei. fold n. apply wp_step. eapply wp_ino; [by rewrite (fr_ic _ _ _ _ _ _ _ _ _ _ _ _ Hr)|].
  rewrite (proj2 (Z.eqb_neq _ _)) by done. rewrite (proj2 (Z.ltb_ge _ _)) by lia. rewrite u32_small by (unfold is_u32; lia).
  rewrite (proj2 (Z.ltb_ge _ _)) by lia. cbn [orb]. rewrite (proj2 (Z.ltb_ge _ _)) by (unfold MAXFILE, BSIZE; lia).
  destruct (blocks_cover (i_size p) ltac:(lia)) as [Hb1 Hb2].
  assert (Htn := touched_nonneg off n ltac:(lia)). assert (HsD : size (∅ : gset Z) = 0%nat) by apply size_empty.
  apply wp_step. eapply (wp_writei_loop _ s V T ∅ T l K ip p (blocks_of (i_size p)) src off 0 n).
  { exact Hr. } { done. } { done. } { exact Hmp. } { done. } { done. }
  { unfold logged_in. clear. set_solver. } { lia. } { unfold n. lia. } { unfold MAXFILE, BSIZE. fold n. lia. }
  { fold n. unfold touched, turns, BSIZE. destruct (Z.eqb_spec n 0) as [E|E]; [by rewrite E|]. assert (Hmod := Z.mod_pos_bound off 512 ltac:(lia)). Z.div_mod_to_equations. lia. }
  { done. } { fold n. lia. } { fold n. lia. }
  fold n. intros s1 V1 p1 nb1 T1 D1 R1 Wr HL HD HF. assert (HT1 := logged_size _ _ _ _ HL). destruct (wr_nb _ _ _ _ _ _ _ _ _ _ Wr) as (N1 & N2 & N3). fold n in N2, N3.
  assert (Hlt := lookup_lt_Some _ _ _ Hp). destruct (wr_same _ _ _ _ _ _ _ _ _ _ Wr) as [m Ep].
  apply wp_step. eapply wp_ino; [rewrite (fr_ic _ _ _ _ _ _ _ _ _ _ _ _ R1); by apply list_lookup_insert_eq|].
  assert (Esz : i_size p1 = i_size p) by (by rewrite Ep). rewrite Esz.
  destruct ((0 <? n) && (i_size p <? off + n)) eqn:Eg; cbn [when].
  - apply andb_true_iff in Eg as [Eg1 Eg2]. apply Z.ltb_lt in Eg1, Eg2. assert (Hmp1 := wr_map _ _ _ _ _ _ _ _ _ _ Wr).
    assert (Hwf1 : ino_wf p1). { rewrite Ep in Hmp1 |- *. apply ino_wf_same; [done|apply Hwf|apply (mp_len _ _ _ _ _ Hmp1)|exact (mapped_u32 _ _ _ Hly _ _ _ Hmp1)]. }
    assert (Hc1 : cached sb (<[ip := p1]> l) ip p1) by (destruct Hc; rewrite Ep; split; try done; by apply list_lookup_insert_eq).
    apply wp_step. eapply wp_grow; [exact R1|exact Hc1|exact Hwf1|exact Hmp1|apply Wr|unfold is_u32; lia|lia|lia|].
    intros s2 V2 R2 M2 Me2 Sy2 Di2 Hi2 Us2. rewrite list_insert_insert_eq in R2. cbn [ret wp].
    assert (Ein : i_inum p1 = i_inum p) by (by rewrite Ep). rewrite Ein in *. eapply (HQ s2 V2 (set_size (off + n) p1)); [exact R2| | | |].
    + split; [split|..]; try done.
      * by apply list_lookup_insert_eq.
      * by rewrite Ep.
      * by rewrite Ep.
      * cbn [i_size set_size]. unfold MAXFILE, BSIZE. lia.
      * cbn [i_size set_size]. rewrite <- (blocks_grown p off n nb1); [exact M2|lia|lia|done|done|done|done].
      * destruct Hc. rewrite Ep. split; try done. by apply list_lookup_insert_eq.
      * rewrite Ep in *. apply ino_wf_same; [done|unfold is_u32; lia|apply Hmp1|exact (mapped_u32 _ _ _ Hly _ _ _ Hmp1)].
    + eapply (wrote_written V p V1 p1 nb1); [lia|exact Wr|fold n; lia|lia|exact Di2|exact Hi2|exact Us2].
    + pose proof (size_add (IBLOCK (i_inum p) sb) T1). lia.
    + destruct HF as (k & Hk1 & Hk2). exists k. split; [|done]. rewrite <- Hk1. apply filter_ext_in. intros b Hb%elem_of_seqZ. rewrite Us2 by lia. done.
  - assert (Hle : off + n <= i_size p) by (apply andb_false_iff in Eg as [Eg|Eg]; apply Z.ltb_ge in Eg; lia).
    destruct (written_in V p V1 p1 nb1 off src ltac:(lia) ltac:(lia) Wr Hle) as [-> ->]. apply wp_step. cbn [ret wp]. cbn.
    eapply (HQ s1 V1 p); [exact R1| | |lia|exact HF].
    + rewrite list_insert_id by done. split; [split; [done|done|done|unfold MAXFILE, BSIZE; lia|apply Wr]|done|done|].
      unfold synced. rewrite (wr_ino _ _ _ _ _ _ _ _ _ _ Wr) by apply Hc. exact Hsy.
    + pose proof (wrote_written V p V1 p (blocks_of (i_size p)) off src V1 (i_size p) ltac:(lia) Wr ltac:(fold n; lia) ltac:(lia)) as H.
      assert (Eset : set_size (i_size p) p = p) by (by destruct p). rewrite Eset in H. by apply H.
Qed.
End Call.
End Writei.
