(* ===== verification/FsDir.v ===== *)
(** * The file system: directories

    A directory is a list of entries; [dirlookup] finds the first entry in use with the
    name, [dirlink] adds one.  Names are compared up to their NUL or [DIRSIZ] bytes. *)

From Stdlib Require Import ZArith Lia.
From S2P Require Import Prelude Spinlock Sleeplock Strings Blocks Bytes Log Txn Fs FsSpec FsInode FsFile FsWrite.

(** ** Names *)

(** The characters of an array up to its NUL, at most [n]. *)
Fixpoint cname (n : nat) (s : list Z) : list Z :=
  match n, s with
  | S n, ch :: s => if ch =? 0 then [] else ch :: cname n s
  | _, _ => []
  end.
(** [n] characters can be read, or a NUL comes first. *)
Fixpoint readable (n : nat) (s : list Z) : Prop :=
  match n, s with
  | O, _ => True
  | S n, ch :: s => ch = 0 \/ readable n s
  | S _, [] => False
  end.

Lemma readable_len n s : (n <= length s)%nat -> readable n s.
Proof. revert s. induction n as [|n IH]; intros [|ch s] H; cbn in *; [done|done|lia|]. right. apply IH. lia. Qed.

Lemma readable_nul n e s : readable n (e ++ 0 :: s).
Proof. revert e. induction n as [|n IH]; intros [|ch e]; cbn; [done..|by left|by right]. Qed.

Lemma strncmp_arrays m p q n s t :
  (forall k ch, s !! k = Some ch -> m !! (p + k)%nat = Some ch) -> (forall k ch, t !! k = Some ch -> m !! (q + k)%nat = Some ch) ->
  readable n s -> readable n t -> exists r, strncmp m p q n = Some r /\ (r = 0 <-> cname n s = cname n t).
Proof.
  revert p q s t. induction n as [|n IH]; intros p q s t Hs Ht Rs Rt; [by exists 0|]. destruct s as [|a s]; [done|]. destruct t as [|b t]; [done|].
  cbn [strncmp readable cname] in *. unfold load. rewrite <- (Nat.add_0_r p), (Hs 0%nat a eq_refl), <- (Nat.add_0_r q), (Ht 0%nat b eq_refl), !Nat.add_0_r. cbn [mbind option_bind].
  destruct (Z.eqb_spec a 0) as [->|Ha]; cbn [negb andb].
  - exists (0 - b). split; [done|]. destruct (Z.eqb_spec b 0); split; intros; (done || lia).
  - destruct (Z.eqb_spec a b) as [<-|Hab].
    + destruct Rs as [|Rs]; [done|]. destruct Rt as [|Rt]; [done|]. destruct (IH (S p) (S q) s t) as (r & Hr & Hiff).
      { intros k ch Hk. rewrite <- (Hs (S k) ch Hk). f_equal. lia. }
      { intros k ch Hk. rewrite <- (Ht (S k) ch Hk). f_equal. lia. }
      { done. }
      { done. }
      exists r. split; [done|]. rewrite Hiff. rewrite (proj2 (Z.eqb_neq a 0)) by done. split; congruence.
    + exists (a - b). split; [done|]. split; [lia|]. destruct (Z.eqb_spec b 0); congruence.
Qed.

Lemma namecmp_spec s t : readable DIRSIZ s -> readable DIRSIZ t ->
  exists r, namecmp s t = Some r /\ (r = 0 <-> cname DIRSIZ s = cname DIRSIZ t).
Proof.
  intros Hs Ht. apply (strncmp_arrays (s ++ t) 0 (length s) DIRSIZ s t); [|by intros k ch Hk; rewrite lookup_app_r, Nat.add_comm, Nat.add_sub by lia|done|done].
  intros k ch Hk. cbn. by apply lookup_app_l_Some.
Qed.

(** What [strncpy] makes of a name: its characters padded with NULs. *)
Lemma strncpy_arrays m s t n str :
  (forall k ch, str !! k = Some ch -> m !! (t + k)%nat = Some ch) -> readable n str -> (s + n <= t)%nat -> (s + n <= length m)%nat ->
  strncpy m s t n = Some (list_inserts s (take n (cname n str ++ replicate n 0)) m).
Proof.
  revert m s t str. induction n as [|n IH]; intros m s t str Hm Hr Hst Hl; [done|]. destruct str as [|ch str]; [done|]. cbn [strncpy readable cname] in *.
  unfold load. rewrite <- (Nat.add_0_r t), (Hm 0%nat ch eq_refl), Nat.add_0_r. cbn [mbind option_bind]. rewrite store_in by lia. cbn [mbind option_bind].
  destruct (Z.eqb_spec ch 0) as [->|Hc].
  - rewrite zero_fill_spec by (rewrite length_insert; lia). rewrite inserts_cons_in. cbn [app]. by rewrite take_ge by (rewrite length_replicate; lia).
  - destruct Hr as [|Hr]; [done|]. rewrite (IH _ _ _ str); [|..|done|lia|rewrite length_insert; lia].
    + rewrite inserts_cons_in. do 2 f_equal. cbn [app take]. f_equal.
      change (0 :: replicate n 0) with (replicate (S n) 0). rewrite replicate_S_end, (assoc_L (++)).
      rewrite (take_app_le (cname n str ++ replicate n 0)); [done|]. rewrite length_app, length_replicate. lia.
    + intros k c' Hk. rewrite list_lookup_insert_ne by lia. rewrite <- (Hm (S k) c' Hk). f_equal. lia.
Qed.

Lemma length_cname n s : (length (cname n s) <= n)%nat.
Proof. revert s. induction n as [|n IH]; intros [|ch s]; cbn; [lia..|]. destruct (ch =? 0); cbn; [lia|]. specialize (IH s). lia. Qed.

Definition pad_name (s : list Z) : list Z := take DIRSIZ (cname DIRSIZ s ++ replicate DIRSIZ 0).

Lemma length_pad s : length (pad_name s) = DIRSIZ.
Proof. unfold pad_name. rewrite length_take, length_app, length_replicate. pose proof (length_cname DIRSIZ s). lia. Qed.

Lemma mk_dirent_run name inum : readable DIRSIZ name -> mk_dirent name inum = Some (le_bytes 2 (u16 inum) ++ pad_name name).
Proof.
  intros Hr. unfold mk_dirent. rewrite (strncpy_arrays _ 0 DIRSIZ DIRSIZ name); [|..|done|lia|rewrite length_app, length_replicate; lia].
  - cbn [mbind option_bind]. do 2 f_equal. fold (pad_name name). rewrite inserts_take_drop by (rewrite length_app, length_replicate, length_pad; lia).
    change (take 0 (replicate DIRSIZ 0 ++ name)) with (@nil Z). rewrite (app_nil_l (pad_name name ++ _)).
    rewrite (take_app_le (pad_name name)) by (rewrite length_pad; lia). by rewrite take_ge by (rewrite length_pad; lia).
  - intros k ch Hk. rewrite lookup_app_r by (rewrite length_replicate; lia). rewrite length_replicate. rewrite <- Hk. f_equal. lia.
Qed.

Lemma cname_pad s : cname DIRSIZ (pad_name s) = cname DIRSIZ s.
Proof.
  unfold pad_name. generalize DIRSIZ as n. clear. intros n. revert s. induction n as [|n IH]; intros s; [done|].
  destruct s as [|ch s]; cbn [cname].
  - cbn. done.
  - destruct (Z.eqb_spec ch 0) as [->|Hc]; [done|]. cbn [app take]. cbn [cname]. rewrite (proj2 (Z.eqb_neq ch 0)) by done. f_equal.
    rewrite <- (IH s) at 2. f_equal. change (0 :: replicate n 0) with (replicate (S n) 0). rewrite replicate_S_end, (assoc_L (++)).
    rewrite take_app_le; [done|]. rewrite length_app, length_replicate. lia.
Qed.

(** ** The entries of a directory *)

Section Entries.
Implicit Types (V : Z -> block) (p : inode) (name : list Z).

(** The 16 bytes of the [k]-th entry, and how many there are. *)
Definition dent V p (k : nat) : list Z := fbytes V p (16 * Z.of_nat k) 16.
Definition nents p : nat := Z.to_nat (i_size p / 16).

Definition free_at V p (k : nat) : bool := de_inum (dent V p k) =? 0.
Definition hit V p name (k : nat) : bool :=
  negb (free_at V p k) && bool_decide (cname DIRSIZ name = cname DIRSIZ (de_name (dent V p k))).

(** The first of [n] entries from [k] on that satisfies [f]. *)
Fixpoint find_ent (f : nat -> bool) (n k : nat) : option nat :=
  match n with
  | O => None
  | S n => if f k then Some k else find_ent f n (S k)
  end.
(** What a directory maps a name to: the entry, if there is one. *)
Definition dir_find V p name : option nat := find_ent (hit V p name) (nents p) 0.
Definition dir_slot V p : nat := default (nents p) (find_ent (free_at V p) (nents p) 0).

Lemma find_ent_spec f n k :
  match find_ent f n k with
  | Some j => (k <= j < k + n)%nat /\ f j = true /\ forall j', (k <= j' < j)%nat -> f j' = false
  | None => forall j, (k <= j < k + n)%nat -> f j = false
  end.
Proof.
  revert k. induction n as [|n IH]; intros k; cbn [find_ent]; [lia|]. destruct (f k) eqn:E; [split_and!; [lia..|done|lia]|].
  specialize (IH (S k)). destruct (find_ent f n (S k)) as [j|].
  - destruct IH as (H1 & H2 & H3). split_and!; [lia..|done|]. intros j' Hj. destruct (decide (j' = k)) as [->|]; [done|]. apply H3. lia.
  - intros j Hj. destruct (decide (j = k)) as [->|]; [done|]. apply IH. lia.
Qed.

Lemma find_ent_ext f f' n k : (forall j, (k <= j < k + n)%nat -> f j = f' j) -> find_ent f n k = find_ent f' n k.
Proof. revert k. induction n as [|n IH]; intros k H; cbn [find_ent]; [done|]. rewrite (H k) by lia. destruct (f' k); [done|]. apply IH. intros j Hj. apply H. lia. Qed.

Lemma find_ent_unique f n j : (j < n)%nat -> f j = true -> (forall j', (j' < n)%nat -> j' <> j -> f j' = false) -> find_ent f n 0 = Some j.
Proof.
  intros Hj Hf Hu. pose proof (find_ent_spec f n 0) as H. destruct (find_ent f n 0) as [j'|].
  - destruct H as (H1 & H2 & _). destruct (decide (j' = j)) as [->|Hne]; [done|]. rewrite Hu in H2 by (lia || done). done.
  - rewrite H in Hf by lia. done.
Qed.

Lemma length_dent V p k : length (dent V p k) = 16%nat.
Proof. apply length_fbytes. Qed.

Lemma dent_readable V p k : readable DIRSIZ (de_name (dent V p k)).
Proof. apply readable_len. unfold de_name. rewrite length_drop, length_dent. unfold DIRSIZ. lia. Qed.
End Entries.

(** ** A directory, and a new entry in it *)

Section NewEntry.
Context (sb : superblock) (ds : Z).
Implicit Types (V : Z -> block) (l : list inode) (p : inode).
Notation file_at := (file_at sb ds).
Notation written := (written sb ds).

Record dir_at V l (dp : nat) p : Prop := {
  da_file : file_at V l dp p;
  da_type : i_type p = T_DIR;
  da_size : i_size p mod 16 = 0
}.

Lemma nents_size V l dp p : dir_at V l dp p -> i_size p = 16 * Z.of_nat (nents p).
Proof. intros [Hf _ Hm]. pose proof (fa_size _ _ _ _ _ _ Hf). unfold nents. rewrite Z2Nat.id by (Z.div_mod_to_equations; lia). Z.div_mod_to_equations. lia. Qed.


Definition new_ent name (inum : Z) : list Z := le_bytes 2 inum ++ pad_name name.

Lemma length_new_ent name inum : length (new_ent name inum) = 16%nat.
Proof. unfold new_ent. by rewrite length_app, length_pad, length_le_bytes. Qed.

Lemma new_ent_inum name inum : 0 <= inum < 2 ^ 16 -> de_inum (new_ent name inum) = inum.
Proof.
  intros H. unfold de_inum, new_ent, getn, sub. rewrite drop_0, take_app_length' by (by rewrite length_le_bytes). by apply le_val_bytes.
Qed.

Lemma new_ent_name name inum : de_name (new_ent name inum) = pad_name name.
Proof. unfold de_name, new_ent. apply drop_app_length'. by rewrite length_le_bytes. Qed.

Section Link.
Context (V V' : Z -> block) (p p' : inode) (name : list Z) (inum : Z).
Notation k := (dir_slot V p).
Hypothesis (Hs : i_size p = 16 * Z.of_nat (nents p)).
Hypothesis (Hw : written V p V' p' (16 * Z.of_nat k) (new_ent name inum)).

Lemma slot_spec : (k <= nents p)%nat /\ ((k < nents p)%nat -> free_at V p k = true).
Proof.
  unfold dir_slot. pose proof (find_ent_spec (free_at V p) (nents p) 0) as H. destruct (find_ent (free_at V p) (nents p) 0) as [j|]; cbn.
  - split; [lia|]. intros _. apply H.
  - lia.
Qed.

Lemma link_size : i_size p' = 16 * Z.of_nat (nents p `max` Datatypes.S k) /\ nents p' = (nents p `max` Datatypes.S k)%nat.
Proof.
  assert (i_size p' = 16 * Z.of_nat (nents p `max` Datatypes.S k)) as E.
  { rewrite (wn_size _ _ _ _ _ _ _ _ Hw), length_new_ent, Hs. lia. }
  split; [done|]. unfold nents at 1. rewrite E, Z.mul_comm, Z.div_mul by lia. lia.
Qed.

Lemma link_new : dent V' p' k = new_ent name inum.
Proof.
  apply list_eq_same_length with 16%nat; [apply length_new_ent|apply length_dent|]. intros j a b Hj Ha Hb.
  unfold dent in Ha. rewrite fbytes_lookup in Ha by done. injection Ha as <-. by eapply (wn_new _ _ _ _ _ _ _ _ Hw).
Qed.

Lemma link_old j : (j < nents p)%nat -> j <> k -> dent V' p' j = dent V p j.
Proof.
  intros Hj Hne. apply fbytes_ext. intros o Ho. apply (wn_old _ _ _ _ _ _ _ _ Hw); [lia|]. rewrite length_new_ent. lia.
Qed.

Lemma link_hit_other name' j : (j < nents p)%nat -> cname DIRSIZ name' <> cname DIRSIZ name -> hit V' p' name' j = hit V p name' j.
Proof.
  intros Hj Hn. unfold hit, free_at. destruct (decide (j = k)) as [E|Hne]; [|by rewrite link_old].
  pose proof (proj2 slot_spec ltac:(lia)) as Hf. unfold free_at in Hf. rewrite E, Hf, link_new, new_ent_name, cname_pad.
  rewrite bool_decide_false by done. cbn. apply andb_false_r.
Qed.

(** The directory maps [name] to [inum], and every other name to what it did. *)
Lemma link_found : 0 < inum < 2 ^ 16 -> dir_find V p name = None -> dir_find V' p' name = Some k /\ de_inum (dent V' p' k) = inum.
Proof.
  intros Hi Hnone. rewrite link_new, new_ent_inum by lia. split; [|done]. unfold dir_find in *. rewrite (proj2 link_size).
  pose proof (find_ent_spec (hit V p name) (nents p) 0) as Hsp. rewrite Hnone in Hsp. apply find_ent_unique; [lia|..].
  - unfold hit, free_at. rewrite link_new, new_ent_inum, new_ent_name, cname_pad by lia. rewrite (proj2 (Z.eqb_neq _ _)) by lia. by rewrite bool_decide_true.
  - intros j Hj Hne. pose proof (proj1 slot_spec). rewrite <- (Hsp j) by lia. unfold hit, free_at. by rewrite link_old by (done || lia).
Qed.

Lemma find_ent_last f n m k0 : (forall j, (k0 + n <= j < k0 + m)%nat -> f j = false) -> (n <= m)%nat -> find_ent f m k0 = find_ent f n k0.
Proof.
  clear. revert n k0. induction m as [|m IH]; intros n k0 Hf Hnm; [by replace n with 0%nat by lia|]. destruct n as [|n]; cbn [find_ent].
  - rewrite (Hf k0) by lia. apply (IH 0%nat); [|lia]. intros j Hj. apply Hf. lia.
  - destruct (f k0); [done|]. apply IH; [|lia]. intros j Hj. apply Hf. lia.
Qed.

Lemma link_others name' : cname DIRSIZ name' <> cname DIRSIZ name -> dir_find V' p' name' = dir_find V p name'.
Proof.
  intros Hn. unfold dir_find. rewrite (proj2 link_size). rewrite (find_ent_last _ (nents p)) by
    (try lia; intros j Hj; pose proof (proj1 slot_spec); replace j with k by lia; unfold hit; rewrite link_new, new_ent_name, cname_pad, bool_decide_false by done; apply andb_false_r).
  apply find_ent_ext. intros j Hj. apply link_hit_other; [lia|done].
Qed.

Lemma link_others_ent name' j : dir_find V p name' = Some j -> dent V' p' j = dent V p j.
Proof.
  intros Hj. pose proof (find_ent_spec (hit V p name') (nents p) 0) as Hsp. unfold dir_find in Hj. rewrite Hj in Hsp. destruct Hsp as (H1 & H2 & _).
  apply link_old; [lia|]. intros E. unfold hit in H2. rewrite E, (proj2 slot_spec) in H2 by lia. done.
Qed.
End Link.

End NewEntry.

(** ** [dirlookup] and [dirlink] *)

Section Dir.
Context {S : Type} `{!HasCtx S, !Txn S}.
Context (dev_read : Z -> option (nat -> Z -> M (fsst S) (Z * list Z))).
Context (i : nat) (c : cpu) (g : tgeo) (sb : superblock) (ds : Z) (pid : Z) (cwd : nat).
Hypothesis (Hly : layout g sb ds).
Hypothesis (Hds : 0 < ds).
Implicit Types (s : fsst S) (V : Z -> block) (T : gset Z) (l : list inode) (K : gset nat) (p : inode).
Notation fsrep := (fsrep i c g sb pid cwd).
Notation dir_at := (dir_at sb ds).
Notation open_file := (open_file sb ds).
Notation written := (written sb ds).
Notation dirlookup := (dirlookup dev_read).
Notation dirlookup_loop := (dirlookup_loop dev_read).

(** One entry read. *)
Lemma wp_read_ent s V T l K dp p k Q W :
  fsrep s V ∅ T l K -> dir_at V l dp p -> (size T < NBUF)%nat -> (k < nents p)%nat ->
  (forall s', fsrep s' V ∅ T l K -> Q (16, dent V p k) s') -> wp (readi dev_read dp (16 * Z.of_nat k) 16 s) Q W.
Proof.
  intros Hr Hd Hroom Hk HQ. pose proof (nents_size _ _ _ _ _ _ Hd) as Hs. pose proof (fa_size _ _ _ _ _ _ (da_file _ _ _ _ _ _ Hd)) as Hz. unfold MAXFILE, BSIZE in Hz.
  eapply (wp_readi i c g sb ds pid cwd Hly dev_read); [exact Hr|apply Hd|exact Hds|done|lia|lia|lia|]. intros s' m Hm Hr'.
  rewrite Z.min_l in Hm by lia. subst m. by apply HQ.
Qed.

Lemma wp_dirlookup_loop n fuel s V T l K dp p name k Q W :
  fsrep s V ∅ T l K -> dir_at V l dp p -> (size T < NBUF)%nat -> readable DIRSIZ name -> (n + k = nents p)%nat -> (n < fuel)%nat ->
  match find_ent (hit V p name) n k with
  | Some j => exists ip l', igot 1 (de_inum (dent V p j)) l = Some (ip, l') /\ forall s', fsrep s' V ∅ T l' K -> Q (Some (ip, 16 * Z.of_nat j)) s'
  | None => forall s', fsrep s' V ∅ T l K -> Q None s'
  end ->
  wp (dirlookup_loop fuel dp name (16 * Z.of_nat k) s) Q W.
Proof.
  intros Hr Hd Hroom Hname. revert fuel k s Hr. induction n as [|n IH]; intros [|fuel] k s Hr Hk Hfuel HQ; try lia; cbn [Fs.dirlookup_loop].
  all: pose proof (nents_size _ _ _ _ _ _ Hd) as Hs; pose proof (fa_size _ _ _ _ _ _ (da_file _ _ _ _ _ _ Hd)) as Hz; unfold MAXFILE, BSIZE in Hz.
  all: apply wp_step; eapply wp_ino; [rewrite (fr_ic _ _ _ _ _ _ _ _ _ _ _ _ Hr); apply Hd|].
  - rewrite (proj2 (Z.ltb_ge _ _)) by lia. cbn. apply HQ, Hr.
  - rewrite (proj2 (Z.ltb_lt _ _)) by lia. apply wp_step. eapply wp_read_ent; [exact Hr|exact Hd|done|lia|]. intros s1 Hr1.
    cbn [fst snd]. rewrite Z.eqb_refl. cbn [negb find_ent] in HQ |- *. unfold hit at 1, free_at in HQ.
    assert (Hu : u32 (16 * Z.of_nat k + 16) = 16 * Z.of_nat (Datatypes.S k)) by (rewrite u32_small by (unfold is_u32; lia); lia).
    destruct (Z.eqb_spec (de_inum (dent V p k)) 0) as [E|E]; cbn [negb andb] in HQ.
    { rewrite Hu. by apply IH; [|lia|lia|]. }
    destruct (namecmp_spec name (de_name (dent V p k)) Hname (dent_readable _ _ _)) as (r & -> & Hiff).
    destruct (Z.eqb_spec r 0) as [->|Hne].
    + rewrite bool_decide_true in HQ by (by apply Hiff). destruct HQ as (ip & l' & Hg & HQ). apply wp_step.
      rewrite (fa_dev _ _ _ _ _ _ (da_file _ _ _ _ _ _ Hd)). eapply wp_iget; [exact Hr1|exact Hg|]. intros s2 Hr2. by apply HQ.
    + rewrite bool_decide_false in HQ by tauto. rewrite Hu. assert (HI := IH fuel (Datatypes.S k) s1 Hr1 ltac:(lia) ltac:(lia) HQ). by destruct r.
Qed.

Lemma wp_dirlookup s V T l K dp p name Q W :
  fsrep s V ∅ T l K -> dir_at V l dp p -> (size T < NBUF)%nat -> readable DIRSIZ name ->
  match dir_find V p name with
  | Some j => exists ip l', igot 1 (de_inum (dent V p j)) l = Some (ip, l') /\ forall s', fsrep s' V ∅ T l' K -> Q (Some (ip, 16 * Z.of_nat j)) s'
  | None => forall s', fsrep s' V ∅ T l K -> Q None s'
  end ->
  wp (dirlookup dp name s) Q W.
Proof.
  intros Hr Hd Hroom Hname HQ. unfold Fs.dirlookup. apply wp_step. eapply wp_ino; [rewrite (fr_ic _ _ _ _ _ _ _ _ _ _ _ _ Hr); apply Hd|].
  rewrite (da_type _ _ _ _ _ _ Hd), Z.eqb_refl. cbn [negb]. pose proof (nents_size _ _ _ _ _ _ Hd) as Hs.
  apply (wp_dirlookup_loop (nents p) _ s V T l K dp p name 0 Q W Hr Hd Hroom Hname); [lia| |exact HQ]. unfold nents. Z.div_mod_to_equations. lia.
Qed.

Lemma dirlookup_not_dir s dp p name : icache s !! dp = Some p -> i_type p <> T_DIR -> dirlookup dp name s = Panic "dirlookup not DIR".
Proof. intros Hp Ht. unfold Fs.dirlookup. rewrite (bind_Ret _ _ _ p s) by (unfold ino; by rewrite Hp). by rewrite (proj2 (Z.eqb_neq _ _) Ht). Qed.

Lemma wp_dirlink_loop n fuel s V T l K dp p k Q W :
  fsrep s V ∅ T l K -> dir_at V l dp p -> (size T < NBUF)%nat -> (n + k = nents p)%nat -> (n < fuel)%nat ->
  (forall s', fsrep s' V ∅ T l K -> Q (16 * Z.of_nat (default (nents p) (find_ent (free_at V p) n k))) s') ->
  wp (dirlink_loop dev_read fuel dp (16 * Z.of_nat k) s) Q W.
Proof.
  intros Hr Hd Hroom. revert fuel k s Hr. induction n as [|n IH]; intros [|fuel] k s Hr Hk Hfuel HQ; try lia; cbn [Fs.dirlink_loop].
  all: pose proof (nents_size _ _ _ _ _ _ Hd) as Hs; pose proof (fa_size _ _ _ _ _ _ (da_file _ _ _ _ _ _ Hd)) as Hz; unfold MAXFILE, BSIZE in Hz.
  all: apply wp_step; eapply wp_ino; [rewrite (fr_ic _ _ _ _ _ _ _ _ _ _ _ _ Hr); apply Hd|].
  - rewrite (proj2 (Z.ltb_ge _ _)) by lia. cbn. cbn [find_ent default] in HQ. replace k with (nents p) by lia. apply HQ, Hr.
  - rewrite (proj2 (Z.ltb_lt _ _)) by lia. apply wp_step. eapply wp_read_ent; [exact Hr|exact Hd|done|lia|]. intros s1 Hr1.
    cbn [fst snd]. rewrite Z.eqb_refl. cbn [negb find_ent] in HQ |- *. unfold free_at at 1 in HQ.
    destruct (Z.eqb_spec (de_inum (dent V p k)) 0) as [E|E]; [cbn; by apply HQ|].
    replace (16 * Z.of_nat k + 16) with (16 * Z.of_nat (Datatypes.S k)) by lia. by apply IH; [|lia|lia|].
Qed.

Context (waits : nat).
Context (dev_write : Z -> option (nat -> list Z -> M (fsst S) Z)).
Notation dirlink := (dirlink waits dev_read dev_write).

Lemma touched_ent V p : touched (16 * Z.of_nat (dir_slot V p)) 16 = 1.
Proof. unfold touched, BSIZE. cbn [Z.eqb]. Z.div_mod_to_equations. lia. Qed.

(** A name that is not in the directory: the new entry goes into the first free slot. *)
Lemma wp_dirlink s V T l K dp p name inum Q W :
  fsrep s V ∅ T l K -> open_file V l dp p -> dir_at V l dp p -> meta_used V sb ds -> readable DIRSIZ name ->
  dir_find V p name = None -> 0 <= inum < 2 ^ 16 -> i_size p + 16 <= MAXFILE * BSIZE ->
  2 <= Z.of_nat (length (free_list sb V)) -> log_need sb T 0 16 <= Z.of_nat NBUF -> log_need sb T 0 16 <= Z.of_nat (g_cap g) ->
  (forall s' V' p' T', fsrep s' V' ∅ T' (<[dp := p']> l) K -> open_file V' (<[dp := p']> l) dp p' ->
     written V p V' p' (16 * Z.of_nat (dir_slot V p)) (new_ent name inum) ->
     Z.of_nat (size T') <= 3 + Z.of_nat (size (bm_set sb ∪ T)) -> Q 0 s') ->
  wp (dirlink dp name inum s) Q W.
Proof.
  intros Hr Ho Hd Hm Hname Hnone Hi Hmax Hfree Hn1 Hn2 HQ. pose proof (nents_size _ _ _ _ _ _ Hd) as Hs.
  assert (HT : (size T < NBUF)%nat).
  { unfold log_need in Hn1. pose proof (subseteq_size T (bm_set sb ∪ T) ltac:(set_solver)). pose proof (touched_nonneg 0 16 ltac:(lia)). lia. }
  unfold Fs.dirlink. apply wp_step. eapply wp_dirlookup; [exact Hr|exact Hd|done|done|]. rewrite Hnone. intros s1 R1.
  apply wp_step. eapply wp_ino; [rewrite (fr_ic _ _ _ _ _ _ _ _ _ _ _ _ R1); apply Hd|].
  apply wp_step. apply (wp_dirlink_loop (nents p) _ s1 V T l K dp p 0); [exact R1|exact Hd|done|lia|unfold nents; Z.div_mod_to_equations; lia|].
  intros s2 R2. fold (dir_slot V p). rewrite mk_dirent_run by done. assert (Hu : u16 inum = inum) by (unfold u16; by apply Z.mod_small). rewrite Hu. fold (new_ent name inum).
  pose proof (proj1 (slot_spec V p)) as Hslot. unfold log_need in *. change (touched 0 16) with 1 in *.
  apply wp_step. eapply (wp_writei i c g sb ds pid cwd Hly dev_write); [exact R2|exact Ho|done|done|lia|..]; rewrite ?length_new_ent; change (Z.of_nat 16) with 16.
  - lia.
  - rewrite touched_ent. lia.
  - unfold log_need. rewrite touched_ent. lia.
  - unfold log_need. rewrite touched_ent. lia.
  - intros s3 V' p' T' R3 Ho' Hw HT' _. rewrite touched_ent in HT'. cbn. eapply HQ; [exact R3|exact Ho'|exact Hw|lia].
Qed.

(** A name that is there: an error, with the reference given back. *)
Lemma wp_dirlink_exists s V T l K dp p name inum j ip l' q Q W :
  fsrep s V ∅ T l K -> dir_at V l dp p -> (size T < NBUF)%nat -> readable DIRSIZ name -> dir_find V p name = Some j ->
  igot 1 (de_inum (dent V p j)) l = Some (ip, l') -> l' !! ip = Some q -> ip ∉ K -> i_valid q = 0 \/ i_nlink q <> 0 ->
  (forall s', fsrep s' V ∅ T (<[ip := set_ref (i_ref q - 1) q]> l') K -> Q (-1) s') -> wp (dirlink dp name inum s) Q W.
Proof.
  intros Hr Hd HT Hname Hj Hg Hq Hip Hlive HQ. unfold Fs.dirlink. apply wp_step. eapply wp_dirlookup; [exact Hr|exact Hd|done|done|]. rewrite Hj.
  exists ip, l'. split; [done|]. intros s1 R1. apply wp_step. eapply wp_iput; [exact R1|exact Hq|done|done|]. intros s2 R2. by apply HQ.
Qed.

(** A name that is there for the directory itself, such as ".": [iput] waits for the lock
    of the directory, which the caller holds. *)
Lemma dirlink_self s V T l K dp p name inum j l' :
  fsrep s V ∅ T l K -> dir_at V l dp p -> (size T < NBUF)%nat -> readable DIRSIZ name -> dir_find V p name = Some j ->
  igot 1 (de_inum (dent V p j)) l = Some (dp, l') -> dp ∈ K -> waits_for (ino_lk dp) (dirlink dp name inum s).
Proof.
  intros Hr Hd HT Hname Hj Hg Hdp.
  assert (wp (dirlookup dp name s) (fun r s' => r = Some (dp, 16 * Z.of_nat j) /\ fsrep s' V ∅ T l' K) stays) as H.
  { eapply wp_dirlookup; [exact Hr|exact Hd|done|done|]. rewrite Hj. by exists dp, l'. }
  apply wp_Ret in H as (r & s1 & Hrun & -> & R1). unfold Fs.dirlink. rewrite (bind_Ret _ _ _ _ _ Hrun). apply waits_rbind. unfold iput. apply waits_rbind.
  eapply acquiresleep_waits; [by eapply fsrep_idle|]. pose proof (fr_lk _ _ _ _ _ _ _ _ _ _ _ _ R1 dp) as Hlk. rewrite decide_True in Hlk by done. by rewrite Hlk.
Qed.
End Dir.
