(* ===== verification/FsPath.v ===== *)
(** * The file system: paths

    [skipelem] takes a path apart into its elements; [namex] walks from the root or the
    current directory, one element at a time, holding one reference. *)

From Stdlib Require Import ZArith Lia.
From S2P Require Import Prelude Spinlock Sleeplock Strings Blocks Bytes Log Txn Fs FsSpec FsInode FsFile FsWrite FsDir.

(** ** The elements of a path *)

(** The parts of a path between its slashes, and those that are not empty. *)
Fixpoint parts (path : list Z) : list (list Z) :=
  match path with
  | [] => [[]]
  | ch :: path => if ch =? 47 then [] :: parts path else match parts path with e :: r => (ch :: e) :: r | [] => [[ch]] end
  end.
Definition elems (path : list Z) : list (list Z) := filter (fun e => e <> []) (parts path).

Lemma elems_slash path : elems (47 :: path) = elems path.
Proof. unfold elems. cbn. done. Qed.

Lemma elems_skip path : elems (skip_slashes path) = elems path.
Proof.
  induction path as [|ch path IH]; [done|]. destruct (Z.eqb_spec ch 47) as [->|Hne].
  - rewrite elems_slash. exact IH.
  - f_equal. cbn [skip_slashes]. destruct ch as [|ch|ch]; [done| |done]. repeat (destruct ch as [ch|ch|]; try done).
Qed.

Lemma skip_slashes_head path : match skip_slashes path with ch :: _ => ch <> 47 | [] => True end.
Proof.
  induction path as [|ch path IH]; [done|]. cbn [skip_slashes]. destruct ch as [|ch|ch]; [done| |done].
  repeat (destruct ch as [ch|ch|]; try done).
Qed.

Lemma skip_slashes_len path : (length (skip_slashes path) <= length path)%nat.
Proof. induction path as [|ch path IH]; [done|]. cbn [skip_slashes]. destruct ch as [|ch|ch]; [done| |done]. repeat (destruct ch as [ch|ch|]; cbn in *; try lia). Qed.

Lemma split_elem_spec path : let '(e, r) := split_elem path in
  path = e ++ r /\ 47 ∉ e /\ parts path = match r with [] => [e] | _ :: r' => e :: parts r' end /\ (r = [] \/ exists r', r = 47 :: r').
Proof.
  induction path as [|ch path IH]; cbn [split_elem parts].
  - split_and!; [done|set_solver|done|by left].
  - destruct (Z.eqb_spec ch 47) as [->|Hne].
    + split_and!; [done|set_solver|done|right; by exists path].
    + destruct (split_elem path) as [e r]. destruct IH as (-> & H1 & H2 & H3). rewrite H2. split_and!; [done|set_solver|by destruct r|done].
Qed.

Lemma skip_slashes_forall (P : Z -> Prop) path : Forall P path -> Forall P (skip_slashes path).
Proof.
  induction path as [|ch path IH]; intros Hp; [done|]. apply Forall_cons in Hp as [H1 H2]. cbn [skip_slashes].
  destruct ch as [|ch|ch]; [by constructor| |by constructor]. repeat (destruct ch as [ch|ch|]; try (by constructor)). by apply IH.
Qed.

Lemma skip_slashes_none path : elems (skip_slashes path) = [] <-> skip_slashes path = [].
Proof.
  split; [|by intros ->]. pose proof (skip_slashes_head path) as Hh. destruct (skip_slashes path) as [|ch q]; [done|].
  unfold elems. cbn [parts]. rewrite (proj2 (Z.eqb_neq ch 47)) by done. by destruct (parts q).
Qed.

Lemma cname_take n e t : Forall (fun ch => ch <> 0) e -> cname n (e ++ 0 :: t) = take n e /\ cname n e = take n e.
Proof.
  revert n. induction e as [|a e IH]; intros [|n] H; [done..|]. apply Forall_cons in H as [H1 H2]. cbn. rewrite (proj2 (Z.eqb_neq a 0)) by done.
  destruct (IH n H2) as [-> ->]. done.
Qed.

(** [skipelem] gives the first element and a path with the others, which is shorter. *)
Lemma skipelem_spec path name : length name = DIRSIZ -> Forall (fun ch => ch <> 0) path ->
  match skipelem path name with
  | None => elems path = []
  | Some (rest, name') => exists e, elems path = e :: elems rest /\ length name' = DIRSIZ /\ cname DIRSIZ name' = cname DIRSIZ e /\
      (length rest < length path)%nat /\ Forall (fun ch => ch <> 0) rest /\ (elems rest = [] <-> rest = [])
  end.
Proof.
  intros Hn Hp. unfold skipelem. rewrite <- (elems_skip path). pose proof (skip_slashes_head path) as Hh. pose proof (skip_slashes_len path) as Hl.
  assert (Hp' := skip_slashes_forall _ _ Hp). destruct (skip_slashes path) as [|ch q] eqn:E; [done|].
  pose proof (split_elem_spec (ch :: q)) as Hs. destruct (split_elem (ch :: q)) as [e r].
  destruct Hs as (Heq & Hno & Hparts & Hr). destruct e as [|ch' e]; [destruct Hr as [->|(r' & ->)]; cbn in Heq; by simplify_eq|].
  rewrite Heq in Hl, Hp'. apply Forall_app in Hp' as [He Hrest]. rewrite length_app in Hl. exists (ch' :: e). set (el := ch' :: e) in *.
  assert (Hel : (0 < length el)%nat) by (cbn; lia). clearbody el. pose proof (skip_slashes_len r) as Hsr. split_and!.
  - unfold elems at 1. rewrite Hparts, elems_skip. assert (el <> []) by (intros ->; cbn in Hel; lia). destruct Hr as [->|(r' & ->)]; [by rewrite filter_cons_True|].
    by rewrite elems_slash, filter_cons_True.
  - destruct (Nat.leb_spec DIRSIZ (length el)); [rewrite length_take; lia|]. rewrite length_app. cbn [length]. rewrite length_drop. lia.
  - rewrite (proj2 (cname_take DIRSIZ el [] He)). destruct (DIRSIZ <=? length el)%nat; [|by apply cname_take].
    rewrite (proj2 (cname_take DIRSIZ (take DIRSIZ el) [] (Forall_take _ _ _ He))). by rewrite take_take, Nat.min_id.
  - lia.
  - by apply skip_slashes_forall.
  - apply skip_slashes_none.
Qed.

(** ** The references of the inode cache *)

Section Refs.
Implicit Types (V : Z -> block) (l : list inode) (p q : inode).

Definition zsum (f : inode -> Z) l : Z := foldr (fun p a => f p + a) 0 l.
(** The references to inode [n], and the entries not in use. *)
Definition refs l (n : Z) : Z := zsum (fun p => if i_inum p =? n then i_ref p else 0) l.
Definition slots l : Z := zsum (fun p => if i_ref p =? 0 then 1 else 0) l.

Lemma zsum_insert f l ip p q : l !! ip = Some p -> zsum f (<[ip := q]> l) = zsum f l - f p + f q.
Proof.
  unfold zsum. revert ip. induction l as [|r l IH]; intros [|ip] Hp; [done..|cbn in *; simplify_eq; lia|].
  specialize (IH ip Hp). change (<[S ip := q]> (r :: l)) with (r :: <[ip := q]> l). cbn [foldr]. rewrite IH. lia.
Qed.

Lemma slots_free l : 1 <= slots l -> exists ip p, l !! ip = Some p /\ i_ref p = 0.
Proof.
  induction l as [|p l IH]; cbn [slots zsum foldr]; [cbn; lia|]. destruct (Z.eqb_spec (i_ref p) 0) as [E|E]; [intros _; by exists 0%nat, p|].
  intros H. destruct IH as (ip & q & Hq & Hz); [exact H|]. by exists (S ip), q.
Qed.

Context (sb : superblock).

Record entry_ok V p : Prop := {
  eo_dev : i_dev p = 1;
  eo_inum : 0 <= i_inum p < ninodes sb;
  eo_sync : i_valid p <> 0 -> synced sb V p
}.
Lemma entry_ok_ref V p r : entry_ok V p -> entry_ok V (set_ref r p).
Proof. intros []. by split. Qed.

(** Entries in use are of the root device, at most one for an inode, and the ones read in
    agree with the disk. *)
Record icache_ok V l : Prop := {
  io_refs : forall ip p, l !! ip = Some p -> 0 <= i_ref p;
  io_uniq : ic_unique l;
  io_ent : forall ip p, l !! ip = Some p -> 1 <= i_ref p -> entry_ok V p
}.

Lemma icache_ok_insert V l ip p q : icache_ok V l -> l !! ip = Some p -> 0 <= i_ref q -> (1 <= i_ref q -> entry_ok V q) ->
  (1 <= i_ref q -> forall j r, l !! j = Some r -> j <> ip -> 1 <= i_ref r -> i_inum r <> i_inum q) -> icache_ok V (<[ip := q]> l).
Proof.
  intros [H1 H2 H3] Hp Hq Hok Hne. assert (Hlt := lookup_lt_Some _ _ _ Hp). split.
  - intros j r. rewrite list_lookup_insert_Some. intros [(_ & -> & _)|[_ Hr]]; [done|by eapply H1].
  - intros j k r r' Hj Hk Hr Hr' _ Ei. apply list_lookup_insert_Some in Hj as [(-> & <- & _)|[Hj1 Hj]]; apply list_lookup_insert_Some in Hk as [(-> & <- & _)|[Hk1 Hk]]; [done|..].
    + exfalso. by apply (Hne ltac:(lia) k r' Hk ltac:(done) ltac:(lia)).
    + exfalso. by apply (Hne ltac:(lia) j r Hj ltac:(done) ltac:(lia)).
    + eapply H2; try done. rewrite (eo_dev _ _ (H3 _ _ Hj ltac:(lia))), (eo_dev _ _ (H3 _ _ Hk ltac:(lia))). done.
  - intros j r. rewrite list_lookup_insert_Some. intros [(_ & <- & _)|[_ Hr]]; [done|by eapply H3].
Qed.

Lemma io_other V l ip p j r : icache_ok V l -> l !! ip = Some p -> 1 <= i_ref p -> l !! j = Some r -> j <> ip -> 1 <= i_ref r -> i_inum r <> i_inum p.
Proof.
  intros [H1 H2 H3] Hp Hr1 Hr Hne Hr2 E. apply Hne. eapply H2; [done|done|lia|lia| |done].
  by rewrite (eo_dev _ _ (H3 _ _ Hr Hr2)), (eo_dev _ _ (H3 _ _ Hp Hr1)).
Qed.

Definition one (b : bool) : Z := if b then 1 else 0.

(** [d] references more. *)
Lemma ref_ok V l ip p d : icache_ok V l -> cached sb l ip p -> 0 <= i_ref p + d ->
  let l' := <[ip := set_ref (i_ref p + d) p]> l in
  icache_ok V l' /\ (forall m, refs l' m = refs l m + d * one (m =? i_inum p)) /\ slots l' = slots l + one (i_ref p + d =? 0).
Proof.
  intros Hok [Hp Hr Hd Hi] Hpos l'. assert (Hent := io_ent _ _ Hok _ _ Hp Hr). unfold l', refs, slots. split_and!.
  - eapply icache_ok_insert; [done|done|done|intros _; by apply entry_ok_ref|intros _ k r Hk Hne Hr2; cbn; by eapply io_other].
  - intros m. rewrite (zsum_insert _ _ _ _ _ Hp). cbn [set_ref i_inum i_ref]. unfold one. rewrite (Z.eqb_sym m). destruct (i_inum p =? m); lia.
  - rewrite (zsum_insert _ _ _ _ _ Hp). cbn [set_ref i_inum i_ref]. unfold one. rewrite (proj2 (Z.eqb_neq (i_ref p) 0)) by lia. lia.
Qed.

(** A reference to inode [n] at entry [ip], which now holds [p]. *)
Record gained V l (n : Z) (ip : nat) l' p : Prop := {
  gn_ok : icache_ok V l';
  gn_cached : cached sb l' ip p;
  gn_inum : i_inum p = n;
  gn_refs : forall m, refs l' m = refs l m + one (m =? n);
  gn_slots : slots l' = slots l - one (i_ref p =? 1);
  gn_rest : forall j, j <> ip -> l' !! j = l !! j;
  gn_old : forall q, l !! ip = Some q -> 1 <= i_ref q -> p = set_ref (i_ref q + 1) q
}.

Lemma gained_hit V l j p : icache_ok V l -> cached sb l j p ->
  gained V l (i_inum p) j (alter (fun p => set_ref (i_ref p + 1) p) j l) (set_ref (i_ref p + 1) p).
Proof.
  intros Hok Hc. destruct (ref_ok V l j p 1 Hok Hc) as (H1 & H2 & H3); [destruct Hc; lia|]. destruct Hc as [Hp Hr Hd Hi].
  assert (Hlt := lookup_lt_Some _ _ _ Hp). rewrite (alter_insert_at _ _ _ _ Hp). split; [done| |done|..].
  - split; cbn; [by apply list_lookup_insert_eq|lia|done|done].
  - intros m. rewrite H2. lia.
  - rewrite H3. cbn [set_ref i_ref]. unfold one. rewrite !(proj2 (Z.eqb_neq _ _)) by lia. lia.
  - intros k Hk. by rewrite list_lookup_insert_ne.
  - intros q Hq _. congruence.
Qed.

(** With a free entry, [iget] gives one for the inode. *)
Lemma igot_free l n : 1 <= slots l -> exists ip l' q, igot 1 n l = Some (ip, l') /\ l' !! ip = Some q /\ i_inum q = n /\ 0 < i_ref q /\
  forall m, refs l' m = refs l m + one (m =? n).
Proof.
  intros Hfree. unfold igot. pose proof (iget_scan_spec 1 n l 0 None) as Hsp. destruct (iget_scan 1 n l 0 None) as [[ip|] [e|]].
  1,2: destruct Hsp as (j & p & -> & Hp & Href & Hd & <-); cbn [Nat.add]; assert (Hlt := lookup_lt_Some _ _ _ Hp); eexists _, _, _; (split; [done|]);
    rewrite (alter_insert_at _ _ _ _ Hp); (split; [by apply list_lookup_insert_eq|]); (split_and!; [done|cbn; lia|]);
    intros m; unfold refs; rewrite (zsum_insert _ _ _ _ _ Hp); cbn [i_inum i_ref set_ref]; unfold one; rewrite (Z.eqb_sym m); destruct (i_inum p =? m); lia.
  - destruct Hsp as (_ & j & p & -> & Hp & Hz & _). cbn [Nat.add]. assert (Hlt := lookup_lt_Some _ _ _ Hp). eexists _, _, _. split; [done|].
    rewrite (alter_insert_at _ _ _ _ Hp). split; [by apply list_lookup_insert_eq|]. split_and!; [done|cbn; lia|].
    intros m. unfold refs. rewrite (zsum_insert _ _ _ _ _ Hp). cbn [i_inum i_ref]. unfold one. rewrite Hz, (Z.eqb_sym m). destruct (n =? m), (i_inum p =? m); lia.
  - exfalso. destruct Hsp as [_ Hall]. destruct (slots_free l Hfree) as (ip & p & Hp & Hz). by apply (Hall ip p).
Qed.

Lemma igot_ok V l n : icache_ok V l -> 0 <= n < ninodes sb -> 1 <= slots l -> exists ip l' p, igot 1 n l = Some (ip, l') /\ gained V l n ip l' p.
Proof.
  intros Hok Hn Hfree. unfold igot. pose proof (iget_scan_spec 1 n l 0 None) as Hsp. destruct (iget_scan 1 n l 0 None) as [[ip|] [e|]].
  1,2: destruct Hsp as (j & p & -> & Hp & Href & Hd & <-); eexists _, _, _; split; [done|]; apply gained_hit; [done|by split; [|lia|..]].
  - destruct Hsp as (Hno & j & p & -> & Hp & Hz & _). cbn [Nat.add]. assert (Hlt := lookup_lt_Some _ _ _ Hp).
    set (f := fun p => mkinode 1 n 1 0 (i_type p) (i_major p) (i_minor p) (i_nlink p) (i_size p) (i_addrs p)).
    exists j, (alter f j l), (f p). rewrite (alter_insert_at _ _ _ _ Hp). split; [done|]. split.
    + eapply icache_ok_insert; [done|done|cbn; lia|intros _; by split|]. intros _ k r Hr Hne Hr2. cbn. intros E.
      apply (Hno k r Hr ltac:(lia)); [apply (io_ent _ _ Hok _ _ Hr Hr2)|done].
    + split; cbn; [by apply list_lookup_insert_eq|lia|done|lia].
    + done.
    + intros m. unfold refs. rewrite (zsum_insert _ _ _ _ _ Hp). unfold f, one. cbn [i_inum i_ref]. rewrite Hz, (Z.eqb_sym m n). destruct (n =? m), (i_inum p =? m); lia.
    + unfold slots. rewrite (zsum_insert _ _ _ _ _ Hp), Hz. unfold f, one. cbn [i_ref Z.eqb Pos.eqb]. lia.
    + intros k Hk. by rewrite list_lookup_insert_ne.
    + intros q Hq Hq2. simplify_eq. lia.
  - exfalso. destruct Hsp as [_ Hall]. destruct (slots_free l Hfree) as (ip & p & Hp & Hz). by apply (Hall ip p).
Qed.

Lemma loaded_ok V l ip p : icache_ok V l -> cached sb l ip p -> let p' := loaded sb V p in let l' := <[ip := p']> l in
  icache_ok V l' /\ cached sb l' ip p' /\ i_inum p' = i_inum p /\ i_ref p' = i_ref p /\ i_valid p' <> 0 /\ synced sb V p' /\
  (forall m, refs l' m = refs l m) /\ slots l' = slots l.
Proof.
  intros Hok Hc p' l'. destruct Hc as [Hp Hr Hd Hi] eqn:Ec. clear Ec. assert (Hent := io_ent _ _ Hok _ _ Hp Hr). assert (Hlt := lookup_lt_Some _ _ _ Hp).
  assert (i_inum p' = i_inum p /\ i_ref p' = i_ref p /\ i_dev p' = 1 /\ i_valid p' <> 0 /\ synced sb V p') as (E1 & E2 & E3 & E4 & E5).
  { unfold p', loaded. destruct (Z.eqb_spec (i_valid p) 0) as [E|E]; [|split_and!; try done; by apply Hent]. by cbn.
  }
  split_and!; try done.
  - eapply icache_ok_insert; [done|done|lia|intros _; split; [done|by rewrite E1|done]|]. intros _ k r Hk Hne Hr2. rewrite E1. by eapply io_other.
  - split; [by apply list_lookup_insert_eq|lia|done|by rewrite E1].
  - intros m. unfold refs, l'. rewrite (zsum_insert _ _ _ _ _ Hp), E1, E2. lia.
  - unfold slots, l'. rewrite (zsum_insert _ _ _ _ _ Hp), E2. lia.
Qed.
End Refs.

(** ** Walking the tree on the disk *)

Section Tree.
Context (sb : superblock) (ds : Z).
Implicit Types (V : Z -> block) (n : Z) (p : inode) (es : list (list Z)).

Definition dino V n : dinode := get_dinode n (V (IBLOCK n sb)).
Definition inode_on V n : inode := load_dinode (dino V n) (mkinode 1 n 0 0 0 0 0 0 0 []).
(** The inode number a name has in directory [n]. *)
Definition child V n (e : list Z) : option Z :=
  if di_type (dino V n) =? T_DIR then (fun j => de_inum (dent V (inode_on V n) j)) <$> dir_find V (inode_on V n) e else None.
Fixpoint walk V n es : option Z :=
  match es with
  | [] => Some n
  | e :: es => m ← child V n e; walk V m es
  end.

(** Inodes in use have a link; the entries of a directory are of inodes in use. *)
Record disk_ok V : Prop := {
  dk_link : forall n, 0 <= n < ninodes sb -> di_type (dino V n) <> 0 -> di_nlink (dino V n) <> 0;
  dk_dir : forall n, 0 <= n < ninodes sb -> di_type (dino V n) = T_DIR ->
    di_size (dino V n) mod 16 = 0 /\ 0 <= di_size (dino V n) <= MAXFILE * BSIZE /\ mapped sb ds V (inode_on V n) (blocks_of (di_size (dino V n)));
  dk_child : forall n e m, 0 <= n < ninodes sb -> child V n e = Some m -> 0 <= m < ninodes sb /\ di_type (dino V m) <> 0
}.

Lemma fbyte_addrs V p q o : i_addrs p = i_addrs q -> fbyte V p o = fbyte V q o.
Proof. intros E. unfold fbyte, baddr, addr_at. by rewrite E. Qed.

Lemma dent_addrs V p q k : i_addrs p = i_addrs q -> dent V p k = dent V q k.
Proof. intros E. apply fbytes_ext. intros o _. by apply fbyte_addrs. Qed.

Lemma mapped_addrs V p q nb : i_addrs p = i_addrs q -> mapped sb ds V p nb -> mapped sb ds V q nb.
Proof.
  intros E. assert (forall k, addr_at p k = addr_at q k) as Ea by (intros k; unfold addr_at; by rewrite E).
  assert (forall k, baddr V p k = baddr V q k) as Eb by (intros k; unfold baddr; by rewrite !Ea).
  intros []. split; intros; rewrite <- ?Ea, <- ?Eb, <- ?E in *; eauto.
  destruct (mp_ind ltac:(assumption)) as (H1 & H2 & H3). split_and!; [done| |done]. intros k Hk. rewrite <- Eb. by apply H2.
Qed.

Lemma sync_fields V p : synced sb V p -> i_type p = di_type (dino V (i_inum p)) /\ i_size p = di_size (dino V (i_inum p)) /\
  i_addrs p = di_addrs (dino V (i_inum p)) /\ i_nlink p = di_nlink (dino V (i_inum p)).
Proof. unfold synced. fold (dino V (i_inum p)). intros ->. done. Qed.

Lemma sync_find V p e : synced sb V p -> dir_find V p e = dir_find V (inode_on V (i_inum p)) e.
Proof.
  intros Hs. destruct (sync_fields _ _ Hs) as (_ & Ez & Ea & _). unfold dir_find, nents. cbn [inode_on load_dinode i_size]. rewrite <- Ez.
  apply find_ent_ext. intros j _. unfold hit, free_at. by rewrite (dent_addrs V p (inode_on V (i_inum p))).
Qed.

Lemma sync_child V p e : synced sb V p -> i_type p = T_DIR -> child V (i_inum p) e = (fun j => de_inum (dent V p j)) <$> dir_find V p e.
Proof.
  intros Hs Ht. destruct (sync_fields _ _ Hs) as (E & _ & Ea & _). unfold child. rewrite <- E, Ht, <- sync_find by done. cbn [Z.eqb T_DIR].
  destruct (dir_find V p e); [|done]. cbn [fmap option_fmap option_map]. by rewrite (dent_addrs V p (inode_on V (i_inum p))) by done.
Qed.

Lemma sync_dir_at V l ip p : disk_ok V -> cached sb l ip p -> synced sb V p -> i_type p = T_DIR -> dir_at sb ds V l ip p.
Proof.
  intros Hk [Hp _ Hd Hi] Hs Ht. destruct (sync_fields _ _ Hs) as (E & Ez & Ea & _). destruct (dk_dir _ Hk (i_inum p) Hi) as (H1 & H2 & H3); [congruence|].
  rewrite <- Ez in *. split; [split|..]; try done; [by rewrite Ht|]. eapply mapped_addrs; [|exact H3]. by rewrite Ea.
Qed.

(** The directory entries of the names: [dir_find] depends on the name up to [DIRSIZ]. *)
Lemma child_name V n e e' : cname DIRSIZ e = cname DIRSIZ e' -> child V n e = child V n e'.
Proof.
  intros E. unfold child, dir_find. rewrite (find_ent_ext (hit V (inode_on V n) e) (hit V (inode_on V n) e')); [done|].
  intros j _. unfold hit. by rewrite E.
Qed.

(** What [namex] is to find: with [parent], the directory of the last element. *)
Definition target (parent : bool) V n es : option Z :=
  if parent then match es with
    | [] => None
    | _ => m ← walk V n (removelast es); if di_type (dino V m) =? T_DIR then Some m else None
    end
  else walk V n es.

Lemma target_cons parent V n e es : (parent = false \/ es <> []) -> target parent V n (e :: es) = m ← child V n e; target parent V m es.
Proof.
  intros H. unfold target. destruct parent; [|done]. destruct H as [|H]; [done|]. destruct es as [|e' es]; [done|].
  change (removelast (e :: e' :: es)) with (e :: removelast (e' :: es)). cbn [walk]. destruct (child V n e); done.
Qed.

Lemma target_last V n e : target true V n [e] = if di_type (dino V n) =? T_DIR then Some n else None.
Proof. done. Qed.

Lemma target_file parent V n e es : di_type (dino V n) <> T_DIR -> target parent V n (e :: es) = None.
Proof.
  intros H. assert (child V n e = None) as Hc by (unfold child; by rewrite (proj2 (Z.eqb_neq _ _) H)).
  destruct (decide (parent = false \/ es <> [])) as [Ho|Ho]; [rewrite target_cons by done; by rewrite Hc|].
  destruct parent; [|tauto]. destruct es; [|exfalso; apply Ho; by right]. rewrite target_last. by rewrite (proj2 (Z.eqb_neq _ _) H).
Qed.

(** A path leads to an inode in use. *)
Lemma walk_live V n es m : disk_ok V -> 0 <= n < ninodes sb -> di_type (dino V n) <> 0 -> walk V n es = Some m -> 0 <= m < ninodes sb /\ di_type (dino V m) <> 0.
Proof.
  intros Hd. revert n. induction es as [|e es IH]; intros n Hn Ht; cbn [walk]; [by intros [= <-]|].
  destruct (child V n e) as [k|] eqn:E; [|done]. destruct (dk_child V Hd n e k Hn E) as [H1 H2]. by apply IH.
Qed.
End Tree.

(** ** [namex] *)

Section Namex.
Context {S : Type} `{!HasCtx S, !Txn S}.
Context (waits : nat).
Context (dev_read : Z -> option (nat -> Z -> M (fsst S) (Z * list Z))).
Context (i : nat) (c : cpu) (g : tgeo) (sb : superblock) (ds : Z) (pid : Z) (cwd : nat).
Hypothesis (Hly : layout g sb ds).
Hypothesis (Hds : 0 < ds).
Context (V : Z -> block) (T : gset Z).
Hypothesis (Hdk : disk_ok sb ds V).
Hypothesis (HT : (size T < NBUF)%nat).
Implicit Types (s : fsst S) (l : list inode) (p : inode).
Notation fsrep := (fsrep i c g sb pid cwd).
Notation cached := (cached sb).
Notation icache_ok := (icache_ok sb V).
Notation namex_loop := (namex_loop waits dev_read).

(** The walk has one reference, to inode [n] at entry [ip], and room for another. *)
Record walking s l (ip : nat) p (n : Z) : Prop := {
  wk_rep : fsrep s V ∅ T l ∅;
  wk_ok : icache_ok l;
  wk_at : cached l ip p;
  wk_inum : i_inum p = n;
  wk_type : di_type (dino sb V n) <> 0;
  wk_room : 2 <= slots l + one (i_ref p =? 1)
}.

(** [ilock] of an entry: it holds the inode of the disk, locked. *)
Lemma wp_lock_live s l ip p n Q Wk :
  fsrep s V ∅ T l ∅ -> icache_ok l -> cached l ip p -> i_inum p = n -> di_type (dino sb V n) <> 0 ->
  (forall s' l' p', fsrep s' V ∅ T l' {[ip]} -> icache_ok l' -> cached l' ip p' -> i_inum p' = n -> i_ref p' = i_ref p -> synced sb V p' -> i_valid p' <> 0 -> i_nlink p' <> 0 ->
     (forall m, refs l' m = refs l m) -> slots l' = slots l -> Q tt s') ->
  wp (ilock waits (Some ip) s) Q Wk.
Proof.
  intros Hr Hok Hc Hn Ht HQ. destruct (loaded_ok sb V l ip p Hok Hc) as (H1 & H2 & H3 & H4 & H5 & H6 & H7 & H8).
  destruct (sync_fields sb V _ H6) as (Ety & _ & _ & Enl). rewrite H3, Hn in Ety, Enl.
  eapply (wp_ilock waits i c g sb ds pid cwd Hly); [exact Hr|exact Hc|set_solver|apply holds_none|rewrite dom_empty_L, size_empty; lia|left; by rewrite Ety|].
  intros s' R'. rewrite union_empty_r_L in R'. eapply HQ; [exact R'|done|done|congruence|done|done|done| |done|done].
  rewrite Enl. apply (dk_link _ _ _ Hdk); [rewrite <- Hn; apply Hc|done].
Qed.

Lemma wp_walk_lock s l ip p n Q Wk :
  walking s l ip p n ->
  (forall s' l' p', fsrep s' V ∅ T l' {[ip]} -> icache_ok l' -> cached l' ip p' -> i_inum p' = n -> i_ref p' = i_ref p -> synced sb V p' -> i_valid p' <> 0 -> i_nlink p' <> 0 ->
     (forall m, refs l' m = refs l m) -> slots l' = slots l -> Q tt s') ->
  wp (ilock waits (Some ip) s) Q Wk.
Proof. intros [Hr Hok Hc Hn Ht _]. by apply (wp_lock_live s l ip p n). Qed.

(** [iunlockput] of it. *)
Lemma wp_walk_put s l ip p Q Wk :
  fsrep s V ∅ T l {[ip]} -> icache_ok l -> cached l ip p -> i_nlink p <> 0 ->
  (forall s' l', fsrep s' V ∅ T l' ∅ -> icache_ok l' -> (forall m, refs l' m = refs l m - one (m =? i_inum p)) ->
     slots l' = slots l + one (i_ref p =? 1) -> (forall j, j <> ip -> l' !! j = l !! j) -> (l' !! ip = Some (set_ref (i_ref p - 1) p)) -> Q tt s') ->
  wp (iunlockput waits ip s) Q Wk.
Proof.
  intros Hr Hok Hc Hl HQ. destruct (ref_ok sb V l ip p (-1) Hok Hc) as (H1 & H2 & H3); [destruct Hc; lia|].
  assert (Hlt := lookup_lt_Some _ _ _ (ca_at _ _ _ _ Hc)).
  eapply wp_iunlockput; [exact Hr|exact Hc|set_solver|by right|]. intros s' R'. replace ({[ip]} ∖ {[ip]}) with (∅ : gset nat) in R' by set_solver.
  eapply HQ; [exact R'|exact H1|..].
  - intros m. etransitivity; [exact (H2 m)|lia].
  - etransitivity; [exact H3|]. f_equal. f_equal. destruct (Z.eqb_spec (i_ref p + -1) 0), (Z.eqb_spec (i_ref p) 1); done || lia.
  - intros j Hj. by rewrite list_lookup_insert_ne.
  - by apply list_lookup_insert_eq.
Qed.

Lemma entry_live l ip p : icache_ok l -> cached l ip p -> di_type (dino sb V (i_inum p)) <> 0 -> i_valid p = 0 \/ i_nlink p <> 0.
Proof.
  intros Hok [Hp Hr _ Hi] Ht. destruct (decide (i_valid p = 0)) as [|Hv]; [by left|right].
  destruct (sync_fields sb V _ (eo_sync _ _ _ (io_ent _ _ _ Hok _ _ Hp Hr) Hv)) as (_ & _ & _ & ->). by apply (dk_link _ _ _ Hdk).
Qed.

(** The outcome of the walk: a reference to [m] instead of the one to [n], or none. *)
Definition walk_post l (n : Z) (parent : bool) (es : list (list Z)) (Q : option nat * list Z -> fsst S -> Prop) : Prop :=
  match target sb parent V n es with
  | Some m => forall s' l' ip' p' nm, fsrep s' V ∅ T l' ∅ -> icache_ok l' -> cached l' ip' p' -> i_inum p' = m ->
      (forall x, refs l' x = refs l x - one (x =? n) + one (x =? m)) ->
      (parent = true -> exists e, last es = Some e /\ cname DIRSIZ nm = cname DIRSIZ e) -> Q (Some ip', nm) s'
  | None => forall s' l' nm, fsrep s' V ∅ T l' ∅ -> icache_ok l' -> (forall x, refs l' x = refs l x - one (x =? n)) -> Q (None, nm) s'
  end.

Lemma walk_post_mono l l' n m parent es es' Q :
  match target sb parent V m es with
  | Some m' => forall s' l0 ip' p' nm, fsrep s' V ∅ T l0 ∅ -> icache_ok l0 -> cached l0 ip' p' -> i_inum p' = m' ->
      (forall x, refs l0 x = refs l x - one (x =? n) + one (x =? m')) ->
      (parent = true -> exists e, last es' = Some e /\ cname DIRSIZ nm = cname DIRSIZ e) -> Q (Some ip', nm) s'
  | None => forall s' l0 nm, fsrep s' V ∅ T l0 ∅ -> icache_ok l0 -> (forall x, refs l0 x = refs l x - one (x =? n)) -> Q (None, nm) s'
  end ->
  (forall x, refs l' x = refs l x - one (x =? n) + one (x =? m)) -> (parent = true -> last es = last es') -> walk_post l' m parent es Q.
Proof.
  intros HQ Hrefs Hlast. unfold walk_post. destruct (target sb parent V m es) as [m'|].
  - intros s' l0 ip' p' nm H1 H2 H3 H4 H5 H6. eapply HQ; try done; [intros x; rewrite H5, Hrefs; lia|]. intros Hp. rewrite <- Hlast by done. by apply H6.
  - intros s' l0 nm H1 H2 H3. eapply HQ; try done. intros x. rewrite H3, Hrefs. lia.
Qed.

(** From a directory to its child: the reference to the directory goes. *)
Lemma wp_walk_hop s l1 ip p1 m ip2 l2 p2 Q Wk :
  fsrep s V ∅ T l2 {[ip]} -> cached l1 ip p1 -> i_nlink p1 <> 0 -> gained sb V l1 m ip2 l2 p2 -> di_type (dino sb V m) <> 0 ->
  2 <= slots l1 + one (i_ref p1 =? 1) ->
  (forall s' l3 p3, walking s' l3 ip2 p3 m -> (forall x, refs l3 x = refs l1 x - one (x =? i_inum p1) + one (x =? m)) -> Q tt s') ->
  wp (iunlockput waits ip s) Q Wk.
Proof.
  intros R2 [Hp1 Hr1 Hd1 Hi1] Hnl [Gok Gc Gi Grefs Gslots Grest Gold] Hmt Hroom HQ. destruct (decide (ip2 = ip)) as [->|Hne].
  - assert (p2 = set_ref (i_ref p1 + 1) p1) as -> by (by apply Gold). eapply wp_walk_put; [exact R2|done|exact Gc|done|].
    intros s3 l3 R3 Ok3 Refs3 Sl3 _ At3. cbn [i_ref set_ref i_inum] in *. destruct Gc as [_ _ Gd Gn]. eapply (HQ s3 l3).
    + split; [exact R3|done|split; [exact At3|cbn; lia|done|done]|done|done|]. rewrite Sl3, Gslots. cbn [i_ref set_ref]. unfold one in *.
      rewrite (proj2 (Z.eqb_neq (i_ref p1 + 1) 1)) by lia. rewrite Z.add_simpl_r. lia.
    + intros x. rewrite Refs3, Grefs. cbn [i_inum set_ref]. lia.
  - assert (C2 : cached l2 ip p1) by (split; [by rewrite Grest|done..]). eapply wp_walk_put; [exact R2|done|exact C2|done|].
    intros s3 l3 R3 Ok3 Refs3 Sl3 Rest3 _. destruct Gc as [Gat Gr Gd Gn]. eapply (HQ s3 l3 p2).
    + split; [exact R3|done|split; [by rewrite Rest3|done..]|done|done|]. rewrite Sl3, Gslots. lia.
    + intros x. rewrite Refs3, Grefs. lia.
Qed.

Lemma wp_namex_loop fuel s l ip p n path name parent Q Wk :
  walking s l ip p n -> length name = DIRSIZ -> Forall (fun ch => ch <> 0) path -> (length path < fuel)%nat ->
  walk_post l n parent (elems path) Q -> wp (namex_loop fuel ip path name parent s) Q Wk.
Proof.
  revert s l ip p n path name. induction fuel as [|fuel IH]; intros s l ip p n path name Hwk Hnm Hpath Hfuel HQ; [lia|]. cbn [Fs.namex_loop].
  pose proof (skipelem_spec path name Hnm Hpath) as Hsk. destruct (skipelem path name) as [[rest nm]|].
  2: { rewrite Hsk in HQ. destruct Hwk as [Hr Hok Hc Hn Ht Hroom]. destruct parent; cbn in HQ.
       - apply wp_step. eapply wp_iput; [exact Hr|apply Hc|set_solver|eapply entry_live; [done|done|by rewrite Hn]|]. intros s1 R1.
         destruct (ref_ok sb V l ip p (-1) Hok Hc) as (H1 & H2 & H3); [destruct Hc; lia|]. cbn. eapply HQ; [exact R1|exact H1|].
         intros x. etransitivity; [exact (H2 x)|]. rewrite Hn. lia.
       - cbn. eapply HQ; [exact Hr|done|exact Hc|done|intros x; lia|done]. }
  destruct Hsk as (e & Hes & Hlen & Hcn & Hlt & Hrest & Hnil). rewrite Hes in HQ.
  apply wp_step. eapply wp_walk_lock; [exact Hwk|]. intros s1 l1 p1 R1 Ok1 C1 In1 Rf1 Sy1 Va1 Nl1 Refs1 Sl1.
  destruct (sync_fields sb V _ Sy1) as (Ety & _). rewrite In1 in Ety.
  apply wp_step. eapply wp_ino; [rewrite (fr_ic _ _ _ _ _ _ _ _ _ _ _ _ R1); apply C1|].
  destruct (Z.eqb_spec (i_type p1) T_DIR) as [Hdir|Hdir]; cbn [negb].
  2: { unfold walk_post in HQ. rewrite target_file in HQ by congruence. apply wp_step. eapply wp_walk_put; [exact R1|done|exact C1|done|].
       intros s2 l2 R2 Ok2 Refs2 _ _ _. cbn. eapply HQ; [exact R2|done|]. intros x. rewrite Refs2, Refs1, In1. done. }
  destruct (parent && bool_decide (rest = [])) eqn:Epar.
  { apply andb_true_iff in Epar as [-> Er]. apply bool_decide_eq_true in Er as ->. unfold walk_post in HQ. cbn [elems parts filter] in HQ.
    rewrite (proj2 Hnil eq_refl), target_last, <- Ety, Hdir in HQ. cbn [Z.eqb Pos.eqb T_DIR] in HQ. apply wp_step.
    eapply wp_iunlock; [exact R1|exact C1|set_solver|]. intros s2 R2. replace ({[ip]} ∖ {[ip]}) with (∅ : gset nat) in R2 by set_solver. cbn.
    eapply HQ; [exact R2|done|exact C1|done|intros x; rewrite Refs1; lia|]. intros _. by exists e. }
  assert (Hgo : parent = false \/ elems rest <> []).
  { destruct parent; [right|by left]. cbn in Epar. apply bool_decide_eq_false in Epar. by rewrite Hnil. }
  unfold walk_post in HQ. rewrite target_cons in HQ by done. assert (Hd1 := sync_dir_at sb ds V l1 ip p1 Hdk C1 Sy1 Hdir).
  rewrite (child_name sb V n e nm (eq_sym Hcn)), <- In1, (sync_child sb V p1 nm Sy1 Hdir) in HQ.
  apply wp_step. eapply (wp_dirlookup dev_read i c g sb ds pid cwd Hly Hds); [exact R1|exact Hd1|done|apply readable_len; lia|].
  destruct (dir_find V p1 nm) as [j|] eqn:Ej; cbn [fmap option_fmap option_map mbind option_bind] in HQ.
  - assert (Hch : child sb V n nm = Some (de_inum (dent V p1 j))) by (rewrite <- In1, (sync_child sb V p1 nm Sy1 Hdir), Ej; done).
    destruct (dk_child _ _ _ Hdk n nm _ ltac:(rewrite <- In1; apply C1) Hch) as [Hm Hmt]. destruct Hwk as [_ _ _ _ _ Hroom]. rewrite <- Rf1, <- Sl1 in Hroom.
    destruct (igot_ok sb V l1 (de_inum (dent V p1 j)) Ok1 Hm) as (ip2 & l2 & p2 & Hg & Hgain); [unfold one in Hroom; destruct (i_ref p1 =? 1); lia|].
    exists ip2, l2. split; [done|]. intros s2 R2. apply wp_step. eapply wp_walk_hop; [exact R2|exact C1|done|exact Hgain|done|done|]. intros s3 l3 p3 Wk3 Refs3.
    eapply (IH s3 l3 ip2 p3); [exact Wk3|lia|done|lia|]. eapply walk_post_mono; [exact HQ|..].
    + intros x. rewrite Refs3, Refs1. lia.
    + intros ->. destruct Hgo as [|Hgo]; [done|]. by destruct (elems rest).
  - intros s2 R2. apply wp_step. eapply wp_walk_put; [exact R2|done|exact C1|done|].
    intros s3 l3 R3 Ok3 Refs3 _ _ _. cbn. eapply HQ; [exact R3|done|]. intros x. by rewrite Refs3, Refs1.
Qed.

(** Where the walk starts: the root, or the current directory. *)
Definition starts l (path : list Z) (n : Z) : Prop :=
  match path with
  | 47 :: _ => n = ROOTINO /\ 0 <= ROOTINO < ninodes sb
  | _ => exists p, cached l cwd p /\ i_inum p = n
  end.

Definition namex_post l (n : Z) (parent : bool) (es : list (list Z)) (Q : option nat * list Z -> fsst S -> Prop) : Prop :=
  match target sb parent V n es with
  | Some m => forall s' l' ip' p' nm, fsrep s' V ∅ T l' ∅ -> icache_ok l' -> cached l' ip' p' -> i_inum p' = m ->
      (forall x, refs l' x = refs l x + one (x =? m)) ->
      (parent = true -> exists e, last es = Some e /\ cname DIRSIZ nm = cname DIRSIZ e) -> Q (Some ip', nm) s'
  | None => forall s' l' nm, fsrep s' V ∅ T l' ∅ -> icache_ok l' -> (forall x, refs l' x = refs l x) -> Q (None, nm) s'
  end.

Lemma wp_namex_from s l n ip l' p path name parent Q Wk :
  fsrep s V ∅ T l' ∅ -> gained sb V l n ip l' p -> di_type (dino sb V n) <> 0 -> 2 <= slots l -> length name = DIRSIZ -> Forall (fun ch => ch <> 0) path ->
  namex_post l n parent (elems path) Q -> wp (namex_loop (Datatypes.S (length path)) ip path name parent s) Q Wk.
Proof.
  intros R [Gok Gc Gi Grefs Gslots _ _] Hty Hroom Hnm Hpath HQ. eapply wp_namex_loop; [split; [exact R|done|exact Gc|done|done|rewrite Gslots; lia]|done|done|lia|].
  unfold walk_post. unfold namex_post in HQ. destruct (target sb parent V n (elems path)) as [m|].
  - intros s' l0 ip' p' nm H1 H2 H3 H4 H5 H6. eapply HQ; try done. intros x. rewrite H5, Grefs. lia.
  - intros s' l0 nm H1 H2 H3. eapply HQ; try done. intros x. rewrite H3, Grefs. lia.
Qed.

Lemma wp_namex s l n path name parent Q Wk :
  fsrep s V ∅ T l ∅ -> icache_ok l -> 2 <= slots l -> starts l path n -> di_type (dino sb V n) <> 0 -> length name = DIRSIZ -> Forall (fun ch => ch <> 0) path ->
  namex_post l n parent (elems path) Q -> wp (namex waits dev_read path parent name s) Q Wk.
Proof.
  intros Hr Hok Hroom Hst Hty Hnm Hpath HQ. unfold namex. apply wp_step.
  assert (Hrel : (exists p, cached l cwd p /\ i_inum p = n) -> wp ((onctx myproc ;; cwd <- gets f_cwd ;; idup cwd) s)
    (fun a s' => wp (namex_loop (Datatypes.S (length path)) a path name parent s') Q Wk) stays).
  { intros (p & Hc & Hn). apply wp_step. destruct (fsrep_calm _ _ _ _ _ _ _ _ _ _ _ _ Hr) as [Hcx _].
    eapply wp_myproc_; [exact Hcx|]. apply wp_step. cbn [gets wp]. rewrite (fr_cwd _ _ _ _ _ _ _ _ _ _ _ _ Hr).
    eapply wp_idup; [exact Hr|]. intros s1 R1. eapply (wp_namex_from _ l n); [exact R1|rewrite <- Hn; by apply gained_hit|done..]. }
  destruct path as [|ch path]; [by apply Hrel|]. destruct ch as [|ch|ch]; [by apply Hrel| |by apply Hrel].
  repeat (destruct ch as [ch|ch|]; try (by apply Hrel)).
  destruct Hst as [-> Hri]. destruct (igot_ok sb V l ROOTINO Hok Hri) as (ip & l' & p & Hg & Hgain); [lia|].
  eapply wp_iget; [exact Hr|exact Hg|]. intros s1 R1. by eapply wp_namex_from.
Qed.
End Namex.
