(* ===== verification/FsTheorems.v ===== *)
(** * The file system: the theorems

    What [balloc] and [bfree], [writei] and [readi], [dirlink] and [namex] do, over any
    transactional store; applied to the machine of [Demo]. *)

From Stdlib Require Import ZArith Lia.
From S2P Require Import Prelude Spinlock Sleeplock Strings Blocks Bytes Bio BioSpec BioOps BioTheorems Log LogSpec LogOps LogCrash Txn Demo.
From S2P Require Import Fs FsSpec FsInode FsFile FsWrite FsDir FsPath.

Section Claims.
Context {S : Type} `{!HasCtx S, !Txn S}.
Context (waits : nat).
Context (dev_read : Z -> option (nat -> Z -> M (fsst S) (Z * list Z))).
Context (dev_write : Z -> option (nat -> list Z -> M (fsst S) Z)).
Context (i : nat) (c : cpu) (g : tgeo) (sb : superblock) (ds : Z) (pid : Z) (cwd : nat).
Hypothesis (Hly : layout g sb ds).
Hypothesis (Hds : 0 < ds).
Implicit Types (s : fsst S) (V : Z -> block) (T : gset Z) (l : list inode) (K : gset nat) (p : inode).
Notation fsrep := (fsrep i c g sb pid cwd).

(** [balloc] returns the first free block, marked in the free map and
    filled with zeros, and changes nothing else; [bfree] of it makes it the first free
    block again. *)
Theorem balloc_bfree s V T l K b fl :
  fsrep s V ∅ T l K -> meta_used V sb ds -> free_list sb V = b :: fl -> (size T + 3 <= NBUF)%nat -> (size T + 3 <= g_cap g)%nat ->
  exists s1, balloc 1 s = Ret b s1 /\ fsrep s1 (v_alloc V sb b) ∅ ({[b]} ∪ ({[BBLOCK b sb]} ∪ T)) l K /\
    ds <= b /\ v_alloc V sb b b = replicate 512 0 /\ (forall n, n <> b -> n <> BBLOCK b sb -> v_alloc V sb b n = V n) /\
    free_list sb (v_alloc V sb b) = fl /\
    exists s2 V2, bfree 1 b s1 = Ret tt s2 /\ fsrep s2 V2 ∅ ({[b]} ∪ ({[BBLOCK b sb]} ∪ T)) l K /\ free_list sb V2 = b :: fl.
Proof.
  intros Hr Hm Hf Hn Hc. assert (Hff := free_list_first g sb ds Hly V b fl Hf). assert (Hl := bmap_len i c g sb ds pid cwd Hly s V ∅ T l K b Hr Hff).
  assert (Hdom : size (dom (∅ : gmap Z nat)) = 0%nat) by (by rewrite dom_empty_L, size_empty).
  assert (wp (balloc 1 s) (fun r s1 => r = b /\ fsrep s1 (v_alloc V sb b) ∅ ({[b]} ∪ ({[BBLOCK b sb]} ∪ T)) l K) stays) as H.
  { eapply (wp_balloc_rep i c g sb ds pid cwd Hly); [exact Hr|done|apply holds_none|done|lia|lia|done]. }
  apply wp_Ret in H as (? & s1 & Hrun & -> & R1). exists s1.
  assert (Hda := alloc_is_data g sb ds Hly V b Hm Hff Hl). assert (Hsz := size_add2 b (BBLOCK b sb) T).
  split_and!; [done|done|apply Hda|apply v_alloc_new|by apply v_alloc_other|by eapply free_list_alloc|].
  assert (wp (bfree 1 b s1) (fun _ s2 => fsrep s2 (v_free (v_alloc V sb b) sb b) ∅ ({[BBLOCK b sb]} ∪ ({[b]} ∪ ({[BBLOCK b sb]} ∪ T))) l K) stays) as H.
  { eapply (wp_bfree i c g sb ds Hly); [apply R1|apply R1|apply holds_none|apply Hff|apply Hda|lia|lia|]. intros x Hx. eapply fsrep_store; [exact R1|exact Hx]. }
  apply wp_Ret in H as ([] & s2 & Hrun2 & R2). exists s2, (v_free (v_alloc V sb b) sb b). split_and!; [done| |].
  - replace ({[b]} ∪ ({[BBLOCK b sb]} ∪ T)) with ({[BBLOCK b sb]} ∪ ({[b]} ∪ ({[BBLOCK b sb]} ∪ T))) by (clear; set_solver). exact R2.
  - rewrite <- Hf. unfold free_list. apply filter_ext_in. intros n Hn2%elem_of_seqZ.
    assert (Hl2 : length (v_alloc V sb b (BBLOCK b sb)) = 512%nat) by exact (fs_at_len _ _ _ _ _ _ _ _ (fr_tx _ _ _ _ _ _ _ _ _ _ _ _ R1) (proj1 (ly_bmap _ _ _ Hly b (ff_range _ _ _ Hff)))).
    assert (Hb := ff_range _ _ _ Hff). rewrite used_free by (done || lia). rewrite (used_alloc g sb ds Hly) by (done || lia).
    destruct (Z.eqb_spec n b) as [->|]; cbn; [|done]. rewrite (ff_free _ _ _ Hff). done.
Qed.

(** C5 (roundtrip).  [writei] of [src] at an offset within the file returns its length:
    the file grows to hold it, has [src] there and its old bytes elsewhere; the blocks of
    other files, the other inodes and the blocks in use are kept; the operation logs at
    most the blocks written, the inode, the indirect block and the free map.  [readi] of
    the same range then returns [src]. *)
Theorem writei_readi s V T l K ip p src off :
  fsrep s V ∅ T l K -> open_file sb ds V l ip p -> meta_used V sb ds -> 0 <= off <= i_size p ->
  let n := Z.of_nat (length src) in off + n <= MAXFILE * BSIZE -> 2 * touched off n <= Z.of_nat (length (free_list sb V)) ->
  log_need sb T off n <= Z.of_nat NBUF -> log_need sb T off n <= Z.of_nat (g_cap g) ->
  exists s' V' p' T', writei dev_write ip src off s = Ret n s' /\ fsrep s' V' ∅ T' (<[ip := p']> l) K /\
    open_file sb ds V' (<[ip := p']> l) ip p' /\ written sb ds V p V' p' off src /\
    Z.of_nat (size T') <= touched off n + 2 + Z.of_nat (size (bm_set sb ∪ T)) /\
    exists s'', readi dev_read ip off n s' = Ret (n, src) s'' /\ fsrep s'' V' ∅ T' (<[ip := p']> l) K.
Proof.
  intros Hr Ho Hm Hoff n Hmax Hfree Hn1 Hn2.
  assert (wp (writei dev_write ip src off s) (fun r s' => r = n /\ exists V' p' T', fsrep s' V' ∅ T' (<[ip := p']> l) K /\
    open_file sb ds V' (<[ip := p']> l) ip p' /\ written sb ds V p V' p' off src /\
    Z.of_nat (size T') <= touched off n + 2 + Z.of_nat (size (bm_set sb ∪ T))) stays) as H.
  { eapply (wp_writei i c g sb ds pid cwd Hly dev_write); [exact Hr|exact Ho|done..|]. intros s' V' p' T' H1 H2 H3 H4 _. split; [done|]. by exists V', p', T'. }
  apply wp_Ret in H as (r & s' & Hrun & -> & V' & p' & T' & R' & Ho' & Hw & HT'). exists s', V', p', T'. split_and!; [done..|].
  assert (Hsz := wn_size _ _ _ _ _ _ _ _ Hw). fold n in Hsz. unfold log_need in Hn1. unfold MAXFILE, BSIZE in Hmax.
  assert (wp (readi dev_read ip off n s') (fun r s'' => r = (n, src) /\ fsrep s'' V' ∅ T' (<[ip := p']> l) K) stays) as H.
  { eapply (wp_readi i c g sb ds pid cwd Hly dev_read); [exact R'|apply Ho'|exact Hds|lia|lia|lia|lia|]. intros s'' m Hmin R''. rewrite Z.min_l in Hmin by lia. subst m.
    split; [|exact R'']. f_equal. apply list_eq_same_length with (length src); [done|rewrite length_fbytes; lia|]. intros k x y Hk Hx Hy.
    rewrite fbytes_lookup in Hx by lia. injection Hx as <-. by eapply (wn_new _ _ _ _ _ _ _ _ Hw). }
  apply wp_Ret in H as (r & s'' & Hrun' & -> & R''). by exists s''.
Qed.

(** What [dirlookup] of [name] gives in [s]: the inode number and the offset of the entry that it
    finds, with one more reference to that inode in the cache; or that there is none. *)
Definition finds s V T l K (dp : nat) (name : list Z) (r : option (Z * Z)) : Prop :=
  match r with
  | Some (n, off) => exists ip q s2 l2, dirlookup dev_read dp name s = Ret (Some (ip, off)) s2 /\ fsrep s2 V ∅ T l2 K /\
      l2 !! ip = Some q /\ i_inum q = n /\ 0 < i_ref q /\ forall x, refs l2 x = refs l x + one (x =? n)
  | None => exists s2, dirlookup dev_read dp name s = Ret None s2 /\ fsrep s2 V ∅ T l K
  end.

Lemma dirlookup_finds s V T l K dp p name :
  fsrep s V ∅ T l K -> dir_at sb ds V l dp p -> (size T < NBUF)%nat -> readable DIRSIZ name -> 1 <= slots l ->
  finds s V T l K dp name ((fun j => (de_inum (dent V p j), 16 * Z.of_nat j)) <$> dir_find V p name).
Proof.
  intros Hr Hd HT Hname Hsl. pose proof (wp_dirlookup dev_read i c g sb ds pid cwd Hly Hds s V T l K dp p name) as Hwp. destruct (dir_find V p name) as [j|]; cbn [fmap option_fmap option_map finds].
  - destruct (igot_free l (de_inum (dent V p j)) Hsl) as (ip & l2 & q & Hg & Hq & Hn & Hp & Hrefs).
    assert (wp (dirlookup dev_read dp name s) (fun r s2 => r = Some (ip, 16 * Z.of_nat j) /\ fsrep s2 V ∅ T l2 K) stays) as H by (apply Hwp; try done; by exists ip, l2).
    apply wp_Ret in H as (r & s2 & Hrun & -> & R2). by exists ip, q, s2, l2.
  - assert (wp (dirlookup dev_read dp name s) (fun r s2 => r = None /\ fsrep s2 V ∅ T l K) stays) as H by (by apply Hwp).
    apply wp_Ret in H as (r & s2 & Hrun & -> & R2). by exists s2.
Qed.

(** C6 (functional).  [dirlink] of a name that a directory does not have adds it.  After it a
    [dirlookup] of the name finds the new entry, with the inode number given, and a [dirlookup] of
    any other name gives what it gave before: the same inode and offset, or nothing. *)
Theorem dirlink_binds s V T l K dp p name inum :
  fsrep s V ∅ T l K -> open_file sb ds V l dp p -> dir_at sb ds V l dp p -> meta_used V sb ds -> readable DIRSIZ name ->
  dir_find V p name = None -> 0 < inum < 2 ^ 16 -> i_size p + 16 <= MAXFILE * BSIZE ->
  2 <= Z.of_nat (length (free_list sb V)) -> log_need sb T 0 16 <= Z.of_nat NBUF -> log_need sb T 0 16 <= Z.of_nat (g_cap g) -> 1 <= slots l ->
  finds s V T l K dp name None /\
  exists s' V' p' T', dirlink waits dev_read dev_write dp name inum s = Ret 0 s' /\ fsrep s' V' ∅ T' (<[dp := p']> l) K /\
    dir_at sb ds V' (<[dp := p']> l) dp p' /\
    (exists k, dir_find V' p' name = Some k /\ finds s' V' T' (<[dp := p']> l) K dp name (Some (inum, 16 * Z.of_nat k))) /\
    (forall name', readable DIRSIZ name' -> cname DIRSIZ name' <> cname DIRSIZ name ->
       exists r, finds s V T l K dp name' r /\ finds s' V' T' (<[dp := p']> l) K dp name' r).
Proof.
  intros Hr Ho Hd Hm Hname Hnone Hi Hmax Hfree Hn1 Hn2 Hsl. assert (Hs := nents_size sb ds V l dp p Hd).
  assert (HT : (size T < NBUF)%nat).
  { unfold log_need in Hn1. pose proof (subseteq_size T (bm_set sb ∪ T) ltac:(set_solver)). change (touched 0 16) with 1 in Hn1. lia. }
  split; [pose proof (dirlookup_finds s V T l K dp p name Hr Hd HT Hname Hsl) as H; by rewrite Hnone in H|].
  assert (wp (dirlink waits dev_read dev_write dp name inum s) (fun r s' => r = 0 /\ exists V' p' T', fsrep s' V' ∅ T' (<[dp := p']> l) K /\
    open_file sb ds V' (<[dp := p']> l) dp p' /\ written sb ds V p V' p' (16 * Z.of_nat (dir_slot V p)) (new_ent name inum) /\ Z.of_nat (size T') <= 3 + Z.of_nat (size (bm_set sb ∪ T))) stays) as H.
  { eapply (wp_dirlink dev_read i c g sb ds pid cwd Hly Hds waits dev_write); [exact Hr|exact Ho|exact Hd|done|done|done|lia|done..|].
    intros s' V' p' T' H1 H2 H3 H4. split; [done|]. by exists V', p', T'. }
  apply wp_Ret in H as (r & s' & Hrun & -> & V' & p' & T' & R' & Ho' & Hw & HT'). exists s', V', p', T'.
  destruct (wn_same _ _ _ _ _ _ _ _ Hw) as (z & m & E). unfold log_need in Hn1. change (touched 0 16) with 1 in Hn1.
  assert (Hd' : dir_at sb ds V' (<[dp := p']> l) dp p').
  { split; [apply Ho'|rewrite E; apply Hd|]. rewrite (proj1 (link_size sb ds V V' p p' name inum Hs Hw)). rewrite Z.mul_comm. apply Z.mod_mul. lia. }
  assert (Hsl' : 1 <= slots (<[dp := p']> l)).
  { unfold slots. rewrite (zsum_insert _ _ _ p) by apply Hd. rewrite E. cbn [i_ref]. unfold slots in Hsl. lia. }
  assert (Hlook := fun name' Hn => dirlookup_finds s' V' T' (<[dp := p']> l) K dp p' name' R' Hd' ltac:(lia) Hn Hsl').
  split_and!; [done|done|done|..].
  - exists (dir_slot V p). destruct (link_found sb ds V V' p p' name inum) as [Hf Hin]; [done..|]. split; [done|]. specialize (Hlook name Hname). rewrite Hf in Hlook. cbn [fmap option_fmap option_map] in Hlook. by rewrite Hin in Hlook.
  - intros name' Hn' Hne. eexists. split; [by apply (dirlookup_finds s V T l K dp p name')|]. specialize (Hlook name' Hn').
    rewrite (link_others sb ds V V' p p' name inum) in Hlook by done. destruct (dir_find V p name') as [j|] eqn:Ej; [|done].
    cbn [fmap option_fmap option_map] in Hlook |- *. by rewrite (link_others_ent sb ds V V' p p' name inum Hs Hw name' j Ej) in Hlook.
Qed.

(** C4 (functional).  Path resolution.  [namei] walks the directories of the disk from
    the root or the current directory, one element after the other: it returns a reference
    to the inode the path names, or none if an element is missing or not a directory.
    [nameiparent] stops one element earlier, at a directory, and gives the last element.
    All other references are as before, also when it fails. *)
Theorem namex_resolves s V T l n path name parent :
  fsrep s V ∅ T l ∅ -> disk_ok sb ds V -> (size T < NBUF)%nat -> icache_ok sb V l -> 2 <= slots l -> starts sb cwd l path n ->
  di_type (dino sb V n) <> 0 -> length name = DIRSIZ -> Forall (fun ch => ch <> 0) path ->
  exists r nm s' l', namex waits dev_read path parent name s = Ret (r, nm) s' /\ fsrep s' V ∅ T l' ∅ /\ icache_ok sb V l' /\
    match target sb parent V n (elems path) with
    | Some m => exists ip p, r = Some ip /\ cached sb l' ip p /\ i_inum p = m /\ (forall x, refs l' x = refs l x + one (x =? m)) /\
        (parent = true -> exists e, last (elems path) = Some e /\ cname DIRSIZ nm = cname DIRSIZ e)
    | None => r = None /\ forall x, refs l' x = refs l x
    end.
Proof.
  intros Hr Hdk HT Hok Hroom Hst Hty Hnm Hpath.
  assert (wp (namex waits dev_read path parent name s) (fun r s' => exists l', fsrep s' V ∅ T l' ∅ /\ icache_ok sb V l' /\
    match target sb parent V n (elems path) with
    | Some m => exists ip p, fst r = Some ip /\ cached sb l' ip p /\ i_inum p = m /\ (forall x, refs l' x = refs l x + one (x =? m)) /\
        (parent = true -> exists e, last (elems path) = Some e /\ cname DIRSIZ (snd r) = cname DIRSIZ e)
    | None => fst r = None /\ forall x, refs l' x = refs l x
    end) stays) as H.
  { eapply (wp_namex waits dev_read i c g sb ds pid cwd Hly Hds V T Hdk HT); [exact Hr|done..|]. unfold namex_post.
    destruct (target sb parent V n (elems path)) as [m|].
    - intros s' l' ip p nm H1 H2 H3 H4 H5 H6. exists l'. split_and!; [done..|]. by exists ip, p.
    - intros s' l' nm H1 H2 H3. by exists l'. }
  apply wp_Ret in H as ([r nm] & s' & Hrun & l' & H1 & H2 & H3). by exists r, nm, s', l'.
Qed.

(** [link("a", ".")] never returns: a name that stands for the directory itself makes
    [dirlink] wait for the sleep lock that its caller holds. *)
Theorem dirlink_self_waits s V T l K dp p name inum j l' :
  fsrep s V ∅ T l K -> dir_at sb ds V l dp p -> (size T < NBUF)%nat -> readable DIRSIZ name -> dir_find V p name = Some j ->
  igot 1 (de_inum (dent V p j)) l = Some (dp, l') -> dp ∈ K -> waits_for (ino_lk dp) (dirlink waits dev_read dev_write dp name inum s).
Proof. intros. by eapply (dirlink_self dev_read i c g sb ds pid cwd Hly Hds). Qed.
End Claims.

(** ** The machine of [Demo] *)

Definition root_inode : inode := mkinode 1 1 1 1 1 0 0 1 64 (34 :: replicate 12 0).
Definition a_inode : inode := mkinode 1 2 1 1 2 0 0 1 5 (35 :: replicate 12 0).
Definition small_icache : list inode := [root_inode; a_inode] ++ replicate 48 (mkinode 0 0 0 0 0 0 0 0 0 (replicate 13 0)).
Definition small_fs (x : logst bst) : fsst (logst bst) := mkfs disk_sb small_icache ∅ 5 0 x.

Lemma check_below (f : Z -> bool) n : forallb f (seqZ 0 n) = true -> forall b, 0 <= b < n -> f b = true.
Proof. intros H b Hb. rewrite List.forallb_forall in H. apply H. apply list_elem_of_In, elem_of_seqZ. lia. Qed.

Lemma small_layout : layout fs_geo disk_sb 34.
Proof.
  assert (HB : forall b, 0 <= b < 64 -> BBLOCK b disk_sb = 33) by (intros b Hb; unfold BBLOCK, BPB, BSIZE; cbn [bmapstart disk_sb]; change (512 * 8) with 4096; Z.div_mod_to_equations; lia).
  assert (HI : forall n, 0 <= n < 8 -> IBLOCK n disk_sb = 32) by (intros n Hn; unfold IBLOCK, IPB; cbn [inodestart disk_sb]; Z.div_mod_to_equations; lia).
  split; cbn [sb_size ninodes disk_sb g_len fs_geo].
  - lia.
  - intros b Hb. rewrite HB by done. by split; [apply small_usable|].
  - intros n Hn. rewrite HI by done. by split; [apply small_usable|].
  - intros b n Hb Hn. by rewrite HB, HI.
  - intros b Hb. apply small_usable; [lia|]. cbn. apply andb_false_iff. right. apply Z.ltb_ge. lia.
  - lia.
Qed.

Lemma small_meta : meta_used fs_view disk_sb 34.
Proof. refine (check_below (fun b => used fs_view disk_sb b) 34 _). vm_compute. reflexivity. Qed.

Lemma small_free : exists fl, free_list disk_sb fs_view = 37 :: fl /\ length fl = 26%nat.
Proof. eexists. split; by vm_compute. Qed.

Lemma small_mapped a : a ∈ [34; 35; 36] -> mapped disk_sb 34 fs_view (mkinode 1 0 1 1 0 0 0 1 0 (a :: replicate 12 0)) 1.
Proof.
  intros Ha. assert (is_data disk_sb 34 fs_view a) as Hd by (repeat (apply elem_of_cons in Ha as [->|Ha]; [split; by vm_compute|]); by apply elem_of_nil in Ha).
  split; cbn [i_addrs].
  - done.
  - done.
  - intros k Hk. by replace k with 0%nat by lia.
  - intros j k Hj Hk _. lia.
  - intros k Hk. unfold NDIRECT in Hk. do 12 (destruct k as [|k]; [first [done|lia]|]). lia.
  - unfold NDIRECT. lia.
  - intros H. by exfalso.
Qed.

Lemma small_rep : exists x, begin_op 1 small = Ret tt x /\ fsrep 0 demo_c fs_geo disk_sb 5 0 (small_fs x) fs_view ∅ ∅ small_icache ∅.
Proof.
  pose proof (begin_tx 0 demo_c fs_geo small fs_view 0 small_quiet) as H. apply wp_Ret in H as ([] & x & Hrun & Ht). exists x. split; [exact Hrun|].
  split; [exact Ht|reflexivity|intros ip|reflexivity..]. rewrite decide_False by (clear; set_solver). reflexivity.
Qed.

Definition wf_check (p : inode) : bool :=
  forallb (fun z => (- 2 ^ 15 <=? z) && (z <? 2 ^ 15)) [i_type p; i_major p; i_minor p; i_nlink p] &&
  forallb (fun z => (0 <=? z) && (z <? 2 ^ 32)) (i_size p :: i_addrs p) && (length (i_addrs p) =? 13)%nat.

Lemma small_wf p : wf_check p = true -> ino_wf p.
Proof.
  unfold wf_check. rewrite !andb_true_iff, !List.forallb_forall, Nat.eqb_eq. intros [[H1 H2] H3]. split.
  - intros z Hz. specialize (H1 z ltac:(by apply list_elem_of_In)). apply andb_true_iff in H1. lia.
  - specialize (H2 (i_size p) ltac:(by left)). apply andb_true_iff in H2. unfold is_u32. lia.
  - split; [done|]. apply Forall_forall. intros z Hz. specialize (H2 z ltac:(right; by apply list_elem_of_In)). apply andb_true_iff in H2. unfold is_u32. lia.
Qed.

Lemma small_file : open_file disk_sb 34 fs_view small_icache 1 a_inode.
Proof.
  split.
  - split; [reflexivity|reflexivity|discriminate|by vm_compute|]. eapply mapped_addrs; [|apply (small_mapped 35); set_solver]. reflexivity.
  - by split.
  - apply small_wf; vm_compute; reflexivity.
  - vm_compute. reflexivity.
Qed.

Lemma small_dir : open_file disk_sb 34 fs_view small_icache 0 root_inode /\ dir_at disk_sb 34 fs_view small_icache 0 root_inode.
Proof.
  assert (file_at disk_sb 34 fs_view small_icache 0 root_inode).
  { split; [reflexivity|reflexivity|discriminate|by vm_compute|]. eapply mapped_addrs; [|apply (small_mapped 34); set_solver]. reflexivity. }
  split; [|by split]. split; [done| | |].
  - by split.
  - apply small_wf; vm_compute; reflexivity.
  - vm_compute. reflexivity.
Qed.

Lemma small_disk : disk_ok disk_sb 34 fs_view.
Proof.
  assert (Hroot : forall n, 0 <= n < 8 -> di_type (dino disk_sb fs_view n) = T_DIR -> n = 1).
  { intros n Hn Ht. assert (H := check_below (fun n => (n =? 1) || negb (di_type (dino disk_sb fs_view n) =? T_DIR)) 8 ltac:(vm_compute; reflexivity) n Hn).
    apply orb_true_iff in H as [H|H]; [by apply Z.eqb_eq|]. by rewrite Ht in H. }
  split; cbn [ninodes disk_sb].
  - intros n Hn Ht. assert (H := check_below (fun n => (di_type (dino disk_sb fs_view n) =? 0) || negb (di_nlink (dino disk_sb fs_view n) =? 0)) 8 ltac:(vm_compute; reflexivity) n Hn).
    apply orb_true_iff in H as [H|H]; [by apply Z.eqb_eq in H|]. apply negb_true_iff in H. by apply Z.eqb_neq.
  - intros n Hn Ht. rewrite (Hroot n Hn Ht). split_and!; [by vm_compute|by vm_compute|by vm_compute|].
    eapply mapped_addrs; [|apply (small_mapped 34); set_solver]. vm_compute. reflexivity.
  - intros n e m Hn. unfold child. destruct (Z.eqb_spec (di_type (dino disk_sb fs_view n)) T_DIR) as [Ht|]; [|done]. rewrite (Hroot n Hn Ht).
    pose proof (find_ent_spec (hit fs_view (inode_on disk_sb fs_view 1) e) (nents (inode_on disk_sb fs_view 1)) 0) as Hsp. unfold dir_find.
    destruct (find_ent _ _ _) as [j|]; [|done]. destruct Hsp as [Hj _]. change (nents (inode_on disk_sb fs_view 1)) with 4%nat in Hj.
    intros E. injection E as <-. destruct j as [|[|[|[|j]]]]; [by vm_compute..|lia].
Qed.

Lemma small_icache_ok : icache_ok disk_sb fs_view small_icache.
Proof.
  assert (Hc : forall ip p, small_icache !! ip = Some p -> (ip = 0%nat /\ p = root_inode) \/ (ip = 1%nat /\ p = a_inode) \/ i_ref p = 0).
  { intros [|[|ip]] p Hp; [left; by injection Hp as <-|right; left; by injection Hp as <-|]. right. right.
    change (replicate 48 (mkinode 0 0 0 0 0 0 0 0 0 (replicate 13 0)) !! ip = Some p) in Hp. by apply lookup_replicate in Hp as [-> _]. }
  split.
  - intros ip p Hp. apply Hc in Hp as [[_ ->]|[[_ ->]| ->]]; by vm_compute.
  - intros j k p q Hp Hq Hrp Hrq _ E. apply Hc in Hp as [[-> ->]|[[-> ->]|Hp]]; apply Hc in Hq as [[-> ->]|[[-> ->]|Hq]]; first [done|lia].
  - intros ip p Hp Hr. apply Hc in Hp as [[_ ->]|[[_ ->]| Hz]]; [..|lia]; split; try done; intros _; vm_compute; reflexivity.
Qed.

Definition no_devs {A} : Z -> option A := fun _ => None.

Lemma balloc_bfree_witness : exists x s1, begin_op 1 small = Ret tt x /\ balloc 1 (small_fs x) = Ret 37 s1.
Proof.
  destruct small_rep as (x & Hx & Hr). destruct small_free as (fl & Hf & _).
  destruct (balloc_bfree 0 demo_c fs_geo disk_sb 34 5 0 small_layout (small_fs x) fs_view ∅ small_icache ∅ 37 fl Hr small_meta Hf) as (s1 & H1 & _).
  - vm_compute. lia.
  - vm_compute. lia.
  - exact (ex_intro _ x (ex_intro _ s1 (conj Hx H1))).
Defined.

(** "hello" becomes "hello, x". *)
Lemma writei_readi_witness : exists x s' s'', begin_op 1 small = Ret tt x /\ writei no_devs 1 [44; 32; 120] 5 (small_fs x) = Ret 3 s' /\
  readi no_devs 1 5 3 s' = Ret (3, [44; 32; 120]) s''.
Proof.
  destruct small_rep as (x & Hx & Hr). destruct small_free as (fl & Hf & Hfl).
  destruct (writei_readi no_devs no_devs 0 demo_c fs_geo disk_sb 34 5 0 small_layout eq_refl (small_fs x) fs_view ∅ small_icache ∅ 1 a_inode [44; 32; 120] 5 Hr small_file small_meta)
    as (s' & V' & p' & T' & H1 & _ & _ & _ & _ & s'' & H2 & _).
  - clear. vm_compute. split; discriminate.
  - clear. vm_compute. discriminate.
  - rewrite Hf. cbn [length]. rewrite Hfl. clear. vm_compute. discriminate.
  - clear. vm_compute. discriminate.
  - clear. vm_compute. discriminate.
  - exact (ex_intro _ x (ex_intro _ s' (ex_intro _ s'' (conj Hx (conj H1 H2))))).
Defined.

(** A second name, "b", for the file. *)
Lemma dirlink_binds_witness : exists x s', begin_op 1 small = Ret tt x /\ dirlink 0 no_devs no_devs 0 [98; 0] 2 (small_fs x) = Ret 0 s' /\
  exists ip off s2, dirlookup no_devs 0 [98; 0] s' = Ret (Some (ip, off)) s2.
Proof.
  destruct small_rep as (x & Hx & Hr). destruct small_free as (fl & Hf & Hfl).
  destruct (dirlink_binds 0 no_devs no_devs 0 demo_c fs_geo disk_sb 34 5 0 small_layout eq_refl (small_fs x) fs_view ∅ small_icache ∅ 0 root_inode [98; 0] 2 Hr
    (proj1 small_dir) (proj2 small_dir) small_meta) as (_ & s' & V' & p' & T' & H1 & _ & _ & (k & _ & H2) & _).
  - right. by left.
  - vm_compute. reflexivity.
  - lia.
  - clear. vm_compute. discriminate.
  - rewrite Hf. cbn [length]. rewrite Hfl. clear. vm_compute. discriminate.
  - clear. vm_compute. discriminate.
  - clear. vm_compute. discriminate.
  - clear. vm_compute. discriminate.
  - destruct H2 as (ip & q & s2 & l2 & H2 & _). exists x, s'. split; [exact Hx|]. split; [exact H1|]. by exists ip, (16 * Z.of_nat k), s2.
Defined.

(** "/./a" is the file, in entry 1 of the cache. *)
Lemma namex_resolves_witness : exists x ip nm s', begin_op 1 small = Ret tt x /\
  namex 0 no_devs [47; 46; 47; 97] false (replicate 14 0) (small_fs x) = Ret (Some ip, nm) s'.
Proof.
  destruct small_rep as (x & Hx & Hr).
  destruct (namex_resolves 0 no_devs 0 demo_c fs_geo disk_sb 34 5 0 small_layout eq_refl (small_fs x) fs_view ∅ small_icache 1 [47; 46; 47; 97] (replicate 14 0) false Hr small_disk)
    as (r & nm & s' & l' & H1 & _ & _ & H2).
  - vm_compute. lia.
  - exact small_icache_ok.
  - clear. vm_compute. discriminate.
  - clear. vm_compute. split; [reflexivity|]. split; [discriminate|reflexivity].
  - clear. vm_compute. discriminate.
  - reflexivity.
  - repeat (apply Forall_cons; split; [discriminate|]). by apply Forall_nil.
  - replace (target disk_sb false fs_view 1 (elems [47; 46; 47; 97])) with (Some 2) in H2 by (vm_compute; reflexivity).
    destruct H2 as (ip & p & -> & _). exact (ex_intro _ x (ex_intro _ ip (ex_intro _ nm (ex_intro _ s' (conj Hx H1))))).
Defined.
