(* ===== verification/Mkfs.v ===== *)
(** * The file system image builder

    Models [mkfs.c].  The image file is the list of its blocks; [Panic] is an exit with an
    error or a failed assertion.  The host is little-endian, like the machine the image is
    for, and its file operations on the image do not fail.  An input file is what the calls of [open] and [read] on it return: nothing when
    [open] fails, else the bytes of each [read] until one returns 0 or less. *)

From Stdlib Require Import ZArith Lia.
From S2P Require Import Prelude Spinlock Sleeplock Strings Blocks Bytes Log Txn Fs.

Module Mkfs.

Definition FSSIZE : Z := 1000.
Definition NINODES : Z := 200.

Definition nbitmap : Z := FSSIZE / (BSIZE * 8) + 1.
Definition ninodeblocks : Z := NINODES / IPB + 1.
Definition nlog : Z := LOGSIZE.
Definition nmeta : Z := 2 + nlog + ninodeblocks + nbitmap.
Definition nblocks : Z := FSSIZE - nmeta.

Record mkst := mkmk { img : list block; sb : superblock; freeinode : Z; freeblock : Z }.
Definition set_img (v : list block) (s : mkst) : mkst := mkmk v (sb s) (freeinode s) (freeblock s).
Definition set_sb (v : superblock) (s : mkst) : mkst := mkmk (img s) v (freeinode s) (freeblock s).
Definition set_freeinode (v : Z) (s : mkst) : mkst := mkmk (img s) (sb s) v (freeblock s).
Definition set_freeblock (v : Z) (s : mkst) : mkst := mkmk (img s) (sb s) (freeinode s) v.

Definition zeroes : block := replicate 512 0.

(** The bytes of the value in memory, read as an integer of the host. *)
Definition xshort (x : Z) : Z := le_val [u8 x; u8 (Z.shiftr x 8)].
Definition xint (x : Z) : Z := le_val [u8 x; u8 (Z.shiftr x 8); u8 (Z.shiftr x 16); u8 (Z.shiftr x 24)].

(** The block at file offset [sec * BSIZE], an [uint].  A write behind the end of the file
    leaves zeros between; a read there is short. *)
Definition seek (sec : Z) : nat := Z.to_nat (u32 (sec * BSIZE) / BSIZE).
Definition wsect (sec : Z) (buf : block) : M mkst unit :=
  modify (fun s => let k := seek sec in
    set_img (if decide (k < length (img s))%nat then <[k := buf]> (img s) else img s ++ replicate (k - length (img s)) zeroes ++ [buf]) s).
Definition rsect (sec : Z) : M mkst block := fun s =>
  match img s !! seek sec with Some x => Ret x s | None => Panic "read" end.

(** [struct dinode] in memory is the 64 bytes of a disk inode. *)
Definition put_din (inum : Z) (d : dinode) (x : block) : block := put_dinode inum (load_dinode d (mkinode 0 inum 0 0 0 0 0 0 0 [])) x.

Definition winode (inum : Z) (ip : dinode) : M mkst unit :=
  b <- gets sb ;;
  let bn := IBLOCK inum b in
  buf <- rsect bn ;;
  wsect bn (put_din inum ip buf).

Definition rinode (inum : Z) : M mkst dinode :=
  b <- gets sb ;;
  let bn := IBLOCK inum b in
  buf <- rsect bn ;;
  ret (get_dinode inum buf).

Definition ialloc (type : Z) : M mkst Z :=
  inum <- gets freeinode ;;
  modify (set_freeinode (u32 (inum + 1))) ;;
  winode inum (mkdinode (s16 (xshort type)) 0 0 (s16 (xshort 1)) (xint 0) (replicate 13 0)) ;;
  ret inum.

Definition balloc (used : Z) : M mkst unit :=
  if negb (used <? BSIZE * 8) then panic "assert" else
  b <- gets sb ;;
  wsect (bmapstart b) (foldl (fun buf i => set_byte buf (i / 8) (Z.lor (byte_at buf (i / 8)) (bit_mask i))) zeroes (seqZ 0 used)).

(** [freeblock++] *)
Definition new_block : M mkst Z :=
  b <- gets freeblock ;;
  modify (set_freeblock (u32 (b + 1))) ;;
  ret b.

Definition set_di_addr (k : nat) (v : Z) (d : dinode) : dinode :=
  mkdinode (di_type d) (di_major d) (di_minor d) (di_nlink d) (di_size d) (<[k := v]> (di_addrs d)).
Definition set_di_size (v : Z) (d : dinode) : dinode :=
  mkdinode (di_type d) (di_major d) (di_minor d) (di_nlink d) v (di_addrs d).
Definition di_addr (k : nat) (d : dinode) : Z := default 0 (di_addrs d !! k).

(** A block for the entry of the inode, if it has none. *)
Definition fill_addr (k : nat) (din : dinode) : M mkst dinode :=
  if xint (di_addr k din) =? 0 then
    b <- new_block ;;
    ret (set_di_addr k (xint b) din)
  else ret din.

(** Entry [j] of the indirect block of the inode. *)
Definition append_indirect (j : nat) (din : dinode) : M mkst (dinode * Z) :=
  indirect <- rsect (xint (di_addr NDIRECT din)) ;;
  if get32 j indirect =? 0 then
    b <- new_block ;;
    let indirect := put32 j (xint b) indirect in
    wsect (xint (di_addr NDIRECT din)) indirect ;;
    ret (din, xint (get32 j indirect))
  else ret (din, xint (get32 j indirect)).

(** The block [fbn] of the file, allocated if it has none. *)
Definition append_block (fbn : Z) (din : dinode) : M mkst (dinode * Z) :=
  if fbn <? Z.of_nat NDIRECT then
    din <- fill_addr (Z.to_nat fbn) din ;;
    ret (din, xint (di_addr (Z.to_nat fbn) din))
  else
    din <- fill_addr NDIRECT din ;;
    append_indirect (Z.to_nat (fbn - Z.of_nat NDIRECT)) din.

(** One turn per byte at most. *)
Fixpoint iappend_loop (fuel : nat) (din : dinode) (off : Z) (p : list Z) : M mkst (dinode * Z) :=
  match p with
  | [] => ret (din, off)
  | _ :: _ =>
      match fuel with
      | O => nofuel
      | S fuel =>
          let n := Z.of_nat (length p) in
          let fbn := off / BSIZE in
          if negb (fbn <? MAXFILE) then panic "assert" else
          r <- append_block fbn din ;;
          let n1 := Z.min n ((fbn + 1) * BSIZE - off) in
          buf <- rsect (snd r) ;;
          wsect (snd r) (patch (Z.to_nat (off - fbn * BSIZE)) (take (Z.to_nat n1) p) buf) ;;
          iappend_loop fuel (fst r) (u32 (off + n1)) (drop (Z.to_nat n1) p)
      end
  end.

Definition iappend (inum : Z) (p : list Z) : M mkst unit :=
  din <- rinode inum ;;
  r <- iappend_loop (length p) din (xint (di_size din)) p ;;
  winode inum (set_di_size (xint (snd r)) (fst r)).

(** [bzero], [xshort] and [strncpy] (for "." and "..", [strcpy]) into a [struct dirent]. *)
Definition dirent (inum : Z) (name : list Z) : list Z :=
  le_bytes 2 (xshort (u16 inum)) ++ take DIRSIZ (name ++ replicate DIRSIZ 0).

(** A file named on the command line. *)
Record input := mkinput { in_name : list Z; in_reads : option (list (list Z)) }.

Definition strip (name : list Z) : list Z :=
  match name with ch :: rest => if ch =? 95 then rest else name | [] => [] end.

Definition add_file (rootino : Z) (f : input) : M mkst unit :=
  if bool_decide (47 ∈ in_name f) then panic "assert" else
  match in_reads f with
  | None => panic "open"
  | Some reads =>
      inum <- ialloc T_FILE ;;
      iappend rootino (dirent inum (strip (in_name f))) ;;
      forM reads (iappend inum)
  end.

Definition sb_bytes (b : superblock) : list Z :=
  concat (le_bytes 4 <$> [sb_size b; Log.nblocks b; ninodes b; Log.nlog b; logstart b; inodestart b; bmapstart b]).

Definition new_sb : superblock :=
  mksb (xint FSSIZE) (xint nblocks) (xint NINODES) (xint nlog) (xint 2) (xint (2 + nlog)) (xint (2 + nlog + ninodeblocks)).

(** The size of the root directory rounded up to blocks, and the free map. *)
Definition finish (rootino : Z) : M mkst unit :=
  din <- rinode rootino ;;
  let off := xint (di_size din) in
  let off := u32 ((off / BSIZE + 1) * BSIZE) in
  winode rootino (set_di_size (xint off) din) ;;
  fb <- gets freeblock ;;
  balloc fb.

(** [main], on the image file, if one is named and whether it can be created, and the
    files to put in it. *)
Definition main (image : option bool) (files : list input) : M mkst unit :=
  match image with None => panic "usage" | Some false => panic "open" | Some true => ret tt end ;;
  modify (set_sb new_sb) ;;
  modify (set_freeblock nmeta) ;;
  forM (seqZ 0 FSSIZE) (fun i => wsect i zeroes) ;;
  b <- gets sb ;;
  wsect 1 (patch 0 (sb_bytes b) zeroes) ;;
  rootino <- ialloc T_DIR ;;
  if negb (rootino =? ROOTINO) then panic "assert" else
  iappend rootino (dirent rootino [46]) ;;
  iappend rootino (dirent rootino [46; 46]) ;;
  forM files (add_file rootino) ;;
  finish rootino.

(** Memory as the program starts. *)
Definition start : mkst := mkmk [] (mksb 0 0 0 0 0 0 0) 1 0.

End Mkfs.
