(* ===== verification/MkfsSpec.v ===== *)
(** * What the image builder has put on the disk

    [afile]: a file of the image, with its contents and its blocks.  The image holds a list
    of files when each is stored in blocks of its own ([blocks_ok]) and has its inode
    ([inodes_ok]). *)

From Stdlib Require Import ZArith Lia.
From S2P Require Import Prelude Spinlock Sleeplock Strings Blocks Bytes Log Txn Fs FsSpec FsInode FsFile FsWrite FsDir FsPath Mkfs.

Module MkfsSpec.
Import Mkfs.

(** ** Pieces of a file *)

(** The contents of block [k] of a file: zeros behind the end. *)
Definition chunk (k : nat) (d : list Z) : block := take 512 (drop (512 * k) d ++ zeroes).

Lemma length_chunk k d : length (chunk k d) = 512%nat.
Proof. unfold chunk, zeroes. rewrite length_take, length_app, length_replicate. lia. Qed.

Lemma chunk_lookup k d i : (i < 512)%nat -> chunk k d !! i = Some (default 0 (d !! (512 * k + i)%nat)).
Proof.
  intros Hi. unfold chunk, zeroes. rewrite lookup_take_lt by done. rewrite lookup_app, lookup_drop.
  destruct (d !! (512 * k + i)%nat) as [x|] eqn:E; [done|]. by rewrite lookup_replicate_2 by lia.
Qed.

Lemma block_eq (x y : block) : length x = 512%nat -> length y = 512%nat -> (forall i, (i < 512)%nat -> x !! i = y !! i) -> x = y.
Proof.
  intros Hx Hy E. apply list_eq_same_length with 512%nat; [done|done|]. intros i a b Hi Ha Hb. rewrite E, Hb in Ha by done. by injection Ha.
Qed.

Lemma chunk_end k d : (length d <= 512 * k)%nat -> chunk k d = zeroes.
Proof. intros Hd. unfold chunk. by rewrite drop_ge by done. Qed.

Lemma chunk_before k d p : (512 * k + 512 <= length d)%nat -> chunk k (d ++ p) = chunk k d.
Proof.
  intros Hd. apply block_eq; [apply length_chunk..|]. intros i Hi. rewrite !chunk_lookup by done. by rewrite lookup_app_l by lia.
Qed.

Lemma chunk_append k o d p : length d = (512 * k + o)%nat -> (o + length p <= 512)%nat -> patch o p (chunk k d) = chunk k (d ++ p).
Proof.
  intros Hd Hp. apply block_eq; [rewrite length_patch; rewrite ?length_chunk; lia|apply length_chunk|]. intros i Hi.
  rewrite patch_lookup, !chunk_lookup by (rewrite ?length_chunk; lia). case_decide as Hr.
  - rewrite lookup_app_r by lia. replace (512 * k + i - length d)%nat with (i - o)%nat by lia.
    destruct (lookup_lt_is_Some_2 p (i - o)%nat) as [x ->]; [lia|done].
  - destruct (decide (i < o)%nat); [by rewrite lookup_app_l by lia|]. by rewrite !(proj2 (lookup_ge_None _ _)) by (rewrite ?length_app; lia).
Qed.

(** ** Files and the blocks they own *)

Record afile := mkaf { a_type : Z; a_data : list Z; a_blks : list Z; a_ind : Z }.
Definition set_data (d : list Z) (f : afile) : afile := mkaf (a_type f) d (a_blks f) (a_ind f).

Definition owned (f : afile) : list Z := a_blks f ++ (if a_ind f =? 0 then [] else [a_ind f]).
Definition addrs_of (f : afile) : list Z := take 12 (a_blks f ++ replicate 12 0) ++ [a_ind f].
(** The inode of the file, of [sz] bytes. *)
Definition din_of (f : afile) (sz : Z) : dinode := mkdinode (a_type f) 0 0 1 sz (addrs_of f).

Implicit Types (V : Z -> block) (f : afile) (fs : list afile) (s : mkst).

Record stored V f : Prop := {
  st_data : forall k b, a_blks f !! k = Some b -> V b = chunk k (a_data f);
  st_ind : a_ind f <> 0 -> length (V (a_ind f)) = 512%nat /\
    forall k, (k < 128)%nat -> get32 k (V (a_ind f)) = default 0 (a_blks f !! (12 + k)%nat);
  st_some : ((12 < length (a_blks f))%nat -> a_ind f <> 0) /\ (a_ind f <> 0 -> (12 <= length (a_blks f))%nat);
  st_max : (length (a_blks f) <= 140)%nat
}.

Lemma stored_ext V V' f : (forall b, b ∈ owned f -> V' b = V b) -> stored V f -> stored V' f.
Proof.
  intros E [H1 H2 H3 H4]. split; [| |done|done].
  - intros k b Hb. rewrite E; [by apply H1|]. apply elem_of_app. left. by eapply list_elem_of_lookup_2.
  - intros Hi. rewrite E; [by apply H2|]. apply elem_of_app. right. rewrite (proj2 (Z.eqb_neq _ _)) by done. set_solver.
Qed.

Lemma addr_direct f k b : (k < 12)%nat -> a_blks f !! k = Some b -> addrs_of f !! k = Some b.
Proof.
  intros Hk Hb. assert (Hl := lookup_lt_Some _ _ _ Hb). unfold addrs_of. rewrite lookup_app_l by (rewrite length_take, length_app, length_replicate; lia).
  rewrite lookup_take_lt by done. by apply lookup_app_l_Some.
Qed.

Lemma addr_none f k : (length (a_blks f) <= k < 12)%nat -> addrs_of f !! k = Some 0.
Proof.
  intros Hk. unfold addrs_of. rewrite lookup_app_l by (rewrite length_take, length_app, length_replicate; lia).
  rewrite lookup_take_lt, lookup_app_r by lia. apply lookup_replicate_2. lia.
Qed.

Lemma addr_ind f : addrs_of f !! 12%nat = Some (a_ind f).
Proof.
  unfold addrs_of. assert (Hl : length (take 12 (a_blks f ++ replicate 12 0)) = 12%nat) by (rewrite length_take, length_app, length_replicate; lia).
  rewrite lookup_app_r by lia. by rewrite Hl.
Qed.

Lemma length_addrs f : length (addrs_of f) = 13%nat.
Proof. unfold addrs_of. rewrite length_app, length_take, length_app, length_replicate. cbn [length]. lia. Qed.

(** A new block at the end of the file. *)
Definition add_blk (b : Z) f : afile := mkaf (a_type f) (a_data f) (a_blks f ++ [b]) (a_ind f).
Definition add_ind (b : Z) f : afile := mkaf (a_type f) (a_data f) (a_blks f) b.

Lemma addrs_add_blk b f : (length (a_blks f) < 12)%nat -> addrs_of (add_blk b f) = <[length (a_blks f) := b]> (addrs_of f).
Proof.
  intros Hl. unfold addrs_of. cbn [add_blk a_blks a_ind]. rewrite insert_app_l by (rewrite length_take, length_app, length_replicate; lia). f_equal.
  rewrite <- take_insert_lt by done. rewrite insert_app_r_alt, Nat.sub_diag by lia.
  rewrite <- (assoc_L (++)). rewrite !(take_app_ge (a_blks f)) by lia. f_equal. destruct (12 - length (a_blks f))%nat eqn:E; [lia|].
  cbn [app take]. change (<[0%nat := b]> (replicate 12 0)) with (b :: replicate 11 0). cbn [take]. f_equal.
  rewrite !take_replicate. f_equal. lia.
Qed.

Lemma addrs_add_blk_far b f : (12 <= length (a_blks f))%nat -> addrs_of (add_blk b f) = addrs_of f.
Proof. intros Hl. unfold addrs_of. cbn [add_blk a_blks a_ind]. rewrite <- (assoc_L (++)). by rewrite !take_app_le by done. Qed.

Lemma addrs_add_ind b f : addrs_of (add_ind b f) = <[12%nat := b]> (addrs_of f).
Proof.
  unfold addrs_of. cbn [add_ind a_blks a_ind]. assert (Hl : length (take 12 (a_blks f ++ replicate 12 0)) = 12%nat) by (rewrite length_take, length_app, length_replicate; lia).
  rewrite insert_app_r_alt by lia. by rewrite Hl.
Qed.

(** ** The image *)

Record image s : Prop := {
  im_len : length (img s) = 1000%nat;
  im_blk : Forall (fun x => length x = 512%nat) (img s);
  im_sb : sb s = new_sb
}.
(** The contents of a block. *)
Definition bl s : Z -> block := disk_at (img s).
Definition put_bl (n : Z) (x : block) s : mkst := set_img (<[Z.to_nat n := x]> (img s)) s.

Lemma xint_id x : is_u32 x -> xint x = x.
Proof.
  unfold is_u32, xint, u8. intros H. cbn [le_val]. rewrite !Z.shiftr_div_pow2 by lia.
  change (2 ^ 8) with 256. change (2 ^ 16) with 65536. change (2 ^ 24) with 16777216. change (2 ^ 32) with 4294967296 in H. Z.div_mod_to_equations. lia.
Qed.

Lemma xshort_id x : 0 <= x < 2 ^ 16 -> xshort x = x.
Proof.
  unfold xshort, u8. intros H. cbn [le_val]. rewrite !Z.shiftr_div_pow2 by lia.
  change (2 ^ 8) with 256. change (2 ^ 16) with 65536 in H. Z.div_mod_to_equations. lia.
Qed.

Lemma seek_at n : 0 <= n < FSSIZE -> seek n = Z.to_nat n.
Proof.
  unfold FSSIZE, seek, BSIZE. intros H. rewrite u32_small by (unfold is_u32; lia). by rewrite Z.div_mul by lia.
Qed.

Lemma bl_lookup s n : image s -> 0 <= n < FSSIZE -> img s !! Z.to_nat n = Some (bl s n).
Proof.
  unfold FSSIZE. intros [Hl _ _] Hn. unfold bl, disk_at. rewrite (proj2 (Z.ltb_ge n 0)) by lia.
  destruct (lookup_lt_is_Some_2 (img s) (Z.to_nat n)) as [x Hx]; [lia|]. by rewrite (nth_lookup_Some _ _ _ _ Hx).
Qed.

Lemma bl_len s n : image s -> 0 <= n < FSSIZE -> length (bl s n) = 512%nat.
Proof. intros Hi Hn. apply (Forall_lookup_1 _ _ _ _ (im_blk _ Hi) (bl_lookup _ _ Hi Hn)). Qed.

Lemma rsect_run s n : image s -> 0 <= n < FSSIZE -> rsect n s = Ret (bl s n) s.
Proof. intros Hi Hn. unfold rsect. by rewrite seek_at, bl_lookup. Qed.

Lemma wsect_run s n x : image s -> 0 <= n < FSSIZE -> wsect n x s = Ret tt (put_bl n x s).
Proof.
  intros Hi Hn. unfold wsect, modify, put_bl. cbv zeta. rewrite seek_at by done.
  by rewrite decide_True by (rewrite (im_len _ Hi); unfold FSSIZE in Hn; lia).
Qed.

Lemma image_put s n x : image s -> length x = 512%nat -> image (put_bl n x s).
Proof. intros [H1 H2 H3] Hx. split; cbn; [by rewrite length_insert|by apply Forall_insert|done]. Qed.

Lemma bl_put s n x m : image s -> 0 <= n < FSSIZE -> bl (put_bl n x s) m = if m =? n then x else bl s m.
Proof.
  unfold FSSIZE. intros [Hl _ _] Hn. unfold bl, disk_at, put_bl. cbn [img set_img]. destruct (Z.eqb_spec m n) as [->|Hne].
  - rewrite (proj2 (Z.ltb_ge n 0)) by lia. apply nth_lookup_Some, list_lookup_insert_eq. lia.
  - destruct (Z.ltb_spec m 0); [done|]. rewrite !nth_lookup. by rewrite list_lookup_insert_ne by lia.
Qed.

(** ** Files in blocks of their own *)

Record blocks_ok s fs : Prop := {
  bo_img : image s;
  bo_own : concat (owned <$> fs) ≡ₚ seqZ nmeta (freeblock s - nmeta);
  bo_room : nmeta <= freeblock s <= FSSIZE;
  bo_files : forall f, f ∈ fs -> stored (bl s) f;
  bo_zero : forall b, freeblock s <= b < FSSIZE -> bl s b = zeroes
}.

Lemma owned_range s fs f b : blocks_ok s fs -> f ∈ fs -> b ∈ owned f -> nmeta <= b < freeblock s.
Proof.
  intros Hb Hf Ho. assert (Hin : b ∈ concat (owned <$> fs)) by (apply elem_of_concat; exists (owned f); split; [by apply list_elem_of_fmap_2|done]).
  rewrite (bo_own _ _ Hb), elem_of_seqZ in Hin. pose proof (bo_room _ _ Hb). lia.
Qed.

Lemma owned_apart s fs i j f g b : blocks_ok s fs -> fs !! i = Some f -> fs !! j = Some g -> i <> j -> b ∈ owned f -> b ∈ owned g -> False.
Proof.
  intros Hb Hi Hj Hne Hf Hg. assert (Hn : NoDup (concat (owned <$> fs))) by (rewrite (bo_own _ _ Hb); apply NoDup_seqZ).
  rewrite (concat_split _ i (owned f)) in Hn by (by rewrite list_lookup_fmap, Hi). apply NoDup_app in Hn as (_ & Hd & _). apply (Hd b Hf).
  apply elem_of_concat. exists (owned g). split; [|done]. apply (elem_of_delete_ne _ _ j); [by rewrite list_lookup_fmap, Hj|done].
Qed.

(** A file replaced by one that also owns the next [k] free blocks. *)
Lemma blocks_update s fs i f f' s' k : blocks_ok s fs -> fs !! i = Some f -> 0 <= k -> owned f' ≡ₚ seqZ (freeblock s) k ++ owned f ->
  freeblock s' = freeblock s + k -> freeblock s' <= FSSIZE -> image s' -> stored (bl s') f' -> (forall b, b ∉ owned f' -> bl s' b = bl s b) ->
  blocks_ok s' (<[i := f']> fs).
Proof.
  intros Hb Hi Hk Ho Hfb Hroom Himg Hst Hfr. pose proof (bo_room _ _ Hb) as Hr. assert (Hlt := lookup_lt_Some _ _ _ Hi).
  assert (Hown : concat (owned <$> <[i := f']> fs) ≡ₚ seqZ nmeta (freeblock s' - nmeta)).
  { rewrite list_fmap_insert, (concat_insert _ i (owned f)) by (by rewrite list_lookup_fmap, Hi). rewrite Ho, <- (assoc_L (++)).
    rewrite <- (concat_split _ i (owned f)) by (by rewrite list_lookup_fmap, Hi). rewrite (bo_own _ _ Hb), Permutation_app_comm.
    replace (freeblock s' - nmeta) with ((freeblock s - nmeta) + k) by lia. rewrite seqZ_app by lia. by replace (nmeta + (freeblock s - nmeta)) with (freeblock s) by lia. }
  assert (Hsub : forall b, b ∈ owned f' -> nmeta <= b < freeblock s').
  { intros b Hin. rewrite Ho, elem_of_app, elem_of_seqZ in Hin. destruct Hin as [?|Hin]; [lia|].
    apply (owned_range s fs f b Hb) in Hin; [lia|by eapply list_elem_of_lookup_2]. }
  split; [done|done|lia| |].
  - intros g Hg. apply list_elem_of_lookup in Hg as [j Hj]. destruct (decide (j = i)) as [->|Hne].
    { rewrite list_lookup_insert_eq in Hj by done. by injection Hj as <-. }
    rewrite list_lookup_insert_ne in Hj by done. eapply stored_ext; [|apply (bo_files _ _ Hb); by eapply list_elem_of_lookup_2].
    intros b Hg. apply Hfr. rewrite Ho, elem_of_app, elem_of_seqZ. intros [Hn|Hf]; [|by eapply (owned_apart s fs i j f g b)].
    apply (owned_range s fs g b Hb) in Hg; [lia|by eapply list_elem_of_lookup_2].
  - intros b Hz. rewrite Hfr; [apply (bo_zero _ _ Hb); lia|]. intros Hin. apply Hsub in Hin. lia.
Qed.

(** ** Growing a file by a block *)

(** Only blocks of files have changed. *)
Definition quietly s s' : Prop := freeinode s' = freeinode s /\ forall b, b < nmeta -> bl s' b = bl s b.

Lemma quietly_trans s1 s2 s3 : quietly s1 s2 -> quietly s2 s3 -> quietly s1 s3.
Proof. intros [E1 H1] [E2 H2]. split; [congruence|]. intros b Hb. by rewrite H2, H1. Qed.

Lemma new_block_run s : 0 <= freeblock s < FSSIZE -> new_block s = Ret (freeblock s) (set_freeblock (freeblock s + 1) s).
Proof. unfold FSSIZE. intros H. unfold new_block. run. by rewrite u32_small by (unfold is_u32; lia). Qed.

Lemma get32_zeroes k : get32 k zeroes = 0.
Proof.
  unfold get32, getn, sub, zeroes. rewrite drop_replicate, take_replicate. generalize (4 `min` (512 - 4 * k))%nat as n.
  induction n as [|n IH]; [done|]. cbn [replicate le_val]. lia.
Qed.

Section Grow.
Context (s : mkst) (fs : list afile) (i : nat) (f : afile) (sz : Z).
Hypothesis (Hb : blocks_ok s fs) (Hi : fs !! i = Some f).
Hypothesis (Hroom : freeblock s < FSSIZE).
Let fb := freeblock s.
Let k := length (a_blks f).

Lemma fb_range : 59 <= fb < 1000.
Proof. pose proof (bo_room _ _ Hb) as H. change nmeta with 59 in H. unfold fb, FSSIZE in *. lia. Qed.

Lemma file_stored : stored (bl s) f.
Proof. apply (bo_files _ _ Hb). by eapply list_elem_of_lookup_2. Qed.

Lemma fill_old j a : addrs_of f !! j = Some a -> is_u32 a -> a <> 0 -> fill_addr j (din_of f sz) s = Ret (din_of f sz) s.
Proof. intros Ha Hu Hne. unfold fill_addr, di_addr. cbn [din_of di_addrs]. rewrite Ha. cbn [default id]. by rewrite xint_id, (proj2 (Z.eqb_neq _ _)). Qed.

Lemma fill_new j : addrs_of f !! j = Some 0 -> fill_addr j (din_of f sz) s = Ret (set_di_addr j fb (din_of f sz)) (set_freeblock (fb + 1) s).
Proof.
  intros Ha. pose proof fb_range as Hr. unfold fill_addr, di_addr. cbn [din_of di_addrs]. rewrite Ha. cbn [default]. change (xint (id 0) =? 0) with true. cbn iota.
  erewrite bind_Ret by (apply new_block_run; unfold FSSIZE, fb in *; lia). unfold ret. fold fb. by rewrite xint_id by (unfold is_u32; lia).
Qed.

Lemma fresh_zero : bl s fb = zeroes.
Proof. apply (bo_zero _ _ Hb). unfold fb. lia. Qed.

Lemma direct_new : (k < 12)%nat -> (length (a_data f) <= 512 * k)%nat ->
  fill_addr k (din_of f sz) s = Ret (din_of (add_blk fb f) sz) (set_freeblock (fb + 1) s) /\
  blocks_ok (set_freeblock (fb + 1) s) (<[i := add_blk fb f]> fs).
Proof.
  intros Hk Hd. pose proof fb_range as Hr. destruct file_stored as [S1 S2 [S3 S4] S5]. fold k in S3, S4, S5.
  assert (Hind : a_ind f = 0) by (destruct (decide (a_ind f = 0)) as [|Hn]; [done|specialize (S4 Hn); lia]).
  split. { rewrite fill_new by (apply addr_none; unfold k in *; lia). f_equal. unfold set_di_addr, din_of at 1. cbn. unfold din_of. rewrite addrs_add_blk by done. done. }
  eapply (blocks_update s fs i f _ _ 1); [done|done|lia| |done|cbn; unfold FSSIZE; lia|by destruct (bo_img _ _ Hb)| |done].
  - unfold owned. cbn [add_blk a_blks a_ind]. rewrite Hind. cbn [Z.eqb]. rewrite !app_nil_r. cbn. by rewrite Permutation_app_comm.
  - split; cbn [add_blk a_blks a_ind a_data].
    + intros j b Hj. apply lookup_snoc_Some in Hj as [[_ Hj]|[-> <-]]; [by apply S1|]. rewrite chunk_end by done. apply fresh_zero.
    + done.
    + rewrite length_app. cbn. fold k. split; [lia|done].
    + rewrite length_app. cbn. fold k. lia.
Qed.

Lemma ind_new : k = 12%nat -> a_ind f = 0 ->
  fill_addr 12 (din_of f sz) s = Ret (din_of (add_ind fb f) sz) (set_freeblock (fb + 1) s) /\
  blocks_ok (set_freeblock (fb + 1) s) (<[i := add_ind fb f]> fs).
Proof.
  intros Hk Hind. pose proof fb_range as Hr. destruct file_stored as [S1 S2 [S3 S4] S5]. fold k in S3, S4, S5.
  split. { rewrite fill_new by (by rewrite addr_ind, Hind). f_equal. unfold set_di_addr, din_of at 1. cbn. unfold din_of. by rewrite addrs_add_ind. }
  eapply (blocks_update s fs i f _ _ 1); [done|done|lia| |done|cbn; unfold FSSIZE; lia|by destruct (bo_img _ _ Hb)| |done].
  - unfold owned. cbn [add_ind a_blks a_ind]. rewrite Hind, (proj2 (Z.eqb_neq fb 0)) by lia. cbn. by rewrite app_nil_r, Permutation_app_comm.
  - split; cbn [add_ind a_blks a_ind a_data]; fold k.
    + done.
    + intros _. change (bl (set_freeblock (fb + 1) s)) with (bl s). rewrite fresh_zero. split; [done|]. intros j _.
      rewrite get32_zeroes, (proj2 (lookup_ge_None _ _)); [done|]. fold k. lia.
    + split; lia.
    + lia.
Qed.

(** The next entry of the indirect block. *)
Definition linked : mkst :=
  put_bl (a_ind f) (put32 (k - 12) fb (bl s (a_ind f))) (set_freeblock (fb + 1) s).

Lemma indirect_new : a_ind f <> 0 -> (12 <= k < 140)%nat -> (length (a_data f) <= 512 * k)%nat -> blocks_ok linked (<[i := add_blk fb f]> fs) /\ quietly s linked.
Proof.
  intros Hind Hk Hd. pose proof fb_range as Hr. destruct file_stored as [S1 S2 [S3 S4] S5]. fold k in S3, S4, S5. destruct (S2 Hind) as [Hlen Hget].
  assert (Ho : a_ind f ∈ owned f) by (apply elem_of_app; right; rewrite (proj2 (Z.eqb_neq _ _)) by done; set_solver).
  pose proof (owned_range s fs f (a_ind f) Hb ltac:(by eapply list_elem_of_lookup_2) Ho) as Hir. fold fb in Hir. change nmeta with 59 in Hir.
  assert (Himg : image (set_freeblock (fb + 1) s)) by (by destruct (bo_img _ _ Hb)).
  assert (Hbl : forall b, bl linked b = if b =? a_ind f then put32 (k - 12) fb (bl s (a_ind f)) else bl s b).
  { intros b. unfold linked. rewrite bl_put; [done|done|unfold FSSIZE; lia]. }
  assert (Hnd : NoDup (owned f)).
  { assert (Hn : NoDup (concat (owned <$> fs))) by (rewrite (bo_own _ _ Hb); apply NoDup_seqZ).
    rewrite (concat_split _ i (owned f)) in Hn by (by rewrite list_lookup_fmap, Hi). by apply NoDup_app in Hn as (? & _). }
  unfold owned in Hnd. rewrite (proj2 (Z.eqb_neq _ _)) in Hnd by done. apply NoDup_app in Hnd as (_ & Hnd & _).
  assert (Hne : forall j b, a_blks f !! j = Some b -> b <> a_ind f) by (intros j b Hj ->; apply (Hnd (a_ind f)); [by eapply list_elem_of_lookup_2|set_solver]).
  split; [|split; [done|]; intros b Hlow; rewrite Hbl, (proj2 (Z.eqb_neq _ _)); [done|change nmeta with 59 in Hlow; lia]].
  eapply (blocks_update s fs i f _ _ 1); [done|done|lia| |done|cbn; unfold FSSIZE; lia| | |].
  - unfold owned. cbn [add_blk a_blks a_ind]. rewrite (proj2 (Z.eqb_neq _ _)) by done. rewrite <- (assoc_L (++)). apply Permutation_sym, (Permutation_middle _ [a_ind f] fb).
  - apply image_put; [done|]. rewrite length_put32; [done|lia].
  - split; cbn [add_blk a_blks a_ind a_data].
    + intros j b Hj. rewrite Hbl. apply lookup_snoc_Some in Hj as [[_ Hj]|[-> <-]].
      * rewrite (proj2 (Z.eqb_neq _ _)) by (by eapply Hne). by apply S1.
      * rewrite (proj2 (Z.eqb_neq _ _)) by lia. rewrite chunk_end by done. apply fresh_zero.
    + intros _. rewrite Hbl, Z.eqb_refl. split; [rewrite length_put32; [done|lia]|]. intros j Hj. destruct (decide (j = (k - 12)%nat)) as [->|Hjk].
      * rewrite get32_put32 by (unfold is_u32; lia). replace (12 + (k - 12))%nat with k by lia. unfold k. by rewrite lookup_app_r, Nat.sub_diag.
      * rewrite get32_put32_ne, Hget by lia. f_equal. rewrite lookup_app. destruct (a_blks f !! (12 + j)%nat) as [b|] eqn:E; [done|].
        apply lookup_ge_None in E. fold k in E |- *. symmetry. apply lookup_ge_None. cbn. lia.
    + rewrite length_app. cbn. fold k. split; [done|lia].
    + rewrite length_app. cbn. fold k. lia.
  - intros b Hnb. rewrite Hbl, (proj2 (Z.eqb_neq _ _)); [done|]. intros ->. apply Hnb. apply elem_of_app. right. cbn [add_blk a_ind].
    rewrite (proj2 (Z.eqb_neq _ _)) by done. set_solver.
Qed.
End Grow.

End MkfsSpec.
