(* ===== verification/MkfsOps.v ===== *)
(** * The operations of the image builder

    What [iappend], [ialloc] and [balloc] of [mkfs.c] do to the files of the image. *)

From Stdlib Require Import ZArith Lia.
From S2P Require Import Prelude Spinlock Sleeplock Strings Blocks Bytes Log Txn Fs FsSpec FsInode FsFile FsWrite FsDir FsPath Mkfs MkfsSpec.

Module MkfsOps.
Import Mkfs MkfsSpec.
Implicit Types (V : Z -> block) (f : afile) (fs : list afile) (s : mkst).

(** ** Blocks *)

(** The blocks of [n] bytes, and with the indirect block. *)
Definition nblk (n : nat) : nat := (n + 511) / 512.
Definition cost (n : nat) : nat := nblk n + (if decide (nblk n <= 12)%nat then 0 else 1).

(** A file has no blocks it does not need. *)
Definition settled f : Prop := length (a_blks f) = nblk (length (a_data f)) /\ (a_ind f = 0 <-> (length (a_blks f) <= 12)%nat).

Lemma nblk_mono n m : (n <= m)%nat -> (nblk n <= nblk m)%nat.
Proof. intros H. apply Nat.Div0.div_le_mono. lia. Qed.

Lemma cost_mono n m : (n <= m)%nat -> (cost n <= cost m)%nat.
Proof. intros H. apply nblk_mono in H. unfold cost. do 2 case_decide; lia. Qed.

Lemma nblk_cases n : (n mod 512 = 0 /\ nblk n = n / 512 \/ n mod 512 <> 0 /\ nblk n = n / 512 + 1)%nat.
Proof.
  unfold nblk. pose proof (Nat.div_mod_eq n 512) as E. pose proof (Nat.mod_upper_bound n 512 ltac:(lia)) as Hm.
  destruct (decide (n mod 512 = 0)%nat) as [Hz|Hz]; [left|right]; (split; [done|]); symmetry.
  - apply Nat.div_unique with 511%nat; lia.
  - apply Nat.div_unique with (n mod 512 - 1)%nat; lia.
Qed.

Lemma nblk_next n m : (n < m)%nat -> (m <= 512 * (n / 512) + 512)%nat -> nblk m = (n / 512 + 1)%nat.
Proof.
  intros H1 H2. pose proof (Nat.div_mod_eq n 512). pose proof (Nat.mod_upper_bound n 512 ltac:(lia)).
  unfold nblk. symmetry. apply Nat.div_unique with (m - 512 * (n / 512) - 1)%nat; lia.
Qed.

Lemma length_owned f : settled f -> length (owned f) = cost (length (a_data f)).
Proof.
  intros [E1 E2]. unfold owned, cost. rewrite length_app, <- E1. destruct (Z.eqb_spec (a_ind f) 0) as [Hz|Hz]; case_decide; cbn; try lia; exfalso; tauto.
Qed.

Section Block.
Context (s : mkst) (fs : list afile) (i : nat) (f : afile) (sz : Z).
Hypothesis (Hb : blocks_ok s fs) (Hi : fs !! i = Some f).

Lemma owned_here b : b ∈ owned f -> 59 <= b < FSSIZE /\ b < freeblock s.
Proof.
  intros Ho. pose proof (owned_range s fs f b Hb ltac:(by eapply list_elem_of_lookup_2) Ho) as H. pose proof (bo_room _ _ Hb). change nmeta with 59 in *. lia.
Qed.

Lemma blk_here k b : a_blks f !! k = Some b -> 59 <= b < FSSIZE /\ b < freeblock s.
Proof. intros Hk. apply owned_here, elem_of_app. left. by eapply list_elem_of_lookup_2. Qed.

Lemma ind_here : a_ind f <> 0 -> 59 <= a_ind f < FSSIZE /\ a_ind f < freeblock s.
Proof. intros Hn. apply owned_here, elem_of_app. right. rewrite (proj2 (Z.eqb_neq _ _)) by done. set_solver. Qed.

Lemma owned_nodup : NoDup (owned f).
Proof.
  assert (Hn : NoDup (concat (owned <$> fs))) by (rewrite (bo_own _ _ Hb); apply NoDup_seqZ).
  rewrite (concat_split _ i (owned f)) in Hn by (by rewrite list_lookup_fmap, Hi). by apply NoDup_app in Hn as (? & _).
Qed.

Lemma blk_inj j k b : a_blks f !! j = Some b -> a_blks f !! k = Some b -> j = k.
Proof. pose proof owned_nodup as Hn. apply NoDup_app in Hn as (Hn & _). by apply NoDup_lookup. Qed.

Lemma blk_not_ind k b : a_ind f <> 0 -> a_blks f !! k = Some b -> b <> a_ind f.
Proof.
  intros Hn Hk ->. pose proof owned_nodup as Hd. unfold owned in Hd. rewrite (proj2 (Z.eqb_neq _ _)) in Hd by done. apply NoDup_app in Hd as (_ & Hd & _).
  apply (Hd (a_ind f)); [by eapply list_elem_of_lookup_2|set_solver].
Qed.

Lemma indirect_old k b : a_ind f <> 0 -> (12 <= k)%nat -> a_blks f !! k = Some b -> append_indirect (k - 12) (din_of f sz) s = Ret (din_of f sz, b) s.
Proof.
  intros Hn Hk Hb'. pose proof (ind_here Hn) as Hir. pose proof (blk_here _ _ Hb') as Hbr. unfold FSSIZE in *. destruct (file_stored s fs i f Hb Hi) as [_ S2 _ S5].
  assert (Hlt := lookup_lt_Some _ _ _ Hb'). unfold append_indirect, di_addr. cbn [din_of di_addrs]. change NDIRECT with 12%nat. rewrite addr_ind. cbn [default id].
  rewrite xint_id by (unfold is_u32; lia). erewrite bind_Ret by (apply rsect_run; [apply Hb|unfold FSSIZE; lia]).
  rewrite (proj2 (S2 Hn)) by lia. replace (12 + (k - 12))%nat with k by lia. rewrite Hb'. cbn [default id].
  rewrite (proj2 (Z.eqb_neq _ _)) by lia. unfold ret. by rewrite xint_id by (unfold is_u32; lia).
Qed.

Lemma indirect_grow : a_ind f <> 0 -> (12 <= length (a_blks f) < 140)%nat -> freeblock s < FSSIZE ->
  append_indirect (length (a_blks f) - 12) (din_of f sz) s = Ret (din_of (add_blk (freeblock s) f) sz, freeblock s) (linked s f).
Proof.
  intros Hn Hk Hroom. pose proof (ind_here Hn) as Hir. pose proof (fb_range s fs f Hb Hroom) as Hfr. unfold FSSIZE in *. destruct (file_stored s fs i f Hb Hi) as [_ S2 _ _].
  destruct (S2 Hn) as [Hlen Hget].
  unfold append_indirect, di_addr. cbn [din_of di_addrs]. change NDIRECT with 12%nat. rewrite addr_ind. cbn [default id].
  rewrite xint_id by (unfold is_u32; lia). erewrite bind_Ret by (apply rsect_run; [apply Hb|unfold FSSIZE; lia]).
  rewrite Hget by lia. replace (12 + (length (a_blks f) - 12))%nat with (length (a_blks f)) by lia. rewrite (proj2 (lookup_ge_None _ _)) by lia.
  cbn [default id Z.eqb]. erewrite bind_Ret by (apply new_block_run; unfold FSSIZE; lia). cbv zeta.
  rewrite xint_id by (unfold is_u32; lia). erewrite bind_Ret by (apply wsect_run; [by destruct (bo_img _ _ Hb)|unfold FSSIZE; lia]).
  unfold ret. rewrite get32_put32, xint_id by (unfold is_u32; lia). unfold din_of. by rewrite addrs_add_blk_far by lia.
Qed.

(** The file with its contents so far and room for more in block [k]. *)
Record extended (k : nat) (x : Z) f' s' : Prop := {
  ex_blocks : blocks_ok s' (<[i := f']> fs);
  ex_quiet : quietly s s';
  ex_same : a_data f' = a_data f /\ a_type f' = a_type f;
  ex_blk : a_blks f' !! k = Some x;
  ex_len : length (a_blks f') = (k + 1)%nat;
  ex_ind : a_ind f' = 0 <-> (length (a_blks f') <= 12)%nat
}.

Lemma block_old k x : a_blks f !! k = Some x -> length (a_blks f) = (k + 1)%nat -> (a_ind f = 0 <-> (length (a_blks f) <= 12)%nat) ->
  append_block (Z.of_nat k) (din_of f sz) s = Ret (din_of f sz, x) s /\ extended k x f s.
Proof.
  intros Hx Hl Hind. pose proof (blk_here _ _ Hx) as Hr. unfold FSSIZE in Hr. split; [|split; try done; by rewrite list_insert_id].
  unfold append_block. change (Z.of_nat NDIRECT) with 12. destruct (Z.ltb_spec (Z.of_nat k) 12) as [Hk|Hk].
  - rewrite Nat2Z.id. assert (Ha : addrs_of f !! k = Some x) by (apply addr_direct; [lia|done]).
    erewrite bind_Ret by (eapply fill_old; [exact Ha|unfold is_u32; lia|lia]). unfold ret, di_addr. cbn [din_of di_addrs]. rewrite Ha. cbn [default id].
    by rewrite xint_id by (unfold is_u32; lia).
  - assert (Hn : a_ind f <> 0) by (intros E; apply Hind in E; lia). pose proof (ind_here Hn) as Hir. unfold FSSIZE in Hir.
    erewrite bind_Ret by (eapply fill_old; [apply addr_ind|unfold is_u32; lia|lia]).
    replace (Z.to_nat (Z.of_nat k - 12)) with (k - 12)%nat by lia. apply indirect_old; [done|lia|done].
Qed.

End Block.

Lemma quietly_fb v s : quietly s (set_freeblock v s).
Proof. done. Qed.

Lemma grown_block s fs i f sz : blocks_ok s fs -> fs !! i = Some f -> a_ind f <> 0 -> (12 <= length (a_blks f) < 140)%nat -> (length (a_data f) <= 512 * length (a_blks f))%nat -> freeblock s < FSSIZE ->
  exists x f' s', append_indirect (length (a_blks f) - 12) (din_of f sz) s = Ret (din_of f' sz, x) s' /\ extended s fs i f (length (a_blks f)) x f' s'.
Proof.
  intros Hb Hi Hn Hk Hd Hroom. exists (freeblock s), (add_blk (freeblock s) f), (linked s f). split; [by eapply indirect_grow|].
  destruct (indirect_new s fs i f Hb Hi Hroom Hn Hk Hd) as [Hb' Hq]. split; [done|done|done| | |]; cbn [add_blk a_blks a_ind].
  - by rewrite lookup_app_r, Nat.sub_diag by lia.
  - by rewrite length_app.
  - rewrite length_app. cbn. split; [done|lia].
Qed.

Lemma block_new s fs i f sz : blocks_ok s fs -> fs !! i = Some f -> (length (a_blks f) < 140)%nat -> (length (a_data f) <= 512 * length (a_blks f))%nat ->
  (a_ind f = 0 <-> (length (a_blks f) <= 12)%nat) -> freeblock s + (if decide (length (a_blks f) = 12%nat) then 2 else 1) <= FSSIZE ->
  exists x f' s', append_block (Z.of_nat (length (a_blks f))) (din_of f sz) s = Ret (din_of f' sz, x) s' /\ extended s fs i f (length (a_blks f)) x f' s'.
Proof.
  intros Hb Hi Hk Hd Hind Hroom. assert (Hr1 : freeblock s < FSSIZE) by (case_decide; lia). pose proof (fb_range s fs f Hb Hr1) as Hfr.
  unfold append_block. change (Z.of_nat NDIRECT) with 12. destruct (Z.ltb_spec (Z.of_nat (length (a_blks f))) 12) as [Hlt|Hge].
  { destruct (direct_new s fs i f sz Hb Hi Hr1 ltac:(lia) Hd) as [Hrun Hb']. rewrite Nat2Z.id. erewrite bind_Ret by exact Hrun.
    assert (Hx : a_blks (add_blk (freeblock s) f) !! length (a_blks f) = Some (freeblock s)) by (cbn; by rewrite lookup_app_r, Nat.sub_diag by lia).
    exists (freeblock s), (add_blk (freeblock s) f), (set_freeblock (freeblock s + 1) s). split.
    - unfold ret, di_addr. cbn [din_of di_addrs]. rewrite (addr_direct _ (length (a_blks f)) _ ltac:(lia) Hx). cbn [default id]. by rewrite xint_id by (unfold is_u32; lia).
    - split; [done|apply quietly_fb|done|done| |]; cbn [add_blk a_blks a_ind]; rewrite length_app; cbn; [done|]. rewrite Hind. lia. }
  replace (Z.to_nat (Z.of_nat (length (a_blks f)) - 12)) with (length (a_blks f) - 12)%nat by lia. case_decide as Heq.
  - assert (Hz : a_ind f = 0) by (apply Hind; lia). destruct (ind_new s fs i f sz Hb Hi Hr1 Heq Hz) as [Hrun Hb']. change NDIRECT with 12%nat. erewrite bind_Ret by exact Hrun.
    set (s1 := set_freeblock (freeblock s + 1) s) in *. set (f1 := add_ind (freeblock s) f) in *.
    assert (Hi1 : <[i := f1]> fs !! i = Some f1) by (apply list_lookup_insert_eq; by eapply lookup_lt_Some).
    destruct (grown_block s1 _ i f1 sz Hb' Hi1) as (x & f' & s' & Hrun' & [X1 X2 X3 X4 X5 X6]); [cbn; lia|cbn; lia|done|cbn; lia|].
    exists x, f', s'. split; [exact Hrun'|]. split; try done. by rewrite list_insert_insert_eq in X1.
  - assert (Hn : a_ind f <> 0) by (intros E; apply Hind in E; lia). pose proof (ind_here s fs i f Hb Hi Hn) as Hir. unfold FSSIZE in Hir.
    change NDIRECT with 12%nat. erewrite bind_Ret by (eapply fill_old; [apply addr_ind|unfold is_u32; lia|lia]). apply grown_block; (done || lia).
Qed.

(** ** [iappend] *)

(** Bytes added inside the last block. *)
Lemma write_block s fs i f k o x p : blocks_ok s fs -> fs !! i = Some f -> a_blks f !! k = Some x -> length (a_blks f) = (k + 1)%nat ->
  length (a_data f) = (512 * k + o)%nat -> (o + length p <= 512)%nat ->
  exists s', wsect x (patch o p (bl s x)) s = Ret tt s' /\ blocks_ok s' (<[i := set_data (a_data f ++ p) f]> fs) /\ quietly s s'.
Proof.
  intros Hb Hi Hx Hl Hd Hp. pose proof (blk_here s fs i f Hb Hi _ _ Hx) as [Hr Hfb]. destruct (file_stored s fs i f Hb Hi) as [S1 S2 S3 S4].
  assert (Himg := bo_img _ _ Hb). exists (put_bl x (patch o p (bl s x)) s). split; [apply wsect_run; [done|unfold FSSIZE in *; lia]|].
  assert (Hbl : forall b, bl (put_bl x (patch o p (bl s x)) s) b = if b =? x then patch o p (bl s x) else bl s b) by (intros b; apply bl_put; [done|unfold FSSIZE in *; lia]).
  assert (Hxl : length (bl s x) = 512%nat) by (apply bl_len; [done|lia]).
  split; [|split; [done|]; intros b Hlow; rewrite Hbl, (proj2 (Z.eqb_neq _ _)); [done|change nmeta with 59 in Hlow; lia]].
  eapply (blocks_update s fs i f _ _ 0); [done|done|lia|done|cbn; lia|apply (bo_room _ _ Hb)| | |].
  - apply image_put; [done|]. rewrite length_patch; lia.
  - split; cbn [set_data a_blks a_ind a_data]; [| |done|done].
    + intros j b Hj. rewrite Hbl. destruct (Z.eqb_spec b x) as [->|Hne].
      * rewrite (blk_inj s fs i f Hb Hi j k x Hj Hx), (S1 k x Hx). by apply chunk_append.
      * rewrite (S1 j b Hj). symmetry. apply chunk_before. assert (Hjl := lookup_lt_Some _ _ _ Hj). assert (j <> k) by congruence. lia.
    + intros Hn. rewrite Hbl, (proj2 (Z.eqb_neq _ _)); [by apply S2|]. intros E. by apply (blk_not_ind s fs i f Hb Hi k x Hn Hx).
  - intros b Hnb. rewrite Hbl, (proj2 (Z.eqb_neq _ _)); [done|]. intros ->. apply Hnb, elem_of_app. left. cbn. by eapply list_elem_of_lookup_2.
Qed.

Lemma fb_total s fs : blocks_ok s fs -> freeblock s = nmeta + Z.of_nat (length (concat (owned <$> fs))).
Proof. intros Hb. rewrite (bo_own _ _ Hb), length_seqZ. pose proof (bo_room _ _ Hb). lia. Qed.

(** The free blocks a change of one file has taken. *)
Lemma fb_change s s' fs i f f' : blocks_ok s fs -> fs !! i = Some f -> blocks_ok s' (<[i := f']> fs) ->
  freeblock s' + Z.of_nat (length (owned f)) = freeblock s + Z.of_nat (length (owned f')).
Proof.
  intros Hb Hi Hb'. rewrite (fb_total _ _ Hb), (fb_total _ _ Hb'). assert (Hf : (owned <$> fs) !! i = Some (owned f)) by (by rewrite list_lookup_fmap, Hi).
  rewrite list_fmap_insert, (concat_insert _ _ _ (owned f') Hf), (concat_split _ _ _ Hf), !length_app. lia.
Qed.

Lemma cost_step n m : (n < m)%nat -> (n mod 512 = 0)%nat -> (cost n + (if decide (nblk n = 12) then 2 else 1) <= cost m)%nat.
Proof.
  intros Hlt Hz. assert (H := cost_mono (n + 1) m ltac:(lia)). assert (nblk (n + 1) = nblk n + 1)%nat as E.
  { destruct (nblk_cases n) as [[_ ->]|]; [|lia]. pose proof (Nat.div_mod_eq n 512). apply nblk_next; lia. }
  unfold cost in *. rewrite E in H. repeat case_decide; lia.
Qed.

(** A block of the file for its next byte. *)
Lemma append_block_run s fs i f sz : blocks_ok s fs -> fs !! i = Some f -> settled f -> (length (a_data f) / 512 < 140)%nat ->
  freeblock s + Z.of_nat (cost (length (a_data f) + 1)) - Z.of_nat (cost (length (a_data f))) <= FSSIZE ->
  exists x f' s', append_block (Z.of_nat (length (a_data f) / 512)) (din_of f sz) s = Ret (din_of f' sz, x) s' /\ extended s fs i f (length (a_data f) / 512) x f' s'.
Proof.
  intros Hb Hi [Hl Hind] Hmax Hroom. pose proof (Nat.div_mod_eq (length (a_data f)) 512) as Hdiv. destruct (nblk_cases (length (a_data f))) as [[Hz E]|[Hz E]].
  - rewrite <- E, <- Hl. pose proof (cost_step (length (a_data f)) (length (a_data f) + 1) ltac:(lia) Hz) as Hc. rewrite <- Hl in Hc.
    apply block_new; [done|done|lia|lia|done|]. repeat case_decide; lia.
  - destruct (lookup_lt_is_Some_2 (a_blks f) (length (a_data f) / 512)) as [x Hx]; [lia|]. exists x, f, s.
    apply block_old; [done|done|done|lia|done].
Qed.

Lemma iappend_loop_run fuel s fs i f sz p : blocks_ok s fs -> fs !! i = Some f -> settled f -> (length p <= fuel)%nat -> (length (a_data f) + length p <= 140 * 512)%nat ->
  freeblock s + Z.of_nat (cost (length (a_data f) + length p)) - Z.of_nat (cost (length (a_data f))) <= FSSIZE ->
  exists f' s', iappend_loop fuel (din_of f sz) (Z.of_nat (length (a_data f))) p s = Ret (din_of f' sz, Z.of_nat (length (a_data f) + length p)) s' /\
    blocks_ok s' (<[i := f']> fs) /\ quietly s s' /\ settled f' /\ a_data f' = a_data f ++ p /\ a_type f' = a_type f.
Proof.
  revert s fs f p. induction fuel as [|fuel IH]; intros s fs f p Hb Hi Hset Hfuel Hmax Hroom.
  { destruct p; [|cbn in Hfuel; lia]. exists f, s. rewrite list_insert_id, Nat.add_0_r, app_nil_r by done. by split_and!. }
  destruct p as [|c p']. { exists f, s. rewrite list_insert_id, Nat.add_0_r, app_nil_r by done. by split_and!. }
  cbn [iappend_loop]. set (p := c :: p') in *. assert (Hp : (0 < length p)%nat) by (cbn; lia). clearbody p. clear c p'.
  set (off := length (a_data f)) in *. pose proof (Nat.div_mod_eq off 512) as Hdiv. pose proof (Nat.mod_upper_bound off 512 ltac:(lia)) as Hmod.
  replace (Z.of_nat off / BSIZE) with (Z.of_nat (off / 512)) by (unfold BSIZE; by rewrite Nat2Z.inj_div). cbv zeta. unfold BSIZE, MAXFILE.
  rewrite (proj2 (Z.ltb_lt _ _)) by lia. cbn [negb].
  destruct (append_block_run s fs i f sz Hb Hi Hset ltac:(fold off; lia)) as (x & f1 & s1 & Hrun & [X1 X2 [X3 X3'] X4 X5 X6]).
  { fold off. pose proof (cost_mono (off + 1) (off + length p) ltac:(lia)). lia. }
  fold off in Hrun, X4, X5. erewrite bind_Ret by exact Hrun. cbn [fst snd].
  assert (Hlt := lookup_lt_Some _ _ _ Hi). assert (Hi1 : <[i := f1]> fs !! i = Some f1) by (by apply list_lookup_insert_eq).
  assert (Hxr := blk_here s1 _ i f1 X1 Hi1 _ _ X4). erewrite bind_Ret by (apply rsect_run; [apply X1|unfold FSSIZE in *; lia]).
  set (n1 := (length p `min` (512 - off mod 512))%nat).
  replace (Z.to_nat (Z.min (Z.of_nat (length p)) ((Z.of_nat (off / 512) + 1) * 512 - Z.of_nat off))) with n1 by (unfold n1; lia).
  replace (Z.min (Z.of_nat (length p)) ((Z.of_nat (off / 512) + 1) * 512 - Z.of_nat off)) with (Z.of_nat n1) by (unfold n1; lia).
  replace (Z.to_nat (Z.of_nat off - Z.of_nat (off / 512) * 512)) with (off mod 512)%nat by lia. assert (Hn1 : length (take n1 p) = n1) by (rewrite length_take; unfold n1; lia).
  destruct (write_block s1 _ i f1 (off / 512) (off mod 512) x (take n1 p) X1 Hi1 X4 X5) as (s2 & Hw & Hb2 & Hq2); [rewrite X3; fold off; lia|rewrite Hn1; unfold n1; lia|].
  erewrite bind_Ret by exact Hw. rewrite list_insert_insert_eq in Hb2. set (f2 := set_data (a_data f1 ++ take n1 p) f1) in *.
  assert (Hd2 : length (a_data f2) = (off + n1)%nat) by (cbn; rewrite length_app, X3, Hn1; done).
  assert (Hset2 : settled f2) by (split; [rewrite Hd2; cbn; rewrite X5; symmetry; apply nblk_next; unfold n1; lia|exact X6]).
  assert (Hi2 : <[i := f2]> fs !! i = Some f2) by (by apply list_lookup_insert_eq).
  assert (Hdr : (n1 + length (drop n1 p) = length p)%nat) by (rewrite length_drop; unfold n1; lia).
  pose proof (fb_change _ _ _ _ _ _ Hb Hi Hb2) as Hfb. rewrite !length_owned, Hd2 in Hfb by done. fold off in Hfb.
  change (din_of f1 sz) with (din_of f2 sz). rewrite u32_small by (unfold is_u32; unfold n1; lia). rewrite <- Nat2Z.inj_add, <- Hd2.
  destruct (IH s2 (<[i := f2]> fs) f2 (drop n1 p) Hb2 Hi2 Hset2) as (f' & s' & Hrun' & Hb' & Hq' & Hset' & Hd' & Ht'); [unfold n1 in *; lia|lia| |].
  { rewrite Hd2. replace (off + n1 + length (drop n1 p))%nat with (off + length p)%nat by lia. lia. }
  exists f', s'. rewrite Hrun', Hd2. replace (off + n1 + length (drop n1 p))%nat with (off + length p)%nat by lia. split; [done|].
  rewrite list_insert_insert_eq in Hb'. split_and!; [done|by eapply quietly_trans; [|eapply quietly_trans]|done| |].
  - rewrite Hd'. cbn. rewrite X3, <- (assoc_L (++)), take_drop. done.
  - rewrite Ht'. cbn. done.
Qed.

(** ** Inodes *)

Notation dino := (dino new_sb).

(** The fields of an inode have the widths of their C types. *)
Definition din_wf (d : dinode) : Prop := ino_wf (load_dinode d (mkinode 0 0 0 0 0 0 0 0 0 [])).

Lemma iblock_range n : 0 <= n < 208 -> 32 <= IBLOCK n new_sb < 58.
Proof. unfold IBLOCK, IPB. change (inodestart new_sb) with 32. intros H. Z.div_mod_to_equations. lia. Qed.

Lemma image_iblock_same n m : 0 <= n < 208 -> 0 <= m < 208 -> IBLOCK n new_sb = IBLOCK m new_sb -> n mod IPB = m mod IPB -> n = m.
Proof. unfold IBLOCK, IPB. intros. Z.div_mod_to_equations. lia. Qed.

(** The inode [n] has been written. *)
Record wrote_ino (n : Z) (d : dinode) s s' : Prop := {
  wi_img : image s';
  wi_same : freeinode s' = freeinode s /\ freeblock s' = freeblock s;
  wi_at : dino (bl s') n = d;
  wi_other : forall m, 0 <= m < 208 -> m <> n -> dino (bl s') m = dino (bl s) m;
  wi_blocks : forall b, b < 32 \/ 58 <= b -> bl s' b = bl s b
}.

Lemma winode_run s n d : image s -> 0 <= n < 208 -> din_wf d -> exists s', winode n d s = Ret tt s' /\ wrote_ino n d s s'.
Proof.
  intros Hi Hn Hd. assert (Hr := iblock_range n Hn). assert (Hf : 0 <= IBLOCK n new_sb < FSSIZE) by (unfold FSSIZE; lia).
  set (p := load_dinode d (mkinode 0 n 0 0 0 0 0 0 0 [])). assert (Hp : ino_wf p) by (destruct Hd; by split).
  set (x := put_dinode n p (bl s (IBLOCK n new_sb))). assert (Hlen := bl_len s _ Hi Hf). assert (Hx : length x = 512%nat) by (by apply length_put_dinode).
  exists (put_bl (IBLOCK n new_sb) x s). split.
  { unfold winode. rewrite bind_gets, (im_sb _ Hi). cbv zeta. erewrite bind_Ret by (by apply rsect_run). by apply wsect_run. }
  assert (Hbl : forall b, bl (put_bl (IBLOCK n new_sb) x s) b = if b =? IBLOCK n new_sb then x else bl s b) by (intros b; by apply bl_put).
  split; [by apply image_put|done| | |].
  - unfold FsPath.dino. rewrite Hbl, Z.eqb_refl. unfold x. rewrite get_put_dinode by done. by destruct d.
  - intros m Hm Hne. unfold FsPath.dino. rewrite Hbl. destruct (Z.eqb_spec (IBLOCK m new_sb) (IBLOCK n new_sb)) as [E|]; [|done]. rewrite E.
    apply get_put_dinode_ne; [done|done|]. intros F. apply Hne. symmetry. by apply image_iblock_same.
  - intros b Hb. rewrite Hbl, (proj2 (Z.eqb_neq _ _)); [done|lia].
Qed.

Lemma rinode_run s n : image s -> 0 <= n < 208 -> rinode n s = Ret (dino (bl s) n) s.
Proof.
  intros Hi Hn. assert (Hr := iblock_range n Hn). unfold rinode. rewrite bind_gets, (im_sb _ Hi). cbv zeta.
  by erewrite bind_Ret by (apply rsect_run; [done|unfold FSSIZE; lia]).
Qed.

Lemma blocks_ext s s' fs : blocks_ok s fs -> image s' -> freeblock s' = freeblock s -> (forall b, nmeta <= b -> bl s' b = bl s b) -> blocks_ok s' fs.
Proof.
  intros Hb Hi Hf E. pose proof (bo_room _ _ Hb) as Hr. split; rewrite ?Hf; [done|apply Hb|done| |].
  - intros f Hin. eapply stored_ext; [|by apply (bo_files _ _ Hb)]. intros b Ho. apply E. apply (owned_range s fs f b Hb Hin) in Ho. lia.
  - intros b Hbz. rewrite E by lia. by apply (bo_zero _ _ Hb).
Qed.

(** The inodes of the files, no others, and the blocks before them. *)
Record inodes_ok s fs : Prop := {
  io_free : freeinode s = Z.of_nat (length fs) + 1;
  io_few : (length fs <= 199)%nat;
  io_at : forall i f, fs !! i = Some f -> dino (bl s) (Z.of_nat i + 1) = din_of f (Z.of_nat (length (a_data f)));
  io_none : forall n, n = 0 \/ Z.of_nat (length fs) < n < 208 -> di_type (dino (bl s) n) = 0;
  io_sb : sb_of (bl s 1) = new_sb;
  io_log : forall b, 2 <= b < 32 -> bl s b = zeroes
}.

Record mk_ok s fs : Prop := {
  mo_blocks : blocks_ok s fs;
  mo_inodes : inodes_ok s fs;
  mo_files : Forall (fun f => settled f /\ 0 < a_type f < 2 ^ 15) fs
}.

Lemma data_max s fs f : blocks_ok s fs -> f ∈ fs -> settled f -> (length (a_data f) <= 140 * 512)%nat.
Proof.
  intros Hb Hf [Hl _]. pose proof (st_max _ _ (bo_files _ _ Hb f Hf)) as Hm. rewrite Hl in Hm.
  pose proof (Nat.div_mod_eq (length (a_data f)) 512). pose proof (Nat.mod_upper_bound (length (a_data f)) 512 ltac:(lia)).
  destruct (nblk_cases (length (a_data f))) as [[Hz E]|[Hz E]]; lia.
Qed.

Lemma din_of_wf s fs f sz : blocks_ok s fs -> f ∈ fs -> 0 < a_type f < 2 ^ 15 -> is_u32 sz -> din_wf (din_of f sz).
Proof.
  intros Hb Hf Ht Hz. split; cbn.
  - intros v Hv. do 4 (apply elem_of_cons in Hv as [->|Hv]; [lia|]). by apply elem_of_nil in Hv.
  - done.
  - split; [apply length_addrs|]. assert (Hu : forall b, b = 0 \/ b ∈ owned f -> is_u32 b).
    { intros b [->|Ho]; [done|]. apply (owned_range s fs f b Hb Hf) in Ho. pose proof (bo_room _ _ Hb). change nmeta with 59 in *. unfold is_u32, FSSIZE in *. lia. }
    apply Forall_forall. intros b Hin. apply Hu. unfold addrs_of in Hin. apply elem_of_app in Hin as [Hin|Hin].
    + apply (subseteq_take 12) in Hin. apply elem_of_app in Hin as [Hin|Hin]; [right; apply elem_of_app; by left|].
      apply elem_of_replicate in Hin as [-> _]. by left.
    + apply list_elem_of_singleton in Hin as ->. destruct (decide (a_ind f = 0)) as [|Hn]; [by left|right]. apply elem_of_app. right.
      rewrite (proj2 (Z.eqb_neq _ _)) by done. by apply list_elem_of_singleton.
Qed.

(** ** The files of the image, as types and contents *)

Definition contents fs : list (Z * list Z) := (fun f => (a_type f, a_data f)) <$> fs.
Definition holds s (c : list (Z * list Z)) : Prop := exists fs, mk_ok s fs /\ contents fs = c.
(** The data blocks they take. *)
Definition total (c : list (Z * list Z)) : nat := sum_list_with (fun q => cost (length (snd q))) c.

Lemma total_app c c' : total (c ++ c') = (total c + total c')%nat.
Proof. apply sum_list_with_app. Qed.

Lemma total_insert c i q q' : c !! i = Some q -> (total (<[i := q']> c) + cost (length (snd q)) = total c + cost (length (snd q')))%nat.
Proof.
  unfold total. revert i. induction c as [|r c IH]; intros i Hi; [done|].
  destruct i as [|i]; [injection Hi as ->; cbn; lia|]. specialize (IH i Hi). change (<[S i := q']> (r :: c)) with (r :: <[i := q']> c). cbn [sum_list_with]. lia.
Qed.

Lemma owned_total fs : Forall settled fs -> length (concat (owned <$> fs)) = total (contents fs).
Proof. induction 1 as [|f fs Hf _ IH]; [done|]. cbn [fmap list_fmap concat]. rewrite length_app, length_owned, IH by done. done. Qed.

Lemma mk_free s fs : mk_ok s fs -> freeblock s = nmeta + Z.of_nat (total (contents fs)).
Proof. intros [Hb _ Hf]. rewrite (fb_total _ _ Hb), owned_total; [done|]. eapply Forall_impl; [exact Hf|]. by intros f [? _]. Qed.

Lemma dino_quiet s s' n : quietly s s' -> 0 <= n < 208 -> dino (bl s') n = dino (bl s) n.
Proof. intros [_ H] Hn. unfold FsPath.dino. rewrite H; [done|]. pose proof (iblock_range n Hn). change nmeta with 59. lia. Qed.

(** One file changed, and its inode written. *)
Lemma inode_update s s1 s2 fs i f f' : mk_ok s fs -> fs !! i = Some f -> blocks_ok s1 (<[i := f']> fs) -> quietly s s1 -> settled f' -> a_type f' = a_type f ->
  wrote_ino (Z.of_nat i + 1) (din_of f' (Z.of_nat (length (a_data f')))) s1 s2 -> mk_ok s2 (<[i := f']> fs).
Proof.
  intros [Hb Hio Hf] Hi Hb1 Hq Hs Ht [W1 [W2 W3] W4 W5 W6]. assert (Hlt := lookup_lt_Some _ _ _ Hi). destruct Hio as [I1 I2 I3 I4 I5 I6]. split.
  - eapply blocks_ext; [exact Hb1|done|done|]. intros b Hbn. apply W6. change nmeta with 59 in Hbn. lia.
  - split; rewrite ?length_insert; [rewrite W2; destruct Hq; congruence|done| | | |].
    + intros j g Hj. destruct (decide (j = i)) as [->|Hne]; [rewrite list_lookup_insert_eq in Hj by done; by injection Hj as <-|].
      rewrite list_lookup_insert_ne in Hj by done. assert (Hjl := lookup_lt_Some _ _ _ Hj). rewrite W5, (dino_quiet s s1) by (done || lia). by apply I3.
    + intros n Hn. rewrite W5, (dino_quiet s s1) by (done || lia). by apply I4.
    + rewrite W6, (proj2 Hq) by (change nmeta with 59; lia). done.
    + intros b Hlog. rewrite W6, (proj2 Hq) by (change nmeta with 59; lia). by apply I6.
  - apply Forall_insert; [done|]. split; [done|]. rewrite Ht. by destruct (Forall_lookup_1 _ _ _ _ Hf Hi).
Qed.

Lemma iappend_run s c i t d p : holds s c -> c !! i = Some (t, d) -> (length (d ++ p) <= 140 * 512)%nat -> (total (<[i := (t, d ++ p)]> c) <= 941)%nat ->
  exists s', iappend (Z.of_nat i + 1) p s = Ret tt s' /\ holds s' (<[i := (t, d ++ p)]> c).
Proof.
  intros (fs & Hok & <-) Hi Hmax Htot. unfold contents in Hi. rewrite list_lookup_fmap in Hi. destruct (fs !! i) as [f|] eqn:Hf; [|done]. injection Hi as <- <-.
  assert (Hin : f ∈ fs) by (by eapply list_elem_of_lookup_2). destruct Hok as [Hb Hio Hall] eqn:Hok'. clear Hok'. destruct (Forall_lookup_1 _ _ _ _ Hall Hf) as [Hset Htype].
  assert (Hlt := lookup_lt_Some _ _ _ Hf). assert (Hn : 0 <= Z.of_nat i + 1 < 208) by (pose proof (io_few _ _ Hio); lia).
  pose proof (data_max _ _ _ Hb Hin Hset) as Hdm. rewrite length_app in Hmax.
  pose proof (total_insert (contents fs) i (a_type f, a_data f) (a_type f, a_data f ++ p) ltac:(unfold contents; by rewrite list_lookup_fmap, Hf)) as Hti.
  cbn [snd] in Hti. rewrite length_app in Hti. pose proof (mk_free s fs Hok) as Hfree. change nmeta with 59 in Hfree.
  destruct (iappend_loop_run (length p) s fs i f (Z.of_nat (length (a_data f))) p Hb Hf Hset ltac:(lia) Hmax ltac:(unfold FSSIZE; lia))
    as (f' & s1 & Hrun & Hb1 & Hq & Hset' & Hd' & Ht').
  assert (Hi' : f' ∈ <[i := f']> fs) by (eapply list_elem_of_lookup_2, list_lookup_insert_eq, Hlt).
  assert (Hdl : length (a_data f') = (length (a_data f) + length p)%nat) by (by rewrite Hd', length_app).
  destruct (winode_run s1 (Z.of_nat i + 1) (din_of f' (Z.of_nat (length (a_data f')))) (bo_img _ _ Hb1) Hn) as (s2 & Hw & Hwi).
  { eapply din_of_wf; [exact Hb1|done|by rewrite Ht'|unfold is_u32; lia]. }
  exists s2. split.
  - unfold iappend. erewrite bind_Ret by (apply rinode_run; [apply Hb|done]). rewrite (io_at _ _ Hio i f Hf). cbn [din_of di_size].
    rewrite xint_id by (unfold is_u32; lia). erewrite bind_Ret by exact Hrun. cbn [fst snd]. rewrite xint_id by (unfold is_u32; lia).
    rewrite <- Hw, Hdl. done.
  - exists (<[i := f']> fs). split; [by eapply inode_update|]. unfold contents. rewrite list_fmap_insert. by rewrite Ht', Hd'.
Qed.

Lemma ialloc_run s c t : holds s c -> (length c < 199)%nat -> 0 < t < 2 ^ 15 ->
  exists s', ialloc t s = Ret (Z.of_nat (length c) + 1) s' /\ holds s' (c ++ [(t, [])]).
Proof.
  intros (fs & [Hb Hio Hall] & <-) Hlen Ht. unfold contents in *. rewrite length_fmap in *. pose proof (io_free _ _ Hio) as Hfi. set (n := Z.of_nat (length fs) + 1) in *.
  set (f := mkaf t [] [] 0). assert (Hn : 0 <= n < 208) by (unfold n; lia). assert (Himg : image (set_freeinode (n + 1) s)) by (by destruct (bo_img _ _ Hb)).
  destruct (winode_run (set_freeinode (n + 1) s) n (din_of f 0) Himg Hn) as (s2 & Hw & [W1 [W2 W3] W4 W5 W6]).
  { change (2 ^ 15) with 32768 in Ht. split; cbn; [|done|split; [done|by repeat constructor]]. intros v Hv. do 4 (apply elem_of_cons in Hv as [->|Hv]; [lia|]). by apply elem_of_nil in Hv. }
  change (bl (set_freeinode (n + 1) s)) with (bl s) in W5, W6. exists s2. split.
  - unfold ialloc. rewrite bind_gets, bind_modify, Hfi. rewrite u32_small by (unfold is_u32, n; lia). erewrite bind_Ret; [reflexivity|]. rewrite <- Hw. f_equal.
    unfold din_of. cbn [f a_type]. rewrite xshort_id by (change (2 ^ 15) with 32768 in Ht; change (2 ^ 16) with 65536; lia).
    replace (s16 t) with t; [done|]. unfold s16. rewrite Z.mod_small, (proj2 (Z.ltb_lt _ _)) by (change (2 ^ 15) with 32768 in *; change (2 ^ 16) with 65536; lia). done.
  - exists (fs ++ [f]). split; [|unfold contents; by rewrite fmap_app]. destruct Hio as [I1 I2 I3 I4 I5 I6]. split.
    + assert (Hb2 : blocks_ok s2 fs) by (eapply blocks_ext; [exact Hb|done|done|]; intros b Hbn; apply W6; change nmeta with 59 in Hbn; lia).
      destruct Hb2 as [B1 B2 B3 B4 B5]. split; [done| |done| |done].
      * rewrite fmap_app, concat_app. cbn. by rewrite app_nil_r.
      * intros g Hg. apply elem_of_app in Hg as [Hg|Hg]; [by apply B4|]. apply list_elem_of_singleton in Hg as ->. split; cbn; (done || lia || (split; (done || lia))).
    + split; rewrite ?length_app; cbn [length].
      * rewrite W2. cbn. unfold n. lia.
      * lia.
      * intros j g Hj. apply lookup_snoc_Some in Hj as [[Hjl Hj]|[-> <-]]; [|done]. rewrite W5 by (unfold n; lia). by apply I3.
      * intros m Hm. rewrite W5 by (unfold n; lia). apply I4. lia.
      * rewrite W6 by lia. done.
      * intros b Hlog. rewrite W6 by lia. by apply I6.
    + apply Forall_app. split; [done|]. apply Forall_singleton. split; [split; [reflexivity|split; cbn; intros; (lia || done)]|exact Ht].
Qed.

End MkfsOps.
