(* ===== verification/MkfsTheorems.v ===== *)
(** * The image that [mkfs] builds

    The kernel finds on it what its own operations rely on ([disk_ok], [layout] and the free
    map), and every input file under its name with its contents. *)

From Stdlib Require Import ZArith Lia.
From S2P Require Import Prelude Spinlock Sleeplock Strings Blocks Bytes Log Txn Fs FsSpec FsInode FsFile FsWrite FsDir FsPath Mkfs MkfsSpec MkfsOps.

Module MkfsTheorems.
Import Mkfs MkfsSpec MkfsOps.
Implicit Types (V : Z -> block) (fs : list afile) (s : mkst) (f : input) (files : list input).

(** ** What the input files are on the image *)

Definition in_data f : list Z := concat (default [] (in_reads f)).

(** The entries of the root directory: inode number and name. *)
Definition entries files : list (Z * list Z) :=
  [(1, [46]); (1, [46; 46])] ++ imap (fun i f => (Z.of_nat i + 2, strip (in_name f))) files.
Definition root_data files : list Z := concat ((fun e => dirent (fst e) (snd e)) <$> entries files).
Definition contents_of files : list (Z * list Z) := (T_DIR, root_data files) :: ((fun f => (T_FILE, in_data f)) <$> files).

(** Input that fits: no [/] in a name, all files readable and not too long, few enough for
    the inodes and the blocks. *)
Record inputs_ok files : Prop := {
  ip_files : Forall (fun f => 47 ∉ in_name f /\ is_Some (in_reads f) /\ (length (in_data f) <= 140 * 512)%nat) files;
  ip_few : (length files <= 198)%nat;
  ip_fits : (total (contents_of files) <= 941)%nat
}.

Lemma entries_snoc files f : entries (files ++ [f]) = entries files ++ [(Z.of_nat (length files) + 2, strip (in_name f))].
Proof. unfold entries. rewrite imap_app, (assoc_L (++)). cbn. by rewrite Nat.add_0_r. Qed.

Lemma root_snoc files f : root_data (files ++ [f]) = root_data files ++ dirent (Z.of_nat (length files) + 2) (strip (in_name f)).
Proof. unfold root_data. rewrite entries_snoc, fmap_app, concat_app. cbn. by rewrite app_nil_r. Qed.

Lemma length_dirent n name : length (dirent n name) = 16%nat.
Proof. unfold dirent. rewrite length_app, length_le_bytes, length_take, length_app, length_replicate. unfold DIRSIZ. lia. Qed.

Lemma length_root files : length (root_data files) = (16 * (length files + 2))%nat.
Proof.
  assert (H : forall l : list (Z * list Z), length (concat ((fun e => dirent (fst e) (snd e)) <$> l)) = (16 * length l)%nat).
  { induction l as [|e l IH]; [done|]. cbn [fmap list_fmap concat length]. rewrite length_app, length_dirent, IH. lia. }
  unfold root_data. rewrite H. unfold entries. rewrite length_app, length_imap. cbn [length]. lia.
Qed.

Lemma length_contents files : length (contents_of files) = S (length files).
Proof. unfold contents_of. cbn [length]. by rewrite length_fmap. Qed.

Lemma total_cons q c : total (q :: c) = (cost (length (snd q)) + total c)%nat.
Proof. done. Qed.

Lemma total_files files : total ((fun f => (T_FILE, in_data f)) <$> files) = sum_list_with (fun f => cost (length (in_data f))) files.
Proof. induction files as [|f files IH]; [done|]. by rewrite fmap_cons, total_cons, IH. Qed.

Lemma total_contents files : total (contents_of files) = (cost (16 * (length files + 2)) + sum_list_with (fun f => cost (length (in_data f))) files)%nat.
Proof. unfold contents_of. by rewrite total_cons, total_files; cbn [snd]; rewrite length_root. Qed.

Lemma total_prefix files files' : (total (contents_of files) <= total (contents_of (files ++ files')))%nat.
Proof.
  rewrite !total_contents, length_app, sum_list_with_app. pose proof (cost_mono (16 * (length files + 2)) (16 * (length files + length files' + 2)) ltac:(lia)). lia.
Qed.

(** ** Adding the files *)

Lemma append_reads s c t d reads : holds s (c ++ [(t, d)]) -> (length (d ++ concat reads) <= 140 * 512)%nat -> (total (c ++ [(t, d ++ concat reads)]) <= 941)%nat ->
  exists s', forM reads (iappend (Z.of_nat (length c) + 1)) s = Ret tt s' /\ holds s' (c ++ [(t, d ++ concat reads)]).
Proof.
  revert s d. induction reads as [|p reads IH]; intros s d Hh Hl Ht; cbn [forM concat] in *; [exists s; by rewrite app_nil_r|].
  assert (Hi : (c ++ [(t, d)]) !! length c = Some (t, d)) by (by rewrite lookup_app_r, Nat.sub_diag by lia).
  assert (E : <[length c := (t, d ++ p)]> (c ++ [(t, d)]) = c ++ [(t, d ++ p)]) by (by rewrite insert_app_r_alt, Nat.sub_diag by lia).
  rewrite (assoc_L (++)) in Hl, Ht |- *. destruct (iappend_run s (c ++ [(t, d)]) (length c) t d p Hh Hi) as (s1 & Hrun & Hh1).
  - rewrite length_app in Hl. lia.
  - rewrite E. rewrite total_app, total_cons in *. cbn [snd] in *. pose proof (cost_mono (length (d ++ p)) (length ((d ++ p) ++ concat reads)) ltac:(rewrite !length_app; lia)). lia.
  - erewrite bind_Ret by exact Hrun. rewrite E in Hh1. by apply IH.
Qed.

Lemma add_file_run s files f : holds s (contents_of files) -> inputs_ok (files ++ [f]) -> exists s', add_file 1 f s = Ret tt s' /\ holds s' (contents_of (files ++ [f])).
Proof.
  intros Hh [Hall Hfew Hfits]. apply Forall_app in Hall as [_ Hf]. rewrite Forall_singleton in Hf. destruct Hf as (Hname & [reads Hreads] & Hlen).
  rewrite length_app in Hfew. cbn [length] in Hfew. assert (Hd : in_data f = concat reads) by (unfold in_data; by rewrite Hreads).
  unfold add_file. rewrite bool_decide_eq_false_2 by done. rewrite Hreads.
  destruct (ialloc_run s _ T_FILE Hh) as (s1 & Hal & Hh1); [rewrite length_contents; lia|by vm_compute|].
  erewrite bind_Ret by exact Hal. rewrite length_contents. unfold contents_of in Hh1. cbn [app] in Hh1. rewrite total_contents in Hfits.
  rewrite length_app, sum_list_with_app in Hfits. cbn [length sum_list_with] in Hfits.
  set (c := (fun f => (T_FILE, in_data f)) <$> files) in *. set (ent := dirent (Z.of_nat (length files) + 2) (strip (in_name f))).
  assert (Htc : total c = sum_list_with (fun f => cost (length (in_data f))) files) by apply total_files.
  assert (Hlr : length (root_data files ++ ent) = (16 * (length files + 1 + 2))%nat) by (rewrite length_app, length_root; unfold ent; rewrite length_dirent; lia).
  destruct (iappend_run s1 _ 0 T_DIR (root_data files) ent Hh1 eq_refl) as (s2 & Hent & Hh2); [rewrite Hlr; lia| |].
  { cbn [insert list_insert]. change (total ((T_DIR, root_data files ++ ent) :: c ++ [(T_FILE, [])]) <= 941)%nat. 
    rewrite total_cons, total_app, Htc. cbn [snd]. rewrite Hlr. change (total [(T_FILE, [])]) with 0%nat. lia. }
  replace (Z.of_nat (S (length files)) + 1) with (Z.of_nat (length files) + 2) by lia. fold ent. change (Z.of_nat 0 + 1) with 1 in Hent. erewrite bind_Ret by exact Hent.
  change (<[0%nat := (T_DIR, root_data files ++ ent)]> ((T_DIR, root_data files) :: c ++ [(T_FILE, [])])) with (((T_DIR, root_data files ++ ent) :: c) ++ [(T_FILE, [])]) in Hh2.
  destruct (append_reads s2 _ T_FILE [] reads Hh2) as (s3 & Hrd & Hh3); [cbn [app]; rewrite <- Hd; done| |].
  { rewrite total_app, !total_cons, Htc, <- Hd. cbn [snd app]. rewrite Hlr. change (total []) with 0%nat. lia. }
  cbn [length] in Hrd. unfold c in Hrd. rewrite length_fmap in Hrd. replace (Z.of_nat (S (length files)) + 1) with (Z.of_nat (length files) + 2) in Hrd by lia.
  exists s3. split; [exact Hrd|]. unfold contents_of. rewrite root_snoc, fmap_app. fold ent c. cbn [fmap list_fmap app] in *. by rewrite Hd.
Qed.

Lemma inputs_prefix files files' : inputs_ok (files ++ files') -> inputs_ok files.
Proof.
  intros [H1 H2 H3]. apply Forall_app in H1 as [H1 _]. rewrite length_app in H2. pose proof (total_prefix files files'). split; [done|lia|lia].
Qed.

Lemma add_files_run s files files' : holds s (contents_of files) -> inputs_ok (files ++ files') ->
  exists s', forM files' (add_file 1) s = Ret tt s' /\ holds s' (contents_of (files ++ files')).
Proof.
  revert s files. induction files' as [|f files' IH]; intros s files Hh Hok; cbn [forM]; [exists s; by rewrite app_nil_r|].
  replace (files ++ f :: files') with ((files ++ [f]) ++ files') in * by (by rewrite <- (assoc_L (++))).
  destruct (add_file_run s files f Hh (inputs_prefix _ _ Hok)) as (s1 & Hrun & Hh1). erewrite bind_Ret by exact Hrun. by apply IH.
Qed.

(** ** The empty image *)

Lemma fill_image s n k : img s = replicate k zeroes -> (k + n <= 1000)%nat ->
  forM (seqZ (Z.of_nat k) (Z.of_nat n)) (fun i => wsect i zeroes) s = Ret tt (set_img (replicate (k + n) zeroes) s).
Proof.
  revert s k. induction n as [|n IH]; intros s k Hi Hk.
  { rewrite Nat.add_0_r, <- Hi. by destruct s. }
  rewrite Nat2Z.inj_succ, seqZ_cons by lia. cbn [forM]. rewrite Z.pred_succ. unfold wsect at 1. rewrite bind_modify. cbv zeta.
  rewrite seek_at by (unfold FSSIZE; lia). rewrite Nat2Z.id, Hi, length_replicate, decide_False, Nat.sub_diag by lia.
  change (replicate 0 zeroes ++ [zeroes]) with [zeroes]. rewrite <- Nat2Z.inj_succ, IH; [|cbn [img set_img]; by rewrite <- replicate_S_end|lia].
  unfold set_img. cbn. do 3 f_equal. by rewrite Nat.add_succ_r.
Qed.

Definition sb_block : block := patch 0 (sb_bytes new_sb) zeroes.
(** The image when the superblock has been written. *)
Definition blank : mkst := mkmk (<[1%nat := sb_block]> (replicate 1000 zeroes)) new_sb 1 nmeta.

Lemma bl_blank b : 0 <= b < FSSIZE -> b <> 1 -> bl blank b = zeroes.
Proof.
  unfold FSSIZE. intros Hb Hne. unfold bl, disk_at, blank. cbn [img]. rewrite (proj2 (Z.ltb_ge _ _)) by lia. apply nth_lookup_Some.
  rewrite list_lookup_insert_ne by lia. apply lookup_replicate_2. lia.
Qed.

Lemma dino_zero n : 0 <= n < 208 -> di_type (dino (bl blank) n) = 0.
Proof.
  intros Hn. pose proof (iblock_range n Hn). unfold FsPath.dino. rewrite bl_blank by (unfold FSSIZE; lia). unfold get_dinode. cbn [di_type].
  unfold getn, sub, zeroes. rewrite drop_replicate, take_replicate. generalize (2 `min` (512 - dioff n))%nat as k. intros k.
  replace (le_val (replicate k 0)) with 0; [done|]. induction k as [|k IH]; [done|]. cbn [replicate le_val]. lia.
Qed.

Lemma blank_holds : holds blank [].
Proof.
  exists []. split; [|done]. split; [| |done].
  - split; [|done|by vm_compute|set_solver|].
    + split; [|apply Forall_insert; [by apply Forall_replicate|by vm_compute]|done]. unfold blank. cbn [img]. by rewrite length_insert, length_replicate.
    + intros b Hb. cbn in Hb. change nmeta with 59 in Hb. apply bl_blank; lia.
  - split; [done|cbn; lia|done| | |].
    + intros n Hn. apply dino_zero. cbn in Hn. lia.
    + change (bl blank 1) with sb_block. by vm_compute.
    + intros b Hb. apply bl_blank; unfold FSSIZE; lia.
Qed.

(** ** The free map *)

Lemma bits_used n b : (n <= 4096)%nat -> 0 <= b < BPB ->
  bit_set (foldl (fun buf i => set_byte buf (i / 8) (Z.lor (byte_at buf (i / 8)) (bit_mask i))) zeroes (seqZ 0 (Z.of_nat n))) b = (b <? Z.of_nat n).
Proof.
  set (step := fun buf i => _). intros Hn Hb.
  assert (Hlen : forall l, length (foldl step zeroes l) = 512%nat).
  { intros l. assert (H : length zeroes = 512%nat) by done. revert H. generalize zeroes as x. induction l as [|i l IH]; intros x Hx; [done|]. cbn. apply IH. unfold step, set_byte. by rewrite length_insert. }
  induction n as [|n IH].
  - change (foldl step zeroes (seqZ 0 (Z.of_nat 0))) with zeroes. rewrite (proj2 (Z.ltb_ge _ _)) by lia. unfold bit_set, byte_at, zeroes.
    destruct (replicate 512 0 !! Z.to_nat (b / 8)) as [v|] eqn:E; [|apply Z.bits_0]. apply lookup_replicate in E as [-> _]. apply Z.bits_0.
  - rewrite Nat2Z.inj_succ. unfold Z.succ. rewrite seqZ_app, foldl_app by lia. replace (seqZ (0 + Z.of_nat n) 1) with [Z.of_nat n] by (cbn; f_equal; lia). cbn [foldl].
    change (bit_set (mark (foldl step zeroes (seqZ 0 (Z.of_nat n))) (Z.of_nat n)) b = (b <? Z.of_nat n + 1)).
    rewrite bit_mark by (unfold BPB, BSIZE in *; (done || lia)). rewrite IH by lia.
    destruct (Z.eqb_spec b (Z.of_nat n)), (Z.ltb_spec b (Z.of_nat n)), (Z.ltb_spec b (Z.of_nat n + 1)); try done; lia.
Qed.

Lemma new_layout : layout (mktgeo FSSIZE 29 (fun n => (2 <=? n) && (n <? 32))) new_sb nmeta.
Proof.
  assert (Hb : forall b, 0 <= b < 1000 -> BBLOCK b new_sb = 58).
  { intros b Hb. unfold BBLOCK, BPB, BSIZE. change (bmapstart new_sb) with 58. rewrite Z.div_small by lia. done. }
  split; change (sb_size new_sb) with 1000; change (ninodes new_sb) with 200; change nmeta with 59; cbn [g_len].
  - done.
  - intros b Hr. rewrite Hb by done. done.
  - intros n Hn. pose proof (iblock_range n ltac:(lia)). split; [|lia]. split; [cbn; unfold FSSIZE; lia|]. cbn. rewrite (proj2 (Z.ltb_ge _ _)) by lia. apply andb_false_r.
  - intros b n Hr Hn. rewrite Hb by done. pose proof (iblock_range n ltac:(lia)). lia.
  - intros b Hr. split; [cbn; unfold FSSIZE; lia|]. cbn. rewrite (proj2 (Z.ltb_ge _ _)) by lia. apply andb_false_r.
  - done.
Qed.

(** ** Files as the kernel reads them *)

Section Read.
Context (V : Z -> block) (g : afile) (p : inode).
Hypothesis (Hst : stored V g) (Ha : i_addrs p = addrs_of g).

Lemma file_baddr k b : a_blks g !! k = Some b -> baddr V p k = b.
Proof.
  intros Hb. assert (Hl := lookup_lt_Some _ _ _ Hb). unfold baddr, addr_at, NDIRECT. rewrite Ha. case_decide as Hk; [by rewrite (addr_direct _ _ _ Hk Hb)|].
  rewrite addr_ind. cbn [default id]. destruct Hst as [_ S2 [S3 _] S4]. rewrite (proj2 (S2 (S3 ltac:(lia)))) by lia.
  replace (12 + (k - 12))%nat with k by lia. by rewrite Hb.
Qed.

Lemma file_byte o : (o < 512 * length (a_blks g))%nat -> fbyte V p (Z.of_nat o) = default 0 (a_data g !! o).
Proof.
  intros Ho. pose proof (Nat.div_mod_eq o 512) as Hd. pose proof (Nat.mod_upper_bound o 512 ltac:(lia)) as Hm. unfold fbyte, BSIZE.
  replace (Z.to_nat (Z.of_nat o / 512)) with (o / 512)%nat by (change 512 with (Z.of_nat 512); rewrite <- Nat2Z.inj_div; lia).
  replace (Z.to_nat (Z.of_nat o mod 512)) with (o mod 512)%nat by (change 512 with (Z.of_nat 512); rewrite <- Nat2Z.inj_mod; lia).
  destruct (lookup_lt_is_Some_2 (a_blks g) (o / 512)) as [b Hb]; [lia|]. rewrite (file_baddr _ _ Hb), (st_data _ _ Hst _ _ Hb), chunk_lookup by done.
  cbn [default id]. by rewrite <- Hd.
Qed.

Lemma file_bytes o n : (o + n <= 512 * length (a_blks g))%nat -> fbytes V p (Z.of_nat o) n = (fun j => default 0 (a_data g !! (o + j)%nat)) <$> seq 0 n.
Proof.
  intros Hn. unfold fbytes. apply list_fmap_ext. intros k j Hj. apply lookup_seq in Hj as [-> Hj]. rewrite <- Nat2Z.inj_add. apply file_byte. lia.
Qed.

Lemma whole_file n : n = length (a_data g) -> (n <= 512 * length (a_blks g))%nat -> fbytes V p 0 n = a_data g.
Proof.
  intros E Hn. change 0 with (Z.of_nat 0). rewrite file_bytes by lia. apply list_eq_same_length with n; [done|by rewrite length_fmap, length_seq|].
  intros k x y Hk Hx Hy. rewrite list_lookup_fmap, lookup_seq_lt in Hx by done. cbn in Hx. rewrite Hy in Hx. by injection Hx.
Qed.

Lemma file_mapped : NoDup (owned g) -> (forall b, b ∈ owned g -> is_data new_sb nmeta V b) -> mapped new_sb nmeta V p (length (a_blks g)).
Proof.
  intros Hn Hdat. destruct Hst as [_ S2 [S3 S4] S5]. unfold owned in Hn. apply NoDup_app in Hn as (Hn & Hdis & _).
  assert (Hblk : forall k, (k < length (a_blks g))%nat -> exists b, a_blks g !! k = Some b /\ baddr V p k = b /\ b ∈ owned g).
  { intros k Hk. destruct (lookup_lt_is_Some_2 _ _ Hk) as [b Hb]. exists b. split_and!; [done|by apply file_baddr|]. apply elem_of_app. left. by eapply list_elem_of_lookup_2. }
  assert (Hai : addr_at p NDIRECT = a_ind g) by (unfold addr_at, NDIRECT; by rewrite Ha, addr_ind). split; rewrite ?Hai.
  - unfold MAXFILE. lia.
  - rewrite Ha. apply length_addrs.
  - intros k Hk. destruct (Hblk k Hk) as (b & _ & -> & Ho). by apply Hdat.
  - intros j k Hj Hk E. destruct (Hblk j Hj) as (b & Hb & Eb & _). destruct (Hblk k Hk) as (b' & Hb' & Eb' & _). assert (b' = b) as -> by congruence. by eapply NoDup_lookup.
  - intros k Hk. unfold addr_at. rewrite Ha, addr_none by (unfold NDIRECT in Hk; lia). done.
  - intros Hk. apply S3. unfold NDIRECT in Hk. lia.
  - intros Hi. split_and!.
    + apply Hdat, elem_of_app. right. rewrite (proj2 (Z.eqb_neq _ _)) by done. by apply list_elem_of_singleton.
    + intros k Hk E. destruct (Hblk k Hk) as (b & Hb & Eb & _). apply (Hdis b); [by eapply list_elem_of_lookup_2|].
      rewrite (proj2 (Z.eqb_neq _ _)) by done. apply list_elem_of_singleton. congruence.
    + intros k K1 K2 K3. unfold NDIRECT, MAXFILE in *. rewrite (proj2 (S2 Hi)) by lia. rewrite (proj2 (lookup_ge_None _ _)); [done|lia].
Qed.
End Read.

(** ** The root directory *)

Lemma concat_16 (l : list (list Z)) k j : Forall (fun x => length x = 16%nat) l -> (j < 16)%nat -> concat l !! (16 * k + j)%nat = (x ← l !! k; x !! j).
Proof.
  intros Hl Hj. revert k. induction Hl as [|x l Hx Hl IH]; intros k; [done|]. cbn [concat]. destruct k as [|k].
  - rewrite lookup_app_l by lia. done.
  - rewrite lookup_app_r by lia. replace (16 * S k + j - length x)%nat with (16 * k + j)%nat by lia. apply IH.
Qed.

Lemma root_dent V g p files k : stored V g -> i_addrs p = addrs_of g -> a_data g = root_data files -> (16 * k + 16 <= 512 * length (a_blks g))%nat ->
  dent V p k = default (replicate 16 0) ((fun e => dirent (fst e) (snd e)) <$> entries files !! k).
Proof.
  intros Hst Ha Hd Hk. unfold dent. replace (16 * Z.of_nat k) with (Z.of_nat (16 * k)) by lia. rewrite (file_bytes V g p Hst Ha) by lia.
  assert (H16 : Forall (fun x => length x = 16%nat) ((fun e => dirent (fst e) (snd e)) <$> entries files)) by (apply Forall_fmap, Forall_true; intros e; apply length_dirent).
  assert (Hlen : length (default (replicate 16 0) ((fun e => dirent (fst e) (snd e)) <$> entries files !! k)) = 16%nat) by (destruct (entries files !! k); [apply length_dirent|done]).
  apply list_eq_same_length with 16%nat; [done|by rewrite length_fmap, length_seq|]. intros j x y Hj Hx Hy. rewrite list_lookup_fmap, lookup_seq_lt in Hx by done.
  cbn [fmap option_fmap option_map] in Hx. change (0 + j)%nat with j in Hx. apply (inj Some) in Hx. subst x. rewrite Hd. unfold root_data. rewrite concat_16 by done. rewrite list_lookup_fmap.
  destruct (entries files !! k) as [e|]; cbn [fmap option_fmap option_map mbind option_bind default id] in *; [by rewrite Hy|].
  apply lookup_replicate in Hy as [-> _]. done.
Qed.

Lemma dirent_inum n name : 0 <= n < 2 ^ 16 -> de_inum (dirent n name) = n.
Proof.
  intros Hn. unfold de_inum, dirent, u16. rewrite Z.mod_small, xshort_id by done. unfold getn, sub. rewrite drop_0, take_app_le, take_ge by (rewrite length_le_bytes; lia).
  by apply le_val_bytes.
Qed.

Lemma dirent_name n name : cname DIRSIZ (de_name (dirent n name)) = cname DIRSIZ name.
Proof.
  unfold de_name, dirent. rewrite drop_app_length' by (by rewrite length_le_bytes). generalize DIRSIZ as m. clear. intros m.
  revert name. induction m as [|m IH]; intros name; [done|]. destruct name as [|ch name]; cbn [app take cname]; [done|]. destruct (ch =? 0); [done|]. f_equal.
  rewrite <- (IH name). f_equal. change (0 :: replicate m 0) with (replicate (S m) 0). rewrite replicate_S_end, (assoc_L (++)).
  rewrite take_app_le; [done|]. rewrite length_app, length_replicate. lia.
Qed.

Lemma entries_at files k : entries files !! S (S k) = (fun f => (Z.of_nat k + 2, strip (in_name f))) <$> files !! k.
Proof. unfold entries. rewrite lookup_app_r by (cbn; lia). rewrite list_lookup_imap. cbn [length]. by replace (S (S k) - 2)%nat with k by lia. Qed.

Lemma entry_inum files k e : (length files <= 198)%nat -> entries files !! k = Some e -> 1 <= fst e <= Z.of_nat (length files) + 1.
Proof.
  intros Hl Hk. destruct k as [|[|k]]; [injection Hk as <-; cbn; lia..|]. rewrite entries_at in Hk.
  destruct (files !! k) eqn:E; [|done]. injection Hk as <-. apply lookup_lt_Some in E. cbn. lia.
Qed.

(** ** The finished image *)

(** The size of the root directory, rounded up to blocks. *)
Definition root_size files : Z := (Z.of_nat (16 * (length files + 2)) / BSIZE + 1) * BSIZE.

Record finished s (g : afile) (sz : Z) s' : Prop := {
  fi_img : image s';
  fi_root : dino (bl s') 1 = din_of g sz;
  fi_other : forall m, 0 <= m < 208 -> m <> 1 -> dino (bl s') m = dino (bl s) m;
  fi_blocks : forall b, b < 32 \/ nmeta <= b -> bl s' b = bl s b;
  fi_used : forall b, 0 <= b < FSSIZE -> used (bl s') new_sb b = (b <? freeblock s)
}.

Lemma image_finish_run s fs g files : mk_ok s fs -> fs !! 0%nat = Some g -> a_data g = root_data files -> (length files <= 198)%nat ->
  exists s', finish 1 s = Ret tt s' /\ finished s g (root_size files) s'.
Proof.
  intros [Hb Hio Hall] Hg Hd Hl. destruct (Forall_lookup_1 _ _ _ _ Hall Hg) as [_ Ht]. assert (Hin : g ∈ fs) by (by eapply list_elem_of_lookup_2).
  assert (Hsz : is_u32 (root_size files)) by (unfold is_u32, root_size, BSIZE; Z.div_mod_to_equations; lia).
  assert (Hbl : forall b, 0 <= b < FSSIZE -> BBLOCK b new_sb = 58 /\ b mod BPB = b).
  { intros b Hr. unfold BBLOCK, BPB, BSIZE, FSSIZE in *. change (bmapstart new_sb) with 58. rewrite Z.div_small, Z.mod_small by lia. done. }
  destruct (winode_run s 1 (din_of g (root_size files)) (bo_img _ _ Hb) ltac:(lia)) as (s1 & Hw & [W1 [W2 W3] W4 W5 W6]); [by eapply din_of_wf|].
  set (bits := foldl (fun buf i => set_byte buf (i / 8) (Z.lor (byte_at buf (i / 8)) (bit_mask i))) zeroes (seqZ 0 (freeblock s))).
  assert (Hbits : length bits = 512%nat).
  { unfold bits. generalize (seqZ 0 (freeblock s)) as l. assert (H : length zeroes = 512%nat) by done. revert H. generalize zeroes as x.
    intros x Hx l. revert x Hx. induction l as [|i l IH]; intros x Hx; [done|]. cbn. apply IH. unfold set_byte. by rewrite length_insert. }
  assert (Hput : forall b, bl (put_bl 58 bits s1) b = if b =? 58 then bits else bl s1 b) by (intros b; apply bl_put; [done|unfold FSSIZE; lia]).
  pose proof (bo_room _ _ Hb) as Hroom. change nmeta with 59 in *. exists (put_bl 58 bits s1). split.
  - unfold finish. erewrite bind_Ret by (apply rinode_run; [apply Hb|lia]). rewrite (io_at _ _ Hio 0 g Hg : dino (bl s) 1 = _). cbn [din_of di_size].
    rewrite Hd, length_root. rewrite (xint_id (Z.of_nat _)) by (unfold is_u32; lia). cbv zeta. fold (root_size files). rewrite u32_small, xint_id by done.
    erewrite bind_Ret by exact Hw. rewrite bind_gets, W3. unfold balloc. unfold BSIZE, FSSIZE in *. rewrite (proj2 (Z.ltb_lt _ _)) by lia. cbn [negb].
    rewrite bind_gets, (im_sb _ W1). change (bmapstart new_sb) with 58. apply wsect_run; [done|unfold FSSIZE; lia].
  - split; [by apply image_put| | | |].
    + rewrite <- W4. unfold FsPath.dino. rewrite Hput. done.
    + intros m Hm Hne. rewrite <- W5 by done. unfold FsPath.dino. rewrite Hput, (proj2 (Z.eqb_neq _ _)); [done|]. pose proof (iblock_range m Hm). lia.
    + intros b Hr. change nmeta with 59 in Hr. rewrite Hput, (proj2 (Z.eqb_neq _ _)), W6 by lia. done.
    + intros b Hr. unfold used. destruct (Hbl b Hr) as [-> ->]. rewrite Hput. cbn [Z.eqb Pos.eqb]. unfold bits. rewrite <- (Z2Nat.id (freeblock s)) by lia.
      unfold FSSIZE in *. apply bits_used; unfold BPB, BSIZE; lia.
Qed.

(** What the kernel relies on, and the input files. *)
Record mkfs_image files V : Prop := {
  mi_sb : sb_of (V 1) = new_sb;
  mi_log : forall b, 2 <= b < 32 -> V b = zeroes;
  mi_layout : layout (mktgeo FSSIZE 29 (fun n => (2 <=? n) && (n <? 32))) new_sb nmeta;
  mi_used : forall b, 0 <= b < FSSIZE -> used V new_sb b = (b <? nmeta + Z.of_nat (total (contents_of files)));
  mi_ok : ((length files + 2) mod 32 <> 0)%nat -> disk_ok new_sb nmeta V;
  mi_file : forall i f, files !! i = Some f ->
    let n := Z.of_nat i + 2 in
    di_type (dino V n) = T_FILE /\ di_nlink (dino V n) = 1 /\ di_size (dino V n) = Z.of_nat (length (in_data f)) /\
    mapped new_sb nmeta V (inode_on new_sb V n) (blocks_of (di_size (dino V n))) /\
    fbytes V (inode_on new_sb V n) 0 (length (in_data f)) = in_data f;
  mi_name : forall i f, files !! i = Some f -> let e := cname DIRSIZ (strip (in_name f)) in e ∉ [[46]; [46; 46]] ->
    (forall j f', files !! j = Some f' -> (j < i)%nat -> cname DIRSIZ (strip (in_name f')) <> e) -> child new_sb V ROOTINO (strip (in_name f)) = Some (Z.of_nat i + 2)
}.

Section Image.
Context (s s' : mkst) (fs : list afile) (files : list input) (g : afile).
Hypothesis (Hok : mk_ok s fs) (Hc : contents fs = contents_of files) (Hg : fs !! 0%nat = Some g) (Hl : (length files <= 198)%nat).
Hypothesis (Hfin : finished s g (root_size files) s').
Let V := bl s'.

Lemma fs_len : length fs = S (length files).
Proof. rewrite <- length_contents, <- Hc. unfold contents. by rewrite length_fmap. Qed.

Lemma fs_root : a_type g = T_DIR /\ a_data g = root_data files.
Proof. assert (H : contents fs !! 0%nat = Some (a_type g, a_data g)) by (unfold contents; by rewrite list_lookup_fmap, Hg). rewrite Hc in H. by injection H. Qed.

Lemma fs_file i f : files !! i = Some f -> exists h, fs !! S i = Some h /\ a_type h = T_FILE /\ a_data h = in_data f.
Proof.
  intros Hf. destruct (lookup_lt_is_Some_2 fs (S i)) as [h Hh]; [rewrite fs_len; apply lookup_lt_Some in Hf; lia|]. exists h. split; [done|].
  assert (H : contents fs !! S i = Some (a_type h, a_data h)) by (unfold contents; by rewrite list_lookup_fmap, Hh). rewrite Hc in H. unfold contents_of in H.
  change (((fun f => (T_FILE, in_data f)) <$> files) !! i = Some (a_type h, a_data h)) in H. rewrite list_lookup_fmap, Hf in H. by injection H.
Qed.

Lemma img_stored h : h ∈ fs -> stored V h.
Proof.
  intros Hh. eapply stored_ext; [|apply (bo_files _ _ (mo_blocks _ _ Hok) h Hh)]. intros b Ho. apply (fi_blocks _ _ _ _ Hfin).
  pose proof (owned_range s fs h b (mo_blocks _ _ Hok) Hh Ho). lia.
Qed.

Lemma img_data h b : h ∈ fs -> b ∈ owned h -> is_data new_sb nmeta V b.
Proof.
  intros Hh Ho. pose proof (owned_range s fs h b (mo_blocks _ _ Hok) Hh Ho) as Hr. pose proof (bo_room _ _ (mo_blocks _ _ Hok)) as Hm.
  split; [change (sb_size new_sb) with FSSIZE; lia|]. unfold V. rewrite (fi_used _ _ _ _ Hfin); [apply Z.ltb_lt; lia|]. change nmeta with 59 in *. lia.
Qed.

Lemma img_mapped i h p : fs !! i = Some h -> i_addrs p = addrs_of h -> mapped new_sb nmeta V p (length (a_blks h)).
Proof.
  intros Hh Ha. assert (Hin : h ∈ fs) by (by eapply list_elem_of_lookup_2). apply file_mapped; [by apply img_stored|done| |].
  - eapply owned_nodup; [apply Hok|exact Hh].
  - intros b Hb. by apply img_data with h.
Qed.

Lemma img_root : dino V 1 = din_of g (root_size files).
Proof. apply (fi_root _ _ _ _ Hfin). Qed.

Lemma img_file i h : fs !! S i = Some h -> dino V (Z.of_nat i + 2) = din_of h (Z.of_nat (length (a_data h))).
Proof.
  intros Hh. assert (Hlt := lookup_lt_Some _ _ _ Hh). pose proof fs_len. unfold V. rewrite (fi_other _ _ _ _ Hfin) by lia.
  rewrite <- (io_at _ _ (mo_inodes _ _ Hok) (S i) h Hh). f_equal. lia.
Qed.

Lemma img_none n : n = 0 \/ Z.of_nat (length files) + 1 < n < 208 -> di_type (dino V n) = 0.
Proof.
  intros Hn. unfold V. rewrite (fi_other _ _ _ _ Hfin) by lia. apply (io_none _ _ (mo_inodes _ _ Hok)). rewrite fs_len. lia.
Qed.

(** The inodes in use. *)
Lemma img_cases n : 0 <= n < 200 -> n = 1 \/ (exists i f, files !! i = Some f /\ n = Z.of_nat i + 2) \/ di_type (dino V n) = 0.
Proof.
  intros Hn. destruct (decide (n = 1)) as [|Hn1]; [by left|right]. destruct (decide (2 <= n <= Z.of_nat (length files) + 1)) as [Hr|Hr]; [left|right; apply img_none; lia].
  destruct (lookup_lt_is_Some_2 files (Z.to_nat (n - 2))) as [f Hf]; [lia|]. exists (Z.to_nat (n - 2)), f. split; [done|lia].
Qed.

Lemma blocks_nblk n : blocks_of (Z.of_nat n) = nblk n.
Proof. unfold blocks_of, nblk. change 512 with (Z.of_nat 512). change 511 with (Z.of_nat 511). rewrite <- Nat2Z.inj_add, <- Nat2Z.inj_div. lia. Qed.

Lemma image_file i f : files !! i = Some f -> let n := Z.of_nat i + 2 in
  di_type (dino V n) = T_FILE /\ di_nlink (dino V n) = 1 /\ di_size (dino V n) = Z.of_nat (length (in_data f)) /\
  mapped new_sb nmeta V (inode_on new_sb V n) (blocks_of (di_size (dino V n))) /\ fbytes V (inode_on new_sb V n) 0 (length (in_data f)) = in_data f.
Proof.
  intros Hf n. destruct (fs_file i f Hf) as (h & Hh & Ht & Hd). assert (Hin : h ∈ fs) by (by eapply list_elem_of_lookup_2).
  destruct (Forall_lookup_1 _ _ _ _ (mo_files _ _ Hok) Hh) as [[Hb _] _]. assert (E := img_file i h Hh). fold n in E.
  assert (Ea : i_addrs (inode_on new_sb V n) = addrs_of h) by (unfold inode_on; cbn [load_dinode i_addrs]; by rewrite E).
  assert (Hcov := blocks_cover (Z.of_nat (length (a_data h))) ltac:(lia)). rewrite blocks_nblk, <- Hb in Hcov. unfold BSIZE in Hcov. rewrite E. cbn [din_of di_type di_nlink di_size].
  rewrite blocks_nblk, <- Hb, <- Hd. split_and!; [done|done|done|by eapply img_mapped|]. apply (whole_file V h); [by apply img_stored|done|done|lia].
Qed.

Definition root_ino : inode := inode_on new_sb V 1.

Lemma root_fields : i_addrs root_ino = addrs_of g /\ i_size root_ino = root_size files.
Proof. unfold root_ino, inode_on. cbn [load_dinode i_addrs i_size]. by rewrite img_root. Qed.

Lemma root_blocks : ((length files + 2) mod 32 <> 0)%nat -> root_size files = 512 * Z.of_nat (length (a_blks g)).
Proof.
  intros Hm. destruct (Forall_lookup_1 _ _ _ _ (mo_files _ _ Hok) Hg) as [[Hb _] _]. rewrite (proj2 fs_root), length_root in Hb. rewrite Hb, <- blocks_nblk.
  unfold root_size, blocks_of, BSIZE. pose proof (Nat.div_mod_eq (length files + 2) 32). pose proof (Nat.mod_upper_bound (length files + 2) 32 ltac:(lia)).
  rewrite Z2Nat.id by (Z.div_mod_to_equations; lia). Z.div_mod_to_equations. lia.
Qed.

Lemma root_dents k : (16 * k + 16 <= 512 * length (a_blks g))%nat -> dent V root_ino k = default (replicate 16 0) ((fun e => dirent (fst e) (snd e)) <$> entries files !! k).
Proof. apply root_dent; [apply img_stored; by eapply list_elem_of_lookup_2|apply root_fields|apply fs_root]. Qed.

(** The entries lie in the blocks of the directory. *)
Lemma entries_mapped k e : entries files !! k = Some e -> (16 * k + 16 <= 512 * length (a_blks g))%nat /\ (k < nents root_ino)%nat.
Proof.
  intros Hk. apply lookup_lt_Some in Hk. unfold entries in Hk. rewrite length_app, length_imap in Hk. cbn [length] in Hk.
  destruct (Forall_lookup_1 _ _ _ _ (mo_files _ _ Hok) Hg) as [[Hb _] _]. rewrite (proj2 fs_root), length_root in Hb.
  assert (Hcov := blocks_cover (Z.of_nat (16 * (length files + 2))) ltac:(lia)). rewrite blocks_nblk, <- Hb in Hcov. unfold BSIZE in Hcov. split; [lia|].
  unfold nents. rewrite (proj2 root_fields). unfold root_size, BSIZE. Z.div_mod_to_equations. lia.
Qed.

Lemma root_hit e k inum name : entries files !! k = Some (inum, name) -> hit V root_ino e k = bool_decide (cname DIRSIZ e = cname DIRSIZ name) /\ de_inum (dent V root_ino k) = inum.
Proof.
  intros Hk. pose proof (entry_inum _ _ _ Hl Hk) as Hi. cbn [fst] in Hi. assert (E : dent V root_ino k = dirent inum name).
  { rewrite root_dents by (by eapply entries_mapped). by rewrite Hk. }
  assert (Ei : de_inum (dirent inum name) = inum) by (apply dirent_inum; change (2 ^ 16) with 65536; lia). unfold hit, free_at. rewrite E, Ei, dirent_name.
  split; [|done]. rewrite (proj2 (Z.eqb_neq _ _)) by lia. done.
Qed.

Lemma image_name i f : files !! i = Some f -> let e := cname DIRSIZ (strip (in_name f)) in e ∉ [[46]; [46; 46]] ->
  (forall j f', files !! j = Some f' -> (j < i)%nat -> cname DIRSIZ (strip (in_name f')) <> e) -> child new_sb V ROOTINO (strip (in_name f)) = Some (Z.of_nat i + 2).
Proof.
  intros Hf e He Hfirst. assert (Hk : entries files !! S (S i) = Some (Z.of_nat i + 2, strip (in_name f))) by (by rewrite entries_at, Hf).
  destruct (root_hit (strip (in_name f)) _ _ _ Hk) as [Hhit Hin]. rewrite bool_decide_eq_true_2 in Hhit by done. destruct (entries_mapped _ _ Hk) as [_ Hn].
  assert (Hbefore : forall k, (k < S (S i))%nat -> hit V root_ino (strip (in_name f)) k = false).
  { intros k Hki. destruct (lookup_lt_is_Some_2 (entries files) k) as [[m nm] Hm]; [apply lookup_lt_Some in Hk; lia|].
    rewrite (proj1 (root_hit _ _ _ _ Hm)). apply bool_decide_eq_false_2. intros E. change (e = cname DIRSIZ nm) in E. destruct k as [|[|k]].
    - injection Hm as <- <-. apply He. rewrite E. by left.
    - injection Hm as <- <-. apply He. rewrite E. right. by left.
    - rewrite entries_at in Hm. destruct (files !! k) as [f'|] eqn:Hf'; [|done]. injection Hm as <- <-. by apply (Hfirst k f' Hf' ltac:(lia)). }
  unfold child. change ROOTINO with 1. rewrite img_root. cbn [din_of di_type]. rewrite (proj1 fs_root). cbn [Z.eqb Pos.eqb T_DIR]. fold root_ino. unfold dir_find.
  pose proof (find_ent_spec (hit V root_ino (strip (in_name f))) (nents root_ino) 0) as Hsp. destruct (find_ent _ _ _) as [j|].
  - destruct Hsp as (H1 & H2 & H3). assert (j = S (S i)) as ->; [|by rewrite <- Hin]. destruct (lt_eq_lt_dec j (S (S i))) as [[Hlt|]|Hgt]; [|done|].
    + rewrite Hbefore in H2 by done. done.
    + rewrite H3 in Hhit by lia. done.
  - rewrite Hsp in Hhit by lia. done.
Qed.

Lemma image_ok : ((length files + 2) mod 32 <> 0)%nat -> disk_ok new_sb nmeta V.
Proof.
  intros Hm. assert (Hrs := root_blocks Hm). destruct root_fields as [Ra Rs]. split; change (ninodes new_sb) with 200.
  - intros n Hn Ht. destruct (img_cases n Hn) as [->|[(i & f & Hf & ->)|Hz]]; [by rewrite img_root| |done]. by rewrite (proj1 (proj2 (image_file i f Hf))).
  - intros n Hn Ht. destruct (img_cases n Hn) as [->|[(i & f & Hf & ->)|Hz]]; [|by rewrite (proj1 (image_file i f Hf)) in Ht|by rewrite Hz in Ht].
    rewrite img_root. cbn [din_of di_size]. assert (Hmap := img_mapped 0 g root_ino Hg Ra). unfold MAXFILE, BSIZE.
    split_and!; [rewrite Hrs; Z.div_mod_to_equations; lia|rewrite Hrs; lia|unfold root_size, BSIZE; Z.div_mod_to_equations; lia|].
    replace (blocks_of (root_size files)) with (length (a_blks g)); [exact Hmap|]. rewrite Hrs. unfold blocks_of. Z.div_mod_to_equations. lia.
  - intros n e m Hn Hch. unfold child in Hch. destruct (Z.eqb_spec (di_type (dino V n)) T_DIR) as [Ht|]; [|done].
    destruct (img_cases n Hn) as [->|[(i & f & Hf & ->)|Hz]]; [|by rewrite (proj1 (image_file i f Hf)) in Ht|by rewrite Hz in Ht].
    fold root_ino in Hch. unfold dir_find in Hch. pose proof (find_ent_spec (hit V root_ino e) (nents root_ino) 0) as Hsp. destruct (find_ent _ _ _) as [j|]; [|done].
    destruct Hsp as (Hj & Hh & _). cbn [fmap option_fmap option_map] in Hch. apply (inj Some) in Hch. subst m.
    assert (Hjb : (16 * j + 16 <= 512 * length (a_blks g))%nat) by (unfold nents in Hj; rewrite Rs, Hrs in Hj; Z.div_mod_to_equations; lia).
    destruct (entries files !! j) as [[k nm]|] eqn:Hk.
    + rewrite (proj2 (root_hit e _ _ _ Hk)). pose proof (entry_inum _ _ _ Hl Hk) as Hi. cbn [fst] in Hi. split; [lia|].
      destruct (img_cases k ltac:(lia)) as [->|[(i & f & Hf & ->)|Hz]]; [by rewrite img_root; cbn; rewrite (proj1 fs_root)|by rewrite (proj1 (image_file i f Hf))|].
      exfalso. destruct (decide (k = 1)) as [->|Hk1]; [rewrite img_root in Hz; cbn in Hz; by rewrite (proj1 fs_root) in Hz|].
      destruct (lookup_lt_is_Some_2 files (Z.to_nat (k - 2))) as [f Hf]; [lia|]. pose proof (proj1 (image_file _ _ Hf)) as Ht2.
      replace (Z.of_nat (Z.to_nat (k - 2)) + 2) with k in Ht2 by lia. by rewrite Hz in Ht2.
    + unfold hit, free_at in Hh. rewrite root_dents, Hk in Hh by done. by vm_compute in Hh.
Qed.

Lemma image_builds : mkfs_image files V.
Proof.
  split; [| |apply new_layout| |exact image_ok|exact image_file|exact image_name].
  - unfold V. rewrite (fi_blocks _ _ _ _ Hfin) by lia. apply (io_sb _ _ (mo_inodes _ _ Hok)).
  - intros b Hb. unfold V. rewrite (fi_blocks _ _ _ _ Hfin) by lia. by apply (io_log _ _ (mo_inodes _ _ Hok)).
  - intros b Hb. unfold V. rewrite (fi_used _ _ _ _ Hfin), (mk_free _ _ Hok), Hc by done. done.
Qed.
End Image.

Lemma dot_total d d' : (length d' <= 32)%nat -> (total (<[0%nat := (T_DIR, d')]> [(T_DIR, d)]) <= 941)%nat.
Proof.
  intros Hd. change (<[0%nat := (T_DIR, d')]> [(T_DIR, d)]) with [(T_DIR, d')]. rewrite total_cons. cbn [snd]. pose proof (cost_mono _ _ Hd) as H.
  change (cost 32) with 1%nat in H. change (total []) with 0%nat. lia.
Qed.

(** C9 (functional).  On input that fits, [mkfs] ends and writes an image of [FSSIZE] blocks
    that the kernel can use: the superblock describes the layout, the log is empty, exactly
    the blocks in use are marked in the free map, every input file has an inode with its
    size and its contents, and a path lookup of its name in the root directory finds it
    (when no earlier entry has the same first 14 characters).  Unless the entries of the
    root directory fill its blocks exactly, the inodes and directories satisfy the
    invariant the file system starts from. *)
Theorem mkfs_builds files : inputs_ok files ->
  exists s, main (Some true) files start = Ret tt s /\ length (img s) = 1000%nat /\ mkfs_image files (disk_at (img s)).
Proof.
  intros Hip. set (s0 := set_freeblock nmeta (set_sb new_sb start)). set (s1 := set_img (replicate 1000 zeroes) s0).
  assert (H0 : holds blank []) by exact blank_holds.
  destruct (ialloc_run blank [] T_DIR H0) as (s2 & Hal & H2); [cbn; lia|by vm_compute|].
  destruct (iappend_run s2 [(T_DIR, [])] 0 T_DIR [] (dirent 1 [46]) H2 eq_refl) as (s3 & Ha3 & H3); [rewrite length_app, length_dirent; cbn [length]; lia|apply dot_total; rewrite length_app, length_dirent; cbn [length]; lia|].
  destruct (iappend_run s3 [(T_DIR, dirent 1 [46])] 0 T_DIR (dirent 1 [46]) (dirent 1 [46; 46]) H3 eq_refl) as (s4 & Ha4 & H4);
    [rewrite length_app, !length_dirent; lia|apply dot_total; rewrite length_app, !length_dirent; lia|].
  destruct (add_files_run s4 [] files H4 Hip) as (s5 & Ha5 & fs & Hok & Hc). cbn [app] in Hc.
  assert (Hg : exists g, fs !! 0%nat = Some g) by (apply lookup_lt_is_Some_2; rewrite (fs_len fs files Hc); lia). destruct Hg as [g Hg].
  destruct (image_finish_run s5 fs g files Hok Hg (proj2 (fs_root fs files g Hc Hg)) (ip_few _ Hip)) as (s6 & Hf6 & Hfin).
  exists s6. split_and!; [|apply Hfin|exact (image_builds s5 s6 fs files g Hok Hc Hg (ip_few _ Hip) Hfin)].
  unfold main. erewrite bind_Ret by reflexivity. rewrite bind_modify, bind_modify. fold s0.
  erewrite bind_Ret by (change (seqZ 0 FSSIZE) with (seqZ (Z.of_nat 0) (Z.of_nat 1000)); apply fill_image; [done|lia]). rewrite bind_gets.
  assert (Hw : wsect 1 (patch 0 (sb_bytes (sb s1)) zeroes) s1 = Ret tt blank).
  { apply (wsect_run s1 1); [split; [apply length_replicate|by apply Forall_replicate|done]|done]. }
  erewrite bind_Ret by exact Hw. erewrite bind_Ret by exact Hal. change (negb (Z.of_nat (length (@nil (Z * list Z))) + 1 =? ROOTINO)) with false. cbn iota.
  erewrite bind_Ret by exact Ha3. erewrite bind_Ret by exact Ha4. by erewrite bind_Ret by exact Ha5.
Qed.

(** ** Concrete images *)

(** "README" of five bytes read in two pieces, and the program "_cat". *)
Definition demo_files : list input := [mkinput [82; 69; 65; 68; 77; 69] (Some [[104; 101]; [108; 108; 111]]); mkinput [95; 99; 97; 116] (Some [[1; 2; 3]])].

Lemma demo_files_ok : inputs_ok demo_files.
Proof.
  assert (Hn : forall l : list Z, forallb (fun ch => negb (ch =? 47)) l = true -> 47 ∉ l).
  { intros l Hl Hin. apply list_elem_of_In in Hin. rewrite forallb_forall in Hl. apply Hl in Hin. done. }
  split; [|cbn; lia|].
  - apply Forall_cons. split; [|apply Forall_singleton]; (split_and!; [by apply Hn|by eexists|cbn [in_data in_reads default id concat length app]; lia]).
  - replace (total (contents_of demo_files)) with 3%nat by (by vm_compute). lia.
Qed.

Lemma mkfs_builds_witness : exists s, main (Some true) demo_files start = Ret tt s /\ mkfs_image demo_files (disk_at (img s)).
Proof. destruct (mkfs_builds demo_files demo_files_ok) as (s & H1 & _ & H3). exact (ex_intro _ s (conj H1 H3)). Defined.

(** A run decided by evaluation. *)
Lemma returns (r : res mkst unit) (P : mkst -> bool) : match r with Ret _ s => P s | _ => false end = true -> exists s, r = Ret tt s /\ P s = true.
Proof. destruct r as [[] s| | | | |]; (done || by exists s). Qed.

(** With 30 files the entries of the root directory fill one block; its size is rounded up
    to two, and the second has no address: the directory does not satisfy the invariant. *)
Theorem mkfs_root_hole : exists s, main (Some true) (replicate 30 (mkinput [97] (Some []))) start = Ret tt s /\ ~ disk_ok new_sb nmeta (disk_at (img s)).
Proof.
  destruct (returns (main (Some true) (replicate 30 (mkinput [97] (Some []))) start) (fun s => let V := disk_at (img s) in
    (di_type (dino V 1) =? 1) && (di_size (dino V 1) =? 1024) && (baddr V (inode_on new_sb V 1) 1 =? 0))) as (s & Hrun & H); [vm_compute; reflexivity|].
  exists s. split; [exact Hrun|]. intros Hd. cbv zeta in H. apply andb_true_iff in H as [[Ht%Z.eqb_eq Hz%Z.eqb_eq]%andb_true_iff Hb%Z.eqb_eq].
  assert (Hn : 0 <= 1 < ninodes new_sb) by (split; [lia|change (ninodes new_sb) with 200; lia]).
  destruct (dk_dir new_sb nmeta (disk_at (img s)) Hd 1 Hn Ht) as (_ & _ & Hm). rewrite Hz in Hm. change (blocks_of 1024) with 2%nat in Hm.
  pose proof (mp_data _ _ _ _ _ Hm 1%nat ltac:(lia)) as [Hr _].
  rewrite Hb in Hr. change nmeta with 59 in Hr. lia.
Qed.

(** The number of inodes is not checked: with 200 files there are more than the superblock
    says, and [mkfs] ends without an error. *)
Theorem mkfs_no_inode_limit : exists s, main (Some true) (replicate 200 (mkinput [97] (Some []))) start = Ret tt s /\ (ninodes (sb s) <? freeinode s - 1) = true.
Proof. apply (returns _ (fun s => ninodes (sb s) <? freeinode s - 1)). vm_compute. reflexivity. Qed.

(** A file system that is too small is reported: the first block behind the end cannot be
    read. *)
Theorem mkfs_full : main (Some true) (replicate 7 (mkinput [97] (Some (replicate 140 (replicate 512 1))))) start = Panic "read".
Proof. vm_compute. reflexivity. Qed.

End MkfsTheorems.
