(* ===== verification/File.v ===== *)
(** * Files

    Models [file.c] and [pipealloc] of [pipe.c]: the table of open files over the file
    system and the pipes.  A page of [kalloc] is a number taken from the list of free
    pages; a pipe in use is found by the number of its page. *)

From Stdlib Require Import ZArith Lia.
From S2P Require Import Prelude Spinlock Sleeplock Pipe Strings Blocks Bytes Log Txn Fs.

Definition NFILE : nat := 100.

Inductive fdtype := FD_NONE | FD_PIPE | FD_INODE.
(** [struct file]; [readable] and [writable] are chars. *)
Record file := mkfile {
  f_type : fdtype; f_ref : Z; f_readable : Z; f_writable : Z; f_pipe : Z; f_ip : nat; f_off : Z
}.
Definition set_f_ref (v : Z) (f : file) : file := mkfile (f_type f) v (f_readable f) (f_writable f) (f_pipe f) (f_ip f) (f_off f).
Definition set_f_type (v : fdtype) (f : file) : file := mkfile v (f_ref f) (f_readable f) (f_writable f) (f_pipe f) (f_ip f) (f_off f).
Definition set_f_off (v : Z) (f : file) : file := mkfile (f_type f) (f_ref f) (f_readable f) (f_writable f) (f_pipe f) (f_ip f) v.

(** [ftable], the pipes by their page, the free pages, [myproc()->killed] and
    [myproc()->ofile], and the file system. *)
Record filest (S : Type) := mkfilest {
  ftable : list file;
  pipes : gmap Z pipe;
  pages : list Z;
  fl_killed : Z;
  ofiles : list (option nat);
  fl_fs : fsst S
}.
Arguments mkfilest {S}.
Arguments ftable {S}.
Arguments pipes {S}.
Arguments pages {S}.
Arguments fl_killed {S}.
Arguments ofiles {S}.
Arguments fl_fs {S}.

Definition ftable_lk : lockid := ("ftable"%string, 0).

Section State.
Context {S : Type} `{!HasCtx S}.
Implicit Types s : filest S.

Definition set_ftable (l : list file) s : filest S := mkfilest l (pipes s) (pages s) (fl_killed s) (ofiles s) (fl_fs s).
Definition set_pipes (m : gmap Z pipe) s : filest S := mkfilest (ftable s) m (pages s) (fl_killed s) (ofiles s) (fl_fs s).
Definition set_pages (l : list Z) s : filest S := mkfilest (ftable s) (pipes s) l (fl_killed s) (ofiles s) (fl_fs s).
Definition set_ofiles (l : list (option nat)) s : filest S := mkfilest (ftable s) (pipes s) (pages s) (fl_killed s) l (fl_fs s).
Definition set_fs (x : fsst S) s : filest S := mkfilest (ftable s) (pipes s) (pages s) (fl_killed s) (ofiles s) x.

#[export] Instance filest_ctx : HasCtx (filest S).
Proof.
  refine {| ctx := fun s => ctx (fl_fs s); set_ctx := fun k s => set_fs (set_ctx k (fl_fs s)) s |}.
  - intros k s. apply (ctx_set_ctx (S := fsst S)).
  - intros k k' s. unfold set_fs. cbn [ftable pipes pages fl_killed ofiles fl_fs]. by rewrite (set_ctx_set (S := fsst S)).
  - intros []. unfold set_fs. cbn [ftable pipes pages fl_killed ofiles fl_fs]. by rewrite (set_ctx_ctx (S := fsst S)).
Defined.
End State.

Section File.
Context {S : Type} `{!HasCtx S, !Txn S}.
Context (waits : nat).
Context (dev_read : Z -> option (nat -> Z -> M (fsst S) (Z * list Z))).
Context (dev_write : Z -> option (nat -> list Z -> M (fsst S) Z)).
Implicit Types s : filest S.

(** ** The parts a file is made of *)

Definition onfs {A} (m : M (fsst S) A) : M (filest S) A := inside fl_fs set_fs m.
Definition begin_op : M (filest S) unit := onfs (onstore (t_begin_op (Datatypes.S waits))).
Definition end_op : M (filest S) unit := onfs (onstore t_end_op).

(** [*f], and an assignment to its fields. *)
Definition getf (f : nat) : M (filest S) file := fun s =>
  match ftable s !! f with Some x => Ret x s | None => UB "file" end.
Definition updf (h : file -> file) (f : nat) : M (filest S) unit := modify (fun s => set_ftable (alter h f (ftable s)) s).

Definition kalloc : M (filest S) (option Z) := fun s =>
  match pages s with [] => Ret None s | p :: l => Ret (Some p) (set_pages l s) end.
Definition kfree (p : Z) : M (filest S) unit := modify (fun s => set_pages (p :: pages s) s).

Definition zero_pipe : pipe := mkpipe (replicate 512 0) 0 0 0 0.
Definition get_pipe (pa : Z) s : pipest := mkpipest (ctx s) (default zero_pipe (pipes s !! pa)) (fl_killed s) false.
(** A pipe that was freed is given back to [kfree]. *)
Definition put_pipe (pa : Z) (t : pipest) s : filest S :=
  let s := set_ctx (pipe_ctx t) s in
  if freed t then set_pages (pa :: pages s) (set_pipes (delete pa (pipes s)) s) else set_pipes (<[pa := the_pipe t]> (pipes s)) s.
Definition onpipe {A} (pa : Z) (m : M pipest A) : M (filest S) A := fun s =>
  match pipes s !! pa with None => UB "pipe" | Some _ => inside (get_pipe pa) (put_pipe pa) m s end.

(** ** [file.c] *)

Definition fileinit : M (filest S) unit := onctx (initlock ftable_lk).

Fixpoint find_file (l : list file) (f : nat) : option nat :=
  match l with
  | [] => None
  | x :: l => if f_ref x =? 0 then Some f else find_file l (Datatypes.S f)
  end.

Definition filealloc : M (filest S) (option nat) :=
  onctx (acquire ftable_lk) ;;
  l <- gets ftable ;;
  match find_file l 0 with
  | Some f =>
      updf (set_f_ref 1) f ;;
      onctx (release ftable_lk) ;;
      ret (Some f)
  | None =>
      onctx (release ftable_lk) ;;
      ret None
  end.

Definition filedup (f : nat) : M (filest S) nat :=
  onctx (acquire ftable_lk) ;;
  x <- getf f ;;
  if f_ref x <? 1 then panic "filedup" else
  updf (fun x => set_f_ref (f_ref x + 1) x) f ;;
  onctx (release ftable_lk) ;;
  ret f.

Definition fileclose (f : nat) : M (filest S) unit :=
  onctx (acquire ftable_lk) ;;
  x <- getf f ;;
  if f_ref x <? 1 then panic "fileclose" else
  updf (fun x => set_f_ref (f_ref x - 1) x) f ;;
  x <- getf f ;;
  if 0 <? f_ref x then onctx (release ftable_lk) else
  let ff := x in
  updf (set_f_ref 0) f ;;
  updf (set_f_type FD_NONE) f ;;
  onctx (release ftable_lk) ;;
  match f_type ff with
  | FD_PIPE => onpipe (f_pipe ff) (pipeclose (f_pipe ff) (negb (f_writable ff =? 0)))
  | FD_INODE =>
      begin_op ;;
      onfs (iput waits (f_ip ff)) ;;
      end_op
  | FD_NONE => ret tt
  end.

(** The metadata, or [None] for the result -1. *)
Definition filestat (f : nat) : M (filest S) (option stat) :=
  x <- getf f ;;
  match f_type x with
  | FD_INODE =>
      onfs (ilock waits (Some (f_ip x))) ;;
      st <- onfs (stati (f_ip x)) ;;
      onfs (iunlock (Some (f_ip x))) ;;
      ret (Some st)
  | _ => ret None
  end.

(** The result, and the bytes stored at [addr]. *)
Definition fileread (f : nat) (n : Z) : M (filest S) (Z * list Z) :=
  x <- getf f ;;
  if f_readable x =? 0 then ret (-1, []) else
  match f_type x with
  | FD_PIPE =>
      r <- onpipe (f_pipe x) (piperead (f_pipe x) (Datatypes.S waits) (Z.to_nat n)) ;;
      match r with
      | None => ret (-1, [])
      | Some l => ret (Z.of_nat (length l), l)
      end
  | FD_INODE =>
      onfs (ilock waits (Some (f_ip x))) ;;
      x <- getf f ;;
      r <- onfs (readi dev_read (f_ip x) (f_off x) n) ;;
      (if 0 <? fst r then updf (fun x => set_f_off (u32 (f_off x + fst r)) x) f else ret tt) ;;
      onfs (iunlock (Some (f_ip x))) ;;
      ret r
  | FD_NONE => panic "fileread"
  end.

(** [((MAXOPBLOCKS-1-1-2) / 2) * 512] *)
Definition max_chunk : Z := ((MAXOPBLOCKS - 1 - 1 - 2) / 2) * 512.

(** The loop of [filewrite] from [i] on: the value of [i] at its end. *)
Fixpoint filewrite_loop (fuel : nat) (f : nat) (addr : list Z) (i n : Z) : M (filest S) Z :=
  match fuel with
  | O => nofuel
  | Datatypes.S fuel =>
      if i <? n then
        let n1 := if max_chunk <? n - i then max_chunk else n - i in
        begin_op ;;
        x <- getf f ;;
        onfs (ilock waits (Some (f_ip x))) ;;
        x <- getf f ;;
        r <- onfs (writei dev_write (f_ip x) (sub (Z.to_nat i) (Z.to_nat n1) addr) (f_off x)) ;;
        (if 0 <? r then updf (fun x => set_f_off (u32 (f_off x + r)) x) f else ret tt) ;;
        onfs (iunlock (Some (f_ip x))) ;;
        end_op ;;
        if r <? 0 then ret i else
        if negb (r =? n1) then panic "short filewrite" else
        filewrite_loop fuel f addr (i + r) n
      else ret i
  end.

(** [n] is the length of [addr]. *)
Definition filewrite (f : nat) (addr : list Z) : M (filest S) Z :=
  let n := Z.of_nat (length addr) in
  x <- getf f ;;
  if f_writable x =? 0 then ret (-1) else
  match f_type x with
  | FD_PIPE => onpipe (f_pipe x) (pipewrite (f_pipe x) (Datatypes.S waits) addr)
  | FD_INODE =>
      i <- filewrite_loop (Z.to_nat (n / max_chunk + 2)) f addr 0 n ;;
      ret (if i =? n then n else -1)
  | FD_NONE => panic "filewrite"
  end.

(** ** [pipealloc] *)

(** The label [bad]. *)
Definition pipealloc_bad (p : option Z) (f0 f1 : option nat) : M (filest S) (option (nat * nat)) :=
  (match p with Some p => kfree p | None => ret tt end) ;;
  (match f0 with Some f0 => fileclose f0 | None => ret tt end) ;;
  (match f1 with Some f1 => fileclose f1 | None => ret tt end) ;;
  ret None.

(** The page of the pipe keeps its old contents as [data]; [old] is them. *)
Definition pipealloc (old : list Z) : M (filest S) (option (nat * nat)) :=
  f0 <- filealloc ;;
  match f0 with
  | None => pipealloc_bad None None None
  | Some f0 =>
      f1 <- filealloc ;;
      match f1 with
      | None => pipealloc_bad None (Some f0) None
      | Some f1 =>
          p <- kalloc ;;
          match p with
          | None => pipealloc_bad None (Some f0) (Some f1)
          | Some p =>
              modify (fun s => set_pipes (<[p := mkpipe old 0 0 1 1]> (pipes s)) s) ;;
              onctx (initlock (pipe_lk p)) ;;
              updf (fun x => mkfile FD_PIPE (f_ref x) 1 0 p (f_ip x) (f_off x)) f0 ;;
              updf (fun x => mkfile FD_PIPE (f_ref x) 0 1 p (f_ip x) (f_off x)) f1 ;;
              ret (Some (f0, f1))
          end
      end
  end.
End File.
