(* ===== verification/FileSpec.v ===== *)
(** * Files: what the operations do

    [filewrite] cuts a write into transactions, each within the reservation of
    [begin_op], and together they write the whole; [fileclose] releases what the last
    reference holds; [pipealloc] makes a pipe or leaves everything as it was. *)

From Stdlib Require Import ZArith Lia.
From S2P Require Import Prelude Spinlock Sleeplock Pipe Strings Blocks Bytes Log Txn Fs FsSpec FsInode FsFile FsWrite File.

(** ** Writes one after the other *)

Section Trans.
Context (g : tgeo) (sb : superblock) (ds : Z).
Hypothesis (Hly : layout g sb ds).
Notation written := (written sb ds).

Lemma written_trans V p V1 p1 V2 p2 off a b :
  0 <= off <= i_size p -> written V p V1 p1 off a -> written V1 p1 V2 p2 (off + Z.of_nat (length a)) b -> written V p V2 p2 off (a ++ b).
Proof.
  intros Ho W1 W2. assert (Hs1 := wn_size _ _ _ _ _ _ _ _ W1). assert (Hs2 := wn_size _ _ _ _ _ _ _ _ W2).
  destruct (wn_same _ _ _ _ _ _ _ _ W1) as (z1 & m1 & E1). destruct (wn_same _ _ _ _ _ _ _ _ W2) as (z2 & m2 & E2).
  assert (Hin : i_inum p1 = i_inum p) by (by rewrite E1). assert (Hsz := proj1 (proj2 (ly_size _ _ _ Hly))).
  assert (Hkeep : forall n, is_data sb ds V1 n -> is_data sb ds V2 n).
  { intros n [Hn1 Hn2]. split; [done|]. apply (wn_used _ _ _ _ _ _ _ _ W2); [lia|done]. }
  assert (Hfresh : forall n, is_data sb ds V2 n /\ used V1 sb n = false -> used V sb n = false).
  { intros n [[Hn1 _] Hn2]. destruct (used V sb n) eqn:E; [|done]. apply (wn_used _ _ _ _ _ _ _ _ W1) in E; [congruence|lia]. }
  split.
  - rewrite Hs2, Hs1, length_app. lia.
  - intros j x Hj. destruct (decide (j < length a)%nat) as [Hja|Hja].
    + rewrite lookup_app_l in Hj by done. rewrite (wn_old _ _ _ _ _ _ _ _ W2) by lia. by apply (wn_new _ _ _ _ _ _ _ _ W1).
    + rewrite lookup_app_r in Hj by lia. replace (off + Z.of_nat j) with (off + Z.of_nat (length a) + Z.of_nat (j - length a)) by lia. by apply (wn_new _ _ _ _ _ _ _ _ W2).
  - intros o Hor Hout. rewrite length_app in Hout. rewrite (wn_old _ _ _ _ _ _ _ _ W2) by lia. apply (wn_old _ _ _ _ _ _ _ _ W1); lia.
  - intros n Hn Hno Hnk. rewrite (wn_frame _ _ _ _ _ _ _ _ W2); [by apply (wn_frame _ _ _ _ _ _ _ _ W1)|..].
    + destruct Hn as [Hn1 Hn2]. split; [done|]. apply (wn_used _ _ _ _ _ _ _ _ W1); [lia|done].
    + destruct (wn_own _ _ _ _ _ _ _ _ W1) as [->|[_ E]]; [done|]. intros ->. destruct Hn as [_ Hn2]. congruence.
    + intros k Hk. destruct (wn_blocks _ _ _ _ _ _ _ _ W1 k Hk) as [[Hk1 ->]|[_ E]]; [by apply Hnk|]. intros ->. destruct Hn as [_ Hn2]. congruence.
  - intros m Hm Hne. rewrite (wn_dinodes _ _ _ _ _ _ _ _ W2) by congruence || done. by apply (wn_dinodes _ _ _ _ _ _ _ _ W1).
  - intros n Hn Hu. by apply (wn_used _ _ _ _ _ _ _ _ W2), (wn_used _ _ _ _ _ _ _ _ W1).
  - apply W2.
  - destruct (wn_own _ _ _ _ _ _ _ _ W2) as [E|E].
    + rewrite E. destruct (wn_own _ _ _ _ _ _ _ _ W1) as [?|[H1 H2]]; [by left|right]. split; [by apply Hkeep|done].
    + right. split; [apply E|]. by apply Hfresh.
  - intros k Hk. destruct (wn_blocks _ _ _ _ _ _ _ _ W2 k Hk) as [[Hk1 ->]|E].
    + destruct (wn_blocks _ _ _ _ _ _ _ _ W1 k Hk1) as [?|[H1 H2]]; [by left|right]. split; [by apply Hkeep|done].
    + right. split; [apply E|]. by apply Hfresh.
  - rewrite E2, E1. by eexists _, _.
Qed.

Lemma written_nil V p off : meta_used V sb ds -> off <= i_size p -> written V p V p off [].
Proof.
  intros Hm Ho. split; try done; cbn; [lia|by left|intros k Hk; by left|]. exists (i_size p), (i_addrs p). by destruct p.
Qed.
End Trans.

(** ** Between the operations *)

Section Quiet.
Context {S : Type} `{!HasCtx S, !Txn S}.
Context (waits : nat).
Context (i : nat) (c : cpu) (g : tgeo) (sb : superblock) (ds : Z) (pid : Z) (cwd : nat).
Implicit Types (s : fsst S) (V : Z -> block) (l : list inode) (K : gset nat).
Notation fsrep := (fsrep i c g sb pid cwd).

(** No operation is in progress: block contents [V], the inode cache [l], and the inodes
    [K] locked. *)
Record fsquiet s V l K : Prop := {
  fq_quiet : quiet i c g (f_store s) V;
  fq_ic : icache s = l;
  fq_lk : forall ip, if decide (ip ∈ K) then sl_get (ino_lk ip) s = mksleep 1 pid else sl_locked (sl_get (ino_lk ip) s) = 0;
  fq_sb : f_sb s = sb;
  fq_pid : f_pid s = pid;
  fq_cwd : f_cwd s = cwd
}.

Lemma wp_begin_fs s V l K Q W :
  fsquiet s V l K -> (forall s', fsrep s' V ∅ ∅ l K -> Q tt s') -> wp (onstore (t_begin_op (Datatypes.S waits)) s) Q W.
Proof.
  intros [] HQ. apply wp_inside. eapply wp_mono; [by apply begin_tx|intros [] x Hx; apply HQ; by split|done].
Qed.

Lemma wp_end_fs s V T l K Q W :
  fsrep s V ∅ T l K -> (forall s', fsquiet s' V l K -> Q tt s') -> wp (onstore t_end_op s) Q W.
Proof.
  intros [] HQ. apply wp_inside. eapply wp_mono; [by eapply end_tx|intros [] x Hx; apply HQ; by split|done].
Qed.

(** *** Code of the file system run by a file operation *)

Implicit Types (t : filest S).

Lemma wp_onfs {A} (m : M (fsst S) A) t Q W : wp (m (fl_fs t)) (fun a x => Q a (set_fs x t)) stays -> wp (onfs m t) Q W.
Proof. apply wp_inside. Qed.

Lemma wp_begin t V l K Q W :
  fsquiet (fl_fs t) V l K -> (forall x, fsrep x V ∅ ∅ l K -> Q tt (set_fs x t)) -> wp (begin_op waits t) Q W.
Proof. intros Hq HQ. apply wp_onfs. by eapply wp_begin_fs. Qed.

Lemma wp_end t V T l K Q W :
  fsrep (fl_fs t) V ∅ T l K -> (forall x, fsquiet x V l K -> Q tt (set_fs x t)) -> wp (end_op t) Q W.
Proof. intros Hr HQ. apply wp_onfs. by eapply wp_end_fs. Qed.

Lemma wp_getf t f x Q W : ftable t !! f = Some x -> Q x t -> wp (getf f t) Q W.
Proof. intros Hx HQ. unfold getf. by rewrite Hx. Qed.

Lemma wp_updf t h f x Q W : ftable t !! f = Some x -> Q tt (set_ftable (<[f := h x]> (ftable t)) t) -> wp (updf h f t) Q W.
Proof. intros Hx HQ. cbn. by rewrite (alter_insert_at _ _ _ _ Hx). Qed.
End Quiet.

(** ** [filewrite] *)

(** The blocks that the transactions of a write together touch. *)
Definition write_need (off n : Z) : Z := touched off n + n / max_chunk + 1.

Lemma write_need_step off n : 0 <= off -> 0 < n ->
  let n1 := Z.min n max_chunk in touched off n1 + write_need (off + n1) (n - n1) <= write_need off n /\ touched off n1 <= write_need off n.
Proof.
  change max_chunk with 1536. intros Ho Hn n1. unfold write_need, touched, BSIZE. change max_chunk with 1536.
  assert (Hn1 : 0 < n1 <= 1536) by lia. rewrite (proj2 (Z.eqb_neq n1 0)), (proj2 (Z.eqb_neq n 0)) by lia.
  destruct (Z.eqb_spec (n - n1) 0) as [E|E]; Z.div_mod_to_equations; lia.
Qed.

(** A chunk stays within the blocks that [begin_op] reserves, with a free map of up to
    four blocks. *)
Lemma chunk_fits off n : 0 <= n <= max_chunk -> touched off n + 2 + 4 <= MAXOPBLOCKS.
Proof. change max_chunk with 1536. change MAXOPBLOCKS with 10. unfold touched, BSIZE. intros Hn. destruct (n =? 0); [lia|]. Z.div_mod_to_equations. lia. Qed.

Section Filewrite.
Context {S : Type} `{!HasCtx S, !Txn S}.
Context (waits : nat).
Context (dev_write : Z -> option (nat -> list Z -> M (fsst S) Z)).
Context (i : nat) (c : cpu) (g : tgeo) (sb : superblock) (ds : Z) (pid : Z) (cwd : nat).
Hypothesis (Hly : layout g sb ds).
Hypothesis (Hds : 0 < ds).
(** The free map has at most four blocks, and the log holds what [begin_op] reserves. *)
Hypothesis (Hbm : (size (bm_set sb) <= 4)%nat).
Hypothesis (Hcap : (17 <= g_cap g)%nat).
Implicit Types (t : filest S) (V : Z -> block) (l : list inode) (p : inode).
Notation fsquiet := (fsquiet i c g sb pid cwd).
Notation fsrep := (fsrep i c g sb pid cwd).
Notation open_file := (open_file sb ds).

(** An inode opened through file [f] at offset [off]. *)
Record opened t V l (f : nat) x (ip : nat) p : Prop := {
  op_file : ftable t !! f = Some x;
  op_type : f_type x = FD_INODE;
  op_ip : f_ip x = ip;
  op_fs : fsquiet (fl_fs t) V l ∅;
  op_open : open_file V l ip p;
  op_valid : i_valid p <> 0;
  op_meta : meta_used V sb ds;
  op_off : 0 <= f_off x <= i_size p
}.

Lemma chunk_need off n : 0 <= n <= max_chunk -> log_need sb ∅ off n <= 17.
Proof.
  intros Hn. pose proof (chunk_fits off n Hn) as H. change MAXOPBLOCKS with 10 in H. unfold log_need. rewrite union_empty_r_L. lia.
Qed.

(** One transaction of the loop. *)
Lemma wp_chunk {A} t V l f x ip p src (k : Z -> M (filest S) A) Q W :
  opened t V l f x ip p -> let n := Z.of_nat (length src) in 0 < n <= max_chunk -> f_off x + n <= MAXFILE * BSIZE ->
  2 * touched (f_off x) n <= Z.of_nat (length (free_list sb V)) ->
  (forall t' V' p' y, t' = set_fs y (set_ftable (<[f := set_f_off (f_off x + n) x]> (ftable t)) t) ->
     opened t' V' (<[ip := p']> l) f (set_f_off (f_off x + n) x) ip p' -> written sb ds V p V' p' (f_off x) src -> taken sb V V' (touched (f_off x) n) ->
     wp (k n t') Q W) ->
  wp ((begin_op waits ;; x <- getf f ;; onfs (ilock waits (Some (f_ip x))) ;; x <- getf f ;; r <- onfs (writei dev_write (f_ip x) src (f_off x)) ;;
       (if 0 <? r then updf (fun x => set_f_off (u32 (f_off x + r)) x) f else ret tt) ;; onfs (iunlock (Some (f_ip x))) ;; end_op ;; k r) t) Q W.
Proof.
  intros [Hx Hty Hip Hq Hop Hv Hm Ho] n Hn Hmax Hfree HQ. assert (Hneed := chunk_need (f_off x) n ltac:(lia)).
  apply wp_step. eapply wp_begin; [exact Hq|]. intros x1 R1. apply wp_step. eapply wp_getf; [exact Hx|]. rewrite Hip.
  apply wp_step. apply wp_onfs. destruct Hop as [Hfa Hc Hwf Hsy] eqn:E. clear E.
  eapply (wp_ilock waits i c g sb ds pid cwd Hly); [exact R1|exact Hc|set_solver|apply holds_none|rewrite dom_empty_L, !size_empty; unfold NBUF; lia|by right|].
  intros x2 R2. unfold loaded in R2. rewrite (proj2 (Z.eqb_neq _ 0) Hv), list_insert_id in R2 by apply Hc. rewrite union_empty_r_L in R2.
  apply wp_step. eapply wp_getf; [exact Hx|]. rewrite Hip. apply wp_step. apply wp_onfs.
  eapply (wp_writei i c g sb ds pid cwd Hly dev_write); [exact R2|exact Hop|done|done|lia|done|done|fold n; unfold NBUF; lia|fold n; lia|].
  fold n. intros x3 V' p' T' R3 Hop' Hw _ Hfr. rewrite (proj2 (Z.ltb_lt 0 n)) by lia.
  apply wp_step. eapply wp_updf; [exact Hx|]. assert (Hu : u32 (f_off x + n) = f_off x + n) by (apply u32_small; unfold is_u32, MAXFILE, BSIZE in *; lia). rewrite Hu.
  apply wp_step. apply wp_onfs. eapply wp_iunlock; [exact R3|apply Hop'|set_solver|]. intros x4 R4. replace ({[ip]} ∖ {[ip]}) with (∅ : gset nat) in R4 by (clear; set_solver).
  apply wp_step. eapply wp_end; [exact R4|]. intros x5 Q5. destruct (wn_same _ _ _ _ _ _ _ _ Hw) as (z & m & Ep).
  eapply (HQ _ V' p' x5); [reflexivity| |exact Hw|exact Hfr]. split; cbn.
  - apply list_lookup_insert_eq. by eapply lookup_lt_Some.
  - done.
  - done.
  - exact Q5.
  - exact Hop'.
  - by rewrite Ep.
  - apply Hw.
  - rewrite (wn_size _ _ _ _ _ _ _ _ Hw). fold n. lia.
Qed.

Lemma wp_filewrite_loop fuel t V l f x ip p addr k Q W :
  opened t V l f x ip p -> (k <= length addr)%nat -> let rest := drop k addr in let n := Z.of_nat (length rest) in
  f_off x + n <= MAXFILE * BSIZE -> 2 * write_need (f_off x) n <= Z.of_nat (length (free_list sb V)) -> (n + max_chunk - 1) / max_chunk + 1 <= Z.of_nat fuel ->
  (forall t' V' p' y, t' = set_fs y (set_ftable (<[f := set_f_off (f_off x + n) x]> (ftable t)) t) ->
     opened t' V' (<[ip := p']> l) f (set_f_off (f_off x + n) x) ip p' -> written sb ds V p V' p' (f_off x) rest -> Q (Z.of_nat (length addr)) t') ->
  wp (filewrite_loop waits dev_write fuel f addr (Z.of_nat k) (Z.of_nat (length addr)) t) Q W.
Proof.
  revert t V l x p k. induction fuel as [|fuel IH]; intros t V l x p k Hop Hk rest n Hmax Hfree Hfuel HQ.
  { assert (0 <= n) by (unfold n; lia). change max_chunk with 1536 in Hfuel. Z.div_mod_to_equations. lia. }
  assert (Hn : n = Z.of_nat (length addr) - Z.of_nat k) by (unfold n, rest; rewrite length_drop; lia).
  cbn [filewrite_loop]. destruct (Z.ltb_spec (Z.of_nat k) (Z.of_nat (length addr))) as [Hlt|Hge].
  2: { assert (Erest : rest = []) by (apply nil_length_inv; unfold n in Hn; lia). assert (En : n = 0) by lia. rewrite En, Erest, Z.add_0_r in HQ.
       assert (E : set_f_off (f_off x) x = x) by (by destruct x). assert (Hx := op_file _ _ _ _ _ _ _ Hop). replace (Z.of_nat k) with (Z.of_nat (length addr)) by lia. cbn.
       eapply (HQ t V p (fl_fs t)).
       - rewrite E, list_insert_id by done. by destruct t.
       - rewrite E, list_insert_id by apply (of_file _ _ _ _ _ _ (op_open _ _ _ _ _ _ _ Hop)). done.
       - apply written_nil; apply Hop. }
  set (n1 := if max_chunk <? Z.of_nat (length addr) - Z.of_nat k then max_chunk else Z.of_nat (length addr) - Z.of_nat k).
  assert (En1 : n1 = Z.min n max_chunk) by (unfold n1; rewrite <- Hn; destruct (Z.ltb_spec max_chunk n); lia).
  assert (Hmc : max_chunk = 1536) by done. destruct (write_need_step (f_off x) n) as [Hs1 Hs2]; [apply Hop|lia|]. rewrite <- En1 in Hs1, Hs2.
  rewrite Nat2Z.id. set (src := sub k (Z.to_nat n1) addr). assert (Els : Z.of_nat (length src) = n1) by (unfold src, sub; rewrite length_take, length_drop; lia).
  eapply (wp_chunk t V l f x ip p src); [exact Hop|lia|lia|rewrite Els; lia|]. rewrite Els. intros t1 V1 p1 y Ht1 Hop1 Hw1 (kf & Hf1 & Hf2).
  rewrite (proj2 (Z.ltb_ge n1 0)), Z.eqb_refl by lia. cbn [negb]. replace (Z.of_nat k + n1) with (Z.of_nat (k + Z.to_nat n1)) by lia.
  assert (Erest : drop (k + Z.to_nat n1) addr = drop (Z.to_nat n1) rest) by (unfold rest; by rewrite drop_drop).
  assert (Hlen : Z.of_nat (length (drop (k + Z.to_nat n1) addr)) = n - n1) by (rewrite length_drop; lia).
  eapply (IH t1 V1 (<[ip := p1]> l) (set_f_off (f_off x + n1) x) p1); [exact Hop1|lia|..]; rewrite Hlen; cbn [f_off set_f_off].
  - lia.
  - rewrite Hf1, length_drop. lia.
  - change max_chunk with 1536 in *. Z.div_mod_to_equations. lia.
  - intros t2 V2 p2 y2 Ht2 Hop2 Hw2. change (set_f_off (f_off x + n1 + (n - n1)) (set_f_off (f_off x + n1) x)) with (set_f_off (f_off x + n1 + (n - n1)) x) in *.
    replace (f_off x + n1 + (n - n1)) with (f_off x + n) in * by lia. rewrite list_insert_insert_eq in Hop2.
    eapply (HQ t2 V2 p2 y2); [|exact Hop2|].
    + rewrite Ht2, Ht1. unfold set_fs, set_ftable. cbn. by rewrite list_insert_insert_eq.
    + rewrite Erest in Hw2. replace (f_off x + n1) with (f_off x + Z.of_nat (length src)) in Hw2 by lia. rewrite <- (take_drop (Z.to_nat n1) rest). eapply (written_trans g sb ds Hly); [apply Hop|exact Hw1|exact Hw2].
Qed.
End Filewrite.

(** ** The table of open files *)

Section Table.
Context {S : Type} `{!HasCtx S, !Txn S}.
Context (waits : nat).
Context (i : nat) (c : cpu).
Implicit Types (t : filest S).

(** A state between the calls. *)
Definition f_idle t : Prop := ctx_ok (ctx t) i c /\ locks (ctx t) !! ftable_lk = None.

(** The entries that are free have no type. *)
Definition ftable_ok (l : list file) : Prop := forall f x, l !! f = Some x -> f_ref x = 0 -> f_type x = FD_NONE.

Lemma find_file_spec l k : match find_file l k with
  | Some f => exists j x, f = (k + j)%nat /\ l !! j = Some x /\ f_ref x = 0 /\ forall j' x', (j' < j)%nat -> l !! j' = Some x' -> f_ref x' <> 0
  | None => forall j x, l !! j = Some x -> f_ref x <> 0
  end.
Proof.
  revert k. induction l as [|x l IH]; intros k; cbn [find_file]; [done|]. destruct (Z.eqb_spec (f_ref x) 0) as [E|E].
  - exists 0%nat, x. split_and!; [lia|done|done|lia].
  - specialize (IH (Datatypes.S k)). destruct (find_file l (Datatypes.S k)) as [f|].
    + destruct IH as (j & y & -> & Hy & Hz & Hb). exists (Datatypes.S j), y. split_and!; [lia|done|done|].
      intros [|j'] x' Hj' Hx'; cbn in Hx'; [by injection Hx' as <-|]. apply (Hb j'); [lia|done].
    + intros [|j] y Hy; cbn in Hy; [by injection Hy as <-|by eapply IH].
Qed.

(** The code between [acquire(&ftable.lock)] and [release]. *)
Lemma wp_flock {A} t (k : M (filest S) A) Q W :
  f_idle t -> wp (k (set_ctx (k_acq ftable_lk i (ctx t)) t)) Q W -> wp ((onctx (acquire ftable_lk) ;; k) t) Q W.
Proof. intros [Hc Hl] HQ. apply wp_step. by eapply wp_acq. Qed.

Lemma wp_funlock l t Q W :
  f_idle t -> Q tt (set_ftable l t) -> wp (onctx (release ftable_lk) (set_ftable l (set_ctx (k_acq ftable_lk i (ctx t)) t))) Q W.
Proof.
  intros [Hc Hl] HQ. eapply wp_rel; [|exact Hc|done|].
  - exact (ctx_set_ctx (S := filest S) _ t).
  - replace (set_ctx (ctx t) (set_ftable l (set_ctx (k_acq ftable_lk i (ctx t)) t))) with (set_ftable l t); [done|].
    destruct t as [l0 m pg kl ofl fs]. unfold set_ftable. cbn. unfold set_fs. cbn. rewrite set_ctx_set, set_ctx_ctx. by destruct fs.
Qed.

Lemma filealloc_run t : f_idle t -> filealloc t =
  match find_file (ftable t) 0 with
  | Some f => Ret (Some f) (set_ftable (alter (set_f_ref 1) f (ftable t)) t)
  | None => Ret None t
  end.
Proof.
  intros Hi. assert (wp (filealloc t) (fun r s' => match find_file (ftable t) 0 with
    | Some f => r = Some f /\ s' = set_ftable (alter (set_f_ref 1) f (ftable t)) t | None => r = None /\ s' = t end) stays) as H.
  { unfold filealloc. apply wp_flock; [done|]. apply wp_step. cbn [gets wp]. cbn [ftable set_ctx filest_ctx set_fs].
    destruct (find_file (ftable t) 0) as [f|].
    - apply wp_step. cbn [updf modify wp]. cbn [ftable set_ctx filest_ctx set_fs]. apply wp_step.
      apply (wp_funlock (alter (set_f_ref 1) f (ftable t)) t); done.
    - apply wp_step. replace (set_ctx (k_acq ftable_lk i (ctx t)) t) with (set_ftable (ftable t) (set_ctx (k_acq ftable_lk i (ctx t)) t)) by (by destruct t).
      apply (wp_funlock (ftable t) t); [done|]. split; [done|]. by destruct t. }
  apply wp_Ret in H as (r & s' & -> & H). destruct (find_file (ftable t) 0); by destruct H as [-> ->].
Qed.

Lemma filedup_run t f x : f_idle t -> ftable t !! f = Some x -> 1 <= f_ref x ->
  filedup f t = Ret f (set_ftable (<[f := set_f_ref (f_ref x + 1) x]> (ftable t)) t).
Proof.
  intros Hi Hx Hr. assert (wp (filedup f t) (fun r s' => r = f /\ s' = set_ftable (<[f := set_f_ref (f_ref x + 1) x]> (ftable t)) t) stays) as H.
  { unfold filedup. apply wp_flock; [done|]. apply wp_step. eapply wp_getf; [exact Hx|]. rewrite (proj2 (Z.ltb_ge _ 1)) by lia.
    apply wp_step. eapply wp_updf; [exact Hx|]. apply wp_step. apply (wp_funlock _ t); done. }
  by apply wp_Ret in H as (r & s' & -> & -> & ->).
Qed.

(** [fileclose] of a reference that is not the last one. *)
Lemma fileclose_more t f x : f_idle t -> ftable t !! f = Some x -> 2 <= f_ref x ->
  fileclose waits f t = Ret tt (set_ftable (<[f := set_f_ref (f_ref x - 1) x]> (ftable t)) t).
Proof.
  intros Hi Hx Hr. assert (Hlt := lookup_lt_Some _ _ _ Hx).
  assert (wp (fileclose waits f t) (fun _ s' => s' = set_ftable (<[f := set_f_ref (f_ref x - 1) x]> (ftable t)) t) stays) as H.
  { unfold fileclose. apply wp_flock; [done|]. apply wp_step. eapply wp_getf; [exact Hx|]. rewrite (proj2 (Z.ltb_ge _ 1)) by lia.
    apply wp_step. eapply wp_updf; [exact Hx|]. apply wp_step. eapply wp_getf; [by apply list_lookup_insert_eq|]. cbn [f_ref set_f_ref].
    rewrite (proj2 (Z.ltb_lt 0 _)) by lia. by apply (wp_funlock _ t). }
  by apply wp_Ret in H as ([] & s' & -> & ->).
Qed.

(** The last reference: the entry is free, then what it holds is released. *)
Lemma wp_fileclose_last t f x Q W : f_idle t -> ftable t !! f = Some x -> f_ref x = 1 ->
  wp ((match f_type x with
       | FD_PIPE => onpipe (f_pipe x) (pipeclose (f_pipe x) (negb (f_writable x =? 0)))
       | FD_INODE => begin_op waits ;; onfs (iput waits (f_ip x)) ;; end_op
       | FD_NONE => ret tt
       end) (set_ftable (<[f := set_f_type FD_NONE (set_f_ref 0 x)]> (ftable t)) t)) Q W ->
  wp (fileclose waits f t) Q W.
Proof.
  intros Hi Hx Hr HQ. assert (Hlt := lookup_lt_Some _ _ _ Hx).
  unfold fileclose. apply wp_flock; [done|]. apply wp_step. eapply wp_getf; [exact Hx|]. rewrite (proj2 (Z.ltb_ge _ 1)) by lia.
  apply wp_step. eapply wp_updf; [exact Hx|]. apply wp_step. eapply wp_getf; [by apply list_lookup_insert_eq|]. cbn [f_ref set_f_ref].
  rewrite (proj2 (Z.ltb_ge 0 _)) by lia. apply wp_step. eapply wp_updf; [by apply list_lookup_insert_eq|].
  apply wp_step. eapply wp_updf; [cbn; apply list_lookup_insert_eq; by rewrite length_insert|]. apply wp_step.
  cbn [ftable set_ftable set_ctx filest_ctx set_fs]. rewrite !list_insert_insert_eq.
  apply (wp_funlock (<[f := set_f_type FD_NONE (set_f_ref 0 (set_f_ref (f_ref x - 1) x))]> (ftable t)) t); [done|]. cbn. exact HQ.
Qed.

(** An entry that [filealloc] just took, closed again. *)
Lemma fileclose_fresh t f x : f_idle t -> ftable t !! f = Some (set_f_ref 1 x) -> f_type x = FD_NONE -> f_ref x = 0 ->
  fileclose waits f t = Ret tt (set_ftable (<[f := x]> (ftable t)) t).
Proof.
  intros Hi Hx Hty Hr. assert (wp (fileclose waits f t) (fun _ s' => s' = set_ftable (<[f := x]> (ftable t)) t) stays) as H.
  { eapply wp_fileclose_last; [done|exact Hx|done|]. cbn [f_type set_f_ref]. rewrite Hty. cbn. do 2 f_equal. destruct x; cbn in *. by subst. }
  by apply wp_Ret in H as ([] & s' & -> & ->).
Qed.

Lemma find_file_at l f : find_file l 0 = Some f -> exists x, l !! f = Some x /\ f_ref x = 0.
Proof. intros E. pose proof (find_file_spec l 0) as H. rewrite E in H. destruct H as (j & x & -> & Hx & Hz & _). by exists x. Qed.

(** The two files of a new pipe. *)
Definition read_end (pa : Z) (x : file) : file := mkfile FD_PIPE 1 1 0 pa (f_ip x) (f_off x).
Definition write_end (pa : Z) (x : file) : file := mkfile FD_PIPE 1 0 1 pa (f_ip x) (f_off x).

Lemma pipealloc_spec t old : f_idle t -> ftable_ok (ftable t) ->
  (exists f0 f1 x0 x1 pa t', pipealloc waits old t = Ret (Some (f0, f1)) t' /\ f0 <> f1 /\
     ftable t !! f0 = Some x0 /\ f_ref x0 = 0 /\ ftable t !! f1 = Some x1 /\ f_ref x1 = 0 /\
     ftable t' = <[f1 := write_end pa x1]> (<[f0 := read_end pa x0]> (ftable t)) /\ pages t = pa :: pages t' /\
     pipes t' = <[pa := mkpipe old 0 0 1 1]> (pipes t) /\ ofiles t' = ofiles t /\ fl_fs t' = set_ctx (lk_set (pipe_lk pa) zero_lock (ctx t)) (fl_fs t)) \/
  (pipealloc waits old t = Ret None t /\
     (pages t = [] \/ forall f0 f1 x0 x1, ftable t !! f0 = Some x0 -> ftable t !! f1 = Some x1 -> f_ref x0 = 0 -> f_ref x1 = 0 -> f0 = f1)).
Proof.
  intros Hi Hok. unfold pipealloc. assert (Halloc := filealloc_run t Hi). pose proof (find_file_spec (ftable t) 0) as Hf0.
  destruct (find_file (ftable t) 0) as [f0|] eqn:E0; rewrite (bind_Ret _ _ _ _ _ Halloc).
  2: { right. split; [done|]. right. intros f0 f1 x0 x1 H0 _ Hz _. by destruct (Hf0 _ _ H0). }
  destruct (find_file_at _ _ E0) as (x0 & Hx0 & Hz0). set (l1 := alter (set_f_ref 1) f0 (ftable t)) in *. set (t1 := set_ftable l1 t) in *.
  assert (El1 : l1 = <[f0 := set_f_ref 1 x0]> (ftable t)) by (by apply alter_insert_at). assert (Hlt0 := lookup_lt_Some _ _ _ Hx0).
  assert (Hty0 := Hok _ _ Hx0 Hz0). assert (Hi1 : f_idle t1) by done. assert (Halloc1 := filealloc_run t1 Hi1). pose proof (find_file_spec l1 0) as Hf1.
  change (ftable t1) with l1 in Halloc1. assert (Hat0 : l1 !! f0 = Some (set_f_ref 1 x0)) by (rewrite El1; by apply list_lookup_insert_eq).
  assert (Hback : set_ftable (<[f0 := x0]> l1) t1 = t).
  { unfold t1. rewrite El1, list_insert_insert_eq, list_insert_id by done. by destruct t. }
  destruct (find_file l1 0) as [f1|] eqn:E1; rewrite (bind_Ret _ _ _ _ _ Halloc1).
  2: { right. split.
       - unfold pipealloc_bad. rewrite (bind_Ret _ _ _ tt t1) by done. rewrite (bind_Ret _ _ _ _ _ (fileclose_fresh t1 f0 x0 Hi1 Hat0 Hty0 Hz0)).
         exact (f_equal (Ret None) Hback).
       - right. intros g0 g1 y0 y1 H0 H1 Hr0 Hr1. destruct (decide (g0 = f0)) as [->|Hn0]; [destruct (decide (g1 = f0)) as [->|Hn1]; [done|]|].
         + exfalso. apply (Hf1 g1 y1); [|done]. by rewrite El1, list_lookup_insert_ne.
         + exfalso. apply (Hf1 g0 y0); [|done]. by rewrite El1, list_lookup_insert_ne. }
  destruct (find_file_at _ _ E1) as (x1 & Hx1 & Hz1).
  assert (Hne : f0 <> f1) by (intros <-; rewrite Hat0 in Hx1; injection Hx1 as <-; cbn in Hz1; lia).
  assert (Hx1' : ftable t !! f1 = Some x1) by (rewrite <- Hx1, El1; by rewrite list_lookup_insert_ne).
  assert (Hlt1 := lookup_lt_Some _ _ _ Hx1). assert (Hty1 := Hok _ _ Hx1' Hz1).
  set (t2 := set_ftable (alter (set_f_ref 1) f1 l1) t1) in *. assert (El2 : ftable t2 = <[f1 := set_f_ref 1 x1]> l1) by (by apply alter_insert_at).
  destruct (pages t) as [|pa pg] eqn:Epg.
  - right. split; [|by left]. rewrite (bind_Ret _ _ _ None t2) by (unfold kalloc; cbn; by rewrite Epg).
    unfold pipealloc_bad. rewrite (bind_Ret _ _ _ tt t2) by done. assert (Hi2 : f_idle t2) by done.
    rewrite (bind_Ret _ _ _ _ _ (fileclose_fresh t2 f0 x0 Hi2 ltac:(rewrite El2; by rewrite list_lookup_insert_ne) Hty0 Hz0)).
    set (t3 := set_ftable (<[f0 := x0]> (ftable t2)) t2). assert (Hi3 : f_idle t3) by done.
    assert (Hat1 : ftable t3 !! f1 = Some (set_f_ref 1 x1)) by (cbn [t3 ftable set_ftable]; rewrite list_lookup_insert_ne, El2 by done; by apply list_lookup_insert_eq).
    rewrite (bind_Ret _ _ _ _ _ (fileclose_fresh t3 f1 x1 Hi3 Hat1 Hty1 Hz1)). transitivity (Ret (S := filest S) (@None (nat * nat)) (set_ftable (<[f0 := x0]> l1) t1)); [|by rewrite Hback].
    cbn [ret]. unfold ret. f_equal. unfold t3, t2, set_ftable. cbn [ftable pipes pages fl_killed ofiles fl_fs t1 set_ftable]. f_equal.
    rewrite list_insert_insert_ne, (alter_insert_at _ _ _ _ Hx1), list_insert_insert_eq by done. by rewrite (list_insert_id l1 f1).
  - left. exists f0, f1, x0, x1, pa. eexists. rewrite (bind_Ret _ _ _ (Some pa) (set_pages pg t2)) by (unfold kalloc; cbn; by rewrite Epg).
    split_and!; [reflexivity|done|done|done|done|done| |done|done|done|done].
    cbn [ftable set_ftable set_pipes set_pages set_ctx filest_ctx set_fs t2]. rewrite (alter_insert_at _ _ _ _ Hx1), El1.
    rewrite (alter_insert_at _ _ f0 (set_f_ref 1 x0)) by (rewrite list_lookup_insert_ne by done; by apply list_lookup_insert_eq).
    rewrite (alter_insert_at _ _ f1 (set_f_ref 1 x1)) by (rewrite list_lookup_insert_ne by done; apply list_lookup_insert_eq; rewrite length_insert; by eapply lookup_lt_Some).
    rewrite (list_insert_insert_ne _ f0 f1), !list_insert_insert_eq by done. done.
Qed.
End Table.
