(* ===== verification/FileTheorems.v ===== *)
(** * Files: the theorems

    What [filewrite], [fileclose] and [pipealloc] do, applied to the machine of [Demo]. *)

From Stdlib Require Import ZArith Lia.
From S2P Require Import Prelude Spinlock Sleeplock Pipe Strings Blocks Bytes Bio BioSpec BioOps BioTheorems Log LogSpec LogOps LogCrash Txn Demo.
From S2P Require Import Fs FsSpec FsInode FsFile FsWrite FsTheorems File FileSpec.

Section Claims.
Context {S : Type} `{!HasCtx S, !Txn S}.
Context (waits : nat).
Context (dev_write : Z -> option (nat -> list Z -> M (fsst S) Z)).
Context (i : nat) (c : cpu) (g : tgeo) (sb : superblock) (ds : Z) (pid : Z) (cwd : nat).
Hypothesis (Hly : layout g sb ds).
Hypothesis (Hds : 0 < ds).
Implicit Types (t : filest S) (V : Z -> block) (l : list inode) (p : inode).
Notation opened := (opened i c g sb ds pid cwd).

(** C7 (functional).  [filewrite] of any number of bytes to an open file returns that
    number: it writes them at the offset of the file in transactions of at most
    [max_chunk] bytes, and moves the offset behind them.  Between the transactions and at
    the end no operation is in progress and the inode is unlocked. *)
Theorem filewrite_writes t V l f x ip p src :
  (size (bm_set sb) <= 4)%nat -> (17 <= g_cap g)%nat -> opened t V l f x ip p -> f_writable x <> 0 ->
  let n := Z.of_nat (length src) in f_off x + n <= MAXFILE * BSIZE -> 2 * write_need (f_off x) n <= Z.of_nat (length (free_list sb V)) ->
  exists t' V' p' y, filewrite waits dev_write f src t = Ret n t' /\
    t' = set_fs y (set_ftable (<[f := set_f_off (f_off x + n) x]> (ftable t)) t) /\
    opened t' V' (<[ip := p']> l) f (set_f_off (f_off x + n) x) ip p' /\ written sb ds V p V' p' (f_off x) src.
Proof.
  intros Hbm Hcap Hop Hwr n Hmax Hfree.
  assert (wp (filewrite waits dev_write f src t) (fun r t' => r = n /\ exists V' p' y, t' = set_fs y (set_ftable (<[f := set_f_off (f_off x + n) x]> (ftable t)) t) /\
    opened t' V' (<[ip := p']> l) f (set_f_off (f_off x + n) x) ip p' /\ written sb ds V p V' p' (f_off x) src) stays) as H.
  { unfold filewrite. fold n. apply wp_step. eapply wp_getf; [apply Hop|]. rewrite (proj2 (Z.eqb_neq _ 0) Hwr), (op_type _ _ _ _ _ _ _ _ _ _ _ _ _ _ Hop).
    apply wp_step. eapply (wp_filewrite_loop waits dev_write i c g sb ds pid cwd Hly Hds Hbm Hcap _ t V l f x ip p src 0); [exact Hop|lia|..]; rewrite drop_0; fold n.
    - done.
    - done.
    - change max_chunk with 1536. assert (0 <= n) by (unfold n; lia). Z.div_mod_to_equations. lia.
    - intros t' V' p' y Ht' Hop' Hw. fold n. rewrite Z.eqb_refl. cbn. split; [done|]. by exists V', p', y. }
  apply wp_Ret in H as (r & t' & Hrun & -> & V' & p' & y & H). by exists t', V', p', y.
Qed.

(** [pipealloc] makes a pipe or changes nothing.  With two free entries in
    the table and a free page it returns a read end and a write end of a new pipe that
    holds no bytes; otherwise it returns -1 and the table, the pages and the pipes are as
    before. *)
Theorem pipealloc_all_or_nothing t old :
  f_idle i c t -> ftable_ok (ftable t) -> length old = 512%nat ->
  (exists f0 f1 x0 x1 pa t', pipealloc waits old t = Ret (Some (f0, f1)) t' /\ f0 <> f1 /\
     ftable t !! f0 = Some x0 /\ f_ref x0 = 0 /\ ftable t !! f1 = Some x1 /\ f_ref x1 = 0 /\
     ftable t' = <[f1 := write_end pa x1]> (<[f0 := read_end pa x0]> (ftable t)) /\ pages t = pa :: pages t' /\
     exists q, pipes t' !! pa = Some q /\ pipe_rep q [] /\ readopen q = 1 /\ writeopen q = 1) \/
  (pipealloc waits old t = Ret None t /\
     (pages t = [] \/ forall f0 f1 x0 x1, ftable t !! f0 = Some x0 -> ftable t !! f1 = Some x1 -> f_ref x0 = 0 -> f_ref x1 = 0 -> f0 = f1)).
Proof.
  intros Hi Hok Hold. destruct (pipealloc_spec waits i c t old Hi Hok) as [(f0 & f1 & x0 & x1 & pa & t' & H1 & H2 & H3 & H4 & H5 & H6 & H7 & H8 & H9 & _)|H]; [left|by right].
  exists f0, f1, x0, x1, pa, t'. split_and!; [done..|]. exists (mkpipe old 0 0 1 1). rewrite H9, lookup_insert_eq. split_and!; [done| |done|done].
  split; cbn; [done|done|lia|done|]. intros j x Hj. by rewrite lookup_nil in Hj.
Qed.

(** The last [fileclose] of a file on an inode that is still linked gives its reference
    back. *)
Theorem fileclose_inode t V l f x p :
  f_idle i c t -> ftable t !! f = Some x -> f_ref x = 1 -> f_type x = FD_INODE -> fsquiet i c g sb pid cwd (fl_fs t) V l ∅ ->
  l !! f_ip x = Some p -> i_valid p = 0 \/ i_nlink p <> 0 ->
  exists y, fileclose waits f t = Ret tt (set_fs y (set_ftable (<[f := set_f_type FD_NONE (set_f_ref 0 x)]> (ftable t)) t)) /\
    fsquiet i c g sb pid cwd y V (<[f_ip x := set_ref (i_ref p - 1) p]> l) ∅.
Proof.
  intros Hi Hx Hr Hty Hq Hp Hlive.
  assert (wp (fileclose waits f t) (fun _ t' => exists y, t' = set_fs y (set_ftable (<[f := set_f_type FD_NONE (set_f_ref 0 x)]> (ftable t)) t) /\
    fsquiet i c g sb pid cwd y V (<[f_ip x := set_ref (i_ref p - 1) p]> l) ∅) stays) as H.
  { eapply wp_fileclose_last; [exact Hi|exact Hx|done|]. rewrite Hty. apply wp_step. eapply wp_begin; [exact Hq|]. intros x1 R1.
    apply wp_step. apply wp_onfs. eapply wp_iput; [exact R1|exact Hp|set_solver|done|]. intros x2 R2. eapply wp_end; [exact R2|]. intros x3 Q3. by exists x3. }
  apply wp_Ret in H as ([] & t' & Hrun & y & -> & Hy). by exists y.
Qed.
End Claims.

(** ** The machine of [Demo] *)

(** File 0 is open for writing on inode "a", behind its five bytes; the others are free. *)
Definition a_file : file := mkfile FD_INODE 1 1 1 0 1 5.
Definition free_file : file := mkfile FD_NONE 0 0 0 0 0 0.
Definition small_files : filest (logst bst) := mkfilest (a_file :: replicate 99 free_file) ∅ [4096] 0 [Some 0%nat] (small_fs small).

Lemma small_fs_quiet : fsquiet 0 demo_c fs_geo disk_sb 5 0 (small_fs small) fs_view small_icache ∅.
Proof. split; [exact small_quiet|reflexivity|intros ip|reflexivity..]. rewrite decide_False by (clear; set_solver). reflexivity. Qed.

Lemma small_opened : opened 0 demo_c fs_geo disk_sb 34 5 0 small_files fs_view small_icache 0 a_file 1 a_inode.
Proof.
  split; [reflexivity|reflexivity|reflexivity|exact small_fs_quiet|exact small_file|discriminate|exact small_meta|]. vm_compute. split; discriminate.
Qed.

(** 2000 bytes take two transactions. *)
Lemma filewrite_writes_witness : exists t', filewrite 0 no_devs 0 (replicate 2000 120) small_files = Ret 2000 t'.
Proof.
  destruct small_free as (fl & Hf & Hfl).
  destruct (filewrite_writes 0 no_devs 0 demo_c fs_geo disk_sb 34 5 0 small_layout eq_refl small_files fs_view small_icache 0 a_file 1 a_inode (replicate 2000 120))
    as (t' & V' & p' & y & H & _).
  - clear. vm_compute. lia.
  - clear. vm_compute. lia.
  - exact small_opened.
  - discriminate.
  - rewrite length_replicate. clear. vm_compute. discriminate.
  - rewrite length_replicate, Hf. cbn [length]. rewrite Hfl. clear. vm_compute. discriminate.
  - rewrite length_replicate in H. exact (ex_intro _ t' H).
Defined.

Lemma small_ftable_ok : ftable_ok (ftable small_files).
Proof.
  intros [|f] x Hx Hr; [by injection Hx as <-|]. change (replicate 99 free_file !! f = Some x) in Hx. by apply lookup_replicate in Hx as [-> _].
Qed.

Lemma small_f_idle : f_idle 0 demo_c small_files.
Proof. destruct (quiet_ctx _ _ _ _ _ small_quiet) as [Hc Hl]. split; [exact Hc|]. cbn [small_files ctx filest_ctx fl_fs small_fs fsst_ctx f_store]. by rewrite Hl. Qed.

Lemma pipealloc_all_or_nothing_witness : exists f0 f1 t', pipealloc 0 (replicate 512 0) small_files = Ret (Some (f0, f1)) t'.
Proof.
  destruct (pipealloc_all_or_nothing 0 0 demo_c small_files (replicate 512 0) small_f_idle small_ftable_ok) as [(f0 & f1 & x0 & x1 & pa & t' & H & _)|[_ H]].
  - reflexivity.
  - exact (ex_intro _ f0 (ex_intro _ f1 (ex_intro _ t' H))).
  - exfalso. destruct H as [H|H]; [discriminate H|]. discriminate (H 1%nat 2%nat free_file free_file eq_refl eq_refl eq_refl eq_refl).
Defined.
