(* ===== verification/Console.v ===== *)
(** * The console

    Models [console.c] but [panic], whose output is in [Report.v]: formatted output, the screen and the serial port, and
    the input line.  The console is a part of a larger state; [consoleread] and
    [consolewrite] are the entries of [devsw] that [fs.c] calls.  The input devices are
    the queues of the codes they have to deliver. *)

From Stdlib Require Import ZArith Lia.
From S2P Require Import Prelude Spinlock Sleeplock Bytes Txn Fs.

Definition INPUT_BUF : Z := 128.
Definition BACKSPACE : Z := 0x100.
Definition CONSOLE : Z := 1.

(** The characters of a string literal. *)
Definition chars (s : string) : list Z := (fun a => Z.of_N (Ascii.N_of_ascii a)) <$> String.list_ascii_of_string s.

(** [input] *)
Record inputbuf := mkinput { ibuf : list Z; ir : Z; iw : Z; ie : Z }.

(** [cons.locking], [panicked], [input], the text memory and the cursor of the screen,
    [uart], the bytes sent to the serial port, the codes waiting in the serial port and in
    the keyboard, [shift] of [kbdgetc], and [myproc()->killed]. *)
Record consd := mkcons {
  c_locking : Z; panicked : Z; input : inputbuf;
  crt : list Z; crtpos : Z;
  uart : Z; sent : list Z; com_in : list Z;
  kbd_in : list Z; kbd_shift : Z;
  c_killed : Z
}.
Definition set_input (v : inputbuf) (d : consd) : consd :=
  mkcons (c_locking d) (panicked d) v (crt d) (crtpos d) (uart d) (sent d) (com_in d) (kbd_in d) (kbd_shift d) (c_killed d).
Definition set_crt (v : list Z) (d : consd) : consd :=
  mkcons (c_locking d) (panicked d) (input d) v (crtpos d) (uart d) (sent d) (com_in d) (kbd_in d) (kbd_shift d) (c_killed d).
Definition set_crtpos (v : Z) (d : consd) : consd :=
  mkcons (c_locking d) (panicked d) (input d) (crt d) v (uart d) (sent d) (com_in d) (kbd_in d) (kbd_shift d) (c_killed d).
Definition set_sent (v : list Z) (d : consd) : consd :=
  mkcons (c_locking d) (panicked d) (input d) (crt d) (crtpos d) (uart d) v (com_in d) (kbd_in d) (kbd_shift d) (c_killed d).
Definition set_uart (v : Z) (d : consd) : consd :=
  mkcons (c_locking d) (panicked d) (input d) (crt d) (crtpos d) v (sent d) (com_in d) (kbd_in d) (kbd_shift d) (c_killed d).
Definition set_com_in (v : list Z) (d : consd) : consd :=
  mkcons (c_locking d) (panicked d) (input d) (crt d) (crtpos d) (uart d) (sent d) v (kbd_in d) (kbd_shift d) (c_killed d).
Definition set_kbd (l : list Z) (v : Z) (d : consd) : consd :=
  mkcons (c_locking d) (panicked d) (input d) (crt d) (crtpos d) (uart d) (sent d) (com_in d) l v (c_killed d).
Definition set_locking (v : Z) (d : consd) : consd :=
  mkcons v (panicked d) (input d) (crt d) (crtpos d) (uart d) (sent d) (com_in d) (kbd_in d) (kbd_shift d) (c_killed d).

(** A state with a console. *)
Class HasCons (S : Type) `{!HasCtx S} := {
  cons : S -> consd;
  set_cons : consd -> S -> S;
  cons_set : forall d s, cons (set_cons d s) = d;
  set_cons_set : forall d d' s, set_cons d (set_cons d' s) = set_cons d s;
  set_cons_cons : forall s, set_cons (cons s) s = s;
  cons_ctx : forall k s, cons (set_ctx k s) = cons s;
  ctx_cons : forall d s, ctx (set_cons d s) = ctx s;
  cons_swap : forall k d s, set_cons d (set_ctx k s) = set_ctx k (set_cons d s)
}.

Definition cons_lk : lockid := ("console"%string, 0).
Definition input_chan : chan := ("input.r"%string, 0).

(** ** Output *)

Section Output.
Context {S : Type} `{!HasCtx S, !HasCons S}.

Definition upd_cons (f : consd -> consd) : M S unit := modify (fun s => set_cons (f (cons s)) s).

(** [uartputc] of [uart.c]; it waits a bounded time for the port and sends anyway. *)
Definition uartputc (c : Z) : M S unit :=
  d <- gets cons ;;
  if uart d =? 0 then ret tt else upd_cons (fun d => set_sent (sent d ++ [u8 c]) d).

(** [crt[pos] = v] *)
Definition crt_store (pos v : Z) : M S unit :=
  d <- gets cons ;;
  if (0 <=? pos) && (pos <? Z.of_nat (length (crt d)))
  then upd_cons (fun d => set_crt (<[Z.to_nat pos := v]> (crt d)) d) else ub "crt".

(** [memmove(crt, crt+80, 23*80)] and [memset(crt+pos, 0, 24*80 - pos)], in cells. *)
Definition scrolled (pos : Z) (l : list Z) : list Z :=
  patch (Z.to_nat pos) (replicate (Z.to_nat (24 * 80 - pos)) 0) (patch 0 (sub 80 (23 * 80) l) l).

Definition cgaputc (c : Z) : M S unit :=
  pos <- gets (fun s => crtpos (cons s)) ;;
  pos <- (if c =? 10 then ret (pos + (80 - pos mod 80))
          else if c =? BACKSPACE then ret (if 0 <? pos then pos - 1 else pos)
          else crt_store pos (Z.lor (Z.land c 0xff) 0x0700) ;; ret (pos + 1)) ;;
  if (pos <? 0) || (25 * 80 <? pos) then panic "pos under/overflow" else
  pos <- (if 24 <=? pos / 80 then upd_cons (fun d => set_crt (scrolled (pos - 80) (crt d)) d) ;; ret (pos - 80) else ret pos) ;;
  upd_cons (set_crtpos (u16 pos)) ;;
  crt_store pos (Z.lor 32 0x0700).

Definition consputc (c : Z) : M S unit :=
  d <- gets cons ;;
  if negb (panicked d =? 0) then (fun _ => Spin ("panicked"%string, 0)) else
  (if c =? BACKSPACE then uartputc 8 ;; uartputc 32 ;; uartputc 8 else uartputc c) ;;
  cgaputc c.

(** [for(; *s; s++) consputc( *s)] *)
Definition consputs (l : list Z) : M S unit := forM l consputc.

(** ** Formatting *)

Definition digits : list Z := chars "0123456789abcdef".

(** The loop that fills [buf] from the last digit on; [dg] is the table of digits. *)
Fixpoint digit_loop (dg : list Z) (fuel : nat) (x base : Z) : list Z :=
  match fuel with
  | O => []
  | Datatypes.S fuel =>
      default 0 (dg !! Z.to_nat (x mod base)) :: (if x / base =? 0 then [] else digit_loop dg fuel (x / base) base)
  end.

(** [buf]: the digits, and the sign.  An [x] of 32 bits has at most 32 digits. *)
Definition int_buf (dg : list Z) (xx base : Z) (sign : bool) : list Z :=
  let neg := sign && (xx <? 0) in
  digit_loop dg 32 (u32 (if neg then - xx else xx)) base ++ (if neg then [45] else []).

Definition printint (xx base : Z) (sign : bool) : M S unit :=
  let buf := int_buf digits xx base sign in
  if (16 <? length buf)%nat then ub "buf[16]" else consputs (rev buf).

(** The arguments of a call behind [fmt]: words, and pointers to strings. *)
Inductive carg := AInt (z : Z) | AStr (s : option (list Z)).

(** The loop over [fmt]; [argp] is the rest of the arguments. *)
Fixpoint cprintf_loop (fmt : list Z) (argp : list carg) : M S unit :=
  match fmt with
  | [] => ret tt
  | c :: fmt =>
      if negb (c =? 37) then consputc c ;; cprintf_loop fmt argp else
      match fmt with
      | [] => ret tt
      | c :: fmt =>
          if c =? 100 then
            match argp with AInt z :: argp => printint (s32 z) 10 true ;; cprintf_loop fmt argp | _ => ub "cprintf" end
          else if (c =? 120) || (c =? 112) then
            match argp with AInt z :: argp => printint (s32 z) 16 false ;; cprintf_loop fmt argp | _ => ub "cprintf" end
          else if c =? 115 then
            match argp with
            | AStr s :: argp => consputs (default (chars "(null)") s) ;; cprintf_loop fmt argp
            | _ => ub "cprintf"
            end
          else if c =? 37 then consputc 37 ;; cprintf_loop fmt argp
          else consputc 37 ;; consputc c ;; cprintf_loop fmt argp
      end
  end.

Definition cprintf (fmt : list Z) (args : list carg) : M S unit :=
  locking <- gets (fun s => c_locking (cons s)) ;;
  when (negb (locking =? 0)) (onctx (acquire cons_lk)) ;;
  cprintf_loop fmt args ;;
  when (negb (locking =? 0)) (onctx (release cons_lk)).
End Output.

(** ** Input *)

Section Input.
Context {S : Type} `{!HasCtx S, !HasCons S}.

Definition upd_input (f : inputbuf -> inputbuf) : M S unit := upd_cons (fun d => set_input (f (input d)) d).
Definition set_e (v : Z) (b : inputbuf) : inputbuf := mkinput (ibuf b) (ir b) (iw b) v.

(** [input.buf[i % INPUT_BUF]] *)
Definition buf_at (b : inputbuf) (i : Z) : option Z := ibuf b !! Z.to_nat (u32 i mod INPUT_BUF).

(** The loop that kills the line.  The line has at most [INPUT_BUF] characters. *)
Fixpoint kill_line (fuel : nat) : M S unit :=
  match fuel with
  | O => nofuel
  | Datatypes.S fuel =>
      b <- gets (fun s => input (cons s)) ;;
      if ie b =? iw b then ret tt else
      match buf_at b (ie b - 1) with
      | None => ub "input.buf"
      | Some x =>
          if x =? 10 then ret tt else
          upd_input (fun b => set_e (u32 (ie b - 1)) b) ;;
          consputc BACKSPACE ;;
          kill_line fuel
      end
  end.

(** One character of the loop of [consoleintr]; the result is [doprocdump]. *)
Definition console_key (c : Z) (dump : bool) : M S bool :=
  if c =? 16 then ret true else
  if c =? 21 then kill_line (Z.to_nat INPUT_BUF + 1) ;; ret dump else
  if (c =? 8) || (c =? 127) then
    b <- gets (fun s => input (cons s)) ;;
    (if negb (ie b =? iw b) then upd_input (fun b => set_e (u32 (ie b - 1)) b) ;; consputc BACKSPACE else ret tt) ;;
    ret dump
  else
    b <- gets (fun s => input (cons s)) ;;
    (if negb (c =? 0) && (u32 (ie b - ir b) <? INPUT_BUF) then
       let c := if c =? 13 then 10 else c in
       upd_input (fun b => mkinput (<[Z.to_nat (ie b mod INPUT_BUF) := u8 c]> (ibuf b)) (ir b) (iw b) (u32 (ie b + 1))) ;;
       consputc c ;;
       b <- gets (fun s => input (cons s)) ;;
       if (c =? 10) || (c =? 4) || (ie b =? u32 (ir b + INPUT_BUF)) then
         upd_input (fun b => mkinput (ibuf b) (ir b) (ie b) (ie b)) ;;
         wakeup_on input_chan
       else ret tt
     else ret tt) ;;
    ret dump.

Fixpoint intr_loop (fuel : nat) (getc : M S Z) (dump : bool) : M S bool :=
  match fuel with
  | O => nofuel
  | Datatypes.S fuel =>
      c <- getc ;;
      if c <? 0 then ret dump else
      dump <- console_key c dump ;;
      intr_loop fuel getc dump
  end.

(** [procdump] of [proc.c] is a parameter. *)
Definition consoleintr (fuel : nat) (procdump : M S unit) (getc : M S Z) : M S unit :=
  onctx (acquire cons_lk) ;;
  dump <- intr_loop fuel getc false ;;
  onctx (release cons_lk) ;;
  when dump procdump.

(** [while(input.r == input.w)], one unit of fuel per wake-up; false if the process was
    killed. *)
Fixpoint wait_input (fuel : nat) : M S bool :=
  match fuel with
  | O => nofuel
  | Datatypes.S fuel =>
      b <- gets (fun s => input (cons s)) ;;
      if negb (ir b =? iw b) then ret true else
      onctx myproc ;;
      k <- gets (fun s => c_killed (cons s)) ;;
      if negb (k =? 0) then ret false else
      sleep_on input_chan cons_lk ;;
      wait_input fuel
  end.

(** The loop of [consoleread] with [n] of [target] bytes to go: the bytes stored, and
    false if the process was killed. *)
Fixpoint read_loop (fuel : nat) (n target : nat) : M S (list Z * bool) :=
  match n with
  | O => ret ([], true)
  | Datatypes.S n' =>
      ok <- wait_input fuel ;;
      if negb ok then ret ([], false) else
      b <- gets (fun s => input (cons s)) ;;
      match buf_at b (ir b) with
      | None => ub "input.buf"
      | Some c =>
          upd_input (fun b => mkinput (ibuf b) (u32 (ir b + 1)) (iw b) (ie b)) ;;
          if c =? 4 then
            (if (n <? target)%nat then upd_input (fun b => mkinput (ibuf b) (u32 (ir b - 1)) (iw b) (ie b)) else ret tt) ;;
            ret ([], true)
          else if c =? 10 then ret ([c], true) else
          r <- read_loop fuel n' target ;;
          ret (c :: fst r, snd r)
      end
  end.
End Input.

(** ** The device *)

#[export] Instance fsst_cons {S} `{!HasCtx S, !HasCons S} : HasCons (fsst S).
Proof.
  refine {| cons := fun s => cons (f_store s); set_cons := fun d s => set_store (set_cons d (f_store s)) s |}.
  - intros d s. exact (cons_set (S := S) _ _).
  - intros d d' s. unfold set_store. cbn. by rewrite set_cons_set.
  - intros []. unfold set_store. cbn. by rewrite set_cons_cons.
  - intros k s. exact (cons_ctx (S := S) _ _).
  - intros d s. exact (ctx_cons (S := S) _ _).
  - intros k d s. unfold set_store. cbn. by rewrite cons_swap.
Defined.

Section Device.
Context {S : Type} `{!HasCtx S, !HasCons S, !Txn S}.
Context (waits : nat).

(** The result, and the bytes stored at [dst]. *)
Definition consoleread (ip : nat) (n : Z) : M (fsst S) (Z * list Z) :=
  iunlock (Some ip) ;;
  onctx (acquire cons_lk) ;;
  r <- read_loop (Datatypes.S waits) (Z.to_nat n) (Z.to_nat n) ;;
  onctx (release cons_lk) ;;
  ilock waits (Some ip) ;;
  ret (if snd r then (Z.of_nat (length (fst r)), fst r) else (-1, fst r)).

(** [n] is the length of [buf]. *)
Definition consolewrite (ip : nat) (buf : list Z) : M (fsst S) Z :=
  iunlock (Some ip) ;;
  onctx (acquire cons_lk) ;;
  consputs ((fun c => Z.land c 0xff) <$> buf) ;;
  onctx (release cons_lk) ;;
  ilock waits (Some ip) ;;
  ret (Z.of_nat (length buf)).

(** [devsw] after [consoleinit], and the rest of [consoleinit] but the interrupt line. *)
Definition cons_read (major : Z) : option (nat -> Z -> M (fsst S) (Z * list Z)) := if major =? CONSOLE then Some consoleread else None.
Definition cons_write (major : Z) : option (nat -> list Z -> M (fsst S) Z) := if major =? CONSOLE then Some consolewrite else None.
Definition consoleinit : M (fsst S) unit :=
  onctx (initlock cons_lk) ;;
  upd_cons (set_locking 1).
End Device.

(** ** A store with a console beside it *)

Record withcons (S : Type) := mkwc { wc_cons : consd; wc_store : S }.
Arguments mkwc {S}.
Arguments wc_cons {S}.
Arguments wc_store {S}.

Section WithCons.
Context {S : Type} `{!HasCtx S}.
Definition set_wc_store (x : S) (s : withcons S) : withcons S := mkwc (wc_cons s) x.

#[export] Instance withcons_ctx : HasCtx (withcons S).
Proof.
  refine {| ctx := fun s => ctx (wc_store s); set_ctx := fun k s => set_wc_store (set_ctx k (wc_store s)) s |}.
  - intros k s. exact (ctx_set_ctx (S := S) _ _).
  - intros k k' s. unfold set_wc_store. cbn. by rewrite (set_ctx_set (S := S)).
  - intros []. unfold set_wc_store. cbn. by rewrite (set_ctx_ctx (S := S)).
Defined.

#[export] Instance withcons_cons : HasCons (withcons S).
Proof. refine {| cons := wc_cons; set_cons := fun d s => mkwc d (wc_store s) |}; try done. by intros []. Defined.

#[export] Instance withcons_txn `{!Txn S} : Txn (withcons S).
Proof.
  refine {|
    t_bread := fun d n => inside wc_store set_wc_store (t_bread d n);
    t_brelse := fun b => inside wc_store set_wc_store (t_brelse b);
    t_log_write := fun b => inside wc_store set_wc_store (t_log_write b);
    t_begin_op := fun n => inside wc_store set_wc_store (t_begin_op n);
    t_end_op := inside wc_store set_wc_store t_end_op;
    t_data := fun b s => t_data b (wc_store s);
    t_set_data := fun b x s => set_wc_store (t_set_data b x (wc_store s)) s;
    tx := fun i c g s t => tx i c g (wc_store s) t;
    quiet := fun i c g s V => quiet i c g (wc_store s) V
  |}; intros i c g s.
  - intros t. apply (tx_ctx (S := S)).
  - intros V. apply (quiet_ctx (S := S)).
  - intros t k. apply (tx_move (S := S)).
  - intros V k. apply (quiet_move (S := S)).
  - intros t V. apply (tx_ext (S := S)).
  - intros t n. apply (tx_len (S := S)).
  - intros V fuel H. apply wp_inside. by apply (begin_tx (S := S)).
  - intros V T H. apply wp_inside. by eapply (end_tx (S := S)).
  - intros t n H Hu Hn Hr. apply wp_inside. by apply (bread_tx (S := S)).
  - intros t n r H Hn Hd. apply wp_inside. by apply (brelse_tx (S := S)).
  - intros t n r H Hn Hs. apply wp_inside. by apply (log_write_tx (S := S)).
  - intros t n r. apply (data_tx (S := S)).
  - intros t n r x. apply (set_data_tx (S := S)).
Defined.
End WithCons.
