(* ===== verification/Kbd.v ===== *)
(** * Keyboard and serial port

    Models [kbd.c] with the tables of [kbd.h], and [uart.c]: the devices the characters of
    the console come from.  A status register says whether its device has a code to
    deliver, and reading the data register takes it. *)

From Stdlib Require Import ZArith Lia.
From S2P Require Import Prelude Spinlock Console.

(** ** The tables *)

Definition NO : Z := 0.
Definition SHIFT : Z := Z.shiftl 1 0.
Definition CTL : Z := Z.shiftl 1 1.
Definition ALT : Z := Z.shiftl 1 2.
Definition CAPSLOCK : Z := Z.shiftl 1 3.
Definition NUMLOCK : Z := Z.shiftl 1 4.
Definition SCROLLLOCK : Z := Z.shiftl 1 5.
Definition E0ESC : Z := Z.shiftl 1 6.

Definition KEY_HOME : Z := 0xE0.
Definition KEY_END : Z := 0xE1.
Definition KEY_UP : Z := 0xE2.
Definition KEY_DN : Z := 0xE3.
Definition KEY_LF : Z := 0xE4.
Definition KEY_RT : Z := 0xE5.
Definition KEY_PGUP : Z := 0xE6.
Definition KEY_PGDN : Z := 0xE7.
Definition KEY_INS : Z := 0xE8.
Definition KEY_DEL : Z := 0xE9.

(** [C(x)] on the characters of a string. *)
Definition ctl (s : string) : list Z := (fun x => x - 64) <$> chars s.

(** An array of 256 bytes: the first elements in order, and designated ones. *)
Definition table (l : list Z) (des : list (nat * Z)) : list Z :=
  foldr (fun e t => <[e.1 := e.2]> t) (take 256 (l ++ replicate 256 NO)) des.

Definition shiftcode : list Z :=
  table [] [(0x1D, CTL); (0x2A, SHIFT); (0x36, SHIFT); (0x38, ALT); (0x9D, CTL); (0xB8, ALT)]%nat.
Definition togglecode : list Z := table [] [(0x3A, CAPSLOCK); (0x45, NUMLOCK); (0x46, SCROLLLOCK)]%nat.

Definition special (enter div : Z) : list (nat * Z) :=
  [(0x9C, enter); (0xB5, div); (0xC8, KEY_UP); (0xD0, KEY_DN); (0xC9, KEY_PGUP); (0xD1, KEY_PGDN); (0xCB, KEY_LF); (0xCD, KEY_RT);
   (0x97, KEY_HOME); (0xCF, KEY_END); (0xD2, KEY_INS); (0xD3, KEY_DEL)]%nat.

Definition normalmap : list Z := table (
  [NO; 0x1B] ++ chars "123456" ++
  chars "7890-=" ++ [8; 9] ++
  chars "qwertyui" ++
  chars "op[]" ++ [10; NO] ++ chars "as" ++
  chars "dfghjkl;" ++
  chars "'`" ++ [NO] ++ chars "\zxcv" ++
  chars "bnm,./" ++ [NO] ++ chars "*" ++
  [NO; 32; NO; NO; NO; NO; NO; NO] ++
  [NO; NO; NO; NO; NO; NO; NO] ++ chars "7" ++
  chars "89-456+1" ++
  chars "230." ++ [NO; NO; NO; NO]) (special 10 47).

Definition shiftmap : list Z := table (
  [NO; 0x1B] ++ chars "!@#$%^" ++
  chars "&*()_+" ++ [8; 9] ++
  chars "QWERTYUI" ++
  chars "OP{}" ++ [10; NO] ++ chars "AS" ++
  chars "DFGHJKL:" ++
  [34] ++ chars "~" ++ [NO] ++ chars "|ZXCV" ++
  chars "BNM<>?" ++ [NO] ++ chars "*" ++
  [NO; 32; NO; NO; NO; NO; NO; NO] ++
  [NO; NO; NO; NO; NO; NO; NO] ++ chars "7" ++
  chars "89-456+1" ++
  chars "230." ++ [NO; NO; NO; NO]) (special 10 47).

(** [C('/')] is negative and wraps around to a byte. *)
Definition ctlmap : list Z := table (
  [NO; NO; NO; NO; NO; NO; NO; NO] ++
  [NO; NO; NO; NO; NO; NO; NO; NO] ++
  ctl "QWERTYUI" ++
  ctl "OP" ++ [NO; NO; 13; NO] ++ ctl "AS" ++
  ctl "DFGHJKL" ++ [NO] ++
  [NO; NO; NO] ++ ctl "\ZXCV" ++
  ctl "BNM" ++ [NO; NO; u8 (47 - 64); NO; NO]) (special 13 (u8 (47 - 64))).

Definition charcode (k : Z) : list Z := if k =? 0 then normalmap else if k =? 1 then shiftmap else ctlmap.

Definition at_code (t : list Z) (data : Z) : Z := default 0 (t !! Z.to_nat data).

(** ** [kbd.c] *)

(** A scan code in the state [shift]: the new state and the result. *)
Definition kbd_step (shift data : Z) : Z * Z :=
  if data =? 0xE0 then (Z.lor shift E0ESC, 0)
  else if negb (Z.land data 0x80 =? 0) then
    let data := if negb (Z.land shift E0ESC =? 0) then data else Z.land data 0x7F in
    (Z.ldiff shift (Z.lor (at_code shiftcode data) E0ESC), 0)
  else
    let esc := negb (Z.land shift E0ESC =? 0) in
    let data := if esc then Z.lor data 0x80 else data in
    let shift := if esc then Z.ldiff shift E0ESC else shift in
    let shift := Z.lor shift (at_code shiftcode data) in
    let shift := Z.lxor shift (at_code togglecode data) in
    let c := at_code (charcode (Z.land shift (Z.lor CTL SHIFT))) data in
    let c := if negb (Z.land shift CAPSLOCK =? 0) then
               if (97 <=? c) && (c <=? 122) then c + (65 - 97)
               else if (65 <=? c) && (c <=? 90) then c + (97 - 65) else c
             else c in
    (shift, c).

Section Devices.
Context {S : Type} `{!HasCtx S, !HasCons S}.

Definition kbdgetc : M S Z :=
  d <- gets cons ;;
  match kbd_in d with
  | [] => ret (-1)
  | data :: l =>
      let r := kbd_step (kbd_shift d) data in
      upd_cons (set_kbd l (fst r)) ;;
      ret (snd r)
  end.

(** ** [uart.c] *)

(** [status] is the line status register.  The writes that configure the port, and the
    enabling of its interrupt, are not visible here. *)
Definition uartinit (status : Z) : M S unit :=
  if status =? 0xFF then ret tt else
  upd_cons (set_uart 1) ;;
  upd_cons (fun d => set_com_in (tail (com_in d)) d) ;;
  forM (chars "xv6..." ++ [10]) uartputc.

Definition uartgetc : M S Z :=
  d <- gets cons ;;
  if uart d =? 0 then ret (-1) else
  match com_in d with
  | [] => ret (-1)
  | c :: l => upd_cons (set_com_in l) ;; ret c
  end.

Definition kbdintr (fuel : nat) (procdump : M S unit) : M S unit := consoleintr fuel procdump kbdgetc.
Definition uartintr (fuel : nat) (procdump : M S unit) : M S unit := consoleintr fuel procdump uartgetc.
End Devices.
