(* ===== verification/ConsoleSpec.v ===== *)
(** * What the console does

    The screen and the serial port as the receivers of characters, and the input buffer
    as a queue of finished characters with the line that is being edited behind it. *)

From Stdlib Require Import ZArith Lia.
From S2P Require Import Prelude Spinlock Sleeplock Bytes Txn Fs Console Kbd.

(** ** Output *)

(** A cursor on the screen, 25 rows of 80 cells. *)
Definition screen_ok (d : consd) : Prop := (2000 <= length (crt d))%nat /\ 0 <= crtpos d < 2000.

(** What a character sends to the serial port. *)
Definition serial (d : consd) (c : Z) : list Z :=
  if uart d =? 0 then [] else if c =? BACKSPACE then [8; 32; 8] else [u8 c].

(** The characters [l] were put on the console, and nothing else changed. *)
Record emits (l : list Z) (d d' : consd) : Prop := {
  em_sent : sent d' = sent d ++ concat (serial d <$> l);
  em_screen : screen_ok d';
  em_rest : d' = set_sent (sent d') (set_crt (crt d') (set_crtpos (crtpos d') d))
}.

(** The console works. *)
Definition cons_live (d : consd) : Prop := panicked d = 0 /\ screen_ok d.

Lemma emits_nil d : screen_ok d -> emits [] d d.
Proof. intros H. split; [by rewrite app_nil_r|done|by destruct d]. Qed.

Lemma emits_app l1 l2 d1 d2 d3 : emits l1 d1 d2 -> emits l2 d2 d3 -> emits (l1 ++ l2) d1 d3.
Proof.
  intros [A1 B1 C1] [A2 B2 C2]. split; [|done|].
  - rewrite A2, A1, fmap_app, concat_app, (assoc_L (++)). do 2 f_equal. apply list_fmap_ext. intros i x _. unfold serial. by rewrite C1.
  - etrans; [exact C2|]. by rewrite C1.
Qed.

Lemma emits_live l d d' : emits l d d' -> cons_live d -> cons_live d'.
Proof. intros [_ Hs Hr] [Hp _]. split; [by rewrite Hr|done]. Qed.

Lemma emits_input l d d' : emits l d d' -> input d' = input d.
Proof. intros [_ _ Hr]. by rewrite Hr. Qed.

Section Output.
Context {S : Type} `{!HasCtx S, !HasCons S}.
Implicit Types s : S.

Lemma upd_cons_run f s : upd_cons f s = Ret tt (set_cons (f (cons s)) s).
Proof. done. Qed.

Lemma set_crt_crt (d : consd) : set_crt (crt d) d = d.
Proof. by destruct d. Qed.

Lemma crt_store_run pos v s : 0 <= pos < Z.of_nat (length (crt (cons s))) ->
  crt_store pos v s = Ret tt (set_cons (set_crt (<[Z.to_nat pos := v]> (crt (cons s))) (cons s)) s).
Proof.
  intros H. unfold crt_store. rewrite bind_gets.
  by rewrite (proj2 (Z.leb_le _ _)), (proj2 (Z.ltb_lt _ _)) by lia.
Qed.

Lemma length_scrolled pos l : (2000 <= length l)%nat -> 0 <= pos <= 1920 -> length (scrolled pos l) = length l.
Proof.
  intros Hl Hp. assert (length (patch 0 (sub 80 (23 * 80) l) l) = length l) as H0.
  { apply length_patch. unfold sub. rewrite length_take, length_drop. lia. }
  unfold scrolled. rewrite length_patch; [done|]. rewrite length_replicate, H0. lia.
Qed.

(** The screen after [c], and the cursor. *)
Definition cga (c : Z) (l : list Z) (pos : Z) : list Z * Z :=
  let '(l, pos) := if c =? 10 then (l, pos + (80 - pos mod 80))
    else if c =? BACKSPACE then (l, if 0 <? pos then pos - 1 else pos)
    else (<[Z.to_nat pos := Z.lor (Z.land c 0xff) 0x0700]> l, pos + 1) in
  let '(l, pos) := if 24 <=? pos / 80 then (scrolled (pos - 80) l, pos - 80) else (l, pos) in
  (<[Z.to_nat pos := Z.lor 32 0x0700]> l, pos).

Lemma cga_ok c l pos : (2000 <= length l)%nat -> 0 <= pos < 2000 ->
  length (fst (cga c l pos)) = length l /\ 0 <= snd (cga c l pos) <= 1920.
Proof.
  intros Hl Hp. unfold cga.
  assert (exists l1 p1, (if c =? 10 then (l, pos + (80 - pos mod 80)) else if c =? BACKSPACE then (l, if 0 <? pos then pos - 1 else pos)
    else (<[Z.to_nat pos := Z.lor (Z.land c 0xff) 0x0700]> l, pos + 1)) = (l1, p1) /\ length l1 = length l /\ 0 <= p1 <= 2000) as (l1 & p1 & -> & L1 & P1).
  { destruct (c =? 10); [eexists _, _; split_and!; [done|done|Z.div_mod_to_equations; lia..]|]. destruct (c =? BACKSPACE).
    - eexists _, _. split_and!; [done|done|destruct (Z.ltb_spec 0 pos); lia..].
    - eexists _, _. split_and!; [done|by rewrite length_insert|lia..]. }
  destruct (Z.leb_spec 24 (p1 / 80)); cbn [fst snd].
  - rewrite length_insert, length_scrolled by (Z.div_mod_to_equations; lia). split; [done|]. Z.div_mod_to_equations. lia.
  - rewrite length_insert. split; [done|]. Z.div_mod_to_equations. lia.
Qed.

Lemma cgaputc_run c s : screen_ok (cons s) ->
  let r := cga c (crt (cons s)) (crtpos (cons s)) in
  cgaputc c s = Ret tt (set_cons (set_crt (fst r) (set_crtpos (snd r) (cons s))) s).
Proof.
  intros [Hl Hp] r. subst r. unfold cgaputc, cga. rewrite bind_gets.
  set (d := cons s) in *. set (l := crt d) in *. set (pos := crtpos d) in *.
  assert (exists l1 p1, (if c =? 10 then (l, pos + (80 - pos mod 80)) else if c =? BACKSPACE then (l, if 0 <? pos then pos - 1 else pos)
    else (<[Z.to_nat pos := Z.lor (Z.land c 0xff) 0x0700]> l, pos + 1)) = (l1, p1) /\ length l1 = length l /\ 0 <= p1 <= 2000 /\
    (if c =? 10 then ret (pos + (80 - pos mod 80)) else if c =? BACKSPACE then ret (if 0 <? pos then pos - 1 else pos)
     else crt_store pos (Z.lor (Z.land c 0xff) 0x0700) ;; ret (pos + 1)) s = Ret p1 (set_cons (set_crt l1 d) s)) as (l1 & p1 & -> & L1 & P1 & E1).
  { assert (Hs : s = set_cons (set_crt l d) s) by (unfold l, d; by rewrite set_crt_crt, set_cons_cons).
    destruct (c =? 10); [eexists _, _; split_and!; [done|done|Z.div_mod_to_equations; lia..|by rewrite <- Hs]|]. destruct (c =? BACKSPACE).
    - eexists _, _. split_and!; [done|done|destruct (Z.ltb_spec 0 pos); lia..|by rewrite <- Hs].
    - eexists _, _. split_and!; [done|by rewrite length_insert|lia..|]. assert (Hb : 0 <= pos < Z.of_nat (length (crt (cons s)))) by (fold d; fold l; lia).
      by rewrite (bind_Ret _ _ _ _ _ (crt_store_run pos _ s Hb)). }
  rewrite (bind_Ret _ _ _ _ _ E1). rewrite (proj2 (Z.ltb_ge p1 0)), (proj2 (Z.ltb_ge (25 * 80) p1)) by lia. cbn [orb].
  set (s1 := set_cons (set_crt l1 d) s).
  assert (exists l2 p2, (if 24 <=? p1 / 80 then (scrolled (p1 - 80) l1, p1 - 80) else (l1, p1)) = (l2, p2) /\ length l2 = length l /\ 0 <= p2 <= 1920 /\
    (if 24 <=? p1 / 80 then upd_cons (fun d => set_crt (scrolled (p1 - 80) (crt d)) d) ;; ret (p1 - 80) else ret p1) s1 = Ret p2 (set_cons (set_crt l2 d) s)) as (l2 & p2 & -> & L2 & P2 & E2).
  { destruct (Z.leb_spec 24 (p1 / 80)).
    - eexists _, _. split_and!; [done|rewrite length_scrolled by (Z.div_mod_to_equations; lia); lia|Z.div_mod_to_equations; lia..|].
      unfold bind, upd_cons, modify, s1. cbn [rbind]. by rewrite cons_set, set_cons_set.
    - eexists _, _. split_and!; [done|lia|Z.div_mod_to_equations; lia..|done]. }
  rewrite (bind_Ret _ _ _ _ _ E2). unfold upd_cons at 1. rewrite bind_modify, cons_set, set_cons_set.
  rewrite crt_store_run by (rewrite cons_set; cbn; lia). rewrite cons_set, set_cons_set. cbn [fst snd]. do 2 f_equal.
  unfold set_crt, set_crtpos. cbn. unfold u16. by rewrite Z.mod_small by lia.
Qed.

Lemma uartputc_off c s : uart (cons s) = 0 -> uartputc c s = Ret tt s.
Proof. intros H. unfold uartputc. by rewrite bind_gets, H. Qed.

Lemma uartputc_on c s : uart (cons s) <> 0 -> uartputc c s = Ret tt (set_cons (set_sent (sent (cons s) ++ [u8 c]) (cons s)) s).
Proof. intros H. unfold uartputc. by rewrite bind_gets, (proj2 (Z.eqb_neq _ _) H). Qed.

(** A character goes to the serial port and to the screen. *)
Lemma consputc_run c s : cons_live (cons s) -> exists d', consputc c s = Ret tt (set_cons d' s) /\ emits [c] (cons s) d' /\
  (crt d', crtpos d') = cga c (crt (cons s)) (crtpos (cons s)).
Proof.
  intros [Hp Hs]. unfold consputc. rewrite bind_gets, Hp. cbn [negb Z.eqb]. set (d1 := set_sent (sent (cons s) ++ serial (cons s) c) (cons s)).
  assert (H1 : (if c =? BACKSPACE then uartputc 8 ;; uartputc 32 ;; uartputc 8 else uartputc c) s = Ret tt (set_cons d1 s)).
  { unfold d1, serial. destruct (Z.eqb_spec (uart (cons s)) 0) as [E|E].
    - rewrite app_nil_r. replace (set_sent (sent (cons s)) (cons s)) with (cons s) by (by destruct (cons s)). rewrite set_cons_cons.
      destruct (c =? BACKSPACE); [|by apply uartputc_off]. rewrite !(bind_Ret _ _ _ _ _ (uartputc_off _ _ E)). by apply uartputc_off.
    - destruct (c =? BACKSPACE); [|by apply uartputc_on]. rewrite (bind_Ret _ _ _ _ _ (uartputc_on _ _ E)). set (s1 := set_cons _ s).
      assert (E1 : uart (cons s1) <> 0) by (unfold s1; by rewrite cons_set). rewrite (bind_Ret _ _ _ _ _ (uartputc_on _ _ E1)).
      rewrite uartputc_on by (by rewrite cons_set). unfold s1.
      rewrite !cons_set, !set_cons_set. cbn [sent set_sent]. by rewrite <- !(assoc_L (++)). }
  rewrite (bind_Ret _ _ _ _ _ H1). rewrite cgaputc_run by (by rewrite cons_set). rewrite cons_set, set_cons_set. change (crt d1) with (crt (cons s)). change (crtpos d1) with (crtpos (cons s)).
  destruct (cga_ok c _ _ (proj1 Hs) (proj2 Hs)) as [Hl Hpos]. eexists. split_and!; [reflexivity| |by destruct (cga c (crt (cons s)) (crtpos (cons s)))].
  split; cbn [sent set_crt set_crtpos set_sent crt crtpos d1]; [change (concat (serial (cons s) <$> [c])) with (serial (cons s) c ++ []); by rewrite app_nil_r| |done]. destruct Hs. split; cbn; lia.
Qed.

Lemma consputs_run l s : cons_live (cons s) -> exists d', consputs l s = Ret tt (set_cons d' s) /\ emits l (cons s) d'.
Proof.
  revert s. induction l as [|c l IH]; intros s Hl; cbn [consputs forM].
  - exists (cons s). split; [by rewrite set_cons_cons|]. apply emits_nil, Hl.
  - destruct (consputc_run c s Hl) as (d1 & E1 & M1 & _). unfold consputs. cbn [forM]. rewrite (bind_Ret _ _ _ _ _ E1).
    destruct (IH (set_cons d1 s)) as (d2 & E2 & M2); [rewrite cons_set; by eapply emits_live|]. rewrite cons_set in M2. rewrite set_cons_set in E2.
    exists d2. split; [exact E2|]. by eapply (emits_app [c]).
Qed.
End Output.

(** ** Numerals *)

Definition undigit (ch : Z) : Z := if ch <=? 57 then ch - 48 else if ch <=? 70 then ch - 55 else ch - 87.
Definition is_digits (dg : list Z) : Prop := Forall (fun n => 48 <= default 0 (dg !! n) /\ undigit (default 0 (dg !! n)) = Z.of_nat n) (seq 0 16).
(** The value of the digits, last digit first, and of a printed numeral. *)
Definition val (base : Z) (l : list Z) : Z := foldr (fun ch v => undigit ch + base * v) 0 l.
Definition numeral (base : Z) (l : list Z) : Z :=
  match l with
  | 45 :: l => - val base (rev l)
  | _ => val base (rev l)
  end.

Lemma digits_ok : is_digits digits.
Proof. repeat constructor; vm_compute; discriminate || reflexivity. Qed.

Section Numerals.
Context (dg : list Z) (Hdg : is_digits dg).

Lemma undigit_digit k : 0 <= k < 16 -> 48 <= default 0 (dg !! Z.to_nat k) /\ undigit (default 0 (dg !! Z.to_nat k)) = k.
Proof using Hdg.
  intros Hk. assert (H := Hdg). unfold is_digits in H. rewrite Forall_forall in H. destruct (H (Z.to_nat k)) as [H1 H2]; [apply elem_of_seq; lia|]. split; [done|]. lia.
Qed.

Lemma digit_loop_val fuel x base : 2 <= base <= 16 -> 0 <= x < base ^ Z.of_nat fuel -> (0 < fuel)%nat ->
  val base (digit_loop dg fuel x base) = x /\ Forall (fun ch => 48 <= ch) (digit_loop dg fuel x base).
Proof using Hdg.
  revert x. induction fuel as [|fuel IH]; intros x Hb Hx Hf; [lia|]. cbn [digit_loop]. assert (Hm := Z.mod_pos_bound x base ltac:(lia)).
  destruct (undigit_digit (x mod base) ltac:(lia)) as [D1 D2]. rewrite Nat2Z.inj_succ, Z.pow_succ_r in Hx by lia. destruct (Z.eqb_spec (x / base) 0) as [E|E].
  - cbn [val foldr]. split; [|by repeat constructor]. rewrite D2. pose proof (Z.div_mod x base ltac:(lia)). nia.
  - assert (Hq : 0 <= x / base < base ^ Z.of_nat fuel) by (split; [apply Z.div_pos; lia|apply Z.div_lt_upper_bound; lia]).
    assert ((0 < fuel)%nat) by (destruct fuel; [cbn in Hq; lia|lia]).
    destruct (IH (x / base) Hb Hq H) as [V F]. split; [|by constructor]. unfold val in V |- *. cbn [foldr]. rewrite V, D2. pose proof (Z.div_mod x base ltac:(lia)). lia.
Qed.

Lemma digit_loop_length fuel k x base : 2 <= base -> 0 <= x < base ^ Z.of_nat k -> (0 < k)%nat -> (length (digit_loop dg fuel x base) <= k)%nat.
Proof using Type.
  clear Hdg.
  revert k x. induction fuel as [|fuel IH]; intros k x Hb Hx Hk; cbn [digit_loop length]; [lia|]. destruct (Z.eqb_spec (x / base) 0) as [E|E]; cbn [length]; [lia|].
  destruct k as [|k]; [lia|]. rewrite Nat2Z.inj_succ, Z.pow_succ_r in Hx by lia.
  assert (Hq : 0 <= x / base < base ^ Z.of_nat k) by (split; [apply Z.div_pos; lia|apply Z.div_lt_upper_bound; lia]).
  assert ((0 < k)%nat) by (destruct k; [cbn in Hq; lia|lia]). specialize (IH k (x / base) Hb Hq H). lia.
Qed.

Lemma numeral_digits base l : l <> [] -> Forall (fun ch => 48 <= ch) l -> numeral base (rev l) = val base l /\ numeral base (rev (l ++ [45])) = - val base l.
Proof using Type.
  clear Hdg.
  intros Hne Hf. rewrite rev_app_distr. cbn [rev app numeral]. rewrite rev_involutive. split; [|done].
  destruct (rev l) as [|ch r] eqn:E; [apply (f_equal (@rev Z)) in E; rewrite rev_involutive in E; done|].
  assert (48 <= ch). { apply (Forall_at _ _ _ Hf). assert (H : ch ∈ rev l) by (rewrite E; left). apply list_elem_of_In, in_rev, list_elem_of_In. by rewrite E; left. }
  apply (f_equal (@rev Z)) in E. rewrite rev_involutive in E. rewrite E. unfold numeral. destruct ch as [|p|p]; try lia. do 6 (destruct p as [p|p|]; try lia; try done).
Qed.

(** What [printint] leaves in [buf], read backwards. *)
Lemma int_buf_spec xx base sign : 2 <= base <= 16 -> - 2 ^ 31 <= xx < 2 ^ 31 ->
  numeral base (rev (int_buf dg xx base sign)) = if sign then xx else u32 xx.
Proof using Hdg.
  intros Hb Hx. unfold int_buf. set (neg := sign && (xx <? 0)). set (x := u32 (if neg then - xx else xx)).
  assert (Hr : 0 <= x < base ^ Z.of_nat 32).
  { assert (H := u32_range (if neg then - xx else xx)). fold x in H. unfold is_u32 in H. pose proof (Z.pow_le_mono_l 2 base 32 ltac:(lia)). cbn in *. lia. }
  destruct (digit_loop_val 32 x base Hb Hr ltac:(lia)) as [V F].
  destruct (numeral_digits base (digit_loop dg 32 x base)) as [N1 N2]; [done|done|]. subst neg. destruct sign; cbn [andb] in *.
  - destruct (Z.ltb_spec xx 0); [rewrite N2, V|rewrite app_nil_r, N1, V]; unfold x; rewrite u32_small by (unfold is_u32; lia); lia.
  - by rewrite app_nil_r, N1, V.
Qed.

Lemma int_buf_length xx base sign k : 2 <= base -> 2 ^ 32 <= base ^ Z.of_nat k -> (0 < k)%nat -> (length (int_buf dg xx base sign) <= k + (if sign then 1 else 0))%nat.
Proof using Type.
  clear Hdg.
  intros Hb Hk H0. unfold int_buf. rewrite length_app. set (x := u32 _).
  assert (Hx := u32_range (if sign && (xx <? 0) then - xx else xx)). fold x in Hx. unfold is_u32 in Hx.
  pose proof (digit_loop_length 32 k x base Hb ltac:(lia) H0). destruct sign; cbn [andb]; [destruct (xx <? 0); cbn [length]; lia|cbn [length]; lia].
Qed.

End Numerals.

(** ** The input buffer *)

(** [q] is finished input, [l] the line behind it. *)
Record input_rep (b : inputbuf) (q l : list Z) : Prop := {
  in_buf : length (ibuf b) = 128%nat;
  in_r : is_u32 (ir b);
  in_w : iw b = u32 (ir b + Z.of_nat (length q));
  in_e : ie b = u32 (ir b + Z.of_nat (length q + length l));
  in_len : (length q + length l <= 128)%nat;
  in_at : forall k x, (q ++ l) !! k = Some x -> ibuf b !! Z.to_nat ((ir b + Z.of_nat k) mod 128) = Some x
}.

Lemma u32_mod_128 z : u32 z mod 128 = z mod 128.
Proof. unfold u32. apply Z.mod_mod_divide. by exists 33554432. Qed.

Lemma input_empty b q l : input_rep b q l -> (ir b =? iw b) = bool_decide (q = []).
Proof.
  intros [_ Hr Hw _ Hl _]. rewrite Hw. case_bool_decide as H.
  - subst q. rewrite Z.add_0_r, u32_small by done. apply Z.eqb_refl.
  - apply Z.eqb_neq. rewrite <- (u32_small (ir b)) at 1 by done. destruct q as [|c q]; [done|]. cbn [length] in *. intros Heq%u32_close; lia.
Qed.

Lemma input_noline b q l : input_rep b q l -> (ie b =? iw b) = bool_decide (l = []).
Proof.
  intros [_ Hr Hw He Hl _]. rewrite Hw, He. case_bool_decide as H.
  - subst l. rewrite Nat.add_0_r. apply Z.eqb_refl.
  - apply Z.eqb_neq. destruct l as [|c l]; [done|]. cbn [length] in *. intros Heq%u32_close; lia.
Qed.

Lemma input_used b q l : input_rep b q l -> u32 (ie b - ir b) = Z.of_nat (length q + length l).
Proof.
  intros [_ Hr _ He Hl _]. rewrite He, u32_sub_l. rewrite u32_small by (unfold is_u32; lia). lia.
Qed.

Lemma input_front b c q l : input_rep b (c :: q) l -> buf_at b (ir b) = Some c.
Proof.
  intros H. unfold buf_at, INPUT_BUF. rewrite u32_mod_128. rewrite <- (in_at _ _ _ H 0%nat c eq_refl). by rewrite Z.add_0_r.
Qed.

Lemma input_last b q l x : input_rep b q (l ++ [x]) -> buf_at b (ie b - 1) = Some x.
Proof.
  intros H. unfold buf_at, INPUT_BUF. rewrite (in_e _ _ _ H), u32_sub_l, u32_mod_128. rewrite <- (in_at _ _ _ H (length q + length l)%nat x).
  - do 2 f_equal. rewrite length_app. cbn. f_equal. lia.
  - rewrite (assoc_L (++)), lookup_app_r by (rewrite length_app; lia). by rewrite length_app, Nat.sub_diag.
Qed.

(** A character taken by the reader. *)
Lemma input_take b c q l : input_rep b (c :: q) l -> input_rep (mkinput (ibuf b) (u32 (ir b + 1)) (iw b) (ie b)) q l.
Proof.
  intros [Hb Hr Hw He Hl Ha]. cbn [length] in *. split; cbn [ibuf ir iw ie]; [done|apply u32_range|rewrite Hw, u32_add_l; f_equal; lia|rewrite He, u32_add_l; f_equal; lia|lia|].
  intros k x Hk. rewrite <- (Ha (Datatypes.S k) x Hk). do 2 f_equal. rewrite <- (Zplus_mod_idemp_l (u32 _)), u32_mod_128, Zplus_mod_idemp_l. f_equal. lia.
Qed.

(** And given back. *)
Lemma input_untake b c q l : input_rep b (c :: q) l -> mkinput (ibuf b) (u32 (u32 (ir b + 1) - 1)) (iw b) (ie b) = b.
Proof.
  intros H. rewrite u32_sub_l. replace (ir b + 1 - 1) with (ir b) by lia. rewrite u32_small by apply H. by destruct b.
Qed.

(** The last character of the line erased. *)
Lemma input_erase b q l x : input_rep b q (l ++ [x]) -> input_rep (set_e (u32 (ie b - 1)) b) q l.
Proof.
  intros [Hb Hr Hw He Hl Ha]. rewrite length_app in *. cbn [length] in *. split; cbn [set_e ibuf ir iw ie]; [done|done|done|rewrite He, u32_sub_l; f_equal; lia|lia|].
  intros k y Hk. apply Ha. rewrite (assoc_L (++)). by apply lookup_app_l_Some.
Qed.

(** A character put behind the line. *)
Lemma input_put b q l x : input_rep b q l -> (length q + length l < 128)%nat ->
  input_rep (mkinput (<[Z.to_nat (ie b mod INPUT_BUF) := x]> (ibuf b)) (ir b) (iw b) (u32 (ie b + 1))) q (l ++ [x]).
Proof.
  intros [Hb Hr Hw He Hl Ha] Hlt. unfold INPUT_BUF. rewrite He, u32_mod_128. unfold is_u32 in Hr.
  split; cbn [ibuf ir iw ie]; [by rewrite length_insert|done|done|rewrite u32_add_l, length_app; cbn; f_equal; lia|rewrite length_app; cbn; lia|].
  intros k y Hk. rewrite (assoc_L (++)) in Hk. destruct (decide (k < length (q ++ l))%nat) as [Hlk|Hlk].
  - rewrite lookup_app_l in Hk by done. rewrite length_app in Hlk. rewrite list_lookup_insert_ne; [by apply Ha|].
    intros Heq%Z2Nat.inj; [|Z.div_mod_to_equations; lia..]. Z.div_mod_to_equations. lia.
  - rewrite lookup_app_r in Hk by lia. apply list_lookup_singleton_Some in Hk as [Hk <-]. rewrite length_app in *. replace k with (length q + length l)%nat by lia.
    apply list_lookup_insert_eq. Z.div_mod_to_equations. lia.
Qed.

(** The line finished. *)
Lemma input_commit b q l : input_rep b q l -> input_rep (mkinput (ibuf b) (ir b) (ie b) (ie b)) (q ++ l) [].
Proof.
  intros [Hb Hr Hw He Hl Ha]. split; cbn [ibuf ir iw ie]; [done|done|by rewrite length_app|rewrite length_app, Nat.add_0_r; done|rewrite length_app; cbn; lia|].
  intros k x. rewrite app_nil_r. apply Ha.
Qed.

(** ** Editing *)

(** Finished input and the line behind it. *)
Definition lines : Type := list Z * list Z.

Definition cr (c : Z) : Z := if c =? 13 then 10 else c.
(** A character that goes into the line, and one that finishes it. *)
Definition accepts (c : Z) (x : lines) : bool := negb (c =? 0) && (length (fst x) + length (snd x) <? 128)%nat.
Definition finishes (c : Z) (x : lines) : bool := (cr c =? 10) || (cr c =? 4) || (length (fst x) + length (snd x) + 1 =? 128)%nat.

(** What a key does to the input, and what it puts on the console. *)
Definition edit (x : lines) (c : Z) : lines :=
  let '(q, l) := x in
  if c =? 16 then x else
  if c =? 21 then (q, []) else
  if (c =? 8) || (c =? 127) then (q, removelast l) else
  if accepts c x then if finishes c x then (q ++ l ++ [cr c], []) else (q, l ++ [cr c])
  else x.
Definition echo (x : lines) (c : Z) : list Z :=
  let '(q, l) := x in
  if c =? 16 then [] else
  if c =? 21 then replicate (length l) BACKSPACE else
  if (c =? 8) || (c =? 127) then if decide (l = []) then [] else [BACKSPACE] else
  if accepts c x then [cr c] else [].
Fixpoint echoes (x : lines) (ks : list Z) : list Z :=
  match ks with
  | [] => []
  | c :: ks => echo x c ++ echoes (edit x c) ks
  end.

Definition line_ok (l : list Z) : Prop := Forall (fun x => x <> 10) l.

(** The console [d'] has input [x], and [l] was put on it since it was [d]. *)
Definition edited (l : list Z) (x : lines) (d d' : consd) : Prop :=
  input_rep (input d') (fst x) (snd x) /\ line_ok (snd x) /\ emits l (set_input (input d') d) d'.

Lemma emits_set_input l b d d' : emits l d d' -> emits l (set_input b d) (set_input b d').
Proof. intros [A B C]. split; [exact A|exact B|]. rewrite C at 1. by destruct d. Qed.

Lemma edited_emits l l' b x d d1 d2 : emits l (set_input b d) d1 -> edited l' x d1 d2 -> edited (l ++ l') x d d2.
Proof.
  intros H1 (Hr & Hl & H2). split_and!; [done|done|]. eapply emits_app; [|exact H2]. apply (emits_set_input _ (input d2)) in H1. by destruct d.
Qed.

Section Keys.
Context {S : Type} `{!HasCtx S, !HasCons S}.
Implicit Types s : S.

Lemma upd_input_run f s : upd_input f s = Ret tt (set_cons (set_input (f (input (cons s))) (cons s)) s).
Proof. done. Qed.

(** A change of the input followed by a character. *)
Lemma input_putc f c s : cons_live (cons s) -> exists d', (upd_input f ;; consputc c) s = Ret tt (set_cons d' s) /\
  emits [c] (set_input (f (input (cons s))) (cons s)) d' /\ input d' = f (input (cons s)).
Proof.
  intros Hl. rewrite (bind_Ret _ _ _ _ _ (upd_input_run f s)). set (d := set_input _ _). destruct (consputc_run c (set_cons d s)) as (d' & E & M & _); [by rewrite cons_set|].
  exists d'. rewrite E, set_cons_set. rewrite cons_set in M. split_and!; [done|done|]. by rewrite (emits_input _ _ _ M).
Qed.

Lemma kill_line_run l : forall s q fuel, cons_live (cons s) -> input_rep (input (cons s)) q l -> line_ok l -> (length l < fuel)%nat ->
  exists d', kill_line fuel s = Ret tt (set_cons d' s) /\ edited (replicate (length l) BACKSPACE) (q, []) (cons s) d'.
Proof.
  induction l as [|x l IH] using rev_ind; intros s q fuel Hl Hr Hok Hf; (destruct fuel as [|fuel]; [lia|]); cbn [kill_line]; rewrite bind_gets, (input_noline _ _ _ Hr).
  - rewrite bool_decide_eq_true_2 by done. exists (cons s). split; [by rewrite set_cons_cons|]. split_and!; [done|done|]. cbn. replace (set_input _ _) with (cons s) by (by destruct (cons s)). apply emits_nil, Hl.
  - rewrite bool_decide_eq_false_2 by (by destruct l). rewrite (input_last _ _ _ _ Hr). apply Forall_app in Hok as [Hok Hx]. apply Forall_cons in Hx as [Hx _].
    rewrite (proj2 (Z.eqb_neq _ _) Hx). destruct (input_putc (fun b => set_e (u32 (ie b - 1)) b) BACKSPACE s Hl) as (d1 & E1 & M1 & I1). rewrite length_app in Hf. cbn in Hf.
    unfold bind in E1 |- *. cbn [upd_input upd_cons modify rbind] in E1 |- *. rewrite E1. cbn [rbind].
    destruct (IH (set_cons d1 s) q fuel) as (d2 & E2 & M2); [rewrite cons_set; eapply emits_live; [exact M1|exact Hl]|rewrite cons_set, I1; by eapply input_erase|done|lia|].
    rewrite cons_set in M2. rewrite set_cons_set in E2. exists d2. split; [exact E2|]. rewrite length_app. cbn [length]. rewrite Nat.add_1_r. cbn [replicate].
    exact (edited_emits [BACKSPACE] _ _ _ _ _ _ M1 M2).
Qed.

Definition wakes (x : lines) (c : Z) : bool :=
  negb ((c =? 16) || (c =? 21) || (c =? 8) || (c =? 127)) && accepts c x && finishes c x.

Lemma edited_same x s : cons_live (cons s) -> input_rep (input (cons s)) (fst x) (snd x) -> line_ok (snd x) -> edited [] x (cons s) (cons s).
Proof. intros Hl Hr Hok. split_and!; [done|done|]. replace (set_input _ _) with (cons s) by (by destruct (cons s)). apply emits_nil, Hl. Qed.

Lemma set_ctx_cons d s : set_ctx (ctx s) (set_cons d s) = set_cons d s.
Proof. by rewrite <- cons_swap, set_ctx_ctx. Qed.

(** A character accepted into the line. *)
Lemma accept_run x c s : cons_live (cons s) -> input_rep (input (cons s)) (fst x) (snd x) -> line_ok (snd x) -> is_byte c -> accepts c x = true ->
  exists d', (upd_input (fun b => mkinput (<[Z.to_nat (ie b mod INPUT_BUF) := u8 (cr c)]> (ibuf b)) (ir b) (iw b) (u32 (ie b + 1))) ;;
    consputc (cr c) ;;
    b <- gets (fun s => input (cons s)) ;;
    (if (cr c =? 10) || (cr c =? 4) || (ie b =? u32 (ir b + INPUT_BUF)) then
      upd_input (fun b => mkinput (ibuf b) (ir b) (ie b) (ie b)) ;; wakeup_on input_chan
    else ret tt)) s = Ret tt (set_ctx (if finishes c x then k_wake input_chan (ctx s) else ctx s) (set_cons d' s)) /\
    edited [cr c] (if finishes c x then (fst x ++ snd x ++ [cr c], []) else (fst x, snd x ++ [cr c])) (cons s) d'.
Proof.
  intros Hl Hr Hok Hc Hacc. destruct x as [q l]. cbn [fst snd] in *. unfold accepts in Hacc. cbn [fst snd] in Hacc. apply andb_true_iff in Hacc as [_ Hlt%Nat.ltb_lt].
  assert (Hcr : u8 (cr c) = cr c) by (apply u8_small; unfold cr, is_byte in *; destruct (c =? 13); lia). rewrite Hcr.
  destruct (input_putc (fun b => mkinput (<[Z.to_nat (ie b mod INPUT_BUF) := cr c]> (ibuf b)) (ir b) (iw b) (u32 (ie b + 1))) (cr c) s Hl) as (d1 & E1 & M1 & I1).
  unfold bind in E1 |- *. cbn [upd_input upd_cons modify rbind] in E1 |- *. rewrite E1. cbn [rbind gets].
  assert (R1 := input_put _ _ _ (cr c) Hr Hlt). rewrite <- I1 in R1. rewrite cons_set.
  assert (Hfull : (ie (input d1) =? u32 (ir (input d1) + INPUT_BUF)) = (length q + length l + 1 =? 128)%nat).
  { rewrite (in_e _ _ _ R1), length_app. cbn [length]. unfold INPUT_BUF. destruct (Nat.eqb_spec (length q + length l + 1) 128) as [E|E].
    - apply Z.eqb_eq. f_equal. lia.
    - apply Z.eqb_neq. intros H%u32_close; lia. }
  rewrite Hfull. unfold finishes. cbn [fst snd]. destruct ((cr c =? 10) || (cr c =? 4) || (length q + length l + 1 =? 128)%nat) eqn:Hfin.
  - unfold wakeup_on, modify. rewrite cons_set, set_cons_set, ctx_cons. eexists. split; [reflexivity|].
    split_and!; cbn [fst snd input set_input]; [|by constructor|].
    + by apply input_commit.
    + apply (emits_set_input _ (mkinput (ibuf (input d1)) (ir (input d1)) (ie (input d1)) (ie (input d1)))) in M1. by destruct (cons s).
  - exists d1. rewrite set_ctx_cons. split; [done|]. split_and!; cbn [fst snd]; [done| |by rewrite I1].
    apply Forall_app. split; [done|]. repeat constructor. apply orb_false_iff in Hfin as [[Hfin%Z.eqb_neq _]%orb_false_iff _]. done.
Qed.

Lemma console_key_run x c dump s : cons_live (cons s) -> input_rep (input (cons s)) (fst x) (snd x) -> line_ok (snd x) -> is_byte c ->
  exists d', console_key c dump s = Ret (dump || (c =? 16)) (set_ctx (if wakes x c then k_wake input_chan (ctx s) else ctx s) (set_cons d' s)) /\
    edited (echo x c) (edit x c) (cons s) d'.
Proof.
  intros Hl Hr Hok Hc. destruct x as [q l]. unfold console_key, edit, echo, wakes. assert (Hs := edited_same (q, l) s Hl Hr Hok). cbn [fst snd] in *.
  assert (Hid : set_ctx (ctx s) (set_cons (cons s) s) = s) by (by rewrite set_cons_cons, set_ctx_ctx).
  destruct (Z.eqb_spec c 16); cbn [orb negb andb]. { exists (cons s). rewrite Hid, orb_true_r. done. }
  rewrite orb_false_r. destruct (Z.eqb_spec c 21); cbn [orb negb andb].
  { destruct (kill_line_run l s q (Z.to_nat INPUT_BUF + 1) Hl Hr Hok) as (d' & E & M); [pose proof (in_len _ _ _ Hr); change (Z.to_nat INPUT_BUF) with 128%nat; lia|].
    exists d'. by rewrite (bind_Ret _ _ _ _ _ E), set_ctx_cons. }
  destruct ((c =? 8) || (c =? 127)) eqn:Hdel; cbn [negb andb].
  { rewrite bind_gets, (input_noline _ _ _ Hr). destruct l as [|y l _] using rev_ind; cbn [negb].
    - exists (cons s). rewrite bool_decide_eq_true_2 by done. rewrite decide_True by done. by rewrite Hid.
    - rewrite bool_decide_eq_false_2, decide_False, removelast_last by (by destruct l). cbn [negb].
      destruct (input_putc (fun b => set_e (u32 (ie b - 1)) b) BACKSPACE s Hl) as (d1 & E1 & M1 & I1). exists d1. rewrite (bind_Ret _ _ _ _ _ E1), set_ctx_cons.
      split; [done|]. split_and!; cbn [fst snd]; [rewrite I1; by eapply input_erase|by apply Forall_app in Hok as []|by rewrite I1]. }
  rewrite bind_gets, (input_used _ _ _ Hr). unfold INPUT_BUF at 1.
  replace (Z.of_nat (length q + length l) <? 128) with (length q + length l <? 128)%nat by (destruct (Nat.ltb_spec (length q + length l) 128); destruct (Z.ltb_spec (Z.of_nat (length q + length l)) 128); done || lia).
  change (negb (c =? 0) && (length q + length l <? 128)%nat) with (accepts c (q, l)). destruct (accepts c (q, l)) eqn:Hacc; cbn [andb].
  - fold (cr c). destruct (accept_run (q, l) c s Hl Hr Hok Hc Hacc) as (d' & E & M). exists d'. rewrite (bind_Ret _ _ _ _ _ E). split; [done|]. exact M.
  - exists (cons s). by rewrite Hid.
Qed.

(** ** Devices as sources of keys

    [src d] is the characters the device has to deliver.  Taking one changes nothing but
    the device, and what the console does leaves the device alone. *)
Definition same_console (d d' : consd) : Prop := d' = set_com_in (com_in d') (set_kbd (kbd_in d') (kbd_shift d') d).

Class KeySource (getc : M S Z) (src : consd -> list Z) : Prop := {
  ks_end : forall s, src (cons s) = [] -> getc s = Ret (-1) s;
  ks_next : forall s c l, src (cons s) = c :: l -> exists d', getc s = Ret c (set_cons d' s) /\ src d' = l /\ same_console (cons s) d';
  ks_keep : forall l b d d', emits l (set_input b d) d' -> src d' = src d
}.

(** The keys [ks] typed on the console [d]. *)
Record typed (x : lines) (ks : list Z) (d d' : consd) : Prop := {
  ty_input : input_rep (input d') (fst (foldl edit x ks)) (snd (foldl edit x ks));
  ty_line : line_ok (snd (foldl edit x ks));
  ty_sent : sent d' = sent d ++ concat (serial d <$> echoes x ks);
  ty_live : cons_live d'
}.

Fixpoint wake_count (x : lines) (ks : list Z) : nat :=
  match ks with
  | [] => 0
  | c :: ks => (if wakes x c then 1 else 0) + wake_count (edit x c) ks
  end.

Lemma intr_loop_run getc src `{!KeySource getc src} ks : forall s x dump, cons_live (cons s) -> input_rep (input (cons s)) (fst x) (snd x) -> line_ok (snd x) ->
  src (cons s) = ks -> Forall is_byte ks ->
  exists d', intr_loop (Datatypes.S (length ks)) getc dump s =
      Ret (dump || existsb (Z.eqb 16) ks) (set_ctx (Nat.iter (wake_count x ks) (k_wake input_chan) (ctx s)) (set_cons d' s)) /\
    typed x ks (cons s) d' /\ src d' = [].
Proof.
  induction ks as [|c ks IH]; intros s x dump Hl Hr Hok Hsrc Hb; cbn [intr_loop length].
  - rewrite (bind_Ret _ _ _ _ _ (ks_end s Hsrc)). cbn. exists (cons s). rewrite orb_false_r, set_ctx_cons, set_cons_cons. split_and!; [done| |done].
    split; [done|done|by rewrite app_nil_r|done].
  - apply Forall_cons in Hb as [Hc Hb]. destruct (ks_next s c ks Hsrc) as (d1 & E1 & Hs1 & Same). rewrite (bind_Ret _ _ _ _ _ E1).
    rewrite (proj2 (Z.ltb_ge c 0)) by (unfold is_byte in Hc; lia).
    assert (Hl1 : cons_live d1) by (rewrite Same; exact Hl).
    destruct (console_key_run x c dump (set_cons d1 s)) as (d2 & E2 & Hr2 & Hok2 & M2); [rewrite cons_set; done|rewrite cons_set, Same; done|done|done|].
    rewrite (bind_Ret _ _ _ _ _ E2). rewrite set_cons_set, ctx_cons, cons_set in *. assert (Hl2 : cons_live d2) by (eapply emits_live; [exact M2|exact Hl1]).
    set (s2 := set_ctx _ (set_cons d2 s)). assert (C2 : cons s2 = d2) by (unfold s2; by rewrite cons_ctx, cons_set).
    destruct (IH s2 (edit x c) (dump || (c =? 16))) as (d3 & E3 & [I3 L3 S3 V3] & Src3); rewrite ?C2; try done; [by rewrite (ks_keep _ _ _ _ M2)|].
    exists d3. rewrite C2 in S3. split_and!; [|split; [done|done| |done]|done].
    + etrans; [exact E3|]. cbn [existsb]. rewrite <- orb_assoc, (Z.eqb_sym c 16). f_equal. unfold s2. rewrite ctx_set_ctx, cons_swap, set_ctx_set, set_cons_set. f_equal.
      cbn [wake_count]. destruct (wakes x c); [|done]. cbn [Nat.add]. rewrite Nat.iter_succ_r. done.
    + rewrite S3, (em_sent _ _ _ M2). cbn [echoes]. rewrite fmap_app, concat_app, (assoc_L (++)).
      assert (U1 : forall ch, serial (set_input (input d2) d1) ch = serial (cons s) ch) by (intros ch; unfold serial; by rewrite Same).
      assert (U2 : forall ch, serial d2 ch = serial (cons s) ch) by (intros ch; unfold serial; rewrite (em_rest _ _ _ M2); cbn; by rewrite Same).
      change (sent (set_input (input d2) d1)) with (sent d1). replace (sent d1) with (sent (cons s)) by (by rewrite Same).
      f_equal; [f_equal|]; f_equal; apply list_fmap_ext; intros ? ch _; done.
Qed.

(** ** Reading *)

(** What [consoleread] takes from the finished input [q] with [n] of [target] bytes to go:
    the bytes and the rest of [q], or [None] if it has to wait for more. *)
Fixpoint take_line (n target : nat) (q : list Z) : option (list Z * list Z) :=
  match n, q with
  | O, _ => Some ([], q)
  | Datatypes.S _, [] => None
  | Datatypes.S n', c :: q' =>
      if c =? 4 then Some ([], if (n <? target)%nat then q else q')
      else if c =? 10 then Some ([c], q')
      else (fun r => (c :: fst r, snd r)) <$> take_line n' target q'
  end.

Lemma wait_input_ready fuel s q l c : input_rep (input (cons s)) (c :: q) l -> wait_input (Datatypes.S fuel) s = Ret true s.
Proof. intros Hr. cbn [wait_input]. rewrite bind_gets, (input_empty _ _ _ Hr). done. Qed.

Lemma read_loop_run fuel n target : forall s q l bs rest, input_rep (input (cons s)) q l -> take_line n target q = Some (bs, rest) ->
  exists b', read_loop (Datatypes.S fuel) n target s = Ret (bs, true) (set_cons (set_input b' (cons s)) s) /\ input_rep b' rest l.
Proof.
  induction n as [|n IH]; intros s q l bs rest Hr Ht.
  - cbn in Ht. injection Ht as <- <-. exists (input (cons s)). cbn [read_loop]. replace (set_input _ _) with (cons s) by (by destruct (cons s)). by rewrite set_cons_cons.
  - cbn [take_line] in Ht. destruct q as [|c q]; [done|]. cbn [read_loop]. rewrite (bind_Ret _ _ _ _ _ (wait_input_ready fuel s q l c Hr)). cbn [negb].
    rewrite bind_gets, (input_front _ _ _ _ Hr), (bind_Ret _ _ _ _ _ (upd_input_run _ s)). assert (R1 := input_take _ _ _ _ Hr). set (b1 := mkinput _ _ _ _) in *. destruct (c =? 4).
    + destruct (Datatypes.S n <? target)%nat; injection Ht as <- <-.
      * rewrite (bind_Ret _ _ _ _ _ (upd_input_run _ _)), cons_set, set_cons_set. exists (input (cons s)). split; [|done]. unfold ret. do 2 f_equal.
        unfold set_input. cbn. by rewrite (input_untake _ _ _ _ Hr).
      * exists b1. done.
    + destruct (c =? 10); [injection Ht as <- <-; by exists b1|]. destruct (take_line n target q) as [[bs' rest']|] eqn:Et; [|done]. cbn in Ht. injection Ht as <- <-.
      destruct (IH (set_cons (set_input b1 (cons s)) s) q l bs' rest') as (b2 & E2 & R2); [by rewrite cons_set|done|].
      rewrite (bind_Ret _ _ _ _ _ E2), cons_set, set_cons_set. exists b2. done.
Qed.

(** Nothing to read: the process sleeps, and goes on with what has come in. *)
Lemma wp_read_sleeps fuel n target s k i c l : ctx s = k_acq cons_lk i k -> ctx_ok k i c -> locks k !! cons_lk = None ->
  input_rep (input (cons s)) [] l -> c_killed (cons s) = 0 ->
  wp (read_loop (Datatypes.S (Datatypes.S fuel)) (Datatypes.S n) target s) (fun _ _ => False) (fun s1 kk => s1 = set_ctx (k_slept input_chan cons_lk k) s /\
    forall t j cj q' l' bs rest, ctx_ok (ctx t) j cj -> locks (ctx t) !! cons_lk = None -> input_rep (input (cons t)) q' l' -> take_line (Datatypes.S n) target q' = Some (bs, rest) ->
      exists b', kk t = Ret (bs, true) (set_ctx (k_acq cons_lk j (ctx t)) (set_cons (set_input b' (cons t)) t)) /\ input_rep b' rest l').
Proof.
  intros Hk Hc Hlk Hr Hkill. cbn [read_loop]. apply wp_bind. cbn [wait_input]. apply wp_bind. cbn [gets wp]. rewrite (input_empty _ _ _ Hr), bool_decide_eq_true_2 by done. cbn [negb].
  apply wp_bind. eapply wp_myproc_; [rewrite Hk; by apply ctx_ok_acq|]. apply wp_bind. cbn [gets wp]. rewrite Hkill. cbn [negb Z.eqb]. apply wp_bind.
  eapply wp_sleep_on; [exact Hk|exact Hc|done|]. split; [done|]. intros t j cj q' l' bs rest Hcj Hlj Hrt Ht.
  rewrite (acq_step t j cj cons_lk Hcj Hlj). cbn [rbind]. set (t1 := set_ctx _ t). assert (Rt : input_rep (input (cons t1)) q' l') by (unfold t1; by rewrite cons_ctx).
  destruct (read_loop_run (Datatypes.S fuel) (Datatypes.S n) target t1 q' l' bs rest Rt Ht) as (b' & E & R). exists b'. split; [|done].
  unfold t1 in E at 2 3. rewrite cons_ctx, cons_swap in E. rewrite <- E. destruct q' as [|c' q']; [done|].
  assert (W := wait_input_ready fuel t1 q' l' c' Rt). cbn [wait_input] in W. rewrite W. cbn [rbind negb read_loop]. by rewrite (bind_Ret _ _ _ _ _ (wait_input_ready (Datatypes.S fuel) t1 q' l' c' Rt)).
Qed.
End Keys.
