(* ===== verification/ConsoleTheorems.v ===== *)
(** * The console: the theorems *)

From Stdlib Require Import ZArith Lia.
From S2P Require Import Prelude Spinlock Sleeplock Strings Blocks Bytes Bio BioTheorems Log Txn Demo Fs FsInode FsTheorems Console Kbd ConsoleSpec.

(** ** Printing *)

Section Print.
Context {S : Type} `{!HasCtx S, !HasCons S}.
Implicit Types s : S.

(** [printint] puts a numeral of at most 11 characters on the console, so
    its buffer of 16 is large enough, and reading the numeral gives the number back: in
    base 10 the signed number, [INT_MIN] included, and in base 16 its 32-bit pattern. *)
Theorem printint_numeral s xx :
  cons_live (cons s) -> - 2 ^ 31 <= xx < 2 ^ 31 ->
  (exists l d', printint xx 10 true s = Ret tt (set_cons d' s) /\ emits l (cons s) d' /\ numeral 10 l = xx /\ (length l <= 11)%nat) /\
  (exists l d', printint xx 16 false s = Ret tt (set_cons d' s) /\ emits l (cons s) d' /\ numeral 16 l = u32 xx /\ (length l <= 8)%nat).
Proof.
  intros Hl Hx. split.
  - pose proof (int_buf_length digits xx 10 true 10 ltac:(lia) ltac:(vm_compute; discriminate) ltac:(lia)) as Hlen. cbn [Nat.add] in Hlen. destruct (consputs_run (rev (int_buf digits xx 10 true)) s Hl) as (d' & E & M).
    exists (rev (int_buf digits xx 10 true)), d'. unfold printint. rewrite (proj2 (Nat.ltb_ge _ _)) by lia. rewrite length_rev. split_and!; [done|done|by apply (int_buf_spec _ digits_ok); lia|lia].
  - pose proof (int_buf_length digits xx 16 false 8 ltac:(lia) ltac:(vm_compute; discriminate) ltac:(lia)) as Hlen. cbn [Nat.add] in Hlen. destruct (consputs_run (rev (int_buf digits xx 16 false)) s Hl) as (d' & E & M).
    exists (rev (int_buf digits xx 16 false)), d'. unfold printint. rewrite (proj2 (Nat.ltb_ge _ _)) by lia. rewrite length_rev. split_and!; [done|done|by apply (int_buf_spec _ digits_ok); lia|lia].
Qed.
End Print.

(** ** Typing *)

Section Type_.
Context {S : Type} `{!HasCtx S, !HasCons S}.
Implicit Types s : S.

Definition uart_keys (d : consd) : list Z := if uart d =? 0 then [] else com_in d.

#[export] Instance uart_source : KeySource (S := S) uartgetc uart_keys.
Proof.
  split.
  - intros s H. unfold uartgetc, uart_keys in *. rewrite bind_gets. destruct (uart (cons s) =? 0); [done|]. by rewrite H.
  - intros s c l H. unfold uartgetc, uart_keys in *. rewrite bind_gets. destruct (uart (cons s) =? 0) eqn:E; [done|]. rewrite H.
    exists (set_com_in l (cons s)). split_and!; [done|cbn; by rewrite E|by destruct (cons s)].
  - intros l b d d' [_ _ Hr]. unfold uart_keys. by rewrite Hr.
Qed.

(** The characters of a sequence of scan codes. *)
Fixpoint decode (shift : Z) (codes : list Z) : list Z :=
  match codes with
  | [] => []
  | data :: codes => snd (kbd_step shift data) :: decode (fst (kbd_step shift data)) codes
  end.
Definition kbd_keys (d : consd) : list Z := decode (kbd_shift d) (kbd_in d).

#[export] Instance kbd_source : KeySource (S := S) kbdgetc kbd_keys.
Proof.
  split.
  - intros s H. unfold kbdgetc, kbd_keys in *. rewrite bind_gets. by destruct (kbd_in (cons s)).
  - intros s c l H. unfold kbdgetc, kbd_keys in *. rewrite bind_gets. destruct (kbd_in (cons s)) as [|data codes]; [done|]. cbn [decode] in H. injection H as H1 H2.
    exists (set_kbd codes (fst (kbd_step (kbd_shift (cons s)) data)) (cons s)). split_and!; [by rewrite <- H1|done|by destruct (cons s)].
  - intros l b d d' [_ _ Hr]. unfold kbd_keys. by rewrite Hr.
Qed.

(** Input is never finished without a wakeup. *)
Lemma finished_wakes x ks : fst (foldl edit x ks) <> fst x -> (0 < wake_count x ks)%nat.
Proof.
  revert x. induction ks as [|k ks IH]; intros [q l]; cbn [foldl wake_count]; [done|]. destruct (wakes (q, l) k) eqn:Hw; [lia|].
  intros H. apply (IH (edit (q, l) k)). intros E. apply H. rewrite E. unfold wakes in Hw. unfold edit.
  destruct (k =? 16); [done|]. destruct (k =? 21); [done|]. cbn [orb negb andb] in Hw. destruct ((k =? 8) || (k =? 127)); [done|].
  cbn [negb andb] in Hw. destruct (accepts k (q, l)); [|done]. cbn [andb] in Hw. by rewrite Hw.
Qed.

(** C30 (refinement).  An interrupt of the keyboard or of the serial port takes every
    character the device has, returns, and edits the input as [edit] says: characters go
    behind the line, backspace and kill remove them, and a newline, ^D or a full buffer
    makes the line finished input and wakes the readers.  What was typed is echoed. *)
Theorem consoleintr_edits s i c getc src `{!KeySource getc src} procdump ks x :
  ctx_ok (ctx s) i c -> locks (ctx s) !! cons_lk = None -> cons_live (cons s) ->
  input_rep (input (cons s)) (fst x) (snd x) -> line_ok (snd x) -> src (cons s) = ks -> Forall is_byte ks ->
  exists d', consoleintr (Datatypes.S (length ks)) procdump getc s =
      when (existsb (Z.eqb 16) ks) procdump (set_ctx (Nat.iter (wake_count x ks) (k_wake input_chan) (ctx s)) (set_cons d' s)) /\
    typed x ks (cons s) d' /\ src d' = [] /\ (fst (foldl edit x ks) <> fst x -> (0 < wake_count x ks)%nat).
Proof.
  intros Hc Hlk Hl Hr Hok Hsrc Hb. unfold consoleintr. rewrite (bind_Ret _ _ _ _ _ (acq_step _ _ _ _ Hc Hlk)). set (s1 := set_ctx _ s).
  assert (C1 : cons s1 = cons s) by apply cons_ctx. destruct (intr_loop_run getc src ks s1 x false) as (d' & E & T & Hd); rewrite ?C1; try done.
  rewrite C1 in T. rewrite (bind_Ret _ _ _ _ _ E). cbn [orb]. unfold s1. rewrite ctx_set_ctx, cons_swap, set_ctx_set. set (n := wake_count x ks).
  assert (Hn : Nat.iter n (k_wake input_chan) (k_acq cons_lk i (ctx s)) = k_acq cons_lk i (Nat.iter n (k_wake input_chan) (ctx s))).
  { generalize n. intros m. induction m as [|m IH]; [done|]. by rewrite !Nat.iter_succ, IH. }
  assert (Hck : forall m, ctx_ok (Nat.iter m (k_wake input_chan) (ctx s)) i c /\ locks (Nat.iter m (k_wake input_chan) (ctx s)) = locks (ctx s)).
  { intros m. induction m as [|m IH]; cbn; [done|]. exact IH. }
  exists d'. destruct (Hck n) as [Hcn Hln]. rewrite <- Hln in Hlk.
  rewrite (bind_Ret _ _ _ _ _ (rel_step (set_ctx _ (set_cons d' s)) _ _ _ _ Hcn Hlk (eq_trans (ctx_set_ctx _ _) Hn))), set_ctx_set. split_and!; [done|done|done|apply finished_wakes].
Qed.
End Type_.

(** ** Reading *)

Section Read.
Context {S : Type} `{!HasCtx S, !HasCons S, !Txn S}.
Implicit Types s t : fsst S.

(** The inode [ip] is the console; [h] tells whether the caller has it locked. *)
Record tty (i : nat) (c : cpu) s (ip : nat) (p : inode) (h : bool) : Prop := {
  tt_ctx : ctx_ok (ctx s) i c;
  tt_locks : locks (ctx s) = ∅;
  tt_at : icache s !! ip = Some p;
  tt_ref : 1 <= i_ref p;
  tt_valid : i_valid p <> 0;
  tt_type : i_type p = T_DEV;
  tt_major : i_major p = CONSOLE;
  tt_lock : if h then sl_get (ino_lk ip) s = mksleep 1 (f_pid s) else sl_locked (sl_get (ino_lk ip) s) = 0
}.

Lemma tty_cons i c s ip p h d : tty i c s ip p h -> tty i c (set_cons d s) ip p h.
Proof. intros []. split; try done; cbn; by rewrite ctx_cons. Qed.

Lemma tty_ctx i c s ip p h k : tty i c s ip p h -> ctx_ok k i c -> locks k = ∅ -> tty i c (set_ctx k s) ip p h.
Proof. intros [] Hk Hl. split; try done; cbn; by rewrite ctx_set_ctx. Qed.

Lemma wp_tty_unlock i c s ip p Q W : tty i c s ip p true -> (forall s', tty i c s' ip p false -> cons s' = cons s -> Q tt s') -> wp (iunlock (Some ip) s) Q W.
Proof.
  intros [Hc Hl Ha Href Hv Ht Hm Hlk] HQ. assert (Hid : sl_idle s i c (ino_lk ip)) by (split; [done|by rewrite Hl]).
  unfold iunlock. apply wp_step. eapply wp_eq; [by eapply holdingsleep_run|]. rewrite Hlk. cbn [sl_locked sl_pid negb Z.eqb andb]. change (my_pid s) with (f_pid s). rewrite Z.eqb_refl.
  apply wp_step. eapply wp_ino; [exact Ha|]. rewrite (proj2 (Z.ltb_ge _ 1)) by lia. cbn [negb orb]. eapply wp_eq; [by eapply releasesleep_run|]. apply HQ.
  - split; try done; rewrite ?ctx_set_ctx; [by apply ctx_ok_wake|done|]. by rewrite sl_get_ctx, sl_get_put.
  - exact (cons_ctx (S := S) _ _).
Qed.

Lemma wp_tty_lock waits i c s ip p Q W : tty i c s ip p false -> (forall s', tty i c s' ip p true -> cons s' = cons s -> Q tt s') -> wp (ilock waits (Some ip) s) Q W.
Proof.
  intros [Hc Hl Ha Href Hv Ht Hm Hlk] HQ. assert (Hid : sl_idle s i c (ino_lk ip)) by (split; [done|by rewrite Hl]).
  unfold ilock. apply wp_step. eapply wp_ino; [exact Ha|]. rewrite (proj2 (Z.ltb_ge _ 1)) by lia. apply wp_step. eapply wp_eq; [by eapply acquiresleep_free|].
  apply wp_step. eapply wp_ino; [exact Ha|]. rewrite (proj2 (Z.eqb_neq _ 0) Hv). cbn [when ret wp]. apply HQ; [|done].
  split; try done. by rewrite sl_get_put.
Qed.

(** After [iunlock] and before [ilock] in [consoleread]. *)
Lemma wp_read_end waits i c s s1 k b' ip p rest l (bs : list Z) Q W :
  tty i c s1 ip p false -> cons s1 = cons s -> input_rep b' rest l -> ctx_ok k i c -> locks k = ∅ ->
  (forall s', tty i c s' ip p true -> cons s' = set_input b' (cons s) -> Q (Z.of_nat (length bs), bs) s') ->
  wp ((onctx (release cons_lk) ;; ilock waits (Some ip) ;; ret (if snd (bs, true) then (Z.of_nat (length (fst (bs, true))), fst (bs, true)) else (-1, fst (bs, true))))
    (set_ctx (k_acq cons_lk i k) (set_cons (set_input b' (cons s1)) s1))) Q W.
Proof.
  intros Ht Hs Hb Hk Hl HQ. apply wp_step. eapply wp_rel; [by rewrite ctx_set_ctx|exact Hk|by rewrite Hl|]. rewrite set_ctx_set. apply wp_step.
  eapply wp_tty_lock; [apply tty_ctx; [by apply tty_cons|done..]|]. intros s' Ht' Hs'. cbn [ret wp fst snd]. apply HQ; [done|]. by rewrite Hs', cons_ctx, cons_set, Hs.
Qed.

(** [readi] of the console is [consoleread]. *)
Lemma readi_console waits i c s ip p off n h : tty i c s ip p h -> readi (cons_read waits) ip off n s = consoleread waits ip n s.
Proof. intros []. unfold readi, ino. cbn. unfold bind. rewrite tt_at0. cbn [rbind]. by rewrite tt_type0, tt_major0. Qed.

Lemma wp_console_ready waits i c s ip p n q l bs rest : tty i c s ip p true -> input_rep (input (cons s)) q l -> take_line (Z.to_nat n) (Z.to_nat n) q = Some (bs, rest) ->
  wp (consoleread waits ip n s) (fun r s' => r = (Z.of_nat (length bs), bs) /\ tty i c s' ip p true /\ exists b', cons s' = set_input b' (cons s) /\ input_rep b' rest l) stays.
Proof.
  intros Ht Hr Htk. unfold consoleread. apply wp_step. eapply wp_tty_unlock; [exact Ht|]. intros s1 Ht1 C1. apply wp_step.
  eapply wp_acq; [exact (tt_ctx _ _ _ _ _ _ Ht1)|by rewrite (tt_locks _ _ _ _ _ _ Ht1)|]. set (s2 := set_ctx _ s1). apply wp_step.
  assert (C2 : cons s2 = cons s) by (unfold s2; by rewrite cons_ctx). destruct (read_loop_run waits (Z.to_nat n) (Z.to_nat n) s2 q l bs rest) as (b' & E & R); [by rewrite C2|done|].
  eapply wp_eq; [exact E|]. unfold s2. rewrite cons_ctx, cons_swap. eapply wp_read_end; [exact Ht1|exact C1|exact R|apply Ht1|apply Ht1|]. intros s' Ht' Hs'. split_and!; [done|done|]. by exists b'.
Qed.

Lemma wp_console_killed waits i c s ip p n l : tty i c s ip p true -> input_rep (input (cons s)) [] l -> 0 < n -> c_killed (cons s) <> 0 ->
  wp (consoleread waits ip n s) (fun r s' => r = (-1, []) /\ tty i c s' ip p true /\ cons s' = cons s) stays.
Proof.
  intros Ht Hr Hn Hkill. unfold consoleread. apply wp_step. eapply wp_tty_unlock; [exact Ht|]. intros s1 Ht1 C1. apply wp_step.
  eapply wp_acq; [exact (tt_ctx _ _ _ _ _ _ Ht1)|by rewrite (tt_locks _ _ _ _ _ _ Ht1)|]. set (s2 := set_ctx _ s1). assert (C2 : cons s2 = cons s) by (unfold s2; by rewrite cons_ctx).
  destruct (Z.to_nat n) as [|n'] eqn:En; [lia|]. apply wp_step. cbn [read_loop]. apply wp_step. cbn [wait_input]. apply wp_step. cbn [gets wp].
  rewrite C2, (input_empty _ _ _ Hr), bool_decide_eq_true_2 by done. cbn [negb]. apply wp_step. eapply wp_myproc_; [unfold s2; rewrite ctx_set_ctx; apply ctx_ok_acq, Ht1|].
  apply wp_step. cbn [gets wp]. rewrite C2, (proj2 (Z.eqb_neq _ _) Hkill). cbn [negb ret wp]. apply wp_step. eapply wp_rel; [unfold s2; by rewrite ctx_set_ctx|exact (tt_ctx _ _ _ _ _ _ Ht1)|by rewrite (tt_locks _ _ _ _ _ _ Ht1)|].
  unfold s2. rewrite set_ctx_set, set_ctx_ctx. apply wp_step. eapply wp_tty_lock; [exact Ht1|]. intros s' Ht' Hs'. cbn. split_and!; [done|done|]. etrans; [exact Hs'|exact C1].
Qed.

Lemma wp_console_sleeps waits i c s ip p n l : tty i c s ip p true -> input_rep (input (cons s)) [] l -> 0 < n -> c_killed (cons s) = 0 ->
  wp (consoleread (Datatypes.S waits) ip n s) (fun _ _ => False) (fun s1 kk => tty i c s1 ip p false /\ cons s1 = cons s /\ asleep_on input_chan cons_lk (ctx s1) /\
    forall t j cj q' l' bs rest, tty j cj t ip p false -> input_rep (input (cons t)) q' l' -> take_line (Z.to_nat n) (Z.to_nat n) q' = Some (bs, rest) ->
      exists t', kk t = Ret (Z.of_nat (length bs), bs) t' /\ tty j cj t' ip p true /\ input_rep (input (cons t')) rest l').
Proof.
  intros Ht Hr Hn Hkill. unfold consoleread. apply wp_step. eapply wp_tty_unlock; [exact Ht|]. intros s1 Ht1 C1. apply wp_step.
  eapply wp_acq; [exact (tt_ctx _ _ _ _ _ _ Ht1)|by rewrite (tt_locks _ _ _ _ _ _ Ht1)|]. set (s2 := set_ctx _ s1). assert (C2 : cons s2 = cons s) by (unfold s2; by rewrite cons_ctx).
  destruct (Z.to_nat n) as [|n'] eqn:En; [lia|]. apply wp_bind.
  eapply wp_mono; [eapply (wp_read_sleeps waits n' _ s2 (ctx s1) i c l); [apply ctx_set_ctx|apply Ht1|by rewrite (tt_locks _ _ _ _ _ _ Ht1)|by rewrite C2|by rewrite C2]|by intros ? ? []|].
  cbn beta. intros s3 kk [-> Hkk]. unfold s2. rewrite set_ctx_set.
  split_and!; [apply tty_ctx; [done|apply ctx_ok_slept, Ht1|apply Ht1]|by rewrite cons_ctx|unfold asleep_on; by rewrite ctx_set_ctx|].
  intros t j cj q' l' bs rest Htt Hrt Htk. destruct (Hkk t j cj q' l' bs rest) as (b' & E & R); [apply Htt|by rewrite (tt_locks _ _ _ _ _ _ Htt)|done|done|]. rewrite E. cbn [rbind].
  destruct (wp_Ret _ _ (wp_read_end (Datatypes.S waits) j cj t t (ctx t) b' ip p rest l' bs (fun r s' => r = (Z.of_nat (length bs), bs) /\ tty j cj s' ip p true /\ cons s' = set_input b' (cons t)) stays
    Htt eq_refl R (tt_ctx _ _ _ _ _ _ Htt) (tt_locks _ _ _ _ _ _ Htt) (fun s' H1 H2 => conj eq_refl (conj H1 H2)))) as (r & t' & E' & -> & H1 & H2).
  exists t'. rewrite H2. split_and!; [exact E'|done|done].
Qed.

(** [readi] on the console returns the next piece of the finished input:
    up to a newline, at most [n] bytes, or nothing at an end of file, which is consumed
    only by a call that returns nothing.  With no finished input the caller sleeps on
    the input with all locks free; woken when there is some, it returns that.  A killed process gets -1
    and takes nothing. *)
Theorem console_read_line waits i c s ip p off n q l :
  tty i c s ip p true -> input_rep (input (cons s)) q l -> 0 < n ->
  (forall bs rest, take_line (Z.to_nat n) (Z.to_nat n) q = Some (bs, rest) ->
     exists s', readi (cons_read waits) ip off n s = Ret (Z.of_nat (length bs), bs) s' /\ tty i c s' ip p true /\ input_rep (input (cons s')) rest l) /\
  (q = [] -> c_killed (cons s) = 0 ->
     exists s1 kk, readi (cons_read (Datatypes.S waits)) ip off n s = Swtch s1 kk /\ tty i c s1 ip p false /\ cons s1 = cons s /\ asleep_on input_chan cons_lk (ctx s1) /\
       forall t j cj q' l' bs rest, tty j cj t ip p false -> input_rep (input (cons t)) q' l' -> take_line (Z.to_nat n) (Z.to_nat n) q' = Some (bs, rest) ->
         exists t', kk t = Ret (Z.of_nat (length bs), bs) t' /\ tty j cj t' ip p true /\ input_rep (input (cons t')) rest l') /\
  (q = [] -> c_killed (cons s) <> 0 -> exists s', readi (cons_read waits) ip off n s = Ret (-1, []) s' /\ tty i c s' ip p true /\ cons s' = cons s).
Proof.
  intros Ht Hr Hn. rewrite !(readi_console _ _ _ _ _ _ off n _ Ht). split_and!.
  - intros bs rest Htk. destruct (wp_Ret _ _ (wp_console_ready waits i c s ip p n q l bs rest Ht Hr Htk)) as (r & s' & E & -> & Ht' & b' & C & R). exists s'. rewrite C. done.
  - intros -> Hk. apply wp_Swtch. by eapply wp_console_sleeps.
  - intros -> Hk. destruct (wp_Ret _ _ (wp_console_killed waits i c s ip p n l Ht Hr Hn Hk)) as (r & s' & E & -> & H). by exists s'.
Qed.

(** [writei] on the console puts the bytes on it. *)
Theorem console_write_all waits i c s ip p off bs : tty i c s ip p true -> cons_live (cons s) ->
  exists s', writei (cons_write waits) ip bs off s = Ret (Z.of_nat (length bs)) s' /\ tty i c s' ip p true /\ emits ((fun b => Z.land b 0xff) <$> bs) (cons s) (cons s').
Proof.
  intros Ht Hlive. assert (Hw : writei (cons_write waits) ip bs off s = consolewrite waits ip bs s).
  { destruct Ht. unfold writei, ino. cbn. unfold bind. rewrite tt_at0. cbn [rbind]. by rewrite tt_type0, tt_major0. }
  rewrite Hw. assert (wp (consolewrite waits ip bs s) (fun r s' => r = Z.of_nat (length bs) /\ tty i c s' ip p true /\ emits ((fun b => Z.land b 0xff) <$> bs) (cons s) (cons s')) stays) as H.
  2: { apply wp_Ret in H as (r & s' & E & -> & H). by exists s'. }
  unfold consolewrite. apply wp_step. eapply wp_tty_unlock; [exact Ht|]. intros s1 Ht1 C1. apply wp_step.
  eapply wp_acq; [exact (tt_ctx _ _ _ _ _ _ Ht1)|by rewrite (tt_locks _ _ _ _ _ _ Ht1)|]. set (s2 := set_ctx _ s1). assert (C2 : cons s2 = cons s) by (unfold s2; by rewrite cons_ctx).
  apply wp_step. destruct (consputs_run ((fun b => Z.land b 0xff) <$> bs) s2) as (d' & E & M); [by rewrite C2|]. eapply wp_eq; [exact E|]. rewrite C2 in M.
  apply wp_step. eapply wp_rel; [unfold s2; by rewrite ctx_cons, ctx_set_ctx|exact (tt_ctx _ _ _ _ _ _ Ht1)|by rewrite (tt_locks _ _ _ _ _ _ Ht1)|].
  unfold s2. rewrite cons_swap, set_ctx_set, set_ctx_cons. apply wp_step. eapply wp_tty_lock; [by apply tty_cons|]. intros s' Ht' Hs'. cbn. split_and!; [done|done|].
  rewrite cons_set in Hs'. change (cons (f_store s')) with (cons s'). by rewrite Hs'.
Qed.
End Read.

(** ** Witnesses *)

(** A console with the line [l] typed and finished, a serial port, and the keys [h], [i]
    and return waiting in the keyboard.  The read index is about to wrap around. *)
Definition demo_cons (l : list Z) : consd :=
  mkcons 1 0 (mkinput (replicate 127 0 ++ [default 0 (l !! 0%nat)]) (2 ^ 32 - 1) (u32 (2 ^ 32 - 1 + Z.of_nat (length l))) (u32 (2 ^ 32 - 1 + Z.of_nat (length l))))
    (replicate 2000 0) 1919 1 [] [] [0x23; 0x17; 0x1C] 0 0.

Definition tty_inode : inode := mkinode 1 3 1 1 T_DEV CONSOLE 1 1 0 (replicate 13 0).
Definition tty_fs (l : list Z) : fsst (withcons (logst bst)) :=
  mkfs disk_sb [tty_inode] {[ino_lk 0 := mksleep 1 5]} 5 0 (mkwc (demo_cons l) small).

Lemma demo_input l : (length l <= 1)%nat -> input_rep (input (demo_cons l)) l [].
Proof.
  intros Hl. split; cbn [input demo_cons ir iw ie ibuf]; [done|by vm_compute|done|by rewrite Nat.add_0_r|cbn; lia|].
  intros k x. rewrite app_nil_r. destruct l as [|y [|z l]]; [done| |cbn in Hl; lia]. destruct k as [|k]; [|done]. by intros [= ->].
Qed.

Lemma demo_live l : cons_live (demo_cons l).
Proof. split; [done|]. split; cbn [crt crtpos demo_cons]; [by rewrite length_replicate|lia]. Qed.

Lemma tty_open l : tty 0 demo_c (tty_fs l) 0 tty_inode true.
Proof. destruct (quiet_ctx _ _ _ _ _ small_quiet) as [Hc Hl]. split; [exact Hc|exact Hl|reflexivity|vm_compute; discriminate|discriminate|reflexivity|reflexivity|reflexivity]. Qed.

Lemma printint_numeral_witness : exists l d', printint (- 2 ^ 31) 10 true (mkwc (demo_cons []) small) = Ret tt (set_cons d' (mkwc (demo_cons []) small)) /\ numeral 10 l = - 2 ^ 31.
Proof.
  destruct (printint_numeral (mkwc (demo_cons []) small) (- 2 ^ 31)) as [(l & d' & H & _ & N & _) _].
  - exact (demo_live []).
  - lia.
  - exact (ex_intro _ l (ex_intro _ d' (conj H N))).
Defined.

Lemma consoleintr_edits_witness : exists d', consoleintr 4 (ret tt) kbdgetc (mkwc (demo_cons []) small) =
  Ret tt (set_ctx (k_wake input_chan (ctx small)) (mkwc d' small)) /\ input_rep (input d') [104; 105; 10] [].
Proof.
  destruct (consoleintr_edits (mkwc (demo_cons []) small) 0 demo_c kbdgetc kbd_keys (ret tt) [104; 105; 10] ([], [])) as (d' & H & T & _).
  - exact (proj1 (quiet_ctx _ _ _ _ _ small_quiet)).
  - exact (f_equal (lookup cons_lk) (proj2 (quiet_ctx _ _ _ _ _ small_quiet))).
  - exact (demo_live []).
  - exact (demo_input [] ltac:(cbn; lia)).
  - constructor.
  - reflexivity.
  - repeat constructor; vm_compute; discriminate.
  - exists d'. cbn [length] in H. split; [rewrite H; reflexivity|exact (ty_input _ _ _ _ T)].
Defined.

(** A newline is read by itself. *)
Lemma console_read_line_witness : exists s', readi (cons_read 0) 0 0 100 (tty_fs [10]) = Ret (1, [10]) s' /\ input_rep (input (cons s')) [] [].
Proof.
  destruct (console_read_line 0 0 demo_c (tty_fs [10]) 0 tty_inode 0 100 [10] []) as [H _].
  - exact (tty_open [10]).
  - exact (demo_input [10] ltac:(cbn; lia)).
  - reflexivity.
  - destruct (H [10] [] eq_refl) as (s' & E & _ & R). exact (ex_intro _ s' (conj E R)).
Defined.
