(* ===== verification/Printf.v ===== *)
(** * Formatted output in user space

    Models [printf.c]: the same directives as the kernel's [cprintf], written as a state
    machine, with upper-case digits and [%c].  The bytes written to the descriptor are
    the result; an argument that does not fit its directive has no meaning in C. *)

From Stdlib Require Import ZArith Lia.
From S2P Require Import Prelude Spinlock Sleeplock Log Txn Demo Bio BioTheorems Console ConsoleSpec ConsoleTheorems.

Definition DIGITS : list Z := chars "0123456789ABCDEF".

(** The bytes [printint] writes. *)
Definition uprintint (xx base : Z) (sgn : bool) : list Z := rev (int_buf DIGITS xx base sgn).

(** The loop over [fmt] in [state]. *)
Fixpoint printf_loop (fmt : list Z) (state : Z) (ap : list carg) : option (list Z) :=
  match fmt with
  | [] => Some []
  | c :: fmt =>
      if state =? 0 then
        if c =? 37 then printf_loop fmt 37 ap else (fun r => c :: r) <$> printf_loop fmt 0 ap
      else if state =? 37 then
        if c =? 100 then
          match ap with AInt z :: ap => (fun r => uprintint (s32 z) 10 true ++ r) <$> printf_loop fmt 0 ap | _ => None end
        else if (c =? 120) || (c =? 112) then
          match ap with AInt z :: ap => (fun r => uprintint (s32 z) 16 false ++ r) <$> printf_loop fmt 0 ap | _ => None end
        else if c =? 115 then
          match ap with AStr s :: ap => (fun r => default (chars "(null)") s ++ r) <$> printf_loop fmt 0 ap | _ => None end
        else if c =? 99 then
          match ap with AInt z :: ap => (fun r => u8 z :: r) <$> printf_loop fmt 0 ap | _ => None end
        else if c =? 37 then (fun r => c :: r) <$> printf_loop fmt 0 ap
        else (fun r => 37 :: c :: r) <$> printf_loop fmt 0 ap
      else printf_loop fmt state ap
  end.
Definition printf (fmt : list Z) (args : list carg) : option (list Z) := printf_loop fmt 0 args.

(** The characters behind a percent sign. *)
Fixpoint directives (fmt : list Z) : list Z :=
  match fmt with
  | [] => []
  | c :: fmt => if c =? 37 then match fmt with [] => [] | c :: fmt => c :: directives fmt end else directives fmt
  end.
(** Formats that do not print hexadecimal digits or single characters. *)
Definition common (fmt : list Z) : Prop := Forall (fun c => c <> 120 /\ c <> 112 /\ c <> 99) (directives fmt).

(** Decimal numerals do not depend on the case of the digits. *)
Lemma digit_loop_dec fuel x : digit_loop digits fuel x 10 = digit_loop DIGITS fuel x 10.
Proof.
  revert x. induction fuel as [|fuel IH]; intros x; cbn [digit_loop]; [done|]. rewrite IH. f_equal.
  assert (H : Forall (fun n => default 0 (digits !! n) = default 0 (DIGITS !! n)) (seq 0 10)) by (repeat constructor).
  rewrite Forall_forall in H. apply H, elem_of_seq. pose proof (Z.mod_pos_bound x 10). lia.
Qed.

Section Agree.
Context {S : Type} `{!HasCtx S, !HasCons S}.
Implicit Types s : S.

(** What a run of [cprintf] has to do with a result of [printf]. *)
Definition agrees (r : option (list Z)) (m : M S unit) s : Prop :=
  match r with
  | Some l => exists d', m s = Ret tt (set_cons d' s) /\ emits l (cons s) d'
  | None => exists w, m s = UB w
  end.

Lemma agrees_step l m f r s : (exists d', m s = Ret tt (set_cons d' s) /\ emits l (cons s) d') ->
  (forall s, cons_live (cons s) -> agrees r f s) -> cons_live (cons s) -> agrees ((fun r => l ++ r) <$> r) (m ;; f) s.
Proof.
  intros (d' & E & M) Hf Hl. assert (Hl' : cons_live (cons (set_cons d' s))) by (rewrite cons_set; by eapply emits_live). specialize (Hf _ Hl').
  destruct r as [r|]; cbn in Hf |- *; rewrite (bind_Ret _ _ _ _ _ E); [|done]. destruct Hf as (d2 & E2 & M2). rewrite cons_set in M2. rewrite set_cons_set in E2.
  exists d2. split; [done|]. by eapply emits_app.
Qed.

Lemma putc_agrees c f r s : (forall s, cons_live (cons s) -> agrees r f s) -> cons_live (cons s) -> agrees ((fun r => c :: r) <$> r) (consputc c ;; f) s.
Proof. intros Hf Hl. destruct (consputc_run c s Hl) as (d' & E & M & _). apply (agrees_step [c]); [by exists d'|done|done]. Qed.

Lemma decimal_agrees z f r s : (forall s, cons_live (cons s) -> agrees r f s) -> cons_live (cons s) ->
  agrees ((fun r => uprintint (s32 z) 10 true ++ r) <$> r) (printint (s32 z) 10 true ;; f) s.
Proof.
  intros Hf Hl. apply agrees_step; [|done|done]. unfold printint, uprintint, int_buf. rewrite <- digit_loop_dec. fold (int_buf digits (s32 z) 10 true).
  pose proof (int_buf_length digits (s32 z) 10 true 10 ltac:(lia) ltac:(vm_compute; discriminate) ltac:(lia)) as Hlen. cbn [Nat.add] in Hlen.
  rewrite (proj2 (Nat.ltb_ge _ _)) by lia. by apply consputs_run.
Qed.

Lemma loops_agree n : forall fmt args s, (length fmt <= n)%nat -> common fmt -> cons_live (cons s) -> agrees (printf_loop fmt 0 args) (cprintf_loop fmt args) s.
Proof.
  unfold common. induction n as [|n IH]; intros fmt args s Hn Hc Hl.
  { destruct fmt; [|cbn in Hn; lia]. exists (cons s). cbn. rewrite set_cons_cons. split; [done|]. apply emits_nil, Hl. }
  destruct fmt as [|c fmt]. { exists (cons s). cbn. rewrite set_cons_cons. split; [done|]. apply emits_nil, Hl. }
  cbn [length] in Hn. cbn [printf_loop cprintf_loop directives Z.eqb] in *. destruct (c =? 37); cbn [negb].
  2: { apply putc_agrees; [|done]. intros t Ht. apply IH; [lia|done|done]. }
  destruct fmt as [|d fmt]. { exists (cons s). cbn. rewrite set_cons_cons. split; [done|]. apply emits_nil, Hl. }
  cbn [length printf_loop Z.eqb Pos.eqb] in *. apply Forall_cons in Hc as [(Hx & Hp & Hcc) Hc].
  assert (Hrest : forall a t, cons_live (cons t) -> agrees (printf_loop fmt 0 a) (cprintf_loop fmt a) t) by (intros a t Ht; apply IH; [lia|done|done]).
  rewrite (proj2 (Z.eqb_neq d 120)), (proj2 (Z.eqb_neq d 112)), (proj2 (Z.eqb_neq d 99)) by done. cbn [orb].
  destruct (d =? 100). { destruct args as [|[z|str] args]; [by exists "cprintf"%string| |by exists "cprintf"%string]. apply decimal_agrees; [apply Hrest|done]. }
  destruct (d =? 115). { destruct args as [|[z|str] args]; [by exists "cprintf"%string|by exists "cprintf"%string|]. apply agrees_step; [by apply consputs_run|apply Hrest|done]. }
  destruct (Z.eqb_spec d 37) as [->|]; [apply putc_agrees; [apply Hrest|done]|].
  replace ((fun r => 37 :: d :: r) <$> printf_loop fmt 0 args) with ((fun r => 37 :: r) <$> ((fun r => d :: r) <$> printf_loop fmt 0 args)) by (by destruct (printf_loop fmt 0 args)).
  apply putc_agrees; [|done]. intros t Ht. apply putc_agrees; [apply Hrest|done].
Qed.

(** The kernel's [cprintf] and the user's [printf] are two
    implementations of the same formats: where neither hexadecimal nor [%c] is used,
    [cprintf] puts on the console, under its lock, exactly the characters [printf] writes,
    and the one is undefined when the other is. *)
Theorem printf_cprintf_agree s i c fmt args :
  ctx_ok (ctx s) i c -> locks (ctx s) !! cons_lk = None -> cons_live (cons s) -> common fmt ->
  match printf fmt args with
  | Some l => exists d', cprintf fmt args s = Ret tt (set_cons d' s) /\ emits l (cons s) d'
  | None => exists w, cprintf fmt args s = UB w
  end.
Proof.
  intros Hc Hlk Hl Hcom. unfold cprintf, printf. rewrite bind_gets. destruct (c_locking (cons s) =? 0); cbn [negb when].
  - assert (H := loops_agree (length fmt) fmt args s ltac:(lia) Hcom Hl). unfold agrees in H. change (bind (ret tt) ?f s) with (f tt s).
    destruct (printf_loop fmt 0 args) as [l|].
    + destruct H as (d' & E & M). exists d'. by rewrite (bind_Ret _ _ _ _ _ E).
    + destruct H as [w E]. exists w. unfold bind. cbn [ret rbind]. by rewrite E.
  - rewrite (bind_Ret _ _ _ _ _ (acq_step _ _ _ _ Hc Hlk)). set (s1 := set_ctx _ s). assert (C1 : cons s1 = cons s) by apply cons_ctx.
    assert (H := loops_agree (length fmt) fmt args s1 ltac:(lia) Hcom ltac:(by rewrite C1)). unfold agrees in H. rewrite C1 in H. destruct (printf_loop fmt 0 args) as [l|].
    + destruct H as (d' & E & M). exists d'. rewrite (bind_Ret _ _ _ _ _ E). split; [|done].
      rewrite (rel_step (set_cons d' s1) (ctx s) i c cons_lk Hc Hlk) by (unfold s1; by rewrite ctx_cons, ctx_set_ctx). unfold s1. by rewrite cons_swap, set_ctx_set, set_ctx_cons.
    + destruct H as [w E]. exists w. unfold bind. by rewrite E.
Qed.
End Agree.

Lemma printf_cprintf_agree_witness : exists d', cprintf (chars "%d%%%s") [AInt (-7); AStr None] (mkwc (demo_cons []) small) = Ret tt (set_cons d' (mkwc (demo_cons []) small)) /\
  emits (chars "-7%(null)") (demo_cons []) d'.
Proof.
  pose proof (printf_cprintf_agree (mkwc (demo_cons []) small) 0 demo_c (chars "%d%%%s") [AInt (-7); AStr None]) as H.
  specialize (H (proj1 (quiet_ctx _ _ _ _ _ small_quiet))). specialize (H (f_equal (lookup cons_lk) (proj2 (quiet_ctx _ _ _ _ _ small_quiet)))).
  specialize (H (demo_live [])). specialize (H ltac:(repeat constructor; discriminate)).
  assert (E : printf (chars "%d%%%s") [AInt (-7); AStr None] = Some (chars "-7%(null)")) by reflexivity. rewrite E in H. exact H.
Defined.
