(* ===== verification/Syscall.v ===== *)
(** * System call arguments

    Models the argument fetching of [syscall.c].  User memory is the bytes [0 .. sz) of
    the current process, and the arguments lie behind its saved stack pointer. *)

From Stdlib Require Import ZArith Lia.
From S2P Require Import Prelude Spinlock Bytes.

(** [myproc()->tf->esp] and the memory of the current process. *)
Class HasUser (S : Type) := { u_frame : M S (Z * list Z) }.

Section Args.
Context {S : Type} `{!HasUser S}.

(** The length of [curproc]'s memory is [curproc->sz]. *)
Definition fetchint_in (mem : list Z) (addr : Z) : option Z :=
  let sz := Z.of_nat (length mem) in
  if (sz <=? addr) || (sz <? u32 (addr + 4)) then None else Some (s32 (getn 4 (Z.to_nat addr) mem)).

(** [None] for the result -1. *)
Definition fetchint (addr : Z) : M S (option Z) :=
  f <- u_frame ;;
  ret (fetchint_in (snd f) addr).

(** The characters from [s] up to a NUL. *)
Fixpoint str_at (l : list Z) : option (list Z) :=
  match l with
  | [] => None
  | ch :: l => if ch =? 0 then Some [] else (fun r => ch :: r) <$> str_at l
  end.

(** The string at [addr]; the result of the code is its length. *)
Definition fetchstr_in (mem : list Z) (addr : Z) : option (list Z) :=
  if Z.of_nat (length mem) <=? addr then None else str_at (drop (Z.to_nat addr) mem).

Definition fetchstr (addr : Z) : M S (option (list Z)) :=
  f <- u_frame ;;
  ret (fetchstr_in (snd f) addr).

Definition argint (n : Z) : M S (option Z) :=
  f <- u_frame ;;
  fetchint (u32 (fst f + 4 + 4 * n)).

(** The address of a block of [size] bytes. *)
Definition argptr (n size : Z) : M S (option Z) :=
  f <- u_frame ;;
  i <- argint n ;;
  match i with
  | None => ret None
  | Some i =>
      let sz := Z.of_nat (length (snd f)) in
      if (size <? 0) || (sz <=? u32 i) || (sz <? u32 (u32 i + size)) then ret None else ret (Some (u32 i))
  end.

Definition argstr (n : Z) : M S (option (list Z)) :=
  a <- argint n ;;
  match a with
  | None => ret None
  | Some a => fetchstr (u32 a)
  end.
End Args.

(** ** What the checks ensure *)

(** A memory of at most 2 GB: below [KERNBASE]. *)
Definition user_mem (mem : list Z) : Prop := Z.of_nat (length mem) <= 2 ^ 31.

Lemma fetchint_in_spec mem addr : user_mem mem -> is_u32 addr ->
  fetchint_in mem addr = if addr + 4 <=? Z.of_nat (length mem) then Some (s32 (getn 4 (Z.to_nat addr) mem)) else None.
Proof.
  unfold user_mem, is_u32, fetchint_in. intros Hm Ha. destruct (Z.leb_spec (Z.of_nat (length mem)) addr) as [H|H]; cbn [orb].
  - by rewrite (proj2 (Z.leb_gt _ _)) by lia.
  - rewrite u32_small by (unfold is_u32; lia). destruct (Z.ltb_spec (Z.of_nat (length mem)) (addr + 4)); [by rewrite (proj2 (Z.leb_gt _ _)) by lia|].
    by rewrite (proj2 (Z.leb_le _ _)) by lia.
Qed.

Lemma str_at_spec l r : str_at l = Some r <-> exists t, l = r ++ 0 :: t /\ Forall (fun ch => ch <> 0) r.
Proof.
  revert r. induction l as [|ch l IH]; intros r; cbn [str_at].
  - split; [done|]. intros (t & H & _). by destruct r.
  - destruct (Z.eqb_spec ch 0) as [->|Hne].
    + split; [intros [= <-]; by exists l|]. intros (t & H & Hr). destruct r as [|a r]; [done|]. injection H as <- _. by apply Forall_cons in Hr as [].
    + rewrite fmap_Some. split.
      * intros (r' & Hr' & ->). apply IH in Hr' as (t & -> & Hf). exists t. split; [done|by constructor].
      * intros (t & H & Hr). destruct r as [|a r]; [injection H as -> _; done|]. injection H as <- H. apply Forall_cons in Hr as [_ Hr].
        exists r. split; [|done]. apply IH. by exists t.
Qed.
