(* ===== verification/Trap.v ===== *)
(** * Traps, system call dispatch and the clock

    Models [trap] of [trap.c], [syscall] of [syscall.c], and [sys_sleep] and [sys_uptime]
    of [sysproc.c].  The handlers of the other components, and what they work on, are
    parameters; those of [sysproc.c] are in [Sysproc.v], [tvinit] is in [Segment.v].  Messages on
    the console are left out. *)

From Stdlib Require Import ZArith Lia.
From S2P Require Import Prelude Spinlock Bytes Syscall.

Definition T_SYSCALL : Z := 64.
Definition T_IRQ0 : Z := 32.
Definition IRQ_TIMER : Z := 0.
Definition IRQ_KBD : Z := 1.
Definition IRQ_COM1 : Z := 4.
Definition IRQ_IDE : Z := 14.
Definition IRQ_SPURIOUS : Z := 31.
Definition DPL_USER : Z := 3.
Definition SYS_fork : Z := 1.
Definition SYS_exit : Z := 2.
Definition SYS_wait : Z := 3.
Definition SYS_pipe : Z := 4.
Definition SYS_read : Z := 5.
Definition SYS_kill : Z := 6.
Definition SYS_exec : Z := 7.
Definition SYS_fstat : Z := 8.
Definition SYS_chdir : Z := 9.
Definition SYS_dup : Z := 10.
Definition SYS_getpid : Z := 11.
Definition SYS_sbrk : Z := 12.
Definition SYS_sleep : Z := 13.
Definition SYS_uptime : Z := 14.
Definition SYS_open : Z := 15.
Definition SYS_write : Z := 16.
Definition SYS_mknod : Z := 17.
Definition SYS_unlink : Z := 18.
Definition SYS_link : Z := 19.
Definition SYS_mkdir : Z := 20.
Definition SYS_close : Z := 21.
Definition SYS_bufwrite : Z := 22.
Definition SYS_bufread : Z := 23.
Definition SYS_waitfork : Z := 24.
(** [NELEM(syscalls)] *)
Definition NSYSCALLS : Z := 25.

(** [ticks]; of the current process, [killed], whether [state] is [RUNNING], [tf->eax],
    [tf->esp] and the memory; and the state of the other components. *)
Record trapst (R : Type) := mktrap {
  tr_ctx : kctx; ticks : Z;
  tr_killed : Z; tr_running : bool; tr_eax : Z; tr_esp : Z; tr_mem : list Z;
  tr_rest : R
}.
Arguments mktrap {R}.
Arguments tr_ctx {R}.
Arguments ticks {R}.
Arguments tr_killed {R}.
Arguments tr_running {R}.
Arguments tr_eax {R}.
Arguments tr_esp {R}.
Arguments tr_mem {R}.
Arguments tr_rest {R}.

(** The system calls of the other components. *)
Record sysops (R : Type) := mksysops {
  o_fork : M (trapst R) Z; o_exit : M (trapst R) Z; o_wait : M (trapst R) Z;
  o_pipe : M (trapst R) Z; o_read : M (trapst R) Z; o_kill : M (trapst R) Z;
  o_exec : M (trapst R) Z; o_fstat : M (trapst R) Z; o_chdir : M (trapst R) Z;
  o_dup : M (trapst R) Z; o_getpid : M (trapst R) Z; o_sbrk : M (trapst R) Z;
  o_open : M (trapst R) Z; o_write : M (trapst R) Z; o_mknod : M (trapst R) Z;
  o_unlink : M (trapst R) Z; o_link : M (trapst R) Z; o_mkdir : M (trapst R) Z;
  o_close : M (trapst R) Z; o_bufwrite : M (trapst R) Z; o_bufread : M (trapst R) Z;
  o_waitfork : M (trapst R) Z
}.
Arguments o_fork {R}.
Arguments o_exit {R}.
Arguments o_wait {R}.
Arguments o_pipe {R}.
Arguments o_read {R}.
Arguments o_kill {R}.
Arguments o_exec {R}.
Arguments o_fstat {R}.
Arguments o_chdir {R}.
Arguments o_dup {R}.
Arguments o_getpid {R}.
Arguments o_sbrk {R}.
Arguments o_open {R}.
Arguments o_write {R}.
Arguments o_mknod {R}.
Arguments o_unlink {R}.
Arguments o_link {R}.
Arguments o_mkdir {R}.
Arguments o_close {R}.
Arguments o_bufwrite {R}.
Arguments o_bufread {R}.
Arguments o_waitfork {R}.

Definition tickslock : lockid := ("time"%string, 0).
Definition ticks_chan : chan := ("ticks"%string, 0).

Section Trap.
Context {R : Type}.
Implicit Types s : trapst R.

Definition set_tr_ctx (k : kctx) s : trapst R := mktrap k (ticks s) (tr_killed s) (tr_running s) (tr_eax s) (tr_esp s) (tr_mem s) (tr_rest s).
Definition set_ticks (v : Z) s : trapst R := mktrap (tr_ctx s) v (tr_killed s) (tr_running s) (tr_eax s) (tr_esp s) (tr_mem s) (tr_rest s).
Definition set_killed (v : Z) s : trapst R := mktrap (tr_ctx s) (ticks s) v (tr_running s) (tr_eax s) (tr_esp s) (tr_mem s) (tr_rest s).
Definition set_eax (v : Z) s : trapst R := mktrap (tr_ctx s) (ticks s) (tr_killed s) (tr_running s) v (tr_esp s) (tr_mem s) (tr_rest s).

#[export] Instance trapst_ctx : HasCtx (trapst R).
Proof. refine {| ctx := tr_ctx; set_ctx := set_tr_ctx |}; try done. by intros []. Defined.

#[export] Instance trapst_user : HasUser (trapst R) := {| u_frame := onctx myproc ;; gets (fun s => (tr_esp s, tr_mem s)) |}.

(** ** [sysproc.c] *)

(** [myproc()->killed] *)
Definition my_killed : M (trapst R) Z := onctx myproc ;; gets tr_killed.

(** [while(ticks - ticks0 < n)], one unit of fuel per wake-up. *)
Fixpoint sleep_loop (fuel : nat) (ticks0 n : Z) : M (trapst R) Z :=
  match fuel with
  | O => nofuel
  | Datatypes.S fuel =>
      t <- gets ticks ;;
      if negb (u32 (t - ticks0) <? u32 n) then onctx (release tickslock) ;; ret 0 else
      k <- my_killed ;;
      if negb (k =? 0) then onctx (release tickslock) ;; ret (-1) else
      sleep_on ticks_chan tickslock ;;
      sleep_loop fuel ticks0 n
  end.

Definition sys_sleep (fuel : nat) : M (trapst R) Z :=
  r <- argint 0 ;;
  match r with
  | None => ret (-1)
  | Some n =>
      onctx (acquire tickslock) ;;
      ticks0 <- gets ticks ;;
      sleep_loop fuel ticks0 n
  end.

Definition sys_uptime : M (trapst R) Z :=
  onctx (acquire tickslock) ;;
  xticks <- gets ticks ;;
  onctx (release tickslock) ;;
  ret (s32 xticks).

(** ** [syscall.c] *)

(** The handlers of other components. *)
Context (fuel : nat).
Context (exit yield ideintr kbdintr uartintr : M (trapst R) unit).
Context (ops : sysops R).

(** [syscalls] *)
Definition syscalls (num : Z) : option (M (trapst R) Z) :=
  if num =? SYS_fork then Some (o_fork ops) else
  if num =? SYS_exit then Some (o_exit ops) else
  if num =? SYS_wait then Some (o_wait ops) else
  if num =? SYS_pipe then Some (o_pipe ops) else
  if num =? SYS_read then Some (o_read ops) else
  if num =? SYS_kill then Some (o_kill ops) else
  if num =? SYS_exec then Some (o_exec ops) else
  if num =? SYS_fstat then Some (o_fstat ops) else
  if num =? SYS_chdir then Some (o_chdir ops) else
  if num =? SYS_dup then Some (o_dup ops) else
  if num =? SYS_getpid then Some (o_getpid ops) else
  if num =? SYS_sbrk then Some (o_sbrk ops) else
  if num =? SYS_sleep then Some (sys_sleep fuel) else
  if num =? SYS_uptime then Some sys_uptime else
  if num =? SYS_open then Some (o_open ops) else
  if num =? SYS_write then Some (o_write ops) else
  if num =? SYS_mknod then Some (o_mknod ops) else
  if num =? SYS_unlink then Some (o_unlink ops) else
  if num =? SYS_link then Some (o_link ops) else
  if num =? SYS_mkdir then Some (o_mkdir ops) else
  if num =? SYS_close then Some (o_close ops) else
  if num =? SYS_bufwrite then Some (o_bufwrite ops) else
  if num =? SYS_bufread then Some (o_bufread ops) else
  if num =? SYS_waitfork then Some (o_waitfork ops) else
  None.

Definition syscall : M (trapst R) unit :=
  onctx myproc ;;
  num <- gets (fun s => s32 (tr_eax s)) ;;
  match (if (0 <? num) && (num <? NSYSCALLS) then syscalls num else None) with
  | Some f => r <- f ;; modify (set_eax (u32 r))
  | None => modify (set_eax (u32 (-1)))
  end.

(** ** [trap.c] *)

(** The timer interrupt, less the acknowledgement of the local APIC. *)
Definition timer : M (trapst R) unit :=
  i <- onctx cpuid ;;
  if (i =? 0)%nat then
    onctx (acquire tickslock) ;;
    modify (fun s => set_ticks (u32 (ticks s + 1)) s) ;;
    wakeup_on ticks_chan ;;
    onctx (release tickslock)
  else ret tt.

(** [myproc() && myproc()->killed && (tf->cs & 3) == DPL_USER] *)
Definition exit_if_killed (cs : Z) : M (trapst R) unit :=
  p <- onctx myproc ;;
  match p with
  | None => ret tt
  | Some _ =>
      onctx myproc ;;
      k <- gets tr_killed ;;
      when (negb (k =? 0) && (Z.land cs 3 =? DPL_USER)) exit
  end.

(** The [switch]. *)
Definition dispatch (trapno cs : Z) : M (trapst R) unit :=
  if trapno =? T_IRQ0 + IRQ_TIMER then timer
  else if trapno =? T_IRQ0 + IRQ_IDE then ideintr
  else if trapno =? T_IRQ0 + IRQ_IDE + 1 then ret tt
  else if trapno =? T_IRQ0 + IRQ_KBD then kbdintr
  else if trapno =? T_IRQ0 + IRQ_COM1 then uartintr
  else if (trapno =? T_IRQ0 + 7) || (trapno =? T_IRQ0 + IRQ_SPURIOUS) then onctx cpuid ;; ret tt
  else
    p <- onctx myproc ;;
    match p with
    | None => panic "trap : no proc"
    | Some _ =>
        onctx myproc ;;
        if Z.land cs 3 =? 0 then onctx cpuid ;; panic "trap" else
        onctx myproc ;;
        onctx myproc ;;
        onctx cpuid ;;
        onctx myproc ;;
        modify (set_killed 1)
    end.

Definition trap (trapno cs : Z) : M (trapst R) unit :=
  if trapno =? T_SYSCALL then
    k <- my_killed ;;
    when (negb (k =? 0)) exit ;;
    onctx myproc ;;
    syscall ;;
    k <- my_killed ;;
    when (negb (k =? 0)) exit
  else
    dispatch trapno cs ;;
    exit_if_killed cs ;;
    p <- onctx myproc ;;
    run <- (match p with None => ret false | Some _ => onctx myproc ;; gets tr_running end) ;;
    when (run && (trapno =? T_IRQ0 + IRQ_TIMER)) yield ;;
    exit_if_killed cs.
End Trap.
