(* ===== verification/TrapTheorems.v ===== *)
(** * Traps and the clock: the theorems

    How long [sys_sleep] sleeps, in whatever way it is resumed, and what [trap] and [syscall] do
    with traps and calls they do not know. *)

From Stdlib Require Import ZArith Lia.
From S2P Require Import Prelude Spinlock Bytes Syscall Trap.

Section Clock.
Context {R : Type}.
Implicit Types s t : trapst R.

Definition t_idle (i : nat) (c : cpu) t : Prop := ctx_ok (ctx t) i c /\ locks (ctx t) !! tickslock = None.

(** What a call of [sys_sleep] that has found the clock at [tk0] does each time it is resumed, in
    whatever state: it returns 0 once the clock has moved by [n], and -1 before that if its process
    has been killed; otherwise it sleeps again on the clock.  [fuel] is how often it looks. *)
Fixpoint waits_ticks (fuel : nat) (tk0 n : Z) (kk : trapst R -> res (trapst R) Z) : Prop :=
  match fuel with
  | O => True
  | Datatypes.S fuel =>
      forall t j cj, t_idle j cj t ->
        if u32 n <=? u32 (ticks t - tk0) then kk t = Ret 0 t
        else if negb (tr_killed t =? 0) then kk t = Ret (-1) t
        else exists kk', kk t = Swtch (set_tr_ctx (k_slept ticks_chan tickslock (tr_ctx t)) t) kk' /\ waits_ticks fuel tk0 n kk'
  end.

(** From [s] to [t] there are [m] timer interrupts on CPU 0; between them anything happens that
    does not set the clock. *)
Inductive elapsed s : nat -> trapst R -> Prop :=
| elapsed_0 t : ticks t = ticks s -> elapsed s 0 t
| elapsed_S m t c0 u v :
    elapsed s m t -> t_idle 0 c0 t -> eflags_IF (ctx t) = false -> timer t = Ret tt u -> ticks v = ticks u -> elapsed s (Datatypes.S m) v.

(** One look at the clock, the lock held. *)
Lemma sleep_loop_look fuel tk0 n t j cj : t_idle j cj t ->
  let t1 := set_tr_ctx (k_acq tickslock j (tr_ctx t)) t in
  if u32 n <=? u32 (ticks t - tk0) then sleep_loop (Datatypes.S fuel) tk0 n t1 = Ret 0 t
  else if negb (tr_killed t =? 0) then sleep_loop (Datatypes.S fuel) tk0 n t1 = Ret (-1) t
  else exists kk, sleep_loop (Datatypes.S fuel) tk0 n t1 = Swtch (set_tr_ctx (k_slept ticks_chan tickslock (tr_ctx t)) t) kk /\
    forall u j' cj', t_idle j' cj' u -> kk u = sleep_loop fuel tk0 n (set_tr_ctx (k_acq tickslock j' (tr_ctx u)) u).
Proof.
  intros [Hc Hl] t1. assert (Hr := rel_step (S := trapst R) t1 (tr_ctx t) j cj tickslock Hc Hl eq_refl).
  assert (Ht : set_tr_ctx (tr_ctx t) t1 = t) by (by destruct t). assert (Hm : my_killed t1 = Ret (tr_killed t) t1).
  { assert (wp (my_killed t1) (fun r u => r = tr_killed t /\ u = t1) stays) as H.
    { unfold my_killed. apply wp_step. eapply (wp_myproc_ (S := trapst R)); [by apply ctx_ok_acq|]. done. }
    by apply wp_Ret in H as (r & u & H & -> & ->). }
  cbn [sleep_loop]. rewrite bind_gets. change (ticks t1) with (ticks t). rewrite Z.ltb_antisym, negb_involutive.
  destruct (u32 n <=? u32 (ticks t - tk0)); [rewrite (bind_Ret _ _ _ _ _ Hr); by f_equal|]. rewrite (bind_Ret _ _ _ _ _ Hm).
  destruct (negb (tr_killed t =? 0)); [rewrite (bind_Ret _ _ _ _ _ Hr); by f_equal|].
  assert (wp ((sleep_on ticks_chan tickslock ;; sleep_loop fuel tk0 n) t1) (fun _ _ => False) (fun s1 kk => s1 = set_tr_ctx (k_slept ticks_chan tickslock (tr_ctx t)) t /\
    forall u j' cj', t_idle j' cj' u -> kk u = sleep_loop fuel tk0 n (set_tr_ctx (k_acq tickslock j' (tr_ctx u)) u))) as H.
  { apply wp_bind. eapply (wp_sleep_on (S := trapst R)); [done|exact Hc|exact Hl|]. split; [done|]. intros u j' cj' [Hcj Hlj]. by rewrite (acq_step u j' cj' tickslock Hcj Hlj). }
  apply wp_Swtch in H as (s1 & kk & H1 & -> & H2). by exists kk.
Qed.

Lemma sleep_loop_waits tk0 n fuel kk :
  (forall u j' cj', t_idle j' cj' u -> kk u = sleep_loop fuel tk0 n (set_tr_ctx (k_acq tickslock j' (tr_ctx u)) u)) -> waits_ticks fuel tk0 n kk.
Proof.
  revert kk. induction fuel as [|fuel IH]; intros kk Hkk; [done|]. cbn [waits_ticks]. intros t j cj Ht. rewrite (Hkk t j cj Ht).
  pose proof (sleep_loop_look fuel tk0 n t j cj Ht) as H. cbv zeta in H. destruct (u32 n <=? _); [done|]. destruct (negb _); [done|].
  destruct H as (kk' & H1 & H2). exists kk'. split; [done|]. by apply IH.
Qed.

Lemma u_frame_trap s i c : ctx_ok (ctx s) i c -> u_frame s = Ret (tr_esp s, tr_mem s) s.
Proof.
  intros Hc. assert (wp (u_frame s) (fun r t => r = (tr_esp s, tr_mem s) /\ t = s) stays) as H.
  { cbn [u_frame trapst_user]. apply wp_step. eapply wp_myproc_; [exact Hc|]. done. }
  by apply wp_Ret in H as (r & t & -> & -> & ->).
Qed.

Lemma argint_trap s i c n : ctx_ok (ctx s) i c -> argint n s = Ret (fetchint_in (tr_mem s) (u32 (tr_esp s + 4 + 4 * n))) s.
Proof.
  intros Hc. unfold argint. rewrite (bind_Ret _ _ _ _ _ (u_frame_trap s i c Hc)). unfold fetchint. by rewrite (bind_Ret _ _ _ _ _ (u_frame_trap s i c Hc)).
Qed.

(** A tick. *)
Lemma timer_ticks s c : t_idle 0 c s -> eflags_IF (ctx s) = false -> timer s = Ret tt (set_tr_ctx (k_wake ticks_chan (ctx s)) (set_ticks (u32 (ticks s + 1)) s)).
Proof.
  intros [Hc Hl] HIF. unfold timer. assert (E : onctx cpuid s = Ret 0%nat s) by (apply onctx_same; by eapply mycpu_ok; [apply Hc|]). rewrite (bind_Ret _ _ _ _ _ E). cbn [Nat.eqb].
  rewrite (bind_Ret _ _ _ _ _ (acq_step s 0 c tickslock Hc Hl)), bind_modify. unfold wakeup_on. rewrite bind_modify.
  erewrite (rel_step (S := trapst R) _ (k_wake ticks_chan (ctx s)) 0 c tickslock); [done|exact Hc|exact Hl|done].
Qed.
Lemma elapsed_ticks s m t : elapsed s m t -> u32 (ticks t - ticks s) = u32 (Z.of_nat m).
Proof.
  induction 1 as [t ->|m t c0 u v _ IH Ht HIF Hrun ->]; [by rewrite Z.sub_diag|]. rewrite (timer_ticks t c0 Ht HIF) in Hrun. injection Hrun as <-.
  cbn [ticks set_tr_ctx set_ticks]. rewrite u32_sub_l. replace (ticks t + 1 - ticks s) with (ticks t - ticks s + 1) by lia.
  rewrite <- u32_add_l, IH, u32_add_l. f_equal. lia.
Qed.

(** C31 (liveness).  [sys_sleep] with argument [n] lasts [n] ticks, whatever value the 32-bit clock
    starts from and whether it wraps around on the way; a negative [n] counts as [n] modulo 2 ^ 32.
    With 0 ticks it returns 0 at once, and a process that has been killed gets -1.  Otherwise it
    sleeps on the clock, with the lock free, and however often it is resumed it sleeps again until
    [n] ticks have gone by, or until it is killed.  The timer interrupt of CPU 0 counts a tick and
    wakes those who sleep on the clock; when there have been [m] of them and the process is
    resumed, on any CPU and in whatever state the others have left, it returns 0 if [m] is at least
    [n], also when the last wake-ups came late or together, and sleeps again if it is less. *)
Theorem sleep_lasts_ticks s i c n fuel :
  t_idle i c s -> fetchint_in (tr_mem s) (u32 (tr_esp s + 4)) = Some n ->
  (u32 n = 0 -> sys_sleep (Datatypes.S fuel) s = Ret 0 s) /\
  (u32 n <> 0 -> tr_killed s <> 0 -> sys_sleep (Datatypes.S fuel) s = Ret (-1) s) /\
  (u32 n <> 0 -> tr_killed s = 0 ->
     exists kk, sys_sleep (Datatypes.S (Datatypes.S fuel)) s = Swtch (set_tr_ctx (k_slept ticks_chan tickslock (tr_ctx s)) s) kk /\
       waits_ticks (Datatypes.S fuel) (ticks s) n kk /\
       forall m t j cj, elapsed s m t -> Z.of_nat m < 2 ^ 32 -> t_idle j cj t -> tr_killed t = 0 ->
         if u32 n <=? Z.of_nat m then kk t = Ret 0 t
         else exists kk', kk t = Swtch (set_tr_ctx (k_slept ticks_chan tickslock (tr_ctx t)) t) kk') /\
  (forall t c0, t_idle 0 c0 t -> eflags_IF (ctx t) = false ->
     timer t = Ret tt (set_tr_ctx (k_wake ticks_chan (ctx t)) (set_ticks (u32 (ticks t + 1)) t))).
Proof.
  intros Hi Harg. assert (Hs : forall f, sys_sleep f s = sleep_loop f (ticks s) n (set_tr_ctx (k_acq tickslock i (tr_ctx s)) s)).
  { intros f. destruct Hi as [Hc Hl]. unfold sys_sleep. rewrite (bind_Ret _ _ _ _ _ (argint_trap s i c 0 Hc)).
    replace (tr_esp s + 4 + 4 * 0) with (tr_esp s + 4) by lia. rewrite Harg, (bind_Ret _ _ _ _ _ (acq_step s i c tickslock Hc Hl)). by rewrite bind_gets. }
  assert (Hlook := fun f => sleep_loop_look f (ticks s) n s i c Hi). cbv zeta in Hlook. rewrite Z.sub_diag in Hlook. change (u32 0) with 0 in Hlook.
  assert (Hn := u32_range n). unfold is_u32 in Hn. split_and!.
  - intros E. specialize (Hlook fuel). rewrite E in Hlook. by rewrite Hs.
  - intros Hn0 Hk. specialize (Hlook fuel). rewrite (proj2 (Z.leb_gt _ 0)), (proj2 (Z.eqb_neq _ 0) Hk) in Hlook by lia. by rewrite Hs.
  - intros Hn0 Hk. specialize (Hlook (Datatypes.S fuel)). rewrite (proj2 (Z.leb_gt _ 0)), Hk in Hlook by lia. destruct Hlook as (kk & H1 & H2). exists kk. rewrite Hs.
    assert (Hw := sleep_loop_waits _ _ _ _ H2). split_and!; [done|done|]. intros m t j cj He Hm Ht Hkt. specialize (Hw t j cj Ht).
    rewrite (elapsed_ticks _ _ _ He), (u32_small (Z.of_nat m)) in Hw by (unfold is_u32; lia). destruct (u32 n <=? Z.of_nat m); [done|]. rewrite Hkt in Hw.
    destruct Hw as (kk' & H3 & _). by exists kk'.
  - apply timer_ticks.
Qed.
End Clock.

Section Dispatch.
Context {R : Type}.
Context (fuel : nat).
Context (exit yield ideintr kbdintr uartintr : M (trapst R) unit).
Context (ops : sysops R).
Implicit Types s : trapst R.
Notation trap := (trap fuel exit yield ideintr kbdintr uartintr ops).

Definition known_trap (trapno : Z) : bool :=
  (trapno =? T_SYSCALL) || (trapno =? T_IRQ0 + IRQ_TIMER) || (trapno =? T_IRQ0 + IRQ_IDE) || (trapno =? T_IRQ0 + IRQ_IDE + 1) ||
  (trapno =? T_IRQ0 + IRQ_KBD) || (trapno =? T_IRQ0 + IRQ_COM1) || (trapno =? T_IRQ0 + 7) || (trapno =? T_IRQ0 + IRQ_SPURIOUS).

Lemma myproc_run s i c : ctx_ok (ctx s) i c -> onctx myproc s = Ret (cproc c) s.
Proof. intros Hc. by eapply onctx_same, myproc_ok. Qed.

Lemma cpuid_run s i c : ctx_ok (ctx s) i c -> eflags_IF (ctx s) = false -> onctx cpuid s = Ret i s.
Proof. intros Hc HIF. apply onctx_same. eapply mycpu_ok; [apply Hc|done]. Qed.

Lemma dispatch_fault s i c p trapno cs : ctx_ok (ctx s) i c -> eflags_IF (ctx s) = false -> cproc c = Some p -> known_trap trapno = false ->
  dispatch ideintr kbdintr uartintr trapno cs s = if Z.land cs 3 =? 0 then Panic "trap" else Ret tt (set_killed 1 s).
Proof.
  intros Hc HIF Hp Hk. unfold known_trap in Hk. repeat (apply orb_false_iff in Hk as [Hk ?]). unfold dispatch.
  rewrite H5, H4, H3, H2, H1, H0, H. cbn [orb]. rewrite (bind_Ret _ _ _ _ _ (myproc_run s i c Hc)), Hp, (bind_Ret _ _ _ _ _ (myproc_run s i c Hc)). destruct (Z.land cs 3 =? 0).
  - by rewrite (bind_Ret _ _ _ _ _ (cpuid_run s i c Hc HIF)).
  - by rewrite !(bind_Ret _ _ _ _ _ (myproc_run s i c Hc)), (bind_Ret _ _ _ _ _ (cpuid_run s i c Hc HIF)), (bind_Ret _ _ _ _ _ (myproc_run s i c Hc)).
Qed.

(** Traps that must not go on: an unexpected trap in the kernel panics; one in
    a user program marks the process killed and calls [exit] before anything else; a
    killed process that makes a system call exits without performing it; and an unknown
    system call number gives -1 and changes nothing else. *)
Theorem trap_stops s i c p trapno cs :
  ctx_ok (ctx s) i c -> cproc c = Some p ->
  (eflags_IF (ctx s) = false -> known_trap trapno = false -> Z.land cs 3 = 0 -> trap trapno cs s = Panic "trap") /\
  (eflags_IF (ctx s) = false -> known_trap trapno = false -> Z.land cs 3 = DPL_USER -> exists rest, trap trapno cs s = bind exit rest (set_killed 1 s)) /\
  (tr_killed s <> 0 -> exists rest, trap T_SYSCALL cs s = bind exit rest s) /\
  (tr_killed s = 0 -> ~ (0 < s32 (tr_eax s) < NSYSCALLS) -> trap T_SYSCALL cs s = Ret tt (set_eax (2 ^ 32 - 1) s)).
Proof.
  intros Hc Hp. assert (Hm := myproc_run s i c Hc). unfold Trap.trap. split_and!.
  - intros HIF Hk Hcs. assert (trapno =? T_SYSCALL = false) as -> by (unfold known_trap in Hk; by repeat (apply orb_false_iff in Hk as [Hk ?])).
    unfold bind. rewrite (dispatch_fault s i c p trapno cs Hc HIF Hp Hk), Hcs. done.
  - intros HIF Hk Hcs. assert (trapno =? T_SYSCALL = false) as -> by (unfold known_trap in Hk; by repeat (apply orb_false_iff in Hk as [Hk ?])).
    assert (Hd := dispatch_fault s i c p trapno cs Hc HIF Hp Hk). rewrite Hcs in Hd. change (DPL_USER =? 0) with false in Hd. cbv iota in Hd. rewrite (bind_Ret _ _ _ _ _ Hd).
    unfold exit_if_killed at 1. assert (Hm1 := myproc_run (set_killed 1 s) i c Hc). unfold bind at 1. rewrite (bind_Ret _ _ _ _ _ Hm1), Hp, (bind_Ret _ _ _ _ _ Hm1), bind_gets, Hcs.
    cbn [tr_killed set_killed negb Z.eqb andb]. by eexists.
  - intros Hk. rewrite Z.eqb_refl. unfold my_killed at 1. unfold bind at 1. rewrite (bind_Ret _ _ _ _ _ Hm). cbn [gets rbind]. rewrite (proj2 (Z.eqb_neq _ _) Hk). cbn [negb when]. by eexists.
  - intros Hk Hn. rewrite Z.eqb_refl. assert (Hmk : my_killed s = Ret 0 s) by (unfold my_killed; rewrite (bind_Ret _ _ _ _ _ Hm); unfold gets; by rewrite Hk).
    rewrite (bind_Ret _ _ _ _ _ Hmk). cbn [negb when Z.eqb]. rewrite (bind_Ret (ret tt) _ s tt s eq_refl), (bind_Ret _ _ _ _ _ Hm).
    assert (Hs : syscall fuel ops s = Ret tt (set_eax (2 ^ 32 - 1) s)).
    { unfold syscall. rewrite (bind_Ret _ _ _ _ _ Hm), bind_gets. destruct (Z.ltb_spec 0 (s32 (tr_eax s))); [|done]. destruct (Z.ltb_spec (s32 (tr_eax s)) NSYSCALLS); [lia|done]. }
    rewrite (bind_Ret _ _ _ _ _ Hs). set (s1 := set_eax _ s). assert (Hmk1 : my_killed s1 = Ret 0 s1).
    { unfold my_killed. rewrite (bind_Ret _ _ _ _ _ (myproc_run s1 i c Hc)). unfold gets. cbn. by rewrite Hk. }
    by rewrite (bind_Ret _ _ _ _ _ Hmk1).
Qed.
End Dispatch.

(** ** Witnesses *)

(** A process with the argument 2 on its stack; the clock is about to wrap around. *)
Definition demo_trap : trapst unit :=
  mktrap (mkctx 0 false [mkcpu 0 1 0 false (Some 0%nat)] ∅ []) (2 ^ 32 - 1) 0 true 99 0 [0; 0; 0; 0; 2; 0; 0; 0] tt.

Lemma demo_trap_ok : ctx_ok (ctx demo_trap) 0 (mkcpu 0 1 0 false (Some 0%nat)).
Proof. repeat split; cbn; intros; lia || done. Qed.

Definition no_calls : sysops unit :=
  let f := ret (-1) in mksysops unit f f f f f f f f f f f f f f f f f f f f f f.

Lemma sleep_lasts_ticks_witness : exists s1 kk t, sys_sleep 2 demo_trap = Swtch s1 kk /\ elapsed demo_trap 2 t /\ ticks t = 1 /\ kk t = Ret 0 t.
Proof.
  assert (Hid : t_idle 0 (mkcpu 0 1 0 false (Some 0%nat)) demo_trap) by exact (conj demo_trap_ok eq_refl).
  destruct (sleep_lasts_ticks demo_trap 0 _ 2 0 Hid eq_refl) as (_ & _ & H & Ht). destruct H as (kk & H1 & _ & H2); [discriminate|reflexivity|].
  set (t1 := set_tr_ctx (k_wake ticks_chan (ctx demo_trap)) (set_ticks 0 demo_trap)). set (t2 := set_tr_ctx (k_wake ticks_chan (ctx t1)) (set_ticks 1 t1)).
  assert (He : elapsed demo_trap 2 t2).
  { apply (elapsed_S _ 1 t1 (mkcpu 0 1 0 false (Some 0%nat)) t2); [|exact Hid|reflexivity|exact (Ht t1 _ Hid eq_refl)|reflexivity].
    apply (elapsed_S _ 0 demo_trap (mkcpu 0 1 0 false (Some 0%nat)) t1); [by constructor|exact Hid|reflexivity|exact (Ht demo_trap _ Hid eq_refl)|reflexivity]. }
  eexists _, kk, t2. split; [exact H1|]. split; [exact He|]. split; [reflexivity|]. exact (H2 2%nat t2 0%nat _ He eq_refl Hid eq_refl).
Defined.

Lemma trap_stops_witness : (exists rest, trap 0 (ret tt) (ret tt) (ret tt) (ret tt) (ret tt) no_calls 14 0x1b demo_trap = bind (ret tt) rest (set_killed 1 demo_trap)) /\
  trap 0 (ret tt) (ret tt) (ret tt) (ret tt) (ret tt) no_calls T_SYSCALL 0x1b demo_trap = Ret tt (set_eax (2 ^ 32 - 1) demo_trap).
Proof.
  destruct (trap_stops 0 (ret tt) (ret tt) (ret tt) (ret tt) (ret tt) no_calls demo_trap 0 _ 0 14 0x1b demo_trap_ok eq_refl) as (_ & H1 & _ & H2).
  split.
  - exact (H1 eq_refl eq_refl eq_refl).
  - apply H2; [reflexivity|]. vm_compute. intros [_ H]. discriminate H.
Defined.
