(* ===== verification/Fcntl.v ===== *)
(** * Modes of [open]

    The constants of [fcntl.h], which the kernel and the user programs share. *)

From S2P Require Import Prelude.

Definition O_RDONLY : Z := 0.
Definition O_WRONLY : Z := 1.
Definition O_RDWR : Z := 2.
Definition O_CREATE : Z := 0x200.
