(* ===== verification/Sysfile.v ===== *)
(** * The file system calls

    Models [sysfile.c]; [sys_bufread] is in [Report.v], [sys_bufwrite] and [sys_waitfork] are in
    [Sysproc.v].  A process is its memory,
    its saved stack pointer, and the state of the files.  A path is fetched from user
    memory once, where the code keeps a pointer to it. *)

From Stdlib Require Import ZArith Lia.
From S2P Require Import Prelude Spinlock Sleeplock Pipe Strings Blocks Bytes Log Txn Fs File Syscall Fcntl.

Definition NOFILE : Z := 16.
Definition MAXARG : Z := 32.

Record sysst (S : Type) := mksys { s_mem : list Z; s_esp : Z; s_files : filest S }.
Arguments mksys {S}.
Arguments s_mem {S}.
Arguments s_esp {S}.
Arguments s_files {S}.

Section State.
Context {S : Type} `{!HasCtx S}.
Implicit Types s : sysst S.
Definition set_s_mem (m : list Z) s : sysst S := mksys m (s_esp s) (s_files s).
Definition set_s_files (x : filest S) s : sysst S := mksys (s_mem s) (s_esp s) x.

#[export] Instance sysst_ctx : HasCtx (sysst S).
Proof.
  refine {| ctx := fun s => ctx (s_files s); set_ctx := fun k s => set_s_files (set_ctx k (s_files s)) s |}.
  - intros k s. apply (ctx_set_ctx (S := filest S)).
  - intros k k' s. unfold set_s_files. cbn [s_mem s_esp s_files]. by rewrite (set_ctx_set (S := filest S)).
  - intros []. unfold set_s_files. cbn [s_mem s_esp s_files]. by rewrite (set_ctx_ctx (S := filest S)).
Defined.

#[export] Instance sysst_user : HasUser (sysst S) := {| u_frame := onctx myproc ;; gets (fun s => (s_esp s, s_mem s)) |}.
End State.

Section Sysfile.
Context {S : Type} `{!HasCtx S, !Txn S}.
Context (waits : nat).
Context (dev_read : Z -> option (nat -> Z -> M (fsst S) (Z * list Z))).
Context (dev_write : Z -> option (nat -> list Z -> M (fsst S) Z)).
(** [exec(path, argv)], and the old contents of the page of a new pipe. *)
Context (exec : list Z -> list (list Z) -> M (sysst S) Z).
Context (old_page : list Z).

Definition onfiles {A} (m : M (filest S) A) : M (sysst S) A := inside s_files set_s_files m.

(** A store to user memory. *)
Definition store_user (addr : Z) (l : list Z) : M (sysst S) unit := modify (fun s => set_s_mem (patch (Z.to_nat addr) l (s_mem s)) s).
Definition load_user (addr n : Z) : M (sysst S) (list Z) := gets (fun s => sub (Z.to_nat addr) (Z.to_nat n) (s_mem s)).

(** ** File descriptors *)

(** The descriptor and the file. *)
Definition argfd (n : Z) : M (sysst S) (option (Z * nat)) :=
  r <- argint n ;;
  match r with
  | None => ret None
  | Some fd =>
      if (fd <? 0) || (NOFILE <=? fd) then ret None else
      onctx myproc ;;
      o <- gets (fun s => ofiles (s_files s) !! Z.to_nat fd) ;;
      match o with
      | Some (Some f) => ret (Some (fd, f))
      | _ => ret None
      end
  end.

Fixpoint find_fd (l : list (option nat)) (fd : nat) : option nat :=
  match l with
  | [] => None
  | None :: _ => Some fd
  | Some _ :: l => find_fd l (Datatypes.S fd)
  end.

Definition fdalloc (f : nat) : M (filest S) (option nat) :=
  onctx myproc ;;
  l <- gets ofiles ;;
  match find_fd l 0 with
  | None => ret None
  | Some fd => modify (set_ofiles (<[fd := Some f]> l)) ;; ret (Some fd)
  end.

Definition clear_fd (fd : nat) : M (filest S) unit :=
  onctx myproc ;;
  modify (fun s => set_ofiles (<[fd := None]> (ofiles s)) s).

Definition sys_dup : M (sysst S) Z :=
  r <- argfd 0 ;;
  match r with
  | None => ret (-1)
  | Some (_, f) =>
      fd <- onfiles (fdalloc f) ;;
      match fd with
      | None => ret (-1)
      | Some fd => onfiles (filedup f) ;; ret (Z.of_nat fd)
      end
  end.

(** [argfd(0, 0, &f) < 0 || argint(2, &n) < 0 || argptr(1, &p, n) < 0] *)
Definition rw_args : M (sysst S) (option (nat * Z * Z)) :=
  r <- argfd 0 ;;
  match r with
  | None => ret None
  | Some (_, f) =>
      n <- argint 2 ;;
      match n with
      | None => ret None
      | Some n =>
          p <- argptr 1 n ;;
          match p with
          | None => ret None
          | Some p => ret (Some (f, p, n))
          end
      end
  end.

Definition sys_read : M (sysst S) Z :=
  a <- rw_args ;;
  match a with
  | None => ret (-1)
  | Some (f, p, n) =>
      r <- onfiles (fileread waits dev_read f n) ;;
      store_user p (snd r) ;;
      ret (fst r)
  end.

Definition sys_write : M (sysst S) Z :=
  a <- rw_args ;;
  match a with
  | None => ret (-1)
  | Some (f, p, n) =>
      l <- load_user p n ;;
      onfiles (filewrite waits dev_write f l)
  end.

Definition sys_close : M (sysst S) Z :=
  r <- argfd 0 ;;
  match r with
  | None => ret (-1)
  | Some (fd, f) =>
      onfiles (clear_fd (Z.to_nat fd)) ;;
      onfiles (fileclose waits f) ;;
      ret 0
  end.

(** The fields of [struct stat], stored one by one. *)
Definition store_stat (addr : Z) (st : stat) : M (sysst S) unit :=
  store_user (addr + 4) (le_bytes 4 (u32 (st_dev st))) ;;
  store_user (addr + 8) (le_bytes 4 (st_ino st)) ;;
  store_user addr (le_bytes 2 (u16 (st_type st))) ;;
  store_user (addr + 12) (le_bytes 2 (u16 (st_nlink st))) ;;
  store_user (addr + 16) (le_bytes 4 (st_size st)).

Definition sys_fstat : M (sysst S) Z :=
  r <- argfd 0 ;;
  match r with
  | None => ret (-1)
  | Some (_, f) =>
      p <- argptr 1 20 ;;
      match p with
      | None => ret (-1)
      | Some p =>
          st <- onfiles (filestat waits f) ;;
          match st with
          | None => ret (-1)
          | Some st => store_stat p st ;; ret 0
          end
      end
  end.

(** ** Links *)

(** [end_op(); return -1] *)
Definition fail_op : M (filest S) Z := end_op ;; ret (-1).

Definition set_links (h : Z -> Z) (ip : nat) : M (fsst S) unit := upd_ino (fun p => set_nlink (s16 (h (i_nlink p))) p) ip.

(** The label [bad] of [sys_link]. *)
Definition link_bad (ip : nat) : M (filest S) Z :=
  onfs (ilock waits (Some ip)) ;;
  onfs (set_links (fun n => n - 1) ip) ;;
  onfs (iupdate ip) ;;
  onfs (iunlockput waits ip) ;;
  fail_op.

Definition do_link (old new : list Z) : M (filest S) Z :=
  begin_op waits ;;
  r <- onfs (namei waits dev_read old) ;;
  match r with
  | None => fail_op
  | Some ip =>
      onfs (ilock waits (Some ip)) ;;
      p <- onfs (ino ip) ;;
      if i_type p =? T_DIR then onfs (iunlockput waits ip) ;; fail_op else
      onfs (set_links (fun n => n + 1) ip) ;;
      onfs (iupdate ip) ;;
      onfs (iunlock (Some ip)) ;;
      r <- onfs (nameiparent waits dev_read new (replicate DIRSIZ 0)) ;;
      match r with
      | (None, _) => link_bad ip
      | (Some dp, name) =>
          onfs (ilock waits (Some dp)) ;;
          d <- onfs (ino dp) ;;
          p <- onfs (ino ip) ;;
          r <- (if negb (i_dev d =? i_dev p) then ret (-1) else onfs (dirlink waits dev_read dev_write dp name (i_inum p))) ;;
          if r <? 0 then onfs (iunlockput waits dp) ;; link_bad ip else
          onfs (iunlockput waits dp) ;;
          onfs (iput waits ip) ;;
          end_op ;;
          ret 0
      end
  end.

Definition sys_link : M (sysst S) Z :=
  old <- argstr 0 ;;
  match old with
  | None => ret (-1)
  | Some old =>
      new <- argstr 1 ;;
      match new with
      | None => ret (-1)
      | Some new => onfiles (do_link old new)
      end
  end.

Fixpoint isdirempty_loop (fuel : nat) (dp : nat) (off : Z) : M (fsst S) bool :=
  match fuel with
  | O => nofuel
  | Datatypes.S fuel =>
      p <- ino dp ;;
      if off <? i_size p then
        r <- readi dev_read dp off 16 ;;
        if negb (fst r =? 16) then panic "isdirempty: readi" else
        if negb (de_inum (snd r) =? 0) then ret false else isdirempty_loop fuel dp (off + 16)
      else ret true
  end.

Definition isdirempty (dp : nat) : M (fsst S) bool :=
  p <- ino dp ;;
  isdirempty_loop (Z.to_nat (i_size p / 16 + 2)) dp (2 * 16).

(** The label [bad] of [sys_unlink]. *)
Definition unlink_bad (dp : nat) : M (filest S) Z := onfs (iunlockput waits dp) ;; fail_op.

Definition do_unlink (path : list Z) : M (filest S) Z :=
  begin_op waits ;;
  r <- onfs (nameiparent waits dev_read path (replicate DIRSIZ 0)) ;;
  match r with
  | (None, _) => fail_op
  | (Some dp, name) =>
      onfs (ilock waits (Some dp)) ;;
      match namecmp name (cstr [46]), namecmp name (cstr [46; 46]) with
      | Some r1, Some r2 =>
          if (r1 =? 0) || (r2 =? 0) then unlink_bad dp else
          r <- onfs (dirlookup dev_read dp name) ;;
          match r with
          | None => unlink_bad dp
          | Some (ip, off) =>
              onfs (ilock waits (Some ip)) ;;
              p <- onfs (ino ip) ;;
              if i_nlink p <? 1 then panic "unlink: nlink < 1" else
              full <- (if i_type p =? T_DIR then e <- onfs (isdirempty ip) ;; ret (negb e) else ret false) ;;
              if full then onfs (iunlockput waits ip) ;; unlink_bad dp else
              n <- onfs (writei dev_write dp (replicate 16 0) off) ;;
              if negb (n =? 16) then panic "unlink: writei" else
              p <- onfs (ino ip) ;;
              when (i_type p =? T_DIR) (onfs (set_links (fun n => n - 1) dp) ;; onfs (iupdate dp)) ;;
              onfs (iunlockput waits dp) ;;
              onfs (set_links (fun n => n - 1) ip) ;;
              onfs (iupdate ip) ;;
              onfs (iunlockput waits ip) ;;
              end_op ;;
              ret 0
          end
      | _, _ => ub "namecmp"
      end
  end.

Definition sys_unlink : M (sysst S) Z :=
  path <- argstr 0 ;;
  match path with
  | None => ret (-1)
  | Some path => onfiles (do_unlink path)
  end.

(** ** Creation *)

(** The new inode, locked.  [ialloc] never returns null. *)
Definition create (path : list Z) (type major minor : Z) : M (fsst S) (option nat) :=
  r <- nameiparent waits dev_read path (replicate DIRSIZ 0) ;;
  match r with
  | (None, _) => ret None
  | (Some dp, name) =>
      ilock waits (Some dp) ;;
      r <- dirlookup dev_read dp name ;;
      match r with
      | Some (ip, _) =>
          iunlockput waits dp ;;
          ilock waits (Some ip) ;;
          p <- ino ip ;;
          if (type =? T_FILE) && (i_type p =? T_FILE) then ret (Some ip) else
          iunlockput waits ip ;;
          ret None
      | None =>
          d <- ino dp ;;
          ip <- ialloc (i_dev d) type ;;
          ilock waits (Some ip) ;;
          upd_ino (set_majmin (s16 major) (s16 minor)) ip ;;
          upd_ino (set_nlink 1) ip ;;
          iupdate ip ;;
          p <- ino ip ;;
          when (type =? T_DIR) (
            set_links (fun n => n + 1) dp ;;
            iupdate dp ;;
            d <- ino dp ;;
            r <- dirlink waits dev_read dev_write ip (cstr [46]) (i_inum p) ;;
            if r <? 0 then panic "create dots" else
            r <- dirlink waits dev_read dev_write ip (cstr [46; 46]) (i_inum d) ;;
            if r <? 0 then panic "create dots" else ret tt) ;;
          r <- dirlink waits dev_read dev_write dp name (i_inum p) ;;
          if r <? 0 then panic "create: dirlink" else
          iunlockput waits dp ;;
          ret (Some ip)
      end
  end.

(** The inode to open, locked, or the result -1. *)
Definition open_inode (path : list Z) (omode : Z) : M (filest S) (option nat) :=
  if negb (Z.land omode O_CREATE =? 0) then
    r <- onfs (create path T_FILE 0 0) ;;
    match r with
    | None => end_op ;; ret None
    | Some ip => ret (Some ip)
    end
  else
    r <- onfs (namei waits dev_read path) ;;
    match r with
    | None => end_op ;; ret None
    | Some ip =>
        onfs (ilock waits (Some ip)) ;;
        p <- onfs (ino ip) ;;
        if (i_type p =? T_DIR) && negb (omode =? O_RDONLY) then onfs (iunlockput waits ip) ;; end_op ;; ret None else
        ret (Some ip)
    end.

(** No file, or no descriptor, for the inode. *)
Definition open_bad (f : option nat) (ip : nat) : M (filest S) Z :=
  (match f with Some f => fileclose waits f | None => ret tt end) ;;
  onfs (iunlockput waits ip) ;;
  fail_op.

Definition do_open (path : list Z) (omode : Z) : M (filest S) Z :=
  begin_op waits ;;
  r <- open_inode path omode ;;
  match r with
  | None => ret (-1)
  | Some ip =>
      f <- filealloc ;;
      match f with
      | None => open_bad None ip
      | Some f =>
          fd <- fdalloc f ;;
          match fd with
          | None => open_bad (Some f) ip
          | Some fd =>
              onfs (iunlock (Some ip)) ;;
              end_op ;;
              updf (fun x => mkfile FD_INODE (f_ref x) (Z.b2z (Z.land omode O_WRONLY =? 0))
                     (Z.b2z (negb (Z.land omode O_WRONLY =? 0) || negb (Z.land omode O_RDWR =? 0))) (f_pipe x) ip 0) f ;;
              ret (Z.of_nat fd)
          end
      end
  end.

Definition sys_open : M (sysst S) Z :=
  path <- argstr 0 ;;
  match path with
  | None => ret (-1)
  | Some path =>
      omode <- argint 1 ;;
      match omode with
      | None => ret (-1)
      | Some omode => onfiles (do_open path omode)
      end
  end.

(** [create] of the path in a transaction, its inode released. *)
Definition make_node (path : option (list Z)) (type major minor : Z) : M (filest S) Z :=
  match path with
  | None => fail_op
  | Some path =>
      r <- onfs (create path type major minor) ;;
      match r with
      | None => fail_op
      | Some ip =>
          onfs (iunlockput waits ip) ;;
          end_op ;;
          ret 0
      end
  end.

Definition sys_mkdir : M (sysst S) Z :=
  onfiles (begin_op waits) ;;
  path <- argstr 0 ;;
  onfiles (make_node path T_DIR 0 0).

Definition sys_mknod : M (sysst S) Z :=
  onfiles (begin_op waits) ;;
  path <- argstr 0 ;;
  match path with
  | None => onfiles (make_node None T_DEV 0 0)
  | Some path =>
      major <- argint 1 ;;
      match major with
      | None => onfiles (make_node None T_DEV 0 0)
      | Some major =>
          minor <- argint 2 ;;
          match minor with
          | None => onfiles (make_node None T_DEV 0 0)
          | Some minor => onfiles (make_node (Some path) T_DEV (s16 major) (s16 minor))
          end
      end
  end.

Definition do_chdir (path : option (list Z)) : M (filest S) Z :=
  match path with
  | None => fail_op
  | Some path =>
      r <- onfs (namei waits dev_read path) ;;
      match r with
      | None => fail_op
      | Some ip =>
          onfs (ilock waits (Some ip)) ;;
          p <- onfs (ino ip) ;;
          if negb (i_type p =? T_DIR) then onfs (iunlockput waits ip) ;; fail_op else
          onfs (iunlock (Some ip)) ;;
          cwd <- onfs (gets f_cwd) ;;
          onfs (iput waits cwd) ;;
          end_op ;;
          onfs (modify (set_cwd ip)) ;;
          ret 0
      end
  end.

Definition sys_chdir : M (sysst S) Z :=
  onctx myproc ;;
  onfiles (begin_op waits) ;;
  path <- argstr 0 ;;
  onfiles (do_chdir path).

(** ** [exec] and [pipe] *)

(** The loop of [sys_exec] from [i] on; [n] arguments are left for [argv]. *)
Fixpoint fetch_args (n : nat) (uargv i : Z) (argv : list (list Z)) : M (sysst S) (option (list (list Z))) :=
  match n with
  | O => ret None
  | Datatypes.S n =>
      r <- fetchint (u32 (uargv + 4 * i)) ;;
      match r with
      | None => ret None
      | Some uarg =>
          if uarg =? 0 then ret (Some argv) else
          a <- fetchstr (u32 uarg) ;;
          match a with
          | None => ret None
          | Some a => fetch_args n uargv (i + 1) (argv ++ [a])
          end
      end
  end.

Definition sys_exec : M (sysst S) Z :=
  path <- argstr 0 ;;
  match path with
  | None => ret (-1)
  | Some path =>
      uargv <- argint 1 ;;
      match uargv with
      | None => ret (-1)
      | Some uargv =>
          argv <- fetch_args (Z.to_nat MAXARG) (u32 uargv) 0 [] ;;
          match argv with
          | None => ret (-1)
          | Some argv => exec path argv
          end
      end
  end.

(** The descriptors of a new pipe. *)
Definition do_pipe : M (filest S) (option (nat * nat)) :=
  r <- pipealloc waits old_page ;;
  match r with
  | None => ret None
  | Some (rf, wf) =>
      fd0 <- fdalloc rf ;;
      match fd0 with
      | None => fileclose waits rf ;; fileclose waits wf ;; ret None
      | Some fd0 =>
          fd1 <- fdalloc wf ;;
          match fd1 with
          | None => clear_fd fd0 ;; fileclose waits rf ;; fileclose waits wf ;; ret None
          | Some fd1 => ret (Some (fd0, fd1))
          end
      end
  end.

Definition sys_pipe : M (sysst S) Z :=
  fd <- argptr 0 (2 * 4) ;;
  match fd with
  | None => ret (-1)
  | Some fd =>
      r <- onfiles do_pipe ;;
      match r with
      | None => ret (-1)
      | Some (fd0, fd1) =>
          store_user fd (le_bytes 4 (Z.of_nat fd0)) ;;
          store_user (fd + 4) (le_bytes 4 (Z.of_nat fd1)) ;;
          ret 0
      end
  end.
End Sysfile.
