(* ===== verification/SysTheorems.v ===== *)
(** * System calls: the theorems

    The argument checks of [syscall.c] keep the kernel inside the memory of the process,
    and [sys_pipe] gives back what it took when it fails. *)

From Stdlib Require Import ZArith Lia.
From S2P Require Import Prelude Spinlock Sleeplock Pipe Strings Blocks Bytes Bio BioSpec BioOps BioTheorems Log LogSpec LogOps LogCrash Txn Demo.
From S2P Require Import Fs FsSpec FsInode FsFile FsWrite FsTheorems File FileSpec FileTheorems Syscall Sysfile.

(** ** Arguments *)

Section Args.
Context {S : Type} `{!HasCtx S}.
Implicit Types s : sysst S.

Lemma u_frame_run s i c : ctx_ok (ctx s) i c -> u_frame s = Ret (s_esp s, s_mem s) s.
Proof.
  intros Hc. assert (wp (u_frame s) (fun r t => r = (s_esp s, s_mem s) /\ t = s) stays) as H.
  { cbn [u_frame sysst_user]. apply wp_step. eapply wp_myproc_; [exact Hc|]. done. }
  by apply wp_Ret in H as (r & t & -> & -> & ->).
Qed.

Lemma fetchint_run s i c a : ctx_ok (ctx s) i c -> fetchint a s = Ret (fetchint_in (s_mem s) a) s.
Proof. intros Hc. unfold fetchint. by rewrite (bind_Ret _ _ _ _ _ (u_frame_run s i c Hc)). Qed.

Lemma argint_run s i c n : ctx_ok (ctx s) i c -> argint n s = Ret (fetchint_in (s_mem s) (u32 (s_esp s + 4 + 4 * n))) s.
Proof. intros Hc. unfold argint. rewrite (bind_Ret _ _ _ _ _ (u_frame_run s i c Hc)). by eapply fetchint_run. Qed.

(** C29 (bounds).  Whatever the stack pointer and the arguments of a process are, the
    argument functions do not change the state, and what they return lies in its memory:
    [argint] reads four bytes of it, [argptr] an address with [size] bytes behind it, and
    [argstr] a string that ends in it. *)
Theorem args_in_bounds s i c n size :
  ctx_ok (ctx s) i c -> user_mem (s_mem s) -> size < 2 ^ 31 ->
  let sz := Z.of_nat (length (s_mem s)) in
  (exists r, argint n s = Ret r s /\ forall v, r = Some v -> exists a, 0 <= a /\ a + 4 <= sz /\ v = s32 (getn 4 (Z.to_nat a) (s_mem s))) /\
  (exists r, argptr n size s = Ret r s /\ forall p, r = Some p -> 0 <= size /\ 0 <= p /\ p < sz /\ p + size <= sz) /\
  (exists r, argstr n s = Ret r s /\ forall str, r = Some str -> Forall (fun ch => ch <> 0) str /\
     exists a t, 0 <= a /\ drop (Z.to_nat a) (s_mem s) = str ++ 0 :: t /\ a + Z.of_nat (length str) < sz).
Proof.
  intros Hc Hm Hsize sz. assert (Hi := argint_run s i c n Hc). set (a0 := u32 (s_esp s + 4 + 4 * n)) in *. assert (Ha0 : is_u32 a0) by apply u32_range.
  assert (Hsp := fetchint_in_spec (s_mem s) a0 Hm Ha0). fold sz in Hsp. unfold user_mem in Hm. fold sz in Hm. split_and!.
  - exists (fetchint_in (s_mem s) a0). split; [done|]. intros v Hv. rewrite Hsp in Hv. destruct (Z.leb_spec (a0 + 4) sz); [|done]. injection Hv as <-.
    exists a0. unfold is_u32 in Ha0. split_and!; [lia|lia|done].
  - unfold argptr. rewrite (bind_Ret _ _ _ _ _ (u_frame_run s i c Hc)), (bind_Ret _ _ _ _ _ Hi). cbn [snd]. fold sz.
    destruct (fetchint_in (s_mem s) a0) as [v|]; [|by exists None]. pose proof (u32_range v) as Hv. unfold is_u32 in Hv.
    destruct (Z.ltb_spec size 0); cbn [orb]; [by exists None|]. destruct (Z.leb_spec sz (u32 v)); cbn [orb]; [by exists None|].
    rewrite (u32_small (u32 v + size)) by (unfold is_u32; lia). destruct (Z.ltb_spec sz (u32 v + size)); [by exists None|].
    exists (Some (u32 v)). split; [done|]. intros p [= <-]. lia.
  - unfold argstr. rewrite (bind_Ret _ _ _ _ _ Hi). destruct (fetchint_in (s_mem s) a0) as [v|]; [|by exists None].
    pose proof (u32_range v) as Hv. unfold is_u32 in Hv. unfold fetchstr. rewrite (bind_Ret _ _ _ _ _ (u_frame_run s i c Hc)). cbn [snd].
    eexists. split; [reflexivity|]. intros str. unfold fetchstr_in. fold sz. destruct (Z.leb_spec sz (u32 v)); [done|].
    intros (t & Ht & Hf)%str_at_spec. split; [done|]. exists (u32 v), t. split_and!; [lia|done|].
    apply (f_equal length) in Ht. rewrite length_drop, length_app in Ht. cbn in Ht. lia.
Qed.
End Args.

(** ** [sys_pipe] *)

(** The ends of a pipe, closed. *)
Lemma pipeclose_run pa s i c w : pipe_idle pa s i c ->
  let p := the_pipe s in let p' := if w : bool then mkpipe (data p) (nread p) (nwrite p) (readopen p) 0 else mkpipe (data p) (nread p) (nwrite p) 0 (writeopen p) in
  exists k, pipeclose pa w s = Ret tt (mkpipest k p' (me_killed s) ((readopen p' =? 0) && (writeopen p' =? 0) || freed s)) /\
    k = k_wake (if w then nread_chan pa else nwrite_chan pa) (pipe_ctx s).
Proof.
  intros [Hc Hl] p p'. eexists. split; [|reflexivity].
  assert (wp (pipeclose pa w s) (fun _ t => t = mkpipest (k_wake (if w then nread_chan pa else nwrite_chan pa) (pipe_ctx s)) p' (me_killed s)
    ((readopen p' =? 0) && (writeopen p' =? 0) || freed s)) stays) as H.
  { unfold pipeclose. apply wp_step. eapply (wp_acq (S := pipest)); [done..|]. apply wp_step. destruct w.
    - apply wp_step. cbn [modify wp]. cbn [wakeup_on modify wp]. apply wp_step. cbn [gets wp]. cbn [the_pipe set_pipe set_ctx pipest_ctx set_pipe_ctx]. fold p.
      change (mkpipe (data p) (nread p) (nwrite p) (readopen p) 0) with p'. destruct ((readopen p' =? 0) && (writeopen p' =? 0)).
      + apply wp_step. eapply (wp_rel (S := pipest)); [by apply k_wake_acq|exact Hc|done|]. done.
      + eapply (wp_rel (S := pipest)); [by apply k_wake_acq|exact Hc|done|]. done.
    - apply wp_step. cbn [modify wp]. cbn [wakeup_on modify wp]. apply wp_step. cbn [gets wp]. cbn [the_pipe set_pipe set_ctx pipest_ctx set_pipe_ctx]. fold p.
      change (mkpipe (data p) (nread p) (nwrite p) 0 (writeopen p)) with p'. destruct ((readopen p' =? 0) && (writeopen p' =? 0)).
      + apply wp_step. eapply (wp_rel (S := pipest)); [by apply k_wake_acq|exact Hc|done|]. done.
      + eapply (wp_rel (S := pipest)); [by apply k_wake_acq|exact Hc|done|]. done. }
  by apply wp_Ret in H as ([] & t & -> & ->).
Qed.

Section PipeCall.
Context {S : Type} `{!HasCtx S, !Txn S}.
Context (waits : nat) (old : list Z).
Context (i : nat) (c : cpu).
Implicit Types (t u : filest S) (l : list file).

Definition resting t : Prop := ctx_ok (ctx t) i c /\ locks (ctx t) = ∅.

Lemma resting_idle t : resting t -> f_idle i c t.
Proof. intros [Hc Hl]. split; [done|]. by rewrite Hl. Qed.

(** The last reference to an end of a pipe, closed. *)
Lemma resting_ofiles t (o : list (option nat)) : resting t -> resting (set_ofiles o t).
Proof. done. Qed.

Lemma fileclose_pipe t f x pa p : resting t -> ftable t !! f = Some x -> f_ref x = 1 -> f_type x = FD_PIPE -> f_pipe x = pa -> pipes t !! pa = Some p ->
  exists u, fileclose waits f t = Ret tt u /\ resting u /\ ftable u = <[f := set_f_type FD_NONE (set_f_ref 0 x)]> (ftable t) /\ ofiles u = ofiles t /\
    (exists k, fl_fs u = set_ctx k (fl_fs t)) /\ fl_killed u = fl_killed t /\
    (let p' := if negb (f_writable x =? 0) then mkpipe (data p) (nread p) (nwrite p) (readopen p) 0 else mkpipe (data p) (nread p) (nwrite p) 0 (writeopen p) in
     if (readopen p' =? 0) && (writeopen p' =? 0) then pipes u = delete pa (pipes t) /\ pages u = pa :: pages t else pipes u = <[pa := p']> (pipes t) /\ pages u = pages t).
Proof.
  intros Hrest Hx Hr Hty Hpa Hp. set (t1 := set_ftable (<[f := set_f_type FD_NONE (set_f_ref 0 x)]> (ftable t)) t).
  set (w := negb (f_writable x =? 0)). assert (Hpi : pipe_idle pa (get_pipe pa t1) i c).
  { destruct Hrest as [Hc Hl]. split; [exact Hc|]. change (locks (ctx t) !! pipe_lk pa = None). by rewrite Hl. }
  destruct (pipeclose_run pa (get_pipe pa t1) i c w Hpi) as (k & Hrun & Hk).
  assert (Hget : the_pipe (get_pipe pa t1) = p) by (cbn; by rewrite Hp). rewrite Hget in Hrun. cbn [freed get_pipe me_killed] in Hrun. rewrite orb_false_r in Hrun.
  set (p' := if w then _ else _) in *. set (u := put_pipe pa (mkpipest k p' (fl_killed t1) ((readopen p' =? 0) && (writeopen p' =? 0))) t1).
  assert (wp (fileclose waits f t) (fun _ s' => s' = u) stays) as H.
  { eapply wp_fileclose_last; [by apply resting_idle|exact Hx|done|]. rewrite Hty, Hpa. fold t1 w. unfold onpipe. change (pipes t1) with (pipes t). rewrite Hp.
    rewrite (inside_Ret _ _ _ _ _ _ Hrun). done. }
  apply wp_Ret in H as ([] & ? & Hcl & ->). exists u.
  assert (Hku : resting (set_ctx k t1)).
  { destruct Hrest as [Hc Hl]. rewrite Hk. split; [rewrite ctx_set_ctx; by apply ctx_ok_wake|rewrite ctx_set_ctx; exact Hl]. }
  split; [done|]. unfold u, put_pipe. cbn [pipe_ctx freed the_pipe]. destruct ((readopen p' =? 0) && (writeopen p' =? 0)); split_and!; try done; by exists k.
Qed.

(** The same files are open, and the same entries are free. *)
Record same_files l l' : Prop := {
  sf_len : length l' = length l;
  sf_open : forall f x, l !! f = Some x -> f_ref x <> 0 -> l' !! f = Some x;
  sf_free : forall f x, l !! f = Some x -> f_ref x = 0 -> exists y, l' !! f = Some y /\ f_ref y = 0 /\ f_type y = FD_NONE
}.

Lemma same_files_refl l : ftable_ok l -> same_files l l.
Proof. intros Hok. split; try done. intros f x Hx Hr. exists x. split_and!; [done|done|by eapply Hok]. Qed.

(** Both ends of a new pipe, closed. *)
Lemma close_both t f0 f1 x0 x1 pa m l0 : resting t -> f0 <> f1 -> l0 !! f0 = Some x0 -> f_ref x0 = 0 -> l0 !! f1 = Some x1 -> f_ref x1 = 0 -> ftable_ok l0 ->
  ftable t = <[f1 := write_end pa x1]> (<[f0 := read_end pa x0]> l0) -> pipes t = <[pa := mkpipe old 0 0 1 1]> m -> m !! pa = None ->
  exists u, (fileclose waits f0 ;; fileclose waits f1) t = Ret tt u /\ same_files l0 (ftable u) /\ pipes u = m /\ pages u = pa :: pages t /\ ofiles u = ofiles t /\
    (exists k, fl_fs u = set_ctx k (fl_fs t)) /\ fl_killed u = fl_killed t.
Proof.
  intros Hrest Hne H0 Z0 H1 Z1 Hok Hft Hpi Hm. assert (L0 := lookup_lt_Some _ _ _ H0). assert (L1 := lookup_lt_Some _ _ _ H1).
  destruct (fileclose_pipe t f0 (read_end pa x0) pa (mkpipe old 0 0 1 1) Hrest) as (u1 & Hr1 & Rest1 & F1 & O1 & (k1 & K1) & Ki1 & P1); [|done|done|done|by rewrite Hpi, lookup_insert_eq|].
  { rewrite Hft, list_lookup_insert_ne by done. by apply list_lookup_insert_eq. }
  cbn in P1. destruct P1 as [P1 Pg1]. rewrite Hpi, insert_insert_eq in P1.
  destruct (fileclose_pipe u1 f1 (write_end pa x1) pa (mkpipe old 0 0 0 1) Rest1) as (u2 & Hr2 & Rest2 & F2 & O2 & (k2 & K2) & Ki2 & P2); [|done|done|done|by rewrite P1, lookup_insert_eq|].
  { rewrite F1, list_lookup_insert_ne, Hft by done. apply list_lookup_insert_eq. by rewrite length_insert. }
  cbn in P2. destruct P2 as [P2 Pg2]. exists u2. rewrite (bind_Ret _ _ _ _ _ Hr1). split_and!; [exact Hr2| | |congruence|congruence| |congruence].
  - rewrite F2, F1, Hft. split.
    + by rewrite !length_insert.
    + intros f x Hx Hr. assert (f <> f0) by congruence. assert (f <> f1) by congruence. by rewrite !list_lookup_insert_ne.
    + intros f x Hx Hr. destruct (decide (f = f1)) as [->|Hn1]; [eexists; split; [apply list_lookup_insert_eq; by rewrite !length_insert|done]|].
      rewrite list_lookup_insert_ne by done. destruct (decide (f = f0)) as [->|Hn0]; [eexists; split; [apply list_lookup_insert_eq; by rewrite !length_insert|done]|].
      rewrite !list_lookup_insert_ne by done. exists x. split_and!; [done|done|by eapply Hok].
  - rewrite P2, P1, delete_insert_eq. by apply delete_id.
  - exists k2. rewrite K2, K1. apply set_ctx_set.
Qed.

Lemma find_fd_spec (l : list (option nat)) k : match find_fd l k with
  | Some fd => exists j, fd = (k + j)%nat /\ l !! j = Some None /\ forall j', (j' < j)%nat -> l !! j' <> Some None
  | None => forall j, l !! j <> Some None
  end.
Proof.
  revert k. induction l as [|o l IH]; intros k; cbn [find_fd]; [done|]. destruct o as [f|].
  - specialize (IH (Datatypes.S k)). destruct (find_fd l (Datatypes.S k)) as [fd|].
    + destruct IH as (j & -> & Hj & Hb). exists (Datatypes.S j). split_and!; [lia|done|]. intros [|j'] Hj'; [done|]. apply Hb. lia.
    + intros [|j]; [done|apply IH].
  - exists 0%nat. split_and!; [lia|done|lia].
Qed.

Lemma fdalloc_run t f : resting t -> fdalloc f t =
  match find_fd (ofiles t) 0 with Some fd => Ret (Some fd) (set_ofiles (<[fd := Some f]> (ofiles t)) t) | None => Ret None t end.
Proof.
  intros [Hc _]. assert (wp (onctx myproc t) (fun _ s => s = t) stays) as H by (by eapply wp_myproc_). apply wp_Ret in H as (o & ? & Hm & ->).
  unfold fdalloc. rewrite (bind_Ret _ _ _ _ _ Hm). unfold bind, gets. cbn [rbind]. by destruct (find_fd (ofiles t) 0).
Qed.

Lemma clear_fd_run t fd : resting t -> clear_fd fd t = Ret tt (set_ofiles (<[fd := None]> (ofiles t)) t).
Proof.
  intros [Hc _]. assert (wp (onctx myproc t) (fun _ s => s = t) stays) as H by (by eapply wp_myproc_). apply wp_Ret in H as (o & ? & Hm & ->).
  unfold clear_fd. by rewrite (bind_Ret _ _ _ _ _ Hm).
Qed.

(** C28 (error).  [sys_pipe] either gives two free descriptors, one for each end of a new
    pipe, or it fails and keeps nothing: whatever it ran out of, the open files, the free
    entries of the file table, the free pages, the pipes and the descriptors are as
    before. *)
Theorem pipe_no_leak t :
  resting t -> ftable_ok (ftable t) -> (forall pa, pa ∈ pages t -> pipes t !! pa = None) ->
  (exists fd0 fd1 f0 f1 pa u, do_pipe waits old t = Ret (Some (fd0, fd1)) u /\ fd0 <> fd1 /\ f0 <> f1 /\
     ofiles t !! fd0 = Some None /\ ofiles t !! fd1 = Some None /\ ofiles u = <[fd1 := Some f1]> (<[fd0 := Some f0]> (ofiles t)) /\
     (exists x0 x1, ftable u !! f0 = Some (read_end pa x0) /\ ftable u !! f1 = Some (write_end pa x1)) /\ pipes u !! pa = Some (mkpipe old 0 0 1 1)) \/
  (exists u, do_pipe waits old t = Ret None u /\ same_files (ftable t) (ftable u) /\ pages u = pages t /\ pipes u = pipes t /\ ofiles u = ofiles t /\
     (exists k, fl_fs u = set_ctx k (fl_fs t))).
Proof.
  intros Hrest Hok Hpg. unfold do_pipe.
  destruct (pipealloc_spec waits i c t old (resting_idle t Hrest) Hok) as
    [(f0 & f1 & x0 & x1 & pa & t1 & Hrun & Hne & H0 & Z0 & H1 & Z1 & Hft & Hpa & Hpi & Hof & Hfs)|[Hrun _]].
  2: { right. exists t. rewrite (bind_Ret _ _ _ _ _ Hrun). split_and!; [done|by apply same_files_refl|done|done|done|]. exists (ctx (fl_fs t)). by rewrite set_ctx_ctx. }
  assert (Hm : pipes t !! pa = None) by (apply Hpg; rewrite Hpa; by left). rewrite (bind_Ret _ _ _ _ _ Hrun).
  assert (Hctx : ctx t1 = lk_set (pipe_lk pa) zero_lock (ctx t)) by (change (ctx t1) with (ctx (fl_fs t1)); rewrite Hfs; apply ctx_set_ctx).
  assert (Rest1 : resting t1).
  { destruct Hrest as [Hc Hl]. split; rewrite Hctx; [exact Hc|]. change (delete (pipe_lk pa) (locks (ctx t)) = ∅). by rewrite Hl, delete_empty. }
  (** The state after a failed [fdalloc], with the descriptors as they were. *)
  assert (Hfail : forall v, resting v -> ftable v = ftable t1 -> pipes v = pipes t1 -> pages v = pages t1 -> ofiles v = ofiles t -> fl_fs v = fl_fs t1 ->
    exists u, (fileclose waits f0 ;; fileclose waits f1 ;; ret None) v = Ret (@None (nat * nat)) u /\ same_files (ftable t) (ftable u) /\ pages u = pages t /\ pipes u = pipes t /\ ofiles u = ofiles t /\
      (exists k, fl_fs u = set_ctx k (fl_fs t))).
  { intros v Hv V1 V2 V3 V4 V5. destruct (close_both v f0 f1 x0 x1 pa (pipes t) (ftable t)) as (u & Hu & U1 & U2 & U3 & U4 & (k & U5) & _); [done..|by rewrite V1|by rewrite V2|done|].
    exists u. split_and!; [|done|by rewrite U3, V3, Hpa|done|by rewrite U4|].
    - unfold bind in Hu |- *. destruct (fileclose waits f0 v) as [[] v1| | | | |]; try done. cbn in Hu |- *. by rewrite Hu.
    - exists k. rewrite U5, V5, Hfs. apply set_ctx_set. }
  assert (Hfd := fdalloc_run t1 f0 Rest1). rewrite Hof in Hfd. pose proof (find_fd_spec (ofiles t) 0) as Hs0.
  destruct (find_fd (ofiles t) 0) as [fd0|]; rewrite (bind_Ret _ _ _ _ _ Hfd).
  2: { right. by apply Hfail. }
  destruct Hs0 as (j0 & -> & Hj0 & _). cbn [Nat.add]. set (t2 := set_ofiles (<[j0 := Some f0]> (ofiles t)) t1) in *. assert (Rest2 : resting t2) by done.
  assert (Hfd1 := fdalloc_run t2 f1 Rest2). cbn [ofiles set_ofiles t2] in Hfd1. pose proof (find_fd_spec (<[j0 := Some f0]> (ofiles t)) 0) as Hs1.
  assert (L0 := lookup_lt_Some _ _ _ Hj0). destruct (find_fd (<[j0 := Some f0]> (ofiles t)) 0) as [fd1|]; rewrite (bind_Ret _ _ _ _ _ Hfd1).
  - left. destruct Hs1 as (j1 & -> & Hj1 & _). cbn [Nat.add]. assert (Hnj : j0 <> j1) by (intros ->; rewrite list_lookup_insert_eq in Hj1 by done; done).
    rewrite list_lookup_insert_ne in Hj1 by done. exists j0, j1, f0, f1, pa. eexists. assert (F0 := lookup_lt_Some _ _ _ H0). assert (F1 := lookup_lt_Some _ _ _ H1).
    split_and!; [reflexivity|done|done|done|done|done| |cbn; by rewrite Hpi, lookup_insert_eq].
    exists x0, x1. cbn. rewrite Hft. split; [rewrite list_lookup_insert_ne by done; by apply list_lookup_insert_eq|]. apply list_lookup_insert_eq. by rewrite length_insert.
  - right. rewrite (bind_Ret _ _ _ _ _ (clear_fd_run t2 j0 Rest2)). apply Hfail; try done. cbn. rewrite list_insert_insert_eq. by apply list_insert_id.
Qed.
End PipeCall.

(** ** Witnesses *)

(** A process whose stack holds a return address, the integer 7, the address 20, and the
    string "hi" at 20. *)
Definition small_sys : sysst (logst bst) :=
  mksys ([255; 255; 255; 255] ++ [20; 0; 0; 0] ++ [7; 0; 0; 0] ++ replicate 8 0 ++ [104; 105; 0; 0]) 0 small_files.

Lemma small_resting : resting 0 demo_c small_files.
Proof. destruct (quiet_ctx _ _ _ _ _ small_quiet) as [Hc Hl]. split; [exact Hc|]. exact Hl. Qed.

Lemma Ret_val {S A} {a b : A} {s t : S} : Ret a s = Ret b t -> a = b.
Proof. by intros [= -> _]. Qed.

Lemma small_frame : u_frame small_sys = Ret (0, s_mem small_sys) small_sys.
Proof. exact (u_frame_run small_sys 0 demo_c (proj1 small_resting)). Qed.

Lemma small_argint : argint 0 small_sys = Ret (Some 20) small_sys.
Proof. rewrite (argint_run small_sys 0 demo_c 0 (proj1 small_resting)). f_equal. Qed.

Lemma args_in_bounds_witness :
  (exists p, argptr 0 4 small_sys = Ret (Some p) small_sys /\ p + 4 <= 24) /\ exists str, argstr 0 small_sys = Ret (Some str) small_sys /\ Forall (fun ch => ch <> 0) str.
Proof.
  destruct (args_in_bounds small_sys 0 demo_c 0 4 (proj1 small_resting)) as (_ & (r & Hr & Hp) & (q & Hq & Hs)).
  - clear. vm_compute. discriminate.
  - reflexivity.
  - split.
    + exists 20. unfold argptr. rewrite (bind_Ret _ _ _ _ _ small_frame), (bind_Ret _ _ _ _ _ small_argint). split; [reflexivity|clear; lia].
    + assert (H : argstr 0 small_sys = Ret (Some [104; 105]) small_sys).
      { unfold argstr. rewrite (bind_Ret _ _ _ _ _ small_argint). unfold fetchstr. rewrite (bind_Ret _ _ _ _ _ small_frame). reflexivity. }
      exists [104; 105]. split; [exact H|]. rewrite H in Hq. exact (proj1 (Hs _ (eq_sym (Ret_val Hq)))).
Defined.

(** One descriptor is free: the call fails after it took a page and two files. *)
Lemma pipe_no_leak_witness : exists u, do_pipe 0 (replicate 512 0) (set_ofiles [Some 0%nat; None] small_files) = Ret None u /\ pages u = [4096] /\ ofiles u = [Some 0%nat; None].
Proof.
  destruct (pipe_no_leak 0 (replicate 512 0) 0 demo_c (set_ofiles [Some 0%nat; None] small_files)) as [(fd0 & fd1 & f0 & f1 & pa & u & H & Hne & _ & H0 & H1 & _)|(u & H & _ & Hp & _ & Ho & _)].
  - exact (resting_ofiles _ _ small_files _ small_resting).
  - exact small_ftable_ok.
  - intros pa _. reflexivity.
  - exfalso. cbn in H0, H1. destruct fd0 as [|[|fd0]]; [discriminate H0| |discriminate H0]. destruct fd1 as [|[|fd1]]; [discriminate H1|exact (Hne eq_refl)|discriminate H1].
  - exists u. split; [exact H|]. split; [exact Hp|exact Ho].
Defined.
