(* ===== verification/ProcDefs.v ===== *)
(** * The data of the process component

    The types of [proc.h] and [x86.h] that [proc.c] uses, and one record,
    [pstate], with the global variables of [proc.c]: the process table, the
    run queues, the event log and the counters.  [pstate] is parameterised by
    the state [E] of the rest of the kernel (memory, files, disk), reached only
    through the operations of the class [KEnv]. *)

From Stdlib Require Import ZArith Lia.
From S2P Require Import Prelude Spinlock.

(** ** [param.h] *)

Definition NPROC : Z := 15000.
Definition KSTACKSIZE : Z := 4096.
Definition NCPU : Z := 8.
Definition NOFILE : Z := 16.
Definition NFILE : Z := 100.
Definition NINODE : Z := 50.
Definition NDEV : Z := 10.
Definition ROOTDEV : Z := 1.
Definition MAXARG : Z := 32.
Definition MAXOPBLOCKS : Z := 10.
Definition LOGSIZE : Z := MAXOPBLOCKS * 3.
Definition NBUF : Z := MAXOPBLOCKS * 3.
Definition FSSIZE : Z := 1000.
Definition BUFSIZE : Z := 500.

(** ** [proc.h] *)

Inductive procstate : Type :=
| UNUSED | EMBRYO | SLEEPING | RUNNABLE | RUNNING | ZOMBIE | ACQUIRED | RELEASED.

#[export] Instance procstate_eq_dec : EqDecision procstate.
Proof. solve_decision. Defined.

(** The value of the enumeration constant. *)
Definition procstate_val (s : procstate) : Z :=
  match s with
  | UNUSED => 0 | EMBRYO => 1 | SLEEPING => 2 | RUNNABLE => 3
  | RUNNING => 4 | ZOMBIE => 5 | ACQUIRED => 6 | RELEASED => 7
  end.

Inductive events : Type :=
| ALLOCPROC | WAKEUP | YIELD | FORK | TICK | EXIT | WAIT | SLEEP | PTABLE_LOCK | RUNQUEUE_LOCK.

Definition events_val (e : events) : Z :=
  match e with
  | ALLOCPROC => 0 | WAKEUP => 1 | YIELD => 2 | FORK => 3 | TICK => 4
  | EXIT => 5 | WAIT => 6 | SLEEP => 7 | PTABLE_LOCK => 8 | RUNQUEUE_LOCK => 9
  end.

(** A [struct proc *]: null, an element of [ptable.proc], or the head of a run
    queue (which is a [struct proc] too). *)
Inductive pptr : Type := PNull | PProc (i : nat) | PHead (c : nat).

#[export] Instance pptr_eq_dec : EqDecision pptr.
Proof. solve_decision. Defined.

(** [struct trapframe] of [x86.h], padding left out. *)
Record trapframe := mktrapframe {
  tf_edi : Z;
  tf_esi : Z;
  tf_ebp : Z;
  tf_oesp : Z;
  tf_ebx : Z;
  tf_edx : Z;
  tf_ecx : Z;
  tf_eax : Z;
  tf_gs : Z;
  tf_fs : Z;
  tf_es : Z;
  tf_ds : Z;
  tf_trapno : Z;
  tf_err : Z;
  tf_eip : Z;
  tf_cs : Z;
  tf_eflags : Z;
  tf_esp : Z;
  tf_ss : Z
}.

Definition set_tf_eax (v : Z) (r : trapframe) : trapframe :=
  mktrapframe (tf_edi r) (tf_esi r) (tf_ebp r) (tf_oesp r) (tf_ebx r) (tf_edx r) (tf_ecx r) v (tf_gs r) (tf_fs r) (tf_es r) (tf_ds r) (tf_trapno r) (tf_err r) (tf_eip r) (tf_cs r) (tf_eflags r) (tf_esp r) (tf_ss r).
Definition set_tf_es (v : Z) (r : trapframe) : trapframe :=
  mktrapframe (tf_edi r) (tf_esi r) (tf_ebp r) (tf_oesp r) (tf_ebx r) (tf_edx r) (tf_ecx r) (tf_eax r) (tf_gs r) (tf_fs r) v (tf_ds r) (tf_trapno r) (tf_err r) (tf_eip r) (tf_cs r) (tf_eflags r) (tf_esp r) (tf_ss r).
Definition set_tf_ds (v : Z) (r : trapframe) : trapframe :=
  mktrapframe (tf_edi r) (tf_esi r) (tf_ebp r) (tf_oesp r) (tf_ebx r) (tf_edx r) (tf_ecx r) (tf_eax r) (tf_gs r) (tf_fs r) (tf_es r) v (tf_trapno r) (tf_err r) (tf_eip r) (tf_cs r) (tf_eflags r) (tf_esp r) (tf_ss r).
Definition set_tf_eip (v : Z) (r : trapframe) : trapframe :=
  mktrapframe (tf_edi r) (tf_esi r) (tf_ebp r) (tf_oesp r) (tf_ebx r) (tf_edx r) (tf_ecx r) (tf_eax r) (tf_gs r) (tf_fs r) (tf_es r) (tf_ds r) (tf_trapno r) (tf_err r) v (tf_cs r) (tf_eflags r) (tf_esp r) (tf_ss r).
Definition set_tf_cs (v : Z) (r : trapframe) : trapframe :=
  mktrapframe (tf_edi r) (tf_esi r) (tf_ebp r) (tf_oesp r) (tf_ebx r) (tf_edx r) (tf_ecx r) (tf_eax r) (tf_gs r) (tf_fs r) (tf_es r) (tf_ds r) (tf_trapno r) (tf_err r) (tf_eip r) v (tf_eflags r) (tf_esp r) (tf_ss r).
Definition set_tf_eflags (v : Z) (r : trapframe) : trapframe :=
  mktrapframe (tf_edi r) (tf_esi r) (tf_ebp r) (tf_oesp r) (tf_ebx r) (tf_edx r) (tf_ecx r) (tf_eax r) (tf_gs r) (tf_fs r) (tf_es r) (tf_ds r) (tf_trapno r) (tf_err r) (tf_eip r) (tf_cs r) v (tf_esp r) (tf_ss r).
Definition set_tf_esp (v : Z) (r : trapframe) : trapframe :=
  mktrapframe (tf_edi r) (tf_esi r) (tf_ebp r) (tf_oesp r) (tf_ebx r) (tf_edx r) (tf_ecx r) (tf_eax r) (tf_gs r) (tf_fs r) (tf_es r) (tf_ds r) (tf_trapno r) (tf_err r) (tf_eip r) (tf_cs r) (tf_eflags r) v (tf_ss r).
Definition set_tf_ss (v : Z) (r : trapframe) : trapframe :=
  mktrapframe (tf_edi r) (tf_esi r) (tf_ebp r) (tf_oesp r) (tf_ebx r) (tf_edx r) (tf_ecx r) (tf_eax r) (tf_gs r) (tf_fs r) (tf_es r) (tf_ds r) (tf_trapno r) (tf_err r) (tf_eip r) (tf_cs r) (tf_eflags r) (tf_esp r) v.

(** [struct context]: the registers [swtch] saves. *)
Record context := mkcontext {
  c_edi : Z;
  c_esi : Z;
  c_ebx : Z;
  c_ebp : Z;
  c_eip : Z
}.

(** [struct proc].  [p_tf] and [p_context] are the addresses of the trap frame and
    of the saved context in the kernel stack; [p_tfc], [p_ctxc] and [p_kret] are
    what the stack holds there: the two structures and the return address between
    them. *)
Record proc := mkproc {
  p_sz : Z;
  p_pgdir : Z;
  p_kstack : Z;
  p_state : procstate;
  p_pid : Z;
  p_parent : option nat;
  p_tf : Z;
  p_tfc : trapframe;
  p_context : Z;
  p_ctxc : context;
  p_kret : Z;
  p_chan : option chan;
  p_killed : Z;
  p_ofile : list Z;
  p_cwd : Z;
  p_name : list Z;
  p_next : pptr;
  p_prev : pptr
}.

Definition set_p_sz (v : Z) (r : proc) : proc :=
  mkproc v (p_pgdir r) (p_kstack r) (p_state r) (p_pid r) (p_parent r) (p_tf r) (p_tfc r) (p_context r) (p_ctxc r) (p_kret r) (p_chan r) (p_killed r) (p_ofile r) (p_cwd r) (p_name r) (p_next r) (p_prev r).
Definition set_p_pgdir (v : Z) (r : proc) : proc :=
  mkproc (p_sz r) v (p_kstack r) (p_state r) (p_pid r) (p_parent r) (p_tf r) (p_tfc r) (p_context r) (p_ctxc r) (p_kret r) (p_chan r) (p_killed r) (p_ofile r) (p_cwd r) (p_name r) (p_next r) (p_prev r).
Definition set_p_kstack (v : Z) (r : proc) : proc :=
  mkproc (p_sz r) (p_pgdir r) v (p_state r) (p_pid r) (p_parent r) (p_tf r) (p_tfc r) (p_context r) (p_ctxc r) (p_kret r) (p_chan r) (p_killed r) (p_ofile r) (p_cwd r) (p_name r) (p_next r) (p_prev r).
Definition set_p_state (v : procstate) (r : proc) : proc :=
  mkproc (p_sz r) (p_pgdir r) (p_kstack r) v (p_pid r) (p_parent r) (p_tf r) (p_tfc r) (p_context r) (p_ctxc r) (p_kret r) (p_chan r) (p_killed r) (p_ofile r) (p_cwd r) (p_name r) (p_next r) (p_prev r).
Definition set_p_pid (v : Z) (r : proc) : proc :=
  mkproc (p_sz r) (p_pgdir r) (p_kstack r) (p_state r) v (p_parent r) (p_tf r) (p_tfc r) (p_context r) (p_ctxc r) (p_kret r) (p_chan r) (p_killed r) (p_ofile r) (p_cwd r) (p_name r) (p_next r) (p_prev r).
Definition set_p_parent (v : option nat) (r : proc) : proc :=
  mkproc (p_sz r) (p_pgdir r) (p_kstack r) (p_state r) (p_pid r) v (p_tf r) (p_tfc r) (p_context r) (p_ctxc r) (p_kret r) (p_chan r) (p_killed r) (p_ofile r) (p_cwd r) (p_name r) (p_next r) (p_prev r).
Definition set_p_tf (v : Z) (r : proc) : proc :=
  mkproc (p_sz r) (p_pgdir r) (p_kstack r) (p_state r) (p_pid r) (p_parent r) v (p_tfc r) (p_context r) (p_ctxc r) (p_kret r) (p_chan r) (p_killed r) (p_ofile r) (p_cwd r) (p_name r) (p_next r) (p_prev r).
Definition set_p_tfc (v : trapframe) (r : proc) : proc :=
  mkproc (p_sz r) (p_pgdir r) (p_kstack r) (p_state r) (p_pid r) (p_parent r) (p_tf r) v (p_context r) (p_ctxc r) (p_kret r) (p_chan r) (p_killed r) (p_ofile r) (p_cwd r) (p_name r) (p_next r) (p_prev r).
Definition set_p_context (v : Z) (r : proc) : proc :=
  mkproc (p_sz r) (p_pgdir r) (p_kstack r) (p_state r) (p_pid r) (p_parent r) (p_tf r) (p_tfc r) v (p_ctxc r) (p_kret r) (p_chan r) (p_killed r) (p_ofile r) (p_cwd r) (p_name r) (p_next r) (p_prev r).
Definition set_p_ctxc (v : context) (r : proc) : proc :=
  mkproc (p_sz r) (p_pgdir r) (p_kstack r) (p_state r) (p_pid r) (p_parent r) (p_tf r) (p_tfc r) (p_context r) v (p_kret r) (p_chan r) (p_killed r) (p_ofile r) (p_cwd r) (p_name r) (p_next r) (p_prev r).
Definition set_p_kret (v : Z) (r : proc) : proc :=
  mkproc (p_sz r) (p_pgdir r) (p_kstack r) (p_state r) (p_pid r) (p_parent r) (p_tf r) (p_tfc r) (p_context r) (p_ctxc r) v (p_chan r) (p_killed r) (p_ofile r) (p_cwd r) (p_name r) (p_next r) (p_prev r).
Definition set_p_chan (v : option chan) (r : proc) : proc :=
  mkproc (p_sz r) (p_pgdir r) (p_kstack r) (p_state r) (p_pid r) (p_parent r) (p_tf r) (p_tfc r) (p_context r) (p_ctxc r) (p_kret r) v (p_killed r) (p_ofile r) (p_cwd r) (p_name r) (p_next r) (p_prev r).
Definition set_p_killed (v : Z) (r : proc) : proc :=
  mkproc (p_sz r) (p_pgdir r) (p_kstack r) (p_state r) (p_pid r) (p_parent r) (p_tf r) (p_tfc r) (p_context r) (p_ctxc r) (p_kret r) (p_chan r) v (p_ofile r) (p_cwd r) (p_name r) (p_next r) (p_prev r).
Definition set_p_ofile (v : list Z) (r : proc) : proc :=
  mkproc (p_sz r) (p_pgdir r) (p_kstack r) (p_state r) (p_pid r) (p_parent r) (p_tf r) (p_tfc r) (p_context r) (p_ctxc r) (p_kret r) (p_chan r) (p_killed r) v (p_cwd r) (p_name r) (p_next r) (p_prev r).
Definition set_p_cwd (v : Z) (r : proc) : proc :=
  mkproc (p_sz r) (p_pgdir r) (p_kstack r) (p_state r) (p_pid r) (p_parent r) (p_tf r) (p_tfc r) (p_context r) (p_ctxc r) (p_kret r) (p_chan r) (p_killed r) (p_ofile r) v (p_name r) (p_next r) (p_prev r).
Definition set_p_name (v : list Z) (r : proc) : proc :=
  mkproc (p_sz r) (p_pgdir r) (p_kstack r) (p_state r) (p_pid r) (p_parent r) (p_tf r) (p_tfc r) (p_context r) (p_ctxc r) (p_kret r) (p_chan r) (p_killed r) (p_ofile r) (p_cwd r) v (p_next r) (p_prev r).
Definition set_p_next (v : pptr) (r : proc) : proc :=
  mkproc (p_sz r) (p_pgdir r) (p_kstack r) (p_state r) (p_pid r) (p_parent r) (p_tf r) (p_tfc r) (p_context r) (p_ctxc r) (p_kret r) (p_chan r) (p_killed r) (p_ofile r) (p_cwd r) (p_name r) v (p_prev r).
Definition set_p_prev (v : pptr) (r : proc) : proc :=
  mkproc (p_sz r) (p_pgdir r) (p_kstack r) (p_state r) (p_pid r) (p_parent r) (p_tf r) (p_tfc r) (p_context r) (p_ctxc r) (p_kret r) (p_chan r) (p_killed r) (p_ofile r) (p_cwd r) (p_name r) (p_next r) v.

Record clock := mkclock { c_hi : Z; c_lo : Z }.

(** [struct schedlog], one logged event. *)
Record schedlog := mkschedlog {
  sl_clock : clock;
  sl_pid : Z;
  sl_name : list Z;
  sl_event : Z;
  sl_prev : Z;
  sl_next : Z;
  sl_cpu : Z
}.

(** ** The globals of [proc.c] *)

Section State.
Context {E : Type}.

Record pstate := mkpstate {
  pctx : kctx;
  procs : list proc;
  heads : list proc;
  rqsize : list Z;
  nextpid : Z;
  finished_fork : Z;
  isnot_first_running : list Z;
  end_clock : clock;
  initproc : option nat;
  buf_log : list schedlog;
  bufsize : Z;
  clock_log : list (clock * clock * clock);
  first : Z;
  tsc_reads : nat;
  env : E
}.

Definition set_pctx (v : kctx) (r : pstate) : pstate :=
  mkpstate v (procs r) (heads r) (rqsize r) (nextpid r) (finished_fork r) (isnot_first_running r) (end_clock r) (initproc r) (buf_log r) (bufsize r) (clock_log r) (first r) (tsc_reads r) (env r).
Definition set_procs (v : list proc) (r : pstate) : pstate :=
  mkpstate (pctx r) v (heads r) (rqsize r) (nextpid r) (finished_fork r) (isnot_first_running r) (end_clock r) (initproc r) (buf_log r) (bufsize r) (clock_log r) (first r) (tsc_reads r) (env r).
Definition set_heads (v : list proc) (r : pstate) : pstate :=
  mkpstate (pctx r) (procs r) v (rqsize r) (nextpid r) (finished_fork r) (isnot_first_running r) (end_clock r) (initproc r) (buf_log r) (bufsize r) (clock_log r) (first r) (tsc_reads r) (env r).
Definition set_rqsize (v : list Z) (r : pstate) : pstate :=
  mkpstate (pctx r) (procs r) (heads r) v (nextpid r) (finished_fork r) (isnot_first_running r) (end_clock r) (initproc r) (buf_log r) (bufsize r) (clock_log r) (first r) (tsc_reads r) (env r).
Definition set_nextpid (v : Z) (r : pstate) : pstate :=
  mkpstate (pctx r) (procs r) (heads r) (rqsize r) v (finished_fork r) (isnot_first_running r) (end_clock r) (initproc r) (buf_log r) (bufsize r) (clock_log r) (first r) (tsc_reads r) (env r).
Definition set_finished_fork (v : Z) (r : pstate) : pstate :=
  mkpstate (pctx r) (procs r) (heads r) (rqsize r) (nextpid r) v (isnot_first_running r) (end_clock r) (initproc r) (buf_log r) (bufsize r) (clock_log r) (first r) (tsc_reads r) (env r).
Definition set_isnot_first_running (v : list Z) (r : pstate) : pstate :=
  mkpstate (pctx r) (procs r) (heads r) (rqsize r) (nextpid r) (finished_fork r) v (end_clock r) (initproc r) (buf_log r) (bufsize r) (clock_log r) (first r) (tsc_reads r) (env r).
Definition set_end_clock (v : clock) (r : pstate) : pstate :=
  mkpstate (pctx r) (procs r) (heads r) (rqsize r) (nextpid r) (finished_fork r) (isnot_first_running r) v (initproc r) (buf_log r) (bufsize r) (clock_log r) (first r) (tsc_reads r) (env r).
Definition set_initproc (v : option nat) (r : pstate) : pstate :=
  mkpstate (pctx r) (procs r) (heads r) (rqsize r) (nextpid r) (finished_fork r) (isnot_first_running r) (end_clock r) v (buf_log r) (bufsize r) (clock_log r) (first r) (tsc_reads r) (env r).
Definition set_buf_log (v : list schedlog) (r : pstate) : pstate :=
  mkpstate (pctx r) (procs r) (heads r) (rqsize r) (nextpid r) (finished_fork r) (isnot_first_running r) (end_clock r) (initproc r) v (bufsize r) (clock_log r) (first r) (tsc_reads r) (env r).
Definition set_bufsize (v : Z) (r : pstate) : pstate :=
  mkpstate (pctx r) (procs r) (heads r) (rqsize r) (nextpid r) (finished_fork r) (isnot_first_running r) (end_clock r) (initproc r) (buf_log r) v (clock_log r) (first r) (tsc_reads r) (env r).
Definition set_clock_log (v : list (clock * clock * clock)) (r : pstate) : pstate :=
  mkpstate (pctx r) (procs r) (heads r) (rqsize r) (nextpid r) (finished_fork r) (isnot_first_running r) (end_clock r) (initproc r) (buf_log r) (bufsize r) v (first r) (tsc_reads r) (env r).
Definition set_first (v : Z) (r : pstate) : pstate :=
  mkpstate (pctx r) (procs r) (heads r) (rqsize r) (nextpid r) (finished_fork r) (isnot_first_running r) (end_clock r) (initproc r) (buf_log r) (bufsize r) (clock_log r) v (tsc_reads r) (env r).
Definition set_tsc_reads (v : nat) (r : pstate) : pstate :=
  mkpstate (pctx r) (procs r) (heads r) (rqsize r) (nextpid r) (finished_fork r) (isnot_first_running r) (end_clock r) (initproc r) (buf_log r) (bufsize r) (clock_log r) (first r) v (env r).
Definition set_env (v : E) (r : pstate) : pstate :=
  mkpstate (pctx r) (procs r) (heads r) (rqsize r) (nextpid r) (finished_fork r) (isnot_first_running r) (end_clock r) (initproc r) (buf_log r) (bufsize r) (clock_log r) (first r) (tsc_reads r) v.
End State.
Arguments pstate E : clear implicits.

(** [multi] of the definitions below is the compile-time switch
    [IS_MULTIPLE_RUNQUEUE] of [proc.h]; [IS_ROUNDROBIN] is its negation. *)
Definition IS_MULTIPLE_RUNQUEUE : bool := false.
Definition IS_ROUNDROBIN : bool := true.

#[export] Instance pstate_ctx {E} : HasCtx (pstate E).
Proof.
  refine {| ctx := pctx; set_ctx := set_pctx |}; try done. by intros [].
Defined.

Definition ptable_lock : lockid := ("ptable"%string, 0).
Definition rq_lock (i : nat) : lockid := ("runqueue"%string, Z.of_nat i).
Definition bufsize_lock : lockid := ("bufsize"%string, 0).
(** The channel that is the address of [ptable.proc[i]]. *)
Definition proc_chan (i : nat) : chan := ("proc"%string, Z.of_nat i).

(** ** What the process component calls in the rest of the kernel

    One operation per function of another file that [proc.c] calls, run on the
    rest [E] of the kernel.  [k_tsc n] is the value the [n]-th [rdtsc]
    instruction returns; [forkret_addr] and [trapret_addr] are link-time
    addresses. *)
Class KEnv (E : Type) := {
  k_kalloc : M E Z;
  k_kfree : Z -> M E unit;
  k_setupkvm : M E Z;
  k_inituvm : Z -> M E unit;
  k_copyuvm : Z -> Z -> M E Z;
  k_freevm : Z -> M E unit;
  k_allocuvm : Z -> Z -> Z -> M E Z;
  k_deallocuvm : Z -> Z -> Z -> M E Z;
  k_switchuvm : proc -> M E unit;
  k_switchkvm : M E unit;
  k_filedup : Z -> M E Z;
  k_fileclose : Z -> M E unit;
  k_idup : Z -> M E Z;
  k_iput : Z -> M E unit;
  k_namei : list Z -> M E Z;
  k_begin_op : M E unit;
  k_end_op : M E unit;
  k_iinit : Z -> M E unit;
  k_initlog : Z -> M E unit;
  k_tsc : nat -> clock;
  forkret_addr : Z;
  trapret_addr : Z
}.

Fixpoint liftenv {E A} (r : res E A) (s : pstate E) : res (pstate E) A :=
  match r with
  | Ret a e => Ret a (set_env e s)
  | Panic m => Panic m
  | Spin l => Spin l
  | UB w => UB w
  | Fuel => Fuel
  | Swtch e f => Swtch (set_env e s) (fun s' => liftenv (f (env s')) s')
  end.

Definition onenv {E A} (m : M E A) : M (pstate E) A := fun s => liftenv (m (env s)) s.

Arguments onenv : simpl never.

Lemma onenv_Ret {E A} (m : M E A) (s : pstate E) a e :
  m (env s) = Ret a e -> onenv m s = Ret a (set_env e s).
Proof. intros H. unfold onenv. by rewrite H. Qed.

(** ** Reading and writing through [struct proc] pointers *)

Section Access.
Context {E : Type}.
Implicit Types (s : pstate E) (q : pptr).

Definition node s q : option proc :=
  match q with
  | PNull => None
  | PProc i => procs s !! i
  | PHead c => heads s !! c
  end.

Definition pread {A} (f : proc -> A) (q : pptr) : M (pstate E) A := fun s =>
  match node s q with
  | Some p => Ret (f p) s
  | None => UB "bad struct proc pointer"
  end.

Definition put_node (f : proc -> proc) (q : pptr) (s : pstate E) : pstate E :=
  match q with
  | PNull => s
  | PProc i => set_procs (alter f i (procs s)) s
  | PHead c => set_heads (alter f c (heads s)) s
  end.

Definition pwrite (f : proc -> proc) (q : pptr) : M (pstate E) unit := fun s =>
  match node s q with
  | Some _ => Ret tt (put_node f q s)
  | None => UB "bad struct proc pointer"
  end.

Definition ncpu s : nat := length (cpus (pctx s)).
Definition nproc s : nat := length (procs s).

Lemma node_put s f q q' :
  node (put_node f q s) q' = if decide (q = q') then f <$> node s q' else node s q'.
Proof.
  destruct q as [|i|c], q' as [|j|d]; cbn; try done.
  - destruct (decide (i = j)) as [->|Hne].
    + rewrite decide_True by done. by rewrite list_lookup_alter_eq.
    + rewrite decide_False by congruence. by rewrite list_lookup_alter_ne.
  - destruct (decide (c = d)) as [->|Hne].
    + rewrite decide_True by done. by rewrite list_lookup_alter_eq.
    + rewrite decide_False by congruence. by rewrite list_lookup_alter_ne.
Qed.

Lemma pread_ok {A} (f : proc -> A) q s p : node s q = Some p -> pread f q s = Ret (f p) s.
Proof. intros H. unfold pread. by rewrite H. Qed.

Lemma pwrite_ok f q s p : node s q = Some p -> pwrite f q s = Ret tt (put_node f q s).
Proof. intros H. unfold pwrite. by rewrite H. Qed.
End Access.

(** The lock steps on a [pstate]. *)
Lemma pacq {E} (s : pstate E) k i c l :
  ctx_ok k i c -> locks k !! l = None ->
  onctx (acquire l) (set_pctx k s) = Ret tt (set_pctx (k_acq l i k) s).
Proof. intros Hc Hl. exact (@acq_step _ pstate_ctx (set_pctx k s) i c l Hc Hl). Qed.

Lemma prel {E} (s : pstate E) k i c l :
  ctx_ok k i c -> locks k !! l = None ->
  onctx (release l) (set_pctx (k_acq l i k) s) = Ret tt (set_pctx k s).
Proof. intros Hc Hl. exact (@rel_step _ pstate_ctx (set_pctx (k_acq l i k) s) k i c l Hc Hl eq_refl). Qed.

Lemma set_pctx_id {E} (s : pstate E) : set_pctx (pctx s) s = s.
Proof. by destruct s. Qed.

(** [memset(p->context, 0, ...); p->context->eip = eip] *)
Lemma set_eip_zero eip p :
  let q := set_p_ctxc (mkcontext 0 0 0 0 0) p in
  set_p_ctxc (mkcontext (c_edi (p_ctxc q)) (c_esi (p_ctxc q)) (c_ebx (p_ctxc q)) (c_ebp (p_ctxc q)) eip) q =
  set_p_ctxc (mkcontext 0 0 0 0 eip) p.
Proof. done. Qed.

(** [pst] computes the fields of a [pstate] without unfolding the processes in it. *)
Ltac pst := cbn [pctx procs heads rqsize nextpid finished_fork isnot_first_running end_clock initproc
  buf_log bufsize clock_log first tsc_reads env
  set_pctx set_procs set_heads set_rqsize set_nextpid set_finished_fork set_isnot_first_running set_end_clock
  set_initproc set_buf_log set_bufsize set_clock_log set_first set_tsc_reads set_env].

Lemma set_procs_id {E} (s : pstate E) : set_procs (procs s) s = s.
Proof. by destruct s. Qed.

(** Proof rules for the primitive steps. *)
Section Rules.
Context {E : Type}.
Implicit Types s : pstate E.

Lemma wp_pread {A} (f : proc -> A) i s p Q W :
  procs s !! i = Some p -> Q (f p) s -> wp (pread f (PProc i) s) Q W.
Proof. intros H HQ. unfold pread, node. by rewrite H. Qed.

Lemma wp_pwrite f i s p Q W :
  procs s !! i = Some p -> Q tt (set_procs (<[i := f p]> (procs s)) s) ->
  wp (pwrite f (PProc i) s) Q W.
Proof.
  intros H HQ. unfold pwrite, node. rewrite H. cbn. by rewrite (alter_insert_at _ _ _ _ H).
Qed.

Lemma wp_acquire l s i c Q W :
  ctx_ok (pctx s) i c -> locks (pctx s) !! l = None ->
  Q tt (set_pctx (k_acq l i (pctx s)) s) -> wp (onctx (acquire l) s) Q W.
Proof. intros Hc Hl. apply wp_eq. exact (@acq_step _ pstate_ctx s i c l Hc Hl). Qed.

Lemma wp_release l s k i c Q W :
  pctx s = k_acq l i k -> ctx_ok k i c -> locks k !! l = None ->
  Q tt (set_pctx k s) -> wp (onctx (release l) s) Q W.
Proof. intros Hk Hc Hl. apply wp_eq. exact (@rel_step _ pstate_ctx s k i c l Hc Hl Hk). Qed.

Lemma wp_myproc s i c Q W :
  ctx_ok (pctx s) i c -> Q (cproc c) s -> wp (onctx myproc s) Q W.
Proof.
  intros Hc. apply wp_eq. exact (@onctx_same _ pstate_ctx _ myproc s _ (myproc_ok _ _ _ Hc)).
Qed.

Lemma wp_mycpuid s i c Q W :
  ctx_ok (pctx s) i c -> Q i s -> wp (onctx mycpuid s) Q W.
Proof.
  intros Hc. apply wp_eq. exact (@onctx_same _ pstate_ctx _ mycpuid s _ (mycpuid_ok _ _ _ Hc)).
Qed.

Lemma wp_holding l s i c v Q W :
  ctx_ok (pctx s) i c -> lk_get l (pctx s) = v -> Q (held_by i v) s -> wp (onctx (holding l) s) Q W.
Proof.
  intros Hc Hv. apply wp_eq. exact (@onctx_same _ pstate_ctx _ (holding l) s _ (holding_ok _ _ _ _ _ Hc Hv)).
Qed.

Lemma wp_onenv {A} (m : M E A) s a e Q W :
  m (env s) = Ret a e -> Q a (set_env e s) -> wp (onenv m s) Q W.
Proof. intros H. apply wp_eq. by apply onenv_Ret. Qed.
End Rules.

(** ** A small machine for the concrete runs: two CPUs, CPU 0 executing slot 0 *)

Definition zero_tf : trapframe := mktrapframe 0 0 0 0 0 0 0 0 0 0 0 0 0 0 0 0 0 0 0.
Definition zero_context : context := mkcontext 0 0 0 0 0.
Definition zero_proc : proc :=
  mkproc 0 0 0 UNUSED 0 None 0 zero_tf 0 zero_context 0 None 0 (replicate 16 0) 0 (replicate 16 0) PNull PNull.

Definition demo_cpu0 : cpu := mkcpu 0 1 0 true (Some 0%nat).
Definition demo_cpus : list cpu := [demo_cpu0; mkcpu 1 1 0 true None].
Definition demo_ctx : kctx := mkctx 0 true demo_cpus ∅ [].

Lemma demo_ctx_ok : ctx_ok demo_ctx 0 demo_cpu0.
Proof. repeat split; cbn; intros; lia || done. Qed.

Definition linked (pid : Z) (st : procstate) (n p : pptr) : proc :=
  set_p_next n (set_p_prev p (set_p_pid pid (set_p_state st zero_proc))).

(** Queue 0 empty, queue 1 holding the slots 1 and 2; slot 3 is in no queue. *)
Definition demo_procs : list proc :=
  [linked 1 RUNNING PNull PNull; linked 2 RUNNABLE (PProc 2) (PHead 1);
   linked 3 RUNNABLE (PHead 1) (PProc 1); linked 4 RUNNABLE PNull PNull].
Definition demo_heads : list proc :=
  [linked (-1) UNUSED (PHead 0) (PHead 0); linked (-2) UNUSED (PProc 1) (PProc 2)].
Definition zero_clock : clock := mkclock 0 0.
Definition demo_state : pstate unit :=
  mkpstate demo_ctx demo_procs demo_heads [0; 2] 5 0 (replicate 8 0) zero_clock (Some 0%nat)
    (replicate 500 (mkschedlog zero_clock 0 (replicate 16 0) 0 0 0 0)) 0
    (replicate 8 (zero_clock, zero_clock, zero_clock)) 1 0 tt.

(** An environment for the concrete runs: memory and files that always succeed, a
    time stamp counter that counts its reads. *)
#[export] Instance demo_kenv : KEnv unit := {|
  k_kalloc := ret 0x100000;
  k_kfree := fun _ => ret tt;
  k_setupkvm := ret 0x200000;
  k_inituvm := fun _ => ret tt;
  k_copyuvm := fun _ _ => ret 0x300000;
  k_freevm := fun _ => ret tt;
  k_allocuvm := fun _ _ n => ret n;
  k_deallocuvm := fun _ _ n => ret n;
  k_switchuvm := fun _ => ret tt;
  k_switchkvm := ret tt;
  k_filedup := ret;
  k_fileclose := fun _ => ret tt;
  k_idup := ret;
  k_iput := fun _ => ret tt;
  k_namei := fun _ => ret 0x400000;
  k_begin_op := ret tt;
  k_end_op := ret tt;
  k_iinit := fun _ => ret tt;
  k_initlog := fun _ => ret tt;
  k_tsc := fun n => mkclock 0 (Z.of_nat n);
  forkret_addr := 0x80101000;
  trapret_addr := 0x80102000
|}.
