(* ===== verification/Runqueue.v ===== *)
(** * Run queues

    Models the per-CPU run queues of [proc.c]: [runqueueinit], [enqueue],
    [dequeue] and [work_steal].  A queue is a circular doubly linked list of
    [struct proc]s through a sentinel [head]; its abstract value is a list of
    process slots, first in first out. *)

From Stdlib Require Import ZArith Lia.
From S2P Require Import Prelude Spinlock ProcDefs.

Section Runqueue.
Context {E : Type}.
Implicit Types (s : pstate E) (q : pptr).

Definition get_rqsize (c : nat) : M (pstate E) Z := fun s =>
  match rqsize s !! c with
  | Some n => Ret n s
  | None => UB "runqueue out of range"
  end.
Definition put_rqsize (f : Z -> Z) (c : nat) : M (pstate E) unit :=
  modify (fun s => set_rqsize (alter f c (rqsize s)) s).

Definition runqueueinit_one (i : nat) : M (pstate E) unit :=
  onctx (acquire (rq_lock i)) ;;
  onctx (acquire ptable_lock) ;;
  pwrite (set_p_pid (-1 * (Z.of_nat i + 1))) (PHead i) ;;
  pwrite (set_p_next (PHead i)) (PHead i) ;;
  pwrite (set_p_prev (PHead i)) (PHead i) ;;
  put_rqsize (fun _ => 0) i ;;
  onctx (release ptable_lock) ;;
  onctx (release (rq_lock i)).

Definition runqueueinit : M (pstate E) unit :=
  n <- gets ncpu ;;
  forM (seq 0 n) runqueueinit_one ;;
  modify (set_bufsize 0) ;;
  onctx (initlock bufsize_lock).

(** [while (queue_elm != head)]: the scan for a process with the same pid. *)
Fixpoint enqueue_scan (fuel : nat) (head queue_elm p : pptr) : M (pstate E) unit :=
  if decide (queue_elm = head) then ret tt else
  match fuel with
  | O => nofuel
  | S fuel =>
      qpid <- pread p_pid queue_elm ;;
      ppid <- pread p_pid p ;;
      if qpid =? ppid then panic "enqueue: push same pid" else
      next <- pread p_next queue_elm ;;
      enqueue_scan fuel head next p
  end.

Definition enqueue (rq : nat) (p : pptr) : M (pstate E) unit :=
  let head := PHead rq in
  tail <- pread p_prev head ;;
  queue_elm <- pread p_next head ;;
  fuel <- gets nproc ;;
  enqueue_scan fuel head queue_elm p ;;
  put_rqsize (fun n => n + 1) rq ;;
  pwrite (set_p_prev tail) p ;;
  pwrite (set_p_next head) p ;;
  pwrite (set_p_prev p) head ;;
  pwrite (set_p_next p) tail.

Definition dequeue (rq : nat) : M (pstate E) pptr :=
  size <- get_rqsize rq ;;
  if size =? 0 then panic "dequeue : empty runqueue" else
  let head := PHead rq in
  p_poped <- pread p_next head ;;
  onctx (acquire ptable_lock) ;;
  next <- pread p_next p_poped ;;
  pwrite (set_p_next next) head ;;
  next' <- pread p_next p_poped ;;
  pwrite (set_p_prev head) next' ;;
  pwrite (set_p_next PNull) p_poped ;;
  pwrite (set_p_prev PNull) p_poped ;;
  onctx (release ptable_lock) ;;
  put_rqsize (fun n => n - 1) rq ;;
  ret p_poped.

(** The search for the longest other queue: [(steal_target, max_rqsize)], the
    target's index being [stealid]. *)
Fixpoint steal_seek (cs : list nat) (cur : nat) (target : option nat) (max : Z) : M (pstate E) (option nat) :=
  match cs with
  | [] => ret target
  | i :: cs =>
      n <- get_rqsize i ;;
      if (max <? n) && negb (bool_decide (i = cur))
      then steal_seek cs cur (Some i) n
      else steal_seek cs cur target max
  end.

Definition work_steal (cur : nat) : M (pstate E) unit :=
  n <- gets ncpu ;;
  target <- steal_seek (seq 0 n) cur None 0 ;;
  match target with
  | None => ret tt
  | Some stealid =>
      if (stealid =? 0)%nat then ret tt else
      if bool_decide (stealid = cur) then panic "steal itself" else
      onctx (acquire (rq_lock stealid)) ;;
      size <- get_rqsize stealid ;;
      when (negb (size =? 0)) (
        p_popped <- dequeue stealid ;;
        (if bool_decide (p_popped = PNull) then panic "test" else ret tt) ;;
        onctx (acquire ptable_lock) ;;
        enqueue cur p_popped ;;
        onctx (release ptable_lock)) ;;
      onctx (release (rq_lock stealid))
  end.
End Runqueue.

(** ** The queue as a list *)

(** [chain nx pv a l z]: following [next] from [a] visits the slots [l] and ends
    in [z], and [prev] goes back the same way. *)
Fixpoint chain (nx pv : pptr -> option pptr) (a : pptr) (l : list nat) (z : pptr) : Prop :=
  match l with
  | [] => nx a = Some z /\ pv z = Some a
  | x :: l => nx a = Some (PProc x) /\ pv (PProc x) = Some a /\ chain nx pv (PProc x) l z
  end.

Lemma chain_app nx pv a l1 x l2 z :
  chain nx pv a (l1 ++ x :: l2) z <-> chain nx pv a l1 (PProc x) /\ chain nx pv (PProc x) l2 z.
Proof.
  revert a. induction l1 as [|y l1 IH]; intros a; cbn; [tauto|]. rewrite IH. tauto.
Qed.

(** [chain] reads [next] of [a] and [l] and [prev] of [l] and [z]. *)
Lemma chain_frame nx pv nx' pv' a l z :
  nx' a = nx a -> pv' z = pv z ->
  (forall x, x ∈ l -> nx' (PProc x) = nx (PProc x) /\ pv' (PProc x) = pv (PProc x)) ->
  chain nx pv a l z -> chain nx' pv' a l z.
Proof.
  revert a. induction l as [|x l IH]; intros a Ha Hz Hl; cbn; [by rewrite Ha, Hz|].
  intros (H1 & H2 & H3). destruct (Hl x) as [Hx1 Hx2]; [set_solver|].
  rewrite Ha, Hx2. split_and!; [done|done|]. apply IH; [done|done|set_solver|done].
Qed.

Lemma chain_first nx pv a l z : chain nx pv a l z -> nx a = Some (hd z (PProc <$> l)).
Proof. destruct l; cbn; naive_solver. Qed.

Lemma chain_last nx pv a l z : chain nx pv a l z -> pv z = Some (List.last (PProc <$> l) a).
Proof.
  revert a. induction l as [|x l IH]; intros a; cbn; [by intros [_ ?]|].
  intros (_ & _ & H). apply IH in H. rewrite H. f_equal. destruct l as [|y l]; [done|].
  cbn. clear. revert y. induction l as [|z l IH]; intros y; [done|]. apply (IH z).
Qed.

Section Rep.
Context {E : Type}.
Implicit Types (s : pstate E) (q : pptr) (qs : list (list nat)).

Definition nx s q : option pptr := p_next <$> node s q.
Definition pv s q : option pptr := p_prev <$> node s q.

(** The run queues of [s] hold the lists [qs], no slot twice. *)
Record rqs_rep s qs : Prop := {
  rep_heads : (length qs <= length (heads s))%nat;
  rep_sizes : forall c l, qs !! c = Some l -> rqsize s !! c = Some (Z.of_nat (length l));
  rep_nodup : NoDup (concat qs);
  rep_slots : Forall (fun i => (i < nproc s)%nat) (concat qs);
  rep_chain : forall c l, qs !! c = Some l -> chain (nx s) (pv s) (PHead c) l (PHead c)
}.

(** The pids of the slots in [l]. *)
Definition pids_of s (l : list nat) : list (option Z) := (fun i => p_pid <$> procs s !! i) <$> l.

Lemma enqueue_scan_ok s c p pid l a fuel :
  chain (nx s) (pv s) a l (PHead c) ->
  node s p = Some pid -> (length l <= fuel)%nat -> Some (p_pid pid) ∉ pids_of s l ->
  enqueue_scan fuel (PHead c) (hd (PHead c) (PProc <$> l)) p s = Ret tt s.
Proof.
  intros Hc Hp. revert a fuel Hc. induction l as [|x l IH]; intros a fuel Hc Hf Hn; cbn.
  - destruct fuel; cbn; by rewrite decide_True.
  - destruct Hc as (H1 & H2 & H3). destruct fuel as [|fuel]; cbn in Hf; [lia|].
    cbn [enqueue_scan]. rewrite decide_False by done.
    destruct (node s (PProc x)) as [px|] eqn:Ex; [|unfold pv in H2; by rewrite Ex in H2].
    rewrite (bind_Ret _ _ _ _ _ (pread_ok p_pid _ _ _ Ex)).
    rewrite (bind_Ret _ _ _ _ _ (pread_ok p_pid _ _ _ Hp)).
    destruct (Z.eqb_spec (p_pid px) (p_pid pid)) as [Heq|Hne].
    + exfalso. apply Hn. cbn. cbn in Ex. rewrite Ex, <- Heq. cbn. set_solver.
    + rewrite (bind_Ret _ _ _ _ _ (pread_ok p_next _ _ _ Ex)).
      assert (Hnx := chain_first _ _ _ _ _ H3). unfold nx in Hnx. rewrite Ex in Hnx.
      cbn in Hnx. injection Hnx as ->. eapply IH; [done|lia|]. cbn in Hn. set_solver.
Qed.

Lemma enqueue_scan_dup s c p pid l a fuel :
  chain (nx s) (pv s) a l (PHead c) ->
  node s p = Some pid -> (length l <= fuel)%nat -> Some (p_pid pid) ∈ pids_of s l ->
  enqueue_scan fuel (PHead c) (hd (PHead c) (PProc <$> l)) p s = Panic "enqueue: push same pid".
Proof.
  intros Hc Hp. revert a fuel Hc. induction l as [|x l IH]; intros a fuel Hc Hf Hn; cbn; [set_solver|].
  destruct Hc as (H1 & H2 & H3). destruct fuel as [|fuel]; cbn in Hf; [lia|].
  cbn [enqueue_scan]. rewrite decide_False by done.
  destruct (node s (PProc x)) as [px|] eqn:Ex; [|unfold pv in H2; by rewrite Ex in H2].
  rewrite (bind_Ret _ _ _ _ _ (pread_ok p_pid _ _ _ Ex)).
  rewrite (bind_Ret _ _ _ _ _ (pread_ok p_pid _ _ _ Hp)).
  destruct (Z.eqb_spec (p_pid px) (p_pid pid)) as [Heq|Hne]; [done|].
  rewrite (bind_Ret _ _ _ _ _ (pread_ok p_next _ _ _ Ex)).
  assert (Hnx := chain_first _ _ _ _ _ H3). unfold nx in Hnx. rewrite Ex in Hnx.
  cbn in Hnx. injection Hnx as ->. eapply IH; [done|lia|].
  cbn in Hn, Ex. rewrite Ex in Hn. cbn in Hn. set_solver.
Qed.

(** ** Link updates *)

Lemma nx_put_next v q s q' :
  nx (put_node (set_p_next v) q s) q' = if decide (q = q') then (fun _ => v) <$> node s q' else nx s q'.
Proof. unfold nx. rewrite node_put. case_decide; [|done]. by destruct (node s q'). Qed.
Lemma nx_put_prev v q s q' : nx (put_node (set_p_prev v) q s) q' = nx s q'.
Proof. unfold nx. rewrite node_put. case_decide; [|done]. by destruct (node s q'). Qed.
Lemma pv_put_prev v q s q' :
  pv (put_node (set_p_prev v) q s) q' = if decide (q = q') then (fun _ => v) <$> node s q' else pv s q'.
Proof. unfold pv. rewrite node_put. case_decide; [|done]. by destruct (node s q'). Qed.
Lemma pv_put_next v q s q' : pv (put_node (set_p_next v) q s) q' = pv s q'.
Proof. unfold pv. rewrite node_put. case_decide; [|done]. by destruct (node s q'). Qed.

(** [erase p] is [p] without its links; [links_only s s'] says that [s'] differs
    from [s] in links and queue sizes only. *)
Definition erase (p : proc) : proc := set_p_next PNull (set_p_prev PNull p).

Definition links_only s s' : Prop :=
  erase <$> procs s' = erase <$> procs s /\ erase <$> heads s' = erase <$> heads s /\
  s' = set_procs (procs s') (set_heads (heads s') (set_rqsize (rqsize s') s)).

Lemma links_only_refl s : links_only s s.
Proof. by destruct s. Qed.

Lemma links_only_trans s1 s2 s3 : links_only s1 s2 -> links_only s2 s3 -> links_only s1 s3.
Proof.
  intros (A1 & B1 & C1) (A2 & B2 & C2). split_and!; [congruence|congruence|].
  rewrite C2, C1. by destruct s1.
Qed.

Lemma fmap_alter_same {A B} (g : A -> B) (f : A -> A) (l : list A) i :
  (forall x, g (f x) = g x) -> g <$> alter f i l = g <$> l.
Proof.
  intros H. revert i. induction l as [|x l IH]; intros i; [done|]. destruct i as [|i]; csimpl.
  - by rewrite H.
  - f_equal. apply IH.
Qed.

Lemma links_only_put f q s :
  (forall p, erase (f p) = erase p) -> links_only s (put_node f q s).
Proof.
  intros H. destruct q as [|i|c], s; cbn; (split_and!; cbn; [..|done]); try done;
    by apply fmap_alter_same.
Qed.

Lemma links_only_size f c s : links_only s (set_rqsize (alter f c (rqsize s)) s).
Proof. by destruct s. Qed.

Lemma erase_pid p p' : erase p = erase p' -> p_pid p = p_pid p'.
Proof. intros H. exact (f_equal p_pid H). Qed.

Lemma links_only_nproc s s' : links_only s s' -> nproc s' = nproc s.
Proof. intros (H & _). unfold nproc. rewrite <- (length_fmap erase), H. apply length_fmap. Qed.

Lemma links_only_node s s' q : links_only s s' -> erase <$> node s' q = erase <$> node s q.
Proof.
  intros (H1 & H2 & _). destruct q as [|i|c]; cbn; [done|..];
    rewrite <- !list_lookup_fmap; congruence.
Qed.

(** ** [enqueue] and [dequeue] *)

Definition enq_state (c : nat) (p tail : pptr) s : pstate E :=
  put_node (set_p_next p) tail
    (put_node (set_p_prev p) (PHead c)
      (put_node (set_p_next (PHead c)) p
        (put_node (set_p_prev tail) p
          (set_rqsize (alter (fun n => n + 1) c (rqsize s)) s)))).

Lemma node_put_some f q s q' : is_Some (node s q') -> is_Some (node (put_node f q s) q').
Proof. intros [p Hp]. rewrite node_put, Hp. case_decide; cbn; eauto. Qed.

Lemma pwrite_some f q s : is_Some (node s q) -> pwrite f q s = Ret tt (put_node f q s).
Proof. intros [p Hp]. by eapply pwrite_ok. Qed.

Lemma last_PProc (l : list nat) a :
  l = [] /\ List.last (PProc <$> l) a = a \/
  exists l0 t, l = l0 ++ [t] /\ List.last (PProc <$> l) a = PProc t.
Proof.
  destruct l as [|t l0 _] using rev_ind; [by left|right]. exists l0, t. split; [done|].
  rewrite fmap_app. apply List.last_last.
Qed.

Lemma rep_nx_some s qs c l x :
  rqs_rep s qs -> qs !! c = Some l -> x = PHead c \/ (exists i, x = PProc i /\ i ∈ l) -> is_Some (node s x).
Proof.
  intros [Hh _ _ Hf Hc] Hl [->|(i & -> & Hi)]; cbn.
  - apply lookup_lt_is_Some. apply lookup_lt_Some in Hl. lia.
  - apply lookup_lt_is_Some. apply (Forall_at _ _ _ Hf).
    apply elem_of_concat. exists l. split; [by eapply list_elem_of_lookup_2|done].
Qed.

Lemma enqueue_run s qs c l p pp :
  rqs_rep s qs -> qs !! c = Some l -> procs s !! p = Some pp -> (length l <= nproc s)%nat ->
  Some (p_pid pp) ∉ pids_of s l ->
  enqueue c (PProc p) s = Ret tt (enq_state c (PProc p) (List.last (PProc <$> l) (PHead c)) s).
Proof.
  intros Hr Hl Hp Hlen Hpid. assert (Hc := rep_chain _ _ Hr _ _ Hl).
  assert (Hh : is_Some (node s (PHead c))) by (eapply rep_nx_some; eauto).
  destruct Hh as [h Hh]. unfold enqueue.
  assert (Hn := chain_first _ _ _ _ _ Hc). assert (Ht := chain_last _ _ _ _ _ Hc).
  unfold nx, pv in Hn, Ht. rewrite Hh in Hn, Ht. cbn in Hn, Ht. simplify_eq.
  rewrite (bind_Ret _ _ _ _ _ (pread_ok p_prev _ _ _ Hh)), Ht.
  rewrite (bind_Ret _ _ _ _ _ (pread_ok p_next _ _ _ Hh)), Hn.
  set (tail := List.last _ _). unfold gets at 1. unfold bind at 1. cbn [rbind].
  erewrite bind_Ret by (by eapply enqueue_scan_ok).
  unfold put_rqsize, modify. unfold bind at 1. cbn [rbind].
  set (s1 := set_rqsize _ s).
  assert (N : forall q, node s1 q = node s q) by (by intros []).
  assert (Htl : is_Some (node s tail)).
  { eapply rep_nx_some; [done..|]. destruct (last_PProc l (PHead c)) as [[_ ?]|(l0 & t & -> & ?)]; [by left|].
    right. exists t. split; [done|]. set_solver. }
  rewrite (bind_Ret _ _ _ tt (put_node (set_p_prev tail) (PProc p) s1))
    by (apply pwrite_some; rewrite N; cbn; eauto).
  erewrite bind_Ret by (apply pwrite_some, node_put_some; rewrite N; cbn; eauto).
  erewrite bind_Ret by (apply pwrite_some, node_put_some, node_put_some; rewrite N; eauto).
  apply pwrite_some. do 3 apply node_put_some. by rewrite N.
Qed.

Lemma rep_length s qs c l : rqs_rep s qs -> qs !! c = Some l -> (length l <= nproc s)%nat.
Proof.
  intros Hr Hl. transitivity (length (concat qs)).
  - rewrite (concat_split _ _ _ Hl), length_app. lia.
  - apply length_below; apply Hr.
Qed.

(** The queues of two CPUs share no slot. *)
Lemma rep_disjoint s qs c d l k x :
  rqs_rep s qs -> qs !! c = Some l -> qs !! d = Some k -> c <> d -> x ∈ l -> x ∉ k.
Proof.
  intros Hr Hl Hk Hne Hx Hx'. assert (Hn := rep_nodup _ _ Hr).
  rewrite (concat_split _ _ _ Hl) in Hn. apply NoDup_app in Hn as (_ & Hd & _).
  apply (Hd x Hx), elem_of_concat. exists k. split; [|done].
  by eapply elem_of_delete_ne.
Qed.

Lemma enq_nx c p tail s q :
  is_Some (node s (PProc p)) -> is_Some (node s tail) ->
  nx (enq_state c (PProc p) tail s) q =
  if decide (tail = q) then Some (PProc p) else if decide (PProc p = q) then Some (PHead c) else nx s q.
Proof.
  intros [pp Hp] [t Ht]. unfold enq_state. set (s1 := set_rqsize _ s).
  assert (N : forall q, node s1 q = node s q) by (by intros []).
  rewrite nx_put_next, nx_put_prev, nx_put_next, nx_put_prev.
  change (nx s1 q) with (p_next <$> node s1 q).
  rewrite !node_put, !N. repeat (case_decide; simplify_eq); try done;
    by rewrite ?Hp, ?Ht.
Qed.

Lemma enq_pv c p tail s q :
  is_Some (node s (PProc p)) -> is_Some (node s (PHead c)) ->
  pv (enq_state c (PProc p) tail s) q =
  if decide (PHead c = q) then Some (PProc p) else if decide (PProc p = q) then Some tail else pv s q.
Proof.
  intros [pp Hp] [t Ht]. unfold enq_state. set (s1 := set_rqsize _ s).
  assert (N : forall q, node s1 q = node s q) by (by intros []).
  rewrite pv_put_next, pv_put_prev, pv_put_next, pv_put_prev.
  change (pv s1 q) with (p_prev <$> node s1 q).
  rewrite !node_put, !N. repeat (case_decide; simplify_eq); try done;
    by rewrite ?Hp, ?Ht.
Qed.

Lemma enq_links c p tail s : links_only s (enq_state c p tail s).
Proof.
  unfold enq_state. do 4 (eapply links_only_trans; [|by apply links_only_put]).
  apply links_only_size.
Qed.

Lemma enq_chain c p l s :
  is_Some (node s (PProc p)) -> is_Some (node s (PHead c)) ->
  is_Some (node s (List.last (PProc <$> l) (PHead c))) -> NoDup l -> p ∉ l ->
  chain (nx s) (pv s) (PHead c) l (PHead c) ->
  let s' := enq_state c (PProc p) (List.last (PProc <$> l) (PHead c)) s in
  chain (nx s') (pv s') (PHead c) (l ++ [p]) (PHead c).
Proof.
  intros Hp Hh Ht Hnd Hpl Hc. cbn zeta. apply chain_app.
  assert (NX := fun q => enq_nx c p _ s q Hp Ht). assert (PV := fun q => enq_pv c p (List.last (PProc <$> l) (PHead c)) s q Hp Hh).
  destruct (last_PProc l (PHead c)) as [[-> E1]|(l0 & t & -> & E1)]; rewrite E1 in *.
  - cbn [chain]. rewrite !NX, !PV. split_and!; repeat case_decide; congruence.
  - apply chain_app in Hc as [Hc (Hn & Hv)].
    rewrite !chain_app. cbn [chain]. rewrite !NX, !PV.
    assert (t ∉ l0) by (apply NoDup_app in Hnd as (_ & Hd & _); set_solver).
    assert (p <> t) by set_solver.
    split_and!; try (repeat case_decide; congruence). revert Hc. apply chain_frame.
    + rewrite NX. by rewrite !decide_False by done.
    + rewrite PV. by rewrite !decide_False by congruence.
    + intros x Hx. rewrite NX, PV. by rewrite !decide_False by set_solver.
Qed.

Lemma rqsize_put f q s : rqsize (put_node f q s) = rqsize s.
Proof. by destruct q. Qed.
Lemma heads_length_put f q s : length (heads (put_node f q s)) = length (heads s).
Proof. destruct q; cbn; [done|done|]. apply length_alter. Qed.

Lemma sizes_insert s qs c l k f :
  rqs_rep s qs -> qs !! c = Some l -> f (Z.of_nat (length l)) = Z.of_nat (length k) ->
  forall d l', <[c := k]> qs !! d = Some l' ->
  alter f c (rqsize s) !! d = Some (Z.of_nat (length l')).
Proof.
  intros Hr Hl Hf d l' [(-> & <- & _)|[Hne Hk]]%list_lookup_insert_Some.
  - by rewrite list_lookup_alter_eq, (rep_sizes _ _ Hr _ _ Hl), <- Hf.
  - rewrite list_lookup_alter_ne by done. by apply (rep_sizes _ _ Hr).
Qed.

Lemma enqueue_rep s qs c l p :
  rqs_rep s qs -> qs !! c = Some l -> (p < nproc s)%nat -> p ∉ concat qs ->
  rqs_rep (enq_state c (PProc p) (List.last (PProc <$> l) (PHead c)) s) (<[c := l ++ [p]]> qs).
Proof.
  intros Hr Hl Hp Hnew. assert (Hlt := lookup_lt_Some _ _ _ Hl).
  assert (Hps : is_Some (node s (PProc p))) by (by apply lookup_lt_is_Some).
  assert (Hh : is_Some (node s (PHead c))) by (eapply rep_nx_some; eauto).
  assert (Htl : is_Some (node s (List.last (PProc <$> l) (PHead c)))).
  { eapply rep_nx_some; [done..|]. destruct (last_PProc l (PHead c)) as [[_ ?]|(l0 & t & -> & ?)]; [by left|].
    right. exists t. split; [done|]. set_solver. }
  assert (Hc := concat_insert _ _ _ (l ++ [p]) Hl). assert (Hs := concat_split _ _ _ Hl).
  assert (Hnew' : p ∉ l ++ concat (delete c qs)) by (by rewrite <- Hs).
  split.
  - rewrite length_insert. unfold enq_state. rewrite !heads_length_put. apply Hr.
  - unfold enq_state. rewrite !rqsize_put.
    apply sizes_insert with l; [done|done|]. rewrite length_app; cbn. lia.
  - rewrite Hc. assert (Hn := rep_nodup _ _ Hr). rewrite Hs in Hn.
    rewrite <- (assoc_L (++)), Permutation_app_swap_app. cbn. by apply NoDup_cons.
  - rewrite (links_only_nproc s) by apply enq_links. rewrite Hc. assert (Hf := rep_slots _ _ Hr).
    rewrite Hs in Hf. rewrite !Forall_app in *. naive_solver.
  - intros d k [(-> & <- & _)|[Hne Hk]]%list_lookup_insert_Some.
    + apply enq_chain; try done; [|set_solver|by apply Hr].
      assert (Hn := rep_nodup _ _ Hr). rewrite Hs in Hn. by apply NoDup_app in Hn as [? _].
    + assert (p ∉ k).
      { intros ?. apply Hnew, elem_of_concat. exists k. split; [by eapply list_elem_of_lookup_2|done]. }
      assert (Hch := rep_chain _ _ Hr _ _ Hk). revert Hch. apply chain_frame.
      * rewrite enq_nx by done. destruct (last_PProc l (PHead c)) as [[_ ->]|(l0 & t & -> & ->)];
          by rewrite !decide_False by congruence.
      * rewrite enq_pv by done. by rewrite !decide_False by congruence.
      * intros x Hx. rewrite enq_nx, enq_pv by done.
        assert (x ∉ l) by (intros ?; by eapply (rep_disjoint s qs c d)).
        destruct (last_PProc l (PHead c)) as [[_ ->]|(l0 & t & -> & ->)];
          by rewrite !decide_False by set_solver.
Qed.

Definition deq_state (c p : nat) (n : pptr) s : pstate E :=
  let s := put_node (set_p_next n) (PHead c) s in
  let s := put_node (set_p_prev (PHead c)) n s in
  let s := put_node (set_p_next PNull) (PProc p) s in
  let s := put_node (set_p_prev PNull) (PProc p) s in
  set_rqsize (alter (fun n => n - 1) c (rqsize s)) s.

(** A context change commutes with link updates. *)
Lemma node_set_pctx k s q : node (set_pctx k s) q = node s q.
Proof. by destruct q. Qed.
Lemma put_node_pctx f q k s : put_node f q (set_pctx k s) = set_pctx k (put_node f q s).
Proof. by destruct q. Qed.
Lemma pctx_put f q s : pctx (put_node f q s) = pctx s.
Proof. by destruct q. Qed.

Lemma deq_nx c p n s q :
  is_Some (node s (PProc p)) -> is_Some (node s (PHead c)) ->
  nx (deq_state c p n s) q =
  if decide (PProc p = q) then Some PNull else if decide (PHead c = q) then Some n else nx s q.
Proof.
  intros [pp Hp] [t Ht]. unfold deq_state; cbn zeta.
  change (nx (set_rqsize _ ?s) q) with (nx s q).
  rewrite nx_put_prev, nx_put_next, nx_put_prev, nx_put_next, !node_put.
  repeat (case_decide; simplify_eq); try done; by rewrite ?Hp, ?Ht.
Qed.

Lemma deq_pv c p n s q :
  is_Some (node s (PProc p)) -> is_Some (node s n) ->
  pv (deq_state c p n s) q =
  if decide (PProc p = q) then Some PNull else if decide (n = q) then Some (PHead c) else pv s q.
Proof.
  intros [pp Hp] [t Ht]. unfold deq_state; cbn zeta.
  change (pv (set_rqsize _ ?s) q) with (pv s q).
  rewrite pv_put_prev, pv_put_next, pv_put_prev, pv_put_next, !node_put.
  repeat (case_decide; simplify_eq); try done; by rewrite ?Hp, ?Ht.
Qed.

Lemma deq_links c p n s : links_only s (deq_state c p n s).
Proof.
  unfold deq_state; cbn zeta. eapply links_only_trans; [|apply links_only_size].
  do 3 (eapply links_only_trans; [|by apply links_only_put]). by apply links_only_put.
Qed.

Lemma hd_node s qs c p l :
  rqs_rep s qs -> qs !! c = Some (p :: l) -> is_Some (node s (hd (PHead c) (PProc <$> l))).
Proof.
  intros Hr Hl. eapply rep_nx_some; [done..|]. destruct l as [|y l]; [by left|].
  right. exists y. split; [done|set_solver].
Qed.

Lemma get_rqsize_rep s qs c l :
  rqs_rep s qs -> qs !! c = Some l -> get_rqsize c s = Ret (Z.of_nat (length l)) s.
Proof.
  intros Hr Hl. unfold get_rqsize. by rewrite (rep_sizes _ _ Hr _ _ Hl).
Qed.

Lemma dequeue_run s qs c p l i cp :
  rqs_rep s qs -> qs !! c = Some (p :: l) ->
  ctx_ok (pctx s) i cp -> locks (pctx s) !! ptable_lock = None ->
  dequeue c s = Ret (PProc p) (deq_state c p (hd (PHead c) (PProc <$> l)) s).
Proof.
  intros Hr Hl Hctx Hlk. assert (Hc := rep_chain _ _ Hr _ _ Hl).
  assert (Hh : is_Some (node s (PHead c))) by (eapply rep_nx_some; eauto).
  assert (Hp : is_Some (node s (PProc p))) by (eapply rep_nx_some; set_solver).
  assert (Hn := hd_node _ _ _ _ _ Hr Hl). set (n := hd (PHead c) (PProc <$> l)) in *.
  destruct Hc as (H1 & _ & H3). assert (H2 := chain_first _ _ _ _ _ H3). fold n in H2.
  destruct Hh as [h Hh], Hp as [pp Hp]. unfold nx in H1, H2. rewrite Hh in H1. rewrite Hp in H2.
  cbn in H1, H2. injection H1 as H1. injection H2 as H2.
  unfold dequeue. rewrite (bind_Ret _ _ _ _ _ (get_rqsize_rep _ _ _ _ Hr Hl)). cbn [length].
  destruct (Z.eqb_spec (Z.of_nat (S (length l))) 0); [lia|].
  rewrite (bind_Ret _ _ _ _ _ (pread_ok p_next _ _ _ Hh)), H1.
  rewrite (bind_Ret _ _ _ _ _ (onctx_Ret _ _ _ _ (acquire_ok _ _ _ _ Hctx Hlk))).
  cbn [set_ctx pstate_ctx]. set (k := k_acq ptable_lock i (ctx s)).
  rewrite (bind_Ret _ _ _ n (set_pctx k s)) by (rewrite <- H2; by apply pread_ok; rewrite node_set_pctx).
  erewrite bind_Ret by (apply pwrite_some; rewrite node_set_pctx; by eauto).
  rewrite put_node_pctx.
  erewrite bind_Ret.
  2:{ apply (pread_ok p_next (PProc p) _ pp). rewrite node_set_pctx, node_put. by rewrite decide_False. }
  rewrite H2.
  erewrite bind_Ret by (apply pwrite_some; rewrite node_set_pctx; by apply node_put_some).
  erewrite bind_Ret by (apply pwrite_some; rewrite put_node_pctx, node_set_pctx; do 2 apply node_put_some; by eauto).
  erewrite bind_Ret by (apply pwrite_some; rewrite !put_node_pctx, node_set_pctx; do 3 apply node_put_some; by eauto).
  rewrite !put_node_pctx. set (s' := put_node (set_p_prev PNull) _ _).
  assert (Hk : ctx (set_pctx k s') = k_acq ptable_lock i (pctx s)) by done.
  rewrite (bind_Ret _ _ _ _ _ (rel_step _ _ _ _ _ Hctx Hlk Hk)).
  assert (Hs' : pctx s' = pctx s) by (unfold s'; by rewrite !pctx_put).
  cbn [set_ctx pstate_ctx]. unfold put_rqsize, deq_state. run. fold s'.
  replace (set_pctx (pctx s) (set_pctx k s')) with s' by (rewrite <- Hs'; by destruct s'). done.
Qed.

Lemma dequeue_rep s qs c p l :
  rqs_rep s qs -> qs !! c = Some (p :: l) ->
  rqs_rep (deq_state c p (hd (PHead c) (PProc <$> l)) s) (<[c := l]> qs).
Proof.
  intros Hr Hl. assert (Hc := concat_insert _ _ _ l Hl). assert (Hs := concat_split _ _ _ Hl).
  assert (Hh : is_Some (node s (PHead c))) by (eapply rep_nx_some; eauto).
  assert (Hp : is_Some (node s (PProc p))) by (eapply rep_nx_some; set_solver).
  assert (Hn := hd_node _ _ _ _ _ Hr Hl).
  assert (Hnd := rep_nodup _ _ Hr). rewrite Hs in Hnd. cbn in Hnd. apply NoDup_cons in Hnd as [Hpn Hnd].
  split.
  - rewrite length_insert. unfold deq_state; cbn zeta.
    change (heads (set_rqsize _ ?s)) with (heads s). rewrite !heads_length_put. apply Hr.
  - unfold deq_state; cbn zeta. change (rqsize (set_rqsize ?v _)) with v.
    rewrite !rqsize_put. apply sizes_insert with (p :: l); [done|done|]. cbn. lia.
  - by rewrite Hc.
  - rewrite (links_only_nproc s) by apply deq_links. rewrite Hc. assert (Hf := rep_slots _ _ Hr).
    rewrite Hs in Hf. cbn in Hf. by apply Forall_cons in Hf as [_ Hf].
  - intros d k [(-> & <- & _)|[Hne Hk]]%list_lookup_insert_Some.
    + assert (Hch := rep_chain _ _ Hr _ _ Hl). destruct Hch as (_ & _ & Hch).
      assert (p ∉ l) by set_solver. destruct l as [|y l]; cbn [chain hd fmap list_fmap] in *.
      * rewrite deq_nx, deq_pv by done. split; repeat case_decide; congruence.
      * destruct Hch as (A & B & C). assert (p <> y) by set_solver.
        rewrite deq_nx, deq_pv by done. split_and!; [repeat case_decide; congruence..|].
        assert (y ∉ l) by (cbn in Hnd; apply NoDup_cons in Hnd; set_solver).
        revert C. apply chain_frame.
        -- rewrite deq_nx by done. by rewrite !decide_False by congruence.
        -- rewrite deq_pv by done. by rewrite !decide_False by congruence.
        -- intros x Hx. rewrite deq_nx, deq_pv by done. by rewrite !decide_False by set_solver.
    + assert (Hch := rep_chain _ _ Hr _ _ Hk). revert Hch.
      assert (D : forall x, x ∈ p :: l -> x ∉ k) by (intros x ?; by eapply (rep_disjoint s qs c d)).
      assert (Hnh : hd (PHead c) (PProc <$> l) <> PHead d) by (destruct l; cbn; congruence).
      apply chain_frame.
      * rewrite deq_nx by done. by rewrite !decide_False by congruence.
      * rewrite deq_pv by done. by rewrite !decide_False by congruence.
      * intros x Hx. rewrite deq_nx, deq_pv by done.
        assert (hd (PHead c) (PProc <$> l) <> PProc x) by (destruct l; cbn; set_solver).
        by rewrite !decide_False by set_solver.
Qed.

Lemma dequeue_empty s qs c : rqs_rep s qs -> qs !! c = Some [] -> dequeue c s = Panic "dequeue : empty runqueue".
Proof.
  intros Hr Hl. unfold dequeue. by rewrite (bind_Ret _ _ _ _ _ (get_rqsize_rep _ _ _ _ Hr Hl)).
Qed.

Lemma rep_pctx k s qs : rqs_rep s qs -> rqs_rep (set_pctx k s) qs.
Proof.
  intros [H1 H2 H3 H4 H5]. split; [done..|]. intros c l Hl. specialize (H5 c l Hl).
  revert H5. apply chain_frame; [done|done|]. done.
Qed.

(** ** The search for a victim *)

(** [v] is the first of the longest non-empty queues other than [cur], among the
    first [n]. *)
Definition is_victim qs (n cur v : nat) : Prop :=
  (v < n)%nat /\ v <> cur /\ exists l, qs !! v = Some l /\ l <> [] /\
  forall i k, (i < n)%nat -> i <> cur -> qs !! i = Some k ->
    (length k <= length l)%nat /\ ((i < v)%nat -> (length k < length l)%nat).

Definition no_victim qs (n cur : nat) : Prop :=
  forall i k, (i < n)%nat -> i <> cur -> qs !! i = Some k -> k = [].

(** What the search has found after the first [j] queues. *)
Definition seek_inv qs (cur j : nat) (t : option nat) (max : Z) : Prop :=
  match t with
  | None => max = 0 /\ no_victim qs j cur
  | Some v => is_victim qs j cur v /\ exists l, qs !! v = Some l /\ max = Z.of_nat (length l)
  end.

Lemma seek_inv_step qs cur j t max l :
  seek_inv qs cur j t max -> qs !! j = Some l ->
  if (max <? Z.of_nat (length l)) && negb (bool_decide (j = cur))
  then seek_inv qs cur (S j) (Some j) (Z.of_nat (length l))
  else seek_inv qs cur (S j) t max.
Proof.
  intros Hi Hl. destruct (Z.ltb_spec max (Z.of_nat (length l))) as [Hlt|Hge]; cbn.
  - case_bool_decide as Hj; cbn.
    + subst cur. destruct t as [v|]; cbn in *.
      * destruct Hi as ((Hv & Hne & k & Hk & Hk0 & Hall) & Hm). split; [|done].
        split_and!; [lia|done|]. exists k. split_and!; [done..|]. intros i k' Hi Hne' Hk'.
        apply Hall; [lia|done|done].
      * destruct Hi as [-> Hi]. split; [done|]. intros i k Hlt' Hne. apply Hi; lia.
    + split; [|by eauto]. split_and!; [lia|done|]. exists l. split_and!; [done| |].
      * intros ->. cbn in Hlt. destruct t as [v|]; cbn in Hi; [|lia].
        destruct Hi as (_ & k & _ & ->). lia.
      * intros i k Hi' Hne Hk. destruct t as [v|]; cbn in Hi.
        -- destruct Hi as ((_ & _ & lv & Hv & _ & Hall) & lv' & Hv' & ->). simplify_eq.
           destruct (decide (i = j)) as [->|]; [simplify_eq; lia|].
           destruct (Hall i k) as [? _]; [lia|done|done|]. lia.
        -- destruct Hi as [-> Hi]. destruct (decide (i = j)) as [->|]; [simplify_eq; lia|].
           rewrite (Hi i k) by (done || lia). cbn. lia.
  - destruct t as [v|]; cbn in *.
    + destruct Hi as ((Hv & Hne & k & Hk & Hk0 & Hall) & k' & Hk' & ->). simplify_eq.
      split; [|by eauto]. split_and!; [lia|done|]. exists k. split_and!; [done..|].
      intros i k'' Hi Hne' Hk''. destruct (decide (i = j)) as [->|]; [simplify_eq; lia|].
      apply Hall; [lia|done|done].
    + destruct Hi as [-> Hi]. split; [done|]. intros i k Hlt Hne Hk.
      destruct (decide (i = j)) as [->|]; [|apply (Hi i); [lia|done|done]].
      simplify_eq. destruct l; [done|cbn in Hge; lia].
Qed.

Lemma steal_seek_ok s qs cur j m t max :
  rqs_rep s qs -> (j + m <= length qs)%nat -> seek_inv qs cur j t max ->
  exists t' max', steal_seek (seq j m) cur t max s = Ret t' s /\ seek_inv qs cur (j + m) t' max'.
Proof.
  intros Hr. revert j t max. induction m as [|m IH]; intros j t max Hm Hi; cbn.
  - exists t, max. rewrite Nat.add_0_r. done.
  - destruct (lookup_lt_is_Some_2 qs j) as [l Hl]; [lia|].
    rewrite (bind_Ret _ _ _ _ _ (get_rqsize_rep _ _ _ _ Hr Hl)).
    assert (Hstep := seek_inv_step _ _ _ _ _ _ Hi Hl). rewrite <- Nat.add_succ_comm.
    destruct (_ && _); apply IH; try lia; done.
Qed.

(** ** [runqueueinit] *)

Definition rqinit_state (i : nat) s : pstate E :=
  let s := put_node (set_p_pid (-1 * (Z.of_nat i + 1))) (PHead i) s in
  let s := put_node (set_p_next (PHead i)) (PHead i) s in
  let s := put_node (set_p_prev (PHead i)) (PHead i) s in
  set_rqsize (alter (fun _ => 0) i (rqsize s)) s.

Lemma rq_ptable_ne i : rq_lock i <> ptable_lock.
Proof. done. Qed.
Lemma rq_lock_inj i j : rq_lock i = rq_lock j -> i = j.
Proof. intros H. injection H. lia. Qed.

Lemma runqueueinit_one_run s n c i :
  ctx_ok (pctx s) n c -> locks (pctx s) !! rq_lock i = None -> locks (pctx s) !! ptable_lock = None ->
  (i < length (heads s))%nat ->
  runqueueinit_one i s = Ret tt (rqinit_state i s).
Proof.
  intros Hc H1 H2 Hi. set (k := pctx s) in *.
  assert (Hc1 := ctx_ok_acq _ _ _ (rq_lock i) Hc). set (k1 := k_acq (rq_lock i) n k) in *.
  assert (Hl1 : locks k1 !! ptable_lock = None) by (unfold k1; by rewrite locks_acq, decide_False).
  set (k2 := k_acq ptable_lock n k1).
  assert (Hh : is_Some (node s (PHead i))) by (by apply lookup_lt_is_Some).
  unfold runqueueinit_one.
  rewrite <- (set_pctx_id s) at 1. fold k.
  rewrite (bind_Ret _ _ _ _ _ (pacq s k n c _ Hc H1)). fold k1.
  rewrite (bind_Ret _ _ _ _ _ (pacq s k1 n _ _ Hc1 Hl1)). fold k2.
  erewrite bind_Ret by (apply pwrite_some; by rewrite node_set_pctx). rewrite put_node_pctx.
  erewrite bind_Ret by (apply pwrite_some; rewrite node_set_pctx; by apply node_put_some).
  rewrite put_node_pctx.
  erewrite bind_Ret by (apply pwrite_some; rewrite node_set_pctx; by do 2 apply node_put_some).
  rewrite put_node_pctx. unfold put_rqsize. unfold bind at 1. unfold modify. cbn [rbind].
  change (set_rqsize _ _) with (set_pctx k2 (rqinit_state i s)).
  rewrite (bind_Ret _ _ _ _ _ (prel (rqinit_state i s) k1 n _ _ Hc1 Hl1)).
  unfold k1. by rewrite (prel (rqinit_state i s) k n _ _ Hc H1).
Qed.

Lemma rqinit_rep j s :
  rqs_rep s (replicate j []) -> (j < length (heads s))%nat -> (j < length (rqsize s))%nat ->
  rqs_rep (rqinit_state j s) (replicate (S j) []).
Proof.
  intros Hr Hj Hj'. assert (Hh : is_Some (node s (PHead j))) by (by apply lookup_lt_is_Some).
  assert (Hcc : forall n, concat (replicate n []) = @nil nat) by (by induction n).
  split.
  - rewrite length_replicate. unfold rqinit_state; cbn zeta.
    change (heads (set_rqsize _ ?s)) with (heads s). rewrite !heads_length_put. lia.
  - intros c l [-> Hc]%lookup_replicate. unfold rqinit_state; cbn zeta.
    change (rqsize (set_rqsize ?v _)) with v. rewrite !rqsize_put.
    destruct (decide (j = c)) as [->|Hne].
    + apply lookup_lt_is_Some in Hj' as [z Hz]. by rewrite list_lookup_alter_eq, Hz.
    + rewrite list_lookup_alter_ne by done. apply (rep_sizes _ _ Hr). apply lookup_replicate. split; [done|lia].
  - rewrite Hcc. constructor.
  - rewrite Hcc. constructor.
  - intros c l [-> Hc]%lookup_replicate. unfold rqinit_state; cbn zeta.
    change (nx (set_rqsize _ ?s)) with (nx s). change (pv (set_rqsize _ ?s)) with (pv s).
    cbn [chain]. rewrite nx_put_prev, nx_put_next, pv_put_prev.
    destruct (decide (j = c)) as [->|Hne].
    + rewrite !decide_True by done. destruct Hh as [h Hh]. by rewrite !node_put, !decide_True, Hh by done.
    + rewrite !decide_False by congruence. rewrite pv_put_next.
      assert (Hch : chain (nx s) (pv s) (PHead c) [] (PHead c)).
      { apply (rep_chain _ _ Hr). apply lookup_replicate. split; [done|lia]. }
      revert Hch. cbn [chain]. unfold nx, pv. rewrite node_put. by rewrite decide_False by congruence.
Qed.

Lemma rqinit_frame j s :
  pctx (rqinit_state j s) = pctx s /\ procs (rqinit_state j s) = procs s /\
  length (heads (rqinit_state j s)) = length (heads s) /\
  length (rqsize (rqinit_state j s)) = length (rqsize s).
Proof. destruct s; cbn. by rewrite !length_alter. Qed.

Lemma runqueueinit_loop s n c j m :
  ctx_ok (pctx s) n c -> (forall i, locks (pctx s) !! rq_lock i = None) ->
  locks (pctx s) !! ptable_lock = None ->
  (j + m <= length (heads s))%nat -> (j + m <= length (rqsize s))%nat ->
  rqs_rep s (replicate j []) ->
  exists s', forM (seq j m) runqueueinit_one s = Ret tt s' /\
    rqs_rep s' (replicate (j + m) []) /\ pctx s' = pctx s /\ procs s' = procs s.
Proof.
  revert j s. induction m as [|m IH]; intros j s Hc H1 H2 Hh Hs Hr.
  - exists s. rewrite Nat.add_0_r. done.
  - cbn [seq forM]. rewrite (bind_Ret _ _ _ _ _ (runqueueinit_one_run s n c j Hc (H1 j) H2 ltac:(lia))).
    destruct (rqinit_frame j s) as (F1 & F2 & F3 & F4).
    destruct (IH (S j) (rqinit_state j s)) as (s' & E1 & E2 & E3 & E4);
      rewrite ?F1, ?F3, ?F4; try done; try lia; [apply rqinit_rep; [done|lia|lia]|].
    exists s'. rewrite <- Nat.add_succ_comm. split_and!; congruence.
Qed.

(** ** [work_steal] *)

Lemma seek_run s qs cur :
  rqs_rep s qs -> (ncpu s <= length qs)%nat ->
  exists t, steal_seek (seq 0 (ncpu s)) cur None 0 s = Ret t s /\
  match t with None => no_victim qs (ncpu s) cur | Some v => is_victim qs (ncpu s) cur v end.
Proof.
  intros Hr Hn. destruct (steal_seek_ok s qs cur 0 (ncpu s) None 0) as (t & max & H1 & H2); [done|lia| |].
  - split; [done|]. intros i k Hi. lia.
  - exists t. split; [done|]. destruct t; cbn in H2; tauto.
Qed.

Lemma is_victim_unique qs n cur v v' : is_victim qs n cur v -> is_victim qs n cur v' -> v = v'.
Proof.
  intros (Hv & Hc & l & Hl & _ & Hall) (Hv' & Hc' & l' & Hl' & _ & Hall').
  destruct (Hall v' l') as [A A']; [done..|]. destruct (Hall' v l) as [B B']; [done..|].
  destruct (Nat.lt_trichotomy v v') as [H|[H|H]]; [|done|]; [specialize (B' H)|specialize (A' H)]; lia.
Qed.

Lemma deq_pctx c p n s : pctx (deq_state c p n s) = pctx s.
Proof. unfold deq_state; cbn. by rewrite !pctx_put. Qed.
Lemma enq_pctx c p t s : pctx (enq_state c p t s) = pctx s.
Proof. unfold enq_state. by rewrite !pctx_put. Qed.
Lemma deq_set_pctx c p n k s : deq_state c p n (set_pctx k s) = set_pctx k (deq_state c p n s).
Proof. unfold deq_state; cbn zeta. by rewrite !put_node_pctx. Qed.
Lemma enq_set_pctx c p t k s : enq_state c p t (set_pctx k s) = set_pctx k (enq_state c p t s).
Proof.
  unfold enq_state. change (set_rqsize ?v (set_pctx k s)) with (set_pctx k (set_rqsize v s)).
  by rewrite !put_node_pctx.
Qed.

Lemma links_only_proc s s' i p :
  links_only s s' -> procs s !! i = Some p -> exists p', procs s' !! i = Some p' /\ erase p' = erase p.
Proof.
  intros H Hp. assert (X := links_only_node _ _ (PProc i) H). cbn in X. rewrite Hp in X.
  destruct (procs s' !! i) as [p'|]; [|done]. exists p'. split; [done|]. cbn in X. congruence.
Qed.

Lemma pids_of_links s s' l : links_only s s' -> pids_of s' l = pids_of s l.
Proof.
  intros H. unfold pids_of. apply list_fmap_ext. intros _ x _.
  assert (E1 := links_only_node _ _ (PProc x) H). cbn in E1.
  assert (G : forall o : option proc, p_pid <$> o = p_pid <$> (erase <$> o)) by (by intros []).
  by rewrite (G (procs s' !! x)), (G (procs s !! x)), E1.
Qed.

Lemma work_steal_moves s qs cur lc v p l pp i c :
  rqs_rep s qs -> (ncpu s <= length qs)%nat -> is_victim qs (ncpu s) cur v -> v <> 0%nat ->
  qs !! cur = Some lc -> qs !! v = Some (p :: l) -> procs s !! p = Some pp ->
  Some (p_pid pp) ∉ pids_of s lc ->
  ctx_ok (pctx s) i c -> locks (pctx s) !! rq_lock v = None -> locks (pctx s) !! ptable_lock = None ->
  exists s', work_steal cur s = Ret tt s' /\ links_only s s' /\
    rqs_rep s' (<[cur := lc ++ [p]]> (<[v := l]> qs)).
Proof.
  intros Hr Hn Hv Hv0 Hcur Hqv Hp Hpid Hc Hl1 Hl2. set (k := pctx s) in *.
  destruct (seek_run s qs cur Hr Hn) as (t & Ht & Hspec).
  assert (t = Some v) as ->.
  { destruct t as [v'|]; [by rewrite (is_victim_unique _ _ _ _ _ Hspec Hv)|].
    destruct Hv as (? & ? & l' & ? & ? & _). exfalso. by apply (Hspec v l') in H. }
  assert (Hne : v <> cur) by apply Hv.
  assert (Hc1 := ctx_ok_acq _ _ _ (rq_lock v) Hc). set (k1 := k_acq (rq_lock v) i k) in *.
  assert (Hk1 : locks k1 !! ptable_lock = None) by (unfold k1; by rewrite locks_acq, decide_False).
  set (n := hd (PHead v) (PProc <$> l)). set (s1 := deq_state v p n s).
  assert (Hr1 := dequeue_rep _ _ _ _ _ Hr Hqv). fold n in Hr1. fold s1 in Hr1.
  assert (L1 : links_only s s1) by apply deq_links.
  assert (Hcur1 : <[v := l]> qs !! cur = Some lc) by (by rewrite list_lookup_insert_ne).
  assert (Hp1 : exists pp1, procs s1 !! p = Some pp1 /\ p_pid pp1 = p_pid pp).
  { destruct (links_only_proc _ _ _ _ L1 Hp) as (pp1 & ? & ?). exists pp1. auto using erase_pid. }
  destruct Hp1 as (pp1 & Hp1 & Hpp1).
  assert (Hdeq : dequeue v (set_pctx k1 s) = Ret (PProc p) (set_pctx k1 s1)).
  { rewrite (dequeue_run _ qs _ p l i (push_cpu (eflags_IF k) c) (rep_pctx k1 _ _ Hr) Hqv Hc1 Hk1).
    by rewrite deq_set_pctx. }
  set (s2 := enq_state cur (PProc p) (List.last (PProc <$> lc) (PHead cur)) s1).
  assert (Henq : forall k', enqueue cur (PProc p) (set_pctx k' s1) = Ret tt (set_pctx k' s2)).
  { intros k'. rewrite (enqueue_run _ _ cur lc p pp1 (rep_pctx k' _ _ Hr1) Hcur1 Hp1).
    - by rewrite enq_set_pctx.
    - exact (rep_length _ _ _ _ Hr1 Hcur1).
    - rewrite Hpp1. change (pids_of (set_pctx k' s1) lc) with (pids_of s1 lc).
      by rewrite (pids_of_links _ _ _ L1). }
  assert (Hin : (p_popped <- dequeue v ;; (if bool_decide (p_popped = PNull) then panic "test" else ret tt) ;;
     onctx (acquire ptable_lock) ;; enqueue cur p_popped ;; onctx (release ptable_lock)) (set_pctx k1 s)
     = Ret tt (set_pctx k1 s2)).
  { rewrite (bind_Ret _ _ _ _ _ Hdeq). rewrite bool_decide_eq_false_2 by done.
    unfold bind at 1. cbn [ret rbind].
    rewrite (bind_Ret _ _ _ _ _ (pacq s1 k1 i _ _ Hc1 Hk1)), (bind_Ret _ _ _ _ _ (Henq _)).
    by rewrite (prel s2 k1 i _ _ Hc1 Hk1). }
  assert (Hk2 : pctx s2 = k) by (unfold s2, s1; by rewrite enq_pctx, deq_pctx).
  assert (Hrun : work_steal cur s = Ret tt s2).
  { unfold work_steal. unfold gets at 1. unfold bind at 1. cbn [rbind].
    rewrite (bind_Ret _ _ _ _ _ Ht). destruct (Nat.eqb_spec v 0); [done|].
    rewrite bool_decide_eq_false_2 by done. rewrite <- (set_pctx_id s) at 1. fold k.
    rewrite (bind_Ret _ _ _ _ _ (pacq s k i c _ Hc Hl1)). fold k1.
    rewrite (bind_Ret _ _ _ _ _ (get_rqsize_rep _ _ _ _ (rep_pctx k1 _ _ Hr) Hqv)). cbn [length].
    destruct (Z.eqb_spec (Z.of_nat (S (length l))) 0); [lia|]. cbn [negb when].
    rewrite (bind_Ret _ _ _ _ _ Hin). unfold k1. rewrite (prel s2 k i _ _ Hc Hl1).
    by rewrite <- Hk2, set_pctx_id. }
  exists s2. split_and!; [done| |].
  - eapply links_only_trans; [exact L1|apply enq_links].
  - apply enqueue_rep; [done|done| |].
    + by eapply lookup_lt_Some.
    + rewrite (concat_insert _ _ _ l Hqv). assert (Hnd := rep_nodup _ _ Hr).
      rewrite (concat_split _ _ _ Hqv) in Hnd. cbn in Hnd. by apply NoDup_cons in Hnd as [? _].
Qed.

Lemma enqueue_dup_run s qs c l p pp :
  rqs_rep s qs -> qs !! c = Some l -> procs s !! p = Some pp -> (length l <= nproc s)%nat ->
  Some (p_pid pp) ∈ pids_of s l ->
  enqueue c (PProc p) s = Panic "enqueue: push same pid".
Proof.
  intros Hr Hl Hp Hlen Hpid. assert (Hc := rep_chain _ _ Hr _ _ Hl).
  assert (Hh : is_Some (node s (PHead c))) by (eapply rep_nx_some; eauto).
  destruct Hh as [h Hh]. unfold enqueue. assert (Hn := chain_first _ _ _ _ _ Hc).
  unfold nx in Hn. rewrite Hh in Hn. cbn in Hn. simplify_eq.
  rewrite (bind_Ret _ _ _ _ _ (pread_ok p_prev _ _ _ Hh)).
  rewrite (bind_Ret _ _ _ _ _ (pread_ok p_next _ _ _ Hh)), Hn.
  unfold gets at 1. unfold bind at 1. cbn [rbind].
  by erewrite bind_Panic by (by eapply enqueue_scan_dup).
Qed.

Lemma work_steal_none s qs cur :
  rqs_rep s qs -> (ncpu s <= length qs)%nat -> no_victim qs (ncpu s) cur -> work_steal cur s = Ret tt s.
Proof.
  intros Hr Hn Hv. destruct (seek_run s qs cur Hr Hn) as (t & Ht & Hspec).
  unfold work_steal. unfold gets at 1. unfold bind at 1. cbn [rbind]. rewrite (bind_Ret _ _ _ _ _ Ht).
  destruct t as [v|]; [|done]. destruct Hspec as (A & B & l & C & D & _). by destruct D; apply (Hv v).
Qed.

Lemma work_steal_cpu0 s qs cur :
  rqs_rep s qs -> (ncpu s <= length qs)%nat -> is_victim qs (ncpu s) cur 0 -> work_steal cur s = Ret tt s.
Proof.
  intros Hr Hn Hv. destruct (seek_run s qs cur Hr Hn) as (t & Ht & Hspec).
  unfold work_steal. unfold gets at 1. unfold bind at 1. cbn [rbind]. rewrite (bind_Ret _ _ _ _ _ Ht).
  destruct t as [v|]; [|done]. by rewrite (is_victim_unique _ _ _ _ _ Hspec Hv).
Qed.

Lemma rep_proc s qs c l p : rqs_rep s qs -> qs !! c = Some l -> p ∈ l -> is_Some (procs s !! p).
Proof. intros Hr Hl Hp. apply (rep_nx_some s qs c l (PProc p) Hr Hl). eauto. Qed.

(** Slots of different queues have different pids when all queued pids differ. *)
Lemma pids_disjoint s qs c d l k p pp :
  NoDup (pids_of s (concat qs)) -> qs !! c = Some l -> qs !! d = Some k -> c <> d ->
  p ∈ l -> procs s !! p = Some pp -> Some (p_pid pp) ∉ pids_of s k.
Proof.
  intros Hn Hl Hk Hne Hp Hpp Hin. unfold pids_of in Hn. rewrite (concat_split _ _ _ Hl), fmap_app in Hn.
  apply NoDup_app in Hn as (_ & Hd & _).
  apply (Hd (p_pid <$> procs s !! p)); [by apply list_elem_of_fmap; exists p|]. rewrite Hpp.
  unfold pids_of in Hin. apply list_elem_of_fmap in Hin as (x & Hx & Hxk). cbn. rewrite Hx.
  apply list_elem_of_fmap. exists x. split; [done|]. apply elem_of_concat. exists k. split; [|done].
  by eapply elem_of_delete_ne.
Qed.

Lemma rep_nil s : rqs_rep s [].
Proof. split; cbn; [lia|done|constructor|constructor|done]. Qed.

Lemma rep_bufsize n s qs : rqs_rep s qs -> rqs_rep (set_bufsize n s) qs.
Proof.
  intros [H1 H2 H3 H4 H5]. split; [done..|]. intros c l Hl. specialize (H5 c l Hl).
  revert H5. by apply chain_frame.
Qed.
End Rep.

(** ** The concrete machine *)

Definition demo_qs : list (list nat) := [[]; [1; 2]]%nat.

Lemma demo_rep : rqs_rep demo_state demo_qs.
Proof.
  split.
  - cbn. lia.
  - by intros [|[|c]] l [= <-].
  - by apply (bool_decide_unpack _).
  - cbn. repeat constructor; cbn; lia.
  - intros [|[|c]] l; cbn; intros [= <-]; by repeat split.
Qed.

Lemma demo_victim : is_victim demo_qs (ncpu demo_state) 0 1.
Proof.
  split_and!; [cbn; lia|done|]. exists [1; 2]%nat. split_and!; [done..|].
  intros [|[|i]] k Hi Hne; cbn; intros [= <-]; cbn; lia.
Qed.

(** ** What the queues promise *)

(** C19 (refinement).  On well-formed queues holding the lists [qs], [enqueue]
    appends a process that is in no queue to the end of its queue, touching
    nothing but links and that queue's size; when the queue already holds a
    process with the same pid it panics instead. *)
Theorem enqueue_refines {E} (s : pstate E) qs c l p pp :
  rqs_rep s qs -> qs !! c = Some l -> procs s !! p = Some pp -> p ∉ concat qs ->
  if decide (Some (p_pid pp) ∈ pids_of s l)
  then enqueue c (PProc p) s = Panic "enqueue: push same pid"
  else exists s', enqueue c (PProc p) s = Ret tt s' /\
         rqs_rep s' (<[c := l ++ [p]]> qs) /\ links_only s s'.
Proof.
  intros Hr Hl Hp Hnew. assert (Hlen := rep_length _ _ _ _ Hr Hl). case_decide as Hpid.
  - by eapply enqueue_dup_run.
  - eexists. split_and!; [by eapply enqueue_run| |apply enq_links].
    apply enqueue_rep; [done..| |done]. by eapply lookup_lt_Some.
Qed.

Lemma enqueue_refines_witness :
  exists s', enqueue 0 (PProc 3) demo_state = Ret tt s' /\
    rqs_rep s' [[3]; [1; 2]]%nat /\ links_only demo_state s'.
Proof.
  assert (H := enqueue_refines demo_state demo_qs 0 [] 3 (linked 4 RUNNABLE PNull PNull)
    demo_rep eq_refl eq_refl ltac:(by apply (bool_decide_unpack _))).
  exact H.
Defined.

(** [dequeue] removes and returns the process at the front of a
    non-empty queue, with [ptable.lock] taken and dropped on the way, and panics on
    an empty one. *)
Theorem dequeue_refines {E} (s : pstate E) qs c l i cp :
  rqs_rep s qs -> qs !! c = Some l ->
  ctx_ok (pctx s) i cp -> locks (pctx s) !! ptable_lock = None ->
  match l with
  | [] => dequeue c s = Panic "dequeue : empty runqueue"
  | p :: l' => exists s', dequeue c s = Ret (PProc p) s' /\
                 rqs_rep s' (<[c := l']> qs) /\ links_only s s'
  end.
Proof.
  intros Hr Hl Hc Hk. destruct l as [|p l]; [by eapply dequeue_empty|].
  eexists. split_and!; [by eapply dequeue_run|by apply dequeue_rep|apply deq_links].
Qed.

Lemma dequeue_refines_witness :
  exists s', dequeue 1 demo_state = Ret (PProc 1) s' /\
    rqs_rep s' [[]; [2]]%nat /\ links_only demo_state s'.
Proof.
  exact (dequeue_refines demo_state demo_qs 1 [1; 2]%nat 0 _ demo_rep eq_refl demo_ctx_ok eq_refl).
Defined.

(** C20 (functional).  [work_steal] on behalf of CPU [cur] looks at the other CPUs'
    queues.  If all are empty it does nothing.  Otherwise let [v] be the first of
    the longest ones: if [v] is CPU 0 it does nothing, else it moves the process at
    the front of [v]'s queue to the end of [cur]'s queue and releases every lock. *)
Theorem work_steal_refines {E} (s : pstate E) qs cur lc i c :
  rqs_rep s qs -> (ncpu s <= length qs)%nat -> qs !! cur = Some lc ->
  ctx_ok (pctx s) i c -> (forall v, v <> cur -> locks (pctx s) !! rq_lock v = None) ->
  locks (pctx s) !! ptable_lock = None -> NoDup (pids_of s (concat qs)) ->
  (no_victim qs (ncpu s) cur -> work_steal cur s = Ret tt s) /\
  (is_victim qs (ncpu s) cur 0 -> work_steal cur s = Ret tt s) /\
  (forall v p l, is_victim qs (ncpu s) cur v -> v <> 0%nat -> qs !! v = Some (p :: l) ->
     exists s', work_steal cur s = Ret tt s' /\ links_only s s' /\
       rqs_rep s' (<[cur := lc ++ [p]]> (<[v := l]> qs))).
Proof.
  intros Hr Hn Hcur Hc Hl Hk Hpids. split_and!.
  - intros Hv. eapply work_steal_none; eauto.
  - intros Hv. eapply work_steal_cpu0; eauto.
  - intros v p l Hv Hv0 Hqv. destruct (rep_proc _ _ _ _ p Hr Hqv ltac:(set_solver)) as [pp Hpp].
    eapply work_steal_moves; eauto; [|by apply Hl; apply Hv].
    apply (pids_disjoint s qs v cur (p :: l) lc p); [done..|by apply Hv|set_solver|done].
Qed.

Lemma work_steal_refines_witness :
  exists s', work_steal 0 demo_state = Ret tt s' /\ links_only demo_state s' /\
    rqs_rep s' [[1]; [2]]%nat.
Proof.
  destruct (work_steal_refines demo_state demo_qs 0 [] 0 _ demo_rep (Nat.le_refl 2) eq_refl demo_ctx_ok
    (fun v _ => eq_refl) eq_refl ltac:(by apply (bool_decide_unpack _))) as (_ & _ & H).
  apply (H 1 1 [2])%nat; [exact demo_victim|done|done].
Defined.

(** [runqueueinit] leaves one empty, well-formed queue per CPU, the
    event count at 0, every lock free again and the process table untouched. *)
Theorem runqueueinit_empty {E} (s : pstate E) i c :
  ctx_ok (pctx s) i c -> locks (pctx s) = ∅ ->
  (ncpu s <= length (heads s))%nat -> (ncpu s <= length (rqsize s))%nat ->
  exists s', runqueueinit s = Ret tt s' /\ rqs_rep s' (replicate (ncpu s) []) /\
    bufsize s' = 0 /\ pctx s' = pctx s /\ procs s' = procs s.
Proof.
  intros Hc Hl Hh Hs.
  destruct (runqueueinit_loop s i c 0 (ncpu s)) as (s' & E1 & E2 & E3 & E4);
    try done; try (intros; by rewrite Hl); [by apply rep_nil|].
  exists (set_bufsize 0 s'). unfold runqueueinit. unfold gets at 1. unfold bind at 1. cbn [rbind].
  rewrite (bind_Ret _ _ _ _ _ E1). unfold bind at 1. unfold modify at 1. cbn [rbind].
  assert (Hi : initlock bufsize_lock (pctx s') = Ret tt (pctx s')).
  { unfold initlock, modify, lk_set. cbn. f_equal. rewrite E3, Hl, delete_empty, <- Hl. by destruct (pctx s). }
  split_and!; [|by apply rep_bufsize|done|done|done].
  rewrite (@onctx_same _ pstate_ctx _ (initlock bufsize_lock) (set_bufsize 0 s') tt Hi). done.
Qed.

Lemma runqueueinit_empty_witness :
  exists s', runqueueinit demo_state = Ret tt s' /\ rqs_rep s' [[]; []] /\
    bufsize s' = 0 /\ pctx s' = demo_ctx /\ procs s' = demo_procs.
Proof.
  exact (runqueueinit_empty demo_state 0 _ demo_ctx_ok eq_refl (Nat.le_refl 2) (Nat.le_refl 2)).
Defined.
