(* ===== verification/Memory.v ===== *)
(** * Physical memory

    Bytes by 32-bit kernel address, as the page allocator and the page tables use
    them.  A range written by [memset] or [memmove] is described as a whole; that the
    loops of [string.c] write exactly these ranges is shown in [Strings.v]. *)

From Stdlib Require Import ZArith Lia.
From S2P Require Import Prelude.

Definition memory : Type := Z -> Z.

Definition in_range (a n x : Z) : bool := (a <=? x) && (x <? a + n).

(** [memset(a, c, n)] *)
Definition fill (a n c : Z) (m : memory) : memory := fun x => if in_range a n x then c else m x.
(** [memmove(d, s, n)] *)
Definition blit (d s n : Z) (m : memory) : memory := fun x => if in_range d n x then m (s + (x - d)) else m x.
(** A buffer from outside memory copied to [a]. *)
Definition blit_list (a : Z) (l : list Z) (m : memory) : memory :=
  fun x => if in_range a (Z.of_nat (length l)) x then nth (Z.to_nat (x - a)) l 0 else m x.

(** A 32-bit word, the low byte first. *)
Definition load32 (m : memory) (a : Z) : Z :=
  m a + 0x100 * m (a + 1) + 0x10000 * m (a + 2) + 0x1000000 * m (a + 3).
Definition word_bytes (w : Z) : list Z :=
  [w mod 256; (w / 0x100) mod 256; (w / 0x10000) mod 256; (w / 0x1000000) mod 256].
Definition store32 (a w : Z) (m : memory) : memory := blit_list a (word_bytes w) m.

(** The byte range as a list. *)
Definition bytes_at (m : memory) (a : Z) (n : nat) : list Z := (fun i => m (a + Z.of_nat i)) <$> seq 0 n.

Ltac ranges := unfold in_range in *; repeat match goal with
  | |- context [?a <=? ?b] => destruct (Z.leb_spec a b)
  | |- context [?a <? ?b] => destruct (Z.ltb_spec a b)
  end; cbn [andb] in *.

Lemma in_range_out a n x : x < a \/ a + n <= x -> in_range a n x = false.
Proof. intros. ranges; (done || lia). Qed.

Lemma in_range_in a n x : a <= x < a + n -> in_range a n x = true.
Proof. intros. ranges; (done || lia). Qed.

Lemma load32_agree m m' a :
  (forall x, a <= x < a + 4 -> m x = m' x) -> load32 m a = load32 m' a.
Proof. intros H. unfold load32. by rewrite !H by lia. Qed.

Lemma store32_out a w m x : x < a \/ a + 4 <= x -> store32 a w m x = m x.
Proof. intros H. unfold store32, blit_list. by rewrite in_range_out. Qed.

Lemma fill_out a n c m x : x < a \/ a + n <= x -> fill a n c m x = m x.
Proof. intros H. unfold fill. by rewrite in_range_out. Qed.

Lemma fill_in a n c m x : a <= x < a + n -> fill a n c m x = c.
Proof. intros H. unfold fill. by rewrite in_range_in. Qed.

Lemma blit_out d s n m x : x < d \/ d + n <= x -> blit d s n m x = m x.
Proof. intros H. unfold blit. by rewrite in_range_out. Qed.

Lemma blit_in d s n m x : d <= x < d + n -> blit d s n m x = m (s + (x - d)).
Proof. intros H. unfold blit. by rewrite in_range_in. Qed.

Lemma load32_store32 m a w : is_u32 w -> load32 (store32 a w m) a = w.
Proof.
  intros H. unfold load32, store32, blit_list. change (Z.of_nat (length (word_bytes w))) with 4.
  rewrite !in_range_in by lia.
  replace (Z.to_nat (a - a)) with 0%nat by lia. replace (Z.to_nat (a + 1 - a)) with 1%nat by lia.
  replace (Z.to_nat (a + 2 - a)) with 2%nat by lia. replace (Z.to_nat (a + 3 - a)) with 3%nat by lia.
  cbn [nth word_bytes]. unfold is_u32 in H. change (2 ^ 32) with 4294967296 in H.
  Z.div_mod_to_equations. lia.
Qed.

Lemma load32_store32_ne m a b w : a + 4 <= b \/ b + 4 <= a -> load32 (store32 a w m) b = load32 m b.
Proof. intros H. apply load32_agree. intros. apply store32_out. lia. Qed.

Lemma load32_fill_ne m a n c b : b + 4 <= a \/ a + n <= b -> load32 (fill a n c m) b = load32 m b.
Proof. intros H. apply load32_agree. intros. apply fill_out. lia. Qed.

Lemma load32_fill m a n c b : a <= b -> b + 4 <= a + n -> load32 (fill a n c m) b = c * 0x1010101.
Proof. intros H1 H2. unfold load32. rewrite !fill_in by lia. lia. Qed.

Lemma load32_bytes m a : (forall x, is_byte (m x)) -> is_u32 (load32 m a).
Proof.
  intros H. unfold is_u32, load32. pose proof (H a). pose proof (H (a + 1)). pose proof (H (a + 2)).
  pose proof (H (a + 3)). unfold is_byte in *. lia.
Qed.
