(* ===== verification/Kalloc.v ===== *)
(** * The page allocator

    Models [kalloc.c]: the free list runs through the first word of each free page.
    Its abstract value is the list of free pages; [kfree] pushes and [kalloc] pops. *)

From Stdlib Require Import ZArith Lia.
From S2P Require Import Prelude Spinlock Memory.

Definition PGSIZE : Z := 4096.
Definition PHYSTOP : Z := 0xE000000.
Definition V2P (a : Z) : Z := u32 (a - KERNBASE).
Definition P2V (a : Z) : Z := u32 (a + KERNBASE).
Definition PGROUNDUP (sz : Z) : Z := Z.land (u32 (sz + PGSIZE - 1)) (u32 (Z.lnot (PGSIZE - 1))).
Definition PGROUNDDOWN (a : Z) : Z := Z.land a (u32 (Z.lnot (PGSIZE - 1))).

(** [kmem] and the memory it manages. *)
Record kst := mkkst { kst_ctx : kctx; ram : memory; use_lock : Z; freelist : Z }.

Definition set_kst_ctx (k : kctx) (s : kst) : kst := mkkst k (ram s) (use_lock s) (freelist s).
Definition set_ram (m : memory) (s : kst) : kst := mkkst (kst_ctx s) m (use_lock s) (freelist s).
Definition set_use_lock (b : Z) (s : kst) : kst := mkkst (kst_ctx s) (ram s) b (freelist s).
Definition set_freelist (p : Z) (s : kst) : kst := mkkst (kst_ctx s) (ram s) (use_lock s) p.

#[export] Instance kst_hasctx : HasCtx kst.
Proof. refine {| ctx := kst_ctx; set_ctx := set_kst_ctx |}; try done. by intros []. Defined.

Definition kmem_lk : lockid := ("kmem"%string, 0).

Section Kalloc.
(** The linker symbol [end]. *)
Context (end_ : Z).

Definition kfree (v : Z) : M kst unit :=
  if negb (v mod PGSIZE =? 0) || (v <? end_) || (PHYSTOP <=? V2P v) then panic "kfree" else
  modify (fun s => set_ram (fill v PGSIZE 1 (ram s)) s) ;;
  l <- gets use_lock ;;
  when (negb (l =? 0)) (onctx (acquire kmem_lk)) ;;
  modify (fun s => set_ram (store32 v (freelist s) (ram s)) s) ;;
  modify (set_freelist v) ;;
  l <- gets use_lock ;;
  when (negb (l =? 0)) (onctx (release kmem_lk)).

Definition kalloc : M kst Z :=
  l <- gets use_lock ;;
  when (negb (l =? 0)) (onctx (acquire kmem_lk)) ;;
  r <- gets freelist ;;
  when (negb (r =? 0)) (modify (fun s => set_freelist (load32 (ram s) r) s)) ;;
  l <- gets use_lock ;;
  when (negb (l =? 0)) (onctx (release kmem_lk)) ;;
  ret r.

(** [for(; p + PGSIZE <= vend; p += PGSIZE)], one unit of fuel per page *)
Fixpoint free_pages (fuel : nat) (p vend : Z) : M kst unit :=
  match fuel with
  | O => nofuel
  | S fuel =>
      if u32 (p + PGSIZE) <=? vend then kfree p ;; free_pages fuel (u32 (p + PGSIZE)) vend else ret tt
  end.

Definition freerange (vstart vend : Z) : M kst unit :=
  free_pages (S (Z.to_nat (vend / PGSIZE))) (PGROUNDUP vstart) vend.

Definition kinit1 (vstart vend : Z) : M kst unit :=
  onctx (initlock kmem_lk) ;;
  modify (set_use_lock 0) ;;
  freerange vstart vend.

Definition kinit2 (vstart vend : Z) : M kst unit :=
  freerange vstart vend ;;
  modify (set_use_lock 1).

(** ** Refinement *)

Definition page_ok (v : Z) : Prop := v mod PGSIZE = 0 /\ end_ <= v /\ V2P v < PHYSTOP /\ is_u32 v.

(** The list the pointers form from [p] on. *)
Fixpoint flist (m : memory) (p : Z) (l : list Z) : Prop :=
  match l with
  | [] => p = 0
  | q :: l => p = q /\ flist m (load32 m q) l
  end.

(** The free pages, the next to be handed out first. *)
Record kmem_rep (s : kst) (l : list Z) : Prop := {
  kr_list : flist (ram s) (freelist s) l;
  kr_pages : Forall page_ok l;
  kr_nodup : NoDup l
}.

Definition k_idle (s : kst) (i : nat) (c : cpu) : Prop :=
  use_lock s = 0 \/ (ctx_ok (ctx s) i c /\ locks (ctx s) !! kmem_lk = None).

Lemma kfree_run s i c v :
  page_ok v -> k_idle s i c ->
  kfree v s = Ret tt (set_freelist v (set_ram (store32 v (freelist s) (fill v PGSIZE 1 (ram s))) s)).
Proof.
  intros (Hm & He & Hp & _) Hi. unfold kfree. rewrite Hm, (proj2 (Z.ltb_ge _ _)), (proj2 (Z.leb_gt _ _)) by lia.
  cbn [negb orb Z.eqb]. run. destruct s as [k m b f]. unfold k_idle in Hi. cbn in Hi.
  destruct Hi as [->|[Hc Hl]]; [done|]. cbn. destruct (Z.eqb_spec b 0) as [->|Hb]; cbn; [done|].
  rewrite (acq_step (mkkst k (fill v PGSIZE 1 m) b f) i c kmem_lk) by done. cbn.
  apply Z.eqb_neq in Hb. rewrite Hb. cbv [set_freelist set_ram set_kst_ctx negb ram freelist use_lock kst_ctx].
  by rewrite (rel_step (mkkst (k_acq kmem_lk i k) (store32 v f (fill v PGSIZE 1 m)) b v) k i c kmem_lk).
Qed.

Lemma kfree_bad s v : ~ (v mod PGSIZE = 0 /\ end_ <= v /\ V2P v < PHYSTOP) -> kfree v s = Panic "kfree".
Proof.
  intros H. unfold kfree. destruct (Z.eqb_spec (v mod PGSIZE) 0), (Z.ltb_spec v end_), (Z.leb_spec PHYSTOP (V2P v));
    cbn; try done. by destruct H.
Qed.

Lemma kalloc_run s i c :
  k_idle s i c ->
  kalloc s = Ret (freelist s) (if freelist s =? 0 then s else set_freelist (load32 (ram s) (freelist s)) s).
Proof.
  intros Hi. unfold kalloc. run. destruct s as [k m b f]. unfold k_idle in Hi. cbn in Hi.
  destruct Hi as [->|[Hc Hl]]; [cbn; by destruct (f =? 0)|]. cbn. destruct (Z.eqb_spec b 0) as [->|Hb]; cbn; [by destruct (f =? 0)|].
  rewrite (acq_step (mkkst k m b f) i c kmem_lk) by done. cbn.
  apply Z.eqb_neq in Hb. destruct (f =? 0); cbn; rewrite Hb; cbv [set_freelist set_ram set_kst_ctx negb ram freelist use_lock kst_ctx].
  - by rewrite (rel_step (mkkst (k_acq kmem_lk i k) m b f) k i c kmem_lk).
  - by rewrite (rel_step (mkkst (k_acq kmem_lk i k) m b (load32 m f)) k i c kmem_lk).
Qed.

Lemma pages_apart v w : v mod PGSIZE = 0 -> w mod PGSIZE = 0 -> v <> w -> v + PGSIZE <= w \/ w + PGSIZE <= v.
Proof. unfold PGSIZE. intros. Z.div_mod_to_equations. lia. Qed.

Lemma flist_frame m m' p l :
  (forall q, q ∈ l -> load32 m' q = load32 m q) -> flist m p l -> flist m' p l.
Proof.
  revert p. induction l as [|q l IH]; cbn; [done|]. intros p H [-> Hl]. split; [done|].
  rewrite H by set_solver. apply IH; [set_solver|done].
Qed.

Lemma kfree_rep s l v :
  kmem_rep s l -> page_ok v -> v ∉ l -> is_u32 (freelist s) ->
  kmem_rep (set_freelist v (set_ram (store32 v (freelist s) (fill v PGSIZE 1 (ram s))) s)) (v :: l).
Proof.
  intros [Hl Hp Hn] Hv Hnv Hf. split; cbn.
  - split; [done|]. rewrite load32_store32 by done. eapply flist_frame; [|done]. intros q Hq.
    assert (Hpq := Forall_at _ _ _ Hp Hq). destruct Hv as (Hv & _), Hpq as (Hpq & _).
    assert (Hne : v <> q) by (by intros ->). assert (Ha := pages_apart v q Hv Hpq Hne). unfold PGSIZE in *.
    rewrite load32_store32_ne, load32_fill_ne by lia. done.
  - by constructor.
  - by constructor.
Qed.

(** The list head is a page, or null. *)
Lemma kmem_head_u32 s l : kmem_rep s l -> is_u32 (freelist s).
Proof.
  intros [Hl Hp _]. destruct l as [|q l]; cbn in Hl; [rewrite Hl; by unfold is_u32|]. destruct Hl as [-> _].
  by apply Forall_cons in Hp as [(_ & _ & _ & H) _].
Qed.

(** *** [PGROUNDUP] *)

Lemma page_mask x : is_u32 x -> Z.land x (u32 (Z.lnot (PGSIZE - 1))) = x / PGSIZE * PGSIZE.
Proof.
  intros H. change (u32 (Z.lnot (PGSIZE - 1))) with (Z.ldiff (Z.ones 32) (Z.ones 12)).
  replace (Z.land x (Z.ldiff (Z.ones 32) (Z.ones 12))) with (Z.ldiff (Z.land x (Z.ones 32)) (Z.ones 12)).
  - rewrite Z.land_ones, Z.mod_small, Z.ldiff_ones_r by (unfold is_u32 in H; lia).
    by rewrite Z.shiftl_mul_pow2, Z.shiftr_div_pow2 by lia.
  - apply Z.bits_inj'. intros n _. rewrite !Z.ldiff_spec, !Z.land_spec, !Z.ldiff_spec. by rewrite andb_assoc.
Qed.

Lemma PGROUNDUP_spec x : 0 <= x -> x + PGSIZE <= 2 ^ 32 -> PGROUNDUP x = (x + PGSIZE - 1) / PGSIZE * PGSIZE.
Proof.
  intros H0 H. unfold PGROUNDUP. assert (Hu : is_u32 (x + PGSIZE - 1)) by (unfold is_u32, PGSIZE in *; lia).
  rewrite u32_small, page_mask by done. done.
Qed.

Lemma PGROUNDDOWN_spec x : is_u32 x -> PGROUNDDOWN x = x / PGSIZE * PGSIZE.
Proof. apply page_mask. Qed.

(** *** [freerange] *)

(** The [n] pages from [p] on. *)
Definition pages (p : Z) (n : nat) : list Z := (fun i => p + Z.of_nat i * PGSIZE) <$> seq 0 n.

Lemma pages_S p n : pages p (S n) = p :: pages (p + PGSIZE) n.
Proof.
  unfold pages. cbn. f_equal; [lia|]. rewrite <- fmap_S_seq, <- list_fmap_compose.
  apply list_fmap_ext. intros. cbn. unfold PGSIZE. lia.
Qed.

Lemma elem_of_pages p n x : x ∈ pages p n <-> exists i, 0 <= i < Z.of_nat n /\ x = p + i * PGSIZE.
Proof.
  unfold pages, PGSIZE. rewrite list_elem_of_fmap. split.
  - intros (i & -> & Hi%elem_of_seq). exists (Z.of_nat i). lia.
  - intros (i & Hi & ->). exists (Z.to_nat i). split; [lia|]. apply elem_of_seq. lia.
Qed.

Lemma page_ok_between p :
  KERNBASE <= end_ -> end_ <= p -> p mod PGSIZE = 0 -> p + PGSIZE <= KERNBASE + PHYSTOP -> page_ok p.
Proof.
  unfold page_ok, V2P, KERNBASE, PGSIZE, PHYSTOP, is_u32. intros. rewrite u32_small by (unfold is_u32; lia). lia.
Qed.

Lemma page_ok_bounds p : KERNBASE <= end_ -> page_ok p -> end_ <= p /\ p + PGSIZE <= KERNBASE + PHYSTOP.
Proof.
  unfold page_ok, V2P, KERNBASE, PGSIZE, PHYSTOP, is_u32. intros H (Hm & He & Hv & Hu).
  rewrite u32_small in Hv by (unfold is_u32; lia). split; [lia|]. Z.div_mod_to_equations. lia.
Qed.

Lemma free_pages_run vend i c : KERNBASE <= end_ -> vend <= KERNBASE + PHYSTOP ->
  forall fuel s l p n, k_idle s i c -> kmem_rep s l -> end_ <= p -> p mod PGSIZE = 0 ->
    n = Z.to_nat ((vend - p) / PGSIZE) -> (n < fuel)%nat -> p <= KERNBASE + PHYSTOP ->
    (forall x, x ∈ pages p n -> x ∉ l) ->
    exists s', free_pages fuel p vend s = Ret tt s' /\ kmem_rep s' (reverse (pages p n) ++ l) /\
      ctx s' = ctx s /\ use_lock s' = use_lock s.
Proof.
  intros He Hve. induction fuel as [|fuel IH]; intros s l p n Hi Hr Hp Hm Hn Hf Htop Hnew; [lia|]. cbn.
  assert (Hu : u32 (p + PGSIZE) = p + PGSIZE)
    by (apply u32_small; unfold is_u32, KERNBASE, PHYSTOP, PGSIZE in *; lia).
  rewrite Hu. destruct (Z.leb_spec (p + PGSIZE) vend) as [Hle|Hgt].
  - assert (exists n', n = S n' /\ n' = Z.to_nat ((vend - (p + PGSIZE)) / PGSIZE)) as (n' & -> & Hn').
    { exists (Z.to_nat ((vend - (p + PGSIZE)) / PGSIZE)). split; [|done]. subst n.
      replace (vend - p) with ((vend - (p + PGSIZE)) + 1 * PGSIZE) by (unfold PGSIZE; lia).
      rewrite Z.div_add by (unfold PGSIZE; lia).
      assert (0 <= (vend - (p + PGSIZE)) / PGSIZE) by (apply Z.div_pos; unfold PGSIZE in *; lia). lia. }
    rewrite pages_S in Hnew. assert (Hok : page_ok p) by (apply page_ok_between; done || lia).
    rewrite (bind_Ret _ _ _ _ _ (kfree_run s i c p Hok Hi)).
    assert (Hr1 := kfree_rep s l p Hr Hok (Hnew p (list_elem_of_here _ _)) (kmem_head_u32 _ _ Hr)).
    edestruct (fun H => IH _ (p :: l) (p + PGSIZE) n' H Hr1) as (s' & Hrun & Hr' & Hc & Hul).
    + exact Hi.
    + unfold PGSIZE. lia.
    + replace (p + PGSIZE) with (p + 1 * PGSIZE) by lia. by rewrite Z_mod_plus_full.
    + done.
    + lia.
    + lia.
    + intros x Hx. rewrite not_elem_of_cons. split; [|set_solver].
      apply elem_of_pages in Hx as (j & Hj & ->). unfold PGSIZE. lia.
    + exists s'. split_and!; [done| |done|done]. rewrite pages_S, reverse_cons. by rewrite <- app_assoc.
  - assert (n = 0%nat) as ->.
    { rewrite Hn. assert ((vend - p) / PGSIZE < 1) by (apply Z.div_lt_upper_bound; unfold PGSIZE in *; lia). lia. }
    exists s. by split_and!.
Qed.

Lemma freerange_run s l i c vstart vend n :
  KERNBASE <= end_ -> end_ <= vstart -> vstart <= vend -> vend <= KERNBASE + PHYSTOP ->
  k_idle s i c -> kmem_rep s l ->
  n = Z.to_nat ((vend - PGROUNDUP vstart) / PGSIZE) ->
  (forall x, x ∈ pages (PGROUNDUP vstart) n -> x ∉ l) ->
  exists s', freerange vstart vend s = Ret tt s' /\ kmem_rep s' (reverse (pages (PGROUNDUP vstart) n) ++ l) /\
    ctx s' = ctx s /\ use_lock s' = use_lock s.
Proof.
  intros He Hs Hse Hve Hi Hr Hn Hnew. unfold freerange.
  assert (Hup : PGROUNDUP vstart = (vstart + PGSIZE - 1) / PGSIZE * PGSIZE)
    by (apply PGROUNDUP_spec; unfold KERNBASE, PHYSTOP, PGSIZE in *; lia).
  assert (Hlo : vstart <= PGROUNDUP vstart <= KERNBASE + PHYSTOP).
  { rewrite Hup. unfold KERNBASE, PHYSTOP, PGSIZE in *. Z.div_mod_to_equations. lia. }
  assert (Hn2 : (vend - PGROUNDUP vstart) / PGSIZE <= vend / PGSIZE)
    by (apply Z.div_le_mono; unfold PGSIZE, KERNBASE in *; lia).
  eapply free_pages_run; [done..|lia| |done| |lia|done].
  - rewrite Hup. apply Z_mod_mult.
  - lia.
Qed.

Lemma elem_of_pages_between p q x :
  p mod PGSIZE = 0 -> x ∈ pages p (Z.to_nat ((q - p) / PGSIZE)) <-> x mod PGSIZE = 0 /\ p <= x /\ x + PGSIZE <= q.
Proof.
  intros Hp. rewrite elem_of_pages. unfold PGSIZE in *. split.
  - intros (i & Hi & ->). rewrite Z2Nat.id in Hi by lia. Z.div_mod_to_equations. lia.
  - intros (Hx & H1 & H2). exists ((x - p) / 4096). split.
    + rewrite Z2Nat.id by (apply Z.div_pos; lia). split; [apply Z.div_pos; lia|].
      apply Z.div_lt_upper_bound; [lia|]. Z.div_mod_to_equations. lia.
    + Z.div_mod_to_equations. lia.
Qed.

(** What [main] does: [kinit1(end, P2V(4*1024*1024))], later
    [kinit2(P2V(4*1024*1024), P2V(PHYSTOP))]. *)
Definition kinit : M kst unit :=
  kinit1 end_ (P2V 0x400000) ;;
  kinit2 (P2V 0x400000) (P2V PHYSTOP).

Lemma kinit_run s :
  KERNBASE < end_ -> end_ <= KERNBASE + 0x400000 -> freelist s = 0 ->
  exists s' l, kinit s = Ret tt s' /\ use_lock s' = 1 /\ kmem_rep s' l /\ forall p, p ∈ l <-> page_ok p.
Proof.
  intros He H4 Hf.
  unfold kinit. change (P2V PHYSTOP) with (KERNBASE + PHYSTOP).
  change (P2V 0x400000) with (KERNBASE + 0x400000).
  set (s0 := set_use_lock 0 (set_ctx (lk_set kmem_lk zero_lock (ctx s)) s)).
  assert (Hi0 : k_idle s0 0 (mkcpu 0 0 0 false None)) by (by left).
  assert (Hr0 : kmem_rep s0 []) by (by split; [exact Hf|constructor|constructor]).
  assert (Hal : PGROUNDUP end_ mod PGSIZE = 0).
  { rewrite PGROUNDUP_spec; [apply Z_mod_mult|unfold KERNBASE in *; lia|unfold KERNBASE, PGSIZE in *; lia]. }
  assert (Hup : forall x, x mod PGSIZE = 0 -> end_ <= x <-> PGROUNDUP end_ <= x).
  { intros x Hx. rewrite PGROUNDUP_spec by (unfold KERNBASE, PGSIZE in *; lia). unfold PGSIZE in *.
    Z.div_mod_to_equations. lia. }
  edestruct (freerange_run s0 [] 0 (mkcpu 0 0 0 false None) end_ (KERNBASE + 0x400000)) as (s1 & H1 & Hr1 & _ & Hu1);
    [lia|lia|done|unfold PHYSTOP; lia|done..|by intros x _ []%not_elem_of_nil|].
  destruct (fun h1 h2 h3 h4 h5 => freerange_run s1 _ 0 (mkcpu 0 0 0 false None) (KERNBASE + 0x400000)
    (KERNBASE + PHYSTOP) _ h1 h2 h3 h4 h5 Hr1 eq_refl)
    as (s2 & H2 & Hr2 & _ & Hu2); [lia|lia|unfold PHYSTOP; lia|done|left; by rewrite Hu1| |].
  { intros x Hx. rewrite app_nil_r, elem_of_reverse, elem_of_pages_between by done.
    apply elem_of_pages_between in Hx; [|done]. change (PGROUNDUP (KERNBASE + 0x400000)) with (KERNBASE + 0x400000) in Hx.
    unfold PGSIZE in *. lia. }
  exists (set_use_lock 1 s2). eexists. split_and!; [|done|by destruct Hr2; split|].
  - rewrite (bind_Ret (kinit1 end_ _) _ s tt s1 H1). unfold kinit2. by rewrite (bind_Ret _ _ _ _ _ H2).
  - intros x. rewrite app_nil_r, elem_of_app, !elem_of_reverse, !elem_of_pages_between by done.
    change (PGROUNDUP (KERNBASE + 0x400000)) with (KERNBASE + 0x400000). split.
    + intros [(Hm & Ha & Hb)|(Hm & Ha & Hb)]; [|apply (Hup x Hm) in Ha]; apply page_ok_between; unfold PHYSTOP in *; done || lia.
    + intros Hok. destruct (page_ok_bounds x) as [Ha Hb]; [lia|done|]. destruct Hok as (Hm & _).
      apply Hup in Ha as Ha'; [|done]. destruct (Z.le_gt_cases (KERNBASE + 0x400000) x); [left|right]; split_and!; try done.
      unfold KERNBASE, PGSIZE in *. Z.div_mod_to_equations. lia.
Qed.

(** C24 (refinement).  The allocator refines a stack of distinct pages.  [kalloc] hands
    out the top page, which is then no longer free, or returns 0 when there is none;
    [kfree] of a page that is not free pushes it and writes to that page only; [kfree]
    of anything that is not a page of the managed range panics. *)
Theorem kmem_refines s l i c :
  0 < end_ -> kmem_rep s l -> k_idle s i c ->
  (l = [] -> kalloc s = Ret 0 s) /\
  (forall q l', l = q :: l' -> exists s', kalloc s = Ret q s' /\ kmem_rep s' l' /\ q <> 0 /\ q ∉ l' /\ ram s' = ram s) /\
  (forall v, page_ok v -> v ∉ l -> exists s', kfree v s = Ret tt s' /\ kmem_rep s' (v :: l) /\
     forall x, x < v \/ v + PGSIZE <= x -> ram s' x = ram s x) /\
  (forall v, ~ (v mod PGSIZE = 0 /\ end_ <= v /\ V2P v < PHYSTOP) -> kfree v s = Panic "kfree").
Proof.
  intros He Hr Hi. split_and!.
  - intros ->. rewrite (kalloc_run s i c Hi). destruct Hr as [Hl _ _]. cbn in Hl. by rewrite Hl.
  - intros q l' ->. rewrite (kalloc_run s i c Hi). destruct Hr as [[Hq Hl] Hp Hn]. rewrite Hq.
    apply Forall_cons in Hp as [(_ & Hq0 & _) Hp]. apply NoDup_cons in Hn as [Hnq Hn].
    rewrite (proj2 (Z.eqb_neq q 0)) by lia. eexists. by split_and!; [done|split|lia| |].
  - intros v Hv Hnv. eexists. split_and!; [by apply (kfree_run s i c)| |].
    + apply kfree_rep; [done..|]. by eapply kmem_head_u32.
    + intros x Hx. cbn. unfold PGSIZE in *. rewrite store32_out, fill_out by lia. done.
  - intros v Hv. by apply kfree_bad.
Qed.

(** After [kinit1] and [kinit2] as [main] calls them, the free list
    holds every page between the end of the kernel and [PHYSTOP], each once, and the
    allocator takes its lock from then on. *)
Theorem kinit_owns_all s :
  KERNBASE < end_ -> end_ <= KERNBASE + 0x400000 -> freelist s = 0 ->
  exists s' l, kinit s = Ret tt s' /\ use_lock s' = 1 /\ kmem_rep s' l /\
    forall p, p ∈ l <-> page_ok p.
Proof. apply kinit_run. Qed.
End Kalloc.

Lemma kmem_refines_witness :
  let c := mkcpu 0 1 0 true None in
  let s := mkkst (mkctx 0 true [c] ∅ []) (fun _ => 0) 1 0x80200000 in
  exists s', kalloc s = Ret 0x80200000 s' /\ kmem_rep 0x80108000 s' [].
Proof.
  intros c s. destruct (kmem_refines 0x80108000 s [0x80200000] 0 c) as (_ & H & _).
  - lia.
  - split; [by cbn| |apply NoDup_singleton]. apply Forall_singleton. unfold page_ok, is_u32. vm_compute. repeat split; discriminate.
  - right. split; [|done]. repeat split; cbn; intros; lia || done.
  - destruct (H _ _ eq_refl) as (s' & H1 & H2 & _). exact (ex_intro _ s' (conj H1 H2)).
Defined.

Lemma kinit_owns_all_witness :
  exists s' l, kinit 0x80108000 (mkkst (mkctx 0 false [] ∅ []) (fun _ => 0) 0 0) = Ret tt s' /\ use_lock s' = 1 /\
    kmem_rep 0x80108000 s' l /\ forall p, p ∈ l <-> page_ok 0x80108000 p.
Proof. apply (kinit_owns_all 0x80108000 (mkkst (mkctx 0 false [] ∅ []) (fun _ => 0) 0 0)); unfold KERNBASE; cbn; lia. Defined.
