(* ===== verification/Vm.v ===== *)
(** * Page tables

    Models [vm.c] on the memory of [Kalloc.v]: page directories and page tables are
    pages of 1024 words.  [loaduvm] and [switchuvm] are in [Exec.v], [seginit], [kvmalloc] and
    [switchkvm] in [Segment.v]. *)

From Stdlib Require Import ZArith Lia.
From S2P Require Import Prelude Spinlock Memory Kalloc.

(** ** [mmu.h], [memlayout.h] *)

Definition EXTMEM : Z := 0x100000.
Definition DEVSPACE : Z := 0xFE000000.
Definition KERNLINK : Z := KERNBASE + EXTMEM.

Definition PTE_P : Z := 1.
Definition PTE_W : Z := 2.
Definition PTE_U : Z := 4.
Definition PDX (va : Z) : Z := Z.land (Z.shiftr va 22) 0x3FF.
Definition PTX (va : Z) : Z := Z.land (Z.shiftr va 12) 0x3FF.
Definition PGADDR (d t o : Z) : Z := Z.lor (Z.lor (u32 (Z.shiftl d 22)) (u32 (Z.shiftl t 12))) o.
Definition PTE_ADDR (pte : Z) : Z := Z.land pte (u32 (Z.lnot 0xFFF)).
Definition PTE_FLAGS (pte : Z) : Z := Z.land pte 0xFFF.
Definition present (pte : Z) : bool := negb (Z.land pte PTE_P =? 0).

Definition rd (a : Z) : M kst Z := gets (fun s => load32 (ram s) a).
Definition wr (a w : Z) : M kst unit := modify (fun s => set_ram (store32 a w (ram s)) s).
Definition memset0 (p : Z) : M kst unit := modify (fun s => set_ram (fill p PGSIZE 0 (ram s)) s).

Section Vm.
(** The linker symbols [end] and [data]. *)
Context (end_ data_ : Z).

(** The address of the entry, or 0. *)
Definition walkpgdir (pgdir va : Z) (alloc : bool) : M kst Z :=
  let pde := pgdir + 4 * PDX va in
  e <- rd pde ;;
  if present e then ret (P2V (PTE_ADDR e) + 4 * PTX va) else
  if negb alloc then ret 0 else
  pgtab <- kalloc ;;
  if pgtab =? 0 then ret 0 else
  memset0 pgtab ;;
  wr pde (Z.lor (Z.lor (Z.lor (V2P pgtab) PTE_P) PTE_W) PTE_U) ;;
  ret (pgtab + 4 * PTX va).

(** The [for(;;)] of [mappages], one unit of fuel per page. *)
Fixpoint map_loop (fuel : nat) (pgdir a last pa perm : Z) : M kst Z :=
  match fuel with
  | O => nofuel
  | S fuel =>
      pte <- walkpgdir pgdir a true ;;
      if pte =? 0 then ret (-1) else
      e <- rd pte ;;
      if present e then panic "remap" else
      wr pte (Z.lor (Z.lor pa perm) PTE_P) ;;
      if a =? last then ret 0 else map_loop fuel pgdir (u32 (a + PGSIZE)) last (u32 (pa + PGSIZE)) perm
  end.

Definition mappages (pgdir va size pa perm : Z) : M kst Z :=
  let a := PGROUNDDOWN va in
  let last := PGROUNDDOWN (u32 (va + size - 1)) in
  map_loop (S (Z.to_nat (u32 (last - a) / PGSIZE))) pgdir a last pa perm.

(** The [for] of [deallocuvm]; a missing page table is skipped as a whole. *)
Fixpoint dealloc_loop (fuel : nat) (pgdir a oldsz : Z) : M kst unit :=
  match fuel with
  | O => nofuel
  | S fuel =>
      if negb (a <? oldsz) then ret tt else
      pte <- walkpgdir pgdir a false ;;
      a <- (if pte =? 0 then ret (u32 (PGADDR (PDX a + 1) 0 0 - PGSIZE)) else
            e <- rd pte ;;
            if negb (present e) then ret a else
            let pa := PTE_ADDR e in
            if pa =? 0 then panic "kfree" else
            kfree end_ (P2V pa) ;;
            wr pte 0 ;;
            ret a) ;;
      dealloc_loop fuel pgdir (u32 (a + PGSIZE)) oldsz
  end.

Definition deallocuvm (pgdir oldsz newsz : Z) : M kst Z :=
  if oldsz <=? newsz then ret oldsz else
  dealloc_loop (S (Z.to_nat (oldsz / PGSIZE + 1))) pgdir (PGROUNDUP newsz) oldsz ;;
  ret newsz.

Definition free_table (pgdir i : Z) : M kst unit :=
  e <- rd (pgdir + 4 * i) ;;
  when (present e) (kfree end_ (P2V (PTE_ADDR e))).

Definition freevm (pgdir : Z) : M kst unit :=
  if pgdir =? 0 then panic "freevm: no pgdir" else
  deallocuvm pgdir KERNBASE 0 ;;
  forM (Z.of_nat <$> seq 0 1024) (free_table pgdir) ;;
  kfree end_ pgdir.

(** The rows of [kmap]. *)
Definition kmap : list (Z * Z * Z * Z) :=
  [(KERNBASE, 0, EXTMEM, PTE_W);
   (KERNLINK, V2P KERNLINK, V2P data_, 0);
   (data_, V2P data_, PHYSTOP, PTE_W);
   (DEVSPACE, DEVSPACE, 0, PTE_W)].

(** The loop over [kmap]; false once [mappages] has failed. *)
Fixpoint map_rows (rows : list (Z * Z * Z * Z)) (pgdir : Z) : M kst bool :=
  match rows with
  | [] => ret true
  | (virt, phys_start, phys_end, perm) :: rows =>
      r <- mappages pgdir virt (u32 (phys_end - phys_start)) phys_start perm ;;
      if r <? 0 then ret false else map_rows rows pgdir
  end.

Definition setupkvm : M kst Z :=
  pgdir <- kalloc ;;
  if pgdir =? 0 then ret 0 else
  memset0 pgdir ;;
  if DEVSPACE <? P2V PHYSTOP then panic "PHYSTOP too high" else
  ok <- map_rows kmap pgdir ;;
  if (ok : bool) then ret pgdir else freevm pgdir ;; ret 0.

Definition inituvm (pgdir : Z) (init : list Z) : M kst unit :=
  let sz := Z.of_nat (length init) in
  if PGSIZE <=? sz then panic "inituvm: more than a page" else
  mem <- kalloc ;;
  if mem =? 0 then ub "memset of a null page" else
  memset0 mem ;;
  mappages pgdir 0 PGSIZE (V2P mem) (Z.lor PTE_W PTE_U) ;;
  modify (fun s => set_ram (blit_list mem init (ram s)) s).

Fixpoint alloc_loop (fuel : nat) (pgdir a oldsz newsz : Z) : M kst Z :=
  match fuel with
  | O => nofuel
  | S fuel =>
      if negb (a <? newsz) then ret newsz else
      mem <- kalloc ;;
      if mem =? 0 then deallocuvm pgdir newsz oldsz ;; ret 0 else
      memset0 mem ;;
      r <- mappages pgdir a PGSIZE (V2P mem) (Z.lor PTE_W PTE_U) ;;
      if r <? 0 then deallocuvm pgdir newsz oldsz ;; kfree end_ mem ;; ret 0 else
      alloc_loop fuel pgdir (u32 (a + PGSIZE)) oldsz newsz
  end.

Definition allocuvm (pgdir oldsz newsz : Z) : M kst Z :=
  if KERNBASE <=? newsz then ret 0 else
  if newsz <? oldsz then ret oldsz else
  alloc_loop (S (Z.to_nat (newsz / PGSIZE + 1))) pgdir (PGROUNDUP oldsz) oldsz newsz.

Definition clearpteu (pgdir uva : Z) : M kst unit :=
  pte <- walkpgdir pgdir uva false ;;
  if pte =? 0 then panic "clearpteu" else
  e <- rd pte ;;
  wr pte (Z.land e (u32 (Z.lnot PTE_U))).

(** The [for] of [copyuvm]; false on the way to [bad]. *)
Fixpoint copy_loop (fuel : nat) (pgdir d i sz : Z) : M kst bool :=
  match fuel with
  | O => nofuel
  | S fuel =>
      if negb (i <? sz) then ret true else
      pte <- walkpgdir pgdir i false ;;
      if pte =? 0 then panic "copyuvm: pte should exist" else
      e <- rd pte ;;
      if negb (present e) then panic "copyuvm: page not present" else
      let pa := PTE_ADDR e in
      let flags := PTE_FLAGS e in
      mem <- kalloc ;;
      if mem =? 0 then ret false else
      modify (fun s => set_ram (blit mem (P2V pa) PGSIZE (ram s)) s) ;;
      r <- mappages d i PGSIZE (V2P mem) flags ;;
      if r <? 0 then kfree end_ mem ;; ret false else
      copy_loop fuel pgdir d (u32 (i + PGSIZE)) sz
  end.

Definition copyuvm (pgdir sz : Z) : M kst Z :=
  d <- setupkvm ;;
  if d =? 0 then ret 0 else
  ok <- copy_loop (S (Z.to_nat (sz / PGSIZE + 1))) pgdir d 0 sz ;;
  if (ok : bool) then ret d else freevm d ;; ret 0.

(** [pte] is read without a test for null. *)
Definition uva2ka (pgdir uva : Z) : M kst Z :=
  pte <- walkpgdir pgdir uva false ;;
  if pte =? 0 then ub "null pte" else
  e <- rd pte ;;
  if negb (present e) then ret 0 else
  if Z.land e PTE_U =? 0 then ret 0 else
  ret (P2V (PTE_ADDR e)).

Fixpoint copyout_loop (fuel : nat) (pgdir va : Z) (buf : list Z) : M kst Z :=
  match fuel with
  | O => nofuel
  | S fuel =>
      if (length buf =? 0)%nat then ret 0 else
      let va0 := PGROUNDDOWN va in
      pa0 <- uva2ka pgdir va0 ;;
      if pa0 =? 0 then ret (-1) else
      let n := Z.min (PGSIZE - (va - va0)) (Z.of_nat (length buf)) in
      modify (fun s => set_ram (blit_list (pa0 + (va - va0)) (take (Z.to_nat n) buf) (ram s)) s) ;;
      copyout_loop fuel pgdir (u32 (va0 + PGSIZE)) (drop (Z.to_nat n) buf)
  end.

Definition copyout (pgdir va : Z) (buf : list Z) : M kst Z :=
  copyout_loop (S (length buf)) pgdir va buf.
End Vm.
