(* ===== verification/VmSpec.v ===== *)
(** * Page tables: the abstract address space

    A page directory represents a finite map from virtual page numbers to entries.
    [vm_inv] relates it to memory, together with who owns which page: the directory and
    its tables, the user pages it maps, the rest of the kernel, and the free list. *)

From Stdlib Require Import ZArith Lia.
From S2P Require Import Prelude Spinlock Memory Kalloc Vm.

(** ** Entries and indices *)

Lemma PDX_spec va : is_u32 va -> PDX va = va / 0x400000.
Proof.
  intros H. unfold PDX. change 0x3FF with (Z.ones 10). rewrite Z.land_ones, Z.shiftr_div_pow2 by lia.
  unfold is_u32 in H. change (2 ^ 22) with 0x400000. change (2 ^ 10) with 1024. change (2 ^ 32) with 4294967296 in H.
  Z.div_mod_to_equations. lia.
Qed.

Lemma PTX_spec va : PTX va = (va / PGSIZE) mod 1024.
Proof. unfold PTX. change 0x3FF with (Z.ones 10). by rewrite Z.land_ones, Z.shiftr_div_pow2 by lia. Qed.

Definition vpn (va : Z) : Z := va / PGSIZE.

Lemma vpn_split va : is_u32 va -> 1024 * PDX va + PTX va = vpn va.
Proof.
  intros H. rewrite PDX_spec, PTX_spec by done. unfold vpn, PGSIZE. Z.div_mod_to_equations. lia.
Qed.

Lemma PDX_range va : 0 <= PDX va < 1024.
Proof. unfold PDX. change 0x3FF with (Z.ones 10). rewrite Z.land_ones by lia. apply Z.mod_pos_bound. lia. Qed.

Lemma PTX_range va : 0 <= PTX va < 1024.
Proof. rewrite PTX_spec. apply Z.mod_pos_bound. lia. Qed.

Lemma lor_page a f : a mod PGSIZE = 0 -> 0 <= f < PGSIZE -> Z.lor a f = a + f.
Proof.
  intros Ha Hf. assert (Z.land a f = 0).
  { apply Z.bits_inj'. intros n Hn. rewrite Z.land_spec, Z.bits_0.
    destruct (Z.lt_ge_cases n 12).
    - replace a with (a / PGSIZE * 2 ^ 12) by (unfold PGSIZE in *; Z.div_mod_to_equations; lia).
      by rewrite Z.mul_pow2_bits_low by lia.
    - replace (Z.testbit f n) with false; [apply andb_false_r|]. symmetry.
      replace f with (f mod 2 ^ 12) by (apply Z.mod_small; unfold PGSIZE in *; lia).
      apply Z.mod_pow2_bits_high. lia. }
  rewrite <- Z.lxor_lor, Z.add_nocarry_lxor by done. done.
Qed.

Lemma PTE_ADDR_spec e : is_u32 e -> PTE_ADDR e = e / PGSIZE * PGSIZE.
Proof. apply page_mask. Qed.

Lemma PTE_ADDR_page a f : a mod PGSIZE = 0 -> 0 <= f < PGSIZE -> is_u32 a -> PTE_ADDR (a + f) = a.
Proof.
  intros Ha Hf Hu. assert (a + PGSIZE <= 2 ^ 32).
  { unfold is_u32, PGSIZE in *. change (2 ^ 32) with 4294967296 in *. Z.div_mod_to_equations. lia. }
  rewrite PTE_ADDR_spec by (unfold is_u32 in *; lia). unfold PGSIZE in *. Z.div_mod_to_equations. lia.
Qed.

Lemma PTE_FLAGS_page a f : a mod PGSIZE = 0 -> 0 <= f < PGSIZE -> PTE_FLAGS (a + f) = f.
Proof.
  intros Ha Hf. unfold PTE_FLAGS. change 0xFFF with (Z.ones 12). rewrite Z.land_ones by lia.
  change (2 ^ 12) with PGSIZE. unfold PGSIZE in *. Z.div_mod_to_equations. lia.
Qed.

Lemma present_odd e : present e = Z.odd e.
Proof.
  unfold present, PTE_P. change 1 with (Z.ones 1). rewrite Z.land_ones by lia. change (2 ^ 1) with 2.
  rewrite Zmod_odd. by destruct (Z.odd e).
Qed.

Lemma P2V_V2P p : is_u32 p -> P2V (V2P p) = p.
Proof. intros H. unfold P2V, V2P. rewrite u32_add_l. replace (p - KERNBASE + KERNBASE) with p by lia. by apply u32_small. Qed.

Lemma V2P_aligned p : p mod PGSIZE = 0 -> V2P p mod PGSIZE = 0.
Proof.
  intros H. unfold V2P, u32, PGSIZE, KERNBASE in *. change (2 ^ 32) with 4294967296. Z.div_mod_to_equations. lia.
Qed.

(** The entry [walkpgdir] writes for a new table, and the one of a mapping. *)
Lemma pde_value t :
  t mod PGSIZE = 0 -> Z.lor (Z.lor (Z.lor (V2P t) PTE_P) PTE_W) PTE_U = V2P t + 7.
Proof.
  intros H. apply V2P_aligned in H. rewrite <- !Z.lor_assoc. change (Z.lor PTE_P (Z.lor PTE_W PTE_U)) with 7.
  by apply lor_page.
Qed.

Lemma lor_odd f : 0 <= f < PGSIZE -> 0 <= Z.lor f 1 < PGSIZE /\ Z.odd (Z.lor f 1) = true.
Proof.
  intros H. split.
  - split; [apply Z.lor_nonneg; lia|].
    destruct (Z.eq_dec (Z.lor f 1) 0) as [->|Hne]; [done|].
    assert (0 < Z.lor f 1) by (assert (0 <= Z.lor f 1) by (apply Z.lor_nonneg; lia); lia).
    change PGSIZE with (2 ^ 12) in *. apply Z.log2_lt_pow2; [done|]. rewrite Z.log2_lor by lia.
    apply Z.max_lub_lt; [|done]. destruct (Z.eq_dec f 0) as [->|]; [done|]. apply Z.log2_lt_pow2; lia.
  - by rewrite <- Z.bit0_odd, Z.lor_spec, orb_true_r.
Qed.

(** ** Representation *)

(** The word an entry of the directory holds. *)
Definition pde_of (t : option Z) : Z := match t with Some t => V2P t + 7 | None => 0 end.

(** The directory [pgdir] with its tables [T] (page of the table by directory index)
    holds the entries [A] (by virtual page number). *)
Record vm_rep (m : memory) (pgdir : Z) (T A : gmap Z Z) : Prop := {
  vr_pd : forall d, 0 <= d < 1024 -> load32 m (pgdir + 4 * d) = pde_of (T !! d);
  vr_dom : forall d t, T !! d = Some t -> 0 <= d < 1024;
  vr_pt : forall d t j, T !! d = Some t -> 0 <= j < 1024 -> load32 m (t + 4 * j) = default 0 (A !! (1024 * d + j));
  vr_ent : forall v e, A !! v = Some e -> is_Some (T !! (v / 1024)) /\ Z.odd e = true /\ is_u32 e
}.

(** User pages are below [KERNBASE]. *)
Definition UVPN : Z := 0x80000.
Definition page_of (e : Z) : Z := P2V (PTE_ADDR e).
Definition tpages (T : gmap Z Z) : list Z := (map_to_list T).*2.
Definition user_map (A : gmap Z Z) : gmap Z Z := filter (fun ve => ve.1 < UVPN) A.
Definition upages (A : gmap Z Z) : list Z := page_of <$> (map_to_list (user_map A)).*2.
Definition own (pgdir : Z) (T A : gmap Z Z) : list Z := pgdir :: tpages T ++ upages A.

Definition agree (m m' : memory) (p : Z) : Prop := forall x, p <= x < p + PGSIZE -> m' x = m x.

Lemma agree_load m m' p a : agree m m' p -> p <= a -> a + 4 <= p + PGSIZE -> load32 m' a = load32 m a.
Proof. intros H Hp Ha. apply load32_agree. intros x Hx. apply H. lia. Qed.

Lemma elem_of_tpages T t : t ∈ tpages T <-> exists d, T !! d = Some t.
Proof.
  unfold tpages. rewrite list_elem_of_fmap. split.
  - intros ([d t'] & -> & H%elem_of_map_to_list). by exists d.
  - intros (d & H). exists (d, t). split; [done|]. by apply elem_of_map_to_list.
Qed.

Lemma tpages_insert T d t : T !! d = None -> tpages (<[d := t]> T) ≡ₚ t :: tpages T.
Proof. intros H. unfold tpages. by rewrite (map_to_list_insert T d t H). Qed.

Lemma upages_insert_kern A v e : UVPN <= v -> upages (<[v := e]> A) = upages A.
Proof.
  intros H. unfold upages, user_map. rewrite map_filter_insert_not; [done|]. intros y. cbn. unfold UVPN in *. lia.
Qed.

Lemma upages_insert_user A v e : v < UVPN -> A !! v = None -> upages (<[v := e]> A) ≡ₚ page_of e :: upages A.
Proof.
  intros Hv Hn. unfold upages, user_map. rewrite map_filter_insert_True by done.
  rewrite map_to_list_insert; [done|]. by apply map_lookup_filter_None_2; left.
Qed.

Lemma upages_delete A v e : v < UVPN -> A !! v = Some e -> page_of e :: upages (delete v A) ≡ₚ upages A.
Proof.
  intros Hv He. unfold upages, user_map. rewrite map_filter_delete.
  rewrite <- (map_to_list_delete (filter _ A) v e); [done|]. by apply map_lookup_filter_Some_2.
Qed.

Lemma elem_of_upages A p : p ∈ upages A <-> exists v e, A !! v = Some e /\ v < UVPN /\ p = page_of e.
Proof.
  unfold upages, user_map. rewrite list_elem_of_fmap. setoid_rewrite list_elem_of_fmap. split.
  - intros (e & -> & [v e'] & -> & [H1 H2]%elem_of_map_to_list%map_lookup_filter_Some). by exists v, e'.
  - intros (v & e & H1 & H2 & ->). exists e. split; [done|]. exists (v, e). split; [done|].
    apply elem_of_map_to_list. by apply map_lookup_filter_Some_2.
Qed.

Lemma upages_subset A B p : A ⊆ B -> p ∈ upages A -> p ∈ upages B.
Proof.
  intros H. rewrite !elem_of_upages. intros (v & e & H1 & H2 & ->). exists v, e. split_and!; try done.
  by eapply lookup_weaken.
Qed.

Lemma rep_agree m m' P T A :
  vm_rep m P T A -> (forall p, p ∈ P :: tpages T -> agree m m' p) -> vm_rep m' P T A.
Proof.
  intros [H1 H2 H3 H4] Hag. split; [|done| |done].
  - intros d Hd. rewrite <- H1 by done. apply (agree_load _ _ P); [apply Hag; set_solver|lia|unfold PGSIZE; lia].
  - intros d t j Hd Hj. rewrite <- (H3 d t j) by done.
    apply (agree_load _ _ t); [|lia|unfold PGSIZE; lia]. apply Hag, list_elem_of_further, elem_of_tpages. by exists d.
Qed.

Lemma kmem_agree end_ s m' l :
  kmem_rep end_ s l -> (forall p, p ∈ l -> agree (ram s) m' p) -> kmem_rep end_ (set_ram m' s) l.
Proof.
  intros [H1 H2 H3] Hag. split; [|done..]. eapply flist_frame; [|exact H1].
  intros q Hq. apply (agree_load _ _ q); [by apply Hag|lia|unfold PGSIZE; lia].
Qed.

Lemma tpages_inj T d d' t : NoDup (tpages T) -> T !! d = Some t -> T !! d' = Some t -> d = d'.
Proof.
  intros Hn H1 H2. destruct (decide (d = d')) as [|Hne]; [done|]. exfalso.
  assert (HP : tpages T ≡ₚ t :: tpages (delete d T)).
  { unfold tpages. by rewrite <- (map_to_list_delete T d t H1). }
  rewrite HP in Hn. apply NoDup_cons in Hn as [Hn _]. apply Hn, elem_of_tpages. exists d'. by rewrite lookup_delete_ne.
Qed.

Section Words.
Context (end_ : Z) (P : Z) (T : gmap Z Z).
Hypothesis Hok : Forall (page_ok end_) (P :: tpages T).
Hypothesis Hnd : NoDup (P :: tpages T).

Lemma table_ok d t : T !! d = Some t -> page_ok end_ t /\ t <> P.
Proof.
  intros H. assert (Ht : t ∈ tpages T) by (apply elem_of_tpages; by exists d). split.
  - eapply Forall_at; [exact Hok|set_solver].
  - intros ->. by apply NoDup_cons in Hnd as [? _].
Qed.

(** Words of different pages, or at different indices of one page. *)
Lemma word_ne p q j j' m w :
  p mod PGSIZE = 0 -> q mod PGSIZE = 0 -> 0 <= j < 1024 -> 0 <= j' < 1024 -> p <> q \/ j <> j' ->
  load32 (store32 (p + 4 * j) w m) (q + 4 * j') = load32 m (q + 4 * j').
Proof.
  intros Hp Hq Hj Hj' Hne. apply load32_store32_ne. destruct (Z.eq_dec p q) as [->|Hpq]; [lia|].
  pose proof (pages_apart p q Hp Hq Hpq). unfold PGSIZE in *. lia.
Qed.

Lemma rep_set m A d t j e e' :
  vm_rep m P T A -> T !! d = Some t -> 0 <= j < 1024 -> e = default 0 e' -> (forall x, e' = Some x -> Z.odd x = true) -> is_u32 e ->
  vm_rep (store32 (t + 4 * j) e m) P T (partial_alter (fun _ => e') (1024 * d + j) A).
Proof.
  intros [H1 H2 H3 H4] Ht Hj He Hodd Hu. destruct (table_ok d t Ht) as [(Htm & _) HtP].
  assert (HP : P mod PGSIZE = 0) by (apply Forall_cons in Hok as [(? & _) _]; done).
  assert (HndT : NoDup (tpages T)) by (by apply NoDup_cons in Hnd as [_ ?]). split; [|done| |].
  - intros d' Hd'. rewrite <- H1 by done. apply word_ne; try done. by left.
  - intros d' t' j' Hd' Hj'. destruct (table_ok d' t' Hd') as [(Ht'm & _) _]. destruct (decide (d' = d)) as [->|Hne].
    + simplify_eq. destruct (decide (j' = j)) as [->|Hj''].
      * by rewrite load32_store32, lookup_partial_alter_eq.
      * rewrite lookup_partial_alter_ne by lia. rewrite <- (H3 d t) by done. apply word_ne; try done. right. lia.
    + rewrite lookup_partial_alter_ne by lia. rewrite <- (H3 d' t') by done. apply word_ne; try done.
      left. intros E. destruct Hne. apply (tpages_inj T d' d t); congruence.
  - intros v x. destruct (decide (v = 1024 * d + j)) as [->|Hv].
    + rewrite lookup_partial_alter_eq. intros Hx. rewrite Hx in He. cbn in He. subst e. split_and!; [|by apply Hodd|done].
      replace ((1024 * d + j) / 1024) with d; [by exists t|]. Z.div_mod_to_equations. lia.
    + rewrite lookup_partial_alter_ne by done. apply H4.
Qed.

Lemma rep_adopt m A d q :
  vm_rep m P T A -> T !! d = None -> 0 <= d < 1024 -> page_ok end_ q -> q ∉ P :: tpages T ->
  (forall j, 0 <= j < 1024 -> load32 m (q + 4 * j) = 0) ->
  vm_rep (store32 (P + 4 * d) (V2P q + 7) m) P (<[d := q]> T) A.
Proof.
  intros [H1 H2 H3 H4] Hd Hd' Hq Hqn Hz. apply not_elem_of_cons in Hqn as [HqP HqT].
  assert (HP : P mod PGSIZE = 0) by (apply Forall_cons in Hok as [(? & _) _]; done). destruct Hq as (Hqm & _ & Hqt & _).
  split.
  - intros d' Hd2. destruct (decide (d' = d)) as [->|Hne].
    + rewrite lookup_insert_eq, load32_store32; [done|]. unfold is_u32, PHYSTOP, V2P in *. pose proof (u32_range (q - KERNBASE)).
      unfold is_u32 in *. lia.
    + rewrite lookup_insert_ne, <- H1 by done. apply word_ne; try done. right. lia.
  - intros d' t. rewrite lookup_insert_Some. intros [[-> _]|[_ ?]]; [done|by eapply H2].
  - intros d' t j Ht Hj. apply lookup_insert_Some in Ht as [[<- <-]|[Hne Ht]].
    + rewrite word_ne by (try done; by left). rewrite Hz by done. destruct (A !! (1024 * d + j)) as [e|] eqn:E; [|done].
      apply H4 in E as [[t Ht] _]. replace ((1024 * d + j) / 1024) with d in Ht; [congruence|]. Z.div_mod_to_equations. lia.
    + destruct (table_ok d' t Ht) as [(Htm & _) HtP]. rewrite <- (H3 d' t) by done. apply word_ne; try done. by left.
  - intros v e Hv. apply H4 in Hv as [[t Ht] ?]. split; [|done]. destruct (decide (v / 1024 = d)) as [<-|].
    + rewrite lookup_insert_eq. by eexists.
    + rewrite lookup_insert_ne by done. by eexists.
Qed.
End Words.

(** [All] are the pages under management, each above the kernel image. *)
Class Managed (end_ : Z) (All : list Z) : Prop := {
  mg_end : KERNBASE < end_;
  All_ok : Forall (page_ok end_) All;
  All_nodup : NoDup All
}.

Section Inv.
Context {end_ : Z} {i : nat} {c : cpu} {All : list Z} `{Hmg : !Managed end_ All}.

Lemma end_pos : 0 < end_.
Proof using Hmg. destruct Hmg as [H _ _]. unfold KERNBASE in H. lia. Qed.

(** [X] are the pages in use elsewhere, [l] the free ones. *)
Record vm_inv (s : kst) (P : Z) (T A : gmap Z Z) (X l : list Z) : Prop := {
  vi_idle : k_idle s i c;
  vi_free : kmem_rep end_ s l;
  vi_rep : vm_rep (ram s) P T A;
  vi_all : own P T A ++ X ++ l ≡ₚ All
}.

(** What an operation on one address space leaves alone. *)
Record keeps (X : list Z) (s s' : kst) : Prop := {
  kp_mem : forall p, p ∈ X -> agree (ram s) (ram s') p;
  kp_ctx : ctx s' = ctx s;
  kp_lock : use_lock s' = use_lock s
}.

Lemma keeps_refl X s : keeps X s s.
Proof. by split. Qed.

Lemma keeps_trans X s1 s2 s3 : keeps X s1 s2 -> keeps X s2 s3 -> keeps X s1 s3.
Proof.
  intros [H1 H2 H3] [H4 H5 H6]. split; [|congruence..]. intros p Hp x Hx. rewrite H4, H1; done.
Qed.

Lemma keeps_weaken X Y s s' : (forall p, p ∈ X -> p ∈ Y) -> keeps Y s s' -> keeps X s s'.
Proof. intros H [H1 H2 H3]. split; [|done..]. intros p Hp. apply H1. by apply H. Qed.

Lemma inv_page s P T A X l p : vm_inv s P T A X l -> p ∈ own P T A ++ X ++ l -> page_ok end_ p.
Proof. intros H Hp. eapply Forall_at; [exact (All_ok (All := All))|]. by rewrite <- (vi_all _ _ _ _ _ _ H). Qed.

Lemma inv_nodup s P T A X l : vm_inv s P T A X l -> NoDup (own P T A ++ X ++ l).
Proof. intros H. rewrite (vi_all _ _ _ _ _ _ H). apply All_nodup. Qed.

(** Only the page [p] is written. *)
Definition within (p : Z) (m m' : memory) : Prop := forall x, x < p \/ p + PGSIZE <= x -> m' x = m x.

Lemma within_agree p q m m' :
  within p m m' -> page_ok end_ p -> page_ok end_ q -> p <> q -> agree m m' q.
Proof.
  intros Hw (Hp & _) (Hq & _) Hne x Hx. apply Hw. pose proof (pages_apart p q Hp Hq Hne). lia.
Qed.

Lemma within_store a w p m : p <= a -> a + 4 <= p + PGSIZE -> within p m (store32 a w m).
Proof. intros H1 H2 x Hx. apply store32_out. lia. Qed.

Lemma within_fill p v m : within p m (fill p PGSIZE v m).
Proof. intros x Hx. by apply fill_out. Qed.

Lemma within_trans p m1 m2 m3 : within p m1 m2 -> within p m2 m3 -> within p m1 m3.
Proof. intros H1 H2 x Hx. by rewrite H2, H1. Qed.

Lemma keeps_write X s m' p :
  Forall (page_ok end_) X -> page_ok end_ p -> p ∉ X -> within p (ram s) m' -> keeps X s (set_ram m' s).
Proof.
  intros HX Hp Hn Hw. split; [|done..]. intros q Hq. eapply within_agree; [done|done|by eapply Forall_at|].
  by intros ->.
Qed.

Lemma inv_write s P T A X l p m' :
  vm_inv s P T A X l -> p ∈ X -> within p (ram s) m' -> vm_inv (set_ram m' s) P T A X l.
Proof.
  intros Hi Hp Hw. assert (Hag : forall q, q ∈ own P T A ++ l -> agree (ram s) m' q).
  { intros q Hq. eapply within_agree; [done|eapply inv_page; [done|set_solver]..|].
    intros ->. pose proof (inv_nodup _ _ _ _ _ _ Hi) as (_ & H1 & H2)%NoDup_app. apply NoDup_app in H2 as (_ & H3 & _).
    apply elem_of_app in Hq as [Hq|Hq]; [eapply H1; [done|]; set_solver|by eapply H3]. }
  destruct Hi as [H1 H2 H3 H4]. split; [done| | |done].
  - apply kmem_agree; [done|]. intros q Hq. apply Hag. set_solver.
  - eapply rep_agree; [done|]. intros q Hq. apply Hag. unfold own. set_solver.
Qed.

Lemma inv_X_ok s P T A X l : vm_inv s P T A X l -> Forall (page_ok end_) X.
Proof. intros Hi. apply Forall_forall. intros p Hp. eapply inv_page; [done|]. set_solver. Qed.

Lemma inv_X_nodup s P T A X l : vm_inv s P T A X l -> NoDup X.
Proof. intros Hi%inv_nodup. by apply NoDup_app in Hi as (_ & _ & (? & _ & _)%NoDup_app). Qed.

Lemma inv_fresh s P T A q X l : vm_inv s P T A (q :: X) l -> page_ok end_ q /\ q ∉ X.
Proof.
  intros Hi. split; [|by apply inv_X_nodup, NoDup_cons in Hi as [? _]]. eapply inv_page; [done|]. set_solver.
Qed.

Lemma inv_frame_ok s P T A q X l : vm_inv s P T A (q :: X) l -> Forall (page_ok end_) (X ++ upages A).
Proof.
  intros Hi. apply Forall_forall. intros p Hp. eapply inv_page; [done|]. unfold own. set_solver.
Qed.

Lemma inv_frame_new s P T A q X l : vm_inv s P T A (q :: X) l -> q ∉ X ++ upages A.
Proof.
  intros Hi. pose proof (inv_nodup _ _ _ _ _ _ Hi) as (_ & Hdis & _)%NoDup_app.
  destruct (inv_fresh _ _ _ _ _ _ _ Hi) as [_ Hn]. rewrite not_elem_of_app. split; [done|].
  intros H. apply (Hdis q); [unfold own|]; set_solver.
Qed.

(** Taking and giving back a page. *)
Lemma wp_kalloc s P T A X l Q W :
  vm_inv s P T A X l ->
  (l = [] -> Q 0 s) ->
  (forall q l' s', l = q :: l' -> vm_inv s' P T A (q :: X) l' -> q <> 0 -> (forall Y, keeps Y s s') -> Q q s') ->
  wp (kalloc s) Q W.
Proof.
  intros Hi H0 H1. assert (Hi' := Hi). destruct Hi' as [Hid Hf Hr Ha]. eapply wp_eq; [by eapply kalloc_run|].
  destruct l as [|q l].
  - destruct Hf as [Hf _ _]. cbn in Hf. rewrite Hf. by apply H0.
  - destruct Hf as [[Hq Hl] Hp Hn]. rewrite Hq. apply Forall_cons in Hp as [(_ & Hq0 & _) Hp].
    apply NoDup_cons in Hn as [_ Hn]. pose proof end_pos. rewrite (proj2 (Z.eqb_neq q 0)) by lia.
    apply (H1 q l); [done| |lia|by intros Y]. split; [done|by split|done|].
    rewrite <- Ha. cbn. by rewrite <- !Permutation_middle.
Qed.

Lemma wp_kfree s P T A q X l Q W :
  vm_inv s P T A (q :: X) l ->
  (forall s', vm_inv s' P T A X (q :: l) -> keeps (X ++ upages A) s s' -> Q tt s') ->
  wp (kfree end_ q s) Q W.
Proof.
  intros Hi HQ. destruct (inv_fresh _ _ _ _ _ _ _ Hi) as [Hq Hn]. assert (Hi' := Hi).
  destruct Hi' as [Hid Hf Hr Ha]. eapply wp_eq; [by eapply kfree_run|].
  assert (Hw : within q (ram s) (store32 q (freelist s) (fill q PGSIZE 1 (ram s)))).
  { eapply within_trans; [apply within_fill|]. apply within_store; unfold PGSIZE; lia. }
  assert (Hql : q ∉ l).
  { pose proof (inv_nodup _ _ _ _ _ _ Hi) as (_ & _ & H)%NoDup_app. cbn in H. apply NoDup_cons in H as [H _]. set_solver. }
  apply HQ.
  - assert (Hi2 := inv_write _ _ _ _ _ _ q _ Hi ltac:(set_solver) Hw). destruct Hi2 as [_ _ Hr2 _]. split.
    + done.
    + apply kfree_rep; [done..|]. by eapply kmem_head_u32.
    + done.
    + rewrite <- Ha. cbn. by rewrite <- !Permutation_middle.
  - destruct (keeps_write (X ++ upages A) s _ q (inv_frame_ok _ _ _ _ _ _ _ Hi) Hq (inv_frame_new _ _ _ _ _ _ _ Hi) Hw). by split.
Qed.

(** *** [walkpgdir] *)

Lemma inv_tables s P T A X l :
  vm_inv s P T A X l -> Forall (page_ok end_) (P :: tpages T) /\ NoDup (P :: tpages T).
Proof.
  intros Hi. split.
  - apply Forall_forall. intros p Hp. eapply inv_page; [done|]. unfold own. set_solver.
  - pose proof (inv_nodup _ _ _ _ _ _ Hi) as (H & _ & _)%NoDup_app. unfold own in H. rewrite app_comm_cons in H.
    by apply NoDup_app in H as (? & _).
Qed.

Lemma table_pde t : page_ok end_ t -> present (V2P t + 7) = true /\ P2V (PTE_ADDR (V2P t + 7)) = t.
Proof.
  intros (Hm & _ & _ & Hu). split.
  - rewrite present_odd. assert (H := V2P_aligned _ Hm). rewrite (Z.div_mod (V2P t) PGSIZE), H by done.
    by rewrite Z.add_0_r, Z.odd_add, Z.odd_mul.
  - rewrite PTE_ADDR_page by (try (by apply V2P_aligned); try apply u32_range; unfold PGSIZE; lia). by apply P2V_V2P.
Qed.

Lemma walk_rep s P T A va t alloc :
  vm_rep (ram s) P T A -> page_ok end_ t -> T !! PDX va = Some t -> walkpgdir P va alloc s = Ret (t + 4 * PTX va) s.
Proof.
  intros Hr Htp Ht. unfold walkpgdir, rd. run. rewrite (vr_pd _ _ _ _ Hr) by apply PDX_range. rewrite Ht. cbn [pde_of].
  destruct (table_pde t Htp) as [-> ->]. done.
Qed.

Lemma walk_hit s P T A X l va t alloc :
  vm_inv s P T A X l -> T !! PDX va = Some t -> walkpgdir P va alloc s = Ret (t + 4 * PTX va) s.
Proof.
  intros Hi Ht. destruct (inv_tables _ _ _ _ _ _ Hi) as [Hok Hnd]. destruct (table_ok end_ P T Hok Hnd _ _ Ht) as [Htp _].
  by eapply walk_rep; [apply Hi|..].
Qed.

Lemma walk_miss s P T A X l va :
  vm_inv s P T A X l -> T !! PDX va = None -> walkpgdir P va false s = Ret 0 s.
Proof.
  intros Hi Ht. unfold walkpgdir, rd. run. rewrite (vr_pd _ _ _ _ (vi_rep _ _ _ _ _ _ Hi)) by apply PDX_range. by rewrite Ht.
Qed.

Lemma inv_adopt s P T A q X l d :
  vm_inv s P T A (q :: X) l -> T !! d = None -> 0 <= d < 1024 ->
  (forall j, 0 <= j < 1024 -> load32 (ram s) (q + 4 * j) = 0) ->
  vm_inv (set_ram (store32 (P + 4 * d) (V2P q + 7) (ram s)) s) P (<[d := q]> T) A X l.
Proof.
  intros Hi Hd Hd' Hz. destruct (inv_tables _ _ _ _ _ _ Hi) as [Hok Hnd]. destruct (inv_fresh _ _ _ _ _ _ _ Hi) as [Hq _].
  pose proof (inv_nodup _ _ _ _ _ _ Hi) as Hnd'. unfold own in Hnd'. destruct Hi as [Hid Hf Hr Ha].
  assert (HP : page_ok end_ P) by (by apply Forall_cons in Hok as [? _]).
  assert (Hw : within P (ram s) (store32 (P + 4 * d) (V2P q + 7) (ram s))) by (apply within_store; unfold PGSIZE; lia).
  split; [done| | |].
  - apply kmem_agree; [done|]. intros p Hp. eapply within_agree; [done|done|exact (Forall_at _ _ _ (kr_pages _ _ _ Hf) Hp)|].
    intros ->. cbn in Hnd'. apply NoDup_cons in Hnd' as [Hn _]. set_solver.
  - apply (rep_adopt end_); try done. apply NoDup_app in Hnd' as (_ & Hn & _).
    intros Hqin. apply (Hn q); [|set_solver]. rewrite app_comm_cons. apply elem_of_app. by left.
  - rewrite <- Ha. unfold own. cbn. rewrite (tpages_insert T d q Hd). cbn.
    by rewrite <- !Permutation_middle, <- app_assoc.
Qed.

(** Writing to the directory or a table leaves the pages of the user alone. *)
Lemma keeps_own s P T A X l m' p :
  vm_inv s P T A X l -> p ∈ P :: tpages T -> within p (ram s) m' -> keeps (X ++ upages A) s (set_ram m' s).
Proof.
  intros Hi Hp Hw. destruct (inv_tables _ _ _ _ _ _ Hi) as [Hok _]. apply (keeps_write _ s m' p); [| | |done].
  - apply Forall_forall. intros q Hq. eapply inv_page; [done|]. unfold own. set_solver.
  - by eapply Forall_at.
  - pose proof (inv_nodup _ _ _ _ _ _ Hi) as Hnd. unfold own in Hnd. rewrite app_comm_cons, <- app_assoc in Hnd.
    apply NoDup_app in Hnd as (_ & Hn & _). specialize (Hn p Hp). set_solver.
Qed.

(** With [alloc] a missing table is created, from the top of the free list. *)
Lemma wp_walk s P T A X l va Q W :
  vm_inv s P T A X l ->
  (T !! PDX va = None -> l = [] -> Q 0 s) ->
  (forall t T' l' s', T' !! PDX va = Some t -> T ⊆ T' -> vm_inv s' P T' A X l' -> keeps (X ++ upages A) s s' ->
     t + 4 * PTX va <> 0 -> Q (t + 4 * PTX va) s') ->
  wp (walkpgdir P va true s) Q W.
Proof.
  intros Hi H0 H1.
  assert (Hpos : forall t, page_ok end_ t -> t + 4 * PTX va <> 0).
  { intros t (_ & Ht & _). pose proof (PTX_range va). pose proof end_pos. lia. }
  destruct (T !! PDX va) as [t|] eqn:Ht.
  - eapply wp_eq; [by eapply walk_hit|]. apply (H1 t T l s); [exact Ht|reflexivity|exact Hi|apply keeps_refl|]. apply Hpos.
    destruct (inv_tables _ _ _ _ _ _ Hi) as [Hok Hnd]. by destruct (table_ok end_ P T Hok Hnd _ _ Ht).
  - unfold walkpgdir. apply wp_step. cbn [rd gets wp]. rewrite (vr_pd _ _ _ _ (vi_rep _ _ _ _ _ _ Hi)) by apply PDX_range.
    rewrite Ht. cbn [pde_of present Z.land negb Z.eqb]. apply wp_step. eapply wp_kalloc; [done| |].
    + intros ->. by apply H0.
    + intros q l' s' -> Hi' Hq Hk. rewrite (proj2 (Z.eqb_neq q 0)) by done. apply wp_step. cbn [memset0 modify wp].
      apply wp_step. cbn [wr modify wp ret]. destruct (inv_fresh _ _ _ _ _ _ _ Hi') as [Hqo HqX].
      assert (Hi2 := inv_write _ _ _ _ _ _ q (fill q PGSIZE 0 (ram s')) Hi' (list_elem_of_here _ _) (within_fill q 0 _)).
      rewrite pde_value by (by destruct Hqo). apply (H1 q (<[PDX va := q]> T) l').
      * by rewrite lookup_insert_eq.
      * by apply insert_subseteq.
      * apply (inv_adopt _ _ _ _ _ _ _ _ Hi2 Ht (PDX_range va)). intros j Hj.
        cbn. rewrite load32_fill by (unfold PGSIZE; lia). lia.
      * eapply keeps_trans; [apply Hk|]. eapply keeps_trans.
        -- apply (keeps_write _ s' (fill q PGSIZE 0 (ram s')) q (inv_frame_ok _ _ _ _ _ _ _ Hi') Hqo); [|apply within_fill].
           by apply (inv_frame_new _ _ _ _ _ _ _ Hi').
        -- eapply keeps_weaken; [|eapply (keeps_own _ P T A (q :: X) _ _ P Hi2); [apply list_elem_of_here|]].
           { intros p Hp. by apply list_elem_of_further. }
           apply within_store; pose proof (PDX_range va); unfold PGSIZE; lia.
      * by apply Hpos.
Qed.

(** *** Entries *)

Lemma inv_entry s P T A X X' l d t j e e' :
  vm_inv s P T A X l -> T !! d = Some t -> 0 <= j < 1024 -> e = default 0 e' ->
  (forall x, e' = Some x -> Z.odd x = true) -> is_u32 e ->
  own P T (partial_alter (fun _ => e') (1024 * d + j) A) ++ X' ++ l ≡ₚ All ->
  vm_inv (set_ram (store32 (t + 4 * j) e (ram s)) s) P T (partial_alter (fun _ => e') (1024 * d + j) A) X' l.
Proof.
  intros Hi Ht Hj He Hodd Hu Ha. destruct (inv_tables _ _ _ _ _ _ Hi) as [Hok Hnd].
  pose proof (inv_nodup _ _ _ _ _ _ Hi) as (_ & Hdis & _)%NoDup_app. destruct Hi as [Hid Hf Hr _].
  split; [done| |by apply (rep_set end_)|done].
  apply kmem_agree; [done|]. intros p Hp. destruct (table_ok end_ P T Hok Hnd d t Ht) as [Htp _].
  eapply (within_agree t); [apply within_store; unfold PGSIZE; lia|done|exact (Forall_at _ _ _ (kr_pages _ _ _ Hf) Hp)|].
  intros <-. apply (Hdis t); [|set_solver]. assert (t ∈ tpages T) by (apply elem_of_tpages; by exists d).
  unfold own. set_solver.
Qed.

Lemma mapped_page q f : page_ok end_ q -> 0 <= f < PGSIZE -> page_of (V2P q + f) = q /\ is_u32 (V2P q + f).
Proof.
  intros (Hm & _ & Hp & Hu) Hf. unfold page_of. rewrite PTE_ADDR_page; [|by apply V2P_aligned|done|apply u32_range].
  split; [by apply P2V_V2P|]. unfold is_u32, PHYSTOP, PGSIZE in *. pose proof (u32_range (q - KERNBASE)). unfold is_u32, V2P in *. lia.
Qed.

Lemma inv_map_user s P T A q X l d t j f :
  vm_inv s P T A (q :: X) l -> T !! d = Some t -> 0 <= j < 1024 -> 1024 * d + j < UVPN ->
  A !! (1024 * d + j) = None -> 0 <= f < PGSIZE -> Z.odd f = true ->
  vm_inv (set_ram (store32 (t + 4 * j) (V2P q + f) (ram s)) s) P T (<[1024 * d + j := V2P q + f]> A) X l.
Proof.
  intros Hi Ht Hj Hv HA Hf Hodd. destruct (inv_fresh _ _ _ _ _ _ _ Hi) as [Hq _].
  destruct (mapped_page q f Hq Hf) as [Hpq Hu].
  apply (inv_entry s P T A (q :: X) X l d t j _ (Some (V2P q + f))); try done.
  - intros x [= <-]. destruct Hq as (Hm & _). assert (H := V2P_aligned _ Hm). rewrite (Z.div_mod (V2P q) PGSIZE), H by done.
    by rewrite Z.add_0_r, Z.odd_add, Z.odd_mul, Hodd.
  - rewrite <- (vi_all _ _ _ _ _ _ Hi). unfold own.
    change (partial_alter (fun _ => Some (V2P q + f)) (1024 * d + j) A) with (<[1024 * d + j := V2P q + f]> A).
    rewrite upages_insert_user, Hpq by done. cbn. by rewrite <- !Permutation_middle.
Qed.

Lemma inv_map_kern s P T A X l d t j e :
  vm_inv s P T A X l -> T !! d = Some t -> 0 <= j < 1024 -> UVPN <= 1024 * d + j -> Z.odd e = true -> is_u32 e ->
  vm_inv (set_ram (store32 (t + 4 * j) e (ram s)) s) P T (<[1024 * d + j := e]> A) X l.
Proof.
  intros Hi Ht Hj Hv Hodd Hu. apply (inv_entry s P T A X X l d t j _ (Some e)); try done.
  - by intros x [= <-].
  - rewrite <- (vi_all _ _ _ _ _ _ Hi). unfold own.
    change (partial_alter (fun _ => Some e) (1024 * d + j) A) with (<[1024 * d + j := e]> A). by rewrite upages_insert_kern.
Qed.

Lemma inv_unmap s P T A X l d t j e :
  vm_inv s P T A X l -> T !! d = Some t -> 0 <= j < 1024 -> 1024 * d + j < UVPN -> A !! (1024 * d + j) = Some e ->
  vm_inv (set_ram (store32 (t + 4 * j) 0 (ram s)) s) P T (delete (1024 * d + j) A) (page_of e :: X) l.
Proof.
  intros Hi Ht Hj Hv He. apply (inv_entry s P T A X (page_of e :: X) l d t j _ None); try done.
  rewrite <- (vi_all _ _ _ _ _ _ Hi). unfold own.
  change (partial_alter (fun _ => None) (1024 * d + j) A) with (delete (1024 * d + j) A).
  rewrite <- (upages_delete A _ _ Hv He). cbn. by rewrite <- !Permutation_middle.
Qed.

(** The entry at an address, absent if there is none. *)
Lemma inv_read s P T A X l d t j :
  vm_inv s P T A X l -> T !! d = Some t -> 0 <= j < 1024 -> load32 (ram s) (t + 4 * j) = default 0 (A !! (1024 * d + j)).
Proof. intros Hi Ht Hj. by apply (vr_pt _ _ _ _ (vi_rep _ _ _ _ _ _ Hi)). Qed.
End Inv.
