(* ===== verification/VmOps.v ===== *)
(** * Page tables: the operations

    What [mappages], [deallocuvm], [allocuvm], [freevm], [setupkvm], [copyuvm] and
    [copyout] do to the abstract address space of [VmSpec.v]. *)

From Stdlib Require Import ZArith Lia.
From S2P Require Import Prelude Spinlock Memory Kalloc Vm VmSpec.

(** The entries outside the page numbers from [lo] to [hi]. *)
Definition cut (lo hi : Z) (A : gmap Z Z) : gmap Z Z := filter (fun ve => ~ (lo <= ve.1 < hi)) A.

Lemma cut_lookup lo hi A v : cut lo hi A !! v = if decide (lo <= v < hi) then None else A !! v.
Proof.
  unfold cut. rewrite map_lookup_filter. case_decide as H; destruct (A !! v) as [e|]; cbn; try done.
  - by rewrite option_guard_False by (intros Hn; apply Hn; exact H).
  - by rewrite option_guard_True.
Qed.

Lemma cut_empty lo hi A : hi <= lo -> cut lo hi A = A.
Proof. intros H. apply map_eq. intros v. rewrite cut_lookup. case_decide; [lia|done]. Qed.

Lemma cut_step lo hi A : lo < hi -> cut (lo + 1) hi (delete lo A) = cut lo hi A.
Proof.
  intros H. apply map_eq. intros v. rewrite !cut_lookup. destruct (decide (v = lo)) as [->|Hne].
  - rewrite lookup_delete_eq. repeat case_decide; (done || lia).
  - rewrite lookup_delete_ne by done. repeat case_decide; (done || lia).
Qed.

Lemma cut_skip lo lo' hi A : lo <= lo' -> (forall v, lo <= v < lo' -> A !! v = None) -> cut lo' hi A = cut lo hi A.
Proof.
  intros H Hn. apply map_eq. intros v. rewrite !cut_lookup. repeat case_decide; try done; [lia|]. apply Hn. lia.
Qed.

Lemma cut_subseteq lo hi A : cut lo hi A ⊆ A.
Proof. apply map_filter_subseteq. Qed.

Lemma cut_none lo hi A : (forall v, lo <= v < hi -> A !! v = None) -> cut lo hi A = A.
Proof. intros Hn. apply map_eq. intros v. rewrite cut_lookup. case_decide; [|done]. by rewrite Hn. Qed.

(** Number of the first page not below [sz]. *)
Definition pgceil (sz : Z) : Z := (sz + PGSIZE - 1) / PGSIZE.

Lemma vpn_lt_ceil a sz : a mod PGSIZE = 0 -> a < sz <-> vpn a < pgceil sz.
Proof. unfold vpn, pgceil, PGSIZE. intros. Z.div_mod_to_equations. lia. Qed.

Lemma vpn_next a : vpn (a + PGSIZE) = vpn a + 1.
Proof. unfold vpn. replace (a + PGSIZE) with (a + 1 * PGSIZE) by lia. by rewrite Z.div_add. Qed.

Lemma next_aligned a : a mod PGSIZE = 0 -> (a + PGSIZE) mod PGSIZE = 0.
Proof. intros H. replace (a + PGSIZE) with (a + 1 * PGSIZE) by lia. by rewrite Z_mod_plus_full. Qed.

Lemma roundup_vpn sz : 0 <= sz -> sz + PGSIZE <= 2 ^ 32 ->
  PGROUNDUP sz mod PGSIZE = 0 /\ vpn (PGROUNDUP sz) = pgceil sz /\ sz <= PGROUNDUP sz < sz + PGSIZE.
Proof.
  intros H0 H. rewrite PGROUNDUP_spec by done. unfold vpn, pgceil. split_and!.
  - apply Z_mod_mult.
  - by rewrite Z.div_mul.
  - unfold PGSIZE. Z.div_mod_to_equations. lia.
  - unfold PGSIZE. Z.div_mod_to_equations. lia.
Qed.

(** The address [deallocuvm] jumps to over a missing table. *)
Lemma skip_table a : 0 <= a < KERNBASE -> a mod PGSIZE = 0 ->
  let a' := u32 (u32 (PGADDR (PDX a + 1) 0 0 - PGSIZE) + PGSIZE) in
  a' mod PGSIZE = 0 /\ vpn a < vpn a' /\ a' = 0x400000 * (PDX a + 1) /\ forall v, vpn a <= v < vpn a' -> v / 1024 = PDX a.
Proof.
  intros Ha Hm a'. assert (Hu : is_u32 a) by (unfold is_u32, KERNBASE in *; lia).
  assert (E : a' = 0x400000 * (PDX a + 1)).
  { unfold a', PGADDR. rewrite u32_add_l. replace (_ - PGSIZE + PGSIZE) with
      (Z.lor (Z.lor (u32 (Z.shiftl (PDX a + 1) 22)) (u32 (Z.shiftl 0 12))) 0) by lia.
    change (u32 (Z.shiftl 0 12)) with 0. rewrite !Z.lor_0_r, Z.shiftl_mul_pow2 by lia.
    assert (is_u32 ((PDX a + 1) * 2 ^ 22)).
    { rewrite PDX_spec by done. unfold is_u32, KERNBASE in *. change (2 ^ 22) with 0x400000.
      change (2 ^ 32) with 4294967296. Z.div_mod_to_equations. lia. }
    rewrite !u32_small by (rewrite ?u32_small; done). lia. }
  rewrite E. rewrite PDX_spec by done. unfold vpn, PGSIZE in *. split_and!; [..|done|].
  - Z.div_mod_to_equations. lia.
  - Z.div_mod_to_equations. lia.
  - intros v Hv. Z.div_mod_to_equations. lia.
Qed.

Section Ops.
Context (end_ data_ : Z) (i : nat) (c : cpu) (All : list Z) `{Hmg : !Managed end_ All}.

Notation vm_inv := (@VmSpec.vm_inv end_ i c All).

(** Memory that is the same everywhere. *)
Lemma inv_ext s s' P T A X l :
  vm_inv s P T A X l -> kst_ctx s' = kst_ctx s -> use_lock s' = use_lock s -> freelist s' = freelist s ->
  (forall x, ram s' x = ram s x) -> vm_inv s' P T A X l.
Proof.
  intros [H1 H2 H3 H4] Hc Hu Hf Hm. split; [| | |done].
  - destruct H1 as [H1|H1]; [left; congruence|right]. cbn in *. by rewrite Hc.
  - destruct H2 as [Hl Hp Hn]. split; [|done..]. rewrite Hf. eapply flist_frame; [|done].
    intros q _. by apply load32_agree.
  - eapply rep_agree; [done|]. intros p _ x _. apply Hm.
Qed.

(** Every mapped user page is a managed page that nothing else uses. *)
Lemma user_page s P T A X l v e :
  vm_inv s P T A X l -> A !! v = Some e -> v < UVPN ->
  page_ok end_ (page_of e) /\ page_of e <> P /\ page_of e ∉ tpages T /\ page_of e ∉ X /\ page_of e ∉ l.
Proof.
  intros Hi He Hv. assert (Hin : page_of e ∈ upages A).
  { rewrite <- (upages_delete A v e Hv He). apply list_elem_of_here. }
  assert (Hok : page_ok end_ (page_of e)).
  { eapply inv_page; [done|]. unfold own. set_solver. }
  pose proof (inv_nodup _ _ _ _ _ _ Hi) as Hn. unfold own in Hn. cbn in Hn.
  apply NoDup_cons in Hn as [HnP Hn]. rewrite <- (assoc_L (++)) in Hn. apply NoDup_app in Hn as (_ & HnT & Hn).
  apply NoDup_app in Hn as (_ & HnU & _). split_and!; [done|..].
  - intros HP. apply HnP. rewrite <- HP. set_solver.
  - intros HT. eapply HnT; [done|]. set_solver.
  - intros HX. eapply HnU; [done|]. set_solver.
  - intros Hl. eapply HnU; [done|]. set_solver.
Qed.

(** [kfree(v); *pte = 0]: the page has been given back before the entry is cleared. *)
Lemma wp_unmap_free s P T A X l d t j e Q W :
  vm_inv s P T A X l -> T !! d = Some t -> 0 <= j < 1024 -> 1024 * d + j < UVPN -> A !! (1024 * d + j) = Some e ->
  (forall s' l', vm_inv s' P T (delete (1024 * d + j) A) X l' -> keeps (X ++ upages (delete (1024 * d + j) A)) s s' -> Q tt s') ->
  wp ((kfree end_ (page_of e) ;; wr (t + 4 * j) 0) s) Q W.
Proof.
  intros Hi Ht Hj Hv He HQ. destruct (user_page _ _ _ _ _ _ _ _ Hi He Hv) as (Hq & HqP & HqT & HqX & _).
  destruct (inv_tables _ _ _ _ _ _ Hi) as [Hok Hnd].
  destruct (table_ok end_ P T Hok Hnd d t Ht) as [Htp _].
  assert (HtT : t ∈ P :: tpages T) by (apply list_elem_of_further, elem_of_tpages; by exists d).
  assert (Hne : t <> page_of e) by (intros E; apply HqT; rewrite <- E; apply elem_of_tpages; by exists d).
  assert (Hw : within t (ram s) (store32 (t + 4 * j) 0 (ram s))) by (apply within_store; unfold PGSIZE; lia).
  assert (Hi1 := inv_unmap _ _ _ _ _ _ _ _ _ _ Hi Ht Hj Hv He).
  set (Y := X ++ upages (delete (1024 * d + j) A)).
  assert (Hk1 : keeps Y s (set_ram (store32 (t + 4 * j) 0 (ram s)) s)).
  { eapply keeps_weaken; [|exact (keeps_own _ _ _ _ _ _ _ _ Hi HtT Hw)]. intros p. unfold Y. rewrite !elem_of_app.
    intros [H|H]; [by left|right]. eapply upages_subset; [apply delete_subseteq|done]. }
  assert (Hrun := kfree_run end_ s i c _ Hq (vi_idle _ _ _ _ _ _ Hi)).
  apply wp_step. eapply wp_eq; [exact Hrun|]. cbn [wr modify wp].
  set (s1 := set_ram (store32 (t + 4 * j) 0 (ram s)) s) in *.
  assert (Hrun1 := kfree_run end_ s1 i c _ Hq (vi_idle _ _ _ _ _ _ Hi1)).
  assert (wp (kfree end_ (page_of e) s1) (fun _ s2 => exists l', vm_inv s2 P T (delete (1024 * d + j) A) X l' /\ keeps Y s1 s2) stays) as H2.
  { eapply wp_kfree; [done|]. intros s2 Hi2 Hk2. by eexists. }
  rewrite Hrun1 in H2. cbn [wp] in H2. destruct H2 as (l' & Hi2 & Hk2).
  assert (Hsame : forall x, store32 (t + 4 * j) 0 (store32 (page_of e) (freelist s) (fill (page_of e) PGSIZE 1 (ram s))) x =
    store32 (page_of e) (freelist s1) (fill (page_of e) PGSIZE 1 (ram s1)) x).
  { intros x. destruct Htp as (Htm & _), Hq as (Hqm & _). pose proof (pages_apart _ _ Htm Hqm Hne) as Hap.
    unfold PGSIZE in *. destruct (decide (t + 4 * j <= x < t + 4 * j + 4)).
    - rewrite (store32_out (page_of e)), fill_out by lia. cbn. unfold store32, blit_list. by rewrite !in_range_in by (cbn; lia).
    - rewrite (store32_out (t + 4 * j)) by lia. unfold store32 at 1 2, blit_list.
      destruct (in_range _ _ _); [done|]. unfold fill. destruct (in_range _ _ _); [done|]. cbn. by rewrite store32_out by lia. }
  apply (HQ _ l').
  - eapply inv_ext; [exact Hi2|done..|exact Hsame].
  - destruct (keeps_trans _ _ _ _ Hk1 Hk2) as [Hm Hc Hu]. split; [|done..]. intros p Hp x Hx. cbn. rewrite Hsame. exact (Hm p Hp x Hx).
Qed.

(** *** [deallocuvm] *)

Lemma user_vpn a sz : 0 <= a < sz -> sz <= KERNBASE -> 0 <= vpn a < UVPN /\ is_u32 a.
Proof. unfold vpn, UVPN, KERNBASE, PGSIZE, is_u32. intros. change (2 ^ 32) with 4294967296. Z.div_mod_to_equations. lia. Qed.

Lemma wp_dealloc_loop P T X oldsz W : oldsz <= KERNBASE ->
  forall fuel s A l a (Q : unit -> kst -> Prop),
    vm_inv s P T A X l -> 0 <= a -> a mod PGSIZE = 0 -> a <= KERNBASE -> (Z.to_nat (pgceil oldsz - vpn a) < fuel)%nat ->
    (forall s' l', vm_inv s' P T (cut (vpn a) (pgceil oldsz) A) X l' ->
       keeps (X ++ upages (cut (vpn a) (pgceil oldsz) A)) s s' -> Q tt s') ->
    wp (dealloc_loop end_ fuel P a oldsz s) Q W.
Proof.
  intros Ho. induction fuel as [|fuel IH]; intros s A l a Q Hi Ha0 Ham Hak Hfuel HQ; [lia|]. cbn [dealloc_loop].
  destruct (Z.ltb_spec a oldsz) as [Hlt|Hge]; cbn [negb].
  2: { assert (Hc : pgceil oldsz <= vpn a) by (pose proof (vpn_lt_ceil a oldsz Ham); lia).
       apply (HQ s l); [by rewrite cut_empty|apply keeps_refl]. }
  destruct (user_vpn a oldsz) as [Hv Hu]; [lia|done|]. assert (Hvc := proj1 (vpn_lt_ceil a oldsz Ham) Hlt).
  assert (Hnext : u32 (a + PGSIZE) = a + PGSIZE) by (apply u32_small; unfold is_u32, KERNBASE, PGSIZE in *; lia).
  apply wp_step. destruct (T !! PDX a) as [t|] eqn:Ht.
  - eapply wp_eq; [by eapply walk_hit|]. assert (t + 4 * PTX a <> 0).
    { destruct (inv_tables _ _ _ _ _ _ Hi) as [Hok Hnd]. destruct (table_ok end_ P T Hok Hnd _ _ Ht) as [(_ & He & _) _].
      pose proof (PTX_range a). pose proof (end_pos (All := All)). lia. }
    rewrite (proj2 (Z.eqb_neq _ 0)) by done. apply wp_step. apply wp_step. cbn [rd gets wp].
    rewrite (inv_read _ _ _ _ _ _ _ _ _ Hi Ht (PTX_range a)), vpn_split by done.
    assert (Hstep : forall s1 A1 l1, vm_inv s1 P T A1 X l1 -> keeps (X ++ upages A1) s s1 ->
      cut (vpn a + 1) (pgceil oldsz) A1 = cut (vpn a) (pgceil oldsz) A ->
      wp (dealloc_loop end_ fuel P (u32 (a + PGSIZE)) oldsz s1) Q W).
    { intros s1 A1 l1 Hi1 Hk1 Hcut. rewrite Hnext. eapply IH; [exact Hi1|unfold PGSIZE; lia|by apply next_aligned| | |].
      - pose proof (next_aligned a Ham). unfold KERNBASE, PGSIZE in *. Z.div_mod_to_equations. lia.
      - rewrite vpn_next. lia.
      - intros s' l' Hi' Hk'. rewrite vpn_next, Hcut in Hi', Hk'. eapply HQ; [done|]. eapply keeps_trans; [|done].
        eapply keeps_weaken; [|done]. intros p. rewrite <- Hcut, !elem_of_app. intros [H2|H2]; [by left|right].
        eapply upages_subset; [apply cut_subseteq|done]. }
    destruct (A !! vpn a) as [e|] eqn:He.
    + change (default 0 (Some e)) with e. destruct (vr_ent _ _ _ _ (vi_rep _ _ _ _ _ _ Hi) _ _ He) as (_ & Hodd & _). rewrite present_odd, Hodd. cbn [negb].
      destruct (user_page _ _ _ _ _ _ _ _ Hi He) as [(_ & Hpe & _) _]; [lia|].
      destruct (Z.eqb_spec (PTE_ADDR e) 0) as [E|_].
      { unfold page_of in Hpe. rewrite E in Hpe. change (P2V 0) with KERNBASE in Hpe. pose proof (mg_end (All := All)). lia. }
      fold (page_of e).
      assert (wp ((kfree end_ (page_of e) ;; wr (t + 4 * PTX a) 0) s) (fun _ s1 => exists l1,
        vm_inv s1 P T (delete (vpn a) A) X l1 /\ keeps (X ++ upages (delete (vpn a) A)) s s1) stays) as Hw.
      { rewrite <- vpn_split by done. eapply (wp_unmap_free _ _ _ _ _ _ _ _ (PTX a)); [done|done|apply PTX_range|rewrite vpn_split by done; lia|by rewrite vpn_split|].
        intros s1 l1 Hi1 Hk1. by exists l1. }
      apply wp_Ret in Hw as ([] & s1 & Hrun & l1 & Hi1 & Hk1). unfold bind in Hrun.
      unfold bind. destruct (kfree end_ (page_of e) s) as [[] s0| | | | |]; cbn in *; try done. injection Hrun as <-.
      eapply Hstep; [exact Hi1|exact Hk1|]. by apply cut_step.
    + cbn. eapply Hstep; [exact Hi|apply keeps_refl|]. apply cut_skip; [lia|]. intros v Hv'. by replace v with (vpn a) by lia.
  - eapply wp_eq; [by eapply walk_miss|]. cbn [Z.eqb ret]. apply wp_step. cbn [ret wp].
    destruct (skip_table a ltac:(lia) Ham) as (Hm' & Hlt' & Heq' & Hno). cbv zeta in *.
    set (a' := u32 (u32 (PGADDR (PDX a + 1) 0 0 - PGSIZE) + PGSIZE)) in *.
    eapply IH; [exact Hi| |done| | |].
    + rewrite Heq'. pose proof (PDX_range a). lia.
    + rewrite Heq', PDX_spec by done. unfold KERNBASE in *. Z.div_mod_to_equations. lia.
    + lia.
    + intros s' l' Hi' Hk'. erewrite cut_skip in Hi', Hk'; [by eapply HQ|lia| |lia|];
      intros v Hv'; (destruct (A !! v) as [e|] eqn:He; [|done]);
      destruct (vr_ent _ _ _ _ (vi_rep _ _ _ _ _ _ Hi) _ _ He) as ([t Ht'] & _); rewrite Hno in Ht' by done; congruence.
Qed.

Lemma wp_deallocuvm s P T A X l oldsz newsz Q W :
  vm_inv s P T A X l -> 0 <= newsz < oldsz -> oldsz <= KERNBASE ->
  (forall s' l', vm_inv s' P T (cut (pgceil newsz) (pgceil oldsz) A) X l' ->
     keeps (X ++ upages (cut (pgceil newsz) (pgceil oldsz) A)) s s' -> Q newsz s') ->
  wp (deallocuvm end_ P oldsz newsz s) Q W.
Proof.
  intros Hi Hn Ho HQ. unfold deallocuvm. rewrite (proj2 (Z.leb_gt _ _)) by lia. apply wp_step.
  destruct (roundup_vpn newsz) as (H1 & H2 & H3); [lia|unfold KERNBASE, PGSIZE in *; lia|].
  eapply wp_dealloc_loop; [done|exact Hi|lia|done| | |].
  - unfold KERNBASE, PGSIZE in *. Z.div_mod_to_equations. lia.
  - rewrite H2. unfold pgceil, PGSIZE. Z.div_mod_to_equations. lia.
  - intros s' l' Hi' Hk'. rewrite H2 in Hi', Hk'. by eapply HQ.
Qed.

(** *** [freevm] *)

(** Midway through freeing the tables: those from directory index [n] on are left. *)
Record freeing (s0 : kst) (P : Z) (T : gmap Z Z) (X : list Z) (n : Z) (s : kst) (l : list Z) : Prop := {
  fr_idle : k_idle s i c;
  fr_free : kmem_rep end_ s l;
  fr_pd : forall d, 0 <= d < 1024 -> load32 (ram s) (P + 4 * d) = pde_of (T !! d);
  fr_all : P :: tpages (filter (fun dt => n <= dt.1) T) ++ X ++ l ≡ₚ All;
  fr_keeps : keeps X s0 s
}.

(** Giving back a page that is neither free nor in use elsewhere. *)
Lemma wp_kfree_page s0 s l q Y Q W :
  k_idle s i c -> kmem_rep end_ s l -> q :: Y ++ l ≡ₚ All -> keeps Y s0 s ->
  (forall s', k_idle s' i c -> kmem_rep end_ s' (q :: l) -> keeps Y s0 s' -> Q tt s') ->
  wp (kfree end_ q s) Q W.
Proof.
  intros Hid Hf Ha Hk HQ.
  assert (Hok : Forall (page_ok end_) (q :: Y ++ l)) by (rewrite Ha; exact (All_ok (All := All))).
  assert (Hnd : NoDup (q :: Y ++ l)) by (rewrite Ha; exact (All_nodup (All := All))).
  apply Forall_cons in Hok as [Hq HY]. apply NoDup_cons in Hnd as [Hn _]. apply not_elem_of_app in Hn as [HnY Hnl].
  eapply wp_eq; [by eapply kfree_run|].
  assert (Hw : within q (ram s) (store32 q (freelist s) (fill q PGSIZE 1 (ram s)))).
  { eapply within_trans; [apply within_fill|]. apply within_store; unfold PGSIZE; lia. }
  apply HQ; [done| |].
  - apply kfree_rep; [done..|]. by eapply kmem_head_u32.
  - eapply keeps_trans; [done|]. apply Forall_app in HY as [HY _]. destruct (keeps_write Y s _ q HY Hq HnY Hw). by split.
Qed.

Lemma filter_next (T : gmap Z Z) n : T !! n = None -> filter (fun dt => n <= dt.1) T = filter (fun dt => n + 1 <= dt.1) T.
Proof.
  intros H. apply map_eq. intros d. rewrite !map_lookup_filter. destruct (decide (d = n)) as [->|Hne]; [by rewrite H|].
  destruct (T !! d); [|done]. cbn. repeat case_guard; cbn in *; (done || lia).
Qed.

Lemma filter_here (T : gmap Z Z) n t : T !! n = Some t ->
  tpages (filter (fun dt => n <= dt.1) T) ≡ₚ t :: tpages (filter (fun dt => n + 1 <= dt.1) T).
Proof.
  intros H. rewrite <- tpages_insert.
  - f_equiv. apply map_eq. intros d. destruct (decide (d = n)) as [->|Hne].
    + rewrite lookup_insert_eq, map_lookup_filter, H. cbn. case_guard; cbn in *; (done || lia).
    + rewrite lookup_insert_ne, !map_lookup_filter by done. destruct (T !! d); [|done]. cbn.
      repeat case_guard; cbn in *; (done || lia).
  - rewrite map_lookup_filter, H. cbn. case_guard; cbn in *; (done || lia).
Qed.

Lemma wp_free_table s0 P T X n s l :
  0 <= n < 1024 -> freeing s0 P T X n s l ->
  wp (free_table end_ P n s) (fun _ s' => exists l', freeing s0 P T X (n + 1) s' l') stays.
Proof.
  intros Hn [Hid Hf Hpd Ha Hk]. unfold free_table. apply wp_step. cbn [rd gets wp]. rewrite Hpd by done.
  destruct (T !! n) as [t|] eqn:Ht; cbn [pde_of].
  - rewrite (filter_here T n t Ht) in Ha.
    assert (Hok : Forall (page_ok end_) (t :: (P :: tpages (filter (fun dt => n + 1 <= dt.1) T) ++ X) ++ l)).
    { eapply Permutation_Forall; [|exact (All_ok (All := All))]. rewrite <- Ha. cbn. rewrite <- !app_assoc. apply Permutation_swap. }
    apply Forall_cons in Hok as [Htp _]. destruct (table_pde t Htp) as [-> ->]. cbn [when].
    eapply (wp_kfree_page s s l t (P :: tpages (filter (fun dt => n + 1 <= dt.1) T) ++ X)); [done|done| |apply keeps_refl|].
    + rewrite <- Ha. cbn. rewrite <- !app_assoc. apply Permutation_swap.
    + intros s' Hid' Hf' Hk'. exists (t :: l). split; [done|done| | |].
      * intros d Hd. rewrite <- Hpd by done. eapply agree_load; [apply (kp_mem _ _ _ Hk'), list_elem_of_here|lia|unfold PGSIZE; lia].
      * rewrite <- Ha. cbn. by rewrite <- !Permutation_middle.
      * eapply keeps_trans; [done|]. eapply keeps_weaken; [|done]. intros p Hp. set_solver.
  - cbn. exists l. split; try done. by rewrite <- filter_next.
Qed.

Lemma cut_user A : upages (cut 0 UVPN A) = [] \/ exists v e, A !! v = Some e /\ v < 0.
Proof.
  destruct (decide (user_map (cut 0 UVPN A) = ∅)) as [E|E]; [left; unfold upages; by rewrite E, map_to_list_empty|right].
  apply map_choose in E as (v & e & H). apply map_lookup_filter_Some in H as [H Hv]. rewrite cut_lookup in H.
  case_decide as Hd; [done|]. exists v, e. split; [done|]. cbn in Hv. lia.
Qed.

Lemma wp_freevm s P T A X l Q W :
  vm_inv s P T A X l ->
  (forall s' l', k_idle s' i c -> kmem_rep end_ s' l' -> X ++ l' ≡ₚ All -> keeps X s s' -> Q tt s') ->
  wp (freevm end_ P s) Q W.
Proof.
  intros Hi HQ. unfold freevm. destruct (inv_tables _ _ _ _ _ _ Hi) as [Hok _].
  apply Forall_cons in Hok as [(_ & HP & _) _]. rewrite (proj2 (Z.eqb_neq P 0)) by (pose proof (end_pos (All := All)); lia).
  apply wp_step. eapply wp_deallocuvm; [exact Hi|unfold KERNBASE; lia|done|]. intros s1 l1 Hi1 Hk1'.
  assert (Hk1 : keeps X s s1) by (eapply keeps_weaken; [|exact Hk1']; set_solver).
  change (pgceil 0) with 0 in Hi1. change (pgceil KERNBASE) with UVPN in Hi1.
  assert (Hup : upages (cut 0 UVPN A) = []).
  { destruct (cut_user A) as [E|(v & e & He & Hv)]; [done|]. exfalso.
    destruct (vr_ent _ _ _ _ (vi_rep _ _ _ _ _ _ Hi) _ _ He) as ([t Ht] & _).
    apply (vr_dom _ _ _ _ (vi_rep _ _ _ _ _ _ Hi)) in Ht. Z.div_mod_to_equations. lia. }
  apply wp_step. eapply wp_mono.
  - apply (wp_forM _ _ (fun n t => exists l', freeing s P T X (Z.of_nat n) t l')).
    + exists l1. destruct Hi1 as [H1 H2 H3 H4]. split; [done|done|apply H3| |done].
      rewrite <- H4. unfold own. rewrite Hup, app_nil_r, map_filter_id; [done|].
      intros d t Ht. apply (vr_dom _ _ _ _ H3 d t) in Ht. cbn. lia.
    + intros n z t Hz [l' Hl']. apply list_lookup_fmap_Some in Hz as (k & -> & Hk). apply lookup_seq in Hk as [-> Hk].
      replace (Z.of_nat (S n)) with (Z.of_nat (0 + n) + 1) by lia. eapply wp_free_table; [lia|exact Hl'].
  - cbn. intros _ t [l' [H1 H2 _ H4 H5]]. 
    replace (filter _ T) with (∅ : gmap Z Z) in H4.
    2: { symmetry. apply map_empty. intros d. apply map_lookup_filter_None_2. right. intros t' Ht'.
         apply (vr_dom _ _ _ _ (vi_rep _ _ _ _ _ _ Hi)) in Ht'. cbn. lia. }
    eapply (wp_kfree_page s t l' P X); [done|done|exact H4|done|]. intros s' Hid' Hf' Hk'. apply (HQ s' (P :: l')); try done.
    rewrite <- H4. cbn. by rewrite <- Permutation_middle.
  - done.
Qed.

(** *** [mappages] *)

Lemma entry_value pa perm :
  pa mod PGSIZE = 0 -> 0 <= perm < PGSIZE -> Z.lor (Z.lor pa perm) PTE_P = pa + Z.lor perm 1.
Proof. intros Hp Hf. unfold PTE_P. rewrite <- Z.lor_assoc. apply lor_page; [done|]. by apply lor_odd. Qed.

Lemma odd_page pa f : pa mod PGSIZE = 0 -> Z.odd (pa + f) = Z.odd f.
Proof. intros H. rewrite (Z.div_mod pa PGSIZE), H by done. by rewrite Z.add_0_r, Z.odd_add, Z.odd_mul. Qed.

(** One turn of the loop: the entry is written, or there was no page for the table. *)
Lemma wp_map_turn s P T A X l fuel a last pa perm Q W :
  vm_inv s P T A X l -> is_u32 a -> A !! vpn a = None ->
  (l = [] -> Q (-1) s) ->
  (forall s1 T1 l1 t, vm_inv s1 P T1 A X l1 -> T1 !! PDX a = Some t -> keeps (X ++ upages A) s s1 ->
     wp ((wr (t + 4 * PTX a) (Z.lor (Z.lor pa perm) PTE_P) ;;
          if a =? last then ret 0 else map_loop fuel P (u32 (a + PGSIZE)) last (u32 (pa + PGSIZE)) perm) s1) Q W) ->
  wp (map_loop (S fuel) P a last pa perm s) Q W.
Proof.
  intros Hi Hu HA H0 H1. cbn [map_loop]. apply wp_step. eapply wp_walk; [exact Hi|by intros _|].
  intros t T1 l1 s1 Ht _ Hi1 Hk1 Hne. rewrite (proj2 (Z.eqb_neq _ 0)) by done. apply wp_step. cbn [rd gets wp].
  rewrite (inv_read _ _ _ _ _ _ _ _ _ Hi1 Ht (PTX_range a)), vpn_split, HA by done. cbn. by eapply H1.
Qed.

(** A user page. *)
Lemma wp_map_user s P T A q X l va perm Q W :
  vm_inv s P T A (q :: X) l -> 0 <= va < KERNBASE -> va mod PGSIZE = 0 -> A !! vpn va = None -> 0 <= perm < PGSIZE ->
  (l = [] -> Q (-1) s) ->
  (forall s' T' l', vm_inv s' P T' (<[vpn va := V2P q + Z.lor perm 1]> A) X l' -> keeps ((q :: X) ++ upages A) s s' -> Q 0 s') ->
  wp (mappages P va PGSIZE (V2P q) perm s) Q W.
Proof.
  intros Hi Hva Hm HA Hperm H0 H1. unfold mappages. assert (Hu : is_u32 va) by (unfold is_u32, KERNBASE in *; lia).
  assert (E1 : PGROUNDDOWN va = va) by (rewrite PGROUNDDOWN_spec by done; unfold PGSIZE in *; Z.div_mod_to_equations; lia).
  assert (E2 : PGROUNDDOWN (u32 (va + PGSIZE - 1)) = va).
  { rewrite u32_small, PGROUNDDOWN_spec; unfold is_u32, KERNBASE, PGSIZE in *; [Z.div_mod_to_equations; lia|lia|lia]. }
  rewrite E1, E2, Z.sub_diag. change (S (Z.to_nat (u32 0 / PGSIZE))) with 1%nat.
  eapply wp_map_turn; [exact Hi|done|done|done|]. intros s1 T1 l1 t Hi1 Ht Hk1. apply wp_step. cbn [wr modify wp].
  rewrite Z.eqb_refl. cbn [ret wp]. destruct (inv_fresh _ _ _ _ _ _ _ Hi1) as [Hq _].
  destruct (lor_odd perm Hperm) as [Hf Hodd].
  rewrite entry_value by (try done; apply V2P_aligned; by destruct Hq).
  assert (Hv : vpn va < UVPN) by (unfold vpn, UVPN, PGSIZE, KERNBASE in *; Z.div_mod_to_equations; lia).
  apply (H1 _ T1 l1).
  - rewrite <- (vpn_split va) by done. apply (inv_map_user _ _ _ _ _ _ _ _ _ _ _ Hi1 Ht (PTX_range va)); rewrite ?vpn_split by done; done.
  - eapply keeps_trans; [exact Hk1|]. eapply (keeps_own _ P T1 A (q :: X) _ _ t Hi1).
    + apply list_elem_of_further, elem_of_tpages. by eexists.
    + pose proof (PTX_range va). apply within_store; unfold PGSIZE; lia.
Qed.

(** [n] pages from [v] on mapped to physical memory from [pa] on. *)
Fixpoint add_range (n : nat) (v pa f : Z) (A : gmap Z Z) : gmap Z Z :=
  match n with
  | O => A
  | S n => add_range n (v + 1) (pa + PGSIZE) f (<[v := pa + f]> A)
  end.

Lemma add_range_lookup n v pa f A w :
  add_range n v pa f A !! w = if decide (v <= w < v + Z.of_nat n) then Some (pa + (w - v) * PGSIZE + f) else A !! w.
Proof.
  revert v pa A. induction n as [|n IH]; intros v pa A; cbn [add_range]; [case_decide; [lia|done]|].
  rewrite IH. destruct (decide (w = v)) as [->|Hne].
  - rewrite lookup_insert_eq. repeat case_decide; try lia. f_equal. lia.
  - rewrite lookup_insert_ne by done. repeat case_decide; try lia; [|done]. f_equal. unfold PGSIZE. lia.
Qed.

Lemma kern_range n v pa f A : UVPN <= v -> upages (add_range n v pa f A) = upages A.
Proof. revert v pa A. induction n as [|n IH]; intros v pa A Hv; cbn [add_range]; [done|]. rewrite IH by lia. by apply upages_insert_kern. Qed.

(** A range of the kernel. *)
Lemma wp_map_kern_loop P X perm last W : 0 <= perm < PGSIZE -> is_u32 last -> last mod PGSIZE = 0 ->
  forall n fuel s T A l a pa (Q : Z -> kst -> Prop),
    vm_inv s P T A X l -> KERNBASE <= a -> a mod PGSIZE = 0 -> last = a + Z.of_nat n * PGSIZE -> (n < fuel)%nat ->
    pa mod PGSIZE = 0 -> 0 <= pa -> pa + Z.of_nat n * PGSIZE + PGSIZE <= 2 ^ 32 ->
    (forall v, vpn a <= v <= vpn last -> A !! v = None) ->
    (forall s' T' A', vm_inv s' P T' A' X [] -> upages A' = upages A -> keeps (X ++ upages A) s s' -> Q (-1) s') ->
    (forall s' T' l', vm_inv s' P T' (add_range (S n) (vpn a) pa (Z.lor perm 1) A) X l' -> keeps (X ++ upages A) s s' -> Q 0 s') ->
    wp (map_loop fuel P a last pa perm s) Q W.
Proof.
  intros Hperm Hlu Hlm. induction n as [|n IH]; intros fuel s T A l a pa Q Hi Ha Ham Hlast Hfuel Hpm Hp0 Hpt HA H0 H1;
    (destruct fuel as [|fuel]; [lia|]); (assert (Hu : is_u32 a) by (unfold is_u32, PGSIZE, KERNBASE in *; lia)).
  all: eapply wp_map_turn; [exact Hi|done|apply HA; unfold vpn, PGSIZE in *; Z.div_mod_to_equations; lia|intros ->; by eapply H0; [..|apply keeps_refl]|].
  all: intros s1 T1 l1 t Hi1 Ht Hk1; apply wp_step; cbn [wr modify wp].
  all: rewrite entry_value by done; destruct (lor_odd perm Hperm) as [Hf Hodd].
  all: assert (Hv : UVPN <= vpn a) by (unfold vpn, UVPN, PGSIZE, KERNBASE in *; Z.div_mod_to_equations; lia).
  all: assert (Heu : is_u32 (pa + Z.lor perm 1)) by (unfold is_u32, PGSIZE in *; lia).
  all: assert (Heo : Z.odd (pa + Z.lor perm 1) = true) by (by rewrite odd_page).
  all: assert (Hi2 := inv_map_kern _ _ _ _ _ _ _ _ _ _ Hi1 Ht (PTX_range a) ltac:(by rewrite vpn_split) Heo Heu);
    rewrite vpn_split in Hi2 by done.
  all: assert (Hk2 : keeps (X ++ upages A) s (set_ram (store32 (t + 4 * PTX a) (pa + Z.lor perm 1) (ram s1)) s1));
    [eapply keeps_trans; [exact Hk1|]; eapply (keeps_own _ P T1 A X _ _ t Hi1);
       [apply list_elem_of_further, elem_of_tpages; by eexists|pose proof (PTX_range a); apply within_store; unfold PGSIZE; lia]|].
  - rewrite (proj2 (Z.eqb_eq _ _)) by lia. by eapply (H1 _ T1 l1).
  - rewrite (proj2 (Z.eqb_neq _ _)) by (unfold PGSIZE in *; lia).
    rewrite !u32_small by (unfold is_u32, PGSIZE, KERNBASE in *; lia).
    eapply IH; [exact Hi2|unfold PGSIZE; lia|by apply next_aligned|unfold PGSIZE in *; lia|lia|by apply next_aligned|unfold PGSIZE in *; lia|unfold PGSIZE in *; lia| | |].
    + rewrite vpn_next. intros v Hv'. rewrite lookup_insert_ne by lia. apply HA. lia.
    + rewrite upages_insert_kern by done. intros s' T' A' Hi' Hu' Hk'. eapply H0; [exact Hi'|done|by eapply keeps_trans].
    + rewrite vpn_next, upages_insert_kern by done. intros s' T' l' Hi' Hk'. eapply H1; [exact Hi'|by eapply keeps_trans].
Qed.

Lemma wp_map_row s P T A X l va n pa perm Q W :
  vm_inv s P T A X l -> 1 <= n -> KERNBASE <= va -> va mod PGSIZE = 0 -> va + n * PGSIZE <= 2 ^ 32 ->
  0 <= pa -> pa mod PGSIZE = 0 -> pa + n * PGSIZE <= 2 ^ 32 -> 0 <= perm < PGSIZE ->
  (forall v, vpn va <= v < vpn va + n -> A !! v = None) ->
  (forall s' T' A', vm_inv s' P T' A' X [] -> upages A' = upages A -> keeps (X ++ upages A) s s' -> Q (-1) s') ->
  (forall s' T' l', vm_inv s' P T' (add_range (Z.to_nat n) (vpn va) pa (Z.lor perm 1) A) X l' -> keeps (X ++ upages A) s s' -> Q 0 s') ->
  wp (mappages P va (n * PGSIZE) pa perm s) Q W.
Proof.
  intros Hi Hn Hva Hm Ht Hp0 Hpm Hpt Hperm HA H0 H1. unfold mappages.
  assert (E1 : PGROUNDDOWN va = va).
  { rewrite PGROUNDDOWN_spec; unfold is_u32, KERNBASE, PGSIZE in *; [Z.div_mod_to_equations; lia|lia]. }
  assert (E2 : PGROUNDDOWN (u32 (va + n * PGSIZE - 1)) = va + (n - 1) * PGSIZE).
  { rewrite u32_small, PGROUNDDOWN_spec; unfold is_u32, KERNBASE, PGSIZE in *; [|lia..].
    change (2 ^ 32) with 4294967296 in *. Z.div_mod_to_equations. lia. }
  rewrite E1, E2. replace (va + (n - 1) * PGSIZE - va) with ((n - 1) * PGSIZE) by lia.
  rewrite u32_small by (unfold is_u32, KERNBASE, PGSIZE in *; lia). rewrite Z.div_mul by done.
  eapply (wp_map_kern_loop P X perm _ W Hperm); [| |exact Hi|done|done| |apply Nat.lt_succ_diag_r|done|done| | |done|].
  - unfold is_u32, KERNBASE, PGSIZE in *; lia.
  - by rewrite Z_mod_plus_full.
  - unfold PGSIZE. lia.
  - unfold PGSIZE in *. lia.
  - intros v Hv. apply HA. unfold vpn in *. rewrite Z.div_add in Hv by done. lia.
  - replace (S (Z.to_nat (n - 1))) with (Z.to_nat n) by lia. done.
Qed.

(** *** Running out of memory *)

(** There are not enough pages for an address space of [n] user pages: at most 1024 tables,
    the directory, and a page that is not mapped yet. *)
Definition short (X : list Z) (n : Z) : Prop := Z.of_nat (length All) <= Z.of_nat (length X) + 1026 + n.

Lemma tables_max m P T A : vm_rep m P T A -> (length (tpages T) <= 1024)%nat.
Proof.
  intros Hr. unfold tpages. rewrite length_fmap. rewrite <- (length_fmap (fun dt => Z.to_nat (fst dt)) (map_to_list T)). apply length_below.
  - apply NoDup_fmap_2_strong; [|apply NoDup_map_to_list]. intros [d t] [d' t'] Hd%elem_of_map_to_list Hd'%elem_of_map_to_list E. cbn in E.
    pose proof (vr_dom _ _ _ _ Hr _ _ Hd). pose proof (vr_dom _ _ _ _ Hr _ _ Hd'). assert (d = d') as <- by lia. congruence.
  - apply Forall_forall. intros k Hk. apply list_elem_of_fmap in Hk as ([d t] & -> & Hd%elem_of_map_to_list). pose proof (vr_dom _ _ _ _ Hr _ _ Hd). cbn. lia.
Qed.

Lemma inv_short s P T A X n : vm_inv s P T A X [] -> Z.of_nat (length (upages A)) <= n + 1 -> short X n.
Proof.
  intros Hi Hn. unfold short. rewrite <- (vi_all _ _ _ _ _ _ Hi). pose proof (tables_max _ _ _ _ (vi_rep _ _ _ _ _ _ Hi)). unfold own.
  rewrite !length_app. cbn [length]. rewrite length_app. lia.
Qed.

(** *** [setupkvm] *)

(** The pages outside any address space: used elsewhere, or free. *)
Record mem_inv (s : kst) (X l : list Z) : Prop := {
  mi_idle : k_idle s i c;
  mi_free : kmem_rep end_ s l;
  mi_all : X ++ l ≡ₚ All
}.

(** A fresh directory is the empty address space. *)
Lemma inv_fresh_dir s q X l m' :
  k_idle s i c -> kmem_rep end_ s l -> q :: X ++ l ≡ₚ All -> within q (ram s) m' -> (forall j, 0 <= j < 1024 -> load32 m' (q + 4 * j) = 0) ->
  vm_inv (set_ram m' s) q ∅ ∅ X l.
Proof.
  intros Hid Hf Ha Hw Hz. split; [done| | |done].
  - apply kmem_agree; [done|]. intros p Hp.
    assert (Hnd : NoDup (q :: X ++ l)) by (rewrite Ha; exact (All_nodup (All := All))).
    assert (Hok : Forall (page_ok end_) (q :: X ++ l)) by (rewrite Ha; exact (All_ok (All := All))).
    apply Forall_cons in Hok as [Hq Hok]. apply NoDup_cons in Hnd as [Hn _].
    eapply within_agree; [done|done|eapply Forall_at; [exact Hok|set_solver]|]. intros ->. set_solver.
  - split.
    + intros d Hd. by rewrite Hz, lookup_empty.
    + by intros d t [=].
    + by intros d t j [=].
    + by intros v e [=].
Qed.

(** What the kernel part of every address space maps. *)
Definition kentry (v : Z) : option Z :=
  if decide (vpn KERNBASE <= v < vpn KERNLINK) then Some ((v - vpn KERNBASE) * PGSIZE + 3) else
  if decide (vpn KERNLINK <= v < vpn data_) then Some ((v - vpn KERNBASE) * PGSIZE + 1) else
  if decide (vpn data_ <= v < vpn (KERNBASE + PHYSTOP)) then Some ((v - vpn KERNBASE) * PGSIZE + 3) else
  if decide (vpn DEVSPACE <= v < 0x100000) then Some (v * PGSIZE + 3) else None.

Definition kernel_map : gmap Z Z :=
  add_range (Z.to_nat 0x2000) (vpn DEVSPACE) DEVSPACE 3
    (add_range (Z.to_nat (vpn (KERNBASE + PHYSTOP) - vpn data_)) (vpn data_) (V2P data_) 3
      (add_range (Z.to_nat (vpn data_ - vpn KERNLINK)) (vpn KERNLINK) EXTMEM 1
        (add_range (Z.to_nat 0x100) (vpn KERNBASE) 0 3 ∅))).

Section Kernel.
Hypothesis data_page : data_ mod PGSIZE = 0.
Hypothesis data_range : KERNLINK < data_ < KERNBASE + PHYSTOP.

Lemma data_vpn : data_ = vpn data_ * PGSIZE /\ 0x80100 < vpn data_ < 0x8E000 /\ V2P data_ = (vpn data_ - 0x80000) * PGSIZE.
Proof.
  unfold V2P. rewrite u32_small by (unfold is_u32, KERNLINK, EXTMEM, KERNBASE, PHYSTOP in *; lia).
  unfold vpn, PGSIZE, KERNLINK, EXTMEM, KERNBASE, PHYSTOP in *. Z.div_mod_to_equations. lia.
Qed.

Lemma kernel_map_lookup v : kernel_map !! v = kentry v.
Proof.
  destruct data_vpn as (_ & Hr & Hp). unfold kernel_map, kentry. rewrite !add_range_lookup, lookup_empty, Hp.
  change (vpn KERNBASE) with 0x80000. change (vpn KERNLINK) with 0x80100. change (vpn (KERNBASE + PHYSTOP)) with 0x8E000.
  change (vpn DEVSPACE) with 0xFE000. unfold EXTMEM, DEVSPACE, PGSIZE.
  repeat case_decide; try lia; try done; f_equal; lia.
Qed.

(** The loop over [kmap], row by row. *)
Lemma wp_rows_nil s P T A X l Q W : vm_inv s P T A X l -> Q true s -> wp (map_rows [] P s) Q W.
Proof. done. Qed.

Lemma wp_rows_cons s P T A X l va n pa pend perm rows Q W :
  vm_inv s P T A X l -> u32 (pend - pa) = n * PGSIZE -> 1 <= n -> KERNBASE <= va -> va mod PGSIZE = 0 -> va + n * PGSIZE <= 2 ^ 32 ->
  0 <= pa -> pa mod PGSIZE = 0 -> pa + n * PGSIZE <= 2 ^ 32 -> 0 <= perm < PGSIZE ->
  (forall v, vpn va <= v < vpn va + n -> A !! v = None) ->
  (forall s' T' A', vm_inv s' P T' A' X [] -> upages A' = upages A -> keeps X s s' -> Q false s') ->
  (forall s' T' l', vm_inv s' P T' (add_range (Z.to_nat n) (vpn va) pa (Z.lor perm 1) A) X l' -> keeps X s s' ->
     wp (map_rows rows P s') Q W) ->
  wp (map_rows ((va, pa, pend, perm) :: rows) P s) Q W.
Proof.
  intros Hi Hn H1 Hva Hm Ht Hp0 Hpm Hpt Hperm HA H0 HQ. cbn [map_rows]. apply wp_step. rewrite Hn.
  eapply wp_map_row; [exact Hi|done..| |].
  - intros s' T' A' Hi' Hu' Hk'. eapply H0; [exact Hi'|done|]. eapply keeps_weaken; [|exact Hk']. set_solver.
  - intros s' T' l' Hi' Hk'. eapply HQ; [exact Hi'|]. eapply keeps_weaken; [|exact Hk']. set_solver.
Qed.

Lemma wp_kmap s P X l Q W :
  vm_inv s P ∅ ∅ X l ->
  (forall s' T' A', vm_inv s' P T' A' X [] -> upages A' = [] -> keeps X s s' -> Q false s') ->
  (forall s' T' l', vm_inv s' P T' kernel_map X l' -> keeps X s s' -> Q true s') ->
  wp (map_rows (kmap data_) P s) Q W.
Proof.
  intros Hi H0 H1. destruct data_vpn as (Hd & Hr & Hp). unfold kmap. change (V2P KERNLINK) with EXTMEM.
  assert (Hk : vpn KERNBASE = 0x80000 /\ vpn KERNLINK = 0x80100 /\ vpn DEVSPACE = 0xFE000 /\ vpn (KERNBASE + PHYSTOP) = 0x8E000) by done.
  destruct Hk as (Hk1 & Hk2 & Hk3 & Hk4).
  eapply (wp_rows_cons _ _ _ _ _ _ _ 0x100); [exact Hi|done..| | |]; [by intros v _; apply lookup_empty|exact H0|].
  intros s1 T1 l1 Hi1 Hs1.
  eapply (wp_rows_cons _ _ _ _ _ _ _ (vpn data_ - vpn KERNLINK)); [exact Hi1| |lia|done|done| |done|done| |done| | |].
  { rewrite Hp, u32_small by (unfold is_u32, EXTMEM, PGSIZE; lia). rewrite Hk2. unfold EXTMEM, PGSIZE. lia. }
  { rewrite Hk2. unfold KERNLINK, KERNBASE, EXTMEM, PGSIZE in *. lia. }
  { rewrite Hk2. unfold EXTMEM, PGSIZE in *. lia. }
  { intros v Hv. rewrite add_range_lookup, lookup_empty. case_decide; [lia|done]. }
  { intros s' T' A' Hi' Hu' Hk'. rewrite !kern_range in Hu' by (unfold UVPN; lia). eapply H0; [exact Hi'|done|by eapply keeps_trans]. }
  intros s2 T2 l2 Hi2 Hs2.
  eapply (wp_rows_cons _ _ _ _ _ _ _ (vpn (KERNBASE + PHYSTOP) - vpn data_)); [exact Hi2| |lia| |done| | | | |done| | |].
  { rewrite Hp, u32_small by (unfold is_u32, PHYSTOP, PGSIZE; lia). rewrite Hk4. unfold PHYSTOP, PGSIZE. lia. }
  { unfold KERNLINK, EXTMEM in *. lia. }
  { rewrite Hk4. unfold PGSIZE in *. lia. }
  { rewrite Hp. unfold PGSIZE. lia. }
  { by apply V2P_aligned. }
  { rewrite Hp, Hk4. unfold PGSIZE in *. lia. }
  { intros v Hv. rewrite !add_range_lookup, lookup_empty. repeat case_decide; (lia || done). }
  { intros s' T' A' Hi' Hu' Hk'. rewrite !kern_range in Hu' by (unfold UVPN; lia). eapply H0; [exact Hi'|done|]. by do 2 (eapply keeps_trans; [done|]). }
  intros s3 T3 l3 Hi3 Hs3.
  eapply (wp_rows_cons _ _ _ _ _ _ _ 0x2000); [exact Hi3|done..| | |].
  { intros v Hv. rewrite !add_range_lookup, lookup_empty. repeat case_decide; (lia || done). }
  { intros s' T' A' Hi' Hu' Hk'. rewrite !kern_range in Hu' by (unfold UVPN; lia). eapply H0; [exact Hi'|done|]. by do 3 (eapply keeps_trans; [done|]). }
  intros s4 T4 l4 Hi4 Hs4. eapply wp_rows_nil; [exact Hi4|]. eapply H1; [exact Hi4|].
  by do 3 (eapply keeps_trans; [done|]).
Qed.

(** The directory is a page of its own; without memory everything is given back. *)
Lemma wp_setupkvm s X l Q W :
  mem_inv s X l ->
  (forall s' l', mem_inv s' X l' -> short X 0 -> keeps X s s' -> Q 0 s') ->
  (forall s' P T l', vm_inv s' P T kernel_map X l' -> keeps X s s' -> P <> 0 -> Q P s') ->
  wp (setupkvm end_ data_ s) Q W.
Proof.
  intros Hi H0 H1. destruct Hi as [Hid Hf Ha]. unfold setupkvm. apply wp_step. eapply wp_eq; [by eapply kalloc_run|].
  destruct l as [|q l].
  { assert (Hf' := kr_list _ _ _ Hf). cbn in Hf'. rewrite Hf'. cbn. eapply H0; [by split| |apply keeps_refl].
    unfold short. rewrite <- Ha, app_nil_r. lia. }
  destruct Hf as [[Hq Hl] Hp Hn]. rewrite Hq. apply Forall_cons in Hp as [Hqok Hp].
  assert (Hq0 : q <> 0) by (destruct Hqok as (_ & ? & _); pose proof (end_pos (All := All)); lia).
  apply NoDup_cons in Hn as [_ Hn]. rewrite (proj2 (Z.eqb_neq q 0)) by done. apply wp_step. cbn [memset0 modify wp].
  change (DEVSPACE <? P2V PHYSTOP) with false. cbn iota.
  set (s1 := set_freelist (load32 (ram s) q) s). apply wp_step.
  assert (Hall : q :: X ++ l ≡ₚ All) by (rewrite <- Ha; by rewrite <- Permutation_middle).
  assert (Hi1 : vm_inv (set_ram (fill q PGSIZE 0 (ram s1)) s1) q ∅ ∅ X l).
  { apply inv_fresh_dir; [done|by split|done|apply within_fill|].
    intros j Hj. rewrite load32_fill by (unfold PGSIZE; lia). lia. }
  assert (Hk1 : keeps X s (set_ram (fill q PGSIZE 0 (ram s1)) s1)).
  { assert (Hok : Forall (page_ok end_) (q :: X ++ l)) by (rewrite Hall; exact (All_ok (All := All))).
    assert (Hnd : NoDup (q :: X ++ l)) by (rewrite Hall; exact (All_nodup (All := All))).
    apply Forall_cons in Hok as [_ Hok]. apply Forall_app in Hok as [Hok _]. apply NoDup_cons in Hnd as [Hnd _].
    destruct (keeps_write X s1 _ q Hok Hqok ltac:(set_solver) (within_fill q 0 _)). by split. }
  eapply wp_kmap; [exact Hi1| |].
  - intros s' T' A' Hi' Hu' Hk'. apply wp_step. eapply wp_freevm; [exact Hi'|]. intros s2 l2 Hid2 Hf2 Ha2 Hk2. cbn [ret wp].
    eapply H0; [by split|eapply inv_short; [exact Hi'|rewrite Hu'; cbn; lia]|]. eapply keeps_trans; [exact Hk1|]. by eapply keeps_trans.
  - intros s' T' l' Hi' Hk'. cbn [ret wp]. eapply H1; [exact Hi'|by eapply keeps_trans|done].
Qed.
End Kernel.

(** *** [allocuvm] *)

Definition zero_page (m : memory) (p : Z) : Prop := forall x, p <= x < p + PGSIZE -> m x = 0.

Lemma zero_keeps Y s s' p : keeps Y s s' -> p ∈ Y -> zero_page (ram s) p -> zero_page (ram s') p.
Proof. intros Hk Hp Hz x Hx. rewrite (kp_mem _ _ _ Hk p Hp x Hx). by apply Hz. Qed.

(** The pages from [lo] to [hi] are mapped for the user, and zero; the other entries
    are those of [A0]. *)
Record grown (A0 A : gmap Z Z) (lo hi : Z) (m : memory) : Prop := {
  gr_old : forall v, ~ (lo <= v < hi) -> A !! v = A0 !! v;
  gr_new : forall v, lo <= v < hi -> exists e, A !! v = Some e /\ PTE_FLAGS e = 7 /\ zero_page m (page_of e)
}.

Lemma grown_cut A0 A lo mid hi m :
  grown A0 A lo mid m -> mid <= hi -> (forall v, lo <= v < hi -> A0 !! v = None) -> cut lo hi A = A0.
Proof.
  intros [Ho _] Hm Hn. apply map_eq. intros v. rewrite cut_lookup. case_decide; [by rewrite Hn|]. apply Ho. lia.
Qed.

Lemma grown_step s1 s' A0 A lo v q X :
  grown A0 A lo v (ram s1) -> lo <= v -> v < UVPN -> page_ok end_ q -> zero_page (ram s1) q -> keeps ((q :: X) ++ upages A) s1 s' ->
  grown A0 (<[v := V2P q + 7]> A) lo (v + 1) (ram s').
Proof.
  intros [Ho Hn] Hlo Hu Hq Hz Hk. split.
  - intros w Hw. rewrite lookup_insert_ne by lia. apply Ho. lia.
  - intros w Hw. destruct (decide (w = v)) as [->|Hne].
    + exists (V2P q + 7). rewrite lookup_insert_eq. split_and!; [done| |].
      * apply PTE_FLAGS_page; [|done]. apply V2P_aligned. by destruct Hq.
      * destruct (mapped_page (end_ := end_) q 7 Hq) as [-> _]; [done|]. eapply zero_keeps; [exact Hk|apply list_elem_of_here|done].
    + destruct (Hn w) as (e & He & Hf & Hze); [lia|]. exists e. rewrite lookup_insert_ne by done. split_and!; try done.
      eapply zero_keeps; [exact Hk| |done]. apply elem_of_app. right. apply elem_of_upages. exists w, e. split_and!; try done. lia.
Qed.

Lemma grown_keeps s s' A0 A lo hi Y :
  grown A0 A lo hi (ram s) -> hi <= UVPN -> keeps Y s s' -> (forall p, p ∈ upages A -> p ∈ Y) -> grown A0 A lo hi (ram s').
Proof.
  intros [Ho Hn] Hu Hk HY. split; [done|]. intros v Hv. destruct (Hn v Hv) as (e & He & Hf & Hz). exists e. split_and!; try done.
  eapply zero_keeps; [exact Hk| |done]. apply HY, elem_of_upages. exists v, e. split_and!; try done. lia.
Qed.

Lemma grown_old_pages A0 A lo mid hi m p :
  grown A0 A lo mid m -> (forall v, lo <= v < hi -> A0 !! v = None) -> mid <= hi -> p ∈ upages A0 -> p ∈ upages A.
Proof.
  intros [Ho _] Hn Hm. rewrite !elem_of_upages. intros (v & e & He & Hv & ->). exists v, e. split_and!; try done.
  rewrite Ho; [done|]. intros H. rewrite Hn in He by lia. done.
Qed.

Lemma wp_alloc_loop s0 P A0 X oldsz newsz (Q : Z -> kst -> Prop) W :
  0 <= oldsz -> newsz < KERNBASE ->
  (forall v, pgceil oldsz <= v < pgceil newsz -> A0 !! v = None) ->
  (forall s' T' l', vm_inv s' P T' A0 X l' -> short X (Z.of_nat (length (upages A0)) + (pgceil newsz - pgceil oldsz)) -> keeps (X ++ upages A0) s0 s' -> Q 0 s') ->
  (forall s' T' A' l', vm_inv s' P T' A' X l' -> grown A0 A' (pgceil oldsz) (pgceil newsz) (ram s') ->
     keeps (X ++ upages A0) s0 s' -> Q newsz s') ->
  forall fuel s T A l a,
    vm_inv s P T A X l -> oldsz <= a -> a mod PGSIZE = 0 -> pgceil oldsz <= vpn a -> (Z.to_nat (pgceil newsz - vpn a) < fuel)%nat ->
    (vpn a <= pgceil newsz \/ vpn a = pgceil oldsz) -> a <= KERNBASE ->
    Z.of_nat (length (upages A)) = Z.of_nat (length (upages A0)) + (vpn a - pgceil oldsz) ->
    grown A0 A (pgceil oldsz) (vpn a) (ram s) -> keeps (X ++ upages A0) s0 s ->
    wp (alloc_loop end_ fuel P a oldsz newsz s) Q W.
Proof.
  intros Ho Hnk Hno H0 H1. induction fuel as [|fuel IH]; intros s T A l a Hi Hao Ham Hlo Hfuel Hdone Hak Hcnt Hg Hk; [lia|].
  cbn [alloc_loop]. destruct (Z.ltb_spec a newsz) as [Hlt|Hge]; cbn [negb].
  2: { assert (pgceil newsz <= vpn a) by (pose proof (vpn_lt_ceil a newsz Ham); lia). eapply (H1 s T A l); [done| |done].
       destruct Hdone as [Hd|Hd]; [by replace (pgceil newsz) with (vpn a) by lia|].
       split; [|intros v Hv; lia]. intros v _. apply Hg. lia. }
  assert (Hvc := proj1 (vpn_lt_ceil a newsz Ham) Hlt). destruct (user_vpn a newsz) as [Hv Hu]; [lia|lia|].
  assert (Hcut : cut (pgceil oldsz) (pgceil newsz) A = A0) by (eapply grown_cut; [exact Hg|lia|done]).
  assert (Hpg : forall p, p ∈ upages A0 -> p ∈ upages A) by (intros p; eapply grown_old_pages; [exact Hg|done|lia]).
  assert (HAn : A !! vpn a = None) by (rewrite (gr_old _ _ _ _ _ Hg) by lia; apply Hno; lia).
  apply wp_step. eapply wp_kalloc; [exact Hi| |].
  - intros ->. cbn [Z.eqb]. assert (Hsh := inv_short _ _ _ _ _ (Z.of_nat (length (upages A0)) + (pgceil newsz - pgceil oldsz)) Hi ltac:(lia)).
    apply wp_step. eapply wp_deallocuvm; [exact Hi|lia|lia|]. intros s' l' Hi' Hk'. rewrite Hcut in Hi', Hk'.
    cbn [ret wp]. eapply H0; [exact Hi'|done|by eapply keeps_trans].
  - intros q l' s1 -> Hi1 Hq Hk1. rewrite (proj2 (Z.eqb_neq q 0)) by done. apply wp_step. cbn [memset0 modify wp].
    destruct (inv_fresh _ _ _ _ _ _ _ Hi1) as [Hqo _].
    set (s2 := set_ram (fill q PGSIZE 0 (ram s1)) s1).
    assert (Hi2 : vm_inv s2 P T A (q :: X) l') by (apply (inv_write _ _ _ _ _ _ q); [done|apply list_elem_of_here|apply within_fill]).
    assert (Hk2 : keeps (X ++ upages A) s s2).
    { eapply keeps_trans; [apply Hk1|]. apply (keeps_write _ s1 _ q (inv_frame_ok _ _ _ _ _ _ _ Hi1) Hqo (inv_frame_new _ _ _ _ _ _ _ Hi1)).
      apply within_fill. }
    assert (Hk02 : keeps (X ++ upages A0) s0 s2).
    { eapply keeps_trans; [exact Hk|]. eapply keeps_weaken; [|exact Hk2]. intros p. rewrite !elem_of_app. intros [?|?]; auto. }
    apply wp_step. eapply wp_map_user; [exact Hi2|lia|done|done|done| |].
    + intros ->. assert (Hsh : short X (Z.of_nat (length (upages A0)) + (pgceil newsz - pgceil oldsz))).
      { pose proof (inv_short _ _ _ _ _ (Z.of_nat (length (upages A0)) + (vpn a - pgceil oldsz) - 1) Hi2 ltac:(lia)) as H. unfold short in *. cbn [length] in H. lia. }
      cbn. apply wp_step. eapply wp_deallocuvm; [exact Hi2|lia|lia|]. intros s3 l3 Hi3 Hk3. rewrite Hcut in Hi3, Hk3.
      apply wp_step. eapply wp_kfree; [exact Hi3|]. intros s4 Hi4 Hk4. cbn [ret wp]. eapply H0; [exact Hi4|done|].
      eapply keeps_trans; [exact Hk02|]. eapply keeps_trans; [|exact Hk4]. eapply keeps_weaken; [|exact Hk3].
      intros p. cbn. rewrite elem_of_cons. by right.
    + intros s3 T3 l3 Hi3 Hk3. cbn [Z.ltb Z.compare]. rewrite u32_small by (unfold is_u32, KERNBASE, PGSIZE in *; lia).
      change (Z.lor (Z.lor PTE_W PTE_U) 1) with 7 in Hi3.
      eapply IH; [exact Hi3|unfold PGSIZE; lia|by apply next_aligned|rewrite vpn_next; lia|rewrite vpn_next; lia|rewrite vpn_next; lia| | | |].
      * pose proof (next_aligned a Ham). unfold KERNBASE, PGSIZE in *. Z.div_mod_to_equations. lia.
      * rewrite upages_insert_user by (done || lia). cbn [length]. rewrite vpn_next. lia.
      * rewrite vpn_next. eapply grown_step; [|lia|lia|exact Hqo| |exact Hk3].
        -- eapply grown_keeps; [exact Hg|lia|exact Hk2|]. intros p Hp. apply elem_of_app. by right.
        -- intros x Hx. cbn. by apply fill_in.
      * eapply keeps_trans; [exact Hk02|]. eapply keeps_weaken; [|exact Hk3]. intros p. cbn. rewrite elem_of_cons, !elem_of_app.
        intros [?|?]; auto.
Qed.

Lemma wp_allocuvm s P T A X l oldsz newsz Q W :
  vm_inv s P T A X l -> 0 <= oldsz <= newsz -> newsz < KERNBASE ->
  (forall v, pgceil oldsz <= v < pgceil newsz -> A !! v = None) ->
  (forall s' T' l', vm_inv s' P T' A X l' -> short X (Z.of_nat (length (upages A)) + (pgceil newsz - pgceil oldsz)) -> keeps (X ++ upages A) s s' -> Q 0 s') ->
  (forall s' T' A' l', vm_inv s' P T' A' X l' -> grown A A' (pgceil oldsz) (pgceil newsz) (ram s') ->
     keeps (X ++ upages A) s s' -> Q newsz s') ->
  wp (allocuvm end_ P oldsz newsz s) Q W.
Proof.
  intros Hi Ho Hn Hno H0 H1. unfold allocuvm. rewrite (proj2 (Z.leb_gt _ _)), (proj2 (Z.ltb_ge _ _)) by lia.
  destruct (roundup_vpn oldsz) as (Hm & Hv & Hr); [lia|unfold KERNBASE, PGSIZE in *; lia|].
  eapply (wp_alloc_loop s P A X oldsz newsz Q W); [lia|done|done|done|done|exact Hi|lia|done|lia| |lia| | | |apply keeps_refl].
  - rewrite Hv. unfold pgceil, PGSIZE. Z.div_mod_to_equations. lia.
  - unfold KERNBASE, PGSIZE in *. Z.div_mod_to_equations. lia.
  - lia.
  - rewrite Hv. split; [done|]. intros v Hv'. lia.
Qed.

(** *** [copyuvm] *)

(** An address space in use elsewhere. *)
Record foreign (m : memory) (P : Z) (T A : gmap Z Z) (X : list Z) : Prop := {
  fo_rep : vm_rep m P T A;
  fo_own : forall p, p ∈ own P T A -> p ∈ X /\ page_ok end_ p
}.

Lemma foreign_keeps s s' P T A X : foreign (ram s) P T A X -> keeps X s s' -> foreign (ram s') P T A X.
Proof.
  intros [Hr Ho] Hk. split; [|done]. eapply rep_agree; [done|]. intros p Hp. apply (kp_mem _ _ _ Hk), Ho. unfold own. set_solver.
Qed.

(** Reading the entry of a mapped page. *)
Lemma walk_entry s P T A va e :
  vm_rep (ram s) P T A -> (forall p, p ∈ tpages T -> page_ok end_ p) -> is_u32 va -> A !! vpn va = Some e ->
  exists pte, walkpgdir P va false s = Ret pte s /\ pte <> 0 /\ load32 (ram s) pte = e /\ Z.odd e = true.
Proof.
  intros Hr Ho Hu He. destruct (vr_ent _ _ _ _ Hr _ _ He) as ([t Ht] & Hodd & _).
  assert (Hd : vpn va / 1024 = PDX va).
  { rewrite <- vpn_split by done. pose proof (PTX_range va). Z.div_mod_to_equations. lia. }
  rewrite Hd in Ht. assert (Htp : page_ok end_ t) by (apply Ho, elem_of_tpages; by eexists).
  exists (t + 4 * PTX va). split_and!.
  - by eapply walk_rep.
  - destruct Htp as (_ & ? & _). pose proof (PTX_range va). pose proof (end_pos (All := All)). lia.
  - rewrite (vr_pt _ _ _ _ Hr _ _ _ Ht (PTX_range va)), vpn_split, He by done. done.
  - done.
Qed.

Lemma lor_odd_id f : Z.odd f = true -> Z.lor f 1 = f.
Proof.
  intros H. apply Z.bits_inj'. intros n Hn. rewrite Z.lor_spec. destruct (decide (n = 0)) as [->|Hne].
  - by rewrite Z.bit0_odd, H.
  - replace (Z.testbit 1 n) with false; [apply orb_false_r|]. symmetry. apply (Z.bits_above_log2 1); [lia|]. cbn. lia.
Qed.

Lemma flags_range e : 0 <= PTE_FLAGS e < PGSIZE /\ Z.odd (PTE_FLAGS e) = Z.odd e.
Proof.
  unfold PTE_FLAGS. change 0xFFF with (Z.ones 12). rewrite Z.land_ones by lia. split; [by apply Z.mod_pos_bound|].
  rewrite (Z.div_mod e (2 ^ 12)) at 2 by lia. by rewrite Z.odd_add, Z.odd_mul.
Qed.

(** The first [hi] pages of [A] are copies of those of [B], with the same flags; the
    rest of [A] is the kernel's. *)
Record copied (B A : gmap Z Z) (hi : Z) (m : memory) : Prop := {
  cp_rest : forall v, ~ (0 <= v < hi) -> A !! v = kentry v;
  cp_page : forall v, 0 <= v < hi -> exists e e', B !! v = Some e /\ A !! v = Some e' /\ PTE_FLAGS e' = PTE_FLAGS e /\
    forall off, 0 <= off < PGSIZE -> m (page_of e' + off) = m (page_of e + off)
}.

Lemma same_keeps Y s s' p q off :
  keeps Y s s' -> p ∈ Y -> q ∈ Y -> 0 <= off < PGSIZE -> ram s (p + off) = ram s (q + off) -> ram s' (p + off) = ram s' (q + off).
Proof. intros Hk Hp Hq Ho E. rewrite (kp_mem _ _ _ Hk p Hp) by lia. by rewrite (kp_mem _ _ _ Hk q Hq) by lia. Qed.

Lemma copied_keeps s s' P T B A X hi Y :
  copied B A hi (ram s) -> hi <= UVPN -> foreign (ram s) P T B X -> keeps Y s s' -> (forall p, p ∈ X ++ upages A -> p ∈ Y) ->
  copied B A hi (ram s').
Proof.
  intros [Hr Hp] Hu Hf Hk HY. split; [done|]. intros v Hv. destruct (Hp v Hv) as (e & e' & He & He' & Hfl & Hc).
  exists e, e'. split_and!; try done. intros off Ho. eapply (same_keeps Y s s'); [done|apply HY|apply HY|done|by apply Hc].
  - apply elem_of_app. right. apply elem_of_upages. exists v, e'. split_and!; try done. lia.
  - apply elem_of_app. left. apply (fo_own _ _ _ _ _ Hf). unfold own.
    assert (page_of e ∈ upages B) by (apply elem_of_upages; exists v, e; split_and!; try done; lia). set_solver.
Qed.

Section Copy.
Hypothesis data_page : data_ mod PGSIZE = 0.
Hypothesis data_range : KERNLINK < data_ < KERNBASE + PHYSTOP.

Lemma kentry_user v : v < UVPN -> kentry v = None.
Proof.
  intros Hv. destruct (data_vpn data_page data_range) as (_ & Hr & _). unfold kentry, UVPN in *.
  change (vpn KERNBASE) with 0x80000. change (vpn KERNLINK) with 0x80100. change (vpn DEVSPACE) with 0xFE000.
  repeat case_decide; (lia || done).
Qed.

(** One more page copied: [s1] after the copy, [s'] after the mapping. *)
Lemma copied_step s1 s' P T B A X v q e :
  copied B A v (ram s1) -> foreign (ram s1) P T B X -> 0 <= v < UVPN -> B !! v = Some e -> Z.odd e = true -> page_ok end_ q ->
  (forall off, 0 <= off < PGSIZE -> ram s1 (q + off) = ram s1 (page_of e + off)) ->
  keeps ((q :: X) ++ upages A) s1 s' ->
  copied B (<[v := V2P q + Z.lor (PTE_FLAGS e) 1]> A) (v + 1) (ram s').
Proof.
  intros Hc Hf Hv He Hodd Hq Hsame Hk. destruct (flags_range e) as [Hfl Hfo].
  assert (Hc' : copied B A v (ram s')) by (eapply copied_keeps; [exact Hc|lia|exact Hf|exact Hk|set_solver]).
  destruct Hc' as [Hr Hp]. split.
  - intros w Hw. rewrite lookup_insert_ne by lia. apply Hr. lia.
  - intros w Hw. destruct (decide (w = v)) as [->|Hne].
    + exists e, (V2P q + Z.lor (PTE_FLAGS e) 1). rewrite lookup_insert_eq, lor_odd_id by congruence.
      destruct (mapped_page (end_ := end_) q (PTE_FLAGS e) Hq Hfl) as [-> _]. split_and!; [done|done| |].
      * apply PTE_FLAGS_page; [|done]. apply V2P_aligned. by destruct Hq.
      * intros off Hoff. eapply (same_keeps _ s1 s'); [exact Hk|apply list_elem_of_here| |done|by apply Hsame].
        apply elem_of_app. left. apply list_elem_of_further, (fo_own _ _ _ _ _ Hf). unfold own.
        assert (page_of e ∈ upages B) by (apply elem_of_upages; exists v, e; split_and!; try done; lia). set_solver.
    + destruct (Hp w) as (f & f' & H1 & H2 & H3 & H4); [lia|]. exists f, f'. rewrite lookup_insert_ne by done. by split_and!.
Qed.

Lemma wp_copy_loop s0 P Ts B d X sz (Q : bool -> kst -> Prop) W :
  0 <= sz <= KERNBASE -> (forall v, 0 <= v < pgceil sz -> is_Some (B !! v)) ->
  (forall s' T' A' l', vm_inv s' d T' A' X l' -> short X (pgceil sz) -> keeps X s0 s' -> Q false s') ->
  (forall s' T' A' l', vm_inv s' d T' A' X l' -> copied B A' (pgceil sz) (ram s') -> keeps X s0 s' -> Q true s') ->
  forall fuel s T A l a,
    vm_inv s d T A X l -> 0 <= a <= KERNBASE -> a mod PGSIZE = 0 -> (Z.to_nat (pgceil sz - vpn a) < fuel)%nat ->
    vpn a <= pgceil sz -> Z.of_nat (length (upages A)) = vpn a -> copied B A (vpn a) (ram s) -> foreign (ram s) P Ts B X -> keeps X s0 s ->
    wp (copy_loop end_ fuel P d a sz s) Q W.
Proof.
  intros Hsz HB H0 H1. induction fuel as [|fuel IH]; intros s T A l a Hi Ha Ham Hfuel Hle Hcnt Hc Hf Hk; [lia|].
  cbn [copy_loop]. destruct (Z.ltb_spec a sz) as [Hlt|Hge]; cbn [negb].
  2: { assert (pgceil sz <= vpn a) by (pose proof (vpn_lt_ceil a sz Ham); lia). eapply (H1 s T A l); [done| |done].
       by replace (pgceil sz) with (vpn a) by lia. }
  assert (Hvc := proj1 (vpn_lt_ceil a sz Ham) Hlt). destruct (user_vpn a sz) as [Hv Hu]; [lia|lia|].
  destruct (HB (vpn a)) as [e He]; [lia|].
  destruct (walk_entry s P Ts B a e (fo_rep _ _ _ _ _ Hf)) as (pte & Hw & Hp0 & Hpe & Hodd); [|done|done|].
  { intros p Hp. apply (fo_own _ _ _ _ _ Hf). unfold own. set_solver. }
  apply wp_step. eapply wp_eq; [exact Hw|]. rewrite (proj2 (Z.eqb_neq _ 0)) by done. apply wp_step. cbn [rd gets wp].
  rewrite Hpe, present_odd, Hodd. cbn [negb]. apply wp_step. eapply wp_kalloc; [exact Hi| |].
  - intros ->. cbn. eapply H0; [exact Hi|eapply inv_short; [exact Hi|lia]|done].
  - intros q l' s1 -> Hi1 Hq Hk1. rewrite (proj2 (Z.eqb_neq q 0)) by done. apply wp_step. cbn [modify wp].
    destruct (inv_fresh _ _ _ _ _ _ _ Hi1) as [Hqo HqX]. fold (page_of e).
    set (s2 := set_ram (blit q (page_of e) PGSIZE (ram s1)) s1).
    assert (Hw2 : within q (ram s1) (blit q (page_of e) PGSIZE (ram s1))) by (intros x Hx; by apply blit_out).
    assert (Hi2 : vm_inv s2 d T A (q :: X) l') by (apply (inv_write _ _ _ _ _ _ q); [done|apply list_elem_of_here|done]).
    assert (Hk2 : keeps (X ++ upages A) s s2).
    { eapply keeps_trans; [apply Hk1|].
      by apply (keeps_write _ s1 _ q (inv_frame_ok _ _ _ _ _ _ _ Hi1) Hqo (inv_frame_new _ _ _ _ _ _ _ Hi1)). }
    assert (Hk2X : keeps X s s2) by (eapply keeps_weaken; [|exact Hk2]; set_solver).
    assert (Hc2 : copied B A (vpn a) (ram s2)) by (eapply copied_keeps; [exact Hc|lia|exact Hf|exact Hk2|done]).
    assert (Hf2 := foreign_keeps _ _ _ _ _ _ Hf Hk2X). destruct (flags_range e) as [Hfl _].
    assert (HeX : page_of e ∈ X).
    { apply (fo_own _ _ _ _ _ Hf). unfold own.
      assert (page_of e ∈ upages B) by (apply elem_of_upages; exists (vpn a), e; split_and!; try done; lia). set_solver. }
    apply wp_step. eapply wp_map_user; [exact Hi2|unfold KERNBASE in *; lia|done| |done| |].
    + rewrite (cp_rest _ _ _ _ Hc) by lia. apply kentry_user. lia.
    + intros ->. pose proof (inv_short _ _ _ _ _ (vpn a - 1) Hi2 ltac:(lia)) as Hsh. unfold short in Hsh. cbn [length] in Hsh.
      cbn. apply wp_step. eapply wp_kfree; [exact Hi2|]. intros s3 Hi3 Hk3. cbn. eapply H0; [exact Hi3|unfold short; lia|].
      eapply keeps_trans; [exact Hk|]. eapply keeps_trans; [exact Hk2X|]. eapply keeps_weaken; [|exact Hk3]. set_solver.
    + intros s3 T3 l3 Hi3 Hk3. cbn [Z.ltb Z.compare]. rewrite u32_small by (unfold is_u32, KERNBASE, PGSIZE in *; lia).
      assert (Hk3X : keeps X s2 s3) by (eapply keeps_weaken; [|exact Hk3]; set_solver).
      eapply IH; [exact Hi3| |by apply next_aligned|rewrite vpn_next; lia|rewrite vpn_next; lia| | |by eapply foreign_keeps|].
      * pose proof (next_aligned a Ham). unfold KERNBASE, PGSIZE in *. Z.div_mod_to_equations. lia.
      * rewrite upages_insert_user by (rewrite ?(cp_rest _ _ _ _ Hc) by lia; (lia || apply kentry_user; lia)). cbn [length]. rewrite vpn_next. lia.
      * rewrite vpn_next. eapply (copied_step s2); [exact Hc2|exact Hf2|lia|done|done|done| |exact Hk3].
        intros off Hoff. cbn. rewrite blit_in by lia. replace (page_of e + (q + off - q)) with (page_of e + off) by lia.
        symmetry. apply Hw2. destruct (fo_own _ _ _ _ _ Hf (page_of e)) as [_ (Hem & _)].
        { unfold own. assert (page_of e ∈ upages B) by (apply elem_of_upages; exists (vpn a), e; split_and!; try done; lia). set_solver. }
        destruct Hqo as (Hqm & _). pose proof (pages_apart q (page_of e) Hqm Hem ltac:(by intros ->)). lia.
      * eapply keeps_trans; [exact Hk|]. by eapply keeps_trans.
Qed.

Lemma wp_copyuvm s P Ts B X l sz Q W :
  mem_inv s X l -> foreign (ram s) P Ts B X -> 0 <= sz <= KERNBASE ->
  (forall v, 0 <= v < pgceil sz -> is_Some (B !! v)) ->
  (forall s' l', mem_inv s' X l' -> short X (pgceil sz) -> keeps X s s' -> Q 0 s') ->
  (forall s' d T A l', vm_inv s' d T A X l' -> copied B A (pgceil sz) (ram s') -> keeps X s s' -> d <> 0 -> Q d s') ->
  wp (copyuvm end_ data_ P sz s) Q W.
Proof.
  intros Hi Hf Hsz HB H0 H1. unfold copyuvm. apply wp_step. eapply wp_setupkvm; [done|done|exact Hi| |].
  - intros s' l' Hi' Hsh Hk'. cbn. eapply H0; [done| |done]. unfold short, pgceil, PGSIZE in *. Z.div_mod_to_equations. lia.
  - intros s1 d T l1 Hi1 Hk1 Hd. rewrite (proj2 (Z.eqb_neq d 0)) by done. apply wp_step.
    eapply (wp_copy_loop s1 P Ts B d X sz); [done|done| | |exact Hi1|unfold KERNBASE; lia|done| | | | |by eapply foreign_keeps|apply keeps_refl].
    + intros s' T' A' l' Hi' Hsh Hk'. apply wp_step. eapply wp_freevm; [exact Hi'|]. intros s2 l2 Hid2 Hf2 Ha2 Hk2. cbn.
      eapply H0; [by split|done|]. eapply keeps_trans; [exact Hk1|]. by eapply keeps_trans.
    + intros s' T' A' l' Hi' Hc' Hk'. cbn. eapply H1; [done|done|by eapply keeps_trans|done].
    + change (vpn 0) with 0. unfold pgceil, PGSIZE. Z.div_mod_to_equations. lia.
    + change (vpn 0) with 0. unfold pgceil, PGSIZE. Z.div_mod_to_equations. lia.
    + unfold kernel_map. rewrite !kern_range by (unfold UVPN, vpn, DEVSPACE, KERNLINK, EXTMEM, KERNBASE, PGSIZE in *; Z.div_mod_to_equations; lia). done.
    + change (vpn 0) with 0. split; [|intros v Hv; lia]. intros v _. by apply kernel_map_lookup.
Qed.
End Copy.

(** *** [copyout] *)

(** The byte a user address stands for. *)
Definition vbyte (m : memory) (A : gmap Z Z) (va : Z) : option Z :=
  (fun e => m (page_of e + va mod PGSIZE)) <$> A !! vpn va.

(** Present, and accessible to the user. *)
Definition user_ok (A : gmap Z Z) (va : Z) : Prop :=
  exists e, A !! vpn va = Some e /\ Z.land e PTE_U <> 0.

Lemma uva2ka_entry s P T A X l va e :
  vm_inv s P T A X l -> is_u32 va -> A !! vpn va = Some e -> uva2ka P va s = Ret (if Z.land e PTE_U =? 0 then 0 else page_of e) s.
Proof.
  intros Hi Hva He. destruct (inv_tables _ _ _ _ _ _ Hi) as [Hok _]. apply Forall_cons in Hok as [_ Hok].
  destruct (walk_entry s P T A va e) as (pte & Hw & Hp0 & Hpe & Hodd); [apply Hi| |done|done|].
  { intros p Hp. by eapply Forall_at. }
  unfold uva2ka. rewrite (bind_Ret _ _ _ _ _ Hw), (proj2 (Z.eqb_neq _ 0)) by done. unfold rd. run.
  rewrite Hpe, present_odd, Hodd. cbn. by destruct (_ =? 0).
Qed.

(** Two user pages are the same page only if they have the same number. *)
Lemma upage_inj s P T A X l v w e f :
  vm_inv s P T A X l -> A !! v = Some e -> A !! w = Some f -> v < UVPN -> w < UVPN -> v <> w -> page_of e <> page_of f.
Proof.
  intros Hi He Hf Hv Hw Hne E. pose proof (inv_nodup _ _ _ _ _ _ Hi) as (Hn & _ & _)%NoDup_app. unfold own in Hn.
  apply NoDup_cons in Hn as [_ Hn]. apply NoDup_app in Hn as (_ & _ & Hn). rewrite <- (upages_delete A v e Hv He) in Hn.
  apply NoDup_cons in Hn as [Hn _]. apply Hn, elem_of_upages. exists w, f. by rewrite lookup_delete_ne.
Qed.

(** Writing [l] inside the user page of [va]. *)
Lemma vbyte_write s P T A X l va e bs vb :
  vm_inv s P T A X l -> 0 <= va < KERNBASE -> 0 <= vb < KERNBASE -> A !! vpn va = Some e ->
  va mod PGSIZE + Z.of_nat (length bs) <= PGSIZE ->
  vbyte (blit_list (page_of e + va mod PGSIZE) bs (ram s)) A vb =
    if decide (va <= vb < va + Z.of_nat (length bs)) then bs !! Z.to_nat (vb - va) else vbyte (ram s) A vb.
Proof.
  intros Hi Hva Hvb He Hlen. assert (Hx : 0 <= va mod PGSIZE) by (by apply Z.mod_pos_bound).
  assert (Hvn : vpn va < UVPN /\ vpn vb < UVPN) by (unfold vpn, UVPN, KERNBASE, PGSIZE in *; Z.div_mod_to_equations; lia).
  unfold vbyte. case_decide as Hd.
  - assert (E : vpn vb = vpn va) by (unfold vpn, PGSIZE in *; Z.div_mod_to_equations; lia). rewrite E, He. cbn.
    unfold blit_list. rewrite in_range_in by (unfold vpn, PGSIZE in *; Z.div_mod_to_equations; lia).
    replace (page_of e + vb mod PGSIZE - (page_of e + va mod PGSIZE)) with (vb - va)
      by (unfold vpn, PGSIZE in *; Z.div_mod_to_equations; lia).
    destruct (lookup_lt_is_Some_2 bs (Z.to_nat (vb - va))) as [b Hb]; [lia|]. rewrite Hb. f_equal. by apply nth_lookup_Some.
  - destruct (A !! vpn vb) as [f|] eqn:Hf; [|done]. cbn. f_equal. unfold blit_list. rewrite in_range_out; [done|].
    destruct (decide (vpn vb = vpn va)) as [E|E].
    + rewrite E in Hf. simplify_eq. unfold vpn, PGSIZE in *. Z.div_mod_to_equations. lia.
    + destruct (user_page _ _ _ _ _ _ _ _ Hi He) as ((Hem & _) & _); [lia|].
      destruct (user_page _ _ _ _ _ _ _ _ Hi Hf) as ((Hfm & _) & _); [lia|].
      assert (Hne : page_of f <> page_of e) by (eapply upage_inj; [exact Hi|done|done|lia|lia|done]).
      pose proof (pages_apart _ _ Hfm Hem Hne). unfold PGSIZE in *. Z.div_mod_to_equations. lia.
Qed.

Lemma inv_user_write s P T A X l m' v e :
  vm_inv s P T A X l -> A !! v = Some e -> v < UVPN -> within (page_of e) (ram s) m' ->
  vm_inv (set_ram m' s) P T A X l /\ keeps X s (set_ram m' s).
Proof.
  intros Hi He Hv Hw. destruct (user_page _ _ _ _ _ _ _ _ Hi He Hv) as (Hok & HP & HT & HX & Hl).
  destruct (inv_tables _ _ _ _ _ _ Hi) as [Htok _]. split; [|by eapply (keeps_write X s m' (page_of e)); [eapply inv_X_ok|..]].
  destruct Hi as [H1 H2 H3 H4]. split; [done| | |done].
  - apply kmem_agree; [done|]. intros p Hp. eapply within_agree; [done|done|exact (Forall_at _ _ _ (kr_pages _ _ _ H2) Hp)|by intros <-].
  - eapply rep_agree; [done|]. intros p Hp. eapply within_agree; [done|done|by eapply Forall_at|]. intros <-. set_solver.
Qed.

Lemma rounddown va : is_u32 va -> PGROUNDDOWN va = va - va mod PGSIZE /\ vpn (va - va mod PGSIZE) = vpn va /\ 0 <= va - va mod PGSIZE <= va.
Proof. intros H. rewrite PGROUNDDOWN_spec by done. unfold is_u32, vpn, PGSIZE in *. Z.div_mod_to_equations. lia. Qed.

(** One turn of the loop, on a page of the user. *)
Lemma copyout_turn fuel s P T A X l va buf :
  vm_inv s P T A X l -> 0 <= va < KERNBASE -> buf <> [] -> user_ok A va ->
  exists e, A !! vpn va = Some e /\
    let n := Z.min (PGSIZE - va mod PGSIZE) (Z.of_nat (length buf)) in
    let s' := set_ram (blit_list (page_of e + va mod PGSIZE) (take (Z.to_nat n) buf) (ram s)) s in
    copyout_loop (S fuel) P va buf s = copyout_loop fuel P (va - va mod PGSIZE + PGSIZE) (drop (Z.to_nat n) buf) s' /\
    vm_inv s' P T A X l /\ keeps X s s'.
Proof.
  intros Hi Hva Hne (e & He & Hu). exists e. split; [done|]. intros n s'. assert (Hbl : length buf <> 0%nat) by (by destruct buf). cbn [copyout_loop]. rewrite (proj2 (Nat.eqb_neq _ _)) by done.
  destruct (rounddown va) as (Hrd & Hv0 & Hr0); [unfold is_u32, KERNBASE in *; lia|]. assert (Hmod : 0 <= va mod PGSIZE < PGSIZE) by (by apply Z.mod_pos_bound).
  assert (Hvn : vpn va < UVPN) by (unfold vpn, UVPN, KERNBASE, PGSIZE in *; Z.div_mod_to_equations; lia). rewrite Hrd.
  rewrite (bind_Ret _ _ _ _ _ (uva2ka_entry s P T A X l (va - va mod PGSIZE) e Hi ltac:(unfold is_u32, KERNBASE in *; lia) ltac:(by rewrite Hv0))).
  rewrite (proj2 (Z.eqb_neq (Z.land e PTE_U) 0)) by done. destruct (user_page _ _ _ _ _ _ _ _ Hi He Hvn) as ((_ & Hpe & _) & _).
  rewrite (proj2 (Z.eqb_neq (page_of e) 0)) by (pose proof (end_pos (All := All)); lia). rewrite bind_modify.
  replace (va - (va - va mod PGSIZE)) with (va mod PGSIZE) by lia. rewrite u32_small by (unfold is_u32, KERNBASE, PGSIZE in *; lia).
  split; [done|]. apply (inv_user_write s P T A X l _ _ e Hi He Hvn). intros x Hx. unfold blit_list. rewrite in_range_out; [done|]. rewrite length_take. lia.
Qed.

Lemma wp_copyout P T A X W : forall fuel s l va buf (Q : Z -> kst -> Prop),
  vm_inv s P T A X l -> 0 <= va -> va + Z.of_nat (length buf) <= KERNBASE -> (length buf < fuel)%nat ->
  (forall k, 0 <= k < Z.of_nat (length buf) -> user_ok A (va + k)) ->
  (forall s' l', vm_inv s' P T A X l' -> keeps X s s' ->
     (forall vb, 0 <= vb < KERNBASE -> vbyte (ram s') A vb =
        if decide (va <= vb < va + Z.of_nat (length buf)) then buf !! Z.to_nat (vb - va) else vbyte (ram s) A vb) -> Q 0 s') ->
  wp (copyout_loop fuel P va buf s) Q W.
Proof.
  induction fuel as [|fuel IH]; intros s l va buf Q Hi Hva Htop Hfuel Hok HQ; [lia|].
  destruct (decide (buf = [])) as [->|Hz].
  { cbn. apply (HQ s l); [done|apply keeps_refl|]. intros vb _. cbn. case_decide; [lia|done]. }
  assert (Hpos : (0 < length buf)%nat) by (destruct buf; [done|cbn; lia]). assert (Hu := Hok 0 ltac:(lia)). rewrite Z.add_0_r in Hu.
  destruct (copyout_turn fuel s P T A X l va buf Hi ltac:(lia) Hz Hu) as (e & He & Ht & Hi1 & Hk1). rewrite Ht. clear Ht.
  assert (Hmod : 0 <= va mod PGSIZE < PGSIZE) by (by apply Z.mod_pos_bound).
  set (n := Z.min (PGSIZE - va mod PGSIZE) (Z.of_nat (length buf))) in *.
  assert (Hlt : length (take (Z.to_nat n) buf) = Z.to_nat n) by (rewrite length_take; lia).
  assert (Hbytes := fun vb Hvb => vbyte_write s P T A X l va e (take (Z.to_nat n) buf) vb Hi ltac:(lia) Hvb He ltac:(lia)).
  rewrite Hlt in Hbytes.
  destruct (decide (n = Z.of_nat (length buf))) as [En|En].
  - rewrite drop_ge by lia. destruct fuel as [|fuel]; [lia|]. cbn. apply (HQ _ l); [exact Hi1|exact Hk1|].
    intros vb Hvb. cbn. rewrite Hbytes by done. rewrite take_ge by lia. replace (Z.of_nat (Z.to_nat n)) with n by lia. by rewrite En.
  - assert (Hn : n = PGSIZE - va mod PGSIZE) by lia. replace (va - va mod PGSIZE + PGSIZE) with (va + n) by lia.
    eapply IH; [exact Hi1|lia|rewrite length_drop; lia|rewrite length_drop; lia| |].
    + rewrite length_drop. intros k Hk. rewrite <- Z.add_assoc. apply Hok. lia.
    + intros s' l' Hi' Hk' Hb'. apply (HQ s' l'); [done|by eapply keeps_trans|]. intros vb Hvb. rewrite Hb' by done. cbn.
      rewrite Hbytes by done. rewrite length_drop, lookup_drop. repeat case_decide; try lia; try done.
      * f_equal. lia.
      * by rewrite lookup_take_lt by lia.
Qed.

(** A page on the way that is not the user's stops the copy. *)
Lemma wp_copyout_fail P T A X l W : forall fuel s va buf k e (Q : Z -> kst -> Prop),
  vm_inv s P T A X l -> 0 <= va -> 0 <= k < Z.of_nat (length buf) -> is_u32 (va + k) -> (length buf < fuel)%nat ->
  A !! vpn (va + k) = Some e -> Z.land e PTE_U = 0 ->
  (forall j, 0 <= j < k -> vpn (va + j) <> vpn (va + k) -> va + j < KERNBASE /\ user_ok A (va + j)) ->
  (forall s', vm_inv s' P T A X l -> keeps X s s' -> Q (-1) s') ->
  wp (copyout_loop fuel P va buf s) Q W.
Proof.
  induction fuel as [|fuel IH]; intros s va buf k e Q Hi Hva Hk Hvk Hfuel He Hu Hok HQ; [lia|].
  destruct (rounddown va) as (Hrd & Hv0 & Hr0); [unfold is_u32 in *; lia|]. assert (Hmod : 0 <= va mod PGSIZE < PGSIZE) by (by apply Z.mod_pos_bound).
  destruct (decide (vpn va = vpn (va + k))) as [Heq|Hne].
  - cbn [copyout_loop]. rewrite (proj2 (Nat.eqb_neq _ _)) by lia. rewrite Hrd. apply wp_step.
    eapply wp_eq; [eapply (uva2ka_entry s P T A X l _ e Hi); [unfold is_u32 in *; lia|by rewrite Hv0, Heq]|]. rewrite Hu. cbn. apply HQ; [done|apply keeps_refl].
  - assert (Hk0 : k <> 0) by (intros ->; by rewrite Z.add_0_r in Hne). destruct (Hok 0) as [Hlow Hus]; [lia|by rewrite Z.add_0_r|]. rewrite Z.add_0_r in Hlow, Hus.
    destruct (copyout_turn fuel s P T A X l va buf Hi) as (e0 & He0 & Ht & Hi1 & Hk1); [lia|intros ->; cbn in Hk; lia|done|]. rewrite Ht. clear Ht.
    assert (Hfar : PGSIZE - va mod PGSIZE <= k) by (unfold vpn, PGSIZE in *; Z.div_mod_to_equations; lia).
    rewrite Z.min_l in * by lia. set (n := PGSIZE - va mod PGSIZE) in *. replace (va - va mod PGSIZE + PGSIZE) with (va + n) by lia.
    assert (E : va + n + (k - n) = va + k) by lia.
    eapply (IH _ (va + n) _ (k - n) e); [exact Hi1|lia|rewrite length_drop; lia|by rewrite E|rewrite length_drop; lia|by rewrite E|done| |].
    + rewrite E. intros j Hj. rewrite <- Z.add_assoc. apply Hok. lia.
    + intros s' Hi' Hk'. apply HQ; [done|by eapply keeps_trans].
Qed.

(** *** [clearpteu] *)

Lemma clear_user e : let e' := Z.land e (u32 (Z.lnot PTE_U)) in page_of e' = page_of e /\ PTE_FLAGS e' = Z.land (PTE_FLAGS e) 0xFFB /\ Z.odd e' = Z.odd e.
Proof.
  cbn zeta. unfold page_of, PTE_ADDR, PTE_FLAGS. rewrite <- !Z.bit0_odd, Z.land_spec, andb_true_r, <- !Z.land_assoc. done.
Qed.

Lemma land_u32 e m : is_u32 e -> 0 <= m -> is_u32 (Z.land e m).
Proof.
  unfold is_u32. intros He Hm. split; [apply Z.land_nonneg; lia|]. replace e with (Z.land e (Z.ones 32)) by (rewrite Z.land_ones, Z.mod_small by lia; done).
  rewrite <- Z.land_assoc, (Z.land_comm _ m), Z.land_assoc, Z.land_ones by lia. apply Z.mod_pos_bound. lia.
Qed.

Lemma upages_replace A v e e' : v < UVPN -> A !! v = Some e -> page_of e' = page_of e -> upages (<[v := e']> A) ≡ₚ upages A.
Proof.
  intros Hv He Hp. rewrite <- (upages_delete A v e Hv He), <- (upages_delete (<[v := e']> A) v e' Hv) by apply lookup_insert_eq. by rewrite delete_insert_eq, Hp.
Qed.

Lemma clearpteu_run s P T A X l va e :
  vm_inv s P T A X l -> 0 <= va < KERNBASE -> A !! vpn va = Some e ->
  exists s', clearpteu P va s = Ret tt s' /\ vm_inv s' P T (<[vpn va := Z.land e (u32 (Z.lnot PTE_U))]> A) X l /\ keeps (X ++ upages A) s s'.
Proof.
  intros Hi Hva He. assert (Hvu : is_u32 va) by (unfold is_u32, KERNBASE in *; lia). assert (Hvn : vpn va < UVPN) by (unfold vpn, UVPN, KERNBASE, PGSIZE in *; Z.div_mod_to_equations; lia).
  destruct (vr_ent _ _ _ _ (vi_rep _ _ _ _ _ _ Hi) _ _ He) as ((t & Ht) & Hodd & Hu). pose proof (vpn_split va Hvu) as Hs. pose proof (PTX_range va) as Hpx.
  replace (vpn va / 1024) with (PDX va) in Ht by (rewrite <- Hs; Z.div_mod_to_equations; lia). destruct (inv_tables _ _ _ _ _ _ Hi) as [Hok Hnd].
  destruct (table_ok end_ P T Hok Hnd _ _ Ht) as [(_ & Htp & _) _]. destruct (clear_user e) as (Hp' & _ & Ho').
  unfold clearpteu. rewrite (bind_Ret _ _ _ _ _ (walk_hit _ _ _ _ _ _ _ _ _ Hi Ht)), (proj2 (Z.eqb_neq _ 0)) by (pose proof (end_pos (All := All)); lia).
  unfold rd, wr. rewrite bind_gets, (inv_read _ _ _ _ _ _ _ _ _ Hi Ht), Hs, He by done. cbn [default id modify]. eexists. split; [done|]. split.
  - rewrite <- Hs. eapply (inv_entry s P T A X X l (PDX va) t (PTX va) _ (Some (Z.land e (u32 (Z.lnot PTE_U))))); [exact Hi|done|done|done|intros x [= <-]; by rewrite Ho'|apply land_u32; done|].
    rewrite <- (vi_all _ _ _ _ _ _ Hi). unfold own. rewrite Hs. change (partial_alter (fun _ => Some ?x) ?v A) with (<[v := x]> A). by rewrite (upages_replace A _ e).
  - apply (keeps_own s P T A X l _ t Hi); [|apply within_store; unfold PGSIZE; lia]. apply list_elem_of_further, elem_of_tpages. by exists (PDX va).
Qed.
End Ops.
