(* ===== verification/VmTheorems.v ===== *)
(** * Page tables: the theorems

    The properties of [vm.c], with a small machine on which they apply: a directory
    with one table and one user page, and one free page. *)

From Stdlib Require Import ZArith Lia.
From S2P Require Import Prelude Spinlock Memory Kalloc Vm VmSpec VmOps.

Section Theorems.
Context (end_ data_ : Z) (i : nat) (c : cpu) (All : list Z) `{Hmg : !Managed end_ All}.

(** [setupkvm] either returns 0 with every page it took given back,
    and then there was not enough memory, or a new directory that maps exactly the kernel's part of the address space:
    device and data memory writable, kernel text read-only, nothing for the user. *)
Theorem setupkvm_maps s X l :
  data_ mod PGSIZE = 0 -> KERNLINK < data_ < KERNBASE + PHYSTOP -> mem_inv end_ i c All s X l ->
  exists r s', setupkvm end_ data_ s = Ret r s' /\ keeps X s s' /\
    ((r = 0 /\ short All X 0 /\ exists l', mem_inv end_ i c All s' X l' /\ l' ≡ₚ l) \/
     (r <> 0 /\ exists T A l', vm_inv (i := i) (c := c) (All := All) (end_ := end_) s' r T A X l' /\
        forall v, A !! v = kentry data_ v)).
Proof.
  intros Hd1 Hd2 Hi. apply wp_Ret. eapply wp_setupkvm; [done|done|done|exact Hi| |].
  - intros s' l' Hi' Hsh Hk. split; [done|]. left. split_and!; [done..|]. exists l'. split; [done|].
    apply (Permutation_app_inv_l X). by rewrite (mi_all _ _ _ _ _ _ _ Hi'), (mi_all _ _ _ _ _ _ _ Hi).
  - intros s' P T l' Hi' Hk HP. split; [done|]. right. split; [done|]. exists T, (kernel_map data_), l'. split; [done|].
    intros v. by apply kernel_map_lookup.
Qed.

(** C22 (functional).  [allocuvm] from [oldsz] to [newsz] either maps every page in
    between to a fresh, zeroed page the user can write, and changes no other mapping,
    or returns 0 for lack of memory with the address space as it was; in both cases the contents of all
    other pages, and of the user's own, are untouched. *)
Theorem allocuvm_grows s P T A X l oldsz newsz :
  vm_inv (end_ := end_) (i := i) (c := c) (All := All) s P T A X l ->
  0 <= oldsz <= newsz -> newsz < KERNBASE ->
  (forall v, pgceil oldsz <= v < pgceil newsz -> A !! v = None) ->
  exists r s' T' A' l', allocuvm end_ P oldsz newsz s = Ret r s' /\
    vm_inv (end_ := end_) (i := i) (c := c) (All := All) s' P T' A' X l' /\ keeps (X ++ upages A) s s' /\
    ((r = 0 /\ short All X (Z.of_nat (length (upages A)) + (pgceil newsz - pgceil oldsz)) /\ A' = A) \/ (r = newsz /\ grown A A' (pgceil oldsz) (pgceil newsz) (ram s'))).
Proof.
  intros Hi Ho Hn Hno.
  assert (wp (allocuvm end_ P oldsz newsz s) (fun r s' => exists T' A' l',
    vm_inv (end_ := end_) (i := i) (c := c) (All := All) s' P T' A' X l' /\ keeps (X ++ upages A) s s' /\
    ((r = 0 /\ short All X (Z.of_nat (length (upages A)) + (pgceil newsz - pgceil oldsz)) /\ A' = A) \/ (r = newsz /\ grown A A' (pgceil oldsz) (pgceil newsz) (ram s')))) stays) as H.
  { eapply wp_allocuvm; [done|exact Hi|done|done|done| |].
    - intros s' T' l' Hi' Hsh Hk. exists T', A, l'. split_and!; try done. by left.
    - intros s' T' A' l' Hi' Hg Hk. exists T', A', l'. split_and!; try done. by right. }
  apply wp_Ret in H as (r & s' & Hrun & T' & A' & l' & H). by exists r, s', T', A', l'.
Qed.

(** [freevm] gives back every page of an address space, its directory, its
    tables and its user pages, each once, and touches no page that is in use elsewhere. *)
Theorem freevm_returns_all s P T A X l :
  vm_inv (end_ := end_) (i := i) (c := c) (All := All) s P T A X l ->
  exists s' l', freevm end_ P s = Ret tt s' /\ kmem_rep end_ s' l' /\ l' ≡ₚ own P T A ++ l /\ keeps X s s'.
Proof.
  intros Hi. assert (wp (freevm end_ P s) (fun _ s' => exists l', kmem_rep end_ s' l' /\ l' ≡ₚ own P T A ++ l /\ keeps X s s') stays) as H.
  { eapply wp_freevm; [done|exact Hi|]. intros s' l' _ Hf Ha Hk. exists l'. split_and!; try done.
    apply (Permutation_app_inv_l X). rewrite Ha, <- (vi_all _ _ _ _ _ _ Hi).
    rewrite !(assoc_L (++)). by rewrite (Permutation_app_comm X). }
  apply wp_Ret in H as ([] & s' & Hrun & l' & H). by exists s', l'.
Qed.

(** C23 (functional).  [copyuvm] of a space whose first [sz] bytes are mapped either
    returns 0 for lack of memory with every page it took given back, or a new space with the kernel's
    mappings and, for each page of the parent, a page of its own with the same contents
    and flags.  The parent's pages are only read. *)
Theorem copyuvm_copies s P Ts B X l sz :
  data_ mod PGSIZE = 0 -> KERNLINK < data_ < KERNBASE + PHYSTOP ->
  mem_inv end_ i c All s X l -> foreign end_ (ram s) P Ts B X -> 0 <= sz <= KERNBASE ->
  (forall v, 0 <= v < pgceil sz -> is_Some (B !! v)) ->
  exists r s', copyuvm end_ data_ P sz s = Ret r s' /\ keeps X s s' /\
    ((r = 0 /\ short All X (pgceil sz) /\ exists l', mem_inv end_ i c All s' X l' /\ l' ≡ₚ l) \/
     (r <> 0 /\ exists T A l', vm_inv (end_ := end_) (i := i) (c := c) (All := All) s' r T A X l' /\
        copied data_ B A (pgceil sz) (ram s'))).
Proof.
  intros Hd1 Hd2 Hi Hf Hsz HB. apply wp_Ret. eapply wp_copyuvm; [done|done|done|exact Hi|exact Hf|done|done| |].
  - intros s' l' Hi' Hsh Hk. split; [done|]. left. split_and!; [done..|]. exists l'. split; [done|].
    apply (Permutation_app_inv_l X). by rewrite (mi_all _ _ _ _ _ _ _ Hi'), (mi_all _ _ _ _ _ _ _ Hi).
  - intros s' d T A l' Hi' Hc Hk Hd. split; [done|]. right. split; [done|]. by exists T, A, l'.
Qed.

(** [copyout] to user memory that is mapped writes the buffer at [va]
    and no other byte of the address space, and returns 0. *)
Theorem copyout_writes s P T A X l va buf :
  vm_inv (end_ := end_) (i := i) (c := c) (All := All) s P T A X l ->
  0 <= va -> va + Z.of_nat (length buf) <= KERNBASE ->
  (forall k, 0 <= k < Z.of_nat (length buf) -> user_ok A (va + k)) ->
  exists s', copyout P va buf s = Ret 0 s' /\ keeps X s s' /\
    forall vb, 0 <= vb < KERNBASE -> vbyte (ram s') A vb =
      if decide (va <= vb < va + Z.of_nat (length buf)) then buf !! Z.to_nat (vb - va) else vbyte (ram s) A vb.
Proof.
  intros Hi Hva Ht Hok.
  assert (wp (copyout P va buf s) (fun r s' => r = 0 /\ keeps X s s' /\ forall vb, 0 <= vb < KERNBASE ->
    vbyte (ram s') A vb = if decide (va <= vb < va + Z.of_nat (length buf)) then buf !! Z.to_nat (vb - va) else vbyte (ram s) A vb) stays) as H.
  { eapply wp_copyout; [done|exact Hi|done|done|lia|done|]. intros s' l' _ Hk Hb. by split_and!. }
  apply wp_Ret in H as (r & s' & Hrun & -> & Hk & Hb). by exists s'.
Qed.

(** [uva2ka] on an address whose page table does not exist reads through
    the null pointer [walkpgdir] returned, and so does [copyout]. *)
Theorem uva2ka_null s P T A X l va buf :
  vm_inv (end_ := end_) (i := i) (c := c) (All := All) s P T A X l ->
  is_u32 va -> T !! PDX va = None -> buf <> [] ->
  uva2ka P va s = UB "null pte" /\ copyout P va buf s = UB "null pte".
Proof.
  intros Hi Hu Ht Hbuf.
  assert (H : forall w, T !! PDX w = None -> uva2ka P w s = UB "null pte").
  { intros w Hw. unfold uva2ka. by rewrite (bind_Ret _ _ _ _ _ (walk_miss _ _ _ _ _ _ _ Hi Hw)). }
  split; [by apply H|]. unfold copyout. cbn [copyout_loop]. rewrite (proj2 (Nat.eqb_neq _ _)) by (by destruct buf).
  unfold bind at 1. rewrite H; [done|].
  replace (PDX (PGROUNDDOWN va)) with (PDX va); [done|].
  assert (0 <= PGROUNDDOWN va <= va) by (rewrite PGROUNDDOWN_spec by done; unfold is_u32, PGSIZE in *; Z.div_mod_to_equations; lia).
  rewrite !PDX_spec by (unfold is_u32 in *; lia). rewrite PGROUNDDOWN_spec by done. unfold PGSIZE. Z.div_mod_to_equations. lia.
Qed.
End Theorems.

(** ** A small machine *)

Module Demo.
Definition END : Z := 0x80108000.
Definition DATA : Z := 0x80106000.
Definition c0 : cpu := mkcpu 0 1 0 true None.
(** A directory, its table, the user page it maps at address 0, and a free page. *)
Definition dir : Z := 0x80110000.
Definition tab : Z := 0x80111000.
Definition page : Z := 0x80112000.
Definition spare : Z := 0x80113000.
Definition mem : memory := store32 (tab + 4 * 0) (V2P page + 7) (store32 (dir + 4 * 0) (V2P tab + 7) (fun _ => 0)).
Definition st : kst := mkkst (mkctx 0 true [c0] ∅ []) mem 1 spare.
Definition T : gmap Z Z := {[0 := tab]}.
Definition A : gmap Z Z := {[0 := V2P page + 7]}.
Definition all : list Z := [dir; tab; page; spare].

#[global] Instance managed : Managed END all.
Proof.
  split; [done| |].
  - unfold all. repeat (apply Forall_cons; split; [unfold page_ok, is_u32; vm_compute; repeat split; discriminate|]). by apply Forall_nil.
  - by vm_compute; repeat (apply NoDup_cons; split; [set_solver|]); by apply NoDup_nil.
Defined.

Lemma idle : k_idle st 0 c0.
Proof. right. split; [|done]. repeat split; cbn; intros; lia || done. Qed.

Lemma page_ok_in p : p ∈ all -> page_ok END p.
Proof. intros H. eapply Forall_at; [exact (All_ok (end_ := END))|done]. Qed.

Lemma zero_rep : vm_rep (fun _ => 0) dir ∅ ∅.
Proof. split; [by intros d _; rewrite lookup_empty|by intros d t [=]|by intros d t j [=]|by intros v e [=]]. Qed.

Lemma rep : vm_rep mem dir T A.
Proof.
  assert (H1 : vm_rep (store32 (dir + 4 * 0) (V2P tab + 7) (fun _ => 0)) dir (<[0 := tab]> ∅) ∅).
  { apply (rep_adopt END); try done; try exact zero_rep.
    - apply Forall_singleton, page_ok_in. set_solver.
    - apply NoDup_singleton.
    - by apply (bool_decide_unpack _). }
  apply (rep_set END dir (<[0 := tab]> ∅)) with (d := 0) (e := V2P page + 7) (e' := Some (V2P page + 7)) (A := ∅); try done.
  - apply Forall_forall. intros p Hp. apply page_ok_in. cbn in Hp. set_solver.
  - vm_compute. apply NoDup_cons. split; [set_solver|apply NoDup_singleton].
  - by intros x [= <-].
Qed.

Lemma free : kmem_rep END st [spare].
Proof.
  split; [|apply Forall_singleton, page_ok_in; set_solver|apply NoDup_singleton]. by vm_compute.
Qed.

Lemma inv : vm_inv (end_ := END) (i := 0) (c := c0) (All := all) st dir T A [] [spare].
Proof. split; [exact idle|exact free|exact rep|]. by vm_compute. Qed.

Lemma mem_ok : mem_inv END 0 c0 all st [dir; tab; page] [spare].
Proof. split; [exact idle|exact free|done]. Qed.
End Demo.

Lemma setupkvm_maps_witness :
  exists r s', setupkvm Demo.END Demo.DATA Demo.st = Ret r s' /\ keeps [Demo.dir; Demo.tab; Demo.page] Demo.st s'.
Proof.
  destruct (setupkvm_maps Demo.END Demo.DATA 0 Demo.c0 Demo.all Demo.st [Demo.dir; Demo.tab; Demo.page] [Demo.spare])
    as (r & s' & H1 & H2 & _); [done|done|exact Demo.mem_ok|]. exact (ex_intro _ r (ex_intro _ s' (conj H1 H2))).
Defined.

Lemma allocuvm_grows_witness :
  exists r s', allocuvm Demo.END Demo.dir 4096 8192 Demo.st = Ret r s' /\ keeps ([] ++ upages Demo.A) Demo.st s'.
Proof.
  destruct (allocuvm_grows Demo.END 0 Demo.c0 Demo.all Demo.st Demo.dir Demo.T Demo.A [] [Demo.spare] 4096 8192)
    as (r & s' & T' & A' & l' & H1 & _ & H2 & _); [exact Demo.inv|lia|done| |exact (ex_intro _ r (ex_intro _ s' (conj H1 H2)))].
  change (pgceil 4096) with 1. intros v Hv. apply lookup_singleton_ne. lia.
Defined.

Lemma freevm_returns_all_witness :
  exists s' l', freevm Demo.END Demo.dir Demo.st = Ret tt s' /\ kmem_rep Demo.END s' l' /\ l' ≡ₚ Demo.all.
Proof.
  destruct (freevm_returns_all Demo.END 0 Demo.c0 Demo.all Demo.st Demo.dir Demo.T Demo.A [] [Demo.spare] Demo.inv)
    as (s' & l' & H1 & H2 & H3 & _). exact (ex_intro _ s' (ex_intro _ l' (conj H1 (conj H2 H3)))).
Defined.

Lemma copyuvm_copies_witness :
  exists r s', copyuvm Demo.END Demo.DATA Demo.dir 4096 Demo.st = Ret r s' /\ keeps [Demo.dir; Demo.tab; Demo.page] Demo.st s'.
Proof.
  destruct (copyuvm_copies Demo.END Demo.DATA 0 Demo.c0 Demo.all Demo.st Demo.dir Demo.T Demo.A [Demo.dir; Demo.tab; Demo.page] [Demo.spare] 4096)
    as (r & s' & H1 & H2 & _); [done|done|exact Demo.mem_ok| |done| |exact (ex_intro _ r (ex_intro _ s' (conj H1 H2)))].
  - split; [exact Demo.rep|]. intros p Hp. split; [exact Hp|]. apply Demo.page_ok_in. cbn in Hp. set_solver.
  - change (pgceil 4096) with 1. intros v Hv. replace v with 0 by lia. by eexists.
Defined.

Lemma copyout_writes_witness :
  exists s', copyout Demo.dir 10 [65; 66] Demo.st = Ret 0 s' /\ keeps [] Demo.st s'.
Proof.
  destruct (copyout_writes Demo.END 0 Demo.c0 Demo.all Demo.st Demo.dir Demo.T Demo.A [] [Demo.spare] 10 [65; 66])
    as (s' & H1 & H2 & _); [exact Demo.inv|lia|done| |exact (ex_intro _ s' (conj H1 H2))].
  intros k Hk. exists (V2P Demo.page + 7). cbn in Hk. assert (k = 0 \/ k = 1) as [-> | ->] by lia; by vm_compute.
Defined.

Lemma uva2ka_null_witness : uva2ka Demo.dir 0x400000 Demo.st = UB "null pte".
Proof.
  destruct (uva2ka_null Demo.END 0 Demo.c0 Demo.all Demo.st Demo.dir Demo.T Demo.A [] [Demo.spare] 0x400000 [1])
    as [H _]; [exact Demo.inv|done|done|done|exact H].
Defined.
