(* ===== verification/Exec.v ===== *)
(** * Running a program

    Models [exec.c], and [loaduvm] and [switchuvm] of [vm.c], which it calls.  The state
    joins the file system, the physical memory with its allocator, the fields of the
    current process that [exec] changes, and the registers [switchuvm] loads.  The strings
    of [argv] are in the old address space, which [exec] does not write. *)

From Stdlib Require Import ZArith Lia.
From S2P Require Import Prelude Spinlock Sleeplock Strings Blocks Bytes Log Txn Fs Memory Kalloc Vm.

Module Exec.

Definition nl : string := String (Ascii.ascii_of_nat 10) EmptyString.
Definition MAXARG : Z := 32.
Definition KSTACKSIZE : Z := 4096.
Definition SEG_KDATA : Z := 2.
Definition SEG_TSS : Z := 5.

(** ** [elf.h] *)

Definition ELF_MAGIC : Z := 0x464C457F.
Definition ELF_PROG_LOAD : Z := 1.

(** [struct elfhdr], 52 bytes, and [struct proghdr], 32 bytes. *)
Definition elf_magic (b : list Z) : Z := getn 4 0 b.
Definition elf_entry (b : list Z) : Z := getn 4 24 b.
Definition elf_phoff (b : list Z) : Z := getn 4 28 b.
Definition elf_phnum (b : list Z) : Z := getn 2 44 b.

Record proghdr := mkph { ph_type : Z; ph_off : Z; ph_vaddr : Z; ph_filesz : Z; ph_memsz : Z }.
Definition get_ph (b : list Z) : proghdr := mkph (getn 4 0 b) (getn 4 4 b) (getn 4 8 b) (getn 4 16 b) (getn 4 20 b).

(** ** State *)

Record uproc := mkuproc { u_sz : Z; u_pgdir : Z; u_kstack : Z; u_name : list Z; u_eip : Z; u_esp : Z }.
Definition set_u_name (v : list Z) (u : uproc) : uproc := mkuproc (u_sz u) (u_pgdir u) (u_kstack u) v (u_eip u) (u_esp u).
Definition set_u_image (pgdir sz eip esp : Z) (u : uproc) : uproc := mkuproc sz pgdir (u_kstack u) (u_name u) eip esp.

(** A segment descriptor, the parts of base and limit joined. *)
Record segdesc := mkseg { sd_type : Z; sd_base : Z; sd_lim : Z; sd_dpl : Z; sd_s : Z }.
Definition STS_T32A : Z := 9.
Definition SEG16 (type base lim dpl : Z) : segdesc := mkseg type base lim dpl 1.
Definition set_s (v : Z) (d : segdesc) : segdesc := mkseg (sd_type d) (sd_base d) (sd_lim d) (sd_dpl d) v.

(** The descriptor of the task state, the task state, the task register and the page table
    register of the CPU. *)
Record hw := mkhw { gdt_tss : segdesc; ts_ss0 : Z; ts_esp0 : Z; ts_iomb : Z; hw_tr : Z; hw_cr3 : Z }.
(** [sizeof(struct taskstate)]. *)
Definition TS_SIZE : Z := 104.
(** What [switchuvm] loads for process [u] on the CPU whose task state is at [ts]. *)
Definition user_hw (ts : Z) (u : uproc) : hw :=
  mkhw (set_s 0 (SEG16 STS_T32A ts (TS_SIZE - 1) 0)) (Z.shiftl SEG_KDATA 3) (u32 (u_kstack u + KSTACKSIZE)) 0xFFFF (Z.shiftl SEG_TSS 3) (V2P (u_pgdir u)).

Record execst (S : Type) := mkx { x_fs : fsst S; x_ram : memory; x_use_lock : Z; x_freelist : Z; x_cur : uproc; x_hw : hw }.
Arguments mkx {S}.
Arguments x_fs {S}.
Arguments x_ram {S}.
Arguments x_use_lock {S}.
Arguments x_freelist {S}.
Arguments x_cur {S}.
Arguments x_hw {S}.

Section Exec.
Context {S : Type} `{!HasCtx S, !Txn S}.
(** The linker symbols [end] and [data]; turns of a wait for a sleep lock or the log. *)
Context (end_ data_ : Z) (waits : nat).
Context (dev_read : Z -> option (nat -> Z -> M (fsst S) (Z * list Z))).
(** The address of the task state of this CPU. *)
Context (ts : Z).
Context (cprintf : string -> M (execst S) unit).
Implicit Types s : execst S.

Definition set_x_fs (v : fsst S) s : execst S := mkx v (x_ram s) (x_use_lock s) (x_freelist s) (x_cur s) (x_hw s).
Definition set_x_ram (v : memory) s : execst S := mkx (x_fs s) v (x_use_lock s) (x_freelist s) (x_cur s) (x_hw s).
Definition set_x_cur (v : uproc) s : execst S := mkx (x_fs s) (x_ram s) (x_use_lock s) (x_freelist s) v (x_hw s).
Definition set_x_hw (v : hw) s : execst S := mkx (x_fs s) (x_ram s) (x_use_lock s) (x_freelist s) (x_cur s) v.

(** The part of the state that [vm.c] and [kalloc.c] work on. *)
Definition get_k s : kst := mkkst (ctx (x_fs s)) (x_ram s) (x_use_lock s) (x_freelist s).
Definition put_k (k : kst) s : execst S := mkx (set_ctx (kst_ctx k) (x_fs s)) (ram k) (use_lock k) (freelist k) (x_cur s) (x_hw s).

Definition onfs {A} (m : M (fsst S) A) : M (execst S) A := inside x_fs set_x_fs m.
Definition onmem {A} (m : M kst A) : M (execst S) A := inside get_k put_k m.

Definition begin_op : M (execst S) unit := onfs (onstore (t_begin_op (Datatypes.S waits))).
Definition end_op : M (execst S) unit := onfs (onstore t_end_op).

(** ** [vm.c] *)

(** The [for] of [loaduvm], one turn per page. *)
Fixpoint load_pages (fuel : nat) (pgdir addr : Z) (ip : nat) (offset i sz : Z) : M (execst S) Z :=
  match fuel with
  | O => nofuel
  | Datatypes.S fuel =>
      if negb (i <? sz) then ret 0 else
      pte <- onmem (walkpgdir pgdir (u32 (addr + i)) false) ;;
      if pte =? 0 then panic "loaduvm: address should exist" else
      e <- onmem (rd pte) ;;
      let pa := PTE_ADDR e in
      let n := if sz - i <? PGSIZE then sz - i else PGSIZE in
      r <- onfs (readi dev_read ip (u32 (offset + i)) n) ;;
      modify (fun s => set_x_ram (blit_list (P2V pa) (snd r) (x_ram s)) s) ;;
      if negb (u32 (fst r) =? n) then ret (-1) else
      load_pages fuel pgdir addr ip offset (u32 (i + PGSIZE)) sz
  end.

Definition loaduvm (pgdir addr : Z) (ip : nat) (offset sz : Z) : M (execst S) Z :=
  if negb (addr mod PGSIZE =? 0) then panic "loaduvm: addr must be page aligned" else
  load_pages (Datatypes.S (Z.to_nat (sz / PGSIZE + 1))) pgdir addr ip offset 0 sz.

Definition switchuvm (u : uproc) : M (execst S) unit :=
  if u_kstack u =? 0 then panic "switchuvm: no kstack" else
  if u_pgdir u =? 0 then panic "switchuvm: no pgdir" else
  onfs (onctx pushcli) ;;
  modify (set_x_hw (user_hw ts u)) ;;
  onfs (onctx popcli).

(** ** [exec] *)

(** The label [bad]; [ip] while the operation is open. *)
Definition bad (pgdir : Z) (ip : option nat) : M (execst S) Z :=
  when (negb (pgdir =? 0)) (onmem (freevm end_ pgdir)) ;;
  match ip with
  | Some ip => onfs (iunlockput waits ip) ;; end_op
  | None => ret tt
  end ;;
  ret (-1).

(** The program headers from [off] on; none on the way to [bad]. *)
Fixpoint load_segs (n : nat) (pgdir : Z) (ip : nat) (off sz : Z) : M (execst S) (option Z) :=
  match n with
  | O => ret (Some sz)
  | Datatypes.S n =>
      r <- onfs (readi dev_read ip off 32) ;;
      if negb (u32 (fst r) =? 32) then ret None else
      let ph := get_ph (snd r) in
      if negb (ph_type ph =? ELF_PROG_LOAD) then load_segs n pgdir ip (u32 (off + 32)) sz else
      if ph_memsz ph <? ph_filesz ph then ret None else
      if u32 (ph_vaddr ph + ph_memsz ph) <? ph_vaddr ph then ret None else
      sz <- onmem (allocuvm end_ pgdir sz (u32 (ph_vaddr ph + ph_memsz ph))) ;;
      if sz =? 0 then ret None else
      if negb (ph_vaddr ph mod PGSIZE =? 0) then ret None else
      r <- loaduvm pgdir (ph_vaddr ph) ip (ph_off ph) (ph_filesz ph) ;;
      if r <? 0 then ret None else
      load_segs n pgdir ip (u32 (off + 32)) sz
  end.

(** The argument strings, pushed from [sp] down; the stack pointer and the addresses. *)
Fixpoint push_args (argv : list (list Z)) (pgdir sp : Z) (ptrs : list Z) : M (execst S) (option (Z * list Z)) :=
  match argv with
  | [] => ret (Some (sp, ptrs))
  | a :: argv =>
      if MAXARG <=? Z.of_nat (length ptrs) then ret None else
      let sp := Z.land (u32 (sp - (Z.of_nat (length a) + 1))) (u32 (Z.lnot 3)) in
      r <- onmem (copyout pgdir sp (cstr a)) ;;
      if r <? 0 then ret None else
      push_args argv pgdir sp (ptrs ++ [sp])
  end.

(** The part of [path] behind its last slash. *)
Fixpoint last_elem (last path : list Z) : list Z :=
  match path with
  | [] => last
  | ch :: path => last_elem (if ch =? 47 then path else last) path
  end.

(** Save the name, and commit to the user image. *)
Definition commit_image (path : list Z) (pgdir sz entry sp : Z) : M (execst S) Z :=
  u <- gets x_cur ;;
  match safestrcpy_field (u_name u) (cstr (last_elem path path)) 16 with
  | None => ub "safestrcpy"
  | Some name =>
      let oldpgdir := u_pgdir u in
      let u := set_u_image pgdir sz entry sp (set_u_name name u) in
      modify (set_x_cur u) ;;
      switchuvm u ;;
      onmem (freevm end_ oldpgdir) ;;
      ret 0
  end.

(** The user stack of a loaded program of [sz] bytes. *)
Definition setup_stack (path : list Z) (argv : list (list Z)) (pgdir sz entry : Z) : M (execst S) Z :=
  let sz := PGROUNDUP sz in
  sz <- onmem (allocuvm end_ pgdir sz (u32 (sz + 2 * PGSIZE))) ;;
  if sz =? 0 then bad pgdir None else
  onmem (clearpteu pgdir (u32 (sz - 2 * PGSIZE))) ;;
  r <- push_args argv pgdir sz [] ;;
  match r with
  | None => bad pgdir None
  | Some (sp, ptrs) =>
      let argc := Z.of_nat (length ptrs) in
      let ustack := [0xffffffff; argc; u32 (sp - (argc + 1) * 4)] ++ ptrs ++ [0] in
      let sp := u32 (sp - (3 + argc + 1) * 4) in
      r <- onmem (copyout pgdir sp (concat (le_bytes 4 <$> ustack))) ;;
      if r <? 0 then bad pgdir None else
      commit_image path pgdir sz entry sp
  end.

(** The executable [ip], locked. *)
Definition load_file (path : list Z) (argv : list (list Z)) (ip : nat) : M (execst S) Z :=
  r <- onfs (readi dev_read ip 0 52) ;;
  if negb (u32 (fst r) =? 52) then bad 0 (Some ip) else
  let elf := snd r in
  if negb (elf_magic elf =? ELF_MAGIC) then bad 0 (Some ip) else
  pgdir <- onmem (setupkvm end_ data_) ;;
  if pgdir =? 0 then bad 0 (Some ip) else
  r <- load_segs (Z.to_nat (elf_phnum elf)) pgdir ip (elf_phoff elf) 0 ;;
  match r with
  | None => bad pgdir (Some ip)
  | Some sz =>
      onfs (iunlockput waits ip) ;;
      end_op ;;
      setup_stack path argv pgdir sz (elf_entry elf)
  end.

Definition exec (path : list Z) (argv : list (list Z)) : M (execst S) Z :=
  onfs (onctx myproc) ;;
  begin_op ;;
  ip <- onfs (namei waits dev_read path) ;;
  match ip with
  | None => end_op ;; cprintf ("exec: fail" +:+ nl) ;; ret (-1)
  | Some ip => onfs (ilock waits (Some ip)) ;; load_file path argv ip
  end.

End Exec.
End Exec.
