(* ===== verification/ExecSpec.v ===== *)
(** * What [exec] is to load

    [program]: the address space, the entry point and the stack pointer that an executable
    file and its arguments stand for, as functions of the bytes of the file; and the rules
    for the file system and the memory as parts of the state of [exec]. *)

From Stdlib Require Import ZArith Lia.
From S2P Require Import Prelude Spinlock Sleeplock Strings Blocks Bytes Log Txn Fs FsSpec FsInode FsFile.
From S2P Require Import Memory Kalloc Vm VmSpec VmOps Exec.

Module ExecSpec.
Import Exec.

Notation len l := (Z.of_nat (length l)).

(** ** The program *)

Implicit Types (F : list Z) (b : Z -> Z) (argv : list (list Z)).

(** The bytes [bs] at [a], and [b] elsewhere. *)
Definition overlay (a : Z) (bs : list Z) b : Z -> Z :=
  fun va => if decide (a <= va < a + len bs) then default 0 (bs !! Z.to_nat (va - a)) else b va.

(** [n] program headers from [off] on: the size of the program and its bytes. *)
Fixpoint load_spec (n : nat) (off : Z) F (sz : Z) b : option (Z * (Z -> Z)) :=
  match n with
  | O => Some (sz, b)
  | S n =>
      if len F <? off + 32 then None else
      let ph := get_ph (sub (Z.to_nat off) 32 F) in
      if negb (ph_type ph =? ELF_PROG_LOAD) then load_spec n (off + 32) F sz b else
      let sz' := Z.max sz (ph_vaddr ph + ph_memsz ph) in
      if (ph_memsz ph <? ph_filesz ph) || (KERNBASE <=? ph_vaddr ph + ph_memsz ph) || (sz' =? 0) || negb (ph_vaddr ph mod PGSIZE =? 0) ||
         negb ((ph_filesz ph =? 0) || (ph_off ph + ph_filesz ph <=? len F)) then None else
      load_spec n (off + 32) F sz' (overlay (ph_vaddr ph) (sub (Z.to_nat (ph_off ph)) (Z.to_nat (ph_filesz ph)) F) b)
  end.

(** The strings, aligned, below [sp] and not below [lo]. *)
Fixpoint args_spec argv (lo sp : Z) (ptrs : list Z) b : option (Z * list Z * (Z -> Z)) :=
  match argv with
  | [] => Some (sp, ptrs, b)
  | a :: argv =>
      let sp' := (sp - (len a + 1)) / 4 * 4 in
      if (MAXARG <=? len ptrs) || (sp' <? lo) then None else
      args_spec argv lo sp' (ptrs ++ [sp']) (overlay sp' (cstr a) b)
  end.

(** The words [main] finds on its stack. *)
Definition main_frame (sp : Z) (ptrs : list Z) : list Z :=
  concat (le_bytes 4 <$> [0xffffffff; len ptrs; sp - (len ptrs + 1) * 4] ++ ptrs ++ [0]).

(** Two pages on top of the program: one without access, one for the stack. *)
Definition stack_spec argv (sz : Z) b : option (Z * Z * (Z -> Z)) :=
  let top := (pgceil sz + 2) * PGSIZE in
  if KERNBASE <=? top then None else
  match args_spec argv (top - PGSIZE) top [] b with
  | None => None
  | Some (sp, ptrs, b) =>
      let sp' := sp - (len ptrs + 4) * 4 in
      if sp' <? top - PGSIZE then None else Some (top, sp', overlay sp' (main_frame sp ptrs) b)
  end.

(** Entry point, size, stack pointer and contents of the address space. *)
Definition program F argv : option (Z * Z * Z * (Z -> Z)) :=
  let elf := sub 0 52 F in
  if (len F <? 52) || negb (elf_magic elf =? ELF_MAGIC) then None else
  match load_spec (Z.to_nat (elf_phnum elf)) (elf_phoff elf) F 0 (fun _ => 0) with
  | None => None
  | Some (sz, b) => match stack_spec argv sz b with None => None | Some (top, sp, b) => Some (elf_entry elf, top, sp, b) end
  end.

(** ** The parts of the state *)

Section Parts.
Context {S : Type} `{!HasCtx S, !Txn S}.
Implicit Types (s : execst S).

(** Memory and allocator replaced. *)
Definition with_k (k : kst) s : execst S := mkx (x_fs s) (ram k) (use_lock k) (freelist k) (x_cur s) (x_hw s).

Lemma put_with k s : kst_ctx k = ctx (x_fs s) -> put_k k s = with_k k s.
Proof. intros E. unfold put_k, with_k. f_equal. rewrite E. apply (set_ctx_ctx (S := fsst S)). Qed.

Lemma get_with k s : kst_ctx k = ctx (x_fs s) -> get_k (with_k k s) = k.
Proof. intros E. change (mkkst (ctx (x_fs s)) (ram k) (use_lock k) (freelist k) = k). rewrite <- E. by destruct k. Qed.

Lemma with_with k k' s : with_k k (with_k k' s) = with_k k s.
Proof. done. Qed.

Lemma wp_on_fs {A} (m : M (fsst S) A) s Q W : wp (m (x_fs s)) (fun a f => Q a (set_x_fs f s)) stays -> wp (onfs m s) Q W.
Proof. apply wp_inside. Qed.

(** Code that keeps the lock context. *)
Lemma wp_onmem {A} (m : M kst A) s Q W :
  wp (m (get_k s)) (fun a k => ctx k = ctx (get_k s) /\ Q a (with_k k s)) stays -> wp (onmem m s) Q W.
Proof.
  intros H. apply wp_inside. eapply wp_mono; [exact H| |done]. intros a k [E HQ]. by rewrite put_with.
Qed.
End Parts.

(** ** Reading the file *)

Section Read.
Context {S : Type} `{!HasCtx S, !Txn S}.
Context (dev_read : Z -> option (nat -> Z -> M (fsst S) (Z * list Z))).
Context (i : nat) (c : cpu) (g : tgeo) (sb : superblock) (ds : Z) (pid : Z) (cwd : nat).
Hypothesis (Hly : layout g sb ds) (Hds : 0 < ds).
Implicit Types (V : Z -> block) (p : inode).
Notation fsrep := (fsrep i c g sb pid cwd).

Definition file_data V p : list Z := fbytes V p 0 (Z.to_nat (i_size p)).

Lemma data_sub V p off n : 0 <= off -> (Z.to_nat off + n <= Z.to_nat (i_size p))%nat -> fbytes V p off n = sub (Z.to_nat off) n (file_data V p).
Proof.
  intros Ho Hn. apply list_eq_same_length with n; [|apply length_fbytes|].
  - unfold sub, file_data. rewrite length_take, length_drop, length_fbytes. lia.
  - intros k x y Hk Hx Hy. rewrite fbytes_lookup in Hx by done. rewrite sub_lookup, decide_True in Hy by done. unfold file_data in Hy.
    rewrite fbytes_lookup in Hy by lia. injection Hx as <-. injection Hy as <-. f_equal. lia.
Qed.

(** Bytes of the file, all or fewer. *)
Lemma wp_read s V T l K ip p off n Q W :
  fsrep s V ∅ T l K -> file_at sb ds V l ip p -> (size T < NBUF)%nat -> is_u32 off -> 0 < n <= 4096 ->
  (forall s', fsrep s' V ∅ T l K -> len (file_data V p) < off + n -> forall r bs, u32 r <> n -> len bs <= n -> Q (r, bs) s') ->
  (forall s', fsrep s' V ∅ T l K -> off + n <= len (file_data V p) -> Q (n, sub (Z.to_nat off) (Z.to_nat n) (file_data V p)) s') ->
  wp (readi dev_read ip off n s) Q W.
Proof.
  intros Hr Hf HT Ho Hn H0 H1. destruct Hf as [Hp Hdev Hty Hsz Hmp] eqn:E. clear E. unfold is_u32, MAXFILE, BSIZE in *.
  assert (Hlen : len (file_data V p) = i_size p) by (unfold file_data; rewrite length_fbytes; lia). rewrite Hlen in *.
  destruct (decide (i_size p < off)) as [Hlt|Hge].
  { erewrite readi_bad; [|by rewrite (fr_ic _ _ _ _ _ _ _ _ _ _ _ _ Hr)|done|by left]. cbn. apply H0; [done|lia|vm_compute; lia|cbn; lia]. }
  eapply (wp_readi i c g sb ds pid cwd Hly); [exact Hr|exact Hf|exact Hds|done|lia|lia|lia|]. intros s' m Hm R'.
  destruct (decide (off + n <= i_size p)) as [Hall|Hpart].
  - assert (m = n) as -> by lia. rewrite data_sub by lia. by apply H1.
  - apply H0; [done|lia|rewrite u32_small by (unfold is_u32; lia); lia|]. rewrite length_fbytes. lia.
Qed.
End Read.

End ExecSpec.
