(* ===== verification/ExecOps.v ===== *)
(** * The steps of [exec]

    Loading segments and building the stack, on an address space whose user part is
    described by [user_image]. *)

From Stdlib Require Import ZArith Lia.
From S2P Require Import Prelude Spinlock Sleeplock Strings Blocks Bytes Log Txn Fs FsSpec FsInode FsFile.
From S2P Require Import Memory Kalloc Vm VmSpec VmOps Exec ExecSpec.

Module ExecOps.
Import Exec ExecSpec.

Lemma overlay_out a bs b va : ~ (a <= va < a + len bs) -> overlay a bs b va = b va.
Proof. intros H. unfold overlay. by rewrite decide_False. Qed.

Lemma overlay_nil a b va : overlay a [] b va = b va.
Proof. apply overlay_out. cbn. lia. Qed.

Lemma overlay_app a xs ys b va : overlay (a + len xs) ys (overlay a xs b) va = overlay a (xs ++ ys) b va.
Proof.
  unfold overlay. rewrite length_app. repeat case_decide; try lia; try done.
  - rewrite lookup_app_r by lia. do 2 f_equal. lia.
  - by rewrite lookup_app_l by lia.
Qed.

Lemma sub_split o n m F : sub o (n + m) F = sub o n F ++ sub (o + n) m F.
Proof. unfold sub. rewrite <- take_take_drop, drop_drop. done. Qed.

Lemma le_val_range d : Forall is_byte d -> 0 <= le_val d < 256 ^ len d.
Proof.
  induction 1 as [|x d Hx _ IH]; [cbn; lia|]. cbn [le_val length]. rewrite Nat2Z.inj_succ, Z.pow_succ_r by lia. unfold is_byte in Hx. change (2 ^ 8) with 256 in Hx. lia.
Qed.

Lemma getn_range n off d : Forall is_byte d -> 0 <= getn n off d < 256 ^ Z.of_nat n.
Proof.
  intros H. unfold getn. pose proof (le_val_range (sub off n d) ltac:(unfold sub; by apply Forall_take, Forall_drop)) as Hr.
  assert (Hl : (length (sub off n d) <= n)%nat) by (unfold sub; rewrite length_take; lia).
  pose proof (Z.pow_le_mono_r 256 (len (sub off n d)) (Z.of_nat n) ltac:(lia) ltac:(lia)). lia.
Qed.

(** The fields of a program header are unsigned integers. *)
Lemma ph_range d : Forall is_byte d -> let ph := get_ph d in is_u32 (ph_off ph) /\ is_u32 (ph_vaddr ph) /\ is_u32 (ph_filesz ph) /\ is_u32 (ph_memsz ph).
Proof. intros H. cbn. split_and!; exact (getn_range 4 _ d H). Qed.

Lemma pgceil_mono x y : x <= y -> pgceil x <= pgceil y.
Proof. intros H. unfold pgceil. apply Z.div_le_mono; [done|lia]. Qed.

Lemma pgceil_max sz : sz < KERNBASE -> pgceil sz <= UVPN.
Proof. unfold pgceil, KERNBASE, UVPN, PGSIZE. intros H. Z.div_mod_to_equations. lia. Qed.

Lemma load_spec_mono F n off sz b sz' b' : load_spec n off F sz b = Some (sz', b') -> sz <= sz'.
Proof.
  revert off sz b. induction n as [|n IH]; intros off sz b; cbn [load_spec]; [intros E; injection E; lia|]. destruct (len F <? off + 32); [done|].
  destruct (negb _); [apply IH|]. destruct (_ || _); [done|]. intros E. apply IH in E. lia.
Qed.

Lemma short_mono All X n m : short All X n -> n <= m -> short All X m.
Proof. unfold short. lia. Qed.

(** ** The user part of an address space *)

Section Image.
Context (end_ data_ : Z) (i : nat) (c : cpu) (All : list Z) `{Hmg : !Managed end_ All}.
Hypothesis (data_page : data_ mod PGSIZE = 0) (data_range : KERNLINK < data_ < KERNBASE + PHYSTOP).
Notation vm_inv := (@VmSpec.vm_inv end_ i c All).
Implicit Types (A : gmap Z Z) (m : memory) (k : kst) (b : Z -> Z).

(** The first [np] pages are the user's and hold [b], all accessible but [guard]; the rest
    is the kernel's. *)
Record user_image A m (np guard : Z) b : Prop := {
  ui_user : forall v, 0 <= v < np -> exists e, A !! v = Some e /\ PTE_FLAGS e = if v =? guard then 3 else 7;
  ui_rest : forall v, ~ (0 <= v < np) -> A !! v = kentry data_ v;
  ui_byte : forall va, 0 <= va < np * PGSIZE -> vbyte m A va = Some (b va);
  ui_zero : forall va, np * PGSIZE <= va -> b va = 0;
  ui_max : 0 <= np <= UVPN
}.

Lemma ui_in A m np gd b v : user_image A m np gd b -> v < UVPN -> is_Some (A !! v) <-> 0 <= v < np.
Proof.
  intros H Hv. split.
  - intros [e He]. destruct (decide (0 <= v < np)) as [|Hn]; [done|]. rewrite (ui_rest _ _ _ _ _ H) in He by done. by rewrite kentry_user in He.
  - intros Hr. destruct (ui_user _ _ _ _ _ H v Hr) as (e & He & _). by exists e.
Qed.

Lemma ui_count A m np gd b : user_image A m np gd b -> len (upages A) = np.
Proof.
  intros H. pose proof (ui_max _ _ _ _ _ H) as Hm. unfold upages. rewrite !length_fmap.
  assert (Hd : dom (user_map A) = list_to_set (C := gset Z) (seqZ 0 np)).
  { apply set_eq. intros v. rewrite elem_of_dom, elem_of_list_to_set, elem_of_seqZ. unfold user_map. split.
    - intros [e He]. apply map_lookup_filter_Some in He as [He Hv]. cbn in Hv. apply (ui_in A m np gd b v H) in Hv. rewrite Z.add_0_l. apply Hv. by exists e.
    - intros Hv. rewrite Z.add_0_l in Hv. destruct (proj2 (ui_in A m np gd b v H ltac:(lia)) Hv) as [e He]. exists e. apply map_lookup_filter_Some. split; [done|cbn; lia]. }
  rewrite length_map_to_list, <- size_dom, Hd.
  rewrite size_list_to_set by apply NoDup_seqZ. rewrite length_seqZ. lia.
Qed.

Lemma ui_empty m : user_image (kernel_map data_) m 0 (-1) (fun _ => 0).
Proof. split; [intros; lia|intros v _; by apply kernel_map_lookup|intros; lia|done|unfold UVPN; lia]. Qed.

(** The bytes of pages that are kept. *)
Lemma ui_keeps A m m' np gd b : user_image A m np gd b -> (forall p, p ∈ upages A -> agree m m' p) -> user_image A m' np gd b.
Proof.
  intros H Hk. split; try apply H. intros va Hva. rewrite <- (ui_byte _ _ _ _ _ H va Hva). unfold vbyte.
  destruct (A !! vpn va) as [e|] eqn:He; [|done]. cbn. f_equal. pose proof (ui_max _ _ _ _ _ H). apply (Hk (page_of e)).
  - apply elem_of_upages. exists (vpn va), e. split_and!; [done| |done]. unfold vpn, PGSIZE in *. Z.div_mod_to_equations. lia.
  - unfold PGSIZE. Z.div_mod_to_equations. lia.
Qed.

Lemma ui_grow A A' m m' np np' b : user_image A m np (-1) b -> np <= np' <= UVPN -> grown A A' np np' m' ->
  (forall p, p ∈ upages A -> agree m m' p) -> user_image A' m' np' (-1) b.
Proof.
  intros H Hn [Go Gn] Hk. split.
  - intros v Hv. rewrite (proj2 (Z.eqb_neq v (-1))) by lia. destruct (decide (v < np)) as [Hlt|Hge].
    + destruct (ui_user _ _ _ _ _ H v) as (e & He & Hf); [lia|]. rewrite (proj2 (Z.eqb_neq v (-1))) in Hf by lia. exists e. by rewrite Go by lia.
    + destruct (Gn v) as (e & He & Hf & _); [lia|]. by exists e.
  - intros v Hv. destruct (ui_max _ _ _ _ _ H). rewrite Go by lia. apply (ui_rest _ _ _ _ _ H). lia.
  - intros va Hva. destruct (decide (va < np * PGSIZE)) as [Hlt|Hge].
    + rewrite <- (ui_byte _ _ _ _ _ (ui_keeps _ _ m' _ _ _ H Hk) va) by lia. unfold vbyte. rewrite Go; [done|]. unfold vpn, PGSIZE in *. Z.div_mod_to_equations. lia.
    + rewrite (ui_zero _ _ _ _ _ H) by lia. destruct (Gn (vpn va)) as (e & He & _ & Hz); [unfold vpn, PGSIZE in *; Z.div_mod_to_equations; lia|].
      unfold vbyte. rewrite He. cbn. f_equal. apply Hz. unfold PGSIZE. Z.div_mod_to_equations. lia.
  - intros va Hva. apply (ui_zero _ _ _ _ _ H). unfold PGSIZE in *. lia.
  - destruct (ui_max _ _ _ _ _ H). lia.
Qed.

Lemma ui_ext A m np gd b b' : user_image A m np gd b -> (forall va, b' va = b va) -> user_image A m np gd b'.
Proof. intros [H1 H2 H3 H4 H5] E. split; [done|done| | |done]; intros va Hva; rewrite E; auto. Qed.

(** Bytes written inside a user page. *)
Lemma ui_write k P T A X l np gd b va e bs : vm_inv k P T A X l -> user_image A (ram k) np gd b -> 0 <= va < np * PGSIZE -> A !! vpn va = Some e ->
  va mod PGSIZE + len bs <= PGSIZE ->
  let m' := blit_list (page_of e + va mod PGSIZE) bs (ram k) in
  vm_inv (set_ram m' k) P T A X l /\ keeps X k (set_ram m' k) /\ user_image A m' np gd (overlay va bs b).
Proof.
  intros Hi Hu Hva He Hlen m'. destruct (ui_max _ _ _ _ _ Hu) as [_ Hmax].
  assert (Hvn : vpn va < UVPN) by (unfold vpn, PGSIZE, UVPN in *; Z.div_mod_to_equations; lia).
  assert (Hb : va < KERNBASE) by (unfold KERNBASE, UVPN, PGSIZE in *; lia).
  destruct (inv_user_write _ _ _ _ k P T A X l m' (vpn va) e Hi He Hvn) as [Hi' Hk'].
  { intros x Hx. unfold m', blit_list. rewrite in_range_out; [done|]. pose proof (Z.mod_pos_bound va PGSIZE ltac:(done)). lia. }
  split_and!; [done|done|]. split; try apply Hu.
  - intros vb Hvb. unfold m'. rewrite (vbyte_write _ _ _ _ k P T A X l va e bs vb Hi) by (done || (unfold KERNBASE, UVPN, PGSIZE in *; lia)).
    unfold overlay. case_decide as Hd; [|by apply Hu]. destruct (lookup_lt_is_Some_2 bs (Z.to_nat (vb - va))) as [x Hx]; [lia|]. by rewrite Hx.
  - intros vb Hvb. rewrite overlay_out; [by apply Hu|]. unfold PGSIZE in *. Z.div_mod_to_equations. lia.
Qed.

(** [allocuvm] from [sz] to [new], which may be smaller. *)
Lemma wp_growuvm k P T A X l sz new b Q W :
  vm_inv k P T A X l -> user_image A (ram k) (pgceil sz) (-1) b -> 0 <= sz < KERNBASE -> 0 <= new ->
  (forall k' T' A' l', vm_inv k' P T' A' X l' -> keeps X k k' -> KERNBASE <= new \/ short All X (pgceil (Z.max sz new)) -> Q 0 k') ->
  (forall k' T' A' l', vm_inv k' P T' A' X l' -> user_image A' (ram k') (pgceil (Z.max sz new)) (-1) b -> keeps X k k' -> new < KERNBASE -> Q (Z.max sz new) k') ->
  wp (allocuvm end_ P sz new k) Q W.
Proof.
  intros Hi Hu Hsz Hnew H0 H1. destruct (decide (KERNBASE <= new)) as [Hbig|Hsmall].
  { unfold allocuvm. rewrite (proj2 (Z.leb_le _ _)) by done. cbn. eapply H0; [exact Hi|apply keeps_refl|by left]. }
  destruct (decide (new < sz)) as [Hlt|Hge].
  { unfold allocuvm. rewrite (proj2 (Z.leb_gt _ _)), (proj2 (Z.ltb_lt _ _)) by lia. cbn. rewrite Z.max_l in H1 by lia. eapply H1; [exact Hi|done|apply keeps_refl|lia]. }
  rewrite Z.max_r in H0, H1 by lia. assert (Hc := pgceil_mono sz new ltac:(lia)). assert (Hm := pgceil_max new ltac:(lia)).
  eapply wp_allocuvm; [done|exact Hi|lia|lia| | |].
  - intros v Hv. destruct (A !! v) eqn:E; [|done]. assert (Hs : is_Some (A !! v)) by (by rewrite E). apply (ui_in A _ _ _ _ v Hu) in Hs; lia.
  - intros k' T' l' Hi' Hsh Hk'. rewrite (ui_count _ _ _ _ _ Hu) in Hsh. eapply H0; [exact Hi'|eapply keeps_weaken; [|exact Hk']; set_solver|right].
    by replace (pgceil new) with (pgceil sz + (pgceil new - pgceil sz)) by lia.
  - intros k' T' A' l' Hi' Hg Hk'. eapply H1; [exact Hi'| |eapply keeps_weaken; [|exact Hk']; set_solver|lia].
    eapply ui_grow; [exact Hu|lia|exact Hg|]. intros p Hp. apply (kp_mem _ _ _ Hk'). set_solver.
Qed.

End Image.

(** ** Loading segments *)

Section Load.
Context {S : Type} `{!HasCtx S, !Txn S}.
Context (end_ data_ : Z) (waits : nat).
Context (dev_read : Z -> option (nat -> Z -> M (fsst S) (Z * list Z))).
Context (i : nat) (c : cpu) (All : list Z) `{Hmg : !Managed end_ All}.
Context (g : tgeo) (sb : superblock) (ds : Z) (pid : Z) (cwd : nat).
Hypothesis (Hly : layout g sb ds) (Hds : 0 < ds).
Hypothesis (data_page : data_ mod PGSIZE = 0) (data_range : KERNLINK < data_ < KERNBASE + PHYSTOP).
Notation vm_inv := (@VmSpec.vm_inv end_ i c All).
Notation fsrep := (fsrep i c g sb pid cwd).
Notation user_image := (user_image data_).
Implicit Types (s : execst S) (A : gmap Z Z) (b : Z -> Z).

(** What no step changes: the pages [X] and the process. *)
Record held (X : list Z) s s' : Prop := {
  hd_mem : forall p, p ∈ X -> agree (x_ram s) (x_ram s') p;
  hd_lock : x_use_lock s' = x_use_lock s;
  hd_cur : x_cur s' = x_cur s;
  hd_hw : x_hw s' = x_hw s
}.

Lemma held_refl X s : held X s s.
Proof. by split. Qed.

Lemma held_trans X s1 s2 s3 : held X s1 s2 -> held X s2 s3 -> held X s1 s3.
Proof. intros [H1 H2 H3 H4] [H5 H6 H7 H8]. split; [|congruence..]. intros p Hp x Hx. by rewrite H5, H1. Qed.

Lemma held_fs X s f : held X s (set_x_fs f s).
Proof. by split. Qed.

Lemma held_keeps X s k : keeps X (get_k s) k -> held X s (with_k k s).
Proof. intros [H1 _ H2]. by split. Qed.

(** The memory while the file system runs. *)
Lemma inv_calm k k' P T A X l : vm_inv k P T A X l -> ram k' = ram k -> use_lock k' = use_lock k -> freelist k' = freelist k ->
  ctx_ok (ctx k') i c -> locks (ctx k') = ∅ -> vm_inv k' P T A X l.
Proof.
  intros [H1 [L1 L2 L3] H3 H4] Er Eu Ef Hc Hl. split; [right; split; [done|by rewrite Hl]|split; [by rewrite Er, Ef|done|done]|by rewrite Er|done].
Qed.

Lemma inv_fs s f P T A X l V Tx ic K : vm_inv (get_k s) P T A X l -> fsrep f V ∅ Tx ic K -> vm_inv (get_k (set_x_fs f s)) P T A X l.
Proof. intros Hi Hr. destruct (fsrep_calm _ _ _ _ _ _ _ _ _ _ _ _ Hr) as [Hc Hl]. by eapply inv_calm. Qed.

(** Memory operations on an address space. *)
Lemma wp_mem {B} (m : M kst B) s X Q W :
  wp (m (get_k s)) (fun a k => keeps X (get_k s) k /\ (get_k (with_k k s) = k -> held X s (with_k k s) -> Q a (with_k k s))) stays -> wp (onmem m s) Q W.
Proof.
  intros H. apply wp_onmem. eapply wp_mono; [exact H| |done]. intros a k [Hk HQ]. assert (E : ctx k = ctx (get_k s)) by apply Hk.
  split; [exact E|]. apply HQ; [by apply get_with|by apply held_keeps].
Qed.

(** The file that is read. *)
Context (V : Z -> block) (Tx : gset Z) (ic : list inode) (K : gset nat) (ip : nat) (p : inode).
Hypothesis (Hfile : file_at sb ds V ic ip p) (HT : (size Tx < NBUF)%nat).
Notation F := (file_data V p).

Lemma file_small : len F <= 71680.
Proof. pose proof (fa_size _ _ _ _ _ _ Hfile) as H. unfold MAXFILE, BSIZE in H. unfold file_data. rewrite length_fbytes. lia. Qed.

(** The file system in the operation, and the address space. *)
Record loading s P T A X l : Prop := {
  ld_fs : fsrep (x_fs s) V ∅ Tx ic K;
  ld_mem : vm_inv (get_k s) P T A X l
}.

(** One page: read into it, all of it or with an error. *)
Lemma wp_load_page fuel s P T A X l np b addr off j sz Q W :
  loading s P T A X l -> user_image A (x_ram s) np (-1) b -> addr mod PGSIZE = 0 -> 0 <= addr -> addr + sz <= np * PGSIZE -> j mod PGSIZE = 0 -> 0 <= j < sz ->
  is_u32 (off + j) ->
  let n := Z.min (sz - j) PGSIZE in
  (forall s', loading s' P T A X l -> held X s s' -> len F < off + j + n -> Q (-1) s') ->
  (forall s', loading s' P T A X l -> held X s s' -> off + j + n <= len F ->
     user_image A (x_ram s') np (-1) (overlay (addr + j) (sub (Z.to_nat (off + j)) (Z.to_nat n) F) b) ->
     wp (load_pages dev_read fuel P addr ip off (u32 (j + PGSIZE)) sz s') Q W) ->
  wp (load_pages dev_read (Datatypes.S fuel) P addr ip off j sz s) Q W.
Proof.
  intros [Hr Hi] Hu Ham Ha0 Htop Hjm Hj Hou n H0 H1. destruct (ui_max _ _ _ _ _ _ Hu) as [_ Hmax]. set (va := addr + j).
  assert (Hvam : va mod PGSIZE = 0) by (unfold va; rewrite Z.add_mod, Ham, Hjm by done; done).
  assert (Hva : 0 <= va < np * PGSIZE) by (unfold va; lia). assert (Hvb : va < KERNBASE) by (unfold KERNBASE, UVPN, PGSIZE in *; lia).
  cbn [load_pages]. rewrite (proj2 (Z.ltb_lt _ _)) by lia. cbn [negb]. rewrite (u32_small (addr + j)) by (unfold is_u32, KERNBASE in *; fold va; lia). fold va.
  destruct (ui_user _ _ _ _ _ _ Hu (vpn va)) as (e & He & _); [unfold vpn, PGSIZE in *; Z.div_mod_to_equations; lia|].
  destruct (inv_tables _ _ _ _ _ _ Hi) as [Hok _]. apply Forall_cons in Hok as [_ Hok].
  destruct (walk_entry end_ All (get_k s) P T A va e (vi_rep _ _ _ _ _ _ Hi)) as (pte & Hw & Hp0 & Hpe & Hodd); [|unfold is_u32, KERNBASE in *; lia|done|].
  { intros q Hq. by eapply Forall_at. }
  apply wp_step. eapply (wp_mem _ s X). eapply wp_eq; [exact Hw|]. split; [apply keeps_refl|]. intros _ _. rewrite (proj2 (Z.eqb_neq _ 0)) by done.
  apply wp_step. eapply (wp_mem _ (with_k (get_k s) s) X). change (get_k (with_k (get_k s) s)) with (get_k s). cbn [rd gets wp]. split; [apply keeps_refl|]. intros _ _.
  replace (with_k (get_k s) (with_k (get_k s) s)) with s by (by destruct s). rewrite Hpe.
  replace (if sz - j <? PGSIZE then sz - j else PGSIZE) with n by (unfold n; destruct (Z.ltb_spec (sz - j) PGSIZE); lia).
  rewrite (u32_small (off + j)) by done. assert (Hn : 0 < n <= 4096) by (unfold n, PGSIZE in *; lia).
  apply wp_step. apply wp_on_fs.
  assert (Hwr : forall f bs, fsrep f V ∅ Tx ic K -> len bs <= n ->
    let s' := set_x_ram (blit_list (P2V (PTE_ADDR e)) bs (x_ram s)) (set_x_fs f s) in
    loading s' P T A X l /\ held X s s' /\ user_image A (x_ram s') np (-1) (overlay va bs b)).
  { intros f bs Hf Hbs s'. assert (Hi1 := inv_fs s f P T A X l V Tx ic K Hi Hf).
    destruct (ui_write end_ data_ i c All (get_k (set_x_fs f s)) P T A X l np (-1) b va e bs Hi1 Hu Hva He) as (W1 & W2 & W3); [rewrite Hvam; unfold PGSIZE; lia|].
    rewrite Hvam, Z.add_0_r in W1, W2, W3. unfold page_of in *. split_and!; [by split|by destruct W2|done]. }
  eapply (wp_read dev_read i c g sb ds pid cwd Hly Hds _ V Tx ic K ip p); [exact Hr|exact Hfile|exact HT|done|done| |].
  - intros f Hf Hshort r bs Hrn Hbs. destruct (Hwr f bs Hf Hbs) as (W1 & W2 & _). apply wp_step. cbn [modify wp snd fst]. rewrite (proj2 (Z.eqb_neq _ _)) by done. cbn. by apply H0.
  - intros f Hf Hfull. destruct (Hwr f (sub (Z.to_nat (off + j)) (Z.to_nat n) F) Hf) as (W1 & W2 & W3).
    { unfold sub. rewrite length_take. lia. }
    apply wp_step. cbn [modify wp snd fst]. rewrite u32_small, Z.eqb_refl by (unfold is_u32; lia). cbn [negb]. by apply H1.
Qed.

Lemma wp_load_pages P T A X l np addr off sz Q W :
  addr mod PGSIZE = 0 -> 0 <= addr -> addr + sz <= np * PGSIZE -> np <= UVPN -> is_u32 off ->
  forall fuel s b j, loading s P T A X l -> user_image A (x_ram s) np (-1) b -> j mod PGSIZE = 0 -> 0 <= j -> (0 < fuel)%nat -> sz - j <= (Z.of_nat fuel - 1) * PGSIZE ->
  (0 < j -> off + Z.min j sz <= len F) ->
  (forall s', loading s' P T A X l -> held X s s' -> len F < off + sz -> Q (-1) s') ->
  (forall s', loading s' P T A X l -> held X s s' -> sz <= j \/ off + sz <= len F ->
     user_image A (x_ram s') np (-1) (overlay (addr + j) (sub (Z.to_nat (off + j)) (Z.to_nat (sz - j)) F) b) -> Q 0 s') ->
  wp (load_pages dev_read fuel P addr ip off j sz s) Q W.
Proof.
  intros Ham Ha0 Htop Hnp Hou. induction fuel as [|fuel IH]; intros s b j Hld Hu Hjm Hj Hpos Hfuel Hread H0 H1; [lia|]. pose proof file_small as Hsm.
  destruct (decide (j < sz)) as [Hlt|Hge].
  2: { cbn [load_pages]. rewrite (proj2 (Z.ltb_ge _ _)) by lia. cbn. apply H1; [done|apply held_refl|left; lia|]. eapply ui_ext; [exact Hu|].
       intros va. replace (Z.to_nat (sz - j)) with 0%nat by lia. apply overlay_nil. }
  assert (Hoj : is_u32 (off + j)) by (unfold is_u32 in *; destruct (decide (j = 0)) as [->|]; [lia|specialize (Hread ltac:(lia)); lia]).
  eapply wp_load_page; [exact Hld|exact Hu|done|done|done|done|lia|done| |].
  - intros s' L' Hh Hshort. apply H0; [done|done|lia].
  - intros s' L' Hh Hfull Hu'. assert (Hj2 : u32 (j + PGSIZE) = j + PGSIZE) by (apply u32_small; unfold is_u32, UVPN, PGSIZE in *; lia). rewrite Hj2.
    destruct (decide (sz - j <= PGSIZE)) as [Hlast|Hmore].
    + destruct fuel as [|fuel]; [unfold PGSIZE in *; lia|]. cbn [load_pages]. rewrite (proj2 (Z.ltb_ge _ _)) by lia. cbn. rewrite Z.min_l in * by lia.
      apply H1; [done|done|right; lia|done].
    + rewrite Z.min_r in * by lia. eapply IH; [exact L'|exact Hu'|by apply next_aligned|unfold PGSIZE; lia|unfold PGSIZE in *; lia|unfold PGSIZE in *; lia|intros _; lia| |].
      * intros s2 L2 Hh2 Hshort. apply H0; [done|by eapply held_trans|done].
      * intros s2 L2 Hh2 Hend Hu2. apply H1; [done|by eapply held_trans|right; lia|]. eapply ui_ext; [exact Hu2|]. intros va.
        replace (Z.to_nat (sz - j)) with (Z.to_nat PGSIZE + Z.to_nat (sz - (j + PGSIZE)))%nat by (unfold PGSIZE in *; lia). rewrite sub_split, <- overlay_app.
        assert (Hl : len (sub (Z.to_nat (off + j)) (Z.to_nat PGSIZE) F) = PGSIZE) by (unfold sub; rewrite length_take, length_drop; unfold PGSIZE, is_u32 in *; lia).
        rewrite Hl. replace (addr + j + PGSIZE) with (addr + (j + PGSIZE)) by lia.
        replace (Z.to_nat (off + j) + Z.to_nat PGSIZE)%nat with (Z.to_nat (off + (j + PGSIZE))) by (unfold PGSIZE, is_u32 in *; lia). done.
Qed.

(** A segment inside the pages that are mapped. *)
Lemma wp_loaduvm s P T A X l np b addr off sz Q W :
  loading s P T A X l -> user_image A (x_ram s) np (-1) b -> addr mod PGSIZE = 0 -> 0 <= addr -> 0 <= sz -> addr + sz <= np * PGSIZE -> is_u32 off ->
  (forall s', loading s' P T A X l -> held X s s' -> 0 < sz -> len F < off + sz -> Q (-1) s') ->
  (forall s', loading s' P T A X l -> held X s s' -> sz = 0 \/ off + sz <= len F ->
     user_image A (x_ram s') np (-1) (overlay addr (sub (Z.to_nat off) (Z.to_nat sz) F) b) -> Q 0 s') ->
  wp (loaduvm dev_read P addr ip off sz s) Q W.
Proof.
  intros Hld Hu Ham Ha0 Hsz Htop Hou H0 H1. unfold loaduvm. rewrite Ham, Z.eqb_refl. cbn [negb]. destruct (ui_max _ _ _ _ _ _ Hu) as [_ Hmax].
  destruct (decide (sz = 0)) as [->|Hne].
  { cbn [load_pages Z.ltb Z.compare negb]. cbn. apply H1; [done|apply held_refl|by left|]. eapply ui_ext; [exact Hu|]. intros va. apply overlay_nil. }
  eapply (wp_load_pages P T A X l np addr off sz); [done|done|done|done|done|exact Hld|exact Hu|done|lia|lia| |lia| |].
  - unfold PGSIZE. Z.div_mod_to_equations. lia.
  - intros s' L' Hh Hshort. apply H0; [done|done|lia|done].
  - rewrite Z.add_0_r, Z.add_0_r, Z.sub_0_r. intros s' L' Hh Hend Hu'. apply H1; [done|done| |done]. destruct Hend; [left; lia|by right].
Qed.

Hypothesis (Hbytes : forall n, Forall is_byte (V n)).

Lemma data_bytes : Forall is_byte F.
Proof.
  unfold file_data, fbytes. apply Forall_fmap, Forall_true. intros k. cbn. unfold fbyte.
  destruct (V _ !! _) as [x|] eqn:E; [|done]. exact (Forall_lookup_1 _ _ _ _ (Hbytes _) E).
Qed.

Lemma wp_load_segs P X Q W : forall n s T A l off sz b,
  loading s P T A X l -> user_image A (x_ram s) (pgceil sz) (-1) b -> 0 <= sz < KERNBASE -> is_u32 off ->
  (forall s' T' A' l', loading s' P T' A' X l' -> held X s s' ->
     (forall sz' b', load_spec n off F sz b = Some (sz', b') -> short All X (pgceil sz')) -> Q None s') ->
  (forall s' T' A' l' sz' b', loading s' P T' A' X l' -> held X s s' -> load_spec n off F sz b = Some (sz', b') ->
     user_image A' (x_ram s') (pgceil sz') (-1) b' -> 0 <= sz' < KERNBASE -> Q (Some sz') s') ->
  wp (load_segs end_ dev_read n P ip off sz s) Q W.
Proof.
  induction n as [|n IH]; intros s T A l off sz b Hld Hu Hsz Hou H0 H1; cbn [load_segs].
  { cbn. eapply H1; [exact Hld|apply held_refl|done|done|done]. }
  cbn [load_spec] in H0, H1. assert (Hld' := Hld). destruct Hld' as [Hr Hi]. pose proof file_small as Hsm. apply wp_step. apply wp_on_fs.
  eapply (wp_read dev_read i c g sb ds pid cwd Hly Hds _ V Tx ic K ip p); [exact Hr|exact Hfile|exact HT|done|done| |].
  { intros f Hf Hshort r bs Hrn _. cbn [fst]. rewrite (proj2 (Z.eqb_neq _ _)) by done. cbn. eapply H0; [split; [exact Hf|by eapply inv_fs]|apply held_fs|].
    rewrite (proj2 (Z.ltb_lt _ _)) by done. done. }
  intros f Hf Hfull. cbn [fst snd]. change (negb (u32 32 =? 32)) with false. cbn iota. change (Z.to_nat 32) with 32%nat.
  rewrite (proj2 (Z.ltb_ge _ _)) in H0, H1 by lia. set (ph := get_ph (sub (Z.to_nat off) 32 F)) in *.
  destruct (ph_range (sub (Z.to_nat off) 32 F) ltac:(unfold sub; apply Forall_take, Forall_drop, data_bytes)) as (P1 & P2 & P3 & P4). fold ph in P1, P2, P3, P4.
  set (s1 := set_x_fs f s). assert (L1 : loading s1 P T A X l) by (split; [exact Hf|by eapply inv_fs]). assert (Hoff : u32 (off + 32) = off + 32) by (apply u32_small; unfold is_u32 in *; lia).
  rewrite Hoff. assert (Hou' : is_u32 (off + 32)) by (unfold is_u32 in *; lia). destruct (negb (ph_type ph =? ELF_PROG_LOAD)).
  { eapply IH; [exact L1|exact Hu|done|done| |].
    - intros s' T' A' l' L' Hh Hs. eapply H0; [exact L'|by eapply held_trans; [apply held_fs|]|exact Hs].
    - intros s' T' A' l' sz' b' L' Hh Hs Hu' Hz. eapply H1; [exact L'|by eapply held_trans; [apply held_fs|]|done..]. }
  assert (Hbad : forall s' T' A' l', loading s' P T' A' X l' -> held X s s' ->
    (ph_memsz ph <? ph_filesz ph) || (KERNBASE <=? ph_vaddr ph + ph_memsz ph) || (Z.max sz (ph_vaddr ph + ph_memsz ph) =? 0) || negb (ph_vaddr ph mod PGSIZE =? 0) ||
      negb ((ph_filesz ph =? 0) || (ph_off ph + ph_filesz ph <=? len F)) = true -> Q None s').
  { intros s' T' A' l' L' Hh Hb. eapply H0; [exact L'|exact Hh|]. by rewrite Hb. }
  destruct (Z.ltb_spec (ph_memsz ph) (ph_filesz ph)) as [Hlt|Hge]; [cbn; eapply Hbad; [exact L1|apply held_fs|done]|].
  destruct (decide (2 ^ 32 <= ph_vaddr ph + ph_memsz ph)) as [Hwrap|Hnw].
  { assert (Hw : u32 (ph_vaddr ph + ph_memsz ph) = ph_vaddr ph + ph_memsz ph - 2 ^ 32).
    { unfold u32, is_u32 in *. rewrite <- (Z.mod_small (ph_vaddr ph + ph_memsz ph - 2 ^ 32) (2 ^ 32)) by lia. rewrite Zminus_mod, Z_mod_same_full, Z.sub_0_r, Zmod_mod. done. }
    rewrite Hw, (proj2 (Z.ltb_lt _ _)) by (unfold is_u32 in *; lia). cbn. eapply Hbad; [exact L1|apply held_fs|]. rewrite (proj2 (Z.leb_le _ _)) by (unfold KERNBASE; lia). done. }
  rewrite u32_small by (unfold is_u32 in *; lia). rewrite (proj2 (Z.ltb_ge _ _)) by (unfold is_u32 in *; lia).
  apply wp_step. eapply (wp_mem _ s1 X).
  eapply (wp_growuvm end_ data_ i c All data_page data_range (get_k s1)); [apply L1|exact Hu|done|unfold is_u32 in *; lia| |].
  { intros k T' A' l' Hi' Hk Hwhy. split; [exact Hk|]. intros Eg Hh. cbn [Z.eqb]. cbn. eapply H0; [split; [exact Hf|by rewrite Eg]|by eapply held_trans; [apply held_fs|]|].
    intros sz' b' Hs. destruct Hwhy as [Hbig|Hsh]; [rewrite (proj2 (Z.leb_le _ _)) in Hs by done; by rewrite orb_true_r in Hs|].
    destruct (_ || _); [done|]. apply load_spec_mono in Hs. eapply short_mono; [exact Hsh|by apply pgceil_mono]. }
  intros k T' A' l' Hi' Hu' Hk Hlow. split; [exact Hk|]. intros Eg Hh. set (sz1 := Z.max sz (ph_vaddr ph + ph_memsz ph)) in *.
  assert (L2 : loading (with_k k s1) P T' A' X l') by (split; [exact Hf|by rewrite Eg]). assert (Hh2 : held X s (with_k k s1)) by (eapply held_trans; [apply held_fs|exact Hh]).
  rewrite (proj2 (Z.leb_gt _ _)) in H0, H1, Hbad by done. destruct (Z.eqb_spec sz1 0) as [Hz|Hz]; [cbn; eapply Hbad; [exact L2|exact Hh2|done]|].
  destruct (Z.eqb_spec (ph_vaddr ph mod PGSIZE) 0) as [Hal|Hal]; cbn [negb] in *; [|cbn; eapply Hbad; [exact L2|exact Hh2|done]].
  assert (Htop : ph_vaddr ph + ph_filesz ph <= pgceil sz1 * PGSIZE) by (unfold sz1, pgceil, PGSIZE in *; Z.div_mod_to_equations; lia).
  apply wp_step. eapply wp_loaduvm; [exact L2|exact Hu'|done|unfold is_u32 in *; lia|unfold is_u32 in *; lia|done|done| |].
  - intros s3 L3 Hh3 Hpos Hshort. cbn. eapply Hbad; [exact L3|by eapply held_trans|]. rewrite (proj2 (Z.eqb_neq (ph_filesz ph) 0)), (proj2 (Z.leb_gt (_ + _) _)) by lia. done.
  - intros s3 L3 Hh3 Hend Hu3. cbn [Z.ltb Z.compare].
    assert (Hgood : negb ((ph_filesz ph =? 0) || (ph_off ph + ph_filesz ph <=? len F)) = false).
    { destruct Hend as [->|Hle]; [done|]. rewrite (proj2 (Z.leb_le _ _)) by done. by rewrite orb_true_r. }
    rewrite Hgood in H0, H1. cbn [orb] in H0, H1. eapply IH; [exact L3|exact Hu3|unfold sz1, is_u32 in *; lia|done| |].
    + intros s' T2 A2 l2 L' Hh' Hs. eapply H0; [exact L'|eapply held_trans; [exact Hh2|by eapply held_trans]|exact Hs].
    + intros s' T2 A2 l2 sz' b' L' Hh' Hs Hu2 Hz2. eapply H1; [exact L'|eapply held_trans; [exact Hh2|by eapply held_trans]|done..].
Qed.

End Load.

End ExecOps.
