(* ===== verification/ExecStack.v ===== *)
(** * The stack of a new program

    Copying into the stack page, what stops a copy that is too long, the arguments and the
    frame of [main], and the change from the old address space to the new one. *)

From Stdlib Require Import ZArith Lia.
From S2P Require Import Prelude Spinlock Sleeplock Strings Blocks Bytes Log Txn Fs FsSpec FsInode FsFile.
From S2P Require Import Memory Kalloc Vm VmSpec VmOps Exec ExecSpec ExecOps.

Module ExecStack.
Import Exec ExecSpec ExecOps.

Lemma word_mask x : is_u32 x -> Z.land x (u32 (Z.lnot 3)) = x / 4 * 4.
Proof.
  intros H. assert (E : Z.land x (u32 (Z.lnot 3)) = Z.ldiff x 3).
  { apply Z.bits_inj'. intros n Hn. rewrite Z.land_spec, Z.ldiff_spec. unfold u32. rewrite <- Z.land_ones by lia. rewrite Z.land_spec, Z.lnot_spec by lia.
    destruct (decide (n < 32)) as [Hlt|Hge]; [rewrite Z.ones_spec_low by lia; by rewrite andb_true_r|].
    replace (Z.testbit x n) with false; [done|]. symmetry. unfold is_u32 in H. destruct (decide (x = 0)) as [->|]; [apply Z.bits_0|].
    apply Z.bits_above_log2; [lia|]. apply Z.log2_lt_pow2; [lia|]. pose proof (Z.pow_le_mono_r 2 32 n ltac:(lia) ltac:(lia)). lia. }
  rewrite E. change 3 with (Z.ones 2). rewrite Z.ldiff_ones_r, Z.shiftl_mul_pow2, Z.shiftr_div_pow2 by lia. done.
Qed.

Lemma concat_words ws : len (concat (le_bytes 4 <$> ws)) = 4 * len ws.
Proof. induction ws as [|w ws IH]; [done|]. rewrite fmap_cons. cbn [concat]. rewrite length_app, length_le_bytes. cbn [length]. lia. Qed.

Lemma flag_user e : Z.land e PTE_U = Z.land (PTE_FLAGS e) PTE_U.
Proof. unfold PTE_FLAGS. by rewrite <- Z.land_assoc. Qed.

(** ** Copies *)

Section Copies.
Context (end_ data_ : Z) (i : nat) (c : cpu) (All : list Z) `{Hmg : !Managed end_ All}.
Hypothesis (data_page : data_ mod PGSIZE = 0) (data_range : KERNLINK < data_ < KERNBASE + PHYSTOP).
Notation vm_inv := (@VmSpec.vm_inv end_ i c All).
Notation user_image := (user_image data_).
Implicit Types (A : gmap Z Z) (k : kst) (b : Z -> Z).

Lemma ui_ok A m np gd b va : user_image A m np gd b -> 0 <= va < np * PGSIZE -> vpn va <> gd -> user_ok A va.
Proof.
  intros Hu Hva Hg. destruct (ui_user _ _ _ _ _ _ Hu (vpn va)) as (e & He & Hf); [unfold vpn, PGSIZE in *; Z.div_mod_to_equations; lia|].
  exists e. split; [done|]. rewrite flag_user, Hf, (proj2 (Z.eqb_neq _ _)) by done. done.
Qed.

(** Into accessible pages. *)
Lemma wp_copy_in k P T A X l np gd b va bs Q W :
  vm_inv k P T A X l -> user_image A (ram k) np gd b -> 0 <= va -> va + len bs <= np * PGSIZE -> (gd + 1) * PGSIZE <= va ->
  (forall k' l', vm_inv k' P T A X l' -> user_image A (ram k') np gd (overlay va bs b) -> keeps X k k' -> Q 0 k') ->
  wp (copyout P va bs k) Q W.
Proof.
  intros Hi Hu Hva Htop Hg HQ. destruct (ui_max _ _ _ _ _ _ Hu) as [_ Hmax]. assert (Hkb : np * PGSIZE <= KERNBASE) by (unfold KERNBASE, UVPN, PGSIZE in *; lia).
  eapply wp_copyout; [done|exact Hi|done|lia|lia| |].
  - intros j Hj. eapply ui_ok; [exact Hu|lia|]. unfold vpn, PGSIZE in *. Z.div_mod_to_equations. lia.
  - intros k' l' Hi' Hk Hb. eapply HQ; [exact Hi'| |done]. split; try apply Hu.
    + intros vb Hvb. rewrite Hb by lia. unfold overlay. case_decide as Hd; [|by apply Hu]. destruct (lookup_lt_is_Some_2 bs (Z.to_nat (vb - va))) as [x Hx]; [lia|]. by rewrite Hx.
    + intros vb Hvb. rewrite overlay_out by lia. by apply Hu.
Qed.

(** Into the page without access. *)
Lemma wp_copy_guard k P T A X l np gd b va bs Q W :
  vm_inv k P T A X l -> user_image A (ram k) np gd b -> 0 <= gd < np -> 0 <= va < (gd + 1) * PGSIZE -> gd * PGSIZE < va + len bs -> bs <> [] ->
  (forall k', vm_inv k' P T A X l -> keeps X k k' -> Q (-1) k') ->
  wp (copyout P va bs k) Q W.
Proof.
  intros Hi Hu Hg Hva Htop Hne HQ. destruct (ui_max _ _ _ _ _ _ Hu) as [_ Hmax]. assert (Hbl : 0 < len bs) by (destruct bs; [done|cbn; lia]).
  destruct (ui_user _ _ _ _ _ _ Hu gd Hg) as (e & He & Hf). rewrite Z.eqb_refl in Hf. set (j := Z.max 0 (gd * PGSIZE - va)).
  assert (Hv : vpn (va + j) = gd) by (unfold j, vpn, PGSIZE in *; Z.div_mod_to_equations; lia).
  eapply (wp_copyout_fail end_ i c All P T A X l W _ k va bs j e); [exact Hi|lia|unfold j; lia|unfold j, is_u32, UVPN, PGSIZE in *; lia|lia|by rewrite Hv|by rewrite flag_user, Hf| |exact HQ].
  intros j' Hj' Hn. rewrite Hv in Hn. split; [unfold j, KERNBASE, UVPN, PGSIZE in *; lia|]. eapply ui_ok; [exact Hu|unfold j, PGSIZE in *; lia|done].
Qed.

(** At an address that is the kernel's. *)
Lemma wp_copy_kernel k P T A X l np gd b va bs Q W :
  vm_inv k P T A X l -> user_image A (ram k) np gd b -> 0xFE000000 <= va < 2 ^ 32 -> bs <> [] ->
  (forall k', vm_inv k' P T A X l -> keeps X k k' -> Q (-1) k') ->
  wp (copyout P va bs k) Q W.
Proof.
  intros Hi Hu Hva Hne HQ. destruct (ui_max _ _ _ _ _ _ Hu) as [_ Hmax]. assert (Hbl : 0 < len bs) by (destruct bs; [done|cbn; lia]).
  assert (Hv : 0xFE000 <= vpn va < 0x100000) by (unfold vpn, PGSIZE; Z.div_mod_to_equations; lia). destruct (data_vpn data_ data_page data_range) as (_ & Hdv & _).
  assert (He : A !! vpn va = Some (vpn va * PGSIZE + 3)).
  { rewrite (ui_rest _ _ _ _ _ _ Hu) by (unfold UVPN in *; lia). unfold kentry. change (vpn KERNBASE) with 0x80000. change (vpn KERNLINK) with 0x80100.
    change (vpn (KERNBASE + PHYSTOP)) with 0x8E000. change (vpn DEVSPACE) with 0xFE000. repeat case_decide; (lia || done). }
  eapply (wp_copyout_fail end_ i c All P T A X l W _ k va bs 0); [exact Hi|lia|lia|unfold is_u32; lia|lia|by rewrite Z.add_0_r| |lia|exact HQ].
  rewrite flag_user, PTE_FLAGS_page; [done|apply Z_mod_mult|done].
Qed.

(** The page below the stack. *)
Lemma ui_guard k P T A X l np v b : vm_inv k P T A X l -> user_image A (ram k) np (-1) b -> 0 <= v < np ->
  exists k' A', clearpteu P (v * PGSIZE) k = Ret tt k' /\ vm_inv k' P T A' X l /\ user_image A' (ram k') np v b /\ keeps X k k'.
Proof.
  intros Hi Hu Hv. destruct (ui_max _ _ _ _ _ _ Hu) as [_ Hmax]. destruct (ui_user _ _ _ _ _ _ Hu v Hv) as (e & He & Hf). rewrite (proj2 (Z.eqb_neq _ _)) in Hf by lia.
  assert (Hvv : vpn (v * PGSIZE) = v) by (by apply Z.div_mul).
  destruct (clearpteu_run end_ i c All k P T A X l (v * PGSIZE) e Hi) as (k' & Hrun & Hi' & Hk); [unfold KERNBASE, UVPN, PGSIZE in *; lia|by rewrite Hvv|].
  rewrite Hvv in Hi'. destruct (clear_user e) as (Hp & Hfl & _). exists k', (<[v := Z.land e (u32 (Z.lnot PTE_U))]> A).
  split_and!; [done|done| |eapply keeps_weaken; [|exact Hk]; set_solver]. destruct (ui_keeps data_ A _ (ram k') np (-1) b Hu) as [U1 U2 U3 U4 U5].
  { intros p Hpp. apply (kp_mem _ _ _ Hk). set_solver. }
  split; [| | |done|done].
  - intros w Hw. destruct (Z.eqb_spec w v) as [->|Hne]; [rewrite lookup_insert_eq; eexists; split; [done|by rewrite Hfl, Hf]|].
    rewrite lookup_insert_ne by done. destruct (U1 w Hw) as (e1 & He1 & Hf1). rewrite (proj2 (Z.eqb_neq _ _)) in Hf1 by lia. by exists e1.
  - intros w Hw. rewrite lookup_insert_ne by (intros ->; lia). by apply U2.
  - intros va Hva. rewrite <- (U3 va Hva). unfold vbyte. destruct (decide (vpn va = v)) as [->|Hne]; [rewrite lookup_insert_eq, He; cbn; by rewrite Hp|by rewrite lookup_insert_ne].
Qed.
End Copies.

(** ** The stack, and the change of address space *)

Lemma last_elem_in last path x : x ∈ last_elem last path -> x ∈ last \/ x ∈ path.
Proof.
  revert last. induction path as [|ch path IH]; intros last Hx; [by left|]. cbn [last_elem] in Hx. apply IH in Hx as [Hx|Hx]; [|right; set_solver].
  destruct (ch =? 47); [right; set_solver|by left].
Qed.

Section Stack.
Context {S : Type} `{!HasCtx S, !Txn S}.
Context (end_ data_ : Z) (waits : nat) (ts : Z).
Context (i : nat) (c : cpu) (All : list Z) `{Hmg : !Managed end_ All}.
Hypothesis (data_page : data_ mod PGSIZE = 0) (data_range : KERNLINK < data_ < KERNBASE + PHYSTOP).
Notation vm_inv := (@VmSpec.vm_inv end_ i c All).
Notation mem_inv := (@VmOps.mem_inv end_ i c All).
Notation user_image := (user_image data_).
Implicit Types (s : execst S) (A : gmap Z Z) (k : kst) (b : Z -> Z).

Lemma wp_memk {B} (m : M kst B) k s Q W :
  ctx k = ctx (x_fs s) -> wp (m k) (fun a k' => ctx k' = ctx k /\ Q a (with_k k' s)) stays -> wp (onmem m (with_k k s)) Q W.
Proof. intros Hc Hw. apply wp_onmem. by rewrite (get_with k s Hc). Qed.

Lemma wp_push_args s P T A X np Q W : 2 <= np -> forall argv k l sp ptrs b,
  vm_inv k P T A X l -> user_image A (ram k) np (np - 2) b -> ctx k = ctx (x_fs s) ->
  (np - 1) * PGSIZE <= sp <= np * PGSIZE -> len ptrs <= MAXARG -> Forall (fun a => len a < 2 ^ 24) argv ->
  (forall k' l', vm_inv k' P T A X l' -> keeps X k k' -> args_spec argv ((np - 1) * PGSIZE) sp ptrs b = None -> Q None (with_k k' s)) ->
  (forall k' l' sp' ptrs' b', vm_inv k' P T A X l' -> keeps X k k' -> args_spec argv ((np - 1) * PGSIZE) sp ptrs b = Some (sp', ptrs', b') ->
     user_image A (ram k') np (np - 2) b' -> (np - 1) * PGSIZE <= sp' <= np * PGSIZE -> len ptrs' <= MAXARG -> Q (Some (sp', ptrs')) (with_k k' s)) ->
  wp (push_args argv P sp ptrs (with_k k s)) Q W.
Proof.
  intros Hnp. induction argv as [|a argv IH]; intros k l sp ptrs b Hi Hu Hc Hsp Hpt Hargs H0 H1; cbn [push_args args_spec] in *.
  { cbn. eapply H1; [exact Hi|apply keeps_refl|done|done|done|done]. }
  apply Forall_cons in Hargs as [Ha Hargs]. destruct (Z.leb_spec MAXARG (len ptrs)) as [Hmax|Hroom]; cbn [orb] in *.
  { cbn. eapply H0; [exact Hi|apply keeps_refl|done]. }
  destruct (ui_max _ _ _ _ _ _ Hu) as [_ Hmx]. assert (Hlc : len (cstr a) = len a + 1) by (unfold cstr; rewrite length_app; cbn; lia).
  assert (Hne : cstr a <> []) by (unfold cstr; by destruct a). set (x := sp - (len a + 1)) in *.
  destruct (decide (x < 0)) as [Hneg|Hpos].
  { assert (Hux : u32 x = x + 2 ^ 32).
    { unfold u32. rewrite <- (Z.mod_small (x + 2 ^ 32) (2 ^ 32)) by (unfold x, PGSIZE in *; lia). by rewrite Z.add_mod, Z_mod_same_full, Z.add_0_r, Zmod_mod by done. }
    rewrite Hux, word_mask by (unfold is_u32, x, PGSIZE in *; lia). apply wp_step. apply wp_memk; [done|].
    eapply wp_copy_kernel; [done|exact data_page|exact data_range|exact Hi|exact Hu|unfold x, PGSIZE in *; Z.div_mod_to_equations; lia|done|].
    intros k' Hi' Hk. split; [apply Hk|]. cbn [Z.ltb Z.compare]. cbn. eapply H0; [exact Hi'|exact Hk|].
    rewrite (proj2 (Z.ltb_lt _ _)) by (unfold x, PGSIZE in *; Z.div_mod_to_equations; lia). done. }
  rewrite u32_small, word_mask by (unfold is_u32, x, UVPN, PGSIZE in *; lia). set (sp' := x / 4 * 4) in *.
  assert (Hx4 : x - 4 < sp' <= x /\ 0 <= sp') by (unfold sp'; Z.div_mod_to_equations; lia).
  apply wp_step. apply wp_memk; [done|]. destruct (Z.ltb_spec sp' ((np - 1) * PGSIZE)) as [Hlow|Hin].
  - eapply wp_copy_guard; [done|exact Hi|exact Hu|lia|unfold PGSIZE in *; lia|unfold x, PGSIZE in *; lia|done|].
    intros k' Hi' Hk. split; [apply Hk|]. cbn. by eapply H0.
  - eapply wp_copy_in; [done|exact Hi|exact Hu|unfold PGSIZE in *; lia|unfold x in *; lia|unfold PGSIZE in *; lia|].
    intros k' l' Hi' Hu' Hk. split; [apply Hk|]. cbn [Z.ltb Z.compare].
    assert (Hck : ctx k' = ctx (x_fs s)) by (rewrite <- Hc; apply Hk).
    eapply IH; [exact Hi'|exact Hu'|done|unfold x in *; lia|rewrite length_app; cbn [length]; lia|done| |].
    + intros k2 l2 Hi2 Hk2 Hs. eapply H0; [exact Hi2|by eapply keeps_trans|exact Hs].
    + intros k2 l2 sp2 ptrs2 b2 Hi2 Hk2 Hs. eapply H1; [exact Hi2|by eapply keeps_trans|exact Hs].
Qed.

(** [bad] after the operation on the file system. *)
Lemma wp_bad_stack s k P T A X l Q W :
  vm_inv k P T A X l -> ctx k = ctx (x_fs s) -> (forall k' l', mem_inv k' X l' -> keeps X k k' -> Q (-1) (with_k k' s)) ->
  wp (bad end_ waits P None (with_k k s)) Q W.
Proof.
  intros Hi Hc HQ. unfold bad. destruct (inv_tables _ _ _ _ _ _ Hi) as [Hok _]. apply Forall_cons in Hok as [(_ & HP & _) _].
  rewrite (proj2 (Z.eqb_neq P 0)) by (pose proof (end_pos (All := All)); lia). cbn [negb when]. apply wp_step. apply wp_memk; [done|].
  eapply wp_freevm; [done|exact Hi|]. intros k' l' H1 H2 H3 Hk. split; [apply Hk|]. apply wp_step. cbn. eapply HQ; [by split|done].
Qed.

(** [switchuvm] leaves the context as it was. *)
Lemma wp_switchuvm u s Q W :
  ctx_ok (ctx (x_fs s)) i c -> u_kstack u <> 0 -> u_pgdir u <> 0 ->
  Q tt (set_x_hw (user_hw ts u) s) ->
  wp (switchuvm ts u s) Q W.
Proof.
  intros Hc Hk Hp HQ. unfold switchuvm. rewrite (proj2 (Z.eqb_neq _ 0)), (proj2 (Z.eqb_neq _ 0)) by done. assert (Hp' := ctx_ok_push _ _ _ Hc).
  apply wp_step. apply wp_on_fs. eapply wp_eq; [apply onctx_Ret, (pushcli_ok _ _ _ (proj1 Hc))|]. apply wp_step. cbn [modify wp]. apply wp_on_fs.
  eapply wp_eq; [apply (onctx_Ret _ _ tt (ctx (x_fs s)))|].
  - cbn [x_fs set_x_hw set_x_fs]. rewrite ctx_set_ctx, (popcli_ok _ _ _ (proj1 Hp')); [|done|destruct Hc as (_ & ? & _); cbn; lia]. by rewrite (k_pop_push _ _ _ Hc).
  - cbn [x_fs set_x_hw set_x_fs]. rewrite set_ctx_set, set_ctx_ctx. by destruct s.
Qed.

(** The old address space [P0] is freed, the new one takes its place. *)
Lemma wp_commit_image s k path P T A P0 T0 A0 X l sz entry sp Q W :
  vm_inv k P T A (own P0 T0 A0 ++ X) l -> vm_rep (ram k) P0 T0 A0 -> ctx k = ctx (x_fs s) -> ctx_ok (ctx (x_fs s)) i c ->
  u_pgdir (x_cur s) = P0 -> u_kstack (x_cur s) <> 0 -> length (u_name (x_cur s)) = 16%nat -> Forall (fun ch => ch <> 0) path ->
  (forall k' l' nm, vm_inv k' P T A X l' -> keeps (own P T A ++ X) k k' -> length nm = 16%nat -> name_str nm (take 15 (last_elem path path)) ->
     let u := set_u_image P sz entry sp (set_u_name nm (x_cur s)) in Q 0 (set_x_hw (user_hw ts u) (set_x_cur u (with_k k' s)))) ->
  wp (commit_image end_ ts path P sz entry sp (with_k k s)) Q W.
Proof.
  intros Hi Hrep Hc Hctx HP0 Hks Hnm Hpath HQ. unfold commit_image. apply wp_step. cbn [gets wp]. change (x_cur (with_k k s)) with (x_cur s).
  destruct (safestrcpy_field_run (u_name (x_cur s)) (cstr (last_elem path path)) (last_elem path path) 16) as (nm & Hcp & Hlen & Hstr); [|done|lia|].
  { exists []. split; [done|]. intros H. apply (proj1 (Forall_forall _ _) Hpath 0); [|done]. apply last_elem_in in H. set_solver. }
  rewrite Hcp. apply wp_step. cbn [modify wp]. destruct (inv_tables _ _ _ _ _ _ Hi) as [Hok _]. apply Forall_cons in Hok as [(_ & HP & _) _].
  apply wp_step. eapply wp_switchuvm; [exact Hctx|done|cbn; pose proof (end_pos (All := All)); lia|]. cbn [u_kstack u_pgdir set_u_image set_u_name]. rewrite HP0.
  set (s1 := set_x_hw _ _). apply wp_step. change s1 with (with_k k s1). apply wp_memk; [done|].
  assert (Hi0 : vm_inv k P0 T0 A0 (own P T A ++ X) l).
  { split; [apply Hi|apply Hi|done|]. rewrite <- (vi_all _ _ _ _ _ _ Hi), !app_assoc. do 2 f_equiv. apply Permutation_app_comm. }
  eapply wp_freevm; [done|exact Hi0|]. intros k' l' H1 H2 H3 Hk. split; [apply Hk|]. cbn. eapply (HQ k' l' nm); [|done|done|done].
  split; [done|done| |by rewrite app_assoc]. eapply rep_agree; [apply Hi|]. intros p Hp. apply (kp_mem _ _ _ Hk). unfold own. set_solver.
Qed.

(** The frame of [main], below the strings. *)
Lemma wp_frame s k P T A X l np b sp ptrs Q W :
  vm_inv k P T A X l -> user_image A (ram k) np (np - 2) b -> ctx k = ctx (x_fs s) -> 2 <= np -> (np - 1) * PGSIZE <= sp <= np * PGSIZE -> len ptrs <= MAXARG ->
  let sp' := sp - (len ptrs + 4) * 4 in
  (forall k' l', vm_inv k' P T A X l' -> keeps X k k' -> sp' < (np - 1) * PGSIZE -> Q (-1) (with_k k' s)) ->
  (forall k' l', vm_inv k' P T A X l' -> keeps X k k' -> (np - 1) * PGSIZE <= sp' -> user_image A (ram k') np (np - 2) (overlay sp' (main_frame sp ptrs) b) -> Q 0 (with_k k' s)) ->
  wp (onmem (copyout P sp' (main_frame sp ptrs)) (with_k k s)) Q W.
Proof.
  intros Hi Hu Hc Hnp Hsp Hpt sp' H0 H1. assert (Hl : len (main_frame sp ptrs) = (len ptrs + 4) * 4).
  { unfold main_frame. rewrite concat_words, !length_app. cbn [length]. lia. }
  unfold MAXARG in Hpt. apply wp_memk; [done|]. destruct (decide (sp' < (np - 1) * PGSIZE)) as [Hlow|Hin].
  - eapply wp_copy_guard; [done|exact Hi|exact Hu|lia|unfold sp', PGSIZE in *; lia|unfold sp', PGSIZE in *; lia|intros E; rewrite E in Hl; cbn in Hl; lia|].
    intros k' Hi' Hk. split; [apply Hk|]. by eapply H0.
  - eapply wp_copy_in; [done|exact Hi|exact Hu|unfold sp', PGSIZE in *; lia|unfold sp' in *; lia|unfold PGSIZE in *; lia|].
    intros k' l' Hi' Hu' Hk. split; [apply Hk|]. eapply H1; [exact Hi'|done|lia|done].
Qed.

(** What [setup_stack] writes is the frame of [main]. *)
Lemma frame_words sp ptrs : 0 <= sp - (len ptrs + 4) * 4 -> is_u32 sp ->
  u32 (sp - (3 + len ptrs + 1) * 4) = sp - (len ptrs + 4) * 4 /\
  concat (le_bytes 4 <$> [0xffffffff; len ptrs; u32 (sp - (len ptrs + 1) * 4)] ++ ptrs ++ [0]) = main_frame sp ptrs.
Proof. intros H1 H2. unfold is_u32, main_frame in *. rewrite !u32_small by (unfold is_u32; lia). split; [lia|done]. Qed.

Lemma wp_setup_stack s k path argv P T A P0 T0 A0 X l sz entry b Q W :
  vm_inv k P T A (own P0 T0 A0 ++ X) l -> user_image A (ram k) (pgceil sz) (-1) b -> 0 <= sz < KERNBASE ->
  vm_rep (ram k) P0 T0 A0 -> ctx k = ctx (x_fs s) -> ctx_ok (ctx (x_fs s)) i c ->
  u_pgdir (x_cur s) = P0 -> u_kstack (x_cur s) <> 0 -> length (u_name (x_cur s)) = 16%nat -> Forall (fun ch => ch <> 0) path -> Forall (fun a => len a < 2 ^ 24) argv ->
  (forall k' l', mem_inv k' (own P0 T0 A0 ++ X) l' -> keeps (own P0 T0 A0 ++ X) k k' ->
     (stack_spec argv sz b = None \/ short All (own P0 T0 A0 ++ X) (pgceil sz + 2)) -> Q (-1) (with_k k' s)) ->
  (forall k' T' A' l' nm top sp b', stack_spec argv sz b = Some (top, sp, b') -> vm_inv k' P T' A' X l' -> keeps X k k' ->
     top = (pgceil sz + 2) * PGSIZE -> user_image A' (ram k') (pgceil sz + 2) (pgceil sz) b' -> length nm = 16%nat -> name_str nm (take 15 (last_elem path path)) ->
     let u := set_u_image P top entry sp (set_u_name nm (x_cur s)) in Q 0 (set_x_hw (user_hw ts u) (set_x_cur u (with_k k' s)))) ->
  wp (setup_stack end_ waits ts path argv P sz entry (with_k k s)) Q W.
Proof.
  intros Hi Hu Hsz Hrep Hc Hctx HP0 Hks Hnm Hpath Hargs H0 H1. set (X1 := own P0 T0 A0 ++ X) in *. set (np := pgceil sz + 2) in *.
  assert (Hru : PGROUNDUP sz = pgceil sz * PGSIZE) by (rewrite PGROUNDUP_spec by (unfold KERNBASE, PGSIZE in *; lia); done). unfold setup_stack. rewrite Hru. assert (Hpc : 0 <= pgceil sz) by apply Hu.
  assert (Hpm := pgceil_max sz ltac:(lia)). rewrite (u32_small (_ + 2 * PGSIZE)) by (unfold is_u32, UVPN, PGSIZE in *; lia).
  replace (pgceil sz * PGSIZE + 2 * PGSIZE) with (np * PGSIZE) by (unfold np, PGSIZE; lia). unfold stack_spec in H0, H1. fold np in H0, H1.
  assert (Hfail : forall k1 T1 A1 l1, vm_inv k1 P T1 A1 X1 l1 -> keeps X1 k k1 -> (stack_spec argv sz b = None \/ short All X1 np) -> wp (bad end_ waits P None (with_k k1 s)) Q W).
  { intros k1 T1 A1 l1 Hi1 Hk1 Hwhy. eapply wp_bad_stack; [exact Hi1|rewrite <- Hc; apply Hk1|]. intros k' l' Hm Hk. eapply H0; [exact Hm|by eapply keeps_trans|exact Hwhy]. }
  unfold stack_spec in Hfail. fold np in Hfail. apply wp_step. apply wp_memk; [done|]. destruct (Z.leb_spec KERNBASE (np * PGSIZE)) as [Hbig|Hlow].
  { unfold allocuvm. rewrite (proj2 (Z.leb_le _ _)) by done. cbn [ret wp]. split; [done|]. cbn [Z.eqb]. eapply Hfail; [exact Hi|apply keeps_refl|by left]. }
  assert (Hcm : pgceil (pgceil sz * PGSIZE) = pgceil sz /\ pgceil (np * PGSIZE) = np).
  { split; [generalize (pgceil sz)|generalize np]; intros z; unfold pgceil, PGSIZE; Z.div_mod_to_equations; lia. }
  destruct Hcm as [Hcm1 Hcm2]. assert (Hmax : Z.max (pgceil sz * PGSIZE) (np * PGSIZE) = np * PGSIZE) by (unfold np, PGSIZE; lia).
  eapply (wp_growuvm end_ data_ i c All data_page data_range k P T A X1 l (pgceil sz * PGSIZE) (np * PGSIZE) b); [exact Hi|by rewrite Hcm1|unfold np, PGSIZE in *; lia|unfold np, PGSIZE in *; lia| |].
  { rewrite Hmax, Hcm2. intros k' T' A' l' Hi' Hk [?|Hsh]; [lia|]. split; [apply Hk|]. cbn [Z.eqb]. eapply Hfail; [exact Hi'|done|by right]. }
  rewrite Hmax, Hcm2. intros k1 T1 A1 l1 Hi1 Hu1 Hk1 _. split; [apply Hk1|]. rewrite (proj2 (Z.eqb_neq _ 0)) by (unfold np, PGSIZE in *; lia).
  rewrite u32_small by (unfold is_u32, KERNBASE, np, PGSIZE in *; lia). replace (np * PGSIZE - 2 * PGSIZE) with (pgceil sz * PGSIZE) by (unfold np, PGSIZE; lia).
  destruct (ui_guard end_ data_ i c All data_page data_range k1 P T1 A1 X1 l1 np (pgceil sz) b Hi1 Hu1) as (k2 & A2 & Hrun & Hi2 & Hu2 & Hk2); [unfold np; lia|].
  assert (Hc1 : ctx k1 = ctx (x_fs s)) by (rewrite <- Hc; apply Hk1). apply wp_step. apply wp_memk; [done|]. eapply wp_eq; [exact Hrun|]. split; [apply Hk2|].
  assert (Hc2 : ctx k2 = ctx (x_fs s)) by (rewrite <- Hc1; apply Hk2). assert (Hk12 : keeps X1 k k2) by (by eapply keeps_trans). replace (pgceil sz) with (np - 2) in Hu2, H1 by (unfold np; lia).
  replace (np * PGSIZE - PGSIZE) with ((np - 1) * PGSIZE) in H0, H1, Hfail by lia.
  apply wp_step. eapply (wp_push_args s P T1 A2 X1 np); [unfold np; lia|exact Hi2|exact Hu2|done|unfold PGSIZE; lia|done|done| |].
  { intros k3 l3 Hi3 Hk3 Hs. eapply Hfail; [exact Hi3|by eapply keeps_trans|left; by rewrite Hs]. }
  intros k3 l3 sp ptrs b3 Hi3 Hk3 Hs Hu3 Hsp Hpt. rewrite Hs in H0, H1, Hfail. assert (Hk13 : keeps X1 k k3) by (by eapply keeps_trans).
  assert (Hc3 : ctx k3 = ctx (x_fs s)) by (rewrite <- Hc2; apply Hk3).
  destruct (frame_words sp ptrs) as [-> ->]; [unfold MAXARG, np, PGSIZE in *; lia|unfold is_u32, KERNBASE, np, PGSIZE in *; lia|].
  apply wp_step. eapply (wp_frame s k3 P T1 A2 X1 l3 np b3 sp ptrs); [exact Hi3|exact Hu3|done|unfold np; lia|done|done| |].
  { intros k4 l4 Hi4 Hk4 Hlt. cbn [Z.ltb Z.compare]. eapply Hfail; [exact Hi4|by eapply keeps_trans|left; by rewrite (proj2 (Z.ltb_lt _ _))]. }
  intros k4 l4 Hi4 Hk4 Hge Hu4. cbn [Z.ltb Z.compare]. rewrite (proj2 (Z.ltb_ge _ _)) in H1 by done. assert (Hk14 : keeps X1 k k4) by (by eapply keeps_trans).
  eapply wp_commit_image; [exact Hi4| |rewrite <- Hc3; apply Hk4|done|done|done|done|done|].
  { eapply rep_agree; [exact Hrep|]. intros p Hp. apply (kp_mem _ _ _ Hk14). unfold X1, own. set_solver. }
  intros k5 l5 nm Hi5 Hk5 Hln Hns. eapply H1; [done|exact Hi5| |done| |done|done].
  - eapply keeps_trans; (eapply keeps_weaken; [|eassumption]); unfold X1; set_solver.
  - eapply ui_keeps; [exact Hu4|]. intros p Hp. apply (kp_mem _ _ _ Hk5). unfold own. set_solver.
Qed.
End Stack.

End ExecStack.
