(* ===== verification/ExecTheorems.v ===== *)
(** * [exec] replaces the program or changes nothing

    The theorem on [exec] as a whole: path lookup, reading the headers, the new address
    space, its segments and stack, and the change from the old address space. *)

From Stdlib Require Import ZArith Lia.
From S2P Require Import Prelude Spinlock Sleeplock Strings Blocks Bytes Log Txn Fs FsSpec FsInode FsFile FsWrite FsDir FsPath FileSpec.
From S2P Require Import Bio BioTheorems Demo FsTheorems Memory Kalloc Vm VmSpec VmOps VmTheorems Exec ExecSpec ExecOps ExecStack.

Module ExecTheorems.
Import Exec ExecSpec ExecOps ExecStack.

Section Theorems.
Context {S : Type} `{!HasCtx S, !Txn S}.
Context (end_ data_ : Z) (waits : nat) (ts : Z).
Context (dev_read : Z -> option (nat -> Z -> M (fsst S) (Z * list Z))).
Context (cprintf : string -> M (execst S) unit).
Context (i : nat) (c : cpu) (All : list Z) `{Hmg : !Managed end_ All}.
Context (g : tgeo) (sb : superblock) (ds : Z) (pid : Z) (cwd : nat).
Hypothesis (Hly : layout g sb ds) (Hds : 0 < ds).
Hypothesis (data_page : data_ mod PGSIZE = 0) (data_range : KERNLINK < data_ < KERNBASE + PHYSTOP).
Notation vm_inv := (@VmSpec.vm_inv end_ i c All).
Notation mem_inv := (@VmOps.mem_inv end_ i c All).
Notation fsrep := (fsrep i c g sb pid cwd).
Notation fsquiet := (fsquiet i c g sb pid cwd).
Notation user_image := (user_image data_).
Implicit Types (s : execst S) (A : gmap Z Z) (b : Z -> Z) (V : Z -> block).

(** The program at a path that is looked up from inode [n]. *)
Definition wanted V (n : Z) (path : list Z) (argv : list (list Z)) : option (Z * Z * Z * (Z -> Z)) :=
  m ← target sb false V n (elems path); program (file_data V (inode_on sb V m)) argv.

(** The process and its address space are as before. *)
Record refused s s' P T A X : Prop := {
  rf_cur : x_cur s' = x_cur s;
  rf_hw : x_hw s' = x_hw s;
  rf_vm : exists fl, vm_inv (get_k s') P T A X fl;
  rf_mem : forall p, p ∈ own P T A ++ X -> agree (x_ram s) (x_ram s') p
}.

(** The process has a new address space of [top] bytes that hold [b], with the page below
    the stack out of reach; it will start at [entry] with its stack at [sp]. *)
Record replaced s s' X path (entry top sp : Z) b : Prop := {
  rp_vm : exists T A fl, vm_inv (get_k s') (u_pgdir (x_cur s')) T A X fl /\ user_image A (x_ram s') (top / PGSIZE) (top / PGSIZE - 2) b;
  rp_mem : forall p, p ∈ X -> agree (x_ram s) (x_ram s') p;
  rp_regs : u_sz (x_cur s') = top /\ u_eip (x_cur s') = entry /\ u_esp (x_cur s') = sp;
  rp_name : length (u_name (x_cur s')) = 16%nat /\ name_str (u_name (x_cur s')) (take 15 (last_elem path path));
  rp_kstack : u_kstack (x_cur s') = u_kstack (x_cur s);
  rp_hw : x_hw s' = user_hw ts (x_cur s')
}.

(** ** The parts of the proof *)

Section Run.
Context (s0 : execst S) (V : Z -> block) (l0 : list inode) (n : Z) (path : list Z) (argv : list (list Z)).
Context (P : Z) (T A : gmap Z Z) (X fl : list Z).
Notation X1 := (own P T A ++ X).
Hypothesis (Hdk : disk_ok sb ds V) (Hbytes : forall k, Forall is_byte (V k)).
Hypothesis (Hvm : vm_inv (get_k s0) P T A X fl).
Hypothesis (HP : u_pgdir (x_cur s0) = P) (Hks : u_kstack (x_cur s0) <> 0) (Hnm : length (u_name (x_cur s0)) = 16%nat).
Hypothesis (Hpath : Forall (fun ch => ch <> 0) path) (Hargs : Forall (fun a => len a < 2 ^ 24) argv).

Definition lacking : Prop := forall e top sp b, wanted V n path argv = Some (e, top, sp, b) -> short All X1 (top / PGSIZE).

Definition ends (r : Z) s : Prop :=
  (exists l, fsquiet (x_fs s) V l ∅ /\ icache_ok sb V l /\ forall x, refs l x = refs l0 x) /\
  ((r = -1 /\ refused s0 s P T A X /\ lacking) \/
   (r = 0 /\ exists e top sp b, wanted V n path argv = Some (e, top, sp, b) /\ replaced s0 s X path e top sp b)).

Lemma quiet_calm f l : fsquiet f V l ∅ -> ctx_ok (ctx f) i c /\ locks (ctx f) = ∅.
Proof. intros [H _ _ _ _ _]. exact (quiet_ctx _ _ _ _ _ H). Qed.

Lemma mem_calm k k' Y l : mem_inv k Y l -> ram k' = ram k -> freelist k' = freelist k -> ctx_ok (ctx k') i c -> locks (ctx k') = ∅ -> mem_inv k' Y l.
Proof. intros [_ [L1 L2 L3] H3] Er Ef Hc Hl. split; [right; split; [done|by rewrite Hl]|split; [by rewrite Er, Ef|done|done]|done]. Qed.

Lemma mem_old : mem_inv (get_k s0) X1 fl.
Proof. split; [apply Hvm|apply Hvm|]. rewrite <- app_assoc. apply Hvm. Qed.

Lemma old_rep s : held X1 s0 s -> vm_rep (x_ram s) P T A.
Proof. intros Hh. eapply rep_agree; [apply Hvm|]. intros p Hp. apply (hd_mem _ _ _ Hh). unfold own. set_solver. Qed.

Lemma fails s l fl' : fsquiet (x_fs s) V l ∅ -> icache_ok sb V l -> (forall x, refs l x = refs l0 x) -> mem_inv (get_k s) X1 fl' -> held X1 s0 s -> lacking -> ends (-1) s.
Proof.
  intros Hq Hok Hrf [H1 H2 H3] Hh Hl. split; [by exists l|]. left. split_and!; [done| |done]. split; [apply Hh|apply Hh| |apply Hh].
  exists fl'. split; [done|done|by apply old_rep|by rewrite app_assoc].
Qed.

(** The file [ip] open in an operation, with one reference more than before. *)
Record opened s (l : list inode) (ip : nat) (p : inode) : Prop := {
  xo_fs : fsrep (x_fs s) V ∅ ∅ l {[ip]};
  xo_ok : icache_ok sb V l;
  xo_at : cached sb l ip p;
  xo_link : i_nlink p <> 0;
  xo_refs : forall x, refs l x = refs l0 x + one (x =? i_inum p)
}.

Lemma opened_fs s s' l ip p : opened s l ip p -> fsrep (x_fs s') V ∅ ∅ l {[ip]} -> opened s' l ip p.
Proof. intros [H1 H2 H3 H4 H5] H. by split. Qed.

Lemma wp_close s l ip p Q W : opened s l ip p ->
  (forall f l', fsquiet f V l' ∅ -> icache_ok sb V l' -> (forall x, refs l' x = refs l0 x) -> Q tt (set_x_fs f s)) ->
  wp (onfs (iunlockput waits ip) s) (fun _ s1 => wp (end_op s1) Q W) stays.
Proof.
  intros [Hr Hok Hc Hnl Hrf] HQ. apply wp_on_fs. eapply (wp_walk_put waits i c g sb ds pid cwd Hly Hds V ∅ Hdk ltac:(rewrite size_empty; unfold NBUF; lia)); [exact Hr|exact Hok|exact Hc|exact Hnl|].
  intros f l1 Hr1 Hok1 Hrf1 _ _ _. apply wp_on_fs. eapply wp_end_fs; [exact Hr1|]. intros f2 Hq. eapply (HQ f2 l1); [done|done|].
  intros x. rewrite Hrf1, Hrf. lia.
Qed.

(** [bad] inside the operation. *)
Lemma wp_bad_file s l ip p pd W : opened s l ip p -> held X1 s0 s -> lacking ->
  (pd = 0 /\ (exists l1, mem_inv (get_k s) X1 l1)) \/ (exists T1 A1 l1, vm_inv (get_k s) pd T1 A1 X1 l1) ->
  wp (bad end_ waits pd (Some ip) s) ends W.
Proof.
  intros Ho Hh Hl Hm. unfold bad. apply wp_step.
  assert (Hend : forall s1 fl1, opened s1 l ip p -> held X1 s0 s1 -> mem_inv (get_k s1) X1 fl1 -> wp (((onfs (iunlockput waits ip) ;; end_op) ;; ret (-1)) s1) ends W).
  { intros s1 fl1 Ho1 Hh1 Hm1. apply wp_step, wp_step. eapply wp_close; [exact Ho1|]. intros f l' Hq Hok Hrf. cbn. destruct (quiet_calm f l' Hq).
    eapply fails; [exact Hq|done|done|by eapply mem_calm|eapply held_trans; [exact Hh1|apply held_fs]|done]. }
  destruct Hm as [[-> [l1 Hm]]|(T1 & A1 & l1 & Hi)]; [cbn [Z.eqb negb when ret wp]; by eapply Hend|].
  destruct (inv_tables _ _ _ _ _ _ Hi) as [Hok _]. apply Forall_cons in Hok as [(_ & Hpd & _) _].
  rewrite (proj2 (Z.eqb_neq pd 0)) by (pose proof (end_pos (All := All)); lia). cbn [negb when]. apply (wp_mem _ s X1).
  eapply wp_freevm; [done|exact Hi|]. intros k l' H1 H2 H3 Hk. split; [exact Hk|]. intros Eg Hh1.
  eapply Hend; [by eapply opened_fs; [exact Ho|apply Ho]|by eapply held_trans|]. rewrite Eg. by split.
Qed.

Lemma program_head F sz b : 52 <= len F -> elf_magic (sub 0 52 F) = ELF_MAGIC ->
  load_spec (Z.to_nat (elf_phnum (sub 0 52 F))) (elf_phoff (sub 0 52 F)) F 0 (fun _ => 0) = Some (sz, b) ->
  program F argv = match stack_spec argv sz b with None => None | Some (top, sp, b) => Some (elf_entry (sub 0 52 F), top, sp, b) end.
Proof. intros H1 H2 H3. unfold program. rewrite (proj2 (Z.ltb_ge _ _)), H2, Z.eqb_refl, H3 by done. done. Qed.

Lemma lacking_none : wanted V n path argv = None -> lacking.
Proof. intros E e top sp b. by rewrite E. Qed.

(** The sizes of a program and of its address space. *)
Lemma program_top F e top sp b : program F argv = Some (e, top, sp, b) ->
  exists sz b1, load_spec (Z.to_nat (elf_phnum (sub 0 52 F))) (elf_phoff (sub 0 52 F)) F 0 (fun _ => 0) = Some (sz, b1) /\ top / PGSIZE = pgceil sz + 2.
Proof.
  unfold program. destruct (_ || _); [done|]. destruct (load_spec _ _ _ _ _) as [[sz b1]|]; [|done]. unfold stack_spec.
  destruct (_ <=? _); [done|]. destruct (args_spec _ _ _ _ _) as [[[sp1 ptrs] b2]|]; [|done]. destruct (_ <? _); [done|]. intros [= _ <- _ _].
  exists sz, b1. split; [done|]. by rewrite Z.div_mul.
Qed.

Lemma wp_load_file s l ip p fl1 W :
  opened s l ip p -> file_at sb ds V l ip p -> held X1 s0 s -> mem_inv (get_k s) X1 fl1 -> wanted V n path argv = program (file_data V p) argv ->
  wp (load_file end_ data_ waits dev_read ts path argv ip s) ends W.
Proof.
  intros Ho Hf Hh Hm Hw. set (F := file_data V p) in *. assert (HT0 : (size (∅ : gset Z) < NBUF)%nat) by (rewrite size_empty; unfold NBUF; lia).
  unfold load_file. apply wp_step. apply wp_on_fs.
  eapply (wp_read dev_read i c g sb ds pid cwd Hly Hds _ V ∅ l {[ip]} ip p); [apply Ho|exact Hf|exact HT0|done|done| |]; fold F.
  { intros f Hr Hshort r bs Hrn _. cbn [fst]. rewrite (proj2 (Z.eqb_neq _ _)) by done. cbn [negb]. destruct (fsrep_calm _ _ _ _ _ _ _ _ _ _ _ _ Hr).
    eapply wp_bad_file; [by eapply opened_fs|eapply held_trans; [exact Hh|apply held_fs]| |left; split; [done|eexists; by eapply mem_calm]].
    apply lacking_none. rewrite Hw. unfold program. by rewrite (proj2 (Z.ltb_lt _ _)). }
  intros f Hr Hlen. cbn [fst snd]. change (negb (u32 52 =? 52)) with false. cbn iota. change (Z.to_nat 0) with 0%nat. change (Z.to_nat 52) with 52%nat. rewrite Z.add_0_l in Hlen.
  set (s1 := set_x_fs f s). set (elf := sub 0 52 F). assert (Ho1 : opened s1 l ip p) by (by eapply opened_fs). assert (Hh1 : held X1 s0 s1) by (eapply held_trans; [exact Hh|apply held_fs]).
  destruct (fsrep_calm _ _ _ _ _ _ _ _ _ _ _ _ Hr) as [Hcx Hlk]. assert (Hm1 : mem_inv (get_k s1) X1 fl1) by (by eapply mem_calm).
  destruct (Z.eqb_spec (elf_magic elf) ELF_MAGIC) as [Hmag|Hmag]; cbn [negb].
  2: { eapply wp_bad_file; [exact Ho1|exact Hh1| |left; split; [done|by exists fl1]]. apply lacking_none. rewrite Hw. unfold program. fold elf.
       rewrite (proj2 (Z.eqb_neq (elf_magic elf) _)) by done. by rewrite orb_true_r. }
  apply wp_step. apply (wp_mem _ s1 X1). eapply wp_setupkvm; [done|done|done|exact Hm1| |].
  { intros k l1 Hm2 Hsh Hk. split; [exact Hk|]. intros Eg Hh2. cbn [Z.eqb]. eapply wp_bad_file; [by eapply opened_fs; [exact Ho1|]|by eapply held_trans| |left; split; [done|exists l1; by rewrite Eg]].
    intros e top sp b Hp. rewrite Hw in Hp. apply program_top in Hp as (sz & b1 & Hs & ->). eapply short_mono; [exact Hsh|]. apply load_spec_mono in Hs. pose proof (pgceil_mono 0 sz Hs). change (pgceil 0) with 0 in *. lia. }
  intros k Pn Tn l1 Hi Hk HPn. split; [exact Hk|]. intros Eg Hh2. rewrite (proj2 (Z.eqb_neq Pn 0)) by done. set (s2 := with_k k s1) in *.
  apply wp_step. eapply (wp_load_segs end_ data_ dev_read i c All g sb ds pid cwd Hly Hds data_page data_range V ∅ l {[ip]} ip p Hf HT0 Hbytes Pn X1 _ _ (Z.to_nat (elf_phnum elf)) s2 Tn (kernel_map data_) l1 (elf_phoff elf) 0 (fun _ => 0)).
  - split; [exact Hr|by rewrite Eg].
  - by apply ui_empty.
  - done.
  - apply (getn_range 4). unfold elf, sub. apply Forall_take, Forall_drop. by eapply data_bytes.
  - intros s3 T3 A3 l3 [Hr3 Hi3] Hh3 Hwhy. eapply wp_bad_file; [by eapply opened_fs|eapply held_trans; [exact Hh1|by eapply held_trans]| |right; by exists T3, A3, l3].
    intros e top sp b Hp. rewrite Hw in Hp. apply program_top in Hp as (sz & b1 & Hs & ->). eapply short_mono; [by eapply Hwhy|lia].
  - intros s3 T3 A3 l3 sz b [Hr3 Hi3] Hh3 Hs Hu3 Hsz. assert (Ho3 : opened s3 l ip p) by (by eapply opened_fs).
    assert (Hh03 : held X1 s0 s3) by (eapply held_trans; [exact Hh1|by eapply held_trans]). pose proof (program_head F sz b Hlen Hmag Hs) as Hprog. rewrite <- Hw in Hprog.
    apply wp_step. eapply wp_mono; [eapply (wp_close s3 l ip p (fun _ s' => wp (setup_stack end_ waits ts path argv Pn sz (elf_entry elf) s') ends W) stays Ho3)| |done].
    + intros f4 l4 Hq Hok Hrf. destruct (quiet_calm f4 l4 Hq) as [Hc4 Hl4]. set (s4 := set_x_fs f4 s3).
      assert (Hi4 : vm_inv (get_k s4) Pn T3 A3 X1 l3) by (by eapply inv_calm).
      change s4 with (with_k (get_k s4) s4). eapply (wp_setup_stack end_ data_ waits ts i c All data_page data_range s4 (get_k s4)); [exact Hi4|exact Hu3|done| |done|exact Hc4| | | |done|done| |].
      * exact (old_rep s3 Hh03).
      * change (x_cur s4) with (x_cur s3). by rewrite (hd_cur _ _ _ Hh03).
      * change (x_cur s4) with (x_cur s3). by rewrite (hd_cur _ _ _ Hh03).
      * change (x_cur s4) with (x_cur s3). by rewrite (hd_cur _ _ _ Hh03).
      * intros k' l' Hm' Hk' Hwhy. assert (Hg : get_k (with_k k' s4) = k') by (apply get_with; apply Hk').
        eapply (fails _ l4 l'); [exact Hq|done|done|by rewrite Hg|eapply held_trans; [exact Hh03|eapply held_trans; [apply (held_fs _ s3 f4)|by apply (held_keeps _ s4)]]|].
        intros e top sp b' Hp. destruct Hwhy as [Hno|Hsh]; [by rewrite Hprog, Hno in Hp|]. rewrite Hw in Hp. apply program_top in Hp as (sz' & b1 & Hs' & ->).
        unfold elf, F in Hs, Hs'. rewrite Hs in Hs'. by injection Hs' as -> ->.
      * intros k' T' A' l' nm top sp b' Hst Hi' Hk' Htop Hu' Hln Hns. split; [by exists l4|]. right. split; [done|]. rewrite Hst in Hprog. exists (elf_entry elf), top, sp, b'. split; [done|].
        assert (Hcur : x_cur s3 = x_cur s0) by apply Hh03.
        assert (Hg : get_k (with_k k' s4) = k') by (apply get_with; apply Hk').
        split; [|intros q Hq'|done|done|cbn; by rewrite Hcur|cbn; by rewrite Hcur].
        -- exists T', A', l'. split; [by rewrite <- Hg in Hi'|]. rewrite Htop, Z.div_mul by done. by replace (pgceil sz + 2 - 2) with (pgceil sz) by lia.
        -- intros y Hy. etransitivity; [apply (kp_mem _ _ _ Hk' q Hq' y Hy)|]. apply (hd_mem _ _ _ Hh03 q); [set_solver|done].
    + intros [] s' H. apply wp_step. eapply wp_mono; [exact H|done|done].
Qed.
End Run.

(** The inode at [m] is a file or a directory that lies within the disk. *)
Definition loadable V (m : Z) : Prop :=
  di_type (dino sb V m) <> T_DEV /\ 0 <= di_size (dino sb V m) <= MAXFILE * BSIZE /\ mapped sb ds V (inode_on sb V m) (blocks_of (di_size (dino sb V m))).

Lemma loadable_at V l ip p : loadable V (i_inum p) -> cached sb l ip p -> synced sb V p ->
  file_at sb ds V l ip p /\ file_data V p = file_data V (inode_on sb V (i_inum p)).
Proof.
  intros (H1 & H2 & H3) Hc Hs. destruct (sync_fields sb V p Hs) as (E1 & E2 & E3 & _). assert (Ea : i_addrs (inode_on sb V (i_inum p)) = i_addrs p) by (by rewrite E3).
  split; [split; [apply Hc|apply Hc|congruence|congruence|rewrite E2; by eapply mapped_addrs]|]. unfold file_data. cbn [inode_on load_dinode i_size]. rewrite <- E2.
  apply fbytes_ext. intros o _. by apply fbyte_addrs.
Qed.

Lemma starts_range l path n : starts sb cwd l path n -> 0 <= n < ninodes sb.
Proof.
  unfold starts. assert (Hr : (exists p, cached sb l cwd p /\ i_inum p = n) -> 0 <= n < ninodes sb) by (intros (p & Hc & <-); apply Hc).
  destruct path as [|ch path]; [done|]. destruct ch as [|ch|ch]; try done. repeat (destruct ch as [ch|ch|]; try done). by intros [-> ?].
Qed.

(** C8 (functional).  [exec] replaces the program of the process or changes nothing.  It
    returns 0 exactly with the address space that the file stands for ([program]): every
    segment and zeros elsewhere, the arguments and the frame of [main] on a stack page
    above a page without access, the entry point and the stack pointer, the name from the
    path, and the old address space given back.  Otherwise it returns -1, the process, its
    address space and every other page are as before, nothing of the new one is left, and
    either the file is not a program with these arguments or there is no memory for it.
    In both cases no operation is left open and no reference to an inode is kept. *)
Theorem exec_replaces s V l n path argv P T A X fl :
  fsquiet (x_fs s) V l ∅ -> disk_ok sb ds V -> icache_ok sb V l -> (forall k, Forall is_byte (V k)) -> 2 <= slots l ->
  starts sb cwd l path n -> di_type (dino sb V n) <> 0 -> Forall (fun ch => ch <> 0) path -> (forall m, target sb false V n (elems path) = Some m -> loadable V m) ->
  Forall (fun a => len a < 2 ^ 24) argv -> (forall m t, cprintf m t = Ret tt t) ->
  vm_inv (get_k s) P T A X fl -> u_pgdir (x_cur s) = P -> u_kstack (x_cur s) <> 0 -> length (u_name (x_cur s)) = 16%nat ->
  exists r s', exec end_ data_ waits dev_read ts cprintf path argv s = Ret r s' /\
    (exists l', fsquiet (x_fs s') V l' ∅ /\ icache_ok sb V l' /\ forall x, refs l' x = refs l x) /\
    ((r = -1 /\ refused s s' P T A X /\ forall e top sp b, wanted V n path argv = Some (e, top, sp, b) -> short All (own P T A ++ X) (top / PGSIZE)) \/
     (r = 0 /\ exists e top sp b, wanted V n path argv = Some (e, top, sp, b) /\ replaced s s' X path e top sp b)).
Proof.
  intros Hq Hdk Hok Hbytes Hroom Hst Hty Hpath Hload Hargs Hcp Hvm HP Hks Hnm. apply (wp_Ret _ (ends s V l n path argv P T A X)).
  unfold exec. destruct (quiet_calm V _ _ Hq) as [Hcx _]. apply wp_step. apply wp_on_fs. eapply wp_myproc_; [exact Hcx|].
  apply wp_step. apply wp_on_fs. eapply wp_begin_fs; [exact Hq|]. intros f1 Hr1. apply wp_step. apply wp_on_fs. unfold namei. apply wp_step.
  assert (HT0 : (size (∅ : gset Z) < NBUF)%nat) by (rewrite size_empty; unfold NBUF; lia).
  set (s1 := set_x_fs f1 _). assert (Hh1 : held (own P T A ++ X) s s1) by (by split). assert (Hm0 := mem_old s P T A X fl Hvm).
  eapply (wp_namex waits dev_read i c g sb ds pid cwd Hly Hds V ∅ Hdk HT0); [exact Hr1|exact Hok|exact Hroom|exact Hst|exact Hty|done|exact Hpath|]. unfold namex_post.
  destruct (target sb false V n (elems path)) as [m|] eqn:Et.
  - intros f2 l2 ip p nm Hr2 Hok2 Hc2 Hin Hrf2 _. cbn [ret wp fst]. destruct (walk_live sb ds V n (elems path) m Hdk (starts_range _ _ _ Hst) Hty Et) as [_ Htm].
    apply wp_step. apply wp_on_fs. eapply (wp_lock_live waits i c g sb ds pid cwd Hly Hds V ∅ Hdk HT0); [exact Hr2|exact Hok2|exact Hc2|exact Hin|exact Htm|].
    intros f3 l3 p3 Hr3 Hok3 Hc3 Hin3 _ Hsy _ Hnl Hrf3 _. destruct (loadable_at V l3 ip p3 ltac:(rewrite Hin3; by apply Hload) Hc3 Hsy) as [Hfile Hdata].
    destruct (fsrep_calm _ _ _ _ _ _ _ _ _ _ _ _ Hr3).
    eapply (wp_load_file s V l n path argv P T A X fl Hdk Hbytes Hvm HP Hks Hnm Hpath Hargs _ l3 ip p3 fl); [|exact Hfile|by split|by eapply mem_calm|].
    + split; [exact Hr3|done|done|done|]. intros x. rewrite Hrf3, Hrf2, Hin3. done.
    + unfold wanted. rewrite Et. cbn. by rewrite Hdata, Hin3.
  - intros f2 l2 nm Hr2 Hok2 Hrf2. cbn [ret wp fst]. apply wp_step. apply wp_on_fs. eapply wp_end_fs; [exact Hr2|]. intros f3 Hq3.
    apply wp_step. rewrite Hcp. cbn. destruct (quiet_calm V _ _ Hq3). eapply (fails s V l n path argv P T A X fl Hdk Hbytes Hvm HP Hks Hnm Hpath Hargs _ l2 fl); [exact Hq3|done|done|by eapply mem_calm|by split|].
    apply lacking_none. unfold wanted. by rewrite Et.
Qed.

(** The stack pointer is not compared with the size of the string: below 0 it wraps around,
    and a string of more than 32 megabytes takes it to an address without a page table,
    where [copyout] reads through a null pointer. *)
Theorem exec_long_argument s k P T A X l argv a sp ptrs :
  vm_inv k P T A X l -> ctx k = ctx (x_fs s) -> len ptrs < MAXARG -> 0 <= sp -> sp - (len a + 1) < 0 -> - 2 ^ 32 <= sp - (len a + 1) ->
  T !! PDX (2 ^ 32 + (sp - (len a + 1)) / 4 * 4) = None -> push_args (a :: argv) P sp ptrs (with_k k s) = UB "null pte".
Proof.
  intros Hi Hc Hp Hsp Hneg Hlow Ht. set (x := sp - (len a + 1)) in *. cbn [push_args]. rewrite (proj2 (Z.leb_gt _ _)) by done. fold x.
  assert (Hux : u32 x = x + 2 ^ 32).
  { unfold u32. rewrite <- (Z.mod_small (x + 2 ^ 32) (2 ^ 32)) by lia. by rewrite Z.add_mod, Z_mod_same_full, Z.add_0_r, Zmod_mod by done. }
  rewrite Hux, word_mask by (unfold is_u32; lia). replace ((x + 2 ^ 32) / 4 * 4) with (2 ^ 32 + x / 4 * 4) by (Z.div_mod_to_equations; lia).
  destruct (uva2ka_null end_ i c All k P T A X l (2 ^ 32 + x / 4 * 4) (cstr a) Hi) as [_ Hco]; [unfold is_u32; Z.div_mod_to_equations; lia|done|unfold cstr; by destruct a|].
  unfold bind at 1, onmem, inside. rewrite (get_with k s Hc), Hco. done.
Qed.
End Theorems.

(** ** The machine of [Demo] with 1100 pages *)

Definition END : Z := 0x80108000.
Definition DATA : Z := 0x80106000.
Definition TS : Z := 0x80107000.
Definition page (k : Z) : Z := 0x80110000 + k * PGSIZE.
Definition pages : list Z := page <$> seqZ 0 1100.
(** Page 0 is an empty directory; the others are on the free list. *)
Definition ram1100 : memory := fun x =>
  let k := (x - 0x80110000) / PGSIZE in if (1 <=? k) && (k <? 1099) then store32 (page k) (page (k + 1)) (fun _ => 0) x else 0.
Definition run0 : execst (logst bst) :=
  mkx (small_fs small) ram1100 1 (page 1) (mkuproc 0 (page 0) (page 2000) (replicate 16 0) 0 0) (mkhw (mkseg 0 0 0 0 0) 0 0 0 0 0).

Lemma page_range k : 0 <= k < 1100 -> page_ok END (page k) /\ V2P (page k) = 0x110000 + k * PGSIZE.
Proof.
  intros Hk. assert (E : V2P (page k) = 0x110000 + k * PGSIZE) by (unfold V2P, page, KERNBASE, PGSIZE; rewrite u32_small by (unfold is_u32; lia); lia).
  split; [|done]. unfold page_ok. rewrite E. unfold page, END, PHYSTOP, is_u32, PGSIZE. split_and!; try lia. Z.div_mod_to_equations. lia.
Qed.

Lemma pages_ok lo n : 0 <= lo -> 0 <= n -> lo + n <= 1100 -> Forall (page_ok END) (page <$> seqZ lo n) /\ NoDup (page <$> seqZ lo n).
Proof.
  intros Hlo Hn Hhi. split.
  - apply Forall_fmap, Forall_forall. intros k Hk%elem_of_seqZ. apply page_range. lia.
  - apply NoDup_fmap_2; [|apply NoDup_seqZ]. intros j k E. unfold page, PGSIZE in E. lia.
Qed.

#[global] Instance pages_managed : Managed END pages.
Proof. destruct (pages_ok 0 1100) as [H1 H2]; [lia..|]. by split. Qed.

Lemma ram_next k : 1 <= k < 1100 -> load32 ram1100 (page k) = if k <? 1099 then page (k + 1) else 0.
Proof.
  intros Hk. assert (Hd : forall x, page k <= x < page k + 4 -> (x - 0x80110000) / PGSIZE = k) by (intros x Hx; unfold page, PGSIZE in *; Z.div_mod_to_equations; lia).
  destruct (Z.ltb_spec k 1099) as [Hlt|Hge].
  - transitivity (load32 (store32 (page k) (page (k + 1)) (fun _ => 0)) (page k)).
    + apply load32_agree. intros x Hx. unfold ram1100. rewrite (Hd x Hx). by rewrite (proj2 (Z.leb_le _ _)), (proj2 (Z.ltb_lt _ _)) by lia.
    + apply load32_store32. unfold page, is_u32, PGSIZE. lia.
  - transitivity (load32 (fun _ => 0) (page k)); [|done]. apply load32_agree. intros x Hx. unfold ram1100. rewrite (Hd x Hx). by rewrite (proj2 (Z.ltb_ge k _)), andb_false_r by lia.
Qed.

Lemma ram_list n k : 1 <= k -> k + Z.of_nat n = 1100 -> flist ram1100 (if (n =? 0)%nat then 0 else page k) (page <$> seqZ k (Z.of_nat n)).
Proof.
  revert k. induction n as [|n IH]; intros k Hk Hn; [done|]. rewrite seqZ_cons by lia. cbn [fmap list_fmap flist Nat.eqb]. split; [done|].
  replace (Z.pred (Z.of_nat (Datatypes.S n))) with (Z.of_nat n) by lia. specialize (IH (Z.succ k) ltac:(lia) ltac:(lia)). rewrite ram_next by lia.
  destruct n as [|n]; [by rewrite (proj2 (Z.ltb_ge _ _)) by lia|]. rewrite (proj2 (Z.ltb_lt _ _)) by lia. exact IH.
Qed.

Lemma run0_vm : VmSpec.vm_inv (end_ := END) (i := 0) (c := demo_c) (All := pages) (get_k run0) (page 0) ∅ ∅ [] (page <$> seqZ 1 1099).
Proof.
  destruct (quiet_ctx _ _ _ _ _ small_quiet) as [Hc Hl]. destruct (pages_ok 1 1099) as [H1 H2]; [lia..|]. split.
  - right. split; [exact Hc|]. change (locks (ctx small) !! kmem_lk = None). by rewrite Hl.
  - split; [exact (ram_list 1099 1 ltac:(lia) ltac:(lia))|done|done].
  - split; [|by intros d t [=]|by intros d t j [=]|by intros v e [=]]. intros d Hd. rewrite lookup_empty. cbn [pde_of]. transitivity (load32 (fun _ => 0) (page 0 + 4 * d)); [|done].
    apply load32_agree. intros x Hx. cbn. unfold ram1100. replace ((x - 0x80110000) / PGSIZE) with 0 by (unfold page, PGSIZE in *; Z.div_mod_to_equations; lia). done.
  - change (own (page 0) ∅ ∅) with [page 0]. unfold pages. by rewrite (seqZ_cons 0 1100) by lia.
Qed.

Lemma run0_fs : fsquiet 0 demo_c fs_geo disk_sb 5 0 (x_fs run0) fs_view small_icache ∅.
Proof. split; [exact small_quiet|reflexivity|intros ip|reflexivity..]. rewrite decide_False by (clear; set_solver). reflexivity. Qed.

Lemma view_bytes k : Forall is_byte (fs_view k).
Proof.
  unfold fs_view, disk_at. destruct (k <? 0); [apply Forall_nil; exact I|].
  assert (H : forallb (forallb (fun x => (0 <=? x) && (x <? 256))) fs_disk = true) by (vm_compute; reflexivity).
  rewrite List.forallb_forall in H. destruct (List.nth_in_or_default (Z.to_nat k) fs_disk []) as [Hin| ->]; [|apply Forall_nil; exact I]. specialize (H _ Hin). rewrite List.forallb_forall in H.
  apply Forall_forall. intros x Hx. apply list_elem_of_In in Hx. specialize (H x Hx). unfold is_byte. apply andb_true_iff in H. change (2 ^ 8) with 256. lia.
Qed.

(** "x" with the arguments "x" and "hi": loaded into three pages. *)
Definition x_path : list Z := [47; 120].
Definition x_argv : list (list Z) := [[120]; [104; 105]].

Lemma x_wanted : exists b, wanted disk_sb fs_view 1 x_path x_argv = Some (2, 12288, 12256, b).
Proof.
  assert (H : match wanted disk_sb fs_view 1 x_path x_argv with Some (e, top, sp, _) => Some (e, top, sp) | None => None end = Some (2, 12288, 12256)) by (vm_compute; reflexivity).
  destruct (wanted _ _ _ _ _) as [[[[e top] sp] b]|]; [|done]. injection H as -> -> ->. by exists b.
Qed.

Lemma exec_replaces_witness : exists s', exec END DATA 0 no_devs TS (fun _ s => Ret tt s) x_path x_argv run0 = Ret 0 s' /\
  u_eip (x_cur s') = 2 /\ u_sz (x_cur s') = 12288 /\ u_esp (x_cur s') = 12256.
Proof.
  destruct (exec_replaces END DATA 0 TS no_devs (fun _ s => Ret tt s) 0 demo_c pages fs_geo disk_sb 34 5 0 small_layout eq_refl eq_refl (conj eq_refl eq_refl)
    run0 fs_view small_icache 1 x_path x_argv (page 0) ∅ ∅ [] (page <$> seqZ 1 1099)) as (r & s' & Hrun & _ & Hres).
  - exact run0_fs.
  - exact small_disk.
  - exact small_icache_ok.
  - exact view_bytes.
  - clear. vm_compute. discriminate.
  - clear. vm_compute. split; [reflexivity|]. split; [discriminate|reflexivity].
  - clear. vm_compute. discriminate.
  - repeat (apply Forall_cons; split; [discriminate|]). by apply Forall_nil.
  - intros m Hm. assert (E : target disk_sb false fs_view 1 (elems x_path) = Some 3) by (vm_compute; reflexivity). rewrite E in Hm. injection Hm as <-.
    split; [by vm_compute|]. split; [by vm_compute|]. eapply mapped_addrs; [|apply (small_mapped 36); set_solver]. vm_compute. reflexivity.
  - unfold x_argv. repeat (apply Forall_cons; split; [reflexivity|]). by apply Forall_nil.
  - reflexivity.
  - exact run0_vm.
  - reflexivity.
  - discriminate.
  - reflexivity.
  - destruct x_wanted as [b Hb]. destruct Hres as [(_ & _ & Hsh)|(-> & e & top & sp & b' & Hw & Hrep)].
    + exfalso. specialize (Hsh _ _ _ _ Hb). change (own (page 0) ∅ ∅ ++ []) with [page 0] in Hsh. unfold short, pages in Hsh. rewrite length_fmap, length_seqZ in Hsh. vm_compute in Hsh. by apply Hsh.
    + rewrite Hb in Hw. injection Hw as <- <- <- _. destruct (rp_regs _ _ _ _ _ _ _ _ _ _ _ _ _ _ Hrep) as (H1 & H2 & H3).
      exact (ex_intro _ s' (conj Hrun (conj H2 (conj H1 H3)))).
Defined.

End ExecTheorems.
