(* ===== verification/Schedlog.v ===== *)
(** * The scheduling-event log

    Models the monitoring added to [proc.c] and [sysfile.c]: [rdtsc],
    [mystrcmp], [writelog] and [convert_to_hexa].  Events are recorded once
    [finished_fork] is set, for processes named [bufwrite] only, in the array
    [buf_log] at the index [bufsize.value]. *)

From Stdlib Require Import ZArith Lia.
From S2P Require Import Prelude Spinlock ProcDefs.

(** Characters of C string literals. *)
Fixpoint bytes_of (s : string) : list Z :=
  match s with
  | EmptyString => []
  | String a s => Z.of_N (Ascii.N_of_ascii a) :: bytes_of s
  end.
(** A literal with its terminating NUL. *)
Definition cstr (s : string) : list Z := bytes_of s ++ [0].

(** A [char *] is the list of bytes from the pointer to the end of its array;
    [None] is a read past that end. *)
Fixpoint mystrcmp (p q : list Z) : option Z :=
  match p, q with
  | a :: p', b :: q' => if negb (a =? 0) && (a =? b) then mystrcmp p' q' else Some (a - b)
  | _, _ => None
  end.

Definition hex_digit (d : Z) : Z := if d <? 10 then 48 + d else 65 + d - 10.

(** [hex] after [k] turns of the loop; [i] counts from [8 - k]. *)
Fixpoint hexa_loop (k : nat) (n : Z) (i : nat) (hex : list Z) : list Z :=
  match k with
  | O => hex
  | S k => hexa_loop k (n / 16) (S i) (<[(7 - i)%nat := hex_digit (n mod 16)]> hex)
  end.

Definition convert_to_hexa (n : Z) (hex : list Z) : list Z := <[8%nat := 0]> (hexa_loop 8 n 0 hex).

Section Log.
Context {E : Type} `{!KEnv E}.
Implicit Types s : pstate E.

Definition rdtsc : M (pstate E) clock :=
  n <- gets tsc_reads ;;
  modify (set_tsc_reads (S n)) ;;
  ret (k_tsc n).

Definition writelog (pid : Z) (pname : list Z) (event_name : events)
    (prev_pstate next_pstate : procstate) : M (pstate E) unit :=
  ff <- gets finished_fork ;;
  if ff =? 0 then ret tt else
  match mystrcmp pname (cstr "bufwrite") with
  | None => ub "mystrcmp past the end of pname"
  | Some r =>
      if negb (r =? 0) || (pid =? -1) then ret tt else
      cl <- rdtsc ;;
      modify (set_end_clock cl) ;;
      v <- gets bufsize ;;
      if BUFSIZE <=? v then ret tt else
      modify (set_bufsize (v + 1)) ;;
      idx <- gets bufsize ;;
      log <- gets buf_log ;;
      if negb (idx <? Z.of_nat (length log)) then ub "buf_log out of range" else
      c <- onctx mycpuid ;;
      if negb (16 <=? Z.of_nat (length pname)) then ub "pname shorter than 16 bytes" else
      modify (set_buf_log (<[Z.to_nat idx :=
        mkschedlog cl pid (take 16 pname) (events_val event_name)
          (procstate_val prev_pstate) (procstate_val next_pstate) (Z.of_nat c)]> log))
  end.
End Log.
Arguments writelog : simpl never.

(** ** [writelog] *)

Section Writelog.
Context {E : Type} `{!KEnv E}.
Implicit Types s : pstate E.

(** The calls whose event is recorded. *)
Definition logged s (pid : Z) (nm : list Z) : Prop :=
  finished_fork s <> 0 /\ mystrcmp nm (cstr "bufwrite") = Some 0 /\ pid <> -1.

Definition log_entry (i n : nat) (pid : Z) (nm : list Z) (ev : events) (pr nx : procstate) : schedlog :=
  mkschedlog (k_tsc n) pid (take 16 nm) (events_val ev) (procstate_val pr) (procstate_val nx) (Z.of_nat i).

(** The time stamp is taken before the bound is looked at. *)
Definition log_tick s : pstate E :=
  set_end_clock (k_tsc (tsc_reads s)) (set_tsc_reads (S (tsc_reads s)) s).

Definition log_state (i : nat) pid nm ev pr nx s : pstate E :=
  set_buf_log (<[Z.to_nat (bufsize s + 1) := log_entry i (tsc_reads s) pid nm ev pr nx]> (buf_log s))
    (set_bufsize (bufsize s + 1) (log_tick s)).

Lemma mystrcmp_skip s pid nm ev pr nx r :
  mystrcmp nm (cstr "bufwrite") = Some r -> ~ logged s pid nm -> writelog pid nm ev pr nx s = Ret tt s.
Proof.
  intros Hr Hn. unfold writelog. run. destruct (Z.eqb_spec (finished_fork s) 0); [done|].
  rewrite Hr. destruct (Z.eqb_spec r 0) as [->|]; cbn; [|done].
  destruct (Z.eqb_spec pid (-1)); [done|]. by destruct Hn.
Qed.

(** The calls that only mark lock operations: pid -1, name [test]. *)
Lemma writelog_lock s ev pr nx : writelog (-1) (cstr "test") ev pr nx s = Ret tt s.
Proof. eapply mystrcmp_skip; [reflexivity|]. intros (_ & _ & H). done. Qed.

Lemma writelog_logged s pid nm ev pr nx :
  logged s pid nm ->
  writelog pid nm ev pr nx s =
    (if BUFSIZE <=? bufsize s then Ret tt (log_tick s) else
     if negb (bufsize s + 1 <? Z.of_nat (length (buf_log s))) then UB "buf_log out of range" else
     bind (onctx mycpuid) (fun c =>
       if negb (16 <=? Z.of_nat (length nm)) then ub "pname shorter than 16 bytes" else
       modify (set_buf_log (<[Z.to_nat (bufsize s + 1) :=
         log_entry c (tsc_reads s) pid nm ev pr nx]> (buf_log s))))
       (set_bufsize (bufsize s + 1) (log_tick s))).
Proof.
  intros (Hf & Hm & Hp). unfold writelog, rdtsc. apply Z.eqb_neq in Hf, Hp.
  run. rewrite Hf, Hm. cbn [negb orb Z.eqb]. rewrite Hp. cbn [rbind set_tsc_reads set_end_clock bufsize].
  destruct (BUFSIZE <=? bufsize s); [done|]. cbn [rbind set_bufsize buf_log bufsize].
  change (buf_log (set_end_clock _ _)) with (buf_log s).
  by destruct (bufsize s + 1 <? Z.of_nat (length (buf_log s))).
Qed.

Lemma writelog_ok s pid nm ev pr nx i c :
  logged s pid nm -> (16 <= length nm)%nat -> ctx_ok (pctx s) i c ->
  bufsize s < BUFSIZE -> bufsize s + 1 < Z.of_nat (length (buf_log s)) ->
  writelog pid nm ev pr nx s = Ret tt (log_state i pid nm ev pr nx s).
Proof.
  intros Hl Hn Hc Hb Hlen. rewrite writelog_logged by done.
  destruct (Z.leb_spec BUFSIZE (bufsize s)); [lia|].
  destruct (Z.ltb_spec (bufsize s + 1) (Z.of_nat (length (buf_log s)))); [|lia]. cbn [negb].
  assert (Hm : mycpuid (pctx s) = Ret i (pctx s)) by (by eapply mycpuid_ok).
  rewrite (bind_Ret _ _ _ _ _ (@onctx_same _ pstate_ctx _ mycpuid (set_bufsize (bufsize s + 1) (log_tick s)) i Hm)).
  by destruct (Z.leb_spec 16 (Z.of_nat (length nm))); [|lia].
Qed.

(** States that differ in the log and the time stamps only. *)
Definition set_logs (ec : clock) (bl : list schedlog) (bs : Z) (tr : nat) s : pstate E :=
  set_end_clock ec (set_buf_log bl (set_bufsize bs (set_tsc_reads tr s))).
Definition log_eq s s' : Prop := exists ec bl bs tr, s' = set_logs ec bl bs tr s.

Lemma log_eq_fields s s' :
  pctx s' = pctx s -> procs s' = procs s -> heads s' = heads s -> rqsize s' = rqsize s ->
  nextpid s' = nextpid s -> finished_fork s' = finished_fork s ->
  isnot_first_running s' = isnot_first_running s -> initproc s' = initproc s ->
  clock_log s' = clock_log s -> first s' = first s -> env s' = env s -> log_eq s s'.
Proof.
  destruct s, s'; cbn. intros. subst. eexists _, _, _, _. reflexivity.
Qed.

#[export] Instance log_eq_equiv : Equivalence log_eq.
Proof.
  split.
  - intros s. exists (end_clock s), (buf_log s), (bufsize s), (tsc_reads s). by destruct s.
  - intros s s' (? & ? & ? & ? & ->). exists (end_clock s), (buf_log s), (bufsize s), (tsc_reads s). by destruct s.
  - intros s s1 s2 (? & ? & ? & ? & ->) (ec & bl & bs & tr & ->). by exists ec, bl, bs, tr.
Qed.

#[export] Instance log_eq_procs : Proper (log_eq ==> eq) procs.
Proof. by intros s s' (? & ? & ? & ? & ->). Qed.
#[export] Instance log_eq_pctx : Proper (log_eq ==> eq) pctx.
Proof. by intros s s' (? & ? & ? & ? & ->). Qed.
#[export] Instance log_eq_initproc : Proper (log_eq ==> eq) initproc.
Proof. by intros s s' (? & ? & ? & ? & ->). Qed.
#[export] Instance log_eq_env : Proper (log_eq ==> eq) env.
Proof. by intros s s' (? & ? & ? & ? & ->). Qed.
#[export] Instance log_eq_set_procs : Proper (eq ==> log_eq ==> log_eq) set_procs.
Proof. intros v ? <- s s' (ec & bl & bs & tr & ->). by exists ec, bl, bs, tr. Qed.
#[export] Instance log_eq_set_pctx : Proper (eq ==> log_eq ==> log_eq) set_pctx.
Proof. intros v ? <- s s' (ec & bl & bs & tr & ->). by exists ec, bl, bs, tr. Qed.

(** [n] more events can be logged without a store past the end of [buf_log]. *)
Definition log_room (n : nat) s : Prop :=
  finished_fork s = 0 \/ BUFSIZE <= bufsize s \/
  (0 <= bufsize s /\ bufsize s + Z.of_nat n < BUFSIZE <= Z.of_nat (length (buf_log s))).

Lemma log_room_fields n s s' :
  log_room n s -> finished_fork s' = finished_fork s -> bufsize s' = bufsize s ->
  buf_log s' = buf_log s -> log_room n s'.
Proof. unfold log_room. by intros H -> -> ->. Qed.

Lemma log_room_le n m s : log_room n s -> (m <= n)%nat -> log_room m s.
Proof. unfold log_room. intros [H|[H|H]] Hm; [auto..|]. right; right. lia. Qed.

Lemma mystrcmp_some p q : (length q <= length p)%nat -> 0 ∈ q -> exists r, mystrcmp p q = Some r.
Proof.
  revert q. induction p as [|a p IH]; intros [|b q] Hl Hq; cbn in *; try lia; try set_solver.
  destruct (Z.eqb_spec a 0), (Z.eqb_spec a b); cbn; eauto. apply IH; [lia|]. set_solver.
Qed.

(** [writelog] on a 16-byte name when the log has room. *)
Lemma wp_writelog s pid nm ev pr nx i c n Q W :
  length nm = 16%nat -> ctx_ok (pctx s) i c -> log_room (S n) s ->
  (forall s', log_eq s s' -> log_room n s' -> Q tt s') ->
  wp (writelog pid nm ev pr nx s) Q W.
Proof.
  intros Hn Hc Hr HQ. assert (Hs : Q tt s) by (apply HQ; [done|eapply log_room_le; eauto]).
  destruct (mystrcmp_some nm (cstr "bufwrite")) as [r Hm]; [rewrite Hn; cbn; lia|by apply (bool_decide_unpack _)|].
  assert (Hd : logged s pid nm \/ ~ logged s pid nm).
  { unfold logged. rewrite Hm. destruct (decide (finished_fork s = 0)), (decide (r = 0)), (decide (pid = -1));
      naive_solver. }
  destruct Hd as [Hl|Hl]; [|by rewrite (mystrcmp_skip _ _ _ _ _ _ _ Hm Hl)].
  destruct Hr as [H|[H|(H1 & H2)]]; [by destruct Hl| |].
  - rewrite writelog_logged by done. apply Z.leb_le in H as H'. rewrite H'. cbn.
    apply HQ; [|by right; left]. by exists (k_tsc (tsc_reads s)), (buf_log s), (bufsize s), (S (tsc_reads s)).
  - rewrite (writelog_ok s pid nm ev pr nx i c) by (done || lia). cbn. apply HQ.
    + by eexists _, _, _, _.
    + right; right. cbn. rewrite length_insert. lia.
Qed.

(** One call of [writelog], as its argument list. *)
Record logcall := mklogcall { lc_pid : Z; lc_name : list Z; lc_ev : events; lc_prev : procstate; lc_next : procstate }.
Definition do_log (a : logcall) : M (pstate E) unit :=
  writelog (lc_pid a) (lc_name a) (lc_ev a) (lc_prev a) (lc_next a).
Definition call_ok (a : logcall) : Prop :=
  mystrcmp (lc_name a) (cstr "bufwrite") = Some 0 /\ lc_pid a <> -1 /\ (16 <= length (lc_name a))%nat.
Definition entry_of (i n : nat) (a : logcall) : schedlog :=
  log_entry i n (lc_pid a) (lc_name a) (lc_ev a) (lc_prev a) (lc_next a).

Lemma log_all s i c (evs : list logcall) :
  ctx_ok (pctx s) i c -> finished_fork s <> 0 -> Forall call_ok evs ->
  0 <= bufsize s -> bufsize s + Z.of_nat (length evs) < BUFSIZE ->
  bufsize s + Z.of_nat (length evs) < Z.of_nat (length (buf_log s)) ->
  exists s', forM evs do_log s = Ret tt s' /\
    bufsize s' = bufsize s + Z.of_nat (length evs) /\
    length (buf_log s') = length (buf_log s) /\ finished_fork s' = finished_fork s /\
    (forall j a, evs !! j = Some a ->
       buf_log s' !! (Z.to_nat (bufsize s) + 1 + j)%nat = Some (entry_of i (tsc_reads s + j) a)) /\
    (forall j, (j <= Z.to_nat (bufsize s))%nat -> buf_log s' !! j = buf_log s !! j).
Proof.
  intros Hc Hf Hev. revert s Hc Hf. induction Hev as [|a evs (Hm & Hp & Hl) _ IH]; intros s Hc Hf Hb Hlt Hlen.
  - exists s. cbn. split_and!; [done|lia|done|done|by intros|done].
  - cbn [length] in *. cbn [forM]. unfold do_log at 1.
    rewrite (bind_Ret _ _ _ _ _ (writelog_ok s _ _ _ _ _ i c (conj Hf (conj Hm Hp)) Hl Hc ltac:(lia) ltac:(lia))).
    set (s1 := log_state _ _ _ _ _ _ _).
    assert (Hn1 : length (buf_log s1) = length (buf_log s)) by (cbn; by rewrite length_insert).
    destruct (IH s1 Hc Hf) as (s' & E1 & E2 & E3 & E6 & E4 & E5);
      [cbn; lia|cbn [s1 log_state set_buf_log bufsize set_bufsize]; lia
      |rewrite Hn1; cbn [s1 log_state set_buf_log bufsize set_bufsize]; lia|].
    replace (bufsize s1) with (bufsize s + 1) in * by done.
    exists s'. split_and!; [done|lia|congruence|done| |].
    + intros [|j] b Hj; cbn in Hj.
      * simplify_eq. rewrite E5 by lia. cbn.
        replace (Z.to_nat (bufsize s) + 1 + 0)%nat with (Z.to_nat (bufsize s + 1)) by lia.
        rewrite list_lookup_insert_eq by lia. by rewrite Nat.add_0_r.
      * replace (Z.to_nat (bufsize s) + 1 + S j)%nat with (Z.to_nat (bufsize s + 1) + 1 + j)%nat by lia.
        rewrite (E4 j b Hj). do 2 f_equal. cbn. lia.
    + intros j Hj. rewrite E5 by lia. cbn. by rewrite list_lookup_insert_ne by lia.
Qed.
End Writelog.

(** Closes [log_room n s'] and [log_eq s s'] when the states differ as they may. *)
Ltac room H := apply (log_room_fields _ _ _ H); unfold set_logs; pst; reflexivity.
Ltac same_log := apply log_eq_fields; unfold set_logs; pst; reflexivity.

(** ** [convert_to_hexa] *)

Definition hex_val (c : Z) : Z := if c <? 65 then c - 48 else c - 55.
(** The number a list of digits denotes, most significant first. *)
Definition hex_num (l : list Z) : Z := fold_left (fun a c => a * 16 + hex_val c) l 0.

Lemma hex_val_digit d : 0 <= d < 16 -> hex_val (hex_digit d) = d.
Proof. intros H. unfold hex_val, hex_digit. destruct (Z.ltb_spec d 10); case_match; lia. Qed.

(** The eight digits, computed from the right. *)
Fixpoint hexa_digits (k : nat) (n : Z) : list Z :=
  match k with
  | O => []
  | S k => hexa_digits k (n / 16) ++ [hex_digit (n mod 16)]
  end.

Lemma convert_to_hexa_digits n hex :
  length hex = 9%nat -> convert_to_hexa n hex = hexa_digits 8 n ++ [0].
Proof. intros H. do 10 (destruct hex as [|? hex]; try discriminate H). reflexivity. Qed.

Lemma hexa_digits_num k n : 0 <= n -> hex_num (hexa_digits k n) = n mod 16 ^ Z.of_nat k.
Proof.
  revert n. induction k as [|k IH]; intros n Hn; cbn [hexa_digits].
  - cbn. by rewrite Z.mod_1_r.
  - unfold hex_num in *. rewrite fold_left_app. cbn [fold_left]. rewrite IH by (apply Z.div_pos; lia).
    rewrite hex_val_digit by (apply Z.mod_pos_bound; lia).
    rewrite Nat2Z.inj_succ, Z.pow_succ_r by lia. rewrite Z.rem_mul_r by lia. lia.
Qed.

Lemma hexa_digits_chars k n c :
  0 <= n -> c ∈ hexa_digits k n -> 48 <= c <= 57 \/ 65 <= c <= 70.
Proof.
  revert n. induction k as [|k IH]; intros n Hn; cbn [hexa_digits]; [set_solver|].
  rewrite elem_of_app, list_elem_of_singleton. intros [H|H].
  - apply (IH (n / 16)); [by apply Z.div_pos; lia|done].
  - subst. unfold hex_digit. assert (0 <= n mod 16 < 16) by (apply Z.mod_pos_bound; lia).
    case_match; lia.
Qed.

(** ** What the log promises *)

(** C32 (functional).  Started with an empty log, a sequence of fewer than
    [BUFSIZE] recorded calls fills the entries 1, 2, ... in the order of the calls,
    one time stamp each, and leaves entry 0 as it was. *)
Theorem writelog_records {E} `{!KEnv E} (s : pstate E) i c evs :
  ctx_ok (pctx s) i c -> finished_fork s <> 0 -> bufsize s = 0 ->
  Z.of_nat (length (buf_log s)) = BUFSIZE ->
  Forall call_ok evs -> Z.of_nat (length evs) < BUFSIZE ->
  exists s', forM evs do_log s = Ret tt s' /\ bufsize s' = Z.of_nat (length evs) /\
    buf_log s' !! 0%nat = buf_log s !! 0%nat /\
    forall j a, evs !! j = Some a -> buf_log s' !! S j = Some (entry_of i (tsc_reads s + j) a).
Proof.
  intros Hc Hf Hb Hlen Hev Hlt.
  destruct (log_all s i c evs) as (s' & E1 & E2 & _ & _ & E4 & E5); try done; rewrite ?Hb; try lia.
  rewrite Hb in *. exists s'. split_and!; [done|lia|by apply E5|]. intros j a Hj. by apply (E4 j a).
Qed.

Definition demo_call (pid : Z) (e : events) : logcall :=
  mklogcall pid (bytes_of "bufwrite" ++ replicate 8 0) e RUNNABLE RUNNING.

Lemma demo_call_ok pid e : pid <> -1 -> call_ok (demo_call pid e).
Proof. intros H. split_and!; [done|done|cbn; lia]. Qed.

Lemma writelog_records_witness :
  exists s', forM [demo_call 7 TICK; demo_call 8 YIELD] do_log (set_finished_fork 1 demo_state) = Ret tt s' /\
    bufsize s' = 2 /\ buf_log s' !! 2%nat = Some (entry_of 0 1 (demo_call 8 YIELD)).
Proof.
  destruct (writelog_records (set_finished_fork 1 demo_state) 0 demo_cpu0 [demo_call 7 TICK; demo_call 8 YIELD])
    as (s' & H1 & H2 & _ & H4).
  - exact demo_ctx_ok.
  - done.
  - done.
  - done.
  - repeat constructor; by apply demo_call_ok.
  - done.
  - exists s'. split_and!; [done|done|]. exact (H4 1%nat _ eq_refl).
Defined.

(** The [BUFSIZE]-th recorded call passes the bound check and stores
    to [buf_log[BUFSIZE]], past the end of the array. *)
Theorem writelog_overflow {E} `{!KEnv E} (s : pstate E) i c evs :
  ctx_ok (pctx s) i c -> finished_fork s <> 0 -> bufsize s = 0 ->
  Z.of_nat (length (buf_log s)) = BUFSIZE ->
  Forall call_ok evs -> Z.of_nat (length evs) = BUFSIZE ->
  forM evs do_log s = UB "buf_log out of range".
Proof.
  intros Hc Hf Hb Hlen Hev Hn. unfold BUFSIZE in *. destruct (exists_last (l := evs)) as (evs' & a & ->).
  { by intros ->. }
  rewrite length_app in Hn; cbn in Hn. apply Forall_app in Hev as [Hev (Ha & Hp & _)%Forall_singleton].
  destruct (log_all s i c evs') as (s' & E1 & E2 & E3 & E6 & _); try done; unfold BUFSIZE; rewrite ?Hb; try lia.
  rewrite (forM_app_Ret _ _ _ _ _ E1). cbn [forM]. unfold bind, do_log. rewrite writelog_logged.
  - destruct (Z.leb_spec BUFSIZE (bufsize s')); [unfold BUFSIZE in *; lia|].
    by destruct (Z.ltb_spec (bufsize s' + 1) (Z.of_nat (length (buf_log s')))); [lia|].
  - split; [by rewrite E6|done].
Qed.

Lemma writelog_overflow_witness :
  forM (replicate 500 (demo_call 7 TICK)) do_log (set_finished_fork 1 demo_state) =
  UB "buf_log out of range".
Proof.
  apply (writelog_overflow (set_finished_fork 1 demo_state) 0 demo_cpu0).
  - exact demo_ctx_ok.
  - done.
  - done.
  - done.
  - apply Forall_replicate. by apply demo_call_ok.
  - done.
Defined.

(** [convert_to_hexa] writes eight upper-case hexadecimal digits
    and a NUL; read back as a number, the digits are the argument. *)
Theorem convert_to_hexa_roundtrip n hex :
  length hex = 9%nat -> is_u32 n ->
  exists d, convert_to_hexa n hex = d ++ [0] /\ length d = 8%nat /\ hex_num d = n /\
    forall c, c ∈ d -> 48 <= c <= 57 \/ 65 <= c <= 70.
Proof.
  intros Hl Hn. unfold is_u32 in Hn. exists (hexa_digits 8 n). split_and!.
  - by apply convert_to_hexa_digits.
  - done.
  - rewrite hexa_digits_num by lia. apply Z.mod_small. lia.
  - intros c. apply hexa_digits_chars. lia.
Qed.

Lemma convert_to_hexa_roundtrip_witness :
  exists d, convert_to_hexa 0xdeadbeef (replicate 9 0) = d ++ [0] /\ length d = 8%nat /\
    hex_num d = 0xdeadbeef /\ forall c, c ∈ d -> 48 <= c <= 57 \/ 65 <= c <= 70.
Proof. apply (convert_to_hexa_roundtrip 0xdeadbeef (replicate 9 0)); [done|by split]. Defined.
