(* ===== verification/Proc.v ===== *)
(** * Processes and scheduling

    Models the process life cycle of [proc.c]: [allocproc], [userinit],
    [growproc], [fork], [exit], [wait], [scheduler] (both scheduling loops),
    [sched], [yield], [forkret], [sleep], [wakeup1], [wakeup] and [kill].  The
    flag [multi] is the compile-time switch [IS_MULTIPLE_RUNQUEUE].

    A [swtch] ends the run of one kernel thread until another one switches back
    to it: the outcome [Swtch s k] carries the state [s] it leaves behind and the
    rest [k] of the thread, which is resumed on whatever state it finds then.  The
    saved registers and the kernel stack are the continuation [k]. *)

From Stdlib Require Import ZArith Lia.
From S2P Require Import Prelude Spinlock ProcDefs Runqueue Strings Schedlog.

Definition PGSIZE : Z := 4096.
Definition SEG_UCODE : Z := 3.
Definition SEG_UDATA : Z := 4.
Definition DPL_USER : Z := 3.
Definition FL_IF : Z := 0x200.

(** Sizes of [struct trapframe] and [struct context]. *)
Definition sizeof_trapframe : Z := 76.
Definition sizeof_context : Z := 20.

Definition pp (o : option nat) : pptr := match o with Some i => PProc i | None => PNull end.
Definition is_state (st : procstate) (p : proc) : bool := bool_decide (p_state p = st).

(** The first slot from [i] on whose process satisfies [P]. *)
Fixpoint find_proc (P : proc -> bool) (ps : list proc) (i : nat) : option nat :=
  match ps with
  | [] => None
  | p :: ps => if P p then Some i else find_proc P ps (S i)
  end.

Section Proc.
Context {E : Type} `{!KEnv E}.
Variable multi : bool.
Implicit Types s : pstate E.

Definition swtch : M (pstate E) unit := fun s => Swtch s (fun s' => Ret tt s').

(** The calls [writelog(-1, "test", PTABLE_LOCK, a, b)]. *)
Definition lock_event (a b : procstate) : M (pstate E) unit :=
  writelog (-1) (cstr "test") PTABLE_LOCK a b.

(** [writelog(p->pid, p->name, ev, p->state, next)] *)
Definition proc_event (p : pptr) (ev : events) (next : procstate) : M (pstate E) unit :=
  pid <- pread p_pid p ;;
  nm <- pread p_name p ;;
  st <- pread p_state p ;;
  writelog pid nm ev st next.

Definition pinit : M (pstate E) unit := onctx (initlock ptable_lock).

Definition allocproc : M (pstate E) (option nat) :=
  onctx (acquire ptable_lock) ;;
  lock_event RELEASED ACQUIRED ;;
  o <- gets (fun s => find_proc (is_state UNUSED) (procs s) 0) ;;
  match o with
  | None =>
      lock_event ACQUIRED RELEASED ;;
      onctx (release ptable_lock) ;;
      ret None
  | Some i =>
      let p := PProc i in
      pid <- gets nextpid ;;
      (if pid =? 2 ^ 31 - 1 then ub "nextpid overflow" else modify (set_nextpid (pid + 1))) ;;
      pwrite (set_p_pid pid) p ;;
      proc_event p ALLOCPROC EMBRYO ;;
      pwrite (set_p_state EMBRYO) p ;;
      lock_event ACQUIRED RELEASED ;;
      onctx (release ptable_lock) ;;
      ks <- onenv k_kalloc ;;
      pwrite (set_p_kstack ks) p ;;
      if ks =? 0 then (pwrite (set_p_state UNUSED) p ;; ret None) else
      let sp := ks + KSTACKSIZE - sizeof_trapframe in
      pwrite (set_p_tf sp) p ;;
      let sp := sp - 4 in
      pwrite (set_p_kret trapret_addr) p ;;
      let sp := sp - sizeof_context in
      pwrite (set_p_context sp) p ;;
      pwrite (set_p_ctxc zero_context) p ;;
      pwrite (fun q => set_p_ctxc (mkcontext (c_edi (p_ctxc q)) (c_esi (p_ctxc q))
                (c_ebx (p_ctxc q)) (c_ebp (p_ctxc q)) forkret_addr) q) p ;;
      ret (Some i)
  end.

(** [safestrcpy(p->name, src, sizeof(p->name))] *)
Definition set_name (src : list Z) (p : pptr) : M (pstate E) unit :=
  nm <- pread p_name p ;;
  match safestrcpy_field nm src 16 with
  | Some nm' => pwrite (set_p_name nm') p
  | None => ub "safestrcpy out of bounds"
  end.

Definition upd_tf (f : trapframe -> trapframe) (p : pptr) : M (pstate E) unit :=
  pwrite (fun q => set_p_tfc (f (p_tfc q)) q) p.

Definition userinit : M (pstate E) unit :=
  o <- allocproc ;;
  let p := pp o in
  modify (set_initproc o) ;;
  pg <- onenv k_setupkvm ;;
  pwrite (set_p_pgdir pg) p ;;
  if pg =? 0 then panic "userinit: out of memory?" else
  onenv (k_inituvm pg) ;;
  pwrite (set_p_sz PGSIZE) p ;;
  upd_tf (fun _ => zero_tf) p ;;
  upd_tf (set_tf_cs (Z.lor (Z.shiftl SEG_UCODE 3) DPL_USER)) p ;;
  upd_tf (set_tf_ds (Z.lor (Z.shiftl SEG_UDATA 3) DPL_USER)) p ;;
  upd_tf (fun t => set_tf_es (tf_ds t) t) p ;;
  upd_tf (fun t => set_tf_ss (tf_ds t) t) p ;;
  upd_tf (set_tf_eflags FL_IF) p ;;
  upd_tf (set_tf_esp PGSIZE) p ;;
  upd_tf (set_tf_eip 0) p ;;
  set_name (cstr "initcode") p ;;
  cwd <- onenv (k_namei (cstr "/")) ;;
  pwrite (set_p_cwd cwd) p ;;
  lock_event RELEASED ACQUIRED ;;
  onctx (acquire ptable_lock) ;;
  pwrite (set_p_state RUNNABLE) p ;;
  c <- onctx mycpuid ;;
  onctx (acquire (rq_lock c)) ;;
  enqueue c p ;;
  onctx (release (rq_lock c)) ;;
  lock_event ACQUIRED RELEASED ;;
  onctx (release ptable_lock).

Definition growproc (n : Z) : M (pstate E) Z :=
  cur <- onctx myproc ;;
  let curproc := pp cur in
  sz <- pread p_sz curproc ;;
  pg <- pread p_pgdir curproc ;;
  sz' <- (if 0 <? n then onenv (k_allocuvm pg sz (u32 (sz + n)))
          else if n <? 0 then onenv (k_deallocuvm pg sz (u32 (sz + n)))
          else ret sz) ;;
  if negb (n =? 0) && (sz' =? 0) then ret (-1) else
  pwrite (set_p_sz sz') curproc ;;
  p <- pread id curproc ;;
  onenv (k_switchuvm p) ;;
  ret 0.

(** [clock_log[pid][j] = rdtsc()] *)
Definition stamp (pid : Z) (j : nat) : M (pstate E) unit :=
  cl <- rdtsc ;;
  log <- gets clock_log ;;
  if (pid <? 0) || (Z.of_nat (length log) <=? pid) then ub "clock_log out of range" else
  modify (set_clock_log (alter (fun '(a, b, c) =>
    match j with O => (cl, b, c) | 1%nat => (a, cl, c) | _ => (a, b, cl) end) (Z.to_nat pid) log)).

(** The first queue of minimal size, below [NPROC]. *)
Fixpoint min_seek (cs : list nat) (target : option nat) (min_rqsize : Z) : M (pstate E) (option nat) :=
  match cs with
  | [] => ret target
  | i :: cs =>
      n <- get_rqsize i ;;
      if n <? min_rqsize then min_seek cs (Some i) n else min_seek cs target min_rqsize
  end.

Definition enqueue_smallest (np : pptr) : M (pstate E) unit :=
  n <- gets ncpu ;;
  target <- min_seek (seq 0 n) None NPROC ;;
  match target with
  | None => panic "target not exist"
  | Some t =>
      onctx (acquire (rq_lock t)) ;;
      enqueue t np ;;
      onctx (release (rq_lock t))
  end.

(** Read of an array element of the descriptor table. *)
Definition ofile (p : pptr) (fd : nat) : M (pstate E) Z :=
  l <- pread p_ofile p ;;
  match l !! fd with Some f => ret f | None => ub "ofile out of range" end.

Definition dup_file (cur np : pptr) (i : nat) : M (pstate E) unit :=
  f <- ofile cur i ;;
  when (negb (f =? 0)) (
    f' <- onenv (k_filedup f) ;;
    pwrite (fun q => set_p_ofile (<[i := f']> (p_ofile q)) q) np).

Definition fork : M (pstate E) Z :=
  cur <- onctx myproc ;;
  let curproc := pp cur in
  o <- allocproc ;;
  match o with
  | None => ret (-1)
  | Some i =>
      let np := PProc i in
      pg0 <- pread p_pgdir curproc ;;
      sz0 <- pread p_sz curproc ;;
      pg <- onenv (k_copyuvm pg0 sz0) ;;
      pwrite (set_p_pgdir pg) np ;;
      if pg =? 0 then
        ks <- pread p_kstack np ;;
        onenv (k_kfree ks) ;;
        pwrite (set_p_kstack 0) np ;;
        pwrite (set_p_state UNUSED) np ;;
        ret (-1)
      else
      sz <- pread p_sz curproc ;;
      pwrite (set_p_sz sz) np ;;
      pwrite (set_p_parent cur) np ;;
      tf <- pread p_tfc curproc ;;
      pwrite (set_p_tfc tf) np ;;
      upd_tf (set_tf_eax 0) np ;;
      forM (seq 0 16) (dup_file curproc np) ;;
      cwd <- pread p_cwd curproc ;;
      cwd' <- onenv (k_idup cwd) ;;
      pwrite (set_p_cwd cwd') np ;;
      nm <- pread p_name curproc ;;
      set_name nm np ;;
      pid <- pread p_pid np ;;
      npid <- pread p_pid np ;;
      stamp npid 0 ;;
      lock_event RELEASED ACQUIRED ;;
      onctx (acquire ptable_lock) ;;
      proc_event np FORK RUNNABLE ;;
      pwrite (set_p_state RUNNABLE) np ;;
      when multi (enqueue_smallest np) ;;
      onctx (release ptable_lock) ;;
      lock_event ACQUIRED RELEASED ;;
      ret pid
  end.

(** ** Giving up the CPU *)

Definition sched : M (pstate E) unit :=
  p <- onctx myproc ;;
  h <- onctx (holding ptable_lock) ;;
  if negb h then panic "sched ptable.lock" else
  n <- onctx (i <- mycpu ;; get_cpu ncli i) ;;
  if negb (n =? 1) then panic "sched locks" else
  st <- pread p_state (pp p) ;;
  if bool_decide (st = RUNNING) then panic "sched running" else
  b <- gets (fun s => eflags_IF (pctx s)) ;;
  if (b : bool) then panic "sched interruptible" else
  ie <- onctx (i <- mycpu ;; get_cpu intena i) ;;
  if multi then
    curcpu <- onctx mycpu ;;
    lock_event ACQUIRED RELEASED ;;
    onctx (release ptable_lock) ;;
    swtch ;;
    lock_event RELEASED ACQUIRED ;;
    onctx (acquire ptable_lock) ;;
    onctx (upd_cpu (set_intena ie) curcpu)
  else
    onctx mycpu ;;
    swtch ;;
    i <- onctx mycpu ;;
    onctx (upd_cpu (set_intena ie) i).

(** The current CPU's queue takes [p], with the queue's lock. *)
Definition enqueue_here (p : pptr) : M (pstate E) unit :=
  c <- onctx mycpuid ;;
  onctx (acquire (rq_lock c)) ;;
  enqueue c p ;;
  onctx (release (rq_lock c)).

Definition yield : M (pstate E) unit :=
  cur <- onctx myproc ;;
  let curproc := pp cur in
  proc_event curproc YIELD RUNNABLE ;;
  lock_event RELEASED ACQUIRED ;;
  onctx (acquire ptable_lock) ;;
  when multi (enqueue_here curproc) ;;
  pwrite (set_p_state RUNNABLE) curproc ;;
  sched ;;
  lock_event ACQUIRED RELEASED ;;
  onctx (release ptable_lock).

Definition forkret : M (pstate E) unit :=
  when (negb multi) (
    lock_event ACQUIRED RELEASED ;;
    onctx (release ptable_lock)) ;;
  f <- gets first ;;
  when (negb (f =? 0)) (
    modify (set_first 0) ;;
    onenv (k_iinit ROOTDEV) ;;
    onenv (k_initlog ROOTDEV)).

(** [lk] is [None] for the null pointer. *)
Definition sleep (ch : chan) (lk : option lockid) : M (pstate E) unit :=
  cur <- onctx myproc ;;
  match cur, lk with
  | None, _ => panic "sleep"
  | _, None => panic "sleep without lk"
  | Some i, Some l =>
      let p := PProc i in
      when (negb (bool_decide (l = ptable_lock))) (
        lock_event RELEASED ACQUIRED ;;
        onctx (acquire ptable_lock) ;;
        onctx (release l)) ;;
      pwrite (set_p_chan (Some ch)) p ;;
      proc_event p SLEEP SLEEPING ;;
      pwrite (set_p_state SLEEPING) p ;;
      sched ;;
      pwrite (set_p_chan None) p ;;
      when (negb (bool_decide (l = ptable_lock))) (
        lock_event ACQUIRED RELEASED ;;
        onctx (release ptable_lock) ;;
        onctx (acquire l))
  end.

(** ** Waking up *)

Definition wake_one (ch : option chan) (i : nat) : M (pstate E) unit :=
  let p := PProc i in
  st <- pread p_state p ;;
  c <- pread p_chan p ;;
  when (bool_decide (st = SLEEPING) && bool_decide (c = ch)) (
    proc_event p WAKEUP RUNNABLE ;;
    when multi (enqueue_here p) ;;
    pwrite (set_p_state RUNNABLE) p).

Definition wakeup1 (ch : option chan) : M (pstate E) unit :=
  n <- gets nproc ;;
  forM (seq 0 n) (wake_one ch).

Definition wakeup (ch : option chan) : M (pstate E) unit :=
  h <- onctx (holding ptable_lock) ;;
  if (h : bool) then panic "already locked!" else
  lock_event RELEASED ACQUIRED ;;
  onctx (acquire ptable_lock) ;;
  wakeup1 ch ;;
  lock_event ACQUIRED RELEASED ;;
  onctx (release ptable_lock).

Definition kill (pid : Z) : M (pstate E) Z :=
  lock_event RELEASED ACQUIRED ;;
  onctx (acquire ptable_lock) ;;
  o <- gets (fun s => find_proc (fun p => p_pid p =? pid) (procs s) 0) ;;
  match o with
  | Some i =>
      let p := PProc i in
      pwrite (set_p_killed 1) p ;;
      st <- pread p_state p ;;
      when (bool_decide (st = SLEEPING)) (pwrite (set_p_state RUNNABLE) p) ;;
      lock_event ACQUIRED RELEASED ;;
      onctx (release ptable_lock) ;;
      ret 0
  | None =>
      lock_event ACQUIRED RELEASED ;;
      onctx (release ptable_lock) ;;
      ret (-1)
  end.

(** ** [exit] and [wait] *)

(** A process pointer used as a sleep channel. *)
Definition chan_of (o : option nat) : option chan := proc_chan <$> o.

Definition close_file (cur : pptr) (fd : nat) : M (pstate E) unit :=
  f <- ofile cur fd ;;
  when (negb (f =? 0)) (
    onenv (k_fileclose f) ;;
    pwrite (fun q => set_p_ofile (<[fd := 0]> (p_ofile q)) q) cur).

Definition reparent_one (cur : option nat) (i : nat) : M (pstate E) unit :=
  let p := PProc i in
  par <- pread p_parent p ;;
  when (bool_decide (par = cur)) (
    ip <- gets initproc ;;
    pwrite (set_p_parent ip) p ;;
    st <- pread p_state p ;;
    when (bool_decide (st = ZOMBIE)) (ip <- gets initproc ;; wakeup1 (chan_of ip))).

Definition exit : M (pstate E) unit :=
  cur <- onctx myproc ;;
  let curproc := pp cur in
  ip <- gets initproc ;;
  if bool_decide (cur = ip) then panic "init exiting" else
  forM (seq 0 16) (close_file curproc) ;;
  onenv k_begin_op ;;
  cwd <- pread p_cwd curproc ;;
  onenv (k_iput cwd) ;;
  onenv k_end_op ;;
  pwrite (set_p_cwd 0) curproc ;;
  lock_event RELEASED ACQUIRED ;;
  onctx (acquire ptable_lock) ;;
  par <- pread p_parent curproc ;;
  wakeup1 (chan_of par) ;;
  n <- gets nproc ;;
  forM (seq 0 n) (reparent_one cur) ;;
  pid <- pread p_pid curproc ;;
  stamp pid 2 ;;
  proc_event curproc EXIT ZOMBIE ;;
  pwrite (set_p_state ZOMBIE) curproc ;;
  sched ;;
  panic "zombie exit".

Definition reap (i : nat) : M (pstate E) Z :=
  let p := PProc i in
  proc_event p WAIT UNUSED ;;
  pid <- pread p_pid p ;;
  ks <- pread p_kstack p ;;
  onenv (k_kfree ks) ;;
  pwrite (set_p_kstack 0) p ;;
  pg <- pread p_pgdir p ;;
  onenv (k_freevm pg) ;;
  pwrite (set_p_pid 0) p ;;
  pwrite (set_p_parent None) p ;;
  lock_event ACQUIRED RELEASED ;;
  pwrite (fun q => set_p_name (<[0%nat := 0]> (p_name q)) q) p ;;
  pwrite (set_p_killed 0) p ;;
  pwrite (set_p_state UNUSED) p ;;
  onctx (release ptable_lock) ;;
  ret pid.

(** One scan of the table: the pid of the child that was reaped, if there was a
    zombie, and whether there are children. *)
Fixpoint wait_scan (cur : option nat) (slots : list nat) (havekids : bool) : M (pstate E) (bool * option Z) :=
  match slots with
  | [] => ret (havekids, None)
  | i :: slots =>
      par <- pread p_parent (PProc i) ;;
      if negb (bool_decide (par = cur)) then wait_scan cur slots havekids else
      st <- pread p_state (PProc i) ;;
      if bool_decide (st = ZOMBIE) then pid <- reap i ;; ret (true, Some pid)
      else wait_scan cur slots true
  end.

(** [for (;;)], one unit of fuel per wake-up. *)
Fixpoint wait_loop (fuel : nat) (cur : option nat) : M (pstate E) Z :=
  match fuel with
  | O => nofuel
  | S fuel =>
      n <- gets nproc ;;
      r <- wait_scan cur (seq 0 n) false ;;
      match r with
      | (_, Some pid) => ret pid
      | (havekids, None) =>
          killed <- pread p_killed (pp cur) ;;
          if negb havekids || negb (killed =? 0) then
            lock_event ACQUIRED RELEASED ;;
            onctx (release ptable_lock) ;;
            ret (-1)
          else
            match cur with
            | None => ub "wait without a process"
            | Some c => sleep (proc_chan c) (Some ptable_lock) ;; wait_loop fuel cur
            end
      end
  end.

Definition wait (fuel : nat) : M (pstate E) Z :=
  cur <- onctx myproc ;;
  lock_event RELEASED ACQUIRED ;;
  onctx (acquire ptable_lock) ;;
  wait_loop fuel cur.

(** ** [scheduler] *)

(** The part both loops share: [c->proc = p] to [c->proc = 0]. *)
Definition first_run (p : pptr) : M (pstate E) unit :=
  pid <- pread p_pid p ;;
  fr <- gets isnot_first_running ;;
  match (if 0 <=? pid then fr !! Z.to_nat pid else None) with
  | None => ub "isnot_first_running out of range"
  | Some v =>
      when (v =? 0) (
        stamp pid 1 ;;
        modify (fun s => set_isnot_first_running (<[Z.to_nat pid := 1]> (isnot_first_running s)) s))
  end.

Definition run_proc (c i : nat) : M (pstate E) unit :=
  let p := PProc i in
  onctx (upd_cpu (set_cproc (Some i)) c) ;;
  q <- pread id p ;;
  onenv (k_switchuvm q) ;;
  first_run p ;;
  proc_event p TICK RUNNING ;;
  pwrite (set_p_state RUNNING) p ;;
  swtch ;;
  onenv k_switchkvm ;;
  onctx (upd_cpu (set_cproc None) c).

(** One turn of [while (IS_MULTIPLE_RUNQUEUE)]. *)
Definition multi_turn (c cur_rq : nat) : M (pstate E) unit :=
  onctx sti ;;
  onctx (acquire (rq_lock cur_rq)) ;;
  size <- get_rqsize cur_rq ;;
  if size =? 0 then
    work_steal cur_rq ;;
    onctx (release (rq_lock cur_rq))
  else
    p <- dequeue cur_rq ;;
    onctx (release (rq_lock cur_rq)) ;;
    match p with
    | PProc i => run_proc c i
    | _ => ub "a queue head was dequeued"
    end.

(** One turn of [while (IS_ROUNDROBIN)]. *)
Definition rr_visit (c i : nat) : M (pstate E) unit :=
  st <- pread p_state (PProc i) ;;
  when (bool_decide (st = RUNNABLE)) (run_proc c i).

Definition rr_turn (c : nat) : M (pstate E) unit :=
  onctx sti ;;
  lock_event RELEASED ACQUIRED ;;
  onctx (acquire ptable_lock) ;;
  n <- gets nproc ;;
  forM (seq 0 n) (rr_visit c) ;;
  lock_event ACQUIRED RELEASED ;;
  onctx (release ptable_lock).

(** The scheduler never returns; [fuel] turns of it are run. *)
Fixpoint turns (fuel : nat) (m : M (pstate E) unit) : M (pstate E) unit :=
  match fuel with
  | O => nofuel
  | S fuel => m ;; turns fuel m
  end.

Definition scheduler (fuel : nat) : M (pstate E) unit :=
  c <- onctx mycpu ;;
  onctx (upd_cpu (set_cproc None) c) ;;
  cur_rq <- onctx mycpuid ;;
  turns fuel (if multi then multi_turn c cur_rq else rr_turn c).
End Proc.
