(* ===== verification/ProcSpec.v ===== *)
(** * What the process component promises

    Theorems about the definitions of [Proc.v]: what each operation does to
    the process table, to the locks and to the CPU it runs on.  States are
    compared up to the event log ([log_eq]); [log_room n] says that the log can
    take [n] more events. *)

From Stdlib Require Import ZArith Lia.
From S2P Require Import Prelude Spinlock ProcDefs Runqueue Strings Schedlog Proc.

Section Rules.
Context {E : Type} `{!KEnv E}.
Implicit Types s : pstate E.

(** Every name is a 16-byte array. *)
Definition names_ok s : Prop := Forall (fun p => length (p_name p) = 16%nat) (procs s).

Lemma names_at s i p : names_ok s -> procs s !! i = Some p -> length (p_name p) = 16%nat.
Proof. intros H Hi. by apply (Forall_lookup_1 _ _ _ _ H Hi). Qed.

Lemma names_insert s i p :
  names_ok s -> length (p_name p) = 16%nat -> names_ok (set_procs (<[i := p]> (procs s)) s).
Proof. intros H Hp. by apply Forall_insert. Qed.

Lemma wp_lock_event s a b Q W : Q tt s -> wp (lock_event a b s) Q W.
Proof. intros H. eapply wp_eq; [apply writelog_lock|done]. Qed.

Lemma wp_proc_event s i p ev nx c cp n Q W :
  procs s !! i = Some p -> length (p_name p) = 16%nat -> ctx_ok (pctx s) c cp -> log_room (S n) s ->
  (forall s', log_eq s s' -> log_room n s' -> Q tt s') ->
  wp (proc_event (PProc i) ev nx s) Q W.
Proof.
  intros Hp Hn Hc Hr HQ. unfold proc_event.
  do 3 (apply wp_step; eapply wp_pread; [done|]). by eapply wp_writelog.
Qed.

Lemma log_room_procs n s v : log_room n s -> log_room n (set_procs v s).
Proof. done. Qed.
End Rules.

(** One step of a proof: the head of the program is run by the rule [lem]. *)
Tactic Notation "go" uconstr(lem) := apply wp_step; eapply lem.

Section Wakeup.
Context {E : Type} `{!KEnv E}.
Implicit Types s : pstate E.

(** What [wakeup1] does to one process. *)
Definition wakes (ch : option chan) (p : proc) : bool :=
  bool_decide (p_state p = SLEEPING) && bool_decide (p_chan p = ch).
Definition wake (ch : option chan) (p : proc) : proc :=
  if wakes ch p then set_p_state RUNNABLE p else p.

(** The number of processes a [wakeup1] wakes, and so of events it logs. *)
Definition nwakes (ch : option chan) (ps : list proc) : nat := length (List.filter (wakes ch) ps).

Lemma nwakes_drop ch ps j p :
  ps !! j = Some p -> nwakes ch (drop j ps) = ((if wakes ch p then 1 else 0) + nwakes ch (drop (S j) ps))%nat.
Proof. intros H. unfold nwakes. rewrite (drop_S _ _ _ H). cbn. by destruct (wakes ch p). Qed.

Lemma wp_wake_one s ch j p c cp n :
  procs s !! j = Some p -> length (p_name p) = 16%nat -> ctx_ok (pctx s) c cp ->
  log_room ((if wakes ch p then 1 else 0) + n) s ->
  wp (wake_one false ch j s)
    (fun _ s' => log_eq (set_procs (<[j := wake ch p]> (procs s)) s) s' /\ log_room n s') stays.
Proof.
  intros Hp Hn Hc Hr. unfold wake_one. go wp_pread; [done|]. go wp_pread; [done|].
  unfold wake, wakes in *. destruct (bool_decide _ && bool_decide _); cbn [when Nat.add] in *.
  - go wp_proc_event; [done..|]. intros t Ht Hr'. apply wp_step. cbn.
    eapply wp_pwrite; [by rewrite <- Ht|]. split; [|done]. by rewrite <- Ht.
  - cbn. rewrite list_insert_id by done. split; [|done]. by rewrite set_procs_id.
Qed.

Lemma wake_name ch p : p_name (wake ch p) = p_name p.
Proof. unfold wake. by destruct (wakes ch p). Qed.

Lemma wp_wakeup1 s ch c cp n :
  names_ok s -> ctx_ok (pctx s) c cp -> log_room (nwakes ch (procs s) + n) s ->
  wp (wakeup1 false ch s)
    (fun _ s' => log_eq (set_procs (wake ch <$> procs s) s) s' /\ log_room n s') stays.
Proof.
  intros Hn Hc Hr. unfold wakeup1. apply wp_step. cbn [wp gets].
  eapply wp_mono; [apply (wp_forM _ _ (fun j t =>
    log_eq (set_procs (mapto (wake ch) j (procs s)) s) t /\ log_room (nwakes ch (drop j (procs s)) + n) t))| |done].
  - split; [by rewrite mapto_0, set_procs_id|]. by rewrite drop_0.
  - intros j i t Hj [Ht Hrt]. apply lookup_seq in Hj as [-> Hj].
    destruct (lookup_lt_is_Some_2 (procs s) j Hj) as [p Hp]. rewrite (nwakes_drop _ _ _ _ Hp), <- Nat.add_assoc in Hrt.
    eapply wp_mono; [apply (wp_wake_one t ch (0 + j) p c cp (nwakes ch (drop (S j) (procs s)) + n))| |done].
    + rewrite <- Ht. cbn. by rewrite mapto_at.
    + by eapply names_at.
    + by rewrite <- Ht.
    + done.
    + cbn. intros _ t' [Ht' Hr']. split; [|done]. rewrite <- Ht', <- Ht. cbn.
      by rewrite (mapto_step _ _ _ _ Hp).
  - cbn. rewrite length_seq. unfold nproc at 1. rewrite mapto_all. intros _ t [Ht Hrt]. split; [done|].
    unfold nproc in Hrt. by rewrite drop_all in Hrt.
Qed.

Lemma wake_wakes ch p : wakes ch (wake ch p) = false.
Proof.
  unfold wake. destruct (wakes ch p) eqn:Hw; [|done]. unfold wakes; cbn.
  by rewrite bool_decide_eq_false_2.
Qed.

Lemma nwakes_wake ch ps : nwakes ch (wake ch <$> ps) = 0%nat.
Proof.
  induction ps as [|p ps IH]; [done|]. unfold nwakes in *. cbn. by rewrite wake_wakes.
Qed.

Lemma wake_idem ch p : wake ch (wake ch p) = wake ch p.
Proof. unfold wake at 1. by rewrite wake_wakes. Qed.
End Wakeup.

(** ** [sched] and [sleep] *)

Section Sleep.
Context {E : Type} `{!KEnv E}.
Implicit Types s : pstate E.

Lemma wp_get_cpu {A} (f : cpu -> A) s i c Q W :
  ctx_ok (pctx s) i c -> 0 < ncli c -> Q (f c) s -> wp (onctx (j <- mycpu ;; get_cpu f j) s) Q W.
Proof.
  intros Hc Hn. apply wp_eq. apply (@onctx_same _ pstate_ctx). cbn.
  rewrite (bind_Ret _ _ _ _ _ (mycpu_ok _ _ _ (proj1 Hc) (proj1 (proj2 (proj2 Hc)) Hn))).
  apply get_cpu_ok, Hc.
Qed.

Lemma wp_mycpu s i c Q W :
  ctx_ok (pctx s) i c -> 0 < ncli c -> Q i s -> wp (onctx mycpu s) Q W.
Proof.
  intros Hc Hn. apply wp_eq. apply (@onctx_same _ pstate_ctx). apply (mycpu_ok _ _ _ (proj1 Hc)).
  by apply Hc.
Qed.

(** The rest of a thread that called [sched] on a CPU with interrupt state [ie]. *)
Definition resumes (ie : bool) (k : pstate E -> res (pstate E) unit) : Prop :=
  forall t i k' c', pctx t = k_acq ptable_lock i k' -> ctx_ok k' i c' -> ncli c' = 0 ->
    k t = Ret tt (set_pctx (k_acq ptable_lock i (k_settle i ie k')) t).

(** [sched] with its preconditions met: the CPU goes to another thread with
    [ptable.lock] held, and the thread goes on with its own interrupt state. *)
Lemma wp_sched s k i c p q Q :
  pctx s = k_acq ptable_lock i k -> ctx_ok k i c -> ncli c = 0 -> cproc c = Some p ->
  procs s !! p = Some q -> p_state q <> RUNNING ->
  wp (sched false s) Q (fun s1 kk => s1 = s /\ resumes (eflags_IF k) kk).
Proof.
  intros Hk Hc Hn Hp Hq Hst. assert (Hc1 := ctx_ok_acq _ _ _ ptable_lock Hc). rewrite <- Hk in Hc1.
  assert (Hpos : 0 < ncli (push_cpu (eflags_IF k) c)) by (cbn; lia).
  unfold sched. go wp_myproc; [done|]. cbn [cproc push_cpu]. rewrite Hp.
  go wp_holding; [done|rewrite Hk; apply lk_get_acq|].
  rewrite held_by_taken, bool_decide_eq_true_2 by done. cbn [negb].
  go wp_get_cpu; [done..|]. cbn [ncli push_cpu]. rewrite Hn. cbn [negb Z.eqb Z.add].
  go wp_pread; [done|]. rewrite bool_decide_eq_false_2 by done.
  apply wp_step. cbn [wp gets]. rewrite (proj1 (proj2 (proj2 Hc1)) Hpos).
  go wp_get_cpu; [done..|]. cbn [intena push_cpu]. rewrite Hn. cbn [Z.eqb].
  go wp_mycpu; [done..|]. apply wp_bind. cbn [wp swtch]. split; [done|].
  intros t j k' c' Ht Hc' Hn'. cbn [rbind]. assert (Hc2 := ctx_ok_acq _ _ _ ptable_lock Hc').
  assert (Hm : mycpu (pctx t) = Ret j (pctx t)).
  { rewrite Ht. apply (mycpu_ok _ _ _ (proj1 Hc2)). done. }
  rewrite (bind_Ret _ _ _ _ _ (@onctx_same _ pstate_ctx _ _ _ _ Hm)).
  unfold onctx, upd_cpu, modify. cbn. rewrite Ht, (k_acq_settle _ _ _ _ _ Hc' Hn'). done.
Qed.

Lemma wp_release_swap l l' s k i c Q W :
  pctx s = k_acq l' i (k_acq l i k) -> ctx_ok k i c -> locks k !! l = None -> l <> l' ->
  Q tt (set_pctx (k_acq l' i k) s) -> wp (onctx (release l) s) Q W.
Proof.
  intros Hk Hc Hl Hne. apply wp_eq. apply (@onctx_Ret _ pstate_ctx). cbn. rewrite Hk.
  by apply (rel_swap_ok _ _ c).
Qed.

(** The rest of a thread asleep in [sleep(chan, lk)] in slot [p]. *)
Definition wakes_up (p : nat) (l : lockid) (ie : bool) (k : pstate E -> res (pstate E) unit) : Prop :=
  forall t i k' c' q, pctx t = k_acq ptable_lock i k' -> ctx_ok k' i c' -> ncli c' = 0 ->
    locks k' !! ptable_lock = None -> locks k' !! l = None -> procs t !! p = Some q ->
    k t = Ret tt (set_pctx (k_acq l i (k_settle i ie k'))
                   (set_procs (<[p := set_p_chan None q]> (procs t)) t)).

Lemma sleep_resume p l ie kk :
  l <> ptable_lock -> resumes ie kk ->
  wakes_up p l ie (fun t => rbind (kk t) (fun _ => pwrite (set_p_chan None) (PProc p) ;;
    lock_event ACQUIRED RELEASED ;; onctx (release ptable_lock) ;; onctx (acquire l))).
Proof.
  intros Hl Hk t i k' c' q Ht Hc Hn Hp Hl' Hq. rewrite (Hk t i k' c') by done. cbn [rbind].
  assert (Hc1 := ctx_ok_settle _ _ _ ie Hc Hn).
  eapply bind_wp; [eapply wp_pwrite; [exact Hq|done]|]. cbn [procs set_pctx].
  eapply bind_wp; [by apply wp_lock_event|].
  eapply bind_wp; [eapply wp_release; [done|exact Hc1|done|done]|].
  match goal with |- onctx _ ?s = _ => pose proof (wp_acquire l s i _
    (fun _ t' => t' = set_pctx (k_acq l i (pctx s)) s) stays Hc1 Hl' eq_refl) as H end.
  apply wp_Ret in H as ([] & s' & -> & ->). done.
Qed.

Lemma wp_sleep s ch l k i c p q n :
  pctx s = k_acq l i k -> ctx_ok k i c -> ncli c = 0 -> cproc c = Some p -> l <> ptable_lock ->
  locks k !! l = None -> locks k !! ptable_lock = None ->
  procs s !! p = Some q -> length (p_name q) = 16%nat -> log_room (S n) s ->
  wp (sleep false ch (Some l) s) (fun _ _ => False)
    (fun s1 kk =>
       log_eq (set_pctx (k_acq ptable_lock i k)
         (set_procs (<[p := set_p_state SLEEPING (set_p_chan (Some ch) q)]> (procs s)) s)) s1 /\
       log_room n s1 /\ wakes_up p l (eflags_IF k) kk).
Proof.
  intros Hk Hc Hn Hcp Hne Hl Hpt Hq Hnm Hr.
  assert (Hc1 := ctx_ok_acq _ _ _ l Hc). assert (Hc2 := ctx_ok_acq _ _ _ ptable_lock Hc).
  assert (Hp1 := locks_acq k i l ptable_lock). rewrite decide_False, Hpt in Hp1 by done.
  unfold sleep. go wp_myproc; [by rewrite Hk|]. cbn [cproc push_cpu]. rewrite Hcp.
  rewrite bool_decide_eq_false_2 by done. cbn [negb when].
  apply wp_step. go wp_lock_event. go wp_acquire; [by rewrite Hk|by rewrite Hk|].
  eapply wp_release_swap; [cbn; by rewrite Hk|exact Hc|done|done|]. cbn [set_pctx].
  go wp_pwrite; [done|]. cbn [procs].
  assert (Hlt := lookup_lt_Some _ _ _ Hq).
  go wp_proc_event; [by apply list_lookup_insert_eq|done|exact Hc2|exact Hr|].
  intros t Ht Hrt. go wp_pwrite; [rewrite <- Ht; by apply list_lookup_insert_eq|].
  apply wp_bind. eapply wp_mono; [apply (wp_sched _ k i c p (set_p_state SLEEPING (set_p_chan (Some ch) q)) (fun _ _ => False))|by intros ? ? []|]; try done.
  - rewrite <- Ht. done.
  - cbn. rewrite list_lookup_insert_eq; [done|]. rewrite <- Ht. cbn. by rewrite length_insert.
  - intros s1 kk [-> Hkk]. split_and!; [|done|by apply sleep_resume].
    destruct Ht as (? & ? & ? & ? & ->). cbn. rewrite list_insert_insert_eq. by eexists _, _, _, _.
Qed.
End Sleep.

(** [sleep(chan, &ptable.lock)]: the lock is kept, and held again on return. *)
Section SleepPtable.
Context {E : Type} `{!KEnv E}.
Implicit Types s : pstate E.

Lemma wp_sleep_ptable s ch k i c p q n Q :
  pctx s = k_acq ptable_lock i k -> ctx_ok k i c -> ncli c = 0 -> cproc c = Some p ->
  procs s !! p = Some q -> length (p_name q) = 16%nat -> log_room (S n) s ->
  wp (sleep false ch (Some ptable_lock) s) Q
    (fun s1 kk =>
       log_eq (set_procs (<[p := set_p_state SLEEPING (set_p_chan (Some ch) q)]> (procs s)) s) s1 /\
       log_room n s1 /\
       forall t i' k' c' q', pctx t = k_acq ptable_lock i' k' -> ctx_ok k' i' c' -> ncli c' = 0 ->
         procs t !! p = Some q' ->
         kk t = Ret tt (set_procs (<[p := set_p_chan None q']> (procs t))
           (set_pctx (k_acq ptable_lock i' (k_settle i' (eflags_IF k) k')) t))).
Proof.
  intros Hk Hc Hn Hcp Hq Hnm Hr. assert (Hc2 := ctx_ok_acq _ _ _ ptable_lock Hc).
  assert (Hlt := lookup_lt_Some _ _ _ Hq).
  unfold sleep. go wp_myproc; [by rewrite Hk|]. cbn [cproc push_cpu]. rewrite Hcp.
  rewrite bool_decide_eq_true_2 by done. cbn [negb when]. apply wp_step. cbn [ret wp].
  go wp_pwrite; [done|].
  go wp_proc_event; [by apply list_lookup_insert_eq|done|pst; rewrite Hk; exact Hc2|exact Hr|].
  intros t (? & ? & ? & ? & ->) Hrt. go wp_pwrite; [by apply list_lookup_insert_eq|].
  apply wp_bind. eapply wp_mono; [apply (wp_sched _ k i c p (set_p_state SLEEPING (set_p_chan (Some ch) q)) (fun _ _ => False))|by intros ? ? []|]; try done.
  - unfold set_logs; pst. rewrite list_lookup_insert_eq; [done|]. by rewrite length_insert.
  - intros s1 kk [-> Hkk]. split_and!; [|room Hrt|].
    + apply log_eq_fields; unfold set_logs; pst; try reflexivity. by rewrite list_insert_insert_eq.
    + intros t i' k' c' q' Ht Hc' Hn' Hq'. rewrite (Hkk t i' k' c') by done. cbn [rbind].
      eapply bind_wp; [eapply wp_pwrite; [exact Hq'|done]|]. done.
Qed.
End SleepPtable.

(** ** [find_proc] *)

Definition first_at (P : proc -> bool) (ps : list proc) (i : nat) (p : proc) : Prop :=
  ps !! i = Some p /\ P p = true /\ forall j q, (j < i)%nat -> ps !! j = Some q -> P q = false.
Definition nowhere (P : proc -> bool) (ps : list proc) : Prop :=
  forall j q, ps !! j = Some q -> P q = false.

Lemma find_proc_spec P ps n :
  match find_proc P ps n with
  | Some i => (n <= i)%nat /\ exists p, first_at P ps (i - n) p
  | None => nowhere P ps
  end.
Proof.
  revert n. induction ps as [|p ps IH]; intros n; cbn; [by intros j q|].
  destruct (P p) eqn:Hp.
  - split; [done|]. exists p. rewrite Nat.sub_diag. split_and!; [done|done|]. lia.
  - specialize (IH (S n)). destruct (find_proc P ps (S n)) as [i|].
    + destruct IH as (Hi & q & H1 & H2 & H3). split; [lia|]. exists q.
      replace (i - n)%nat with (S (i - S n)) by lia. split_and!; [done|done|].
      intros [|j] r Hj Hr; cbn in Hr; [by simplify_eq|]. apply (H3 j); [lia|done].
    + intros [|j] q Hq; cbn in Hq; [by simplify_eq|]. by apply (IH j).
Qed.

Lemma find_proc_first P ps i p : first_at P ps i p -> find_proc P ps 0 = Some i.
Proof.
  intros (H1 & H2 & H3). assert (H := find_proc_spec P ps 0). destruct (find_proc P ps 0) as [j|].
  - destruct H as (_ & q & Hq1 & Hq2 & Hq3). rewrite Nat.sub_0_r in *. f_equal.
    destruct (decide (j < i)%nat); [by rewrite (H3 j q) in Hq2|].
    destruct (decide (i < j)%nat); [by rewrite (Hq3 i p) in H2|]. lia.
  - by rewrite (H _ _ H1) in H2.
Qed.

Lemma find_proc_nowhere P ps : nowhere P ps -> find_proc P ps 0 = None.
Proof.
  intros H. assert (Hf := find_proc_spec P ps 0). destruct (find_proc P ps 0) as [j|]; [|done].
  destruct Hf as (_ & q & Hq1 & Hq2 & _). by rewrite (H _ _ Hq1) in Hq2.
Qed.

(** ** [kill], [yield], [wakeup] *)

Section Kill.
Context {E : Type} `{!KEnv E}.
Implicit Types s : pstate E.

Definition has_pid (pid : Z) (p : proc) : bool := p_pid p =? pid.
Definition killed (p : proc) : proc :=
  let p := set_p_killed 1 p in if bool_decide (p_state p = SLEEPING) then set_p_state RUNNABLE p else p.

Lemma kill_found s c cp pid i p :
  ctx_ok (pctx s) c cp -> locks (pctx s) !! ptable_lock = None ->
  first_at (has_pid pid) (procs s) i p ->
  kill pid s = Ret 0 (set_procs (<[i := killed p]> (procs s)) s).
Proof.
  intros Hc Hl Hf. assert (Hff := find_proc_first _ _ _ _ Hf). destruct Hf as (Hi & _).
  assert (Hlt := lookup_lt_Some _ _ _ Hi).
  assert (wp (kill pid s) (fun r t => r = 0 /\ t = set_procs (<[i := killed p]> (procs s)) s) stays) as H.
  { unfold kill. go wp_lock_event. go wp_acquire; [done..|]. apply wp_step. cbn [wp gets procs set_pctx].
    unfold has_pid in Hff. rewrite Hff. go wp_pwrite; [done|]. cbn [procs].
    go wp_pread; [by apply list_lookup_insert_eq|]. apply wp_step. cbn [p_state set_p_killed].
    unfold killed. cbn [p_state set_p_killed]. destruct (bool_decide (p_state p = SLEEPING)); cbn [when].
    - eapply wp_pwrite; [by apply list_lookup_insert_eq|]. cbn [procs set_procs]. rewrite list_insert_insert_eq.
      go wp_lock_event. go wp_release; [done..|]. cbn. by destruct s.
    - cbn [ret wp]. go wp_lock_event. go wp_release; [done..|]. cbn. by destruct s. }
  apply wp_Ret in H as (? & ? & -> & -> & ->). done.
Qed.

Lemma kill_none s c cp pid :
  ctx_ok (pctx s) c cp -> locks (pctx s) !! ptable_lock = None ->
  nowhere (has_pid pid) (procs s) -> kill pid s = Ret (-1) s.
Proof.
  intros Hc Hl Hf%find_proc_nowhere.
  assert (wp (kill pid s) (fun r t => r = -1 /\ t = s) stays) as H.
  { unfold kill. go wp_lock_event. go wp_acquire; [done..|]. apply wp_step. cbn [wp gets procs set_pctx].
    unfold has_pid in Hf. rewrite Hf. go wp_lock_event. go wp_release; [done..|]. cbn. by destruct s. }
  apply wp_Ret in H as (? & ? & -> & -> & ->). done.
Qed.

Lemma wp_wakeup s ch c cp n :
  names_ok s -> ctx_ok (pctx s) c cp -> locks (pctx s) !! ptable_lock = None ->
  log_room (nwakes ch (procs s) + n) s ->
  wp (wakeup false ch s)
    (fun _ s' => log_eq (set_procs (wake ch <$> procs s) s) s' /\ log_room n s') stays.
Proof.
  intros Hn Hc Hl Hr. unfold wakeup. go wp_holding; [done|by apply lk_get_at|]. cbn [default].
  go wp_lock_event. go wp_acquire; [done..|]. apply wp_step.
  eapply wp_mono; [eapply (wp_wakeup1 _ ch c _ n); [done|by apply (ctx_ok_acq _ _ _ ptable_lock Hc)|done]| |done].
  intros _ t [Ht Hrt]. go wp_lock_event. destruct Ht as (? & ? & ? & ? & ->).
  eapply wp_release; [done..|]. split; [|done]. by eexists _, _, _, _.
Qed.

(** The rest of a thread that called [yield]. *)
Definition yields_back (ie : bool) (k : pstate E -> res (pstate E) unit) : Prop :=
  forall t i k' c', pctx t = k_acq ptable_lock i k' -> ctx_ok k' i c' -> ncli c' = 0 ->
    locks k' !! ptable_lock = None -> k t = Ret tt (set_pctx (k_settle i ie k') t).

Lemma wp_yield s c cp p q n :
  ctx_ok (pctx s) c cp -> ncli cp = 0 -> cproc cp = Some p -> locks (pctx s) !! ptable_lock = None ->
  procs s !! p = Some q -> length (p_name q) = 16%nat -> log_room (S n) s ->
  wp (yield false s) (fun _ _ => False) (fun s1 kk =>
    log_eq (set_pctx (k_acq ptable_lock c (pctx s))
      (set_procs (<[p := set_p_state RUNNABLE q]> (procs s)) s)) s1 /\
    log_room n s1 /\ yields_back (eflags_IF (pctx s)) kk).
Proof.
  intros Hc Hn Hcp Hl Hq Hnm Hr. assert (Hlt := lookup_lt_Some _ _ _ Hq).
  unfold yield. go wp_myproc; [done|]. rewrite Hcp.
  go wp_proc_event; [done..|]. intros t Ht Hrt. go wp_lock_event.
  destruct Ht as (? & ? & ? & ? & ->).
  go wp_acquire; [done..|]. apply wp_step. cbn [when ret wp]. go wp_pwrite; [done|].
  apply wp_bind. eapply wp_mono; [apply (wp_sched _ (pctx s) c cp p (set_p_state RUNNABLE q) (fun _ _ => False))|by intros ? ? []|];
    try done; [by apply list_lookup_insert_eq|].
  intros s1 kk [-> Hkk]. split_and!; [by eexists _, _, _, _|done|].
  intros t' i k' c' Ht' Hc' Hn' Hl'. rewrite (Hkk t' i k' c') by done. cbn [rbind].
  eapply bind_wp; [by apply wp_lock_event|].
  match goal with |- onctx _ ?s0 = _ => pose proof (wp_release ptable_lock s0 (k_settle i (eflags_IF (pctx s)) k') i _
    (fun _ t2 => t2 = set_pctx (k_settle i (eflags_IF (pctx s)) k') s0) stays eq_refl
    (ctx_ok_settle _ _ _ _ Hc' Hn') Hl' eq_refl) as H end.
  apply wp_Ret in H as ([] & s' & -> & ->). done.
Qed.
End Kill.
