(* ===== verification/ProcLife.v ===== *)
(** * The life of a process

    [allocproc], [fork], [wait] and [exit]: what they do to the process table. *)

From Stdlib Require Import ZArith Lia.
From S2P Require Import Prelude Spinlock ProcDefs Runqueue Strings Schedlog Proc ProcSpec.

Section Alloc.
Context {E : Type} `{!KEnv E}.
Implicit Types s : pstate E.

(** The slot after a successful [allocproc]. *)
Definition embryo (pid ks : Z) (p : proc) : proc :=
  set_p_ctxc (mkcontext 0 0 0 0 forkret_addr)
  (set_p_context (ks + KSTACKSIZE - sizeof_trapframe - 4 - sizeof_context)
  (set_p_kret trapret_addr
  (set_p_tf (ks + KSTACKSIZE - sizeof_trapframe)
  (set_p_kstack ks (set_p_state EMBRYO (set_p_pid pid p)))))).

(** The slot after an [allocproc] without memory: free again, its pid spent. *)
Definition stillborn (pid : Z) (p : proc) : proc :=
  set_p_state UNUSED (set_p_kstack 0 (set_p_state EMBRYO (set_p_pid pid p))).

Lemma allocproc_full s c cp :
  ctx_ok (pctx s) c cp -> locks (pctx s) !! ptable_lock = None ->
  nowhere (is_state UNUSED) (procs s) -> allocproc s = Ret None s.
Proof.
  intros Hc Hl Hf%find_proc_nowhere.
  assert (wp (allocproc s) (fun r t => r = None /\ t = s) stays) as H.
  { unfold allocproc. go wp_acquire; [done..|]. go wp_lock_event. apply wp_step. cbn [wp gets procs set_pctx].
    rewrite Hf. go wp_lock_event. go wp_release; [done..|]. cbn. by destruct s. }
  apply wp_Ret in H as (? & ? & -> & -> & ->). done.
Qed.

(** Repeated writes to one slot. *)
Lemma wp_pwrite_again f i s ps p Q W :
  (i < length ps)%nat -> procs s = <[i := p]> ps ->
  Q tt (set_procs (<[i := f p]> ps) s) -> wp (pwrite f (PProc i) s) Q W.
Proof.
  intros Hi Hs HQ. eapply wp_pwrite; [rewrite Hs; by apply list_lookup_insert_eq|].
  by rewrite Hs, list_insert_insert_eq.
Qed.

Lemma wp_allocproc s c cp i p ks e n :
  ctx_ok (pctx s) c cp -> locks (pctx s) !! ptable_lock = None ->
  first_at (is_state UNUSED) (procs s) i p -> length (p_name p) = 16%nat ->
  nextpid s < 2 ^ 31 - 1 -> log_room (S n) s -> k_kalloc (env s) = Ret ks e ->
  wp (allocproc s) (fun r t =>
    r = (if ks =? 0 then None else Some i) /\ log_room n t /\
    log_eq (set_env e (set_nextpid (nextpid s + 1) (set_procs
      (<[i := if ks =? 0 then stillborn (nextpid s) p else embryo (nextpid s) ks p]> (procs s)) s))) t) stays.
Proof.
  intros Hc Hl Hf Hnm Hpid Hr Hka. assert (Hff := find_proc_first _ _ _ _ Hf). destruct Hf as (Hi & _).
  assert (Hlt := lookup_lt_Some _ _ _ Hi). assert (Hc1 := ctx_ok_acq _ _ _ ptable_lock Hc).
  unfold allocproc. go wp_acquire; [done..|]. go wp_lock_event. apply wp_step. cbn [wp gets procs set_pctx].
  rewrite Hff. apply wp_step. cbn [wp gets]. apply wp_step. cbn [nextpid set_pctx].
  destruct (Z.eqb_spec (nextpid s) (2 ^ 31 - 1)); [lia|]. cbn [modify wp].
  go wp_pwrite; [done|]. cbn [procs set_nextpid set_pctx].
  go wp_proc_event; [by apply list_lookup_insert_eq|done|exact Hc1|exact Hr|].
  intros t (? & ? & ? & ? & ->) Hrt.
  go wp_pwrite_again; [done|done|]. go wp_lock_event. go wp_release; [done..|].
  apply wp_step. eapply wp_onenv; [exact Hka|]. go wp_pwrite_again; [done|done|].
  destruct (Z.eqb_spec ks 0) as [->|Hks].
  - go wp_pwrite_again; [done|done|]. cbn [wp ret]. split_and!; [done|room Hrt|same_log].
  - do 5 (go wp_pwrite_again; [done|done|]). cbn beta. cbn [wp ret]. unfold zero_context.
    rewrite set_eip_zero. split_and!; [done|room Hrt|same_log].
Qed.
End Alloc.

(** ** [fork] *)

Section Fork.
Context {E : Type} `{!KEnv E}.
Implicit Types s : pstate E.

(** One [call] for every open file (a nonzero entry) of a descriptor table, in order,
    taking the environment from the first to the second: [fork] and [exit] meet the
    file system this way. *)
Inductive each_open (call : Z -> E -> E -> Prop) : list Z -> E -> E -> Prop :=
| each_open_nil e : each_open call [] e e
| each_open_none fs e e' : each_open call fs e e' -> each_open call (0 :: fs) e e'
| each_open_some f fs e e1 e' :
    f <> 0 -> call f e e1 -> each_open call fs e1 e' -> each_open call (f :: fs) e e'.

(** The calls of one [fork] of [q] return: [filedup] its argument for each open file,
    then [idup] its argument for the directory. *)
Definition dup_returns (q : proc) (e e' : E) : Prop :=
  exists e1, each_open (fun f a b => k_filedup f a = Ret f b) (p_ofile q) e e1 /\
    k_idup (p_cwd q) e1 = Ret (p_cwd q) e'.

Lemma each_open_drop call fs j f e e' :
  fs !! j = Some f -> each_open call (drop j fs) e e' ->
  (f = 0 /\ each_open call (drop (S j) fs) e e') \/
  (f <> 0 /\ exists e1, call f e e1 /\ each_open call (drop (S j) fs) e1 e').
Proof. intros Hf. rewrite (drop_S _ _ _ Hf). inversion 1; subst; [by left|right; eauto]. Qed.

Lemma each_open_end call fs j e e' : (length fs <= j)%nat -> each_open call (drop j fs) e e' -> e = e'.
Proof. intros Hj. rewrite drop_ge by done. by inversion 1. Qed.

Lemma set_tfc_upd f tf p :
  set_p_tfc (f (p_tfc (set_p_tfc tf p))) (set_p_tfc tf p) = set_p_tfc (f tf) p.
Proof. done. Qed.

(** The descriptors after [j] turns of the loop, in a slot whose table was empty. *)
Definition dups (fs : list Z) (j : nat) : list Z := take j fs ++ replicate (16 - j) 0.

Lemma dups_step fs j f :
  length fs = 16%nat -> fs !! j = Some f -> <[j := f]> (dups fs j) = dups fs (S j).
Proof.
  intros Hl Hf. assert (Hj := lookup_lt_Some _ _ _ Hf). unfold dups.
  rewrite (take_S_r _ _ _ Hf), <- (assoc_L (++)). replace (16 - j)%nat with (S (16 - S j)) by lia.
  rewrite insert_app_r_alt by (rewrite length_take; lia).
  by replace (j - length (take j fs))%nat with 0%nat by (rewrite length_take; lia).
Qed.

Lemma dups_zero fs j : fs !! j = Some 0 -> length fs = 16%nat -> dups fs (S j) = dups fs j.
Proof.
  intros Hf Hl. rewrite <- (dups_step fs j 0 Hl Hf). apply list_insert_id.
  assert (Hj := lookup_lt_Some _ _ _ Hf). unfold dups.
  rewrite lookup_app_r by (rewrite length_take; lia). apply lookup_replicate_2. rewrite length_take. lia.
Qed.

Lemma wp_dup_files s cur i q p ps e' :
  each_open (fun f a b => k_filedup f a = Ret f b) (p_ofile q) (env s) e' ->
  procs s = <[i := p]> ps -> (i < length ps)%nat -> cur <> i ->
  ps !! cur = Some q -> length (p_ofile q) = 16%nat -> p_ofile p = replicate 16 0 ->
  wp (forM (seq 0 16) (dup_file (PProc cur) (PProc i)) s) (fun _ t =>
    t = set_env e' (set_procs (<[i := set_p_ofile (p_ofile q) p]> ps) s)) stays.
Proof.
  intros Hdup Hps Hi Hne Hq Hlen Hp.
  eapply wp_mono; [apply (wp_forM _ _ (fun j t => exists e,
    each_open (fun f a b => k_filedup f a = Ret f b) (drop j (p_ofile q)) e e' /\
    t = set_env e (set_procs (<[i := set_p_ofile (dups (p_ofile q) j) p]> ps) s)))| |done].
  - exists (env s). split; [by rewrite drop_0|]. replace (dups (p_ofile q) 0) with (p_ofile p) by (by rewrite Hp).
    replace (set_p_ofile (p_ofile p) p) with p by (by destruct p). rewrite <- Hps. by destruct s.
  - intros j fd t [-> Hj]%lookup_seq (e & Hrest & ->). cbn [Nat.add]. unfold dup_file, ofile.
    destruct (lookup_lt_is_Some_2 (p_ofile q) j ltac:(lia)) as [f Hf].
    apply wp_step. go wp_pread; [unfold set_logs; pst; by rewrite list_lookup_insert_ne|]. rewrite Hf. cbn [ret wp].
    destruct (each_open_drop _ _ _ _ _ _ Hf Hrest) as [[-> Hr]|(Hf0 & e1 & He1 & Hr)].
    + cbn [ret wp negb Z.eqb when]. exists e. split; [done|]. by rewrite dups_zero.
    + rewrite (proj2 (Z.eqb_neq _ _) Hf0). cbn [negb when]. apply wp_step. eapply wp_onenv; [exact He1|].
      eapply wp_pwrite; [unfold set_logs; pst; by apply list_lookup_insert_eq|]. pst. exists e1. split; [done|].
      rewrite list_insert_insert_eq. cbn [p_ofile set_p_ofile]. rewrite dups_step by done. done.
  - intros _ t (e & Hrest & ->). rewrite length_seq in *. unfold dups. rewrite take_ge by lia.
    apply each_open_end in Hrest as ->; [|lia]. by rewrite app_nil_r.
Qed.

Lemma wp_set_name s i p ps src str :
  procs s = <[i := p]> ps -> (i < length ps)%nat -> length (p_name p) = 16%nat -> name_str src str ->
  wp (set_name src (PProc i) s) (fun _ t => exists nm, length nm = 16%nat /\
    name_str nm (take 15 str) /\ t = set_procs (<[i := set_p_name nm p]> ps) s) stays.
Proof.
  intros Hps Hi Hn Hs. unfold set_name. go wp_pread; [rewrite Hps; by apply list_lookup_insert_eq|].
  destruct (safestrcpy_field_run (p_name p) src str 16 Hs Hn ltac:(lia)) as (nm & -> & Hl & Hm).
  eapply wp_pwrite_again; [done..|]. by exists nm.
Qed.

Lemma wp_stamp s pid j n Q :
  log_room n s -> 0 <= pid < Z.of_nat (length (clock_log s)) ->
  (forall log t, log_eq (set_clock_log log s) t -> log_room n t -> Q tt t) ->
  wp (stamp pid j s) Q stays.
Proof.
  intros Hr Hp HQ. unfold stamp, rdtsc. do 4 (apply wp_step; cbn [gets modify ret wp]).
  pst. destruct (Z.ltb_spec pid 0); [lia|]. destruct (Z.leb_spec (Z.of_nat (length (clock_log s))) pid); [lia|].
  cbn [orb modify wp]. eapply HQ; [same_log|room Hr].
Qed.

(** The child of the process [q] in slot [cur]. *)
Definition child (pid ks pg : Z) (cur : nat) (q : proc) (nm : list Z) (p : proc) : proc :=
  set_p_state RUNNABLE (set_p_name nm (set_p_cwd (p_cwd q) (set_p_ofile (p_ofile q)
  (set_p_tfc (set_tf_eax 0 (p_tfc q)) (set_p_parent (Some cur) (set_p_sz (p_sz q)
  (set_p_pgdir pg (embryo pid ks p)))))))).

(** The state in which a fork can succeed: [q] in slot [cur] forks on CPU [c], slot
    [i] is the first free one, clean, and memory is there. *)
Record can_fork s (c : nat) (cp : cpu) (cur : nat) (q : proc) (i : nat) (p : proc)
    (ks pg : Z) (e1 e2 : E) (str : list Z) : Prop := {
  cf_ctx : ctx_ok (pctx s) c cp;
  cf_cur : cproc cp = Some cur;
  cf_lock : locks (pctx s) !! ptable_lock = None;
  cf_q : procs s !! cur = Some q;
  cf_q_used : p_state q <> UNUSED;
  cf_q_name : name_str (p_name q) str;
  cf_q_files : length (p_ofile q) = 16%nat;
  cf_free : first_at (is_state UNUSED) (procs s) i p;
  cf_p_name : length (p_name p) = 16%nat;
  cf_p_files : p_ofile p = replicate 16 0;
  cf_pid : 0 <= nextpid s < 2 ^ 31 - 1;
  cf_log : nextpid s < Z.of_nat (length (clock_log s));
  cf_kalloc : k_kalloc (env s) = Ret ks e1;
  cf_ks : ks <> 0;
  cf_copy : k_copyuvm (p_pgdir q) (p_sz q) e1 = Ret pg e2
}.

Lemma first_unused_ne s cur q i p :
  procs s !! cur = Some q -> p_state q <> UNUSED -> first_at (is_state UNUSED) (procs s) i p -> cur <> i.
Proof.
  intros Hq Hu (Hp & Hs & _) ->. simplify_eq. unfold is_state in Hs. by apply bool_decide_eq_true in Hs.
Qed.

Lemma wp_fork multi s c cp cur q i p ks pg e1 e2 e3 str n R :
  can_fork s c cp cur q i p ks pg e1 e2 str -> dup_returns q e2 e3 -> pg <> 0 -> log_room (S (S n)) s ->
  (forall nm cl t, length nm = 16%nat -> name_str nm (take 15 str) -> log_room n t ->
     log_eq (set_pctx (k_acq ptable_lock c (pctx s)) (set_env e3 (set_clock_log cl (set_nextpid (nextpid s + 1)
       (set_procs (<[i := child (nextpid s) ks pg cur q nm p]> (procs s)) s))))) t ->
     wp (when multi (enqueue_smallest (PProc i)) t)
       (fun _ t' => pctx t' = k_acq ptable_lock c (pctx s) /\ R nm (set_pctx (pctx s) t')) stays) ->
  wp (fork multi s) (fun r t => r = nextpid s /\ exists nm, length nm = 16%nat /\
    name_str nm (take 15 str) /\ R nm t) stays.
Proof.
  intros [Hc Hcur Hl Hq Hqu Hqn Hqf Hfree Hpn Hpf Hpid Hlog Hka Hks Hcopy] (e & Hdup & Hidup) Hpg Hr HR.
  assert (Hne := first_unused_ne _ _ _ _ _ Hq Hqu Hfree).
  assert (Hlt : (i < length (procs s))%nat) by (by eapply lookup_lt_Some, Hfree).
  unfold fork. go wp_myproc; [done|]. rewrite Hcur. cbn [pp]. apply wp_step.
  eapply wp_mono; [eapply (wp_allocproc s c cp i p ks e1 (S n)); try done; lia| |done].
  apply Z.eqb_neq in Hks as Hks'. rewrite Hks'. intros r t (-> & Hrt & (? & ? & ? & ? & ->)).
  do 2 (go wp_pread; [unfold set_logs; pst; by rewrite list_lookup_insert_ne|]).
  go wp_onenv; [exact Hcopy|]. go wp_pwrite_again; [done|done|].
  apply Z.eqb_neq in Hpg as Hpg'. rewrite Hpg'.
  go wp_pread; [unfold set_logs; pst; by rewrite list_lookup_insert_ne|]. do 2 (go wp_pwrite_again; [done|done|]).
  go wp_pread; [unfold set_logs; pst; by rewrite list_lookup_insert_ne|]. do 2 (go wp_pwrite_again; [done|done|]).
  rewrite set_tfc_upd. apply wp_step. eapply wp_mono; [eapply wp_dup_files; [exact Hdup|reflexivity|done|exact Hne|exact Hq|done|exact Hpf]| |done].
  intros _ t ->. go wp_pread; [unfold set_logs; pst; by rewrite list_lookup_insert_ne|].
  go wp_onenv; [exact Hidup|].
  go wp_pwrite_again; [done|done|]. go wp_pread; [unfold set_logs; pst; by rewrite list_lookup_insert_ne|].
  apply wp_step. eapply wp_mono; [eapply wp_set_name; [reflexivity|done|done|exact Hqn]| |done].
  intros _ t (nm & Hnm & Hstr & ->). do 2 (go wp_pread; [by apply list_lookup_insert_eq|]).
  match goal with |- context [p_pid ?x] => change (p_pid x) with (nextpid s) end.
  apply wp_step. eapply (wp_stamp _ _ _ (S n)); [room Hrt|unfold set_logs; pst; lia|]. intros cl t (? & ? & ? & ? & ->) Hrt'.
  go wp_lock_event. go wp_acquire; [done|done|].
  go wp_proc_event; [unfold set_logs; pst; by apply list_lookup_insert_eq|done|exact (ctx_ok_acq _ _ _ ptable_lock Hc)|room Hrt'|].
  intros t (? & ? & ? & ? & ->) Hrt2. go wp_pwrite_again; [done|done|].
  apply wp_step. eapply wp_mono; [apply (HR nm cl); [done|done|room Hrt2|same_log]| |done].
  intros _ t' [Ht' HRt]. go wp_release; [exact Ht'|done|done|]. go wp_lock_event. cbn [ret wp].
  split; [done|]. by exists nm.
Qed.

(** Without memory for the address space the slot and the stack are given back. *)
Lemma wp_fork_nomem multi s c cp cur q i p ks e1 e2 e3 str n :
  can_fork s c cp cur q i p ks 0 e1 e2 str -> log_room (S n) s -> k_kfree ks e2 = Ret tt e3 ->
  wp (fork multi s) (fun r t => r = -1 /\ log_eq (set_env e3 (set_nextpid (nextpid s + 1) (set_procs
    (<[i := set_p_state UNUSED (set_p_kstack 0 (set_p_pgdir 0 (embryo (nextpid s) ks p)))]> (procs s)) s))) t) stays.
Proof.
  intros [Hc Hcur Hl Hq Hqu Hqn Hqf Hfree Hpn Hpf Hpid Hlog Hka Hks Hcopy] Hr Hfr.
  assert (Hne := first_unused_ne _ _ _ _ _ Hq Hqu Hfree).
  assert (Hlt : (i < length (procs s))%nat) by (by eapply lookup_lt_Some, Hfree).
  unfold fork. go wp_myproc; [done|]. rewrite Hcur. cbn [pp]. apply wp_step.
  eapply wp_mono; [eapply (wp_allocproc s c cp i p ks e1 n); try done; lia| |done].
  apply Z.eqb_neq in Hks as Hks'. rewrite Hks'. intros r t (-> & Hrt & (? & ? & ? & ? & ->)).
  do 2 (go wp_pread; [unfold set_logs; pst; by rewrite list_lookup_insert_ne|]).
  go wp_onenv; [exact Hcopy|]. go wp_pwrite_again; [done|done|]. cbn [Z.eqb].
  go wp_pread; [unfold set_logs; pst; by apply list_lookup_insert_eq|]. go wp_onenv; [exact Hfr|].
  do 2 (go wp_pwrite_again; [done|done|]). cbn [ret wp]. split; [done|same_log].
Qed.

Lemma fork_noslot multi s c cp cur :
  ctx_ok (pctx s) c cp -> cproc cp = Some cur -> locks (pctx s) !! ptable_lock = None ->
  nowhere (is_state UNUSED) (procs s) -> fork multi s = Ret (-1) s.
Proof.
  intros Hc Hcur Hl Hf. unfold fork.
  eapply bind_wp; [by eapply wp_myproc|]. by rewrite (bind_Ret _ _ _ _ _ (allocproc_full s c cp Hc Hl Hf)).
Qed.
End Fork.

(** ** [wait] *)

Section Wait.
Context {E : Type} `{!KEnv E}.
Implicit Types s : pstate E.

Definition is_child (cur : nat) (p : proc) : bool := bool_decide (p_parent p = Some cur).
Definition zombie_child (cur : nat) (p : proc) : bool := is_child cur p && is_state ZOMBIE p.

(** The slot after its process has been waited for. *)
Definition reaped (p : proc) : proc :=
  set_p_state UNUSED (set_p_killed 0 (set_p_name (<[0%nat := 0]> (p_name p))
    (set_p_parent None (set_p_pid 0 (set_p_kstack 0 p))))).

Lemma wait_scan_none s cur j m hk :
  (j + m <= nproc s)%nat ->
  (forall i p, (j <= i < j + m)%nat -> procs s !! i = Some p -> zombie_child cur p = false) ->
  exists hk', wait_scan (Some cur) (seq j m) hk s = Ret (hk', None) s /\
    (hk' = true <-> hk = true \/ exists i p, (j <= i < j + m)%nat /\ procs s !! i = Some p /\ is_child cur p = true).
Proof.
  revert j hk. induction m as [|m IH]; intros j hk Hj Hz; cbn [seq wait_scan].
  - exists hk. split; [done|]. split; [by left|]. intros [?|(i & ? & ? & _)]; [done|lia].
  - destruct (lookup_lt_is_Some_2 (procs s) j) as [p Hp]; [unfold nproc in Hj; lia|].
    assert (Hzj := Hz j p ltac:(lia) Hp). unfold zombie_child, is_state in Hzj.
    rewrite (bind_Ret _ _ _ _ _ (pread_ok p_parent (PProc j) s p Hp)).
    change (bool_decide (p_parent p = Some cur)) with (is_child cur p).
    assert (Hin : forall i, (S j <= i < S j + m)%nat \/ i = j <-> (j <= i < j + S m)%nat) by lia.
    destruct (is_child cur p) eqn:Hch; cbn [negb].
    + rewrite (bind_Ret _ _ _ _ _ (pread_ok p_state (PProc j) s p Hp)). cbn in Hzj. rewrite Hzj.
      destruct (IH (S j) true) as (hk' & E1 & E2); [lia|intros l q0 ? ?; apply (Hz l q0); [lia|done]|].
      exists hk'. split; [done|]. rewrite E2. split; [|by left]. intros _. right. exists j, p. split; [lia|done].
    + destruct (IH (S j) hk) as (hk' & E1 & E2); [lia|intros l q0 ? ?; apply (Hz l q0); [lia|done]|].
      exists hk'. split; [done|]. rewrite E2. split; (intros [?|(i & r & Hi & Hr & Hc)]; [by left|right]).
      * exists i, r. split; [lia|done].
      * exists i, r. split; [|done]. apply Hin in Hi as [?| ->]; [done|]. simplify_eq. congruence.
Qed.

Lemma wait_scan_skip s cur i p j hk :
  (forall l q, (j <= l < i)%nat -> procs s !! l = Some q -> zombie_child cur q = false) ->
  (j <= i < nproc s)%nat -> procs s !! i = Some p -> zombie_child cur p = true ->
  wait_scan (Some cur) (seq j (nproc s - j)) hk s =
  bind (reap i) (fun pid => ret (true, Some pid)) s.
Proof.
  intros Hz [Hj Hi] Hp Hzp. remember (i - j)%nat as d eqn:Hd. revert j hk Hz Hj Hd.
  induction d as [|d IH]; intros j hk Hz Hj Hd; replace (nproc s - j)%nat with (S (nproc s - S j)) by lia;
    cbn [seq wait_scan].
  - replace j with i in * by lia. rewrite (bind_Ret _ _ _ _ _ (pread_ok p_parent (PProc i) s p Hp)).
    unfold zombie_child, is_child, is_state in Hzp. apply andb_prop in Hzp as [H1 H2]. rewrite H1. cbn [negb].
    rewrite (bind_Ret _ _ _ _ _ (pread_ok p_state (PProc i) s p Hp)). by rewrite H2.
  - destruct (lookup_lt_is_Some_2 (procs s) j) as [q Hq]; [unfold nproc in Hi; lia|].
    assert (Hzj := Hz j q ltac:(lia) Hq). unfold zombie_child, is_child, is_state in Hzj.
    rewrite (bind_Ret _ _ _ _ _ (pread_ok p_parent (PProc j) s q Hq)).
    destruct (bool_decide (p_parent q = Some cur)); cbn [negb andb] in *.
    + rewrite (bind_Ret _ _ _ _ _ (pread_ok p_state (PProc j) s q Hq)), Hzj.
      apply IH; [intros l q0 ? ?; apply (Hz l q0); [lia|done]|lia|lia].
    + apply IH; [intros l q0 ? ?; apply (Hz l q0); [lia|done]|lia|lia].
Qed.

Lemma wp_reap s k c cp i p e1 e2 n :
  pctx s = k_acq ptable_lock c k -> ctx_ok k c cp -> locks k !! ptable_lock = None ->
  procs s !! i = Some p -> length (p_name p) = 16%nat -> log_room (S n) s ->
  k_kfree (p_kstack p) (env s) = Ret tt e1 -> k_freevm (p_pgdir p) e1 = Ret tt e2 ->
  wp (reap i s) (fun r t => r = p_pid p /\ log_room n t /\
    log_eq (set_pctx k (set_env e2 (set_procs (<[i := reaped p]> (procs s)) s))) t) stays.
Proof.
  intros Hk Hc Hl Hp Hnm Hr H1 H2. assert (Hlt := lookup_lt_Some _ _ _ Hp).
  unfold reap. go wp_proc_event; [done|done|rewrite Hk; exact (ctx_ok_acq _ _ _ ptable_lock Hc)|done|].
  intros t (? & ? & ? & ? & ->) Hrt. do 2 (go wp_pread; [done|]). go wp_onenv; [exact H1|].
  go wp_pwrite; [done|]. go wp_pread; [unfold set_logs; pst; by apply list_lookup_insert_eq|].
  go wp_onenv; [exact H2|]. do 2 (go wp_pwrite_again; [done|done|]). go wp_lock_event.
  do 3 (go wp_pwrite_again; [done|done|]). go wp_release; [exact Hk|done|done|]. cbn [ret wp].
  split_and!; [done|room Hrt|same_log].
Qed.

Lemma wait_zombie s c cp cur i p e1 e2 n fuel :
  ctx_ok (pctx s) c cp -> cproc cp = Some cur -> locks (pctx s) !! ptable_lock = None ->
  first_at (zombie_child cur) (procs s) i p -> length (p_name p) = 16%nat -> log_room (S n) s ->
  k_kfree (p_kstack p) (env s) = Ret tt e1 -> k_freevm (p_pgdir p) e1 = Ret tt e2 ->
  exists s', wait false (S fuel) s = Ret (p_pid p) s' /\
    log_eq (set_env e2 (set_procs (<[i := reaped p]> (procs s)) s)) s'.
Proof.
  intros Hc Hcur Hl (Hp & Hz & Hfirst) Hnm Hr H1 H2. assert (Hlt := lookup_lt_Some _ _ _ Hp).
  assert (wp (wait false (S fuel) s) (fun r t => r = p_pid p /\
    log_eq (set_env e2 (set_procs (<[i := reaped p]> (procs s)) s)) t) stays) as H.
  { unfold wait. go wp_myproc; [done|]. rewrite Hcur. go wp_lock_event. go wp_acquire; [done|done|].
    cbn [wait_loop]. apply wp_step. cbn [gets wp]. apply wp_step.
    set (s1 := set_pctx _ s). assert (Es := wait_scan_skip s1 cur i p 0 false).
    rewrite Nat.sub_0_r in Es. rewrite Es; [|intros l q ? Hlq; apply (Hfirst l q); [lia|done]|unfold nproc; cbn; lia|done|done].
    apply wp_step. eapply wp_mono; [eapply (wp_reap s1 (pctx s) c cp i p e1 e2 n); done| |done].
    intros r t (-> & _ & Ht). cbn [ret wp]. split; [done|].
    destruct Ht as (? & ? & ? & ? & ->). apply log_eq_fields; unfold set_logs, s1; pst; reflexivity. }
  apply wp_Ret in H as (r & s' & Hrun & -> & Heq). by exists s'.
Qed.

Lemma wait_nobody s c cp cur q fuel :
  ctx_ok (pctx s) c cp -> cproc cp = Some cur -> locks (pctx s) !! ptable_lock = None ->
  procs s !! cur = Some q -> nowhere (zombie_child cur) (procs s) ->
  nowhere (is_child cur) (procs s) \/ p_killed q <> 0 ->
  wait false (S fuel) s = Ret (-1) s.
Proof.
  intros Hc Hcur Hl Hq Hz Hno.
  assert (wp (wait false (S fuel) s) (fun r t => r = -1 /\ t = s) stays) as H.
  { unfold wait. go wp_myproc; [done|]. rewrite Hcur. go wp_lock_event. go wp_acquire; [done|done|].
    cbn [wait_loop]. apply wp_step. cbn [gets wp]. set (s1 := set_pctx _ s).
    destruct (wait_scan_none s1 cur 0 (nproc s1) false) as (hk & Es & Hhk);
      [done|intros l r _ Hlr; by apply (Hz l r)|].
    rewrite (bind_Ret _ _ _ _ _ Es). cbn [pp]. go wp_pread; [exact Hq|].
    assert (negb hk || negb (p_killed q =? 0) = true) as ->.
    { destruct Hno as [Hno|Hk]; [|apply Z.eqb_neq in Hk; rewrite Hk; by destruct hk].
      destruct hk; [|done]. destruct (proj1 Hhk eq_refl) as [?|(l & r & _ & Hr & Hch)]; [done|].
      by rewrite (Hno l r Hr) in Hch. }
    go wp_lock_event. go wp_release; [done|done|done|]. cbn. split; [done|]. by destruct s. }
  apply wp_Ret in H as (r & s' & Hrun & -> & ->). done.
Qed.

Lemma wp_wait_sleeps s c cp cur q fuel n :
  ctx_ok (pctx s) c cp -> ncli cp = 0 -> cproc cp = Some cur -> locks (pctx s) !! ptable_lock = None ->
  procs s !! cur = Some q -> length (p_name q) = 16%nat -> log_room (S n) s ->
  nowhere (zombie_child cur) (procs s) -> ~ nowhere (is_child cur) (procs s) -> p_killed q = 0 ->
  wp (wait false (S fuel) s) (fun _ _ => False) (fun s1 kk =>
    log_eq (set_pctx (k_acq ptable_lock c (pctx s))
      (set_procs (<[cur := set_p_state SLEEPING (set_p_chan (Some (proc_chan cur)) q)]> (procs s)) s)) s1 /\
    forall t i' k' c' q', pctx t = k_acq ptable_lock i' k' -> ctx_ok k' i' c' -> ncli c' = 0 ->
      procs t !! cur = Some q' ->
      kk t = wait_loop false fuel (Some cur) (set_procs (<[cur := set_p_chan None q']> (procs t))
        (set_pctx (k_acq ptable_lock i' (k_settle i' (eflags_IF (pctx s)) k')) t))).
Proof.
  intros Hc Hn Hcur Hl Hq Hnm Hr Hz Hch Hkill.
  unfold wait. go wp_myproc; [done|]. rewrite Hcur. go wp_lock_event. go wp_acquire; [done|done|].
  cbn [wait_loop]. apply wp_step. cbn [gets wp]. set (s1 := set_pctx _ s).
  destruct (wait_scan_none s1 cur 0 (nproc s1) false) as (hk & Es & Hhk);
    [done|intros l r _ Hlr; by apply (Hz l r)|].
  rewrite (bind_Ret _ _ _ _ _ Es). cbn [pp]. go wp_pread; [exact Hq|]. rewrite Hkill.
  assert (hk = true) as ->.
  { destruct hk; [done|]. destruct Hch. intros l r Hlr. destruct (is_child cur r) eqn:Hc'; [|done].
    assert (false = true); [|done]. apply Hhk. right. exists l, r. split; [|done].
    apply lookup_lt_Some in Hlr as Hlt. unfold nproc; cbn. lia. }
  cbn [negb orb Z.eqb]. apply wp_bind.
  eapply wp_mono; [eapply (wp_sleep_ptable s1 (proc_chan cur) (pctx s) c cp cur q n (fun _ _ => False)); done|by intros ? ? []|].
  intros s2 kk (Ht & _ & Hkk). split.
  - destruct Ht as (? & ? & ? & ? & ->). apply log_eq_fields; unfold set_logs, s1; pst; reflexivity.
  - intros t i' k' c' q' Ht' Hc' Hn' Hq'. by rewrite (Hkk t i' k' c' q').
Qed.
End Wait.

(** ** [exit] *)

Section Exit.
Context {E : Type} `{!KEnv E}.
Implicit Types s : pstate E.

Definition adopt (cur : nat) (ip : option nat) (p : proc) : proc :=
  if is_child cur p then set_p_parent ip p else p.

(** The table after [j] turns of the adoption loop: [init] is woken as soon as a
    zombie has been passed to it. *)
Definition has_zombie (cur : nat) (ps : list proc) : bool := existsb (zombie_child cur) ps.
Definition wake_if (b : bool) (ch : option chan) (p : proc) : proc := if b then wake ch p else p.

Lemma wakes_adopt ch cur ip p : wakes ch (adopt cur ip p) = wakes ch p.
Proof. unfold adopt. by destruct (is_child cur p). Qed.

Lemma adopt_wake ch cur ip p : adopt cur ip (wake ch p) = wake ch (adopt cur ip p).
Proof.
  unfold wake. rewrite wakes_adopt. unfold adopt.
  assert (is_child cur (if wakes ch p then set_p_state RUNNABLE p else p) = is_child cur p) as ->
    by (by destruct (wakes ch p)).
  by destruct (wakes ch p), (is_child cur p).
Qed.

Lemma zombie_wake ch cur p : zombie_child cur (wake ch p) = zombie_child cur p.
Proof.
  unfold wake. destruct (wakes ch p) eqn:Hw; [|done]. unfold zombie_child, is_child, is_state, wakes in *; cbn.
  apply andb_prop in Hw as [Hw _]. apply bool_decide_eq_true in Hw. rewrite Hw. done.
Qed.

Lemma nwakes_adopt ch cur ip ps j : nwakes ch (mapto (adopt cur ip) j ps) = nwakes ch ps.
Proof.
  unfold nwakes, mapto. rewrite List.filter_app, length_app. rewrite <- (take_drop j ps) at 3.
  rewrite List.filter_app, length_app. f_equal.
  induction (take j ps) as [|p l IH]; [done|]. cbn. rewrite wakes_adopt. destruct (wakes ch p); cbn; by rewrite IH.
Qed.

Lemma wake_if_mapto b ch cur ip ps j :
  mapto (adopt cur ip) j (wake_if b ch <$> ps) = wake_if b ch <$> mapto (adopt cur ip) j ps.
Proof.
  unfold mapto. rewrite fmap_app, <- !fmap_take, fmap_drop, <- !list_fmap_compose. f_equal.
  apply list_fmap_ext. intros i p _. cbn. destruct b; [apply adopt_wake|done].
Qed.

Lemma has_zombie_snoc cur ps j p :
  ps !! j = Some p -> has_zombie cur (take (S j) ps) = has_zombie cur (take j ps) || zombie_child cur p.
Proof. intros H. unfold has_zombie. rewrite (take_S_r _ _ _ H), existsb_app. cbn. by rewrite orb_false_r. Qed.

(** The table after [j] turns. *)
Definition adopted (cur : nat) (ip : option nat) (ps : list proc) (j : nat) : list proc :=
  wake_if (has_zombie cur (take j ps)) (chan_of ip) <$> mapto (adopt cur ip) j ps.

Lemma fmap_names (f : proc -> proc) ps :
  (forall p, p_name (f p) = p_name p) ->
  Forall (fun p => length (p_name p) = 16%nat) ps -> Forall (fun p => length (p_name p) = 16%nat) (f <$> ps).
Proof. intros Hf H. apply Forall_fmap. eapply Forall_impl; [exact H|]. intros p Hp. cbn. by rewrite Hf. Qed.

Lemma adopt_name cur ip p : p_name (adopt cur ip p) = p_name p.
Proof. unfold adopt. by destruct (is_child cur p). Qed.

Lemma adopted_names cur ip ps j :
  Forall (fun p => length (p_name p) = 16%nat) ps ->
  Forall (fun p => length (p_name p) = 16%nat) (adopted cur ip ps j).
Proof.
  intros H. unfold adopted. apply fmap_names.
  - intros p. unfold wake_if. destruct (has_zombie _ _); [apply wake_name|done].
  - unfold mapto. apply Forall_app. split; [|by apply Forall_drop].
    apply fmap_names; [apply adopt_name|by apply Forall_take].
Qed.

Lemma adopted_at cur ip ps j p :
  ps !! j = Some p ->
  adopted cur ip ps j !! j = Some (wake_if (has_zombie cur (take j ps)) (chan_of ip) p).
Proof. intros H. unfold adopted. by rewrite list_lookup_fmap, mapto_at, H. Qed.

(** One turn: adoption, and the wake-up for a zombie. *)
Lemma adopted_step cur ip ps j p :
  ps !! j = Some p ->
  let b := has_zombie cur (take j ps) in
  <[j := adopt cur ip (wake_if b (chan_of ip) p)]> (adopted cur ip ps j) =
  wake_if b (chan_of ip) <$> mapto (adopt cur ip) (S j) ps.
Proof.
  intros H b. unfold adopted. fold b. rewrite <- (mapto_step _ _ _ _ H), list_fmap_insert. f_equal.
  unfold wake_if. destruct b; [apply adopt_wake|done].
Qed.

Lemma wake_if_parent b ch p : p_parent (wake_if b ch p) = p_parent p.
Proof. unfold wake_if, wake. destruct b; [|done]. by destruct (wakes ch p). Qed.

Lemma wake_if_zombie b ch cur p : zombie_child cur (wake_if b ch p) = zombie_child cur p.
Proof. destruct b; [apply zombie_wake|done]. Qed.

Lemma wake_wake_if b ch (ps : list proc) : wake ch <$> (wake_if b ch <$> ps) = wake ch <$> ps.
Proof.
  rewrite <- list_fmap_compose. apply list_fmap_ext. intros i p _. cbn. destruct b; [apply wake_idem|done].
Qed.

Lemma nwakes_wake_if b ch (ps : list proc) : nwakes ch (wake_if b ch <$> ps) = if b then 0%nat else nwakes ch ps.
Proof. destruct b; [apply nwakes_wake|]. by rewrite list_fmap_id. Qed.

Definition adopt_room cur ip ps j : nat :=
  if has_zombie cur (take j ps) then 0%nat else nwakes (chan_of ip) ps.

Lemma wp_reparent_one s t c cp cur ip ps j p n :
  ctx_ok (pctx s) c cp -> initproc s = ip -> Forall (fun p => length (p_name p) = 16%nat) ps ->
  ps !! j = Some p ->
  log_eq (set_procs (adopted cur ip ps j) s) t -> log_room (adopt_room cur ip ps j + n) t ->
  wp (reparent_one false (Some cur) j t) (fun _ t' =>
    log_eq (set_procs (adopted cur ip ps (S j)) s) t' /\ log_room (adopt_room cur ip ps (S j) + n) t') stays.
Proof.
  intros Hc Hip Hnm Hp Ht Hr. assert (Hlt := lookup_lt_Some _ _ _ Hp).
  unfold adopt_room in *. unfold reparent_one. set (b := has_zombie cur (take j ps)) in *.
  assert (Hat := adopted_at cur ip ps j p Hp). fold b in Hat.
  assert (Hst := adopted_step cur ip ps j p Hp). cbn zeta in Hst. fold b in Hst.
  assert (Hz' := wake_if_zombie b (chan_of ip) cur p). set (p' := wake_if b (chan_of ip) p) in *.
  assert (Hz := has_zombie_snoc cur ps j p Hp). fold b in Hz.
  destruct Ht as (? & ? & ? & ? & ->). go wp_pread; [exact Hat|].
  assert (Hch : bool_decide (p_parent p' = Some cur) = is_child cur p)
    by (unfold p'; by rewrite wake_if_parent).
  assert (Hchd : is_child cur p' = is_child cur p) by done.
  rewrite Hch. destruct (is_child cur p) eqn:Hcp; cbn [when].
  2:{ cbn [ret wp]. assert (zombie_child cur p = false) as Hzf by (unfold zombie_child; by rewrite Hcp).
    rewrite Hz, Hzf, orb_false_r. split; [|done]. unfold adopted. rewrite Hz, Hzf, orb_false_r.
    rewrite (mapto_skip _ _ _ p Hp) by (unfold adopt; by rewrite Hcp). apply log_eq_fields; reflexivity. }
  apply wp_step. cbn [gets wp]. go wp_pwrite; [exact Hat|].
  assert (Hst' : <[j := set_p_parent (initproc s) p']> (adopted cur ip ps j) =
    wake_if b (chan_of ip) <$> mapto (adopt cur ip) (S j) ps).
  { rewrite <- Hst. unfold adopt. by rewrite Hchd, Hip. }
  unfold set_logs; pst. rewrite Hst'.
  assert (Hnew : (wake_if b (chan_of ip) <$> mapto (adopt cur ip) (S j) ps) !! j = Some (set_p_parent (initproc s) p')).
  { rewrite <- Hst'. apply list_lookup_insert_eq. by eapply lookup_lt_Some. }
  go wp_pread; [exact Hnew|]. cbn [p_state set_p_parent].
  assert (Hzp : bool_decide (p_state p' = ZOMBIE) = zombie_child cur p).
  { rewrite <- Hz'. unfold zombie_child. by rewrite Hchd. }
  rewrite Hzp. destruct (zombie_child cur p); cbn [when].
  - apply wp_step. cbn [gets wp]. eapply wp_mono; [apply (wp_wakeup1 _ _ c cp n)| |done].
    + assert (Hn2 := adopted_names cur ip ps (S j) Hnm). unfold names_ok; pst.
      unfold adopted in Hn2. apply fmap_names; [intros; unfold wake_if; destruct b; [apply wake_name|done]|].
      unfold mapto. apply Forall_app. split; [|by apply Forall_drop].
      apply fmap_names; [apply adopt_name|by apply Forall_take].
    + done.
    + pst. rewrite Hip, nwakes_wake_if, nwakes_adopt. room Hr.
    + intros _ t' [(? & ? & ? & ? & ->) Hr']. rewrite Hz, orb_true_r. split; [|exact Hr'].
      apply log_eq_fields; unfold set_logs; pst; try reflexivity.
      rewrite Hip, wake_wake_if. unfold adopted. by rewrite Hz, orb_true_r.
  - cbn [ret wp]. rewrite Hz, orb_false_r. split; [|room Hr].
    apply log_eq_fields; pst; try reflexivity. unfold adopted. by rewrite Hz, orb_false_r.
Qed.

(** The calls of one [exit] of [q] return: [fileclose] for each open file, then the
    transaction that gives the directory up. *)
Definition close_returns (q : proc) (e e' : E) : Prop :=
  exists e1 e2 e3, each_open (fun f a b => k_fileclose f a = Ret tt b) (p_ofile q) e e1 /\
    k_begin_op e1 = Ret tt e2 /\ k_iput (p_cwd q) e2 = Ret tt e3 /\ k_end_op e3 = Ret tt e'.

Lemma zero_step (fs : list Z) j f :
  fs !! j = Some f -> <[j := 0]> (replicate j 0 ++ drop j fs) = replicate (S j) 0 ++ drop (S j) fs.
Proof.
  intros H. rewrite (drop_S _ _ _ H), insert_app_r_alt by (rewrite length_replicate; lia).
  rewrite length_replicate, Nat.sub_diag. cbn [insert list_insert]. rewrite replicate_S_end, <- (assoc_L (++)). done.
Qed.

Lemma wp_close_files s cur q e' :
  each_open (fun f a b => k_fileclose f a = Ret tt b) (p_ofile q) (env s) e' ->
  procs s !! cur = Some q -> length (p_ofile q) = 16%nat ->
  wp (forM (seq 0 16) (close_file (PProc cur)) s) (fun _ t =>
    t = set_env e' (set_procs (<[cur := set_p_ofile (replicate 16 0) q]> (procs s)) s)) stays.
Proof.
  intros Hcl Hq Hlen. assert (Hlt := lookup_lt_Some _ _ _ Hq).
  eapply wp_mono; [apply (wp_forM _ _ (fun j t => exists e,
    each_open (fun f a b => k_fileclose f a = Ret tt b) (drop j (p_ofile q)) e e' /\
    t = set_env e (set_procs (<[cur := set_p_ofile (replicate j 0 ++ drop j (p_ofile q)) q]> (procs s)) s)))| |done].
  - exists (env s). cbn [replicate app]. rewrite drop_0. split; [done|].
    replace (set_p_ofile (p_ofile q) q) with q by (by destruct q). rewrite list_insert_id by done. by destruct s.
  - intros j fd t [-> Hj]%lookup_seq (e & Hrest & ->). cbn [Nat.add]. unfold close_file, ofile.
    destruct (lookup_lt_is_Some_2 (p_ofile q) j ltac:(lia)) as [f Hf].
    assert (Hz := zero_step _ _ _ Hf).
    assert (Hat : (replicate j 0 ++ drop j (p_ofile q)) !! j = Some f).
    { rewrite lookup_app_r, length_replicate, Nat.sub_diag, lookup_drop, Nat.add_0_r by (by rewrite length_replicate).
      done. }
    apply wp_step. go wp_pread; [pst; by apply list_lookup_insert_eq|]. cbn [p_ofile set_p_ofile].
    rewrite Hat. cbn [ret wp].
    destruct (each_open_drop _ _ _ _ _ _ Hf Hrest) as [[-> Hr]|(Hf0 & e1 & He1 & Hr)].
    + cbn [ret wp negb Z.eqb when]. exists e. split; [done|]. by rewrite <- Hz, (list_insert_id (_ ++ _)).
    + rewrite (proj2 (Z.eqb_neq _ _) Hf0). cbn [negb when]. apply wp_step. eapply wp_onenv; [exact He1|].
      eapply wp_pwrite; [pst; by apply list_lookup_insert_eq|]. pst. exists e1. split; [done|].
      rewrite list_insert_insert_eq. cbn [p_ofile set_p_ofile]. rewrite Hz. done.
  - intros _ t (e & Hrest & ->). rewrite length_seq in *. apply each_open_end in Hrest as ->; [|lia].
    rewrite drop_ge by lia. by rewrite app_nil_r.
Qed.

(** The exiting process, its files closed, and the table it leaves behind. *)
Definition closed (q : proc) : proc := set_p_cwd 0 (set_p_ofile (replicate 16 0) q).
Definition woken_by (cur : nat) (q : proc) (ps : list proc) : list proc :=
  wake (chan_of (p_parent q)) <$> <[cur := closed q]> ps.
Definition exit_table (cur : nat) (ip : option nat) (q : proc) (ps : list proc) : list proc :=
  alter (set_p_state ZOMBIE) cur (adopted cur ip (woken_by cur q ps) (length ps)).

Definition exit_room (cur : nat) (ip : option nat) (q : proc) (ps : list proc) : nat :=
  nwakes (chan_of (p_parent q)) (<[cur := closed q]> ps) + nwakes (chan_of ip) (woken_by cur q ps) + 1.

Lemma wake_pid ch p : p_pid (wake ch p) = p_pid p.
Proof. unfold wake. by destruct (wakes ch p). Qed.

Lemma adopted_same cur ip ps j i p :
  ps !! i = Some p -> exists p', adopted cur ip ps j !! i = Some p' /\ p_pid p' = p_pid p /\ p_name p' = p_name p.
Proof.
  intros H. unfold adopted. rewrite list_lookup_fmap, mapto_lookup, H.
  exists (wake_if (has_zombie cur (take j ps)) (chan_of ip) (if decide (i < j)%nat then adopt cur ip p else p)).
  split; [by case_decide|]. unfold wake_if, adopt.
  destruct (has_zombie _ _), (decide (i < j)%nat), (is_child cur p); rewrite ?wake_pid, ?wake_name; done.
Qed.

Lemma adopt_room_0 cur ip ps : adopt_room cur ip ps 0 = nwakes (chan_of ip) ps.
Proof. done. Qed.

Lemma adopted_0 cur ip ps : adopted cur ip ps 0 = ps.
Proof. unfold adopted. cbn [take has_zombie existsb wake_if]. by rewrite mapto_0, list_fmap_id. Qed.

Lemma wp_reparent_all s c cp cur ip n :
  ctx_ok (pctx s) c cp -> initproc s = ip -> names_ok s ->
  log_room (nwakes (chan_of ip) (procs s) + n) s ->
  wp (forM (seq 0 (nproc s)) (reparent_one false (Some cur)) s) (fun _ t' =>
    log_eq (set_procs (adopted cur ip (procs s) (nproc s)) s) t' /\ log_room n t') stays.
Proof.
  intros Hc Hip Hn Hr. eapply wp_mono; [apply (wp_forM _ _ (fun j t =>
    log_eq (set_procs (adopted cur ip (procs s) j) s) t /\ log_room (adopt_room cur ip (procs s) j + n) t))| |done].
  - rewrite adopted_0, set_procs_id. done.
  - intros j i t [-> Hj]%lookup_seq [Ht Hrt]. cbn [Nat.add].
    destruct (lookup_lt_is_Some_2 (procs s) j Hj) as [p Hp]. by eapply wp_reparent_one.
  - intros _ t [Ht Hrt]. rewrite length_seq in *. split; [done|]. eapply log_room_le; [done|lia].
Qed.

(** The state in which the process [q] in slot [cur] can exit. *)
Record can_exit s (c : nat) (cp : cpu) (cur : nat) (q : proc) : Prop := {
  ce_ctx : ctx_ok (pctx s) c cp;
  ce_ncli : ncli cp = 0;
  ce_cur : cproc cp = Some cur;
  ce_lock : locks (pctx s) !! ptable_lock = None;
  ce_init : initproc s <> Some cur;
  ce_q : procs s !! cur = Some q;
  ce_files : length (p_ofile q) = 16%nat;
  ce_names : names_ok s;
  ce_pid : 0 <= p_pid q < Z.of_nat (length (clock_log s))
}.

Lemma woken_by_at cur q ps :
  (cur < length ps)%nat -> woken_by cur q ps !! cur = Some (wake (chan_of (p_parent q)) (closed q)).
Proof. intros H. unfold woken_by. by rewrite list_lookup_fmap, list_lookup_insert_eq. Qed.

Lemma length_woken_by cur q ps : length (woken_by cur q ps) = length ps.
Proof. unfold woken_by. by rewrite length_fmap, length_insert. Qed.

Lemma wp_exit s c cp cur q e' n :
  can_exit s c cp cur q -> close_returns q (env s) e' ->
  log_room (exit_room cur (initproc s) q (procs s) + n) s ->
  wp (exit false s) (fun _ _ => False) (fun s1 kk =>
    (exists cl, log_eq (set_pctx (k_acq ptable_lock c (pctx s)) (set_env e' (set_clock_log cl
      (set_procs (exit_table cur (initproc s) q (procs s)) s)))) s1) /\
    forall t i k' c', pctx t = k_acq ptable_lock i k' -> ctx_ok k' i c' -> ncli c' = 0 ->
      kk t = Panic "zombie exit").
Proof.
  intros [Hc Hncli Hcur Hl Hinit Hq Hqf Hnm Hpid] (e1 & e2 & e3 & Hcl & Hb & Hi & He) Hr. assert (Hlt := lookup_lt_Some _ _ _ Hq).
  assert (Hc1 := ctx_ok_acq _ _ _ ptable_lock Hc). assert (Hqn := names_at _ _ _ Hnm Hq).
  assert (Hn1 : Forall (fun p => length (p_name p) = 16%nat) (<[cur := closed q]> (procs s))) by (by apply Forall_insert).
  unfold exit_room in Hr. rewrite <- !Nat.add_assoc in Hr.
  unfold exit. go wp_myproc; [done|]. rewrite Hcur. cbn [pp]. apply wp_step. cbn [gets wp].
  rewrite bool_decide_eq_false_2 by congruence.
  apply wp_step. eapply wp_mono; [by apply (wp_close_files s cur q e1)| |done]. intros _ t ->.
  go wp_onenv; [exact Hb|].
  go wp_pread; [pst; by apply list_lookup_insert_eq|].
  go wp_onenv; [exact Hi|]. go wp_onenv; [exact He|].
  go wp_pwrite_again; [done|done|]. go wp_lock_event. go wp_acquire; [done|done|].
  go wp_pread; [pst; by apply list_lookup_insert_eq|]. cbn [p_parent set_p_cwd set_p_ofile].
  apply wp_step. eapply wp_mono; [eapply wp_wakeup1; [exact Hn1|exact Hc1|room Hr]| |done].
  intros _ t [(? & ? & ? & ? & ->) Hr1]. apply wp_step. cbn [gets wp].
  match goal with |- wp (bind _ _ ?T) _ _ => set (T1 := T) end.
  assert (HT : procs T1 = woken_by cur q (procs s)) by reflexivity.
  apply wp_step. eapply wp_mono; [eapply (wp_reparent_all T1 c _ cur (initproc s) (1 + n));
    [exact Hc1|reflexivity|by apply fmap_names; [apply wake_name|]|room Hr1]| |done].
  unfold nproc. rewrite HT, length_woken_by.
  destruct (adopted_same cur (initproc s) (woken_by cur q (procs s)) (length (procs s)) cur _ (woken_by_at _ _ _ Hlt))
    as (q' & Hq' & Hpid' & Hnm'). rewrite wake_pid in Hpid'. rewrite wake_name in Hnm'.
  intros _ t [(? & ? & ? & ? & ->) Hr2].
  go wp_pread; [exact Hq'|]. rewrite Hpid'. apply wp_step.
  eapply (wp_stamp _ _ _ (1 + n)); [exact Hr2|exact Hpid|]. intros cl t (? & ? & ? & ? & ->) Hr3.
  go wp_proc_event; [exact Hq'|by rewrite Hnm'|exact Hc1|exact Hr3|].
  intros t (? & ? & ? & ? & ->) Hr4. go wp_pwrite; [exact Hq'|]. apply wp_bind.
  eapply wp_mono; [apply (wp_sched _ (pctx s) c cp cur (set_p_state ZOMBIE q') (fun _ _ => False))|by intros ? ? []|]; try done.
  { unfold set_logs; pst. apply list_lookup_insert_eq. by eapply lookup_lt_Some. }
  intros s1 kk [-> Hkk]. split.
  - exists cl. apply log_eq_fields; unfold T1, set_logs; pst; try reflexivity.
    unfold exit_table. by rewrite (alter_insert_at _ _ _ _ Hq').
  - intros t i k' c' Ht Hc' Hn'. by rewrite (Hkk t i k' c').
Qed.
End Exit.
