(* ===== verification/ProcSched.v ===== *)
(** * The scheduler

    What the two scheduling loops of [scheduler] do in one turn, and how the
    operations of [Proc.v] keep the run queues when [IS_MULTIPLE_RUNQUEUE] is
    set. *)

From Stdlib Require Import ZArith Lia.
From S2P Require Import Prelude Spinlock ProcDefs Runqueue Strings Schedlog Proc ProcSpec ProcLife.

Section Run.
Context {E : Type} `{!KEnv E}.
Implicit Types s : pstate E.

(** The tables the monitoring code indexes by pid are long enough for [p]. *)
Definition pid_fits s (p : proc) : Prop :=
  0 <= p_pid p < Z.of_nat (length (clock_log s)) /\ p_pid p < Z.of_nat (length (isnot_first_running s)).

Lemma wp_first_run s i p n Q :
  procs s !! i = Some p -> pid_fits s p -> log_room n s ->
  (forall cl fr t, log_eq (set_isnot_first_running fr (set_clock_log cl s)) t -> log_room n t -> Q tt t) ->
  wp (first_run (PProc i) s) Q stays.
Proof.
  intros Hp [Hcl Hfr] Hr HQ. unfold first_run. go wp_pread; [done|]. apply wp_step. cbn [gets wp].
  destruct (Z.leb_spec 0 (p_pid p)); [|lia].
  destruct (lookup_lt_is_Some_2 (isnot_first_running s) (Z.to_nat (p_pid p))) as [v Hv]; [lia|].
  rewrite Hv. destruct (v =? 0); cbn [when].
  - apply wp_step. eapply (wp_stamp _ _ _ n); [done|done|]. intros cl t (? & ? & ? & ? & ->) Hrt.
    cbn [modify wp]. eapply HQ; [same_log|room Hrt].
  - cbn [ret wp]. apply (HQ (clock_log s) (isnot_first_running s)); [same_log|done].
Qed.

Lemma wp_upd_cproc s c o Q W :
  Q tt (set_pctx (k_setproc c o (pctx s)) s) -> wp (onctx (upd_cpu (set_cproc o) c) s) Q W.
Proof. intros HQ. exact HQ. Qed.

(** The rest of the scheduler's visit to a process, resumed in [t]. *)
Definition sched_back (c : nat) (kk : pstate E -> res (pstate E) unit) : Prop :=
  forall t e, k_switchkvm (env t) = Ret tt e ->
    kk t = Ret tt (set_pctx (k_setproc c None (pctx t)) (set_env e t)).

Lemma wp_run_proc s c cp i p e n :
  ctx_ok (pctx s) c cp -> procs s !! i = Some p -> length (p_name p) = 16%nat -> pid_fits s p ->
  k_switchuvm p (env s) = Ret tt e -> log_room (S n) s ->
  wp (run_proc c i s) (fun _ _ => False) (fun s1 kk =>
    (exists cl fr, log_eq (set_pctx (k_setproc c (Some i) (pctx s)) (set_env e
       (set_isnot_first_running fr (set_clock_log cl
         (set_procs (<[i := set_p_state RUNNING p]> (procs s)) s))))) s1) /\
    log_room n s1 /\ sched_back c kk).
Proof.
  intros Hc Hp Hnm Hpid Hsw Hr. unfold run_proc. go wp_upd_cproc. go wp_pread; [exact Hp|].
  go wp_onenv; [exact Hsw|]. apply wp_step. eapply (wp_first_run _ _ p (S n)); [exact Hp|exact Hpid|room Hr|].
  intros cl fr t (? & ? & ? & ? & ->) Hrt.
  go wp_proc_event; [exact Hp|done|exact (ctx_ok_setproc _ _ _ (Some i) Hc)|exact Hrt|].
  intros t (? & ? & ? & ? & ->) Hrt'. go wp_pwrite; [exact Hp|].
  apply wp_bind. cbn [swtch wp]. split_and!; [exists cl, fr; same_log|room Hrt'|].
  intros t e' He'. cbn [rbind]. unfold bind. by rewrite (onenv_Ret _ _ _ _ He').
Qed.

(** ** Round robin *)

Definition runnable (p : proc) : bool := is_state RUNNABLE p.

Lemma rr_visit_skip s c i p : procs s !! i = Some p -> runnable p = false -> rr_visit c i s = Ret tt s.
Proof.
  intros Hp Hr. unfold rr_visit. rewrite (bind_Ret _ _ _ _ _ (pread_ok p_state (PProc i) s p Hp)).
  unfold runnable, is_state in Hr. by rewrite Hr.
Qed.

Lemma rr_scan_none s c j m :
  (j + m <= nproc s)%nat -> nowhere runnable (procs s) -> forM (seq j m) (rr_visit c) s = Ret tt s.
Proof.
  intros Hj Hn. revert j Hj. induction m as [|m IH]; intros j Hj; [done|]. cbn [seq forM].
  destruct (lookup_lt_is_Some_2 (procs s) j) as [p Hp]; [unfold nproc in *; lia|].
  rewrite (bind_Ret _ _ _ _ _ (rr_visit_skip s c j p Hp (Hn j p Hp))). apply IH. lia.
Qed.

Lemma rr_scan_skip s c i p j :
  first_at runnable (procs s) i p -> (j <= i)%nat ->
  forM (seq j (nproc s - j)) (rr_visit c) s =
  bind (run_proc c i) (fun _ => forM (seq (S i) (nproc s - S i)) (rr_visit c)) s.
Proof.
  intros (Hp & Hr & Hfirst) Hj. assert (Hlt := lookup_lt_Some _ _ _ Hp).
  remember (i - j)%nat as d eqn:Hd. revert j Hj Hd.
  induction d as [|d IH]; intros j Hj Hd; replace (nproc s - j)%nat with (S (nproc s - S j)) by (unfold nproc; lia);
    cbn [seq forM].
  - replace j with i by lia. unfold bind at 1. unfold rr_visit at 1.
    rewrite (bind_Ret _ _ _ _ _ (pread_ok p_state (PProc i) s p Hp)).
    unfold runnable, is_state in Hr. rewrite Hr. done.
  - destruct (lookup_lt_is_Some_2 (procs s) j) as [q Hq]; [lia|].
    rewrite (bind_Ret _ _ _ _ _ (rr_visit_skip s c j q Hq (Hfirst j q ltac:(lia) Hq))). apply IH; lia.
Qed.

(** The context in which the turn takes [ptable.lock]. *)
Lemma wp_acquire_sti l s c cp Q W :
  ctx_ok (pctx s) c cp -> ncli cp = 0 -> locks (pctx s) !! l = None ->
  Q tt (set_pctx (k_acq l c (k_settle c true (pctx s))) s) ->
  wp (onctx (acquire l) (set_pctx (set_IF true (pctx s)) s)) Q W.
Proof.
  intros Hc Hn Hl HQ. eapply wp_eq; [|exact HQ]. unfold onctx. cbn.
  rewrite (acquire_unsettled (set_IF true (pctx s)) c cp l); [|by destruct Hc as [[? ?] _]|lia|done].
  cbn. by rewrite (k_acq_sti _ _ cp).
Qed.

Lemma rr_turn_idle s c cp :
  ctx_ok (pctx s) c cp -> ncli cp = 0 -> locks (pctx s) !! ptable_lock = None ->
  nowhere runnable (procs s) -> rr_turn c s = Ret tt (set_pctx (k_settle c true (pctx s)) s).
Proof.
  intros Hc Hn Hl Hno. assert (Hc1 := ctx_ok_settle _ _ _ true Hc Hn).
  assert (wp (rr_turn c s) (fun _ t => t = set_pctx (k_settle c true (pctx s)) s) stays) as H.
  { unfold rr_turn. apply wp_step. cbn [onctx sti modify liftr wp]. go wp_lock_event.
    apply wp_step. eapply wp_acquire_sti; [exact Hc|done..|]. apply wp_step. cbn [gets wp].
    apply wp_step. rewrite rr_scan_none; [|done|done]. cbn [wp]. go wp_lock_event.
    eapply wp_release; [done|exact Hc1|done|]. done. }
  by apply wp_Ret in H as ([] & s' & Hrun & ->).
Qed.

(** The rest of a turn that has run the process in slot [i], resumed in [t]. *)
Definition rr_rest (c i n : nat) : M (pstate E) unit :=
  forM (seq (S i) (n - S i)) (rr_visit c) ;;
  lock_event ACQUIRED RELEASED ;;
  onctx (release ptable_lock).

Lemma wp_rr_turn s c cp i p e n :
  ctx_ok (pctx s) c cp -> ncli cp = 0 -> locks (pctx s) !! ptable_lock = None ->
  first_at runnable (procs s) i p -> length (p_name p) = 16%nat -> pid_fits s p ->
  k_switchuvm p (env s) = Ret tt e -> log_room (S n) s ->
  wp (rr_turn c s) (fun _ _ => False) (fun s1 kk =>
    (exists cl fr, log_eq (set_pctx (k_acq ptable_lock c (k_setproc c (Some i) (k_settle c true (pctx s))))
       (set_env e (set_isnot_first_running fr (set_clock_log cl
         (set_procs (<[i := set_p_state RUNNING p]> (procs s)) s))))) s1) /\
    forall t e', k_switchkvm (env t) = Ret tt e' ->
      kk t = rr_rest c i (nproc s) (set_pctx (k_setproc c None (pctx t)) (set_env e' t))).
Proof.
  intros Hc Hn Hl Hf Hnm Hpid Hsw Hr. assert (Hc1 := ctx_ok_settle _ _ _ true Hc Hn).
  assert (Hc2 := ctx_ok_acq _ _ _ ptable_lock Hc1). assert (Hp := proj1 Hf).
  unfold rr_turn. apply wp_step. cbn [onctx sti modify liftr wp]. go wp_lock_event.
  apply wp_step. eapply wp_acquire_sti; [exact Hc|done..|]. apply wp_step. cbn [gets wp].
  set (s1 := set_pctx _ s). assert (Es := rr_scan_skip s1 c i p 0 Hf ltac:(lia)).
  rewrite Nat.sub_0_r in Es. apply wp_bind. rewrite Es. apply wp_bind.
  eapply wp_mono; [eapply (wp_run_proc s1 c _ i p e n); [exact Hc2|done|done|done|exact Hsw|room Hr]|by intros ? ? []|].
  intros s2 kk ((cl & fr & Ht) & _ & Hkk). split.
  - exists cl, fr. destruct Ht as (? & ? & ? & ? & ->).
    apply log_eq_fields; unfold set_logs, s1; pst; try reflexivity. apply k_acq_setproc.
  - intros t e' He'. by rewrite (Hkk t e' He').
Qed.
End Run.

(** ** Keeping the queues

    With [IS_MULTIPLE_RUNQUEUE] every runnable process is in one queue. *)

Section Queues.
Context {E : Type} `{!KEnv E}.
Implicit Types (s t : pstate E) (qs : list (list nat)).

(** [t] differs from [s] in the process table, the queues and the log only. *)
Definition frame s t : Prop :=
  log_eq (set_procs (procs t) (set_heads (heads t) (set_rqsize (rqsize t) s))) t.

Lemma frame_trans s1 s2 s3 : frame s1 s2 -> frame s2 s3 -> frame s1 s3.
Proof.
  intros (? & ? & ? & ? & H1) (? & ? & ? & ? & H2). unfold frame. rewrite H2, H1.
  apply log_eq_fields; unfold set_logs; pst; reflexivity.
Qed.

Lemma frame_links s t : links_only s t -> frame s t.
Proof. intros (_ & _ & H). unfold frame. rewrite <- H. reflexivity. Qed.

Lemma frame_procs s v : frame s (set_procs v s).
Proof. apply log_eq_fields; pst; reflexivity. Qed.

Lemma frame_log s t : log_eq s t -> frame s t.
Proof. intros (? & ? & ? & ? & ->). apply log_eq_fields; unfold set_logs; pst; reflexivity. Qed.

Lemma frame_pctx s t : frame s t -> pctx t = pctx s.
Proof. unfold frame. intros H. by rewrite <- H. Qed.

Lemma rep_ext s t qs :
  rqs_rep s qs -> length (heads t) = length (heads s) -> rqsize t = rqsize s -> nproc t = nproc s ->
  (forall q, nx t q = nx s q) -> (forall q, pv t q = pv s q) -> rqs_rep t qs.
Proof.
  intros [H1 H2 H3 H4 H5] Hh Hs Hn Hx Hp. split; [by rewrite Hh|by rewrite Hs|done|by rewrite Hn|].
  intros c l Hl. eapply chain_frame; [by rewrite Hx|by rewrite Hp| |by apply H5]. intros. by rewrite Hx, Hp.
Qed.

Lemma rep_log s t qs : log_eq s t -> rqs_rep s qs -> rqs_rep t qs.
Proof. intros (? & ? & ? & ? & ->) H. by apply (rep_ext s). Qed.

(** Writing a field that is not a link. *)
Lemma rep_write s qs i p f :
  procs s !! i = Some p -> p_next (f p) = p_next p -> p_prev (f p) = p_prev p ->
  rqs_rep s qs -> rqs_rep (set_procs (<[i := f p]> (procs s)) s) qs.
Proof.
  intros Hp Hn Hv H. apply (rep_ext s); [done..|unfold nproc; pst; by rewrite length_insert| |];
    intros [|j|d]; unfold nx, pv, node; pst; try done;
    (destruct (decide (i = j)) as [->|]; [rewrite list_lookup_insert_eq by (by eapply lookup_lt_Some); rewrite Hp; cbn; by f_equal
    |by rewrite list_lookup_insert_ne]).
Qed.

Lemma wp_enqueue_at c d cp s qs l i p Q W :
  ctx_ok (pctx s) d cp -> locks (pctx s) !! rq_lock c = None -> rqs_rep s qs -> qs !! c = Some l ->
  procs s !! i = Some p -> i ∉ concat qs -> Some (p_pid p) ∉ pids_of s l ->
  (forall t, rqs_rep t (<[c := l ++ [i]]> qs) -> links_only s t -> Q tt t) ->
  wp ((onctx (acquire (rq_lock c)) ;; enqueue c (PProc i) ;; onctx (release (rq_lock c))) s) Q W.
Proof.
  intros Hc Hl Hr Hq Hp Hi Hpid HQ. go wp_acquire; [done|done|].
  assert (Hr1 := rep_pctx (k_acq (rq_lock c) d (pctx s)) _ _ Hr).
  apply wp_step. eapply wp_eq; [eapply (enqueue_run _ qs c l i p); try done; by eapply rep_length|].
  rewrite enq_set_pctx. eapply wp_release; [done|exact Hc|done|].
  assert (Hlt := lookup_lt_Some _ _ _ Hp). pose proof (enqueue_rep s qs c l i Hr Hq Hlt Hi) as Hrep.
  set (t := enq_state c (PProc i) _ s) in *.
  change (set_pctx (pctx s) (set_pctx (k_acq (rq_lock c) d (pctx s)) t)) with (set_pctx (pctx s) t).
  rewrite <- (enq_pctx c (PProc i) (List.last (PProc <$> l) (PHead c)) s), set_pctx_id.
  apply HQ; [done|apply enq_links].
Qed.

Lemma wp_enqueue_here c cp s qs l i p Q :
  ctx_ok (pctx s) c cp -> locks (pctx s) !! rq_lock c = None -> rqs_rep s qs -> qs !! c = Some l ->
  procs s !! i = Some p -> i ∉ concat qs -> Some (p_pid p) ∉ pids_of s l ->
  (forall t, rqs_rep t (<[c := l ++ [i]]> qs) -> links_only s t -> Q tt t) ->
  wp (enqueue_here (PProc i) s) Q stays.
Proof.
  intros Hc Hl Hr Hq Hp Hi Hpid HQ. unfold enqueue_here. go wp_mycpuid; [done|].
  by eapply wp_enqueue_at.
Qed.

(** The invariant of the multi-queue scheduler: the runnable slots are the queued
    ones, and no two live processes have the same pid. *)
Definition runq_iff (ps : list proc) (slots : list nat) : Prop :=
  forall i p, ps !! i = Some p -> (p_state p = RUNNABLE <-> i ∈ slots).
Definition pids_ok (ps : list proc) : Prop :=
  forall i j p q, ps !! i = Some p -> ps !! j = Some q ->
    p_state p <> UNUSED -> p_state q <> UNUSED -> p_pid p = p_pid q -> i = j.
Record queues_ok s qs : Prop := {
  qo_rep : rqs_rep s qs;
  qo_iff : runq_iff (procs s) (concat qs);
  qo_pids : pids_ok (procs s)
}.

Lemma erase_at (ps ps' : list proc) (i : nat) p :
  erase <$> ps' = erase <$> ps -> ps !! i = Some p -> exists p', ps' !! i = Some p' /\ erase p' = erase p.
Proof.
  intros H Hp. assert (Hl : (erase <$> ps') !! i = Some (erase p)) by (by rewrite H, list_lookup_fmap, Hp).
  rewrite list_lookup_fmap in Hl. destruct (ps' !! i) as [p'|]; [|done]. exists p'. split; [done|]. by apply (inj Some).
Qed.

Lemma erase_state p p' : erase p = erase p' -> p_state p = p_state p'.
Proof. intros H. exact (f_equal p_state H). Qed.

Lemma runq_iff_ext (ps ps' : list proc) sl : erase <$> ps' = erase <$> ps -> runq_iff ps sl -> runq_iff ps' sl.
Proof.
  intros He Hi i p' Hp'. destruct (erase_at _ _ i p' (eq_sym He) Hp') as (p & Hps & Hep).
  rewrite <- (Hi i p Hps). by rewrite (erase_state _ _ Hep).
Qed.

Lemma pids_ok_ext (ps ps' : list proc) : erase <$> ps' = erase <$> ps -> pids_ok ps -> pids_ok ps'.
Proof.
  intros He Hp i j p' q' Hp' Hq' Hup Huq Heq. destruct (erase_at _ _ i p' (eq_sym He) Hp') as (p & Hps & Hep).
  destruct (erase_at _ _ j q' (eq_sym He) Hq') as (q & Hqs & Heq').
  apply (Hp i j p q); [done|done|by rewrite (erase_state _ _ Hep)|by rewrite (erase_state _ _ Heq')|].
  by rewrite (erase_pid _ _ Hep), (erase_pid _ _ Heq').
Qed.

(** A slot in no queue gets a runnable process with a new pid, and queue [c] its
    number. *)
Lemma queues_add s t qs c l i p :
  queues_ok s qs -> qs !! c = Some l -> (i < length (procs s))%nat -> p_state p = RUNNABLE ->
  (forall j q, j <> i -> procs s !! j = Some q -> p_state q <> UNUSED -> p_pid q <> p_pid p) ->
  rqs_rep t (<[c := l ++ [i]]> qs) -> erase <$> procs t = erase <$> <[i := p]> (procs s) ->
  queues_ok t (<[c := l ++ [i]]> qs).
Proof.
  intros [_ Hi Hp] Hc Hlt Hst Hfresh Hr He. split; [done| |].
  - apply (runq_iff_ext _ _ _ He). intros j q Hq.
    rewrite (concat_insert _ _ _ (l ++ [i]) Hc). specialize (Hi j).
    apply list_lookup_insert_Some in Hq as [(-> & <- & _)|[Hne Hq]]; [set_solver|].
    rewrite (Hi q Hq), (concat_split _ _ _ Hc). set_solver.
  - apply (pids_ok_ext _ _ He). intros j1 j2 q1 q2 Hq1 Hq2 U1 U2 Heq.
    apply list_lookup_insert_Some in Hq1 as [(<- & <- & _)|[Hn1 Hq1]];
      apply list_lookup_insert_Some in Hq2 as [(<- & <- & _)|[Hn2 Hq2]]; [done| | |].
    + by destruct (Hfresh j2 q2).
    + by destruct (Hfresh j1 q1).
    + by apply (Hp j1 j2 q1 q2).
Qed.

(** The pid of a live process outside the queues is not the pid of a queued one. *)
Lemma queues_pid_fresh s qs c l i p :
  queues_ok s qs -> qs !! c = Some l -> procs s !! i = Some p -> p_state p <> UNUSED -> i ∉ concat qs ->
  Some (p_pid p) ∉ pids_of s l.
Proof.
  intros [Hr Hi Hp] Hc Hps Hu Hnot (j & Hj & Hjl)%list_elem_of_fmap.
  assert (Hjq : j ∈ concat qs) by (apply elem_of_concat; exists l; split; [by eapply list_elem_of_lookup_2|done]).
  destruct (procs s !! j) as [q|] eqn:Hq; [|done]. cbn in Hj. simplify_eq.
  assert (i = j); [|by subst]. apply (Hp i j p q); try done. rewrite (proj2 (Hi j q Hq) Hjq). done.
Qed.

Lemma erase_insert (ps ps' : list proc) (i : nat) p p' :
  erase <$> ps' = erase <$> ps -> erase p' = erase p -> erase <$> <[i := p']> ps' = erase <$> <[i := p]> ps.
Proof. intros H Hp. by rewrite !list_fmap_insert, H, Hp. Qed.

Lemma erase_set_state p p' st : erase p = erase p' -> erase (set_p_state st p) = erase (set_p_state st p').
Proof. intros H. exact (f_equal (set_p_state st) H). Qed.

(** [wakeup1] on one slot. *)
Lemma wp_wake_one_multi s qs c cp l ch i p n :
  queues_ok s qs -> qs !! c = Some l -> ctx_ok (pctx s) c cp -> locks (pctx s) !! rq_lock c = None ->
  procs s !! i = Some p -> length (p_name p) = 16%nat -> log_room ((if wakes ch p then 1 else 0) + n) s ->
  wp (wake_one true ch i s) (fun _ t =>
    queues_ok t (if wakes ch p then <[c := l ++ [i]]> qs else qs) /\ frame s t /\ log_room n t /\
    erase <$> procs t = erase <$> <[i := wake ch p]> (procs s)) stays.
Proof.
  intros Hok Hc Hctx Hlk Hp Hnm Hr. unfold wake_one. do 2 (go wp_pread; [exact Hp|]).
  unfold wake. change (bool_decide _ && bool_decide _) with (wakes ch p).
  destruct (wakes ch p) eqn:Hw; cbn [when Nat.add] in *.
  2:{ cbn [ret wp]. split_and!; [done|by apply frame_log|done|]. by rewrite list_insert_id. }
  assert (Hst : p_state p = SLEEPING).
  { unfold wakes in Hw. apply andb_prop in Hw as [Hw _]. by apply bool_decide_eq_true in Hw. }
  assert (Hnot : i ∉ concat qs) by (rewrite <- (qo_iff _ _ Hok i p Hp), Hst; done).
  assert (Hfresh := queues_pid_fresh s qs c l i p Hok Hc Hp ltac:(by rewrite Hst) Hnot).
  go wp_proc_event; [exact Hp|done|exact Hctx|exact Hr|]. intros t1 Ht1 Hr1.
  apply wp_step. eapply (wp_enqueue_here c cp t1 qs l i p).
  - by rewrite <- Ht1.
  - by rewrite <- Ht1.
  - apply (rep_log _ _ _ Ht1), Hok.
  - done.
  - by rewrite <- Ht1.
  - done.
  - unfold pids_of in *. by rewrite <- (log_eq_procs _ _ Ht1).
  - intros t Hrep Hlinks.
    assert (He : erase <$> procs t = erase <$> procs s) by (rewrite (proj1 Hlinks); by rewrite <- Ht1).
    destruct (erase_at _ _ i p He Hp) as (p2 & Hp2 & Hep).
    assert (He2 := erase_insert _ _ i _ _ He (erase_set_state _ _ RUNNABLE Hep)).
    eapply wp_pwrite; [exact Hp2|]. split_and!.
    + apply (queues_add s _ qs c l i (set_p_state RUNNABLE p)); [done|done|by eapply lookup_lt_Some|done| |by apply rep_write|exact He2].
      intros j q Hne Hq Hu Heq. apply Hne. apply (qo_pids _ _ Hok j i q p); try done. by rewrite Hst.
    + eapply frame_trans; [apply frame_log, Ht1|]. eapply frame_trans; [apply frame_links, Hlinks|apply frame_procs].
    + apply (log_room_fields _ _ _ Hr1); destruct Hlinks as (_ & _ & Hl); rewrite Hl; reflexivity.
    + exact He2.
Qed.

(** The slots below [j] that a [wakeup1] wakes, in order. *)
Definition woken_slots (ch : option chan) (ps : list proc) (j : nat) : list nat :=
  List.filter (fun i => match ps !! i with Some p => wakes ch p | None => false end) (seq 0 j).

Lemma woken_slots_S ch ps j p :
  ps !! j = Some p -> woken_slots ch ps (S j) = woken_slots ch ps j ++ (if wakes ch p then [j] else []).
Proof.
  intros H. unfold woken_slots. rewrite seq_S, List.filter_app. cbn [List.filter Nat.add]. rewrite H.
  by destruct (wakes ch p).
Qed.

Lemma erase_wakes ch p p' : erase p = erase p' -> wakes ch p = wakes ch p'.
Proof. intros H. exact (f_equal (wakes ch) H). Qed.

Lemma erase_wake ch p p' : erase p = erase p' -> erase (wake ch p) = erase (wake ch p').
Proof.
  intros H. unfold wake. rewrite (erase_wakes ch _ _ H). destruct (wakes ch p'); [by apply erase_set_state|done].
Qed.

Lemma wp_wakeup1_multi s qs c cp l ch n :
  queues_ok s qs -> qs !! c = Some l -> ctx_ok (pctx s) c cp -> locks (pctx s) !! rq_lock c = None ->
  names_ok s -> log_room (nwakes ch (procs s) + n) s ->
  wp (wakeup1 true ch s) (fun _ t =>
    queues_ok t (<[c := l ++ woken_slots ch (procs s) (nproc s)]> qs) /\ frame s t /\ log_room n t /\
    erase <$> procs t = erase <$> (wake ch <$> procs s)) stays.
Proof.
  intros Hok Hc Hctx Hlk Hnm Hr. unfold wakeup1. apply wp_step. cbn [gets wp].
  assert (Hcl := lookup_lt_Some _ _ _ Hc).
  eapply wp_mono; [apply (wp_forM _ _ (fun j t =>
    queues_ok t (<[c := l ++ woken_slots ch (procs s) j]> qs) /\ frame s t /\
    log_room (nwakes ch (drop j (procs s)) + n) t /\
    erase <$> procs t = erase <$> mapto (wake ch) j (procs s)))| |done].
  - cbn. rewrite app_nil_r, list_insert_id, mapto_0, drop_0 by done. split_and!; [done|by apply frame_log|done|done].
  - intros j i t [-> Hj]%lookup_seq (Hokt & Hft & Hrt & Het). cbn [Nat.add].
    destruct (lookup_lt_is_Some_2 (procs s) j Hj) as [p Hp].
    destruct (erase_at _ _ j p Het) as (p' & Hp' & Hep); [by rewrite mapto_at|].
    assert (Hw := erase_wakes ch _ _ Hep). assert (Hpx := frame_pctx _ _ Hft).
    rewrite (nwakes_drop _ _ _ _ Hp), <- Nat.add_assoc, <- Hw in Hrt.
    eapply wp_mono; [eapply (wp_wake_one_multi t _ c cp); [exact Hokt|by apply list_lookup_insert_eq
      |by rewrite Hpx|by rewrite Hpx|exact Hp'| |exact Hrt]| |done].
    + rewrite (f_equal p_name Hep : p_name p' = p_name p). by eapply names_at.
    + intros _ t' (Hok' & Hf' & Hr' & He'). split_and!; [|by eapply frame_trans|done|].
      * rewrite (woken_slots_S _ _ _ _ Hp), <- Hw. destruct (wakes ch p'); [|by rewrite app_nil_r].
        by rewrite list_insert_insert_eq, <- (assoc_L (++)) in Hok'.
      * rewrite He', <- (mapto_step _ _ _ _ Hp). apply erase_insert; [done|by apply erase_wake].
  - intros _ t (Hokt & Hft & Hrt & Het). rewrite length_seq in *. unfold nproc in *.
    rewrite mapto_all in Het. rewrite drop_all in Hrt. done.
Qed.

(** *** [fork]: the smallest queue *)

(** [v] is the first of the shortest queues, among the first [n]. *)
Definition is_smallest qs (n v : nat) : Prop :=
  (v < n)%nat /\ exists l, qs !! v = Some l /\
  forall i k, (i < n)%nat -> qs !! i = Some k ->
    (length l <= length k)%nat /\ ((i < v)%nat -> (length l < length k)%nat).

Definition min_inv qs (j : nat) (t : option nat) (min : Z) : Prop :=
  match t with
  | None => j = 0%nat /\ min = NPROC
  | Some v => is_smallest qs j v /\ exists l, qs !! v = Some l /\ min = Z.of_nat (length l)
  end.

Lemma min_inv_step qs j (t : option nat) min l :
  (forall i k, qs !! i = Some k -> Z.of_nat (length k) < NPROC) ->
  min_inv qs j t min -> qs !! j = Some l ->
  if Z.of_nat (length l) <? min then min_inv qs (S j) (Some j) (Z.of_nat (length l)) else min_inv qs (S j) t min.
Proof.
  intros Hb Hi Hl. destruct t as [v|]; cbn in Hi.
  - destruct Hi as ((Hv & k & Hk & Hall) & k' & Hk' & ->). simplify_eq.
    destruct (Z.ltb_spec (Z.of_nat (length l)) (Z.of_nat (length k))); (split; [split; [lia|]|by eauto]);
      [exists l|exists k]; (split; [done|]); intros i k' Hi Hk';
      (destruct (decide (i = j)) as [->|]; [simplify_eq; lia|]);
      destruct (Hall i k') as [? ?]; [lia|done|lia|lia|done|done].
  - destruct Hi as [-> ->]. specialize (Hb _ _ Hl). destruct (Z.ltb_spec (Z.of_nat (length l)) NPROC); [|lia].
    split; [split; [lia|]|by eauto]. exists l. split; [done|]. intros [|i] k' Hi Hk'; [simplify_eq; lia|lia].
Qed.

Lemma min_seek_ok s qs j m (t : option nat) min :
  rqs_rep s qs -> (forall i k, qs !! i = Some k -> Z.of_nat (length k) < NPROC) ->
  (j + m <= length qs)%nat -> min_inv qs j t min ->
  exists o min', min_seek (seq j m) t min s = Ret o s /\ min_inv qs (j + m) o min'.
Proof.
  intros Hr Hb. revert j t min. induction m as [|m IH]; intros j t min Hm Hi; cbn.
  - exists t, min. by rewrite Nat.add_0_r.
  - destruct (lookup_lt_is_Some_2 qs j) as [l Hl]; [lia|].
    rewrite (bind_Ret _ _ _ _ _ (get_rqsize_rep _ _ _ _ Hr Hl)).
    assert (Hstep := min_inv_step _ _ _ _ _ Hb Hi Hl). rewrite <- Nat.add_succ_comm.
    destruct (_ <? _); apply IH; try lia; done.
Qed.

(** A queue is shorter than the table while some slot is in no queue. *)
Lemma queue_short s qs c l i :
  rqs_rep s qs -> qs !! c = Some l -> (i < nproc s)%nat -> i ∉ concat qs -> (length l < nproc s)%nat.
Proof.
  intros Hr Hl Hi Hn. assert (Hs := concat_split _ _ _ Hl).
  assert (H : (length (i :: l) <= nproc s)%nat); [|cbn in H; lia].
  assert (Hnd := rep_nodup _ _ Hr). assert (Hsl := rep_slots _ _ Hr). rewrite Hs in Hnd, Hsl, Hn.
  apply length_below.
  - apply NoDup_cons. split; [set_solver|]. by apply NoDup_app in Hnd as [? _].
  - apply Forall_cons. split; [done|]. by apply Forall_app in Hsl as [? _].
Qed.

Lemma is_smallest_unique qs n v v' : is_smallest qs n v -> is_smallest qs n v' -> v = v'.
Proof.
  intros (Hv & l & Hl & H) (Hv' & l' & Hl' & H').
  destruct (H v' l' Hv' Hl') as [? Hlt]. destruct (H' v l Hv Hl) as [? Hlt'].
  destruct (decide (v < v')%nat); [lia|]. destruct (decide (v' < v)%nat); lia.
Qed.

Lemma wp_enqueue_smallest s qs c cp v l i p Q :
  ctx_ok (pctx s) c cp -> (forall d, locks (pctx s) !! rq_lock d = None) ->
  rqs_rep s qs -> ncpu s = length qs -> Z.of_nat (nproc s) <= NPROC ->
  is_smallest qs (length qs) v -> qs !! v = Some l ->
  procs s !! i = Some p -> i ∉ concat qs -> Some (p_pid p) ∉ pids_of s l ->
  (forall t, rqs_rep t (<[v := l ++ [i]]> qs) -> links_only s t -> Q tt t) ->
  wp (enqueue_smallest (PProc i) s) Q stays.
Proof.
  intros Hc Hlk Hok Hn Hnp Hv Hl Hp Hi Hpid HQ. assert (Hlt := lookup_lt_Some _ _ _ Hp).
  unfold enqueue_smallest. apply wp_step. cbn [gets wp]. rewrite Hn.
  destruct (min_seek_ok s qs 0 (length qs) None NPROC) as (t & m & Ht & Hinv).
  - done.
  - intros d k Hk. pose proof (queue_short _ _ _ _ _ Hok Hk Hlt Hi). lia.
  - lia.
  - done.
  - rewrite (bind_Ret _ _ _ _ _ Ht). cbn [Nat.add] in Hinv. destruct t as [v'|]; cbn in Hinv.
    + destruct Hinv as [Hv' _]. rewrite (is_smallest_unique _ _ _ _ Hv' Hv).
      by eapply wp_enqueue_at.
    + destruct Hinv as [Hz _]. destruct Hv as [? _]. lia.
Qed.

Lemma rep_set_slot s t qs i p p' :
  rqs_rep s qs -> procs s !! i = Some p -> p_next p' = p_next p -> p_prev p' = p_prev p ->
  procs t = <[i := p']> (procs s) -> heads t = heads s -> rqsize t = rqsize s -> rqs_rep t qs.
Proof.
  intros Hr Hp Hn Hv Hpt Hh Hs. apply (rep_ext (set_procs (<[i := p']> (procs s)) s)); pst.
  - by apply (rep_write s qs i p (fun _ => p')).
  - by rewrite Hh.
  - done.
  - unfold nproc. by rewrite Hpt.
  - intros [|j|d]; unfold nx, node; pst; [done|by rewrite Hpt|by rewrite Hh].
  - intros [|j|d]; unfold pv, node; pst; [done|by rewrite Hpt|by rewrite Hh].
Qed.

Lemma ncpu_acq l c k : length (cpus (k_acq l c k)) = length (cpus k).
Proof. unfold k_acq, k_push; ks. by rewrite length_alter. Qed.

Lemma wp_fork_multi s qs v l c cp cur q i p ks pg e1 e2 e3 str n :
  can_fork s c cp cur q i p ks pg e1 e2 str -> dup_returns q e2 e3 -> pg <> 0 -> log_room (S (S n)) s ->
  queues_ok s qs -> (forall d, locks (pctx s) !! rq_lock d = None) ->
  ncpu s = length qs -> Z.of_nat (nproc s) <= NPROC -> is_smallest qs (length qs) v -> qs !! v = Some l ->
  (forall j r, procs s !! j = Some r -> p_state r <> UNUSED -> p_pid r < nextpid s) ->
  wp (fork true s) (fun r t => r = nextpid s /\ exists nm, length nm = 16%nat /\ name_str nm (take 15 str) /\
    queues_ok t (<[v := l ++ [i]]> qs) /\ pctx t = pctx s /\
    erase <$> procs t = erase <$> <[i := child (nextpid s) ks pg cur q nm p]> (procs s)) stays.
Proof.
  intros Hcf Hdup Hpg Hr Hok Hlk Hn Hnp Hv Hl Hpids. assert (Hfree := cf_free _ _ _ _ _ _ _ _ _ _ _ _ Hcf).
  destruct Hfree as (Hp & Hst & _). assert (Hlt := lookup_lt_Some _ _ _ Hp).
  unfold is_state in Hst. apply bool_decide_eq_true in Hst.
  assert (Hnot : i ∉ concat qs) by (rewrite <- (qo_iff _ _ Hok i p Hp), Hst; done).
  eapply (wp_fork true _ _ _ _ _ _ _ _ _ _ _ _ _ n _ Hcf Hdup Hpg Hr).
  intros nm cl t Hnm Hstr Hrt Ht. cbn [when]. set (ch := child _ _ _ _ _ _ _) in *.
  destruct Ht as (? & ? & ? & ? & ->). eapply (wp_enqueue_smallest _ qs c _ v l i ch).
  - exact (ctx_ok_acq _ _ _ ptable_lock (cf_ctx _ _ _ _ _ _ _ _ _ _ _ _ Hcf)).
  - intros d. unfold set_logs; pst. rewrite locks_acq, decide_False; [done|]. intros H. by symmetry in H.
  - by apply (rep_set_slot s _ qs i p ch); [apply Hok|..].
  - unfold ncpu, set_logs; pst. rewrite ncpu_acq. exact Hn.
  - unfold nproc, set_logs; pst. by rewrite length_insert.
  - done.
  - done.
  - unfold set_logs; pst. by apply list_lookup_insert_eq.
  - done.
  - intros (j & Hj & Hjl)%list_elem_of_fmap. unfold set_logs in Hj; revert Hj; pst.
    assert (Hjq : j ∈ concat qs) by (apply elem_of_concat; exists l; split; [by eapply list_elem_of_lookup_2|done]).
    rewrite list_lookup_insert_ne by (by intros ->). destruct (procs s !! j) as [r|] eqn:Hjr; [|done]. cbn.
    intros [= Heq]. assert (p_pid r < nextpid s); [|lia].
    apply (Hpids j r Hjr). by rewrite (proj2 (qo_iff _ _ Hok j r Hjr) Hjq).
  - intros t Hrep Hlinks. assert (Hpx := frame_pctx _ _ (frame_links _ _ Hlinks)). split; [done|].
    assert (He := proj1 Hlinks). unfold set_logs in He; revert He; pst; intros He. split_and!; [|done|done].
    apply (queues_add s _ qs v l i ch); [done|done|done|done| |by apply rep_pctx|exact He].
    intros j r Hne Hjr Hu Heq. specialize (Hpids j r Hjr Hu). cbn in Heq. lia.
Qed.

(** *** One turn of the multi-queue scheduler *)

Lemma queues_del s t qs c l i p :
  queues_ok s qs -> qs !! c = Some (i :: l) -> p_state p <> RUNNABLE -> p_state p <> UNUSED ->
  (forall q, procs s !! i = Some q -> p_pid p = p_pid q) ->
  rqs_rep t (<[c := l]> qs) -> erase <$> procs t = erase <$> <[i := p]> (procs s) ->
  queues_ok t (<[c := l]> qs).
Proof.
  intros [Hrep Hi Hp] Hc Hst Hu Hpid Hr He. assert (Hs := concat_split _ _ _ Hc). cbn in Hs.
  assert (Hnd := rep_nodup _ _ Hrep). rewrite Hs in Hnd. apply NoDup_cons in Hnd as [Hnot _].
  split; [done| |].
  - apply (runq_iff_ext _ _ _ He). intros j q Hq. rewrite (concat_insert _ _ _ l Hc). specialize (Hi j).
    apply list_lookup_insert_Some in Hq as [(-> & <- & _)|[Hne Hq]]; [done|].
    rewrite (Hi q Hq), Hs. set_solver.
  - apply (pids_ok_ext _ _ He).
    assert (Hself : forall j q, procs s !! j = Some q -> p_state q <> UNUSED -> p_pid p = p_pid q -> i = j).
    { intros j q Hq Hu' Heq. destruct (procs s !! i) as [q0|] eqn:Hq0.
      - apply (Hp i j q0 q Hq0 Hq); [|done|by rewrite <- (Hpid q0 eq_refl)].
        rewrite (proj2 (Hi i q0 Hq0)); [done|]. rewrite Hs. set_solver.
      - assert (Hsl := rep_slots _ _ Hrep). rewrite Hs in Hsl. apply Forall_cons in Hsl as [Hlt _].
        apply lookup_ge_None in Hq0. unfold nproc in Hlt. lia. }
    intros j1 j2 q1 q2 Hq1 Hq2 U1 U2 Heq.
    apply list_lookup_insert_Some in Hq1 as [(<- & <- & _)|[Hn1 Hq1]];
      apply list_lookup_insert_Some in Hq2 as [(<- & <- & _)|[Hn2 Hq2]]; [done| | |].
    + by apply (Hself j2 q2).
    + symmetry. by apply (Hself j1 q1).
    + by apply (Hp j1 j2 q1 q2).
Qed.

Lemma wp_multi_turn s qs c cp i l p e n :
  queues_ok s qs -> qs !! c = Some (i :: l) -> ctx_ok (pctx s) c cp -> ncli cp = 0 ->
  locks (pctx s) !! rq_lock c = None -> locks (pctx s) !! ptable_lock = None ->
  procs s !! i = Some p -> length (p_name p) = 16%nat -> pid_fits s p ->
  (forall q, erase q = erase p -> k_switchuvm q (env s) = Ret tt e) -> log_room (S n) s ->
  wp (multi_turn c c s) (fun _ _ => False) (fun s1 kk =>
    queues_ok s1 (<[c := l]> qs) /\ pctx s1 = k_setproc c (Some i) (k_settle c true (pctx s)) /\
    erase <$> procs s1 = erase <$> <[i := set_p_state RUNNING p]> (procs s) /\ sched_back c kk).
Proof.
  intros Hok Hc Hctx Hn Hrl Hpl Hp Hnm Hpid Hsw Hr.
  assert (Hc1 := ctx_ok_settle _ _ _ true Hctx Hn). assert (Hc2 := ctx_ok_acq _ _ _ (rq_lock c) Hc1).
  unfold multi_turn. apply wp_step. cbn [onctx sti modify liftr wp].
  apply wp_step. eapply wp_acquire_sti; [exact Hctx|done..|].
  set (k1 := k_settle c true (pctx s)) in *. set (s1 := set_pctx _ s).
  assert (Hr1 : rqs_rep s1 qs) by apply rep_pctx, Hok.
  rewrite (bind_Ret _ _ _ _ _ (get_rqsize_rep _ _ _ _ Hr1 Hc)).
  destruct (Z.eqb_spec (Z.of_nat (length (i :: l))) 0) as [H0|_]; [cbn in H0; lia|].
  assert (Hpl1 : locks (pctx s1) !! ptable_lock = None).
  { change (pctx s1) with (k_acq (rq_lock c) c k1). by rewrite locks_acq, decide_False. }
  apply wp_step. eapply wp_eq; [by apply (dequeue_run s1 qs c i l c _ Hr1 Hc Hc2 Hpl1)|].
  set (s2 := deq_state c i _ s1). assert (Hrep := dequeue_rep _ _ _ _ _ Hr1 Hc). fold s2 in Hrep.
  assert (Hlk : links_only s1 s2) by apply deq_links.
  assert (Hpx : pctx s2 = k_acq (rq_lock c) c k1) by (unfold s2; by rewrite deq_pctx).
  go wp_release; [exact Hpx|exact Hc1|done|].
  destruct (erase_at (procs s) (procs s2) i p (proj1 Hlk) Hp) as (p2 & Hp2 & Hep).
  assert (Hfr : s2 = set_procs (procs s2) (set_heads (heads s2) (set_rqsize (rqsize s2) s1))) by apply Hlk.
  eapply wp_mono; [eapply (wp_run_proc _ c _ i p2 e n); [exact Hc1|exact Hp2| | | |]|by intros ? ? []|].
  - by rewrite (f_equal p_name Hep : p_name p2 = p_name p).
  - unfold pid_fits. pst. rewrite (erase_pid _ _ Hep), Hfr. exact Hpid.
  - rewrite Hfr. by apply Hsw.
  - apply (log_room_fields _ _ _ Hr); rewrite Hfr; reflexivity.
  - intros t kk ((cl & fr & (? & ? & ? & ? & ->)) & _ & Hkk).
    assert (He : erase <$> <[i := set_p_state RUNNING p2]> (procs s2) = erase <$> <[i := set_p_state RUNNING p]> (procs s)).
    { apply erase_insert; [apply Hlk|by apply erase_set_state]. }
    split_and!; [|done|exact He|done].
    apply (queues_del s _ qs c l i (set_p_state RUNNING p)); try done.
    + intros q Hq. by simplify_eq.
    + by apply (rep_set_slot s2 _ _ i p2 (set_p_state RUNNING p2)).
Qed.
End Queues.
