(* ===== verification/ProcTheorems.v ===== *)
(** * The process component: properties

    The theorems that make [proc.c] correct, each with a run on a small machine. *)

From Stdlib Require Import ZArith Lia.
From S2P Require Import Prelude Spinlock ProcDefs Runqueue Strings Schedlog Proc ProcSpec ProcLife ProcSched.

(** ** Concrete states *)

Definition mkp (pid : Z) (st : procstate) (par : option nat) (ch : option chan) : proc :=
  set_p_chan ch (set_p_parent par (set_p_pid pid (set_p_state st zero_proc))).
Definition with_procs (ps : list proc) : pstate unit := set_procs ps demo_state.
Definition with_env {E E'} (e : E) (s : pstate E') : pstate E :=
  mkpstate (pctx s) (procs s) (heads s) (rqsize s) (nextpid s) (finished_fork s) (isnot_first_running s)
    (end_clock s) (initproc s) (buf_log s) (bufsize s) (clock_log s) (first s) (tsc_reads s) e.

Definition pipe_lock : lockid := ("pipe"%string, 0).
Definition pipe_chan : chan := ("pipe.nread"%string, 0).

(** An environment that writes down the calls to the file system it gets, in order. *)
Variant fs_call := Fdup (f : Z) | Fclose (f : Z) | Idup (ip : Z) | Iput (ip : Z) | Begin_op | End_op.
Definition note {A} (c : fs_call) (a : A) : M (list fs_call) A := modify (fun l => l ++ [c]) ;; ret a.

#[export] Instance tracing : KEnv (list fs_call) := {|
  k_kalloc := ret 0x100000;
  k_kfree := fun _ => ret tt;
  k_setupkvm := ret 0x200000;
  k_inituvm := fun _ => ret tt;
  k_copyuvm := fun _ _ => ret 0x300000;
  k_freevm := fun _ => ret tt;
  k_allocuvm := fun _ _ n => ret n;
  k_deallocuvm := fun _ _ n => ret n;
  k_switchuvm := fun _ => ret tt;
  k_switchkvm := ret tt;
  k_filedup := fun f => note (Fdup f) f;
  k_fileclose := fun f => note (Fclose f) tt;
  k_idup := fun ip => note (Idup ip) ip;
  k_iput := fun ip => note (Iput ip) tt;
  k_namei := fun _ => ret 0x400000;
  k_begin_op := note Begin_op tt;
  k_end_op := note End_op tt;
  k_iinit := fun _ => ret tt;
  k_initlog := fun _ => ret tt;
  k_tsc := fun n => mkclock 0 (Z.of_nat n);
  forkret_addr := 0x80101000;
  trapret_addr := 0x80102000
|}.

Lemma zero_name : name_str (replicate 16 0) [].
Proof. exists (replicate 15 0). split; [done|set_solver]. Qed.

(** ** Sleeping and waking *)

(** C12 (functional).  [sleep(chan, lk)] gives the CPU up exactly once: at that moment
    the process is SLEEPING on [chan], [lk] is free and [ptable.lock] is held, all in
    one step as seen by any holder of [ptable.lock].  Resumed on any CPU that hands
    [ptable.lock] over, it clears the channel, drops [ptable.lock] and returns holding
    [lk], with the interrupt state it had before it first took a lock. *)
Theorem sleep_atomic {E} `{!KEnv E} (s : pstate E) ch l k i c p q :
  pctx s = k_acq l i k -> ctx_ok k i c -> ncli c = 0 -> cproc c = Some p -> l <> ptable_lock ->
  locks k !! l = None -> locks k !! ptable_lock = None ->
  procs s !! p = Some q -> length (p_name q) = 16%nat -> log_room 1 s ->
  exists s1 kk, sleep false ch (Some l) s = Swtch s1 kk /\
    log_eq (set_pctx (k_acq ptable_lock i k)
      (set_procs (<[p := set_p_state SLEEPING (set_p_chan (Some ch) q)]> (procs s)) s)) s1 /\
    wakes_up p l (eflags_IF k) kk.
Proof.
  intros. destruct (wp_Swtch _ _ (wp_sleep s ch l k i c p q 0 ltac:(done) ltac:(done) ltac:(done)
    ltac:(done) ltac:(done) ltac:(done) ltac:(done) ltac:(done) ltac:(done) ltac:(done)))
    as (s1 & kk & Hrun & Heq & _ & Hkk). by exists s1, kk.
Qed.

Lemma sleep_atomic_witness :
  exists s1 kk, sleep false pipe_chan (Some pipe_lock) (set_pctx (k_acq pipe_lock 0 demo_ctx) demo_state) = Swtch s1 kk /\
    p_state <$> procs s1 !! 0%nat = Some SLEEPING /\ locks (pctx s1) !! pipe_lock = None.
Proof.
  destruct (sleep_atomic (set_pctx (k_acq pipe_lock 0 demo_ctx) demo_state) pipe_chan pipe_lock demo_ctx 0 demo_cpu0 0
    (linked 1 RUNNING PNull PNull) eq_refl demo_ctx_ok eq_refl eq_refl ltac:(done) eq_refl eq_refl eq_refl eq_refl
    (or_introl eq_refl)) as (s1 & kk & H1 & H2 & _).
  exists s1, kk. split_and!; [exact H1|by rewrite <- H2|by rewrite <- H2].
Defined.

(** C13 (functional).  [wakeup(chan)] makes runnable exactly the processes that sleep
    on [chan] and changes nothing else but the log; every lock is free again. *)
Theorem wakeup_exact {E} `{!KEnv E} (s : pstate E) ch c cp :
  names_ok s -> ctx_ok (pctx s) c cp -> locks (pctx s) !! ptable_lock = None ->
  log_room (nwakes ch (procs s)) s ->
  exists s', wakeup false ch s = Ret tt s' /\
    log_eq (set_procs ((fun p => if bool_decide (p_state p = SLEEPING) && bool_decide (p_chan p = ch)
                                 then set_p_state RUNNABLE p else p) <$> procs s) s) s'.
Proof.
  intros Hn Hc Hl Hr. rewrite <- (Nat.add_0_r (nwakes _ _)) in Hr.
  destruct (wp_Ret _ _ (wp_wakeup s ch c cp 0 Hn Hc Hl Hr)) as ([] & s' & H1 & H2 & _). by exists s'.
Qed.

Definition sleepers : list proc :=
  [mkp 1 RUNNING None None; mkp 2 SLEEPING None (Some pipe_chan); mkp 3 SLEEPING None (Some (proc_chan 0));
   mkp 4 SLEEPING None (Some pipe_chan)].

Lemma wakeup_exact_witness :
  exists s', wakeup false (Some pipe_chan) (with_procs sleepers) = Ret tt s' /\
    p_state <$> procs s' = [RUNNING; RUNNABLE; SLEEPING; RUNNABLE].
Proof.
  destruct (wakeup_exact (with_procs sleepers) (Some pipe_chan) 0 demo_cpu0) as (s' & H1 & H2).
  - repeat constructor.
  - exact demo_ctx_ok.
  - done.
  - by left.
  - exists s'. split; [exact H1|]. by rewrite <- H2.
Defined.

(** [yield] leaves the process RUNNABLE and hands the CPU to the
    scheduler with [ptable.lock] held; resumed on any CPU, it returns with the lock
    free and the interrupt state it was called with. *)
Theorem yield_hands_over {E} `{!KEnv E} (s : pstate E) c cp p q :
  ctx_ok (pctx s) c cp -> ncli cp = 0 -> cproc cp = Some p -> locks (pctx s) !! ptable_lock = None ->
  procs s !! p = Some q -> length (p_name q) = 16%nat -> log_room 1 s ->
  exists s1 kk, yield false s = Swtch s1 kk /\
    log_eq (set_pctx (k_acq ptable_lock c (pctx s))
      (set_procs (<[p := set_p_state RUNNABLE q]> (procs s)) s)) s1 /\
    yields_back (eflags_IF (pctx s)) kk.
Proof.
  intros. destruct (wp_Swtch _ _ (wp_yield s c cp p q 0 ltac:(done) ltac:(done) ltac:(done)
    ltac:(done) ltac:(done) ltac:(done) ltac:(done))) as (s1 & kk & Hrun & Heq & _ & Hkk). by exists s1, kk.
Qed.

Lemma yield_hands_over_witness :
  exists s1 kk, yield false demo_state = Swtch s1 kk /\ p_state <$> procs s1 !! 0%nat = Some RUNNABLE.
Proof.
  destruct (yield_hands_over demo_state 0 demo_cpu0 0 (linked 1 RUNNING PNull PNull) demo_ctx_ok eq_refl eq_refl
    eq_refl eq_refl eq_refl (or_introl eq_refl)) as (s1 & kk & H1 & H2 & _).
  exists s1, kk. split; [exact H1|by rewrite <- H2].
Defined.

(** ** Creation *)

(** C14 (functional).  A [fork] that finds a free slot and memory returns the new pid.
    The first free slot then holds a runnable child of the caller with the caller's
    size, trap frame (but 0 in [eax]), files, directory and (truncated) name, and the
    kernel stack set up to return through [forkret] and [trapret]; no other slot
    changes, and every lock is free.  The page and the address space are taken, then
    [filedup] is called once for each open file in order and [idup] for the directory,
    and nothing else is asked of the memory and the file system. *)
Theorem fork_creates {E} `{!KEnv E} (s : pstate E) c cp cur q i p ks pg e1 e2 e3 str :
  can_fork s c cp cur q i p ks pg e1 e2 str -> dup_returns q e2 e3 -> pg <> 0 -> log_room 2 s ->
  exists s' nm, fork false s = Ret (nextpid s) s' /\ name_str nm (take 15 str) /\
    procs s' = <[i := child (nextpid s) ks pg cur q nm p]> (procs s) /\
    nextpid s' = nextpid s + 1 /\ pctx s' = pctx s /\ env s' = e3.
Proof.
  intros Hcf Hdup Hpg Hr.
  destruct (wp_Ret _ _ (wp_fork false s c cp cur q i p ks pg e1 e2 e3 str 0 (fun nm t =>
    procs t = <[i := child (nextpid s) ks pg cur q nm p]> (procs s) /\
    nextpid t = nextpid s + 1 /\ pctx t = pctx s /\ env t = e3) Hcf Hdup Hpg Hr
    ltac:(intros nm cl t _ _ _ (? & ? & ? & ? & ->); done))) as (r & s' & H1 & -> & nm & _ & H2 & H3).
  by exists s', nm.
Qed.

(** A process with two open files, and the rest of its family. *)
Definition parent_proc : proc :=
  set_p_cwd 0x400000 (set_p_ofile (0x5000 :: 0 :: 0x6000 :: replicate 13 0) (mkp 1 RUNNING None None)).
Definition fork_procs : list proc := [parent_proc; mkp 2 SLEEPING (Some 0%nat) (Some pipe_chan); zero_proc].

Lemma demo_can_fork :
  can_fork (with_env [] (with_procs fork_procs)) 0 demo_cpu0 0 parent_proc 2 zero_proc 0x100000 0x300000 [] [] [].
Proof.
  split; try done.
  - exact zero_name.
  - split_and!; [done|done|]. intros [|[|j]] q Hj; cbn; [by intros [= <-]..|lia].
Qed.

Lemma fork_creates_witness :
  exists s' nm, fork false (with_env [] (with_procs fork_procs)) = Ret 5 s' /\ name_str nm [] /\
    procs s' = <[2%nat := child 5 0x100000 0x300000 0 parent_proc nm zero_proc]> fork_procs /\
    nextpid s' = 6 /\ pctx s' = demo_ctx /\ env s' = [Fdup 0x5000; Fdup 0x6000; Idup 0x400000].
Proof.
  apply (fork_creates (with_env [] (with_procs fork_procs)) 0 demo_cpu0 0 parent_proc 2 zero_proc 0x100000 0x300000
    [] [] [Fdup 0x5000; Fdup 0x6000; Idup 0x400000] [] demo_can_fork); [|done|by left].
  eexists. split; [repeat (eapply each_open_nil || eapply each_open_none || eapply each_open_some); done|done].
Defined.

(** A [fork] that fails returns -1: with no free slot nothing changes;
    without memory for the stack or for the address space the slot it took is free
    again (the stack given back), though its pid is spent. *)
Theorem fork_fails {E} `{!KEnv E} (multi : bool) (s : pstate E) c cp cur :
  ctx_ok (pctx s) c cp -> cproc cp = Some cur -> locks (pctx s) !! ptable_lock = None ->
  (nowhere (is_state UNUSED) (procs s) -> fork multi s = Ret (-1) s) /\
  (forall i p e, first_at (is_state UNUSED) (procs s) i p -> length (p_name p) = 16%nat ->
     nextpid s < 2 ^ 31 - 1 -> log_room 1 s -> k_kalloc (env s) = Ret 0 e ->
     exists s', fork multi s = Ret (-1) s' /\
       log_eq (set_env e (set_nextpid (nextpid s + 1)
         (set_procs (<[i := stillborn (nextpid s) p]> (procs s)) s))) s') /\
  (forall q i p ks e1 e2 e3 str, can_fork s c cp cur q i p ks 0 e1 e2 str -> log_room 1 s ->
     k_kfree ks e2 = Ret tt e3 ->
     exists s', fork multi s = Ret (-1) s' /\
       log_eq (set_env e3 (set_nextpid (nextpid s + 1) (set_procs (<[i := set_p_state UNUSED
         (set_p_kstack 0 (set_p_pgdir 0 (embryo (nextpid s) ks p)))]> (procs s)) s))) s').
Proof.
  intros Hc Hcur Hl. split_and!.
  - intros Hn. by eapply fork_noslot.
  - intros i p e Hf Hnm Hpid Hr Hk.
    destruct (wp_Ret _ _ (wp_allocproc s c cp i p 0 e 0 Hc Hl Hf Hnm Hpid Hr Hk)) as (r & s' & H1 & -> & _ & H2).
    exists s'. split; [|exact H2]. unfold fork. eapply bind_wp; [by eapply wp_myproc|].
    by rewrite (bind_Ret _ _ _ _ _ H1).
  - intros q i p ks e1 e2 e3 str Hcf Hr Hk.
    destruct (wp_Ret _ _ (wp_fork_nomem multi s c cp cur q i p ks e1 e2 e3 str 0 Hcf Hr Hk)) as (r & s' & H1 & -> & H2).
    by exists s'.
Qed.

Lemma fork_fails_witness : fork false demo_state = Ret (-1) demo_state.
Proof.
  apply (fork_fails false demo_state 0 demo_cpu0 0 demo_ctx_ok eq_refl eq_refl).
  intros j q Hq. do 4 (destruct j as [|j]; [by injection Hq as <-|]). by destruct j.
Defined.

(** ** Termination *)

(** C16 (functional).  [wait] with an exited child frees the first such slot, its
    stack and its address space, and returns the child's pid; with no child at all
    (or killed) it returns -1 at once; otherwise it sleeps on its own channel with
    [ptable.lock] still held, and scans again when it is resumed. *)
Theorem wait_collects {E} `{!KEnv E} (s : pstate E) c cp cur q fuel :
  ctx_ok (pctx s) c cp -> ncli cp = 0 -> cproc cp = Some cur -> locks (pctx s) !! ptable_lock = None ->
  procs s !! cur = Some q -> names_ok s -> log_room 1 s ->
  (forall i p e1 e2, first_at (zombie_child cur) (procs s) i p ->
     k_kfree (p_kstack p) (env s) = Ret tt e1 -> k_freevm (p_pgdir p) e1 = Ret tt e2 ->
     exists s', wait false (S fuel) s = Ret (p_pid p) s' /\
       log_eq (set_env e2 (set_procs (<[i := reaped p]> (procs s)) s)) s') /\
  (nowhere (zombie_child cur) (procs s) -> nowhere (is_child cur) (procs s) \/ p_killed q <> 0 ->
     wait false (S fuel) s = Ret (-1) s) /\
  (nowhere (zombie_child cur) (procs s) -> ~ nowhere (is_child cur) (procs s) -> p_killed q = 0 ->
     exists s1 kk, wait false (S fuel) s = Swtch s1 kk /\
       log_eq (set_pctx (k_acq ptable_lock c (pctx s)) (set_procs
         (<[cur := set_p_state SLEEPING (set_p_chan (Some (proc_chan cur)) q)]> (procs s)) s)) s1 /\
       forall t i' k' c' q', pctx t = k_acq ptable_lock i' k' -> ctx_ok k' i' c' -> ncli c' = 0 ->
         procs t !! cur = Some q' ->
         kk t = wait_loop false fuel (Some cur) (set_procs (<[cur := set_p_chan None q']> (procs t))
           (set_pctx (k_acq ptable_lock i' (k_settle i' (eflags_IF (pctx s)) k')) t))).
Proof.
  intros Hc Hn Hcur Hl Hq Hnm Hr. split_and!.
  - intros i p e1 e2 Hf H1 H2. assert (Hp := names_at s i p Hnm (proj1 Hf)). by eapply (wait_zombie s c cp cur i p e1 e2 0).
  - intros Hz Hno. by eapply wait_nobody.
  - intros Hz Hch Hk. assert (Hqn := names_at s cur q Hnm Hq).
    destruct (wp_Swtch _ _ (wp_wait_sleeps s c cp cur q fuel 0 Hc Hn Hcur Hl Hq Hqn Hr Hz Hch Hk)) as (s1 & kk & H1 & H2).
    by exists s1, kk.
Qed.

Definition wait_procs : list proc :=
  [mkp 1 RUNNING None None; mkp 2 RUNNABLE (Some 0%nat) None; mkp 3 ZOMBIE (Some 0%nat) None].

Lemma wait_collects_witness :
  exists s', wait false 1 (with_procs wait_procs) = Ret 3 s' /\
    procs s' = <[2%nat := reaped (mkp 3 ZOMBIE (Some 0%nat) None)]> wait_procs.
Proof.
  destruct (wait_collects (with_procs wait_procs) 0 demo_cpu0 0 (mkp 1 RUNNING None None) 0) as (H & _).
  - exact demo_ctx_ok.
  - done.
  - done.
  - done.
  - done.
  - repeat constructor.
  - by left.
  - destruct (H 2%nat (mkp 3 ZOMBIE (Some 0%nat) None) tt tt) as (s' & H1 & H2); [|done|done|].
    + split_and!; [done|done|]. intros [|[|j]] q Hj; cbn; [by intros [= <-]..|lia].
    + exists s'. split; [exact H1|by rewrite <- H2].
Defined.

(** C15 (functional).  [exit] calls [fileclose] once for each open file in order, gives
    its directory up in a transaction, and asks nothing else of the file system; it
    wakes its parent, gives its children to [init] (waking [init] if one of them is a
    zombie), becomes a ZOMBIE and gives the CPU up for good: resumed, it panics.  The
    table it leaves is [exit_table].  The run is one in which these calls return
    ([close_returns], from the environment it starts with to the one it leaves). *)
Theorem exit_leaves_zombie {E} `{!KEnv E} (s : pstate E) c cp cur q e' :
  can_exit s c cp cur q -> close_returns q (env s) e' -> log_room (exit_room cur (initproc s) q (procs s)) s ->
  exists s1 kk, exit false s = Swtch s1 kk /\
    procs s1 = exit_table cur (initproc s) q (procs s) /\
    pctx s1 = k_acq ptable_lock c (pctx s) /\ env s1 = e' /\
    (exists q', procs s1 !! cur = Some q' /\ p_state q' = ZOMBIE /\ p_pid q' = p_pid q) /\
    forall t i k' c', pctx t = k_acq ptable_lock i k' -> ctx_ok k' i c' -> ncli c' = 0 ->
      kk t = Panic "zombie exit".
Proof.
  intros Hce Hcl Hr. rewrite <- (Nat.add_0_r (exit_room _ _ _ _)) in Hr.
  destruct (wp_Swtch _ _ (wp_exit s c cp cur q e' 0 Hce Hcl Hr)) as (s1 & kk & H1 & (cl & Heq) & H3).
  assert (Hps : procs s1 = exit_table cur (initproc s) q (procs s)) by (by rewrite <- Heq).
  exists s1, kk. split_and!; [exact H1|exact Hps|by rewrite <- Heq|by rewrite <- Heq| |exact H3].
  assert (Hlt : (cur < length (procs s))%nat) by (by eapply lookup_lt_Some, Hce).
  destruct (adopted_same cur (initproc s) (woken_by cur q (procs s)) (length (procs s)) cur _ (woken_by_at _ _ _ Hlt))
    as (q' & Hq' & Hpid & _). exists (set_p_state ZOMBIE q'). rewrite Hps. unfold exit_table.
  rewrite list_lookup_alter_eq, Hq'. split_and!; [done|done|]. cbn. by rewrite Hpid, wake_pid.
Qed.

Definition leaving_proc : proc := set_p_parent (Some 1%nat) parent_proc.
Definition exit_procs : list proc :=
  [leaving_proc; mkp 2 SLEEPING None (Some (proc_chan 1)); mkp 3 RUNNABLE (Some 0%nat) None].

Lemma exit_leaves_zombie_witness :
  exists s1 kk, exit false (with_env [] (set_initproc (Some 1%nat) (with_procs exit_procs))) = Swtch s1 kk /\
    p_state <$> procs s1 = [ZOMBIE; RUNNABLE; RUNNABLE] /\ p_parent <$> procs s1 = [Some 1; None; Some 1]%nat /\
    env s1 = [Fclose 0x5000; Fclose 0x6000; Begin_op; Iput 0x400000; End_op].
Proof.
  destruct (exit_leaves_zombie (with_env [] (set_initproc (Some 1%nat) (with_procs exit_procs))) 0 demo_cpu0 0
    leaving_proc [Fclose 0x5000; Fclose 0x6000; Begin_op; Iput 0x400000; End_op]) as (s1 & kk & H1 & H2 & _ & H3 & _).
  - split; try done. repeat constructor.
  - do 3 eexists. split; [repeat (eapply each_open_nil || eapply each_open_none || eapply each_open_some); done|done].
  - by left.
  - exists s1, kk. rewrite H2. split_and!; [exact H1|by vm_compute|by vm_compute|exact H3].
Defined.

(** ** Scheduling *)

(** C17 (functional).  One turn of the round-robin loop runs the first runnable slot
    of the table: the scheduler switches to it with the process RUNNING, recorded as
    the CPU's process, and [ptable.lock] held; when the process switches back, the
    turn goes on with the next slot.  With nothing runnable the turn changes nothing
    but the interrupt flag. *)
Theorem rr_turn_schedules {E} `{!KEnv E} (s : pstate E) c cp :
  ctx_ok (pctx s) c cp -> ncli cp = 0 -> locks (pctx s) !! ptable_lock = None ->
  (nowhere runnable (procs s) -> rr_turn c s = Ret tt (set_pctx (k_settle c true (pctx s)) s)) /\
  (forall i p e, first_at runnable (procs s) i p -> length (p_name p) = 16%nat -> pid_fits s p ->
     k_switchuvm p (env s) = Ret tt e -> log_room 1 s ->
     exists s1 kk, rr_turn c s = Swtch s1 kk /\
       procs s1 = <[i := set_p_state RUNNING p]> (procs s) /\
       pctx s1 = k_acq ptable_lock c (k_setproc c (Some i) (k_settle c true (pctx s))) /\
       forall t e', k_switchkvm (env t) = Ret tt e' ->
         kk t = rr_rest c i (nproc s) (set_pctx (k_setproc c None (pctx t)) (set_env e' t))).
Proof.
  intros Hc Hn Hl. split; [intros Hno; by eapply rr_turn_idle|].
  intros i p e Hf Hnm Hpid Hsw Hr.
  destruct (wp_Swtch _ _ (wp_rr_turn s c cp i p e 0 Hc Hn Hl Hf Hnm Hpid Hsw Hr)) as (s1 & kk & H1 & (cl & fr & Heq) & H3).
  exists s1, kk. split_and!; [exact H1|by rewrite <- Heq|by rewrite <- Heq|exact H3].
Qed.

Lemma rr_turn_schedules_witness :
  exists s1 kk, rr_turn 0 demo_state = Swtch s1 kk /\
    procs s1 = <[1%nat := set_p_state RUNNING (linked 2 RUNNABLE (PProc 2) (PHead 1))]> demo_procs.
Proof.
  destruct (rr_turn_schedules demo_state 0 demo_cpu0 demo_ctx_ok eq_refl eq_refl) as (_ & H).
  destruct (H 1%nat (linked 2 RUNNABLE (PProc 2) (PHead 1)) tt) as (s1 & kk & H1 & H2 & _).
  - split_and!; [done|done|]. intros [|j] q Hj; cbn; [by intros [= <-]|lia].
  - done.
  - split; cbn; lia.
  - done.
  - by left.
  - exists s1, kk. exact (conj H1 H2).
Defined.

(** C18 (functional).  With per-CPU queues, a turn on a CPU whose queue is not empty
    runs the process at the front: it leaves the queue, is RUNNING and recorded as the
    CPU's process, no lock is held, and the queues stay consistent. *)
Theorem multi_turn_schedules {E} `{!KEnv E} (s : pstate E) qs c cp i l p e :
  queues_ok s qs -> qs !! c = Some (i :: l) -> ctx_ok (pctx s) c cp -> ncli cp = 0 ->
  locks (pctx s) !! rq_lock c = None -> locks (pctx s) !! ptable_lock = None ->
  procs s !! i = Some p -> length (p_name p) = 16%nat -> pid_fits s p ->
  (forall q, erase q = erase p -> k_switchuvm q (env s) = Ret tt e) -> log_room 1 s ->
  exists s1 kk, multi_turn c c s = Swtch s1 kk /\ queues_ok s1 (<[c := l]> qs) /\
    pctx s1 = k_setproc c (Some i) (k_settle c true (pctx s)) /\
    erase <$> procs s1 = erase <$> <[i := set_p_state RUNNING p]> (procs s) /\ sched_back c kk.
Proof. intros. apply wp_Swtch. by eapply (wp_multi_turn s qs c cp i l p e 0). Qed.

(** Queue 0 empty, queue 1 with the slots 1 and 2, slot 3 asleep. *)
Definition queue_procs : list proc :=
  [linked 1 RUNNING PNull PNull; linked 2 RUNNABLE (PProc 2) (PHead 1);
   linked 3 RUNNABLE (PHead 1) (PProc 1); set_p_chan (Some pipe_chan) (linked 4 SLEEPING PNull PNull); zero_proc].

Lemma demo_queues_ok : queues_ok (with_procs queue_procs) demo_qs.
Proof.
  split.
  - split.
    + cbn. lia.
    + by intros [|[|c]] l [= <-].
    + by apply (bool_decide_unpack _).
    + cbn. repeat constructor; cbn; lia.
    + intros [|[|c]] l; cbn; intros [= <-]; by repeat split.
  - intros i p Hp. do 5 (destruct i as [|i]; [injection Hp as <-; cbn; set_solver|]). by destruct i.
  - intros i j p q Hp Hq.
    do 5 (destruct i as [|i]; [injection Hp as <-;
      do 5 (destruct j as [|j]; [injection Hq as <-; cbn; intros; congruence|]); by destruct j|]). by destruct i.
Qed.

Lemma multi_turn_schedules_witness :
  exists s1 kk, multi_turn 1 1 (set_pctx (mkctx 1 true demo_cpus ∅ []) (with_procs queue_procs)) = Swtch s1 kk /\
    queues_ok s1 [[]; [2]]%nat.
Proof.
  destruct (multi_turn_schedules (set_pctx (mkctx 1 true demo_cpus ∅ []) (with_procs queue_procs)) demo_qs 1
    (mkcpu 1 1 0 true None) 1 [2]%nat (linked 2 RUNNABLE (PProc 2) (PHead 1)) tt) as (s1 & kk & H1 & H2 & _).
  - destruct demo_queues_ok as [H1 H2 H3]. split; [by apply rep_pctx|done|done].
  - done.
  - repeat split; cbn; intros; lia || done.
  - done.
  - done.
  - done.
  - done.
  - done.
  - split; cbn; lia.
  - done.
  - by left.
  - exists s1, kk. exact (conj H1 H2).
Defined.

(** C21 (invariant).  With per-CPU queues, [wakeup1] appends the processes it makes
    runnable to the queue of the executing CPU, in table order, so that the runnable
    slots are again exactly the queued ones. *)
Theorem wakeup1_keeps_queues {E} `{!KEnv E} (s : pstate E) qs c cp l ch :
  queues_ok s qs -> qs !! c = Some l -> ctx_ok (pctx s) c cp -> locks (pctx s) !! rq_lock c = None ->
  names_ok s -> log_room (nwakes ch (procs s)) s ->
  exists s', wakeup1 true ch s = Ret tt s' /\
    queues_ok s' (<[c := l ++ woken_slots ch (procs s) (nproc s)]> qs) /\ pctx s' = pctx s /\
    erase <$> procs s' = erase <$> (wake ch <$> procs s).
Proof.
  intros Hok Hc Hctx Hlk Hnm Hr. rewrite <- (Nat.add_0_r (nwakes _ _)) in Hr.
  destruct (wp_Ret _ _ (wp_wakeup1_multi s qs c cp l ch 0 Hok Hc Hctx Hlk Hnm Hr)) as ([] & s' & H1 & H2 & H3 & _ & H4).
  exists s'. split_and!; [exact H1|exact H2|by apply frame_pctx|exact H4].
Qed.

Lemma wakeup1_keeps_queues_witness :
  exists s', wakeup1 true (Some pipe_chan) (with_procs queue_procs) = Ret tt s' /\ queues_ok s' [[3]; [1; 2]]%nat.
Proof.
  destruct (wakeup1_keeps_queues (with_procs queue_procs) demo_qs 0 demo_cpu0 [] (Some pipe_chan)) as (s' & H1 & H2 & _).
  - exact demo_queues_ok.
  - done.
  - exact demo_ctx_ok.
  - done.
  - repeat constructor.
  - by left.
  - exists s'. split; [exact H1|exact H2].
Defined.

(** With per-CPU queues, [fork] puts the child at the end of the
    first of the shortest queues. *)
Theorem fork_balances {E} `{!KEnv E} (s : pstate E) qs v l c cp cur q i p ks pg e1 e2 e3 str :
  can_fork s c cp cur q i p ks pg e1 e2 str -> dup_returns q e2 e3 -> pg <> 0 -> log_room 2 s ->
  queues_ok s qs -> (forall d, locks (pctx s) !! rq_lock d = None) ->
  ncpu s = length qs -> Z.of_nat (nproc s) <= NPROC -> is_smallest qs (length qs) v -> qs !! v = Some l ->
  (forall j r, procs s !! j = Some r -> p_state r <> UNUSED -> p_pid r < nextpid s) ->
  exists s' nm, fork true s = Ret (nextpid s) s' /\ name_str nm (take 15 str) /\
    queues_ok s' (<[v := l ++ [i]]> qs) /\ pctx s' = pctx s /\
    erase <$> procs s' = erase <$> <[i := child (nextpid s) ks pg cur q nm p]> (procs s).
Proof.
  intros. destruct (wp_Ret _ _ (wp_fork_multi s qs v l c cp cur q i p ks pg e1 e2 e3 str 0 ltac:(done) ltac:(done)
    ltac:(done) ltac:(done) ltac:(done) ltac:(done) ltac:(done) ltac:(done) ltac:(done) ltac:(done) ltac:(done)))
    as (r & s' & Hrun & -> & nm & _ & Hnm & Hok & Hpx & He). by exists s', nm.
Qed.

Lemma fork_balances_witness :
  exists s' nm, fork true (with_procs queue_procs) = Ret 5 s' /\ name_str nm [] /\ queues_ok s' [[4]; [1; 2]]%nat.
Proof.
  destruct (fork_balances (with_procs queue_procs) demo_qs 0 [] 0 demo_cpu0 0 (linked 1 RUNNING PNull PNull) 4 zero_proc
    0x100000 0x300000 tt tt tt []) as (s' & nm & H1 & H2 & H3 & _).
  - split; try done; [exact zero_name|]. split_and!; [done|done|].
    intros j q Hj Hq. do 4 (destruct j as [|j]; [by injection Hq as <-|]). lia.
  - exists tt. split; [repeat constructor|done].
  - done.
  - by left.
  - exact demo_queues_ok.
  - done.
  - done.
  - by vm_compute.
  - split; [cbn; lia|]. exists []. split; [done|]. intros [|[|i]] k Hi; cbn; intros [= <-]; cbn; lia.
  - done.
  - intros j r Hj. do 5 (destruct j as [|j]; [injection Hj as <-; cbn; (lia || done)|]). by destruct j.
  - exists s', nm. exact (conj H1 (conj H2 H3)).
Defined.

(** ** Killing *)

(** [kill(pid)] marks the first slot with that pid, makes its
    process runnable if it sleeps, and returns 0; with no such slot it returns -1 and
    changes nothing. *)
Theorem kill_marks {E} `{!KEnv E} (s : pstate E) c cp pid :
  ctx_ok (pctx s) c cp -> locks (pctx s) !! ptable_lock = None ->
  (forall i p, first_at (has_pid pid) (procs s) i p ->
     kill pid s = Ret 0 (set_procs (<[i := set_p_killed 1 (if bool_decide (p_state p = SLEEPING)
       then set_p_state RUNNABLE p else p)]> (procs s)) s)) /\
  (nowhere (has_pid pid) (procs s) -> kill pid s = Ret (-1) s).
Proof.
  intros Hc Hl. split; [|intros Hn; by eapply kill_none].
  intros i p Hf. rewrite (kill_found s c cp pid i p Hc Hl Hf). unfold killed. cbn [p_state set_p_killed].
  by destruct (bool_decide (p_state p = SLEEPING)).
Qed.

Lemma kill_marks_witness :
  exists s', kill 2 (with_procs sleepers) = Ret 0 s' /\ p_killed <$> procs s' = [0; 1; 0; 0] /\
    p_state <$> procs s' = [RUNNING; RUNNABLE; SLEEPING; SLEEPING].
Proof.
  destruct (kill_marks (with_procs sleepers) 0 demo_cpu0 2 demo_ctx_ok eq_refl) as (H & _).
  eexists. split; [apply (H 1%nat (mkp 2 SLEEPING None (Some pipe_chan)))|by split].
  split_and!; [done|done|]. intros [|j] q Hj; cbn; [by intros [= <-]|lia].
Defined.

(** A free slot has pid 0, so [kill(0)] succeeds on one and marks it
    killed; the mark survives [allocproc], and the next process that gets the slot
    is born killed. *)
Theorem kill_zero_poisons {E} `{!KEnv E} (s : pstate E) c cp i p ks e :
  ctx_ok (pctx s) c cp -> locks (pctx s) !! ptable_lock = None ->
  first_at (has_pid 0) (procs s) i p -> first_at (is_state UNUSED) (procs s) i p ->
  length (p_name p) = 16%nat -> nextpid s < 2 ^ 31 - 1 -> log_room 1 s ->
  k_kalloc (env s) = Ret ks e -> ks <> 0 ->
  exists s1 s2 p2, kill 0 s = Ret 0 s1 /\ allocproc s1 = Ret (Some i) s2 /\
    procs s2 !! i = Some p2 /\ p_killed p2 = 1 /\ p_state p2 = EMBRYO.
Proof.
  intros Hc Hl H0 Hf Hnm Hpid Hr Hk Hks. assert (Hu := Hf). destruct Hu as (Hp & Hu & Hfirst).
  assert (Hlt := lookup_lt_Some _ _ _ Hp). unfold is_state in Hu. apply bool_decide_eq_true in Hu.
  set (s1 := set_procs (<[i := killed p]> (procs s)) s).
  assert (Hkp : killed p = set_p_killed 1 p) by (unfold killed; cbn; by rewrite bool_decide_eq_false_2 by (by rewrite Hu)).
  assert (Hf1 : first_at (is_state UNUSED) (procs s1) i (killed p)).
  { cbn. rewrite Hkp. split_and!; [by apply list_lookup_insert_eq|by apply bool_decide_eq_true|].
    intros j q Hj. rewrite list_lookup_insert_ne by lia. by apply Hfirst. }
  destruct (wp_Ret _ _ (wp_allocproc s1 c cp i (killed p) ks e 0 Hc Hl Hf1 ltac:(by rewrite Hkp) Hpid
    ltac:(room Hr) Hk)) as (r & s2 & H1 & -> & _ & H2).
  apply Z.eqb_neq in Hks. rewrite Hks in H1, H2. exists s1, s2, (embryo (nextpid s) ks (killed p)).
  split_and!; [by eapply kill_found|exact H1| |by rewrite Hkp|done].
  rewrite <- H2. cbn. rewrite list_insert_insert_eq. by apply list_lookup_insert_eq.
Qed.

Lemma kill_zero_poisons_witness :
  exists s1 s2 p2, kill 0 (with_procs fork_procs) = Ret 0 s1 /\ allocproc s1 = Ret (Some 2%nat) s2 /\
    procs s2 !! 2%nat = Some p2 /\ p_killed p2 = 1 /\ p_state p2 = EMBRYO.
Proof.
  apply (kill_zero_poisons (with_procs fork_procs) 0 demo_cpu0 2 zero_proc 0x100000 tt).
  - exact demo_ctx_ok.
  - done.
  - split_and!; [done|done|]. intros [|[|j]] q Hj; cbn; [by intros [= <-]..|lia].
  - split_and!; [done|done|]. intros [|[|j]] q Hj; cbn; [by intros [= <-]..|lia].
  - done.
  - done.
  - by left.
  - done.
  - done.
Defined.

(** With per-CPU queues, [kill] on a sleeping process makes it runnable
    without putting it in a queue: the queues are untouched and none holds it, so no
    CPU will run it. *)
Theorem kill_strands_sleeper {E} `{!KEnv E} (s : pstate E) qs c cp pid i p :
  queues_ok s qs -> ctx_ok (pctx s) c cp -> locks (pctx s) !! ptable_lock = None ->
  first_at (has_pid pid) (procs s) i p -> p_state p = SLEEPING ->
  exists s' p', kill pid s = Ret 0 s' /\ rqs_rep s' qs /\ procs s' !! i = Some p' /\
    p_state p' = RUNNABLE /\ i ∉ concat qs.
Proof.
  intros Hok Hc Hl Hf Hst. assert (Hp := proj1 Hf). assert (Hlt := lookup_lt_Some _ _ _ Hp).
  assert (Hk : killed p = set_p_state RUNNABLE (set_p_killed 1 p)).
  { unfold killed. cbn. by rewrite bool_decide_eq_true_2. }
  exists (set_procs (<[i := killed p]> (procs s)) s), (killed p). split_and!.
  - by eapply kill_found.
  - rewrite Hk. by apply (rep_set_slot s _ qs i p (set_p_state RUNNABLE (set_p_killed 1 p))); [apply Hok|..].
  - by apply list_lookup_insert_eq.
  - by rewrite Hk.
  - rewrite <- (qo_iff _ _ Hok i p Hp), Hst. done.
Qed.

Lemma kill_strands_sleeper_witness :
  exists s' p', kill 4 (with_procs queue_procs) = Ret 0 s' /\ rqs_rep s' demo_qs /\ procs s' !! 3%nat = Some p' /\
    p_state p' = RUNNABLE /\ 3%nat ∉ concat demo_qs.
Proof.
  apply (kill_strands_sleeper (with_procs queue_procs) demo_qs 0 demo_cpu0 4 3
    (set_p_chan (Some pipe_chan) (linked 4 SLEEPING PNull PNull))).
  - exact demo_queues_ok.
  - exact demo_ctx_ok.
  - done.
  - split_and!; [done|done|]. intros j q Hj Hq. do 3 (destruct j as [|j]; [by injection Hq as <-|]). lia.
  - done.
Defined.
