(* ===== verification/Mp.v ===== *)
(** * Finding the processors

    Models [mp.c]: the search for the MP floating pointer structure, the checks of the
    configuration table, and [mpinit], which takes the processors, the I/O APIC and the
    address of the local APIC from the table. *)

From Stdlib Require Import ZArith Lia.
From S2P Require Import Prelude Spinlock ProcDefs Memory Kalloc.

Module Mp.

Definition MPPROC : Z := 0.
Definition MPBUS : Z := 1.
Definition MPIOAPIC : Z := 2.
Definition MPIOINTR : Z := 3.
Definition MPLINTR : Z := 4.

(** [sizeof] of [struct mp], [struct mpconf], [struct mpproc] and [struct mpioapic]. *)
Definition MP_SIZE : Z := 16.
Definition CONF_SIZE : Z := 44.
Definition PROC_SIZE : Z := 20.
Definition IOAPIC_SIZE : Z := 8.

(** The memory, [cpus[i].apicid], [ncpu], [ioapicid], [lapic], and the bytes written to
    the ports of the interrupt mode register. *)
Record mpst := mkmp { m_ram : memory; apicids : list Z; ncpu : Z; ioapicid : Z; lapic : Z; imcr : list (Z * Z) }.
Definition set_apicids (v : list Z) (n : Z) (s : mpst) : mpst := mkmp (m_ram s) v n (ioapicid s) (lapic s) (imcr s).
Definition set_ioapicid (v : Z) (s : mpst) : mpst := mkmp (m_ram s) (apicids s) (ncpu s) v (lapic s) (imcr s).
Definition set_lapic (v : Z) (s : mpst) : mpst := mkmp (m_ram s) (apicids s) (ncpu s) (ioapicid s) v (imcr s).
Definition outb (port v : Z) (s : mpst) : mpst := mkmp (m_ram s) (apicids s) (ncpu s) (ioapicid s) (lapic s) (imcr s ++ [(port, v)]).

Section Mp.
(** What a read of port 0x23 returns. *)
Context (inb23 : Z).
Implicit Types m : memory.

Definition sum m (addr len : Z) : Z := u8 (foldr Z.add 0 (bytes_at m addr (Z.to_nat len))).

(** [memcmp(p, "_MP_", 4)] and [memcmp(conf, "PCMP", 4)] *)
Definition mp_sig : list Z := [95; 77; 80; 95].
Definition pcmp_sig : list Z := [80; 67; 77; 80].

(** The [for] of [mpsearch1]; [n] structures are left. *)
Fixpoint search_loop m (n : nat) (p : Z) : option Z :=
  match n with
  | O => None
  | S n =>
      if bool_decide (bytes_at m p 4 = mp_sig) && (sum m p MP_SIZE =? 0) then Some p
      else search_loop m n (p + MP_SIZE)
  end.

Definition mpsearch1 m (a len : Z) : option Z := search_loop m (Z.to_nat ((len + MP_SIZE - 1) / MP_SIZE)) (P2V a).

Definition mpsearch m : option Z :=
  let bda := P2V 0x400 in
  let p := Z.shiftl (Z.lor (Z.shiftl (m (bda + 0x0F)) 8) (m (bda + 0x0E))) 4 in
  match (if negb (p =? 0) then mpsearch1 m p 1024
         else mpsearch1 m (u32 (Z.lor (Z.shiftl (m (bda + 0x14)) 8) (m (bda + 0x13)) * 1024 - 1024)) 1024) with
  | Some mp => Some mp
  | None => mpsearch1 m 0xF0000 0x10000
  end.

(** Fields of the structures. *)
Definition mp_physaddr m (mp : Z) : Z := load32 m (mp + 4).
Definition mp_imcrp m (mp : Z) : Z := m (mp + 12).
Definition conf_length m (conf : Z) : Z := m (conf + 4) + 256 * m (conf + 5).
Definition conf_version m (conf : Z) : Z := m (conf + 6).
Definition conf_lapicaddr m (conf : Z) : Z := load32 m (conf + 36).

(** The pointer structure and the table. *)
Definition mpconfig m : option (Z * Z) :=
  match mpsearch m with
  | None => None
  | Some mp =>
      if mp_physaddr m mp =? 0 then None else
      let conf := P2V (mp_physaddr m mp) in
      if negb (bool_decide (bytes_at m conf 4 = pcmp_sig)) then None else
      if negb (conf_version m conf =? 1) && negb (conf_version m conf =? 4) then None else
      if negb (sum m conf (conf_length m conf) =? 0) then None else
      Some (mp, conf)
  end.

(** The [for] of [mpinit].  The [break] of the default case leaves the [switch], not the
    loop, and [p] stays. *)
Fixpoint entry_loop (fuel : nat) (p e : Z) (ismp : bool) : M mpst bool :=
  match fuel with
  | O => nofuel
  | S fuel =>
      if negb (p <? e) then ret ismp else
      t <- gets (fun s => m_ram s p) ;;
      if t =? MPPROC then
        id <- gets (fun s => m_ram s (p + 1)) ;;
        n <- gets ncpu ;;
        when (n <? NCPU) (modify (fun s => set_apicids (<[Z.to_nat n := id]> (apicids s)) (n + 1) s)) ;;
        entry_loop fuel (p + PROC_SIZE) e ismp
      else if t =? MPIOAPIC then
        id <- gets (fun s => m_ram s (p + 1)) ;;
        modify (set_ioapicid id) ;;
        entry_loop fuel (p + IOAPIC_SIZE) e ismp
      else if (t =? MPBUS) || (t =? MPIOINTR) || (t =? MPLINTR) then entry_loop fuel (p + 8) e ismp
      else entry_loop fuel p e false
  end.

(** A table without unknown entries takes at most a turn for each eight bytes. *)
Definition mpinit : M mpst unit :=
  o <- gets (fun s => mpconfig (m_ram s)) ;;
  match o with
  | None => panic "Expect to run on an SMP"
  | Some (mp, conf) =>
      a <- gets (fun s => conf_lapicaddr (m_ram s) conf) ;;
      modify (set_lapic a) ;;
      n <- gets (fun s => conf_length (m_ram s) conf) ;;
      ok <- entry_loop (S (S (Z.to_nat (n / 8)))) (conf + CONF_SIZE) (conf + n) true ;;
      if negb ok then panic "Didn't find a suitable machine" else
      i <- gets (fun s => mp_imcrp (m_ram s) mp) ;;
      when (negb (i =? 0)) (modify (outb 0x22 0x70) ;; modify (outb 0x23 (Z.lor inb23 1)))
  end.

(** ** What a table says *)

Inductive entry := Processor (apicid : Z) | IoApic (apicno : Z) | Other.

(** The entries between two addresses. *)
Inductive entries m (e : Z) : Z -> list entry -> Prop :=
| entries_end p : e <= p -> entries m e p []
| entries_proc p es : p < e -> m p = MPPROC -> entries m e (p + PROC_SIZE) es -> entries m e p (Processor (m (p + 1)) :: es)
| entries_ioapic p es : p < e -> m p = MPIOAPIC -> entries m e (p + IOAPIC_SIZE) es -> entries m e p (IoApic (m (p + 1)) :: es)
| entries_other p es : p < e -> m p = MPBUS \/ m p = MPIOINTR \/ m p = MPLINTR ->
    entries m e (p + 8) es -> entries m e p (Other :: es).

(** The entries lead to one with a type that [mp.h] does not name. *)
Inductive garbled m (e : Z) : Z -> Prop :=
| garbled_here p : p < e -> ~ (MPPROC <= m p <= MPLINTR) -> garbled m e p
| garbled_proc p : p < e -> m p = MPPROC -> garbled m e (p + PROC_SIZE) -> garbled m e p
| garbled_ioapic p : p < e -> m p = MPIOAPIC -> garbled m e (p + IOAPIC_SIZE) -> garbled m e p
| garbled_other p : p < e -> m p = MPBUS \/ m p = MPIOINTR \/ m p = MPLINTR -> garbled m e (p + 8) -> garbled m e p.

Definition processors (es : list entry) : list Z := omap (fun en => match en with Processor i => Some i | _ => None end) es.
Definition ioapics (es : list entry) : list Z := omap (fun en => match en with IoApic i => Some i | _ => None end) es.

(** ** The loop *)

Definition take_entry (s : mpst) (en : entry) : mpst :=
  match en with
  | Processor i => if ncpu s <? NCPU then set_apicids (<[Z.to_nat (ncpu s) := i]> (apicids s)) (ncpu s + 1) s else s
  | IoApic i => set_ioapicid i s
  | Other => s
  end.

Lemma take_entry_ram s en : m_ram (take_entry s en) = m_ram s.
Proof. destruct en; cbn; [by case_match|done..]. Qed.

Lemma entry_loop_takes e p es m fuel b s :
  entries m e p es -> m_ram s = m -> (length es < fuel)%nat ->
  entry_loop fuel p e b s = Ret b (foldl take_entry s es).
Proof.
  intros He. revert fuel s. induction He as [p H|p es H Ht He IH|p es H Ht He IH|p es H Ht He IH];
    intros [|fuel] s Hm Hf; cbn [length] in Hf; try lia; cbn [entry_loop].
  { by rewrite (proj2 (Z.ltb_ge p e)). }
  all: rewrite (proj2 (Z.ltb_lt p e)) by done; cbn [negb]; rewrite bind_gets, Hm.
  - rewrite Ht; cbn [Z.eqb MPPROC]. rewrite !bind_gets, Hm. cbn [foldl take_entry].
    destruct (ncpu s <? NCPU); cbn [when]; rewrite ?bind_modify; apply IH; (done || lia).
  - rewrite Ht; cbn [Z.eqb Pos.eqb MPPROC MPIOAPIC]. rewrite bind_gets, Hm, bind_modify. cbn [foldl take_entry].
    apply IH; (done || lia).
  - destruct Ht as [Ht|[Ht|Ht]]; rewrite Ht; cbn; apply IH; (done || lia).
Qed.

Lemma entries_count m e p es : entries m e p es -> 8 * Z.of_nat (length es) < Z.max 0 (e - p) + 8.
Proof. induction 1; cbn [length]; unfold PROC_SIZE, IOAPIC_SIZE in *; lia. Qed.

(** An entry of an unknown type is read again and again. *)
Lemma entry_loop_stuck m e p fuel b s : p < e -> ~ (MPPROC <= m p <= MPLINTR) -> m_ram s = m -> entry_loop fuel p e b s = Fuel.
Proof.
  intros H Ht Hm. unfold MPPROC, MPLINTR in Ht. revert b. induction fuel as [|fuel IH]; intros b; [done|].
  cbn [entry_loop]. rewrite (proj2 (Z.ltb_lt p e)) by done. cbn [negb]. rewrite bind_gets, Hm.
  unfold MPPROC, MPIOAPIC, MPBUS, MPIOINTR, MPLINTR.
  rewrite !(proj2 (Z.eqb_neq _ _)) by lia. apply IH.
Qed.

Lemma entry_loop_hangs m e p fuel b s : garbled m e p -> m_ram s = m -> entry_loop fuel p e b s = Fuel.
Proof.
  intros Hg. revert fuel s. induction Hg as [p H Ht|p H Ht Hg IH|p H Ht Hg IH|p H Ht Hg IH]; intros fuel s Hm.
  { by apply (entry_loop_stuck m). }
  all: destruct fuel as [|fuel]; [done|]; cbn [entry_loop];
    rewrite (proj2 (Z.ltb_lt p e)) by done; cbn [negb]; rewrite bind_gets, Hm.
  - rewrite Ht; cbn [Z.eqb MPPROC]. rewrite !bind_gets.
    destruct (ncpu s <? NCPU); cbn [when]; rewrite ?bind_modify; by apply IH.
  - rewrite Ht; cbn [Z.eqb Pos.eqb MPPROC MPIOAPIC]. steps. by apply IH.
  - destruct Ht as [Ht|[Ht|Ht]]; rewrite Ht; cbn; by apply IH.
Qed.

(** ** What the entries leave *)

Lemma take_entries s es :
  0 <= ncpu s <= NCPU -> length (apicids s) = Z.to_nat NCPU ->
  let s' := foldl take_entry s es in
  let ids := take (Z.to_nat (NCPU - ncpu s)) (processors es) in
  m_ram s' = m_ram s /\ lapic s' = lapic s /\ imcr s' = imcr s /\
  ncpu s' = ncpu s + Z.of_nat (length ids) /\
  apicids s' = take (Z.to_nat (ncpu s)) (apicids s) ++ ids ++ drop (Z.to_nat (ncpu s) + length ids) (apicids s) /\
  ioapicid s' = default (ioapicid s) (last (ioapics es)).
Proof.
  revert s. induction es as [|en es IH]; intros s Hn Hl; cbn zeta.
  { cbn. rewrite take_nil. cbn. rewrite Nat.add_0_r, take_drop, Z.add_0_r. done. }
  cbn [foldl]. destruct en as [i|i|]; cbn [take_entry].
  - destruct (Z.ltb_spec (ncpu s) NCPU) as [Hlt|Hge].
    + destruct (IH (set_apicids (<[Z.to_nat (ncpu s) := i]> (apicids s)) (ncpu s + 1) s)) as (? & ? & ? & Hc & Ha & Hi);
        cbn [ncpu apicids set_apicids ioapicid m_ram lapic imcr] in *; [lia|by rewrite length_insert|].
      split_and!; try done.
      * rewrite Hc. change (processors (Processor i :: es)) with (i :: processors es).
        replace (Z.to_nat (NCPU - ncpu s)) with (S (Z.to_nat (NCPU - (ncpu s + 1)))) by lia. cbn [take length]. lia.
      * rewrite Ha. change (processors (Processor i :: es)) with (i :: processors es).
        replace (Z.to_nat (NCPU - ncpu s)) with (S (Z.to_nat (NCPU - (ncpu s + 1)))) by lia. cbn [take length].
        set (ids := take _ (processors es)). set (k := Z.to_nat (ncpu s)).
        replace (Z.to_nat (ncpu s + 1)) with (S k) by lia.
        rewrite (take_S_r _ _ i) by (apply list_lookup_insert_eq; lia).
        rewrite take_insert_ge by lia. rewrite drop_insert_lt by lia.
        by rewrite <- app_assoc, Nat.add_succ_comm.
    + destruct (IH s) as (? & ? & ? & Hc & Ha & Hi); [done..|].
      replace (Z.to_nat (NCPU - ncpu s)) with 0%nat in * by lia. by rewrite !take_0 in *.
  - destruct (IH (set_ioapicid i s)) as (? & ? & ? & Hc & Ha & Hi); [done..|].
    split_and!; try done. rewrite Hi. change (ioapics (IoApic i :: es)) with (i :: ioapics es).
    rewrite last_cons. by destruct (last (ioapics es)).
  - by apply IH.
Qed.

(** ** The search *)

Definition is_mp m (p : Z) : Prop := bytes_at m p 4 = mp_sig /\ sum m p MP_SIZE = 0.

Lemma search_loop_first m n q :
  match search_loop m n q with
  | Some p => exists k, 0 <= k < Z.of_nat n /\ p = q + MP_SIZE * k /\ is_mp m p /\
      forall j, 0 <= j < k -> ~ is_mp m (q + MP_SIZE * j)
  | None => forall j, 0 <= j < Z.of_nat n -> ~ is_mp m (q + MP_SIZE * j)
  end.
Proof.
  revert q. induction n as [|n IH]; intros q; cbn [search_loop]; [lia|].
  destruct (bool_decide_reflect (bytes_at m q 4 = mp_sig)) as [H1|H1];
    destruct (Z.eqb_spec (sum m q MP_SIZE) 0) as [H2|H2]; cbn [andb].
  { exists 0. rewrite Z.mul_0_r, Z.add_0_r. split_and!; [lia..|done|done|lia]. }
  all: assert (Hq : ~ is_mp m (q + MP_SIZE * 0)) by (rewrite Z.mul_0_r, Z.add_0_r; intros []; done).
  all: specialize (IH (q + MP_SIZE)); destruct (search_loop m n (q + MP_SIZE)) as [p|].
  all: try (intros j Hj; destruct (Z.eq_dec j 0) as [->|]; [done|];
    replace (q + MP_SIZE * j) with (q + MP_SIZE + MP_SIZE * (j - 1)) by lia; apply IH; lia).
  all: destruct IH as (k & Hk & -> & Hi & Hj); exists (k + 1); split_and!; [lia|lia|lia|done|];
    intros j Hj'; (destruct (Z.eq_dec j 0) as [->|]; [done|]);
    replace (q + MP_SIZE * j) with (q + MP_SIZE + MP_SIZE * (j - 1)) by lia; apply Hj; lia.
Qed.

(** The structure found is the first one of the area on a sixteen-byte step. *)
Theorem mpsearch1_first m a len :
  0 <= len ->
  match mpsearch1 m a len with
  | Some p => exists k, 0 <= k /\ MP_SIZE * k < len /\ p = P2V a + MP_SIZE * k /\ is_mp m p /\
      forall j, 0 <= j < k -> ~ is_mp m (P2V a + MP_SIZE * j)
  | None => forall j, 0 <= j -> MP_SIZE * j < len -> ~ is_mp m (P2V a + MP_SIZE * j)
  end.
Proof.
  intros Hl. unfold mpsearch1. set (n := Z.to_nat _).
  assert (Hd : forall j, 0 <= j -> j < Z.of_nat n <-> MP_SIZE * j < len).
  { intros j Hj. unfold n, MP_SIZE in *. rewrite Z2Nat.id by (apply Z.div_pos; lia).
    pose proof (Z.div_mod (len + 16 - 1) 16 ltac:(lia)). pose proof (Z.mod_pos_bound (len + 16 - 1) 16 ltac:(lia)). lia. }
  pose proof (search_loop_first m n (P2V a)) as Hs. destruct (search_loop _ _ _) as [p|].
  - destruct Hs as (k & Hk & ? & ? & ?). exists k. split_and!; [lia|by apply Hd; lia|done..].
  - intros j H1 H2. apply Hs. split; [done|]. by apply Hd.
Qed.

(** ** [mpinit] *)

(** With a table that passes the checks and whose entries have types of
    [mp.h], [mpinit] returns: [ncpu] is the number of processor entries, eight at most,
    [cpus[i].apicid] is the identifier in the [i]th of them and the other elements are
    untouched, [ioapicid] is that of the last I/O APIC entry, [lapic] the address in the
    table, and interrupts are taken off the IMCR if the pointer structure asks for it. *)
Theorem mpinit_records s mp conf es :
  mpconfig (m_ram s) = Some (mp, conf) ->
  entries (m_ram s) (conf + conf_length (m_ram s) conf) (conf + CONF_SIZE) es ->
  ncpu s = 0 -> length (apicids s) = Z.to_nat NCPU ->
  exists s', mpinit s = Ret tt s' /\ m_ram s' = m_ram s /\
    ncpu s' = Z.min NCPU (Z.of_nat (length (processors es))) /\
    apicids s' = take (Z.to_nat NCPU) (processors es) ++ drop (Z.to_nat (ncpu s')) (apicids s) /\
    ioapicid s' = default (ioapicid s) (last (ioapics es)) /\
    lapic s' = load32 (m_ram s) (conf + 36) /\
    imcr s' = imcr s ++ (if mp_imcrp (m_ram s) mp =? 0 then [] else [(0x22, 0x70); (0x23, Z.lor inb23 1)]).
Proof.
  intros Hc He Hn Hl. unfold mpinit. steps. rewrite Hc. steps.
  cbn [m_ram set_lapic]. set (s1 := set_lapic _ s). set (n := conf_length _ _) in *.
  pose proof (entries_count _ _ _ _ He) as Hk.
  rewrite (bind_Ret _ _ _ true (foldl take_entry s1 es)).
  2: { apply (entry_loop_takes _ _ _ (m_ram s)); [done..|]. unfold CONF_SIZE in Hk.
    pose proof (Z.div_mod n 8 ltac:(lia)). pose proof (Z.mod_pos_bound n 8 ltac:(lia)). lia. }
  destruct (take_entries s1 es) as (Hr & Ha & Hi & Hnc & Hids & Hio); [by cbn; rewrite Hn|done|].
  cbn [negb]. rewrite bind_gets, Hr. cbn [ncpu s1 set_lapic apicids m_ram lapic imcr ioapicid] in *.
  rewrite Hn, Z.sub_0_r, ?length_take in *.
  assert (Hnc' : ncpu (foldl take_entry s1 es) = Z.min NCPU (Z.of_nat (length (processors es)))) by (rewrite Hnc; unfold NCPU; lia).
  destruct (mp_imcrp (m_ram s) mp =? 0); cbn [negb when]; eexists; split; [done| |done|]; cbn [m_ram ncpu apicids ioapicid lapic imcr outb];
    rewrite Hids, Hnc', Hi; split_and!; try done; rewrite ?app_nil_r, <- ?app_assoc; try done.
  all: change (Z.to_nat 0) with 0%nat; rewrite take_0; cbn [app]; f_equal; f_equal; unfold NCPU; lia.
Qed.

(** An entry whose type is none of the five is never passed: the loop that should end with
    the panic about an unsuitable machine runs for ever. *)
Theorem mpinit_unknown_entry_hangs s conf fuel b :
  garbled (m_ram s) (conf + conf_length (m_ram s) conf) (conf + CONF_SIZE) ->
  entry_loop fuel (conf + CONF_SIZE) (conf + conf_length (m_ram s) conf) b s = Fuel.
Proof. intros. by apply (entry_loop_hangs (m_ram s)). Qed.
End Mp.

(** Two processors, a bus, an I/O APIC and an interrupt. *)
Definition demo_fp : list Z := [95; 77; 80; 95; 0; 16; 0; 0; 1; 4; 143; 0; 1; 0; 0; 0].
Definition demo_conf : list Z :=
  [80; 67; 77; 80; 108; 0; 4; 107] ++ replicate 20 0 ++ [0; 0; 0; 0; 0; 0; 5; 0; 0; 0; 0xE0; 0xFE; 0; 0; 0; 0] ++
  (0 :: 0 :: replicate 18 0) ++ (0 :: 5 :: replicate 18 0) ++ (1 :: replicate 7 0) ++ (2 :: 7 :: replicate 6 0) ++ (3 :: replicate 7 0).
Definition demo_mp : mpst :=
  mkmp (blit_list (P2V 0xF0000) demo_fp (blit_list (P2V 0x1000) demo_conf (fun _ => 0))) (replicate 8 99) 0 0 0 [].

Lemma mpinit_records_witness : exists s', mpinit 0 demo_mp = Ret tt s' /\ ncpu s' = 2 /\
  apicids s' = [0; 5; 99; 99; 99; 99; 99; 99] /\ ioapicid s' = 7 /\ lapic s' = 0xFEE00000 /\ imcr s' = [(0x22, 0x70); (0x23, 1)].
Proof.
  destruct (mpinit_records 0 demo_mp (P2V 0xF0000) (P2V 0x1000) [Processor 0; Processor 5; Other; IoApic 7; Other])
    as (s' & Hs & _ & Hn & Ha & Hi & Hl & Hm); [vm_compute; reflexivity| |reflexivity..|].
  - apply entries_proc; [reflexivity..|]. apply (entries_proc (m_ram demo_mp) _ (P2V 0x1000 + CONF_SIZE + PROC_SIZE)); [reflexivity..|].
    apply entries_other; [reflexivity|left; reflexivity|]. apply (entries_ioapic (m_ram demo_mp) _ (P2V 0x1000 + CONF_SIZE + PROC_SIZE + PROC_SIZE + 8)); [reflexivity..|].
    apply entries_other; [reflexivity|right; left; reflexivity|]. apply entries_end. vm_compute. discriminate.
  - exists s'. rewrite Hn in Ha. split_and!; [exact Hs|exact Hn|exact Ha|exact Hi|exact Hl|exact Hm].
Defined.
End Mp.
