(* ===== verification/Apic.v ===== *)
(** * The interrupt controllers and the clock chip

    Models [ioapic.c], [picirq.c] and [lapic.c].  A device is the registers the code reads
    and writes; where reading one gives what the hardware decides (the delivery status of the
    local APIC, the registers of the clock chip) the readings are a parameter, indexed by the
    number of reads before. *)

From Stdlib Require Import ZArith Lia.
From S2P Require Import Prelude Spinlock ProcDefs Memory Kalloc Trap.

Definition put (r v : Z) (f : Z -> Z) : Z -> Z := fun x => if x =? r then v else f x.

Lemma put_same r v f : put r v f r = v.
Proof. unfold put. by rewrite Z.eqb_refl. Qed.

Lemma put_other r v f x : x <> r -> put r v f x = f x.
Proof. intros. unfold put. by rewrite (proj2 (Z.eqb_neq x r)). Qed.

(** ** [ioapic.c] *)

Module Ioapic.

Definition REG_ID : Z := 0x00.
Definition REG_VER : Z := 0x01.
Definition REG_TABLE : Z := 0x10.
Definition INT_DISABLED : Z := 0x00010000.

(** The selected register, the registers behind the window, and the lines printed. *)
Record iost := mkio { io_sel : Z; io_regs : Z -> Z; io_out : list string }.

Definition sel (r : Z) (s : iost) : iost := mkio r (io_regs s) (io_out s).

Definition ioapicread (reg : Z) : M iost Z := modify (sel reg) ;; gets (fun s => io_regs s (io_sel s)).
Definition ioapicwrite (reg data : Z) : M iost unit :=
  modify (sel reg) ;; modify (fun s => mkio (io_sel s) (put (io_sel s) data (io_regs s)) (io_out s)).

(** The [for] of [ioapicinit], with [n] turns left. *)
Fixpoint mask_loop (n : nat) (i : Z) : M iost unit :=
  match n with
  | O => ret tt
  | S n =>
      ioapicwrite (REG_TABLE + 2 * i) (Z.lor INT_DISABLED (T_IRQ0 + i)) ;;
      ioapicwrite (REG_TABLE + 2 * i + 1) 0 ;;
      mask_loop n (i + 1)
  end.

Definition ioapicinit (ioapicid : Z) : M iost unit :=
  v <- ioapicread REG_VER ;;
  let maxintr := Z.land (Z.shiftr v 16) 0xFF in
  w <- ioapicread REG_ID ;;
  let id := Z.shiftr w 24 in
  when (negb (id =? ioapicid))
    (modify (fun s => mkio (io_sel s) (io_regs s) (io_out s ++ ["ioapicinit: id isn't equal to ioapicid; not a MP"%string]))) ;;
  mask_loop (Z.to_nat (maxintr + 1)) 0.

Definition ioapicenable (irq cpunum : Z) : M iost unit :=
  ioapicwrite (REG_TABLE + 2 * irq) (T_IRQ0 + irq) ;;
  ioapicwrite (REG_TABLE + 2 * irq + 1) (u32 (Z.shiftl cpunum 24)).

(** The calls that follow [ioapicinit] while the devices are initialised. *)
Fixpoint enable_all (l : list (Z * Z)) : M iost unit :=
  match l with
  | [] => ret tt
  | (irq, cpu) :: l => ioapicenable irq cpu ;; enable_all l
  end.

Lemma mask_loop_regs n i s r :
  exists s', mask_loop n i s = Ret tt s' /\ io_out s' = io_out s /\
    (forall k, i <= k < i + Z.of_nat n ->
       io_regs s' (REG_TABLE + 2 * k) = Z.lor INT_DISABLED (T_IRQ0 + k) /\ io_regs s' (REG_TABLE + 2 * k + 1) = 0) /\
    (r < REG_TABLE + 2 * i \/ REG_TABLE + 2 * (i + Z.of_nat n) <= r -> io_regs s' r = io_regs s r).
Proof.
  revert i s r. induction n as [|n IH]; intros i s r.
  { exists s. split_and!; [done..|lia|done]. }
  set (s1 := mkio (REG_TABLE + 2 * i + 1)
    (put (REG_TABLE + 2 * i + 1) 0 (put (REG_TABLE + 2 * i) (Z.lor INT_DISABLED (T_IRQ0 + i)) (io_regs s))) (io_out s)).
  change (mask_loop (S n) i s) with (mask_loop n (i + 1) s1).
  assert (Hk : forall x, exists s', mask_loop n (i + 1) s1 = Ret tt s' /\ io_out s' = io_out s1 /\
    (forall k, i + 1 <= k < i + 1 + Z.of_nat n ->
       io_regs s' (REG_TABLE + 2 * k) = Z.lor INT_DISABLED (T_IRQ0 + k) /\ io_regs s' (REG_TABLE + 2 * k + 1) = 0) /\
    (x < REG_TABLE + 2 * (i + 1) -> io_regs s' x = io_regs s1 x)).
  { intros x. destruct (IH (i + 1) s1 x) as (s' & ? & ? & ? & Hx). exists s'. split_and!; auto. }
  destruct (IH (i + 1) s1 r) as (s' & Hs & Ho & Hn & Hr). exists s'. split_and!; [done..| |].
  - intros k Hi. destruct (Z.eq_dec k i) as [->|]; [|apply Hn; lia].
    destruct (Hk (REG_TABLE + 2 * i)) as (? & Hs' & _ & _ & H1). rewrite Hs in Hs'. injection Hs' as <-.
    destruct (Hk (REG_TABLE + 2 * i + 1)) as (? & Hs' & _ & _ & H2). rewrite Hs in Hs'. injection Hs' as <-.
    rewrite H1, H2 by lia. cbn [io_regs s1]. by rewrite put_same, put_other, put_same by lia.
  - intros Hx. rewrite Hr by lia. cbn [io_regs s1]. by rewrite !put_other by lia.
Qed.

Lemma enable_all_regs l s :
  Forall (fun x => 0 <= x.1) l ->
  exists s', enable_all l s = Ret tt s' /\ io_out s' = io_out s /\
    forall k, 0 <= k ->
      match last (filter (fun x => x.1 = k) l) with
      | Some x => io_regs s' (REG_TABLE + 2 * k) = T_IRQ0 + k /\ io_regs s' (REG_TABLE + 2 * k + 1) = u32 (Z.shiftl x.2 24)
      | None => io_regs s' (REG_TABLE + 2 * k) = io_regs s (REG_TABLE + 2 * k) /\
                io_regs s' (REG_TABLE + 2 * k + 1) = io_regs s (REG_TABLE + 2 * k + 1)
      end.
Proof.
  revert s. induction l as [|[i c] l IH]; intros s Hl.
  { exists s. split_and!; done. }
  apply Forall_cons in Hl as [Hi Hl]. cbn in Hi.
  set (s1 := mkio (REG_TABLE + 2 * i + 1)
    (put (REG_TABLE + 2 * i + 1) (u32 (Z.shiftl c 24)) (put (REG_TABLE + 2 * i) (T_IRQ0 + i) (io_regs s))) (io_out s)).
  change (enable_all ((i, c) :: l) s) with (enable_all l s1).
  destruct (IH s1 Hl) as (s' & Hs & Ho & Hr). exists s'. split_and!; [done..|].
  intros k Hk. specialize (Hr k Hk). destruct (Z.eq_dec i k) as [<-|Hik].
  - rewrite filter_cons_True by done. rewrite last_cons.
    destruct (last (filter _ l)); [done|]. cbn [io_regs s1] in Hr.
    by rewrite put_same, put_other, put_same in Hr by lia.
  - rewrite filter_cons_False by done. destruct (last (filter _ l)); [done|]. cbn [io_regs s1] in Hr.
    by rewrite !put_other in Hr by lia.
Qed.

(** After the controller is initialised and some interrupts are enabled, an interrupt is
    masked unless it was enabled, and an enabled one has its own vector and goes to the last
    processor it was enabled for. *)
Theorem ioapic_routes ioapicid s l :
  Forall (fun x => 0 <= x.1) l ->
  let maxintr := Z.land (Z.shiftr (io_regs s REG_VER) 16) 0xFF in
  exists s', (ioapicinit ioapicid ;; enable_all l) s = Ret tt s' /\
    (io_out s' = io_out s <-> Z.shiftr (io_regs s REG_ID) 24 = ioapicid) /\
    forall k, 0 <= k <= maxintr ->
      match last (filter (fun x => x.1 = k) l) with
      | Some x => io_regs s' (REG_TABLE + 2 * k) = T_IRQ0 + k /\ io_regs s' (REG_TABLE + 2 * k + 1) = u32 (Z.shiftl x.2 24)
      | None => io_regs s' (REG_TABLE + 2 * k) = Z.lor INT_DISABLED (T_IRQ0 + k) /\ io_regs s' (REG_TABLE + 2 * k + 1) = 0
      end.
Proof.
  intros Hl maxintr. set (same := Z.shiftr (io_regs s REG_ID) 24 =? ioapicid).
  set (s1 := mkio REG_ID (io_regs s) (if same then io_out s else io_out s ++ ["ioapicinit: id isn't equal to ioapicid; not a MP"%string])).
  destruct (mask_loop_regs (Z.to_nat (maxintr + 1)) 0 s1 0) as (s2 & H2 & Ho2 & Hm & _).
  destruct (enable_all_regs l s2 Hl) as (s3 & H3 & Ho3 & He). exists s3. split_and!.
  - rewrite (bind_Ret _ _ _ tt s2); [done|]. rewrite <- H2. unfold ioapicinit, ioapicread, s1, maxintr, same.
    cbn [bind rbind modify gets sel io_sel io_regs io_out]. unfold when. by destruct (_ =? _).
  - rewrite Ho3, Ho2. cbn [io_out s1]. unfold same. destruct (Z.eqb_spec (Z.shiftr (io_regs s REG_ID) 24) ioapicid).
    { done. }
    split; [|done]. intros H%(f_equal length). rewrite length_app in H. cbn in H. lia.
  - intros k Hk. specialize (He k ltac:(lia)). destruct (last _); [done|].
    specialize (Hm k ltac:(lia)). destruct He as [-> ->]. done.
Qed.
End Ioapic.

(** ** [picirq.c] *)

Module Pic.
Definition IO_PIC1 : Z := 0x20.
Definition IO_PIC2 : Z := 0xA0.

(** The bytes written to ports. *)
Definition picinit : M (list (Z * Z)) unit :=
  modify (fun l => l ++ [(IO_PIC1 + 1, 0xFF)]) ;; modify (fun l => l ++ [(IO_PIC2 + 1, 0xFF)]).
End Pic.

(** ** [lapic.c] *)

Module Lapic.

Definition ID : Z := 0x0020 / 4.
Definition VER : Z := 0x0030 / 4.
Definition TPR : Z := 0x0080 / 4.
Definition EOI : Z := 0x00B0 / 4.
Definition SVR : Z := 0x00F0 / 4.
Definition ENABLE : Z := 0x00000100.
Definition ESR : Z := 0x0280 / 4.
Definition ICRLO : Z := 0x0300 / 4.
Definition INIT : Z := 0x00000500.
Definition STARTUP : Z := 0x00000600.
Definition DELIVS : Z := 0x00001000.
Definition ASSERT : Z := 0x00004000.
Definition LEVEL : Z := 0x00008000.
Definition BCAST : Z := 0x00080000.
Definition ICRHI : Z := 0x0310 / 4.
Definition TIMER : Z := 0x0320 / 4.
Definition X1 : Z := 0x0000000B.
Definition PERIODIC : Z := 0x00020000.
Definition PCINT : Z := 0x0340 / 4.
Definition LINT0 : Z := 0x0350 / 4.
Definition LINT1 : Z := 0x0360 / 4.
Definition ERROR : Z := 0x0370 / 4.
Definition MASKED : Z := 0x00010000.
Definition TICR : Z := 0x0380 / 4.
Definition TDCR : Z := 0x03E0 / 4.
Definition IRQ_ERROR : Z := 19.
Definition CMOS_PORT : Z := 0x70.

(** The pointer [lapic], the registers, the commands sent by writing [ICRLO] (the destination
    in [ICRHI] with the command), the reads of [ICRLO] so far, the bytes written to ports, and
    memory. *)
Record lapst := mklap {
  lapic : Z; l_regs : Z -> Z; l_sent : list (Z * Z); l_reads : nat; l_ports : list (Z * Z); l_ram : memory }.

Section Lapic.
(** What the reads of [ICRLO] return. *)
Context (icr : nat -> Z).

(** A store to a register. *)
Definition reg_write (index value : Z) (s : lapst) : lapst :=
  mklap (lapic s) (put index (u32 value) (l_regs s))
    (if index =? ICRLO then l_sent s ++ [(l_regs s ICRHI, u32 value)] else l_sent s) (l_reads s) (l_ports s) (l_ram s).

Definition lapicw (index value : Z) : M lapst unit := modify (reg_write index value).

Definition outb (port v : Z) : M lapst unit :=
  modify (fun s => mklap (lapic s) (l_regs s) (l_sent s) (l_reads s) (l_ports s ++ [(port, u8 v)]) (l_ram s)).

(** [while(lapic[ICRLO] & DELIVS);] *)
Fixpoint delivs_loop (fuel : nat) : M lapst unit :=
  match fuel with
  | O => nofuel
  | S fuel =>
      v <- gets (fun s => icr (l_reads s)) ;;
      modify (fun s => mklap (lapic s) (l_regs s) (l_sent s) (S (l_reads s)) (l_ports s) (l_ram s)) ;;
      if Z.land v DELIVS =? 0 then ret tt else delivs_loop fuel
  end.

Definition lapicinit (fuel : nat) : M lapst unit :=
  l <- gets lapic ;;
  if l =? 0 then ret tt else
  lapicw SVR (Z.lor ENABLE (T_IRQ0 + IRQ_SPURIOUS)) ;;
  lapicw TDCR X1 ;;
  lapicw TIMER (Z.lor PERIODIC (T_IRQ0 + IRQ_TIMER)) ;;
  lapicw TICR 10000000 ;;
  lapicw LINT0 MASKED ;;
  lapicw LINT1 MASKED ;;
  v <- gets (fun s => l_regs s VER) ;;
  when (4 <=? Z.land (Z.shiftr v 16) 0xFF) (lapicw PCINT MASKED) ;;
  lapicw ERROR (T_IRQ0 + IRQ_ERROR) ;;
  lapicw ESR 0 ;;
  lapicw ESR 0 ;;
  lapicw EOI 0 ;;
  lapicw ICRHI 0 ;;
  lapicw ICRLO (Z.lor (Z.lor BCAST INIT) LEVEL) ;;
  delivs_loop fuel ;;
  lapicw TPR 0.

Definition lapicid : M lapst Z :=
  l <- gets lapic ;;
  if l =? 0 then ret 0 else gets (fun s => Z.shiftr (l_regs s ID) 24).

Definition lapiceoi : M lapst unit :=
  l <- gets lapic ;;
  when (negb (l =? 0)) (lapicw EOI 0).

(** A store of a 16-bit number. *)
Definition store16 (a v : Z) : M lapst unit :=
  modify (fun s => mklap (lapic s) (l_regs s) (l_sent s) (l_reads s) (l_ports s)
    (put (a + 1) ((v / 256) mod 256) (put a (v mod 256) (l_ram s)))).

(** The [for] of [lapicstartap]. *)
Fixpoint startup_loop (n : nat) (apicid addr : Z) : M lapst unit :=
  match n with
  | O => ret tt
  | S n =>
      lapicw ICRHI (Z.shiftl apicid 24) ;;
      lapicw ICRLO (Z.lor STARTUP (Z.shiftr addr 12)) ;;
      startup_loop n apicid addr
  end.

Definition lapicstartap (apicid addr : Z) : M lapst unit :=
  outb CMOS_PORT 0xF ;;
  outb (CMOS_PORT + 1) 0x0A ;;
  let wrv := P2V (Z.lor (Z.shiftl 0x40 4) 0x67) in
  store16 wrv 0 ;;
  store16 (wrv + 2) (u16 (Z.shiftr addr 4)) ;;
  lapicw ICRHI (Z.shiftl apicid 24) ;;
  lapicw ICRLO (Z.lor (Z.lor INIT LEVEL) ASSERT) ;;
  lapicw ICRLO (Z.lor INIT LEVEL) ;;
  startup_loop 2 apicid addr.

(** ** What they do *)

Lemma regs_write i v s : l_regs (reg_write i v s) = put i (u32 v) (l_regs s).
Proof. done. Qed.

Lemma sent_write i v s : i <> ICRLO -> l_sent (reg_write i v s) = l_sent s.
Proof. intros. cbn. by rewrite (proj2 (Z.eqb_neq i ICRLO)). Qed.

Lemma sent_command v s : l_sent (reg_write ICRLO v s) = l_sent s ++ [(l_regs s ICRHI, u32 v)].
Proof. done. Qed.

Lemma reads_write i v s : l_reads (reg_write i v s) = l_reads s.
Proof. done. Qed.

Lemma delivs_loop_ends n fuel t :
  (n < fuel)%nat ->
  (forall k, (k < n)%nat -> Z.land (icr (l_reads t + k)) DELIVS <> 0) -> Z.land (icr (l_reads t + n)) DELIVS = 0 ->
  delivs_loop fuel t = Ret tt (mklap (lapic t) (l_regs t) (l_sent t) (l_reads t + S n) (l_ports t) (l_ram t)).
Proof.
  revert fuel t. induction n as [|n IH]; intros [|fuel] t Hf Hw Hd; try lia; cbn [delivs_loop]; rewrite bind_gets, bind_modify.
  - rewrite Nat.add_0_r in Hd. rewrite Hd, Nat.add_1_r. done.
  - specialize (Hw 0%nat ltac:(lia)) as H0. rewrite Nat.add_0_r in H0. rewrite (proj2 (Z.eqb_neq _ 0) H0).
    rewrite IH; cbn [l_reads lapic l_regs l_sent l_ports l_ram].
    + do 2 f_equal. lia.
    + lia.
    + intros k Hk. rewrite Nat.add_succ_comm. apply Hw. lia.
    + by rewrite Nat.add_succ_comm.
Qed.

(** [lapicinit] returns at the first reading of the command register that shows the
    de-assert delivered, with the timer running on its vector and nothing pending. *)
Theorem lapicinit_starts s n fuel :
  lapic s <> 0 ->
  (forall k, (k < n)%nat -> Z.land (icr (l_reads s + k)) DELIVS <> 0) ->
  Z.land (icr (l_reads s + n)) DELIVS = 0 -> (n < fuel)%nat ->
  exists s', lapicinit fuel s = Ret tt s' /\ l_reads s' = (l_reads s + S n)%nat /\
    l_sent s' = l_sent s ++ [(0, Z.lor (Z.lor BCAST INIT) LEVEL)] /\
    l_regs s' SVR = Z.lor ENABLE (T_IRQ0 + IRQ_SPURIOUS) /\
    l_regs s' TIMER = Z.lor PERIODIC (T_IRQ0 + IRQ_TIMER) /\ l_regs s' TICR = 10000000 /\ l_regs s' TDCR = X1 /\
    l_regs s' LINT0 = MASKED /\ l_regs s' LINT1 = MASKED /\
    l_regs s' PCINT = (if 4 <=? Z.land (Z.shiftr (l_regs s VER) 16) 0xFF then MASKED else l_regs s PCINT) /\
    l_regs s' ERROR = T_IRQ0 + IRQ_ERROR /\ l_regs s' TPR = 0.
Proof.
  intros Hl Hw Hd Hf.
  unfold lapicinit. rewrite bind_gets, (proj2 (Z.eqb_neq _ 0) Hl). unfold lapicw.
  rewrite !bind_modify, bind_gets, !regs_write. change (put _ _ _ VER) with (l_regs s VER).
  destruct (4 <=? _); unfold when; rewrite ?bind_modify, ?(bind_Ret (ret tt) _ _ tt _ eq_refl), ?bind_modify;
    (erewrite bind_Ret by (apply (delivs_loop_ends n); [done|rewrite !reads_write; done..]));
    eexists; (split; [reflexivity|]); rewrite reads_write, (sent_write TPR) by (vm_compute; intros ?; discriminate); cbn [l_reads l_sent];
    rewrite regs_write; cbn [l_regs]; rewrite sent_command, !sent_write, !reads_write, !regs_write by (vm_compute; intros ?; discriminate);
    split_and!; reflexivity.
Qed.

Lemma startup_word v : 0 <= v < 256 -> u32 (Z.lor STARTUP v) = Z.lor STARTUP v.
Proof.
  intros Hv.
  assert (H : forallb (fun k => u32 (Z.lor STARTUP (Z.of_nat k)) =? Z.lor STARTUP (Z.of_nat k)) (seq 0 256) = true) by reflexivity.
  rewrite forallb_forall in H. specialize (H (Z.to_nat v)). rewrite Z2Nat.id in H by lia.
  apply Z.eqb_eq, H, in_seq. lia.
Qed.

(** The four commands of [lapicstartap] go to the processor with that identifier, and both
    ways for it to start, the vector of the start-up command and the warm reset vector, lead to
    the code at [addr]. *)
Theorem lapicstartap_addr s apicid addr :
  0 <= apicid < 256 -> 0 <= addr < 0x100000 -> addr mod 4096 = 0 ->
  exists s' v, lapicstartap apicid addr s = Ret tt s' /\
    l_sent s' = l_sent s ++ [(Z.shiftl apicid 24, Z.lor (Z.lor INIT LEVEL) ASSERT); (Z.shiftl apicid 24, Z.lor INIT LEVEL);
      (Z.shiftl apicid 24, Z.lor STARTUP v); (Z.shiftl apicid 24, Z.lor STARTUP v)] /\
    0 <= v < 256 /\ v * 4096 = addr /\
    (let w := load32 (l_ram s') (P2V 0x467) in (w / 65536) * 16 + w mod 65536 = addr) /\
    forall x, x < P2V 0x467 \/ P2V 0x467 + 4 <= x -> l_ram s' x = l_ram s x.
Proof.
  intros Ha Hd Hm. assert (Hid : u32 (Z.shiftl apicid 24) = Z.shiftl apicid 24).
  { rewrite Z.shiftl_mul_pow2 by lia. unfold u32. rewrite Z.mod_small; lia. }
  pose proof (Z.div_mod addr 4096 ltac:(lia)) as Hq. set (v := addr / 4096) in *.
  assert (Hs12 : Z.shiftr addr 12 = v) by (by rewrite Z.shiftr_div_pow2 by lia).
  assert (Hs4 : Z.shiftr addr 4 = 256 * v).
  { rewrite Z.shiftr_div_pow2 by lia. symmetry. apply Z.div_unique_exact; lia. }
  assert (Hw : forall a, put (a + 2 + 1) ((u16 (256 * v) / 256) mod 256) (put (a + 2) (u16 (256 * v) mod 256)
    (put (a + 1) ((0 / 256) mod 256) (put a (0 mod 256) (l_ram s)))) = put (a + 3) v (put (a + 2) 0 (put (a + 1) 0 (put a 0 (l_ram s))))).
  { intros a. unfold u16. rewrite (Z.mod_small (256 * v)) by lia.
    rewrite (Z.mul_comm 256), Z.div_mul, Z_mod_mult, Z.mod_small by lia. by rewrite <- Z.add_assoc. }
  eexists _, v. split.
  - unfold lapicstartap, startup_loop, outb, store16, lapicw. rewrite Hs12, Hs4, !bind_modify. reflexivity.
  - assert (Hsent : forall x t, l_sent (reg_write ICRHI x t) = l_sent t) by done. split_and!; [|lia..| |].
    + rewrite !sent_command, !Hsent, !sent_command, !Hsent, !sent_command, !Hsent, !regs_write, Hid, startup_word by lia. cbn [l_sent].
      rewrite <- !app_assoc. reflexivity.
    + cbn zeta. cbn [l_ram reg_write]. rewrite Hw. unfold load32, put.
      change (P2V (Z.lor (Z.shiftl 64 4) 103)) with (P2V 0x467). set (a := P2V 0x467).
      rewrite ?Z.eqb_refl. repeat (rewrite (proj2 (Z.eqb_neq _ _)) by lia).
      replace (0 + 256 * 0 + 65536 * 0 + 16777216 * v) with (65536 * (256 * v)) by lia.
      rewrite (Z.mul_comm 65536), Z.div_mul, Z_mod_mult by lia. lia.
    + intros x Hx. cbn [l_ram reg_write]. rewrite Hw.
      change (P2V (Z.lor (Z.shiftl 64 4) 103)) with (P2V 0x467). by rewrite !put_other by lia.
Qed.
End Lapic.
End Lapic.

(** ** The clock chip *)

Module Cmos.

Definition CMOS_STATA : Z := 0x0a.
Definition CMOS_STATB : Z := 0x0b.
Definition CMOS_UIP : Z := Z.shiftl 1 7.
Definition SECS : Z := 0x00.
Definition MINS : Z := 0x02.
Definition HOURS : Z := 0x04.
Definition DAY : Z := 0x07.
Definition MONTH : Z := 0x08.
Definition YEAR : Z := 0x09.

Record rtcdate := mkdate { second : Z; minute : Z; hour : Z; day : Z; month : Z; year : Z }.

#[global] Instance rtcdate_eq_dec : EqDecision rtcdate.
Proof. solve_decision. Defined.

Section Cmos.
(** The byte that read number [n] of the chip returns for a register. *)
Context (chip : nat -> Z -> Z).

(** The state is the number of reads so far. *)
Definition cmos_read (reg : Z) : M nat Z := v <- gets (fun n => chip n reg) ;; modify S ;; ret v.

Definition fill_rtcdate : M nat rtcdate :=
  s <- cmos_read SECS ;;
  mi <- cmos_read MINS ;;
  h <- cmos_read HOURS ;;
  d <- cmos_read DAY ;;
  mo <- cmos_read MONTH ;;
  y <- cmos_read YEAR ;;
  ret (mkdate s mi h d mo y).

Fixpoint date_loop (fuel : nat) : M nat rtcdate :=
  match fuel with
  | O => nofuel
  | S fuel =>
      t1 <- fill_rtcdate ;;
      a <- cmos_read CMOS_STATA ;;
      if negb (Z.land a CMOS_UIP =? 0) then date_loop fuel else
      t2 <- fill_rtcdate ;;
      if bool_decide (t1 = t2) then ret t1 else date_loop fuel
  end.

Definition CONV (x : Z) : Z := u32 (Z.shiftr x 4 * 10 + Z.land x 0xf).

Definition cmostime (fuel : nat) : M nat rtcdate :=
  sb <- cmos_read CMOS_STATB ;;
  let bcd := Z.land sb (Z.shiftl 1 2) =? 0 in
  t1 <- date_loop fuel ;;
  let t1 := if bcd then mkdate (CONV (second t1)) (CONV (minute t1)) (CONV (hour t1)) (CONV (day t1)) (CONV (month t1)) (CONV (year t1)) else t1 in
  ret (mkdate (second t1) (minute t1) (hour t1) (day t1) (month t1) (u32 (year t1 + 2000))).

(** What a fill that starts at read [n] gets. *)
Definition filled (n : nat) : rtcdate :=
  mkdate (chip n SECS) (chip (n + 1) MINS) (chip (n + 2) HOURS) (chip (n + 3) DAY) (chip (n + 4) MONTH) (chip (n + 5) YEAR).

Lemma fill_run n : fill_rtcdate n = Ret (filled n) (n + 6)%nat.
Proof. unfold filled. rewrite !Nat.add_succ_r, Nat.add_0_r. done. Qed.

Lemma cmos_read_run r n : cmos_read r n = Ret (chip n r) (S n).
Proof. done. Qed.

(** From read [T] on the chip does not change. *)
Definition settled (T : nat) (c : Z -> Z) : Prop := forall n r, (T <= n)%nat -> chip n r = c r.

Lemma date_loop_ends T c n fuel :
  settled T c -> Z.land (c CMOS_STATA) CMOS_UIP = 0 -> (T - n < fuel)%nat ->
  exists k, date_loop fuel n = Ret (filled k) (k + 13)%nat /\ (n <= k)%nat /\
    filled k = filled (k + 7) /\ Z.land (chip (k + 6) CMOS_STATA) CMOS_UIP = 0.
Proof.
  intros Hs Hu. revert n. induction fuel as [|fuel IH]; intros n Hf; [lia|].
  cbn [date_loop]. rewrite (bind_Ret _ _ _ _ _ (fill_run n)), (bind_Ret _ _ _ _ _ (cmos_read_run CMOS_STATA (n + 6))).
  assert (Hnext : forall m, (n < m)%nat -> (n < T)%nat -> exists k, date_loop fuel m = Ret (filled k) (k + 13)%nat /\ (n <= k)%nat /\
    filled k = filled (k + 7) /\ Z.land (chip (k + 6) CMOS_STATA) CMOS_UIP = 0).
  { intros m Hm Ht. destruct (IH m) as (k & ? & ? & ? & ?); [lia|]. exists k. split_and!; (done || lia). }
  destruct (Z.eqb_spec (Z.land (chip (n + 6) CMOS_STATA) CMOS_UIP) 0) as [H0|H0]; cbn [negb].
  2: { apply Hnext; [lia|]. destruct (Nat.lt_ge_cases n T); [done|]. rewrite Hs in H0 by lia. done. }
  rewrite (bind_Ret _ _ _ _ _ (fill_run (S (n + 6)))). replace (S (n + 6)) with (n + 7)%nat by lia.
  case_bool_decide as He.
  - exists n. rewrite <- Nat.add_assoc. split_and!; done.
  - apply Hnext; [lia|]. destruct (Nat.lt_ge_cases n T); [done|]. destruct He. unfold filled. by rewrite !Hs by lia.
Qed.

(** A clock that holds still for long enough is read: the date is one that two passes over the
    registers saw alike, with no update in progress between them. *)
Theorem cmostime_returns T c n fuel :
  settled T c -> Z.land (c CMOS_STATA) CMOS_UIP = 0 -> (T < fuel)%nat ->
  exists k d, cmostime fuel n = Ret d (k + 13)%nat /\ (n < k)%nat /\
    filled k = filled (k + 7) /\ Z.land (chip (k + 6) CMOS_STATA) CMOS_UIP = 0 /\
    d = (let f x := if Z.land (chip n CMOS_STATB) 4 =? 0 then CONV x else x in
         let t := filled k in mkdate (f (second t)) (f (minute t)) (f (hour t)) (f (day t)) (f (month t)) (u32 (f (year t) + 2000))).
Proof.
  intros Hs Hu Hf. destruct (date_loop_ends T c (S n) fuel Hs Hu) as (k & Hl & Hk & H1 & H2); [lia|].
  exists k. eexists. unfold cmostime. rewrite (bind_Ret _ _ _ _ _ (cmos_read_run CMOS_STATB n)). cbv zeta.
  rewrite (bind_Ret _ _ _ _ _ Hl). split_and!; [reflexivity|lia|done..|].
  change (Z.shiftl 1 2) with 4. by destruct (_ =? 0).
Qed.
End Cmos.

(** Two decimal digits in a byte. *)
Definition bcd (x : Z) : Z := 16 * (x / 10) + x mod 10.

Lemma CONV_bcd x : 0 <= x < 100 -> CONV (bcd x) = x.
Proof.
  intros Hx.
  assert (H : forallb (fun k => CONV (bcd (Z.of_nat k)) =? Z.of_nat k) (seq 0 100) = true) by reflexivity.
  rewrite forallb_forall in H. specialize (H (Z.to_nat x)). rewrite Z2Nat.id in H by lia.
  apply Z.eqb_eq, H, in_seq. lia.
Qed.

(** The registers of a chip that shows a date, with the fields in binary or as digits. *)
Definition shows (coded : Z -> Z) (d : rtcdate) (c : Z -> Z) : Prop :=
  c SECS = coded (second d) /\ c MINS = coded (minute d) /\ c HOURS = coded (hour d) /\
  c DAY = coded (day d) /\ c MONTH = coded (month d) /\ c YEAR = coded (year d - 2000) /\
  (0 <= second d < 60 /\ 0 <= minute d < 60 /\ 0 <= hour d < 24 /\ 1 <= day d <= 31 /\ 1 <= month d <= 12 /\ 2000 <= year d < 2100).

(** A chip that does not change while it is read gives its date in one pass, in both codings. *)
Theorem cmostime_date c d n :
  Z.land (c CMOS_STATA) CMOS_UIP = 0 ->
  shows (if Z.land (c CMOS_STATB) 4 =? 0 then bcd else id) d c ->
  cmostime (fun _ => c) 1 n = Ret d (n + 14)%nat.
Proof.
  intros Hu (H1 & H2 & H3 & H4 & H5 & H6 & Hb).
  unfold cmostime. rewrite (bind_Ret _ _ _ _ _ (cmos_read_run _ CMOS_STATB n)). cbv zeta. cbn [date_loop].
  rewrite (bind_Ret _ _ _ (filled (fun _ => c) n) (S n + 13)%nat).
  2: { rewrite (bind_Ret _ _ _ _ _ (fill_run _ (S n))), (bind_Ret _ _ _ _ _ (cmos_read_run _ CMOS_STATA (S n + 6))), Hu. cbn [negb Z.eqb].
    rewrite (bind_Ret _ _ _ _ _ (fill_run _ (S (S n + 6)))), bool_decide_true by done. unfold ret. f_equal. lia. }
  change (Z.shiftl 1 2) with 4. unfold filled. unfold ret. cbn [second minute hour day month year].
  destruct d as [s mi h dy mo y]. cbn [second minute hour day month year] in *.
  destruct (_ =? 0); rewrite H1, H2, H3, H4, H5, H6; cbn [second minute hour day month year id]; rewrite ?CONV_bcd by lia;
    unfold u32; rewrite Z.mod_small by lia; (f_equal; [f_equal; lia|lia]).
Qed.
End Cmos.
