(* ===== verification/Segment.v ===== *)
(** * Segments, gates and the kernel's page table

    Models the descriptors of [mmu.h], with the bit fields that the processor reads, [seginit],
    [kvmalloc] and [switchkvm] of [vm.c], and [tvinit] of [trap.c]. *)

From Stdlib Require Import ZArith Lia.
From S2P Require Import Prelude Spinlock Memory Kalloc Vm Trap.

Module Segment.

Definition SEG_KCODE : Z := 1.
Definition SEG_KDATA : Z := 2.
Definition SEG_UCODE : Z := 3.
Definition SEG_UDATA : Z := 4.
Definition NSEGS : nat := 6.
Definition STA_X : Z := 0x8.
Definition STA_W : Z := 0x2.
Definition STA_R : Z := 0x2.
Definition STS_IG32 : Z := 0xE.
Definition STS_TG32 : Z := 0xF.

(** The value of a bit field of [n] bits. *)
Definition bits (n v : Z) : Z := v mod 2 ^ n.

(** [struct segdesc] *)
Record segdesc := mksd {
  lim_15_0 : Z; base_15_0 : Z; base_23_16 : Z; type : Z; s : Z; dpl : Z; p : Z;
  lim_19_16 : Z; avl : Z; rsv1 : Z; db : Z; g : Z; base_31_24 : Z }.

Definition SEG (ty base lim d : Z) : segdesc :=
  mksd (Z.land (Z.shiftr lim 12) 0xffff) (Z.land (u32 base) 0xffff) (Z.land (Z.shiftr (u32 base) 16) 0xff) (bits 4 ty) 1 (bits 2 d) 1
    (bits 4 (Z.shiftr (u32 lim) 28)) 0 0 1 1 (Z.shiftr (u32 base) 24).
Definition SEG16 (ty base lim d : Z) : segdesc :=
  mksd (Z.land lim 0xffff) (Z.land (u32 base) 0xffff) (Z.land (Z.shiftr (u32 base) 16) 0xff) (bits 4 ty) 1 (bits 2 d) 1
    (bits 4 (Z.shiftr (u32 lim) 16)) 0 0 1 0 (Z.shiftr (u32 base) 24).

(** [struct gatedesc] *)
Record gatedesc := mkgate { off_15_0 : Z; cs : Z; args : Z; g_rsv1 : Z; g_type : Z; g_s : Z; g_dpl : Z; g_p : Z; off_31_16 : Z }.
Definition SETGATE (istrap : bool) (sel off d : Z) : gatedesc :=
  mkgate (Z.land (u32 off) 0xffff) (bits 16 sel) 0 0 (if istrap then STS_TG32 else STS_IG32) 0 (bits 2 d) 1 (Z.shiftr (u32 off) 16).

(** [c->gdt] of the CPU; the table register holds its address and its size less one. *)
Record segst := mksegst { gdt : list segdesc; gdtr : Z * Z }.
Definition set_gdt (i : Z) (d : segdesc) : M segst unit := modify (fun t => mksegst (<[Z.to_nat i := d]> (gdt t)) (gdtr t)).

(** [gdt_addr] is the address of [c->gdt]. *)
Definition seginit (gdt_addr : Z) : M segst unit :=
  set_gdt SEG_KCODE (SEG (Z.lor STA_X STA_R) 0 0xffffffff 0) ;;
  set_gdt SEG_KDATA (SEG STA_W 0 0xffffffff 0) ;;
  set_gdt SEG_UCODE (SEG (Z.lor STA_X STA_R) 0 0xffffffff DPL_USER) ;;
  set_gdt SEG_UDATA (SEG STA_W 0 0xffffffff DPL_USER) ;;
  modify (fun t => mksegst (gdt t) (gdt_addr, u16 (8 * Z.of_nat NSEGS - 1))).

(** The loop of [tvinit] over [idt], and [tvinit] less the lock of the ticks. *)
Fixpoint gate_loop (vectors : Z -> Z) (n : nat) (i : Z) : M (list gatedesc) unit :=
  match n with
  | O => ret tt
  | S n => modify (<[Z.to_nat i := SETGATE false (Z.shiftl SEG_KCODE 3) (vectors i) 0]>) ;; gate_loop vectors n (i + 1)
  end.
Definition tvinit (vectors : Z -> Z) : M (list gatedesc) unit :=
  gate_loop vectors 256 0 ;;
  modify (<[Z.to_nat T_SYSCALL := SETGATE true (Z.shiftl SEG_KCODE 3) (vectors T_SYSCALL) DPL_USER]>).

(** The allocator's state, [kpgdir] and the page table register. *)
Record kvst := mkkv { kv_mem : kst; kpgdir : Z; cr3 : Z }.
Definition put_mem (k : kst) (t : kvst) : kvst := mkkv k (kpgdir t) (cr3 t).

Definition switchkvm : M kvst unit := modify (fun t => mkkv (kv_mem t) (kpgdir t) (V2P (kpgdir t))).
Definition kvmalloc (end_ data_ : Z) : M kvst unit :=
  d <- inside kv_mem put_mem (setupkvm end_ data_) ;;
  modify (fun t => mkkv (kv_mem t) d (cr3 t)) ;;
  switchkvm.

(** ** How the processor reads a descriptor *)

Definition seg_base (d : segdesc) : Z := base_15_0 d + 2 ^ 16 * base_23_16 d + 2 ^ 24 * base_31_24 d.
(** The last offset of the segment. *)
Definition seg_limit (d : segdesc) : Z :=
  let l := lim_15_0 d + 2 ^ 16 * lim_19_16 d in if g d =? 1 then 4096 * l + 4095 else l.
Definition gate_offset (x : gatedesc) : Z := off_15_0 x + 2 ^ 16 * off_31_16 x.

Lemma base_parts b : is_u32 b -> Z.land (u32 b) 0xffff + 2 ^ 16 * Z.land (Z.shiftr (u32 b) 16) 0xff + 2 ^ 24 * Z.shiftr (u32 b) 24 = b.
Proof.
  intros Hb. unfold u32. rewrite Z.mod_small by done. change 0xffff with (Z.ones 16). change 0xff with (Z.ones 8).
  rewrite !Z.land_ones, !Z.shiftr_div_pow2 by lia. unfold is_u32 in Hb. Z.div_mod_to_equations. lia.
Qed.

Lemma offset_parts b : is_u32 b -> Z.land (u32 b) 0xffff + 2 ^ 16 * Z.shiftr (u32 b) 16 = b.
Proof.
  intros Hb. unfold u32. rewrite Z.mod_small by done. change 0xffff with (Z.ones 16).
  rewrite Z.land_ones, Z.shiftr_div_pow2 by lia. unfold is_u32 in Hb. Z.div_mod_to_equations. lia.
Qed.

(** A descriptor built by [SEG] starts at its base and reaches to its limit, in whole pages; one
    built by [SEG16] to its limit if that has twenty bits. *)
Theorem seg_extent ty b l d : is_u32 b -> is_u32 l ->
  seg_base (SEG ty b l d) = b /\ seg_limit (SEG ty b l d) = 4096 * (l / 4096) + 4095 /\
  seg_base (SEG16 ty b l d) = b /\ (l < 2 ^ 20 -> seg_limit (SEG16 ty b l d) = l).
Proof.
  intros Hb Hl. split_and!; try (by apply base_parts).
  - unfold seg_limit, SEG. cbn [lim_15_0 lim_19_16 g]. change (1 =? 1) with true. cbn iota. unfold bits, u32. rewrite (Z.mod_small l) by done.
    change 0xffff with (Z.ones 16). rewrite Z.land_ones, !Z.shiftr_div_pow2 by lia. unfold is_u32 in Hl. Z.div_mod_to_equations. lia.
  - intros H. unfold seg_limit, SEG16. cbn [lim_15_0 lim_19_16 g]. change (0 =? 1) with false. cbn iota. unfold bits, u32. rewrite (Z.mod_small l) by done.
    change 0xffff with (Z.ones 16). rewrite Z.land_ones, !Z.shiftr_div_pow2 by lia. unfold is_u32 in Hl. Z.div_mod_to_equations. lia.
Qed.

(** ** The interrupt table *)

Lemma gate_loop_run vectors n i idt :
  0 <= i -> exists idt', gate_loop vectors n i idt = Ret tt idt' /\ length idt' = length idt /\
    forall k, (k < length idt)%nat -> idt' !! k =
      if bool_decide (Z.to_nat i <= k < Z.to_nat i + n)%nat then Some (SETGATE false (Z.shiftl SEG_KCODE 3) (vectors (Z.of_nat k)) 0) else idt !! k.
Proof.
  revert i idt. induction n as [|n IH]; intros i idt Hi; cbn [gate_loop].
  { exists idt. split_and!; [done..|]. intros k Hk. by rewrite bool_decide_false by lia. }
  rewrite bind_modify. destruct (IH (i + 1) (<[Z.to_nat i := SETGATE false (Z.shiftl SEG_KCODE 3) (vectors i) 0]> idt)) as (idt' & H1 & H2 & H3); [lia|].
  exists idt'. rewrite length_insert in *. split_and!; [done..|]. intros k Hk. rewrite H3 by done. destruct (decide (k = Z.to_nat i)) as [->|Hne].
  - rewrite bool_decide_false, bool_decide_true by lia. rewrite list_lookup_insert_eq, Z2Nat.id by lia. done.
  - rewrite list_lookup_insert_ne by done. destruct (decide (Z.to_nat i <= k < Z.to_nat i + S n)%nat).
    + by rewrite !bool_decide_true by lia.
    + by rewrite !bool_decide_false by lia.
Qed.

(** After [tvinit] each of the 256 vectors has a present gate into the kernel's code
    segment at the address of its entry in [vectors].  The gate of the system call is the only one
    that code at user level may call with [int], and the only one that leaves interrupts on. *)
Theorem tvinit_gates vectors idt :
  length idt = 256%nat -> (forall i, is_u32 (vectors i)) ->
  exists idt', tvinit vectors idt = Ret tt idt' /\ length idt' = 256%nat /\
    forall i, 0 <= i < 256 -> exists x, idt' !! Z.to_nat i = Some x /\
      gate_offset x = vectors i /\ cs x = Z.shiftl SEG_KCODE 3 /\ g_p x = 1 /\ g_s x = 0 /\
      (g_dpl x = DPL_USER <-> i = T_SYSCALL) /\ (g_dpl x = 0 <-> i <> T_SYSCALL) /\
      g_type x = (if i =? T_SYSCALL then STS_TG32 else STS_IG32).
Proof.
  intros Hl Hv. destruct (gate_loop_run vectors 256 0 idt ltac:(lia)) as (idt1 & H1 & H2 & H3). rewrite Hl in *.
  eexists. split; [unfold tvinit; rewrite (bind_Ret _ _ _ _ _ H1); reflexivity|]. split; [by rewrite length_insert|].
  intros i Hi. destruct (Z.eqb_spec i T_SYSCALL) as [->|Hne].
  - rewrite list_lookup_insert_eq by (rewrite H2; vm_compute; lia). eexists. split; [done|]. split; [by apply offset_parts|]. done.
  - rewrite list_lookup_insert_ne by (unfold T_SYSCALL in *; lia). rewrite H3, bool_decide_true, Z2Nat.id by lia.
    eexists. split; [done|]. split; [by apply offset_parts|]. done.
Qed.

Lemma tvinit_gates_witness : exists idt', tvinit (fun i => 0x80105000 + 16 * i) (replicate 256 (SETGATE false 0 0 0)) = Ret tt idt' /\ length idt' = 256%nat.
Proof.
  destruct (tvinit_gates (fun i => u32 (0x80105000 + 16 * i)) (replicate 256 (SETGATE false 0 0 0))) as (idt' & H1 & H2 & _);
    [reflexivity|auto with widths|].
  exists idt'. split; [|exact H2]. rewrite <- H1. reflexivity.
Defined.

(** ** The kernel's tables *)

(** [seginit] gives the kernel and the user flat segments of four gigabytes that differ in
    their privilege level. *)
Theorem seginit_flat gdt_addr t : length (gdt t) = NSEGS ->
  exists t', seginit gdt_addr t = Ret tt t' /\ gdtr t' = (gdt_addr, 47) /\
    forall i, 1 <= i <= 4 -> exists d, gdt t' !! Z.to_nat i = Some d /\ seg_base d = 0 /\ seg_limit d = 0xffffffff /\ p d = 1 /\
      dpl d = (if i <=? 2 then 0 else DPL_USER) /\ type d = (if Z.odd i then Z.lor STA_X STA_R else STA_W).
Proof.
  intros Hl. destruct t as [ds r]. cbn [gdt] in Hl. do 7 (destruct ds as [|? ds]; try done). eexists. split; [reflexivity|]. split; [done|].
  intros i Hi. assert (i = 1 \/ i = 2 \/ i = 3 \/ i = 4) as H by lia. destruct H as [->|[->|[->| ->]]]; eexists; (split; [reflexivity|]); done.
Qed.

(** After [kvmalloc] the processor uses the new directory; the result of [setupkvm] is not
    tested. *)
Theorem kvmalloc_switches end_ data_ t d k :
  setupkvm end_ data_ (kv_mem t) = Ret d k -> kvmalloc end_ data_ t = Ret tt (mkkv k d (V2P d)).
Proof. intros H. unfold kvmalloc. erewrite bind_Ret by (by apply inside_Ret). by rewrite bind_modify. Qed.
End Segment.
