(* ===== verification/Startup.v ===== *)
(** * Starting the other processors

    Models [startothers] and [mpmain] of [main.c].  The state is the allocator's, with the memory
    and the table of processors, and the local APIC's; both see one memory.  Between two reads
    of [c->started] in the loop that spins on it is the outcome [Swtch], where the other processors
    run; [mpmain] sets the flag. *)

From Stdlib Require Import ZArith Lia.
From S2P Require Import Prelude Spinlock ProcDefs Memory Kalloc Apic.

Module Startup.
Import Apic.Lapic.

Record sst := mkss { ss_k : kst; ss_lap : lapst }.
Definition put_k (k : kst) (t : sst) : sst := mkss k (ss_lap t).
(** The APIC's state with the memory. *)
Definition get_lap (t : sst) : lapst :=
  let a := ss_lap t in mklap (lapic a) (l_regs a) (l_sent a) (l_reads a) (l_ports a) (ram (ss_k t)).
Definition put_lap (a : lapst) (t : sst) : sst := mkss (set_ram (l_ram a) (ss_k t)) a.

Definition onk {A} (m : M kst A) : M sst A := inside ss_k put_k m.
Definition onlap {A} (m : M lapst A) : M sst A := inside get_lap put_lap m.
(** A store of a word. *)
Definition poke (a v : Z) : M sst unit := onk (modify (fun k => set_ram (store32 a v (ram k)) k)).

Definition CODE : Z := P2V 0x7000.

(** [while (c->started == 0);], one unit of fuel per read; the other processors run in between. *)
Fixpoint wait_started (fuel c : nat) : M sst unit :=
  match fuel with
  | O => nofuel
  | S fuel =>
      v <- onk (onctx (get_cpu started c)) ;;
      if negb (v =? 0) then ret tt else
      (fun t => Swtch t (fun t => Ret tt t)) ;;
      wait_started fuel c
  end.

Section Startup.
(** The addresses of [mpenter] and [entrypgdir], and the bytes of [entryother]. *)
Context (fuel : nat) (mpenter entrypgdir : Z) (entryother : list Z).

(** The body of the loop for a processor that is not the own one. *)
Definition start_one (c : nat) : M sst unit :=
  stack <- onk kalloc ;;
  poke (CODE - 4) (u32 (stack + KSTACKSIZE)) ;;
  poke (CODE - 8) mpenter ;;
  poke (CODE - 12) (V2P entrypgdir) ;;
  id <- onk (onctx (get_cpu apicid c)) ;;
  onlap (lapicstartap id (V2P CODE)) ;;
  wait_started fuel c.

Fixpoint cpu_loop (cs : list nat) : M sst unit :=
  match cs with
  | [] => ret tt
  | c :: cs =>
      me <- onk (onctx mycpu) ;;
      (if (c =? me)%nat then ret tt else start_one c) ;;
      cpu_loop cs
  end.

Definition startothers : M sst unit :=
  onk (modify (fun k => set_ram (blit_list CODE entryother (ram k)) k)) ;;
  n <- gets (fun t => length (cpus (ctx (ss_k t)))) ;;
  cpu_loop (seq 0 n).
End Startup.

(** [mpmain] up to the call of the scheduler, less its message: the flag is set by [xchg]. *)
Definition set_started (v : Z) (c : cpu) : cpu := mkcpu (apicid c) v (ncli c) (intena c) (cproc c).
Definition mpmain : M kctx unit :=
  i <- mycpu ;;
  upd_cpu (set_started 1) i.

(** ** What the other processors find *)

Lemma onk_Ret {A} (m : M kst A) t a k : m (ss_k t) = Ret a k -> onk m t = Ret a (put_k k t).
Proof. apply inside_Ret. Qed.

Lemma onlap_Ret {A} (m : M lapst A) t a l : m (get_lap t) = Ret a l -> onlap m t = Ret a (put_lap l t).
Proof. apply inside_Ret. Qed.

Lemma poke_run a v t : poke a v t = Ret tt (put_k (set_ram (store32 a v (ram (ss_k t))) (ss_k t)) t).
Proof. by apply onk_Ret. Qed.

(** The three words in front of the code. *)
Definition words_set (mpenter entrypgdir stack : Z) (m : memory) : memory :=
  store32 (CODE - 12) (V2P entrypgdir) (store32 (CODE - 8) mpenter (store32 (CODE - 4) (u32 (stack + KSTACKSIZE)) m)).

(** The commands for a processor: the start-up vector is the page of the code. *)
Definition commands (id : Z) : list (Z * Z) :=
  let d := Z.shiftl id 24 in
  [(d, Z.lor (Z.lor INIT LEVEL) ASSERT); (d, Z.lor INIT LEVEL); (d, Z.lor STARTUP 7); (d, Z.lor STARTUP 7)].

Lemma start_one_sends fuel mpenter entrypgdir k a stack k' c x :
  kalloc k = Ret stack k' -> cpus (ctx k') !! c = Some x -> 0 <= apicid x < 256 ->
  exists a', start_one fuel mpenter entrypgdir c (mkss k a) = wait_started fuel c (mkss (set_ram (l_ram a') k') a') /\
    l_sent a' = l_sent a ++ commands (apicid x) /\
    forall y, y < KERNBASE + 0x467 \/ KERNBASE + 0x46b <= y -> l_ram a' y = words_set mpenter entrypgdir stack (ram k') y.
Proof.
  intros Hk Hx Hid. unfold start_one. rewrite (bind_Ret _ _ _ _ _ (onk_Ret kalloc (mkss k a) _ _ Hk)).
  rewrite (bind_Ret _ _ _ _ _ (poke_run _ _ _)), (bind_Ret _ _ _ _ _ (poke_run _ _ _)), (bind_Ret _ _ _ _ _ (poke_run _ _ _)).
  cbn [put_k ss_k ss_lap]. set (k1 := set_ram _ _).
  assert (Hc : get_cpu apicid c (ctx k1) = Ret (apicid x) (ctx k1)) by (by apply get_cpu_ok).
  rewrite (bind_Ret _ _ _ _ _ (onk_Ret _ (mkss k1 a) _ _ (onctx_same _ k1 _ Hc))).
  destruct (lapicstartap_addr (get_lap (mkss k1 a)) (apicid x) 0x7000) as (a' & v & Ha & Hs & Hv & Hv7 & _ & Hf); [done..|].
  assert (v = 7) as -> by lia. change (V2P CODE) with 0x7000. rewrite (bind_Ret _ _ _ _ _ (onlap_Ret _ (put_k k1 (mkss k1 a)) _ _ Ha)).
  exists a'. split_and!; [reflexivity|exact Hs|]. intros y Hy. rewrite Hf; [done|].
  assert (HP : P2V 0x467 = KERNBASE + 0x467) by done. lia.
Qed.

Section Boots.
Context (mpenter entrypgdir : Z) (entryother : list Z) (end_ : Z).

(** The code is in its page, and in front of it are the top of the stack, the function to call and
    the page table. *)
Definition set_for (stack : Z) (m : memory) : Prop :=
  (forall j, (j < length entryother)%nat -> m (CODE + Z.of_nat j) = nth j entryother 0) /\
  load32 m (CODE - 4) = stack + KSTACKSIZE /\ load32 m (CODE - 8) = mpenter /\ load32 m (CODE - 12) = V2P entrypgdir.

(** The outcome after [j] turns in which nothing happened. *)
Fixpoint spins (j : nat) (r : res sst unit) : res sst unit :=
  match j, r with
  | S j, Swtch t k => spins j (k t)
  | _, _ => r
  end.

(** The processor with the local APIC [id] runs [mpmain]. *)
Definition runs_mpmain (id : Z) (t t' : sst) : Prop :=
  let k := ctx (ss_k t) in
  exists k', mpmain (mkctx id false (cpus k) (locks k) (chan_ops k)) = Ret tt k' /\
    t' = put_k (set_ctx (set_cpus (cpus k') k) (ss_k t)) t.

(** The processors in order, each with its stack.  The code spins as long as nothing happens, here
    up to [turns] times, and goes on to the next processor when this one has run [mpmain]; at the
    end all processors but [i] have. *)
Fixpoint boots (turns i : nat) (cs : list (Z * Z)) (sent : list (Z * Z)) (r : res sst unit) : Prop :=
  match cs with
  | [] => exists t, r = Ret tt t /\ l_sent (ss_lap t) = sent /\
      forall c x, cpus (ctx (ss_k t)) !! c = Some x -> c <> i -> started x <> 0
  | (id, stack) :: cs => exists t, set_for stack (ram (ss_k t)) /\ l_sent (ss_lap t) = sent ++ commands id /\
      forall j, (j <= turns)%nat -> exists k t', spins j r = Swtch t k /\ runs_mpmain id t t' /\
        boots turns i cs (sent ++ commands id) (k t')
  end.

(** What holds before the turns for the processors [cs]. *)
Record boot_inv (t : sst) (i : nat) (c0 : cpu) (cs : list nat) (ids : list Z) (l : list Z) : Prop := {
  bi_cpu : cpu_at (ctx (ss_k t)) i c0;
  bi_if : eflags_IF (ctx (ss_k t)) = false;
  bi_ids : apicid <$> cpus (ctx (ss_k t)) = ids;
  bi_flags : forall c x, cpus (ctx (ss_k t)) !! c = Some x -> c <> i -> started x = if decide (c ∈ cs) then 0 else 1;
  bi_lock : use_lock (ss_k t) = 0;
  bi_free : kmem_rep end_ (ss_k t) l;
  bi_code : forall j, (j < length entryother)%nat -> ram (ss_k t) (CODE + Z.of_nat j) = nth j entryother 0
}.

Hypothesis (Hend : KERNBASE + 0x100000 <= end_) (Himg : Z.of_nat (length entryother) <= 4096)
  (Hent : is_u32 mpenter).

(** Writes below the first megabyte leave the free list. *)
Lemma free_low k l m : kmem_rep end_ k l -> (forall x, KERNBASE + 0x100000 <= x -> m x = ram k x) -> kmem_rep end_ (set_ram m k) l.
Proof.
  intros [Hl Hp Hn] Hm. split; [|done..]. cbn. eapply flist_frame; [|exact Hl]. intros q Hq.
  assert (Hq' := Forall_at _ _ _ Hp Hq). destruct Hq' as (_ & He & _). apply load32_agree. intros x Hx. apply Hm. lia.
Qed.

Lemma start_one_run fuel t i c0 cs ids q l c id :
  boot_inv t i c0 cs ids (q :: l) -> ids !! c = Some id -> 0 <= id < 256 ->
  exists t', start_one fuel mpenter entrypgdir c t = wait_started fuel c t' /\ boot_inv t' i c0 cs ids l /\
    set_for q (ram (ss_k t')) /\ l_sent (ss_lap t') = l_sent (ss_lap t) ++ commands id.
Proof.
  intros [H1 H2 H3 Hfg H4 H5 H6] Hx Hid. destruct t as [k a]. cbn [ss_k ss_lap] in *.
  rewrite <- H3, list_lookup_fmap in Hx. destruct (cpus (ctx k) !! c) as [x|] eqn:Ex; [|done]. injection Hx as <-.
  pose proof (kr_list _ _ _ H5) as Hfl. cbn [flist] in Hfl. destruct Hfl as [Hfq Hfl].
  pose proof (kr_pages _ _ _ H5) as Hps. apply Forall_cons in Hps as [Hq Hps].
  pose proof (kr_nodup _ _ _ H5) as Hnd. apply NoDup_cons in Hnd as [_ Hnd].
  destruct Hq as (Hqm & Hqe & Hqp & Hqu).
  pose proof (page_ok_bounds end_ q ltac:(lia) (conj Hqm (conj Hqe (conj Hqp Hqu)))) as [_ Hqb].
  assert (Hk : kalloc k = Ret q (set_freelist (load32 (ram k) q) k)).
  { rewrite (kalloc_run k i c0) by (by left). rewrite Hfq. unfold KERNBASE in *. by rewrite (proj2 (Z.eqb_neq q 0)) by lia. }
  destruct (start_one_sends fuel mpenter entrypgdir k a q _ c x Hk) as (a' & H7 & Hs & Hf); [done..|].
  rewrite H7. eexists. split; [reflexivity|]. cbn [ss_k ss_lap ram set_ram set_freelist] in *.
  assert (HC : CODE = KERNBASE + 0x7000) by done.
  assert (Hr1 : forall y, y < CODE - 12 \/ CODE <= y -> words_set mpenter entrypgdir q (ram k) y = ram k y).
  { intros y Hy. unfold words_set. by rewrite !store32_out by lia. }
  split_and!; [|split_and!|done].
  - split; try done.
    + apply (free_low (set_freelist (load32 (ram k) q) k)); [by split|]. intros y Hy. rewrite Hf by lia. apply Hr1. lia.
    + intros j Hj. cbn [ss_k ram set_ram]. rewrite Hf, Hr1 by lia. by apply H6.
  - intros j Hj. rewrite Hf, Hr1 by lia. by apply H6.
  - rewrite (load32_agree _ (words_set mpenter entrypgdir q (ram k))) by (intros; apply Hf; lia). unfold words_set. rewrite !load32_store32_ne by lia.
    unfold KSTACKSIZE, KERNBASE, PHYSTOP, PGSIZE in *. rewrite load32_store32 by auto with widths. apply u32_small. unfold is_u32. lia.
  - rewrite (load32_agree _ (words_set mpenter entrypgdir q (ram k))) by (intros; apply Hf; lia). unfold words_set. rewrite load32_store32_ne by lia. by apply load32_store32.
  - rewrite (load32_agree _ (words_set mpenter entrypgdir q (ram k))) by (intros; apply Hf; lia). apply load32_store32, u32_range.
Qed.

(** ** The flag *)

Lemma wait_step c n t x : cpus (ctx (ss_k t)) !! c = Some x -> started x = 0 -> wait_started (S n) c t = Swtch t (wait_started n c).
Proof.
  intros Hx H0. cbn [wait_started]. rewrite (bind_Ret _ _ _ _ _ (onk_Ret _ t _ _ (onctx_same _ (ss_k t) _ (get_cpu_ok started _ c x Hx)))), H0. by destruct t.
Qed.

Lemma wait_done c n t x : cpus (ctx (ss_k t)) !! c = Some x -> started x <> 0 -> wait_started (S n) c t = Ret tt t.
Proof.
  intros Hx H0. cbn [wait_started]. rewrite (bind_Ret _ _ _ _ _ (onk_Ret _ t _ _ (onctx_same _ (ss_k t) _ (get_cpu_ok started _ c x Hx)))).
  rewrite (proj2 (Z.eqb_neq _ 0) H0). by destruct t.
Qed.

Lemma wait_spins c t x (F : unit -> M sst unit) : cpus (ctx (ss_k t)) !! c = Some x -> started x = 0 ->
  forall j n, (j <= n)%nat -> spins j (rbind (wait_started (S n) c t) F) = rbind (wait_started (S (n - j)) c t) F.
Proof.
  intros Hx H0 j. induction j as [|j IH]; intros n Hj; [by rewrite Nat.sub_0_r|]. rewrite (wait_step c n t x) at 1 by done. cbn [rbind spins].
  destruct n as [|n]; [lia|]. rewrite IH by lia. done.
Qed.

Lemma find_apic_nodup ks c x i0 : NoDup (apicid <$> ks) -> ks !! c = Some x -> find_apic (apicid x) ks i0 = Some (i0 + c)%nat.
Proof.
  revert c i0. induction ks as [|y ks IH]; intros c i0 Hn Hx; [done|]. rewrite fmap_cons in Hn. apply NoDup_cons in Hn as [Hy Hn].
  destruct c as [|c]; cbn [find_apic lookup list_lookup] in *.
  - injection Hx as ->. rewrite Z.eqb_refl. f_equal. lia.
  - destruct (Z.eqb_spec (apicid y) (apicid x)) as [E|E]; [|rewrite (IH c) by done; f_equal; lia].
    destruct Hy. rewrite E. apply list_elem_of_fmap. exists x. split; [done|]. by eapply list_elem_of_lookup_2.
Qed.

(** The other processor finds its entry by its local APIC and sets the flag there. *)
Lemma mpmain_starts t i c0 c cs ids l id : boot_inv t i c0 (c :: cs) ids l -> NoDup ids -> c <> i -> c ∉ cs -> ids !! c = Some id ->
  exists t' x, runs_mpmain id t t' /\ boot_inv t' i c0 cs ids l /\ ss_lap t' = ss_lap t /\ cpus (ctx (ss_k t')) !! c = Some x /\ started x <> 0.
Proof.
  intros [H1 H2 H3 Hfg H4 H5 H6] Hn Hci Hcs Hx. set (k := ctx (ss_k t)) in *. rewrite <- H3, list_lookup_fmap in Hx. destruct (cpus k !! c) as [x|] eqn:Ex; [|done]. injection Hx as <-.
  assert (Hf : find_apic (apicid x) (cpus k) 0 = Some c) by (apply (find_apic_nodup (cpus k) c x 0); [by rewrite H3|done]). set (ks := alter (set_started 1) c (cpus k)).
  eexists _, (set_started 1 x). split_and!.
  - eexists. split; [|reflexivity]. unfold mpmain. fold k.
    rewrite (bind_Ret _ _ _ _ _ (mycpu_ok (mkctx (apicid x) false (cpus k) (locks k) (chan_ops k)) c x (conj Hf Ex) eq_refl)). reflexivity.
  - fold k. cbn [cpus set_cpus]. fold ks. split; try done; cbn [put_k ss_k ctx set_ctx].
    + destruct H1 as [F1 F2]. split; cbn; [unfold ks; by rewrite find_apic_map|]. unfold ks. by rewrite list_lookup_alter_ne.
    + cbn. unfold ks. rewrite <- H3. apply list_eq. intros j. rewrite !list_lookup_fmap. destruct (decide (j = c)) as [->|Hj].
      * by rewrite list_lookup_alter_eq, Ex.
      * by rewrite list_lookup_alter_ne.
    + intros j y Hy Hji. cbn in Hy. unfold ks in Hy. destruct (decide (j = c)) as [->|Hj].
      * rewrite list_lookup_alter_eq, Ex in Hy. injection Hy as <-. by rewrite decide_False.
      * rewrite list_lookup_alter_ne in Hy by done. rewrite (Hfg j y Hy Hji). destruct (decide (j ∈ cs)) as [Hin|Hin]; [rewrite decide_True by (by right)|rewrite decide_False by (rewrite elem_of_cons; naive_solver)]; done.
    + by destruct H5.
  - done.
  - change (ks !! c = Some (set_started 1 x)). unfold ks. by rewrite list_lookup_alter_eq, Ex.
  - done.
Qed.

(** The identifiers of the processors other than [i]. *)
Definition other_ids (i : nat) (ids : list Z) (cs : list nat) : list Z :=
  omap (fun c => if (c =? i)%nat then None else ids !! c) cs.

Lemma cpu_loop_boots turns i c0 ids cs : NoDup ids -> Forall (fun id => 0 <= id < 256) ids -> forall t l,
  boot_inv t i c0 cs ids l -> NoDup cs -> Forall (fun c => (c < length ids)%nat) cs -> (length (other_ids i ids cs) <= length l)%nat ->
  boots turns i (zip (other_ids i ids cs) l) (l_sent (ss_lap t)) (cpu_loop (S (S turns)) mpenter entrypgdir cs t).
Proof.
  intros Hids Hr. induction cs as [|c cs IH]; intros t l Hi Hnd Hcs Hl; cbn [cpu_loop].
  { exists t. split_and!; [done..|]. intros c x Hx Hc. by rewrite (bi_flags _ _ _ _ _ _ Hi c x Hx Hc). }
  apply Forall_cons in Hcs as [Hc Hcs]. apply NoDup_cons in Hnd as [Hcn Hnd]. destruct (lookup_lt_is_Some_2 ids c Hc) as [id Hid].
  assert (Hme : onk (onctx mycpu) t = Ret i t).
  { rewrite (onk_Ret _ _ i (ss_k t)); [by destruct t|]. apply onctx_same, (mycpu_ok _ _ c0); [apply Hi|apply (bi_if _ _ _ _ _ _ Hi)]. }
  rewrite (bind_Ret _ _ _ _ _ Hme). change (other_ids i ids (c :: cs)) with (match (if (c =? i)%nat then None else ids !! c) with Some y => y :: other_ids i ids cs | None => other_ids i ids cs end) in *.
  destruct (Nat.eqb_spec c i) as [->|Hci].
  { apply IH; try done. destruct Hi as [? ? ? Hfg]. split; try done. intros j y Hy Hj. rewrite (Hfg j y Hy Hj). destruct (decide (j ∈ cs)) as [H|H]; [rewrite decide_True by (by right)|rewrite decide_False by (rewrite elem_of_cons; naive_solver)]; done. }
  rewrite Hid in *. cbn [length] in Hl. destruct l as [|q l]; cbn [length] in Hl; [lia|].
  destruct (start_one_run (S (S turns)) t i c0 (c :: cs) ids q l c id Hi Hid) as (t1 & H1 & H2 & H3 & H4); [by apply (Forall_lookup_1 _ _ _ _ Hr Hid)|].
  assert (Hx : exists x, cpus (ctx (ss_k t1)) !! c = Some x /\ started x = 0).
  { pose proof (bi_ids _ _ _ _ _ _ H2) as E. rewrite <- E, list_lookup_fmap in Hid. destruct (cpus (ctx (ss_k t1)) !! c) as [x|] eqn:Ex; [|done]. exists x. split; [done|].
    rewrite (bi_flags _ _ _ _ _ _ H2 c x Ex Hci). by rewrite decide_True by left. }
  destruct Hx as (x & Hx & H0). destruct (mpmain_starts t1 i c0 c cs ids l id H2 Hids Hci Hcn Hid) as (t2 & y & M1 & M2 & M3 & M4 & M5).
  cbn [zip zip_with boots]. exists t1. split_and!; [done|done|]. intros j Hj. unfold bind. rewrite H1, (wait_spins c t1 x) by (done || lia).
  rewrite (wait_step c _ t1 x) by done. cbn [rbind]. eexists _, t2. split_and!; [reflexivity|exact M1|].
  replace (S turns - j)%nat with (S (turns - j)) by lia. rewrite (wait_done c _ t2 y) by done. cbn [rbind]. rewrite <- H4, <- M3. apply IH; [done..|lia].
Qed.

(** C11 (liveness).  With the boot allocator's pages for as many stacks as needed, [startothers] starts
    every processor but its own, in the order of the table, and waits for each before it turns to
    the next.  While it waits, the processor's start-up commands have been sent to its identifier,
    with the page of the code as vector, the code is in that page, and in front of it are the top
    of a stack page of its own, [mpenter] and the boot page table.  It spins, any number of
    [turns], as long as the processor has not run [mpmain], which finds the processor's entry and
    sets its flag, and goes on at the next read after that; when it returns, all have. *)
Theorem startothers_boots turns t i c0 l :
  cpu_at (ctx (ss_k t)) i c0 -> eflags_IF (ctx (ss_k t)) = false -> use_lock (ss_k t) = 0 -> kmem_rep end_ (ss_k t) l ->
  let ks := cpus (ctx (ss_k t)) in
  let ids := other_ids i (apicid <$> ks) (seq 0 (length ks)) in
  Forall (fun id => 0 <= id < 256) (apicid <$> ks) -> NoDup (apicid <$> ks) -> (forall c x, ks !! c = Some x -> c <> i -> started x = 0) ->
  (length ids <= length l)%nat ->
  boots turns i (zip ids l) (l_sent (ss_lap t)) (startothers (S (S turns)) mpenter entrypgdir entryother t).
Proof.
  intros H1 H2 H3 H4 ks ids Hks Hnd Hfl Hl. unfold startothers. rewrite (bind_Ret _ _ _ tt (put_k (set_ram (blit_list CODE entryother (ram (ss_k t))) (ss_k t)) t)) by done.
  rewrite bind_gets. change (cpus _) with ks. assert (HC : CODE = KERNBASE + 0x7000) by done.
  apply (cpu_loop_boots turns i c0 (apicid <$> ks) _ Hnd Hks (put_k _ t) l); [|apply NoDup_seq|apply Forall_forall; intros c [_ Hc]%elem_of_seq; rewrite length_fmap; lia|done].
  split; try done.
  - intros c x Hx Hc. change (ks !! c = Some x) in Hx. rewrite decide_True; [by apply (Hfl c)|]. apply elem_of_seq. apply lookup_lt_Some in Hx. cbn. lia.
  - apply free_low; [done|]. intros x Hx. unfold blit_list. by rewrite in_range_out by lia.
  - intros j Hj. cbn. unfold blit_list. rewrite in_range_in by lia. f_equal. lia.
Qed.
End Boots.

(** Three processors of which the second runs the code, and two free pages. *)
Definition demo_pages : list Z := [KERNBASE + 0x200000; KERNBASE + 0x201000].
Definition demo_start : sst :=
  mkss (mkkst (mkctx 5 false [mkcpu 0 0 0 false None; mkcpu 5 1 0 false None; mkcpu 9 0 0 false None] ∅ [])
         (store32 (KERNBASE + 0x200000) (KERNBASE + 0x201000) (fun _ => 0)) 0 (KERNBASE + 0x200000))
    (mklap 0xFEE00000 (fun _ => 0) [] 0 [] (fun _ => 0)).

Lemma startothers_boots_witness : boots 0x80103000 0x80109000 [250; 49; 192] 3 1 [(0, KERNBASE + 0x200000); (9, KERNBASE + 0x201000)] []
  (startothers 5 0x80103000 0x80109000 [250; 49; 192] demo_start).
Proof.
  apply (startothers_boots 0x80103000 0x80109000 [250; 49; 192] (KERNBASE + 0x100000)
    ltac:(lia) ltac:(cbn; lia) ltac:(done) 3 demo_start 1 (mkcpu 5 1 0 false None) demo_pages).
  - split; reflexivity.
  - reflexivity.
  - reflexivity.
  - split.
    + vm_compute. repeat split.
    + unfold demo_pages, page_ok, is_u32. repeat constructor; vm_compute; congruence.
    + unfold demo_pages. repeat constructor; set_solver.
  - repeat constructor; vm_compute; congruence.
  - cbn. repeat constructor; set_solver.
  - intros c x Hx Hc. destruct c as [|[|[|c]]]; [by injection Hx as <-|done|by injection Hx as <-|done].
  - cbn. lia.
Defined.

(** The result of [kalloc] is not tested: without a page the processor is started on a stack whose
    top is at address 4096. *)
Theorem start_without_page fuel mpenter entrypgdir t i c0 c x :
  cpu_at (ctx (ss_k t)) i c0 -> use_lock (ss_k t) = 0 -> freelist (ss_k t) = 0 ->
  cpus (ctx (ss_k t)) !! c = Some x -> 0 <= apicid x < 256 ->
  exists t', start_one fuel mpenter entrypgdir c t = wait_started fuel c t' /\ load32 (ram (ss_k t')) (CODE - 4) = 4096 /\
    l_sent (ss_lap t') = l_sent (ss_lap t) ++ commands (apicid x).
Proof.
  intros Hi Hu Hf Hx Hid. destruct t as [k a]. cbn [ss_k ss_lap] in *.
  assert (Hk : kalloc k = Ret 0 k) by (rewrite (kalloc_run k i c0) by (by left); by rewrite Hf).
  destruct (start_one_sends fuel mpenter entrypgdir k a 0 k c x Hk Hx Hid) as (a' & H1 & Hs & Hm). rewrite H1.
  eexists. split; [reflexivity|]. split; [|exact Hs]. cbn [ss_k ram set_ram]. assert (HC : CODE = KERNBASE + 0x7000) by done.
  rewrite (load32_agree _ (words_set mpenter entrypgdir 0 (ram k))) by (intros; apply Hm; lia). unfold words_set. rewrite !load32_store32_ne by lia. by apply load32_store32.
Qed.
End Startup.
