(* ===== verification/Boot.v ===== *)
(** * The boot loader

    Models [bootmain.c]: the kernel is an ELF file that starts at sector 1 of the first
    drive; its segments are read to their physical addresses and its entry point is called.
    The controller is the one of [Ide.v]. *)

From Stdlib Require Import ZArith Lia.
From S2P Require Import Prelude Blocks Ide Memory.

Module Boot.

Definition ELF_MAGIC : Z := 0x464C457F.
Definition SECTSIZE : Z := 512.
Definition PROGHDR_SIZE : Z := 32.
Definition SCRATCH : Z := 0x10000.

Record bst := mkb { b_ata : ata; b_mem : memory }.
Definition set_ata (a : ata) (s : bst) : bst := mkb a (b_mem s).
Definition set_mem (m : memory) (s : bst) : bst := mkb (b_ata s) m.

(** [outb] and [inb] of the ports of the controller. *)
Definition out (port v : Z) : M bst unit := modify (fun s => set_ata (outb port (u8 v) (b_ata s)) s).
Definition in_status : M bst Z := fun s => let r := status (b_ata s) in Ret (fst r) (set_ata (snd r) s).

(** The loop of [waitdisk]; a turn per read that is not ready. *)
Fixpoint wait_loop (fuel : nat) : M bst unit :=
  match fuel with
  | O => nofuel
  | S fuel =>
      r <- in_status ;;
      if Z.land r 0xC0 =? 0x40 then ret tt else wait_loop fuel
  end.
Definition waitdisk : M bst unit := n <- gets (fun s => length (a_polls (b_ata s))) ;; wait_loop (S n).

(** [insl(0x1F0, dst, SECTSIZE / 4)] *)
Definition insl (dst : Z) : M bst unit := fun s =>
  match data_in (b_ata s) with Some (x, a) => Ret tt (mkb a (blit_list dst x (b_mem s))) | None => UB "no read in progress" end.

Definition readsect (dst offset : Z) : M bst unit :=
  waitdisk ;;
  out 0x1F2 1 ;;
  out 0x1F3 offset ;;
  out 0x1F4 (Z.shiftr offset 8) ;;
  out 0x1F5 (Z.shiftr offset 16) ;;
  out 0x1F6 (Z.lor (Z.shiftr offset 24) 0xE0) ;;
  out 0x1F7 0x20 ;;
  waitdisk ;;
  insl dst.

(** The [for] of [readseg] with [n] turns left. *)
Fixpoint seg_loop (n : nat) (pa offset : Z) : M bst unit :=
  match n with
  | O => ret tt
  | S n => readsect pa offset ;; seg_loop n (pa + SECTSIZE) (offset + 1)
  end.

(** The turns of a loop from [pa] while it is below [epa]. *)
Definition turns (pa epa : Z) : nat := Z.to_nat ((epa - pa + SECTSIZE - 1) / SECTSIZE).

Definition readseg (pa count offset : Z) : M bst unit :=
  let epa := u32 (pa + count) in
  let pa := u32 (pa - offset mod SECTSIZE) in
  let offset := offset / SECTSIZE + 1 in
  seg_loop (turns pa epa) pa offset.

(** [struct elfhdr] and [struct proghdr] in memory. *)
Definition magic (m : memory) (a : Z) : Z := load32 m a.
Definition entry (m : memory) (a : Z) : Z := load32 m (a + 24).
Definition phoff (m : memory) (a : Z) : Z := load32 m (a + 28).
Definition phnum (m : memory) (a : Z) : Z := m (a + 44) + 256 * m (a + 45).
Record phdr := mkphdr { p_off : Z; p_paddr : Z; p_filesz : Z; p_memsz : Z }.
Definition phdr_at (m : memory) (a : Z) : phdr :=
  mkphdr (load32 m (a + 4)) (load32 m (a + 12)) (load32 m (a + 16)) (load32 m (a + 20)).

(** The [for] of [bootmain] over the program headers. *)
Fixpoint ph_loop (n : nat) (ph : Z) : M bst unit :=
  match n with
  | O => ret tt
  | S n =>
      h <- gets (fun s => phdr_at (b_mem s) ph) ;;
      let pa := p_paddr h in
      readseg pa (p_filesz h) (p_off h) ;;
      h <- gets (fun s => phdr_at (b_mem s) ph) ;;
      when (p_filesz h <? p_memsz h)
        (modify (fun s => set_mem (fill (u32 (pa + p_filesz h)) (p_memsz h - p_filesz h) 0 (b_mem s)) s)) ;;
      ph_loop n (ph + PROGHDR_SIZE)
  end.

(** The address that is called; [None] is the return to [bootasm.S]. *)
Definition bootmain : M bst (option Z) :=
  let elf := SCRATCH in
  readseg elf 4096 0 ;;
  mg <- gets (fun s => magic (b_mem s) elf) ;;
  if negb (mg =? ELF_MAGIC) then ret None else
  ph <- gets (fun s => u32 (elf + phoff (b_mem s) elf)) ;;
  n <- gets (fun s => phnum (b_mem s) elf) ;;
  ph_loop (Z.to_nat n) ph ;;
  e <- gets (fun s => entry (b_mem s) elf) ;;
  ret (Some e).

(** ** Sectors *)

(** Byte [k] of the kernel's file. *)
Definition file (ds : list (list block)) (k : Z) : Z := nth (Z.to_nat (k mod SECTSIZE)) (sector_at ds 0 (k / SECTSIZE + 1)) 0.

(** The first drive is there and has the sectors of the file's first [n] bytes. *)
Definition holds (ds : list (list block)) (n : Z) : Prop :=
  (0 < length ds)%nat /\ forall k, 0 <= k -> SECTSIZE * k < n -> length (sector_at ds 0 (k + 1)) = 512%nat.

(** The controller is set up for a drive that is there. *)
Definition ready (ds : list (list block)) (a : ata) : Prop := a_disks a = ds /\ drive a < Z.of_nat (length ds).

Lemma waitdisk_run s : (drive (b_ata s) < Z.of_nat (length (a_disks (b_ata s)))) ->
  exists ps, waitdisk s = Ret tt (set_ata (set_a_polls ps (b_ata s)) s).
Proof.
  intros Hd. unfold waitdisk. rewrite bind_gets. destruct s as [[n l0 l1 l2 d c ct irq ds ps] m]. cbn [b_ata a_polls].
  induction ps as [|r ps IH]; cbn [length wait_loop].
  - exists []. erewrite bind_Ret; [|unfold in_status, status; cbn [b_ata a_disks a_polls] in *; by rewrite (proj2 (Z.leb_gt _ _) Hd)]. done.
  - erewrite bind_Ret; [|unfold in_status, status; cbn [b_ata a_disks a_polls] in *; by rewrite (proj2 (Z.leb_gt _ _) Hd)].
    cbn [fst snd]. destruct (_ =? 0x40); [by exists ps|]. apply IH. done.
Qed.

Lemma dev_byte q : 0 <= q < 16 -> Z.land (u8 (Z.lor q 0xE0)) 0x0f = q /\ Z.land (Z.shiftr (u8 (Z.lor q 0xE0)) 4) 1 = 0.
Proof.
  intros Hq.
  assert (H : forallb (fun k => (Z.land (u8 (Z.lor (Z.of_nat k) 0xE0)) 0x0f =? Z.of_nat k) &&
    (Z.land (Z.shiftr (u8 (Z.lor (Z.of_nat k) 0xE0)) 4) 1 =? 0)) (seq 0 16) = true) by reflexivity.
  rewrite forallb_forall in H. specialize (H (Z.to_nat q)). rewrite Z2Nat.id in H by lia.
  rewrite andb_true_iff, !Z.eqb_eq in H. apply H, in_seq. lia.
Qed.

(** The four registers name the sector. *)
Lemma lba_bytes n : 0 <= n < 2 ^ 28 ->
  Z.lor (u8 n) (Z.lor (Z.shiftl (u8 (Z.shiftr n 8)) 8) (Z.lor (Z.shiftl (u8 (Z.shiftr n 16)) 16) (Z.shiftl (Z.shiftr n 24) 24))) = n.
Proof.
  intros Hn. apply Z.bits_inj'. intros i Hi. unfold u8. rewrite !Z.lor_spec, !Z.shiftl_spec by lia.
  destruct (Z.lt_ge_cases i 8); [|destruct (Z.lt_ge_cases i 16); [|destruct (Z.lt_ge_cases i 24)]].
  all: rewrite ?(Z.testbit_neg_r _ (i - 8)), ?(Z.testbit_neg_r _ (i - 16)), ?(Z.testbit_neg_r _ (i - 24)) by lia.
  all: rewrite ?(Z.mod_pow2_bits_high _ 8) by lia; rewrite ?Z.mod_pow2_bits_low by lia; rewrite ?Z.shiftr_spec by lia.
  all: rewrite ?Z.sub_add, ?orb_false_r, ?orb_false_l; done.
Qed.

Lemma readsect_run ds s dst j :
  ready ds (b_ata s) -> (0 < length ds)%nat -> 0 <= j < 2 ^ 28 ->
  exists a', readsect dst j s = Ret tt (mkb a' (blit_list dst (sector_at ds 0 j) (b_mem s))) /\ ready ds a'.
Proof.
  intros [Hds Hr] Hl Hj. rewrite <- Hds in *. destruct s as [a m]. cbn [b_ata b_mem] in *.
  destruct (waitdisk_run (mkb a m) Hr) as [ps H1]. unfold readsect. rewrite (bind_Ret _ _ _ _ _ H1).
  unfold out. rewrite !bind_modify. destruct a as [n l0 l1 l2 d c ct irq ds' ps0].
  cbn [set_ata b_ata b_mem set_a_polls a_count a_lba0 a_lba1 a_lba2 a_dev a_cmd a_ctl a_irq a_disks a_polls outb Z.eqb Pos.eqb] in *.
  set (a := mkata _ _ _ _ _ _ _ _ _ _).
  assert (Hq : 0 <= Z.shiftr j 24 < 16) by (rewrite Z.shiftr_div_pow2 by lia; split; [apply Z.div_pos|apply Z.div_lt_upper_bound]; lia).
  destruct (dev_byte _ Hq) as [Hn Hz].
  assert (Hd : drive a = 0) by exact Hz.
  assert (Hlba : lba a = j) by (unfold lba, a; cbn [a_lba0 a_lba1 a_lba2 a_dev]; rewrite Hn; by apply lba_bytes).
  destruct (waitdisk_run (mkb a m)) as [ps' H2]; [by cbn [b_ata]; rewrite Hd; cbn; lia|].
  rewrite (bind_Ret _ _ _ _ _ H2). eexists. split.
  - unfold insl, data_in, set_ata. cbn [b_ata b_mem]. change (a_cmd (set_a_polls ps' a)) with 0x20. change (a_count (set_a_polls ps' a)) with 1. cbn match. cbn [andb Z.eqb Pos.eqb].
    change (drive (set_a_polls ps' a)) with (drive a). change (lba (set_a_polls ps' a)) with (lba a). by rewrite Hd, Hlba.
  - split; [done|]. change (drive a < Z.of_nat (length ds')). rewrite Hd. lia.
Qed.

(** Memory after [n] bytes of the file from [off] are read to [pa]. *)
Definition copied (ds : list (list block)) (pa off n : Z) (m : memory) : memory :=
  fun x => if in_range pa n x then file ds (off + (x - pa)) else m x.

Lemma sector_copied ds pa j m x :
  length (sector_at ds 0 (j + 1)) = 512%nat ->
  blit_list pa (sector_at ds 0 (j + 1)) m x = copied ds pa (SECTSIZE * j) SECTSIZE m x.
Proof.
  intros Hl. unfold blit_list, copied. rewrite Hl. change (Z.of_nat 512) with SECTSIZE.
  destruct (in_range pa SECTSIZE x) eqn:Hx; [|done]. unfold file. unfold in_range, SECTSIZE in *.
  apply andb_true_iff in Hx as [H1%Z.leb_le H2%Z.ltb_lt].
  replace (512 * j + (x - pa)) with (x - pa + j * 512) by lia.
  by rewrite Z_mod_plus_full, Z.div_add, Z.mod_small, Z.div_small by lia.
Qed.

Lemma seg_loop_run ds n : forall s pa j,
  ready ds (b_ata s) -> (0 < length ds)%nat -> 0 <= j -> j + Z.of_nat n < 2 ^ 28 ->
  (forall k, j <= k < j + Z.of_nat n -> length (sector_at ds 0 (k + 1)) = 512%nat) ->
  exists a' m', seg_loop n pa (j + 1) s = Ret tt (mkb a' m') /\ ready ds a' /\
    forall x, m' x = copied ds pa (SECTSIZE * j) (SECTSIZE * Z.of_nat n) (b_mem s) x.
Proof.
  induction n as [|n IH]; intros s pa j Hr Hl Hj Hb Hs; cbn [seg_loop].
  { exists (b_ata s), (b_mem s). destruct s. split_and!; [done..|]. intros x. unfold copied. by rewrite in_range_out by lia. }
  destruct (readsect_run ds s pa (j + 1) Hr Hl ltac:(lia)) as (a1 & H1 & Hr1). rewrite (bind_Ret _ _ _ _ _ H1).
  destruct (IH (mkb a1 (blit_list pa (sector_at ds 0 (j + 1)) (b_mem s))) (pa + SECTSIZE) (j + 1)) as (a2 & m2 & H2 & Hr2 & Hm); [done|done|lia|lia|intros; apply Hs; lia|].
  exists a2, m2. split_and!; [done..|]. intros x. rewrite Hm. cbn [b_mem]. unfold copied at 1.
  rewrite sector_copied by (apply Hs; lia). unfold copied.
  destruct (Z.lt_ge_cases x (pa + SECTSIZE)) as [Hx|Hx].
  - rewrite (in_range_out (pa + SECTSIZE)) by lia.
    unfold in_range. rewrite (proj2 (Z.ltb_lt x (pa + SECTSIZE))), (proj2 (Z.ltb_lt x (pa + SECTSIZE * Z.of_nat (S n)))) by (unfold SECTSIZE in *; lia). done.
  - rewrite (in_range_out pa SECTSIZE) by lia. unfold in_range, SECTSIZE in *.
    rewrite (proj2 (Z.leb_le _ _) Hx), (proj2 (Z.leb_le pa x)) by lia. cbn [andb].
    replace (pa + 512 + 512 * Z.of_nat n) with (pa + 512 * Z.of_nat (S n)) by lia.
    destruct (x <? _); [|done]. f_equal. lia.
Qed.

(** What [readseg] writes: from the start of the first sector to the end of the last. *)
Definition seg_lo (pa off : Z) : Z := pa - off mod SECTSIZE.
Definition seg_len (count off : Z) : Z := SECTSIZE * ((off mod SECTSIZE + count + SECTSIZE - 1) / SECTSIZE).

Lemma seg_len_bound count off : 0 <= count -> off mod SECTSIZE + count <= seg_len count off < off mod SECTSIZE + count + SECTSIZE.
Proof.
  intros Hc. unfold seg_len, SECTSIZE. pose proof (Z.mod_pos_bound off 512 ltac:(lia)).
  pose proof (Z.div_mod (off mod 512 + count + 512 - 1) 512 ltac:(lia)).
  pose proof (Z.mod_pos_bound (off mod 512 + count + 512 - 1) 512 ltac:(lia)). lia.
Qed.

Lemma readseg_run ds s pa count off :
  ready ds (b_ata s) -> holds ds (off + count) -> 0 <= count -> 0 <= off -> off + count < 2 ^ 32 ->
  off mod SECTSIZE <= pa -> pa + count < 2 ^ 32 ->
  exists a' m', readseg pa count off s = Ret tt (mkb a' m') /\ ready ds a' /\
    forall x, m' x = copied ds (seg_lo pa off) (off - off mod SECTSIZE) (seg_len count off) (b_mem s) x.
Proof.
  intros Hr [Hl Hs] Hc Ho Hb Hp Hq. pose proof (Z.mod_pos_bound off SECTSIZE ltac:(done)) as Hm.
  pose proof (Z.div_mod off SECTSIZE ltac:(done)) as Hd.
  unfold readseg, u32. rewrite (Z.mod_small (pa + count)), (Z.mod_small (pa - off mod SECTSIZE)) by lia. unfold turns.
  replace (pa + count - (pa - off mod SECTSIZE) + SECTSIZE - 1) with (off mod SECTSIZE + count + SECTSIZE - 1) by lia.
  assert (Hk : 0 <= (off mod SECTSIZE + count + SECTSIZE - 1) / SECTSIZE) by (apply Z.div_pos; unfold SECTSIZE in *; lia).
  pose proof (seg_len_bound count off Hc) as Hsl. unfold seg_len in Hsl.
  destruct (seg_loop_run ds (Z.to_nat ((off mod SECTSIZE + count + SECTSIZE - 1) / SECTSIZE)) s (pa - off mod SECTSIZE) (off / SECTSIZE))
    as (a' & m' & H1 & H2 & H3); try done.
  - apply Z.div_pos; done.
  - unfold SECTSIZE in *. lia.
  - intros k Hk'. apply Hs; [pose proof (Z.div_pos off SECTSIZE Ho ltac:(done)); lia|]. unfold SECTSIZE in *. lia.
  - exists a', m'. split_and!; [done..|]. intros x. rewrite H3. unfold seg_lo, seg_len.
    rewrite Z2Nat.id by done. f_equal. lia.
Qed.

(** ** The file *)

(** The header page is in the scratch space. *)
Definition scratch_ok (ds : list (list block)) (m : memory) : Prop := forall k, 0 <= k < 4096 -> m (SCRATCH + k) = file ds k.

(** The bytes a segment has in memory, and those that are written when it is read. *)
Definition occupies (h : phdr) (x : Z) : Prop := p_paddr h <= x < p_paddr h + Z.max (p_filesz h) (p_memsz h).
Definition touches (h : phdr) (x : Z) : Prop :=
  seg_lo (p_paddr h) (p_off h) <= x < Z.max (seg_lo (p_paddr h) (p_off h) + seg_len (p_filesz h) (p_off h)) (p_paddr h + p_memsz h).

Definition loaded (ds : list (list block)) (m : memory) (h : phdr) : Prop :=
  (forall k, 0 <= k < p_filesz h -> m (p_paddr h + k) = file ds (p_off h + k)) /\
  (forall k, p_filesz h <= k < p_memsz h -> m (p_paddr h + k) = 0).

(** A segment that is on the disk and away from the top of memory and the scratch space. *)
Definition seg_ok (ds : list (list block)) (h : phdr) : Prop :=
  holds ds (p_off h + p_filesz h) /\ p_off h + p_filesz h < 2 ^ 32 /\ p_off h mod SECTSIZE <= p_paddr h /\
  p_paddr h + Z.max (p_filesz h) (p_memsz h) < 2 ^ 32 /\
  (forall x, touches h x -> x < SCRATCH \/ SCRATCH + 4096 <= x).

(** The headers that the file names. *)
Definition headers (ds : list (list block)) : list phdr :=
  (fun i => phdr_at (file ds) (phoff (file ds) 0 + PROGHDR_SIZE * Z.of_nat i)) <$> seq 0 (Z.to_nat (phnum (file ds) 0)).

Lemma nth_prop {A} (P : A -> Prop) l d n : P d -> Forall P l -> P (nth n l d).
Proof. intros Hd Hl. revert n. induction Hl; intros [|n]; cbn; auto. Qed.

Lemma image_byte ds k : Forall (Forall (Forall is_byte)) ds -> is_byte (file ds k).
Proof. intros H. unfold file, sector_at. by repeat apply nth_prop. Qed.

Lemma load_scratch ds m a : scratch_ok ds m -> 0 <= a -> a + 4 <= 4096 -> load32 m (SCRATCH + a) = load32 (file ds) a.
Proof. intros H H0 H1. unfold load32. rewrite <- !Z.add_assoc, !H by lia. done. Qed.

Lemma phdr_scratch ds m q : scratch_ok ds m -> 0 <= q -> q + 32 <= 4096 -> phdr_at m (SCRATCH + q) = phdr_at (file ds) q.
Proof. intros H H0 H1. unfold phdr_at. rewrite <- !Z.add_assoc, !(load_scratch ds) by (done || lia). done. Qed.

(** ** A segment *)

Lemma segment_run ds s q h :
  ready ds (b_ata s) -> scratch_ok ds (b_mem s) -> 0 <= q -> q + 32 <= 4096 ->
  Forall (Forall (Forall is_byte)) ds -> phdr_at (file ds) q = h -> seg_ok ds h ->
  exists a' m', (forall n, ph_loop (S n) (SCRATCH + q) s = ph_loop n (SCRATCH + q + PROGHDR_SIZE) (mkb a' m')) /\
    ready ds a' /\ scratch_ok ds m' /\ loaded ds m' h /\ forall x, ~ touches h x -> m' x = b_mem s x.
Proof.
  intros Hr Hsc Hq0 Hq Hby Hh (Hho & Hof & Hlo & Hhi & Hx).
  assert (Hb : forall a, is_u32 (load32 (file ds) a)) by (intros; apply load32_bytes; intros; by apply image_byte).
  assert (Hpos : 0 <= p_off h /\ 0 <= p_paddr h /\ 0 <= p_filesz h /\ 0 <= p_memsz h) by (subst h; split_and!; apply Hb).
  destruct (readseg_run ds s (p_paddr h) (p_filesz h) (p_off h)) as (a1 & m1 & H1 & Hr1 & Hm1); [done|done|lia..|].
  assert (Hsc1 : scratch_ok ds m1).
  { intros k Hk. rewrite Hm1. unfold copied. rewrite in_range_out; [by apply Hsc|].
    destruct (Z.lt_ge_cases (SCRATCH + k) (seg_lo (p_paddr h) (p_off h))); [by left|].
    destruct (Z.lt_ge_cases (SCRATCH + k) (seg_lo (p_paddr h) (p_off h) + seg_len (p_filesz h) (p_off h))); [|by right].
    destruct (Hx (SCRATCH + k)); [split; lia|lia..]. }
  pose proof (seg_len_bound (p_filesz h) (p_off h) ltac:(lia)) as Hsl. pose proof (Z.mod_pos_bound (p_off h) SECTSIZE ltac:(done)) as Hmod.
  assert (Hf : forall k, 0 <= k < p_filesz h -> m1 (p_paddr h + k) = file ds (p_off h + k)).
  { intros k Hk. rewrite Hm1. unfold copied. rewrite in_range_in by (unfold seg_lo; lia). f_equal. unfold seg_lo. lia. }
  exists a1, (if p_filesz h <? p_memsz h then fill (u32 (p_paddr h + p_filesz h)) (p_memsz h - p_filesz h) 0 m1 else m1). split_and!.
  - intros n. cbn [ph_loop]. rewrite bind_gets, (phdr_scratch ds), Hh by done. rewrite (bind_Ret _ _ _ _ _ H1), bind_gets. cbn [b_mem].
    rewrite (phdr_scratch ds), Hh by done. unfold when. by destruct (_ <? _).
  - done.
  - intros k Hk. destruct (Z.ltb_spec (p_filesz h) (p_memsz h)); [|by apply Hsc1]. unfold fill, u32. rewrite Z.mod_small by lia.
    rewrite in_range_out; [by apply Hsc1|]. destruct (Z.lt_ge_cases (SCRATCH + k) (p_paddr h + p_filesz h)); [by left|].
    destruct (Z.lt_ge_cases (SCRATCH + k) (p_paddr h + p_memsz h)); [|right; lia].
    destruct (Hx (SCRATCH + k)); [unfold touches, seg_lo; lia|lia..].
  - split; intros k Hk.
    + destruct (p_filesz h <? p_memsz h); [|by apply Hf]. unfold fill, u32. rewrite Z.mod_small, in_range_out by lia. by apply Hf.
    + rewrite (proj2 (Z.ltb_lt _ _)) by lia. unfold fill, u32. by rewrite Z.mod_small, in_range_in by lia.
  - intros x Ht. unfold touches, seg_lo in Ht.
    assert (H1x : m1 x = b_mem s x). { rewrite Hm1. unfold copied, seg_lo. rewrite in_range_out; [done|]. lia. }
    destruct (Z.ltb_spec (p_filesz h) (p_memsz h)); [|done]. unfold fill, u32. rewrite Z.mod_small, in_range_out by lia. done.
Qed.

(** ** The whole file *)

(** Reading a segment leaves those before it alone. *)
Definition in_order (hs : list phdr) : Prop := List.ForallOrdPairs (fun h1 h2 => forall x, occupies h1 x -> ~ touches h2 x) hs.

Lemma loaded_frame ds m m' h : loaded ds m h -> (forall x, occupies h x -> m' x = m x) -> 0 <= p_filesz h -> loaded ds m' h.
Proof. intros [H1 H2] Hm H0. split; intros k Hk; rewrite Hm by (unfold occupies; lia); auto. Qed.

Lemma ph_loop_run ds hs : Forall (Forall (Forall is_byte)) ds -> forall s q,
  ready ds (b_ata s) -> scratch_ok ds (b_mem s) -> 0 <= q -> q + PROGHDR_SIZE * Z.of_nat (length hs) <= 4096 ->
  (forall k h, hs !! k = Some h -> phdr_at (file ds) (q + PROGHDR_SIZE * Z.of_nat k) = h) ->
  Forall (seg_ok ds) hs -> in_order hs ->
  exists a' m', ph_loop (length hs) (SCRATCH + q) s = Ret tt (mkb a' m') /\ scratch_ok ds m' /\ Forall (loaded ds m') hs /\
    forall x, Forall (fun h => ~ touches h x) hs -> m' x = b_mem s x.
Proof.
  intros Hby. unfold PROGHDR_SIZE. induction hs as [|h hs IH]; intros s q Hr Hsc Hq Hn Hh Hok Hor; cbn [length] in *.
  { exists (b_ata s), (b_mem s). destruct s. split_and!; done. }
  apply Forall_cons in Hok as [Hok Hoks]. inversion Hor as [|? ? Ho Hos]; subst.
  pose proof (Hh 0%nat h eq_refl) as Hq0. rewrite Z.mul_0_r, Z.add_0_r in Hq0.
  destruct (segment_run ds s q h) as (a1 & m1 & H1 & Hr1 & Hs1 & Hl1 & Hf1); [done..|lia|done|done|done|].
  destruct (IH (mkb a1 m1) (q + 32)) as (a2 & m2 & H2 & Hs2 & Hl2 & Hf2); [done|done|lia|lia| |done|done|].
  { intros k h' Hk. rewrite <- (Hh (S k) h' Hk). f_equal. lia. }
  exists a2, m2. rewrite H1. unfold PROGHDR_SIZE. rewrite <- Z.add_assoc. split_and!; [done|done| |].
  - constructor; [|done]. apply (loaded_frame ds m1); [done| |].
    + intros x Hx. apply (Hf2 x). eapply Forall_impl; [exact Ho|]. intros h' H. by apply H.
    + rewrite <- Hq0. apply load32_bytes. intros. by apply image_byte.
  - intros x [Hx Hxs]%Forall_cons. rewrite (Hf2 x Hxs). by apply Hf1.
Qed.

Lemma header_run ds s : ready ds (b_ata s) -> holds ds 4096 ->
  exists a' m', readseg SCRATCH 4096 0 s = Ret tt (mkb a' m') /\ ready ds a' /\ scratch_ok ds m'.
Proof.
  intros Hr Hh. destruct (readseg_run ds s SCRATCH 4096 0) as (a' & m' & H1 & H2 & H3); [done|done|done..|].
  exists a', m'. split_and!; [done..|]. intros k Hk. rewrite H3. unfold copied.
  change (seg_lo SCRATCH 0) with SCRATCH. change (seg_len 4096 0) with 4096. rewrite in_range_in by lia. change (0 - 0 mod SECTSIZE) with 0. f_equal. lia.
Qed.

(** C10 (functional).  From a drive with an ELF file from sector 1 on whose program headers are in
    its first page, the boot loader calls the entry point of the file, with the bytes of each
    segment at its physical address and zeroes in the rest of the segment's memory.  The sectors
    that [readseg] reads may reach over both ends of a segment: the segments must not reach into
    the scratch page, and none into the memory of one loaded before it. *)
Theorem bootmain_loads ds s :
  ready ds (b_ata s) -> holds ds 4096 -> Forall (Forall (Forall is_byte)) ds ->
  magic (file ds) 0 = ELF_MAGIC -> phoff (file ds) 0 + PROGHDR_SIZE * phnum (file ds) 0 <= 4096 ->
  Forall (seg_ok ds) (headers ds) -> in_order (headers ds) ->
  exists s', bootmain s = Ret (Some (entry (file ds) 0)) s' /\ Forall (loaded ds (b_mem s')) (headers ds).
Proof.
  intros Hr Hh Hby Hmg Hph Hok Hor. destruct (header_run ds s Hr Hh) as (a1 & m1 & H1 & Hr1 & Hs1).
  assert (Hn : 0 <= phnum (file ds) 0). { unfold phnum. pose proof (image_byte ds (0 + 44) Hby). pose proof (image_byte ds (0 + 45) Hby). unfold is_byte in *. lia. }
  assert (Hp : is_u32 (phoff (file ds) 0)) by (apply load32_bytes; intros; by apply image_byte).
  unfold PROGHDR_SIZE, is_u32 in *.
  destruct (ph_loop_run ds (headers ds) Hby (mkb a1 m1) (phoff (file ds) 0)) as (a2 & m2 & H2 & Hs2 & Hl & _); [done|done|lia| | |done|done|].
  { unfold headers, PROGHDR_SIZE. rewrite length_fmap, length_seq. lia. }
  { intros k h Hk. unfold headers in Hk. rewrite list_lookup_fmap in Hk. apply fmap_Some in Hk as (i & [-> _]%lookup_seq & ->). done. }
  exists (mkb a2 m2). split; [|done]. unfold bootmain. rewrite (bind_Ret _ _ _ _ _ H1), bind_gets. cbn [b_mem].
  unfold magic at 1. rewrite (load_scratch ds _ 0) by done. change (load32 (file ds) 0) with (magic (file ds) 0). rewrite Hmg. cbn [negb Z.eqb ELF_MAGIC Pos.eqb].
  rewrite !bind_gets. cbn [b_mem].
  replace (u32 (SCRATCH + phoff m1 SCRATCH)) with (SCRATCH + phoff (file ds) 0).
  2: { unfold phoff at 2. rewrite (load_scratch ds) by done. change (load32 (file ds) 28) with (phoff (file ds) 0).
    unfold u32, SCRATCH. rewrite Z.mod_small; lia. }
  replace (Z.to_nat (phnum m1 SCRATCH)) with (length (headers ds)).
  2: { unfold headers, phnum. rewrite length_fmap, length_seq, !Hs1 by lia. done. }
  rewrite (bind_Ret _ _ _ _ _ H2), bind_gets. cbn [b_mem]. unfold entry at 1. by rewrite (load_scratch ds) by done.
Qed.

(** What is not an ELF file is not run. *)
Theorem bootmain_rejects ds s :
  ready ds (b_ata s) -> holds ds 4096 -> magic (file ds) 0 <> ELF_MAGIC -> exists s', bootmain s = Ret None s'.
Proof.
  intros Hr Hh Hmg. destruct (header_run ds s Hr Hh) as (a1 & m1 & H1 & Hr1 & Hs1). exists (mkb a1 m1).
  unfold bootmain. rewrite (bind_Ret _ _ _ _ _ H1), bind_gets. cbn [b_mem]. unfold magic at 1.
  rewrite (load_scratch ds _ 0) by done. change (load32 (file ds) 0) with (magic (file ds) 0). by rewrite (proj2 (Z.eqb_neq _ _) Hmg).
Qed.

(** *** A file with two segments *)

Definition demo_header (memsz1 : Z) : list Z :=
  [0x7F; 0x45; 0x4C; 0x46] ++ replicate 20 0 ++ [0x0C; 0; 0x10; 0] ++ [52; 0; 0; 0] ++ replicate 12 0 ++ [2; 0] ++ replicate 6 0 ++
  ([1; 0; 0; 0] ++ [0; 2; 0; 0] ++ [0; 0; 0; 0] ++ [0; 0; 0x10; 0] ++ [0; 2; 0; 0] ++ [memsz1; 2; 0; 0] ++ replicate 8 0) ++
  ([1; 0; 0; 0] ++ [100; 4; 0; 0] ++ [0; 0; 0; 0] ++ [100; 2; 0x10; 0] ++ [0x58; 2; 0; 0] ++ [0; 4; 0; 0] ++ replicate 8 0).
Definition boot_disks (memsz1 : Z) : list (list block) :=
  [[replicate 512 0; demo_header memsz1 ++ replicate 396 0; replicate 512 7; replicate 512 8; replicate 512 9] ++ replicate 6 (replicate 512 1)].
Definition boot_from (ds : list (list block)) : bst := mkb (mkata 0 0 0 0 0xE0 0 0 false ds [0x80; 0x80]) (fun _ => 99).
Definition demo_disks : list (list block) := boot_disks 0.
Definition demo_boot : bst := boot_from demo_disks.

Lemma demo_holds n : n <= 4096 -> holds demo_disks n.
Proof.
  intros Hn. split; [by cbn; lia|]. intros k H0 H1. unfold SECTSIZE in H1.
  assert (k = 0 \/ k = 1 \/ k = 2 \/ k = 3 \/ k = 4 \/ k = 5 \/ k = 6 \/ k = 7) as H by lia.
  by destruct H as [->|[->|[->|[->|[->|[->|[->| ->]]]]]]].
Qed.

Lemma bootmain_loads_witness : exists s', bootmain demo_boot = Ret (Some 0x10000C) s' /\
  Forall (loaded demo_disks (b_mem s')) [mkphdr 512 0x100000 512 512; mkphdr 1124 0x100264 600 1024].
Proof.
  apply (bootmain_loads demo_disks demo_boot).
  - split; [reflexivity|vm_compute; reflexivity].
  - by apply demo_holds.
  - apply Forall_forall. intros d Hd. apply list_elem_of_singleton in Hd as ->.
    apply (bool_decide_unpack _). vm_compute. exact I.
  - vm_compute. reflexivity.
  - vm_compute. discriminate.
  - change (headers demo_disks) with [mkphdr 512 0x100000 512 512; mkphdr 1124 0x100264 600 1024].
    assert (Hok : forall h, p_off h + p_filesz h <= 4096 -> p_off h mod SECTSIZE <= p_paddr h -> p_paddr h + Z.max (p_filesz h) (p_memsz h) < 2 ^ 32 ->
      SCRATCH + 4096 <= seg_lo (p_paddr h) (p_off h) -> seg_ok demo_disks h).
    { intros h H1 H2 H3 H4. unfold seg_ok, touches. split_and!; [by apply demo_holds|lia|done|done|lia]. }
    apply Forall_cons. split; [by apply Hok|]. apply Forall_cons. split; [by apply Hok|done].
  - change (headers demo_disks) with [mkphdr 512 0x100000 512 512; mkphdr 1124 0x100264 600 1024].
    repeat constructor. intros x. unfold occupies, touches. change (seg_lo _ _) with 0x100200.
    cbn [p_paddr p_filesz p_memsz]. lia.
Defined.

(** Loading in increasing order is not enough: with sixteen bytes of zeroes at the end of the first
    segment, the first sector read for the second one replaces them. *)
Theorem readseg_overwrites_bss :
  let ds := boot_disks 16 in
  let h1 := mkphdr 512 0x100000 512 528 in
  let h2 := mkphdr 1124 0x100264 600 1024 in
  headers ds = [h1; h2] /\ p_paddr h1 + p_memsz h1 <= p_paddr h2 /\
  exists s', bootmain (boot_from ds) = Ret (Some 0x10000C) s' /\ ~ loaded ds (b_mem s') h1.
Proof.
  cbv zeta. split_and!; [vm_compute; reflexivity|vm_compute; discriminate|].
  assert (H : match bootmain (boot_from (boot_disks 16)) with Ret (Some e) s' => (e =? 0x10000C) && (b_mem s' 0x100200 =? 8) | _ => false end = true) by (vm_compute; reflexivity).
  destruct (bootmain _) as [[e|] s'| | | | |]; try done. apply andb_true_iff in H as [->%Z.eqb_eq Hm%Z.eqb_eq].
  exists s'. split; [done|]. intros [_ H2]. specialize (H2 512 ltac:(cbn; lia)). change (b_mem s' 0x100200 = 0) in H2. by rewrite Hm in H2.
Qed.
End Boot.
