(* ===== verification/Report.v ===== *)
(** * What the kernel prints

    [sys_bufread] of [sysfile.c], which prints the event log, [procdump] of [proc.c] and
    [panic] of [console.c], on a state with a console.  The main theorem is that the tables
    of [sys_bufread] can be read back. *)

From Stdlib Require Import ZArith Lia.
From S2P Require Import Prelude Spinlock Console ConsoleSpec ConsoleTheorems Printf Syscall ProcDefs Schedlog.

Module Report.

(** ** The console as a part of the rest of the kernel *)

Class ConsEnv (E : Type) := {
  e_cons : E -> consd;
  e_set_cons : consd -> E -> E;
  e_cons_set : forall d e, e_cons (e_set_cons d e) = d;
  e_set_cons_set : forall d d' e, e_set_cons d (e_set_cons d' e) = e_set_cons d e;
  e_set_cons_cons : forall e, e_set_cons (e_cons e) e = e
}.

#[export] Instance pstate_cons {E} `{!ConsEnv E} : HasCons (pstate E).
Proof.
  refine {| cons := fun s => e_cons (env s); set_cons := fun d s => set_env (e_set_cons d (env s)) s |}; intros; cbn.
  - apply e_cons_set.
  - by rewrite e_set_cons_set.
  - rewrite e_set_cons_cons. by destruct s.
  - done.
  - done.
  - done.
Defined.

(** ** [panic] *)

Definition set_panicked (v : Z) (d : consd) : consd :=
  mkcons (c_locking d) v (input d) (crt d) (crtpos d) (uart d) (sent d) (com_in d) (kbd_in d) (kbd_shift d) (c_killed d).

Section Panic.
Context {S : Type} `{!HasCtx S, !HasCons S}.

(** All of [panic] up to its endless loop; [v] is the address of its argument and [load]
    reads the kernel's stack. *)
Definition panic_prints (load : Z -> Z) (v : Z) (msg : list Z) : M S unit :=
  onctx cli ;;
  upd_cons (set_locking 0) ;;
  id <- onctx (gets lapic_id) ;;
  cprintf (chars "lapicid %d: panic: ") [AInt id] ;;
  cprintf msg [] ;;
  cprintf [10] [] ;;
  forM (getcallerpcs load v) (fun pc => cprintf (chars " %p") [AInt pc]) ;;
  upd_cons (set_panicked 1).
End Panic.

Section Report.
Context {E : Type} `{!KEnv E, !ConsEnv E}.
Implicit Types s : pstate E.

(** ** [procdump] *)

Definition state_name (st : procstate) : list Z :=
  match st with
  | UNUSED => chars "unused"
  | EMBRYO => chars "embryo"
  | SLEEPING => chars "sleep "
  | RUNNABLE => chars "runble"
  | RUNNING => chars "run   "
  | ZOMBIE => chars "zombie"
  | _ => chars "???"
  end.

(** [cprintf] with a string that is in an array. *)
Definition with_str (a : list Z) (f : list Z -> M (pstate E) unit) : M (pstate E) unit :=
  match str_at a with Some r => f r | None => ub "string without NUL" end.

(** The entries of [pc] in front of the first 0. *)
Fixpoint print_pcs (pcs : list Z) : M (pstate E) unit :=
  match pcs with
  | [] => ret tt
  | pc :: pcs => if pc =? 0 then ret tt else cprintf (chars " %p") [AInt pc] ;; print_pcs pcs
  end.

Definition dump_one (load : Z -> Z) (i : nat) : M (pstate E) unit :=
  p <- pread id (PProc i) ;;
  if bool_decide (p_state p = UNUSED) then ret tt else
  with_str (p_name p) (fun nm => cprintf (chars "%d %s %s") [AInt (p_pid p); AStr (Some (state_name (p_state p))); AStr (Some nm)]) ;;
  when (bool_decide (p_state p = SLEEPING)) (print_pcs (getcallerpcs load (u32 (c_ebp (p_ctxc p) + 8)))) ;;
  cprintf [10] [].

Definition procdump (load : Z -> Z) : M (pstate E) unit :=
  n <- gets (fun s => length (procs s)) ;;
  forM (seq 0 n) (dump_one load).

(** ** [sys_bufread] *)

(** [convert_to_hexa] into a local array, and [cprintf] of it. *)
Definition print_hex (fmt : list Z) (n : Z) : M (pstate E) unit :=
  with_str (convert_to_hexa n (replicate 9 0)) (fun h => cprintf fmt [AStr (Some h)]).

(** Both halves of a clock; [fmt] is the format of the second. *)
Definition print_clock (fmt : list Z) (cl : clock) : M (pstate E) unit :=
  print_hex (chars "%s") (c_hi cl) ;;
  print_hex fmt (c_lo cl).

Definition log_at (i : nat) : M (pstate E) schedlog :=
  l <- gets buf_log ;;
  match l !! i with Some e => ret e | None => ub "buf_log" end.

Definition print_event (i : nat) : M (pstate E) unit :=
  e <- log_at i ;;
  print_clock (chars "%s,") (sl_clock e) ;;
  with_str (sl_name e) (fun nm => cprintf (chars "%d,%s,%d,%d,%d,%d" ++ [10])
    [AInt (sl_pid e); AStr (Some nm); AInt (sl_event e); AInt (sl_prev e); AInt (sl_next e); AInt (sl_cpu e)]).

Definition print_clocks (i : nat) : M (pstate E) unit :=
  cprintf (chars "%d,") [AInt (Z.of_nat i)] ;;
  l <- gets clock_log ;;
  match l !! i with
  | None => ub "clock_log"
  | Some (f, r, x) =>
      print_clock (chars "%s,") f ;;
      print_clock (chars "%s,") r ;;
      print_clock (chars "%s" ++ [10]) x
  end.

Definition sys_bufread : M (pstate E) Z :=
  cprintf (chars "clock,pid,pname,event_name,pstate_prev,pstate_next,cpu" ++ [10]) [] ;;
  forM (seq 0 (Z.to_nat BUFSIZE)) print_event ;;
  cprintf [10] [] ;;
  cprintf (chars "pid,fork,run,exit" ++ [10]) [] ;;
  forM (seq 0 64) print_clocks ;;
  cprintf (10 :: chars "start clock : ") [] ;;
  e <- log_at 1 ;;
  print_clock (chars "%s" ++ [10]) (sl_clock e) ;;
  cprintf (chars "end   clock : ") [] ;;
  cl <- gets end_clock ;;
  print_clock (chars "%s" ++ [10]) cl ;;
  with_str (convert_to_hexa (c_lo cl) (replicate 9 0)) (fun h => cprintf [10] [AStr (Some h)]) ;;
  ret 0.
End Report.

(** ** What [cprintf] puts on the console *)

(** The characters of a format; none for a missing argument. *)
Fixpoint cformat (fmt : list Z) (argp : list carg) : option (list Z) :=
  match fmt with
  | [] => Some []
  | c :: fmt =>
      if negb (c =? 37) then (fun r => c :: r) <$> cformat fmt argp else
      match fmt with
      | [] => Some []
      | c :: fmt =>
          if c =? 100 then
            match argp with AInt z :: argp => (fun r => rev (int_buf digits (s32 z) 10 true) ++ r) <$> cformat fmt argp | _ => None end
          else if (c =? 120) || (c =? 112) then
            match argp with AInt z :: argp => (fun r => rev (int_buf digits (s32 z) 16 false) ++ r) <$> cformat fmt argp | _ => None end
          else if c =? 115 then
            match argp with AStr s :: argp => (fun r => default (chars "(null)") s ++ r) <$> cformat fmt argp | _ => None end
          else if c =? 37 then (fun r => 37 :: r) <$> cformat fmt argp
          else (fun r => 37 :: c :: r) <$> cformat fmt argp
      end
  end.

Section Formats.
Context {S : Type} `{!HasCtx S, !HasCons S}.
Implicit Types s : S.

Lemma printint_agrees z base sgn k f r s : 2 <= base -> 2 ^ 32 <= base ^ Z.of_nat k -> (0 < k <= 15)%nat ->
  (forall s, cons_live (cons s) -> agrees r f s) -> cons_live (cons s) ->
  agrees ((fun r => rev (int_buf digits z base sgn) ++ r) <$> r) (printint z base sgn ;; f) s.
Proof.
  intros Hb Hk Hk0 Hf Hl. apply agrees_step; [|done|done]. unfold printint. pose proof (int_buf_length digits z base sgn k Hb Hk ltac:(lia)) as Hlen.
  rewrite (proj2 (Nat.ltb_ge _ _)) by (destruct sgn; lia). by apply consputs_run.
Qed.

Lemma cformat_run n : forall fmt args s, (length fmt <= n)%nat -> cons_live (cons s) -> agrees (cformat fmt args) (cprintf_loop fmt args) s.
Proof.
  induction n as [|n IH]; intros fmt args s Hn Hl.
  { destruct fmt; [|cbn in Hn; lia]. exists (cons s). cbn. rewrite set_cons_cons. split; [done|]. apply emits_nil, Hl. }
  destruct fmt as [|c fmt]; [exists (cons s); cbn; rewrite set_cons_cons; split; [done|apply emits_nil, Hl]|].
  cbn [length] in Hn. cbn [cformat cprintf_loop]. destruct (c =? 37); cbn [negb].
  2: { apply putc_agrees; [|done]. intros t Ht. apply IH; [lia|done]. }
  destruct fmt as [|d fmt]; [exists (cons s); cbn; rewrite set_cons_cons; split; [done|apply emits_nil, Hl]|]. cbn [length] in Hn.
  assert (Hrest : forall a t, cons_live (cons t) -> agrees (cformat fmt a) (cprintf_loop fmt a) t) by (intros a t Ht; apply IH; [lia|done]).
  destruct (d =? 100). { destruct args as [|[z|str] args]; [by exists "cprintf"%string| |by exists "cprintf"%string]. apply (printint_agrees _ _ _ 10); [lia|by vm_compute|lia|apply Hrest|done]. }
  destruct (_ || _). { destruct args as [|[z|str] args]; [by exists "cprintf"%string| |by exists "cprintf"%string]. apply (printint_agrees _ _ _ 8); [lia|by vm_compute|lia|apply Hrest|done]. }
  destruct (d =? 115). { destruct args as [|[z|str] args]; [by exists "cprintf"%string|by exists "cprintf"%string|]. apply agrees_step; [by apply consputs_run|apply Hrest|done]. }
  destruct (d =? 37); [apply putc_agrees; [apply Hrest|done]|].
  replace ((fun r => 37 :: d :: r) <$> cformat fmt args) with ((fun r => 37 :: r) <$> ((fun r => d :: r) <$> cformat fmt args)) by (by destruct (cformat fmt args)).
  apply putc_agrees; [|done]. intros t Ht. apply putc_agrees; [apply Hrest|done].
Qed.

(** The console is free for the CPU: the lock is not held, or not used. *)
Definition free_for s : Prop := c_locking (cons s) = 0 \/ exists i c, ctx_ok (ctx s) i c /\ locks (ctx s) !! cons_lk = None.

Lemma cprintf_run s fmt args l : free_for s -> cons_live (cons s) -> cformat fmt args = Some l ->
  exists d', cprintf fmt args s = Ret tt (set_cons d' s) /\ emits l (cons s) d'.
Proof.
  intros Hfree Hl Hf. unfold cprintf. rewrite bind_gets. destruct (Z.eqb_spec (c_locking (cons s)) 0) as [E0|E0]; cbn [negb when].
  - assert (H := cformat_run (length fmt) fmt args s ltac:(lia) Hl). rewrite Hf in H. destruct H as (d' & E & M).
    change (bind (ret tt) ?f s) with (f tt s). exists d'. by rewrite (bind_Ret _ _ _ _ _ E).
  - destruct Hfree as [?|(i & c & Hc & Hlk)]; [done|]. rewrite (bind_Ret _ _ _ _ _ (acq_step _ _ _ _ Hc Hlk)). set (s1 := set_ctx _ s). assert (C1 : cons s1 = cons s) by apply cons_ctx.
    assert (H := cformat_run (length fmt) fmt args s1 ltac:(lia) ltac:(by rewrite C1)). rewrite Hf in H. destruct H as (d' & E & M). rewrite C1 in M.
    exists d'. rewrite (bind_Ret _ _ _ _ _ E). split; [|done].
    rewrite (rel_step (set_cons d' s1) (ctx s) i c cons_lk Hc Hlk) by (unfold s1; by rewrite ctx_cons, ctx_set_ctx). unfold s1. by rewrite cons_swap, set_ctx_set, set_ctx_cons.
Qed.

(** *** Code that only prints *)

(** From any console on, [m] returns [a], prints [l] and changes nothing but the console. *)
Definition outputs s {A} (m : M S A) (a : A) (l : list Z) : Prop :=
  forall d, cons_live d -> c_locking d = c_locking (cons s) -> exists d', m (set_cons d s) = Ret a (set_cons d' s) /\ emits l d d'.

Lemma outputs_bind s {A B} (m : M S A) (f : A -> M S B) a b l1 l2 : outputs s m a l1 -> outputs s (f a) b l2 -> outputs s (bind m f) b (l1 ++ l2).
Proof.
  intros H1 H2 d Hl Hk. destruct (H1 d Hl Hk) as (d1 & E1 & M1). rewrite (bind_Ret _ _ _ _ _ E1).
  destruct (H2 d1) as (d2 & E2 & M2); [by eapply emits_live|by rewrite (em_rest _ _ _ M1)|]. exists d2. split; [done|]. by eapply emits_app.
Qed.

Lemma outputs_ret s {A} (a : A) : outputs s (ret a) a [].
Proof. intros d Hl _. exists d. split; [done|]. apply emits_nil, Hl. Qed.

Lemma outputs_gets s {A} (f : S -> A) : (forall d, f (set_cons d s) = f s) -> outputs s (gets f) (f s) [].
Proof. intros Hf d Hl _. exists d. unfold gets. rewrite Hf. split; [done|]. apply emits_nil, Hl. Qed.

Lemma outputs_cprintf s fmt args l : free_for s -> cformat fmt args = Some l -> outputs s (cprintf fmt args) tt l.
Proof.
  intros Hfree Hf d Hl Hk. destruct (cprintf_run (set_cons d s) fmt args l) as (d' & E & M); [|by rewrite cons_set|done|].
  - unfold free_for in *. rewrite cons_set, ctx_cons, Hk. done.
  - rewrite cons_set in M. rewrite set_cons_set in E. by exists d'.
Qed.

Lemma outputs_forM s {I} (l : list I) (body : I -> M S unit) (txt : I -> list Z) :
  (forall i, i ∈ l -> outputs s (body i) tt (txt i)) -> outputs s (forM l body) tt (concat (txt <$> l)).
Proof.
  induction l as [|i l IH]; intros H; [apply outputs_ret|]. cbn [forM fmap list_fmap concat]. eapply (outputs_bind _ _ _ tt); [apply H; set_solver|].
  apply IH. intros j Hj. apply H. set_solver.
Qed.

Lemma outputs_run s {A} (m : M S A) a l : outputs s m a l -> cons_live (cons s) -> exists d', m s = Ret a (set_cons d' s) /\ emits l (cons s) d'.
Proof. intros H Hl. destruct (H (cons s) Hl eq_refl) as (d' & E & M). rewrite set_cons_cons in E. by exists d'. Qed.
End Formats.

(** ** Lines and fields *)

Fixpoint split_on (sep : Z) (l : list Z) : list (list Z) :=
  match l with
  | [] => [[]]
  | c :: l => if c =? sep then [] :: split_on sep l else match split_on sep l with w :: ws => (c :: w) :: ws | [] => [[c]] end
  end.

Definition unlines (ls : list (list Z)) : list Z := concat ((fun l => l ++ [10]) <$> ls).

Lemma split_on_end sep w : sep ∉ w -> split_on sep w = [w].
Proof. induction w as [|c w IH]; intros H; [done|]. cbn [split_on]. rewrite (proj2 (Z.eqb_neq c sep)) by set_solver. rewrite IH by set_solver. done. Qed.

Lemma split_on_word sep w l : sep ∉ w -> split_on sep (w ++ sep :: l) = w :: split_on sep l.
Proof.
  induction w as [|c w IH]; intros H; cbn [app split_on]; [by rewrite Z.eqb_refl|]. rewrite (proj2 (Z.eqb_neq c sep)) by set_solver. rewrite IH by set_solver. done.
Qed.

Lemma split_unlines ls : Forall (fun l => 10 ∉ l) ls -> split_on 10 (unlines ls) = ls ++ [[]].
Proof.
  unfold unlines. induction 1 as [|l ls Hl _ IH]; [done|]. cbn [fmap list_fmap concat]. rewrite <- app_assoc. cbn [app]. rewrite split_on_word by done. by rewrite IH.
Qed.

(** A decimal numeral and a clock as they are printed. *)
Definition dec (z : Z) : list Z := rev (int_buf digits (s32 z) 10 true).
Definition hex16 (cl : clock) : list Z := hexa_digits 8 (c_hi cl) ++ hexa_digits 8 (c_lo cl).
Definition clock_num (cl : clock) : Z := c_hi cl * 2 ^ 32 + c_lo cl.

Definition is_int (z : Z) : Prop := - 2 ^ 31 <= z < 2 ^ 31.
Definition clock_ok (cl : clock) : Prop := is_u32 (c_hi cl) /\ is_u32 (c_lo cl).

Lemma dec_num z : is_int z -> numeral 10 (dec z) = z.
Proof. intros H. unfold dec. rewrite s32_small by done. by apply (int_buf_spec _ digits_ok); [lia|]. Qed.

Lemma dec_chars z c : c ∈ dec z -> 45 <= c.
Proof.
  unfold dec, int_buf. intros H. apply list_elem_of_In, in_rev, list_elem_of_In, elem_of_app in H. destruct H as [H|H].
  - set (x := u32 _) in H. assert (Hx : is_u32 x) by apply u32_range. destruct (digit_loop_val digits digits_ok 32 x 10) as [_ F]; [lia|unfold is_u32 in Hx; split; [lia|]; etransitivity; [apply Hx|by vm_compute]|lia|].
    apply (Forall_at _ _ _ F) in H. cbn in H. lia.
  - destruct (_ && _); [set_solver|by apply elem_of_nil in H].
Qed.

Lemma hex16_chars cl c : clock_ok cl -> c ∈ hex16 cl -> 48 <= c.
Proof. intros [[H1 _] [H2 _]] H. unfold hex16 in H. apply elem_of_app in H as [H|H]; apply hexa_digits_chars in H; lia. Qed.

Lemma hex_num_app a b : hex_num (a ++ b) = hex_num a * 16 ^ Z.of_nat (length b) + hex_num b.
Proof.
  unfold hex_num. rewrite fold_left_app. generalize (fold_left (fun a c => a * 16 + hex_val c) a 0). clear a. intros x. revert x.
  assert (H : forall x b, fold_left (fun a c => a * 16 + hex_val c) b x = x * 16 ^ Z.of_nat (length b) + fold_left (fun a c => a * 16 + hex_val c) b 0).
  { intros x l. revert x. induction l as [|c l IH]; intros x; cbn [fold_left length]; [cbn; lia|]. rewrite (IH (x * 16 + hex_val c)), (IH (0 * 16 + hex_val c)).
    rewrite Nat2Z.inj_succ, Z.pow_succ_r by lia. lia. }
  intros x. apply H.
Qed.

Lemma length_hexa k n : length (hexa_digits k n) = k.
Proof. revert n. induction k as [|k IH]; intros n; cbn [hexa_digits]; [done|]. rewrite length_app, IH. cbn. lia. Qed.

Lemma hex16_num cl : clock_ok cl -> hex_num (hex16 cl) = clock_num cl.
Proof.
  intros [H1 H2]. unfold hex16, clock_num, is_u32 in *. rewrite hex_num_app, length_hexa, !hexa_digits_num by lia. change (16 ^ Z.of_nat 8) with (2 ^ 32).
  rewrite !Z.mod_small by lia. done.
Qed.

(** ** The tables *)

Definition name_of (e : schedlog) : list Z := default [] (str_at (sl_name e)).
Definition event_row (e : schedlog) : list Z :=
  hex16 (sl_clock e) ++ 44 :: dec (sl_pid e) ++ 44 :: name_of e ++ 44 :: dec (sl_event e) ++ 44 :: dec (sl_prev e) ++ 44 :: dec (sl_next e) ++ 44 :: dec (sl_cpu e).
Definition clock_row (pid : nat) (x : clock * clock * clock) : list Z :=
  dec (Z.of_nat pid) ++ 44 :: hex16 x.1.1 ++ 44 :: hex16 x.1.2 ++ 44 :: hex16 x.2.

(** The fields of a row, as the program that reads the output takes them apart. *)
Definition read_event (row : list Z) : option (Z * Z * list Z * (Z * Z * Z * Z)) :=
  match split_on 44 row with
  | [cl; pid; nm; ev; pv; nx; cpu] => Some (hex_num cl, numeral 10 pid, nm, (numeral 10 ev, numeral 10 pv, numeral 10 nx, numeral 10 cpu))
  | _ => None
  end.
Definition read_clocks (row : list Z) : option (Z * Z * Z * Z) :=
  match split_on 44 row with
  | [pid; f; r; x] => Some (numeral 10 pid, hex_num f, hex_num r, hex_num x)
  | _ => None
  end.

(** An entry that can be printed: its name is a string without commas and newlines. *)
Record event_ok (e : schedlog) : Prop := {
  ev_clock : clock_ok (sl_clock e);
  ev_name : exists nm, str_at (sl_name e) = Some nm /\ 44 ∉ nm /\ 10 ∉ nm;
  ev_ints : is_int (sl_pid e) /\ is_int (sl_event e) /\ is_int (sl_prev e) /\ is_int (sl_next e) /\ is_int (sl_cpu e)
}.

Lemma dec_no z c : c < 45 -> c ∉ dec z.
Proof. intros Hc H%dec_chars. lia. Qed.

Lemma hex16_no cl c : clock_ok cl -> c < 48 -> c ∉ hex16 cl.
Proof. intros Hk Hc H%hex16_chars; [lia|done]. Qed.

Lemma event_reads e : event_ok e -> 10 ∉ event_row e /\
  read_event (event_row e) = Some (clock_num (sl_clock e), sl_pid e, name_of e, (sl_event e, sl_prev e, sl_next e, sl_cpu e)).
Proof.
  intros [Hc (nm & Hn & H1 & H2) (I1 & I2 & I3 & I4 & I5)]. unfold event_row, name_of. rewrite Hn. cbn [default]. split.
  - pose proof (hex16_no _ 10 Hc ltac:(lia)). pose proof (fun z => dec_no z 10 ltac:(lia)) as Hd. rewrite !not_elem_of_app, !not_elem_of_cons, !not_elem_of_app, !not_elem_of_cons, !not_elem_of_app, !not_elem_of_cons, !not_elem_of_app, !not_elem_of_cons, !not_elem_of_app, !not_elem_of_cons, !not_elem_of_app, !not_elem_of_cons. split_and!; try done; apply Hd.
  - unfold read_event. rewrite split_on_word by (by apply hex16_no). rewrite !split_on_word by (done || by apply dec_no). rewrite split_on_end by (by apply dec_no).
    by rewrite hex16_num, !dec_num.
Qed.

Lemma clocks_read pid x : Z.of_nat pid < 2 ^ 31 -> clock_ok x.1.1 -> clock_ok x.1.2 -> clock_ok x.2 -> 10 ∉ clock_row pid x /\
  read_clocks (clock_row pid x) = Some (Z.of_nat pid, clock_num x.1.1, clock_num x.1.2, clock_num x.2).
Proof.
  intros Hp H1 H2 H3. unfold clock_row. split.
  - rewrite !not_elem_of_app, !not_elem_of_cons, !not_elem_of_app, !not_elem_of_cons, !not_elem_of_app, !not_elem_of_cons. split_and!; try done; (by apply hex16_no) || (by apply dec_no).
  - unfold read_clocks. rewrite split_on_word by (by apply dec_no). rewrite !split_on_word by (by apply hex16_no). rewrite split_on_end by (by apply hex16_no).
    rewrite !hex16_num by done. rewrite dec_num by (unfold is_int; lia). done.
Qed.

(** ** What [sys_bufread] prints *)

Section Bufread.
Context {E : Type} `{!KEnv E, !ConsEnv E}.
Implicit Types s : pstate E.

(** The arrays have their sizes, and every entry can be printed. *)
Record log_ok s : Prop := {
  lo_log : length (buf_log s) = Z.to_nat BUFSIZE;
  lo_clocks : length (clock_log s) = Z.to_nat NPROC;
  lo_events : Forall event_ok (buf_log s);
  lo_times : Forall (fun x => clock_ok x.1.1 /\ clock_ok x.1.2 /\ clock_ok x.2) (clock_log s);
  lo_end : clock_ok (end_clock s)
}.

Definition events_head : list Z := chars "clock,pid,pname,event_name,pstate_prev,pstate_next,cpu".
Definition clocks_head : list Z := chars "pid,fork,run,exit".

(** The lines of the output; of the clocks they have those of the processes below 64. *)
Definition tables s : list (list Z) :=
  events_head :: (event_row <$> buf_log s) ++ [[]; clocks_head] ++ imap clock_row (take 64 (clock_log s)) ++
  [[]; chars "start clock : " ++ hex16 (default (mkclock 0 0) (sl_clock <$> buf_log s !! 1%nat)); chars "end   clock : " ++ hex16 (end_clock s); []].

Lemma printed_clocks s : log_ok s -> length (take 64 (clock_log s)) = 64%nat.
Proof. intros H. rewrite length_take, (lo_clocks s H). unfold NPROC. lia. Qed.

Lemma cformat_plain l args : 37 ∉ l -> cformat l args = Some l.
Proof. induction l as [|c l IH]; intros H; [done|]. cbn [cformat]. rewrite (proj2 (Z.eqb_neq c 37)) by set_solver. cbn [negb]. by rewrite IH by set_solver. Qed.

Lemma hex_string n : 0 <= n -> str_at (convert_to_hexa n (replicate 9 0)) = Some (hexa_digits 8 n).
Proof.
  intros Hn. rewrite convert_to_hexa_digits by done. apply str_at_spec. exists []. split; [done|]. apply Forall_forall. intros c Hc%hexa_digits_chars; lia.
Qed.

Lemma print_clock_outputs s cl suf : free_for s -> clock_ok cl -> 37 ∉ suf -> outputs s (print_clock (chars "%s" ++ suf) cl) tt (hex16 cl ++ suf).
Proof.
  intros Hf [[H1 _] [H2 _]] Hs. unfold print_clock, print_hex, with_str. rewrite !hex_string by done. unfold hex16. rewrite <- app_assoc.
  eapply (outputs_bind _ _ _ tt); apply outputs_cprintf; try done.
  change (chars "%s") with [37; 115]. cbn [app cformat negb Z.eqb Pos.eqb orb]. by rewrite cformat_plain.
Qed.

Lemma log_at_outputs s i e : buf_log s !! i = Some e -> outputs s (log_at i) e [].
Proof.
  intros He. unfold log_at. change (@nil Z) with (@nil Z ++ []). eapply outputs_bind; [by apply (outputs_gets s buf_log)|]. rewrite He. apply outputs_ret.
Qed.

Lemma print_event_outputs s i e : free_for s -> buf_log s !! i = Some e -> event_ok e -> outputs s (print_event i) tt (event_row e ++ [10]).
Proof.
  intros Hf He [Hc (nm & Hn & _) _]. unfold print_event. change (event_row e ++ [10]) with ([] ++ (event_row e ++ [10])). eapply outputs_bind; [by apply log_at_outputs|].
  unfold event_row, name_of. rewrite Hn. cbn [default id].
  replace ((hex16 (sl_clock e) ++ 44 :: dec (sl_pid e) ++ 44 :: nm ++ 44 :: dec (sl_event e) ++ 44 :: dec (sl_prev e) ++ 44 :: dec (sl_next e) ++ 44 :: dec (sl_cpu e)) ++ [10])
    with ((hex16 (sl_clock e) ++ [44]) ++ dec (sl_pid e) ++ 44 :: nm ++ 44 :: dec (sl_event e) ++ 44 :: dec (sl_prev e) ++ 44 :: dec (sl_next e) ++ 44 :: dec (sl_cpu e) ++ [10])
    by (repeat (rewrite <- ?app_assoc; cbn [app]); done).
  eapply (outputs_bind _ _ _ tt); [apply (print_clock_outputs s _ [44] Hf Hc); set_solver|]. unfold with_str. rewrite Hn. apply outputs_cprintf; [done|].
  change (chars "%d,%s,%d,%d,%d,%d" ++ [10]) with [37; 100; 44; 37; 115; 44; 37; 100; 44; 37; 100; 44; 37; 100; 44; 37; 100; 10]. reflexivity.
Qed.

Lemma print_clocks_outputs s i x : free_for s -> clock_log s !! i = Some x -> clock_ok x.1.1 -> clock_ok x.1.2 -> clock_ok x.2 ->
  outputs s (print_clocks i) tt (clock_row i x ++ [10]).
Proof.
  intros Hf Hx H1 H2 H3. unfold print_clocks. destruct x as [[f r] x]. cbn [fst snd] in *.
  replace (clock_row i (f, r, x) ++ [10]) with ((dec (Z.of_nat i) ++ [44]) ++ [] ++ (hex16 f ++ [44]) ++ (hex16 r ++ [44]) ++ (hex16 x ++ [10]))
    by (unfold clock_row; cbn [fst snd]; repeat (rewrite <- ?app_assoc; cbn [app]); done).
  eapply (outputs_bind _ _ _ tt); [apply outputs_cprintf; [done|]; change (chars "%d,") with [37; 100; 44]; reflexivity|].
  eapply outputs_bind; [by apply (outputs_gets s clock_log)|]. rewrite Hx.
  eapply (outputs_bind _ _ _ tt); [apply (print_clock_outputs s _ [44] Hf H1); set_solver|]. eapply (outputs_bind _ _ _ tt); [apply (print_clock_outputs s _ [44] Hf H2); set_solver|].
  apply (print_clock_outputs s _ [10] Hf H3). set_solver.
Qed.

(** A table with one line for each entry of a list. *)
Lemma rows_outputs {A} s (l : list A) n (body : nat -> M (pstate E) unit) (row : nat -> A -> list Z) :
  length l = n -> (forall i x, l !! i = Some x -> outputs s (body i) tt (row i x ++ [10])) -> outputs s (forM (seq 0 n) body) tt (unlines (imap row l)).
Proof.
  intros <- H. replace (unlines (imap row l)) with (concat ((fun i => default [] ((fun x => row i x ++ [10]) <$> l !! i)) <$> seq 0 (length l))).
  - apply outputs_forM. intros i Hi%elem_of_seq. destruct (lookup_lt_is_Some_2 l i) as [x Hx]; [lia|]. rewrite Hx. by apply H.
  - clear. unfold unlines. f_equal. apply list_eq. intros i. rewrite !list_lookup_fmap, list_lookup_imap. destruct (decide (i < length l)%nat) as [Hlt|Hge].
    + rewrite lookup_seq_lt by done. destruct (lookup_lt_is_Some_2 l i Hlt) as [x Hx]. cbn. by rewrite Hx.
    + rewrite lookup_seq_ge, lookup_ge_None_2 by lia. done.
Qed.

Lemma sys_bufread_outputs s : free_for s -> log_ok s -> outputs s sys_bufread 0 (unlines (tables s)).
Proof.
  intros Hf Hok. pose proof Hok as [Hl Hcl Hev Hti Hend]. destruct (lookup_lt_is_Some_2 (buf_log s) 1) as [e1 He1]; [rewrite Hl; by vm_compute; lia|].
  assert (Hc1 : clock_ok (sl_clock e1)) by (by apply (Forall_lookup_1 _ _ _ _ Hev He1)).
  replace (unlines (tables s)) with ((events_head ++ [10]) ++ unlines (imap (fun _ => event_row) (buf_log s)) ++ [10] ++ (clocks_head ++ [10]) ++ unlines (imap clock_row (take 64 (clock_log s))) ++
    (10 :: chars "start clock : ") ++ [] ++ (hex16 (sl_clock e1) ++ [10]) ++ chars "end   clock : " ++ [] ++ (hex16 (end_clock s) ++ [10]) ++ [10] ++ []).
  2: { rewrite (imap_const event_row (buf_log s) : imap (fun _ => event_row) (buf_log s) = _). unfold tables. rewrite He1. cbn [default fmap option_fmap option_map]. unfold unlines. rewrite !fmap_cons, !fmap_app, !fmap_cons. cbn [concat]. rewrite !concat_app. cbn [concat fmap list_fmap].
       repeat (rewrite <- ?app_assoc; cbn [app]). done. }
  assert (Hp : forall l, 37 ∉ l -> outputs s (cprintf l []) tt l) by (intros l H; apply outputs_cprintf; [done|by apply cformat_plain]).
  unfold sys_bufread. eapply (outputs_bind _ _ _ tt); [apply Hp; by vm_compute; set_solver|].
  eapply (outputs_bind _ _ _ tt); [apply rows_outputs; [done|]; intros i e He; apply print_event_outputs; [done|done|exact (Forall_lookup_1 _ _ _ _ Hev He)]|].
  eapply (outputs_bind _ _ _ tt); [apply Hp; set_solver|]. eapply (outputs_bind _ _ _ tt); [apply Hp; by vm_compute; set_solver|].
  eapply (outputs_bind _ _ _ tt); [apply rows_outputs; [by apply printed_clocks|]; intros i x [Hx _]%lookup_take_Some; destruct (Forall_lookup_1 _ _ _ _ Hti Hx) as (? & ? & ?); by apply print_clocks_outputs|].
  eapply (outputs_bind _ _ _ tt); [apply Hp; by vm_compute; set_solver|]. eapply outputs_bind; [by apply log_at_outputs|].
  eapply (outputs_bind _ _ _ tt); [by apply (print_clock_outputs s _ [10] Hf Hc1); set_solver|]. eapply (outputs_bind _ _ _ tt); [apply Hp; by vm_compute; set_solver|].
  eapply outputs_bind; [by apply (outputs_gets s end_clock)|]. eapply (outputs_bind _ _ _ tt); [by apply (print_clock_outputs s _ [10] Hf Hend); set_solver|].
  eapply (outputs_bind _ _ _ tt); [|apply outputs_ret]. unfold with_str. rewrite hex_string by apply Hend. by apply outputs_cprintf.
Qed.

Lemma tables_lines s : log_ok s -> Forall (fun l => 10 ∉ l) (tables s).
Proof.
  intros Hok. pose proof Hok as [Hl Hcl Hev Hti Hend]. unfold tables. destruct (lookup_lt_is_Some_2 (buf_log s) 1) as [e1 He1]; [rewrite Hl; by vm_compute; lia|]. rewrite He1. cbn [default fmap option_fmap option_map].
  assert (Hc1 : clock_ok (sl_clock e1)) by (by apply (Forall_lookup_1 _ _ _ _ Hev He1)).
  assert (Hh : forall h cl, 10 ∉ h -> clock_ok cl -> 10 ∉ h ++ hex16 cl) by (intros h cl H1 H2; apply not_elem_of_app; split; [done|by apply hex16_no]).
  apply Forall_cons. split; [by vm_compute; set_solver|]. apply Forall_app. split; [|apply Forall_app; split; [|apply Forall_app; split]].
  - apply Forall_fmap, Forall_forall. intros e He. apply event_reads. by eapply Forall_at.
  - repeat (apply Forall_cons; split; [by vm_compute; set_solver|]). by apply Forall_nil.
  - apply Forall_lookup. intros i row Hr. rewrite list_lookup_imap in Hr. destruct (take 64 (clock_log s) !! i) as [x|] eqn:Hx; [|done]. injection Hr as <-.
    apply lookup_take_Some in Hx as [Hx Hi]. destruct (Forall_lookup_1 _ _ _ _ Hti Hx) as (? & ? & ?). by apply clocks_read; [lia|..].
  - repeat (apply Forall_cons; split; [first [by apply not_elem_of_nil|apply Hh; [by vm_compute; set_solver|done]]|]). by apply Forall_nil.
Qed.

(** C33 (roundtrip).  [sys_bufread] prints the event log so that it can be read back: the
    output, cut at its newlines, has one line for each entry of [buf_log] and, behind a
    second heading, one for each of the first 64 of the [NPROC] entries of [clock_log], and taking
    such a line apart at its commas gives the clock as one 64-bit number, the process and its
    name, the event and the states exactly as they were logged.  With the headings and the two
    lines at the end there are 571 lines, so the clocks of the processes from 64 on have none.
    Nothing but the console changes. *)
Theorem bufread_reads_back s i c :
  ctx_ok (ctx s) i c -> locks (ctx s) !! cons_lk = None -> cons_live (cons s) -> log_ok s ->
  exists d' txt, sys_bufread s = Ret 0 (set_cons d' s) /\ emits txt (cons s) d' /\
    (forall k e, buf_log s !! k = Some e -> exists row, split_on 10 txt !! S k = Some row /\
       read_event row = Some (clock_num (sl_clock e), sl_pid e, name_of e, (sl_event e, sl_prev e, sl_next e, sl_cpu e))) /\
    (forall pid x, (pid < 64)%nat -> clock_log s !! pid = Some x -> exists row, split_on 10 txt !! (503 + pid)%nat = Some row /\
       read_clocks row = Some (Z.of_nat pid, clock_num x.1.1, clock_num x.1.2, clock_num x.2)) /\
    length (split_on 10 txt) = 572%nat.
Proof.
  intros Hc Hlk Hl Hok. assert (Hf : free_for s) by (right; by exists i, c). destruct (outputs_run s _ _ _ (sys_bufread_outputs s Hf Hok) Hl) as (d' & Hrun & Hem).
  exists d', (unlines (tables s)). split_and!; [done|done|..]; rewrite (split_unlines _ (tables_lines s Hok)); pose proof (printed_clocks s Hok) as H64; destruct Hok as [Hlen Hcl Hev Hti _].
  - intros k e He. assert (Hk := lookup_lt_Some _ _ _ He). exists (event_row e). split; [|by apply event_reads, (Forall_lookup_1 _ _ _ _ Hev He)].
    apply lookup_app_l_Some. unfold tables. rewrite lookup_cons. apply lookup_app_l_Some. by rewrite list_lookup_fmap, He.
  - intros pid x Hk Hx. exists (clock_row pid x). destruct (Forall_lookup_1 _ _ _ _ Hti Hx) as (? & ? & ?).
    split; [|by apply clocks_read; [lia|..]]. apply lookup_app_l_Some. change (503 + pid)%nat with (S (502 + pid)). unfold tables. rewrite lookup_cons.
    rewrite lookup_app_r; rewrite length_fmap, Hlen; change (Z.to_nat BUFSIZE) with 500%nat; [|lia]. replace (502 + pid - 500)%nat with (S (S pid)) by lia. cbn [app]. rewrite !lookup_cons.
    apply lookup_app_l_Some. by rewrite list_lookup_imap, lookup_take_lt, Hx.
  - unfold tables. repeat (rewrite ?length_app; cbn [length app]). rewrite length_fmap, Hlen, length_imap, H64. reflexivity.
Qed.

(** [procdump] prints a line for each slot in use, with the return addresses of a sleeper,
    and takes no lock of the process table. *)
Definition pcs_text (pcs : list Z) : list Z := concat ((fun pc => 32 :: rev (int_buf digits (s32 pc) 16 false)) <$> pcs).
Fixpoint until0 (pcs : list Z) : list Z := match pcs with [] => [] | pc :: pcs => if pc =? 0 then [] else pc :: until0 pcs end.
Definition dump_line (load : Z -> Z) (p : proc) : list Z :=
  if bool_decide (p_state p = UNUSED) then [] else
  dec (p_pid p) ++ 32 :: state_name (p_state p) ++ 32 :: default [] (str_at (p_name p)) ++
  (if bool_decide (p_state p = SLEEPING) then pcs_text (until0 (getcallerpcs load (u32 (c_ebp (p_ctxc p) + 8)))) else []) ++ [10].

Lemma print_pcs_outputs s pcs : free_for s -> outputs s (print_pcs pcs) tt (pcs_text (until0 pcs)).
Proof.
  intros Hf. induction pcs as [|pc pcs IH]; cbn [print_pcs until0]; [apply outputs_ret|]. destruct (pc =? 0); [apply outputs_ret|].
  change (pcs_text (pc :: until0 pcs)) with ((32 :: rev (int_buf digits (s32 pc) 16 false)) ++ pcs_text (until0 pcs)). eapply (outputs_bind _ _ _ tt); [|exact IH].
  apply outputs_cprintf; [done|]. change (chars " %p") with [32; 37; 112]. cbn [cformat negb Z.eqb Pos.eqb orb fmap option_fmap option_map]. by rewrite app_nil_r.
Qed.

Theorem procdump_prints s load i c :
  ctx_ok (ctx s) i c -> locks (ctx s) !! cons_lk = None -> cons_live (cons s) -> Forall (fun p => p_state p <> UNUSED -> is_Some (str_at (p_name p))) (procs s) ->
  exists d', procdump load s = Ret tt (set_cons d' s) /\ emits (concat (dump_line load <$> procs s)) (cons s) d'.
Proof.
  intros Hc Hlk Hl Hn. assert (Hf : free_for s) by (right; by exists i, c). apply outputs_run; [|done]. unfold procdump.
  change (concat (dump_line load <$> procs s)) with ([] ++ concat (dump_line load <$> procs s)). eapply outputs_bind; [by apply (outputs_gets s (fun s => length (procs s)))|].
  replace (dump_line load <$> procs s) with ((fun j => default [] (dump_line load <$> procs s !! j)) <$> seq 0 (length (procs s))).
  2: { clear. apply list_eq. intros j. rewrite !list_lookup_fmap. destruct (decide (j < length (procs s))%nat) as [Hlt|Hge].
       - rewrite lookup_seq_lt by done. destruct (lookup_lt_is_Some_2 (procs s) j Hlt) as [x Hx]. cbn. by rewrite Hx.
       - rewrite lookup_seq_ge, lookup_ge_None_2 by lia. done. }
  apply outputs_forM. intros j Hj%elem_of_seq. destruct (lookup_lt_is_Some_2 (procs s) j) as [p Hp]; [lia|]. rewrite Hp. cbn [default fmap option_fmap option_map]. unfold dump_one, id.
  change (dump_line load p) with ([] ++ dump_line load p).
  assert (Hr : outputs s (pread (fun x => x) (PProc j)) p []).
  { intros d Hd _. exists d. rewrite (pread_ok _ _ _ p) by (cbn; by rewrite Hp). split; [done|]. apply emits_nil, Hd. }
  eapply outputs_bind; [exact Hr|]. unfold dump_line. destruct (bool_decide_reflect (p_state p = UNUSED)) as [|Hu]; [apply outputs_ret|].
  destruct (Forall_lookup_1 _ _ _ _ Hn Hp Hu) as [nm Hnm]. rewrite Hnm. cbn [default id].
  replace (dec (p_pid p) ++ 32 :: state_name (p_state p) ++ 32 :: nm ++ (if bool_decide (p_state p = SLEEPING) then pcs_text (until0 (getcallerpcs load (u32 (c_ebp (p_ctxc p) + 8)))) else []) ++ [10])
    with ((dec (p_pid p) ++ 32 :: state_name (p_state p) ++ 32 :: nm) ++ (if bool_decide (p_state p = SLEEPING) then pcs_text (until0 (getcallerpcs load (u32 (c_ebp (p_ctxc p) + 8)))) else []) ++ [10])
    by (repeat (rewrite <- ?app_assoc; cbn [app]); done).
  eapply (outputs_bind _ _ _ tt).
  { unfold with_str. rewrite Hnm. apply outputs_cprintf; [done|]. change (chars "%d %s %s") with [37; 100; 32; 37; 115; 32; 37; 115].
    cbn [cformat negb Z.eqb Pos.eqb orb default id fmap option_fmap option_map]. by rewrite app_nil_r. }
  eapply (outputs_bind _ _ _ tt); [|apply outputs_cprintf; [done|by vm_compute]]. destruct (bool_decide _); cbn [when]; [by apply print_pcs_outputs|apply outputs_ret].
Qed.
End Bufread.

(** [panic] prints its message whoever holds the lock of the console, and leaves the
    console so that every other CPU stops at the next character it prints. *)
Section PanicMessage.
Context {S : Type} `{!HasCtx S, !HasCons S}.
Implicit Types s : S.

Theorem panic_message s load v msg : cons_live (cons s) -> 37 ∉ msg ->
  exists d', panic_prints load v msg s = Ret tt (set_cons (set_panicked 1 d') (set_ctx (set_IF false (ctx s)) s)) /\
    emits (chars "lapicid " ++ dec (lapic_id (ctx s)) ++ chars ": panic: " ++ msg ++ [10] ++ pcs_text (getcallerpcs load v)) (set_locking 0 (cons s)) d' /\
    forall c t, cons t = set_panicked 1 d' -> consputc c t = Spin ("panicked"%string, 0).
Proof.
  intros Hl Hm. unfold panic_prints. rewrite (bind_Ret _ _ _ _ _ (onctx_Ret cli s tt (set_IF false (ctx s)) eq_refl)). set (s1 := set_ctx _ s).
  rewrite (bind_Ret _ _ _ _ _ (upd_cons_run (set_locking 0) s1)). unfold s1 at 1. rewrite cons_ctx. set (d0 := set_locking 0 (cons s)). set (s2 := set_cons d0 s1).
  assert (Hid : onctx (gets lapic_id) s2 = Ret (lapic_id (ctx s)) s2).
  { apply onctx_same. unfold s2, s1. by rewrite ctx_cons, ctx_set_ctx. }
  rewrite (bind_Ret _ _ _ _ _ Hid). assert (Hf : free_for s2) by (left; unfold s2; by rewrite cons_set). assert (Hl2 : cons_live (cons s2)) by (unfold s2; by rewrite cons_set).
  set (id := lapic_id (ctx s)).
  assert (Hout : outputs s2 (cprintf (chars "lapicid %d: panic: ") [AInt id] ;; cprintf msg [] ;; cprintf [10] [] ;; forM (getcallerpcs load v) (fun pc => cprintf (chars " %p") [AInt pc])) tt
    ((chars "lapicid " ++ dec id ++ chars ": panic: ") ++ msg ++ [10] ++ pcs_text (getcallerpcs load v))).
  { eapply (outputs_bind _ _ _ tt); [apply outputs_cprintf; [done|]; change (chars "lapicid %d: panic: ") with (chars "lapicid " ++ [37; 100] ++ chars ": panic: "); reflexivity|].
    eapply (outputs_bind _ _ _ tt); [apply outputs_cprintf; [done|by apply cformat_plain]|]. eapply (outputs_bind _ _ _ tt); [apply outputs_cprintf; [done|by vm_compute]|].
    apply outputs_forM. intros pc _. apply outputs_cprintf; [done|]. change (chars " %p") with [32; 37; 112]. cbn [cformat negb Z.eqb Pos.eqb orb fmap option_fmap option_map]. by rewrite app_nil_r. }
  destruct (outputs_run _ _ _ _ Hout Hl2) as (d' & Hrun & Hem). exists d'. unfold s2 in Hem. rewrite cons_set in Hem. rewrite <- !app_assoc in Hem. split_and!; [|exact Hem|].
  - assert (Hassoc : (cprintf (chars "lapicid %d: panic: ") [AInt id] ;; cprintf msg [] ;; cprintf [10] [] ;; forM (getcallerpcs load v) (fun pc => cprintf (chars " %p") [AInt pc]) ;; upd_cons (set_panicked 1)) s2
      = upd_cons (set_panicked 1) (set_cons d' s2)).
    { unfold bind in Hrun |- *. destruct (cprintf _ _ s2) as [[] t1| | | | |]; try discriminate Hrun. cbn [rbind] in *. destruct (cprintf msg [] t1) as [[] t2| | | | |]; try discriminate Hrun. cbn [rbind] in *.
      destruct (cprintf [10] [] t2) as [[] t3| | | | |]; try discriminate Hrun. cbn [rbind] in *. rewrite Hrun. done. }
    rewrite Hassoc, upd_cons_run, cons_set, set_cons_set. unfold s2. by rewrite set_cons_set.
  - intros c t Ht. unfold consputc. rewrite bind_gets, Ht. done.
Qed.
End PanicMessage.

(** ** A log of one event *)

#[global] Instance consd_env : ConsEnv consd.
Proof. by refine {| e_cons := fun d => d; e_set_cons := fun d _ => d |}. Defined.

Definition zero_event : schedlog := mkschedlog zero_clock 0 (replicate 16 0) 0 0 0 0.
Definition one_event : schedlog := mkschedlog (mkclock 1 0xdeadbeef) 7 (take 16 (chars "bufwrite" ++ replicate 16 0)) 2 4 3 1.
Definition zero_clocks : list (clock * clock * clock) := replicate (Z.to_nat NPROC) (zero_clock, zero_clock, zero_clock).
Definition demo_report : pstate consd :=
  mkpstate demo_ctx demo_procs demo_heads [0; 2] 5 0 (replicate 8 0) zero_clock (Some 0%nat)
    (zero_event :: one_event :: replicate 498 zero_event) 1 zero_clocks 1 0 (demo_cons []).

Lemma demo_report_ok : log_ok demo_report.
Proof.
  assert (H0 : clock_ok zero_clock) by (by repeat split). assert (Hz : event_ok zero_event) by (split; [done|exists []; split; [done|split; apply not_elem_of_nil]|by repeat split]).
  split; [done|apply length_replicate| |by apply Forall_replicate|done]. apply Forall_cons. split; [done|]. apply Forall_cons. split; [|by apply Forall_replicate].
  split; [by repeat split|exists (chars "bufwrite"); split; [done|split; by vm_compute; set_solver]|by repeat split].
Qed.

Lemma demo_report_live : cons_live (cons demo_report).
Proof. cbv [cons pstate_cons consd_env e_cons]. apply (demo_live []). Qed.

Lemma bufread_reads_back_witness : exists d' txt row, sys_bufread demo_report = Ret 0 (set_cons d' demo_report) /\ split_on 10 txt !! 2%nat = Some row /\
  read_event row = Some (0x1deadbeef, 7, chars "bufwrite", (2, 4, 3, 1)).
Proof.
  destruct (bufread_reads_back demo_report 0 demo_cpu0 demo_ctx_ok eq_refl demo_report_live demo_report_ok) as (d' & txt & Hrun & _ & Hev & _).
  destruct (Hev 1%nat one_event eq_refl) as (row & H1 & H2). exact (ex_intro _ d' (ex_intro _ txt (ex_intro _ row (conj Hrun (conj H1 H2))))).
Defined.
End Report.
