(* ===== verification/Sysproc.v ===== *)
(** * System calls on processes

    Models the calls of [sysproc.c] that work on the process table ([sys_sleep] and
    [sys_uptime] are in [Trap.v]), and [sys_bufwrite] and [sys_waitfork] of [sysfile.c].
    The memory of the current process, where the arguments are, is a function of the rest
    of the kernel, its page table and its size. *)

From Stdlib Require Import ZArith Lia.
From S2P Require Import Prelude Spinlock Bytes Syscall ProcDefs Schedlog Proc ProcSpec ProcTheorems.

Module Sysproc.

Section Sysproc.
Context {E : Type} `{!KEnv E}.
Context (multi : bool).
(** The bytes below [sz] of the address space [pgdir]. *)
Context (user_bytes : E -> Z -> Z -> list Z).
Implicit Types s : pstate E.

Definition cur_frame : M (pstate E) (Z * list Z) :=
  cur <- onctx myproc ;;
  p <- pread id (pp cur) ;;
  mem <- gets (fun s => user_bytes (env s) (p_pgdir p) (p_sz p)) ;;
  ret (tf_esp (p_tfc p), mem).

#[local] Instance pstate_user : HasUser (pstate E) := {| u_frame := cur_frame |}.

Definition sys_fork : M (pstate E) Z := fork multi.

Definition sys_exit : M (pstate E) Z := exit multi ;; ret 0.

Definition sys_wait (fuel : nat) : M (pstate E) Z := wait multi fuel.

Definition sys_kill : M (pstate E) Z :=
  pid <- argint 0 ;;
  match pid with
  | None => ret (-1)
  | Some pid => kill pid
  end.

Definition sys_getpid : M (pstate E) Z :=
  cur <- onctx myproc ;;
  pread p_pid (pp cur).

Definition sys_sbrk : M (pstate E) Z :=
  n <- argint 0 ;;
  match n with
  | None => ret (-1)
  | Some n =>
      cur <- onctx myproc ;;
      addr <- pread p_sz (pp cur) ;;
      r <- growproc n ;;
      if r <? 0 then ret (-1) else ret (s32 addr)
  end.

Definition sys_bufwrite : M (pstate E) Z := yield multi ;; ret 0.

(** [while (finished_fork == 0) yield();] *)
Fixpoint waitfork_loop (fuel : nat) : M (pstate E) Z :=
  match fuel with
  | O => nofuel
  | S fuel =>
      ff <- gets finished_fork ;;
      if ff =? 0 then yield multi ;; waitfork_loop fuel else ret 0
  end.

Definition sys_waitfork (fuel : nat) : M (pstate E) Z :=
  cur <- onctx myproc ;;
  pid <- pread p_pid (pp cur) ;;
  when (pid =? 3 + 32) (modify (set_finished_fork 1)) ;;
  waitfork_loop fuel.
End Sysproc.

Lemma cur_run {E} (s : pstate E) c cp : ctx_ok (pctx s) c cp -> onctx myproc s = Ret (cproc cp) s.
Proof. intros Hc. exact (@onctx_same _ pstate_ctx _ myproc s _ (myproc_ok _ _ _ Hc)). Qed.

(** ** The barrier of [waitfork] *)

(** Resumed by a scheduler, the rest of a waiting process looks at the flag again. *)
Definition looks_again {E} `{!KEnv E} (fuel : nat) (ie : bool) (k : pstate E -> res (pstate E) Z) : Prop :=
  forall t i kt ct, pctx t = k_acq ptable_lock i kt -> ctx_ok kt i ct -> ncli ct = 0 -> locks kt !! ptable_lock = None ->
    k t = waitfork_loop false fuel (set_pctx (k_settle i ie kt) t).

(** C35 (liveness).  [sys_waitfork] is a barrier: the process with pid 35 opens it and passes;
    once it is open every process passes, and nothing closes it again; before that a
    process becomes RUNNABLE and gives the CPU up, and each time it is resumed it looks at
    the flag again and passes if it is set. *)
Theorem waitfork_gates {E} `{!KEnv E} (s : pstate E) c cp p q fuel :
  ctx_ok (pctx s) c cp -> ncli cp = 0 -> cproc cp = Some p -> locks (pctx s) !! ptable_lock = None -> procs s !! p = Some q -> length (p_name q) = 16%nat ->
  (p_pid q = 35 -> sys_waitfork false (S fuel) s = Ret 0 (set_finished_fork 1 s)) /\
  (p_pid q <> 35 -> finished_fork s <> 0 -> sys_waitfork false (S fuel) s = Ret 0 s) /\
  (p_pid q <> 35 -> finished_fork s = 0 -> exists s1 k, sys_waitfork false (S fuel) s = Swtch s1 k /\
     procs s1 = <[p := set_p_state RUNNABLE q]> (procs s) /\ finished_fork s1 = 0 /\ looks_again fuel (eflags_IF (pctx s)) k) /\
  (forall t, finished_fork t <> 0 -> waitfork_loop false (S fuel) t = Ret 0 t).
Proof.
  intros Hc Hn Hcp Hl Hq Hnm.
  assert (Hpass : forall t, finished_fork t <> 0 -> waitfork_loop false (S fuel) t = Ret 0 t).
  { intros t Ht. cbn [waitfork_loop]. rewrite bind_gets, (proj2 (Z.eqb_neq _ _)) by done. done. }
  assert (Hstart : forall f, sys_waitfork false f s = (when (p_pid q =? 35) (modify (set_finished_fork 1)) ;; waitfork_loop false f) s).
  { intros f. unfold sys_waitfork. rewrite (bind_Ret _ _ _ _ _ (cur_run s c cp Hc)), Hcp. cbn [pp].
    rewrite (bind_Ret _ _ _ _ _ (pread_ok p_pid (PProc p) s q Hq)). done. }
  split_and!; [| | |exact Hpass]; rewrite Hstart.
  - intros ->. rewrite Z.eqb_refl. cbn [when]. rewrite bind_modify. by apply Hpass.
  - intros Hp Hff. rewrite (proj2 (Z.eqb_neq _ _)) by done. change (bind (when false ?m) ?f s) with (f tt s). by apply Hpass.
  - intros Hp Hff. rewrite (proj2 (Z.eqb_neq _ _)) by done. change (bind (when false ?m) ?f s) with (f tt s). cbn [waitfork_loop]. rewrite bind_gets, Hff. cbn [Z.eqb].
    destruct (wp_Swtch _ _ (wp_yield s c cp p q 0 Hc Hn Hcp Hl Hq Hnm (or_introl Hff))) as (s1 & kk & Hrun & Heq & _ & Hkk).
    rewrite (bind_Swtch _ _ _ _ _ Hrun). exists s1. eexists. split_and!; [reflexivity|by rewrite <- Heq|by destruct Heq as (? & ? & ? & ? & ->)|].
    intros t i kt ct H1 H2 H3 H4. cbn beta. by rewrite (Hkk t i kt ct H1 H2 H3 H4).
Qed.

(** ** [sbrk] *)

Section Sbrk.
Context {E : Type} `{!KEnv E} (user_bytes : E -> Z -> Z -> list Z).
Implicit Types s : pstate E.

Lemma cur_frame_run s c cp cur q : ctx_ok (pctx s) c cp -> cproc cp = Some cur -> procs s !! cur = Some q ->
  cur_frame user_bytes s = Ret (tf_esp (p_tfc q), user_bytes (env s) (p_pgdir q) (p_sz q)) s.
Proof.
  intros Hc Hcp Hq. unfold cur_frame. rewrite (bind_Ret _ _ _ _ _ (cur_run s c cp Hc)), Hcp. cbn [pp].
  rewrite (bind_Ret _ _ _ _ _ (pread_ok id (PProc cur) s q Hq)). by rewrite bind_gets.
Qed.

Lemma argint_proc_run s c cp cur q n : ctx_ok (pctx s) c cp -> cproc cp = Some cur -> procs s !! cur = Some q ->
  argint (HasUser0 := pstate_user user_bytes) n s = Ret (fetchint_in (user_bytes (env s) (p_pgdir q) (p_sz q)) (u32 (tf_esp (p_tfc q) + 4 + 4 * n))) s.
Proof.
  intros Hc Hcp Hq. assert (Hf := cur_frame_run s c cp cur q Hc Hcp Hq). unfold argint, fetchint, u_frame. cbn [pstate_user].
  rewrite (bind_Ret _ _ _ _ _ Hf). cbn [fst]. by rewrite (bind_Ret _ _ _ _ _ Hf).
Qed.

(** [sbrk] with minus the size of the process frees all of its memory and reports failure:
    [growproc] takes the new size 0 for the error of [deallocuvm], and does not store it. *)
Theorem sbrk_to_zero s c cp cur q n e1 :
  ctx_ok (pctx s) c cp -> cproc cp = Some cur -> procs s !! cur = Some q ->
  fetchint_in (user_bytes (env s) (p_pgdir q) (p_sz q)) (u32 (tf_esp (p_tfc q) + 4)) = Some n -> n < 0 -> p_sz q + n = 0 ->
  k_deallocuvm (p_pgdir q) (p_sz q) 0 (env s) = Ret 0 e1 ->
  sys_sbrk user_bytes s = Ret (-1) (set_env e1 s).
Proof.
  intros Hc Hcp Hq Hf Hneg Hsum Hd. unfold sys_sbrk. rewrite (bind_Ret _ _ _ _ _ (argint_proc_run s c cp cur q 0 Hc Hcp Hq)).
  rewrite Z.mul_0_r, Z.add_0_r, Hf. rewrite (bind_Ret _ _ _ _ _ (cur_run s c cp Hc)), Hcp. cbn [pp].
  rewrite (bind_Ret _ _ _ _ _ (pread_ok p_sz (PProc cur) s q Hq)). unfold bind at 1, growproc.
  rewrite (bind_Ret _ _ _ _ _ (cur_run s c cp Hc)), Hcp. cbn [pp].
  rewrite (bind_Ret _ _ _ _ _ (pread_ok p_sz (PProc cur) s q Hq)), (bind_Ret _ _ _ _ _ (pread_ok p_pgdir (PProc cur) s q Hq)).
  rewrite (proj2 (Z.ltb_ge 0 n)), (proj2 (Z.ltb_lt n 0)), Hsum by lia. change (u32 0) with 0. rewrite (bind_Ret _ _ _ _ _ (onenv_Ret _ _ _ _ Hd)).
  rewrite (proj2 (Z.eqb_neq n 0)) by lia. done.
Qed.
End Sbrk.

(** ** Process 34 waits, process 35 opens the barrier *)

Definition named (pid : Z) : proc := set_p_state RUNNING (set_p_pid pid zero_proc).
Definition gate_state (pid : Z) : pstate unit := set_procs [named pid; zero_proc] demo_state.

Lemma waitfork_gates_witness :
  sys_waitfork false 1 (gate_state 35) = Ret 0 (set_finished_fork 1 (gate_state 35)) /\
  exists s1 k, sys_waitfork false 1 (gate_state 34) = Swtch s1 k /\ looks_again 0 true k.
Proof.
  destruct (waitfork_gates (gate_state 35) 0 demo_cpu0 0 (named 35) 0 demo_ctx_ok eq_refl eq_refl eq_refl eq_refl eq_refl) as (H1 & _).
  destruct (waitfork_gates (gate_state 34) 0 demo_cpu0 0 (named 34) 0 demo_ctx_ok eq_refl eq_refl eq_refl eq_refl eq_refl) as (_ & _ & H2 & _).
  destruct (H2 ltac:(discriminate) eq_refl) as (s1 & k & H3 & _ & _ & H4). exact (conj (H1 eq_refl) (ex_intro _ s1 (ex_intro _ k (conj H3 H4)))).
Defined.
End Sysproc.
