(* ===== verification/Rate.v ===== *)
(** * Processor usage from a log

    Models [scripts/rate.py], which reads the table of events and the table of clocks that the
    kernel prints ([Report.v]) and works out how long each processor ran processes and how long
    processes waited.  Numbers are Python's integers; an index out of range is [None].
    [Evaluate] joins it to [Report.v]: the rows that [sys_bufread] prints, read as the script reads
    them, give the usage of the processors that the kernel's own log has. *)

From Stdlib Require Import ZArith Lia.
From S2P Require Import Prelude.

Module Rate.

Definition NCPU : nat := 8.

(** A row of the log: the columns that are kept. *)
Record ev := mkev { clock : Z; cpu : nat; pid : Z; pstate_prev : Z; pstate_next : Z }.

(** [running_clock], [not_running_clock] and [start_clock] *)
Record rst := mkr { running : list Z; not_running : list Z; start : list Z }.
Definition rst0 : rst := mkr (replicate NCPU 0) (replicate NCPU 0) (replicate NCPU (-1)).

(** [df['clock'] -= df['clock'][0]] and the query for RUNNING. *)
Definition elapsed (log : list ev) : list ev :=
  match log with
  | [] => []
  | e0 :: _ => (fun e => mkev (clock e - clock e0) (cpu e) (pid e) (pstate_prev e) (pstate_next e)) <$> log
  end.
Definition running_rows (log : list ev) : list ev := filter (fun e => pstate_prev e = 4 \/ pstate_next e = 4) (elapsed log).

(** The body of the first loop. *)
Definition rate_row (s : rst) (e : ev) : option rst :=
  match start s !! cpu e with
  | None => None
  | Some st =>
      let d := clock e - st in
      let s :=
        if (pstate_prev e =? 3) && (pstate_next e =? 4) && negb (st =? -1) then
          mkr (running s) (alter (Z.add d) (cpu e) (not_running s)) (start s)
        else if (pstate_prev e =? 4) && (pstate_next e =? 3) && negb (st =? -1) then
          mkr (alter (Z.add d) (cpu e) (running s)) (not_running s) (start s)
        else s in
      Some (mkr (running s) (not_running s) (<[cpu e := clock e]> (start s)))
  end.

Fixpoint rate_loop (es : list ev) (s : rst) : option rst :=
  match es with
  | [] => Some s
  | e :: es => match rate_row s e with Some s => rate_loop es s | None => None end
  end.

Definition usage (log : list ev) : option rst := rate_loop (running_rows log) rst0.

(** A row of the clocks, and the second loop: [cnt], [res_sum] and [tur_sum]. *)
Record clk := mkclk { k_pid : Z; k_fork : Z; k_run : Z; k_exit : Z }.
Definition clock_row (a : Z * Z * Z) (r : clk) : Z * Z * Z :=
  let '(cnt, res_sum, tur_sum) := a in
  let response := k_run r - k_fork r in
  let turnaround := k_exit r - k_fork r in
  if k_exit r =? 0 then a else (cnt + 1, res_sum + response, tur_sum + turnaround).

(** The printed averages: [%d] cuts the quotients, taken here without the rounding of Python's
    division; no result is the division by zero. *)
Definition averages (rows : list clk) : option (Z * Z) :=
  let '(cnt, res_sum, tur_sum) := foldl clock_row (0, 0, 0) rows in
  if cnt =? 0 then None else Some (Z.quot res_sum cnt, Z.quot tur_sum cnt).

(** ** What is measured *)

(** The rows of a processor. *)
Definition of_cpu (i : nat) (es : list ev) : list ev := filter (fun e => cpu e = i) es.

(** The time between each row and the one before it, for the rows that are [p]. *)
Fixpoint spans (p : ev -> bool) (es : list ev) : Z :=
  match es with
  | a :: (b :: _) as r => (if p b then clock b - clock a else 0) + spans p r
  | _ => 0
  end.

Definition to_running (e : ev) : bool := (pstate_prev e =? 3) && (pstate_next e =? 4).
Definition to_runnable (e : ev) : bool := (pstate_prev e =? 4) && (pstate_next e =? 3).

Lemma spans_snoc p es e : spans p (es ++ [e]) = spans p es + match last es with Some a => if p e then clock e - clock a else 0 | None => 0 end.
Proof.
  induction es as [|a es IH]; [done|]. destruct es as [|b es]; [cbn; lia|].
  change (spans p ((a :: b :: es) ++ [e])) with ((if p b then clock b - clock a else 0) + spans p ((b :: es) ++ [e])).
  rewrite IH. change (last (a :: b :: es)) with (last (b :: es)). cbn [spans]. lia.
Qed.

Lemma spans_total es a z : head es = Some a -> last es = Some z -> spans (fun _ => true) es = clock z - clock a.
Proof.
  revert a. induction es as [|b es IH]; intros a Ha Hz; [done|]. injection Ha as ->. destruct es as [|b es].
  { injection Hz as ->. cbn. lia. }
  change (clock b - clock a + spans (fun _ => true) (b :: es) = clock z - clock a). rewrite (IH b eq_refl Hz). lia.
Qed.

(** What the loop has after some rows. *)
Definition measured (es : list ev) (s : rst) : Prop :=
  length (start s) = NCPU /\
  forall i, (i < NCPU)%nat ->
    running s !! i = Some (spans to_runnable (of_cpu i es)) /\
    not_running s !! i = Some (spans to_running (of_cpu i es)) /\
    start s !! i = Some (match last (of_cpu i es) with Some e => clock e | None => -1 end).

Lemma measured_step es s e :
  measured es s -> (cpu e < NCPU)%nat -> Forall (fun e => 0 <= clock e) es -> exists s', rate_row s e = Some s' /\ measured (es ++ [e]) s'.
Proof.
  intros [Hl Hm] He Hc. destruct (Hm (cpu e) He) as (Hr & Hn & Hs). unfold rate_row. rewrite Hs. eexists. split; [done|].
  assert (Hst : match last (of_cpu (cpu e) es) with Some e => clock e | None => -1 end = -1 <-> last (of_cpu (cpu e) es) = None).
  { destruct (last (of_cpu (cpu e) es)) as [a|] eqn:Ha; [|done]. split; [|done]. intros Hx.
    apply last_Some_elem_of in Ha. apply list_elem_of_filter in Ha as [_ Ha]. rewrite Forall_forall in Hc. specialize (Hc a Ha). lia. }
  set (st := match last _ with Some _ => _ | None => _ end) in *.
  split; cbn [start]; [by repeat case_match; cbn [start]; rewrite length_insert|]. intros i Hi.
  unfold of_cpu. rewrite filter_app, filter_cons. cbn [filter]. rewrite filter_nil. fold (of_cpu i es). destruct (decide (cpu e = i)) as [<-|Hne].
  - rewrite !spans_snoc, last_snoc. fold (to_running e) (to_runnable e).
    assert (Hd : forall p : bool, match last (of_cpu (cpu e) es) with Some a => if p then clock e - clock a else 0 | None => 0 end =
      if p && negb (st =? -1) then clock e - st else 0).
    { intros p. unfold st in *. destruct (last (of_cpu (cpu e) es)) as [a|]; [|by rewrite andb_false_r].
      rewrite (proj2 (Z.eqb_neq _ (-1))) by (intros ?%Hst; done). by rewrite andb_true_r. }
    rewrite !Hd. assert (Hex : to_running e = true -> to_runnable e = false).
    { unfold to_running, to_runnable. destruct (Z.eqb_spec (pstate_prev e) 3) as [->|]; done. }
    destruct (to_running e) eqn:E1; [rewrite Hex by done|]; cbn [andb]; destruct (to_runnable e); cbn [andb]; destruct (negb (st =? -1));
      cbn [running not_running start]; rewrite ?list_lookup_alter_eq, list_lookup_insert_eq, ?Hr, ?Hn by lia; cbn; split_and!; f_equal; lia.
  - rewrite app_nil_r. destruct (Hm i Hi) as (Hr' & Hn' & Hs'). repeat case_match; cbn [running not_running start];
      rewrite ?list_lookup_alter_ne, list_lookup_insert_ne by done; done.
Qed.

Lemma rate_loop_measures es : Forall (fun e => (cpu e < NCPU)%nat /\ 0 <= clock e) es -> forall pre s,
  measured pre s -> Forall (fun e => 0 <= clock e) pre -> exists s', rate_loop es s = Some s' /\ measured (pre ++ es) s'.
Proof.
  induction 1 as [|e es [He Hc] _ IH]; intros pre s Hm Hp; cbn [rate_loop].
  { exists s. by rewrite app_nil_r. }
  destruct (measured_step pre s e Hm He Hp) as (s1 & -> & Hm1).
  destruct (IH (pre ++ [e]) s1 Hm1) as (s2 & H2 & Hm2).
  { apply Forall_app. split; [done|]. by constructor. }
  exists s2. by rewrite <- app_assoc in Hm2.
Qed.

Lemma measured_start : measured [] rst0.
Proof. split; [done|]. intros i Hi. unfold rst0. cbn [running not_running start]. by rewrite !lookup_replicate_2 by done. Qed.

Lemma running_rows_ok log :
  Forall (fun e => (cpu e < NCPU)%nat) log -> (forall e0 e, head log = Some e0 -> e ∈ log -> clock e0 <= clock e) ->
  Forall (fun e => (cpu e < NCPU)%nat /\ 0 <= clock e) (running_rows log).
Proof.
  intros Hc Hm. apply Forall_forall. intros e [_ He]%list_elem_of_filter. destruct log as [|e0 log]; [by apply elem_of_nil in He|].
  cbn [elapsed] in He. apply list_elem_of_fmap in He as (e1 & -> & H1). rewrite Forall_forall in Hc.
  split; [exact (Hc e1 H1)|]. cbn. specialize (Hm e0 e1 eq_refl H1). lia.
Qed.

(** The time between the first row of a processor and its last that is not counted at all. *)
Definition uncounted (e : ev) : bool := negb (to_running e) && negb (to_runnable e).

Lemma spans_split es : spans to_runnable es + spans to_running es + spans uncounted es = spans (fun _ => true) es.
Proof.
  induction es as [|a es IH]; [done|]. destruct es as [|b es]; [done|].
  assert (Hs : forall p, spans p (a :: b :: es) = (if p b then clock b - clock a else 0) + spans p (b :: es)) by done.
  rewrite !Hs, <- IH. unfold uncounted.
  assert (to_running b = true -> to_runnable b = false) as Hex.
  { unfold to_running, to_runnable. destruct (Z.eqb_spec (pstate_prev b) 3) as [->|]; done. }
  destruct (to_running b); [rewrite Hex by done|destruct (to_runnable b)]; cbn [negb andb]; lia.
Qed.

(** For a log of eight processors with no row before its first, the script gives
    each processor as its running time the time before the rows where a process is preempted, and
    as its idle time the time before the rows where one starts to run.  With the time before the
    other rows, those where a process blocks or exits, they add up to the time from the first row
    of the processor to its last. *)
Theorem usage_measures log :
  Forall (fun e => (cpu e < NCPU)%nat) log -> (forall e0 e, head log = Some e0 -> e ∈ log -> clock e0 <= clock e) ->
  exists s, usage log = Some s /\ forall i, (i < NCPU)%nat ->
    let es := of_cpu i (running_rows log) in
    exists r n, running s !! i = Some r /\ not_running s !! i = Some n /\
      r = spans to_runnable es /\ n = spans to_running es /\
      forall a z, head es = Some a -> last es = Some z -> r + n + spans uncounted es = clock z - clock a.
Proof.
  intros Hc Hm. destruct (rate_loop_measures (running_rows log) (running_rows_ok log Hc Hm) [] rst0) as (s & Hs & _ & H);
    [apply measured_start|constructor|]. exists s. split; [done|]. intros i Hi es. destruct (H i Hi) as (Hr & Hn & _).
  eexists _, _. split_and!; [done..|]. intros a z Ha Hz. rewrite spans_split. by apply spans_total.
Qed.

(** A process runs for 100 clocks and sleeps, the processor is idle for 50, and a process runs for
    50 until it is preempted. *)
Definition sleepy_log : list ev := [mkev 1000 0 3 3 4; mkev 1100 0 3 4 2; mkev 1150 0 4 3 4; mkev 1200 0 4 4 3].

Lemma usage_measures_witness : exists s, usage sleepy_log = Some s /\ running s !! 0%nat = Some 50 /\ not_running s !! 0%nat = Some 50.
Proof.
  destruct (usage_measures sleepy_log) as (s & Hs & H).
  - repeat constructor.
  - intros e0 e H0 He. injection H0 as <-. revert e He. apply Forall_forall. repeat constructor; discriminate.
  - exists s. destruct (H 0%nat (Nat.lt_0_succ _)) as (r & n & Hr & Hn & -> & -> & _). split; [exact Hs|]. split; [exact Hr|exact Hn].
Defined.

(** The time before a process sleeps or exits is not in the usage: here the processor ran for 150
    clocks of 200, and the usage is 50 of 100. *)
Theorem usage_drops_sleep : exists s, usage sleepy_log = Some s /\ running s !! 0%nat = Some 50 /\ not_running s !! 0%nat = Some 50 /\
  spans uncounted (of_cpu 0 (running_rows sleepy_log)) = 100.
Proof. eexists. split; [vm_compute; reflexivity|]. split_and!; reflexivity. Qed.

(** The averages are those of the processes that have exited; without one the script fails. *)
Theorem averages_exited rows :
  let done := filter (fun r => k_exit r <> 0) rows in
  averages rows = match done with
    | [] => None
    | _ => Some (Z.quot (foldr Z.add 0 ((fun r => k_run r - k_fork r) <$> done)) (Z.of_nat (length done)),
                 Z.quot (foldr Z.add 0 ((fun r => k_exit r - k_fork r) <$> done)) (Z.of_nat (length done)))
    end.
Proof.
  intros done. unfold averages.
  assert (H : forall a b c, foldl clock_row (a, b, c) rows = (a + Z.of_nat (length done), b + foldr Z.add 0 ((fun r => k_run r - k_fork r) <$> done),
    c + foldr Z.add 0 ((fun r => k_exit r - k_fork r) <$> done))).
  { unfold done. clear done. induction rows as [|r rows IH]; intros a b c; [cbn; repeat f_equal; lia|]. cbn [foldl]. rewrite filter_cons.
    replace (clock_row (a, b, c) r) with (if k_exit r =? 0 then (a, b, c) else (a + 1, b + (k_run r - k_fork r), c + (k_exit r - k_fork r))) by done.
    destruct (Z.eqb_spec (k_exit r) 0) as [He|He]; destruct (decide _) as [Hd|Hd]; try done; rewrite IH; try done. rewrite !fmap_cons. cbn [length foldr].
    f_equal; [f_equal|]; lia. }
  rewrite H. destruct done as [|r d]; [done|]. rewrite (proj2 (Z.eqb_neq _ 0)) by (cbn; lia). by rewrite !Z.add_0_l.
Qed.
End Rate.

From S2P Require Import Spinlock Console ConsoleSpec ConsoleTheorems Printf Syscall ProcDefs Schedlog Report.

Module Evaluate.
Import Report.Report.
Import Rate.

(** The rows of the first table, behind its heading. *)
Definition event_rows (txt : list Z) : list (list Z) := take (Z.to_nat BUFSIZE) (drop 1 (split_on 10 txt)).

(** The columns that the script uses. *)
Definition row_ev (row : list Z) : option ev :=
  (fun '(cl, p, _, (_, pv, nx, i)) => mkev cl (Z.to_nat i) p pv nx) <$> read_event row.

(** An entry of the log in the same form. *)
Definition entry_ev (e : schedlog) : ev := mkev (clock_num (sl_clock e)) (Z.to_nat (sl_cpu e)) (sl_pid e) (sl_prev e) (sl_next e).

Section Evaluate.
Context {E : Type} `{!KEnv E, !ConsEnv E}.
Implicit Types s : pstate E.

Lemma event_rows_tables s : log_ok s -> event_rows (unlines (tables s)) = event_row <$> buf_log s.
Proof.
  intros Hok. unfold event_rows. rewrite (split_unlines _ (tables_lines s Hok)). unfold tables.
  cbn [app]. rewrite skipn_cons, drop_0, <- !app_assoc, take_app_length'; [done|].
  by rewrite length_fmap, (lo_log s Hok).
Qed.

Lemma rows_read s : log_ok s -> mapM row_ev (event_row <$> buf_log s) = Some (entry_ev <$> buf_log s).
Proof.
  intros Hok. apply mapM_Some. pose proof (lo_events s Hok) as H. induction H as [|e l He H IH]; [constructor|].
  constructor; [|done]. unfold row_ev. by rewrite (proj2 (event_reads e He)).
Qed.

(** C34 (functional).  The output of [sys_bufread], cut into rows and columns as the script does it,
    gives [rate.py] exactly the entries of the kernel's log, and the running and idle times it
    computes for each processor are the times between those entries. *)
Theorem report_usage s i c :
  ctx_ok (ctx s) i c -> locks (ctx s) !! cons_lk = None -> cons_live (cons s) -> log_ok s ->
  Forall (fun e => 0 <= sl_cpu e < 8) (buf_log s) ->
  (forall e0 e, head (buf_log s) = Some e0 -> e ∈ buf_log s -> clock_num (sl_clock e0) <= clock_num (sl_clock e)) ->
  exists d' txt evs r, sys_bufread s = Ret 0 (set_cons d' s) /\ emits txt (cons s) d' /\
    mapM row_ev (event_rows txt) = Some evs /\ evs = entry_ev <$> buf_log s /\ usage evs = Some r /\
    forall k, (k < NCPU)%nat ->
      running r !! k = Some (spans to_runnable (of_cpu k (running_rows evs))) /\
      not_running r !! k = Some (spans to_running (of_cpu k (running_rows evs))).
Proof.
  intros Hc Hlk Hl Hok Hcpu Hmin. assert (Hf : free_for s) by (right; by exists i, c).
  destruct (outputs_run s _ _ _ (sys_bufread_outputs s Hf Hok) Hl) as (d' & Hrun & Hem).
  destruct (usage_measures (entry_ev <$> buf_log s)) as (r & Hr & Hm).
  - apply Forall_fmap. eapply Forall_impl; [exact Hcpu|]. intros e [He1 He2]. change (Z.to_nat (sl_cpu e) < 8)%nat. lia.
  - intros e0 e H0 He. apply list_elem_of_fmap in He as (x & -> & Hx). destruct (buf_log s) as [|y l]; [done|]. injection H0 as <-. by apply (Hmin y x).
  - exists d', (unlines (tables s)), (entry_ev <$> buf_log s), r. split_and!; [done|done| |done|done|].
    + by rewrite event_rows_tables, rows_read.
    + intros k Hk. destruct (Hm k Hk) as (a & b & Ha & Hb & -> & -> & _). done.
Qed.
End Evaluate.

(** A process runs on the second processor for 50 clocks. *)
Definition run_event (cl pv nx : Z) : schedlog := mkschedlog (mkclock 0 cl) 7 (take 16 (chars "bufwrite" ++ replicate 16 0)) 2 pv nx 1.
Definition run_report : pstate consd :=
  mkpstate demo_ctx demo_procs demo_heads [0; 2] 5 0 (replicate 8 0) zero_clock (Some 0%nat)
    (zero_event :: run_event 10 3 4 :: run_event 60 4 3 :: replicate 497 zero_event) 1 zero_clocks 1 0 (demo_cons []).

Lemma run_report_ok : log_ok run_report.
Proof.
  assert (H0 : clock_ok zero_clock) by (by repeat split). assert (Hz : event_ok zero_event) by (split; [done|exists []; split; [done|split; apply not_elem_of_nil]|by repeat split]).
  assert (Hr : forall cl pv nx, 0 <= cl < 100 -> 0 <= pv < 10 -> 0 <= nx < 10 -> event_ok (run_event cl pv nx)).
  { intros cl pv nx H1 H2 H3. split.
    - unfold clock_ok, is_u32. cbn [run_event sl_clock c_hi c_lo]. lia.
    - exists (chars "bufwrite"). split; [done|split; by vm_compute; set_solver].
    - unfold is_int. cbn [run_event sl_pid sl_event sl_prev sl_next sl_cpu]. lia. }
  split; [done|apply length_replicate| |by apply Forall_replicate|done]. apply Forall_cons. split; [done|].
  apply Forall_cons. split; [apply Hr; lia|]. apply Forall_cons. split; [apply Hr; lia|by apply Forall_replicate].
Qed.

Lemma run_usage : spans to_runnable (of_cpu 1 (running_rows (entry_ev <$> buf_log run_report))) = 50.
Proof. vm_compute. reflexivity. Qed.

Lemma report_usage_witness : exists d' txt evs r, sys_bufread run_report = Ret 0 (set_cons d' run_report) /\
  mapM row_ev (event_rows txt) = Some evs /\ usage evs = Some r /\ running r !! 1%nat = Some 50.
Proof.
  destruct (report_usage run_report 0 demo_cpu0 demo_ctx_ok eq_refl demo_report_live run_report_ok) as (d' & txt & evs & r & H1 & _ & H2 & H3 & H4 & H5).
  - apply Forall_forall. intros e He. apply Forall_forall with (P := fun e => 0 <= sl_cpu e < 8) (l := buf_log run_report); [|exact He].
    apply (bool_decide_unpack _). vm_compute. exact I.
  - intros e0 e H0 He. injection H0 as <-. change (clock_num (sl_clock zero_event)) with 0. revert e He. apply Forall_forall.
    apply (bool_decide_unpack _). vm_compute. exact I.
  - exists d', txt, evs, r. split; [exact H1|]. split; [exact H2|]. split; [exact H4|].
    destruct (H5 1%nat ltac:(unfold Rate.NCPU; lia)) as [H6 _]. rewrite H3, run_usage in H6. exact H6.
Defined.
End Evaluate.
