(* ===== verification/Grep.v ===== *)
(** * grep

    Models [grep.c]: the regular expression matcher, against a denotation of its patterns,
    and the loop that cuts the input into lines.  A string is the list of its characters
    before the NUL. *)

From Stdlib Require Import ZArith Lia.
From S2P Require Import Prelude.

(** ** The matcher *)

(** [matchhere] and, as its inner loop, [matchstar]; characters are 94 for [^], 46 for
    the dot, 42 for the star and 36 for the dollar sign. *)
Fixpoint matchhere (re text : list Z) {struct re} : bool :=
  match re with
  | [] => true
  | c :: re1 =>
      match re1 with
      | 42 :: re2 =>
          (fix matchstar (text : list Z) : bool :=
             matchhere re2 text ||
             match text with
             | [] => false
             | ch :: text => ((ch =? c) || (c =? 46)) && matchstar text
             end) text
      | _ =>
          if (c =? 36) && match re1 with [] => true | _ => false end then match text with [] => true | _ => false end else
          match text with
          | [] => false
          | ch :: text => ((c =? 46) || (c =? ch)) && matchhere re1 text
          end
      end
  end.

(** The loop of [match]: every suffix of the text, the empty one included. *)
Fixpoint match_loop (re text : list Z) : bool :=
  matchhere re text || match text with [] => false | _ :: text => match_loop re text end.

Definition match_re (re text : list Z) : bool :=
  match re with
  | 94 :: re => matchhere re text
  | _ => match_loop re text
  end.

(** ** What a pattern means *)

Inductive piece := One (c : Z) | Star (c : Z).

(** A pattern is a list of pieces, and may be anchored at the end of the text. *)
Fixpoint parse (re : list Z) : list piece * bool :=
  match re with
  | [] => ([], false)
  | c :: re1 =>
      match re1 with
      | 42 :: re2 => let r := parse re2 in (Star c :: fst r, snd r)
      | [] => if c =? 36 then ([], true) else ([One c], false)
      | _ => let r := parse re1 in (One c :: fst r, snd r)
      end
  end.

Definition stands_for (c ch : Z) : Prop := c = 46 \/ c = ch.

(** The words of a list of pieces. *)
Inductive lang : list piece -> list Z -> Prop :=
| lang_nil : lang [] []
| lang_one c ch ps w : stands_for c ch -> lang ps w -> lang (One c :: ps) (ch :: w)
| lang_star c l ps w : Forall (stands_for c) l -> lang ps w -> lang (Star c :: ps) (l ++ w).

(** [re] matches at the beginning of [text]. *)
Definition matches_here (re text : list Z) : Prop :=
  exists w rest, text = w ++ rest /\ lang (fst (parse re)) w /\ (snd (parse re) = true -> rest = []).

(** [re] matches somewhere in [text]. *)
Definition matches (re text : list Z) : Prop :=
  match re with
  | 94 :: re => matches_here re text
  | _ => exists pre suf, text = pre ++ suf /\ matches_here re suf
  end.

Lemma stands_for_dec c ch : (c =? 46) || (c =? ch) = true <-> stands_for c ch.
Proof. unfold stands_for. by rewrite orb_true_iff, !Z.eqb_eq. Qed.

Lemma star_case re2 c re1 text : re1 = 42 :: re2 -> matches_here (c :: re1) text <-> exists l suf, text = l ++ suf /\ Forall (stands_for c) l /\ matches_here re2 suf.
Proof.
  intros ->. unfold matches_here. cbn [parse fst snd]. split.
  - intros (w & rest & -> & Hl & Ha). inversion Hl as [| |? l ? w' Hf Hw]; subst. exists l, (w' ++ rest). rewrite (assoc_L (++)). split_and!; [done|done|]. by exists w', rest.
  - intros (l & suf & -> & Hf & w & rest & -> & Hl & Ha). exists (l ++ w), rest. rewrite (assoc_L (++)). split_and!; [done|by constructor|done].
Qed.

Lemma one_case c re1 text : (forall re2, re1 <> 42 :: re2) -> (c = 36 -> re1 <> []) ->
  matches_here (c :: re1) text <-> exists ch suf, text = ch :: suf /\ stands_for c ch /\ matches_here re1 suf.
Proof.
  intros Hns Hnd. unfold matches_here.
  assert (Hp : parse (c :: re1) = (One c :: fst (parse re1), snd (parse re1))).
  { cbn [parse]. destruct re1 as [|d re2]; [|destruct (decide (d = 42)) as [->|Hd]; [by destruct (Hns re2)|]].
    - destruct (Z.eqb_spec c 36); [by destruct Hnd|done].
    - destruct d as [|d|d]; try done. do 6 (destruct d as [d|d|]; try done). }
  rewrite Hp. cbn [fst snd]. split.
  - intros (w & rest & -> & Hl & Ha). inversion Hl as [|? ch ? w' Hs Hw|]; subst. exists ch, (w' ++ rest). split_and!; [done|done|]. by exists w', rest.
  - intros (ch & suf & -> & Hs & w & rest & -> & Hl & Ha). exists (ch :: w), rest. split_and!; [done|by constructor|done].
Qed.

(** The loop of [matchstar] on its own. *)
Fixpoint matchstar (c : Z) (re text : list Z) : bool :=
  matchhere re text ||
  match text with
  | [] => false
  | ch :: text => ((ch =? c) || (c =? 46)) && matchstar c re text
  end.

Lemma matchstar_spec c re text : matchstar c re text = true <-> exists l suf, text = l ++ suf /\ Forall (stands_for c) l /\ matchhere re suf = true.
Proof.
  induction text as [|ch text IH]; cbn [matchstar]; rewrite orb_true_iff.
  - split; [intros [H|H]; [by exists [], []|done]|]. intros (l & suf & Hl & _ & H). symmetry in Hl. apply app_nil in Hl as [-> ->]. by left.
  - rewrite andb_true_iff, IH, (Z.eqb_sym ch c), orb_comm, stands_for_dec. split.
    + intros [H|(Hs & l & suf & -> & Hf & H)]; [by exists [], (ch :: text)|]. exists (ch :: l), suf. split_and!; [done|by constructor|done].
    + intros (l & suf & Hl & Hf & H). destruct l as [|x l]; [cbn in Hl; subst suf; by left|]. injection Hl as -> ->. apply Forall_cons in Hf as [Hs Hf].
      right. split; [done|]. by exists l, suf.
Qed.

Lemma matchhere_star c re2 text : matchhere (c :: 42 :: re2) text = matchstar c re2 text.
Proof. induction text as [|ch text IH]; [done|]. cbn [matchstar]. rewrite <- IH. done. Qed.

Lemma matchhere_one c re1 text : (forall re2, re1 <> 42 :: re2) -> matchhere (c :: re1) text =
  if (c =? 36) && match re1 with [] => true | _ => false end then match text with [] => true | _ => false end else
  match text with [] => false | ch :: text => ((c =? 46) || (c =? ch)) && matchhere re1 text end.
Proof.
  intros Hns. destruct re1 as [|d re2]; [by destruct text|]. destruct (decide (d = 42)) as [->|Hd]; [by destruct (Hns re2)|].
  cbn [matchhere]. destruct d as [|d|d]; try done. do 6 (destruct d as [d|d|]; try done).
Qed.

Lemma starred (re1 : list Z) : (exists re2, re1 = 42 :: re2) \/ (forall re2, re1 <> 42 :: re2).
Proof. destruct re1 as [|d re2]; [by right|]. destruct (decide (d = 42)) as [->|Hd]; [left; by exists re2|]. right. by intros re3 [= -> _]. Qed.

Lemma matchhere_spec n : forall re text, (length re <= n)%nat -> matchhere re text = true <-> matches_here re text.
Proof.
  induction n as [|n IH]; intros re text Hn.
  { destruct re; [|cbn in Hn; lia]. cbn. split; [|done]. intros _. exists [], text. split_and!; [done|constructor|done]. }
  destruct re as [|c re1]. { cbn. split; [|done]. intros _. exists [], text. split_and!; [done|constructor|done]. }
  cbn [length] in Hn. destruct (starred re1) as [[re2 ->]|Hns'].
  - cbn [length] in Hn. rewrite matchhere_star, matchstar_spec, (star_case re2) by done. do 2 (apply exist_proper; intros ?). by rewrite IH by lia.
  - rewrite matchhere_one by done.
    destruct (decide (c = 36 /\ re1 = [])) as [[-> ->]|Hnd].
    + cbn. destruct text as [|ch text]; split; try done.
      * intros _. exists [], []. split_and!; [done|constructor|done].
      * intros (w & rest & He & Hl & Ha). cbn in Hl, Ha. inversion Hl; subst. by rewrite (Ha eq_refl) in He.
    + rewrite (one_case c re1 text) by (done || (intros -> ->; by apply Hnd)).
      assert ((c =? 36) && match re1 with [] => true | _ => false end = false) as ->.
      { apply andb_false_iff. destruct (Z.eqb_spec c 36); [right|by left]. destruct re1; [by destruct Hnd|done]. }
      destruct text as [|ch text]; [split; [done|by intros (? & ? & ? & _)]|]. rewrite andb_true_iff, stands_for_dec, IH by lia. split.
      * intros [Hs H]. by exists ch, text.
      * intros (ch' & suf & [= -> ->] & H). done.
Qed.

Lemma match_loop_spec re text : match_loop re text = true <-> exists pre suf, text = pre ++ suf /\ matches_here re suf.
Proof.
  induction text as [|ch text IH]; cbn [match_loop]; rewrite orb_true_iff, (matchhere_spec (length re)) by lia.
  - split; [intros [H|H]; [by exists [], []|done]|]. intros (pre & suf & Hl & H). symmetry in Hl. apply app_nil in Hl as [-> ->]. by left.
  - rewrite IH. split.
    + intros [H|(pre & suf & -> & H)]; [by exists [], (ch :: text)|by exists (ch :: pre), suf].
    + intros (pre & suf & Hl & H). destruct pre as [|x pre]; [cbn in Hl; subst suf; by left|]. injection Hl as -> ->. right. by exists pre, suf.
Qed.

(** C36 (equivalence).  The matcher, for every pattern and text, terminates and answers
    whether the text contains a word of the pattern's language: anchored by [^] at its
    beginning and by [$] at its end, with dots for any character and stars for any
    number of repetitions. *)
Theorem match_decides re text : match_re re text = true <-> matches re text.
Proof.
  unfold match_re, matches. destruct re as [|c re]; [apply match_loop_spec|]. destruct (decide (c = 94)) as [->|Hc]; [by apply (matchhere_spec (length re))|].
  destruct c as [|c|c]; try apply match_loop_spec. do 7 (destruct c as [c|c|]; try apply match_loop_spec). done.
Qed.

(** ** The lines of the input *)

(** [strchr(p, '\n')]: the line before the newline and what follows it. *)
Fixpoint next_line (p : list Z) : option (list Z * list Z) :=
  match p with
  | [] => None
  | c :: p => if c =? 0 then None else if c =? 10 then Some ([], p) else (fun r => (c :: fst r, snd r)) <$> next_line p
  end.

(** The inner loop: what it writes, and [p] at its end.  It takes a turn per newline. *)
Fixpoint grep_lines (fuel : nat) (pattern p : list Z) : list Z * list Z :=
  match fuel with
  | O => ([], p)
  | S fuel =>
      match next_line p with
      | None => ([], p)
      | Some (line, p) =>
          let r := grep_lines fuel pattern p in
          ((if match_re pattern line then line ++ [10] else []) ++ fst r, snd r)
      end
  end.

(** [grep] with the first [m] bytes of [buf] in [kept], on the bytes the calls of [read]
    return; [None] if a call returns more than it was asked for. *)
Fixpoint grep (pattern kept : list Z) (reads : list (list Z)) : option (list Z) :=
  match reads with
  | [] | [] :: _ => Some []
  | chunk :: reads =>
      let data := kept ++ chunk in
      if (1023 <? length data)%nat then None else
      let r := grep_lines (length data) pattern data in
      let kept := if (length (snd r) =? length data)%nat then [] else snd r in
      (fun out => fst r ++ out) <$> grep pattern kept reads
  end.

(** The lines of a text, and those that match. *)
Fixpoint lines_in (l cur : list Z) : list (list Z) :=
  match l with
  | [] => []
  | c :: l => if c =? 10 then cur :: lines_in l [] else lines_in l (cur ++ [c])
  end.
Definition selected (pattern l : list Z) : list Z :=
  concat ((fun line => if match_re pattern line then line ++ [10] else []) <$> lines_in l []).

Lemma lines_in_app l1 l2 cur : 10 ∉ l1 -> lines_in (l1 ++ l2) cur = lines_in l2 (cur ++ l1).
Proof.
  revert cur. induction l1 as [|c l1 IH]; intros cur Hn; [by rewrite app_nil_r|]. apply not_elem_of_cons in Hn as [Hc Hn]. cbn [lines_in app].
  rewrite (proj2 (Z.eqb_neq c 10)) by done. rewrite IH by done. by rewrite <- (assoc_L (++)).
Qed.

Lemma next_line_spec p : 0 ∉ p ->
  match next_line p with
  | Some (line, rest) => p = line ++ 10 :: rest /\ 10 ∉ line
  | None => 10 ∉ p
  end.
Proof.
  induction p as [|c p IH]; intros H0; cbn [next_line]; [apply not_elem_of_nil|]. apply not_elem_of_cons in H0 as [Hc H0]. rewrite (proj2 (Z.eqb_neq c 0)) by done.
  destruct (Z.eqb_spec c 10) as [->|Hn]; [split; [done|apply not_elem_of_nil]|]. specialize (IH H0). destruct (next_line p) as [[line rest]|]; cbn.
  - destruct IH as [-> H]. split; [done|]. by apply not_elem_of_cons.
  - by apply not_elem_of_cons.
Qed.

(** Lines are cut off in order; what is left has no newline. *)
Lemma grep_lines_spec pattern fuel : forall p, 0 ∉ p -> (length p <= fuel)%nat ->
  exists done_, p = done_ ++ snd (grep_lines fuel pattern p) /\ 10 ∉ snd (grep_lines fuel pattern p) /\ (10 ∈ p -> done_ <> []) /\
    forall l, selected pattern (p ++ l) = fst (grep_lines fuel pattern p) ++ selected pattern (snd (grep_lines fuel pattern p) ++ l).
Proof.
  induction fuel as [|fuel IH]; intros p H0 Hf.
  { destruct p; [|cbn in Hf; lia]. exists []. split_and!; [done|apply not_elem_of_nil|by intros ?%not_elem_of_nil|done]. }
  cbn [grep_lines]. pose proof (next_line_spec p H0) as Hs. destruct (next_line p) as [[line rest]|]; [|exists []; by split_and!].
  destruct Hs as [-> Hl]. rewrite length_app in Hf. cbn [length] in Hf. assert (H0r : 0 ∉ rest) by set_solver. destruct (IH rest H0r ltac:(lia)) as (d & E & Hn & _ & Hsel).
  cbn [fst snd]. exists (line ++ 10 :: d). split_and!.
  - rewrite <- (assoc_L (++)). cbn. by rewrite <- E.
  - done.
  - intros _. by destruct line.
  - intros l. rewrite <- !(assoc_L (++)). cbn [app]. rewrite <- Hsel. unfold selected at 1. rewrite lines_in_app by done. done.
Qed.

Lemma grep_selects_from pattern reads : forall kept out, 0 ∉ kept -> 10 ∉ kept -> Forall (fun chunk => 10 ∈ chunk /\ 0 ∉ chunk) reads ->
  grep pattern kept reads = Some out -> out = selected pattern (kept ++ concat reads).
Proof.
  induction reads as [|chunk reads IH]; intros kept out Hk0 Hkn Hf Hg.
  - cbn in Hg. injection Hg as <-. cbn. rewrite app_nil_r. unfold selected. rewrite <- (app_nil_r kept), lines_in_app by done. done.
  - apply Forall_cons in Hf as [[Hc10 Hc0] Hf]. destruct chunk as [|x chunk]; [by apply not_elem_of_nil in Hc10|]. cbn [grep] in Hg. set (data := kept ++ x :: chunk) in *.
    destruct (1023 <? length data)%nat; [done|]. assert (Hd0 : 0 ∉ data) by (by apply not_elem_of_app). assert (Hd10 : 10 ∈ data) by (apply elem_of_app; by right).
    destruct (grep_lines_spec pattern (length data) data Hd0 ltac:(lia)) as (d & E & Hn & Hne & Hsel). set (r := grep_lines (length data) pattern data) in *.
    assert ((length (snd r) =? length data)%nat = false) as Hlen.
    { apply Nat.eqb_neq. rewrite E, length_app. specialize (Hne Hd10). destruct d; [done|]. cbn. lia. }
    rewrite Hlen in Hg. destruct (grep pattern (snd r) reads) as [o|] eqn:Eg; [|done]. cbn in Hg. injection Hg as <-.
    apply IH in Eg; [|intros Hin; apply Hd0; rewrite E; apply elem_of_app; by right|done|done]. cbn [concat]. rewrite (assoc_L (++)). fold data. by rewrite Hsel, Eg.
Qed.

(** [grep] writes the lines that match, in order, each with its newline,
    wherever the calls of [read] cut the input, as long as every piece has the end of a
    line in it. *)
Theorem grep_selects pattern reads out :
  Forall (fun chunk => 10 ∈ chunk /\ 0 ∉ chunk) reads -> grep pattern [] reads = Some out -> out = selected pattern (concat reads).
Proof. intros Hf Hg. apply (grep_selects_from pattern reads [] out); [apply not_elem_of_nil|apply not_elem_of_nil|done|done]. Qed.

(** A piece without the end of a line is dropped, although the buffer has room for it: the
    line "hello" that comes in two pieces is not found by the pattern "h". *)
Theorem grep_drops_piece : grep [104] [] [[104; 101; 108]; [108; 111; 10]] = Some [] /\ selected [104] [104; 101; 108; 108; 111; 10] = [104; 101; 108; 108; 111; 10].
Proof. done. Qed.

Lemma grep_selects_witness : grep [94; 97; 42; 36] [] [[97; 97; 10; 98]; [97; 10; 10]] = Some [97; 97; 10; 10] /\
  [97; 97; 10; 10] = selected [94; 97; 42; 36] [97; 97; 10; 98; 97; 10; 10].
Proof.
  split; [reflexivity|]. apply (grep_selects [94; 97; 42; 36] [[97; 97; 10; 98]; [97; 10; 10]] [97; 97; 10; 10]).
  - repeat constructor; set_solver.
  - reflexivity.
Defined.
