(* ===== verification/Tools.v ===== *)
(** * cat, wc, ls, echo and init

    Models [cat.c], [wc.c], [ls.c], [echo.c] and [init.c].  The system calls are parameters of the
    programs: what the coming calls of [read] and [write] return, what [open], [fstat] and
    [stat] say of a path.  The output is what is written to a descriptor, in order; a program
    that calls [exit] is marked.  A string is the list of its characters before the NUL. *)

From Stdlib Require Import ZArith Lia.
From S2P Require Import Prelude Console Printf Grep.

Module Tools.

(** What a call of [read] gives; the call after the last one gives 0. *)
Inductive rd := Data (bs : list Z) | Err.

(** The output so far, descriptor and bytes, and whether the program has exited. *)
Record ust := mku { outs : list (Z * list Z); exited : bool }.
Definition emit (fd : Z) (bs : list Z) (s : ust) : ust := mku (outs s ++ [(fd, bs)]) (exited s).
Definition exit : M ust unit := modify (fun s => mku (outs s) true).
Definition line (s : string) : list Z := chars s ++ [10].
Definition say (fd : Z) (fmt : list Z) (args : list carg) : M ust unit :=
  match printf fmt args with Some bs => modify (emit fd bs) | None => ub "printf" end.

(** ** [wc.c] *)

(** [strchr(" \r\t\n\v", c) != 0] *)
Definition is_space (c : Z) : bool := existsb (Z.eqb c) [32; 13; 9; 10; 11].

Record counts := mkcounts { l : Z; w : Z; c : Z; inword : bool }.

(** The body of the [for]. *)
Definition wc_char (k : counts) (ch : Z) : counts :=
  let l' := if ch =? 10 then l k + 1 else l k in
  if is_space ch then mkcounts l' (w k) (c k + 1) false
  else if negb (inword k) then mkcounts l' (w k + 1) (c k + 1) true
  else mkcounts l' (w k) (c k + 1) (inword k).

(** The [while]; the result tells if [n] was negative at its end. *)
Fixpoint wc_loop (rds : list rd) (k : counts) : counts * bool :=
  match rds with
  | [] => (k, false)
  | Err :: _ => (k, true)
  | Data bs :: rds => if (length bs =? 0)%nat then (k, false) else wc_loop rds (foldl wc_char k bs)
  end.

Definition wc (rds : list rd) (name : list Z) : M ust unit :=
  let r := wc_loop rds (mkcounts 0 0 0 false) in
  if snd r then say 1 (line "wc: read error") [] ;; exit
  else say 1 (line "%d %d %d %s") [AInt (l (fst r)); AInt (w (fst r)); AInt (c (fst r)); AStr (Some name)].

(** The [for] of [main]; [open] gives the reads of a file. *)
Fixpoint wc_files (open : list Z -> option (list rd)) (args : list (list Z)) : M ust unit :=
  match args with
  | [] => exit
  | a :: args =>
      match open a with
      | None => say 1 (line "wc: cannot open %s") [AStr (Some a)] ;; exit
      | Some rds => wc rds a ;; e <- gets exited ;; if e then ret tt else wc_files open args
      end
  end.

Definition wc_main (open : list Z -> option (list rd)) (stdin : list rd) (args : list (list Z)) : M ust unit :=
  match args with
  | [] => wc stdin [] ;; exit
  | _ => wc_files open args
  end.

(** ** [cat.c] *)

(** The [while], with the results of the calls of [write]. *)
Fixpoint cat_loop (rds : list rd) (wrs : list Z) : M ust unit :=
  match rds with
  | [] => ret tt
  | Err :: _ => say 1 (line "cat: read error") [] ;; exit
  | Data bs :: rds =>
      if (length bs =? 0)%nat then ret tt else
      match wrs with
      | [] => ub "no result of write"
      | r :: wrs =>
          modify (emit 1 (take (Z.to_nat r) bs)) ;;
          if negb (r =? Z.of_nat (length bs)) then say 1 (line "cat: write error") [] ;; exit
          else cat_loop rds wrs
      end
  end.

(** The [for] of [main]; [open] gives the reads of a file and the results of the writes. *)
Fixpoint cat_files (open : list Z -> option (list rd * list Z)) (args : list (list Z)) : M ust unit :=
  match args with
  | [] => exit
  | a :: args =>
      match open a with
      | None => say 1 (line "cat: cannot open %s") [AStr (Some a)] ;; exit
      | Some (rds, wrs) => cat_loop rds wrs ;; e <- gets exited ;; if e then ret tt else cat_files open args
      end
  end.

Definition cat_main (open : list Z -> option (list rd * list Z)) (stdin : list rd * list Z) (args : list (list Z)) : M ust unit :=
  match args with
  | [] => cat_loop (fst stdin) (snd stdin) ;; exit
  | _ => cat_files open args
  end.

(** ** [echo.c] *)

Fixpoint echo_loop (args : list (list Z)) : M ust unit :=
  match args with
  | [] => exit
  | a :: args => say 1 (chars "%s%s") [AStr (Some a); AStr (Some (match args with [] => [10] | _ => [32] end))] ;; echo_loop args
  end.

(** ** [ls.c] *)

Definition DIRSIZ : nat := 14.
Definition T_DIR : Z := 1.
Definition T_FILE : Z := 2.

(** The loop that looks for the last slash, from the character [k]; the result is the index after it. *)
Fixpoint after_slash (path : list Z) (k : nat) : nat :=
  match k with
  | O => if default 0 (path !! 0%nat) =? 47 then 1%nat else 0%nat
  | S k' => if default 0 (path !! k) =? 47 then S k else after_slash path k'
  end.

(** The bytes before the NUL of what [fmtname] returns. *)
Definition fmtname (path : list Z) : list Z :=
  let p := drop (after_slash path (length path)) path in
  if (DIRSIZ <=? length p)%nat then p else p ++ replicate (DIRSIZ - length p) 32.

(** [st.type], [st.ino], [st.size] *)
Record lstat := mklstat { st_type : Z; st_ino : Z; st_size : Z }.

Definition say_stat (path : list Z) (st : lstat) : M ust unit :=
  say 1 (line "%s %d %d %d") [AStr (Some (fmtname path)); AInt (st_type st); AInt (st_ino st); AInt (st_size st)].

(** The characters before the first NUL. *)
Fixpoint cstr (bs : list Z) : list Z := match bs with [] => [] | c :: bs => if c =? 0 then [] else c :: cstr bs end.

Section Ls.
(** Whether a path opens, what [fstat] gives for it, the entries its reads give, and [stat]. *)
Context (opens : list Z -> bool) (fstat : list Z -> option lstat) (dirents : list Z -> list (Z * list Z)) (stat : list Z -> option lstat).

Fixpoint ls_loop (path : list Z) (des : list (Z * list Z)) : M ust unit :=
  match des with
  | [] => ret tt
  | (inum, name) :: des =>
      (if inum =? 0 then ret tt else
       let buf := path ++ [47] ++ cstr (take DIRSIZ name) in
       match stat buf with
       | None => say 1 (line "ls: cannot stat %s") [AStr (Some buf)]
       | Some st => say_stat buf st
       end) ;;
      ls_loop path des
  end.

Definition ls (path : list Z) : M ust unit :=
  if negb (opens path) then say 2 (line "ls: cannot open %s") [AStr (Some path)] else
  match fstat path with
  | None => say 2 (line "ls: cannot stat %s") [AStr (Some path)]
  | Some st =>
      if st_type st =? T_FILE then say_stat path st
      else if st_type st =? T_DIR then
        if (512 <? length path + 1 + DIRSIZ + 1)%nat then say 1 (line "ls: path too long") []
        else ls_loop path (dirents path)
      else ret tt
  end.

(** The [for] of [main]. *)
Fixpoint ls_args (args : list (list Z)) : M ust unit :=
  match args with
  | [] => exit
  | a :: args => ls a ;; ls_args args
  end.
Definition ls_main (args : list (list Z)) : M ust unit := match args with [] => ls [46] ;; exit | _ => ls_args args end.
End Ls.

(** ** [ulib.c]: [stat] *)

(** [open] gives a descriptor, [fstat] what it refers to; the descriptors that stay open. *)
Definition ustat (open : list Z -> option nat) (fstat : nat -> option lstat) (n : list Z) (fds : list nat) : option lstat * list nat :=
  match open n with
  | None => (None, fds)
  | Some fd => (fstat fd, filter (fun k => k <> fd) (fd :: fds))
  end.

(** ** [grep.c]: [main] *)

Definition grep_fd (pattern : list Z) (reads : list (list Z)) : M ust unit :=
  match grep pattern [] reads with Some bs => modify (emit 1 bs) | None => ub "read into a full buffer" end.

Fixpoint grep_files (pattern : list Z) (open : list Z -> option (list (list Z))) (args : list (list Z)) : M ust unit :=
  match args with
  | [] => exit
  | a :: args =>
      match open a with
      | None => say 1 (line "grep: cannot open %s") [AStr (Some a)] ;; exit
      | Some reads => grep_fd pattern reads ;; grep_files pattern open args
      end
  end.

Definition grep_main (open : list Z -> option (list (list Z))) (stdin : list (list Z)) (args : list (list Z)) : M ust unit :=
  match args with
  | [] => say 2 (line "usage: grep pattern [file ...]") [] ;; exit
  | [pattern] => grep_fd pattern stdin ;; exit
  | pattern :: files => grep_files pattern open files
  end.

(** ** [init.c] *)

(** The [while] that waits for the shell [pid], with the results of [wait]; the results left. *)
Fixpoint reap (pid : Z) (waits : list Z) : M ust (list Z) :=
  match waits with
  | [] => ub "no result of wait"
  | wpid :: waits => if (0 <=? wpid) && negb (wpid =? pid) then say 1 (line "zombie!") [] ;; reap pid waits else ret waits
  end.

(** The [for] of [init] in the parent, for the given results of [fork]. *)
Fixpoint init_loop (forks waits : list Z) : M ust unit :=
  match forks with
  | [] => ret tt
  | pid :: forks =>
      say 1 (line "init: starting sh") [] ;;
      if pid <? 0 then say 1 (line "init: fork failed") [] ;; exit
      else waits <- reap pid waits ;; init_loop forks waits
  end.

(** ** wc *)

Definition text (bss : list (list Z)) : list rd := Data <$> bss.

(** A word starts at a character that is not a space and has none before it that is not one. *)
Definition starts_word (t : list Z) (i : nat) : bool :=
  match t !! i with
  | Some ch => negb (is_space ch) && match i with O => true | S j => default true (is_space <$> t !! j) end
  | None => false
  end.
Definition newlines (t : list Z) : Z := Z.of_nat (length (filter (fun ch => ch = 10) t)).
Definition words (t : list Z) : Z := Z.of_nat (length (filter (fun i => starts_word t i = true) (seq 0 (length t)))).

Lemma wc_loop_text bss k : Forall (fun bs => bs <> []) bss -> wc_loop (text bss) k = (foldl wc_char k (concat bss), false).
Proof.
  intros H. revert k. induction H as [|bs bss Hb H IH]; intros k; [done|]. cbn. rewrite foldl_app, <- IH.
  destruct bs; [done|]. done.
Qed.

Lemma starts_word_app t ch i : (i < length t)%nat -> starts_word (t ++ [ch]) i = starts_word t i.
Proof.
  intros Hi. unfold starts_word. rewrite lookup_app_l by done. destruct (t !! i); [|done].
  destruct i; [done|]. by rewrite lookup_app_l by lia.
Qed.

Lemma filter_bool_same {A} (f g : A -> bool) (xs : list A) : (forall x, x ∈ xs -> f x = g x) -> filter (fun x => f x = true) xs = filter (fun x => g x = true) xs.
Proof.
  induction xs as [|x xs IH]; intros H; [done|]. rewrite !filter_cons, <- (H x) by left. rewrite IH; [done|].
  intros y Hy. apply H. by right.
Qed.

Lemma words_app t ch : words (t ++ [ch]) = words t + (if starts_word (t ++ [ch]) (length t) then 1 else 0).
Proof.
  unfold words. rewrite length_app. cbn [length]. rewrite seq_app, filter_app, length_app, Nat.add_0_l.
  rewrite Nat2Z.inj_add. f_equal.
  - do 2 f_equal. apply filter_bool_same. intros i [_ Hi]%elem_of_seq. by rewrite starts_word_app by lia.
  - cbn [seq]. rewrite filter_cons. by destruct (starts_word _ _).
Qed.

Lemma wc_counts t : foldl wc_char (mkcounts 0 0 0 false) t =
  mkcounts (newlines t) (words t) (Z.of_nat (length t)) (match last t with Some ch => negb (is_space ch) | None => false end).
Proof.
  induction t as [|ch t IH] using rev_ind; [done|]. rewrite foldl_app, IH, words_app, last_snoc. cbn [foldl].
  assert (Hn : newlines (t ++ [ch]) = if ch =? 10 then newlines t + 1 else newlines t).
  { unfold newlines. rewrite filter_app, length_app, filter_cons. destruct (Z.eqb_spec ch 10); destruct (decide _); cbn; lia. }
  assert (Hs : starts_word (t ++ [ch]) (length t) = negb (is_space ch) && match last t with Some ch => is_space ch | None => true end).
  { unfold starts_word. rewrite lookup_app_r, Nat.sub_diag by lia. cbn [lookup list_lookup]. f_equal.
    rewrite last_lookup. destruct t as [|x t]; [done|]. cbn [length pred]. rewrite lookup_app_l by (cbn; lia).
    by destruct ((x :: t) !! length t). }
  rewrite Hs, Hn, length_app. cbn [length]. unfold wc_char. cbn [l w c inword].
  destruct (is_space ch), (last t) as [y|]; try destruct (is_space y); cbn [negb andb]; f_equal; lia.
Qed.

(** Whatever pieces [read] cuts a file into, [wc] prints the number of its
    newlines, of the positions where a word starts, and of its characters. *)
Theorem wc_prints bss name s :
  Forall (fun bs => bs <> []) bss ->
  let t := concat bss in
  wc (text bss) name s = say 1 (line "%d %d %d %s") [AInt (newlines t); AInt (words t); AInt (Z.of_nat (length t)); AStr (Some name)] s.
Proof. intros H t. unfold wc. by rewrite wc_loop_text, wc_counts by done. Qed.

(** "ab c", a newline and "d", in three pieces. *)
Lemma wc_prints_witness :
  wc (text [[97]; [98; 32; 99; 10]; [100]]) (chars "f") (mku [] false) = Ret tt (mku [(1, line "1 3 6 f")] false).
Proof. rewrite (wc_prints [[97]; [98; 32; 99; 10]; [100]]); [vm_compute; reflexivity|repeat constructor; discriminate]. Defined.

(** ** cat *)

(** [cat] copies a file piece by piece when its writes are not cut short. *)
Theorem cat_copies bss s :
  Forall (fun bs => bs <> []) bss ->
  exists os, cat_loop (text bss) ((fun bs => Z.of_nat (length bs)) <$> bss) s = Ret tt (mku (outs s ++ os) (exited s)) /\
    Forall (fun o => fst o = 1) os /\ concat (snd <$> os) = concat bss.
Proof.
  intros H. revert s. induction H as [|bs bss Hb H IH]; intros s.
  { exists []. rewrite app_nil_r. destruct s. done. }
  destruct (IH (emit 1 bs s)) as (os & H1 & H2 & H3). exists ((1, bs) :: os). split_and!.
  - cbn [text fmap list_fmap cat_loop]. destruct bs as [|b bs]; [done|].
    change (length (b :: bs) =? 0)%nat with false. cbn iota. rewrite bind_modify, Nat2Z.id, firstn_all, Z.eqb_refl. cbn [negb].
    etrans; [exact H1|]. cbn [outs emit exited]. by rewrite <- app_assoc.
  - by constructor.
  - cbn. by rewrite <- H3.
Qed.

(** [cat] of several files writes them one after the other and exits. *)
Theorem cat_concatenates open args (contents : list (list (list Z))) s :
  args <> [] -> exited s = false ->
  Forall2 (fun a bss => Forall (fun bs => bs <> []) bss /\ open a = Some (text bss, (fun bs => Z.of_nat (length bs)) <$> bss)) args contents ->
  exists os, cat_main open ([], []) args s = Ret tt (mku (outs s ++ os) true) /\ Forall (fun o => fst o = 1) os /\
    concat (snd <$> os) = concat (concat contents).
Proof.
  intros Ha He Hf. replace (cat_main open ([], []) args) with (cat_files open args) by (by destruct args). clear Ha. revert s He.
  induction Hf as [|a bss args contents [Hb Ho] Hf IH]; intros s He.
  { exists []. cbn. rewrite app_nil_r. done. }
  destruct (cat_copies bss s Hb) as (os & H1 & H2 & H3). rewrite He in H1.
  destruct (IH (mku (outs s ++ os) false) eq_refl) as (os' & H4 & H5 & H6). exists (os ++ os'). split_and!.
  - cbn [cat_files]. rewrite Ho, (bind_Ret _ _ _ _ _ H1), bind_gets. cbn [exited]. rewrite H4. cbn [outs]. by rewrite app_assoc.
  - by apply Forall_app.
  - rewrite fmap_app, concat_app, H3, H6. cbn [concat]. by rewrite concat_app.
Qed.

(** [stat] leaves no descriptor open. *)
Theorem ustat_closes open fstat n fds fd : open n = Some fd -> fd ∉ fds -> ustat open fstat n fds = (fstat fd, fds).
Proof.
  intros Ho Hn. unfold ustat. rewrite Ho. f_equal. rewrite filter_cons_False by (by intros []). induction fds as [|k fds IH]; [done|].
  rewrite filter_cons_True by (intros ->; apply Hn; left). f_equal. apply IH. intros H. apply Hn. by right.
Qed.

(** ** init *)

Lemma reap_run pid orphans waits s : Forall (fun w => 0 <= w /\ w <> pid) orphans ->
  reap pid (orphans ++ pid :: waits) s = Ret waits (mku (outs s ++ replicate (length orphans) (1, line "zombie!")) (exited s)).
Proof.
  intros H. revert s. induction H as [|x orphans [H0 H1] H IH]; intros s; cbn [app reap].
  { rewrite Z.eqb_refl, andb_false_r. cbn. rewrite app_nil_r. by destruct s. }
  rewrite (proj2 (Z.leb_le 0 x) H0), (proj2 (Z.eqb_neq x pid) H1). cbn [andb negb].
  change (say 1 (line "zombie!") []) with (modify (emit 1 (line "zombie!"))). rewrite bind_modify, IH. cbn [outs emit exited length replicate].
  by rewrite <- app_assoc.
Qed.

(** [init] starts a shell, takes in the orphans that end before it, and starts the next one when it
    ends, for as long as [fork] gives it processes. *)
Theorem init_restarts (shells : list (Z * list Z)) s :
  Forall (fun x => 0 < fst x /\ Forall (fun w => 0 <= w /\ w <> fst x) (snd x)) shells ->
  init_loop (fst <$> shells) (concat ((fun x => snd x ++ [fst x]) <$> shells)) s =
  Ret tt (mku (outs s ++ concat ((fun x => (1, line "init: starting sh") :: replicate (length (snd x)) (1, line "zombie!")) <$> shells)) (exited s)).
Proof.
  intros H. revert s. induction H as [|[pid orphans] shells [H0 H1] H IH]; intros s; [cbn; rewrite app_nil_r; by destruct s|].
  rewrite !fmap_cons. cbn [fst snd concat init_loop] in *. rewrite <- app_assoc. cbn [app].
  change (say 1 (line "init: starting sh") []) with (modify (emit 1 (line "init: starting sh"))). rewrite bind_modify.
  rewrite (proj2 (Z.ltb_ge pid 0)) by lia. rewrite (bind_Ret _ _ _ _ _ (reap_run pid orphans _ _ H1)), IH. cbn [outs emit exited].
  by rewrite <- !app_assoc.
Qed.

(** ** ls *)

Lemma after_slash_name path name : 47 ∉ name ->
  after_slash (path ++ [47] ++ name) (length (path ++ [47] ++ name)) = (length path + 1)%nat.
Proof.
  intros Hn. rewrite !length_app. cbn [length].
  assert (H : forall k, (k <= length name)%nat -> after_slash (path ++ [47] ++ name) (length path + k) = (length path + 1)%nat).
  { induction k as [|k IH]; intros Hk.
    - rewrite Nat.add_0_r. assert (Hl : (path ++ [47] ++ name) !! length path = Some 47) by (rewrite lookup_app_r, Nat.sub_diag by lia; done).
      destruct (length path) as [|p] eqn:Hp; cbn [after_slash]; rewrite Hl; cbn; lia.
    - rewrite Nat.add_succ_r. cbn [after_slash].
      assert (Hl : exists x, (path ++ [47] ++ name) !! S (length path + k) = Some x /\ x <> 47).
      { destruct (lookup_lt_is_Some_2 name k ltac:(lia)) as [x Hx]. exists x. split.
        - rewrite lookup_app_r by lia. replace (S (length path + k) - length path)%nat with (S k) by lia. done.
        - intros ->. by apply Hn, list_elem_of_lookup_2 with k. }
      destruct Hl as (x & Hl & Hx). rewrite Hl. cbn [default id]. rewrite (proj2 (Z.eqb_neq x 47) Hx). apply IH. lia. }
  replace (length path + (1 + length name))%nat with (S (length path + length name)) by lia. cbn [after_slash].
  rewrite lookup_ge_None_2 by (rewrite !length_app; cbn; lia). cbn [default id Z.eqb]. by apply H.
Qed.

Lemma fmtname_name path name : 47 ∉ name -> (length name <= DIRSIZ)%nat ->
  fmtname (path ++ [47] ++ name) = name ++ replicate (DIRSIZ - length name) 32.
Proof.
  intros Hn Hl. unfold fmtname. rewrite after_slash_name by done.
  rewrite (assoc_L (++)), drop_app_length' by (rewrite length_app; done).
  destruct (Nat.leb_spec DIRSIZ (length name)) as [H|H]; [|done].
  replace (DIRSIZ - length name)%nat with 0%nat by lia. by rewrite app_nil_r.
Qed.

Lemma cstr_idem name : Forall (fun ch => ch <> 0) name -> forall rest, cstr (name ++ 0 :: rest) = name /\ cstr name = name.
Proof. intros H rest. induction H as [|ch name Hc H IH]; [done|]. cbn. rewrite (proj2 (Z.eqb_neq ch 0) Hc). by destruct IH as [-> ->]. Qed.

(** The line of a file in a directory. *)
Definition entry_line (name : list Z) (st : lstat) : option (list Z) :=
  printf (line "%s %d %d %d") [AStr (Some (name ++ replicate (DIRSIZ - length name) 32)); AInt (st_type st); AInt (st_ino st); AInt (st_size st)].

Lemma entry_line_some name st : exists bs, entry_line name st = Some bs.
Proof.
  unfold entry_line, printf. change (line "%s %d %d %d") with [37; 115; 32; 37; 100; 32; 37; 100; 32; 37; 100; 10].
  eexists. cbn [printf_loop Z.eqb Pos.eqb orb fmap option_fmap option_map default]. reflexivity.
Qed.

(** A name as a directory holds it. *)
Definition dir_name (name : list Z) : list Z := name ++ replicate (DIRSIZ - length name) 0.

Lemma cstr_dir_name name : Forall (fun ch => ch <> 0) name -> (length name <= DIRSIZ)%nat -> cstr (take DIRSIZ (dir_name name)) = name.
Proof.
  intros H Hl. rewrite take_ge by (unfold dir_name; rewrite length_app, length_replicate; lia). unfold dir_name.
  destruct (DIRSIZ - length name)%nat as [|k]; cbn [replicate]; [rewrite app_nil_r; by apply (cstr_idem name H [])|by apply cstr_idem].
Qed.

(** [ls] of a directory prints a line for each entry in use, in order, with the name of the entry
    padded to fourteen characters and what [stat] says of it. *)
Theorem ls_lists opens fstat dirents stat path st (files : list (Z * list Z * lstat)) s :
  opens path = true -> fstat path = Some st -> st_type st = T_DIR -> (length path + 16 <= 512)%nat ->
  dirents path = (fun '(i, name, _) => (i, dir_name name)) <$> files ->
  Forall (fun '(i, name, x) => i <> 0 -> stat (path ++ [47] ++ name) = Some x) files ->
  Forall (fun '(i, name, _) => Forall (fun ch => ch <> 0) name /\ 47 ∉ name /\ (length name <= DIRSIZ)%nat) files ->
  exists lines, mapM (fun '(_, name, x) => entry_line name x) (filter (fun '(i, _, _) => i <> 0) files) = Some lines /\
    ls opens fstat dirents stat path s = Ret tt (mku (outs s ++ (pair 1 <$> lines)) (exited s)).
Proof.
  intros Ho Hf Ht Hl Hd Hs Hn. unfold ls. rewrite Ho, Hf, Ht, Hd. cbn [negb Z.eqb Pos.eqb T_DIR T_FILE].
  destruct (Nat.ltb_spec 512 (length path + 1 + DIRSIZ + 1)) as [H|_]; [unfold DIRSIZ in H; lia|]. clear Hd.
  revert s. induction files as [|[[i name] x] files IH]; intros s.
  { exists []. split; [done|]. cbn. rewrite app_nil_r. by destruct s. }
  apply Forall_cons in Hs as [Hs Hss]. apply Forall_cons in Hn as [(Hz & Hsl & Hle) Hns].
  cbn [fmap list_fmap ls_loop]. rewrite cstr_dir_name by done. rewrite filter_cons.
  destruct (Z.eqb_spec i 0) as [->|Hi].
  - destruct (decide _) as [[]|_]; [done|]. apply IH; done.
  - destruct (decide _) as [_|[]]; [|done]. rewrite Hs by done. unfold say_stat. rewrite fmtname_name by done.
    unfold say. match goal with |- context [printf ?f ?a] => change (printf f a) with (entry_line name x) end.
    destruct (entry_line_some name x) as [b Hb]. rewrite Hb.
    destruct (IH Hss Hns (emit 1 b s)) as (lines & H1 & H2). exists (b :: lines). split.
    + apply mapM_Some. constructor; [exact Hb|by apply mapM_Some].
    + rewrite bind_modify. etrans; [exact H2|]. cbn [outs emit exited fmap list_fmap]. by rewrite <- app_assoc.
Qed.
End Tools.
