(* ===== verification/Umalloc.v ===== *)
(** * The user-space allocator

    Models [umalloc.c]: a ring of free blocks ordered by address, with [base] as its lowest
    element.  A block is a header of 8 bytes and what follows it; its size counts headers.
    The memory is the contents of the headers. *)

From Stdlib Require Import ZArith Lia.
From S2P Require Import Prelude.

(** [s.ptr] and [s.size] of the headers, [freep] (0 for null), and the end of the process
    memory. *)
Record heap := mkheap { hdr : gmap Z (Z * Z); freep : Z; brk : Z }.
Definition set_hdr (m : gmap Z (Z * Z)) (s : heap) : heap := mkheap m (freep s) (brk s).
Definition set_freep (p : Z) (s : heap) : heap := mkheap (hdr s) p (brk s).
Definition set_brk (b : Z) (s : heap) : heap := mkheap (hdr s) (freep s) b.

Section Umalloc.
(** The address of [base]; whether the kernel grants a call of [sbrk]. *)
Context (base : Z) (grants : Z -> Z -> bool).
Implicit Types s : heap.

Definition hget (p : Z) : M heap (Z * Z) := fun s => match hdr s !! p with Some h => Ret h s | None => UB "header" end.
Definition hput (p ptr size : Z) : M heap unit := modify (fun s => set_hdr (<[p := (ptr, size)]> (hdr s)) s).

(** [sbrk]: the old end of the memory, or -1. *)
Definition sbrk (n : Z) : M heap Z := fun s => if grants (brk s) n then Ret (brk s) (set_brk (brk s + n) s) else Ret (-1) s.

(** The [for] loop of [free]. *)
Fixpoint free_seek (fuel : nat) (bp p : Z) : M heap Z :=
  match fuel with
  | O => nofuel
  | S fuel =>
      h <- hget p ;;
      if (p <? bp) && (bp <? fst h) then ret p else
      if (fst h <=? p) && ((p <? bp) || (bp <? fst h)) then ret p else
      free_seek fuel bp (fst h)
  end.

Definition free (fuel : nat) (ap : Z) : M heap unit :=
  let bp := ap - 8 in
  p0 <- gets freep ;;
  p <- free_seek fuel bp p0 ;;
  h <- hget p ;;
  b <- hget bp ;;
  (if bp + 8 * snd b =? fst h then
     n <- hget (fst h) ;;
     hput bp (fst n) (u32 (snd b + snd n))
   else hput bp (fst h) (snd b)) ;;
  h <- hget p ;;
  b <- hget bp ;;
  (if p + 8 * snd h =? bp then hput p (fst b) (u32 (snd h + snd b)) else hput p bp (snd h)) ;;
  modify (set_freep p).

Definition morecore (fuel : nat) (nu : Z) : M heap Z :=
  let nu := if nu <? 4096 then 4096 else nu in
  p <- sbrk (s32 (nu * 8)) ;;
  if p =? -1 then ret 0 else
  modify (fun s => set_hdr (<[p := (match hdr s !! p with Some h => fst h | None => 0 end, nu)]> (hdr s)) s) ;;
  free fuel (p + 8) ;;
  gets freep.

Definition units (nbytes : Z) : Z := u32 (u32 (nbytes + 8 - 1) / 8 + 1).

Fixpoint malloc_loop (fuel : nat) (nunits prevp p : Z) : M heap Z :=
  match fuel with
  | O => nofuel
  | S fuel =>
      h <- hget p ;;
      if nunits <=? snd h then
        q <- (if snd h =? nunits then
                v <- hget prevp ;;
                hput prevp (fst h) (snd v) ;;
                ret p
              else
                hput p (fst h) (snd h - nunits) ;;
                let q := p + 8 * (snd h - nunits) in
                modify (fun s => set_hdr (<[q := (match hdr s !! q with Some h => fst h | None => 0 end, nunits)]> (hdr s)) s) ;;
                ret q) ;;
        modify (set_freep prevp) ;;
        ret (q + 8)
      else
        f <- gets freep ;;
        if p =? f then
          r <- morecore fuel nunits ;;
          if r =? 0 then ret 0 else
          h <- hget r ;;
          malloc_loop fuel nunits r (fst h)
        else malloc_loop fuel nunits p (fst h)
  end.

Definition malloc (fuel : nat) (nbytes : Z) : M heap Z :=
  let nunits := units nbytes in
  f <- gets freep ;;
  prevp <- (if f =? 0 then hput base base 0 ;; modify (set_freep base) ;; ret base else ret f) ;;
  h <- hget prevp ;;
  malloc_loop fuel nunits prevp (fst h).

(** ** The ring *)

(** The first address of a list of blocks, or where it leads. *)
Definition hda (l : list (Z * Z)) (d : Z) : Z := match l with [] => d | b :: _ => fst b end.
(** The headers of the blocks of [l], the last pointing to [d]. *)
Fixpoint seg (m : gmap Z (Z * Z)) (l : list (Z * Z)) (d : Z) : Prop :=
  match l with
  | [] => True
  | b :: l => m !! fst b = Some (hda l d, snd b) /\ seg m l d
  end.
(** The end of the last block, and blocks in ascending order above [lo], no two of them
    adjacent. *)
Fixpoint top (lo : Z) (l : list (Z * Z)) : Z :=
  match l with
  | [] => lo
  | b :: l => top (fst b + 8 * snd b) l
  end.
Fixpoint asc (lo : Z) (l : list (Z * Z)) : Prop :=
  match l with
  | [] => True
  | b :: l => lo < fst b /\ 0 <= snd b /\ asc (fst b + 8 * snd b) l
  end.

Record ring s (l : list (Z * Z)) : Prop := {
  rg_seg : seg (hdr s) l base;
  rg_asc : asc (base - 1) l;
  rg_top : top (base - 1) l <= brk s;
  rg_head : exists t, l = (base, 0) :: t /\ Forall (fun b => 0 < snd b) t;
  rg_free : freep s ∈ l.*1;
  rg_base : 0 < base;
  rg_brk : base < brk s <= 2 ^ 31
}.

(** [x] is in a free block. *)
Definition covers (l : list (Z * Z)) (x : Z) : Prop := exists b, b ∈ l /\ fst b <= x < fst b + 8 * snd b.

Lemma hda_app l1 l2 d : hda (l1 ++ l2) d = hda l1 (hda l2 d).
Proof. by destruct l1. Qed.

Lemma seg_split m l1 l2 d : seg m (l1 ++ l2) d <-> seg m l1 (hda l2 d) /\ seg m l2 d.
Proof. induction l1 as [|b l1 IH]; cbn [seg app]; [tauto|]. rewrite IH, hda_app. tauto. Qed.

Lemma seg_insert m l d a v : a ∉ l.*1 -> seg (<[a := v]> m) l d <-> seg m l d.
Proof.
  induction l as [|b l IH]; cbn [seg fmap list_fmap]; [done|]. intros [Hne Hn]%not_elem_of_cons. rewrite lookup_insert_ne by done. by rewrite IH.
Qed.

Lemma asc_app lo l1 l2 : asc lo (l1 ++ l2) <-> asc lo l1 /\ asc (top lo l1) l2.
Proof. revert lo. induction l1 as [|b l1 IH]; intros lo; cbn [asc app top]; [tauto|]. rewrite IH. tauto. Qed.

Lemma top_app lo l1 l2 : top lo (l1 ++ l2) = top (top lo l1) l2.
Proof. revert lo. induction l1 as [|b l1 IH]; intros lo; cbn [top app]; [done|]. apply IH. Qed.

Lemma asc_top lo l : asc lo l -> lo <= top lo l.
Proof. revert lo. induction l as [|b l IH]; intros lo; cbn [asc top]; [lia|]. intros (H1 & H2 & H3). apply IH in H3. lia. Qed.

Lemma asc_mono lo lo' l : asc lo l -> lo' <= lo -> asc lo' l.
Proof. destruct l; cbn [asc]; intros; [done|]. intuition lia. Qed.

Lemma asc_in lo l b : asc lo l -> b ∈ l -> lo < fst b /\ 0 <= snd b /\ fst b + 8 * snd b <= top lo l.
Proof.
  revert lo. induction l as [|x l IH]; intros lo H Hb; [by apply not_elem_of_nil in Hb|]. destruct H as (H1 & H2 & H3). cbn [top].
  apply elem_of_cons in Hb as [->|Hb]; [pose proof (asc_top _ _ H3); split_and!; lia|]. destruct (IH _ H3 Hb) as (A & B & C). split_and!; lia.
Qed.

Lemma asc_addr lo l a : asc lo l -> a ∈ l.*1 -> lo < a /\ a <= top lo l.
Proof. intros H ([x y] & -> & Hb)%list_elem_of_fmap. destruct (asc_in _ _ _ H Hb) as (A & B & C). cbn in *. lia. Qed.

(** The addresses before, at and behind a block of an ascending list. *)
Lemma asc_split lo l1 p sp l2 : asc lo (l1 ++ (p, sp) :: l2) ->
  (forall a, a ∈ l1.*1 -> a < p) /\ 0 <= sp /\ (forall a, a ∈ l2.*1 -> p + 8 * sp < a) /\ asc lo l1 /\ top lo l1 < p /\ asc (p + 8 * sp) l2.
Proof.
  intros [H1 (H2 & H3 & H4)]%asc_app. cbn [fst snd] in *. split_and!; try done.
  - intros a Ha. destruct (asc_addr _ _ _ H1 Ha). lia.
  - intros a Ha. destruct (asc_addr _ _ _ H4 Ha). lia.
Qed.

(** ** [free] *)

Lemma hget_run p h s : hdr s !! p = Some h -> hget p s = Ret h s.
Proof. intros H. unfold hget. by rewrite H. Qed.

Lemma hda_in l d : l <> [] -> hda l d ∈ l.*1.
Proof. destruct l; [done|]. intros _. left. Qed.

Lemma seek_forward s bp p sp l2 l1 : forall lo fuel, asc lo (l1 ++ (p, sp) :: l2) -> seg (hdr s) (l1 ++ (p, sp) :: l2) base -> p < bp -> (forall a, a ∈ l2.*1 -> bp < a) -> base <= p ->
  (length l1 < fuel)%nat -> free_seek fuel bp (hda (l1 ++ (p, sp) :: l2) base) s = Ret p s.
Proof.
  induction l1 as [|[a sa] l1 IH]; intros lo fuel Hasc Hseg Hp Hl2 Hb Hf; (destruct fuel as [|fuel]; [cbn in Hf; lia|]); cbn [app hda fst free_seek seg] in *; destruct Hseg as [Hh Hseg].
  - rewrite (bind_Ret _ _ _ _ _ (hget_run _ _ _ Hh)). cbn [fst snd]. rewrite (proj2 (Z.ltb_lt p bp)) by done. cbn [andb]. destruct l2 as [|[n sn] l2]; cbn [hda fst] in *.
    + rewrite (proj2 (Z.leb_le base p)) by done. cbn [andb orb]. by destruct (bp <? base).
    + rewrite (proj2 (Z.ltb_lt bp n)) by (apply Hl2; left). done.
  - rewrite (bind_Ret _ _ _ _ _ (hget_run _ _ _ Hh)). cbn [fst snd]. destruct (asc_split lo (((a, sa)) :: l1) p sp l2 Hasc) as (Hlt & _).
    assert (Hnx : a < hda (l1 ++ (p, sp) :: l2) base <= p).
    { destruct Hasc as (_ & H0 & H1). cbn [fst snd] in *. destruct l1 as [|[x sx] l1]; cbn [app hda fst asc] in *; [lia|]. assert (x < p) by (apply Hlt; right; left). lia. }
    rewrite (proj2 (Z.ltb_ge bp _)) by lia. rewrite andb_false_r, (proj2 (Z.leb_gt _ a)) by lia. cbn [andb]. destruct Hasc as (_ & _ & Hasc). cbn [length] in Hf. eapply IH; try done. lia.
Qed.

Lemma seek_wrap s bp m2 : forall lo fuel r, asc lo m2 -> seg (hdr s) m2 base -> (forall a, a ∈ m2.*1 -> bp < a) -> base < bp ->
  free_seek fuel bp base s = Ret r s -> free_seek (length m2 + fuel) bp (hda m2 base) s = Ret r s.
Proof.
  induction m2 as [|[a sa] m2 IH]; intros lo fuel r Hasc Hseg Hlo Hb Hr; cbn [length Nat.add hda fst free_seek seg asc] in *; [done|]. destruct Hseg as [Hh Hseg]. destruct Hasc as (H1 & H2 & H3). cbn [fst snd] in *.
  rewrite (bind_Ret _ _ _ _ _ (hget_run _ _ _ Hh)). cbn [fst snd]. assert (bp < a) by (apply Hlo; left). rewrite (proj2 (Z.ltb_ge a bp)) by lia. cbn [andb orb].
  assert (E : (hda m2 base <=? a) && (bp <? hda m2 base) = false).
  { destruct m2 as [|[n sn] m2]; cbn [hda fst] in *; [rewrite (proj2 (Z.ltb_ge bp base)) by lia; by rewrite andb_false_r|]. destruct H3 as [H3 _]. cbn [fst] in H3. by rewrite (proj2 (Z.leb_gt n a)) by lia. }
  rewrite E. eapply IH; [exact H3|done| |done|done]. intros x Hx. apply Hlo. by right.
Qed.

Lemma free_seek_more fuel bp p s r k : free_seek fuel bp p s = Ret r s -> free_seek (fuel + k) bp p s = Ret r s.
Proof.
  revert p. induction fuel as [|fuel IH]; intros p; [done|]. cbn [Nat.add free_seek]. unfold bind. destruct (hget p s) as [h s1| | | | |] eqn:E; cbn [rbind]; try done.
  assert (s1 = s) as -> by (unfold hget in E; destruct (hdr s !! p); by simplify_eq). destruct ((p <? bp) && (bp <? fst h)); [done|]. destruct ((fst h <=? p) && ((p <? bp) || (bp <? fst h))); [done|]. apply IH.
Qed.

(** Where a block [bp] of [sz] units goes: between [l1] and [l2], behind [p]. *)
Record gap (l l1 : list (Z * Z)) (p sp : Z) (l2 : list (Z * Z)) (bp sz hi : Z) : Prop := {
  gp_split : l = l1 ++ (p, sp) :: l2;
  gp_lt : p < bp;
  gp_low : p + 8 * sp <= bp;
  gp_high : bp + 8 * sz <= hda l2 hi;
  gp_size : 0 < sz
}.

Lemma seek_gap s l l1 p sp l2 bp sz fuel : ring s l -> gap l l1 p sp l2 bp sz (brk s) -> (length l <= fuel)%nat -> free_seek fuel bp (freep s) s = Ret p s.
Proof.
  intros [Hseg Hasc Htop (t & Hl & Ht) Hfree Hb Hbrk] [-> Hlt Hlow Hhigh Hsz] Hf. destruct (asc_split _ _ _ _ _ Hasc) as (Hl1 & Hsp & Hl2 & A1 & A2 & A3).
  assert (Hbp : base <= p). { destruct l1 as [|b l1]; cbn in Hl; simplify_eq; [lia|]. assert (base < p) by (apply Hl1; left). lia. }
  assert (Hup : forall a, a ∈ l2.*1 -> bp < a).
  { intros a Ha. destruct l2 as [|[n sn] l2]; [by apply not_elem_of_nil in Ha|]. cbn [hda fst] in Hhigh. cbn [fmap list_fmap fst] in Ha. destruct A3 as (_ & B2 & B3). cbn [fst snd] in *.
    apply elem_of_cons in Ha as [->|Ha]; [lia|]. destruct (asc_addr _ _ _ B3 Ha). lia. }
  assert (Hfwd : forall m1 m2, l1 = m1 ++ m2 -> free_seek (S (length m2)) bp (hda (m2 ++ (p, sp) :: l2) base) s = Ret p s).
  { intros m1 m2 ->. rewrite <- (assoc_L (++)) in Hasc, Hseg. apply asc_app in Hasc as [_ Hasc]. apply seg_split in Hseg as [_ Hseg]. eapply seek_forward; try done. lia. }
  rewrite fmap_app in Hfree. cbn [fmap list_fmap fst] in Hfree. rewrite length_app in Hf. cbn [length] in Hf.
  assert (Hin : forall (m : list (Z * Z)) a, a ∈ m.*1 -> exists m1 b m2, m = m1 ++ b :: m2 /\ fst b = a).
  { intros m a ([x y] & -> & H)%list_elem_of_fmap. apply list_elem_of_split in H as (m1 & m2 & ->). by exists m1, (x, y), m2. }
  apply elem_of_app in Hfree as [Hfree|Hfree]; [|apply elem_of_cons in Hfree as [Hfree|Hfree]].
  - destruct (Hin _ _ Hfree) as (m1 & b & m2 & E & <-). specialize (Hfwd m1 (b :: m2) E). cbn [app hda length] in Hfwd.
    replace fuel with (S (S (length m2)) + (fuel - S (S (length m2))))%nat by (rewrite E, length_app in Hf; cbn in Hf; lia). by apply free_seek_more.
  - specialize (Hfwd l1 [] (eq_sym (app_nil_r l1))). cbn [app hda fst length] in Hfwd. rewrite Hfree. replace fuel with (1 + (fuel - 1))%nat by lia. by apply free_seek_more.
  - destruct (Hin _ _ Hfree) as (m1 & b & m2 & -> & <-). specialize (Hfwd [] l1 eq_refl). assert (Hbase : hda (l1 ++ (p, sp) :: m1 ++ b :: m2) base = base) by (rewrite Hl; done).
    rewrite Hbase in Hfwd. apply asc_app in A3 as [_ A3]. apply seg_split in Hseg as [_ [_ Hseg]]. apply seg_split in Hseg as [_ Hseg].
    assert (Hw := seek_wrap s bp (b :: m2) (top (p + 8 * sp) m1) (S (length l1)) p A3 Hseg). cbn [hda fst] in Hw.
    rewrite length_app in Hf. cbn [length] in Hf. replace fuel with (length (b :: m2) + S (length l1) + (fuel - (length (b :: m2) + S (length l1))))%nat by (cbn [length]; lia).
    apply free_seek_more, Hw; [|lia|done]. intros a Ha. apply Hup. rewrite fmap_app. apply elem_of_app. by right.
Qed.

(** What [free] makes of a block: it joins the next free block if that follows without a
    gap, and the one before it likewise. *)
Definition join_next (b : Z * Z) (l2 : list (Z * Z)) : (Z * Z) * list (Z * Z) :=
  match l2 with
  | n :: t => if fst b + 8 * snd b =? fst n then ((fst b, snd b + snd n), t) else (b, l2)
  | [] => (b, [])
  end.
Definition join_prev (a b : Z * Z) : list (Z * Z) := if fst a + 8 * snd a =? fst b then [(fst a, snd a + snd b)] else [a; b].
Definition freed (l1 : list (Z * Z)) (a b : Z * Z) (l2 : list (Z * Z)) : list (Z * Z) :=
  let r := join_next b l2 in l1 ++ join_prev a (fst r) ++ snd r.

Lemma covers_nil x : covers [] x <-> False.
Proof. unfold covers. split; [|done]. intros (b & Hb & _). by apply not_elem_of_nil in Hb. Qed.

Lemma covers_app l1 l2 x : covers (l1 ++ l2) x <-> covers l1 x \/ covers l2 x.
Proof.
  unfold covers. split.
  - intros (b & [Hb|Hb]%elem_of_app & Hx); [left|right]; by exists b.
  - intros [(b & Hb & Hx)|(b & Hb & Hx)]; exists b; (split; [apply elem_of_app; auto|done]).
Qed.

Lemma covers_cons b l x : covers (b :: l) x <-> fst b <= x < fst b + 8 * snd b \/ covers l x.
Proof.
  unfold covers. split.
  - intros (c & [->|Hc]%elem_of_cons & Hx); [by left|]. right. by exists c.
  - intros [Hx|(c & Hc & Hx)]; [exists b|exists c]; (split; [apply elem_of_cons; auto|done]).
Qed.

Lemma join_next_asc bp sz l2 : 0 < sz -> asc (bp + 8 * sz - 1) l2 -> let r := join_next (bp, sz) l2 in
  fst (fst r) = bp /\ sz <= snd (fst r) /\ asc (bp + 8 * snd (fst r)) (snd r) /\ top (bp + 8 * snd (fst r)) (snd r) = top (bp + 8 * sz) l2 /\
  Forall (fun b => b ∈ l2) (snd r) /\ (forall x, covers (fst r :: snd r) x <-> bp <= x < bp + 8 * sz \/ covers l2 x).
Proof.
  intros Hsz H. unfold join_next. destruct l2 as [|[n sn] l2]; cbn [fst snd asc top] in *.
  - split_and!; try (done || lia). intros x. by rewrite covers_cons.
  - destruct H as (H1 & H2 & H3). destruct (Z.eqb_spec (bp + 8 * sz) n) as [E|E]; cbn [fst snd].
    + replace (bp + 8 * (sz + sn)) with (n + 8 * sn) by lia. split_and!; try (done || lia); [apply Forall_forall; intros b Hb; by right|].
      intros x. rewrite !covers_cons. cbn [fst snd]. intuition lia.
    + split_and!; try (done || lia || by apply Forall_forall); [cbn [asc fst snd]; split_and!; try (done || lia)|]. intros x. by rewrite covers_cons.
Qed.

Lemma join_prev_asc lo p sp b l2 : lo < p -> 0 <= sp -> p + 8 * sp <= fst b -> 0 <= snd b -> asc (fst b + 8 * snd b) l2 ->
  asc lo (join_prev (p, sp) b ++ l2) /\ top lo (join_prev (p, sp) b ++ l2) = top (fst b + 8 * snd b) l2 /\
  (forall x, covers (join_prev (p, sp) b ++ l2) x <-> p <= x < p + 8 * sp \/ covers (b :: l2) x).
Proof.
  intros H1 H2 H3 H4 H5. unfold join_prev. cbn [fst snd]. destruct (Z.eqb_spec (p + 8 * sp) (fst b)) as [E|E]; cbn [app asc top fst snd].
  - replace (p + 8 * (sp + snd b)) with (fst b + 8 * snd b) by lia. split_and!; try (done || lia). intros x. rewrite !covers_cons. cbn [fst snd]. intuition lia.
  - split_and!; try (done || lia). intros x. by rewrite !covers_cons.
Qed.

(** What the gap gives: the end of the memory behind the block, and ascending blocks. *)
Lemma gap_asc s l l1 p sp l2 bp sz : ring s l -> gap l l1 p sp l2 bp sz (brk s) ->
  base <= p /\ p ∉ l1.*1 /\ bp ∉ l1.*1 /\ bp ∉ l2.*1 /\ p ∉ l2.*1 /\ asc (base - 1) l1 /\ top (base - 1) l1 < p /\ 0 <= sp /\
  asc (bp + 8 * sz - 1) l2 /\ top (bp + 8 * sz) l2 <= brk s /\ hdr s !! p = Some (hda l2 base, sp) /\ seg (hdr s) l2 base /\ seg (hdr s) l1 p.
Proof.
  intros [Hseg Hasc Htop (t & Hl & Ht) Hfree Hb Hbrk] [-> Hlt Hlow Hhigh Hsz]. destruct (asc_split _ _ _ _ _ Hasc) as (Hl1 & Hsp & Hl2 & A1 & A2 & A3).
  apply seg_split in Hseg as [S1 [S2 S3]]. rewrite top_app in Htop. cbn [fst snd top hda] in *.
  assert (Hbp : base <= p). { destruct l1 as [|b l1]; cbn in Hl; simplify_eq; [lia|]. assert (base < p) by (apply Hl1; left). lia. }
  assert (A4 : asc (bp + 8 * sz - 1) l2). { destruct l2 as [|[n sn] l2]; [done|]. cbn [asc hda fst snd] in *. intuition lia. }
  split_and!; try done.
  - intros H. apply Hl1 in H. lia.
  - intros H. apply Hl1 in H. lia.
  - intros H. destruct (asc_addr _ _ _ A4 H). lia.
  - intros H. apply Hl2 in H. lia.
  - destruct l2 as [|[n sn] l2]; cbn [top hda fst snd] in *; lia.
Qed.

Lemma join_next_run s bp sz x l2 hi : seg (hdr s) l2 base -> hdr s !! bp = Some (x, sz) -> base < bp -> 0 < sz -> bp ∉ l2.*1 ->
  8 * snd (fst (join_next (bp, sz) l2)) <= hi -> hi <= 2 ^ 31 -> 0 <= snd (fst (join_next (bp, sz) l2)) ->
  (if bp + 8 * sz =? hda l2 base then n <- hget (hda l2 base) ;; hput bp (fst n) (u32 (sz + snd n)) else hput bp (hda l2 base) sz) s =
  Ret tt (set_hdr (<[bp := (hda (snd (join_next (bp, sz) l2)) base, snd (fst (join_next (bp, sz) l2)))]> (hdr s)) s).
Proof.
  intros Hseg Hbp Hb Hsz Hni Hhi H31 H0. unfold join_next in *. destruct l2 as [|[n sn] l2]; cbn [hda fst snd] in *.
  - by rewrite (proj2 (Z.eqb_neq _ base)) by lia.
  - destruct Hseg as [Hn Hseg]. cbn [fst snd] in *. destruct (Z.eqb_spec (bp + 8 * sz) n); cbn [fst snd hda] in *; [|done].
    rewrite (bind_Ret _ _ _ _ _ (hget_run _ _ _ Hn)). cbn [fst snd]. by rewrite u32_small by (unfold is_u32; lia).
Qed.

Lemma free_run s l l1 p sp l2 bp sz x fuel : ring s l -> gap l l1 p sp l2 bp sz (brk s) -> hdr s !! bp = Some (x, sz) -> (length l <= fuel)%nat ->
  let r := join_next (bp, sz) l2 in let m := <[bp := (hda (snd r) base, snd (fst r))]> (hdr s) in
  free fuel (bp + 8) s = Ret tt (mkheap (<[p := if p + 8 * sp =? bp then (hda (snd r) base, sp + snd (fst r)) else (bp, sp)]> m) p (brk s)).
Proof.
  intros Hring Hgap Hx Hf r m. pose proof (gap_asc _ _ _ _ _ _ _ _ Hring Hgap) as (B1 & B2 & B3 & B4 & B5 & B6 & B7 & B8 & B9 & B10 & B11 & B12 & B13).
  pose proof (rg_brk _ _ Hring) as Hbrk. pose proof (rg_base _ _ Hring) as Hb0.
  assert (Hsz : 0 < sz) by apply Hgap. assert (Hlt : p < bp) by apply Hgap. assert (Hlow : p + 8 * sp <= bp) by apply Hgap.
  destruct (join_next_asc bp sz l2 Hsz B9) as (J1 & J2 & J3 & J4 & J5 & J6). fold r in J1, J2, J3, J4, J5, J6. pose proof (asc_top _ _ J3) as Jt.
  unfold free. cbv zeta. replace (bp + 8 - 8) with bp by lia. rewrite bind_gets, (bind_Ret _ _ _ _ _ (seek_gap _ _ _ _ _ _ _ _ _ Hring Hgap Hf)).
  rewrite (bind_Ret _ _ _ _ _ (hget_run _ _ _ B11)), (bind_Ret _ _ _ _ _ (hget_run _ _ _ Hx)). cbn [fst snd].
  rewrite (bind_Ret _ _ _ _ _ (join_next_run s bp sz x l2 (brk s) B12 Hx ltac:(lia) Hsz B4 ltac:(fold r; lia) (proj2 Hbrk) ltac:(fold r; lia))). fold r. fold m.
  assert (Hp : hdr (set_hdr m s) !! p = Some (hda l2 base, sp)) by (cbn; unfold m; by rewrite lookup_insert_ne by lia).
  assert (Hb : hdr (set_hdr m s) !! bp = Some (hda (snd r) base, snd (fst r))) by (cbn; unfold m; by rewrite lookup_insert_eq).
  rewrite (bind_Ret _ _ _ _ _ (hget_run _ _ _ Hp)), (bind_Ret _ _ _ _ _ (hget_run _ _ _ Hb)). cbn [fst snd]. destruct (Z.eqb_spec (p + 8 * sp) bp); [|done].
  by rewrite u32_small by (unfold is_u32; lia).
Qed.

Lemma hda_join a b l d : hda (join_prev a b ++ l) d = fst a.
Proof. unfold join_prev. by destruct (fst a + 8 * snd a =? fst b). Qed.

Lemma freed_seg m l1 p sp bp sz l2 m' : let r := join_next (bp, sz) l2 in fst (fst r) = bp -> p <> bp ->
  m' = <[p := if p + 8 * sp =? bp then (hda (snd r) base, sp + snd (fst r)) else (bp, sp)]> (<[bp := (hda (snd r) base, snd (fst r))]> m) ->
  seg m l1 p -> p ∉ l1.*1 -> bp ∉ l1.*1 -> seg m (snd r) base -> p ∉ (snd r).*1 -> bp ∉ (snd r).*1 -> seg m' (freed l1 (p, sp) (bp, sz) l2) base.
Proof.
  intros r Hr Hne -> S1 N1 N2 S2 N3 N4. unfold freed. fold r. apply seg_split. rewrite hda_join. cbn [fst]. split; [by rewrite !seg_insert|].
  unfold join_prev. cbn [fst snd]. rewrite Hr. destruct (Z.eqb_spec (p + 8 * sp) bp); cbn [app seg fst snd hda].
  - rewrite lookup_insert_eq. by rewrite !seg_insert.
  - rewrite Hr, lookup_insert_eq, lookup_insert_ne, lookup_insert_eq by done. by rewrite !seg_insert.
Qed.

Lemma freed_pos l1 p sp bp sz l2 t : let r := join_next (bp, sz) l2 in fst (fst r) = bp -> 0 < snd (fst r) -> Forall (fun b => b ∈ l2) (snd r) -> p < bp -> 0 <= sp ->
  l1 ++ (p, sp) :: l2 = (base, 0) :: t -> Forall (fun b => 0 < snd b) t -> exists t', freed l1 (p, sp) (bp, sz) l2 = (base, 0) :: t' /\ Forall (fun b => 0 < snd b) t'.
Proof.
  intros r Hr Hs Hin Hlt Hsp Hl Ht. unfold freed. fold r.
  assert (Hrest : Forall (fun b => b ∈ t) l2 -> Forall (fun b : Z * Z => 0 < snd b) (snd r)).
  { intros H. rewrite Forall_forall in *. intros b Hb. apply Ht, H, Hin, Hb. }
  destruct l1 as [|b l1]; cbn [app] in *; simplify_eq.
  - unfold join_prev. cbn [fst snd]. rewrite Hr, (proj2 (Z.eqb_neq (base + 8 * 0) bp)) by lia. exists (fst r :: snd r). split; [done|]. constructor; [done|]. apply Hrest. by apply Forall_forall.
  - exists (l1 ++ join_prev (p, sp) (fst r) ++ snd r). split; [done|]. apply Forall_app in Ht as [H1 H2]. apply Forall_cons in H2 as [H2 H3]. apply Forall_app. split; [done|]. apply Forall_app. split.
    + cbn [snd] in H2. unfold join_prev. cbn [fst snd]. destruct (p + 8 * sp =? fst (fst r)); repeat constructor; cbn [snd]; lia.
    + apply Hrest, Forall_forall. intros c Hc. apply elem_of_app. right. by right.
Qed.

(** [free] of a block in a gap of the ring. *)
Lemma free_ring s l l1 p sp l2 bp sz x fuel : ring s l -> gap l l1 p sp l2 bp sz (brk s) -> hdr s !! bp = Some (x, sz) -> (length l <= fuel)%nat ->
  exists m, free fuel (bp + 8) s = Ret tt (mkheap m p (brk s)) /\ ring (mkheap m p (brk s)) (freed l1 (p, sp) (bp, sz) l2) /\
    (forall y, covers (freed l1 (p, sp) (bp, sz) l2) y <-> covers l y \/ bp <= y < bp + 8 * sz) /\
    (forall a, a <> p -> a <> bp -> m !! a = hdr s !! a).
Proof.
  intros Hring Hgap Hx Hf. pose proof (gap_asc _ _ _ _ _ _ _ _ Hring Hgap) as (B1 & B2 & B3 & B4 & B5 & B6 & B7 & B8 & B9 & B10 & B11 & B12 & B13).
  pose proof (rg_head _ _ Hring) as (t & Hl & Ht). pose proof (gp_split _ _ _ _ _ _ _ _ Hgap) as Hs.
  assert (Hsz : 0 < sz) by apply Hgap. assert (Hlt : p < bp) by apply Hgap. assert (Hlow : p + 8 * sp <= bp) by apply Hgap.
  destruct (join_next_asc bp sz l2 Hsz B9) as (J1 & J2 & J3 & J4 & J5 & J6). set (r := join_next (bp, sz) l2) in *.
  destruct (join_prev_asc (top (base - 1) l1) p sp (fst r) (snd r)) as (K1 & K2 & K3); [lia|lia|lia|lia|by rewrite J1|].
  eexists. split; [by apply (free_run _ _ _ _ _ _ _ _ _ _ Hring Hgap Hx Hf)|]. fold r. split_and!.
  - constructor; cbn [hdr freep brk].
    + eapply (freed_seg (hdr s)); try done; [lia|..].
      * unfold r, join_next. destruct l2 as [|[n sn] l2]; [done|]. cbn [fst snd]. destruct (_ =? n); [apply B12|done].
      * intros (b & Hb & Hi)%list_elem_of_fmap. rewrite Forall_forall in J5. apply B5. apply list_elem_of_fmap. exists b. auto.
      * intros (b & Hb & Hi)%list_elem_of_fmap. rewrite Forall_forall in J5. apply B4. apply list_elem_of_fmap. exists b. auto.
    + unfold freed. fold r. by apply asc_app.
    + unfold freed. fold r. rewrite top_app, K2, J1, J4. done.
    + eapply freed_pos; try done; [fold r; lia|]. by rewrite <- Hl.
    + unfold freed. fold r. rewrite !fmap_app. apply elem_of_app. right. apply elem_of_app. left. unfold join_prev. destruct (_ =? _); left.
    + apply Hring.
    + apply Hring.
  - intros y. unfold freed. fold r. rewrite covers_app, K3, J6, Hs, covers_app, covers_cons. cbn [fst snd]. tauto.
  - intros a H1 H2. by rewrite !lookup_insert_ne by done.
Qed.

(** ** The heap and its blocks in use

    [A] has the size of every block that is in use, by the address of its header. *)

Record heap_ok s (l : list (Z * Z)) (A : gmap Z Z) : Prop := {
  ho_ring : ring s l;
  ho_used : forall a n, A !! a = Some n -> base < a /\ 0 < n /\ a + 8 * n <= brk s /\ exists x, hdr s !! a = Some (x, n);
  ho_free : forall a n x, A !! a = Some n -> a <= x < a + 8 * n -> ~ covers l x;
  ho_apart : forall a n b m, A !! a = Some n -> A !! b = Some m -> a <> b -> a + 8 * n <= b \/ b + 8 * m <= a
}.

Lemma in_covers l a n : (a, n) ∈ l -> 0 < n -> covers l a.
Proof. intros H Hn. exists (a, n). split; [done|]. cbn. lia. Qed.

Lemma gap_behind l bp sz hi l2 : forall l1 p sp, l = l1 ++ (p, sp) :: l2 -> p < bp -> p + 8 * sp <= bp -> 0 < sz -> bp + 8 * sz <= hi ->
  Forall (fun b => 0 < snd b) l2 -> (forall x, bp <= x < bp + 8 * sz -> ~ covers l x) -> exists m1 q sq m2, gap l m1 q sq m2 bp sz hi.
Proof.
  induction l2 as [|[n sn] l2 IH]; intros l1 p sp Hl Hlt Hlow Hsz Hhi Hpos Hno.
  - exists l1, p, sp, []. by constructor.
  - apply Forall_cons in Hpos as [Hn Hpos]. cbn [snd] in Hn. assert (Hin : (n, sn) ∈ l) by (subst l; apply elem_of_app; right; right; left).
    destruct (decide (n < bp)).
    + apply (IH (l1 ++ [(p, sp)]) n sn); try done; [by rewrite <- (assoc_L (++))|].
      destruct (decide (n + 8 * sn <= bp)); [done|]. destruct (Hno bp); [lia|]. exists (n, sn). split; [done|]. cbn. lia.
    + exists l1, p, sp, ((n, sn) :: l2). constructor; try done. cbn [hda fst]. destruct (decide (bp + 8 * sz <= n)); [done|]. destruct (Hno n); [lia|]. by apply (in_covers _ _ sn).
Qed.

Lemma heap_gap s l A bp sz : heap_ok s l A -> A !! bp = Some sz -> exists l1 p sp l2, gap l l1 p sp l2 bp sz (brk s).
Proof.
  intros H HA. destruct (ho_used _ _ _ H _ _ HA) as (H1 & H2 & H3 & _). destruct (rg_head _ _ (ho_ring _ _ _ H)) as (t & Hl & Ht).
  apply (gap_behind l bp sz (brk s) t [] base 0); try done; [lia|]. intros x Hx. by apply (ho_free _ _ _ H bp sz).
Qed.

(** A header of the ring is not that of a block in use. *)
Lemma ring_unused s l A a n : heap_ok s l A -> A !! a = Some n -> a ∉ l.*1.
Proof.
  intros H HA ([b m] & -> & Hb)%list_elem_of_fmap. destruct (rg_head _ _ (ho_ring _ _ _ H)) as (t & Hl & Ht). destruct (ho_used _ _ _ H _ _ HA) as (H1 & H2 & _). cbn [fst] in *.
  rewrite Hl in Hb. apply elem_of_cons in Hb as [Hb|Hb]; [injection Hb as -> ->; lia|]. rewrite Forall_forall in Ht. specialize (Ht _ Hb). cbn in Ht.
  apply (ho_free _ _ _ H b n b HA); [lia|]. apply (in_covers _ _ m); [|done]. rewrite Hl. by right.
Qed.

Lemma freed_length l1 a b l2 : (length (freed l1 a b l2) <= length (l1 ++ a :: l2) + 1)%nat.
Proof.
  unfold freed, join_next, join_prev. rewrite !length_app. destruct l2 as [|n l2]; cbn [fst snd]; [|destruct (fst b + 8 * snd b =? fst n)]; cbn [fst snd]; case_match; cbn [length]; lia.
Qed.

Lemma gap_big s l l1 p sp l2 bp sz : ring s l -> gap l l1 p sp l2 bp sz (brk s) -> exists b, b ∈ freed l1 (p, sp) (bp, sz) l2 /\ sz <= snd b.
Proof.
  intros Hr Hg. pose proof (gap_asc _ _ _ _ _ _ _ _ Hr Hg) as (_ & _ & _ & _ & _ & _ & _ & B8 & B9 & _). destruct (join_next_asc bp sz l2 (gp_size _ _ _ _ _ _ _ _ Hg) B9) as (J1 & J2 & _).
  unfold freed, join_prev. set (r := join_next (bp, sz) l2) in *. destruct (_ =? _).
  - exists (p, sp + snd (fst r)). split; [apply elem_of_app; right; left|cbn; lia].
  - exists (fst r). split; [apply elem_of_app; right; right; left|done].
Qed.

(** [free] of a block in use. *)
Lemma free_heap s l A bp sz fuel : heap_ok s l A -> A !! bp = Some sz -> (length l <= fuel)%nat ->
  exists s' l', free fuel (bp + 8) s = Ret tt s' /\ heap_ok s' l' (delete bp A) /\ brk s' = brk s /\ (length l' <= length l + 1)%nat /\
    (forall y, covers l' y <-> covers l y \/ bp <= y < bp + 8 * sz) /\ (exists b, b ∈ l' /\ sz <= snd b).
Proof.
  intros H HA Hf. destruct (heap_gap _ _ _ _ _ H HA) as (l1 & p & sp & l2 & Hgap). destruct (ho_used _ _ _ H _ _ HA) as (_ & Hsz & _ & x & Hx).
  destruct (free_ring _ _ _ _ _ _ _ _ _ _ (ho_ring _ _ _ H) Hgap Hx Hf) as (m & Hrun & Hr & Hc & Hm).
  eexists _, _. split_and!; [exact Hrun| |done|rewrite (gp_split _ _ _ _ _ _ _ _ Hgap); apply freed_length|exact Hc|by apply (gap_big _ _ _ _ _ _ _ _ (ho_ring _ _ _ H) Hgap)]. constructor; cbn [hdr brk]; [done|..].
  - intros a n [Hne Ha]%lookup_delete_Some. destruct (ho_used _ _ _ H _ _ Ha) as (U1 & U2 & U3 & y & U4). split_and!; try done. exists y. rewrite Hm; [done| |done].
    intros ->. apply (ring_unused _ _ _ _ _ H Ha). rewrite (gp_split _ _ _ _ _ _ _ _ Hgap), fmap_app. apply elem_of_app. right. left.
  - intros a n y [Hne Ha]%lookup_delete_Some Hy. rewrite Hc. intros [Hcov|Hb]; [by apply (ho_free _ _ _ H a n y)|]. destruct (ho_apart _ _ _ H _ _ _ _ HA Ha Hne); lia.
  - intros a n b k [_ Ha]%lookup_delete_Some [_ Hb]%lookup_delete_Some. by apply (ho_apart _ _ _ H).
Qed.

(** ** [malloc] *)

(** What is left of the ring when [n] units are taken from the block [(q, sq)]. *)
Definition rest (q sq n : Z) : list (Z * Z) := if sq =? n then [] else [(q, sq - n)].

Lemma taken_ring s m1 pp sp q sq m2 n m : ring s (m1 ++ (pp, sp) :: (q, sq) :: m2) -> 0 < n <= sq ->
  (m = if sq =? n then <[pp := (hda m2 base, sp)]> (hdr s) else <[q := (hda m2 base, sq - n)]> (hdr s)) ->
  (forall c, c ∉ (m1 ++ (pp, sp) :: (q, sq) :: m2).*1 -> forall v, ring (mkheap (<[c := v]> m) pp (brk s)) (m1 ++ (pp, sp) :: rest q sq n ++ m2)) /\
  ring (mkheap m pp (brk s)) (m1 ++ (pp, sp) :: rest q sq n ++ m2).
Proof.
  intros Hr Hn Hm. assert (Hring : ring (mkheap m pp (brk s)) (m1 ++ (pp, sp) :: rest q sq n ++ m2)).
  { destruct Hr as [Hseg Hasc Htop (t & Hl & Ht) Hfree Hb Hbrk]. pose proof (asc_split _ _ _ _ _ Hasc) as (N1 & Hsp & N2 & A1 & A2 & (A3 & A4 & A5)). rewrite top_app in Htop. apply seg_split in Hseg as [S1 (S2 & S3 & S4)].
    assert (N3 : forall a, a ∈ m2.*1 -> q + 8 * sq < a). { intros a Ha. by destruct (asc_addr _ _ _ A5 Ha). }
    assert (Hout : forall a, a <= q -> a ∉ m2.*1) by (intros a Ha Hin; apply N3 in Hin; lia).
    cbn [fst snd hda top] in *. constructor; cbn [hdr freep brk]; try done.
    - apply seg_split. cbn [hda fst]. unfold rest. subst m. destruct (Z.eqb_spec sq n); cbn [app seg hda fst snd].
      + rewrite lookup_insert_eq, !seg_insert; [done|apply Hout; lia|intros Hi; apply N1 in Hi; lia].
      + rewrite lookup_insert_eq, lookup_insert_ne by lia. rewrite !seg_insert; [done|apply Hout; lia|intros Hi; apply N1 in Hi; lia].
    - apply asc_app. split; [done|]. cbn [asc fst snd]. split_and!; try lia. unfold rest. destruct (Z.eqb_spec sq n); cbn [app asc fst snd]; [by apply (asc_mono (q + 8 * sq)); [|lia]|].
      split_and!; try lia. by apply (asc_mono (q + 8 * sq)); [|lia].
    - rewrite top_app. cbn [top fst snd]. unfold rest. pose proof (asc_top _ _ A5) as At. destruct m2 as [|[z zs] m2]; cbn [top fst snd] in *; destruct (Z.eqb_spec sq n); cbn [app top fst snd]; lia.
    - destruct m1 as [|b m1]; cbn [app] in *; simplify_eq.
      + exists (rest q sq n ++ m2). split; [done|]. apply Forall_cons in Ht as [H1 H2]. apply Forall_app. split; [|done]. unfold rest. destruct (Z.eqb_spec sq n); repeat constructor. cbn. lia.
      + exists (m1 ++ (pp, sp) :: rest q sq n ++ m2). split; [done|]. apply Forall_app in Ht as [H1 H2]. apply Forall_cons in H2 as [H2 H3]. apply Forall_cons in H3 as [H3 H4].
        apply Forall_app. split; [done|]. constructor; [done|]. apply Forall_app. split; [|done]. unfold rest. destruct (Z.eqb_spec sq n); repeat constructor. cbn. lia.
    - rewrite fmap_app. apply elem_of_app. right. left. }
  split; [|done]. intros c Hc v. destruct Hring as [Hseg Hasc Htop Hh Hfree Hb Hbrk]. constructor; try done. cbn [hdr] in *. apply seg_insert; [|done].
  intros Hi. apply Hc. unfold rest in Hi. rewrite !fmap_app in *. cbn [fmap list_fmap fst] in *. rewrite fmap_app in Hi. destruct (sq =? n); cbn [fmap list_fmap fst] in Hi; set_solver.
Qed.

(** The blocks that [malloc] hands out of a free one. *)
Record taken s (l : list (Z * Z)) (A : gmap Z Z) (n c : Z) s' (l' : list (Z * Z)) : Prop := {
  tk_heap : heap_ok s' l' (<[c := n]> A);
  tk_new : A !! c = None;
  tk_cover : forall x, covers l x <-> covers l' x \/ c <= x < c + 8 * n;
  tk_brk : brk s' = brk s;
  tk_len : (length l' <= length l)%nat
}.

Lemma rest_covers q sq n m2 x : 0 < n <= sq -> covers ((q, sq) :: m2) x <-> covers (rest q sq n ++ m2) x \/ q + 8 * (sq - n) <= x < q + 8 * (sq - n) + 8 * n.
Proof. intros Hn. unfold rest. destruct (Z.eqb_spec sq n) as [->|]; cbn [app]; rewrite !covers_cons; cbn [fst snd]; intuition lia. Qed.

(** What is taken is no longer in the ring. *)
Lemma rest_off lo m1 pp sp q sq m2 n x : asc lo (m1 ++ (pp, sp) :: (q, sq) :: m2) -> 0 < n <= sq -> q + 8 * (sq - n) <= x < q + 8 * (sq - n) + 8 * n ->
  ~ covers (m1 ++ (pp, sp) :: rest q sq n ++ m2) x.
Proof.
  intros Hasc Hn Hx Hc. pose proof (asc_split _ _ _ _ _ Hasc) as (_ & Hsp & _ & A1 & A2 & (A3 & _ & A5)). cbn [fst snd] in *. rewrite covers_app, covers_cons, covers_app in Hc. cbn [fst snd] in Hc.
  destruct Hc as [(b & Hb & Hxb)|[Hxb|[Hc|(b & Hb & Hxb)]]].
  - destruct (asc_in _ _ _ A1 Hb) as (_ & _ & Q). lia.
  - lia.
  - unfold rest in Hc. destruct (Z.eqb_spec sq n); [by apply covers_nil in Hc|]. rewrite covers_cons, covers_nil in Hc. cbn in Hc. lia.
  - destruct (asc_in _ _ _ A5 Hb) as (Q & _). lia.
Qed.

Lemma taken_heap s A m1 pp sp q sq m2 n m : let l := m1 ++ (pp, sp) :: (q, sq) :: m2 in let c := q + 8 * (sq - n) in
  heap_ok s l A -> 0 < n <= sq ->
  (sq = n -> m = <[pp := (hda m2 base, sp)]> (hdr s)) -> (sq <> n -> exists v, m = <[c := (v, n)]> (<[q := (hda m2 base, sq - n)]> (hdr s))) ->
  taken s l A n c (mkheap m pp (brk s)) (m1 ++ (pp, sp) :: rest q sq n ++ m2).
Proof.
  intros l c H Hn M1 M2. pose proof (asc_split _ _ _ _ _ (rg_asc _ _ (ho_ring _ _ _ H))) as (N1 & Hsp & N2 & _ & _ & (N3 & _ & N5)). cbn [fst snd] in *.
  assert (Hcl : forall x, c <= x < c + 8 * n -> covers l x). { intros x Hx. exists (q, sq). split; [apply elem_of_app; right; right; left|]. cbn. unfold c in Hx. lia. }
  assert (Hcov : forall x, covers l x <-> covers (m1 ++ (pp, sp) :: rest q sq n ++ m2) x \/ c <= x < c + 8 * n).
  { intros x. unfold l. rewrite (covers_app m1), covers_cons, (rest_covers q sq n m2 x Hn), (covers_app m1), covers_cons. tauto. }
  assert (Hnone : A !! c = None). { destruct (A !! c) as [k|] eqn:E; [|done]. destruct (ho_used _ _ _ H _ _ E) as (_ & U & _). destruct (ho_free _ _ _ H _ _ c E); [lia|]. apply Hcl. lia. }
  assert (Hm : forall a, a <> pp -> a <> q -> a <> c -> m !! a = hdr s !! a).
  { intros a P1 P2 P3. destruct (decide (sq = n)) as [E|E]; [by rewrite (M1 E), lookup_insert_ne by done|]. destruct (M2 E) as [v ->]. by rewrite !lookup_insert_ne by done. }
  constructor; [|done..|unfold l, rest; rewrite !length_app; cbn [length]; rewrite length_app; destruct (sq =? n); cbn [length]; lia]. constructor.
  - destruct (decide (sq = n)) as [E|E].
    + rewrite (M1 E). apply (taken_ring s _ _ _ _ _ _ n _ (ho_ring _ _ _ H) Hn). by rewrite (proj2 (Z.eqb_eq sq n)).
    + destruct (M2 E) as [v ->]. apply (taken_ring s _ _ _ _ _ _ n (<[q := (hda m2 base, sq - n)]> (hdr s)) (ho_ring _ _ _ H) Hn); [by rewrite (proj2 (Z.eqb_neq sq n))|].
      rewrite fmap_app. cbn [fmap list_fmap fst]. intros [Hi|[Hi|[Hi|Hi]%elem_of_cons]%elem_of_cons]%elem_of_app; [apply N1 in Hi|..|destruct (asc_addr _ _ _ N5 Hi)]; unfold c in *; lia.
  - intros a k [[<- <-]|[Hne Ha]]%lookup_insert_Some; cbn [hdr brk].
    + destruct (asc_in _ _ (q, sq) (rg_asc _ _ (ho_ring _ _ _ H))) as (P1 & P2 & P3); [apply elem_of_app; right; right; left|]. pose proof (rg_top _ _ (ho_ring _ _ _ H)). cbn [fst snd] in *.
      assert (base <= pp) by (destruct (asc_in _ _ (pp, sp) (rg_asc _ _ (ho_ring _ _ _ H))) as (Q1 & _); [apply elem_of_app; right; left|cbn in Q1; lia]).
      split_and!; unfold c; try lia. destruct (decide (sq = n)) as [E|E].
      * rewrite (M1 E). pose proof (rg_seg _ _ (ho_ring _ _ _ H)) as Hseg. apply seg_split in Hseg as [_ (_ & Hq & _)]. cbn [fst snd] in Hq. exists (hda m2 base).
        subst sq. replace (q + 8 * (n - n)) with q by lia. by rewrite lookup_insert_ne by lia.
      * destruct (M2 E) as [v ->]. exists v. unfold c. by rewrite lookup_insert_eq.
    + destruct (ho_used _ _ _ H _ _ Ha) as (U1 & U2 & U3 & y & U4). split_and!; try done. exists y. pose proof (ring_unused _ _ _ _ _ H Ha) as Hu. unfold l in Hu. rewrite fmap_app in Hu. cbn [fmap list_fmap fst] in Hu.
      rewrite Hm; [done|..|done]; set_solver.
  - intros a k x [[<- <-]|[Hne Ha]]%lookup_insert_Some Hx.
    + by apply (rest_off _ _ _ _ _ _ _ _ _ (rg_asc _ _ (ho_ring _ _ _ H)) Hn).
    + intros Hc. apply (ho_free _ _ _ H a k x Ha Hx), Hcov. by left.
  - intros a k b k' [[<- <-]|[Hne Ha]]%lookup_insert_Some [[<- <-]|[Hne' Hb]]%lookup_insert_Some Hab; [done|..|by apply (ho_apart _ _ _ H)].
    + destruct (decide (c + 8 * n <= b \/ b + 8 * k' <= c)); [done|]. destruct (ho_used _ _ _ H _ _ Hb) as (_ & U & _). destruct (ho_free _ _ _ H b k' (Z.max b c) Hb); [lia|]. apply Hcl. lia.
    + destruct (decide (a + 8 * k <= c \/ c + 8 * n <= a)); [done|]. destruct (ho_used _ _ _ H _ _ Ha) as (_ & U & _). destruct (ho_free _ _ _ H a k (Z.max a c) Ha); [lia|]. apply Hcl. lia.
Qed.

Lemma take_step s A m1 pp sp q sq m2 n fuel : let l := m1 ++ (pp, sp) :: (q, sq) :: m2 in heap_ok s l A -> 0 < n <= sq ->
  exists c s' l', malloc_loop (S fuel) n pp q s = Ret (c + 8) s' /\ taken s l A n c s' l'.
Proof.
  intros l H Hn. pose proof (rg_seg _ _ (ho_ring _ _ _ H)) as Hseg. apply seg_split in Hseg as [_ (Hpp & Hq & _)]. cbn [fst snd hda] in Hpp, Hq.
  exists (q + 8 * (sq - n)). cbn [malloc_loop]. rewrite (bind_Ret _ _ _ _ _ (hget_run _ _ _ Hq)). cbn [fst snd]. rewrite (proj2 (Z.leb_le n sq)) by lia. destruct (Z.eqb_spec sq n) as [E|E].
  - exists (mkheap (<[pp := (hda m2 base, sp)]> (hdr s)) pp (brk s)), (m1 ++ (pp, sp) :: rest q sq n ++ m2). split; [|by apply taken_heap].
    assert (E2 : (v <- hget pp ;; hput pp (hda m2 base) (snd v) ;; ret q) s = Ret q (set_hdr (<[pp := (hda m2 base, sp)]> (hdr s)) s)) by (by rewrite (bind_Ret _ _ _ _ _ (hget_run _ _ _ Hpp))).
    rewrite (bind_Ret _ _ _ _ _ E2), bind_modify. subst sq. by replace (q + 8 * (n - n)) with q by lia.
  - eexists (mkheap _ pp (brk s)), (m1 ++ (pp, sp) :: rest q sq n ++ m2). split; [reflexivity|]. apply taken_heap; [done|done|done|]. intros _. by eexists.
Qed.

(** The walk over blocks that are too small. *)
Lemma walk_skip s n d fuel q sq u : forall prev, seg (hdr s) (u ++ [(q, sq)]) d -> Forall (fun b => snd b < n /\ fst b <> freep s) u ->
  malloc_loop (length u + fuel) n prev (hda (u ++ [(q, sq)]) 0) s = malloc_loop fuel n (foldl (fun _ b => fst b) prev u) q s.
Proof.
  induction u as [|[a sa] u IH]; intros prev Hseg Hu; [done|]. apply Forall_cons in Hu as [[H1 H2] Hu]. destruct Hseg as [Ha Hseg]. cbn [length Nat.add app hda fst snd malloc_loop foldl] in *.
  rewrite (bind_Ret _ _ _ _ _ (hget_run _ _ _ Ha)). cbn [fst snd]. rewrite (proj2 (Z.leb_gt n sa)) by done. rewrite bind_gets, (proj2 (Z.eqb_neq a _)) by done.
  replace (hda (u ++ [(q, sq)]) d) with (hda (u ++ [(q, sq)]) 0) by (by destruct u). by apply IH.
Qed.

Lemma first_fit n (w : list (Z * Z)) : Forall (fun b => snd b < n) w \/ exists u q sq v, w = u ++ (q, sq) :: v /\ Forall (fun b => snd b < n) u /\ n <= sq.
Proof.
  induction w as [|[a sa] w IH]; [by left|]. destruct (decide (sa < n)) as [H|H]; [|right; exists [], a, sa, w; split_and!; [done..|lia]].
  destruct IH as [IH|(u & q & sq & v & -> & Hu & Hq)]; [left; by constructor|]. right. exists ((a, sa) :: u), q, sq, v. split_and!; [done|by constructor|done].
Qed.

Lemma last_of (a : Z * Z) u : exists m sp, a :: u = m ++ [(foldl (fun _ b => fst b) (fst a) u, sp)].
Proof.
  induction u as [|[b sb] u IH] using rev_ind; [exists [], (snd a); by destruct a|]. exists (a :: u), sb. by rewrite foldl_app.
Qed.

(** The blocks in the order of the walk, which ends at [freep]. *)
Lemma ring_walk s l : ring s l -> exists l1 sf l2, l = l1 ++ (freep s, sf) :: l2 /\ hdr s !! freep s = Some (hda (l2 ++ l1 ++ [(freep s, sf)]) 0, sf) /\
  seg (hdr s) (l2 ++ l1 ++ [(freep s, sf)]) (hda l2 base) /\ Forall (fun b => fst b <> freep s) (l2 ++ l1) /\ hda (l1 ++ [(freep s, sf)]) 0 = base.
Proof.
  intros [Hseg Hasc Htop (t & Hl & Ht) Hfree Hb Hbrk]. apply list_elem_of_fmap in Hfree as ([f sf] & Hf & Hin). apply list_elem_of_split in Hin as (l1 & l2 & ->). cbn [fst] in Hf. subst f.
  exists l1, sf, l2. pose proof (asc_split _ _ _ _ _ Hasc) as (N1 & Hsp & N2 & _). apply seg_split in Hseg as [S1 (S2 & S3)]. cbn [fst snd hda] in *.
  assert (Hh : hda (l1 ++ [(freep s, sf)]) 0 = base) by (destruct l1; cbn in *; by simplify_eq).
  assert (Hw : forall d, hda (l1 ++ [(freep s, sf)]) d = base) by (intros d; rewrite <- Hh; by destruct l1). split_and!; try done.
  - rewrite S2. do 2 f_equal. rewrite hda_app, Hh. done.
  - apply seg_split. rewrite Hw. split; [done|]. apply seg_split. cbn [hda fst]. split; [done|]. by split.
  - apply Forall_forall. intros b Hb2 E. assert (Hbf : fst b ∈ l1.*1 \/ fst b ∈ l2.*1) by (apply elem_of_app in Hb2 as [Hb2|Hb2]; [right|left]; apply list_elem_of_fmap; by exists b).
    destruct Hbf as [Hi|Hi]; [apply N1 in Hi|apply N2 in Hi]; lia.
Qed.

(** The block before one that fits, in the list and in the walk. *)
Lemma walk_prev l1 f sf l2 u q sq v : l2 ++ l1 ++ [(f, sf)] = u ++ (q, sq) :: v -> hda (l1 ++ [(f, sf)]) 0 <> q ->
  exists m1 sp m2, l1 ++ (f, sf) :: l2 = m1 ++ (foldl (fun _ b => fst b) f u, sp) :: (q, sq) :: m2.
Proof.
  intros Hw Hq. apply app_eq_inv in Hw as [(k & -> & Hk)|(k & -> & Hk)].
  - destruct k as [|b k]; cbn [app] in Hk; [rewrite <- Hk in Hq; by destruct Hq|]. injection Hk as <- Hk. destruct (last_of (f, sf) u) as (m & sp & Hm). cbn [fst] in Hm.
    exists (l1 ++ m), sp, k. rewrite app_comm_cons, Hm. by rewrite <- !(assoc_L (++)).
  - destruct k as [|b k]; cbn [app] in Hk; [rewrite Hk in Hq; by destruct Hq|]. destruct (last_of b k) as (m & sp & Hm).
    rewrite foldl_app. cbn [foldl]. exists m, sp, (v ++ l2). change ((f, sf) :: l2) with ([(f, sf)] ++ l2). rewrite (assoc_L (++)), Hk, app_comm_cons, Hm. by rewrite <- !(assoc_L (++)).
Qed.

(** A block that fits is found within one turn around the ring. *)
Lemma malloc_fits s l A n fuel h : heap_ok s l A -> 0 < n -> ~ Forall (fun b => snd b < n) l -> (length l <= fuel)%nat -> hdr s !! freep s = Some h ->
  exists c s' l', malloc_loop fuel n (freep s) (fst h) s = Ret (c + 8) s' /\ taken s l A n c s' l'.
Proof.
  intros H Hn Hfit Hf Hh. destruct (ring_walk _ _ (ho_ring _ _ _ H)) as (l1 & sf & l2 & Hl & Hnx & Hseg & Hne & Hbase). rewrite Hnx in Hh. injection Hh as <-. cbn [fst].
  destruct (first_fit n (l2 ++ l1 ++ [(freep s, sf)])) as [Hall|(u & q & sq & v & Hw & Hu & Hq)].
  { destruct Hfit. rewrite Hl. rewrite !Forall_app in *. rewrite Forall_cons in *. tauto. }
  destruct (rg_head _ _ (ho_ring _ _ _ H)) as (t & Ht & Hpos).
  assert (Hin : (q, sq) ∈ l). { rewrite Hl. assert ((q, sq) ∈ l2 ++ l1 ++ [(freep s, sf)]) as Hi by (rewrite Hw; apply elem_of_app; right; left). set_solver. }
  assert (Hqb : base <> q).
  { intros <-. rewrite Ht in Hin. apply elem_of_cons in Hin as [E|Hin]; [injection E as ->; lia|]. pose proof (rg_asc _ _ (ho_ring _ _ _ H)) as Ha. rewrite Ht in Ha. destruct Ha as (_ & _ & Ha).
    destruct (asc_in _ _ _ Ha Hin) as (Q & _). cbn in Q. lia. }
  destruct (walk_prev _ _ _ _ _ _ _ _ Hw) as (m1 & sp & m2 & Hprev); [by rewrite Hbase|]. rewrite <- Hl in Hprev.
  assert (Hune : Forall (fun b => snd b < n /\ fst b <> freep s) u).
  { apply Forall_and. split; [done|]. destruct v as [|x v _] using rev_ind.
    - rewrite (assoc_L (++)) in Hw. apply app_inj_tail in Hw as [<- _]. done.
    - rewrite (assoc_L (++)), app_comm_cons, (assoc_L (++)) in Hw. apply app_inj_tail in Hw as [Hw _]. rewrite Hw in Hne. by apply Forall_app in Hne as [Hne _]. }
  assert (Hlen : (length u < length l)%nat). { apply (f_equal length) in Hw. rewrite Hl. rewrite !length_app in *. cbn [length] in *. lia. }
  rewrite Hw in *. replace (u ++ (q, sq) :: v) with ((u ++ [(q, sq)]) ++ v) in Hseg |- * by (by rewrite <- (assoc_L (++))). apply seg_split in Hseg as [Hseg _].
  replace fuel with (length u + S (fuel - length u - 1))%nat by lia.
  replace (hda ((u ++ [(q, sq)]) ++ v) 0) with (hda (u ++ [(q, sq)]) 0) by (by destruct u). rewrite (walk_skip _ _ _ _ _ _ _ _ Hseg Hune). subst l. rewrite Hprev in *. by apply take_step.
Qed.

(** The kernel does not grow a process beyond its part of the address space. *)
Context (Hgr : forall b n, grants b n = true -> 0 <= n -> b + n <= 2 ^ 31).

Definition more_units (n : Z) : Z := if n <? 4096 then 4096 else n.

Lemma morecore_run s l A n fuel : heap_ok s l A -> 0 < n < 2 ^ 28 -> grants (brk s) (8 * more_units n) = true -> (length l <= fuel)%nat ->
  exists s1 l1, morecore fuel n s = Ret (freep s1) s1 /\ heap_ok s1 l1 A /\ brk s1 = brk s + 8 * more_units n /\ (length l1 <= length l + 1)%nat /\
    ~ Forall (fun b => snd b < n) l1 /\ (forall y, covers l1 y <-> covers l y \/ brk s <= y < brk s + 8 * more_units n).
Proof using Hgr.
  intros H Hn Hg Hf. set (nu := more_units n) in *. assert (Hnu : n <= nu < 2 ^ 28) by (unfold nu, more_units; destruct (Z.ltb_spec n 4096); lia). pose proof (Hgr _ _ Hg ltac:(lia)) as Hend.
  pose proof (rg_brk _ _ (ho_ring _ _ _ H)) as Hbrk. pose proof (rg_base _ _ (ho_ring _ _ _ H)) as Hb0.
  set (v := match hdr s !! brk s with Some h => fst h | None => 0 end). set (s0 := mkheap (<[brk s := (v, nu)]> (hdr s)) (freep s) (brk s + 8 * nu)).
  assert (Hcov : forall y, covers l y -> y < brk s). { intros y (b & Hb & Hy). destruct (asc_in _ _ _ (rg_asc _ _ (ho_ring _ _ _ H)) Hb) as (_ & _ & Q). pose proof (rg_top _ _ (ho_ring _ _ _ H)). lia. }
  assert (Hnone : A !! brk s = None). { destruct (A !! brk s) as [k|] eqn:E; [|done]. destruct (ho_used _ _ _ H _ _ E) as (_ & Q1 & Q2 & _). lia. }
  assert (Hbl : brk s ∉ l.*1). { intros ([a k] & Ea & Hb)%list_elem_of_fmap. destruct (rg_head _ _ (ho_ring _ _ _ H)) as (t & Ht & Hp). cbn [fst] in *. rewrite Ht in Hb.
    apply elem_of_cons in Hb as [E|Hb]; [injection E as -> ->; lia|]. rewrite Forall_forall in Hp. specialize (Hp _ Hb). cbn in Hp. assert (a < brk s) by (apply Hcov; apply (in_covers _ _ k); [rewrite Ht; by right|done]). lia. }
  assert (H0 : heap_ok s0 l (<[brk s := nu]> A)).
  { constructor.
    - destruct (ho_ring _ _ _ H) as [R1 R2 R3 R4 R5 R6 R7]. constructor; cbn; try done; try lia. by apply seg_insert.
    - intros a k [[<- <-]|[Hne Ha]]%lookup_insert_Some; cbn [brk hdr s0]; [split_and!; [lia..|]; exists v; by rewrite lookup_insert_eq|].
      destruct (ho_used _ _ _ H _ _ Ha) as (U1 & U2 & U3 & y & U4). split_and!; [lia..|]. exists y. by rewrite lookup_insert_ne.
    - intros a k x [[<- <-]|[Hne Ha]]%lookup_insert_Some Hx; [|by apply (ho_free _ _ _ H a k x)]. intros Hc. apply Hcov in Hc. lia.
    - intros a k b k' [[<- <-]|[Hne Ha]]%lookup_insert_Some [[<- <-]|[Hne' Hb]]%lookup_insert_Some Hab; [done|..|by apply (ho_apart _ _ _ H)].
      + destruct (ho_used _ _ _ H _ _ Hb) as (_ & _ & U & _). by right.
      + destruct (ho_used _ _ _ H _ _ Ha) as (_ & _ & U & _). by left. }
  destruct (free_heap s0 l (<[brk s := nu]> A) (brk s) nu fuel H0) as (s1 & l1 & Hrun & H1 & Hb1 & Hl1 & Hc1 & (b & Hb & Hbig)); [by rewrite lookup_insert_eq|done|].
  rewrite delete_insert_id in H1 by done. exists s1, l1. split_and!; try done.
  - unfold morecore. fold (more_units n). fold nu. cbv zeta. unfold sbrk. rewrite s32_small by lia. rewrite (Z.mul_comm nu 8). unfold bind at 1. rewrite Hg. cbn [rbind].
    rewrite (proj2 (Z.eqb_neq (brk s) (-1))) by lia. rewrite bind_modify. by rewrite (bind_Ret _ _ _ _ _ (Hrun : free fuel (brk s + 8) (set_hdr _ (set_brk _ s)) = _)).
  - intros Hall. rewrite Forall_forall in Hall. apply Hall in Hb. lia.
Qed.

Lemma units_bounds nbytes : 0 <= nbytes <= 2 ^ 31 - 16 -> 0 < units nbytes < 2 ^ 28 /\ nbytes <= 8 * units nbytes - 8 < nbytes + 8.
Proof using Type.
  intros Hn. unfold units. pose proof (Z.div_mod (nbytes + 8 - 1) 8) as Hd. pose proof (Z.mod_pos_bound (nbytes + 8 - 1) 8) as Hm.
  rewrite (u32_small (nbytes + 8 - 1)) by (unfold is_u32; lia). rewrite u32_small by (unfold is_u32; lia). lia.
Qed.

(** A heap that is in use, or the one a program starts with. *)
Definition usable s (l : list (Z * Z)) (A : gmap Z Z) : Prop :=
  heap_ok s l A \/ (freep s = 0 /\ l = [] /\ A = ∅ /\ 0 < base < brk s /\ brk s <= 2 ^ 31).

Lemma heap_start s : 0 < base < brk s -> brk s <= 2 ^ 31 -> heap_ok (mkheap (<[base := (base, 0)]> (hdr s)) base (brk s)) [(base, 0)] ∅.
Proof using Type.
  intros Hb Hbrk. constructor; try done. constructor; cbn; try lia; [by rewrite lookup_insert_eq|by exists []|left].
Qed.

(** [malloc]'s loop, from where [malloc] starts it. *)
Lemma malloc_walk s l A n fuel h : heap_ok s l A -> 0 < n < 2 ^ 28 -> (2 * length l + 1 <= fuel)%nat -> hdr s !! freep s = Some h ->
  (Forall (fun b => snd b < n) l /\ grants (brk s) (8 * more_units n) = false /\ malloc_loop fuel n (freep s) (fst h) s = Ret 0 s) \/
  exists c s' l', malloc_loop fuel n (freep s) (fst h) s = Ret (c + 8) s' /\ (length l' <= length l + 1)%nat /\ heap_ok s' l' (<[c := n]> A) /\ A !! c = None /\
    brk s <= brk s' /\ (forall x, covers l' x \/ c <= x < c + 8 * n <-> covers l x \/ brk s <= x < brk s').
Proof using Hgr.
  intros H Hn Hf Hh. destruct (decide (Forall (fun b => snd b < n) l)) as [Hall|Hfit].
  2: { right. destruct (malloc_fits s l A n fuel h H) as (c & s' & l' & Hrun & [T1 T2 T3 T4 T5]); [lia|done|lia|done|]. exists c, s', l'. split_and!; try done; [lia|lia|]. intros x. rewrite <- T3, T4. intuition lia. }
  destruct (ring_walk _ _ (ho_ring _ _ _ H)) as (l1 & sf & l2 & Hl & Hnx & Hseg & Hne & Hbase).
  assert (Hlen : length l = S (length (l2 ++ l1))) by (rewrite Hl, !length_app; cbn [length]; lia).
  assert (Hstep : malloc_loop fuel n (freep s) (fst h) s = malloc_loop (S (fuel - length l)) n (foldl (fun _ b => fst b) (freep s) (l2 ++ l1)) (freep s) s).
  { rewrite Hnx in Hh. injection Hh as <-. cbn [fst]. rewrite (assoc_L (++)) in Hseg |- *. rewrite <- (walk_skip s n _ (S (fuel - length l)) _ _ _ _ Hseg); [f_equal; lia|].
    apply Forall_and. split; [|done]. rewrite Hl in Hall. rewrite Forall_app, Forall_cons in Hall. apply Forall_app. tauto. }
  assert (Hsf : sf < n). { rewrite Hl in Hall. apply Forall_app in Hall as [_ Hall]. by apply Forall_cons in Hall as [Hsf _]. }
  rewrite Hstep. cbn [malloc_loop]. rewrite (bind_Ret _ _ _ _ _ (hget_run _ _ _ Hnx)). cbn [fst snd]. rewrite (proj2 (Z.leb_gt n sf)) by done. rewrite bind_gets, Z.eqb_refl.
  destruct (grants (brk s) (8 * more_units n)) eqn:Hg.
  - right. destruct (morecore_run s l A n (fuel - length l) H Hn Hg) as (s1 & k1 & Hmore & H1 & Hb1 & Hl1 & Hbig & Hc1); [lia|]. rewrite (bind_Ret _ _ _ _ _ Hmore).
    pose proof (rg_free _ _ (ho_ring _ _ _ H1)) as Hfr. destruct (asc_addr _ _ _ (rg_asc _ _ (ho_ring _ _ _ H1)) Hfr) as [Q _]. pose proof (rg_base _ _ (ho_ring _ _ _ H1)).
    rewrite (proj2 (Z.eqb_neq (freep s1) 0)) by lia. destruct (ring_walk _ _ (ho_ring _ _ _ H1)) as (k2 & sf' & k3 & _ & Hnx' & _). rewrite (bind_Ret _ _ _ _ _ (hget_run _ _ _ Hnx')).
    destruct (malloc_fits s1 k1 A n (fuel - length l) _ H1 (proj1 Hn) Hbig ltac:(lia) Hnx') as (c & s' & l' & Hrun & [T1 T2 T3 T4 T5]). exists c, s', l'.
    assert (0 <= more_units n) by (unfold more_units; destruct (n <? 4096); lia). split_and!; try done; [lia|lia|]. intros x. rewrite <- T3, Hc1, T4, Hb1. done.
  - left. split_and!; try done. assert (Hno : morecore (fuel - length l) n s = Ret 0 s).
    { unfold morecore. fold (more_units n). cbv zeta. unfold sbrk. assert (more_units n < 2 ^ 28 /\ 0 <= more_units n) by (unfold more_units; destruct (n <? 4096); lia).
      rewrite s32_small by lia. rewrite (Z.mul_comm (more_units n) 8). unfold bind. by rewrite Hg. }
    by rewrite (bind_Ret _ _ _ _ _ Hno).
Qed.

(** What a call of [malloc] may do: with [r] = 0 it changes nothing, and otherwise it puts
    the block before [r] in use, out of free memory and what the process has grown by. *)
Definition allocates s l A nbytes r s' l' : Prop :=
  let n := units nbytes in
  (r = 0 /\ Forall (fun b => snd b < n) l /\ grants (brk s) (8 * more_units n) = false /\ heap_ok s' l' A /\ brk s' = brk s /\ (forall x, covers l' x <-> covers l x)) \/
  (exists c, r = c + 8 /\ nbytes <= 8 * n - 8 < nbytes + 8 /\ heap_ok s' l' (<[c := n]> A) /\ A !! c = None /\
     forall x, covers l' x \/ c <= x < c + 8 * n <-> covers l x \/ brk s <= x < brk s').

Lemma malloc_enter s l A : usable s l A -> exists s0 l0, heap_ok s0 l0 A /\ (length l0 <= length l + 1)%nat /\ brk s0 = brk s /\ (forall x, covers l0 x <-> covers l x) /\
  (forall n, Forall (fun b => snd b < n) l0 -> Forall (fun b => snd b < n) l) /\
  forall fuel nbytes, malloc fuel nbytes s = (h <- hget (freep s0) ;; malloc_loop fuel (units nbytes) (freep s0) (fst h)) s0.
Proof using Type.
  intros [H|(H1 & -> & -> & H2 & H3)].
  - exists s, l. split_and!; try done; [lia|]. intros fuel nbytes. pose proof (rg_free _ _ (ho_ring _ _ _ H)) as Hfr. destruct (asc_addr _ _ _ (rg_asc _ _ (ho_ring _ _ _ H)) Hfr) as [Q _].
    pose proof (rg_base _ _ (ho_ring _ _ _ H)). unfold malloc. rewrite bind_gets. by rewrite (proj2 (Z.eqb_neq (freep s) 0)) by lia.
  - eexists _, _. split; [exact (heap_start s H2 H3)|]. split_and!; try done; [intros x; rewrite covers_cons, covers_nil; cbn; lia|]. intros fuel nbytes. unfold malloc. rewrite bind_gets. by rewrite H1.
Qed.

Lemma malloc_run s l A nbytes fuel : usable s l A -> 0 <= nbytes <= 2 ^ 31 - 16 -> (2 * length l + 3 <= fuel)%nat ->
  exists r s' l', malloc fuel nbytes s = Ret r s' /\ (length l' <= length l + 2)%nat /\ allocates s l A nbytes r s' l'.
Proof using Hgr.
  intros Hu Hnb Hf. destruct (units_bounds nbytes Hnb) as [Hn Hsz]. destruct (malloc_enter _ _ _ Hu) as (s0 & l0 & H & Hl0 & Hb0 & Hc0 & Hall & E).
  destruct (ring_walk _ _ (ho_ring _ _ _ H)) as (k1 & sf & k2 & _ & Hnx & _). rewrite E, (bind_Ret _ _ _ _ _ (hget_run _ _ _ Hnx)).
  destruct (malloc_walk s0 l0 A (units nbytes) fuel _ H Hn ltac:(lia) Hnx) as [(W1 & W2 & W3)|(c & s' & l' & W1 & W2 & W3 & W4 & W5 & W6)].
  - exists 0, s0, l0. split_and!; [done|lia|]. left. rewrite <- Hb0. split_and!; auto.
  - exists (c + 8), s', l'. split_and!; [done|lia|]. right. exists c. split_and!; try done; try lia. intros x. by rewrite W6, Hc0, Hb0.
Qed.

(** C38 (termination).  [malloc] of up to [2 ^ 31 - 16] bytes returns within two turns around
    the ring.  It returns 0 only if no free block is large enough and the kernel does not
    grow the process, and then the heap is as before; otherwise it returns a block of the
    right size that was free or is new, and nothing else leaves the free memory. *)
Theorem malloc_returns s l A nbytes fuel :
  usable s l A -> 0 <= nbytes <= 2 ^ 31 - 16 -> (2 * length l + 3 <= fuel)%nat ->
  let n := units nbytes in
  exists r s' l', malloc fuel nbytes s = Ret r s' /\ (length l' <= length l + 2)%nat /\
    ((r = 0 /\ Forall (fun b => snd b < n) l /\ grants (brk s) (8 * more_units n) = false /\ heap_ok s' l' A /\ brk s' = brk s /\ (forall x, covers l' x <-> covers l x)) \/
     (exists c, r = c + 8 /\ nbytes <= 8 * n - 8 < nbytes + 8 /\ heap_ok s' l' (<[c := n]> A) /\ A !! c = None /\
        forall x, covers l' x \/ c <= x < c + 8 * n <-> covers l x \/ brk s <= x < brk s')).
Proof using Hgr. intros Hu Hnb Hf. exact (malloc_run s l A nbytes fuel Hu Hnb Hf). Qed.

(** A client: it asks for memory and gives back what it holds. *)
Inductive req := Get (nbytes : Z) | Put (p : Z).
Fixpoint client (fuel : nat) (A : gmap Z Z) (rs : list req) : M heap (gmap Z Z) :=
  match rs with
  | [] => ret A
  | Get n :: rs => r <- malloc fuel n ;; client fuel (if r =? 0 then A else <[r - 8 := units n]> A) rs
  | Put p :: rs =>
      match A !! (p - 8) with
      | Some _ => free fuel p ;; client fuel (delete (p - 8) A) rs
      | None => client fuel A rs
      end
  end.

(** C37 (type).  The heap is well formed forever: from the first call on, whatever a client
    asks for and in whatever order it frees the blocks it holds, every call returns, the
    free list stays a ring of ascending blocks that do not touch, and the blocks in use lie
    in the memory of the process, have their size in their header and overlap neither each
    other nor free memory. *)
Theorem heap_invariant rs : forall s l A fuel,
  usable s l A -> Forall (fun r => match r with Get n => 0 <= n <= 2 ^ 31 - 16 | Put _ => True end) rs -> (2 * (length l + 2 * length rs) + 3 <= fuel)%nat ->
  exists A' s' l', client fuel A rs s = Ret A' s' /\ usable s' l' A'.
Proof using Hgr.
  induction rs as [|r rs IH]; intros s l A fuel Hu Hrs Hf; [by exists A, s, l|]. apply Forall_cons in Hrs as [Hr Hrs]. cbn [length] in Hf. destruct r as [n|p]; cbn [client].
  - destruct (malloc_run s l A n fuel Hu Hr) as (r & s' & l' & Hrun & Hlen & Hres); [lia|]. rewrite (bind_Ret _ _ _ _ _ Hrun).
    apply (IH s' l'); [|done|lia]. left. destruct Hres as [(-> & _ & _ & H & _)|(c & -> & _ & H & _)]; [done|].
    destruct (ho_used _ _ _ H c (units n)) as (Q & _); [by rewrite lookup_insert_eq|]. pose proof (rg_base _ _ (ho_ring _ _ _ H)).
    rewrite (proj2 (Z.eqb_neq (c + 8) 0)) by lia. by replace (c + 8 - 8) with c by lia.
  - destruct (A !! (p - 8)) as [sz|] eqn:E; [|apply (IH s l); [done..|lia]]. destruct Hu as [H|(_ & _ & -> & _)]; [|by rewrite lookup_empty in E].
    destruct (free_heap s l A (p - 8) sz fuel H E) as (s' & l' & Hrun & H' & _ & Hlen & _); [lia|]. replace (p - 8 + 8) with p in Hrun by lia.
    rewrite (bind_Ret _ _ _ _ _ Hrun). apply (IH s' l'); [by left|done|lia].
Qed.
End Umalloc.

Definition demo_heap : heap := mkheap ∅ 0 16384.

Lemma malloc_returns_witness : exists r s' (l' : list (Z * Z)), malloc 4096 (fun _ _ => false) 3 100 demo_heap = Ret r s' /\ (length l' <= 2)%nat.
Proof.
  destruct (malloc_returns 4096 (fun _ _ => false) ltac:(done) demo_heap [] ∅ 100 3) as (r & s' & l' & H1 & H2 & _); [|lia|cbn; lia|].
  - right. cbn. split_and!; try done; lia.
  - by exists r, s', l'.
Defined.

Lemma heap_invariant_witness : exists A' s' l',
  client 4096 (fun b n => b + n <=? 2 ^ 31) 15 ∅ [Get 100; Get 40000; Put 49048] demo_heap = Ret A' s' /\ usable 4096 s' l' A'.
Proof.
  apply (heap_invariant 4096 (fun b n => b + n <=? 2 ^ 31)) with (l := []).
  - intros b n H _. by apply Z.leb_le in H.
  - right. cbn. split_and!; try done; lia.
  - repeat constructor; lia.
  - cbn. lia.
Defined.

(** A request near [2 ^ 32] is not refused: its size in bytes wraps around to -8, [sbrk]
    takes 8 bytes away from the process, and [malloc] returns a pointer behind the end of
    its memory. *)
Theorem malloc_shrinks : exists s', malloc 4096 (fun _ _ => true) 9 (2 ^ 32 - 16) demo_heap = Ret (16384 + 8) s' /\ brk s' = 16384 - 8.
Proof. eexists. split; [vm_compute; reflexivity|reflexivity]. Qed.
