(* ===== verification/Sh.v ===== *)
(** * The shell

    Models the parser and [runcmd] of [sh.c]; [getcmd] and [main] are in [ShMain.v].  The parser works on the line in place: a word is a pair of
    positions in the buffer, and [nulterminate] finally ends each word with a NUL.  The
    state is the buffer and [*ps], the position of the parser.  Characters are numbers;
    97 ([a]) and 43 ([+]) are also the codes of the tokens for a word and for [>>]. *)

From Stdlib Require Import ZArith Lia.
From S2P Require Import Prelude Fcntl.

(** ** Commands, over the type of their words *)

Inductive cmd (W : Type) :=
| EXEC (argv : list W)
| REDIR (c : cmd W) (file : W) (mode fd : Z)
| PIPE (left right : cmd W)
| LIST (left right : cmd W)
| BACK (c : cmd W).
Arguments EXEC {W}.
Arguments REDIR {W}.
Arguments PIPE {W}.
Arguments LIST {W}.
Arguments BACK {W}.

Definition MAXARGS : nat := 10.

(** The constructors of the program, which put a zeroed node of their kind in memory. *)
Definition execcmd {W} : cmd W := EXEC [].
Definition redircmd {W} (subcmd : cmd W) (file : W) (mode fd : Z) : cmd W := REDIR subcmd file mode fd.
Definition pipecmd {W} (left right : cmd W) : cmd W := PIPE left right.
Definition listcmd {W} (left right : cmd W) : cmd W := LIST left right.
Definition backcmd {W} (subcmd : cmd W) : cmd W := BACK subcmd.

(** [cmd->argv] of the [execcmd] below the redirections that [parseexec] has put around it. *)
Fixpoint upd_argv {W} (f : list W -> list W) (c : cmd W) : cmd W :=
  match c with
  | EXEC argv => EXEC (f argv)
  | REDIR c file mode fd => REDIR (upd_argv f c) file mode fd
  | _ => c
  end.

(** ** The parser *)

Record line_st := mkline { buf : list Z; ps : nat }.
Definition set_buf (b : list Z) (s : line_st) : line_st := mkline b (ps s).
Definition set_ps (p : nat) (s : line_st) : line_st := mkline (buf s) p.

Definition whitespace : list Z := [32; 9; 13; 10; 11].
Definition symbols : list Z := [60; 124; 62; 38; 59; 40; 41].

(** [strchr(l, c)] of a string [l] of the program: whether it has [c]. *)
Definition has (l : list Z) (c : Z) : bool := existsb (Z.eqb c) l.
Definition is_ws (c : Z) : bool := has whitespace c.
Definition is_word (c : Z) : bool := negb (is_ws c) && negb (has symbols c).

Definition getc (s : nat) : M line_st Z := fun st => match buf st !! s with Some c => Ret c st | None => UB "read" end.
Definition putc (s : nat) (c : Z) : M line_st unit :=
  fun st => if (s <? length (buf st))%nat then Ret tt (set_buf (<[s := c]> (buf st)) st) else UB "write".

(** [while(s < es && f( *s)) s++]: it takes at most [es - s] turns. *)
Fixpoint skip_loop (f : Z -> bool) (b : list Z) (turns s : nat) : nat :=
  match turns with
  | O => s
  | S turns => if f (nth s b 0) then skip_loop f b turns (S s) else s
  end.
Definition skip (f : Z -> bool) (b : list Z) (es s : nat) : nat := skip_loop f b (es - s) s.

(** The code of the token, [*q] and [*eq]. *)
Definition gettoken (es : nat) : M line_st (Z * nat * nat) :=
  b <- gets buf ;;
  s <- gets ps ;;
  let s := skip is_ws b es s in
  c <- getc s ;;
  r <- (if c =? 0 then ret (c, s)
        else if has [124; 40; 41; 59; 38; 60] c then ret (c, S s)
        else if c =? 62 then
          d <- getc (S s) ;;
          ret (if d =? 62 then (43, S (S s)) else (c, S s))
        else ret (97, skip is_word b es s)) ;;
  modify (set_ps (skip is_ws b es (snd r))) ;;
  ret (fst r, s, snd r).

Definition peek (es : nat) (toks : list Z) : M line_st bool :=
  b <- gets buf ;;
  s <- gets ps ;;
  let s := skip is_ws b es s in
  modify (set_ps s) ;;
  c <- getc s ;;
  ret (negb (c =? 0) && has toks c).

Definition pcmd := cmd (nat * nat).

(** The [switch] of [parseredirs]. *)
Definition add_redir (tok : Z) (c : pcmd) (file : nat * nat) : pcmd :=
  if tok =? 60 then redircmd c file O_RDONLY 0
  else if tok =? 62 then redircmd c file (Z.lor O_WRONLY O_CREATE) 1
  else if tok =? 43 then redircmd c file (Z.lor O_WRONLY O_CREATE) 1
  else c.

Fixpoint parseredirs (fuel es : nat) (c : pcmd) : M line_st pcmd :=
  match fuel with
  | O => nofuel
  | S fuel =>
      p <- peek es [60; 62] ;;
      if p then
        t <- gettoken es ;;
        w <- gettoken es ;;
        if negb (fst (fst w) =? 97) then panic "missing file for redirection" else
        parseredirs fuel es (add_redir (fst (fst t)) c (snd (fst w), snd w))
      else ret c
  end.

(** The loop of [parseexec]. *)
Fixpoint args_loop (fuel es argc : nat) (r : pcmd) : M line_st pcmd :=
  match fuel with
  | O => nofuel
  | S fuel =>
      p <- peek es [124; 41; 38; 59] ;;
      if p then ret r else
      t <- gettoken es ;;
      if fst (fst t) =? 0 then ret r else
      if negb (fst (fst t) =? 97) then panic "syntax" else
      let r := upd_argv (fun argv => argv ++ [(snd (fst t), snd t)]) r in
      let argc := S argc in
      if (MAXARGS <=? argc)%nat then panic "too many args" else
      r <- parseredirs (S es) es r ;;
      args_loop fuel es argc r
  end.

(** The [&] loop of [parseline]. *)
Fixpoint amp_loop (fuel es : nat) (c : pcmd) : M line_st pcmd :=
  match fuel with
  | O => nofuel
  | S fuel =>
      p <- peek es [38] ;;
      if p then gettoken es ;; amp_loop fuel es (backcmd c) else ret c
  end.

Fixpoint parseline (fuel es : nat) : M line_st pcmd :=
  match fuel with
  | O => nofuel
  | S fuel =>
      c <- parsepipe fuel es ;;
      c <- amp_loop (S es) es c ;;
      p <- peek es [59] ;;
      if p then
        gettoken es ;;
        c' <- parseline fuel es ;;
        ret (listcmd c c')
      else ret c
  end
with parsepipe (fuel es : nat) : M line_st pcmd :=
  match fuel with
  | O => nofuel
  | S fuel =>
      c <- parseexec fuel es ;;
      p <- peek es [124] ;;
      if p then
        gettoken es ;;
        c' <- parsepipe fuel es ;;
        ret (pipecmd c c')
      else ret c
  end
with parseexec (fuel es : nat) : M line_st pcmd :=
  match fuel with
  | O => nofuel
  | S fuel =>
      p <- peek es [40] ;;
      if p then parseblock fuel es else
      r <- parseredirs (S es) es execcmd ;;
      args_loop (S es) es 0 r
  end
with parseblock (fuel es : nat) : M line_st pcmd :=
  match fuel with
  | O => nofuel
  | S fuel =>
      p <- peek es [40] ;;
      if negb p then panic "parseblock" else
      gettoken es ;;
      c <- parseline fuel es ;;
      p <- peek es [41] ;;
      if negb p then panic "syntax - missing )" else
      gettoken es ;;
      parseredirs (S es) es c
  end.

(** NUL-terminate all the counted strings. *)
Fixpoint nulterminate (c : pcmd) : M line_st unit :=
  match c with
  | EXEC argv => forM argv (fun w => putc (snd w) 0)
  | REDIR c file _ _ => nulterminate c ;; putc (snd file) 0
  | PIPE l r | LIST l r => nulterminate l ;; nulterminate r
  | BACK c => nulterminate c
  end.

(** The C string at the beginning of a buffer. *)
Fixpoint cstr (b : list Z) : list Z :=
  match b with
  | [] => []
  | c :: b => if c =? 0 then [] else c :: cstr b
  end.

(** [parsecmd] of a line.  The parser calls itself at most four times per token. *)
Definition parsecmd : M line_st pcmd :=
  b <- gets buf ;;
  let es := length (cstr b) in
  modify (set_ps 0) ;;
  c <- parseline (4 * es + 4) es ;;
  peek es [] ;;
  s <- gets ps ;;
  if negb (s =? es)%nat then panic "syntax" else
  nulterminate c ;;
  ret c.

(** ** Running a command

    A process is its table of open files.  What it does is the tree of its calls of [fork], each
    with the process that it makes and with how the caller goes on, of [wait] and of [exec], the
    latter two with the table at the time of the call. *)

Inductive desc := File (id : Z) | Pipe_read (id : nat) | Pipe_write (id : nat).
Notation fds := (gmap nat desc).

Inductive beh (W : Type) :=
| Exit
| Error (msg : string)                 (* a message, and [exit] *)
| Exec (argv : list W) (t : fds)       (* if it fails, a message, and [exit] *)
| Fork (child rest : beh W)
| Wait (t : fds) (rest : beh W).
Arguments Exit {W}.
Arguments Error {W}.
Arguments Exec {W}.
Arguments Fork {W}.
Arguments Wait {W}.

(** The descriptor a call gets: the lowest free one of the 16. *)
Definition lowest (t : fds) : option nat := head (filter (fun n => t !! n = None) (seq 0 16)).
Definition dup (t : fds) (fd : nat) : fds :=
  match t !! fd, lowest t with
  | Some d, Some n => <[n := d]> t
  | _, _ => t
  end.

Section Run.
(** What [open] finds, and which calls of [fork] succeed. *)
Context {W : Type} (opens : W -> Z -> option desc) (forks : nat -> bool).

(** The children of a pipeline. *)
Definition pipe_left (t : fds) (p0 p1 : nat) : fds := delete p1 (delete p0 (dup (delete 1%nat t) p1)).
Definition pipe_right (t : fds) (p0 p1 : nat) : fds := delete p1 (delete p0 (dup (delete 0%nat t) p0)).

(** [runcmd] in a process with the table [t]; [w] counts the calls made so far, and names
    the pipes. *)
Fixpoint runcmd (c : cmd W) (t : fds) (w : nat) : beh W * nat :=
  match c with
  | EXEC [] => (Exit, w)
  | EXEC argv => (Exec argv t, w)
  | REDIR c file mode fd =>
      let t := delete (Z.to_nat fd) t in
      match lowest t, opens file mode with
      | Some n, Some d => runcmd c (<[n := d]> t) w
      | _, _ => (Error "open", w)
      end
  | LIST l r =>
      if forks w then
        let a := runcmd l t (S w) in
        let b := runcmd r t (snd a) in
        (Fork (fst a) (Wait t (fst b)), snd b)
      else (Error "fork", S w)
  | PIPE l r =>
      match lowest t with
      | None => (Error "pipe", w)
      | Some p0 =>
          let t0 := <[p0 := Pipe_read w]> t in
          match lowest t0 with
          | None => (Error "pipe", w)
          | Some p1 =>
              let t1 := <[p1 := Pipe_write w]> t0 in
              if forks w then
                let a := runcmd l (pipe_left t1 p0 p1) (S w) in
                if forks (snd a) then
                  let b := runcmd r (pipe_right t1 p0 p1) (S (snd a)) in
                  let t2 := delete p1 (delete p0 t1) in
                  (Fork (fst a) (Fork (fst b) (Wait t2 (Wait t2 Exit))), snd b)
                else (Fork (fst a) (Error "fork"), S (snd a))
              else (Error "fork", S w)
          end
      end
  | BACK c =>
      if forks w then
        let a := runcmd c t (S w) in (Fork (fst a) Exit, snd a)
      else (Error "fork", S w)
  end.
End Run.

(** ** The loop of the shell *)

(** What the shell does with a line it has read: [chdir] itself, or the command of a child. *)
Inductive action := Chdir (path : list Z) | Command (r : res line_st pcmd).

Definition handle_line (b : list Z) : action :=
  if (nth 0 b 0 =? 99) && (nth 1 b 0 =? 100) && (nth 2 b 0 =? 32)
  then Chdir (cstr (drop 3 (<[(length (cstr b) - 1)%nat := 0]> b)))
  else Command (parsecmd (mkline b 0)).

(** The lines of [getcmd] in order, up to an empty one, the end of the input. *)
Fixpoint shell (inputs : list (list Z)) : list action :=
  match inputs with
  | [] => []
  | b :: inputs => if nth 0 b 0 =? 0 then [] else handle_line b :: shell inputs
  end.
