(* ===== verification/ShSpec.v ===== *)
(** * The language of the shell

    A reference lexer and a grammar for the lines of [sh.c], and what [gettoken] and [peek]
    do in terms of the tokens that are still to come. *)

From Stdlib Require Import ZArith Lia.
From S2P Require Import Prelude Fcntl Sh.

(** ** Tokens *)

(** A token has a code and the positions where it begins and ends. *)
Definition token := (Z * nat * nat)%type.
Definition kind (t : token) : Z := fst (fst t).
Definition word (t : token) : nat * nat := (snd (fst t), snd t).

(** The end of the word that began at [cur], if any. *)
Definition flush (cur : option nat) (p : nat) : list token := match cur with Some q => [(97, q, p)] | None => [] end.

(** The tokens of a text that begins at position [p], character by character. *)
Fixpoint tokens (cur : option nat) (p : nat) (l : list Z) : list token :=
  match l with
  | [] => flush cur p
  | c :: l1 =>
      if is_word c then tokens (Some (default p cur)) (S p) l1 else
      flush cur p ++
      if is_ws c then tokens None (S p) l1 else
      match l1 with
      | 62 :: l2 => if c =? 62 then (43, p, S (S p)) :: tokens None (S (S p)) l2 else (c, p, S p) :: tokens None (S p) l1
      | _ => (c, p, S p) :: tokens None (S p) l1
      end
  end.

(** How many characters at the beginning satisfy [f]. *)
Fixpoint span (f : Z -> bool) (l : list Z) : nat :=
  match l with
  | [] => 0
  | c :: l => if f c then S (span f l) else 0
  end.

Lemma span_le f l : (span f l <= length l)%nat.
Proof. induction l as [|c l IH]; cbn [span length]; [lia|]. destruct (f c); lia. Qed.

Lemma span_stop f l c : drop (span f l) l !! 0%nat = Some c -> f c = false.
Proof. induction l as [|x l IH]; cbn [span drop]; [done|]. destruct (f x) eqn:E; [exact IH|]. by intros [= <-]. Qed.

Lemma span_in f l i c : (i < span f l)%nat -> l !! i = Some c -> f c = true.
Proof.
  revert i. induction l as [|x l IH]; intros i Hi; cbn [span] in Hi; [lia|]. destruct (f x) eqn:E; [|lia]. destruct i as [|i]; [by intros [= <-]|]. apply IH. lia.
Qed.

Lemma ws_not_word c : is_ws c = true -> is_word c = false.
Proof. unfold is_word. by intros ->. Qed.

Lemma tokens_ws p l : tokens None p l = tokens None (p + span is_ws l) (drop (span is_ws l) l).
Proof.
  revert p. induction l as [|c l IH]; intros p; cbn [span drop]; [by rewrite Nat.add_0_r|]. destruct (is_ws c) eqn:E; [|by rewrite Nat.add_0_r].
  cbn [tokens drop]. rewrite (ws_not_word _ E), E. cbn [flush app]. rewrite IH. f_equal. lia.
Qed.

Lemma tokens_word q p l : tokens (Some q) p l = (97, q, (p + span is_word l)%nat) :: tokens None (p + span is_word l) (drop (span is_word l) l).
Proof.
  revert p. induction l as [|c l IH]; intros p; cbn [span drop tokens flush]; [by rewrite Nat.add_0_r|]. destruct (is_word c) eqn:E.
  - cbn [default]. rewrite IH. by rewrite Nat.add_succ_r.
  - rewrite Nat.add_0_r. cbn [tokens drop flush app]. by rewrite E.
Qed.

Lemma tokens_sym p c l : is_word c = false -> is_ws c = false -> tokens None p (c :: l) =
  if (c =? 62) && (hd 0 l =? 62) then (43, p, S (S p)) :: tokens None (S (S p)) (tl l) else (c, p, S p) :: tokens None (S p) l.
Proof.
  intros H1 H2. cbn [tokens]. rewrite H1, H2. cbn [flush app]. destruct l as [|d l]; cbn [hd tl]; [by rewrite andb_false_r|]. destruct (Z.eqb_spec d 62) as [->|Hd].
  - rewrite andb_true_r. by destruct (c =? 62).
  - rewrite andb_false_r. destruct d as [|d|d]; try done. do 6 (destruct d as [d|d|]; try done).
Qed.

(** A character that is neither white space nor part of a word. *)
Lemma symbol_cases c : is_word c = false -> is_ws c = false -> has [124; 40; 41; 59; 38; 60] c = negb (c =? 62).
Proof.
  unfold is_word. intros H Hws. rewrite Hws in H. cbn [negb andb] in H. apply negb_false_iff in H. unfold has, symbols in *. cbn [existsb] in *.
  destruct (Z.eqb_spec c 62) as [E|E]; [by rewrite E|]. cbn [negb]. rewrite !orb_false_r, !orb_true_iff in *. intuition congruence.
Qed.

Lemma word_cases c : is_word c = true -> is_ws c = false /\ has [124; 40; 41; 59; 38; 60] c = false /\ (c =? 62) = false.
Proof.
  unfold is_word. rewrite andb_true_iff, !negb_true_iff. intros [H1 H2]. split; [done|]. unfold has, symbols in *. cbn [existsb] in *. rewrite !orb_false_iff in *. tauto.
Qed.

Lemma tokens_kind l : forall cur p, Forall (fun c => c <> 0) l -> Forall (fun t => kind t <> 0) (tokens cur p l).
Proof.
  assert (Hfl : forall cur p, Forall (fun t => kind t <> 0) (flush cur p)) by (intros [q|] p; repeat constructor; done).
  induction l as [l IH] using (induction_ltof1 _ (@length Z)). unfold ltof in IH. intros cur p Hl. destruct l as [|c l]; [apply Hfl|]. apply Forall_cons in Hl as [Hc Hl].
  destruct (is_word c) eqn:Hw; [cbn [tokens]; rewrite Hw; apply IH; [cbn; lia|done]|]. replace (tokens cur p (c :: l)) with (flush cur p ++ tokens None p (c :: l)) by (cbn [tokens]; by rewrite Hw).
  apply Forall_app. split; [apply Hfl|]. destruct (is_ws c) eqn:Hws; [cbn [tokens]; rewrite Hw, Hws; apply IH; [cbn; lia|done]|]. rewrite tokens_sym by done.
  destruct (_ && _); (constructor; [done|]); apply IH; try done; try (cbn [length]; lia); destruct l; cbn [tl length] in *; [lia|lia|done|by apply Forall_cons in Hl as [_ Hl]].
Qed.

Lemma tokens_length l : forall cur p, (length (tokens cur p l) <= length l + length (flush cur p))%nat.
Proof.
  induction l as [l IH] using (induction_ltof1 _ (@length Z)). unfold ltof in IH. intros cur p. destruct l as [|c l]; [done|].
  destruct (is_word c) eqn:Hw; [cbn [tokens]; rewrite Hw; specialize (IH l ltac:(cbn; lia) (Some (default p cur)) (S p)); cbn [flush length] in *; destruct cur; cbn [flush length]; lia|].
  replace (tokens cur p (c :: l)) with (flush cur p ++ tokens None p (c :: l)) by (cbn [tokens]; by rewrite Hw). rewrite length_app.
  assert (length (tokens None p (c :: l)) <= S (length l))%nat; [|cbn [length]; lia]. destruct (is_ws c) eqn:Hws; [cbn [tokens]; rewrite Hw, Hws; cbn [flush app]; specialize (IH l ltac:(cbn; lia) None (S p)); cbn in IH; lia|].
  rewrite tokens_sym by done. destruct (_ && _); cbn [length]; [|specialize (IH l ltac:(cbn; lia) None (S p)); cbn in IH; lia].
  assert (length (tl l) <= length l)%nat by (destruct l; cbn; lia). specialize (IH (tl l) ltac:(cbn; lia) None (S (S p))). cbn in IH. lia.
Qed.

(** ** The buffer *)

Section Lexer.
(** The line, without NUL, and what follows it in the buffer. *)
Context (text tail : list Z) (Htext : Forall (fun c => c <> 0) text).
Notation es := (length text).
Notation b := (text ++ 0 :: tail).

Lemma skip_loop_spec f n p : (p + n = es)%nat -> skip_loop f b n p = (p + span f (drop p text))%nat.
Proof using Type.
  revert p. induction n as [|n IH]; intros p Hp; cbn [skip_loop].
  - rewrite drop_ge by lia. cbn. lia.
  - destruct (lookup_lt_is_Some_2 text p) as [c Hc]; [lia|]. rewrite app_nth1 by lia. rewrite (nth_lookup_Some _ _ _ _ Hc), (drop_S _ _ _ Hc). cbn [span].
    destruct (f c); [|lia]. rewrite IH by lia. lia.
Qed.

Lemma skip_spec f p : (p <= es)%nat -> skip f b es p = (p + span f (drop p text))%nat.
Proof using Type. intros H. apply skip_loop_spec. lia. Qed.

Lemma skip_le f p : (p <= es)%nat -> (skip f b es p <= es)%nat.
Proof using Type. intros H. rewrite skip_spec by done. pose proof (span_le f (drop p text)) as Hs. rewrite length_drop in Hs. lia. Qed.

(** The tokens that are still to come at [p]. *)
Definition rest (p : nat) : list token := tokens None p (drop p text).

Lemma rest_skip p : (p <= es)%nat -> rest (skip is_ws b es p) = rest p.
Proof using Type. intros H. unfold rest. rewrite (tokens_ws p), drop_drop, skip_spec by done. done. Qed.

Lemma getc_in p q c : text !! q = Some c -> getc q (mkline b p) = Ret c (mkline b p) /\ (c =? 0) = false.
Proof using Htext.
  intros H. unfold getc. cbn [buf]. rewrite (lookup_app_l_Some _ _ _ _ H). split; [done|]. apply Z.eqb_neq. by apply (Forall_lookup_1 _ _ _ _ Htext H).
Qed.

Lemma getc_end p : getc es (mkline b p) = Ret 0 (mkline b p).
Proof using Type. unfold getc. cbn [buf]. by rewrite list_lookup_middle. Qed.

(** Where the parser looks: at the end, or at a character that is not white space. *)
Lemma look p : (p <= es)%nat -> let s := skip is_ws b es p in
  (s = es /\ rest p = []) \/ exists c, text !! s = Some c /\ is_ws c = false /\ rest p = tokens None s (c :: drop (S s) text).
Proof using Type.
  intros H s. pose proof (skip_le is_ws p H) as Hs. fold s in Hs. rewrite <- (rest_skip p H). fold s. unfold rest. destruct (text !! s) as [c|] eqn:E.
  - right. exists c. rewrite (drop_S _ _ _ E). split_and!; try done. apply (span_stop is_ws (drop p text)). rewrite drop_drop, lookup_drop, Nat.add_0_r, <- skip_spec; done.
  - apply lookup_ge_None in E. left. split; [lia|]. by rewrite drop_ge.
Qed.

Lemma gettoken_spec p : (p <= es)%nat ->
  match rest p with
  | [] => exists q, gettoken es (mkline b p) = Ret (0, q, q) (mkline b es)
  | t :: ts => exists p', gettoken es (mkline b p) = Ret t (mkline b p') /\ rest p' = ts /\ (p' <= es)%nat
  end.
Proof using Htext.
  intros H. unfold gettoken. rewrite !bind_gets. cbn [buf ps]. pose proof (look p H) as L. cbv zeta in L. generalize dependent (skip is_ws b es p). intros s L. destruct L as [[-> ->]|(c & Hc & Hws & ->)].
  { exists es. rewrite (bind_Ret _ _ _ _ _ (getc_end p)). cbn [Z.eqb]. unfold ret at 1. erewrite bind_Ret by reflexivity. cbn [fst snd]. rewrite bind_modify. unfold set_ps. cbn [buf].
    by rewrite skip_spec, drop_ge, Nat.add_0_r by lia. }
  pose proof (lookup_lt_Some _ _ _ Hc) as Hlt. destruct (getc_in p s c Hc) as [Hg H0]. rewrite (bind_Ret _ _ _ _ _ Hg), H0.
  assert (Hfin : forall (k : Z) e ts, (e <= es)%nat -> tokens None e (drop e text) = ts ->
    exists p', (modify (set_ps (skip is_ws b es e)) ;; ret (k, s, e)) (mkline b p) = Ret (k, s, e) (mkline b p') /\ rest p' = ts /\ (p' <= es)%nat).
  { intros k e ts He Hts. exists (skip is_ws b es e). split_and!; [done|by rewrite rest_skip|by apply skip_le]. }
  destruct (is_word c) eqn:Hw.
  - destruct (word_cases c Hw) as (_ & -> & ->). unfold ret at 1. erewrite bind_Ret by reflexivity. cbn [fst snd]. rewrite (skip_spec is_word s) by lia. rewrite (drop_S _ _ _ Hc). cbn [span]. rewrite Hw.
    cbn [tokens]. rewrite Hw. cbn [default]. rewrite tokens_word. rewrite Nat.add_succ_l, <- Nat.add_succ_r. pose proof (span_le is_word (drop (S s) text)) as Hsp. rewrite length_drop in Hsp.
    apply Hfin; [lia|]. rewrite drop_drop. do 2 f_equal. lia.
  - rewrite (symbol_cases c Hw Hws), tokens_sym by done. destruct (Z.eqb_spec c 62) as [->|Hne]; cbn [negb andb].
    2: { unfold ret at 1. erewrite bind_Ret by reflexivity. cbn [fst snd]. apply Hfin; [lia|done]. }
    assert (exists d, getc (S s) (mkline b p) = Ret d (mkline b p) /\ hd 0 (drop (S s) text) = d /\ (d = 62 -> (S s < es)%nat)) as (d & Hd & -> & Hd62).
    { destruct (text !! S s) as [d|] eqn:E.
      - exists d. rewrite (drop_S _ _ _ E). destruct (getc_in p (S s) d E) as [-> _]. apply lookup_lt_Some in E. split_and!; [done..|lia].
      - exists 0. apply lookup_ge_None in E. replace (S s) with es by lia. rewrite drop_all. split_and!; [apply getc_end|done|done]. }
    rewrite (bind_Ret _ _ _ (if d =? 62 then (43, S (S s)) else (62, S s)) (mkline b p)) by (by rewrite (bind_Ret _ _ _ _ _ Hd)). destruct (Z.eqb_spec d 62) as [E|E]; cbn [fst snd].
    + apply Hfin; [specialize (Hd62 E); lia|]. f_equal. replace (drop (S (S s)) text) with (drop 1 (drop (S s) text)) by (rewrite drop_drop; f_equal; lia). by destruct (drop (S s) text).
    + apply Hfin; [lia|done].
Qed.

(** Whether the next token begins with one of the characters [toks]. *)
Definition starts (toks : list Z) (ts : list token) : bool :=
  match ts with
  | [] => false
  | t :: _ => if kind t =? 97 then false else has toks (if kind t =? 43 then 62 else kind t)
  end.

Lemma peek_spec p toks : (p <= es)%nat -> Forall (fun c => has symbols c = true) toks ->
  exists p', peek es toks (mkline b p) = Ret (starts toks (rest p)) (mkline b p') /\ rest p' = rest p /\ (p' <= es)%nat /\ (rest p = [] <-> p' = es).
Proof using Htext.
  intros H Htoks. unfold peek. rewrite !bind_gets. cbn [buf ps]. exists (skip is_ws b es p). rewrite bind_modify. unfold set_ps. cbn [buf].
  assert (Hin : rest (skip is_ws b es p) = rest p /\ (skip is_ws b es p <= es)%nat) by (split; [by apply rest_skip|by apply skip_le]). pose proof (look p H) as L. cbv zeta in L.
  generalize dependent (skip is_ws b es p). intros s [Hr Hs] L. destruct L as [[-> Hn]|(c & Hc & Hws & Hn)].
  { rewrite (bind_Ret _ _ _ _ _ (getc_end es)), Hn. by rewrite Hn in Hr. }
  destruct (getc_in s s c Hc) as [Hg H0]. rewrite (bind_Ret _ _ _ _ _ Hg), H0. cbn [negb andb]. rewrite Hr. pose proof (lookup_lt_Some _ _ _ Hc). split_and!; [|done|done|].
  - unfold ret. f_equal. rewrite Hn. destruct (is_word c) eqn:Hw.
    + cbn [tokens]. rewrite Hw, tokens_word. cbn [starts kind fst]. apply not_true_iff_false. intros Hhas. unfold has in Hhas. apply existsb_exists in Hhas as (x & Hx & E%Z.eqb_eq). subst x.
      rewrite Forall_forall in Htoks. apply list_elem_of_In, Htoks in Hx. unfold is_word in Hw. rewrite Hx, andb_false_r in Hw. done.
    + assert (c <> 97 /\ c <> 43) as [E1 E2] by (split; intros ->; done). rewrite tokens_sym by done.
      destruct (Z.eqb_spec c 62) as [->|E3]; cbn [andb]; [destruct (_ =? 62); done|]. cbn [starts kind fst]. by rewrite (proj2 (Z.eqb_neq c 97) E1), (proj2 (Z.eqb_neq c 43) E2).
  - split; [|intros; lia]. rewrite Hn. destruct (is_word c) eqn:Hw; [cbn [tokens]; by rewrite Hw, tokens_word|]. rewrite tokens_sym by done. by destruct (_ && _).
Qed.
End Lexer.

(** ** The grammar *)

(** An argument, or a redirection: its operator and the file. *)
Inductive item := Arg (t : token) | Rd (op t : token).
Definition item_ok (i : item) : Prop := match i with Arg t => kind t = 97 | Rd op t => kind op ∈ [60; 62; 43] /\ kind t = 97 end.
Definition is_rd (i : item) : Prop := match i with Arg _ => False | Rd _ _ => True end.
Definition item_toks (i : item) : list token := match i with Arg t => [t] | Rd op t => [op; t] end.
Definition args (its : list item) : list (nat * nat) := flat_map (fun i => match i with Arg t => [word t] | Rd _ _ => [] end) its.
Definition redirect (c : pcmd) (op t : token) : pcmd :=
  if kind op =? 60 then REDIR c (word t) O_RDONLY 0 else REDIR c (word t) (Z.lor O_WRONLY O_CREATE) 1.
Definition redirected (c : pcmd) (its : list item) : pcmd :=
  foldl (fun c i => match i with Arg _ => c | Rd op t => redirect c op t end) c its.

(** A line is pipelines with [&] behind them, separated by [;].  A pipeline is commands
    separated by [|].  A command is arguments mixed with redirections, or a line in
    parentheses with redirections behind it.  Earlier redirections are the inner ones. *)
Inductive line : list token -> pcmd -> Prop :=
| line_one ts c amps :
    pipeline ts c -> Forall (fun t => kind t = 38) amps -> line (ts ++ amps) (Nat.iter (length amps) BACK c)
| line_seq ts c amps semi ts' c' :
    pipeline ts c -> Forall (fun t => kind t = 38) amps -> kind semi = 59 -> line ts' c' ->
    line (ts ++ amps ++ semi :: ts') (LIST (Nat.iter (length amps) BACK c) c')
with pipeline : list token -> pcmd -> Prop :=
| pipe_one ts c : command ts c -> pipeline ts c
| pipe_cons ts c bar ts' c' : command ts c -> kind bar = 124 -> pipeline ts' c' -> pipeline (ts ++ bar :: ts') (PIPE c c')
with command : list token -> pcmd -> Prop :=
| command_simple its : Forall item_ok its -> (length (args its) < MAXARGS)%nat -> command (flat_map item_toks its) (redirected (EXEC (args its)) its)
| command_block o ts c cl its :
    kind o = 40 -> line ts c -> kind cl = 41 -> Forall item_ok its -> Forall is_rd its ->
    command (o :: ts ++ cl :: flat_map item_toks its) (redirected c its).

Scheme line_mut := Induction for line Sort Prop
with pipeline_mut := Induction for pipeline Sort Prop
with command_mut := Induction for command Sort Prop.
Combined Scheme grammar_ind from line_mut, pipeline_mut, command_mut.

(** What may follow: the next token is one of [ks], or there is none. *)
Definition follow (ks : list Z) (r : list token) : Prop := match r with [] => True | t :: _ => kind t ∈ ks end.

Lemma follow_weaken ks ks' r : follow ks r -> ks ⊆ ks' -> follow ks' r.
Proof. destruct r; cbn; [done|]. set_solver. Qed.

Lemma starts_false toks r : starts toks r = false -> Forall (fun k => k <> 97 /\ k <> 43) toks -> forall t ts, r = t :: ts -> kind t ∉ toks.
Proof.
  intros H Ht t ts -> Hin. rewrite Forall_forall in Ht. destruct (Ht _ Hin) as [H1 H2]. cbn [starts] in H. rewrite (proj2 (Z.eqb_neq _ 97)), (proj2 (Z.eqb_neq _ 43)) in H by done.
  apply not_true_iff_false in H. apply H. unfold has. apply existsb_exists. exists (kind t). split; [by apply list_elem_of_In|apply Z.eqb_refl].
Qed.

Lemma starts_one k r : starts [k] r = true -> k <> 62 -> exists t ts, r = t :: ts /\ kind t = k.
Proof.
  intros H Hk. destruct r as [|t ts]; [done|]. exists t, ts. split; [done|]. cbn [starts has existsb] in H. destruct (kind t =? 97); [done|]. rewrite orb_false_r in H.
  destruct (Z.eqb_spec (kind t) 43); [by apply Z.eqb_eq in H|]. by apply Z.eqb_eq.
Qed.

Lemma starts_redir r : starts [60; 62] r = true -> exists t ts, r = t :: ts /\ kind t ∈ [60; 62; 43].
Proof.
  intros H. destruct r as [|t ts]; [done|]. exists t, ts. split; [done|]. cbn [starts has existsb] in H. destruct (kind t =? 97); [done|]. rewrite orb_false_r in H.
  destruct (Z.eqb_spec (kind t) 43) as [->|]; [set_solver|]. apply orb_true_iff in H as [H%Z.eqb_eq|H%Z.eqb_eq]; rewrite H; set_solver.
Qed.

Lemma add_redirect c op t : kind op ∈ [60; 62; 43] -> add_redir (fst (fst op)) c (snd (fst t), snd t) = redirect c op t.
Proof.
  intros H. unfold add_redir, redirect, word. change (fst (fst op)) with (kind op). repeat (apply elem_of_cons in H as [->|H]; [done|]). by apply not_elem_of_nil in H.
Qed.

Lemma redir_starts op r : kind op ∈ [60; 62; 43] -> starts [60; 62] (op :: r) = true.
Proof. intros H. cbn [starts]. repeat (apply elem_of_cons in H as [->|H]; [done|]). by apply not_elem_of_nil in H. Qed.

Lemma upd_argv_redirected f its : forall c, upd_argv f (redirected c its) = redirected (upd_argv f c) its.
Proof.
  induction its as [|i its IH]; intros c; cbn [redirected foldl]; [done|]. destruct i as [t|op t]; [apply IH|]. unfold redirected in IH. rewrite IH. f_equal. unfold redirect. by destruct (_ =? 60).
Qed.

Lemma upd_argv_comp {W} (f g : list W -> list W) (c : cmd W) : upd_argv f (upd_argv g c) = upd_argv (fun a => f (g a)) c.
Proof. induction c as [| c IH| | |]; cbn; try done. by rewrite IH. Qed.

Lemma upd_argv_ext {W} (f g : list W -> list W) (c : cmd W) : (forall a, f a = g a) -> upd_argv f c = upd_argv g c.
Proof. intros H. induction c as [a|c IH| | |]; cbn; [by rewrite H|by rewrite IH|done..]. Qed.

Lemma upd_argv_nil {W} (c : cmd W) : upd_argv (fun a => a ++ []) c = c.
Proof. induction c as [a|c IH| | |]; cbn; [by rewrite app_nil_r|by rewrite IH|done..]. Qed.

Lemma redirected_app c its its' : redirected c (its ++ its') = redirected (redirected c its) its'.
Proof. apply foldl_app. Qed.

(** Redirections first, then nothing or an argument. *)
Lemma items_split its : exists rds its', its = rds ++ its' /\ Forall is_rd rds /\ (its' = [] \/ exists t its'', its' = Arg t :: its'').
Proof.
  induction its as [|i its (rds & its' & -> & H1 & H2)]; [exists [], []; auto|]. destruct i as [t|op t].
  - exists [], (Arg t :: rds ++ its'). split_and!; [done|done|]. right. by eexists _, _.
  - exists (Rd op t :: rds), its'. split_and!; [done|by constructor|done].
Qed.

Lemma args_rds rds its : Forall is_rd rds -> args (rds ++ its) = args its.
Proof. intros H. unfold args. rewrite flat_map_app. induction rds as [|[t|op t] rds IH]; [done| |]; apply Forall_cons in H as [H1 H2]; [done|]. by apply IH. Qed.

(** What may follow a command. *)
Notation after_command := [124; 41; 38; 59].

Lemma redirs_stop its' r : Forall item_ok its' -> its' = [] \/ (exists t its'', its' = Arg t :: its'') -> follow after_command r -> starts [60; 62] (flat_map item_toks its' ++ r) = false.
Proof.
  intros Hok [->|(t & its'' & ->)] Hr; cbn [flat_map item_toks app].
  - destruct r as [|t r]; [done|]. cbn [starts follow] in *. repeat (apply elem_of_cons in Hr as [->|Hr]; [done|]). by apply not_elem_of_nil in Hr.
  - apply Forall_cons in Hok as [Hok _]. cbn [item_ok starts] in *. by rewrite Hok.
Qed.

Lemma follow_starts ks toks r : follow ks r -> Forall (fun k => has toks k = false /\ k <> 43) ks -> starts toks r = false.
Proof.
  destruct r as [|t r]; [done|]. cbn [follow starts]. intros Hk H. rewrite Forall_forall in H. destruct (H _ Hk) as [H1 H2]. rewrite (proj2 (Z.eqb_neq _ 43) H2), H1. by destruct (_ =? 97).
Qed.

Lemma items_no_block its r : Forall item_ok its -> follow after_command r -> starts [40] (flat_map item_toks its ++ r) = false.
Proof.
  intros Hok Hr. destruct its as [|i its]; [apply (follow_starts after_command); [done|by repeat constructor]|]. apply Forall_cons in Hok as [Hi _].
  destruct i as [t|op t]; cbn [flat_map item_toks app starts item_ok] in *; [by rewrite Hi|]. destruct Hi as [Hi _]. repeat (apply elem_of_cons in Hi as [->|Hi]; [done|]). by apply not_elem_of_nil in Hi.
Qed.

(** ** The strings of a command *)

Fixpoint cmd_map {A B} (f : A -> B) (c : cmd A) : cmd B :=
  match c with
  | EXEC argv => EXEC (f <$> argv)
  | REDIR c file mode fd => REDIR (cmd_map f c) (f file) mode fd
  | PIPE l r => PIPE (cmd_map f l) (cmd_map f r)
  | LIST l r => LIST (cmd_map f l) (cmd_map f r)
  | BACK c => BACK (cmd_map f c)
  end.
Fixpoint words {A} (c : cmd A) : list A :=
  match c with
  | EXEC argv => argv
  | REDIR c file _ _ => words c ++ [file]
  | PIPE l r | LIST l r => words l ++ words r
  | BACK c => words c
  end.

Lemma cmd_map_ext {A B} (f g : A -> B) (c : cmd A) : Forall (fun w => f w = g w) (words c) -> cmd_map f c = cmd_map g c.
Proof.
  induction c as [argv|c IH|l IHl r IHr|l IHl r IHr|c IH]; cbn; intros H; try (rewrite Forall_app in H; destruct H as [H1 H2]).
  - f_equal. by apply Forall_fmap_ext_1.
  - rewrite Forall_singleton in H2. rewrite IH by done. by rewrite H2.
  - by rewrite IHl, IHr.
  - by rewrite IHl, IHr.
  - by rewrite IH.
Qed.

(** The characters of a word. *)
Definition slice (text : list Z) (w : nat * nat) : list Z := take (snd w - fst w) (drop (fst w) text).
(** The buffer with a NUL behind each word. *)
Definition nuls (ws : list (nat * nat)) (b : list Z) : list Z := foldl (fun b w => <[snd w := 0]> b) b ws.

Lemma nuls_length ws b : length (nuls ws b) = length b.
Proof. revert b. induction ws as [|w ws IH]; intros b; cbn; [done|]. unfold nuls in IH. by rewrite IH, length_insert. Qed.

Lemma nuls_other ws b i : i ∉ ws.*2 -> nuls ws b !! i = b !! i.
Proof.
  revert b. induction ws as [|w ws IH]; intros b; cbn; [done|]. intros [H1 H2]%not_elem_of_cons. unfold nuls in IH. rewrite IH by done. by rewrite list_lookup_insert_ne.
Qed.

Lemma nuls_end ws b i : i ∈ ws.*2 -> (i < length b)%nat -> nuls ws b !! i = Some 0.
Proof.
  revert b. induction ws as [|w ws IH]; intros b; cbn; [by intros ?%not_elem_of_nil|]. intros H Hi. destruct (decide (i ∈ ws.*2)).
  - apply IH; [done|]. by rewrite length_insert.
  - apply elem_of_cons in H as [->|H]; [|done]. fold (nuls ws (<[snd w := 0]> b)). rewrite nuls_other by done. by apply list_lookup_insert_eq.
Qed.

Lemma nulterminate_run c : forall b p, Forall (fun w => (snd w < length b)%nat) (words c) -> nulterminate c (mkline b p) = Ret tt (mkline (nuls (words c) b) p).
Proof.
  assert (Hput : forall w b p, (snd w < length b)%nat -> putc (snd (w : nat * nat)) 0 (mkline b p) = Ret tt (mkline (<[snd w := 0]> b) p)).
  { intros w b p H. unfold putc. cbn [buf]. by rewrite (proj2 (Nat.ltb_lt _ _) H). }
  assert (Happ : forall ws ws' b, nuls (ws ++ ws') b = nuls ws' (nuls ws b)) by (intros; apply foldl_app).
  induction c as [argv|c IH|l IHl r IHr|l IHl r IHr|c IH]; intros b p; cbn [nulterminate words]; [|rewrite Forall_app; intros [H1 H2]..|apply IH].
  - revert b. induction argv as [|w argv IH]; intros b H; cbn [forM]; [done|]. apply Forall_cons in H as [H1 H2]. rewrite (bind_Ret _ _ _ _ _ (Hput _ _ _ H1)), IH; [done|]. by rewrite length_insert.
  - rewrite Forall_singleton in H2. rewrite (bind_Ret _ _ _ _ _ (IH _ _ H1)), Hput, Happ; [done|]. by rewrite nuls_length.
  - rewrite (bind_Ret _ _ _ _ _ (IHl _ _ H1)), IHr, Happ; [done|]. by rewrite nuls_length.
  - rewrite (bind_Ret _ _ _ _ _ (IHl _ _ H1)), IHr, Happ; [done|]. by rewrite nuls_length.
Qed.

(** A word of the text: word characters only, and none behind it. *)
Definition wordat (text : list Z) (w : nat * nat) : Prop :=
  (fst w <= snd w <= length text)%nat /\ (forall i, (fst w <= i < snd w)%nat -> exists c, text !! i = Some c /\ is_word c = true) /\ (forall c, text !! snd w = Some c -> is_word c = false).

Lemma tokens_wordat text : forall l cur p, l = drop p text -> (p <= length text)%nat ->
  (forall q, cur = Some q -> (q <= p)%nat /\ forall i, (q <= i < p)%nat -> exists c, text !! i = Some c /\ is_word c = true) ->
  forall t, t ∈ tokens cur p l -> kind t = 97 -> wordat text (word t).
Proof.
  intros l. induction l as [l IH] using (induction_ltof1 _ (@length Z)). unfold ltof in IH. intros cur p Hl Hp Hcur t Ht Hk.
  assert (Hflush : (forall c, text !! p = Some c -> is_word c = false) -> t ∈ flush cur p -> wordat text (word t)).
  { intros Hend Hin. destruct cur as [q|]; cbn [flush] in Hin; [|by apply not_elem_of_nil in Hin]. apply list_elem_of_singleton in Hin. subst t. destruct (Hcur q eq_refl) as [H1 H2].
    split_and!; cbn [word fst snd]; [lia|done|done|done]. }
  destruct l as [|c l]; [apply Hflush; [|done]; intros c Hc; apply lookup_lt_Some in Hc; apply (f_equal length) in Hl; rewrite length_drop in Hl; cbn in Hl; lia|].
  assert (Hpc : text !! p = Some c) by (rewrite <- (Nat.add_0_r p), <- lookup_drop, <- Hl; done). pose proof (lookup_lt_Some _ _ _ Hpc) as Hlt.
  assert (Hl1 : l = drop (S p) text) by (rewrite (drop_S _ _ _ Hpc) in Hl; by injection Hl). destruct (is_word c) eqn:Hw.
  - cbn [tokens] in Ht. rewrite Hw in Ht. apply (IH l ltac:(cbn; lia) _ _ Hl1 ltac:(lia)) in Ht; [done| |done].
    intros q [= <-]. destruct cur as [q|]; cbn; [destruct (Hcur q eq_refl) as [H1 H2]|]; (split; [lia|]); intros i Hi; (destruct (decide (i = p)) as [->|]; [by exists c|]); [apply H2; lia|lia].
  - replace (tokens cur p (c :: l)) with (flush cur p ++ tokens None p (c :: l)) in Ht by (cbn [tokens]; by rewrite Hw). apply elem_of_app in Ht as [Ht|Ht]; [apply Hflush; [|done]; intros c' Hc'; congruence|].
    assert (Hnone : forall q : nat, None = Some q -> False) by done. destruct (is_ws c) eqn:Hws.
    { cbn [tokens] in Ht. rewrite Hw, Hws in Ht. cbn [flush app] in Ht. apply (IH l ltac:(cbn; lia) None (S p) Hl1 ltac:(lia)); [done|done|done]. }
    rewrite tokens_sym in Ht by done. destruct ((c =? 62) && (hd 0 l =? 62)) eqn:E; apply elem_of_cons in Ht as [->|Ht].
    + done.
    + apply andb_true_iff in E as [_ E]. destruct l as [|d l]; [done|]. cbn [tl] in Ht. assert (text !! S p = Some d) as Hd by (rewrite <- (Nat.add_0_r (S p)), <- lookup_drop, <- Hl1; done).
      apply (IH l ltac:(cbn; lia) None (S (S p))); try done; [rewrite (drop_S _ _ _ Hd) in Hl1; by injection Hl1|apply lookup_lt_Some in Hd; lia].
    + cbn in Hk. by subst c.
    + apply (IH l ltac:(cbn; lia) None (S p) Hl1 ltac:(lia)); done.
Qed.

(** The words of a command are words of its line. *)
Definition from (ts : list token) (w : nat * nat) : Prop := exists t, t ∈ ts /\ kind t = 97 /\ word t = w.

Lemma from_sub ts ts' w : from ts w -> ts ⊆ ts' -> from ts' w.
Proof. intros (t & H1 & H2 & H3) H. exists t. auto. Qed.

Lemma redirected_words its : forall c w, Forall item_ok its -> w ∈ words (redirected c its) -> w ∈ words c \/ from (flat_map item_toks its) w.
Proof.
  induction its as [|i its IH]; intros c w Hok Hw; [by left|]. apply Forall_cons in Hok as [Hi Hok]. destruct i as [t|op t]; cbn [redirected foldl] in Hw; apply IH in Hw as [Hw|Hw]; try done.
  - by left.
  - right. apply (from_sub _ _ _ Hw). cbn [flat_map item_toks]. set_solver.
  - assert (w ∈ words c \/ w = word t) as [Hc| ->] by (unfold redirect in Hw; destruct (kind op =? 60); cbn [words] in Hw; set_solver); [by left|].
    right. exists t. destruct Hi as [_ Hi]. split_and!; [cbn [flat_map item_toks]; set_solver|done|done].
  - right. apply (from_sub _ _ _ Hw). cbn [flat_map item_toks]. set_solver.
Qed.

Lemma args_words its w : Forall item_ok its -> w ∈ args its -> from (flat_map item_toks its) w.
Proof.
  induction its as [|i its IH]; intros Hok Hw; [by apply not_elem_of_nil in Hw|]. apply Forall_cons in Hok as [Hi Hok]. destruct i as [t|op t].
  - change (args (Arg t :: its)) with (word t :: args its) in Hw. apply elem_of_cons in Hw as [->|Hw]; [exists t; split_and!; [left|done|done]|]. apply (from_sub _ _ _ (IH Hok Hw)). cbn [flat_map item_toks]. set_solver.
  - apply (from_sub _ _ _ (IH Hok Hw)). cbn [flat_map item_toks]. set_solver.
Qed.

Lemma words_back n (c : pcmd) : words (Nat.iter n BACK c) = words c.
Proof. induction n as [|n IH]; [done|]. by rewrite Nat.iter_succ. Qed.

Lemma grammar_words :
  (forall ts c, line ts c -> forall w, w ∈ words c -> from ts w) /\ (forall ts c, pipeline ts c -> forall w, w ∈ words c -> from ts w) /\
  (forall ts c, command ts c -> forall w, w ∈ words c -> from ts w).
Proof.
  apply grammar_ind.
  - intros ts c amps _ IH _ w. rewrite words_back. intros Hw. apply (from_sub _ _ _ (IH w Hw)). set_solver.
  - intros ts c amps semi ts' c' _ IH _ _ _ IH' w. cbn [words]. rewrite words_back. intros [Hw|Hw]%elem_of_app; [apply (from_sub _ _ _ (IH w Hw))|apply (from_sub _ _ _ (IH' w Hw))]; set_solver.
  - done.
  - intros ts c bar ts' c' _ IH _ _ IH' w. cbn [words]. intros [Hw|Hw]%elem_of_app; [apply (from_sub _ _ _ (IH w Hw))|apply (from_sub _ _ _ (IH' w Hw))]; set_solver.
  - intros its Hok _ w Hw. apply redirected_words in Hw as [Hw|Hw]; [by apply args_words|done|done].
  - intros o ts c cl its _ _ IH _ Hok _ w Hw. apply redirected_words in Hw as [Hw|Hw]; [apply (from_sub _ _ _ (IH w Hw))|apply (from_sub _ _ _ Hw)|done]; set_solver.
Qed.

Lemma cstr_slice l q e : (q <= e)%nat -> (forall i, (q <= i < e)%nat -> exists c, l !! i = Some c /\ c <> 0) -> l !! e = Some 0 -> cstr (drop q l) = take (e - q) (drop q l).
Proof.
  intros Hq. remember (e - q)%nat as n eqn:Hn. revert q Hq Hn. induction n as [|n IH]; intros q Hq Hn Hin Hend.
  - replace q with e by lia. rewrite (drop_S _ _ _ Hend). done.
  - destruct (Hin q) as (c & Hc & Hc0); [lia|]. rewrite (drop_S _ _ _ Hc). cbn [cstr take]. rewrite (proj2 (Z.eqb_neq c 0)) by done. f_equal. apply IH; [lia|lia| |done]. intros i Hi. apply Hin. lia.
Qed.
