(* ===== verification/ShTheorems.v ===== *)
(** * The shell's parser decides its grammar

    The parser of [sh.c] against the grammar of [ShSpec], the strings of the commands
    it returns, and the processes that [runcmd] makes of them. *)

From Stdlib Require Import ZArith Lia.
From S2P Require Import Prelude Fcntl Sh ShSpec.

Section Parser.
Context (text tail : list Z) (Htext : Forall (fun c => c <> 0) text).
Notation es := (length text).
Notation b := (text ++ 0 :: tail).
Notation st := (mkline b).
Notation rest := (rest text).

(** The parser returns with [Q], or, if [pan] allows it, stops with an error. *)
Definition ends (pan : bool) {A} (r : res line_st A) (Q : A -> nat -> Prop) : Prop :=
  match r with
  | Ret a s => exists p, s = st p /\ (p <= es)%nat /\ Q a p
  | Panic _ => pan = true
  | _ => False
  end.

Lemma ends_bind pan {A B} (m : M line_st A) (f : A -> M line_st B) s Q :
  ends pan (m s) (fun a p => ends pan (f a (st p)) Q) -> ends pan (bind m f s) Q.
Proof using Type. unfold bind. destruct (m s); cbn [ends rbind]; try done. by intros (p & -> & _ & H). Qed.

Lemma ends_mono pan {A} (r : res line_st A) (Q Q' : A -> nat -> Prop) :
  ends pan r Q -> (forall a p, (p <= es)%nat -> Q a p -> Q' a p) -> ends pan r Q'.
Proof using Type. destruct r; cbn [ends]; try done. intros (p & -> & Hp & H) Himp. exists p. auto. Qed.

Lemma ends_ret pan {A} (a : A) p Q : (p <= es)%nat -> Q a p -> ends pan (ret a (st p)) Q.
Proof using Type. intros Hp H. exists p. auto. Qed.

Lemma ends_peek pan {B} toks (f : bool -> M line_st B) p Q : (p <= es)%nat -> Forall (fun c => has symbols c = true) toks ->
  (forall p', (p' <= es)%nat -> rest p' = rest p -> (rest p = [] <-> p' = es) -> ends pan (f (starts toks (rest p)) (st p')) Q) ->
  ends pan (bind (peek es toks) f (st p)) Q.
Proof using Htext. intros Hp Ht H. destruct (peek_spec text tail Htext p toks Hp Ht) as (p' & E & H1 & H2 & H3). rewrite (bind_Ret _ _ _ _ _ E). auto. Qed.

Lemma ends_gettoken pan {B} (f : Z * nat * nat -> M line_st B) p t ts Q : (p <= es)%nat -> rest p = t :: ts ->
  (forall p', (p' <= es)%nat -> rest p' = ts -> ends pan (f t (st p')) Q) -> ends pan (bind (gettoken es) f (st p)) Q.
Proof using Htext. intros Hp Hr H. pose proof (gettoken_spec text tail Htext p Hp) as G. rewrite Hr in G. destruct G as (p' & E & H1 & H2). rewrite (bind_Ret _ _ _ _ _ E). auto. Qed.

Lemma ends_gettoken_end pan {B} (f : Z * nat * nat -> M line_st B) p Q : (p <= es)%nat -> rest p = [] ->
  (forall q p', (p' <= es)%nat -> rest p' = [] -> ends pan (f (0, q, q) (st p')) Q) -> ends pan (bind (gettoken es) f (st p)) Q.
Proof using Htext.
  intros Hp Hr H. pose proof (gettoken_spec text tail Htext p Hp) as G. rewrite Hr in G. destruct G as (q & E). rewrite (bind_Ret _ _ _ _ _ E). apply H; [done|]. unfold ShSpec.rest. by rewrite drop_all.
Qed.

(** ** The loops *)

Lemma redirs_ends pan its : forall fuel p c r, (p <= es)%nat -> (length (rest p) < fuel)%nat -> Forall item_ok its -> Forall is_rd its ->
  rest p = flat_map item_toks its ++ r -> starts [60; 62] r = false -> ends pan (parseredirs fuel es c (st p)) (fun c' p' => c' = redirected c its /\ rest p' = r).
Proof using Htext.
  induction its as [|i its IH]; intros fuel p c r Hp Hf Hok Hrd Hr Hs; (destruct fuel as [|fuel]; [lia|]); cbn [parseredirs]; (apply ends_peek; [done|by repeat constructor|]); intros p1 Hp1 Hr1 _.
  - cbn in Hr. rewrite Hr, Hs. apply ends_ret; [done|]. split; [done|congruence].
  - apply Forall_cons in Hok as [Hi Hok], Hrd as [Hir Hrd]. destruct i as [|op t]; [done|]. destruct Hi as [Hop Ht]. cbn [flat_map item_toks app] in Hr.
    rewrite Hr, (redir_starts op) by done.
    eapply ends_gettoken; [done|by rewrite Hr1|]. intros p2 Hp2 Hr2. eapply ends_gettoken; [done|exact Hr2|]. intros p3 Hp3 Hr3. rewrite add_redirect by done. change (fst (fst t)) with (kind t). rewrite Ht.
    apply IH; try done. rewrite Hr3. rewrite Hr in Hf. cbn [length] in Hf. lia.
Qed.

Lemma redirs_sound : forall fuel p c, (p <= es)%nat -> (length (rest p) < fuel)%nat ->
  ends true (parseredirs fuel es c (st p)) (fun c' p' => exists its, Forall item_ok its /\ Forall is_rd its /\ rest p = flat_map item_toks its ++ rest p' /\ c' = redirected c its).
Proof using Htext.
  induction fuel as [|fuel IH]; intros p c Hp Hf; [lia|]. cbn [parseredirs]. apply ends_peek; [done|by repeat constructor|]. intros p1 Hp1 Hr1 _. destruct (starts [60; 62] (rest p)) eqn:Hs.
  2: { apply ends_ret; [done|]. exists []. rewrite Hr1. by repeat split. }
  destruct (starts_redir _ Hs) as (op & ts & Hr & Hop). eapply ends_gettoken; [done|by rewrite Hr1|]. intros p2 Hp2 Hr2. destruct ts as [|t ts].
  - apply ends_gettoken_end; [done|done|]. intros q p3 _ _. done.
  - eapply ends_gettoken; [done|exact Hr2|]. intros p3 Hp3 Hr3. change (fst (fst t)) with (kind t). destruct (Z.eqb_spec (kind t) 97) as [Ht|]; [|done]. cbn [negb].
    eapply ends_mono; [apply IH; [done|rewrite Hr3; rewrite Hr in Hf; cbn [length] in Hf; lia]|]. intros c' p' Hp' (its & H1 & H2 & H3 & H4). exists (Rd op t :: its).
    split_and!; [by constructor|by constructor|rewrite Hr; cbn [flat_map item_toks app]; by rewrite <- Hr3, H3|]. by rewrite H4, add_redirect.
Qed.

Lemma rest_kind p t ts : rest p = t :: ts -> kind t <> 0.
Proof using Htext.
  intros H. assert (Forall (fun t => kind t <> 0) (rest p)) as Hk by (apply tokens_kind; by apply Forall_drop). rewrite H in Hk. by apply Forall_cons in Hk as [Hk _].
Qed.

Lemma rest_length p : (p <= es)%nat -> (length (rest p) <= es)%nat.
Proof using Type. intros Hp. pose proof (tokens_length (drop p text) None p) as H. rewrite length_drop in H. cbn [flush length] in H. unfold ShSpec.rest. lia. Qed.

Lemma args_stop pan fuel p c argc : (p <= es)%nat -> follow after_command (rest p) -> ends pan (args_loop (S fuel) es argc c (st p)) (fun c' p' => c' = c /\ rest p' = rest p).
Proof using Htext.
  intros Hp Hfol. cbn [args_loop]. apply ends_peek; [done|by repeat constructor|]. intros p1 Hp1 Hr1 _. destruct (rest p) as [|t r] eqn:Hr.
  - cbn [starts]. apply ends_gettoken_end; [done|done|]. intros q p2 Hp2 Hr2. by apply ends_ret.
  - assert (starts after_command (t :: r) = true) as ->; [|by apply ends_ret]. cbn [starts follow] in *. repeat (apply elem_of_cons in Hfol as [->|Hfol]; [done|]). by apply not_elem_of_nil in Hfol.
Qed.

Lemma args_ends n : forall its fuel p c argc r, (length its <= n)%nat -> (p <= es)%nat -> (length (rest p) < fuel)%nat -> Forall item_ok its ->
  its = [] \/ (exists t its'', its = Arg t :: its'') -> rest p = flat_map item_toks its ++ r -> follow after_command r -> (argc + length (args its) < MAXARGS)%nat ->
  ends false (args_loop fuel es argc c (st p)) (fun c' p' => c' = redirected (upd_argv (fun a => a ++ args its) c) its /\ rest p' = r).
Proof using Htext.
  induction n as [|n IH]; intros its fuel p c argc r Hn Hp Hf Hok Hits Hr Hfol Hargs; (destruct fuel as [|fuel]; [lia|]); (destruct Hits as [->|(t & its2 & ->)]; [|try (cbn in Hn; lia)]).
  1, 2: cbn [flat_map app] in Hr; subst r; eapply ends_mono; [by apply args_stop|]; intros c' p' _ [-> ->]; split; [|done]; cbn [args flat_map redirected foldl]; by rewrite upd_argv_nil.
  cbn [args_loop]. apply ends_peek; [done|by repeat constructor|]. intros p1 Hp1 Hr1 _.
  apply Forall_cons in Hok as [Ht Hok]. cbn [item_ok flat_map item_toks app] in *. assert (starts after_command (rest p) = false) as -> by (rewrite Hr; cbn [starts]; by rewrite Ht).
  eapply ends_gettoken; [done|by rewrite Hr1|]. intros p2 Hp2 Hr2. change (fst (fst t)) with (kind t). rewrite Ht. cbn [Z.eqb Pos.eqb negb]. cbn [args flat_map app length] in Hargs.
  change (flat_map _ its2) with (args its2) in Hargs. rewrite (proj2 (Nat.leb_gt MAXARGS (S argc))) by lia.
  destruct (items_split its2) as (rds & its3 & -> & Hrds & Hits3). apply Forall_app in Hok as [Hok1 Hok2]. rewrite flat_map_app, <- (assoc_L (++)) in Hr2. rewrite args_rds in Hargs by done.
  apply ends_bind. eapply ends_mono; [apply (redirs_ends false rds); [done|pose proof (rest_length p2 Hp2); lia|done|done|exact Hr2|by apply redirs_stop]|]. cbn beta. intros c2 p3 Hp3 [-> Hr3].
  eapply ends_mono; [apply (IH its3); try done|].
  - cbn [length] in Hn. rewrite length_app in Hn. lia.
  - rewrite Hr3. apply (f_equal length) in Hr. rewrite Hr in Hf. cbn [length] in Hf. rewrite flat_map_app, !length_app in Hf. rewrite length_app. lia.
  - lia.
  - cbn beta. intros c' p' Hp' [-> ->]. split; [|done]. cbn [args flat_map app]. change (flat_map _ (rds ++ its3)) with (args (rds ++ its3)). rewrite args_rds by done.
    unfold redirected at 3. cbn [foldl]. fold (redirected (upd_argv (fun a => a ++ word t :: args its3) c) (rds ++ its3)). rewrite redirected_app. f_equal.
    rewrite upd_argv_redirected, upd_argv_comp. f_equal. apply upd_argv_ext. intros a. by rewrite <- (assoc_L (++)).
Qed.

Lemma args_sound fuel : forall p c argc, (p <= es)%nat -> (length (rest p) < fuel)%nat -> (argc < MAXARGS)%nat ->
  ends true (args_loop fuel es argc c (st p)) (fun c' p' => exists its, Forall item_ok its /\ rest p = flat_map item_toks its ++ rest p' /\
    c' = redirected (upd_argv (fun a => a ++ args its) c) its /\ (argc + length (args its) < MAXARGS)%nat).
Proof using Htext.
  induction fuel as [|fuel IH]; intros p c argc Hp Hf Hargc; [lia|]. cbn [args_loop]. apply ends_peek; [done|by repeat constructor|]. intros p1 Hp1 Hr1 _.
  assert (Hstop : forall p2, (p2 <= es)%nat -> rest p2 = rest p -> ends true (ret c (st p2)) (fun c' p' => exists its, Forall item_ok its /\ rest p = flat_map item_toks its ++ rest p' /\
    c' = redirected (upd_argv (fun a => a ++ args its) c) its /\ (argc + length (args its) < MAXARGS)%nat)).
  { intros p2 Hp2 Hr2. apply ends_ret; [done|]. exists []. cbn [flat_map app args redirected foldl length]. rewrite upd_argv_nil, Hr2. split_and!; [done..|lia]. }
  destruct (starts after_command (rest p)); [by apply Hstop|]. destruct (rest p) as [|t ts] eqn:Hr.
  { apply ends_gettoken_end; [done|done|]. intros q p2 Hp2 Hr2. cbn [fst Z.eqb]. by apply Hstop. }
  eapply ends_gettoken; [done|exact Hr1|]. intros p2 Hp2 Hr2. change (fst (fst t)) with (kind t). rewrite (proj2 (Z.eqb_neq (kind t) 0)) by (by eapply rest_kind).
  destruct (Z.eqb_spec (kind t) 97) as [Ht|]; [|done]. cbn [negb]. destruct (Nat.leb_spec MAXARGS (S argc)) as [|Hmax]; [done|]. apply ends_bind.
  eapply ends_mono; [apply redirs_sound; [done|pose proof (rest_length p2 Hp2); lia]|]. cbn beta. intros c2 p3 Hp3 (rds & Hok & Hrd & Hr3 & ->).
  eapply ends_mono; [apply IH; [done| |done]|].
  - apply (f_equal length) in Hr3. rewrite length_app in Hr3. rewrite Hr2 in Hr3. cbn [length] in Hf. lia.
  - cbn beta. intros c' p' Hp' (its & Hits & Hr4 & -> & Hlen). exists (Arg t :: rds ++ its). cbn [flat_map item_toks app]. change (args (Arg t :: rds ++ its)) with (word t :: args (rds ++ its)).
    rewrite args_rds by done. split_and!.
    + constructor; [done|]. by apply Forall_app.
    + by rewrite <- Hr2, Hr3, flat_map_app, <- (assoc_L (++)), <- Hr4.
    + unfold redirected at 3. cbn [foldl]. fold (redirected (upd_argv (fun a => a ++ word t :: args its) c) (rds ++ its)). rewrite redirected_app. f_equal.
      rewrite upd_argv_redirected, upd_argv_comp. f_equal. apply upd_argv_ext. intros a. by rewrite <- (assoc_L (++)).
    + cbn [length]. lia.
Qed.

Lemma amps_ends pan amps : forall fuel p c r, (p <= es)%nat -> (length (rest p) < fuel)%nat -> Forall (fun t => kind t = 38) amps -> rest p = amps ++ r -> starts [38] r = false ->
  ends pan (amp_loop fuel es c (st p)) (fun c' p' => c' = Nat.iter (length amps) BACK c /\ rest p' = r).
Proof using Htext.
  induction amps as [|t amps IH]; intros fuel p c r Hp Hf Ha Hr Hs; (destruct fuel as [|fuel]; [lia|]); cbn [amp_loop]; (apply ends_peek; [done|by repeat constructor|]); intros p1 Hp1 Hr1 _; cbn [app] in Hr.
  - rewrite Hr, Hs. apply ends_ret; [done|]. split; [done|congruence].
  - apply Forall_cons in Ha as [Ht Ha]. assert (starts [38] (rest p) = true) as -> by (rewrite Hr; cbn [starts]; by rewrite Ht). eapply ends_gettoken; [done|by rewrite Hr1|]. intros p2 Hp2 Hr2.
    eapply ends_mono; [apply (IH fuel p2 (BACK c) r); try done; rewrite Hr2; rewrite Hr in Hf; cbn [length] in Hf; lia|]. intros c' p' _ [-> ->]. split; [|done]. cbn [length]. by rewrite Nat.iter_succ_r.
Qed.

Lemma amps_sound fuel : forall p c, (p <= es)%nat -> (length (rest p) < fuel)%nat ->
  ends true (amp_loop fuel es c (st p)) (fun c' p' => exists amps, Forall (fun t => kind t = 38) amps /\ rest p = amps ++ rest p' /\ c' = Nat.iter (length amps) BACK c).
Proof using Htext.
  induction fuel as [|fuel IH]; intros p c Hp Hf; [lia|]. cbn [amp_loop]. apply ends_peek; [done|by repeat constructor|]. intros p1 Hp1 Hr1 _. destruct (starts [38] (rest p)) eqn:Hs.
  - destruct (starts_one _ _ Hs) as (t & ts & Hr & Ht); [done|]. eapply ends_gettoken; [done|by rewrite Hr1|]. intros p2 Hp2 Hr2.
    eapply ends_mono; [apply IH; [done|rewrite Hr2; rewrite Hr in Hf; cbn [length] in Hf; lia]|]. cbn beta. intros c' p' _ (amps & Ha & Hr3 & ->). exists (t :: amps).
    split_and!; [by constructor|by rewrite Hr, <- Hr2, Hr3|]. cbn [length]. by rewrite Nat.iter_succ_r.
  - apply ends_ret; [done|]. exists []. by rewrite Hr1.
Qed.

(** ** The grammar *)

(** What the parser accepts is in the language, and it always comes to an end. *)
Definition sound (L : list token -> pcmd -> Prop) (m : M line_st pcmd) (p : nat) : Prop :=
  ends true (m (st p)) (fun c p' => exists ts, rest p = ts ++ rest p' /\ L ts c).

Lemma block_sound fuel p : (p <= es)%nat -> starts [40] (rest p) = true -> (forall p', (p' <= es)%nat -> (length (rest p') < length (rest p))%nat -> sound line (parseline fuel es) p') ->
  sound command (parseblock (S fuel) es) p.
Proof using Htext.
  intros Hp Hs IH. unfold sound. cbn [parseblock]. apply ends_peek; [done|by repeat constructor|]. intros p1 Hp1 Hr1 _. rewrite Hs. cbn [negb].
  destruct (starts_one _ _ Hs) as (o & ts & Hr & Ho); [done|]. eapply ends_gettoken; [done|by rewrite Hr1|]. intros p2 Hp2 Hr2. apply ends_bind.
  eapply ends_mono; [apply (IH p2); [done|rewrite Hr2, Hr; cbn; lia]|]. cbn beta. intros c p3 Hp3 (ts1 & Hr3 & Hline). apply ends_peek; [done|by repeat constructor|]. intros p4 Hp4 Hr4 _.
  destruct (starts [41] (rest p3)) eqn:Hs3; [|done]. cbn [negb]. destruct (starts_one _ _ Hs3) as (cl & ts2 & Hr5 & Hcl); [done|]. eapply ends_gettoken; [done|by rewrite Hr4|]. intros p6 Hp6 Hr6.
  eapply ends_mono; [apply redirs_sound; [done|pose proof (rest_length p6 Hp6); lia]|]. cbn beta. intros c' p7 Hp7 (its & Hok & Hrd & Hr7 & ->).
  exists (o :: ts1 ++ cl :: flat_map item_toks its). split; [|by constructor]. rewrite Hr, <- Hr2, Hr3, Hr5, <- Hr6, Hr7. cbn [app]. by rewrite <- (assoc_L (++)).
Qed.

Lemma parser_sound fuel : forall p, (p <= es)%nat -> let n := length (rest p) in
  ((4 * n + 4 <= fuel)%nat -> sound line (parseline fuel es) p) /\ ((4 * n + 3 <= fuel)%nat -> sound pipeline (parsepipe fuel es) p) /\
  ((4 * n + 2 <= fuel)%nat -> sound command (parseexec fuel es) p) /\ ((4 * n + 1 <= fuel)%nat -> starts [40] (rest p) = true -> sound command (parseblock fuel es) p).
Proof using Htext.
  induction fuel as [|fuel IH]; intros p Hp n; [repeat split; lia|]. split_and!; [intros Hf..|intros Hf Hs].
  - unfold sound. cbn [parseline]. apply ends_bind. eapply ends_mono; [apply (IH p Hp); lia|]. cbn beta. intros c p1 Hp1 (ts & Hr & Hpipe). apply ends_bind.
    eapply ends_mono; [apply amps_sound; [done|pose proof (rest_length p1 Hp1); lia]|]. cbn beta. intros c1 p2 Hp2 (amps & Ha & Hr2 & ->). apply ends_peek; [done|by repeat constructor|]. intros p3 Hp3 Hr3 _.
    destruct (starts [59] (rest p2)) eqn:Hs.
    + destruct (starts_one _ _ Hs) as (semi & ts2 & Hr4 & Hsemi); [done|]. eapply ends_gettoken; [done|by rewrite Hr3|]. intros p4 Hp4 Hr5. apply ends_bind.
      eapply ends_mono; [apply (IH p4 Hp4)|].
      * unfold n in Hf. rewrite Hr, Hr2, Hr4, !length_app in Hf. cbn [length] in Hf. rewrite Hr5. lia.
      * cbn beta. intros c' p5 Hp5 (ts3 & Hr6 & Hline). apply ends_ret; [done|]. exists (ts ++ amps ++ semi :: ts3). split; [|by constructor].
        rewrite Hr, Hr2, Hr4, <- Hr5, Hr6. by rewrite <- !(assoc_L (++)).
    + apply ends_ret; [done|]. exists (ts ++ amps). split; [|by constructor]. by rewrite Hr3, <- (assoc_L (++)), <- Hr2.
  - unfold sound. cbn [parsepipe]. apply ends_bind. eapply ends_mono; [apply (IH p Hp); lia|]. cbn beta. intros c p1 Hp1 (ts & Hr & Hcmd). apply ends_peek; [done|by repeat constructor|]. intros p2 Hp2 Hr2 _.
    destruct (starts [124] (rest p1)) eqn:Hs.
    + destruct (starts_one _ _ Hs) as (bar & ts2 & Hr3 & Hbar); [done|]. eapply ends_gettoken; [done|by rewrite Hr2|]. intros p3 Hp3 Hr4. apply ends_bind.
      eapply ends_mono; [apply (IH p3 Hp3)|].
      * unfold n in Hf. rewrite Hr, Hr3, length_app in Hf. cbn [length] in Hf. rewrite Hr4. lia.
      * cbn beta. intros c' p5 Hp5 (ts3 & Hr6 & Hline). apply ends_ret; [done|]. exists (ts ++ bar :: ts3). split; [|by constructor]. by rewrite Hr, Hr3, <- Hr4, Hr6, <- (assoc_L (++)).
    + apply ends_ret; [done|]. exists ts. split; [by rewrite Hr2|]. by constructor.
  - unfold sound. cbn [parseexec]. apply ends_peek; [done|by repeat constructor|]. intros p1 Hp1 Hr1 _. destruct (starts [40] (rest p)) eqn:Hs.
    + rewrite <- Hr1 in Hs |- *. apply (IH p1 Hp1); [rewrite Hr1; lia|done].
    + apply ends_bind. eapply ends_mono; [apply redirs_sound; [done|pose proof (rest_length p1 Hp1); lia]|]. cbn beta. intros c2 p3 Hp3 (rds & Hok & Hrd & Hr3 & ->).
      eapply ends_mono; [apply args_sound; [done|pose proof (rest_length p3 Hp3); lia|unfold MAXARGS; lia]|]. cbn beta. intros c' p' Hp' (its & Hits & Hr4 & -> & Hlen).
      exists (flat_map item_toks (rds ++ its)). split; [by rewrite <- Hr1, Hr3, Hr4, flat_map_app, <- (assoc_L (++))|]. rewrite upd_argv_redirected, <- redirected_app. cbn [upd_argv app].
      rewrite <- (args_rds rds its Hrd). constructor; [by apply Forall_app|]. rewrite args_rds by done. lia.
  - apply block_sound; [done..|]. intros p' Hp' Hlt. apply (IH p' Hp'). unfold n in Hf. lia.
Qed.

(** What is in the language is accepted. *)
Definition complete (ks : list Z) (off : nat) (m : nat -> M line_st pcmd) (ts : list token) (c : pcmd) : Prop :=
  forall p r fuel, (p <= es)%nat -> rest p = ts ++ r -> follow ks r -> (4 * length (rest p) + off <= fuel)%nat ->
  ends false (m fuel (st p)) (fun c' p' => c' = c /\ rest p' = r).

Lemma simple_complete its : Forall item_ok its -> (length (args its) < MAXARGS)%nat ->
  complete after_command 2 (fun fuel => parseexec fuel es) (flat_map item_toks its) (redirected (EXEC (args its)) its).
Proof using Htext.
  intros Hok Hlen p r fuel Hp Hr Hfol Hf. destruct fuel as [|fuel]; [lia|]. cbn [parseexec]. apply ends_peek; [done|by repeat constructor|]. intros p1 Hp1 Hr1 _.
  rewrite Hr, items_no_block by done. destruct (items_split its) as (rds & its' & -> & Hrds & Hits). apply Forall_app in Hok as [Hok1 Hok2]. rewrite args_rds in Hlen by done.
  rewrite Hr, flat_map_app, <- (assoc_L (++)) in Hr1. apply ends_bind.
  eapply ends_mono; [apply (redirs_ends false rds); [done|pose proof (rest_length p1 Hp1); lia|done|done|exact Hr1|by apply redirs_stop]|]. cbn beta. intros c2 p2 Hp2 [-> Hr2].
  eapply ends_mono; [apply (args_ends (length its') its'); try done; pose proof (rest_length p2 Hp2); lia|]. cbn beta. intros c' p' _ [-> ->]. split; [|done].
  rewrite upd_argv_redirected, <- redirected_app. cbn [upd_argv app]. by rewrite args_rds.
Qed.

Lemma block_complete o ts c cl its : kind o = 40 -> kind cl = 41 -> Forall item_ok its -> Forall is_rd its -> complete [41] 4 (fun fuel => parseline fuel es) ts c ->
  complete after_command 2 (fun fuel => parseexec fuel es) (o :: ts ++ cl :: flat_map item_toks its) (redirected c its).
Proof using Htext.
  intros Ho Hcl Hok Hrd IH p r fuel Hp Hr Hfol Hf. cbn [app] in Hr. rewrite <- (assoc_L (++)) in Hr. cbn [app] in Hr. assert (Hl : length (rest p) = S (length (ts ++ cl :: flat_map item_toks its ++ r))) by (by rewrite Hr).
  assert (Hs : starts [40] (rest p) = true) by (rewrite Hr; cbn [starts]; by rewrite Ho). destruct fuel as [|[|fuel]]; [lia|lia|].
  cbn [parseexec]. apply ends_peek; [done|by repeat constructor|]. intros p1 Hp1 Hr1 _. rewrite Hs. cbn [parseblock]. apply ends_peek; [done|by repeat constructor|]. intros p2 Hp2 Hr2 _. rewrite Hr1, Hs. cbn [negb].
  eapply ends_gettoken; [done|by rewrite Hr2, Hr1|]. intros p3 Hp3 Hr3. apply ends_bind.
  eapply ends_mono; [apply (IH p3 _ fuel Hp3 Hr3); [cbn; rewrite Hcl; set_solver|rewrite Hr3; lia]|]. cbn beta. intros c1 p4 Hp4 [-> Hr4].
  apply ends_peek; [done|by repeat constructor|]. intros p5 Hp5 Hr5 _. assert (starts [41] (rest p4) = true) as -> by (rewrite Hr4; cbn [starts]; by rewrite Hcl). cbn [negb].
  eapply ends_gettoken; [done|by rewrite Hr5|]. intros p6 Hp6 Hr6. apply redirs_ends; try done; [pose proof (rest_length p6 Hp6); lia|]. apply (follow_starts after_command); [done|by repeat constructor].
Qed.

Lemma grammar_complete :
  (forall ts c, line ts c -> complete [41] 4 (fun fuel => parseline fuel es) ts c) /\
  (forall ts c, pipeline ts c -> complete [41; 38; 59] 3 (fun fuel => parsepipe fuel es) ts c) /\
  (forall ts c, command ts c -> complete after_command 2 (fun fuel => parseexec fuel es) ts c).
Proof using Htext.
  apply grammar_ind.
  - intros ts c amps _ IH Ha p r fuel Hp Hr Hfol Hf. destruct fuel as [|fuel]; [lia|]. cbn [parseline]. apply ends_bind. rewrite <- (assoc_L (++)) in Hr.
    assert (Hnx : follow [41; 38; 59] (amps ++ r)). { destruct amps as [|a amps]; [apply (follow_weaken _ _ _ Hfol); set_solver|]. apply Forall_cons in Ha as [Ha _]. cbn. rewrite Ha. set_solver. }
    eapply ends_mono; [apply (IH p (amps ++ r) fuel Hp Hr Hnx); lia|]. cbn beta. intros c1 p1 Hp1 [-> Hr1]. apply ends_bind.
    eapply ends_mono; [apply (amps_ends false amps); try done; [pose proof (rest_length p1 Hp1); lia|]; apply (follow_starts [41]); [done|by repeat constructor]|]. cbn beta. intros c2 p2 Hp2 [-> Hr2].
    apply ends_peek; [done|by repeat constructor|]. intros p3 Hp3 Hr3 _. rewrite Hr2, (follow_starts [41]); [|done|by repeat constructor]. apply ends_ret; [done|]. split; [done|congruence].
  - intros ts c amps semi ts' c' _ IH Ha Hsemi _ IH' p r fuel Hp Hr Hfol Hf. destruct fuel as [|fuel]; [lia|]. cbn [parseline]. apply ends_bind. rewrite <- !(assoc_L (++)) in Hr. cbn [app] in Hr.
    assert (Hnx : follow [41; 38; 59] (amps ++ semi :: ts' ++ r)). { destruct amps as [|a amps]; cbn; [rewrite Hsemi; set_solver|]. apply Forall_cons in Ha as [Ha _]. rewrite Ha. set_solver. }
    eapply ends_mono; [apply (IH p _ fuel Hp Hr Hnx); lia|]. cbn beta. intros c1 p1 Hp1 [-> Hr1]. apply ends_bind.
    eapply ends_mono; [apply (amps_ends false amps); try done; [pose proof (rest_length p1 Hp1); lia|]; cbn [starts]; by rewrite Hsemi|]. cbn beta. intros c2 p2 Hp2 [-> Hr2].
    apply ends_peek; [done|by repeat constructor|]. intros p3 Hp3 Hr3 _. assert (starts [59] (rest p2) = true) as -> by (rewrite Hr2; cbn [starts]; by rewrite Hsemi).
    eapply ends_gettoken; [done|by rewrite Hr3|]. intros p4 Hp4 Hr4. apply ends_bind. eapply ends_mono; [apply (IH' p4 r fuel Hp4 Hr4 Hfol); rewrite Hr4; rewrite Hr, !length_app in Hf; cbn [length] in Hf; lia|].
    cbn beta. intros c3 p5 Hp5 [-> Hr5]. by apply ends_ret.
  - intros ts c _ IH p r fuel Hp Hr Hfol Hf. destruct fuel as [|fuel]; [lia|]. cbn [parsepipe]. apply ends_bind.
    eapply ends_mono; [apply (IH p r fuel Hp Hr); [apply (follow_weaken _ _ _ Hfol); set_solver|lia]|]. cbn beta. intros c1 p1 Hp1 [-> Hr1].
    apply ends_peek; [done|by repeat constructor|]. intros p2 Hp2 Hr2 _. rewrite Hr1, (follow_starts [41; 38; 59]); [|done|by repeat constructor]. apply ends_ret; [done|]. split; [done|congruence].
  - intros ts c bar ts' c' _ IH Hbar _ IH' p r fuel Hp Hr Hfol Hf. destruct fuel as [|fuel]; [lia|]. cbn [parsepipe]. apply ends_bind. rewrite <- (assoc_L (++)) in Hr. cbn [app] in Hr.
    eapply ends_mono; [apply (IH p _ fuel Hp Hr); [cbn; rewrite Hbar; set_solver|lia]|]. cbn beta. intros c1 p1 Hp1 [-> Hr1].
    apply ends_peek; [done|by repeat constructor|]. intros p2 Hp2 Hr2 _. assert (starts [124] (rest p1) = true) as -> by (rewrite Hr1; cbn [starts]; by rewrite Hbar).
    eapply ends_gettoken; [done|by rewrite Hr2|]. intros p4 Hp4 Hr4. apply ends_bind. eapply ends_mono; [apply (IH' p4 r fuel Hp4 Hr4 Hfol); rewrite Hr4; rewrite Hr, !length_app in Hf; cbn [length] in Hf; lia|].
    cbn beta. intros c3 p5 Hp5 [-> Hr5]. by apply ends_ret.
  - intros its Hok Hlen. by apply simple_complete.
  - intros o ts c cl its Ho _ IH Hcl Hok Hrd. by apply block_complete.
Qed.

(** After [nulterminate] the words are strings of their own. *)
Lemma strings_read ws : Forall (wordat text) ws -> Forall (fun w => cstr (drop (fst w) (nuls ws b)) = slice text w) ws.
Proof using Htext.
  intros Hws. assert (Hlen : length b = (es + S (length tail))%nat) by (rewrite length_app; done). apply Forall_forall. intros w Hw. rewrite Forall_forall in Hws. destruct (Hws w Hw) as (H1 & H2 & H3).
  assert (Hout : forall i c, text !! i = Some c -> is_word c = true -> nuls ws b !! i = Some c).
  { intros i c Hc Hcw. rewrite nuls_other; [by rewrite (lookup_app_l_Some _ _ _ _ Hc)|]. intros (w' & -> & Hw')%list_elem_of_fmap. destruct (Hws w' Hw') as (_ & _ & H4). apply H4 in Hc. congruence. }
  assert (Heq : take (snd w - fst w) (drop (fst w) (nuls ws b)) = slice text w).
  { unfold slice. apply list_eq. intros i. destruct (decide (i < snd w - fst w)%nat); [|by rewrite !lookup_take_ge by lia]. rewrite !lookup_take_lt, !lookup_drop by lia.
    destruct (H2 (fst w + i)%nat) as (c & Hc & Hcw); [lia|]. by rewrite (Hout _ _ Hc Hcw). }
  rewrite <- Heq. apply cstr_slice; [lia| |].
  - intros i Hi. destruct (H2 i Hi) as (c & Hc & Hcw). exists c. split; [by apply Hout|]. by apply (Forall_lookup_1 _ _ _ _ Htext Hc).
  - apply nuls_end; [by apply list_elem_of_fmap; exists w|]. rewrite Hlen. lia.
Qed.

Lemma cstr_text : cstr b = text.
Proof using Htext. clear -Htext. induction Htext as [|c l Hc Hl IH]; [done|]. cbn. rewrite (proj2 (Z.eqb_neq c 0)) by done. f_equal. by apply IH. Qed.

Lemma parsecmd_ends p : match parsecmd (mkline b p) with
  | Ret c s => line (tokens None 0 text) c /\ cmd_map (fun w => cstr (drop (fst w) (buf s))) c = cmd_map (slice text) c
  | Panic _ => forall c, ~ line (tokens None 0 text) c
  | _ => False
  end.
Proof using Htext.
  assert (Hr0 : rest 0 = tokens None 0 text) by (unfold ShSpec.rest; by rewrite drop_0). pose proof (rest_length 0 ltac:(lia)) as Hl0.
  unfold parsecmd. rewrite bind_gets. cbn [buf]. rewrite cstr_text, bind_modify. unfold set_ps. cbn [buf].
  assert (Hlang : forall c, line (tokens None 0 text) c -> ends false (parseline (4 * es + 4) es (st 0)) (fun c' p' => c' = c /\ rest p' = [])).
  { intros c Hc. apply (proj1 grammar_complete _ _ Hc); [lia|by rewrite app_nil_r|done|lia]. }
  assert (Hs : sound line (parseline (4 * es + 4) es) 0) by (apply parser_sound; lia). unfold sound in Hs.
  unfold bind at 1. destruct (parseline (4 * es + 4) es (st 0)) as [c s|m| | | |] eqn:E; cbn [rbind ends] in *; try done.
  2: { intros c Hc. by apply Hlang in Hc. }
  destruct Hs as (p1 & -> & Hp1 & ts & Hts & Hline). destruct (peek_spec text tail Htext p1 [] Hp1) as (p2 & Hpk & Hr2 & Hp2 & Hend); [constructor|]. rewrite (bind_Ret _ _ _ _ _ Hpk), bind_gets. cbn [ps].
  destruct (Nat.eqb_spec p2 es) as [He|He]; cbn [negb].
  - apply Hend in He. rewrite He, app_nil_r, Hr0 in Hts. subst ts.
    assert (Hws : Forall (wordat text) (words c)).
    { apply Forall_forall. intros w Hw. destruct (proj1 grammar_words _ _ Hline w Hw) as (t & Ht & Hk & <-). apply (tokens_wordat text text None 0 (eq_sym (drop_0 text)) ltac:(lia)) in Ht; done. }
    erewrite bind_Ret; [|apply nulterminate_run; apply (Forall_impl _ _ _ Hws); intros w ((_ & Hw) & _); rewrite length_app; cbn; lia]. split; [done|]. cbn [buf]. apply cmd_map_ext. by apply strings_read.
  - intros c' Hc'. apply Hlang in Hc' as (p' & [= <-] & _ & _ & Hr). by apply He, Hend.
Qed.
End Parser.

(** C39 (equivalence).  The parser decides the grammar of the shell: for every line it
    comes to an end and either returns the command that the grammar gives for the tokens of
    the line, or reports a syntax error, and then the line is not in the language.  In the
    buffer it leaves behind every word of the command is a C string with exactly the
    characters it had in the line. *)
Theorem parse_decides text tail p :
  Forall (fun c => c <> 0) text ->
  match parsecmd (mkline (text ++ 0 :: tail) p) with
  | Ret c s => line (tokens None 0 text) c /\ cmd_map (fun w => cstr (drop (fst w) (buf s))) c = cmd_map (slice text) c
  | Panic _ => forall c, ~ line (tokens None 0 text) c
  | _ => False
  end.
Proof. intros Htext. by apply parsecmd_ends. Qed.

(** [a >b|(c;d)&]. *)
Definition demo_line : list Z := [97; 32; 62; 98; 124; 40; 99; 59; 100; 41; 38; 10].

Lemma parse_decides_witness : exists c s, parsecmd (mkline (demo_line ++ [0]) 0) = Ret c s /\ line (tokens None 0 demo_line) c /\
  cmd_map (slice demo_line) c = BACK (PIPE (REDIR (EXEC [[97]]) [98] 0x201 1) (LIST (EXEC [[99]]) (EXEC [[100]]))).
Proof.
  pose proof (parse_decides demo_line [] 0 ltac:(repeat constructor; lia)) as H. destruct (parsecmd (mkline (demo_line ++ [0]) 0)) as [c s| | | | |] eqn:E; try (vm_compute in E; discriminate E).
  exists c, s. destruct H as [H _]. split_and!; [done|done|]. vm_compute in E. injection E as <- _. reflexivity.
Defined.

(** ** Running *)

(** Standard input and output are open and two more descriptors are free. *)
Definition std_open (t : fds) : Prop :=
  is_Some (t !! 0%nat) /\ is_Some (t !! 1%nat) /\ exists p q, (p < q < 16)%nat /\ t !! p = None /\ t !! q = None.

Lemma lowest_0 t : t !! 0%nat = None -> lowest t = Some 0%nat.
Proof. intros H. unfold lowest. cbn [seq]. by rewrite filter_cons_True. Qed.

Lemma lowest_1 t : is_Some (t !! 0%nat) -> t !! 1%nat = None -> lowest t = Some 1%nat.
Proof. intros [d H0] H1. unfold lowest. cbn [seq]. rewrite filter_cons_False by (rewrite H0; done). by rewrite filter_cons_True. Qed.

Lemma lowest_free t n : lowest t = Some n -> t !! n = None.
Proof. intros H. apply head_Some_elem_of, list_elem_of_filter in H. tauto. Qed.

Lemma lowest_some t p : (p < 16)%nat -> t !! p = None -> exists n, lowest t = Some n.
Proof.
  intros Hp Ht. unfold lowest. destruct (filter _ _) as [|n l] eqn:E; [|by exists n]. assert (p ∈ filter (fun n => t !! n = None) (seq 0 16)) as Hin by (apply list_elem_of_filter; split; [done|apply elem_of_seq; lia]).
  rewrite E in Hin. by apply not_elem_of_nil in Hin.
Qed.

Lemma std_open_insert t n d : std_open t -> (n = 0 \/ n = 1)%nat -> std_open (<[n := d]> t).
Proof.
  intros (H0 & H1 & p & q & Hpq & Hp & Hq) Hn. assert (Hne : forall i, t !! i = None -> n <> i) by (intros i Hi <-; destruct Hn as [->| ->]; [destruct H0|destruct H1]; congruence).
  split_and!; [by apply lookup_insert_is_Some; destruct (decide (n = 0%nat)); auto|by apply lookup_insert_is_Some; destruct (decide (n = 1%nat)); auto|].
  exists p, q. by rewrite !lookup_insert_ne by auto.
Qed.

(** The descriptors of a pipe, and the tables of the two sides. *)
Lemma pipe_wired t w : std_open t -> exists p0 p1, lowest t = Some p0 /\ lowest (<[p0 := Pipe_read w]> t) = Some p1 /\
  let t1 := <[p1 := Pipe_write w]> (<[p0 := Pipe_read w]> t) in pipe_left t1 p0 p1 = <[1%nat := Pipe_write w]> t /\ pipe_right t1 p0 p1 = <[0%nat := Pipe_read w]> t /\
  delete p1 (delete p0 t1) = t.
Proof.
  intros ([d0 H0] & [d1 H1] & p & q & Hpq & Hp & Hq). destruct (lowest_some t p) as [p0 E0]; [lia|done|]. pose proof (lowest_free _ _ E0) as F0.
  assert (exists p1, lowest (<[p0 := Pipe_read w]> t) = Some p1) as [p1 E1].
  { destruct (decide (p0 = p)) as [->|]; [apply (lowest_some _ q)|apply (lowest_some _ p)]; try lia; rewrite lookup_insert_ne by lia; done. }
  pose proof (lowest_free _ _ E1) as F1. assert (Hne : p0 <> p1) by (intros <-; by rewrite lookup_insert_eq in F1). rewrite lookup_insert_ne in F1 by done. exists p0, p1.
  assert (p0 <> 0 /\ p0 <> 1 /\ p1 <> 0 /\ p1 <> 1)%nat as (N1 & N2 & N3 & N4) by (split_and!; intros ->; congruence). split; [done|]. split; [done|]. cbv zeta. split_and!.
  - unfold pipe_left, dup. rewrite lookup_delete_ne, lookup_insert_eq by done. rewrite lowest_1; [|by rewrite lookup_delete_ne, !lookup_insert_ne, H0 by done|by rewrite lookup_delete_eq].
    apply map_eq. intros i. destruct (decide (i = p1)) as [->|]; [by rewrite lookup_delete_eq, lookup_insert_ne|]. rewrite lookup_delete_ne by done. destruct (decide (i = p0)) as [->|]; [by rewrite lookup_delete_eq, lookup_insert_ne|].
    rewrite lookup_delete_ne by done. destruct (decide (i = 1%nat)) as [->|]; [by rewrite !lookup_insert_eq|]. by rewrite !lookup_insert_ne, lookup_delete_ne, !lookup_insert_ne by done.
  - unfold pipe_right, dup. rewrite lookup_delete_ne, lookup_insert_ne, lookup_insert_eq by done. rewrite lowest_0 by (by rewrite lookup_delete_eq).
    apply map_eq. intros i. destruct (decide (i = p1)) as [->|]; [by rewrite lookup_delete_eq, lookup_insert_ne|]. rewrite lookup_delete_ne by done. destruct (decide (i = p0)) as [->|]; [by rewrite lookup_delete_eq, lookup_insert_ne|].
    rewrite lookup_delete_ne by done. destruct (decide (i = 0%nat)) as [->|]; [by rewrite !lookup_insert_eq|]. by rewrite !lookup_insert_ne, lookup_delete_ne, !lookup_insert_ne by done.
  - apply map_eq. intros i. destruct (decide (i = p1)) as [->|]; [by rewrite lookup_delete_eq, F1|]. rewrite lookup_delete_ne by done.
    destruct (decide (i = p0)) as [->|]; [by rewrite lookup_delete_eq, F0|]. by rewrite lookup_delete_ne, !lookup_insert_ne by done.
Qed.

Section Wiring.
Context {W : Type} (opens : W -> Z -> option desc) (forks : nat -> bool).

(** What a command means: a redirection replaces a file, a pipeline joins the output of its
    left side to the input of its right side, and nothing else changes; who waits, waits with the
    table that it started with. *)
Fixpoint denote (c : cmd W) (t : fds) (w : nat) : beh W * nat :=
  match c with
  | EXEC [] => (Exit, w)
  | EXEC argv => (Exec argv t, w)
  | REDIR c file mode fd =>
      match opens file mode with
      | Some d => denote c (<[Z.to_nat fd := d]> t) w
      | None => (Error "open", w)
      end
  | LIST l r =>
      if forks w then
        let a := denote l t (S w) in
        let b := denote r t (snd a) in
        (Fork (fst a) (Wait t (fst b)), snd b)
      else (Error "fork", S w)
  | PIPE l r =>
      if forks w then
        let a := denote l (<[1%nat := Pipe_write w]> t) (S w) in
        if forks (snd a) then
          let b := denote r (<[0%nat := Pipe_read w]> t) (S (snd a)) in
          (Fork (fst a) (Fork (fst b) (Wait t (Wait t Exit))), snd b)
        else (Fork (fst a) (Error "fork"), S (snd a))
      else (Error "fork", S w)
  | BACK c =>
      if forks w then
        let a := denote c t (S w) in (Fork (fst a) Exit, snd a)
      else (Error "fork", S w)
  end.

(** Redirections of the standard input and output only. *)
Fixpoint std_redirs (c : cmd W) : Prop :=
  match c with
  | EXEC _ => True
  | REDIR c _ _ fd => (fd = 0 \/ fd = 1) /\ std_redirs c
  | PIPE l r | LIST l r => std_redirs l /\ std_redirs r
  | BACK c => std_redirs c
  end.

Lemma run_denote c : forall t w, std_open t -> std_redirs c -> runcmd opens forks c t w = denote c t w.
Proof using Type.
  induction c as [argv|c IH file mode fd|l IHl r IHr|l IHl r IHr|c IH]; intros t w Ht Hc; cbn [runcmd denote std_redirs] in *.
  - done.
  - destruct Hc as [Hfd Hc]. assert (lowest (delete (Z.to_nat fd) t) = Some (Z.to_nat fd)) as ->.
    { destruct Hfd as [->| ->]; [apply lowest_0; apply lookup_delete_eq|]. apply lowest_1; [rewrite lookup_delete_ne by done; apply Ht|apply lookup_delete_eq]. }
    destruct (opens file mode) as [d|]; [|done]. rewrite insert_delete_eq. apply IH; [|done]. apply std_open_insert; [done|]. destruct Hfd as [->| ->]; auto.
  - destruct Hc as [Hl Hr]. destruct (pipe_wired t w Ht) as (p0 & p1 & -> & -> & -> & -> & ->). destruct (forks w); [|done]. rewrite IHl by (try done; apply std_open_insert; auto).
    destruct (forks _); [|done]. by rewrite IHr by (try done; apply std_open_insert; auto).
  - destruct Hc as [Hl Hr]. destruct (forks w); [|done]. by rewrite IHl, IHr.
  - destruct (forks w); [|done]. by rewrite IH.
Qed.
End Wiring.

Lemma std_redirs_map {A B} (f : A -> B) (c : cmd A) : std_redirs (cmd_map f c) <-> std_redirs c.
Proof. induction c as [argv|c IH|l IHl r IHr|l IHl r IHr|c IH]; cbn; tauto. Qed.

Lemma redirected_std its : forall c, std_redirs c -> std_redirs (redirected c its).
Proof.
  induction its as [|i its IH]; intros c Hc; cbn [redirected foldl]; [done|]. destruct i as [t|op t]; apply IH; [done|]. unfold redirect. destruct (kind op =? 60); cbn; auto.
Qed.

Lemma grammar_std : (forall ts c, line ts c -> std_redirs c) /\ (forall ts c, pipeline ts c -> std_redirs c) /\ (forall ts c, command ts c -> std_redirs c).
Proof.
  assert (Hb : forall n (c : pcmd), std_redirs c -> std_redirs (Nat.iter n BACK c)) by (intros n c Hc; induction n; [done|by rewrite Nat.iter_succ]).
  apply grammar_ind; intros; cbn [std_redirs]; auto; by apply redirected_std.
Qed.

(** In every process, whenever it waits or calls [exec], [P] holds of its table. *)
Fixpoint all_tables {W} (P : fds -> Prop) (b : beh W) : Prop :=
  match b with
  | Exit | Error _ => True
  | Exec _ t => P t
  | Fork child rest => all_tables P child /\ all_tables P rest
  | Wait t rest => P t /\ all_tables P rest
  end.
(** The descriptors from 2 on are those of [t]. *)
Definition same_above (t t' : fds) : Prop := forall fd, (2 <= fd)%nat -> t' !! fd = t !! fd.

Lemma denote_above {W} (opens : W -> Z -> option desc) forks t0 c : forall t w, std_redirs c -> same_above t0 t ->
  all_tables (same_above t0) (fst (denote opens forks c t w)).
Proof.
  assert (Hins : forall t n d, (n < 2)%nat -> same_above t0 t -> same_above t0 (<[n := d]> t)) by (intros t n d Hn Ht fd Hfd; rewrite lookup_insert_ne by lia; by apply Ht).
  induction c as [argv|c IH file mode fd|l IHl r IHr|l IHl r IHr|c IH]; intros t w Hc Ht; cbn [denote std_redirs] in *.
  - by destruct argv.
  - destruct Hc as [Hfd Hc]. destruct (opens file mode); [|done]. apply IH; [done|]. apply Hins; [lia|done].
  - destruct Hc as [Hl Hr]. destruct (forks w); [|done]. destruct (forks _); cbn [fst all_tables].
    + split_and!; try done; [apply IHl|apply IHr]; try done; by apply Hins; [lia|].
    + split; [|done]. apply IHl; [done|]. by apply Hins; [lia|].
  - destruct Hc as [Hl Hr]. destruct (forks w); [|done]. cbn [fst all_tables]. split_and!; [by apply IHl|done|by apply IHr].
  - destruct (forks w); [|done]. cbn [fst all_tables]. split; [by apply IH|done].
Qed.

(** C40 (functional).  From the line to the processes.  When [parsecmd] accepts a line, then
    [runcmd], in a shell with its standard input and output open and two free descriptors,
    comes to exactly the calls of [fork], [wait] and [exec] that the grammar's command means: with
    the words of the line as arguments, the files of the redirections at their descriptors, and the
    output of the left side of a pipeline joined to the input of its right side.  No descriptor
    leaks: whenever one of the processes waits or calls [exec], its descriptors from 2 on are
    exactly those of the shell, so that the process that waits for a pipeline has neither of its
    ends open. *)
Theorem run_line text tail p c s opens forks t w :
  Forall (fun c => c <> 0) text -> parsecmd (mkline (text ++ 0 :: tail) p) = Ret c s -> std_open t ->
  let r := runcmd opens forks (cmd_map (fun w => cstr (drop (fst w) (buf s))) c) t w in
  line (tokens None 0 text) c /\ r = denote opens forks (cmd_map (slice text) c) t w /\ all_tables (same_above t) (fst r).
Proof.
  intros Htext Hrun Ht r. pose proof (parsecmd_ends text tail Htext p) as H. rewrite Hrun in H. destruct H as [Hline Hstr].
  assert (Hstd : std_redirs (cmd_map (slice text) c)) by (by apply std_redirs_map, (proj1 grammar_std _ _ Hline)).
  assert (Hr : r = denote opens forks (cmd_map (slice text) c) t w) by (unfold r; rewrite Hstr; by apply run_denote).
  split_and!; [done|done|]. rewrite Hr. by apply denote_above.
Qed.

Lemma run_line_witness : exists c s, parsecmd (mkline (demo_line ++ [0]) 0) = Ret c s /\
  let t : fds := {[0%nat := File 1; 1%nat := File 1; 2%nat := File 1]} in
  all_tables (same_above t) (fst (runcmd (fun _ _ => Some (File 2)) (fun _ => true) (cmd_map (fun w => cstr (drop (fst w) (buf s))) c) t 0)).
Proof.
  destruct (parsecmd (mkline (demo_line ++ [0]) 0)) as [c s| | | | |] eqn:E; try (vm_compute in E; discriminate E). exists c, s. split; [done|].
  apply (run_line demo_line [] 0 c s _ _ {[0%nat := File 1; 1%nat := File 1; 2%nat := File 1]} 0 ltac:(repeat constructor; lia) E).
  split_and!; [by eexists|by eexists|]. exists 3%nat, 4%nat. split; [lia|]. split; vm_compute; reflexivity.
Defined.
