(* ===== verification/ShMain.v ===== *)
(** * The shell's loop

    Models [getcmd] and [main] of [sh.c]: the three descriptors the shell makes sure of, the
    reading of a line into the buffer with [gets], and what is done with each line.  The input
    is the list of characters that the reads of descriptor 0 will give.  The prompt, the message of
    a failed [chdir] and the fork around a command are left out. *)

From Stdlib Require Import ZArith Lia.
From stdpp Require Import gmap.
From S2P Require Import Prelude Strings Sh.

Module ShMain.

Definition NBUF : nat := 100.

(** The [while] that opens the console until a descriptor above 2 comes; [console] tells whether
    it opens, as [File id]. *)
Fixpoint open_loop (fuel : nat) (console : option Z) (t : fds) : option fds :=
  match fuel with
  | O => None
  | S fuel =>
      match console, lowest t with
      | Some id, Some fd => if (3 <=? fd)%nat then Some t else open_loop fuel console (<[fd := File id]> t)
      | _, _ => Some t
      end
  end.

(** The buffer and the rest of the input; [None] inside is the result -1. *)
Definition getcmd (m : mem) (inp : list Z) : option (option mem * list Z) :=
  m ← Ulib.memset m 0 0 NBUF;
  '(m, inp) ← Ulib.gets m 0 NBUF inp;
  c ← load m 0;
  Some (if c =? 0 then None else Some m, inp).

(** The [while] of [main]: what is done with the lines, in order, until -1. *)
Fixpoint sh_loop (fuel : nat) (m : mem) (inp : list Z) : option (list action) :=
  match fuel with
  | O => None
  | S fuel =>
      '(r, inp) ← getcmd m inp;
      match r with
      | None => Some []
      | Some m => acts ← sh_loop fuel m inp; Some (handle_line m :: acts)
      end
  end.

(** Each turn but the last reads a character. *)
Definition sh_main (inp : list Z) : option (list action) := sh_loop (S (length inp)) (replicate NBUF 0) inp.

(** ** Descriptors *)

Lemma lowest_least t fd : lowest t = Some fd -> t !! fd = None /\ (fd < 16)%nat /\ forall k, (k < fd)%nat -> is_Some (t !! k).
Proof.
  unfold lowest. intros H. assert (Hs : forall n a, head (filter (fun n => t !! n = None) (seq a n)) = Some fd ->
    t !! fd = None /\ (fd < a + n)%nat /\ forall k, (a <= k < fd)%nat -> is_Some (t !! k)).
  { induction n as [|n IH]; intros a Ha; [done|]. cbn [seq] in Ha. rewrite filter_cons in Ha. destruct (decide (t !! a = None)) as [E|E].
    - injection Ha as <-. split_and!; [done|lia|lia].
    - destruct (IH (S a) Ha) as (H1 & H2 & H3). split_and!; [done|lia|]. intros k Hk.
      destruct (decide (k = a)) as [->|]; [by apply not_eq_None_Some|apply H3; lia]. }
  destruct (Hs 16%nat 0%nat H) as (H1 & H2 & H3). split_and!; [done|done|]. intros. apply H3. lia.
Qed.

Lemma lowest_full t : lowest t = None -> forall k, (k < 16)%nat -> is_Some (t !! k).
Proof.
  unfold lowest. intros H k Hk. apply not_eq_None_Some. intros E.
  assert (Hin : k ∈ filter (fun n => t !! n = None) (seq 0 16)) by (apply list_elem_of_filter; split; [done|]; apply elem_of_seq; lia).
  destruct (filter _ _); [by apply elem_of_nil in Hin|done].
Qed.

Lemma open_loop_runs id fuel : forall t n, (forall k, (k < n)%nat -> is_Some (t !! k)) -> (4 <= n + fuel)%nat -> (0 < fuel)%nat ->
  exists t', open_loop fuel (Some id) t = Some t' /\ (forall k, (k < 3)%nat -> is_Some (t' !! k)) /\
    forall k, t' !! k = t !! k \/ (k < 3)%nat /\ t !! k = None /\ t' !! k = Some (File id).
Proof.
  induction fuel as [|fuel IH]; intros t n Hn Hf H0; [lia|]. cbn [open_loop]. destruct (lowest t) as [fd|] eqn:El.
  - destruct (lowest_least t fd El) as (E1 & E2 & E3). destruct (Nat.leb_spec 3 fd) as [H|H].
    + exists t. split_and!; [done|intros; apply E3; lia|by left].
    + assert (Hfn : (n <= fd)%nat). { destruct (Nat.lt_ge_cases fd n) as [Hl|]; [|done]. destruct (Hn fd Hl) as [? Hs]. by rewrite Hs in E1. }
      destruct (IH (<[fd := File id]> t) (S fd)) as (t' & H1 & H2 & H3); [|lia|lia|].
      { intros k Hk. destruct (decide (k = fd)) as [->|]; [rewrite lookup_insert_eq; by eexists|]. rewrite lookup_insert_ne by done. apply E3. lia. }
      exists t'. split_and!; [done..|]. intros k. destruct (H3 k) as [Hk|(Hk & Hk1 & Hk2)].
      * rewrite Hk. destruct (decide (k = fd)) as [->|Hne]; [|left; by rewrite lookup_insert_ne].
        right. rewrite lookup_insert_eq. split_and!; [lia|done|done].
      * right. destruct (decide (k = fd)) as [->|Hne]; [by rewrite lookup_insert_eq in Hk1|]. by rewrite lookup_insert_ne in Hk1.
  - exists t. split_and!; [done| |by left]. intros k Hk. apply (lowest_full t El). lia.
Qed.

(** When the console opens, the shell starts with descriptors 0, 1 and 2 open, in four turns of its
    loop; the ones that were open stay as they were. *)
Theorem shell_descriptors id t :
  exists t', open_loop 4 (Some id) t = Some t' /\ (forall k, (k < 3)%nat -> is_Some (t' !! k)) /\
    forall k, t' !! k = t !! k \/ (k < 3)%nat /\ t !! k = None /\ t' !! k = Some (File id).
Proof. apply (open_loop_runs id 4 t 0); lia. Qed.

(** ** Lines *)

(** A line as the buffer holds it. *)
Definition in_buf (l : list Z) : mem := l ++ replicate (NBUF - length l) 0.

Lemma gets_loop_line l rest : Forall (fun c => c <> 10 /\ c <> 13) l -> forall fuel m i,
  (length l < fuel)%nat -> (i + length l < length m)%nat ->
  Ulib.gets_loop fuel m 0 i (l ++ 10 :: rest) = Some (list_inserts i (l ++ [10]) m, (i + length l + 1)%nat, rest).
Proof.
  induction 1 as [|c l [H1 H2] Hl IH]; intros [|fuel] m i Hf Hm; cbn [length app] in *; try lia; cbn [Ulib.gets_loop Nat.add];
    rewrite store_in by lia; cbn [option_bind mbind].
  - cbn. do 2 f_equal. f_equal. lia.
  - rewrite (proj2 (Z.eqb_neq c 10)), (proj2 (Z.eqb_neq c 13)) by done. cbn [orb].
    rewrite IH by (rewrite ?length_insert; lia). rewrite inserts_cons_in by lia. do 2 f_equal. f_equal. lia.
Qed.

Lemma memset_buf m : length m = NBUF -> Ulib.memset m 0 0 NBUF = Some (replicate NBUF 0).
Proof.
  intros Hm. unfold Ulib.memset. rewrite stosb_spec by lia. f_equal.
  rewrite inserts_take_drop by (rewrite length_replicate; lia). rewrite length_replicate, drop_ge by lia. cbn [take app Nat.add].
  by rewrite app_nil_r.
Qed.

Lemma buf_line l : (length l < NBUF)%nat -> list_inserts 0 l (replicate NBUF 0) = in_buf l /\ <[length l := 0]> (in_buf l) = in_buf l.
Proof.
  intros Hl. split.
  - rewrite inserts_take_drop by (rewrite length_replicate; lia). cbn [take app Nat.add]. unfold in_buf. by rewrite drop_replicate.
  - apply list_insert_id. unfold in_buf. rewrite lookup_app_r, Nat.sub_diag by lia. apply lookup_replicate_2. lia.
Qed.

(** A line that fits the buffer, newline included. *)
Definition line_ok (l : list Z) : Prop := Forall (fun c => c <> 0 /\ c <> 10 /\ c <> 13) l /\ (length l <= 98)%nat.

(** The lines with their newlines. *)
Definition typed (ls : list (list Z)) : list Z := concat ((fun l => l ++ [10]) <$> ls).

Lemma typed_cons l ls : typed (l :: ls) = l ++ 10 :: typed ls.
Proof. unfold typed. rewrite fmap_cons. cbn [concat]. by rewrite <- app_assoc. Qed.

Lemma length_in_buf l : (length l <= NBUF)%nat -> length (in_buf l) = NBUF.
Proof. intros. unfold in_buf. rewrite length_app, length_replicate. lia. Qed.

Lemma getcmd_line m l rest : length m = NBUF -> line_ok l -> getcmd m (l ++ 10 :: rest) = Some (Some (in_buf (l ++ [10])), rest).
Proof.
  intros Hm [Hl Hle]. unfold getcmd. rewrite memset_buf by done. cbn [mbind option_bind]. unfold Ulib.gets.
  rewrite gets_loop_line; [|eapply Forall_impl; [exact Hl|]; naive_solver|unfold NBUF; lia|rewrite length_replicate; unfold NBUF; lia].
  assert (Hn : length (l ++ [10]) = (length l + 1)%nat) by (by rewrite length_app).
  destruct (buf_line (l ++ [10])) as [H1 H2]; [rewrite Hn; unfold NBUF; lia|]. rewrite Hn in H2.
  cbn [mbind option_bind Nat.add]. rewrite H1, store_in by (rewrite length_in_buf; unfold NBUF; lia). rewrite H2. cbn [mbind option_bind].
  unfold load. destruct l as [|c l]; [done|]. change (in_buf ((c :: l) ++ [10]) !! 0%nat) with (Some c). cbn [mbind option_bind].
  apply Forall_cons in Hl as [[H0 _] _]. by rewrite (proj2 (Z.eqb_neq c 0) H0).
Qed.

Lemma getcmd_end m : length m = NBUF -> getcmd m [] = Some (None, []).
Proof. intros Hm. unfold getcmd. by rewrite memset_buf. Qed.

(** On an input of lines that fit the buffer the shell's loop ends, and does with
    each line, in order, what it does with a buffer that holds the line, its newline and zeroes:
    the end of the input is not taken for a line, and nothing of a longer line is left over behind
    a shorter one. *)
Theorem shell_reads_lines ls :
  Forall line_ok ls -> sh_main (typed ls) = Some ((fun l => handle_line (in_buf (l ++ [10]))) <$> ls).
Proof.
  intros Hls. unfold sh_main.
  assert (H : forall fuel m, length m = NBUF -> (length ls < fuel)%nat ->
    sh_loop fuel m (typed ls) = Some ((fun l => handle_line (in_buf (l ++ [10]))) <$> ls)).
  { induction Hls as [|l ls Hl Hls IH]; intros [|fuel] m Hm Hf; cbn [length] in Hf; try lia; cbn [sh_loop].
    - unfold typed. cbn [fmap list_fmap concat]. by rewrite getcmd_end.
    - rewrite typed_cons, getcmd_line by done. cbn [mbind option_bind].
      rewrite IH; [done| |lia]. apply length_in_buf. rewrite length_app. destruct Hl. cbn. unfold NBUF. lia. }
  apply H; [by rewrite length_replicate|].
  assert (Hlen : (length ls <= length (typed ls))%nat); [|lia].
  clear. induction ls as [|l ls IH]; [done|]. rewrite typed_cons, length_app. cbn [length]. lia.
Qed.

(** "ls", an empty line, and "cd a". *)
Lemma shell_reads_lines_witness : exists r r', sh_main [108; 115; 10; 10; 99; 100; 32; 97; 10] = Some [Command r; Command r'; Chdir [97]].
Proof.
  eexists _, _. change [108; 115; 10; 10; 99; 100; 32; 97; 10] with (typed [[108; 115]; []; [99; 100; 32; 97]]).
  rewrite (shell_reads_lines [[108; 115]; []; [99; 100; 32; 97]]); [reflexivity|]. unfold line_ok. repeat constructor; cbn; lia.
Defined.

(** A line without its newline, the last one of an input, loses its last character to the
    statement that should remove the newline. *)
Theorem cd_chops_last : sh_main [99; 100; 32; 97; 98] = Some [Chdir [97]].
Proof. vm_compute. reflexivity. Qed.

Lemma gets_loop_cut l rest : Forall (fun c => c <> 10 /\ c <> 13) l -> forall m i,
  (i + length l <= length m)%nat -> Ulib.gets_loop (length l) m 0 i (l ++ rest) = Some (list_inserts i l m, (i + length l)%nat, rest).
Proof.
  induction 1 as [|c l [H1 H2] Hl IH]; intros m i Hm; cbn [length app Ulib.gets_loop] in *.
  { cbn. by rewrite Nat.add_0_r. }
  cbn [Nat.add]. rewrite store_in by lia. cbn [option_bind mbind]. rewrite (proj2 (Z.eqb_neq c 10)), (proj2 (Z.eqb_neq c 13)) by done. cbn [orb].
  rewrite IH by (rewrite ?length_insert; lia). rewrite inserts_cons_in. do 2 f_equal. f_equal. lia.
Qed.

(** Of a longer line the first 99 characters are one command, and the rest is read as the next. *)
Theorem long_line_splits m l rest :
  length m = NBUF -> Forall (fun c => c <> 0 /\ c <> 10 /\ c <> 13) l -> length l = 99%nat ->
  getcmd m (l ++ rest) = Some (Some (in_buf l), rest).
Proof.
  intros Hm Hl Hn. unfold getcmd. rewrite memset_buf by done. cbn [mbind option_bind]. unfold Ulib.gets.
  change (NBUF - 1)%nat with 99%nat. rewrite <- Hn at 1.
  rewrite gets_loop_cut; [|eapply Forall_impl; [exact Hl|]; naive_solver|rewrite length_replicate; unfold NBUF; lia].
  destruct (buf_line l) as [H1 H2]; [unfold NBUF; lia|]. cbn [mbind option_bind Nat.add].
  rewrite H1, store_in by (rewrite length_in_buf; unfold NBUF; lia). rewrite H2. cbn [mbind option_bind].
  unfold load. destruct l as [|c l]; [done|]. change (in_buf (c :: l) !! 0%nat) with (Some c). cbn [mbind option_bind].
  apply Forall_cons in Hl as [[H0 _] _]. by rewrite (proj2 (Z.eqb_neq c 0) H0).
Qed.
End ShMain.
